(* ===== verification/_CoqProject ===== *)
-Q . S2P
Prelude.v
Heap.v
DosIo.v
DosFat.v
DosBoot.v
DosCheck.v
DosChain.v
DosName.v
DosLfn.v
DosScan.v
Mkdosfs.v
MkdosfsBoot.v
DosFresh.v
Getopt.v
DosMain.v
DosReadonly.v
XlCommon.v
Codec.v
Crc32.v
Mtd.v
PrivateArea.v
Mkimage.v
Upgrade.v
RsCode.v
Block.v
QrSpec.v
QrMask.v
QrFrame.v
QrRaw.v
Bitstream.v
MqrSpec.v
MMask.v
QrEntry.v
QrDecode.v
QrInput.v
QrCode.v
QrSplit.v
QrString.v
QrStruct.v
UsbDevice.v
UsbPart.v
Double.v
Json.v
JsonText.v
JsonRound.v
JsonParse.v
