(* ===== verification/Prelude.v ===== *)
(** * Router utilities, file system checker and QR encoder: verification development

    The repository collects the programs of a router (firmware images and their
    upgrade, a private area in flash, USB hot-plug and mounting, message codecs),
    the FAT tools it uses on disks, and a QR code encoder, all in C. This library
    models the parts that compute or keep state, and proves what makes them correct. Sources are named
    relative to [src/C].

    ** How the parts interact

    - [upgrade_mtk/mkimage] builds the images that [upgrade_mtk/test_burn_img.c]
      checks and burns; both use the CRC of [upgrade_mtk/crc32.c].
    - [xunlei_test/xl_usb_device.c] keeps the list of disks and announces them
      through the message queue of [xunlei_test/xl_mnt_msg_process.c];
      [xunlei_test/xl_usb_mng.c] receives the announcements, watches each disk
      and keeps the list of partitions.
    - In [dosfstools-2.11/dosfsck] the checker sees the device through the list of
      pending changes of [io.c]; [boot.c] finds the geometry, [fat.c] reads the
      table and keeps its copies in step, and [check.c] repairs files and their
      chains through both, with the long names of [lfn.c] and the names of [file.c].
      [mkdosfs/mkdosfs.c] makes the file systems that the checker reads.
    - [cjson/cJSON.c] is the JSON library of the clients: texts to items and back.
    - In [qrencode-3.4.4] a string goes through [split.c] (segments by mode),
      [qrinput.c] (segments to a byte stream; sets of structured symbols),
      [rscode.c] (check symbols), [qrencode.c] (blocks, interleaving, placing),
      [qrspec.c] and [mqrspec.c] (tables and frames), [mask.c] and [mmask.c]
      (masking and format information).

    ** Conventions

    A C integer is a [Z]; conversions of the compiler are written out with
    [wrap] and [swrap]. A C function that can do something undefined returns an
    [outcome]: [Ret], or a [fault] that says what (a null pointer, an access
    outside a block or through a pointer that was never set, freed memory, a division by zero, a signed overflow, the end
    of the program by [die]). A C loop whose bound is not evident from its text
    takes fuel and ends in [OutOfFuel] without it. The theorems about such a
    function state the [Ret] it gives, so they include that the fuel passed is
    enough, and that no fault occurs. Fuel is computed from the input: the length
    of a buffer or of a string, the number of nodes on the heap, the number of
    modules of a frame; where a counter is doubled it is the width of the counter.

    Memory blocks are lists of bytes with checked reads and writes ([mem_read],
    [mem_write], [byte_at]; [Block] for two-dimensional frames); linked lists
    whose nodes are freed live on a heap of nodes ([Heap]), the others are lists.
    Code outside the repository appears as parameters: the MTD driver, the files
    present under [/dev], [statfs], the output of shell commands, the reads of a
    disk that fail, whether [malloc] or [msgsnd] succeed. The size of an
    [unsigned long] is a parameter of the FAT tools, which depend on it.

    ** Files

    - [Prelude]: integers, outcomes, memory blocks, big-endian numbers, tactics.
    - [Heap]: singly linked lists on a heap, the predicate [is_list].
    - [DosIo]: the device under pending changes; delayed and immediate writing
      give the same disk ([virtual_disk]).
    - [DosFat]: the allocation table. The invariant [fs_ok] says that every copy on
      the disk holds the table in memory; reading establishes it
      ([read_fat_in_step]), writing an entry keeps it if the entry can be stored
      (not the last one of an odd number on FAT12, [set_fat_odd_clusters]; see
      [set_fat_in_step]), and the passes over all clusters are composed of writes
      ([fix_then_reclaim]).
    - [DosBoot]: the boot sector, its backup and the summary sector; the geometry
      that is accepted lies on the device ([read_boot_geometry]) and is one that
      the table can be read with ([boot_then_table]).
    - [DosCheck]: directory entries, chains of files and their repair, new entries
      of the root directory; [DosChain]: the chain of a file after its check
      ([check_file_regular]), files that share clusters ([check_file_shared]), and
      where the search for a free cluster ends ([root_search_ends]).
    - [DosName]: printed names and their conversion back ([file_name_cvt]), the
      tree of requested paths; [DosLfn]: the parser of long names
      ([lfn_round_trip], [lfn_add_slot_bounds]); [DosScan]: the checks of a
      directory, the walk over the tree and the passes of [dosfsck.c].
    - [Mkdosfs]: the maker of file systems: the size of the device
      ([count_blocks_exact]), the message ([set_message_fits]), the sizes of the
      tables ([choose_size_fits]), the tables, bad blocks
      ([bad_sector_marks_other]) and the writes; [MkdosfsBoot]: what is on the disk
      behind them, and that the checker reads the same layout back
      ([formatted_disk_boots]).
    - [DosFresh]: the two programs together: dosfsck finds nothing to repair on a
      disk that mkdosfs has just made with FAT12 or FAT16, two tables, no label and
      a size and root directory as [format_ok] says ([fresh_disk_clean]).
    - [Getopt], [DosMain]: [getopt] and [strtol] as the programs use them, and
      the command lines of both; the settings that mkdosfs can be given
      ([mkdosfs_options]). [DosReadonly]: without an option that asks for repairs
      dosfsck leaves the device as it is ([dosfsck_readonly]): the class [Dev] and
      the predicate [stays] carry this through every function of the checker.
    - [XlCommon]: the enumerations and records of [xunlei_test/xl_mnt.h] and
      [include].
    - [Codec]: [coding/xl_decode.c] and [xl_mnt_msg_process.c]. The queue is
      first in, first out and loses nothing whatever receives are interrupted
      ([msg_queue_fifo]).
    - [Crc32]: [crc32.c] against a bit-by-bit reference ([crc32_correct]); every
      error within 32 consecutive bits, wherever they start, is detected
      ([crc32_detects_burst]); the three other CRC routines of the repository agree
      with it.
    - [Mtd], [PrivateArea]: the erase loops and the private area of
      [flash/xl_private_area.c] over an abstract driver: exactly the sectors asked
      for are erased, except that a request for the whole device erases nothing on a
      chip with erase regions ([erase_block_device]); reads end and give the bytes
      asked for.
    - [Mkimage], [Upgrade]: argument parsing, construction and listing of images
      ([mkimage_lists_built]), the checks before burning and the burn loop
      ([upgrade_main_safe]: an image that fails a check is not burnt, and success
      is reported exactly when the image has been written behind the erases;
      [upgrade_accepts_mkimage]: which images pass).
    - [UsbDevice], [UsbPart]: the disk list with its identifiers, the parser of
      the kernel's messages, the detection and probe threads as a step relation
      ([usb_step]) with an invariant of every reachable state and
      the steps that are undefined there ([reachable_disks]); the partition list as a finite map
      ([detect_partition_records]), queries, the status of a disk, and the hand
      over between the two modules ([announced_disks_watched]).
    - [RsCode]: the Reed-Solomon codec; the check symbols make every codeword
      vanish at the roots of the generator, the cache of codecs is transparent.
    - [Bitstream], [QrEntry], [QrInput], [QrDecode]: the data of a symbol. An
      independent reader of the bit stream ([QrDecode]) recovers the segments
      from what the encoders write ([entry_reads_back],
      [getByteStream_reads_back]).
    - [QrSpec], [MqrSpec]: capacities, blocks, version and format information,
      frames; [QrFrame]: the walk that places the bits visits every free module
      once; [QrRaw]: blocks and interleaving; [QrMask], [MMask]: masks, their
      scores and the choice of the best.
    - [QrCode]: a symbol as a whole. Reading the symbol that [QRcode_encodeMask]
      returns - format information, unmasking, the walk, the interleaving -
      gives back the byte stream ([encodeMask_symbol]).
    - [Double], [Json]: the numbers, the items, the parser and the printer of
      [cjson/cJSON.c], and [cJSON_Minify]; [JsonText]: the printer writes a reference
      text and no block is too small ([printer_fits]); [JsonRound]: the parser
      gives back the item that was printed ([printed_text_parses]); [JsonParse]:
      the parser on every other text: it ends ([parser_ends]) and stays inside the
      text if the escapes are whole ([parser_in_bounds]; otherwise
      [cut_escape_overruns]).
    - [QrSplit], [QrString], [QrStruct]: the splitter, the functions from strings
      to symbols ([encodeString_symbol]) and to sets of structured symbols
      ([encodeStringStructured_symbols]).

    [Block] has the frames as arrays with checked access and the combinators for
    counted loops. Facts about all 40 versions, 4 levels and 8 masks are decided
    by computation over the tables once, in [QrSpec], [MqrSpec] and [QrFrame].

    ** Not modelled

    - Printing, usage texts, [errno], and failures of [malloc] in the QR encoder
      (in the USB modules they are a parameter).
    - The mutexes of the QR encoder's thread-safe build, and freeing of its
      objects.
    - Threads of the USB modules interleave between iterations of their loops,
      not inside one, and an iteration that is undefined has no successor; the
      thread that receives announcements finds memory and starts its threads;
      cancelling the probe thread takes effect where it sleeps.
    - [qrencode-3.4.4/qrenc.c] (options and output formats) and the tests.
    - The interactive drivers [xl_mnt_mng.c], [test.c], [ping.c], [led_test.c],
      which run shell commands and print.
    - Of [dosfstools-2.11], messages with [path_name] and [file_stat], and the
      listing of the boot sector; the answers of the kernel are parameters.
    - Of [cjson/cJSON.c], the functions that edit and duplicate items, and failures
      of [malloc]; lengths of texts stay below 2^31.
    - The network clients and servers, which are sequences of system calls. *)

From Stdlib Require Export ZArith Lia Btauto.
From Stdlib Require Export Ascii.
From stdpp Require Export base tactics list numbers gmap strings.

#[global] Open Scope Z_scope.

(** ** Machine integers of C

    A C integer is a [Z] in the range of its type; the conversions below are
    the ones the compiler inserts. *)

(** Conversion to an unsigned type of [w] bits. *)
Definition wrap (w z : Z) : Z := z mod 2 ^ w.

(** Conversion to a signed (two's complement) type of [w] bits. *)
Definition swrap (w z : Z) : Z := (z + 2 ^ (w - 1)) mod 2 ^ w - 2 ^ (w - 1).

Abbreviation u8 := (wrap 8).
Abbreviation u16 := (wrap 16).
Abbreviation u32 := (wrap 32).
Abbreviation u64 := (wrap 64).
Abbreviation s8 := (swrap 8).
Abbreviation s32 := (swrap 32).

(** [byte b]: [b] is the value of an [unsigned char]. *)
Definition byte (b : Z) : Prop := 0 <= b < 256.

#[global] Instance byte_dec b : Decision (byte b).
Proof. unfold byte. apply _. Defined.

(** ** Outcomes

    A C function returns, does something the language leaves undefined, or ends
    the program with an error ([Died]); the ways not to return that the
    development tracks are the constructors of [fault]. [OutOfFuel] marks a loop
    that did not end within the fuel the model gave it: theorems show that it
    does not happen. *)

Inductive fault : Set :=
  | NullDeref
  | OutOfBounds
  | DivByZero
  | UseAfterFree
  | SignedOverflow
  | Died
  | OutOfFuel.

#[global] Instance fault_eq_dec : EqDecision fault.
Proof. solve_decision. Defined.

Inductive outcome (A : Type) : Type :=
  | Ret (a : A)
  | Fault (f : fault).
Arguments Ret {A} a.
Arguments Fault {A} f.

#[global] Instance outcome_ret : MRet outcome := fun A a => Ret a.
#[global] Instance outcome_bind : MBind outcome := fun A B k m =>
  match m with Ret a => k a | Fault f => Fault f end.
#[global] Instance outcome_fmap : FMap outcome := fun A B g m =>
  match m with Ret a => Ret (g a) | Fault f => Fault f end.

#[global] Instance outcome_eq_dec {A} `{EqDecision A} : EqDecision (outcome A).
Proof. solve_decision. Defined.

#[global] Instance Ret_inj {A} : Inj eq eq (@Ret A).
Proof. intros a b H. by injection H. Qed.

(** A test that must hold for the next access to be defined. *)
Definition require (P : bool) (f : fault) : outcome unit :=
  if P then Ret () else Fault f.

(** The product of two [int]s. *)
Definition int_mul (a b : Z) : outcome Z :=
  if bool_decide (- 2 ^ 31 <= a * b < 2 ^ 31) then Ret (a * b) else Fault SignedOverflow.

(** ** Memory blocks

    A buffer is the list of its bytes. Reads and writes that leave the block
    are faults. *)

(** [mem_read off n src]: the [n] bytes at [src + off]. *)
Definition mem_read (off n : Z) (src : list Z) : outcome (list Z) :=
  if bool_decide (0 <= off /\ 0 <= n /\ off + n <= Z.of_nat (length src))
  then Ret (take (Z.to_nat n) (drop (Z.to_nat off) src))
  else Fault OutOfBounds.

(** [mem_write off data dst]: [memcpy (dst + off, data, length data)]. *)
Definition mem_write (off : Z) (data dst : list Z) : outcome (list Z) :=
  if bool_decide (0 <= off /\ off + Z.of_nat (length data) <= Z.of_nat (length dst))
  then Ret (take (Z.to_nat off) dst ++ data ++
            drop (Z.to_nat off + length data) dst)
  else Fault OutOfBounds.

(** [byte_at l i]: the element [l[i]] of an array. *)
Definition byte_at (l : list Z) (i : Z) : outcome Z :=
  if bool_decide (0 <= i) then
    match l !! Z.to_nat i with Some b => Ret b | None => Fault OutOfBounds end
  else Fault OutOfBounds.

#[global] Arguments mem_read : simpl never.
#[global] Arguments mem_write : simpl never.
#[global] Arguments byte_at : simpl never.

(** ** Big-endian numbers *)

Definition be_bytes (n z : Z) : list Z := reverse (Z_to_little_endian n 8 z).
Definition be_value (l : list Z) : Z := little_endian_to_Z 8 (reverse l).

#[global] Arguments be_bytes : simpl never.
#[global] Arguments be_value : simpl never.
#[global] Arguments wrap : simpl never.
#[global] Arguments swrap : simpl never.

(** ** Strings

    The bytes of a C string, without the terminating zero. *)

Definition char_code (c : ascii) : Z := Z.of_N (N_of_ascii c).
Definition str_bytes (s : string) : list Z := map char_code (String.list_ascii_of_string s).

(** [strchr(s, c)] splits [s] at each separator; never the empty list. *)
Fixpoint split_at_char (c : ascii) (s : string) : list string :=
  match s with
  | EmptyString => [EmptyString]
  | String a s =>
      if Ascii.eqb a c then EmptyString :: split_at_char c s
      else match split_at_char c s with
           | x :: xs => String a x :: xs
           | [] => [String a EmptyString]
           end
  end.

(** ** Automation *)

(** Arithmetic with [/] and [mod] by constants. *)
Ltac dlia := Z.div_mod_to_equations; lia.

(** Run the monadic binds of a program whose first step is known. *)
Ltac run := cbn [mbind outcome_bind mret outcome_ret fmap outcome_fmap fst snd].

(** Unfold the width conversions and reduce the powers of two. *)
Ltac cint :=
  unfold wrap, swrap, byte in *;
  change (2 ^ 8) with 256 in *; change (2 ^ (8 - 1)) with 128 in *;
  change (2 ^ 16) with 65536 in *; change (2 ^ 32) with 4294967296 in *;
  change (2 ^ (32 - 1)) with 2147483648 in *;
  change (2 ^ 64) with 18446744073709551616 in *.

(** Equality of exclusive ors up to order, grouping and cancellation. *)
Ltac lxor_ac :=
  apply Z.bits_inj'; intros ? _; rewrite ?Z.lxor_spec, ?Z.bits_0; btauto.

(** The lemmas that close the routine side conditions. *)
Create HintDb cmodel.

(** ** Lemmas on machine integers *)

Lemma wrap_range w z : 0 <= w -> 0 <= wrap w z < 2 ^ w.
Proof. intros. apply Z.mod_pos_bound. lia. Qed.

Lemma wrap_small w z : 0 <= z < 2 ^ w -> wrap w z = z.
Proof. apply Z.mod_small. Qed.

Lemma wrap_wrap w z : wrap w (wrap w z) = wrap w z.
Proof. apply Zmod_mod. Qed.

Lemma swrap_range w z : 0 < w -> - 2 ^ (w - 1) <= swrap w z < 2 ^ (w - 1).
Proof.
  intros Hw. unfold swrap.
  assert (H2 : 2 ^ w = 2 * 2 ^ (w - 1)) by (rewrite <- Z.pow_succ_r; f_equal; lia).
  pose proof (Z.mod_pos_bound (z + 2 ^ (w - 1)) (2 ^ w) ltac:(lia)). lia.
Qed.

Lemma swrap_small w z : 0 < w -> - 2 ^ (w - 1) <= z < 2 ^ (w - 1) -> swrap w z = z.
Proof.
  intros Hw Hz. unfold swrap.
  assert (H2 : 2 ^ w = 2 * 2 ^ (w - 1)) by (rewrite <- Z.pow_succ_r; f_equal; lia).
  rewrite Z.mod_small; lia.
Qed.

Lemma byte_u8 z : byte (u8 z).
Proof. apply (wrap_range 8). lia. Qed.

Lemma u8_byte b : byte b -> u8 b = b.
Proof. apply (wrap_small 8). Qed.

#[export] Hint Resolve byte_u8 : cmodel.

Lemma testbit_wrap w z i : 0 <= w -> Z.testbit (wrap w z) i = (i <? w) && Z.testbit z i.
Proof. intros. by apply Z.testbit_mod_pow2. Qed.

(** Bits at and above the width of a bounded number are zero. *)
Lemma testbit_above w z i : 0 <= z < 2 ^ w -> w <= i -> Z.testbit z i = false.
Proof.
  intros Hz Hi. destruct (decide (0 <= w)) as [Hw|Hw].
  - rewrite <- (wrap_small w z Hz), testbit_wrap by done.
    by rewrite (proj2 (Z.ltb_ge i w) Hi).
  - rewrite (Z.pow_neg_r 2 w) in Hz by lia. lia.
Qed.

Lemma lxor_range w x y : 0 <= w -> 0 <= x < 2 ^ w -> 0 <= y < 2 ^ w -> 0 <= Z.lxor x y < 2 ^ w.
Proof.
  intros Hw Hx Hy.
  assert (E : Z.lxor x y = wrap w (Z.lxor x y)); [|rewrite E; by apply wrap_range].
  apply Z.bits_inj'. intros i Hi. rewrite testbit_wrap by done.
  destruct (Z.ltb_spec i w); simpl; [done|].
  by rewrite Z.lxor_spec, (testbit_above w x), (testbit_above w y) by lia.
Qed.

(** The lowest bit is the remainder modulo 2. *)
Lemma land_1_mod z : Z.land z 1 = z mod 2.
Proof. exact (Z.land_ones z 1 ltac:(lia)). Qed.

(** ** Lemmas on memory blocks *)

Lemma mem_read_inv off n src l :
  mem_read off n src = Ret l ->
  0 <= off /\ 0 <= n /\ off + n <= Z.of_nat (length src) /\
  l = take (Z.to_nat n) (drop (Z.to_nat off) src).
Proof. unfold mem_read. case_bool_decide as H; intros E; simplify_eq; tauto. Qed.

Lemma mem_read_length off n src l :
  mem_read off n src = Ret l -> Z.of_nat (length l) = n.
Proof.
  intros (? & ? & ? & ->)%mem_read_inv. rewrite length_take, length_drop. lia.
Qed.

(** Reading the middle part of a block laid out as three parts. *)
Lemma mem_read_app pre mid post off n :
  off = Z.of_nat (length pre) -> n = Z.of_nat (length mid) ->
  mem_read off n (pre ++ mid ++ post) = Ret mid.
Proof.
  intros -> ->. unfold mem_read. rewrite bool_decide_eq_true_2.
  - by rewrite !Nat2Z.id, drop_app_length, take_app_length.
  - rewrite !length_app. lia.
Qed.

Lemma mem_read_prefix mid post n :
  n = Z.of_nat (length mid) -> mem_read 0 n (mid ++ post) = Ret mid.
Proof. exact (mem_read_app [] mid post 0 n eq_refl). Qed.

Lemma mem_read_all l n : n = Z.of_nat (length l) -> mem_read 0 n l = Ret l.
Proof. intros Hn. pose proof (mem_read_prefix l [] n Hn) as H. by rewrite app_nil_r in H. Qed.

Lemma mem_write_app pre old post off data :
  off = Z.of_nat (length pre) -> length data = length old ->
  mem_write off data (pre ++ old ++ post) = Ret (pre ++ data ++ post).
Proof.
  intros -> Hl. unfold mem_write. rewrite bool_decide_eq_true_2.
  - rewrite Nat2Z.id, take_app_length, Hl, <- drop_drop, drop_app_length.
    by rewrite drop_app_length.
  - rewrite !length_app. lia.
Qed.

Lemma mem_write_inv off data dst l :
  mem_write off data dst = Ret l ->
  0 <= off /\ off + Z.of_nat (length data) <= Z.of_nat (length dst) /\
  l = take (Z.to_nat off) dst ++ data ++ drop (Z.to_nat off + length data) dst.
Proof. unfold mem_write. case_bool_decide as H; intros E; simplify_eq; tauto. Qed.

Lemma mem_write_length off data dst l :
  mem_write off data dst = Ret l -> length l = length dst.
Proof.
  intros (? & ? & ->)%mem_write_inv.
  rewrite !length_app, length_take, length_drop. lia.
Qed.

Lemma mem_write_fault off data dst :
  Z.of_nat (length dst) < off + Z.of_nat (length data) ->
  mem_write off data dst = Fault OutOfBounds.
Proof. intros H. unfold mem_write. rewrite bool_decide_eq_false_2; [done|lia]. Qed.

(** A write at the start of a block replaces its first bytes. *)
Lemma mem_write_0 data dst :
  (length data <= length dst)%nat ->
  mem_write 0 data dst = Ret (data ++ drop (length data) dst).
Proof.
  intros H. unfold mem_write. by rewrite bool_decide_eq_true_2 by lia.
Qed.

Lemma byte_at_lookup l i b : 0 <= i -> l !! Z.to_nat i = Some b -> byte_at l i = Ret b.
Proof. intros Hi Hl. unfold byte_at. by rewrite bool_decide_eq_true_2, Hl by done. Qed.

(** ** Filters that agree on a list *)

Lemma filter_iff_in {A} (P Q : A -> Prop) `{!forall x, Decision (P x), !forall x, Decision (Q x)} (l : list A) :
  (forall x, x ∈ l -> P x <-> Q x) -> filter P l = filter Q l.
Proof.
  induction l as [|x l IH]; intros Hiff; [done|]. rewrite !filter_cons.
  pose proof (Hiff x ltac:(by left)). rewrite IH by (intros; apply Hiff; by right).
  repeat case_decide; done || (exfalso; tauto).
Qed.

(** ** Lemmas on numbers in bytes *)

Lemma le_app_zeros l n : little_endian_to_Z 8 (l ++ replicate n 0) = little_endian_to_Z 8 l.
Proof.
  induction l as [|b l IH]; simpl.
  - induction n as [|n IH]; simpl; [done|]. by rewrite IH.
  - by rewrite IH.
Qed.

Lemma little_endian_extend m k z :
  0 <= m -> 0 <= k -> 0 <= z < 2 ^ (m * 8) ->
  Z_to_little_endian (m + k) 8 z = Z_to_little_endian m 8 z ++ replicate (Z.to_nat k) 0.
Proof.
  intros Hm Hk Hz.
  rewrite <- (Z_to_little_endian_to_Z (m + k) 8 (Z_to_little_endian m 8 z ++ replicate (Z.to_nat k) 0)).
  - f_equal. rewrite le_app_zeros, little_endian_to_Z_to_little_endian by lia. by rewrite Z.mod_small.
  - rewrite length_app, length_replicate. pose proof (length_Z_to_little_endian m 8 z Hm). lia.
  - lia.
  - apply Forall_app. split; [by apply Z_to_little_endian_bound|]. by apply Forall_replicate.
Qed.


Lemma be_bytes_length n z : 0 <= n -> Z.of_nat (length (be_bytes n z)) = n.
Proof. intros. unfold be_bytes. rewrite length_reverse. by apply length_Z_to_little_endian. Qed.

Lemma be_bytes_byte n z : 0 <= n -> Forall byte (be_bytes n z).
Proof. intros. unfold be_bytes. apply Forall_reverse. by apply (Z_to_little_endian_bound n 8). Qed.

Lemma be_value_bytes n z : 0 <= n -> be_value (be_bytes n z) = z mod 2 ^ (n * 8).
Proof.
  intros. unfold be_value, be_bytes. rewrite reverse_involutive.
  by apply little_endian_to_Z_to_little_endian.
Qed.

Lemma be_bytes_value l n :
  n = Z.of_nat (length l) -> Forall byte l -> be_bytes n (be_value l) = l.
Proof.
  intros -> Hl. unfold be_value, be_bytes.
  rewrite Z_to_little_endian_to_Z.
  - apply reverse_involutive.
  - by rewrite length_reverse.
  - lia.
  - by apply Forall_reverse.
Qed.

Lemma be_value_range l : Forall byte l -> 0 <= be_value l < 2 ^ (Z.of_nat (length l) * 8).
Proof.
  intros Hl. unfold be_value.
  pose proof (little_endian_to_Z_bound 8 (reverse l) ltac:(lia)) as H.
  rewrite length_reverse in H. apply H. by apply Forall_reverse.
Qed.

Lemma lor_shiftl_add b x w : 0 <= w -> 0 <= b < 2 ^ w -> Z.lor b (Z.shiftl x w) = x * 2 ^ w + b.
Proof.
  intros Hw Hb.
  assert (Hl : Z.land b (Z.shiftl x w) = 0).
  { apply Z.bits_inj'. intros i Hi. rewrite Z.land_spec, Z.bits_0, Z.shiftl_spec by done.
    destruct (decide (i < w)) as [Hiw|Hiw].
    - by rewrite (Z.testbit_neg_r x), andb_false_r by lia.
    - by rewrite (testbit_above w b) by lia. }
  pose proof (Z.add_lor_land b (Z.shiftl x w)) as H.
  rewrite Hl, Z.shiftl_mul_pow2 in H by done. rewrite Z.shiftl_mul_pow2 by done. lia.
Qed.

Lemma be_value_snoc l b : byte b -> be_value (l ++ [b]) = be_value l * 256 + b.
Proof.
  intros Hb. unfold be_value. rewrite reverse_app. simpl.
  by rewrite lor_shiftl_add by (try apply Hb; lia).
Qed.

Lemma char_code_byte c : byte (char_code c).
Proof. unfold char_code, byte. pose proof (N_ascii_bounded c). lia. Qed.

Lemma str_bytes_byte s : Forall byte (str_bytes s).
Proof. unfold str_bytes. apply Forall_map, Forall_true. intros. apply char_code_byte. Qed.

(** ** Lemmas on lists *)

(** The first block of a concatenation. *)
Lemma take_app_exact {A} (l1 l2 : list A) n : n = length l1 -> take n (l1 ++ l2) = l1.
Proof. intros ->. apply take_app_length. Qed.

Lemma drop_app_exact {A} (l1 l2 : list A) n : n = length l1 -> drop n (l1 ++ l2) = l2.
Proof. intros ->. apply drop_app_length. Qed.
