(* ===== verification/Heap.v ===== *)
(** * Linked lists on a heap

    The singly linked lists of the USB modules, with their nodes on a heap: a
    node that has been freed is gone from the heap, and following a pointer to
    it is a fault. The representation predicate [chain] relates a head pointer
    to the nodes and values of the list it starts. *)

From S2P Require Import Prelude.

Record node (A : Type) := MkNode { val : A; m_pNext : option nat }.
Arguments MkNode {A} val m_pNext.
Arguments val {A} n.
Arguments m_pNext {A} n.

Abbreviation heap A := (gmap nat (node A)).

Section Heap.
Context {A : Type}.
Implicit Types (h : heap A) (p q : option nat) (l : list (nat * A)).

(** ** Access *)

(** [*p] for reading. *)
Definition load h p : outcome (nat * node A) :=
  match p with
  | None => Fault NullDeref
  | Some x => match h !! x with Some n => Ret (x, n) | None => Fault UseAfterFree end
  end.

Definition store h (x : nat) (n : node A) : heap A := <[x := n]> h.

(** [malloc]: any address not in use. *)
Definition malloc h (n : node A) : nat * heap A :=
  let x := fresh (dom h) in (x, <[x := n]> h).

Definition free h (x : nat) : heap A := delete x h.

(** ** Lists *)

(** From [p] the nodes of [l] follow one another and the last points to [q]. *)
Fixpoint chain h p l q : Prop :=
  match l with
  | [] => p = q
  | (x, v) :: l => p = Some x /\ exists nx, h !! x = Some (MkNode v nx) /\ chain h nx l q
  end.

(** The list from [p] is all there is on the heap. *)
Definition is_list h p l : Prop :=
  chain h p l None /\ NoDup l.*1 /\ dom h = list_to_set l.*1.

Lemma chain_app h p l l' q :
  chain h p (l ++ l') q <-> exists r, chain h p l r /\ chain h r l' q.
Proof.
  revert p. induction l as [|[x v] l IH]; intros p; cbn [chain app].
  - split; [by exists p|]. by intros (r & -> & H).
  - split.
    + intros (-> & nx & Hx & H). apply IH in H as (r & H1 & H2). exists r. split; [|done].
      split; [done|]. by exists nx.
    + intros (r & (-> & nx & Hx & H1) & H2). split; [done|]. exists nx. split; [done|].
      apply IH. by exists r.
Qed.

(** A change outside the list leaves it alone. *)
Lemma chain_frame h h' p l q :
  (forall x, x ∈ l.*1 -> h' !! x = h !! x) -> chain h p l q -> chain h' p l q.
Proof.
  revert p. induction l as [|[x v] l IH]; intros p Hsame; cbn [chain]; [done|].
  intros (-> & nx & Hx & H). split; [done|]. exists nx. rewrite Hsame by left. split; [done|].
  apply IH; [|done]. intros y Hy. apply Hsame. by right.
Qed.

Lemma chain_insert h p l q x (nd : node A) : x ∉ l.*1 -> chain h p l q -> chain (<[x := nd]> h) p l q.
Proof. intros Hx. apply chain_frame. intros y Hy. apply (lookup_insert_ne (M := gmap nat)). by intros ->. Qed.

Lemma chain_delete h p l q x : x ∉ l.*1 -> chain h p l q -> chain (delete x h) p l q.
Proof. intros Hx. apply chain_frame. intros y Hy. apply (lookup_delete_ne (M := gmap nat)). by intros ->. Qed.

Lemma chain_load h p x v l q :
  chain h p ((x, v) :: l) q -> exists nx, load h p = Ret (x, MkNode v nx) /\ chain h nx l q.
Proof. intros (-> & nx & Hx & H). exists nx. cbn [load]. by rewrite Hx. Qed.

Lemma chain_null h l : chain h None l None -> l = [].
Proof. destruct l as [|[x v] l]; [done|]. by intros [[=] _]. Qed.

Lemma is_list_nil : is_list (∅ : heap A) None [].
Proof. split; [done|]. split; [constructor|]. apply dom_empty_L. Qed.

Lemma is_list_size h p l : is_list h p l -> size h = length l.
Proof.
  intros (_ & Hnd & Hd). rewrite <- size_dom, Hd, size_list_to_set by done. apply length_fmap.
Qed.

(** ** Changes *)

(** The last node of a list that is not empty is made to point to a new node. *)
Lemma chain_snoc h p l x v y w :
  is_list h p (l ++ [(x, v)]) -> y ∉ dom h ->
  is_list (<[x := MkNode v (Some y)]> (<[y := MkNode w None]> h)) p (l ++ [(x, v); (y, w)]).
Proof.
  intros (Hc & Hnd & Hd) Hy.
  assert (Hyl : y ∉ (l ++ [(x, v)]).*1) by (rewrite Hd in Hy; by rewrite elem_of_list_to_set in Hy).
  rewrite fmap_app in Hnd, Hyl. cbn in Hnd, Hyl.
  apply not_elem_of_app in Hyl as [Hyl Hyx]. apply not_elem_of_cons in Hyx as [Hyx _].
  apply NoDup_app in Hnd as (Hnl & Hxl & _).
  assert (Hx : x ∉ l.*1) by (intros Hin; apply (Hxl x Hin); by left).
  split; [|split].
  - apply chain_app in Hc as (r & H1 & (-> & nx & Hx2 & H2)). cbn [chain] in H2. subst nx.
    apply chain_app. exists (Some x). split.
    + by apply chain_insert, chain_insert.
    + cbn [chain]. split; [done|]. exists (Some y). split; [by rewrite lookup_insert_eq|].
      split; [done|]. exists None. split; [|done]. rewrite lookup_insert_ne by done. by rewrite lookup_insert_eq.
  - rewrite fmap_app. cbn. apply NoDup_app. split; [done|]. split.
    + intros z Hz Hin. apply elem_of_cons in Hin as [->|Hin]; [done|].
      apply list_elem_of_singleton in Hin as ->. done.
    + repeat constructor; [|by apply not_elem_of_nil]. intros Hin.
      by apply list_elem_of_singleton in Hin as ->.
  - rewrite !dom_insert_L, Hd, !fmap_app, !list_to_set_app_L. cbn. clear. set_solver.
Qed.

Lemma malloc_fresh h n : (malloc h n).1 ∉ dom h.
Proof. apply is_fresh. Qed.

(** A new value for a node. *)
Lemma is_list_update h p l1 x v w l2 nx :
  is_list h p (l1 ++ (x, v) :: l2) -> h !! x = Some (MkNode v nx) ->
  is_list (<[x := MkNode w nx]> h) p (l1 ++ (x, w) :: l2).
Proof.
  intros (Hc & Hnd & Hd) Hx. rewrite fmap_app in Hnd, Hd. cbn in Hnd, Hd.
  assert (Hnd2 := Hnd). apply NoDup_app in Hnd2 as (_ & Hdis & Hn2).
  apply NoDup_cons in Hn2 as [Hx2 _].
  split; [|split].
  - apply chain_app in Hc as (r & H1 & (-> & nx' & Hx' & H2)).
    rewrite Hx in Hx'. injection Hx' as <-.
    apply chain_app. exists (Some x). split.
    + apply chain_insert; [|done]. intros Hin. apply (Hdis x Hin). by left.
    + split; [done|]. exists nx. split; [by rewrite lookup_insert_eq|]. by apply chain_insert.
  - by rewrite fmap_app.
  - rewrite dom_insert_L, Hd, fmap_app. cbn. rewrite !list_to_set_app_L. cbn. clear. set_solver.
Qed.

(** A first node for an empty list. *)
Lemma is_list_one h p y w : is_list h p [] -> y ∉ dom h ->
  is_list (<[y := MkNode w None]> h) (Some y) [(y, w)].
Proof.
  intros (_ & _ & Hd) Hy. split; [|split].
  - split; [done|]. exists None. by rewrite lookup_insert_eq.
  - repeat constructor. by apply not_elem_of_nil.
  - rewrite dom_insert_L, Hd. cbn. clear. set_solver.
Qed.

(** Taking a node out of the list and freeing it: the first node is unlinked by
    moving the head, any other by changing the node before it. *)
Lemma is_list_remove h p l1 x v l2 :
  is_list h p (l1 ++ (x, v) :: l2) ->
  exists nx, h !! x = Some (MkNode v nx) /\
    match last l1 with
    | None => p = Some x /\ is_list (delete x h) nx l2
    | Some (y, w) => p <> Some x /\ (exists ny, h !! y = Some (MkNode w ny)) /\
        is_list (delete x (<[y := MkNode w nx]> h)) p (l1 ++ l2)
    end.
Proof.
  intros (Hc & Hnd & Hd). apply chain_app in Hc as (r & H1 & (-> & nx & Hx & H2)).
  exists nx. split; [done|].
  rewrite fmap_app in Hnd. cbn in Hnd. apply NoDup_app in Hnd as (Hn1 & Hdis & Hn2).
  apply NoDup_cons in Hn2 as [Hx2 Hn2].
  assert (Hx1 : x ∉ l1.*1) by (intros Hin; apply (Hdis x Hin); by left).
  destruct (last l1) as [[y w]|] eqn:E.
  - apply last_Some in E as [l0 ->].
    rewrite fmap_app in Hn1, Hx1, Hdis. cbn in Hn1, Hx1, Hdis.
    apply NoDup_app in Hn1 as (Hn0 & Hy0 & _).
    assert (Hy : y ∉ l0.*1) by (intros Hin; apply (Hy0 y Hin); by left).
    apply not_elem_of_app in Hx1 as [Hx0 Hxy]. apply not_elem_of_cons in Hxy as [Hxy _].
    assert (Hy2 : y ∉ l2.*1).
    { intros Hin. apply (Hdis y); [apply elem_of_app; right; by left|by right]. }
    split; [|split].
    { intros ->. destruct l0 as [|[z u] l0]; cbn [chain app] in H1; destruct H1 as [[=] _];
        subst; [done|]. apply Hx0. by left. }
    { apply chain_app in H1 as (r & _ & (-> & ny & Hyh & _)). by exists ny. }
    apply chain_app in H1 as (r & H0 & (-> & ny & Hyh & Hr)). cbn [chain] in Hr. subst ny.
    split; [|split].
    + rewrite <- app_assoc. apply chain_app. exists (Some y). split.
      * apply chain_delete; [done|]. by apply chain_insert.
      * cbn [app chain]. split; [done|]. exists nx. split.
        -- rewrite lookup_delete_ne by done. by rewrite lookup_insert_eq.
        -- apply chain_delete; [done|]. by apply chain_insert.
    + rewrite !fmap_app. cbn. apply NoDup_app. split; [|split; [|done]].
      * apply NoDup_app. split; [done|]. split; [|repeat constructor; by apply not_elem_of_nil].
        intros z Hz Hin. by apply list_elem_of_singleton in Hin as ->.
      * intros z Hz Hin. apply (Hdis z Hz). by right.
    + rewrite dom_delete_L, dom_insert_L, Hd, !fmap_app, !list_to_set_app_L. cbn.
      clear - Hx0 Hxy Hx2 Hy2. set_solver.
  - apply last_None in E as ->. cbn [chain] in H1. split; [done|].
    split; [by apply chain_delete|]. split; [done|].
    rewrite dom_delete_L, Hd. cbn. clear - Hx2. set_solver.
Qed.

End Heap.
