(* ===== verification/DosIo.v ===== *)
(** * The virtual disk of dosfsck

    [C/dosfstools-2.11/dosfsck/io.c], and the helpers of [common.c]: the file
    system checker writes to a list of pending changes that every read looks
    through, and applies them to the device only in the end. *)

From S2P Require Import Prelude.

(** ** State *)

(* @src C/dosfstools-2.11/dosfsck/io.c:29-34 CHANGE *)
Record CHANGE := Change {
  c_pos : Z;
  c_data : list Z;
}.

(** The device, the pending changes, the oldest first, and what is left of the
    standard input. *)
(* @src C/dosfstools-2.11/dosfsck/io.c:37-38 changes *)
Record io_state := IoState {
  device : list Z;
  changes : list CHANGE;
  did_change : bool;
  stdin : list Z;
}.

Definition set_device d (s : io_state) : io_state :=
  IoState d (changes s) (did_change s) (stdin s).
Definition set_changes c (s : io_state) : io_state :=
  IoState (device s) c (did_change s) (stdin s).
Definition set_stdin i (s : io_state) : io_state :=
  IoState (device s) (changes s) (did_change s) i.

(* @src C/dosfstools-2.11/dosfsck/io.c:57-64 fs_open *)
Definition fs_open (dev input : list Z) : io_state := IoState dev [] false input.

(** ** Keys *)

(** The rest of the line; [None] at the end of the input. *)
(* @src C/dosfstools-2.11/dosfsck/common.c:97-98 get_key *)
Fixpoint skip_line (s : list Z) : option (list Z) :=
  match s with
  | [] => None
  | c :: s => if bool_decide (c = 10) then Some s else skip_line s
  end.

Fixpoint skip_blanks (s : list Z) : list Z :=
  match s with
  | c :: s' => if bool_decide (c = 32 \/ c = 9) then skip_blanks s' else s
  | [] => []
  end.

(** [strchr] finds the terminator of [valid] as well, but a zero byte is not
    taken for an answer. *)
(* @src C/dosfstools-2.11/dosfsck/common.c:86-102 get_key *)
Fixpoint get_key_loop (fuel : nat) (valid s : list Z) : outcome (Z * list Z) :=
  match fuel with
  | O => Fault OutOfFuel
  | S fuel =>
      match skip_blanks s with
      | [] => Fault Died
      | ch :: s =>
          let okay := if bool_decide (ch ∈ valid) then ch else 0 in
          match skip_line s with
          | None => Fault Died
          | Some s => if bool_decide (okay <> 0) then Ret (okay, s) else get_key_loop fuel valid s
          end
      end
  end.

Definition get_key (valid : string) (s : io_state) : outcome (Z * io_state) :=
  '(k, i) ← get_key_loop (S (length (stdin s))) (str_bytes valid) (stdin s);
  Ret (k, set_stdin i s).

(* @src C/dosfstools-2.11/dosfsck/common.c:80-83 min *)
Definition min (a b : Z) : Z := if bool_decide (a < b) then a else b.

(** ** Reading and writing *)

Section Io.

(** Whether changes go to the device at once, and which reads of the device
    fail. *)
Variable write_immed : bool.
Variable bad_read : Z -> Z -> bool.

(** [read] at an offset: what there is, up to [size] bytes. *)
Definition read_at (pos size : Z) (dev : list Z) : list Z :=
  take (Z.to_nat size) (drop (Z.to_nat pos) dev).

(** [write] at an offset: what fits. *)
Definition write_at (pos : Z) (data dev : list Z) : list Z :=
  if bool_decide (0 <= pos) then
    take (Z.to_nat pos) dev ++ take (length dev - Z.to_nat pos) data ++
    drop (Z.to_nat pos + length data) dev
  else dev.

(** One pending change brought into the buffer read from [pos]. *)
(* @src C/dosfstools-2.11/dosfsck/io.c:97-103 fs_read *)
Definition apply_change (pos size : Z) (walk : CHANGE) (data : list Z) : outcome (list Z) :=
  let wsize := Z.of_nat (length (c_data walk)) in
  if bool_decide (c_pos walk < pos + size /\ c_pos walk + wsize > pos) then
    if bool_decide (c_pos walk < pos) then
      part ← mem_read (pos - c_pos walk) (min size (s32 (wsize - pos + c_pos walk))) (c_data walk);
      mem_write 0 part data
    else
      part ← mem_read 0 (min wsize (s32 (size + pos - c_pos walk))) (c_data walk);
      mem_write (c_pos walk - pos) part data
  else Ret data.

Fixpoint apply_changes (pos size : Z) (walk : list CHANGE) (data : list Z) : outcome (list Z) :=
  match walk with
  | [] => Ret data
  | c :: walk => data ← apply_change pos size c data; apply_changes pos size walk data
  end.

(* @src C/dosfstools-2.11/dosfsck/io.c:88-105 fs_read *)
Definition fs_read (pos size : Z) (s : io_state) : outcome (list Z) :=
  _ ← require (bool_decide (0 <= pos)) Died;
  _ ← require (negb (bad_read pos size)) Died;
  let data := read_at pos size (device s) in
  _ ← require (bool_decide (Z.of_nat (length data) = size)) Died;
  apply_changes pos size (changes s) data.

(* @src C/dosfstools-2.11/dosfsck/io.c:108-118 fs_test *)
Definition fs_test (pos size : Z) (s : io_state) : outcome bool :=
  _ ← require (bool_decide (0 <= pos)) Died;
  Ret (negb (bad_read pos size) &&
       bool_decide (Z.of_nat (length (read_at pos size (device s))) = size)).

(* @src C/dosfstools-2.11/dosfsck/io.c:121-140 fs_write *)
Definition fs_write (pos : Z) (data : list Z) (s : io_state) : outcome io_state :=
  if write_immed then
    _ ← require (bool_decide (0 <= pos)) Died;
    let dev := write_at pos data (device s) in
    _ ← require (bool_decide (pos + Z.of_nat (length data) <= Z.of_nat (length (device s)))) Died;
    Ret (IoState dev (changes s) true (stdin s))
  else Ret (set_changes (changes s ++ [Change pos data]) s).

(** A change that cannot be written in full is reported and left at that. *)
(* @src C/dosfstools-2.11/dosfsck/io.c:143-163 fs_flush *)
Fixpoint fs_flush (cs : list CHANGE) (dev : list Z) : list Z :=
  match cs with
  | [] => dev
  | this :: cs => fs_flush cs (write_at (c_pos this) (c_data this) dev)
  end.

(* @src C/dosfstools-2.11/dosfsck/io.c:184-187 fs_changed *)
Definition fs_changed (s : io_state) : bool :=
  negb (bool_decide (changes s = [])) || did_change s.

(** The result and the device left behind. *)
(* @src C/dosfstools-2.11/dosfsck/io.c:166-181 fs_close *)
Definition fs_close (write : bool) (s : io_state) : bool * list Z :=
  (fs_changed s, if write then fs_flush (changes s) (device s) else device s).

End Io.

(** ** What reading and writing mean

    The disk as the rest of the program sees it: the device with every pending
    change applied, oldest first. *)

Definition vdisk (s : io_state) : list Z := fs_flush (changes s) (device s).

Lemma write_at_length pos data dev : length (write_at pos data dev) = length dev.
Proof.
  unfold write_at. case_bool_decide; [|done].
  rewrite !length_app, !length_take, length_drop. lia.
Qed.

Lemma write_at_lookup pos data dev (i : nat) :
  0 <= pos -> (i < length dev)%nat ->
  write_at pos data dev !! i =
  if decide (pos <= Z.of_nat i < pos + Z.of_nat (length data))
  then data !! (i - Z.to_nat pos)%nat else dev !! i.
Proof.
  intros Hpos Hi. unfold write_at. rewrite bool_decide_eq_true_2 by done.
  destruct (decide (i < Z.to_nat pos)%nat) as [Hlt|Hge].
  - rewrite lookup_app_l by (rewrite length_take; lia). rewrite lookup_take_lt by lia.
    by rewrite decide_False by lia.
  - rewrite lookup_app_r by (rewrite length_take; lia). rewrite length_take.
    replace (Z.to_nat pos `min` length dev)%nat with (Z.to_nat pos) by lia.
    case_decide as Hin.
    + rewrite lookup_app_l by (rewrite length_take; lia). by rewrite lookup_take_lt by lia.
    + rewrite lookup_app_r by (rewrite length_take; lia). rewrite length_take, lookup_drop.
      f_equal. lia.
Qed.

Lemma flush_length cs dev : length (fs_flush cs dev) = length dev.
Proof. revert dev. induction cs as [|c cs IH]; intros dev; [done|]. cbn. by rewrite IH, write_at_length. Qed.

Lemma flush_app cs1 cs2 dev : fs_flush (cs1 ++ cs2) dev = fs_flush cs2 (fs_flush cs1 dev).
Proof. revert dev. induction cs1 as [|c cs IH]; intros dev; [done|]. apply IH. Qed.

Lemma mem_write_lookup off data dst l (i : nat) :
  mem_write off data dst = Ret l -> (i < length dst)%nat ->
  l !! i = if decide (off <= Z.of_nat i < off + Z.of_nat (length data))
           then data !! (i - Z.to_nat off)%nat else dst !! i.
Proof.
  intros Hw Hi. pose proof (mem_write_inv _ _ _ _ Hw) as (Hoff & Hfit & ->).
  pose proof (write_at_lookup off data dst i Hoff Hi) as H. unfold write_at in H.
  rewrite bool_decide_eq_true_2 in H by done.
  rewrite (take_ge data) in H by lia. exact H.
Qed.

Lemma read_at_length pos size dev :
  0 <= pos -> 0 <= size -> pos + size <= Z.of_nat (length dev) ->
  Z.of_nat (length (read_at pos size dev)) = size.
Proof. intros. unfold read_at. rewrite length_take, length_drop. lia. Qed.

Lemma read_at_lookup pos size dev (i : nat) :
  (Z.of_nat i < size) -> read_at pos size dev !! i = dev !! (Z.to_nat pos + i)%nat.
Proof. intros. unfold read_at. rewrite lookup_take_lt by lia. apply lookup_drop. Qed.

(** Reading back what was written, and around it. *)
Lemma mem_read_read_at off n l :
  0 <= off -> 0 <= n -> off + n <= Z.of_nat (length l) -> mem_read off n l = Ret (read_at off n l).
Proof. intros. unfold mem_read. by rewrite bool_decide_eq_true_2 by lia. Qed.

(** Writing inside the part that is read, or outside of it. *)
Lemma read_write_inside p n o data dev :
  0 <= p -> 0 <= o -> o + Z.of_nat (length data) <= n -> p + n <= Z.of_nat (length dev) ->
  read_at p n (write_at (p + o) data dev) = write_at o data (read_at p n dev).
Proof.
  intros Hp Ho Hin Hend. pose proof (read_at_length p n dev Hp ltac:(lia) Hend) as Hlen.
  apply list_eq_same_length with (Z.to_nat n).
  - rewrite write_at_length. lia.
  - apply Nat2Z.inj. rewrite read_at_length; rewrite ?write_at_length; lia.
  - intros i x y Hi Hx Hy. rewrite read_at_lookup, write_at_lookup in Hx by lia.
    rewrite write_at_lookup in Hy by lia.
    case_decide as H1; case_decide as H2; try (exfalso; lia).
    + replace (Z.to_nat p + i - Z.to_nat (p + o))%nat with (i - Z.to_nat o)%nat in Hx by lia. congruence.
    + rewrite read_at_lookup in Hy by lia. congruence.
Qed.

Lemma read_write_outside p n q data dev :
  0 <= p -> 0 <= q -> 0 <= n -> p + n <= Z.of_nat (length dev) ->
  q + Z.of_nat (length data) <= p \/ p + n <= q ->
  read_at p n (write_at q data dev) = read_at p n dev.
Proof.
  intros Hp Hq Hn Hend Hout. apply list_eq_same_length with (Z.to_nat n).
  - apply Nat2Z.inj. rewrite read_at_length; lia.
  - apply Nat2Z.inj. rewrite read_at_length; rewrite ?write_at_length; lia.
  - intros i x y Hi Hx Hy. rewrite read_at_lookup, write_at_lookup, decide_False in Hx by lia.
    rewrite read_at_lookup in Hy by lia. congruence.
Qed.

Lemma write_at_app pos a b dev :
  0 <= pos -> write_at pos (a ++ b) dev = write_at (pos + Z.of_nat (length a)) b (write_at pos a dev).
Proof.
  intros Hpos. apply list_eq_same_length with (length dev); rewrite ?write_at_length; [done|done|].
  intros i x y Hi Hx Hy. rewrite write_at_lookup in Hx by lia.
  rewrite !write_at_lookup in Hy by (rewrite ?write_at_length; lia). rewrite length_app in Hx.
  repeat case_decide; try (exfalso; lia); try congruence.
  - rewrite lookup_app_r in Hx by lia. replace (i - Z.to_nat (pos + Z.of_nat (length a)))%nat
      with (i - Z.to_nat pos - length a)%nat in Hy by lia. congruence.
  - rewrite lookup_app_l in Hx by lia. congruence.
Qed.

Lemma read_write_at pos data dev :
  0 <= pos -> pos + Z.of_nat (length data) <= Z.of_nat (length dev) ->
  read_at pos (Z.of_nat (length data)) (write_at pos data dev) = data.
Proof.
  intros Hpos Hend. apply list_eq_same_length with (length data); [done| |].
  - apply Nat2Z.inj. apply read_at_length; rewrite ?write_at_length; lia.
  - intros i x y Hi Hx Hy. rewrite read_at_lookup, write_at_lookup in Hx by lia.
    rewrite decide_True in Hx by lia. replace (Z.to_nat pos + i - Z.to_nat pos)%nat with i in Hx by lia.
    congruence.
Qed.

Lemma read_write_same pos size data dev :
  size = Z.of_nat (length data) -> 0 <= pos -> pos + size <= Z.of_nat (length dev) ->
  read_at pos size (write_at pos data dev) = data.
Proof. intros -> Hpos Hend. by apply read_write_at. Qed.

Lemma mem_write_inside off data dst :
  0 <= off -> off + Z.of_nat (length data) <= Z.of_nat (length dst) ->
  mem_write off data dst = Ret (take (Z.to_nat off) dst ++ data ++ drop (Z.to_nat off + length data) dst).
Proof. intros H1 H2. unfold mem_write. by rewrite bool_decide_eq_true_2. Qed.

Lemma mem_write_at off data dst :
  0 <= off -> off + Z.of_nat (length data) <= Z.of_nat (length dst) ->
  mem_write off data dst = Ret (write_at off data dst).
Proof.
  intros H1 H2. rewrite mem_write_inside by done. unfold write_at. rewrite bool_decide_eq_true_2 by done.
  by rewrite (take_ge data) by lia.
Qed.

(** A change that lies on the device. *)
Definition change_ok (n : nat) (c : CHANGE) : Prop :=
  0 <= c_pos c /\ c_pos c + Z.of_nat (length (c_data c)) <= Z.of_nat n /\
  Z.of_nat (length (c_data c)) < 2 ^ 31.

(** A write into the buffer that stores what the change holds there. *)
Lemma patch_read pos size c dev off part :
  0 <= c_pos c -> 0 <= pos -> 0 <= size -> pos + size <= Z.of_nat (length dev) ->
  0 <= off -> off + Z.of_nat (length part) <= size ->
  (forall i : nat, Z.of_nat i < size ->
     (off <= Z.of_nat i < off + Z.of_nat (length part) <->
      c_pos c <= pos + Z.of_nat i < c_pos c + Z.of_nat (length (c_data c))) /\
     (off <= Z.of_nat i < off + Z.of_nat (length part) ->
      part !! (i - Z.to_nat off)%nat = c_data c !! (Z.to_nat pos + i - Z.to_nat (c_pos c))%nat)) ->
  mem_write off part (read_at pos size dev) =
  Ret (read_at pos size (write_at (c_pos c) (c_data c) dev)).
Proof.
  intros Hc Hpos Hsize Hend Hoff Hfit Hsame.
  pose proof (read_at_length pos size dev Hpos ltac:(lia) Hend) as Hlen.
  destruct (mem_write off part (read_at pos size dev)) as [o|] eqn:Eo.
  2:{ revert Eo. unfold mem_write. by rewrite bool_decide_eq_true_2 by lia. }
  f_equal. apply list_eq_same_length with (length (read_at pos size dev)).
  - apply Nat2Z.inj. rewrite Hlen, read_at_length; rewrite ?write_at_length; lia.
  - by apply mem_write_length in Eo.
  - intros i x y Hi Hx Hy. rewrite (mem_write_lookup _ _ _ _ _ Eo Hi) in Hx.
    rewrite read_at_lookup, write_at_lookup in Hy by lia.
    destruct (Hsame i ltac:(lia)) as [Hiff Heq].
    case_decide as H1; case_decide as H2; try (exfalso; lia).
    + rewrite Heq in Hx by done. congruence.
    + rewrite read_at_lookup in Hx by lia. congruence.
Qed.

Lemma min_spec a b : min a b = Z.min a b.
Proof. unfold min. case_bool_decide; lia. Qed.

(** Bringing a change into a buffer is reading what it leaves. *)
Lemma apply_change_spec pos size c dev :
  change_ok (length dev) c -> 0 <= pos -> 0 <= size < 2 ^ 31 -> pos + size <= Z.of_nat (length dev) ->
  apply_change pos size c (read_at pos size dev) =
  Ret (read_at pos size (write_at (c_pos c) (c_data c) dev)).
Proof.
  intros (Hc & Hcl & Hc31) Hpos Hsize Hend. unfold apply_change.
  pose proof (read_at_length pos size dev Hpos ltac:(lia) Hend) as Hlen.
  change (2 ^ 31) with (2 ^ (32 - 1)) in *. case_bool_decide as Hov.
  - case_bool_decide as Hbefore; rewrite swrap_small, min_spec by lia;
      unfold mem_read; rewrite bool_decide_eq_true_2 by lia; run.
    + apply patch_read; rewrite ?length_take, ?length_drop; try lia.
      intros i Hi. split; [lia|]. intros Hin. rewrite lookup_take_lt by lia.
      rewrite lookup_drop. f_equal. lia.
    + rewrite drop_0. apply patch_read; rewrite ?length_take; try lia.
      intros i Hi. split; [lia|]. intros Hin. rewrite lookup_take_lt by lia. f_equal. lia.
  - f_equal. apply list_eq_same_length with (length (read_at pos size dev)); [|done|].
    { apply Nat2Z.inj. rewrite Hlen, read_at_length; rewrite ?write_at_length; lia. }
    intros i x y Hi Hx Hy. rewrite read_at_lookup in Hx, Hy by lia.
    rewrite write_at_lookup, decide_False in Hy by lia. congruence.
Qed.

(** The state between calls: the changes lie on the device, and there are none
    when they go to the device at once. *)
Definition io_ok (write_immed : bool) (s : io_state) : Prop :=
  Forall (change_ok (length (device s))) (changes s) /\
  (write_immed = true -> changes s = []).

Lemma vdisk_length s : length (vdisk s) = length (device s).
Proof. apply flush_length. Qed.

Lemma apply_changes_spec pos size cs dev :
  Forall (change_ok (length dev)) cs -> 0 <= pos -> 0 <= size < 2 ^ 31 ->
  pos + size <= Z.of_nat (length dev) ->
  apply_changes pos size cs (read_at pos size dev) = Ret (read_at pos size (fs_flush cs dev)).
Proof.
  intros Hcs Hpos Hsize. revert dev Hcs. induction cs as [|c cs IH]; intros dev Hcs Hend; [done|].
  apply Forall_cons in Hcs as [Hc Hcs]. cbn [apply_changes fs_flush].
  rewrite apply_change_spec by done. run. apply IH; by rewrite write_at_length.
Qed.

Lemma fs_read_spec bad_read wi pos size s :
  io_ok wi s -> 0 <= pos -> 0 <= size < 2 ^ 31 -> pos + size <= Z.of_nat (length (device s)) ->
  bad_read pos size = false ->
  fs_read bad_read pos size s = Ret (read_at pos size (vdisk s)).
Proof.
  intros [Hcs _] Hpos Hsize Hend Hbad. unfold fs_read, require.
  rewrite (bool_decide_eq_true_2 (0 <= pos)) by done. run. rewrite Hbad. cbn [negb]. run.
  rewrite bool_decide_eq_true_2 by (apply read_at_length; lia). run.
  by apply apply_changes_spec.
Qed.

Lemma fs_write_spec wi pos data s :
  io_ok wi s -> change_ok (length (device s)) (Change pos data) ->
  exists s', fs_write wi pos data s = Ret s' /\ io_ok wi s' /\
    vdisk s' = write_at pos data (vdisk s) /\ length (device s') = length (device s) /\
    fs_changed s' = true /\ stdin s' = stdin s.
Proof.
  intros [Hcs Hwi] Hc. pose proof Hc as (Hpos & Hend & _). cbn [c_pos c_data] in *.
  unfold fs_write, require, vdisk. destruct wi.
  - rewrite !bool_decide_eq_true_2 by done. run. eexists. split; [done|].
    rewrite Hwi by done. unfold io_ok, fs_changed. cbn [device changes did_change stdin].
    by rewrite write_at_length.
  - eexists. split; [done|]. unfold io_ok, fs_changed. cbn [set_changes device changes did_change stdin].
    rewrite flush_app. split; [split; [|done]|].
    + apply Forall_app. split; [done|]. by apply Forall_singleton.
    + split_and!; [done|done| |done]. rewrite bool_decide_eq_false_2; [done|]. by destruct (changes s).
Qed.

(** ** The properties *)

(** C7: whatever has been written, a read inside the device that does not fail gives
    the bytes of the virtual disk, which a write inside the device changes just
    there. Closing the disk tells that it was changed. If the changes are to be
    kept it leaves the virtual disk on the device; if not it leaves the old device,
    unless changes are written immediately: then the device has them already. *)
Theorem virtual_disk bad_read wi pos size s wpos wdata :
  io_ok wi s -> 0 <= pos -> 0 <= size < 2 ^ 31 -> pos + size <= Z.of_nat (length (device s)) ->
  bad_read pos size = false -> change_ok (length (device s)) (Change wpos wdata) ->
  fs_read bad_read pos size s = Ret (read_at pos size (vdisk s)) /\
  (exists s', fs_write wi wpos wdata s = Ret s' /\ io_ok wi s' /\
     vdisk s' = write_at wpos wdata (vdisk s) /\
     fs_read bad_read pos size s' = Ret (read_at pos size (write_at wpos wdata (vdisk s))) /\
     fs_close true s' = (true, write_at wpos wdata (vdisk s)) /\
     fs_close false s' = (true, if wi then write_at wpos wdata (vdisk s) else device s)).
Proof.
  intros Hok Hpos Hsize Hend Hbad Hc. split; [by eapply fs_read_spec|].
  destruct (fs_write_spec wi wpos wdata s Hok Hc) as (s' & Hw & Hok' & Hv & Hl & Hch & _).
  exists s'. unfold fs_close. rewrite Hch, <- Hv. split_and!; [done|done|done| |done|].
  - apply fs_read_spec with wi; [done..|by rewrite Hl|done].
  - destruct wi.
    + destruct Hok' as [_ Hnil]. unfold vdisk. by rewrite Hnil.
    + cbn in Hw. by injection Hw as <-.
Qed.

Lemma virtual_disk_witness :
  exists s', fs_write false 3 [7; 8] (IoState [0; 1; 2; 3; 4; 5] [Change 2 [9; 9; 9]] false [])
             = Ret s' /\
    fs_read (fun _ _ => false) 1 4 s' = Ret [1; 9; 7; 8] /\
    fs_close true s' = (true, [0; 1; 9; 7; 8; 5]) /\ fs_close false s' = (true, [0; 1; 2; 3; 4; 5]).
Proof.
  set (s := IoState [0; 1; 2; 3; 4; 5] [Change 2 [9; 9; 9]] false []).
  destruct (virtual_disk (fun _ _ => false) false 1 4 s 3 [7; 8]) as (_ & s' & H1 & _ & _ & H2 & H3 & H4).
  - split; [|done]. apply Forall_singleton. unfold change_ok. cbn. lia.
  - lia.
  - lia.
  - cbn. lia.
  - done.
  - unfold change_ok. cbn. lia.
  - exists s'. split; [exact H1|]. split; [exact H2|]. split; [exact H3|exact H4].
Defined.
