(* ===== verification/DosFat.v ===== *)
(** * The file allocation table of dosfsck

    [C/dosfstools-2.11/dosfsck/fat.c]: the table in memory, its image on the
    virtual disk, and the passes over it. *)

From S2P Require Import Prelude DosIo.

(** ** State *)

(** The owner of a cluster is the number of a file. *)
(* @src C/dosfstools-2.11/dosfsck/dosfsck.h:113-118 FAT_ENTRY *)
Record FAT_ENTRY := FatEntry {
  value : Z;
  reserved : Z;
  owner : option nat;
  prev : Z;
}.

(* @src C/dosfstools-2.11/dosfsck/dosfsck.h:120-136 DOS_FS *)
Record DOS_FS := DosFs {
  nfats : Z;
  fat_start : Z;
  fat_size : Z;
  fat_bits : Z;
  eff_fat_bits : Z;
  root_cluster : Z;
  root_start : Z;
  root_entries : Z;
  data_start : Z;
  cluster_size : Z;
  clusters : Z;
  fsinfo_start : Z;
  free_clusters : Z;
  backupboot_start : Z;
  fat : list FAT_ENTRY;
}.

Definition set_table t (fs : DOS_FS) : DOS_FS :=
  DosFs (nfats fs) (fat_start fs) (fat_size fs) (fat_bits fs) (eff_fat_bits fs)
    (root_cluster fs) (root_start fs) (root_entries fs) (data_start fs) (cluster_size fs)
    (clusters fs) (fsinfo_start fs) (free_clusters fs) (backupboot_start fs) t.

Definition set_free_clusters n (fs : DOS_FS) : DOS_FS :=
  DosFs (nfats fs) (fat_start fs) (fat_size fs) (fat_bits fs) (eff_fat_bits fs)
    (root_cluster fs) (root_start fs) (root_entries fs) (data_start fs) (cluster_size fs)
    (clusters fs) (fsinfo_start fs) n (backupboot_start fs) (fat fs).

(** The file system and the disk below it. *)
Record dos := Dos {
  d_io : io_state;
  d_fs : DOS_FS;
}.

(** [fs->fat[i]]. *)
Definition fat_at (fs : DOS_FS) (i : Z) : outcome FAT_ENTRY :=
  if bool_decide (0 <= i) then
    match fat fs !! Z.to_nat i with Some e => Ret e | None => Fault OutOfBounds end
  else Fault OutOfBounds.

Definition fat_put (i : Z) (e : FAT_ENTRY) (fs : DOS_FS) : DOS_FS :=
  set_table (<[Z.to_nat i := e]> (fat fs)) fs.

(** [for (i = 2; i < fs->clusters+2; i++)]. *)
Definition cluster_numbers (fs : DOS_FS) : list Z := seqZ 2 (clusters fs).

(** A loop over numbers that changes a state. *)
Fixpoint each {S : Type} (body : Z -> S -> outcome S) (l : list Z) (s : S) : outcome S :=
  match l with
  | [] => Ret s
  | i :: l => s ← body i s; each body l s
  end.

Section Fat.

(** The options, the reads that fail, the bytes of an [unsigned long], and what
    fresh memory holds. *)
Variables interactive write_immed atari_format : bool.
Variable bad_read : Z -> Z -> bool.
Variable long_size : Z.
Variable junk : FAT_ENTRY.

(** ** Special values *)

(* @src C/dosfstools-2.11/dosfsck/dosfsck.h:157-158 FAT_EXTD *)
Definition FAT_EXTD (fs : DOS_FS) : Z := Z.land (Z.shiftl 1 (eff_fat_bits fs) - 1) (Z.lnot 0xf).

(* @src C/dosfstools-2.11/dosfsck/dosfsck.h:147-148 FAT_EOF *)
Definition FAT_EOF (fs : DOS_FS) : Z := Z.lor (if atari_format then 0xfff else 0xff8) (FAT_EXTD fs).

(* @src C/dosfstools-2.11/dosfsck/dosfsck.h:149-149 FAT_IS_EOF *)
Definition FAT_IS_EOF (fs : DOS_FS) (v : Z) : bool := bool_decide (v >= Z.lor 0xff8 (FAT_EXTD fs)).

(* @src C/dosfstools-2.11/dosfsck/dosfsck.h:150-151 FAT_BAD *)
Definition FAT_BAD (fs : DOS_FS) : Z := Z.lor 0xff7 (FAT_EXTD fs).

(* @src C/dosfstools-2.11/dosfsck/dosfsck.h:152-154 FAT_MIN_BAD *)
Definition FAT_MIN_BAD (fs : DOS_FS) : Z := Z.lor (if atari_format then 0xff0 else 0xff7) (FAT_EXTD fs).
Definition FAT_MAX_BAD (fs : DOS_FS) : Z := Z.lor 0xff7 (FAT_EXTD fs).

(* @src C/dosfstools-2.11/dosfsck/dosfsck.h:155-155 FAT_IS_BAD *)
Definition FAT_IS_BAD (fs : DOS_FS) (v : Z) : bool :=
  bool_decide (v >= FAT_MIN_BAD fs) && bool_decide (v <= FAT_MAX_BAD fs).

(** ** Entries *)

(** The entry of [cluster] in the table image [tab]. *)
(* @src C/dosfstools-2.11/dosfsck/fat.c:21-47 get_fat *)
Definition get_fat (tab : list Z) (cluster : Z) (fs : DOS_FS) : outcome FAT_ENTRY :=
  if bool_decide (fat_bits fs = 12) then
    p0 ← byte_at tab (cluster * 3 / 2);
    p1 ← byte_at tab (cluster * 3 / 2 + 1);
    Ret (FatEntry (Z.land 0xfff (if bool_decide (Z.land cluster 1 <> 0)
                                 then Z.lor (Z.shiftr p0 4) (Z.shiftl p1 4)
                                 else Z.lor p0 (Z.shiftl p1 8)))
           (reserved junk) None (prev junk))
  else if bool_decide (fat_bits fs = 16) then
    b ← mem_read (2 * cluster) 2 tab;
    Ret (FatEntry (little_endian_to_Z 8 b) (reserved junk) None (prev junk))
  else if bool_decide (fat_bits fs = 32) then
    b ← mem_read (4 * cluster) 4 tab;
    let e := little_endian_to_Z 8 b in
    Ret (FatEntry (Z.land e 0xfffffff) (Z.shiftr e 28) None (prev junk))
  else Fault Died.

(** The bytes stored for [new] and where they go. The FAT32 case stores an
    [unsigned long] into an array of four bytes. *)
(* @src C/dosfstools-2.11/dosfsck/fat.c:125-154 set_fat *)
Definition fat_bytes (fs : DOS_FS) (cluster new : Z) : outcome (Z * list Z) :=
  if bool_decide (fat_bits fs = 12) then
    let offs := fat_start fs + cluster * 3 / 2 in
    if bool_decide (Z.land cluster 1 <> 0) then
      p ← fat_at fs (cluster - 1);
      Ret (offs, [u8 (Z.lor (Z.shiftl (Z.land new 0xf) 4) (Z.shiftr (value p) 8));
                  u8 (Z.shiftr new 4)])
    else
      high ← (if bool_decide (cluster = clusters fs - 1) then Ret 0
              else p ← fat_at fs (cluster + 1); Ret (Z.shiftl (Z.land 0xff (value p)) 4));
      Ret (offs, [u8 (Z.land new 0xff); u8 (Z.lor (Z.shiftr new 8) high)])
  else if bool_decide (fat_bits fs = 16) then
    Ret (fat_start fs + cluster * 2, Z_to_little_endian 2 8 new)
  else if bool_decide (fat_bits fs = 32) then
    e ← fat_at fs cluster;
    _ ← require (bool_decide (long_size <= 4)) OutOfBounds;
    Ret (fat_start fs + cluster * 4,
         Z_to_little_endian 4 8 (Z.lor (Z.land new 0xfffffff) (Z.shiftl (reserved e) 28)))
  else Fault Died.

(** The second copy is written whether or not there is one. *)
(* @src C/dosfstools-2.11/dosfsck/fat.c:115-158 set_fat *)
Definition set_fat (cluster new : Z) (s : dos) : outcome dos :=
  let fs := d_fs s in
  let new := if bool_decide (swrap 64 new = -1) then FAT_EOF fs
             else if bool_decide (swrap 64 new = -2) then FAT_BAD fs else new in
  '(offs, data) ← fat_bytes fs cluster new;
  e ← fat_at fs cluster;
  let fs := fat_put cluster (FatEntry new (reserved e) (owner e) (prev e)) fs in
  io ← fs_write write_immed offs data (d_io s);
  io ← fs_write write_immed (offs + fat_size fs) data io;
  Ret (Dos io fs).

(* @src C/dosfstools-2.11/dosfsck/fat.c:161-164 bad_cluster *)
Definition bad_cluster (fs : DOS_FS) (cluster : Z) : outcome bool :=
  e ← fat_at fs cluster; Ret (FAT_IS_BAD fs (value e)).

(* @src C/dosfstools-2.11/dosfsck/fat.c:167-175 next_cluster *)
Definition next_cluster (fs : DOS_FS) (cluster : Z) : outcome Z :=
  e ← fat_at fs cluster;
  if FAT_IS_BAD fs (value e) then Fault Died
  else Ret (if FAT_IS_EOF fs (value e) then -1 else value e).

(* @src C/dosfstools-2.11/dosfsck/fat.c:178-181 cluster_start *)
Definition cluster_start (fs : DOS_FS) (cluster : Z) : Z :=
  data_start fs + (cluster - 2) * cluster_size fs.

(* @src C/dosfstools-2.11/dosfsck/fat.c:184-189 set_owner *)
Definition set_owner (fs : DOS_FS) (cluster : Z) (o : option nat) : outcome DOS_FS :=
  e ← fat_at fs cluster;
  if bool_decide (o <> None /\ owner e <> None) then Fault Died
  else Ret (fat_put cluster (FatEntry (value e) (reserved e) o (prev e)) fs).

(* @src C/dosfstools-2.11/dosfsck/fat.c:192-195 get_owner *)
Definition get_owner (fs : DOS_FS) (cluster : Z) : outcome (option nat) :=
  e ← fat_at fs cluster; Ret (owner e).

(** ** Reading the table *)

(* @src C/dosfstools-2.11/dosfsck/fat.c:57-57 read_fat *)
Definition eff_size (fs : DOS_FS) : Z := ((clusters fs + 2) * fat_bits fs + 7) / 8.

(** Which copy to use, when there are two that differ: the other one is
    overwritten. *)
(* @src C/dosfstools-2.11/dosfsck/fat.c:67-99 read_fat *)
Definition choose_fat (first second : list Z) (s : dos) : outcome (list Z * dos) :=
  let fs := d_fs s in
  let use_first := io ← fs_write write_immed (fat_start fs + fat_size fs) first (d_io s);
                   Ret (first, Dos io fs) in
  first_media ← get_fat first 0 fs;
  second_media ← get_fat second 0 fs;
  let first_ok := bool_decide (Z.land (value first_media) (FAT_EXTD fs) = FAT_EXTD fs) in
  let second_ok := bool_decide (Z.land (value second_media) (FAT_EXTD fs) = FAT_EXTD fs) in
  match first_ok, second_ok with
  | true, false => use_first
  | false, true =>
      io ← fs_write write_immed (fat_start fs) second (d_io s); Ret (second, Dos io fs)
  | true, true =>
      if interactive then
        '(k, io) ← get_key "12" (d_io s);
        if bool_decide (k = 49) then
          io ← fs_write write_immed (fat_start fs + fat_size fs) first io; Ret (first, Dos io fs)
        else
          io ← fs_write write_immed (fat_start fs) second io; Ret (second, Dos io fs)
      else use_first
  | false, false => Fault Died
  end.

(** An entry that points outside becomes the end of its chain. *)
(* @src C/dosfstools-2.11/dosfsck/fat.c:102-108 read_fat *)
Definition check_entry (i : Z) (s : dos) : outcome dos :=
  let fs := d_fs s in
  e ← fat_at fs i;
  if bool_decide (value e >= clusters fs + 2) && bool_decide (value e < FAT_MIN_BAD fs)
  then set_fat i (-1) s else Ret s.

(* @src C/dosfstools-2.11/dosfsck/fat.c:50-112 read_fat *)
Definition read_fat (s : dos) : outcome dos :=
  let fs := d_fs s in
  first ← fs_read bad_read (fat_start fs) (eff_size fs) (d_io s);
  '(use, s) ←
    (if bool_decide (nfats fs > 1) then
       second ← fs_read bad_read (fat_start fs + fat_size fs) (eff_size fs) (d_io s);
       if bool_decide (first <> second) then choose_fat first second s else Ret (first, s)
     else Ret (first, s));
  fs ← each (fun i fs => e ← get_fat use i fs; Ret (fat_put i e fs)) (cluster_numbers fs)
         (set_table (replicate (Z.to_nat (clusters fs + 2)) junk) fs);
  each check_entry (cluster_numbers fs) (Dos (d_io s) fs).

(** ** Passes over the table *)

(* @src C/dosfstools-2.11/dosfsck/fat.c:198-210 fix_bad *)
Definition fix_bad (s : dos) : outcome dos :=
  each (fun i s =>
    let fs := d_fs s in
    e ← fat_at fs i;
    if bool_decide (owner e = None) && negb (FAT_IS_BAD fs (value e)) then
      ok ← fs_test bad_read (cluster_start fs i) (cluster_size fs) (d_io s);
      if (ok : bool) then Ret s else set_fat i (-2) s
    else Ret s) (cluster_numbers (d_fs s)) s.

(** One cluster of [reclaim_free]. *)
(* @src C/dosfstools-2.11/dosfsck/fat.c:222-226 reclaim_free *)
Definition reclaim_cluster (i : Z) (s : dos) : outcome dos :=
  let fs := d_fs s in
  e ← fat_at fs i;
  if bool_decide (owner e = None) && bool_decide (value e <> 0) && negb (FAT_IS_BAD fs (value e))
  then set_fat i 0 s else Ret s.

(* @src C/dosfstools-2.11/dosfsck/fat.c:213-230 reclaim_free *)
Definition reclaim_free (s : dos) : outcome dos :=
  each reclaim_cluster (cluster_numbers (d_fs s)) s.

(** The count that [update_free] compares with the summary. *)
(* @src C/dosfstools-2.11/dosfsck/fat.c:320-322 update_free *)
Definition count_free (fs : DOS_FS) : outcome Z :=
  each (fun i n =>
    e ← fat_at fs i;
    Ret (if bool_decide (owner e = None) && negb (FAT_IS_BAD fs (value e)) then n + 1 else n))
    (cluster_numbers fs) 0.

(** The summary is written as an [unsigned long]. *)
(* @src C/dosfstools-2.11/dosfsck/fat.c:314-357 update_free *)
Definition update_free (s : dos) : outcome (Z * dos) :=
  let fs := d_fs s in
  free ← count_free fs;
  if bool_decide (fsinfo_start fs = 0) then Ret (free, s) else
  '(do_set, io) ←
    (if bool_decide (free_clusters fs >= 0) && bool_decide (free = free_clusters fs)
     then Ret (false, d_io s)
     else if interactive then
       '(k, io) ← get_key "12" (d_io s); Ret (bool_decide (k = 49), io)
     else Ret (true, d_io s));
  if (do_set : bool) then
    io ← fs_write write_immed (fsinfo_start fs + 488) (Z_to_little_endian long_size 8 free) io;
    Ret (free, Dos io (set_free_clusters free fs))
  else Ret (free, Dos io fs).

End Fat.

(** ** The table and its image

    A copy of the table on the disk holds the entries in memory. *)

(** The part of the disk that [read_fat] reads as copy [k]. *)
Definition fat_copy (fs : DOS_FS) (k : Z) (disk : list Z) : list Z :=
  read_at (fat_start fs + k * fat_size fs) (eff_size fs) disk.

(** Entry [i] of the image [tab] is the entry in memory. *)
Definition entry_synced (fs : DOS_FS) (tab : list Z) (i : Z) : Prop :=
  exists e e', fat_at fs i = Ret e /\ get_fat e tab i fs = Ret e' /\
    value e' = value e /\ reserved e' = reserved e.

Definition synced (fs : DOS_FS) (tab : list Z) : Prop :=
  forall i, 2 <= i < clusters fs + 2 -> entry_synced fs tab i.

(** Sizes as [read_boot] leaves them, for a disk of [n] bytes. *)
Record geometry_ok (fs : DOS_FS) (n : nat) : Prop := {
  g_bits : (fat_bits fs = 12 /\ eff_fat_bits fs = 12) \/ (fat_bits fs = 16 /\ eff_fat_bits fs = 16) \/
           (fat_bits fs = 32 /\ eff_fat_bits fs = 28);
  g_clusters : 0 <= clusters fs;
  g_table : length (fat fs) = Z.to_nat (clusters fs + 2);
  g_start : 0 <= fat_start fs;
  g_size : eff_size fs <= fat_size fs;
  g_small : eff_size fs < 2 ^ 31;
  g_copies : nfats fs = 1 \/ nfats fs = 2;
  g_end : fat_start fs + 2 * fat_size fs <= Z.of_nat n;
}.

(** *** Bytes *)

Lemma byte_at_write_at pos data dev k :
  0 <= pos -> 0 <= k < Z.of_nat (length dev) ->
  byte_at (write_at pos data dev) k =
  if decide (pos <= k < pos + Z.of_nat (length data)) then byte_at data (k - pos) else byte_at dev k.
Proof.
  intros Hpos Hk. unfold byte_at. rewrite (bool_decide_eq_true_2 (0 <= k)) by lia.
  rewrite write_at_lookup by lia. rewrite Z2Nat.id by lia. case_decide as H; [|done].
  rewrite bool_decide_eq_true_2 by lia. by replace (Z.to_nat k - Z.to_nat pos)%nat with (Z.to_nat (k - pos)) by lia.
Qed.

Lemma byte_at_byte l k b : Forall byte l -> byte_at l k = Ret b -> byte b.
Proof.
  intros Hl. unfold byte_at. case_bool_decide; [|done]. destruct (l !! Z.to_nat k) as [x|] eqn:E; [|done].
  intros [= <-]. by apply (Forall_lookup_1 _ _ _ _ Hl E).
Qed.

Lemma byte_at_in l k : 0 <= k < Z.of_nat (length l) -> exists b, byte_at l k = Ret b.
Proof.
  intros Hk. destruct (lookup_lt_is_Some_2 l (Z.to_nat k)) as [b Hb]; [lia|]. exists b.
  by apply byte_at_lookup; [lia|].
Qed.

(** *** Twelve-bit entries in arithmetic *)

Lemma land_bit0 c : 0 <= c -> bool_decide (Z.land c 1 <> 0) = Z.odd c.
Proof.
  intros Hc. rewrite land_1_mod, Zmod_odd. by destruct (Z.odd c).
Qed.

Lemma get12_even b0 b1 : byte b0 -> byte b1 ->
  Z.land 0xfff (Z.lor b0 (Z.shiftl b1 8)) = b1 mod 16 * 256 + b0.
Proof.
  intros H0 H1. rewrite lor_shiftl_add by (lia || exact H0).
  rewrite Z.land_comm. change 0xfff with (Z.ones 12). rewrite Z.land_ones by lia.
  unfold byte in *. change (2 ^ 8) with 256. change (2 ^ 12) with 4096. dlia.
Qed.

Lemma get12_odd b0 b1 : byte b0 -> byte b1 ->
  Z.land 0xfff (Z.lor (Z.shiftr b0 4) (Z.shiftl b1 4)) = b1 * 16 + b0 / 16.
Proof.
  intros H0 H1. rewrite Z.shiftr_div_pow2 by lia. unfold byte in *.
  change (2 ^ 4) with 16. rewrite lor_shiftl_add by (change (2 ^ 4) with 16; dlia).
  rewrite Z.land_comm. change 0xfff with (Z.ones 12). rewrite Z.land_ones by lia.
  change (2 ^ 4) with 16. change (2 ^ 12) with 4096. dlia.
Qed.

Lemma put12_even new v : 0 <= new < 4096 ->
  u8 (Z.land new 0xff) = new mod 256 /\
  u8 (Z.lor (Z.shiftr new 8) (Z.shiftl (Z.land 0xff v) 4)) = v mod 16 * 16 + new / 256.
Proof.
  intros Hn. change 0xff with (Z.ones 8). rewrite (Z.land_comm _ v), !Z.land_ones by lia.
  rewrite Z.shiftr_div_pow2 by lia. change (2 ^ 8) with 256. split; [cint; dlia|].
  rewrite lor_shiftl_add by (change (2 ^ 4) with 16; dlia). change (2 ^ 4) with 16. cint. dlia.
Qed.

Lemma put12_odd new v : 0 <= new < 4096 -> 0 <= v < 4096 ->
  u8 (Z.lor (Z.shiftl (Z.land new 0xf) 4) (Z.shiftr v 8)) = new mod 16 * 16 + v / 256 /\
  u8 (Z.shiftr new 4) = new / 16.
Proof.
  intros Hn Hv. change 0xf with (Z.ones 4). rewrite Z.land_ones, !Z.shiftr_div_pow2 by lia.
  change (2 ^ 8) with 256. change (2 ^ 4) with 16. split; [|cint; dlia].
  rewrite Z.lor_comm, lor_shiftl_add by (change (2 ^ 4) with 16; dlia). change (2 ^ 4) with 16.
  cint. dlia.
Qed.

(** *** One entry *)

Lemma odd_mod c : Z.odd c = bool_decide (c mod 2 = 1).
Proof. rewrite Zmod_odd. by destruct (Z.odd c). Qed.

(** Entry [i] of a twelve-bit table from its two bytes. *)
Definition dec12 (i b0 b1 : Z) : Z :=
  if decide (i mod 2 = 1) then b1 * 16 + b0 / 16 else b1 mod 16 * 256 + b0.

Lemma get_fat12 junk tab i fs b0 b1 :
  fat_bits fs = 12 -> 0 <= i -> Forall byte tab ->
  byte_at tab (i * 3 / 2) = Ret b0 -> byte_at tab (i * 3 / 2 + 1) = Ret b1 ->
  get_fat junk tab i fs = Ret (FatEntry (dec12 i b0 b1) (reserved junk) None (prev junk)).
Proof.
  intros H12 Hi Htab H0 H1. unfold get_fat. rewrite bool_decide_eq_true_2, H0, H1 by done. run.
  rewrite land_bit0 by done. rewrite odd_mod. unfold dec12.
  pose proof (byte_at_byte _ _ _ Htab H0). pose proof (byte_at_byte _ _ _ Htab H1).
  case_decide as Ho.
  - rewrite (bool_decide_eq_true_2 _ Ho). by rewrite get12_odd.
  - rewrite (bool_decide_eq_false_2 _ Ho). by rewrite get12_even.
Qed.

(** What a wider entry is read from. *)
Definition entry_width (fs : DOS_FS) : Z := fat_bits fs / 8.

Lemma get_fat_wide junk tab i fs :
  fat_bits fs = 16 \/ fat_bits fs = 32 -> 0 <= i ->
  i * entry_width fs + entry_width fs <= Z.of_nat (length tab) ->
  get_fat junk tab i fs =
  let v := little_endian_to_Z 8 (read_at (i * entry_width fs) (entry_width fs) tab) in
  Ret (if decide (fat_bits fs = 16) then FatEntry v (reserved junk) None (prev junk)
       else FatEntry (Z.land v 0xfffffff) (Z.shiftr v 28) None (prev junk)).
Proof.
  intros Hw Hi Hend. unfold get_fat, entry_width in *.
  destruct Hw as [Hw|Hw]; rewrite Hw in *.
  - rewrite (bool_decide_eq_false_2 (16 = 12)), (bool_decide_eq_true_2 (16 = 16)) by done.
    change (16 / 8) with 2 in *. rewrite (Z.mul_comm 2). by rewrite mem_read_read_at by lia.
  - rewrite (bool_decide_eq_false_2 (32 = 12)), (bool_decide_eq_false_2 (32 = 16)),
      (bool_decide_eq_true_2 (32 = 32)) by done.
    change (32 / 8) with 4 in *. rewrite (Z.mul_comm 4). by rewrite mem_read_read_at by lia.
Qed.

(** Entries in memory are in range. *)
Definition values_ok (fs : DOS_FS) : Prop :=
  forall i e, 2 <= i < clusters fs + 2 -> fat_at fs i = Ret e ->
    0 <= value e < 2 ^ eff_fat_bits fs /\ (fat_bits fs = 32 -> 0 <= reserved e < 16).

Lemma fat_at_in fs n i :
  geometry_ok fs n -> 0 <= i < clusters fs + 2 -> exists e, fat_at fs i = Ret e.
Proof.
  intros G Hi. destruct (lookup_lt_is_Some_2 (fat fs) (Z.to_nat i)) as [e He].
  { rewrite (g_table _ _ G). lia. }
  exists e. unfold fat_at. by rewrite bool_decide_eq_true_2, He by lia.
Qed.

Lemma geometry_put fs n c e : geometry_ok fs n -> geometry_ok (fat_put c e fs) n.
Proof. intros []. split; try done. cbn. by rewrite length_insert. Qed.

Lemma fat_at_put fs n c e i :
  geometry_ok fs n -> 0 <= c < clusters fs + 2 -> 0 <= i ->
  fat_at (fat_put c e fs) i = if decide (i = c) then Ret e else fat_at fs i.
Proof.
  intros G Hc Hi. unfold fat_at, fat_put. rewrite bool_decide_eq_true_2 by done.
  cbn [set_table fat]. case_decide as H.
  - subst i. rewrite list_lookup_insert_eq; [done|]. rewrite (g_table _ _ G). lia.
  - by rewrite list_lookup_insert_ne by lia.
Qed.

(** The cases in which storing an entry goes well: in a twelve-bit table an even
    cluster must not be the last one, nor the one two before the end. *)
Definition storable (long_size : Z) (fs : DOS_FS) (c : Z) : Prop :=
  (fat_bits fs = 12 -> c mod 2 = 0 -> c <> clusters fs - 1 /\ c <> clusters fs + 1) /\
  (fat_bits fs = 32 -> long_size <= 4).

(** Two bytes stored at [o]. *)
Lemma byte_at_two o d0 d1 tab k :
  0 <= o -> 0 <= k < Z.of_nat (length tab) ->
  byte_at (write_at o [d0; d1] tab) k =
  if decide (k = o) then Ret d0 else if decide (k = o + 1) then Ret d1 else byte_at tab k.
Proof.
  intros Ho Hk. rewrite byte_at_write_at by done. cbn [length].
  repeat case_decide; try (exfalso; lia); try done; subst k.
  - by rewrite Z.sub_diag.
  - by replace (o + 1 - o) with 1 by lia.
Qed.

Lemma write_at_bytes o data tab : Forall byte data -> Forall byte tab -> Forall byte (write_at o data tab).
Proof.
  intros Hd Ht. unfold write_at. case_bool_decide; [|done].
  apply Forall_app; split; [by apply Forall_take|].
  apply Forall_app; split; [by apply Forall_take|by apply Forall_drop].
Qed.

Lemma entry12_inside fs i :
  fat_bits fs = 12 -> 2 <= i < clusters fs + 2 -> 0 <= i * 3 / 2 /\ i * 3 / 2 + 2 <= eff_size fs.
Proof. intros H12 Hi. unfold eff_size. rewrite H12. dlia. Qed.

(** A twelve-bit table is in step when its bytes are. *)
Lemma synced12 fs tab :
  fat_bits fs = 12 -> Forall byte tab -> Z.of_nat (length tab) = eff_size fs ->
  synced fs tab <->
  forall i, 2 <= i < clusters fs + 2 -> exists b0 b1 e,
    byte_at tab (i * 3 / 2) = Ret b0 /\ byte_at tab (i * 3 / 2 + 1) = Ret b1 /\
    fat_at fs i = Ret e /\ value e = dec12 i b0 b1.
Proof.
  intros H12 Htab Hlen. split; intros H i Hi; specialize (H i Hi);
    destruct (entry12_inside fs i H12 Hi).
  - destruct (byte_at_in tab (i * 3 / 2)) as [b0 Hb0]; [lia|].
    destruct (byte_at_in tab (i * 3 / 2 + 1)) as [b1 Hb1]; [lia|].
    destruct H as (e & e' & He & Hg & Hve & _). exists b0, b1, e.
    rewrite (get_fat12 _ _ _ _ b0 b1) in Hg by (done || lia). by injection Hg as <-.
  - destruct H as (b0 & b1 & e & Hb0 & Hb1 & He & Hve). exists e. eexists. split; [done|].
    split; [apply (get_fat12 _ _ _ _ b0 b1); done || lia|]. by cbn.
Qed.

(** The bytes of the other entries keep their meaning. *)
Definition keeps12 (c d0 d1 : Z) (tab : list Z) (i : Z) : Prop :=
  forall b0 b1, byte_at tab (i * 3 / 2) = Ret b0 -> byte_at tab (i * 3 / 2 + 1) = Ret b1 ->
    dec12 i (if decide (i * 3 / 2 = c * 3 / 2 + 1) then d1 else b0)
            (if decide (i * 3 / 2 + 1 = c * 3 / 2) then d0 else b1) = dec12 i b0 b1.

Lemma store12_synced fs n c e d0 d1 tab :
  geometry_ok fs n -> fat_bits fs = 12 -> synced fs tab ->
  Z.of_nat (length tab) = eff_size fs -> Forall byte tab -> byte d0 -> byte d1 ->
  2 <= c < clusters fs + 2 -> dec12 c d0 d1 = value e ->
  (forall i, 2 <= i < clusters fs + 2 -> i <> c -> keeps12 c d0 d1 tab i) ->
  synced (fat_put c e fs) (write_at (c * 3 / 2) [d0; d1] tab).
Proof.
  intros G H12 Hs Hlen Htab Hd0 Hd1 Hc Hdc Hkeep.
  pose proof (proj1 (synced12 fs tab H12 Htab Hlen) Hs) as Hold.
  apply (synced12 (fat_put c e fs)); [done|by apply write_at_bytes; [apply Forall_cons; split; [done|apply Forall_singleton]|]|
    by rewrite write_at_length|].
  intros i Hi. cbn [clusters fat_put set_table] in Hi. rewrite (fat_at_put fs n) by (done || lia).
  destruct (entry12_inside fs i H12 Hi). destruct (entry12_inside fs c H12 Hc).
  rewrite !byte_at_two by lia. destruct (decide (i = c)) as [->|Hic].
  - exists d0, d1, e. rewrite (decide_True (P := c * 3 / 2 = c * 3 / 2)) by done.
    rewrite decide_False by lia. by rewrite decide_True.
  - destruct (Hold i Hi) as (b0 & b1 & v & Hb0 & Hb1 & Hv & Hvv).
    eexists _, _, v. rewrite (decide_False (P := i * 3 / 2 = c * 3 / 2)) by dlia.
    rewrite (decide_False (P := i * 3 / 2 + 1 = c * 3 / 2 + 1)) by dlia.
    split; [rewrite Hb0; instantiate (1 := if decide (i * 3 / 2 = c * 3 / 2 + 1) then d1 else b0);
            by case_decide|].
    split; [rewrite Hb1; instantiate (1 := if decide (i * 3 / 2 + 1 = c * 3 / 2) then d0 else b1);
            by case_decide|].
    split; [done|]. rewrite Hvv. symmetry. by apply Hkeep.
Qed.

(** The half byte shared with a neighbour is put back. *)
Lemma shared_low n b0 b1 : byte b0 -> byte b1 ->
  (n * 16 + (b1 mod 16 * 256 + b0) / 256) mod 16 * 256 + b0 = b1 mod 16 * 256 + b0.
Proof.
  intros H0 H1. unfold byte in *. rewrite Z.div_add_l, (Z.div_small b0) by lia.
  rewrite Z.add_0_r, (Z.add_comm (n * 16)), Z.mod_add by lia. by rewrite Z.mod_mod by lia.
Qed.

Lemma shared_high n b0 b1 : byte b0 -> byte b1 -> 0 <= n < 16 ->
  b1 * 16 + ((b1 * 16 + b0 / 16) mod 16 * 16 + n) / 16 = b1 * 16 + b0 / 16.
Proof.
  intros H0 H1 Hn. unfold byte in *. rewrite Z.div_add_l, (Z.div_small n) by lia.
  rewrite Z.add_0_r, (Z.add_comm (b1 * 16) (b0 / 16)), Z.mod_add by lia. rewrite Z.mod_small; dlia.
Qed.

(** The bytes of an entry in step with memory. *)
Lemma bytes_of_entry fs tab i v b0 b1 :
  fat_bits fs = 12 -> Forall byte tab -> Z.of_nat (length tab) = eff_size fs -> synced fs tab ->
  2 <= i < clusters fs + 2 -> fat_at fs i = Ret v ->
  byte_at tab (i * 3 / 2) = Ret b0 -> byte_at tab (i * 3 / 2 + 1) = Ret b1 ->
  byte b0 /\ byte b1 /\ value v = dec12 i b0 b1.
Proof.
  intros H12 Htab Hlen Hs Hi Hv Hb0 Hb1.
  destruct (proj1 (synced12 fs tab H12 Htab Hlen) Hs i Hi) as (x0 & x1 & e & Hx0 & Hx1 & He & Hev).
  split; [exact (byte_at_byte _ _ _ Htab Hb0)|]. split; [exact (byte_at_byte _ _ _ Htab Hb1)|].
  congruence.
Qed.

(** Storing one entry of a twelve-bit table. *)
Lemma store12 long_size fs n c new e tab :
  geometry_ok fs n -> fat_bits fs = 12 -> values_ok fs -> synced fs tab ->
  Z.of_nat (length tab) = eff_size fs -> Forall byte tab ->
  2 <= c < clusters fs + 2 -> 0 <= new < 4096 -> storable long_size fs c -> value e = new ->
  exists d0 d1, fat_bytes long_size fs c new = Ret (fat_start fs + c * 3 / 2, [d0; d1]) /\
    byte d0 /\ byte d1 /\
    synced (fat_put c e fs) (write_at (c * 3 / 2) [d0; d1] tab).
Proof.
  intros G H12 Hv Hs Hlen Htab Hc Hnew [Hst _] He.
  assert (Heff : eff_fat_bits fs = 12) by (destruct (g_bits _ _ G) as [[]|[[]|[]]]; lia).
  unfold fat_bytes. rewrite bool_decide_eq_true_2 by done. rewrite land_bit0, odd_mod by lia.
  assert (Hrange : forall i v, 2 <= i < clusters fs + 2 -> fat_at fs i = Ret v -> 0 <= value v < 4096).
  { intros i v Hi Hiv. destruct (Hv i v Hi Hiv) as [Hr _]. by rewrite Heff in Hr. }
  case_bool_decide as Ho.
  - destruct (fat_at_in fs n (c - 1) G) as [p Hp]; [lia|]. rewrite Hp. run.
    pose proof (Hrange (c - 1) p ltac:(dlia) Hp).
    destruct (put12_odd new (value p)) as [-> ->]; [done|done|].
    eexists _, _. split; [reflexivity|]. split; [unfold byte; dlia|]. split; [unfold byte; dlia|].
    apply (store12_synced fs n); try done; try (unfold byte; dlia).
    + unfold dec12. rewrite decide_True by done. dlia.
    + intros i Hi Hic b0 b1 Hb0 Hb1.
      rewrite (decide_False (P := i * 3 / 2 = c * 3 / 2 + 1)) by dlia. case_decide as Heq; [|done].
      assert (i = c - 1) as -> by dlia.
      destruct (bytes_of_entry fs tab (c - 1) p b0 b1) as (H0 & H1 & Hval); try done.
      unfold dec12 in *. assert (Hpar : ~ ((c - 1) mod 2 = 1)) by dlia.
      destruct (decide ((c - 1) mod 2 = 1)); [done|]. rewrite Hval. by apply shared_low.
  - destruct (Hst H12) as [Hc1 Hc2]; [dlia|]. rewrite bool_decide_eq_false_2 by done.
    destruct (fat_at_in fs n (c + 1) G) as [p Hp]; [lia|]. rewrite Hp. run.
    pose proof (Hrange (c + 1) p ltac:(lia) Hp).
    destruct (put12_even new (value p)) as [-> ->]; [done|].
    eexists _, _. split; [reflexivity|]. split; [unfold byte; dlia|]. split; [unfold byte; dlia|].
    apply (store12_synced fs n); try done; try (unfold byte; dlia).
    + unfold dec12. rewrite decide_False by done. dlia.
    + intros i Hi Hic b0 b1 Hb0 Hb1.
      rewrite (decide_False (P := i * 3 / 2 + 1 = c * 3 / 2)) by dlia. case_decide as Heq; [|done].
      assert (i = c + 1) as -> by dlia.
      destruct (bytes_of_entry fs tab (c + 1) p b0 b1) as (H0 & H1 & Hval); try done.
      unfold dec12 in *. assert (Hpar : ((c + 1) mod 2 = 1)) by dlia.
      destruct (decide ((c + 1) mod 2 = 1)); [|done]. rewrite Hval. apply shared_high; [done..|dlia].
Qed.

(** *** Wider entries *)

Lemma eff_size_wide fs n :
  geometry_ok fs n -> fat_bits fs <> 12 ->
  (entry_width fs = 2 \/ entry_width fs = 4) /\ eff_size fs = (clusters fs + 2) * entry_width fs.
Proof.
  intros G Hb. unfold eff_size, entry_width.
  destruct (g_bits _ _ G) as [[H _]|[[-> _]|[-> _]]]; [done| |].
  - change (16 / 8) with 2. split; [by left|dlia].
  - change (32 / 8) with 4. split; [by right|dlia].
Qed.

Lemma entry_wide_inside fs n i :
  geometry_ok fs n -> fat_bits fs <> 12 -> 0 <= i < clusters fs + 2 ->
  0 <= i * entry_width fs /\ i * entry_width fs + entry_width fs <= eff_size fs.
Proof. intros G Hb Hi. destruct (eff_size_wide fs n G Hb) as [[Hw|Hw] ->]; rewrite Hw; lia. Qed.

(** The word of an entry. *)
Definition word_of (fs : DOS_FS) (v r : Z) : Z := if decide (fat_bits fs = 16) then v else r * 2 ^ 28 + v.

Lemma fat_bytes_wide long_size fs n c new e :
  geometry_ok fs n -> fat_bits fs <> 12 -> storable long_size fs c ->
  fat_at fs c = Ret e -> 0 <= new < 2 ^ eff_fat_bits fs ->
  fat_bytes long_size fs c new =
  Ret (fat_start fs + c * entry_width fs,
       Z_to_little_endian (entry_width fs) 8 (word_of fs new (reserved e))).
Proof.
  intros G Hb [_ Hlong] He Hnew. unfold fat_bytes, entry_width, word_of.
  rewrite bool_decide_eq_false_2 by done.
  destruct (g_bits _ _ G) as [[H _]|[[H16 _]|[H32 He28]]]; [done| |].
  - rewrite H16. by rewrite bool_decide_eq_true_2, decide_True by done.
  - rewrite H32 in *. rewrite He28 in Hnew. rewrite bool_decide_eq_false_2, bool_decide_eq_true_2 by done.
    rewrite He. run. unfold require. rewrite bool_decide_eq_true_2 by auto. run.
    rewrite decide_False by done. change 0xfffffff with (Z.ones 28).
    rewrite Z.land_ones, Z.mod_small by lia. by rewrite lor_shiftl_add by lia.
Qed.

(** Reading an entry from bytes that hold its word. *)
Lemma get_fat_word junk tab i fs n v r :
  geometry_ok fs n -> fat_bits fs <> 12 -> 0 <= i < clusters fs + 2 ->
  Z.of_nat (length tab) = eff_size fs -> 0 <= v < 2 ^ eff_fat_bits fs ->
  (fat_bits fs = 32 -> 0 <= r < 16) ->
  read_at (i * entry_width fs) (entry_width fs) tab =
    Z_to_little_endian (entry_width fs) 8 (word_of fs v r) ->
  get_fat junk tab i fs =
    Ret (FatEntry v (if decide (fat_bits fs = 16) then reserved junk else r) None (prev junk)).
Proof.
  intros G Hb Hi Hlen Hv Hr Hw. destruct (entry_wide_inside fs n i G Hb Hi).
  destruct (g_bits _ _ G) as [[H12 _]|[[H16 He]|[H32 He]]]; [done| |]; rewrite He in Hv;
    (rewrite get_fat_wide by (auto || lia); cbv zeta; rewrite Hw; unfold word_of, entry_width in *;
     rewrite ?H16, ?H32 in *).
  - rewrite !decide_True by done. change (16 / 8) with 2.
    rewrite little_endian_to_Z_to_little_endian, Z.mod_small by lia. done.
  - specialize (Hr eq_refl). rewrite !decide_False by done. change (32 / 8) with 4.
    rewrite little_endian_to_Z_to_little_endian by lia. change (2 ^ 28) with 268435456 in *.
    rewrite (Z.mod_small _ (2 ^ (4 * 8))) by (change (2 ^ (4 * 8)) with 4294967296; lia).
    change 0xfffffff with (Z.ones 28). rewrite Z.land_ones, Z.shiftr_div_pow2 by lia.
    change (2 ^ 28) with 268435456. rewrite Z.add_comm, Z.mod_add, Z.div_add by lia.
    by rewrite Z.mod_small, Z.div_small, Z.add_0_l by lia.
Qed.

(** Storing a wider entry. *)
Lemma store_wide long_size fs n c new e e0 tab :
  geometry_ok fs n -> fat_bits fs <> 12 -> values_ok fs -> synced fs tab ->
  Z.of_nat (length tab) = eff_size fs -> 2 <= c < clusters fs + 2 ->
  0 <= new < 2 ^ eff_fat_bits fs -> storable long_size fs c ->
  fat_at fs c = Ret e0 -> value e = new -> reserved e = reserved e0 ->
  exists data, fat_bytes long_size fs c new = Ret (fat_start fs + c * entry_width fs, data) /\
    Z.of_nat (length data) = entry_width fs /\ Forall byte data /\
    synced (fat_put c e fs) (write_at (c * entry_width fs) data tab).
Proof.
  intros G Hb Hv Hs Hlen Hc Hnew Hst He0 Hve Hre.
  destruct (eff_size_wide fs n G Hb) as [Hw _].
  assert (Hw0 : 0 <= entry_width fs) by lia.
  eexists. split; [by apply (fat_bytes_wide long_size fs n c new e0)|].
  split; [by apply length_Z_to_little_endian|]. split; [by apply (Z_to_little_endian_bound _ 8)|].
  assert (Hdl : Z.of_nat (length (Z_to_little_endian (entry_width fs) 8 (word_of fs new (reserved e0))))
                = entry_width fs) by (by apply length_Z_to_little_endian).
  set (data := Z_to_little_endian _ _ _) in *.
  destruct (entry_wide_inside fs n c G Hb ltac:(lia)).
  intros i Hi. cbn [clusters fat_put set_table] in Hi.
  destruct (entry_wide_inside fs n i G Hb ltac:(lia)).
  unfold entry_synced. rewrite (fat_at_put fs n) by (done || lia). case_decide as Hic.
  - subst i. exists e. eexists. split; [done|].
    destruct (Hv c e0 Hc He0) as [_ Hr0]. split.
    + apply (get_fat_word e (write_at (c * entry_width fs) data tab) c (fat_put c e fs) n new (reserved e0)).
      * by apply geometry_put.
      * done.
      * cbn. lia.
      * by rewrite write_at_length.
      * done.
      * done.
      * change (entry_width (fat_put c e fs)) with (entry_width fs).
        apply read_write_same; [exact (eq_sym Hdl)|lia..].
    + cbn. split; [done|]. by case_decide.
  - destruct (Hs i Hi) as (v & v' & Hiv & Hg & Hvv & Hrv). exists v, v'. split; [done|]. split; [|done].
    assert (Hbits : fat_bits fs = 16 \/ fat_bits fs = 32).
    { destruct (g_bits _ _ G) as [[]|[[]|[]]]; [done|by left|by right]. }
    rewrite <- Hg, (get_fat_wide _ tab) by (done || lia).
    rewrite get_fat_wide;
      [|done|lia|rewrite write_at_length; change (entry_width (fat_put c e fs)) with (entry_width fs); lia].
    change (entry_width (fat_put c e fs)) with (entry_width fs).
    change (fat_bits (fat_put c e fs)) with (fat_bits fs).
    rewrite read_write_outside; [done|lia..|nia].
Qed.

(** *** Storing any entry *)

Lemma store_entry long_size fs n c new e0 e :
  geometry_ok fs n -> values_ok fs -> 2 <= c < clusters fs + 2 ->
  0 <= new < 2 ^ eff_fat_bits fs -> storable long_size fs c ->
  fat_at fs c = Ret e0 -> value e = new -> reserved e = reserved e0 ->
  forall tab0, Forall byte tab0 -> Z.of_nat (length tab0) = eff_size fs -> synced fs tab0 ->
  exists o data, fat_bytes long_size fs c new = Ret (fat_start fs + o, data) /\
    0 <= o /\ o + Z.of_nat (length data) <= eff_size fs /\
    Z.of_nat (length data) <= 4 /\ Forall byte data /\
    forall tab, Forall byte tab -> Z.of_nat (length tab) = eff_size fs -> synced fs tab ->
      synced (fat_put c e fs) (write_at o data tab).
Proof.
  intros G Hv Hc Hnew Hst He0 Hve Hre tab0 Ht0 Hl0 Hs0.
  destruct (decide (fat_bits fs = 12)) as [H12|Hb].
  - assert (Heff : eff_fat_bits fs = 12) by (destruct (g_bits _ _ G) as [[]|[[]|[]]]; lia).
    rewrite Heff in Hnew. destruct (entry12_inside fs c H12 Hc).
    destruct (store12 long_size fs n c new e tab0) as (d0 & d1 & Hb & Hd0 & Hd1 & _); try done.
    exists (c * 3 / 2), [d0; d1]. cbn [length].
    split; [done|]. split; [done|]. split; [lia|]. split; [lia|].
    split; [apply Forall_cons; split; [done|by apply Forall_singleton]|].
    intros tab Ht Hl Hs.
    destruct (store12 long_size fs n c new e tab) as (x0 & x1 & Hb2 & _ & _ & Hsy); try done.
    rewrite Hb in Hb2. by injection Hb2 as -> ->.
  - destruct (eff_size_wide fs n G Hb) as [Hw _].
    destruct (entry_wide_inside fs n c G Hb ltac:(lia)).
    destruct (store_wide long_size fs n c new e e0 tab0) as (data & Hd & Hdl & Hdb & _); try done.
    exists (c * entry_width fs), data. split_and!; [done|done|lia|lia|done|].
    intros tab Ht Hl Hs.
    destruct (store_wide long_size fs n c new e e0 tab) as (data' & Hd' & _ & _ & Hsy); try done.
    rewrite Hd in Hd'. by injection Hd' as ->.
Qed.

(** The copies that there are. *)
Definition fat_copies (fs : DOS_FS) : list Z := seqZ 0 (nfats fs).

(** The state between calls: every copy on the disk holds the table in memory. *)
Record fs_ok (write_immed : bool) (s : dos) : Prop := {
  ok_io : io_ok write_immed (d_io s);
  ok_geometry : geometry_ok (d_fs s) (length (device (d_io s)));
  ok_values : values_ok (d_fs s);
  ok_bytes : Forall byte (vdisk (d_io s));
  ok_synced k : k ∈ fat_copies (d_fs s) -> synced (d_fs s) (fat_copy (d_fs s) k (vdisk (d_io s)));
}.

(** The value that [set_fat] stores for its argument. *)
Definition fat_value (atari_format : bool) (fs : DOS_FS) (new : Z) : Z :=
  if bool_decide (swrap 64 new = -1) then FAT_EOF atari_format fs
  else if bool_decide (swrap 64 new = -2) then FAT_BAD fs else new.

Definition put_value (c v : Z) (fs : DOS_FS) : DOS_FS :=
  match fat_at fs c with
  | Ret e => fat_put c (FatEntry v (reserved e) (owner e) (prev e)) fs
  | Fault _ => fs
  end.

Lemma eff_size_pos fs n : geometry_ok fs n -> 0 <= eff_size fs.
Proof.
  intros G. unfold eff_size. apply Z.div_pos; [|lia].
  pose proof (g_clusters _ _ G). destruct (g_bits _ _ G) as [[-> _]|[[-> _]|[-> _]]]; lia.
Qed.

Lemma read_at_bytes p n dev : Forall byte dev -> Forall byte (read_at p n dev).
Proof. intros. unfold read_at. by apply Forall_take, Forall_drop. Qed.

(** What a store at the same place of both copies leaves of copy [k]. *)
Lemma fat_copy_write fs n k o data dev :
  geometry_ok fs n -> length dev = n -> k = 0 \/ k = 1 ->
  0 <= o -> o + Z.of_nat (length data) <= eff_size fs ->
  fat_copy fs k (write_at (fat_start fs + o + fat_size fs) data (write_at (fat_start fs + o) data dev)) =
  write_at o data (fat_copy fs k dev).
Proof.
  intros G <- Hk Ho Hin. pose proof (eff_size_pos _ _ G). pose proof (g_start _ _ G).
  pose proof (g_size _ _ G). pose proof (g_end _ _ G). unfold fat_copy. destruct Hk as [-> | ->].
  - rewrite Z.mul_0_l, Z.add_0_r. rewrite read_write_outside by (rewrite ?write_at_length; lia).
    by rewrite read_write_inside by lia.
  - rewrite Z.mul_1_l. replace (fat_start fs + o + fat_size fs) with (fat_start fs + fat_size fs + o) by lia.
    rewrite read_write_inside by (rewrite ?write_at_length; lia).
    by rewrite read_write_outside by lia.
Qed.

Lemma fat_copy_length fs n k disk :
  geometry_ok fs n -> length disk = n -> k = 0 \/ k = 1 ->
  Z.of_nat (length (fat_copy fs k disk)) = eff_size fs.
Proof.
  intros G <- Hk. pose proof (eff_size_pos _ _ G). pose proof (g_start _ _ G).
  pose proof (g_size _ _ G). pose proof (g_end _ _ G). apply read_at_length; lia.
Qed.

(** ** The functions that store entries *)

Lemma values_put fs n c e :
  geometry_ok fs n -> values_ok fs -> 2 <= c < clusters fs + 2 ->
  0 <= value e < 2 ^ eff_fat_bits fs -> (fat_bits fs = 32 -> 0 <= reserved e < 16) ->
  values_ok (fat_put c e fs).
Proof.
  intros G Hv Hc He Hr i v Hi Hiv. cbn [clusters fat_put set_table] in Hi.
  rewrite (fat_at_put fs n) in Hiv by (done || lia). case_decide; [by injection Hiv as <-|by apply (Hv i)].
Qed.

(** What [set_fat] does once the bytes to store are known. *)
Lemma set_fat_run wi atari_format long_size c new s o data e0 :
  let v := fat_value atari_format (d_fs s) new in
  io_ok wi (d_io s) -> geometry_ok (d_fs s) (length (device (d_io s))) -> fat_at (d_fs s) c = Ret e0 ->
  fat_bytes long_size (d_fs s) c v = Ret (fat_start (d_fs s) + o, data) ->
  0 <= o -> o + Z.of_nat (length data) <= eff_size (d_fs s) -> Z.of_nat (length data) <= 4 ->
  exists s', set_fat wi atari_format long_size c new s = Ret s' /\
    d_fs s' = fat_put c (FatEntry v (reserved e0) (owner e0) (prev e0)) (d_fs s) /\
    io_ok wi (d_io s') /\ length (device (d_io s')) = length (device (d_io s)) /\
    stdin (d_io s') = stdin (d_io s) /\
    vdisk (d_io s') =
      write_at (fat_start (d_fs s) + o + fat_size (d_fs s)) data
        (write_at (fat_start (d_fs s) + o) data (vdisk (d_io s))).
Proof.
  intros v Hio G He0 Hb Ho Hin Hdl. destruct s as [io fs]. cbn [d_io d_fs] in *.
  unfold set_fat. cbn [d_io d_fs]. fold (fat_value atari_format fs new). fold v. rewrite Hb. run.
  rewrite He0. run. set (e := FatEntry v (reserved e0) (owner e0) (prev e0)).
  pose proof (eff_size_pos _ _ G). pose proof (g_start _ _ G). pose proof (g_size _ _ G).
  pose proof (g_end _ _ G).
  destruct (fs_write_spec wi (fat_start fs + o) data io Hio) as (io1 & -> & Hio1 & Hv1 & Hlen1 & _ & Hin1).
  { unfold change_ok. cbn. lia. }
  run. change (fat_size (fat_put c e fs)) with (fat_size fs).
  destruct (fs_write_spec wi (fat_start fs + o + fat_size fs) data io1 Hio1)
    as (io2 & -> & Hio2 & Hv2 & Hlen2 & _ & Hin2).
  { unfold change_ok. cbn. lia. }
  run. eexists. split; [reflexivity|]. cbn [d_io d_fs]. rewrite Hv2, Hv1, Hlen2, Hlen1, Hin2, Hin1. done.
Qed.

Lemma set_fat_spec wi atari_format long_size c new s :
  fs_ok wi s -> 2 <= c < clusters (d_fs s) + 2 -> storable long_size (d_fs s) c ->
  0 <= fat_value atari_format (d_fs s) new < 2 ^ eff_fat_bits (d_fs s) ->
  exists s' o data, set_fat wi atari_format long_size c new s = Ret s' /\ fs_ok wi s' /\
    d_fs s' = put_value c (fat_value atari_format (d_fs s) new) (d_fs s) /\
    length (device (d_io s')) = length (device (d_io s)) /\ stdin (d_io s') = stdin (d_io s) /\
    0 <= o /\ o + Z.of_nat (length data) <= eff_size (d_fs s) /\
    vdisk (d_io s') =
      write_at (fat_start (d_fs s) + o + fat_size (d_fs s)) data
        (write_at (fat_start (d_fs s) + o) data (vdisk (d_io s))) /\
    fat_bytes long_size (d_fs s) c (fat_value atari_format (d_fs s) new) =
      Ret (fat_start (d_fs s) + o, data).
Proof.
  intros Hok Hc Hst Hnew. pose proof Hok as [Hio G Hv Hby Hsy]. pose proof (g_copies _ _ G) as Hcop.
  destruct (fat_at_in (d_fs s) _ c G) as [e0 He0]; [lia|]. unfold put_value. rewrite He0.
  set (v := fat_value atari_format (d_fs s) new) in *. set (e := FatEntry v (reserved e0) (owner e0) (prev e0)).
  assert (Hk0 : 0 ∈ fat_copies (d_fs s)) by (apply elem_of_seqZ; lia).
  assert (Hcl : forall k, k = 0 \/ k = 1 -> Forall byte (fat_copy (d_fs s) k (vdisk (d_io s))) /\
    Z.of_nat (length (fat_copy (d_fs s) k (vdisk (d_io s)))) = eff_size (d_fs s)).
  { intros k Hk. split; [by apply read_at_bytes|]. by apply (fat_copy_length _ _ _ _ G (vdisk_length _)). }
  destruct (Hcl 0) as [Hb0 Hl0]; [by left|].
  destruct (store_entry long_size (d_fs s) _ c v e0 e G Hv Hc Hnew Hst He0 eq_refl eq_refl
              _ Hb0 Hl0 (Hsy 0 Hk0)) as (o & data & Hb & Ho & Hin & Hdl & Hdb & Hstep).
  destruct (set_fat_run wi atari_format long_size c new s o data e0 Hio G He0 Hb Ho Hin Hdl)
    as (s' & Hrun & Hfs & Hio' & Hlen & Hstdin & Hvd). fold v e in Hfs.
  exists s', o, data. split_and!; try done. destruct (Hv c e0 Hc He0) as [_ Hr0].
  split; rewrite ?Hfs; [done| |by eapply values_put| |].
  - rewrite Hlen. by apply geometry_put.
  - rewrite Hvd. by repeat apply write_at_bytes.
  - intros k Hk. change (fat_copies (fat_put c e (d_fs s))) with (fat_copies (d_fs s)) in Hk.
    assert (k = 0 \/ k = 1) as Hk01 by (apply elem_of_seqZ in Hk; lia).
    rewrite Hvd. change (fat_copy (fat_put c e (d_fs s))) with (fat_copy (d_fs s)).
    rewrite (fat_copy_write _ _ k o data _ G) by (done || apply vdisk_length).
    destruct (Hcl k Hk01). apply Hstep; [done|done|by apply Hsy].
Qed.

(** *** Sweeps over the table

    A loop that visits every cluster and changes at most its own entry. *)

Lemma each_inv {S} (P : Z -> S -> Prop) body a n s :
  0 <= n -> P a s ->
  (forall i s, a <= i < a + n -> P i s -> exists s', body i s = Ret s' /\ P (i + 1) s') ->
  exists s', each body (seqZ a n) s = Ret s' /\ P (a + n) s'.
Proof.
  intros Hn. revert a s. pattern n. apply natlike_ind; [| |done]; clear n Hn.
  - intros a s H _. exists s. by rewrite Z.add_0_r.
  - intros n Hn IH a s H Hb. rewrite seqZ_cons by lia. cbn [each].
    destruct (Hb a s) as (s1 & -> & H1); [lia|done|]. run. rewrite Z.pred_succ.
    destruct (IH (Z.succ a) s1) as (s2 & -> & H2); [done| |].
    + intros i s' Hi. apply Hb. lia.
    + exists s2. split; [done|]. by replace (a + Z.succ n) with (Z.succ a + n) by lia.
Qed.

(** File systems that differ in their tables only. *)
Definition same_shape (fs fs' : DOS_FS) : Prop := fs' = set_table (fat fs') fs.

#[export] Instance same_shape_preorder : PreOrder same_shape.
Proof. split; [by intros []|]. unfold same_shape. intros a b c Hb ->. rewrite Hb. by destruct a, b. Qed.

Lemma same_shape_put fs c e : same_shape fs (fat_put c e fs).
Proof. by destruct fs. Qed.

Lemma same_shape_clusters fs fs' : same_shape fs fs' -> clusters fs' = clusters fs.
Proof. by intros ->. Qed.

Lemma put_same fs c e : fat_at fs c = Ret e -> fat_put c e fs = fs.
Proof.
  unfold fat_at, fat_put. case_bool_decide; [|done]. destruct (fat fs !! Z.to_nat c) eqn:E; [|done].
  intros [= ->]. rewrite list_insert_id by done. by destruct fs.
Qed.

Lemma sweep wi body f s :
  fs_ok wi s ->
  (forall i e t, 2 <= i < clusters (d_fs s) + 2 -> fs_ok wi t -> same_shape (d_fs s) (d_fs t) ->
     length (device (d_io t)) = length (device (d_io s)) -> fat_at (d_fs s) i = Ret e -> fat_at (d_fs t) i = Ret e ->
     exists t', body i t = Ret t' /\ fs_ok wi t' /\ d_fs t' = fat_put i (f i e) (d_fs t) /\
       length (device (d_io t')) = length (device (d_io t))) ->
  exists s', each body (cluster_numbers (d_fs s)) s = Ret s' /\ fs_ok wi s' /\
    same_shape (d_fs s) (d_fs s') /\ length (device (d_io s')) = length (device (d_io s)) /\
    forall i e, 2 <= i < clusters (d_fs s) + 2 -> fat_at (d_fs s) i = Ret e ->
      fat_at (d_fs s') i = Ret (f i e).
Proof.
  intros Hok Hbody. pose proof (g_clusters _ _ (ok_geometry _ _ Hok)) as Hcl.
  destruct (each_inv (fun k t => fs_ok wi t /\ same_shape (d_fs s) (d_fs t) /\
      length (device (d_io t)) = length (device (d_io s)) /\
      forall i e, 2 <= i < clusters (d_fs s) + 2 -> fat_at (d_fs s) i = Ret e ->
        fat_at (d_fs t) i = Ret (if decide (i < k) then f i e else e))
    body 2 (clusters (d_fs s)) s Hcl) as (s' & Hrun & Hok' & Hsh & Hlen & Hall).
  - split_and!; [done|done|done|]. intros i e Hi He. by rewrite decide_False by lia.
  - intros i t Hi (Hokt & Hsh & Hlen & Hall).
    destruct (fat_at_in _ _ i (ok_geometry _ _ Hok)) as [e He]; [lia|].
    destruct (Hbody i e t) as (t' & Hb & Hokt' & Hfs & Hlen'); [lia|done|done|done|done| |].
    { rewrite (Hall i e) by (done || lia). by rewrite decide_False by lia. }
    exists t'. split; [done|]. split; [done|]. split; [|split; [congruence|]].
    + rewrite Hfs. etrans; [exact Hsh|apply same_shape_put].
    + intros j v Hj Hv. rewrite Hfs. pose proof (same_shape_clusters _ _ Hsh) as Hct.
      rewrite (fat_at_put _ _ _ _ _ (ok_geometry _ _ Hokt)) by lia. case_decide.
      * subst j. rewrite decide_True by lia. congruence.
      * rewrite (Hall j v) by done. repeat case_decide; done || lia.
  - exists s'. split_and!; [done..|]. intros i e Hi He. rewrite (Hall i e) by done.
    by rewrite decide_True by lia.
Qed.

(** *** The passes *)

Definition with_value (v : Z) (e : FAT_ENTRY) : FAT_ENTRY := FatEntry v (reserved e) (owner e) (prev e).

(** Every entry can be stored when a twelve-bit table has an even number of
    clusters, and that of 32 bits a [long] of four bytes. *)
Lemma even_storable long_size fs c :
  (fat_bits fs = 12 -> clusters fs mod 2 = 0) -> (fat_bits fs = 32 -> long_size <= 4) -> storable long_size fs c.
Proof. intros H12 H32. split; [|done]. intros Hb Hc. specialize (H12 Hb). split; dlia. Qed.

Lemma storable_shape long_size fs fs' c :
  same_shape fs fs' -> storable long_size fs c -> storable long_size fs' c.
Proof. by intros ->. Qed.

(** The entries that [f] changes can be stored. *)
Definition changes_storable (long_size : Z) (f : Z -> FAT_ENTRY -> FAT_ENTRY) (fs : DOS_FS) : Prop :=
  forall i e, 2 <= i < clusters fs + 2 -> fat_at fs i = Ret e -> f i e <> e -> storable long_size fs i.

Lemma special_values atari_format fs n :
  geometry_ok fs n ->
  0 <= FAT_EOF atari_format fs < 2 ^ eff_fat_bits fs /\ 0 <= FAT_BAD fs < 2 ^ eff_fat_bits fs /\
  FAT_IS_BAD atari_format fs (FAT_BAD fs) = true.
Proof.
  intros G. unfold FAT_EOF, FAT_IS_BAD, FAT_MIN_BAD, FAT_MAX_BAD, FAT_BAD, FAT_EXTD.
  destruct (g_bits _ _ G) as [[_ ->]|[[_ ->]|[_ ->]]]; destruct atari_format; by vm_compute.
Qed.

Lemma set_fat_step wi atari_format long_size i new s e v :
  fs_ok wi s -> 2 <= i < clusters (d_fs s) + 2 -> storable long_size (d_fs s) i ->
  fat_at (d_fs s) i = Ret e -> fat_value atari_format (d_fs s) new = v ->
  0 <= v < 2 ^ eff_fat_bits (d_fs s) ->
  exists s', set_fat wi atari_format long_size i new s = Ret s' /\ fs_ok wi s' /\
    d_fs s' = fat_put i (with_value v e) (d_fs s) /\
    length (device (d_io s')) = length (device (d_io s)).
Proof.
  intros Hok Hi Hst He <- Hv.
  destruct (set_fat_spec wi atari_format long_size i new s Hok Hi)
    as (s' & o & data & Hset & Hok' & Hfs & Hlen & _); [done|done|].
  exists s'. split_and!; [done|done| |done]. rewrite Hfs. unfold put_value. by rewrite He.
Qed.

Lemma no_step wi i s e :
  fs_ok wi s -> fat_at (d_fs s) i = Ret e ->
  fs_ok wi s /\ d_fs s = fat_put i e (d_fs s) /\ length (device (d_io s)) = length (device (d_io s)).
Proof. intros Hok He. by rewrite put_same. Qed.

(** What [reclaim_free] makes of an entry. *)
Definition reclaimed (atari_format : bool) (fs : DOS_FS) (e : FAT_ENTRY) : FAT_ENTRY :=
  if decide (owner e = None) then if FAT_IS_BAD atari_format fs (value e) then e else with_value 0 e
  else e.

Lemma reclaim_free_spec wi atari_format long_size s :
  fs_ok wi s -> changes_storable long_size (fun _ => reclaimed atari_format (d_fs s)) (d_fs s) ->
  exists s', reclaim_free wi atari_format long_size s = Ret s' /\ fs_ok wi s' /\
    same_shape (d_fs s) (d_fs s') /\ length (device (d_io s')) = length (device (d_io s)) /\
    forall i e, 2 <= i < clusters (d_fs s) + 2 -> fat_at (d_fs s) i = Ret e ->
      fat_at (d_fs s') i = Ret (reclaimed atari_format (d_fs s) e).
Proof.
  intros Hok Hst. apply (sweep wi _ (fun _ => reclaimed atari_format (d_fs s)) s Hok).
  intros i e t Hi Hokt Hsh Hlen Hes He. specialize (Hst i e Hi Hes).
  unfold reclaim_cluster. rewrite He. run. unfold reclaimed in *.
  replace (FAT_IS_BAD atari_format (d_fs t) (value e)) with (FAT_IS_BAD atari_format (d_fs s) (value e))
    by (by rewrite Hsh).
  case_bool_decide as Ho; [rewrite (decide_True _ _ Ho) in *|rewrite (decide_False _ _ Ho)]; cbn [andb];
    [|by eexists; split; [done|apply no_step]].
  destruct (FAT_IS_BAD _ _ _); cbn [negb]; [rewrite andb_false_r; by eexists; split; [done|apply no_step]|].
  rewrite andb_true_r. case_bool_decide as Hz.
  - apply set_fat_step; try done; [by rewrite (same_shape_clusters _ _ Hsh)| |].
    + apply (storable_shape _ _ _ _ Hsh), Hst. intros E. apply (f_equal value) in E. cbn in E. lia.
    + split; [lia|]. apply Z.pow_pos_nonneg; [lia|].
      destruct (g_bits _ _ (ok_geometry _ _ Hokt)) as [[_ ->]|[[_ ->]|[_ ->]]]; lia.
  - eexists. split; [done|]. assert (with_value 0 e = e) as ->; [|by apply no_step].
    destruct e as [ev ? ? ?]. cbn in Hz. by assert (ev = 0) as -> by lia.
Qed.

(** What [fix_bad] makes of the entry of cluster [i], on a device of [n] bytes. *)
Definition readable (bad_read : Z -> Z -> bool) (fs : DOS_FS) (n : nat) (i : Z) : bool :=
  negb (bad_read (cluster_start fs i) (cluster_size fs)) &&
  bool_decide (cluster_start fs i + cluster_size fs <= Z.of_nat n).

Definition tested (atari_format : bool) bad_read (fs : DOS_FS) (n : nat) (i : Z) (e : FAT_ENTRY) : FAT_ENTRY :=
  if decide (owner e = None) then
    if FAT_IS_BAD atari_format fs (value e) || readable bad_read fs n i then e
    else with_value (FAT_BAD fs) e
  else e.

Lemma fs_test_spec bad_read pos size s :
  0 <= pos -> 0 < size ->
  fs_test bad_read pos size s =
  Ret (negb (bad_read pos size) && bool_decide (pos + size <= Z.of_nat (length (device s)))).
Proof.
  intros Hp Hs. unfold fs_test, require. rewrite (bool_decide_eq_true_2 (0 <= pos)) by done. run.
  do 2 f_equal. apply bool_decide_ext. unfold read_at. rewrite length_take, length_drop. lia.
Qed.

Lemma fix_bad_spec wi atari_format bad_read long_size s :
  fs_ok wi s -> changes_storable long_size (tested atari_format bad_read (d_fs s) (length (device (d_io s)))) (d_fs s) ->
  0 <= data_start (d_fs s) -> 0 < cluster_size (d_fs s) ->
  exists s', fix_bad wi atari_format bad_read long_size s = Ret s' /\ fs_ok wi s' /\
    same_shape (d_fs s) (d_fs s') /\ length (device (d_io s')) = length (device (d_io s)) /\
    forall i e, 2 <= i < clusters (d_fs s) + 2 -> fat_at (d_fs s) i = Ret e ->
      fat_at (d_fs s') i = Ret (tested atari_format bad_read (d_fs s) (length (device (d_io s))) i e).
Proof.
  intros Hok Hst Hds Hcs. apply (sweep wi _ (tested _ _ (d_fs s) _) s Hok).
  intros i e t Hi Hokt Hsh Hlen Hes He. specialize (Hst i e Hi Hes). cbv beta zeta. rewrite He. run. unfold tested in *.
  replace (FAT_IS_BAD atari_format (d_fs t) (value e)) with (FAT_IS_BAD atari_format (d_fs s) (value e))
    by (by rewrite Hsh).
  case_bool_decide as Ho; [rewrite (decide_True _ _ Ho) in *|rewrite (decide_False _ _ Ho)]; cbn [andb];
    [|by eexists; split; [done|apply no_step]].
  destruct (FAT_IS_BAD _ _ (value e)) eqn:Hvb; cbn [negb orb] in *; [by eexists; split; [done|apply no_step]|].
  replace (cluster_start (d_fs t) i) with (cluster_start (d_fs s) i) by (by rewrite Hsh).
  replace (cluster_size (d_fs t)) with (cluster_size (d_fs s)) by (by rewrite Hsh).
  rewrite fs_test_spec by (unfold cluster_start; nia). run. rewrite <- Hlen in *.
  fold (readable bad_read (d_fs s) (length (device (d_io t))) i).
  destruct (readable _ _ _ _); [by eexists; split; [done|apply no_step]|].
  destruct (special_values atari_format _ _ (ok_geometry _ _ Hokt)) as (_ & Hbad & _).
  apply set_fat_step; try done; [by rewrite (same_shape_clusters _ _ Hsh)| | |].
  - apply (storable_shape _ _ _ _ Hsh), Hst. intros E. rewrite <- E in Hvb. cbn [value with_value] in Hvb.
    by destruct (special_values atari_format _ _ (ok_geometry _ _ Hok)) as (_ & _ & Hb); rewrite Hb in Hvb.
  - unfold fat_value. cbn. by rewrite Hsh.
  - by rewrite Hsh in Hbad |- *.
Qed.

(** *** Reading the table *)

Lemma get_fat_total junk fs n tab i :
  geometry_ok fs n -> Forall byte tab -> Z.of_nat (length tab) = eff_size fs -> 0 <= i < clusters fs + 2 ->
  exists e, get_fat junk tab i fs = Ret e /\ owner e = None /\
    0 <= value e < 2 ^ eff_fat_bits fs /\ (fat_bits fs = 32 -> 0 <= reserved e < 16).
Proof.
  intros G Htab Hlen Hi. destruct (decide (fat_bits fs = 12)) as [H12|Hb].
  - assert (Heff : eff_fat_bits fs = 12) by (destruct (g_bits _ _ G) as [[]|[[]|[]]]; lia).
    assert (i * 3 / 2 + 2 <= eff_size fs) by (unfold eff_size; rewrite H12; dlia).
    destruct (byte_at_in tab (i * 3 / 2)) as [b0 Hb0]; [dlia|].
    destruct (byte_at_in tab (i * 3 / 2 + 1)) as [b1 Hb1]; [dlia|].
    eexists. split; [apply (get_fat12 _ _ _ _ b0 b1); done || lia|]. cbn. split; [done|].
    split; [|lia]. pose proof (byte_at_byte _ _ _ Htab Hb0). pose proof (byte_at_byte _ _ _ Htab Hb1).
    rewrite Heff. change (2 ^ 12) with 4096. unfold dec12, byte in *. case_decide; dlia.
  - destruct (entry_wide_inside fs n i G Hb Hi). destruct (eff_size_wide fs n G Hb) as [Hw _].
    assert (Hbits : fat_bits fs = 16 \/ fat_bits fs = 32).
    { destruct (g_bits _ _ G) as [[]|[[]|[]]]; [done|by left|by right]. }
    eexists. split; [apply get_fat_wide; done || lia|]. cbv zeta.
    pose proof (little_endian_to_Z_bound 8 (read_at (i * entry_width fs) (entry_width fs) tab) ltac:(lia)
                  (read_at_bytes _ _ _ Htab)) as Hr.
    rewrite read_at_length in Hr by lia. set (w := little_endian_to_Z 8 _) in *. clearbody w.
    destruct (g_bits _ _ G) as [[]|[[H16 ->]|[H32 ->]]]; [done| |];
      unfold entry_width in Hr; rewrite ?H16, ?H32 in *.
    + by rewrite decide_True.
    + rewrite decide_False by done. cbn [owner value reserved]. split; [done|].
      change 0xfffffff with (Z.ones 28). rewrite Z.land_ones, Z.shiftr_div_pow2 by lia.
      change (2 ^ (32 / 8 * 8)) with 4294967296 in Hr. change (2 ^ 28) with 268435456. split; [dlia|].
      intros _. dlia.
Qed.

(** The prior contents of the entry are kept where it is not stored. *)
Lemma get_fat_junk junk junk' fs tab i e :
  get_fat junk tab i fs = Ret e -> (fat_bits fs <> 32 -> reserved junk' = reserved e) ->
  exists e', get_fat junk' tab i fs = Ret e' /\ value e' = value e /\ reserved e' = reserved e.
Proof.
  intros Hg Hr. unfold get_fat in *. case_bool_decide as H12; [|case_bool_decide as H16].
  - destruct (byte_at tab (i * 3 / 2)); [|done]. destruct (byte_at tab (i * 3 / 2 + 1)); [|done].
    revert Hg. run. intros [= <-]. eexists. split; [done|]. split; [done|]. apply Hr. lia.
  - destruct (mem_read _ _ _); [|done]. revert Hg. run. intros [= <-]. eexists. split; [done|].
    split; [done|]. apply Hr. lia.
  - case_bool_decide; [|done]. destruct (mem_read _ _ _); [|done]. revert Hg. run. intros [= <-].
    by eexists.
Qed.

(** Whether the media entry of a copy looks intact. *)
Definition media_ok (junk : FAT_ENTRY) (fs : DOS_FS) (tab : list Z) : bool :=
  match get_fat junk tab 0 fs with
  | Ret e => bool_decide (Z.land (value e) (FAT_EXTD fs) = FAT_EXTD fs)
  | Fault _ => false
  end.

(** The copy that the program works with, if it goes on. *)
Definition chosen (junk : FAT_ENTRY) (fs : DOS_FS) (disk : list Z) : option (list Z) :=
  let first := fat_copy fs 0 disk in
  let second := fat_copy fs 1 disk in
  if decide (nfats fs = 1 \/ first = second) then Some first
  else if media_ok junk fs first then Some first
  else if media_ok junk fs second then Some second
  else None.

Definition clipped (atari_format : bool) (fs : DOS_FS) (e : FAT_ENTRY) : FAT_ENTRY :=
  if decide (clusters fs + 2 <= value e < FAT_MIN_BAD atari_format fs)
  then with_value (FAT_EOF atari_format fs) e else e.

(** Writing one copy over the other. *)
Lemma overwrite_copy wi fs k io :
  io_ok wi io -> geometry_ok fs (length (device io)) -> Forall byte (vdisk io) -> k = 0 \/ k = 1 ->
  exists io', fs_write wi (fat_start fs + k * fat_size fs) (fat_copy fs (1 - k) (vdisk io)) io = Ret io' /\
    io_ok wi io' /\ Forall byte (vdisk io') /\ length (device io') = length (device io) /\
    forall j, j = 0 \/ j = 1 -> fat_copy fs j (vdisk io') = fat_copy fs (1 - k) (vdisk io).
Proof.
  intros Hio G Hby Hk. pose proof (eff_size_pos _ _ G). pose proof (g_start _ _ G).
  pose proof (g_size _ _ G). pose proof (g_end _ _ G). pose proof (g_small _ _ G).
  assert (Hlen : Z.of_nat (length (fat_copy fs (1 - k) (vdisk io))) = eff_size fs).
  { apply (fat_copy_length fs _ _ _ G); [apply vdisk_length|lia]. }
  destruct (fs_write_spec wi (fat_start fs + k * fat_size fs) (fat_copy fs (1 - k) (vdisk io)) io Hio)
    as (io' & -> & Hio' & Hv & Hl & _).
  { unfold change_ok. cbn [c_pos c_data]. rewrite Hlen. split_and!; nia. }
  exists io'. split_and!; [done|done| |done|].
  - rewrite Hv. apply write_at_bytes; [by apply read_at_bytes|done].
  - intros j Hj. rewrite Hv. unfold fat_copy at 1. destruct (decide (j = k)) as [->|Hne].
    + apply read_write_same; rewrite ?vdisk_length; [by rewrite Hlen|nia..].
    + rewrite read_write_outside; rewrite ?vdisk_length, ?Hlen; [|nia..].
      by replace (1 - k) with j by lia.
Qed.

(** The table before any entry is read. *)
Definition blank (junk : FAT_ENTRY) (fs : DOS_FS) : DOS_FS :=
  set_table (replicate (Z.to_nat (clusters fs + 2)) junk) fs.

(** The copy that is overwritten. *)
Definition stale (junk : FAT_ENTRY) (fs : DOS_FS) (disk : list Z) : Z :=
  if media_ok junk fs (fat_copy fs 0 disk) then 1 else 0.

Lemma chosen_other junk fs disk use :
  nfats fs <> 1 -> fat_copy fs 0 disk <> fat_copy fs 1 disk -> chosen junk fs disk = Some use ->
  (stale junk fs disk = 0 \/ stale junk fs disk = 1) /\ use = fat_copy fs (1 - stale junk fs disk) disk.
Proof.
  intros Hn Hne. unfold chosen, stale. rewrite decide_False by (by intros [?|?]).
  destruct (media_ok junk fs (fat_copy fs 0 disk)); [intros [= <-]; split; [by right|done]|].
  destruct (media_ok _ _ _); [|done]. intros [= <-]. split; [by left|done].
Qed.

Lemma choose_fat_spec wi junk fs io :
  io_ok wi io -> geometry_ok (blank junk fs) (length (device io)) -> Forall byte (vdisk io) ->
  nfats fs <> 1 -> fat_copy fs 0 (vdisk io) <> fat_copy fs 1 (vdisk io) ->
  choose_fat false wi junk (fat_copy fs 0 (vdisk io)) (fat_copy fs 1 (vdisk io)) (Dos io fs) =
  match chosen junk fs (vdisk io) with
  | None => Fault Died
  | Some use =>
      io' ← fs_write wi (fat_start fs + stale junk fs (vdisk io) * fat_size fs) use io;
      Ret (use, Dos io' fs)
  end.
Proof.
  intros Hio G Hby Hn Hne. unfold choose_fat, chosen, stale, media_ok. cbn [d_fs d_io].
  pose proof (fat_copy_length (blank junk fs) _ 0 (vdisk io) G (vdisk_length io) ltac:(by left)) as Hl0.
  pose proof (fat_copy_length (blank junk fs) _ 1 (vdisk io) G (vdisk_length io) ltac:(by right)) as Hl1.
  pose proof (g_clusters _ _ G) as Hcl. cbn in Hcl.
  destruct (get_fat_total junk (blank junk fs) _ (fat_copy fs 0 (vdisk io)) 0 G) as (e0 & He0 & _);
    [by apply read_at_bytes|done|cbn; lia|].
  destruct (get_fat_total junk (blank junk fs) _ (fat_copy fs 1 (vdisk io)) 0 G) as (e1 & He1 & _);
    [by apply read_at_bytes|done|cbn; lia|].
  change (get_fat junk ?t 0 (blank junk fs)) with (get_fat junk t 0 fs) in He0, He1.
  rewrite He0, He1. run. rewrite decide_False by (by intros [?|?]).
  do 2 case_bool_decide; rewrite ?Z.mul_1_l, ?Z.mul_0_l, ?Z.add_0_r; done.
Qed.

(** The two copies agree on what is chosen, and the disk holds it. *)
Definition table_read (wi atari_format : bool) (junk : FAT_ENTRY) (s : dos) (use : list Z) (s' : dos) : Prop :=
  fs_ok wi s' /\ same_shape (d_fs s) (d_fs s') /\
  length (device (d_io s')) = length (device (d_io s)) /\
  forall i, 2 <= i < clusters (d_fs s) + 2 -> exists e,
    get_fat junk use i (d_fs s) = Ret e /\ owner e = None /\
    fat_at (d_fs s') i = Ret (clipped atari_format (d_fs s) e).

(** Filling the table. *)
Lemma fill_table junk fs n use :
  geometry_ok (blank junk fs) n -> Forall byte use -> Z.of_nat (length use) = eff_size fs ->
  exists fs', each (fun i fs' => e ← get_fat junk use i fs'; Ret (fat_put i e fs'))
                (cluster_numbers fs) (blank junk fs) = Ret fs' /\
    same_shape fs fs' /\ geometry_ok fs' n /\ values_ok fs' /\ synced fs' use /\
    forall i, 2 <= i < clusters fs + 2 -> exists e,
      get_fat junk use i fs = Ret e /\ owner e = None /\ fat_at fs' i = Ret e.
Proof.
  intros G Hub Hul. pose proof (g_clusters _ _ G) as Hcl. cbn in Hcl.
  destruct (each_inv (fun k fs' => same_shape fs fs' /\ geometry_ok fs' n /\
      forall i, 2 <= i < k -> exists e,
        get_fat junk use i fs = Ret e /\ owner e = None /\ fat_at fs' i = Ret e)
    (fun i fs' => e ← get_fat junk use i fs'; Ret (fat_put i e fs')) 2 (clusters fs) (blank junk fs) Hcl)
    as (fs' & Hrun & Hsh & G' & Hall).
  - split_and!; [by destruct fs|done|lia].
  - intros i f Hi (Hsh & Gf & Hall).
    destruct (get_fat_total junk (blank junk fs) n use i G Hub Hul) as (e & He & Ho & _); [cbn; lia|].
    exists (fat_put i e f). replace (get_fat junk use i f) with (get_fat junk use i fs) by (by rewrite Hsh).
    change (get_fat junk use i (blank junk fs)) with (get_fat junk use i fs) in He.
    rewrite He. run. split; [done|]. split_and!.
    + etrans; [exact Hsh|apply same_shape_put].
    + by apply geometry_put.
    + intros j Hj. pose proof (same_shape_clusters _ _ Hsh).
      rewrite (fat_at_put _ n) by (done || lia). case_decide.
      * subst j. by exists e.
      * apply Hall. lia.
  - assert (Hin : forall i, 2 <= i < clusters fs' + 2 -> exists e, get_fat junk use i fs' = Ret e /\
      0 <= value e < 2 ^ eff_fat_bits fs' /\ (fat_bits fs' = 32 -> 0 <= reserved e < 16) /\
      fat_at fs' i = Ret e).
    { intros i Hi. rewrite (same_shape_clusters _ _ Hsh) in Hi.
      destruct (Hall i) as (e & He & _ & Hat); [lia|].
      destruct (get_fat_total junk (blank junk fs) n use i G Hub Hul) as (e' & He' & _ & Hr); [cbn; lia|].
      change (get_fat junk use i (blank junk fs)) with (get_fat junk use i fs) in He'.
      rewrite He in He'. injection He' as <-. exists e.
      assert (eff_fat_bits fs' = eff_fat_bits fs /\ fat_bits fs' = fat_bits fs /\
        get_fat junk use i fs' = get_fat junk use i fs) as (-> & -> & ->) by (by rewrite Hsh).
      by destruct Hr. }
    exists fs'. split; [done|]. split; [done|]. split; [done|]. split; [|split].
    + intros i v Hi Hv. destruct (Hin i Hi) as (e & _ & Hr1 & Hr2 & Hat). rewrite Hv in Hat.
      by injection Hat as ->.
    + intros i Hi. destruct (Hin i Hi) as (e & Hg & _ & _ & Hat). exists e.
      destruct (get_fat_junk junk e fs' use i e Hg) as (e' & Hg' & ? & ?); [done|]. by exists e'.
    + intros i Hi. apply Hall. lia.
Qed.

(** The entries of [use] that point behind the last cluster can be stored. *)
Definition clips_storable (atari_format : bool) (long_size : Z) (junk : FAT_ENTRY) (fs : DOS_FS) (use : list Z) : Prop :=
  forall i e, 2 <= i < clusters fs + 2 -> get_fat junk use i fs = Ret e ->
    clusters fs + 2 <= value e < FAT_MIN_BAD atari_format fs -> storable long_size fs i.

(** The second half of [read_fat]: the copies hold [use], and the table is made
    of it. *)
Lemma table_from wi atari_format long_size junk fs io use :
  io_ok wi io -> geometry_ok (blank junk fs) (length (device io)) -> Forall byte (vdisk io) ->
  clips_storable atari_format long_size junk fs use -> Forall byte use -> Z.of_nat (length use) = eff_size fs ->
  (forall k, k ∈ fat_copies fs -> fat_copy fs k (vdisk io) = use) ->
  exists s', (fs' ← each (fun i fs' => e ← get_fat junk use i fs'; Ret (fat_put i e fs'))
                      (cluster_numbers fs) (blank junk fs);
              each (check_entry wi atari_format long_size) (cluster_numbers fs') (Dos io fs')) = Ret s' /\
    table_read wi atari_format junk (Dos io fs) use s'.
Proof.
  intros Hio G Hby Hst Hub Hul Hcopies.
  destruct (fill_table junk fs _ use G Hub Hul) as (fs' & -> & Hsh & G' & Hv & Hsy & Hall). run.
  assert (Hok : fs_ok wi (Dos io fs')).
  { split; cbn [d_io d_fs]; try done. intros k Hk.
    assert (fat_copies fs' = fat_copies fs /\ fat_copy fs' = fat_copy fs) as [Hfc ->] by (by rewrite Hsh).
    rewrite Hcopies; [done|by rewrite <- Hfc]. }
  destruct (sweep wi (check_entry wi atari_format long_size) (fun _ => clipped atari_format fs) _ Hok)
    as (s' & Hrun & Hok' & Hsh' & Hlen & Hres).
  - cbn [d_fs d_io]. intros i e t Hi Hokt Hsht Hlen Hes He. unfold check_entry. rewrite He. run.
    assert (Hft : same_shape fs (d_fs t)) by (by etrans).
    unfold clipped. rewrite (same_shape_clusters _ _ Hft).
    replace (FAT_MIN_BAD atari_format (d_fs t)) with (FAT_MIN_BAD atari_format fs) by (by rewrite Hft).
    destruct (special_values atari_format _ _ (ok_geometry _ _ Hokt)) as (Heof & _).
    case_decide as Hc.
    + rewrite !bool_decide_eq_true_2 by lia. cbn [andb].
      apply set_fat_step; try done.
      * rewrite (same_shape_clusters _ _ Hft). by rewrite (same_shape_clusters _ _ Hsh) in Hi.
      * apply (storable_shape _ _ _ _ Hft). rewrite (same_shape_clusters _ _ Hsh) in Hi.
        destruct (Hall i Hi) as (e1 & Hg & _ & Hat). rewrite Hes in Hat. injection Hat as <-. by apply (Hst i e).
      * unfold fat_value. cbn. by rewrite Hft.
      * by rewrite Hft in Heof |- *.
    + assert (bool_decide (value e >= clusters fs + 2) &&
              bool_decide (value e < FAT_MIN_BAD atari_format fs) = false) as ->.
      { rewrite <- bool_decide_and. apply bool_decide_eq_false_2. lia. }
      eexists. split; [done|]. by apply no_step.
  - cbn [d_fs d_io] in *. rewrite (same_shape_clusters _ _ Hsh) in Hres. exists s'. split; [done|]. split; [done|]. split; [by etrans|]. split; [done|].
    intros i Hi. destruct (Hall i Hi) as (e & Hg & Ho & Hat). exists e. split_and!; [done|done|].
    by apply Hres.
Qed.

(** Reading the table: it stops when both copies are bad, and otherwise leaves a
    table in step with the disk. *)
Lemma read_fat_spec wi atari_format bad_read long_size junk s :
  io_ok wi (d_io s) -> geometry_ok (blank junk (d_fs s)) (length (device (d_io s))) ->
  Forall byte (vdisk (d_io s)) ->
  (forall pos size, bad_read pos size = false) ->
  match chosen junk (d_fs s) (vdisk (d_io s)) with
  | None => read_fat false wi atari_format bad_read long_size junk s = Fault Died
  | Some use => clips_storable atari_format long_size junk (d_fs s) use ->
      exists s', read_fat false wi atari_format bad_read long_size junk s = Ret s' /\
      table_read wi atari_format junk s use s'
  end.
Proof.
  intros Hio G Hby Hbad. destruct s as [io fs]. cbn [d_io d_fs] in *.
  pose proof (eff_size_pos _ _ G) as He. pose proof (g_start _ _ G). pose proof (g_size _ _ G).
  pose proof (g_end _ _ G). pose proof (g_small _ _ G). pose proof (g_copies _ _ G) as Hn.
  change (eff_size (blank junk fs)) with (eff_size fs) in *. cbn [blank set_table fat_start fat_size nfats] in *.
  assert (Hread : forall k, k = 0 \/ k = 1 ->
    fs_read bad_read (fat_start fs + k * fat_size fs) (eff_size fs) io = Ret (fat_copy fs k (vdisk io))).
  { intros k Hk. apply (fs_read_spec _ wi); try done; lia. }
  assert (Hbl : forall k, k = 0 \/ k = 1 -> Forall byte (fat_copy fs k (vdisk io)) /\
    Z.of_nat (length (fat_copy fs k (vdisk io))) = eff_size fs).
  { intros k Hk. split; [by apply read_at_bytes|].
    by apply (fat_copy_length (blank junk fs) _ k _ G (vdisk_length io)). }
  pose proof (Hread 0 ltac:(by left)) as Hr0. rewrite Z.mul_0_l, Z.add_0_r in Hr0.
  pose proof (Hread 1 ltac:(by right)) as Hr1. rewrite Z.mul_1_l in Hr1.
  destruct (Hbl 0 ltac:(by left)) as [Hb0 Hl0]. destruct (Hbl 1 ltac:(by right)) as [Hb1 Hl1].
  unfold read_fat. cbn [d_io d_fs]. rewrite Hr0. run.
  destruct (decide (nfats fs = 1 \/ fat_copy fs 0 (vdisk io) = fat_copy fs 1 (vdisk io))) as [Hsame|Hdiff].
  - unfold chosen. rewrite decide_True by done.
    assert (Hcop : forall k, k ∈ fat_copies fs -> fat_copy fs k (vdisk io) = fat_copy fs 0 (vdisk io)).
    { intros k Hk. apply elem_of_seqZ in Hk. destruct Hsame; [by replace k with 0 by lia|].
      assert (k = 0 \/ k = 1) as [-> | ->] by lia; done. }
    intros Hst. destruct (table_from wi atari_format long_size junk fs io _ Hio G Hby Hst Hb0 Hl0 Hcop) as (s' & Hrun & Ht).
    exists s'. split; [|done]. rewrite <- Hrun. case_bool_decide; [|done]. rewrite Hr1. run.
    rewrite bool_decide_eq_false_2; [done|]. intros Hne. destruct Hsame; [lia|done].
  - apply Decidable.not_or in Hdiff as [Hn1 Hne]. rewrite bool_decide_eq_true_2, Hr1 by lia. run.
    rewrite bool_decide_eq_true_2 by done. rewrite (choose_fat_spec wi junk fs io) by done.
    destruct (chosen junk fs (vdisk io)) as [use|] eqn:Ec; [|done].
    destruct (chosen_other junk fs (vdisk io) use Hn1 Hne Ec) as [Hk ->].
    set (k := stale junk fs (vdisk io)) in *.
    destruct (overwrite_copy wi (blank junk fs) k io Hio G Hby Hk) as (io' & Hw & Hio' & Hby' & Hlen & Hall).
    intros Hst. cbn [blank set_table fat_start fat_size] in Hw. change (fat_copy (blank junk fs)) with (fat_copy fs) in *.
    rewrite Hw. run. destruct (Hbl (1 - k) ltac:(lia)) as [Hbu Hlu].
    destruct (table_from wi atari_format long_size junk fs io' (fat_copy fs (1 - k) (vdisk io)))
      as (s' & Hrun & Ht); try done.
    { by rewrite Hlen. }
    { intros j Hj. apply elem_of_seqZ in Hj. apply Hall. lia. }
    exists s'. split; [exact Hrun|]. destruct Ht as (? & ? & Ht & ?).
    split_and!; try done. cbn [d_io] in *. congruence.
Qed.

(** *** Counting free clusters *)

Definition is_free (atari_format : bool) (fs : DOS_FS) (i : Z) : Prop :=
  match fat_at fs i with
  | Ret e => owner e = None /\ FAT_IS_BAD atari_format fs (value e) = false
  | Fault _ => False
  end.

#[global] Instance is_free_dec atari_format fs i : Decision (is_free atari_format fs i).
Proof. unfold is_free. destruct (fat_at fs i); apply _. Defined.

Definition free_count (atari_format : bool) (fs : DOS_FS) : Z :=
  Z.of_nat (length (filter (is_free atari_format fs) (cluster_numbers fs))).

Lemma count_free_spec atari_format fs n :
  geometry_ok fs n -> count_free atari_format fs = Ret (free_count atari_format fs).
Proof.
  intros G. unfold count_free, free_count.
  assert (Hl : forall l k, (forall i, i ∈ l -> 0 <= i < clusters fs + 2) ->
    each (fun i n => e ← fat_at fs i;
            Ret (if bool_decide (owner e = None) && negb (FAT_IS_BAD atari_format fs (value e))
                 then n + 1 else n)) l k
    = Ret (k + Z.of_nat (length (filter (is_free atari_format fs) l)))).
  { induction l as [|i l IH]; intros k Hin; [by rewrite Z.add_0_r|]. cbn [each].
    destruct (fat_at_in fs n i G) as [e He]; [apply Hin; by left|]. rewrite He. run.
    rewrite IH by (intros; apply Hin; by right). rewrite filter_cons.
    assert (Hiff : is_free atari_format fs i <->
      bool_decide (owner e = None) && negb (FAT_IS_BAD atari_format fs (value e)) = true).
    { unfold is_free. rewrite He, andb_true_iff, bool_decide_eq_true, negb_true_iff. done. }
    destruct (bool_decide _ && _); case_decide; cbn [length]; try (f_equal; lia); exfalso; intuition discriminate. }
  rewrite Hl; [done|]. intros i Hi. apply elem_of_seqZ in Hi. lia.
Qed.

(** [update_free] without questions. *)
Lemma update_free_spec wi atari_format long_size s :
  io_ok wi (d_io s) -> geometry_ok (d_fs s) (length (device (d_io s))) ->
  0 <= fsinfo_start (d_fs s) -> long_size = 4 \/ long_size = 8 ->
  fsinfo_start (d_fs s) + 512 <= Z.of_nat (length (device (d_io s))) ->
  let free := free_count atari_format (d_fs s) in
  exists s', update_free false wi atari_format long_size s = Ret (free, s') /\
    (fsinfo_start (d_fs s) = 0 \/ free_clusters (d_fs s) = free -> s' = s) /\
    (fsinfo_start (d_fs s) <> 0 -> free_clusters (d_fs s) <> free ->
       d_fs s' = set_free_clusters free (d_fs s) /\ io_ok wi (d_io s') /\
       vdisk (d_io s') = write_at (fsinfo_start (d_fs s) + 488)
         (Z_to_little_endian long_size 8 free) (vdisk (d_io s))).
Proof.
  intros Hio G Hfs Hls Hend free. unfold update_free. rewrite (count_free_spec _ _ _ G). run. fold free.
  destruct s as [io fs]. cbn [d_io d_fs] in *. case_bool_decide as H0.
  { eexists. split; [done|]. split; [done|]. intros ?. done. }
  destruct (decide (free_clusters fs = free)) as [Heq|Hne].
  - rewrite !bool_decide_eq_true_2; [|done|unfold free in Heq; rewrite Heq; unfold free_count; lia]. run.
    eexists. split; [done|]. split; [done|]. by intros ? ?.
  - rewrite (bool_decide_eq_false_2 (free = free_clusters fs)) by done. rewrite andb_false_r. run.
    destruct (fs_write_spec wi (fsinfo_start fs + 488) (Z_to_little_endian long_size 8 free) io Hio)
      as (io' & -> & Hio' & Hv & _).
    { unfold change_ok. cbn [c_pos c_data]. rewrite length_Z_to_little_endian by lia. lia. }
    run. eexists. split; [done|]. split; [by intros [?|?]|]. done.
Qed.

(** ** The properties *)

(** A file system to try things on: [cl] clusters of 2 bytes after one or two
    tables of [size] bytes, in memory and on the disk. *)
Definition sample (bits : Z) (copies cl size : Z) (info : Z) (table : list Z) (values : list Z) : dos :=
  let fs := DosFs copies 2 size bits bits 0 (2 + copies * size) 0 (2 + copies * size) 2 cl info (-1) 0
              (map (fun v => FatEntry v 0 None 0) values) in
  Dos (IoState ([170; 171] ++ table ++ table ++ replicate (Z.to_nat (2 * cl)) 7) [] false []) fs.

(** The invariant of a sample, by computation. *)
Definition fs_okb (s : dos) : bool :=
  let fs := d_fs s in
  let disk := vdisk (d_io s) in
  bool_decide (changes (d_io s) = []) && bool_decide (Forall byte disk) &&
  forallb (fun i =>
    match fat_at fs i with
    | Ret e => bool_decide (0 <= value e < 2 ^ eff_fat_bits fs) && bool_decide (0 <= reserved e < 16) &&
        forallb (fun k => match get_fat e (fat_copy fs k disk) i fs with
                          | Ret e' => bool_decide (value e' = value e /\ reserved e' = reserved e)
                          | Fault _ => false
                          end) (fat_copies fs)
    | Fault _ => false
    end) (cluster_numbers fs).

Lemma fs_okb_ok wi s :
  geometry_ok (d_fs s) (length (device (d_io s))) -> fs_okb s = true -> fs_ok wi s.
Proof.
  intros G. unfold fs_okb. rewrite !andb_true_iff, !bool_decide_eq_true, forallb_forall.
  intros [[Hch Hby] Hall].
  assert (Hin : forall i, 2 <= i < clusters (d_fs s) + 2 -> exists e, fat_at (d_fs s) i = Ret e /\
    0 <= value e < 2 ^ eff_fat_bits (d_fs s) /\ 0 <= reserved e < 16 /\
    forall k, k ∈ fat_copies (d_fs s) -> entry_synced (d_fs s) (fat_copy (d_fs s) k (vdisk (d_io s))) i).
  { intros i Hi. specialize (Hall i). rewrite <- list_elem_of_In in Hall.
    specialize (Hall ltac:(apply elem_of_seqZ; lia)).
    destruct (fat_at (d_fs s) i) as [e|] eqn:He; [|done].
    rewrite !andb_true_iff, !bool_decide_eq_true, forallb_forall in Hall.
    destruct Hall as [[Hv Hr] Hk]. exists e. split_and!; try done; try apply Hv; try apply Hr.
    intros k Hkin. specialize (Hk k). rewrite <- list_elem_of_In in Hk. specialize (Hk Hkin).
    destruct (get_fat e _ i (d_fs s)) as [e'|] eqn:He'; [|done].
    rewrite bool_decide_eq_true in Hk. by exists e, e'. }
  split; [split; [by rewrite Hch|done]|done| |done|].
  - intros i e Hi He. destruct (Hin i Hi) as (e' & He' & Hv & Hr & _). rewrite He in He'.
    by injection He' as <-.
  - intros k Hk i Hi. destruct (Hin i Hi) as (_ & _ & _ & _ & Hs). by apply Hs.
Qed.

(** C8: for an entry that can be stored and a new value that fits its width,
    [set_fat] keeps the table in memory and every copy of it on the disk in step:
    the entry has its new value, every other entry and all bytes of the disk
    outside of the two places for copies stay. All entries can be stored but those
    that [storable] excludes: in a twelve-bit table with an odd number of clusters
    the last and the last but two, where it goes wrong ([set_fat_odd_clusters]), and
    in one of 32 bits all of them if a [long] has eight bytes. *)
Theorem set_fat_in_step wi atari_format long_size c new s :
  fs_ok wi s -> 2 <= c < clusters (d_fs s) + 2 -> storable long_size (d_fs s) c ->
  0 <= fat_value atari_format (d_fs s) new < 2 ^ eff_fat_bits (d_fs s) ->
  exists s', set_fat wi atari_format long_size c new s = Ret s' /\ fs_ok wi s' /\
    (forall i e, 2 <= i < clusters (d_fs s) + 2 -> fat_at (d_fs s) i = Ret e ->
       fat_at (d_fs s') i =
       Ret (if decide (i = c) then with_value (fat_value atari_format (d_fs s) new) e else e)) /\
    (forall i : nat,
       ~ (fat_start (d_fs s) <= Z.of_nat i < fat_start (d_fs s) + eff_size (d_fs s)) ->
       ~ (fat_start (d_fs s) + fat_size (d_fs s) <= Z.of_nat i <
          fat_start (d_fs s) + fat_size (d_fs s) + eff_size (d_fs s)) ->
       vdisk (d_io s') !! i = vdisk (d_io s) !! i).
Proof.
  intros Hok Hc Hst Hnew. pose proof (ok_geometry _ _ Hok) as G.
  destruct (set_fat_spec wi atari_format long_size c new s Hok Hc Hst Hnew)
    as (s' & o & data & Hset & Hok' & Hfs & Hlen & _ & Ho & Hin & Hv & _).
  exists s'. split; [done|]. split; [done|]. split.
  - intros i e Hi He. rewrite Hfs. unfold put_value.
    destruct (fat_at_in _ _ c G) as [e0 He0]; [lia|]. rewrite He0.
    rewrite (fat_at_put _ _ _ _ _ G) by lia. case_decide as Hic; [|done]. subst i. rewrite He0 in He. by injection He as ->.
  - intros i H1 H2. pose proof (g_start _ _ G). pose proof (g_size _ _ G). pose proof (eff_size_pos _ _ G).
    destruct (decide (i < length (vdisk (d_io s)))%nat) as [Hi|Hi].
    + rewrite Hv, write_at_lookup, decide_False by (rewrite ?write_at_length; lia).
      by rewrite write_at_lookup, decide_False by lia.
    + rewrite !lookup_ge_None_2; [done|lia|]. rewrite Hv, !write_at_length. lia.
Qed.

Lemma set_fat_in_step_witness :
  let s := sample 12 2 4 9 0 [240; 255; 255; 3; 64; 0; 255; 15; 0] [0; 0; 3; 4; 0xfff; 0] in
  exists s', set_fat false false 4 5 2 s = Ret s' /\
    fat_at (d_fs s') 5 = Ret (FatEntry 2 0 None 0) /\ vdisk (d_io s') !! 1%nat = Some 171.
Proof.
  intros s.
  assert (Hok : fs_ok false s).
  { apply fs_okb_ok; [split; cbn; try lia; try done; by left|by vm_compute]. }
  destruct (set_fat_in_step false false 4 5 2 s Hok) as (s' & H1 & _ & H2 & H3).
  - cbn. lia.
  - by split.
  - by vm_compute.
  - exists s'. split; [done|]. split; [by rewrite (H2 5 (FatEntry 0 0 None 0)) by done|].
    rewrite H3; [done|intros [H _]; revert H; by vm_compute..].
Defined.

(** C5: [read_fat] without questions, on a device without read errors whose tables
    lie where the boot sector says: it works with the first copy when there is
    only one, the copies agree, or its media entry is intact, with the second
    when only that is intact, and stops otherwise. If no number past the last
    cluster stands in an entry that [set_fat] cannot store ([storable] excludes two
    entries of a twelve-bit table with an odd number of clusters, and all of 32 bits
    where a [long] has eight bytes), then afterwards every copy on the disk and the
    table in memory are in step; an entry has no owner and is the one on the disk,
    except that a number past the last cluster is replaced by the end mark. *)
Theorem read_fat_in_step wi atari_format bad_read long_size junk s :
  io_ok wi (d_io s) -> geometry_ok (blank junk (d_fs s)) (length (device (d_io s))) ->
  Forall byte (vdisk (d_io s)) -> (forall pos size, bad_read pos size = false) ->
  match chosen junk (d_fs s) (vdisk (d_io s)) with
  | None => read_fat false wi atari_format bad_read long_size junk s = Fault Died
  | Some use => clips_storable atari_format long_size junk (d_fs s) use ->
      exists s', read_fat false wi atari_format bad_read long_size junk s = Ret s' /\
      fs_ok wi s' /\ same_shape (d_fs s) (d_fs s') /\
      forall i, 2 <= i < clusters (d_fs s) + 2 -> exists e e',
        get_fat junk use i (d_fs s) = Ret e /\ fat_at (d_fs s') i = Ret e' /\ owner e' = None /\
        value e' = if decide (clusters (d_fs s) + 2 <= value e < FAT_MIN_BAD atari_format (d_fs s))
                   then FAT_EOF atari_format (d_fs s) else value e
  end.
Proof.
  intros Hio G Hby Hbad.
  pose proof (read_fat_spec wi atari_format bad_read long_size junk s Hio G Hby Hbad) as H.
  destruct (chosen _ _ _) as [use|]; [|done]. intros Hst. destruct (H Hst) as (s' & Hrun & Hok & Hsh & _ & Hall).
  exists s'. split_and!; [done..|]. intros i Hi. destruct (Hall i Hi) as (e & Hg & Ho & Hat).
  exists e. eexists. split; [done|]. split; [done|]. unfold clipped. by case_decide.
Qed.

Lemma read_fat_in_step_witness :
  let junk := FatEntry 0 0 None 0 in
  let s := sample 16 2 3 10 0 [240; 255; 255; 255; 3; 0; 99; 0; 247; 255] [] in
  exists s', read_fat false false false (fun _ _ => false) 4 junk s = Ret s' /\ fs_ok false s' /\
    exists e, fat_at (d_fs s') 3 = Ret e /\ value e = 0xfff8.
Proof.
  intros junk s.
  pose proof (read_fat_in_step false false (fun _ _ => false) 4 junk s) as H.
  destruct H as (s' & Hrun & Hok & _ & Hall).
  - done.
  - split; cbn; try lia; try done; right; by left.
  - apply (bool_decide_unpack _). by vm_compute.
  - done.
  - intros i e _ _ _. by apply even_storable.
  - exists s'. split; [done|]. split; [done|].
    destruct (Hall 3) as (e & e' & Hg & Hat & _ & Hv); [cbn; lia|]. exists e'. split; [done|].
    rewrite Hv. vm_compute in Hg. injection Hg as <-. by vm_compute.
Defined.

(** A cluster whose entry is zero and which has no owner. *)
Definition vacant (fs : DOS_FS) (i : Z) : Prop :=
  match fat_at fs i with Ret e => owner e = None /\ value e = 0 | Fault _ => False end.

#[global] Instance vacant_dec fs i : Decision (vacant fs i).
Proof. unfold vacant. destruct (fat_at fs i); apply _. Defined.

Lemma zero_not_bad atari_format fs n : geometry_ok fs n -> FAT_IS_BAD atari_format fs 0 = false.
Proof.
  intros G. unfold FAT_IS_BAD, FAT_MIN_BAD, FAT_MAX_BAD, FAT_EXTD.
  destruct (g_bits _ _ G) as [[_ ->]|[[_ ->]|[_ ->]]]; by destruct atari_format.
Qed.

(** What the two passes together make of an entry. *)
Definition swept (atari_format : bool) bad_read (fs : DOS_FS) (n : nat) (i : Z) (e : FAT_ENTRY) : FAT_ENTRY :=
  if decide (owner e <> None \/ FAT_IS_BAD atari_format fs (value e) = true) then e
  else with_value (if readable bad_read fs n i then 0 else FAT_BAD fs) e.

Lemma swept_passes atari_format bad_read fs m n i e :
  geometry_ok fs m ->
  reclaimed atari_format fs (tested atari_format bad_read fs n i e) = swept atari_format bad_read fs n i e.
Proof.
  intros G. destruct (special_values atari_format _ _ G) as (_ & _ & Hbad).
  unfold reclaimed, tested, swept. destruct (decide (owner e = None)) as [Ho|Ho].
  - destruct (FAT_IS_BAD atari_format fs (value e)) eqn:Hb; cbn [orb].
    + rewrite !decide_True, Hb by auto. done.
    + rewrite (decide_False (P := owner e <> None \/ false = true)) by (intros [?|?]; done).
      destruct (readable _ _ _ _); [by rewrite decide_True, Hb|].
      rewrite decide_True by done. cbn [value with_value]. by rewrite Hbad.
  - rewrite decide_False by done. by rewrite decide_True by auto.
Qed.

Lemma swept_changes atari_format bad_read fs m n i e :
  geometry_ok fs m -> let t := tested atari_format bad_read fs n i e in
  t <> e \/ reclaimed atari_format fs t <> t -> swept atari_format bad_read fs n i e <> e.
Proof.
  intros G t Ht E. rewrite <- (swept_passes _ _ _ m) in E by done. fold t in E.
  assert (Hte : t <> e) by (destruct Ht as [Ht|Ht]; [done|rewrite E in Ht; congruence]). clear Ht.
  unfold reclaimed, t, tested in *. destruct (special_values atari_format _ _ G) as (_ & _ & Hb).
  destruct (decide (owner e = None)) as [Ho|Ho]; [|done]. destruct (_ || _); [done|].
  cbn [owner with_value value] in E. rewrite Hb in E. by destruct (decide _).
Qed.

Lemma swept_vacant atari_format bad_read fs m n i e :
  geometry_ok fs m -> let e' := swept atari_format bad_read fs n i e in
  owner e' = None /\ FAT_IS_BAD atari_format fs (value e') = false <-> owner e' = None /\ value e' = 0.
Proof.
  intros G e'. pose proof (zero_not_bad atari_format _ _ G) as H0.
  destruct (special_values atari_format _ _ G) as (_ & _ & Hbad).
  split; [|by intros [? ->]]. unfold e', swept. case_decide as H.
  - intros [Ho Hb]. destruct H as [?|H]; [done|]. by rewrite Hb in H.
  - cbn [owner with_value value]. destruct (readable _ _ _ _); [by intros [? _]|].
    intros [_ Hb]. by rewrite Hbad in Hb.
Qed.

(** C10: [fix_bad] followed by [reclaim_free], when none of the entries that they
    change is one that [set_fat] cannot store ([storable]): every owned cluster is left as it
    was, the unreadable ones among the others are marked bad and the rest are
    freed, tables and disk stay in step, and the free clusters that [update_free]
    counts are then the zero entries without owner. *)
Theorem fix_then_reclaim wi atari_format bad_read long_size s :
  fs_ok wi s -> changes_storable long_size (swept atari_format bad_read (d_fs s) (length (device (d_io s)))) (d_fs s) ->
  0 <= data_start (d_fs s) -> 0 < cluster_size (d_fs s) ->
  exists s1 s2, fix_bad wi atari_format bad_read long_size s = Ret s1 /\
    reclaim_free wi atari_format long_size s1 = Ret s2 /\ fs_ok wi s2 /\
    (forall i e, 2 <= i < clusters (d_fs s) + 2 -> fat_at (d_fs s) i = Ret e ->
       fat_at (d_fs s2) i =
       Ret (if decide (owner e <> None \/ FAT_IS_BAD atari_format (d_fs s) (value e) = true) then e
            else with_value (if readable bad_read (d_fs s) (length (device (d_io s))) i
                             then 0 else FAT_BAD (d_fs s)) e)) /\
    count_free atari_format (d_fs s2) =
    Ret (Z.of_nat (length (filter (vacant (d_fs s2)) (cluster_numbers (d_fs s))))).
Proof.
  intros Hok Hst Hds Hcs. pose proof (ok_geometry _ _ Hok) as G.
  destruct (fix_bad_spec wi atari_format bad_read long_size s Hok) as (s1 & H1 & Hok1 & Hsh1 & Hlen1 & Hall1); [|done|done|].
  { intros i e Hi He Hne. apply (Hst i e Hi He), (swept_changes _ _ _ _ _ _ _ G). by left. }
  destruct (reclaim_free_spec wi atari_format long_size s1 Hok1) as (s2 & H2 & Hok2 & Hsh2 & _ & Hall2).
  { intros i e1 Hi He1 Hne. rewrite (same_shape_clusters _ _ Hsh1) in Hi. apply (storable_shape _ _ _ _ Hsh1).
    destruct (fat_at_in _ _ i G) as [e He]; [lia|]. rewrite (Hall1 i e Hi He) in He1. injection He1 as <-.
    apply (Hst i e Hi He). apply (swept_changes _ _ _ _ _ _ _ G). right. by rewrite Hsh1 in Hne. }
  assert (Hall : forall i e, 2 <= i < clusters (d_fs s) + 2 -> fat_at (d_fs s) i = Ret e ->
    fat_at (d_fs s2) i = Ret (swept atari_format bad_read (d_fs s) (length (device (d_io s))) i e)).
  { intros i e Hi He. rewrite (same_shape_clusters _ _ Hsh1) in Hall2.
    rewrite (Hall2 i _ Hi (Hall1 i e Hi He)). f_equal. rewrite <- (swept_passes _ _ _ _ _ _ _ G).
    by rewrite Hsh1. }
  exists s1, s2. split_and!; [done|done|done|exact Hall|].
  rewrite (count_free_spec _ _ _ (ok_geometry _ _ Hok2)). unfold free_count, cluster_numbers.
  assert (Hsh : same_shape (d_fs s) (d_fs s2)) by (by etrans).
  rewrite (same_shape_clusters _ _ Hsh). do 3 f_equal. apply filter_iff_in.
  intros i Hi. apply elem_of_seqZ in Hi. destruct (fat_at_in _ _ i G) as [e He]; [lia|].
  unfold is_free, vacant. rewrite (Hall i e) by (done || lia).
  replace (FAT_IS_BAD atari_format (d_fs s2)) with (FAT_IS_BAD atari_format (d_fs s)) by (by rewrite Hsh).
  apply (swept_vacant _ _ _ _ _ _ _ G).
Qed.

Lemma fix_then_reclaim_witness :
  let s := sample 16 2 3 10 0 [240; 255; 255; 255; 3; 0; 255; 255; 7; 0] [0; 0; 3; 0xffff; 7] in
  exists s1 s2, fix_bad false false (fun pos _ => bool_decide (pos = 24)) 4 s = Ret s1 /\
    reclaim_free false false 4 s1 = Ret s2 /\
    fat_at (d_fs s2) 2 = Ret (FatEntry 0 0 None 0) /\ fat_at (d_fs s2) 3 = Ret (FatEntry 0xfff7 0 None 0).
Proof.
  intros s.
  assert (Hok : fs_ok false s).
  { apply fs_okb_ok; [split; cbn; try lia; try done; right; by left|by vm_compute]. }
  destruct (fix_then_reclaim false false (fun pos _ => bool_decide (pos = 24)) 4 s Hok)
    as (s1 & s2 & H1 & H2 & _ & Hall & _).
  - intros i e _ _ _. by apply even_storable.
  - done.
  - done.
  - exists s1, s2. split; [done|]. split; [done|]. split.
    + by rewrite (Hall 2 (FatEntry 3 0 None 0)) by done.
    + by rewrite (Hall 3 (FatEntry 0xffff 0 None 0)) by done.
Defined.

(** The second place for a copy is written even when there is only one: the
    store of a sixteen-bit entry overwrites two bytes behind the only table. *)
Theorem set_fat_behind_single wi atari_format long_size c new s :
  fs_ok wi s -> nfats (d_fs s) = 1 -> fat_bits (d_fs s) = 16 -> 2 <= c < clusters (d_fs s) + 2 ->
  let v := fat_value atari_format (d_fs s) new in
  0 <= v < 2 ^ 16 ->
  exists s', set_fat wi atari_format long_size c new s = Ret s' /\
    read_at (fat_start (d_fs s) + nfats (d_fs s) * fat_size (d_fs s) + 2 * c) 2 (vdisk (d_io s')) =
    Z_to_little_endian 2 8 v.
Proof.
  intros Hok H1 H16 Hc v Hv. pose proof (ok_geometry _ _ Hok) as G.
  assert (Heff : eff_fat_bits (d_fs s) = 16) by (destruct (g_bits _ _ G) as [[]|[[]|[]]]; lia).
  assert (Hst : storable long_size (d_fs s) c) by (split; intros; lia).
  destruct (set_fat_spec wi atari_format long_size c new s Hok Hc Hst) as
    (s' & o & data & Hset & _ & _ & _ & _ & Ho & Hin & Hvd & Hb); [by rewrite Heff|].
  fold v in Hb. destruct (fat_at_in _ _ c G) as [e He]; [lia|].
  rewrite (fat_bytes_wide _ _ _ _ _ e G) in Hb by (done || lia || by rewrite Heff).
  unfold word_of, entry_width in Hb. rewrite H16, decide_True in Hb by done. change (16 / 8) with 2 in Hb.
  injection Hb as Ho' <-. assert (o = 2 * c) as -> by lia. exists s'. split; [done|].
  pose proof (g_start _ _ G). pose proof (g_size _ _ G). pose proof (g_end _ _ G).
  pose proof (vdisk_length (d_io s)).
  rewrite Hvd, H1. replace (fat_start (d_fs s) + 1 * fat_size (d_fs s) + 2 * c)
    with (fat_start (d_fs s) + 2 * c + fat_size (d_fs s)) by lia.
  rewrite length_Z_to_little_endian in Hin by lia.
  apply read_write_same; rewrite ?length_Z_to_little_endian, ?write_at_length; lia.
Qed.

Lemma set_fat_behind_single_witness :
  let s := sample 16 1 3 10 0 [240; 255; 255; 255; 3; 0; 255; 255; 7; 0] [0; 0; 3; 0xffff; 7] in
  exists s', set_fat false false 8 2 4 s = Ret s' /\ read_at 16 2 (vdisk (d_io s')) = [4; 0].
Proof.
  intros s.
  assert (Hok : fs_ok false s).
  { apply fs_okb_ok; [split; cbn; try lia; try done; right; by left|by vm_compute]. }
  destruct (set_fat_behind_single false false 8 2 4 s Hok) as (s' & H1 & H2); [done..|].
  exists s'. split; [exact H1|]. rewrite <- H2 at 1. done.
Defined.

(** A twelve-bit table with an odd number of clusters: storing the entry of
    the last cluster reads past the table in memory, and storing that of the
    last but two clears the low four bits of its neighbour on the disk, where
    memory keeps them. *)
Theorem set_fat_odd_clusters wi atari_format long_size new s :
  fs_ok wi s -> fat_bits (d_fs s) = 12 -> clusters (d_fs s) mod 2 = 1 -> 3 <= clusters (d_fs s) ->
  0 <= fat_value atari_format (d_fs s) new < 2 ^ 12 ->
  set_fat wi atari_format long_size (clusters (d_fs s) + 1) new s = Fault OutOfBounds /\
  exists s' e e', set_fat wi atari_format long_size (clusters (d_fs s) - 1) new s = Ret s' /\
    fat_at (d_fs s') (clusters (d_fs s)) = Ret e /\
    get_fat e (fat_copy (d_fs s') 0 (vdisk (d_io s'))) (clusters (d_fs s)) (d_fs s') = Ret e' /\
    value e' = value e / 16 * 16.
Proof.
  intros Hok H12 Hodd Hcl Hnew. pose proof Hok as [Hio G Hv Hby Hsy].
  set (fs := d_fs s) in *. set (v := fat_value atari_format fs new) in *. change (2 ^ 12) with 4096 in Hnew.
  split.
  - unfold set_fat. fold fs. fold (fat_value atari_format fs new). fold v. unfold fat_bytes.
    rewrite (bool_decide_eq_true_2 (fat_bits fs = 12)), land_bit0, odd_mod by (done || lia).
    rewrite (bool_decide_eq_false_2 (_ = 1)), (bool_decide_eq_false_2 (_ = clusters fs - 1)) by dlia.
    assert (fat_at fs (clusters fs + 1 + 1) = Fault OutOfBounds) as ->; [|done].
    unfold fat_at. by rewrite bool_decide_eq_true_2, lookup_ge_None_2 by (rewrite ?(g_table _ _ G); lia).
  - set (c := clusters fs - 1) in *.
    assert (Hb : fat_bytes long_size fs c v = Ret (fat_start fs + c * 3 / 2, [v mod 256; v / 256])).
    { unfold fat_bytes. rewrite (bool_decide_eq_true_2 (fat_bits fs = 12)), land_bit0, odd_mod by (done || lia).
      rewrite (bool_decide_eq_false_2 (c mod 2 = 1)), (bool_decide_eq_true_2 (c = _)) by dlia. run.
      destruct (put12_even v 0 Hnew) as [Hd0 Hd1]. rewrite Z.land_0_r, Z.shiftl_0_l in Hd1.
      rewrite Hd0, Hd1. by rewrite Z.mod_0_l, Z.mul_0_l by lia. }
    destruct (entry12_inside fs c H12) as [Hc1 Hc2]; [lia|].
    destruct (fat_at_in fs _ c G) as [e0 He0]; [lia|].
    destruct (set_fat_run wi atari_format long_size c new s (c * 3 / 2) _ e0 Hio G He0 Hb)
      as (s' & Hrun & Hfs & _ & _ & _ & Hvd); [lia|fold fs; cbn [length]; lia..|]. fold fs in Hfs, Hvd.
    destruct (fat_at_in fs _ (clusters fs) G) as [e He]; [lia|].
    set (tab := fat_copy fs 0 (vdisk (d_io s))).
    assert (Htab : Forall byte tab) by by apply read_at_bytes.
    assert (Htl : Z.of_nat (length tab) = eff_size fs).
    { apply (fat_copy_length _ _ _ _ G (vdisk_length _)). by left. }
    assert (Hcs : clusters fs * 3 / 2 = c * 3 / 2 + 1) by (unfold c; dlia).
    destruct (entry12_inside fs (clusters fs) H12) as [Hi1 Hi2]; [lia|].
    destruct (byte_at_in tab (clusters fs * 3 / 2)) as [b0 Hb0]; [lia|].
    destruct (byte_at_in tab (clusters fs * 3 / 2 + 1)) as [b1 Hb1]; [lia|].
    assert (Hs0 : synced fs tab).
    { apply Hsy, elem_of_seqZ. pose proof (g_copies _ _ G). lia. }
    destruct (bytes_of_entry fs tab (clusters fs) e b0 b1) as (Hbb0 & Hbb1 & Hval); try done; [lia|].
    exists s', e. eexists. split; [done|]. rewrite Hfs. split.
    { rewrite (fat_at_put _ _ _ _ _ G) by lia. rewrite decide_False by (unfold c; lia). done. }
    rewrite Hvd. change (fat_copy (fat_put c _ fs)) with (fat_copy fs).
    rewrite (fat_copy_write _ _ 0 _ _ _ G) by (cbn [length]; lia || apply vdisk_length || by left). fold tab.
    split.
    { apply (get_fat12 _ _ _ _ (v / 256) b1); [done|lia| | |].
      - apply write_at_bytes; [|done]. apply Forall_cons. split; [unfold byte; dlia|].
        apply Forall_singleton. unfold byte. dlia.
      - rewrite byte_at_two by lia. rewrite decide_False, decide_True by lia. done.
      - rewrite byte_at_two by lia. rewrite !decide_False by lia. done. }
    cbn [value]. rewrite Hval. unfold dec12. rewrite !decide_True by done.
    unfold byte in *. rewrite Z.div_add_l, (Z.div_small (b0 / 16)), (Z.div_small (v / 256)) by dlia. lia.
Qed.

Lemma set_fat_odd_clusters_witness :
  let s := sample 12 2 3 8 0 [240; 255; 255; 0; 80; 0; 0; 0] [0; 0; 0; 5; 0] in
  set_fat false false 4 4 7 s = Fault OutOfBounds /\
  exists s' e e', set_fat false false 4 2 7 s = Ret s' /\ fat_at (d_fs s') 3 = Ret e /\
    get_fat e (fat_copy (d_fs s') 0 (vdisk (d_io s'))) 3 (d_fs s') = Ret e' /\
    value e' = value e / 16 * 16.
Proof.
  intros s.
  assert (Hok : fs_ok false s).
  { apply fs_okb_ok; [split; cbn; try lia; try done; by left|by vm_compute]. }
  apply (set_fat_odd_clusters false false 4 7 s Hok); done.
Defined.

(** When the summary of free clusters is wrong, [update_free] corrects it in
    memory and on the disk; the store is as wide as an [unsigned long], so with
    eight bytes the number of the next cluster behind it is set to zero. *)
Theorem update_free_summary wi atari_format long_size s :
  io_ok wi (d_io s) -> geometry_ok (d_fs s) (length (device (d_io s))) ->
  0 < fsinfo_start (d_fs s) -> long_size = 4 \/ long_size = 8 ->
  fsinfo_start (d_fs s) + 512 <= Z.of_nat (length (device (d_io s))) ->
  let free := free_count atari_format (d_fs s) in
  free_clusters (d_fs s) <> free -> free < 2 ^ 32 ->
  exists s', update_free false wi atari_format long_size s = Ret (free, s') /\
    d_fs s' = set_free_clusters free (d_fs s) /\
    read_at (fsinfo_start (d_fs s) + 488) 4 (vdisk (d_io s')) = Z_to_little_endian 4 8 free /\
    (long_size = 8 -> read_at (fsinfo_start (d_fs s) + 492) 4 (vdisk (d_io s')) = [0; 0; 0; 0]) /\
    read_at (fsinfo_start (d_fs s)) 488 (vdisk (d_io s')) = read_at (fsinfo_start (d_fs s)) 488 (vdisk (d_io s)).
Proof.
  intros Hio G Hfs Hls Hend free Hne Hfree.
  destruct (update_free_spec wi atari_format long_size s Hio G) as (s' & Hrun & _ & Hch); [lia|done|done|].
  destruct Hch as (Hfs' & _ & Hv); [lia|done|]. fold free in Hrun, Hfs', Hv.
  exists s'. split; [done|]. split; [done|].
  pose proof (vdisk_length (d_io s)) as Hlen. rewrite Hv.
  assert (H0 : 0 <= free) by (unfold free, free_count; lia).
  assert (Hle : Z.of_nat (length (Z_to_little_endian long_size 8 free)) = long_size).
  { apply length_Z_to_little_endian. lia. }
  assert (Hl4 : Z.of_nat (length (Z_to_little_endian 4 8 free)) = 4) by by apply length_Z_to_little_endian.
  assert (Hw : long_size = 8 -> Z_to_little_endian long_size 8 free = Z_to_little_endian 4 8 free ++ [0; 0; 0; 0]).
  { intros ->. apply (little_endian_extend 4 4); [lia..|]. change (2 ^ (4 * 8)) with (2 ^ 32). lia. }
  split_and!.
  - destruct Hls as [-> | ->]; [apply read_write_same; lia|]. rewrite Hw in * by done.
    rewrite write_at_app by lia. rewrite read_write_outside by (rewrite ?write_at_length; cbn [length]; lia).
    apply read_write_same; lia.
  - intros ->. rewrite Hw in * by done. rewrite write_at_app by lia. rewrite Hl4.
    replace (fsinfo_start (d_fs s) + 488 + 4) with (fsinfo_start (d_fs s) + 492) by lia.
    apply read_write_same; rewrite ?write_at_length; cbn [length]; lia.
  - apply read_write_outside; lia.
Qed.

Lemma update_free_summary_witness :
  let s := set_free_clusters 99 (d_fs (sample 16 2 3 10 40 (replicate 10 0) [0; 0; 0; 0xffff; 0xfff7])) in
  exists s', update_free false false false 8 (Dos (IoState (replicate 600 9) [] false []) s) = Ret (2, s') /\
    read_at 528 8 (vdisk (d_io s')) = [2; 0; 0; 0; 0; 0; 0; 0].
Proof.
  intros s.
  destruct (update_free_summary false false 8 (Dos (IoState (replicate 600 9) [] false []) s))
    as (s' & Hrun & _ & _ & H8 & _).
  - done.
  - split; cbn; try lia; try done; right; by left.
  - done.
  - by right.
  - done.
  - done.
  - done.
  - exists s'. split; [exact Hrun|]. specialize (H8 eq_refl). vm_compute in Hrun. by injection Hrun as <-.
Defined.
