(* ===== verification/DosBoot.v ===== *)
(** * The boot sector of dosfsck

    [C/dosfstools-2.11/dosfsck/boot.c]: the geometry that the boot sector gives,
    the checks on it, the backup of the boot sector and the summary sector of
    FAT32. *)

From S2P Require Import Prelude DosIo DosFat.

(** ** Sectors

    A sector is the list of its 512 bytes; the fields of the packed structures
    are at fixed offsets. *)

(** A little-endian field of [n] bytes at [off]. *)
Definition field (off n : Z) (b : list Z) : Z := little_endian_to_Z 8 (read_at off n b).

(* @src C/dosfstools-2.11/dosfsck/dosfsck.h:49-77 boot_sector *)
Definition sector_size := field 11 2.
Definition sec_per_clus := field 13 1.
Definition reserved_sectors := field 14 2.
Definition fats := field 16 1.
Definition dir_entries := field 17 2.
Definition sectors := field 19 2.
Definition fat_length := field 22 2.
Definition secs_track := field 24 2.
Definition heads := field 26 2.
Definition total_sect := field 32 4.
Definition fat32_length := field 36 4.
Definition boot_root_cluster := field 44 4.
Definition info_sector := field 48 2.
Definition backup_boot := field 50 2.

Definition set_info_sector (v : Z) (b : list Z) : list Z := write_at 48 (Z_to_little_endian 2 8 v) b.
Definition set_backup_boot (v : Z) (b : list Z) : list Z := write_at 50 (Z_to_little_endian 2 8 v) b.

(* @src C/dosfstools-2.11/dosfsck/dosfsck.h:79-89 info_sector *)
Definition info_magic := field 0 4.
Definition info_signature := field 484 4.
Definition info_free := field 488 4.
Definition info_boot_sign := field 510 2.

(* @src C/dosfstools-2.11/dosfsck/boot.c:192-199 init_fsinfo *)
Definition init_fsinfo (i : list Z) : list Z :=
  let i := write_at 0 (Z_to_little_endian 4 8 0x41615252) i in
  let i := write_at 484 (Z_to_little_endian 4 8 0x61417272) i in
  let i := write_at 488 (Z_to_little_endian 4 8 (u32 (-1))) i in
  let i := write_at 492 (Z_to_little_endian 4 8 2) i in
  write_at 510 (Z_to_little_endian 2 8 0xaa55) i.

Definition set_backupboot_start n (fs : DOS_FS) : DOS_FS :=
  DosFs (nfats fs) (fat_start fs) (fat_size fs) (fat_bits fs) (eff_fat_bits fs)
    (root_cluster fs) (root_start fs) (root_entries fs) (data_start fs) (cluster_size fs)
    (clusters fs) (fsinfo_start fs) (free_clusters fs) n (fat fs).

Definition set_fsinfo_start n (fs : DOS_FS) : DOS_FS :=
  DosFs (nfats fs) (fat_start fs) (fat_size fs) (fat_bits fs) (eff_fat_bits fs)
    (root_cluster fs) (root_start fs) (root_entries fs) (data_start fs) (cluster_size fs)
    (clusters fs) n (free_clusters fs) (backupboot_start fs) (fat fs).

Definition set_fat_bits bits eff (fs : DOS_FS) : DOS_FS :=
  DosFs (nfats fs) (fat_start fs) (fat_size fs) bits eff
    (root_cluster fs) (root_start fs) (root_entries fs) (data_start fs) (cluster_size fs)
    (clusters fs) (fsinfo_start fs) (free_clusters fs) (backupboot_start fs) (fat fs).

Section Boot.

(** The options, the reads that fail, the bytes of a [long], the major number of
    the device, and what an uninitialised summary sector holds. *)
Variables interactive write_immed atari_format : bool.
Variable bad_read : Z -> Z -> bool.
Variables long_size device_no : Z.
Variable stale : list Z.

(* @src C/dosfstools-2.11/dosfsck/boot.c:19-19 ROUND_TO_MULTIPLE *)
Definition ROUND_TO_MULTIPLE (n m : Z) : Z :=
  if bool_decide (n <> 0) && bool_decide (m <> 0) then u32 (n + m - 1 - (n - 1) mod m) else 0.

(** ** The backup of the boot sector *)

(** The sector chosen for a new backup. *)
(* @src C/dosfstools-2.11/dosfsck/boot.c:133-139 check_backup_boot *)
Definition backup_sector (b : list Z) : Z :=
  if bool_decide (reserved_sectors b >= 7) && bool_decide (info_sector b <> 6) then 6
  else
    let bbs := reserved_sectors b - 1 in
    if bool_decide (bbs = info_sector b) then bbs - 1 else bbs.

(** The boot sector in memory and the state afterwards. *)
(* @src C/dosfstools-2.11/dosfsck/boot.c:116-190 check_backup_boot *)
Definition check_backup_boot (b : list Z) (lss : Z) (s : dos) : outcome (list Z * dos) :=
  let fs := d_fs s in
  if bool_decide (backupboot_start fs = 0) then
    if bool_decide (reserved_sectors b < 3) then Ret (b, s)
    else
      '(yes, io) ←
        (if interactive then '(k, io) ← get_key "12" (d_io s); Ret (bool_decide (k = 49), io)
         else Ret (true, d_io s));
      if (yes : bool) then
        let bbs := backup_sector b in
        start ← int_mul bbs lss;
        let b := set_backup_boot bbs b in
        io ← fs_write write_immed start b io;
        io ← fs_write write_immed 50 (read_at 50 2 b) io;
        Ret (b, Dos io (set_backupboot_start start fs))
      else Ret (b, Dos io fs)
  else
    b2 ← fs_read bad_read (backupboot_start fs) 512 (d_io s);
    if bool_decide (b <> b2) then
      '(k, io) ← (if interactive then get_key "123" (d_io s) else Ret (51, d_io s));
      if bool_decide (k = 49) then
        io ← fs_write write_immed (backupboot_start fs) b io; Ret (b, Dos io fs)
      else if bool_decide (k = 50) then
        io ← fs_write write_immed 0 b2 io; Ret (b, Dos io fs)
      else Ret (b, Dos io fs)
    else Ret (b, s).

(** ** The summary sector *)

(** The first reserved sector that is not the backup, or the number of reserved
    sectors. *)
(* @src C/dosfstools-2.11/dosfsck/boot.c:214-216 read_fsinfo *)
Fixpoint free_reserved (fuel : nat) (b : list Z) (s : Z) : Z :=
  match fuel with
  | O => s
  | S fuel =>
      if bool_decide (s < reserved_sectors b) then
        if bool_decide (s <> backup_boot b) then s else free_reserved fuel b (s + 1)
      else s
  end.

(** A new summary sector: [None] when there is none and none was created. *)
(* @src C/dosfstools-2.11/dosfsck/boot.c:205-234 read_fsinfo *)
Definition find_fsinfo (b : list Z) (lss : Z) (s : dos) : outcome (option (list Z) * dos) :=
  if bool_decide (info_sector b = 0) then
    if interactive then
      '(k, io) ← get_key "12" (d_io s);
      if bool_decide (k = 49) then
        let n := free_reserved (Z.to_nat (reserved_sectors b)) b 1 in
        if bool_decide (n > 0) && bool_decide (n < reserved_sectors b) then
          io ← fs_write write_immed (n * lss) (init_fsinfo stale) io;
          let b := set_info_sector n b in
          io ← fs_write write_immed 48 (read_at 48 2 b) io;
          io ← (if bool_decide (backupboot_start (d_fs s) <> 0)
                then fs_write write_immed (backupboot_start (d_fs s) + 48) (read_at 48 2 b) io
                else Ret io);
          Ret (Some b, Dos io (d_fs s))
        else Ret (None, Dos io (d_fs s))
      else Ret (None, Dos io (d_fs s))
    else Ret (None, s)
  else Ret (Some b, s).

Definition fsinfo_valid (i : list Z) : bool :=
  bool_decide (info_magic i = 0x41615252) && bool_decide (info_signature i = 0x61417272) &&
  bool_decide (info_boot_sign i = 0xaa55).

(* @src C/dosfstools-2.11/dosfsck/boot.c:201-267 read_fsinfo *)
Definition read_fsinfo (b : list Z) (lss : Z) (s : dos) : outcome dos :=
  '(found, s) ← find_fsinfo b lss s;
  match found with
  | None => Ret s
  | Some b =>
      start ← int_mul (info_sector b) lss;
      i ← fs_read bad_read start 512 (d_io s);
      let fs := set_fsinfo_start start (d_fs s) in
      '(i, s) ←
        (if fsinfo_valid i then Ret (i, Dos (d_io s) fs)
         else
           '(yes, io) ←
             (if interactive then '(k, io) ← get_key "12" (d_io s); Ret (bool_decide (k = 49), io)
              else Ret (true, d_io s));
           if (yes : bool) then
             let i := init_fsinfo i in
             io ← fs_write write_immed start i io; Ret (i, Dos io fs)
           else Ret (i, Dos io (set_fsinfo_start 0 fs)));
      Ret (if bool_decide (fsinfo_start (d_fs s) <> 0)
           then Dos (d_io s) (set_free_clusters (swrap (8 * long_size) (info_free i)) (d_fs s))
           else s)
  end.

(** ** The geometry *)

Definition total_sectors (b : list Z) : Z :=
  if bool_decide (sectors b <> 0) then sectors b else total_sect b.

Definition fat_sectors (b : list Z) : Z :=
  if bool_decide (fat_length b <> 0) then fat_length b else fat32_length b.

(** The fields that are computed before the size of an entry is known. *)
(* @src C/dosfstools-2.11/dosfsck/boot.c:280-303 read_boot *)
Definition layout (b : list Z) (fs : DOS_FS) : DOS_FS :=
  let lss := sector_size b in
  let cs := sec_per_clus b * lss in
  let rstart := (reserved_sectors b + u32 (fats b * fat_sectors b)) * lss in
  let dstart := rstart + ROUND_TO_MULTIPLE (u32 (dir_entries b * 32)) lss in
  let data_size := total_sectors b * lss - dstart in
  DosFs (fats b) (reserved_sectors b * lss) (u32 (fat_sectors b * lss))
    (fat_bits fs) (eff_fat_bits fs) 0 rstart (dir_entries b) dstart cs
    (wrap (8 * long_size) (Z.quot data_size cs)) 0 (-1) (backupboot_start fs) (fat fs).

Definition set_root_cluster n (fs : DOS_FS) : DOS_FS :=
  DosFs (nfats fs) (fat_start fs) (fat_size fs) (fat_bits fs) (eff_fat_bits fs)
    n (root_start fs) (root_entries fs) (data_start fs) (cluster_size fs)
    (clusters fs) (fsinfo_start fs) (free_clusters fs) (backupboot_start fs) (fat fs).

Definition is_fat32 (b : list Z) : bool :=
  bool_decide (fat_length b = 0) && bool_decide (fat32_length b <> 0).

(** The size of an entry on a file system that is not FAT32. *)
(* @src C/dosfstools-2.11/dosfsck/boot.c:327-347 read_boot *)
Definition small_bits (b : list Z) (fs : DOS_FS) : Z :=
  if negb atari_format then if bool_decide (clusters fs > 4084) then 16 else 12
  else if bool_decide (wrap (8 * long_size) (clusters fs + 2) > u32 (u32 (fat_sectors b * sector_size b) * 8) / 16)
          || bool_decide (device_no = 2)
          || ((bool_decide (device_no = 1) || bool_decide (device_no = 7)) &&
              (bool_decide (total_sectors b = 720) || bool_decide (total_sectors b = 1440) ||
               bool_decide (total_sectors b = 2880)))
  then 12 else 16.

(* @src C/dosfstools-2.11/dosfsck/boot.c:304-326 read_boot *)
Definition read_fat32 (b : list Z) (s : dos) : outcome dos :=
  let fs := set_root_cluster (boot_root_cluster b) (d_fs s) in
  _ ← require (negb (bool_decide (root_cluster fs = 0) && bool_decide (root_entries fs = 0))) Died;
  start ← int_mul (backup_boot b) (sector_size b);
  '(b, s) ← check_backup_boot b (sector_size b) (Dos (d_io s) (set_backupboot_start start fs));
  read_fsinfo b (sector_size b) s.

(** The checks at the end. *)
(* @src C/dosfstools-2.11/dosfsck/boot.c:351-364 read_boot *)
Definition geometry_check (b : list Z) (fs : DOS_FS) : bool :=
  negb (bool_decide (clusters fs > wrap 64 (fat_size fs * 8 / fat_bits fs - 2))) &&
  negb (bool_decide (root_entries fs = 0) && bool_decide (root_cluster fs = 0)) &&
  bool_decide (Z.land (root_entries fs) 15 = 0) &&
  bool_decide (Z.land (sector_size b) 511 = 0) &&
  (atari_format || negb (bool_decide (secs_track b = 0) || bool_decide (heads b = 0))).

(* @src C/dosfstools-2.11/dosfsck/boot.c:269-366 read_boot *)
Definition read_boot (s : dos) : outcome dos :=
  b ← fs_read bad_read 0 512 (d_io s);
  let lss := sector_size b in
  _ ← require (bool_decide (lss <> 0)) Died;
  _ ← require (bool_decide (sec_per_clus b * lss <> 0)) Died;
  _ ← require (bool_decide (fats b = 2) || bool_decide (fats b = 1)) Died;
  _ ← fs_test bad_read (u32 (Z.land (total_sectors b) (Z.lnot 1) - 1) * lss) lss (d_io s);
  let fs := layout b (d_fs s) in
  s ← (if is_fat32 b then
         s ← read_fat32 b (Dos (d_io s) fs);
         Ret (Dos (d_io s) (set_fat_bits 32 28 (d_fs s)))
       else
         let bits := small_bits b fs in
         Ret (Dos (d_io s) (set_fat_bits bits bits fs)));
  _ ← require (geometry_check b (d_fs s)) Died;
  Ret s.

End Boot.

(** ** Facts about the pieces *)

Lemma bind_ret_inv {A B} (m : outcome A) (k : A -> outcome B) b :
  m ≫= k = Ret b -> exists a, m = Ret a /\ k a = Ret b.
Proof. destruct m as [a|]; [|done]. intros H. by exists a. Qed.

Lemma require_inv P f u : require P f = Ret u -> P = true.
Proof. by destruct P. Qed.

(** Take a run of a program apart, bind by bind and test by test. *)
Ltac invert_run :=
  repeat match goal with
  | H : _ ≫= _ = Ret _ |- _ =>
      let a := fresh "a" in let E := fresh "Run" in
      apply bind_ret_inv in H; destruct H as (a & E & H); cbv beta in H
  | H : require _ _ = Ret _ |- _ => apply require_inv in H
  | H : (let '(_, _) := ?a in _) = Ret _ |- _ => destruct a
  | H : Ret _ = Ret _ |- _ => injection H as H; subst
  | H : Fault _ = Ret _ |- _ => discriminate H
  | H : (if ?c then _ else _) = Ret _ |- _ => destruct c eqn:?
  end.

Lemma fs_write_device wi pos data io io' :
  fs_write wi pos data io = Ret io' -> length (device io') = length (device io).
Proof.
  unfold fs_write. intros H. destruct wi; invert_run; [|done]. cbn. apply write_at_length.
Qed.

Lemma get_key_device valid io k io' : get_key valid io = Ret (k, io') -> device io' = device io.
Proof. unfold get_key. intros H. by invert_run. Qed.

(** What the FAT32 part leaves alone. *)
Definition geometry (fs : DOS_FS) :=
  (nfats fs, fat_start fs, fat_size fs, root_start fs, root_entries fs, data_start fs,
   cluster_size fs, clusters fs, fat fs).

Definition kept (s s' : dos) : Prop :=
  geometry (d_fs s') = geometry (d_fs s) /\
  length (device (d_io s')) = length (device (d_io s)).

#[export] Instance kept_preorder : PreOrder kept.
Proof.
  split; [done|]. intros a b c [H1 H2] [H3 H4]. split; congruence.
Qed.

Ltac kept_run :=
  invert_run;
  repeat match goal with
  | H : fs_write _ _ _ _ = Ret _ |- _ => apply fs_write_device in H
  | H : get_key _ _ = Ret _ |- _ => apply get_key_device in H
  end;
  split; cbn in *;
  repeat match goal with |- context [if ?c then _ else _] => destruct c end;
  first [reflexivity | cbn in *; congruence].

Lemma check_backup_boot_kept inter wi bad b lss s b' s' :
  check_backup_boot inter wi bad b lss s = Ret (b', s') -> kept s s'.
Proof. unfold check_backup_boot. intros H. kept_run. Qed.

Lemma find_fsinfo_kept inter wi stale b lss s o s' :
  find_fsinfo inter wi stale b lss s = Ret (o, s') -> kept s s'.
Proof. unfold find_fsinfo. intros H. kept_run. Qed.

Lemma read_fsinfo_kept inter wi bad long_size stale b lss s s' :
  read_fsinfo inter wi bad long_size stale b lss s = Ret s' -> kept s s'.
Proof.
  unfold read_fsinfo. intros H. apply bind_ret_inv in H as ([o t] & Hf & H).
  apply find_fsinfo_kept in Hf. etrans; [exact Hf|]. clear Hf. destruct o as [c|]; [kept_run|by injection H as ->].
Qed.

Lemma read_fat32_kept inter wi bad long_size stale b s s' :
  read_fat32 inter wi bad long_size stale b s = Ret s' -> kept s s'.
Proof.
  unfold read_fat32. intros H. apply bind_ret_inv in H as (u & _ & H).
  apply bind_ret_inv in H as (start & _ & H). apply bind_ret_inv in H as ([c t] & Hb & H).
  apply check_backup_boot_kept in Hb. apply read_fsinfo_kept in H. etrans; [|exact H].
  etrans; [|exact Hb]. done.
Qed.

(** ** The geometry that is accepted *)

Lemma field_byte off n b : 0 <= n -> Forall byte b -> 0 <= field off n b < 2 ^ (n * 8).
Proof.
  intros Hn Hb. unfold field.
  pose proof (little_endian_to_Z_bound 8 (read_at off n b) ltac:(lia) (read_at_bytes _ _ _ Hb)) as [H1 H2].
  split; [done|]. eapply Z.lt_le_trans; [exact H2|]. apply Z.pow_le_mono_r; [lia|].
  assert (length (read_at off n b) <= Z.to_nat n)%nat by (unfold read_at; rewrite length_take; lia). lia.
Qed.

Lemma round_to_multiple n m : 0 <= n -> 0 < m -> n + m < 2 ^ 32 -> n <= ROUND_TO_MULTIPLE n m <= n + m.
Proof.
  intros Hn Hm Hs. unfold ROUND_TO_MULTIPLE. case_bool_decide; cbn [andb]; [|lia].
  rewrite bool_decide_eq_true_2 by lia. cbn [andb]. unfold wrap.
  pose proof (Z.mod_pos_bound (n - 1) m Hm). rewrite Z.mod_small; lia.
Qed.

Lemma round_to_multiple_pos n m : 0 <= ROUND_TO_MULTIPLE n m.
Proof. unfold ROUND_TO_MULTIPLE. case_match; [|done]. unfold wrap. by apply Z.mod_pos_bound. Qed.

(** The sizes of a plausible boot sector for a device of [n] bytes: two tables,
    not empty and below two gigabytes, and no more sectors than the device has. *)
Record boot_fits (b : list Z) (n : nat) : Prop := {
  f_bytes : Forall byte b;
  f_two : fats b = 2;
  f_table : 0 < fat_sectors b * sector_size b < 2 ^ 31;
  f_disk : total_sectors b * sector_size b <= Z.of_nat n;
}.

(** The number of clusters that passes the check is the true one. *)
Lemma clusters_checked long_size q fat_size bits :
  long_size = 4 \/ long_size = 8 -> bits = 12 \/ bits = 16 \/ bits = 32 ->
  512 <= fat_size < 2 ^ 31 -> - 2 ^ 30 <= q < 2 ^ 32 ->
  wrap (8 * long_size) q <= wrap 64 (fat_size * 8 / bits - 2) ->
  0 <= q /\ wrap (8 * long_size) q = q /\ ((q + 2) * bits + 7) / 8 <= fat_size.
Proof.
  intros Hl Hb Hf Hq. unfold wrap at 2. change (2 ^ 31) with 2147483648 in *. change (2 ^ 32) with 4294967296 in *. change (- 2 ^ 30) with (-1073741824) in Hq.
  rewrite Z.mod_small by (change (2 ^ 64) with 18446744073709551616; destruct Hb as [->|[->| ->]]; dlia).
  intros Hw. destruct (decide (0 <= q)) as [H0|H0].
  - assert (Hq' : wrap (8 * long_size) q = q).
    { unfold wrap. apply Z.mod_small. destruct Hl as [->| ->]; [change (2 ^ (8 * 4)) with 4294967296|
        change (2 ^ (8 * 8)) with 18446744073709551616]; lia. }
    rewrite Hq' in Hw |- *. split; [done|]. split; [done|]. destruct Hb as [->|[->| ->]]; dlia.
  - exfalso. unfold wrap in Hw. destruct Hl as [->| ->];
      [change (2 ^ (8 * 4)) with 4294967296 in Hw|change (2 ^ (8 * 8)) with 18446744073709551616 in Hw];
      rewrite <- (Z.mod_add _ 1), Z.mod_small in Hw by lia; destruct Hb as [->|[->| ->]]; dlia.
Qed.

(** What is left when a boot sector passes. *)
Lemma read_boot_inv inter wi atari_format bad long_size dev stale s s' b :
  fs_read bad 0 512 (d_io s) = Ret b ->
  read_boot inter wi atari_format bad long_size dev stale s = Ret s' ->
  sector_size b <> 0 /\ sec_per_clus b * sector_size b <> 0 /\ (fats b = 2 \/ fats b = 1) /\
  (exists bits eff t, kept (Dos (d_io s) (layout long_size b (d_fs s))) t /\
     s' = Dos (d_io t) (set_fat_bits bits eff (d_fs t)) /\
     ((bits = 12 /\ eff = 12) \/ (bits = 16 /\ eff = 16) \/ (bits = 32 /\ eff = 28)) /\
     (is_fat32 b = false -> t = Dos (d_io s) (layout long_size b (d_fs s)))) /\
  geometry_check atari_format b (d_fs s') = true.
Proof.
  intros Hb H. unfold read_boot in H. rewrite Hb in H. revert H. run. intros H.
  apply bind_ret_inv in H as (u1 & H1%require_inv%bool_decide_eq_true & H).
  apply bind_ret_inv in H as (u2 & H2%require_inv%bool_decide_eq_true & H).
  apply bind_ret_inv in H as (u3 & H3%require_inv & H).
  apply bind_ret_inv in H as (u4 & _ & H). apply bind_ret_inv in H as (t & Ht & H).
  apply bind_ret_inv in H as (u5 & H5%require_inv & H). injection H as ->.
  rewrite orb_true_iff, !bool_decide_eq_true in H3. split_and!; try done.
  destruct (is_fat32 b).
  - apply bind_ret_inv in Ht as (t' & Ht' & Ht). injection Ht as <-.
    apply read_fat32_kept in Ht'. exists 32, 28, t'. split_and!; [done|done|auto|done].
  - injection Ht as <-. eexists _, _, _. split; [reflexivity|]. split; [reflexivity|]. split; [|done].
    unfold small_bits. repeat case_match; auto.
Qed.

Lemma quot_bounds a c l m t :
  0 < l <= c -> 0 <= m -> 0 <= t -> - m * l <= a <= t * l -> - m <= Z.quot a c <= t.
Proof.
  intros Hl Hm Ht Ha. destruct (decide (0 <= a)).
  - pose proof (Z.quot_pos a c ltac:(lia) ltac:(lia)).
    pose proof (Z.quot_le_upper_bound a c t ltac:(lia) ltac:(nia)). lia.
  - replace a with (- (- a)) by lia. rewrite Z.quot_opp_l by lia.
    pose proof (Z.quot_pos (- a) c ltac:(lia) ltac:(lia)).
    pose proof (Z.quot_le_upper_bound (- a) c m ltac:(lia) ltac:(nia)). lia.
Qed.

Lemma total_sectors_range b : Forall byte b -> 0 <= total_sectors b < 2 ^ 32.
Proof.
  intros Hby. unfold total_sectors. pose proof (field_byte 19 2 b ltac:(lia) Hby) as H2.
  pose proof (field_byte 32 4 b ltac:(lia) Hby) as H4. change (2 ^ (2 * 8)) with 65536 in H2.
  change (2 ^ (4 * 8)) with 4294967296 in H4. change (2 ^ 32) with 4294967296. unfold sectors, total_sect.
  case_bool_decide; lia.
Qed.

(** The arithmetic of the layout. *)
Lemma layout_sizes long_size b fs n :
  boot_fits b n -> sector_size b <> 0 -> Z.land (sector_size b) 511 = 0 ->
  sec_per_clus b * sector_size b <> 0 ->
  let q := Z.quot (total_sectors b * sector_size b - data_start (layout long_size b fs))
             (cluster_size (layout long_size b fs)) in
  clusters (layout long_size b fs) = wrap (8 * long_size) q /\
  512 <= fat_size (layout long_size b fs) < 2 ^ 31 /\ 0 < cluster_size (layout long_size b fs) /\
  0 <= fat_start (layout long_size b fs) /\
  fat_start (layout long_size b fs) + 2 * fat_size (layout long_size b fs) =
    root_start (layout long_size b fs) /\
  root_start (layout long_size b fs) + 32 * root_entries (layout long_size b fs) <= data_start (layout long_size b fs) /\
  0 <= root_entries (layout long_size b fs) /\
  - 2 ^ 30 <= q < 2 ^ 32.
Proof.
  intros [Hby H2 Ht Hd] H0 H511 Hcs. cbn [layout clusters fat_size cluster_size fat_start root_start root_entries data_start].
  pose proof (field_byte 11 2 b ltac:(lia) Hby) as Hss. fold (sector_size b) in Hss.
  pose proof (field_byte 13 1 b ltac:(lia) Hby) as Hspc. fold (sec_per_clus b) in Hspc.
  pose proof (field_byte 14 2 b ltac:(lia) Hby) as Hres. fold (reserved_sectors b) in Hres.
  pose proof (field_byte 17 2 b ltac:(lia) Hby) as Hde. fold (dir_entries b) in Hde.
  pose proof (total_sectors_range b Hby) as Htot.
  change (2 ^ (2 * 8)) with 65536 in *. change (2 ^ (1 * 8)) with 256 in *.
  change (2 ^ 31) with 2147483648 in *. change (2 ^ 32) with 4294967296 in *. change (- 2 ^ 30) with (-1073741824).
  change 511 with (Z.ones 9) in H511. rewrite Z.land_ones in H511 by lia. change (2 ^ 9) with 512 in H511.
  assert (H512 : 512 <= sector_size b) by dlia.
  assert (Hfs : 0 < fat_sectors b < 4194304) by nia.
  assert (Hspc0 : 1 <= sec_per_clus b) by nia.
  assert (u32 (2 * fat_sectors b) = 2 * fat_sectors b) as Hu1 by (cint; apply Z.mod_small; lia).
  assert (u32 (fat_sectors b * sector_size b) = fat_sectors b * sector_size b) as Hu2
    by (cint; apply Z.mod_small; lia).
  assert (u32 (dir_entries b * 32) = dir_entries b * 32) as Hu3 by (cint; apply Z.mod_small; lia).
  rewrite H2, Hu1, Hu2, Hu3.
  pose proof (round_to_multiple (dir_entries b * 32) (sector_size b) ltac:(lia) ltac:(lia) ltac:(lia)) as Hr.
  split; [done|]. split; [nia|]. split; [nia|]. split; [nia|]. split; [lia|]. split; [lia|]. split; [lia|].
  pose proof (quot_bounds (total_sectors b * sector_size b -
      ((reserved_sectors b + 2 * fat_sectors b) * sector_size b +
       ROUND_TO_MULTIPLE (dir_entries b * 32) (sector_size b)))
    (sec_per_clus b * sector_size b) (sector_size b)
    (reserved_sectors b + 2 * fat_sectors b + dir_entries b + 1) (total_sectors b)) as Hq.
  destruct Hq; [nia..|lia].
Qed.

#[local] Arguments layout : simpl never.

Lemma geometry_check_bits atari_format b fs :
  (fat_bits fs = 12 \/ fat_bits fs = 16 \/ fat_bits fs = 32) -> geometry_check atari_format b fs = true ->
  clusters fs <= wrap 64 (fat_size fs * 8 / fat_bits fs - 2) /\ Z.land (sector_size b) 511 = 0.
Proof.
  intros Hb. unfold geometry_check. rewrite !andb_true_iff, !negb_true_iff, !bool_decide_eq_true.
  rewrite bool_decide_eq_false. intros ([[[H1 _] _] H2] & _). split; [lia|done].
Qed.

(** An accepted boot sector that fits the device and has a cluster. *)
Lemma read_boot_spec inter wi atari_format bad long_size dev stale s s' junk :
  let n := length (device (d_io s)) in
  let b := read_at 0 512 (vdisk (d_io s)) in
  io_ok wi (d_io s) -> (512 <= n)%nat -> (forall pos size, bad pos size = false) ->
  long_size = 4 \/ long_size = 8 -> boot_fits b n ->
  read_boot inter wi atari_format bad long_size dev stale s = Ret s' -> 0 < clusters (d_fs s') ->
  length (device (d_io s')) = n /\ geometry_ok (blank junk (d_fs s')) n /\
  fat_start (d_fs s') + nfats (d_fs s') * fat_size (d_fs s') = root_start (d_fs s') /\
  root_start (d_fs s') + 32 * root_entries (d_fs s') <= data_start (d_fs s') /\ 0 < cluster_size (d_fs s') /\
  data_start (d_fs s') + clusters (d_fs s') * cluster_size (d_fs s') <= Z.of_nat n /\
  (is_fat32 b = false -> d_io s' = d_io s).
Proof.
  intros n b Hio Hn Hbad Hls Hfit Hrun Hpos.
  assert (Hb : fs_read bad 0 512 (d_io s) = Ret b) by (apply (fs_read_spec _ wi); [done|lia..|done]).
  destruct (read_boot_inv _ _ _ _ _ _ _ _ _ _ Hb Hrun)
    as (H0 & Hcs & _ & (bits & eff & t & [Hg Hlen] & -> & Hbits & Hplain) & Hchk).
  cbn [d_fs d_io] in *.
  assert (fat_bits (set_fat_bits bits eff (d_fs t)) = bits) as Hfb by done.
  destruct (geometry_check_bits _ _ _ ltac:(rewrite Hfb; lia) Hchk) as [Hcl H511].
  destruct (layout_sizes long_size b (d_fs s) n Hfit H0 H511 Hcs)
    as (Hq & Hfs & Hcs0 & Hst & Hroot & Hdata & Hre0 & Hqr).
  assert (clusters (d_fs t) = clusters (layout long_size b (d_fs s)) /\
          fat_size (d_fs t) = fat_size (layout long_size b (d_fs s)) /\
          fat_start (d_fs t) = fat_start (layout long_size b (d_fs s)) /\
          root_start (d_fs t) = root_start (layout long_size b (d_fs s)) /\
          data_start (d_fs t) = data_start (layout long_size b (d_fs s)) /\
          cluster_size (d_fs t) = cluster_size (layout long_size b (d_fs s)) /\
          nfats (d_fs t) = 2 /\ root_entries (d_fs t) = root_entries (layout long_size b (d_fs s)))
    as (E1 & E2 & E3 & E4 & E5 & E6 & E7 & E8).
  { rewrite <- (f_two _ _ Hfit). by injection Hg. }
  cbn [set_fat_bits clusters fat_size fat_start root_start root_entries data_start cluster_size nfats fat_bits] in *.
  rewrite E1, E2, E3, E4, E5, E6, E7, E8 in *.
  set (q := Z.quot _ _) in *. rewrite Hq in Hcl, Hpos |- *.
  destruct (clusters_checked long_size q _ bits Hls ltac:(lia) Hfs Hqr Hcl) as (Hq0 & Hqe & Heff).
  rewrite Hqe in *.
  pose proof (f_disk _ _ Hfit) as Hdisk.
  assert (Hdq : data_start (layout long_size b (d_fs s)) + q * cluster_size (layout long_size b (d_fs s))
                <= total_sectors b * sector_size b).
  { pose proof (Z.mul_quot_le (total_sectors b * sector_size b - data_start (layout long_size b (d_fs s)))
      (cluster_size (layout long_size b (d_fs s)))) as Hm. fold q in Hm.
    destruct (decide (0 <= total_sectors b * sector_size b - data_start (layout long_size b (d_fs s)))); [lia|].
    assert (q <= 0); [|lia]. subst q. apply Z.quot_le_upper_bound; lia. }
  assert (0 <= q * cluster_size (layout long_size b (d_fs s))) by nia.
  split; [done|]. split; [split|split_and!]; cbn; rewrite ?length_replicate, ?E1, ?E2, ?E3, ?E7, ?Hq, ?Hqe; try lia.
  - unfold eff_size. cbn. rewrite ?E1, ?E2, ?Hq, ?Hqe. lia.
  - unfold eff_size. cbn. rewrite ?E1, ?Hq, ?Hqe. lia.
  - intros Hf. by rewrite (Hplain Hf).
Qed.

(** *** Fields that are stored *)

Lemma field_write_same off n v b :
  0 <= off -> 0 <= n -> off + n <= Z.of_nat (length b) ->
  field off n (write_at off (Z_to_little_endian n 8 v) b) = v mod 2 ^ (n * 8).
Proof.
  intros Ho Hn Hl. unfold field. pose proof (length_Z_to_little_endian n 8 v Hn) as Hlen.
  rewrite read_write_same by lia. by apply little_endian_to_Z_to_little_endian.
Qed.

Lemma field_write_other off n q data b :
  0 <= off -> 0 <= q -> 0 <= n -> off + n <= Z.of_nat (length b) ->
  q + Z.of_nat (length data) <= off \/ off + n <= q ->
  field off n (write_at q data b) = field off n b.
Proof. intros. unfold field. by rewrite read_write_outside. Qed.

Lemma init_fsinfo_length i : length (init_fsinfo i) = length i.
Proof. unfold init_fsinfo. by rewrite !write_at_length. Qed.

Lemma init_fsinfo_bytes i : Forall byte i -> Forall byte (init_fsinfo i).
Proof.
  intros H. unfold init_fsinfo.
  repeat (apply write_at_bytes; [by apply (Z_to_little_endian_bound _ 8)|]). done.
Qed.

(** What a new summary sector says. *)
Lemma init_fsinfo_fields i :
  length i = 512%nat -> fsinfo_valid (init_fsinfo i) = true /\ info_free (init_fsinfo i) = 2 ^ 32 - 1.
Proof.
  intros Hi. unfold fsinfo_valid, info_magic, info_signature, info_boot_sign, info_free, init_fsinfo.
  assert (Hl : forall n v, 0 <= n -> Z.of_nat (length (Z_to_little_endian n 8 v)) = n)
    by (intros; by apply length_Z_to_little_endian).
  repeat first [rewrite field_write_same by (rewrite ?write_at_length, ?Hi; lia)
               |rewrite field_write_other by (rewrite ?write_at_length, ?Hi, ?Hl; lia)].
  done.
Qed.

(** ** The properties *)

(** C6: a boot sector that [read_boot] accepts on a device without read errors,
    with two tables that are not empty and have less than 2 GB each, whose total
    size fits the device ([boot_fits]) and leaves room for a cluster, describes (with
    a [long] of four or eight bytes) a
    sound file system: both copies of the table hold an entry for every cluster,
    and tables, root directory and clusters follow one another on the device
    without overlap. (Without the sizes of the tables this fails:
    [read_boot_without_table].) *)
Theorem read_boot_geometry inter wi atari_format bad long_size dev stale s s' junk :
  let n := length (device (d_io s)) in
  io_ok wi (d_io s) -> (512 <= n)%nat -> (forall pos size, bad pos size = false) ->
  long_size = 4 \/ long_size = 8 -> boot_fits (read_at 0 512 (vdisk (d_io s))) n ->
  read_boot inter wi atari_format bad long_size dev stale s = Ret s' -> 0 < clusters (d_fs s') ->
  geometry_ok (blank junk (d_fs s')) n /\
  fat_start (d_fs s') + nfats (d_fs s') * fat_size (d_fs s') = root_start (d_fs s') /\
  root_start (d_fs s') + 32 * root_entries (d_fs s') <= data_start (d_fs s') /\ 0 < cluster_size (d_fs s') /\
  (forall c, 2 <= c < clusters (d_fs s') + 2 ->
     data_start (d_fs s') <= cluster_start (d_fs s') c /\
     cluster_start (d_fs s') c + cluster_size (d_fs s') <= Z.of_nat n).
Proof.
  intros n Hio Hn Hbad Hls Hfit Hrun Hpos.
  destruct (read_boot_spec _ _ _ _ _ _ _ _ _ junk Hio Hn Hbad Hls Hfit Hrun Hpos)
    as (_ & G & Hr & Hd & Hc & He & _).
  split_and!; try done. all: unfold cluster_start; nia.
Qed.

(** A floppy of eight sectors: the boot sector, two tables and the root directory
    in a sector each, four clusters. *)
Definition floppy : list Z :=
  let boot := write_at 11 [0; 2; 1; 1; 0; 2; 16; 0; 8; 0; 240; 1; 0; 9; 0; 2; 0] (replicate 512 0) in
  let table := write_at 0 [240; 255; 255; 3; 64; 0; 255; 15; 0] (replicate 512 0) in
  boot ++ table ++ table ++ replicate 2560 0.

Definition floppy_state : dos :=
  Dos (fs_open floppy []) (DosFs 0 0 0 0 0 0 0 0 0 0 0 0 0 0 []).

Lemma floppy_fits : boot_fits (read_at 0 512 (vdisk (d_io floppy_state))) (length (device (d_io floppy_state))).
Proof. split; [apply (bool_decide_unpack _); by vm_compute|by vm_compute..]. Qed.

Lemma floppy_io : io_ok false (d_io floppy_state).
Proof. split; [apply Forall_nil; exact I|intros _; reflexivity]. Qed.

Lemma floppy_boots :
  exists s', read_boot false false false (fun _ _ => false) 8 0 [] floppy_state = Ret s' /\
    clusters (d_fs s') = 4 /\ fat_bits (d_fs s') = 12 /\
    exists use, chosen (FatEntry 0 0 None 0) (d_fs s') (vdisk (d_io floppy_state)) = Some use.
Proof.
  assert (H : match read_boot false false false (fun _ _ => false) 8 0 [] floppy_state with
              | Ret s' => bool_decide (clusters (d_fs s') = 4) && bool_decide (fat_bits (d_fs s') = 12) &&
                  bool_decide (is_Some (chosen (FatEntry 0 0 None 0) (d_fs s') (vdisk (d_io floppy_state))))
              | Fault _ => false
              end = true) by (vm_compute; reflexivity).
  destruct (read_boot _ _ _ _ _ _ _ _) as [s'|]; [|done]. rewrite !andb_true_iff, !bool_decide_eq_true in H.
  exists s'. destruct H as [[H1 H2] [use H3]]. split_and!; [done..|by exists use].
Qed.

Lemma read_boot_geometry_witness :
  exists s', read_boot false false false (fun _ _ => false) 8 0 [] floppy_state = Ret s' /\
    geometry_ok (blank (FatEntry 0 0 None 0) (d_fs s')) (length floppy) /\ clusters (d_fs s') = 4.
Proof.
  destruct floppy_boots as (s' & E & Hc & _). exists s'. split; [done|]. split; [|done].
  apply (read_boot_geometry false false false (fun _ _ => false) 8 0 [] floppy_state s' (FatEntry 0 0 None 0)).
  - exact floppy_io.
  - by vm_compute; lia.
  - reflexivity.
  - by right.
  - exact floppy_fits.
  - exact E.
  - lia.
Defined.

(** Reading the boot sector and then the table of a file system that is not
    FAT32, without questions: either both copies of the table are corrupt and the
    program stops, or every copy on the disk and the table in memory are in step. *)
Theorem boot_then_table wi atari_format bad long_size dev stale junk s s1 :
  let n := length (device (d_io s)) in
  let b := read_at 0 512 (vdisk (d_io s)) in
  io_ok wi (d_io s) -> (512 <= n)%nat -> (forall pos size, bad pos size = false) ->
  long_size = 4 \/ long_size = 8 -> boot_fits b n -> is_fat32 b = false ->
  Forall byte (vdisk (d_io s)) ->
  read_boot false wi atari_format bad long_size dev stale s = Ret s1 -> 0 < clusters (d_fs s1) ->
  match chosen junk (d_fs s1) (vdisk (d_io s)) with
  | None => read_fat false wi atari_format bad long_size junk s1 = Fault Died
  | Some use => clips_storable atari_format long_size junk (d_fs s1) use ->
      exists s2, read_fat false wi atari_format bad long_size junk s1 = Ret s2 /\
      fs_ok wi s2 /\ same_shape (d_fs s1) (d_fs s2)
  end.
Proof.
  intros n b Hio Hn Hbad Hls Hfit H32 Hby Hrun Hpos.
  destruct (read_boot_spec _ _ _ _ _ _ _ _ _ junk Hio Hn Hbad Hls Hfit Hrun Hpos)
    as (Hlen & G & _ & _ & _ & _ & Hsame). specialize (Hsame H32).
  pose proof (read_fat_spec wi atari_format bad long_size junk s1) as H. rewrite Hsame in H.
  specialize (H Hio G Hby Hbad). destruct (chosen _ _ _) as [use|]; [|done].
  intros Hst. destruct (H Hst) as (s2 & Hr & Hok & Hsh & _). by exists s2.
Qed.

Lemma boot_then_table_witness :
  exists s1 s2, read_boot false false false (fun _ _ => false) 8 0 [] floppy_state = Ret s1 /\
    read_fat false false false (fun _ _ => false) 8 (FatEntry 0 0 None 0) s1 = Ret s2 /\ fs_ok false s2.
Proof.
  destruct floppy_boots as (s1 & E & Hc & H12 & use & Hu).
  pose proof (boot_then_table false false (fun _ _ => false) 8 0 [] (FatEntry 0 0 None 0) floppy_state s1) as H.
  cbv zeta in H. rewrite Hu in H. destruct H as (s2 & Hr & Hok & _).
  - exact floppy_io.
  - by vm_compute; lia.
  - reflexivity.
  - by right.
  - exact floppy_fits.
  - by vm_compute.
  - apply (bool_decide_unpack _). by vm_compute.
  - exact E.
  - lia.
  - intros i e _ _ _. apply even_storable; [by rewrite Hc|by rewrite H12].
  - exists s1, s2. split; [exact E|]. split; [exact Hr|exact Hok].
Defined.

(** The layout when there are no sectors for a table. *)
Lemma layout_no_table long_size b fs :
  fat_sectors b = 0 ->
  fat_size (layout long_size b fs) = 0 /\
  root_start (layout long_size b fs) = fat_start (layout long_size b fs).
Proof.
  intros Hfs. unfold layout. cbn [fat_size root_start fat_start]. rewrite Hfs.
  assert (Hu0 : u32 0 = 0) by (vm_compute; reflexivity).
  rewrite (Z.mul_0_l (sector_size b)), (Z.mul_0_r (fats b)), Hu0. split; [reflexivity|lia].
Qed.

(** The number of clusters of a data area that is not empty. *)
Lemma layout_clusters_small long_size b fs :
  Forall byte b -> long_size = 4 \/ long_size = 8 -> fat_sectors b = 0 ->
  0 < sec_per_clus b * sector_size b ->
  data_start (layout long_size b fs) <= total_sectors b * sector_size b ->
  clusters (layout long_size b fs) < 2 ^ 64 - 2.
Proof.
  intros Hby Hls Hfs Hcs Hdata. pose proof (total_sectors_range b Hby) as Htot.
  pose proof (field_byte 11 2 b ltac:(lia) Hby) as Hss. fold (sector_size b) in Hss.
  pose proof (field_byte 14 2 b ltac:(lia) Hby) as Hres. fold (reserved_sectors b) in Hres.
  pose proof (round_to_multiple_pos (u32 (dir_entries b * 32)) (sector_size b)) as Hround.
  assert (Hu0 : u32 0 = 0) by (vm_compute; reflexivity).
  unfold layout in *. cbn [data_start clusters] in *. rewrite Hfs, (Z.mul_0_r (fats b)), Hu0 in *.
  set (start := (reserved_sectors b + 0) * sector_size b + _) in *.
  assert (0 <= start) by (unfold start; nia). clearbody start.
  change (2 ^ (2 * 8)) with 65536 in *. change (2 ^ 32) with 4294967296 in Htot.
  assert (Hmax : total_sectors b * sector_size b < 4294967296 * 65536) by nia.
  pose proof (Z.quot_pos (total_sectors b * sector_size b - start) (sec_per_clus b * sector_size b)
                ltac:(lia) ltac:(lia)) as Hq0.
  pose proof (Z.quot_le_upper_bound (total_sectors b * sector_size b - start) (sec_per_clus b * sector_size b)
                (4294967296 * 65536) ltac:(lia) ltac:(nia)) as Hq1.
  set (q := Z.quot _ _) in *. clearbody q. change (2 ^ 64 - 2) with 18446744073709551614. unfold wrap.
  destruct Hls as [-> | ->]; [change (2 ^ (8 * 4)) with 4294967296|
    change (2 ^ (8 * 8)) with 18446744073709551616]; pose proof (Z.mod_pos_bound q 4294967296); [lia|].
  rewrite Z.mod_small; lia.
Qed.

Lemma no_table_checked b fs :
  fat_size fs = 0 -> clusters fs < 2 ^ 64 - 2 -> fat_bits fs <> 0 -> root_entries fs = dir_entries b ->
  Z.land (sector_size b) 511 = 0 -> dir_entries b <> 0 -> Z.land (dir_entries b) 15 = 0 ->
  secs_track b <> 0 -> heads b <> 0 -> geometry_check false b fs = true.
Proof.
  intros Hfs Hcl Hb Hre H511 Hde Hde15 Htrk Hhd. unfold geometry_check.
  assert (Hw : wrap 64 (0 - 2) = 2 ^ 64 - 2) by (vm_compute; reflexivity).
  rewrite Hfs, (Z.mul_0_l 8), Z.div_0_l, Hw, Hre by done.
  rewrite (bool_decide_eq_false_2 (_ > _)) by lia. rewrite (bool_decide_eq_false_2 (dir_entries b = 0)) by done.
  rewrite (bool_decide_eq_true_2 _ Hde15), (bool_decide_eq_true_2 _ H511).
  by rewrite (bool_decide_eq_false_2 _ Htrk), (bool_decide_eq_false_2 _ Hhd).
Qed.

(** A boot sector with no sectors for a table passes: the limit on the number
    of clusters is an unsigned difference that wraps around. The table then starts
    where the root directory does. *)
Theorem read_boot_without_table inter wi bad long_size dev stale s :
  let b := read_at 0 512 (vdisk (d_io s)) in
  io_ok wi (d_io s) -> (512 <= length (device (d_io s)))%nat -> (forall pos size, bad pos size = false) ->
  Forall byte b -> long_size = 4 \/ long_size = 8 ->
  fat_length b = 0 -> fat32_length b = 0 -> fats b = 1 \/ fats b = 2 ->
  sector_size b <> 0 -> Z.land (sector_size b) 511 = 0 -> sec_per_clus b * sector_size b <> 0 ->
  dir_entries b <> 0 -> Z.land (dir_entries b) 15 = 0 -> secs_track b <> 0 -> heads b <> 0 ->
  data_start (layout long_size b (d_fs s)) <= total_sectors b * sector_size b ->
  exists s', read_boot inter wi false bad long_size dev stale s = Ret s' /\
    fat_size (d_fs s') = 0 /\ root_start (d_fs s') = fat_start (d_fs s') /\
    clusters (d_fs s') = clusters (layout long_size b (d_fs s)).
Proof.
  intros b Hio Hn Hbad Hby Hls Hf16 Hf32 Hf Hss H511 Hcs Hde Hde15 Htrk Hhd Hdata.
  assert (Hb : fs_read bad 0 512 (d_io s) = Ret b) by (apply (fs_read_spec _ wi); [done|lia..|done]).
  clearbody b.
  assert (Hfs : fat_sectors b = 0) by (unfold fat_sectors; by rewrite bool_decide_eq_false_2 by lia).
  pose proof (field_byte 11 2 b ltac:(lia) Hby) as Hss2. fold (sector_size b) in Hss2.
  pose proof (field_byte 13 1 b ltac:(lia) Hby) as Hspc. fold (sec_per_clus b) in Hspc.
  destruct (layout_no_table long_size b (d_fs s) Hfs) as [Hsize Hroot].
  pose proof (layout_clusters_small long_size b (d_fs s) Hby Hls Hfs ltac:(nia) Hdata) as Hcl.
  unfold read_boot. rewrite Hb. run. unfold require.
  rewrite (bool_decide_eq_true_2 _ Hss), (bool_decide_eq_true_2 _ Hcs). run.
  assert (bool_decide (fats b = 2) || bool_decide (fats b = 1) = true) as ->.
  { rewrite orb_true_iff, !bool_decide_eq_true. tauto. }
  run. rewrite fs_test_spec by
    (lia || (apply Z.mul_nonneg_nonneg; [unfold wrap; by apply Z.mod_pos_bound|lia])). run.
  assert (Hplain : is_fat32 b = false).
  { unfold is_fat32. rewrite (bool_decide_eq_false_2 (fat32_length b <> 0)) by lia. apply andb_false_r. }
  destruct (is_fat32 b); [discriminate Hplain|]. cbv zeta.
  assert (Hbits : small_bits false long_size dev b (layout long_size b (d_fs s)) <> 0)
    by (unfold small_bits; repeat case_match; done).
  generalize dependent (small_bits false long_size dev b (layout long_size b (d_fs s))). intros bits Hbits.
  assert (Hre : root_entries (layout long_size b (d_fs s)) = dir_entries b) by reflexivity.
  generalize dependent (layout long_size b (d_fs s)). intros fs Hdata Hsize Hroot Hcl Hre.
  run. rewrite no_table_checked by done. run. eexists. split; [reflexivity|]. done.
Qed.

(** The floppy with an empty table length. *)
Definition bare_state : dos :=
  Dos (fs_open (write_at 22 [0; 0] floppy) []) (d_fs floppy_state).

Lemma read_boot_without_table_witness :
  exists s', read_boot false false false (fun _ _ => false) 8 0 [] bare_state = Ret s' /\
    fat_size (d_fs s') = 0 /\ root_start (d_fs s') = fat_start (d_fs s') /\ clusters (d_fs s') = 6.
Proof.
  destruct (read_boot_without_table false false (fun _ _ => false) 8 0 [] bare_state) as (s' & H1 & H2 & H3 & H4).
  - split; [apply Forall_nil; exact I|intros _; reflexivity].
  - by vm_compute; lia.
  - reflexivity.
  - apply (bool_decide_unpack _). by vm_compute.
  - by right.
  - by vm_compute.
  - by vm_compute.
  - right. by vm_compute.
  - by vm_compute.
  - by vm_compute.
  - by vm_compute.
  - by vm_compute.
  - by vm_compute.
  - by vm_compute.
  - by vm_compute.
  - by vm_compute.
  - exists s'. split; [exact H1|]. split; [exact H2|]. split; [exact H3|]. rewrite H4. by vm_compute.
Defined.

Lemma backup_sector_range b :
  3 <= reserved_sectors b ->
  0 < backup_sector b < reserved_sectors b /\ backup_sector b <> info_sector b.
Proof. intros H. unfold backup_sector. repeat case_bool_decide; cbn [andb]; repeat case_match; lia. Qed.

(** Without a backup of the boot sector and with room for one,
    [check_backup_boot] makes one: in a reserved sector that is neither the boot
    sector nor the summary sector. Afterwards the boot sector in memory, the one
    on the disk and the backup are the same and name the sector of the backup,
    and no other byte of the disk has changed. *)
Theorem backup_created wi bad b s :
  let k := backup_sector b in
  io_ok wi (d_io s) -> backupboot_start (d_fs s) = 0 -> 3 <= reserved_sectors b ->
  length b = 512%nat -> read_at 0 512 (vdisk (d_io s)) = b ->
  512 <= sector_size b -> k * sector_size b < 2 ^ 31 ->
  k * sector_size b + 512 <= Z.of_nat (length (device (d_io s))) ->
  exists b' s', check_backup_boot false wi bad b (sector_size b) s = Ret (b', s') /\
    0 < k < reserved_sectors b /\ k <> info_sector b /\ backup_boot b' = k mod 2 ^ 16 /\
    d_fs s' = set_backupboot_start (k * sector_size b) (d_fs s) /\ io_ok wi (d_io s') /\
    read_at 0 512 (vdisk (d_io s')) = b' /\ read_at (k * sector_size b) 512 (vdisk (d_io s')) = b' /\
    (forall i : nat, 512 <= Z.of_nat i ->
       ~ (k * sector_size b <= Z.of_nat i < k * sector_size b + 512) ->
       vdisk (d_io s') !! i = vdisk (d_io s) !! i).
Proof.
  intros k Hio H0 Hres Hlen Hboot Hlss Hk31 Hend.
  destruct (backup_sector_range b Hres) as [Hk Hki]. fold k in Hk, Hki.
  unfold check_backup_boot. rewrite bool_decide_eq_true_2, bool_decide_eq_false_2 by (done || lia). run.
  fold k. unfold int_mul. rewrite bool_decide_eq_true_2 by nia. run.
  set (b' := set_backup_boot k b). assert (Hb' : length b' = 512%nat) by (unfold b', set_backup_boot; by rewrite write_at_length).
  destruct (fs_write_spec wi (k * sector_size b) b' (d_io s) Hio) as (io1 & -> & Hio1 & Hv1 & Hl1 & _).
  { unfold change_ok. cbn [c_pos c_data]. rewrite Hb'. nia. }
  run. set (two := read_at 50 2 b').
  assert (Htwo : two = Z_to_little_endian 2 8 k).
  { unfold two, b', set_backup_boot. apply read_write_same; rewrite ?length_Z_to_little_endian, ?Hlen; lia. }
  assert (Hl2 : Z.of_nat (length two) = 2) by (rewrite Htwo; by apply length_Z_to_little_endian).
  destruct (fs_write_spec wi 50 two io1 Hio1) as (io2 & -> & Hio2 & Hv2 & _).
  { unfold change_ok. cbn [c_pos c_data]. nia. }
  run. exists b'. eexists. split; [reflexivity|]. cbn [d_io d_fs].
  pose proof (vdisk_length (d_io s)) as Hvl. assert (Hks : 512 <= k * sector_size b) by nia.
  rewrite Hv2, Hv1. split; [done|]. split; [done|]. split.
  { unfold backup_boot, b', set_backup_boot. apply (field_write_same 50 2 k b); lia. }
  split; [done|]. split; [done|]. split_and!.
  - rewrite (read_write_inside 0 512 50) by (rewrite ?write_at_length; lia).
    rewrite read_write_outside by lia. by rewrite Hboot, Htwo.
  - rewrite read_write_outside by (rewrite ?write_at_length; lia). apply read_write_same; lia.
  - intros i Hi Hni. destruct (decide (i < length (vdisk (d_io s)))%nat).
    + rewrite write_at_lookup, decide_False by (rewrite ?write_at_length; lia).
      by rewrite write_at_lookup, decide_False by lia.
    + by rewrite !lookup_ge_None_2 by (rewrite ?write_at_length; lia).
Qed.

(** A boot sector with eight reserved sectors, the summary in sector 1. *)
Definition boot32 : list Z :=
  set_info_sector 1 (write_at 11 [0; 2; 1; 8; 0; 2; 0; 0; 0; 0; 240; 0; 0; 9; 0; 2; 0] (replicate 512 0)).

Definition disk32 (info : list Z) : dos :=
  Dos (fs_open (boot32 ++ info ++ replicate 3072 1) []) (d_fs floppy_state).

Lemma disk32_io info : io_ok false (d_io (disk32 info)).
Proof. split; [apply Forall_nil; exact I|intros _; reflexivity]. Qed.

Lemma backup_created_witness :
  exists b' s', check_backup_boot false false (fun _ _ => false) boot32 512 (disk32 (replicate 512 0)) = Ret (b', s') /\
    backup_boot b' = 6 /\ backupboot_start (d_fs s') = 3072 /\ read_at 3072 512 (vdisk (d_io s')) = b'.
Proof.
  destruct (backup_created false (fun _ _ => false) boot32 (disk32 (replicate 512 0)))
    as (b' & s' & H1 & _ & _ & H2 & H3 & _ & _ & H4 & _).
  - apply disk32_io.
  - reflexivity.
  - by vm_compute.
  - by vm_compute.
  - by vm_compute.
  - by vm_compute.
  - by vm_compute.
  - by vm_compute.
  - exists b', s'. change (sector_size boot32) with 512 in *. split; [exact H1|].
    split; [rewrite H2; by vm_compute|]. split; [rewrite H3; by vm_compute|exact H4].
Defined.

(** Without questions, [read_fsinfo] leaves a valid summary sector on the
    disk, the one that was there or a fresh one, and takes the number of free
    clusters from it. The mark for an unknown number in a fresh sector is negative
    as a [long] of four bytes and a large number as one of eight. *)
Theorem fsinfo_repaired wi bad long_size stale b lss s :
  let start := info_sector b * lss in
  let old := read_at start 512 (vdisk (d_io s)) in
  io_ok wi (d_io s) -> (forall pos size, bad pos size = false) -> long_size = 4 \/ long_size = 8 ->
  0 < info_sector b -> 0 < lss -> start < 2 ^ 31 -> start + 512 <= Z.of_nat (length (device (d_io s))) ->
  exists s', read_fsinfo false wi bad long_size stale b lss s = Ret s' /\ io_ok wi (d_io s') /\
    fsinfo_start (d_fs s') = start /\
    read_at start 512 (vdisk (d_io s')) = (if fsinfo_valid old then old else init_fsinfo old) /\
    fsinfo_valid (read_at start 512 (vdisk (d_io s'))) = true /\
    free_clusters (d_fs s') =
      (if fsinfo_valid old then swrap (8 * long_size) (info_free old)
       else if decide (long_size = 4) then -1 else 2 ^ 32 - 1).
Proof.
  intros start old Hio Hbad Hls Hi Hlss H31 Hend. assert (0 < start) by (unfold start; nia).
  assert (Hold : fs_read bad start 512 (d_io s) = Ret old) by (apply (fs_read_spec _ wi); [done|lia..|done]).
  assert (Hol : length old = 512%nat).
  { apply Nat2Z.inj. unfold old. rewrite read_at_length; rewrite ?vdisk_length; lia. }
  unfold read_fsinfo, find_fsinfo. rewrite bool_decide_eq_false_2 by lia. run.
  unfold int_mul. fold start. rewrite bool_decide_eq_true_2 by lia. run. rewrite Hold. run.
  destruct (fsinfo_valid old) eqn:Ev.
  - run. cbn [d_fs d_io fsinfo_start set_fsinfo_start]. rewrite bool_decide_eq_true_2 by lia.
    eexists. split; [reflexivity|]. cbn [d_io d_fs]. done.
  - destruct (init_fsinfo_fields old Hol) as [Hv Hf].
    assert (Hil : length (init_fsinfo old) = 512%nat) by by rewrite init_fsinfo_length.
    run. destruct (fs_write_spec wi start (init_fsinfo old) (d_io s) Hio) as (io' & -> & Hio' & Hv' & Hl' & _).
    { unfold change_ok. cbn [c_pos c_data]. rewrite Hil. lia. }
    run. cbn [d_fs d_io fsinfo_start set_fsinfo_start]. rewrite bool_decide_eq_true_2 by lia.
    eexists. split; [reflexivity|]. cbn [d_io d_fs fsinfo_start free_clusters set_free_clusters].
    rewrite Hv', read_write_same by (rewrite ?vdisk_length, ?Hil; lia).
    split_and!; [done..|]. rewrite Hf. by destruct Hls as [-> | ->].
Qed.

Lemma fsinfo_repaired_witness :
  exists s', read_fsinfo false false (fun _ _ => false) 8 [] boot32 512 (disk32 (replicate 512 0)) = Ret s' /\
    fsinfo_valid (read_at 512 512 (vdisk (d_io s'))) = true /\ free_clusters (d_fs s') = 4294967295.
Proof.
  destruct (fsinfo_repaired false (fun _ _ => false) 8 [] boot32 512 (disk32 (replicate 512 0)))
    as (s' & H1 & _ & _ & _ & H2 & H3).
  - apply disk32_io.
  - reflexivity.
  - by right.
  - by vm_compute.
  - by vm_compute.
  - by vm_compute.
  - by vm_compute.
  - exists s'. split; [exact H1|]. split; [exact H2|]. rewrite H3. by vm_compute.
Defined.
