(* ===== verification/DosCheck.v ===== *)
(** * Files and their cluster chains in dosfsck

    [C/dosfstools-2.11/dosfsck/check.c]: directory entries, the chains of
    clusters of files and their repair; and from [fat.c] the recovery of chains
    that no file owns. *)

From S2P Require Import Prelude DosIo DosFat DosBoot.

(** ** Directory entries

    An entry is the list of its 32 bytes. *)

(* @src C/dosfstools-2.11/dosfsck/dosfsck.h:91-102 DIR_ENT *)
Definition de_name (de : list Z) : list Z := read_at 0 11 de.
Definition de_attr := field 11 1.
Definition de_starthi := field 20 2.
Definition de_start := field 26 2.
Definition de_size := field 28 4.

Definition MSDOS_NAME : Z := 11.
Definition DELETED_FLAG : Z := 0xe5.
Definition ATTR_VOLUME : Z := 8.
Definition ATTR_DIR : Z := 16.
Definition VFAT_LN_ATTR : Z := 15.
Definition MSDOS_DOT : list Z := str_bytes ".          ".
Definition MSDOS_DOTDOT : list Z := str_bytes "..         ".

Definition IS_FREE (name : list Z) : bool :=
  match name with c :: _ => bool_decide (c = 0) || bool_decide (c = DELETED_FLAG) | [] => false end.

(** [!strncmp(a, b, n)]: equal up to a zero or [n] characters. *)
Fixpoint same_name (n : nat) (a b : list Z) : bool :=
  match n, a, b with
  | O, _, _ => true
  | S n, x :: a, y :: b =>
      bool_decide (x = y) && (bool_decide (x = 0) || same_name n a b)
  | S _, _, _ => false
  end.

Definition is_dir (de : list Z) : bool := bool_decide (Z.land (de_attr de) ATTR_DIR <> 0).

(** A file in the list of its directory; the numbers of other files are pointers. *)
(* @src C/dosfstools-2.11/dosfsck/dosfsck.h:104-111 DOS_FILE *)
Record DOS_FILE := DosFile {
  dir_ent : list Z;
  offset : Z;
  parent : option nat;
  next : option nat;
  first : option nat;
}.

Definition set_dir_ent de (f : DOS_FILE) : DOS_FILE := DosFile de (offset f) (parent f) (next f) (first f).

(** The file system, the files found so far, the first one of the root directory,
    their number, and the counter of [alloc_rootdir_entry]. *)
Record check_state := CheckState {
  k_dos : dos;
  files : gmap nat DOS_FILE;
  root : option nat;
  n_files : Z;
  curr_num : Z;
}.

Definition set_dos d (s : check_state) : check_state := CheckState d (files s) (root s) (n_files s) (curr_num s).
Definition set_files m (s : check_state) : check_state := CheckState (k_dos s) m (root s) (n_files s) (curr_num s).
Definition set_n_files n (s : check_state) : check_state := CheckState (k_dos s) (files s) (root s) n (curr_num s).
Definition set_curr_num n (s : check_state) : check_state := CheckState (k_dos s) (files s) (root s) (n_files s) n.

Definition k_fs (s : check_state) : DOS_FS := d_fs (k_dos s).

Definition get_file (f : nat) (s : check_state) : outcome DOS_FILE :=
  match files s !! f with Some x => Ret x | None => Fault NullDeref end.

Definition put_file (f : nat) (x : DOS_FILE) (s : check_state) : check_state :=
  set_files (<[f := x]> (files s)) s.

(** Changes of the table in memory and on the disk, and of owners. *)
Definition on_dos (step : dos -> outcome dos) (s : check_state) : outcome check_state :=
  d ← step (k_dos s); Ret (set_dos d s).

Definition put_owner (c : Z) (o : option nat) (s : check_state) : outcome check_state :=
  fs ← set_owner (k_fs s) c o; Ret (set_dos (Dos (d_io (k_dos s)) fs) s).

Section Check.

(** The options, the reads that fail, and the bytes of an [unsigned long]. *)
Variables interactive write_immed atari_format : bool.
Variable bad_read : Z -> Z -> bool.
Variable long_size : Z.

Local Abbreviation set_fat := (set_fat write_immed atari_format long_size).
Local Abbreviation next_cluster := (next_cluster atari_format).
Local Abbreviation bad_cluster := (bad_cluster atari_format).

Definition write_io (pos : Z) (data : list Z) (s : check_state) : outcome check_state :=
  io ← fs_write write_immed pos data (d_io (k_dos s)); Ret (set_dos (Dos io (k_fs s)) s).

(** ** Fields of an entry *)

(** The high half is shifted as an [int]. *)
(* @src C/dosfstools-2.11/dosfsck/check.c:27-29 FSTART *)
Definition FSTART (f : DOS_FILE) (fs : DOS_FS) : Z :=
  Z.lor (de_start (dir_ent f))
    (if bool_decide (fat_bits fs = 32)
     then wrap (8 * long_size) (s32 (Z.shiftl (de_starthi (dir_ent f)) 16)) else 0).

(** Change the bytes [data] at [off] of the entry, in memory and on the disk. *)
(* @src C/dosfstools-2.11/dosfsck/check.c:31-38 MODIFY *)
Definition MODIFY (p : nat) (off : Z) (data : list Z) (s : check_state) : outcome check_state :=
  f ← get_file p s;
  if bool_decide (offset f <> 0) then
    let s := put_file p (set_dir_ent (write_at off data (dir_ent f)) f) s in
    write_io (offset f + off) data s
  else Ret s.

(* @src C/dosfstools-2.11/dosfsck/check.c:40-59 MODIFY_START *)
Definition MODIFY_START (p : nat) (v : Z) (s : check_state) : outcome check_state :=
  f ← get_file p s;
  let v := wrap (8 * long_size) v in
  if bool_decide (offset f = 0) then
    _ ← require (bool_decide (v <> 0)) Died;
    let s := set_dos (Dos (d_io (k_dos s)) (set_root_cluster v (k_fs s))) s in
    let de := write_at 26 (Z_to_little_endian 2 8 (Z.land v 0xffff)) (dir_ent f) in
    let de := write_at 20 (Z_to_little_endian 2 8 (Z.shiftr v 16)) de in
    write_io 44 (Z_to_little_endian 4 8 v) (put_file p (set_dir_ent de f) s)
  else
    s ← MODIFY p 26 (Z_to_little_endian 2 8 (Z.land v 0xffff)) s;
    if bool_decide (fat_bits (k_fs s) = 32)
    then MODIFY p 20 (Z_to_little_endian 2 8 (Z.shiftr v 16)) s else Ret s.

Definition put_size (p : nat) (v : Z) (s : check_state) : outcome check_state :=
  MODIFY p 28 (Z_to_little_endian 4 8 v) s.

(** The walk of a chain: [walk > 0 && walk != -1]. *)
Definition on_chain (walk : Z) : bool := bool_decide (0 < walk).

(** A chain visits fewer clusters than the table has entries. *)
Definition chain_fuel (s : check_state) : nat := S (length (fat (k_fs s))).

(** ** Dates and names *)

Definition day_n : list Z := [0; 31; 59; 90; 120; 151; 181; 212; 243; 273; 304; 334; 0; 0; 0; 0].

(** A month of zero indexes the table at -1; the seconds are counted in an
    [int]. *)
(* @src C/dosfstools-2.11/dosfsck/check.c:189-201 date_dos2unix *)
Definition date_dos2unix (time date : Z) : outcome Z :=
  let month := Z.land (Z.shiftr date 5) 15 - 1 in
  let year := Z.shiftr date 9 in
  days ← byte_at day_n month;
  let secs := Z.land time 31 * 2 + 60 * Z.land (Z.shiftr time 5) 63 + Z.shiftr time 11 * 3600 +
       86400 * (Z.land date 31 - 1 + days + year / 4 + year * 365 -
                (if bool_decide (Z.land year 3 = 0) && bool_decide (month < 2) then 1 else 0) + 3653) in
  _ ← require (bool_decide (secs < 2 ^ 31)) SignedOverflow;
  Ret secs.

Definition bad_chars : list Z :=
  str_bytes (if atari_format then "*?\/:" else "*?<>|" ++ String (Ascii.ascii_of_nat 34) "\/:").

(** A space ends a part of a name. *)
(* @src C/dosfstools-2.11/dosfsck/check.c:242-250 bad_name *)
Fixpoint space_inside (spc : bool) (name : list Z) : bool :=
  match name with
  | [] => false
  | c :: name => if bool_decide (c = 32) then space_inside true name
                 else if spc then true else space_inside false name
  end.

Definition bad_char (c : Z) : bool :=
  bool_decide (c < 32) || bool_decide (c = 0x7f) || bool_decide (c ∈ bad_chars).

(* @src C/dosfstools-2.11/dosfsck/check.c:220-272 bad_name *)
Definition bad_name (name : list Z) : bool :=
  if same_name 11 name (str_bytes "EA DATA  SF") || same_name 11 name (str_bytes "WP ROOT  SF") then false
  else
    let suspicious := Z.of_nat (length (filter (fun c => c > 0x7f) (read_at 0 11 name))) in
    existsb bad_char (read_at 0 11 name) ||
    space_inside false (read_at 0 8 name) || space_inside false (read_at 8 3 name) ||
    (atari_format && bool_decide (suspicious <> 0)) || (interactive && bool_decide (suspicious > 6)).

(** ** Repair of chains *)

(* @src C/dosfstools-2.11/dosfsck/check.c:280-282 drop_file *)
Fixpoint drop_loop (fuel : nat) (cluster : Z) (s : check_state) : outcome check_state :=
  match fuel with
  | O => Fault OutOfFuel
  | S fuel =>
      if bool_decide (0 < cluster) && bool_decide (cluster < clusters (k_fs s) + 2) then
        s ← put_owner cluster None s;
        cluster ← next_cluster (k_fs s) cluster;
        drop_loop fuel cluster s
      else Ret s
  end.

(* @src C/dosfstools-2.11/dosfsck/check.c:275-284 drop_file *)
Definition drop_file (p : nat) (s : check_state) : outcome check_state :=
  s ← MODIFY p 0 [DELETED_FLAG] s;
  f ← get_file p s;
  s ← drop_loop (chain_fuel s) (FSTART f (k_fs s)) s;
  Ret (set_n_files (u32 (n_files s - 1)) s).

(* @src C/dosfstools-2.11/dosfsck/check.c:295-301 truncate_file *)
Fixpoint truncate_loop (fuel : nat) (walk : Z) (deleting : bool) (clusters : Z) (s : check_state)
  : outcome check_state :=
  match fuel with
  | O => Fault OutOfFuel
  | S fuel =>
      if on_chain walk then
        next ← next_cluster (k_fs s) walk;
        if deleting then s ← on_dos (set_fat walk 0) s; truncate_loop fuel next true clusters s
        else
          let clusters := clusters - 1 in
          if bool_decide (clusters = 0) then
            s ← on_dos (set_fat walk (-1)) s; truncate_loop fuel next true clusters s
          else truncate_loop fuel next false clusters s
      else Ret s
  end.

(* @src C/dosfstools-2.11/dosfsck/check.c:287-302 truncate_file *)
Definition truncate_file (p : nat) (clusters : Z) (s : check_state) : outcome check_state :=
  f ← get_file p s;
  let walk := FSTART f (k_fs s) in
  let deleting := bool_decide (clusters = 0) in
  s ← (if deleting then MODIFY_START p 0 s else Ret s);
  truncate_loop (chain_fuel s) walk deleting clusters s.

(** ** Checking a file *)

(** The clusters of a chain before [curr]; only printed. *)
(* @src C/dosfstools-2.11/dosfsck/check.c:465-469 check_file *)
Fixpoint count_before (fuel : nat) (walk curr n : Z) (s : check_state) : outcome Z :=
  match fuel with
  | O => Fault OutOfFuel
  | S fuel =>
      if on_chain walk then
        if bool_decide (walk = curr) then Ret n
        else next ← next_cluster (k_fs s) walk; count_before fuel next curr (n + 1) s
      else Ret n
  end.

(** Where [curr] is on the chain from [this]: the cluster before it and the number
    of clusters before it. *)
(* @src C/dosfstools-2.11/dosfsck/check.c:492-507 check_file *)
Fixpoint find_in_chain (fuel : nat) (this curr prev clusters : Z) (s : check_state)
  : outcome (option (Z * Z)) :=
  match fuel with
  | O => Fault OutOfFuel
  | S fuel =>
      if on_chain this then
        if bool_decide (this = curr) then Ret (Some (prev, clusters))
        else next ← next_cluster (k_fs s) this; find_in_chain fuel next curr this (clusters + 1) s
      else Ret None
  end.

(** Take the owners off the rest of a chain; where the walk ends. *)
(* @src C/dosfstools-2.11/dosfsck/check.c:499-502 check_file *)
Fixpoint disown_loop (fuel : nat) (this : Z) (s : check_state) : outcome (Z * check_state) :=
  match fuel with
  | O => Fault OutOfFuel
  | S fuel =>
      if on_chain this then
        s ← put_owner this None s;
        next ← next_cluster (k_fs s) this;
        disown_loop fuel next s
      else Ret (this, s)
  end.

Definition chain_bytes (clusters : Z) (s : check_state) : Z :=
  wrap (8 * long_size) (clusters * cluster_size (k_fs s)).

(** The chain ends before [curr]. *)
Definition end_chain (p : nat) (prev : Z) (s : check_state) : outcome check_state :=
  if bool_decide (prev <> 0) then on_dos (set_fat prev (-1)) s else MODIFY_START p 0 s.

(** Another file has the cluster: whether the owner is cut. *)
(* @src C/dosfstools-2.11/dosfsck/check.c:471-489 check_file *)
Definition cut_owner (f g : DOS_FILE) (s : check_state) : outcome (bool * check_state) :=
  if bool_decide (offset g = 0) then Ret (false, s)
  else if bool_decide (offset f = 0) then Ret (true, s)
  else if interactive then
    '(k, io) ← get_key "12" (d_io (k_dos s));
    Ret (bool_decide (k = 49), set_dos (Dos io (k_fs s)) s)
  else Ret (false, s).

(** Cutting the owner [o] before [curr]: [None] when the scan is to be restarted.
    The counts of the checked file are replaced by those of the owner. *)
(* @src C/dosfstools-2.11/dosfsck/check.c:490-511 check_file *)
Definition take_from_owner (o : nat) (curr : Z) (restart : bool) (s : check_state)
  : outcome (option (Z * Z) * check_state) :=
  g ← get_file o s;
  found ← find_in_chain (chain_fuel s) (FSTART g (k_fs s)) curr 0 0 s;
  match found with
  | None => Fault Died
  | Some (prev, clusters) =>
      s ← end_chain o prev s;
      s ← put_size o (chain_bytes clusters s) s;
      if restart then Ret (None, s)
      else
        '(this, s) ← disown_loop (chain_fuel s) curr s;
        _ ← require (bool_decide (this = curr)) Died;
        Ret (Some (prev, clusters), s)
  end.

(** The number of clusters of the file, or [None] when the scan is to be
    restarted. *)
(* @src C/dosfstools-2.11/dosfsck/check.c:441-521 check_file *)
Fixpoint check_loop (fuel : nat) (p : nat) (curr prev clusters : Z) (s : check_state)
  : outcome (option Z * check_state) :=
  match fuel with
  | O => Fault OutOfFuel
  | S fuel =>
      if bool_decide (curr = -1) then Ret (Some clusters, s)
      else
        e ← fat_at (k_fs s) curr;
        f ← get_file p s;
        if bool_decide (value e = 0) || FAT_IS_BAD atari_format (k_fs s) (value e) then
          s ← (if bool_decide (prev = 0) && bool_decide (offset f = 0) then Fault Died
               else end_chain p prev s);
          Ret (Some clusters, s)
        else if negb (is_dir (dir_ent f)) && bool_decide (de_size (dir_ent f) <= chain_bytes clusters s) then
          s ← truncate_file p clusters s; Ret (Some clusters, s)
        else
          let go_on prev clusters s :=
            s ← put_owner curr (Some p) s;
            next ← next_cluster (k_fs s) curr;
            check_loop fuel p next curr (clusters + 1) s in
          match owner e with
          | None => go_on prev clusters s
          | Some o =>
              g ← get_file o s;
              _ ← count_before (chain_fuel s) (FSTART g (k_fs s)) curr 0 s;
              '(cut, s) ← cut_owner f g s;
              if (cut : bool) then
                '(r, s) ← take_from_owner o curr (is_dir (dir_ent f)) s;
                match r with
                | None => Ret (None, s)
                | Some (prev, clusters) => go_on prev clusters s
                end
              else s ← end_chain p prev s; Ret (Some clusters, s)
          end
  end.

(** A directory entry that is done after its start field: [.], [..], or one that
    points to the root directory. *)
(* @src C/dosfstools-2.11/dosfsck/check.c:399-432 check_file *)
Definition check_dir_entry (p : nat) (s : check_state) : outcome (bool * check_state) :=
  f ← get_file p s;
  if negb (is_dir (dir_ent f)) then Ret (false, s)
  else
    s ← (if bool_decide (de_size (dir_ent f) <> 0) then put_size p 0 s else Ret s);
    f ← get_file p s;
    let point expect s :=
      if bool_decide (FSTART f (k_fs s) <> expect) then MODIFY_START p expect s else Ret s in
    match parent f with
    | Some q =>
        if same_name 11 (de_name (dir_ent f)) MSDOS_DOT then
          d ← get_file q s; s ← point (FSTART d (k_fs s)) s; Ret (true, s)
        else if same_name 11 (de_name (dir_ent f)) MSDOS_DOTDOT then
          d ← get_file q s;
          expect ← match parent d with
                   | Some r => dd ← get_file r s; Ret (FSTART dd (k_fs s))
                   | None => Ret 0
                   end;
          let expect := if bool_decide (root_cluster (k_fs s) <> 0) && bool_decide (expect = root_cluster (k_fs s))
                        then 0 else expect in
          s ← point expect s; Ret (true, s)
        else if bool_decide (FSTART f (k_fs s) = 0)
        then s ← MODIFY p 0 [DELETED_FLAG] s; Ret (true, s)
        else Ret (false, s)
    | None =>
        if bool_decide (FSTART f (k_fs s) = 0)
        then s ← MODIFY p 0 [DELETED_FLAG] s; Ret (true, s)
        else Ret (false, s)
    end.

(** Whether the scan is to be restarted. *)
(* @src C/dosfstools-2.11/dosfsck/check.c:393-530 check_file *)
Definition check_file (p : nat) (s : check_state) : outcome (bool * check_state) :=
  '(done, s) ← check_dir_entry p s;
  if (done : bool) then Ret (false, s)
  else
    f ← get_file p s;
    s ← (if bool_decide (FSTART f (k_fs s) >= clusters (k_fs s) + 2) then
           _ ← require (bool_decide (offset f <> 0)) Died; MODIFY_START p 0 s
         else Ret s);
    f ← get_file p s;
    let start := FSTART f (k_fs s) in
    '(r, s) ← check_loop (chain_fuel s) p (if bool_decide (start <> 0) then start else -1) 0 0 s;
    match r with
    | None => Ret (true, s)
    | Some clusters =>
        f ← get_file p s;
        s ← (if negb (is_dir (dir_ent f)) && bool_decide (de_size (dir_ent f) > chain_bytes clusters s)
             then put_size p (chain_bytes clusters s) s else Ret s);
        Ret (false, s)
    end.

(* @src C/dosfstools-2.11/dosfsck/check.c:533-540 check_files *)
Fixpoint check_files (fuel : nat) (start : option nat) (s : check_state) : outcome (bool * check_state) :=
  match start with
  | None => Ret (false, s)
  | Some p =>
      match fuel with
      | O => Fault OutOfFuel
      | S fuel =>
          '(restart, s) ← check_file p s;
          if (restart : bool) then Ret (true, s)
          else f ← get_file p s; check_files fuel (next f) s
      end
  end.

(** ** Reading a file of a directory *)

(** The first pass: end the chain where it meets itself, and with [read_test] take
    out the clusters that cannot be read. A cluster of another file ends it. *)
(* @src C/dosfstools-2.11/dosfsck/check.c:676-707 test_file *)
Fixpoint test_loop (fuel : nat) (p : nat) (read_test : bool) (walk prev clus : Z) (s : check_state)
  : outcome check_state :=
  match fuel with
  | O => Fault OutOfFuel
  | S fuel =>
      if bool_decide (0 < walk) && bool_decide (walk < clusters (k_fs s) + 2) then
        next_clu ← next_cluster (k_fs s) walk;
        e ← fat_at (k_fs s) walk;
        match owner e with
        | Some o =>
            if bool_decide (o = p) then
              f ← get_file p s;
              if bool_decide (prev <> 0) then on_dos (set_fat prev (-1)) s
              else if bool_decide (offset f = 0) then Fault Died
              else MODIFY_START p 0 s
            else Ret s
        | None =>
            if FAT_IS_BAD atari_format (k_fs s) (value e) then Ret s
            else
              '(prev, clus, s) ←
                (if read_test then
                   ok ← fs_test bad_read (cluster_start (k_fs s) walk) (cluster_size (k_fs s)) (d_io (k_dos s));
                   if (ok : bool) then Ret (walk, clus + 1, s)
                   else
                     n ← next_cluster (k_fs s) walk;
                     s ← (if bool_decide (prev <> 0) then on_dos (set_fat prev n) s else MODIFY_START p n s);
                     s ← on_dos (set_fat walk (-2)) s;
                     Ret (prev, clus, s)
                 else Ret (prev, clus, s));
              s ← put_owner walk (Some p) s;
              test_loop fuel p read_test next_clu prev clus s
        end
      else Ret s
  end.

(** The second pass takes the owners off again. *)
(* @src C/dosfstools-2.11/dosfsck/check.c:708-712 test_file *)
Fixpoint untag_loop (fuel : nat) (p : nat) (walk : Z) (s : check_state) : outcome check_state :=
  match fuel with
  | O => Fault OutOfFuel
  | S fuel =>
      if bool_decide (0 < walk) && bool_decide (walk < clusters (k_fs s) + 2) then
        e ← fat_at (k_fs s) walk;
        if FAT_IS_BAD atari_format (k_fs s) (value e) then Ret s
        else if bool_decide (owner e = Some p) then
          s ← put_owner walk None s;
          next ← next_cluster (k_fs s) walk;
          untag_loop fuel p next s
        else Ret s
      else Ret s
  end.

(* @src C/dosfstools-2.11/dosfsck/check.c:671-713 test_file *)
Definition test_file (p : nat) (read_test : bool) (s : check_state) : outcome check_state :=
  f ← get_file p s;
  s ← test_loop (chain_fuel s) p read_test (FSTART f (k_fs s)) 0 0 s;
  f ← get_file p s;
  untag_loop (chain_fuel s) p (FSTART f (k_fs s)) s.

(* @src C/dosfstools-2.11/dosfsck/check.c:722-728 undelete *)
Fixpoint undelete_loop (fuel : nat) (left walk prev : Z) (s : check_state) : outcome (Z * check_state) :=
  match fuel with
  | O => Fault OutOfFuel
  | S fuel =>
      if bool_decide (left <> 0) && bool_decide (walk >= 2) && bool_decide (walk < clusters (k_fs s) + 2) then
        e ← fat_at (k_fs s) walk;
        if bool_decide (value e = 0) then
          s ← (if bool_decide (prev <> 0) then on_dos (set_fat prev walk) s else Ret s);
          undelete_loop fuel (left - 1) (walk + 1) walk s
        else Ret (prev, s)
      else Ret (prev, s)
  end.

(** The sum is an [unsigned int]. *)
(* @src C/dosfstools-2.11/dosfsck/check.c:716-735 undelete *)
Definition undelete (p : nat) (s : check_state) : outcome check_state :=
  f ← get_file p s;
  let left := u32 (de_size (dir_ent f) + cluster_size (k_fs s) - 1) / cluster_size (k_fs s) in
  '(prev, s) ← undelete_loop (chain_fuel s) left (FSTART f (k_fs s)) 0 s;
  if bool_decide (prev <> 0) then on_dos (set_fat prev (-1)) s else MODIFY_START p 0 s.

(** ** New names *)

(** The decimal digits of [n]. *)
Fixpoint digits (fuel : nat) (n : Z) : list Z :=
  match fuel with
  | O => []
  | S fuel => (if bool_decide (n < 10) then [] else digits fuel (n / 10)) ++ [48 + n mod 10]
  end.

(** [%04d] *)
Definition four_digits (n : Z) : list Z :=
  let d := digits 10 n in replicate (4 - length d) 48 ++ d.

(** Whether another file from [walk] on has the name. *)
(* @src C/dosfstools-2.11/dosfsck/check.c:316-318 auto_rename *)
Fixpoint name_used (fuel : nat) (p : nat) (name : list Z) (walk : option nat) (s : check_state) : outcome bool :=
  match walk with
  | None => Ret false
  | Some q =>
      match fuel with
      | O => Fault OutOfFuel
      | S fuel =>
          f ← get_file q s;
          if bool_decide (q <> p) && same_name 11 (de_name (dir_ent f)) name then Ret true
          else name_used fuel p name (next f) s
      end
  end.

(** [sprintf] ends the first part with a zero, which the extension overwrites. *)
Definition ren_entry (number : Z) (de : list Z) : list Z :=
  write_at 8 (str_bytes "REN") (write_at 0 (str_bytes "FSCK" ++ four_digits number ++ [0]) de).

(* @src C/dosfstools-2.11/dosfsck/check.c:312-324 auto_rename *)
Fixpoint rename_loop (fuel : nat) (p : nat) (first : option nat) (number : Z) (s : check_state)
  : outcome check_state :=
  match fuel with
  | O => Fault OutOfFuel
  | S fuel =>
      f ← get_file p s;
      let f := set_dir_ent (ren_entry number (dir_ent f)) f in
      let s := put_file p f s in
      used ← name_used (S (size (files s))) p (de_name (dir_ent f)) first s;
      if (used : bool) then rename_loop fuel p first (number + 1) s
      else write_io (offset f) (de_name (dir_ent f)) s
  end.

(* @src C/dosfstools-2.11/dosfsck/check.c:305-326 auto_rename *)
Definition auto_rename (p : nat) (s : check_state) : outcome check_state :=
  f ← get_file p s;
  if bool_decide (offset f = 0) then Ret s
  else
    start ← match parent f with
            | Some q => d ← get_file q s; Ret (first d)
            | None => Ret (root s)
            end;
    rename_loop (S (size (files s))) p start 0 s.

(** ** A new entry in the root directory *)

Definition free_entry (de : list Z) : bool :=
  IS_FREE (de_name de) && bool_decide (de_attr de <> VFAT_LN_ATTR).

(** Enough steps for every entry of every cluster. *)
Definition entry_fuel (s : check_state) : nat :=
  Z.to_nat ((clusters (k_fs s) + 3) * (cluster_size (k_fs s) / 32 + 1)).

(** Step to the next entry of a directory in clusters: the cluster, the count of
    bytes, the offset and the last cluster that was left. *)
(* @src C/dosfstools-2.11/dosfsck/check.c:81-88 alloc_rootdir_entry *)
Definition next_entry (clu_num i off prev : Z) (s : check_state) : outcome (Z * Z * Z * Z) :=
  let i := i + 32 in
  if bool_decide (i mod cluster_size (k_fs s) = 0) then
    n ← next_cluster (k_fs s) clu_num;
    Ret (n, i, if on_chain n then cluster_start (k_fs s) n else off + 32, clu_num)
  else Ret (clu_num, i, off + 32, prev).

(** The offset of a free entry, or the last cluster of the directory. *)
(* @src C/dosfstools-2.11/dosfsck/check.c:73-89 alloc_rootdir_entry *)
Fixpoint find_free (fuel : nat) (clu_num i off prev : Z) (s : check_state) : outcome (Z + Z) :=
  match fuel with
  | O => Fault OutOfFuel
  | S fuel =>
      if on_chain clu_num then
        d2 ← fs_read bad_read off 32 (d_io (k_dos s));
        if free_entry d2 then Ret (inl off)
        else
          '(clu_num, i, off, prev) ← next_entry clu_num i off prev s;
          find_free fuel clu_num i off prev s
      else Ret (inr prev)
  end.

(** The search for a free cluster wraps around after the last one, but compares
    with [prev] only afterwards. *)
(* @src C/dosfstools-2.11/dosfsck/check.c:95-99 alloc_rootdir_entry *)
Fixpoint find_cluster (fuel : nat) (clu_num prev : Z) (s : check_state) : outcome Z :=
  match fuel with
  | O => Fault OutOfFuel
  | S fuel =>
      if bool_decide (clu_num = prev) then Ret clu_num
      else
        let clu_num := if bool_decide (clu_num >= clusters (k_fs s) + 2) then 2 else clu_num in
        e ← fat_at (k_fs s) clu_num;
        if bool_decide (value e = 0) then Ret clu_num else find_cluster fuel (clu_num + 1) prev s
  end.

(** Whether an entry other than the one at [off] has the name. *)
(* @src C/dosfstools-2.11/dosfsck/check.c:114-132 alloc_rootdir_entry *)
Fixpoint name_in_root (fuel : nat) (name : list Z) (off clu_num i off2 : Z) (s : check_state) : outcome bool :=
  match fuel with
  | O => Fault OutOfFuel
  | S fuel =>
      if on_chain clu_num then
        d2 ← fs_read bad_read off2 32 (d_io (k_dos s));
        if bool_decide (off2 <> off) && same_name 11 (de_name d2) name then Ret true
        else
          '(clu_num, i, off2, _) ← next_entry clu_num i off2 0 s;
          name_in_root fuel name off clu_num i off2 s
      else Ret false
  end.

(** A name that is not used: the counter goes up until there is one. *)
(* @src C/dosfstools-2.11/dosfsck/check.c:112-134 alloc_rootdir_entry *)
Fixpoint unique_name (fuel : nat) (used : list Z -> outcome bool) (s : check_state)
  : outcome (list Z * check_state) :=
  match fuel with
  | O => Fault OutOfFuel
  | S fuel =>
      let name := str_bytes "FSCK" ++ four_digits (curr_num s) ++ str_bytes "REC" in
      u ← used name;
      if (u : bool) then
        _ ← require (bool_decide (curr_num s + 1 < 10000)) Died;
        unique_name fuel used (set_curr_num (curr_num s + 1) s)
      else Ret (name, s)
  end.

(** Zeroes in all entries of a cluster. *)
(* @src C/dosfstools-2.11/dosfsck/check.c:105-109 alloc_rootdir_entry *)
Definition clear_cluster (off : Z) (s : check_state) : outcome check_state :=
  each (fun k s => write_io (off + 32 * k) (replicate 32 0) s)
    (seqZ 0 ((cluster_size (k_fs s) + 31) / 32)) s.

(* @src C/dosfstools-2.11/dosfsck/check.c:90-110 alloc_rootdir_entry *)
Definition extend_root (prev : Z) (s : check_state) : outcome (Z * check_state) :=
  _ ← require (bool_decide (prev <> 0)) Died;
  clu_num ← find_cluster (chain_fuel s) (prev + 1) prev s;
  _ ← require (bool_decide (clu_num <> prev)) Died;
  s ← on_dos (set_fat prev clu_num) s;
  s ← on_dos (set_fat clu_num (-1)) s;
  o ← get_owner (k_fs s) (root_cluster (k_fs s));
  s ← put_owner clu_num o s;
  let off := cluster_start (k_fs s) clu_num in
  s ← clear_cluster off s;
  Ret (off, s).

(** The first free entry of a root directory outside the clusters. *)
(* @src C/dosfstools-2.11/dosfsck/check.c:143-149 alloc_rootdir_entry *)
Fixpoint first_free (entries : list (list Z)) (n : Z) : outcome Z :=
  match entries with
  | [] => Fault Died
  | de :: entries => if free_entry de then Ret n else first_free entries (n + 1)
  end.

(** The offset of the entry and its bytes, a name and zeroes. *)
(* @src C/dosfstools-2.11/dosfsck/check.c:62-165 alloc_rootdir_entry *)
Definition alloc_rootdir_entry (s : check_state) : outcome (Z * list Z * check_state) :=
  '(off, name, s) ←
    (if bool_decide (root_cluster (k_fs s) <> 0) then
       let clu := root_cluster (k_fs s) in
       found ← find_free (entry_fuel s) clu 0 (cluster_start (k_fs s) clu) 0 s;
       '(off, s) ← match found with inl off => Ret (off, s) | inr prev => extend_root prev s end;
       '(name, s) ← unique_name (Z.to_nat 10001)
          (fun name => name_in_root (entry_fuel s) name off clu 0 (cluster_start (k_fs s) clu) s) s;
       Ret (off, name, s)
     else
       let n := root_entries (k_fs s) in
       dir ← fs_read bad_read (root_start (k_fs s)) (n * 32) (d_io (k_dos s));
       let entries := map (fun k => read_at (32 * k) 32 dir) (seqZ 0 n) in
       next_free ← first_free entries 0;
       '(name, s) ← unique_name (Z.to_nat 10001)
          (fun name => Ret (existsb (fun k => bool_decide (k <> next_free) &&
             same_name 11 (de_name (read_at (32 * k) 32 dir)) name) (seqZ 0 n))) s;
       Ret (root_start (k_fs s) + next_free * 32, name, s));
  Ret (off, write_at 0 name (replicate 32 0), set_n_files (u32 (n_files s + 1)) s).

(** ** Chains without a file *)

Definition set_prev (c : Z) (n : Z) (s : check_state) : outcome check_state :=
  e ← fat_at (k_fs s) c;
  Ret (set_dos (Dos (d_io (k_dos s)) (fat_put c (FatEntry (value e) (reserved e) (owner e) n) (k_fs s))) s).

(** In use according to its entry. *)
Definition in_use (e : FAT_ENTRY) (fs : DOS_FS) : bool :=
  bool_decide (value e <> 0) && negb (FAT_IS_BAD atari_format fs (value e)).

(** Give a chain to [ptr]; where it meets itself it ends. *)
(* @src C/dosfstools-2.11/dosfsck/fat.c:242-253 tag_free *)
Fixpoint tag_chain (fuel : nat) (ptr : nat) (walk prev : Z) (s : check_state) : outcome check_state :=
  match fuel with
  | O => Fault OutOfFuel
  | S fuel =>
      if on_chain walk then
        e ← fat_at (k_fs s) walk;
        match owner e with
        | None =>
            s ← put_owner walk (Some ptr) s;
            n ← next_cluster (k_fs s) walk;
            tag_chain fuel ptr n walk s
        | Some o =>
            if bool_decide (o <> ptr) then Fault Died else on_dos (set_fat prev (-1)) s
        end
      else Ret s
  end.

(* @src C/dosfstools-2.11/dosfsck/fat.c:233-255 tag_free *)
Definition tag_free (ptr : nat) (s : check_state) : outcome check_state :=
  each (fun i s =>
    e ← fat_at (k_fs s) i;
    if in_use e (k_fs s) && bool_decide (owner e = None) && bool_decide (DosFat.prev e = 0)
    then tag_chain (chain_fuel s) ptr i 0 s else Ret s) (cluster_numbers (k_fs s)) s.

(** How many clusters without owner lead to each; an entry that leads to a file, a
    free or a bad cluster becomes an end. *)
(* @src C/dosfstools-2.11/dosfsck/fat.c:267-274 reclaim_file *)
Definition count_refs (i : Z) (s : check_state) : outcome check_state :=
  e ← fat_at (k_fs s) i;
  if bool_decide (owner e = None) && bool_decide (value e <> 0) && bool_decide (value e < clusters (k_fs s) + 2)
  then
    n ← fat_at (k_fs s) (value e);
    if negb (bool_decide (owner n = None)) || negb (in_use n (k_fs s)) then on_dos (set_fat i (-1)) s
    else set_prev (value e) (DosFat.prev n + 1) s
  else Ret s.

(** The first cluster in use that still has no owner is on a cycle: cut it. *)
(* @src C/dosfstools-2.11/dosfsck/fat.c:278-287 reclaim_file *)
Fixpoint break_cycle (l : list Z) (s : check_state) : outcome (bool * check_state) :=
  match l with
  | [] => Ret (false, s)
  | i :: l =>
      e ← fat_at (k_fs s) i;
      if in_use e (k_fs s) && bool_decide (owner e = None) then
        n ← fat_at (k_fs s) (value e);
        _ ← require (bool_decide (DosFat.prev n <> 0)) Died;
        s ← set_prev (value e) (DosFat.prev n - 1) s;
        s ← on_dos (set_fat i (-1)) s;
        Ret (true, s)
      else break_cycle l s
  end.

(* @src C/dosfstools-2.11/dosfsck/fat.c:275-289 reclaim_file *)
Fixpoint break_cycles (fuel : nat) (ptr : nat) (s : check_state) : outcome check_state :=
  match fuel with
  | O => Fault OutOfFuel
  | S fuel =>
      s ← tag_free ptr s;
      '(changed, s) ← break_cycle (cluster_numbers (k_fs s)) s;
      if (changed : bool) then break_cycles fuel ptr s else Ret s
  end.

(** The size of a recovered file. *)
(* @src C/dosfstools-2.11/dosfsck/fat.c:300-304 reclaim_file *)
Fixpoint chain_size (fuel : nat) (walk size : Z) (s : check_state) : outcome Z :=
  match fuel with
  | O => Fault OutOfFuel
  | S fuel =>
      if on_chain walk then
        n ← next_cluster (k_fs s) walk;
        chain_size fuel n (u32 (size + cluster_size (k_fs s))) s
      else Ret size
  end.

(** A directory entry for the chain that starts at [i]. *)
(* @src C/dosfstools-2.11/dosfsck/fat.c:292-306 reclaim_file *)
Definition recover_chain (ptr : nat) (i : Z) (s : check_state) : outcome check_state :=
  e ← fat_at (k_fs s) i;
  if bool_decide (owner e = Some ptr) && bool_decide (DosFat.prev e = 0) then
    '(off, de, s) ← alloc_rootdir_entry s;
    let de := write_at 26 (Z_to_little_endian 2 8 (Z.land i 0xffff)) de in
    let de := if bool_decide (fat_bits (k_fs s) = 32)
              then write_at 20 (Z_to_little_endian 2 8 (Z.shiftr i 16)) de else de in
    size ← chain_size (chain_fuel s) i (de_size de) s;
    write_io off (write_at 28 (Z_to_little_endian 4 8 size) de) s
  else Ret s.

(** A number that no file has, for the owner of recovered chains. *)
Definition dummy (s : check_state) : nat := S (foldr Nat.max 0%nat (map fst (map_to_list (files s)))).

(* @src C/dosfstools-2.11/dosfsck/fat.c:258-311 reclaim_file *)
Definition reclaim_file (s : check_state) : outcome check_state :=
  s ← each (fun i s => set_prev i 0 s) (cluster_numbers (k_fs s)) s;
  s ← each count_refs (cluster_numbers (k_fs s)) s;
  let ptr := dummy s in
  s ← break_cycles (chain_fuel s) ptr s;
  each (recover_chain ptr) (cluster_numbers (k_fs s)) s.

End Check.
