(* ===== verification/DosChain.v ===== *)
(** * What dosfsck makes of the chain of a file

    Properties of [check_file] and [truncate_file] ([DosCheck]): the chain of a
    file afterwards, and what happens to clusters that two files share. *)

From S2P Require Import Prelude DosIo DosFat DosBoot DosCheck.

(** ** Steps on the state *)

(** Two states that differ only in the table and the disk. *)
Definition same_files (s s' : check_state) : Prop :=
  files s' = files s /\ root s' = root s /\ n_files s' = n_files s /\ curr_num s' = curr_num s.

#[export] Instance same_files_preorder : PreOrder same_files.
Proof. unfold same_files. split; [done|]. intros a b c (?&?&?&?) (?&?&?&?). split_and!; congruence. Qed.

Definition with_owner (o : option nat) (e : FAT_ENTRY) : FAT_ENTRY :=
  FatEntry (value e) (reserved e) o (prev e).

Lemma with_value_same e : with_value (value e) e = e.
Proof. by destruct e. Qed.

Section Chain.

Variables interactive wi atari_format : bool.
Variable long_size : Z.

Local Abbreviation set_fat := (set_fat wi atari_format long_size).
Local Abbreviation next_cluster := (next_cluster atari_format).
Local Abbreviation FSTART := (FSTART long_size).

(** The clusters from 2 on. *)
Definition cluster_ok (fs : DOS_FS) (c : Z) : Prop := 2 <= c < clusters fs + 2.

#[export] Instance cluster_ok_dec fs c : Decision (cluster_ok fs c).
Proof. unfold cluster_ok. apply _. Defined.

(** What the steps keep: the table and the disk in step, the files and the size of
    the device. *)
Record kept_ok (s s' : check_state) : Prop := {
  kept_fs : fs_ok wi (k_dos s');
  kept_files : same_files s s';
  kept_shape : same_shape (k_fs s) (k_fs s');
  kept_device : length (device (d_io (k_dos s'))) = length (device (d_io (k_dos s)));
  kept_data pos n : fat_start (k_fs s) + 2 * fat_size (k_fs s) <= pos -> 0 <= n ->
    pos + n <= Z.of_nat (length (device (d_io (k_dos s)))) ->
    read_at pos n (vdisk (d_io (k_dos s'))) = read_at pos n (vdisk (d_io (k_dos s)));
}.

Lemma kept_ok_refl s : fs_ok wi (k_dos s) -> kept_ok s s.
Proof. by split. Qed.

Lemma kept_ok_trans s1 s2 s3 : kept_ok s1 s2 -> kept_ok s2 s3 -> kept_ok s1 s3.
Proof.
  intros [A1 A2 A3 A4 A5] [B1 B2 B3 B4 B5].
  split; [done|by etrans|by etrans|congruence|]. intros pos n Hp Hn He.
  rewrite B5; [by apply A5| |done|by rewrite A4]. by rewrite A3.
Qed.

Lemma step_set_fat c new s e v :
  fs_ok wi (k_dos s) -> storable long_size (k_fs s) c -> cluster_ok (k_fs s) c ->
  fat_at (k_fs s) c = Ret e -> fat_value atari_format (k_fs s) new = v ->
  0 <= v < 2 ^ eff_fat_bits (k_fs s) ->
  exists s', on_dos (set_fat c new) s = Ret s' /\ kept_ok s s' /\
    k_fs s' = fat_put c (with_value v e) (k_fs s).
Proof.
  intros Hok Hst Hc He <- Hr. pose proof (ok_geometry _ _ Hok) as G.
  destruct (set_fat_spec wi atari_format long_size c new (k_dos s) Hok Hc Hst Hr)
    as (d & o & data & Hset & Hok' & Hfs & Hlen & _ & Ho & Hin & Hv & _).
  unfold put_value in Hfs. fold (k_fs s) in Hfs, Hin, Hv, G. rewrite He in Hfs.
  exists (set_dos d s). unfold on_dos. rewrite Hset. run. split; [done|]. split; [|done].
  pose proof (g_start _ _ G). pose proof (g_size _ _ G). pose proof (vdisk_length (d_io (k_dos s))).
  split; cbn [k_dos set_dos]; try done.
  - unfold k_fs at 2. cbn [k_dos set_dos]. rewrite Hfs. apply same_shape_put.
  - intros pos n Hp Hn He'. rewrite Hv.
    rewrite !read_write_outside by (rewrite ?write_at_length; lia). done.
Qed.

Lemma step_end c s e :
  fs_ok wi (k_dos s) -> storable long_size (k_fs s) c -> cluster_ok (k_fs s) c ->
  fat_at (k_fs s) c = Ret e ->
  exists s', on_dos (set_fat c (-1)) s = Ret s' /\ kept_ok s s' /\
    k_fs s' = fat_put c (with_value (FAT_EOF atari_format (k_fs s)) e) (k_fs s).
Proof.
  intros Hok Hst Hc He.
  destruct (special_values atari_format _ _ (ok_geometry _ _ Hok)) as (Heof & _).
  by apply step_set_fat.
Qed.

Lemma step_free c s e :
  fs_ok wi (k_dos s) -> storable long_size (k_fs s) c -> cluster_ok (k_fs s) c ->
  fat_at (k_fs s) c = Ret e ->
  exists s', on_dos (set_fat c 0) s = Ret s' /\ kept_ok s s' /\
    k_fs s' = fat_put c (with_value 0 e) (k_fs s).
Proof.
  intros Hok Hst Hc He. apply step_set_fat; try done. split; [lia|]. apply Z.pow_pos_nonneg; [lia|].
  unfold k_fs. destruct (g_bits _ _ (ok_geometry _ _ Hok)) as [[_ ->]|[[_ ->]|[_ ->]]]; lia.
Qed.

(** Owners are not on the disk. *)
Lemma fs_ok_owner s c e o :
  fs_ok wi s -> cluster_ok (d_fs s) c -> fat_at (d_fs s) c = Ret e ->
  fs_ok wi (Dos (d_io s) (fat_put c (with_owner o e) (d_fs s))).
Proof.
  intros [Hio G Hv Hby Hsy] Hc He. destruct (Hv c e Hc He) as [Hr1 Hr2].
  split; cbn [d_io d_fs]; [done|by apply geometry_put|by eapply values_put|done|].
  intros k Hk i Hi. destruct (Hsy k Hk i Hi) as (v & v' & Hat & Hg & Hvv & Hrv).
  unfold entry_synced. rewrite (fat_at_put _ _ _ _ _ G) by (unfold cluster_ok in Hc; cbn in Hi; lia).
  change (fat_copy (fat_put c (with_owner o e) (d_fs s))) with (fat_copy (d_fs s)).
  change (get_fat ?j ?t i (fat_put c (with_owner o e) (d_fs s))) with (get_fat j t i (d_fs s)).
  case_decide as Hic; [|by exists v, v']. subst i. rewrite He in Hat. injection Hat as <-.
  destruct (get_fat_junk e (with_owner o e) (d_fs s) _ c v' Hg) as (v2 & Hg2 & Hv2 & Hr3); [done|].
  exists (with_owner o e), v2. split_and!; [done|done|by rewrite Hv2|by rewrite Hr3].
Qed.

Lemma step_owner c o s e :
  fs_ok wi (k_dos s) -> cluster_ok (k_fs s) c -> fat_at (k_fs s) c = Ret e ->
  o = None \/ owner e = None ->
  exists s', put_owner c o s = Ret s' /\ kept_ok s s' /\
    k_fs s' = fat_put c (with_owner o e) (k_fs s) /\ d_io (k_dos s') = d_io (k_dos s).
Proof.
  intros Hok Hc He Ho. unfold put_owner, set_owner. rewrite He. run.
  rewrite bool_decide_eq_false_2 by (intros [? ?]; by destruct Ho). run.
  eexists. split; [done|]. split; [|done].
  split; [by apply (fs_ok_owner (k_dos s))|done|apply same_shape_put|done|done].
Qed.

(** ** Steps on the entry of a file *)

(** The entry lies on the device behind the tables. *)
Record placed (fs : DOS_FS) (n : nat) (f : DOS_FILE) : Prop := {
  p_offset : 0 < offset f;
  p_behind : fat_start fs + 2 * fat_size fs <= offset f;
  p_device : offset f + 32 <= Z.of_nat n;
  p_length : length (dir_ent f) = 32%nat;
}.

(** The entry in memory is the one on the disk. *)
Definition on_disk (s : check_state) (f : DOS_FILE) : Prop :=
  read_at (offset f) 32 (vdisk (d_io (k_dos s))) = dir_ent f.

Lemma on_disk_kept s s' f :
  kept_ok s s' -> placed (k_fs s) (length (device (d_io (k_dos s)))) f -> on_disk s f -> on_disk s' f.
Proof.
  intros [] [] Hd. unfold on_disk. rewrite kept_data0; [done|done|lia|done].
Qed.

(** Writing bytes of an entry. *)
Lemma fs_ok_data_write s io' pos data :
  fs_ok wi s -> io_ok wi io' -> vdisk io' = write_at pos data (vdisk (d_io s)) ->
  length (device io') = length (device (d_io s)) -> Forall byte data ->
  fat_start (d_fs s) + 2 * fat_size (d_fs s) <= pos -> fs_ok wi (Dos io' (d_fs s)).
Proof.
  intros [Hio G Hv Hby Hsy] Hio' Hvd Hlen Hdata Hpos. pose proof (g_start _ _ G). pose proof (g_size _ _ G).
  pose proof (eff_size_pos _ _ G). pose proof (g_end _ _ G). pose proof (g_copies _ _ G).
  pose proof (vdisk_length (d_io s)).
  split; cbn [d_io d_fs]; [done|by rewrite Hlen|done|rewrite Hvd; by apply write_at_bytes|].
  intros k Hk. assert (k = 0 \/ k = 1) as Hk01 by (apply elem_of_seqZ in Hk; lia).
  unfold fat_copy. rewrite Hvd, read_write_outside; [by apply Hsy|nia..].
Qed.

(** Only the file [p] and its entry on the disk change. *)
Record entry_change (p : nat) (f' : DOS_FILE) (s s' : check_state) : Prop := {
  e_fs : fs_ok wi (k_dos s');
  e_same : k_fs s' = k_fs s;
  e_files : files s' = <[p := f']> (files s);
  e_root : root s' = root s;
  e_device : length (device (d_io (k_dos s'))) = length (device (d_io (k_dos s)));
  e_disk : on_disk s' f';
}.

Lemma step_modify p f off data s :
  fs_ok wi (k_dos s) -> files s !! p = Some f -> placed (k_fs s) (length (device (d_io (k_dos s)))) f ->
  on_disk s f -> 0 <= off -> off + Z.of_nat (length data) <= 32 -> Forall byte data ->
  exists s', MODIFY wi p off data s = Ret s' /\
    entry_change p (set_dir_ent (write_at off data (dir_ent f)) f) s s'.
Proof.
  intros Hok Hf [Ho Hb Hd Hl] Hdisk Hoff Hlen Hdata. unfold MODIFY, get_file. rewrite Hf. run.
  rewrite bool_decide_eq_true_2 by lia. unfold write_io. cbn [k_dos put_file set_files].
  destruct (fs_write_spec wi (offset f + off) data (d_io (k_dos s)) (ok_io _ _ Hok))
    as (io' & -> & Hio' & Hv & Hlen' & _).
  { unfold change_ok. cbn [c_pos c_data]. lia. }
  run. eexists. split; [reflexivity|]. pose proof (vdisk_length (d_io (k_dos s))).
  split; try done.
  - apply (fs_ok_data_write (k_dos s) io' (offset f + off) data); try done. unfold k_fs in Hb. lia.
  - unfold on_disk. cbn [k_dos set_dos d_io set_dir_ent offset dir_ent]. rewrite Hv.
    rewrite read_write_inside by lia. by rewrite Hdisk.
Qed.

(** A file whose entry has changed in other fields than the attributes. *)
Record entry_like (f f' : DOS_FILE) : Prop := {
  l_offset : offset f' = offset f;
  l_length : length (dir_ent f') = length (dir_ent f);
  l_attr : de_attr (dir_ent f') = de_attr (dir_ent f);
}.

Lemma placed_like fs n f f' : entry_like f f' -> placed fs n f -> placed fs n f'.
Proof. intros [H1 H2 _] []. split; rewrite ?H1, ?H2; done. Qed.

Lemma is_dir_like f f' : entry_like f f' -> is_dir (dir_ent f') = is_dir (dir_ent f).
Proof. intros [_ _ H]. unfold is_dir. by rewrite H. Qed.

Lemma entry_like_write f off data :
  length (dir_ent f) = 32%nat -> 0 <= off -> off + Z.of_nat (length data) <= 11 \/ 12 <= off ->
  entry_like f (set_dir_ent (write_at off data (dir_ent f)) f).
Proof.
  intros Hl Hoff Hout. split; [done|apply write_at_length|].
  apply field_write_other; rewrite ?Hl; lia.
Qed.

Lemma entry_like_trans a b c : entry_like a b -> entry_like b c -> entry_like a c.
Proof. intros [] []. split; congruence. Qed.

Lemma entry_change_trans p f1 f2 s1 s2 s3 :
  entry_change p f1 s1 s2 -> entry_change p f2 s2 s3 -> entry_change p f2 s1 s3.
Proof.
  intros [A1 A2 A3 A4 A5 A6] [B1 B2 B3 B4 B5 B6]. split; try congruence.
  rewrite B3, A3. by rewrite insert_insert_eq.
Qed.

Lemma entry_change_lookup p f s s' : entry_change p f s s' -> files s' !! p = Some f.
Proof. intros []. rewrite e_files0. apply lookup_insert_eq. Qed.

(** Taking the first cluster off a file. *)
Lemma step_start0 p f s :
  fs_ok wi (k_dos s) -> files s !! p = Some f -> placed (k_fs s) (length (device (d_io (k_dos s)))) f ->
  on_disk s f ->
  exists s' f', MODIFY_START wi long_size p 0 s = Ret s' /\ entry_change p f' s s' /\ entry_like f f' /\
    FSTART f' (k_fs s) = 0 /\ de_size (dir_ent f') = de_size (dir_ent f).
Proof.
  intros Hok Hf Hpl Hdisk. pose proof Hpl as [Ho Hb Hd Hl]. unfold MODIFY_START, get_file. rewrite Hf. run.
  change (wrap (8 * long_size) 0) with (0 mod 2 ^ (8 * long_size)). rewrite Zmod_0_l.
  rewrite bool_decide_eq_false_2 by lia.
  change (Z_to_little_endian 2 8 (Z.land 0 65535)) with [0; 0].
  change (Z_to_little_endian 2 8 (Z.shiftr 0 16)) with [0; 0].
  destruct (step_modify p f 26 [0; 0] s Hok Hf Hpl Hdisk) as (s1 & -> & H1); [lia|cbn; lia|by repeat constructor|].
  run. set (f1 := set_dir_ent _ _) in *.
  assert (L1 : entry_like f f1) by (apply entry_like_write; [done|lia|right; lia]).
  assert (Hst1 : de_start (dir_ent f1) = 0).
  { unfold f1, de_start. cbn [set_dir_ent dir_ent]. apply (field_write_same 26 2 0 (dir_ent f)); lia. }
  assert (Hsz1 : de_size (dir_ent f1) = de_size (dir_ent f)).
  { apply field_write_other; cbn [length]; lia. }
  pose proof (e_same _ _ _ _ H1) as Hsame. rewrite Hsame.
  case_bool_decide as H32.
  - destruct (step_modify p f1 20 [0; 0] s1) as (s2 & -> & H2); [by destruct H1|by apply (entry_change_lookup p f1 s)| |
      by destruct H1|lia|cbn; lia|by repeat constructor|].
    { rewrite Hsame, (e_device _ _ _ _ H1). by apply (placed_like _ _ f). }
    eexists s2, _. split; [done|]. split; [by eapply entry_change_trans|].
    assert (Hl1 : length (dir_ent f1) = 32%nat) by (by rewrite (l_length _ _ L1)).
    split; [apply (entry_like_trans _ f1); [done|apply entry_like_write; [exact Hl1|lia|right; lia]]|].
    split; [|rewrite <- Hsz1; apply field_write_other; cbn [length]; lia].
    unfold FSTART. rewrite (bool_decide_eq_true_2 _ H32). cbn [set_dir_ent dir_ent].
    assert (de_starthi (write_at 20 [0; 0] (dir_ent f1)) = 0) as ->
      by (apply (field_write_same 20 2 0 (dir_ent f1)); lia).
    assert (de_start (write_at 20 [0; 0] (dir_ent f1)) = 0) as ->
      by (rewrite <- Hst1; apply field_write_other; cbn [length]; lia).
    unfold wrap. apply Zmod_0_l.
  - exists s1, f1. split_and!; try done. unfold FSTART. rewrite (bool_decide_eq_false_2 _ H32), Hst1. done.
Qed.

Lemma step_size p f v s :
  fs_ok wi (k_dos s) -> files s !! p = Some f -> placed (k_fs s) (length (device (d_io (k_dos s)))) f ->
  on_disk s f -> 0 <= v < 2 ^ 32 ->
  exists s' f', put_size wi p v s = Ret s' /\ entry_change p f' s s' /\ entry_like f f' /\
    (forall fs, FSTART f' fs = FSTART f fs) /\ de_size (dir_ent f') = v.
Proof.
  intros Hok Hf Hpl Hdisk Hv. pose proof Hpl as [Ho Hb Hd Hl].
  pose proof (length_Z_to_little_endian 4 8 v ltac:(lia)) as Hlen.
  destruct (step_modify p f 28 (Z_to_little_endian 4 8 v) s Hok Hf Hpl Hdisk) as (s1 & H1 & H2);
    [lia|lia|by apply (Z_to_little_endian_bound 4 8)|].
  eexists s1, _. split; [exact H1|]. split; [exact H2|]. split; [apply entry_like_write; lia|]. split.
  - intros fs. unfold FSTART. cbn [set_dir_ent dir_ent].
    assert (de_start (write_at 28 (Z_to_little_endian 4 8 v) (dir_ent f)) = de_start (dir_ent f)) as ->
      by (apply field_write_other; lia).
    by assert (de_starthi (write_at 28 (Z_to_little_endian 4 8 v) (dir_ent f)) = de_starthi (dir_ent f)) as ->
      by (apply field_write_other; lia).
  - cbn [set_dir_ent dir_ent]. unfold de_size. rewrite field_write_same by lia. by apply Z.mod_small.
Qed.

(** ** Chains

    [chain fs c l]: from [c] the table leads through the clusters [l] to an end
    mark. *)

Fixpoint chain (fs : DOS_FS) (c : Z) (l : list Z) : Prop :=
  match l with
  | [] => c = -1
  | x :: l => c = x /\ cluster_ok fs x /\ exists n, next_cluster fs x = Ret n /\ chain fs n l
  end.

(** The entry of a cluster as far as the chain goes. *)
Lemma next_cluster_put fs n c e x :
  geometry_ok fs n -> cluster_ok fs c -> cluster_ok fs x ->
  next_cluster (fat_put c e fs) x =
  if decide (x = c) then
    (if FAT_IS_BAD atari_format fs (value e) then Fault Died
     else Ret (if FAT_IS_EOF fs (value e) then -1 else value e))
  else next_cluster fs x.
Proof.
  unfold cluster_ok. intros G Hc Hx. unfold DosFat.next_cluster.
  rewrite (fat_at_put _ _ _ _ _ G) by lia. by case_decide.
Qed.

Lemma chain_shape fs fs' c l :
  clusters fs' = clusters fs -> 
  (forall x n, x ∈ l -> cluster_ok fs x -> next_cluster fs x = Ret n -> next_cluster fs' x = Ret n) ->
  chain fs c l -> chain fs' c l.
Proof.
  intros Hcl. revert c. induction l as [|x l IH]; intros c Hsame; [done|].
  intros (-> & Hx & n & Hn & Hch). split; [done|]. unfold cluster_ok in *. split; [by rewrite Hcl|].
  exists n. split; [by apply Hsame; [left| |]|]. apply IH; [|done].
  intros y m Hy. apply Hsame. by right.
Qed.

Lemma chain_put fs n c e x l :
  geometry_ok fs n -> cluster_ok fs c -> c ∉ l -> chain fs x l -> chain (fat_put c e fs) x l.
Proof.
  intros G Hc Hni. apply chain_shape; [done|]. intros y m Hy Hyok Hm.
  rewrite (next_cluster_put _ _ _ _ _ G) by done. rewrite decide_False; [done|]. by intros ->.
Qed.

(** Only owners changed. *)
Lemma chain_owner fs n c e o x l :
  geometry_ok fs n -> cluster_ok fs c -> fat_at fs c = Ret e ->
  chain fs x l -> chain (fat_put c (with_owner o e) fs) x l.
Proof.
  intros G Hc He. apply chain_shape; [done|]. intros y m Hy Hyok Hm.
  rewrite (next_cluster_put _ _ _ _ _ G) by done. case_decide; [|done]. subst y.
  unfold DosFat.next_cluster in Hm. by rewrite He in Hm.
Qed.

Lemma chain_cons_entry fs n x l c :
  geometry_ok fs n -> chain fs c (x :: l) ->
  exists e m, c = x /\ cluster_ok fs x /\ fat_at fs x = Ret e /\ next_cluster fs x = Ret m /\
    chain fs m l /\ FAT_IS_BAD atari_format fs (value e) = false /\ value e <> 0.
Proof.
  intros G (-> & Hx & m & Hm & Hl). destruct (fat_at_in _ _ x G) as [e He]; [unfold cluster_ok in Hx; lia|].
  exists e, m. pose proof Hm as Hm'. unfold DosFat.next_cluster in Hm'. rewrite He in Hm'. revert Hm'. run.
  destruct (FAT_IS_BAD atari_format fs (value e)) eqn:Hb; [done|]. intros [= Hmv]. split_and!; try done.
  intros H0. rewrite H0 in Hmv.
  assert (FAT_IS_EOF fs 0 = false) as Heof.
  { unfold FAT_IS_EOF, FAT_EXTD. destruct (g_bits _ _ G) as [[_ ->]|[[_ ->]|[_ ->]]]; done. }
  rewrite Heof in Hmv. subst m. destruct l as [|y l]; [done|]. destruct Hl as (<- & Hy & _).
  unfold cluster_ok in Hy. lia.
Qed.

Lemma chain_ok fs c l : chain fs c l -> Forall (cluster_ok fs) l.
Proof.
  revert c. induction l as [|x l IH]; intros c; [by constructor|]. intros (_ & Hx & n & _ & Hl).
  apply Forall_cons. split; [done|by eapply IH].
Qed.

(** *** Cutting a chain

    What [truncate_file] stores in cluster [i] of the chain [l] when [k] clusters
    are kept. *)
Fixpoint cut (fs : DOS_FS) (l : list Z) (k : nat) (i : Z) : option Z :=
  match l with
  | [] => None
  | x :: l =>
      if decide (i = x) then
        match k with
        | O => Some 0
        | S O => Some (FAT_EOF atari_format fs)
        | _ => None
        end
      else cut fs l (pred k) i
  end.

Definition cut_entry (fs : DOS_FS) (l : list Z) (k : nat) (i : Z) (e : FAT_ENTRY) : FAT_ENTRY :=
  match cut fs l k i with Some v => with_value v e | None => e end.

Lemma cut_other fs l k i : i ∉ l -> cut fs l k i = None.
Proof.
  revert k. induction l as [|x l IH]; intros k Hni; [done|]. cbn.
  rewrite decide_False by (intros ->; apply Hni; by left). apply IH. intros ?. apply Hni. by right.
Qed.

Lemma cut_shape fs fs' l k i : same_shape fs fs' -> cut fs' l k i = cut fs l k i.
Proof.
  intros Hsh. revert k. induction l as [|x l IH]; intros k; [done|]. cbn. rewrite IH.
  destruct k as [|[|k]]; try done. by rewrite Hsh.
Qed.

Lemma storables_shape fs fs' l :
  same_shape fs fs' -> Forall (storable long_size fs) l -> Forall (storable long_size fs') l.
Proof. intros Hsh H. eapply Forall_impl; [exact H|]. intros c. by apply storable_shape. Qed.

(** The loop of [truncate_file]: [k] is the number of clusters still to keep, zero
    when the rest is deleted. *)
Lemma truncate_loop_spec fuel l c k s :
  fs_ok wi (k_dos s) -> Forall (storable long_size (k_fs s)) l -> chain (k_fs s) c l -> NoDup l ->
  (length l < fuel)%nat ->
  exists s', truncate_loop wi atari_format long_size fuel c (bool_decide (k = 0%nat)) (Z.of_nat k) s = Ret s' /\
    kept_ok s s' /\
    forall i e, cluster_ok (k_fs s) i -> fat_at (k_fs s) i = Ret e ->
      fat_at (k_fs s') i = Ret (cut_entry (k_fs s) l k i e).
Proof.
  revert c k s fuel. induction l as [|x l IH]; intros c k s fuel Hok Hst Hch Hnd Hfuel;
    (destruct fuel as [|fuel]; [cbn in Hfuel; lia|]); cbn [truncate_loop].
  { cbn in Hch. subst c. exists s. split; [done|]. split; [by apply kept_ok_refl|done]. }
  pose proof (ok_geometry _ _ Hok) as G. fold (k_fs s) in G.
  destruct (chain_cons_entry _ _ _ _ _ G Hch) as (e & m & -> & Hx & He & Hm & Hl & _).
  apply NoDup_cons in Hnd as [Hni Hnd]. apply Forall_cons in Hst as [Hstx Hst]. unfold cluster_ok in Hx. unfold on_chain at 1.
  rewrite bool_decide_eq_true_2 by lia. rewrite Hm. run.
  assert (Hgo : forall s1 e', kept_ok s s1 ->
    k_fs s1 = fat_put x e' (k_fs s) -> cut_entry (k_fs s) (x :: l) k x e = e' ->
    exists s', truncate_loop wi atari_format long_size fuel m (bool_decide (pred k = 0%nat)) (Z.of_nat (pred k)) s1
               = Ret s' /\ kept_ok s s' /\
      forall i v, cluster_ok (k_fs s) i -> fat_at (k_fs s) i = Ret v ->
        fat_at (k_fs s') i = Ret (cut_entry (k_fs s) (x :: l) k i v)).
  { intros s1 e' K1 Hfs1 Hcut. pose proof (kept_shape _ _ K1) as Hsh.
    assert (Hch1 : chain (k_fs s1) m l) by (rewrite Hfs1; by apply (chain_put _ _ _ _ _ _ G)).
    destruct (IH m (pred k) s1 fuel) as (s' & Hrun & K2 & Hall); [exact (kept_fs _ _ K1)| |done|done|cbn in Hfuel; lia|].
    { by apply (storables_shape (k_fs s)). }
    exists s'. split; [done|]. split; [by eapply kept_ok_trans|]. intros i v Hi Hv.
    pose proof (same_shape_clusters _ _ Hsh) as Hcl.
    assert (Hat : fat_at (k_fs s1) i = Ret (if decide (i = x) then e' else v)).
    { rewrite Hfs1, (fat_at_put _ _ _ _ _ G) by (unfold cluster_ok in Hi; lia).
      by repeat case_decide. }
    assert (Hi1 : cluster_ok (k_fs s1) i) by (unfold cluster_ok; by rewrite Hcl).
    rewrite (Hall i _ Hi1 Hat). unfold cut_entry. rewrite (cut_shape _ _ l (pred k) i Hsh). cbn [cut].
    case_decide as Hix; [|done]. subst i. rewrite (cut_other _ l) by done.
    rewrite He in Hv. injection Hv as <-. rewrite <- Hcut. unfold cut_entry. cbn [cut].
    by rewrite decide_True. }
  destruct k as [|[|k]].
  - change (bool_decide (0%nat = 0%nat)) with true. cbv iota.
    destruct (step_free x s e Hok Hstx Hx He) as (s1 & -> & K1 & Hfs1). run.
    apply (Hgo s1 _ K1 Hfs1). unfold cut_entry. cbn [cut]. by rewrite decide_True.
  - change (bool_decide (1%nat = 0%nat)) with false. cbv iota. change (Z.of_nat 1 - 1) with 0.
    change (bool_decide (0 = 0)) with true. cbv iota.
    destruct (step_end x s e Hok Hstx Hx He) as (s1 & -> & K1 & Hfs1). run.
    apply (Hgo s1 _ K1 Hfs1). unfold cut_entry. cbn [cut]. by rewrite decide_True.
  - rewrite (bool_decide_eq_false_2 (S (S k) = 0%nat)), (bool_decide_eq_false_2 (_ = 0)) by lia.
    replace (Z.of_nat (S (S k)) - 1) with (Z.of_nat (pred (S (S k)))) by lia.
    assert (Hsame : k_fs s = fat_put x e (k_fs s)) by (by rewrite (put_same _ _ _ He)).
    destruct (Hgo s e (kept_ok_refl s Hok) Hsame) as (s' & Hrun & H); [|by exists s'].
    unfold cut_entry. cbn [cut]. by rewrite decide_True.
Qed.

(** *** Changes to one file *)

(** The table may change, and of the files only [p]. *)
Record file_change (p : nat) (f' : DOS_FILE) (s s' : check_state) : Prop := {
  c_fs : fs_ok wi (k_dos s');
  c_shape : same_shape (k_fs s) (k_fs s');
  c_files : files s' = <[p := f']> (files s);
  c_root : root s' = root s;
  c_device : length (device (d_io (k_dos s'))) = length (device (d_io (k_dos s)));
  c_disk : on_disk s' f';
}.

Lemma file_change_entry p f' s s' : entry_change p f' s s' -> file_change p f' s s'.
Proof. intros [H1 H2 H3 H4 H5 H6]. split; try done. rewrite H2. reflexivity. Qed.

Lemma file_change_kept p f s s' :
  kept_ok s s' -> files s !! p = Some f -> placed (k_fs s) (length (device (d_io (k_dos s)))) f ->
  on_disk s f -> file_change p f s s'.
Proof.
  intros K Hf Hpl Hd. pose proof (on_disk_kept _ _ _ K Hpl Hd). destruct K as [H1 (H2 & H3 & _) H4 H5 _].
  split; try done. rewrite H2. by rewrite insert_id.
Qed.

Lemma file_change_trans p f1 f2 s1 s2 s3 :
  file_change p f1 s1 s2 -> file_change p f2 s2 s3 -> file_change p f2 s1 s3.
Proof.
  intros [A1 A2 A3 A4 A5 A6] [B1 B2 B3 B4 B5 B6].
  split; [done|by etrans| |congruence|congruence|done]. by rewrite B3, A3, insert_insert_eq.
Qed.

Lemma file_change_lookup p f s s' : file_change p f s s' -> files s' !! p = Some f.
Proof. intros C. rewrite (c_files _ _ _ _ C). apply lookup_insert_eq. Qed.

Lemma placed_shape fs fs' n f : same_shape fs fs' -> placed fs n f -> placed fs' n f.
Proof. intros -> []. by split. Qed.

Lemma file_change_placed p f f' s s' :
  file_change p f' s s' -> entry_like f f' ->
  placed (k_fs s) (length (device (d_io (k_dos s)))) f ->
  placed (k_fs s') (length (device (d_io (k_dos s')))) f'.
Proof.
  intros C L Hpl. rewrite (c_device _ _ _ _ C). apply (placed_shape _ _ _ _ (c_shape _ _ _ _ C)).
  by apply (placed_like _ _ f).
Qed.

Lemma entry_like_refl f : entry_like f f.
Proof. by split. Qed.

(** There are fewer clusters on a chain than entries in the table. *)
Lemma chain_length s c l :
  fs_ok wi (k_dos s) -> chain (k_fs s) c l -> NoDup l -> (length l < chain_fuel s)%nat.
Proof.
  intros Hok Hch Hnd. pose proof (ok_geometry _ _ Hok) as G. fold (k_fs s) in G.
  assert (Hsub : l ⊆+ cluster_numbers (k_fs s)).
  { apply NoDup_submseteq; [done|]. intros x Hx. pose proof (chain_ok _ _ _ Hch) as Hall.
    rewrite Forall_forall in Hall. specialize (Hall x Hx). apply elem_of_seqZ. unfold cluster_ok in Hall. lia. }
  apply submseteq_length in Hsub. unfold cluster_numbers in Hsub. rewrite length_seqZ in Hsub.
  unfold chain_fuel. rewrite (g_table _ _ G). lia.
Qed.

(** [truncate_file] keeps the first [k] clusters. *)
Lemma truncate_file_spec p f l k s :
  fs_ok wi (k_dos s) -> Forall (storable long_size (k_fs s)) l -> files s !! p = Some f ->
  placed (k_fs s) (length (device (d_io (k_dos s)))) f -> on_disk s f ->
  chain (k_fs s) (FSTART f (k_fs s)) l -> NoDup l ->
  exists s' f', truncate_file wi atari_format long_size p (Z.of_nat k) s = Ret s' /\
    file_change p f' s s' /\ entry_like f f' /\ de_size (dir_ent f') = de_size (dir_ent f) /\
    FSTART f' (k_fs s) = (if decide (k = 0%nat) then 0 else FSTART f (k_fs s)) /\
    forall i e, cluster_ok (k_fs s) i -> fat_at (k_fs s) i = Ret e ->
      fat_at (k_fs s') i = Ret (cut_entry (k_fs s) l k i e).
Proof.
  intros Hok Hst Hf Hpl Hdisk Hch Hnd. unfold truncate_file, get_file. rewrite Hf. run.
  replace (bool_decide (Z.of_nat k = 0)) with (bool_decide (k = 0%nat)) by (apply bool_decide_ext; lia).
  destruct (decide (k = 0%nat)) as [Hk|Hk].
  - rewrite (bool_decide_eq_true_2 _ Hk).
    destruct (step_start0 p f s Hok Hf Hpl Hdisk) as (s1 & f1 & -> & E1 & L1 & Hst1 & Hsz1). run.
    pose proof (e_same _ _ _ _ E1) as Hsame.
    destruct (truncate_loop_spec (chain_fuel s1) l (FSTART f (k_fs s)) k s1) as (s' & Hrun & K & Hall).
    { by destruct E1. }
    { by rewrite Hsame. }
    { by rewrite Hsame. }
    { done. }
    { apply (chain_length s1 (FSTART f (k_fs s))); [by destruct E1|by rewrite Hsame|done]. }
    rewrite (bool_decide_eq_true_2 _ Hk) in Hrun. rewrite Hsame in Hall.
    exists s', f1. split; [done|]. split; [|done].
    apply (file_change_trans _ f1 _ _ s1); [by apply file_change_entry|].
    apply file_change_kept; [done|by apply (entry_change_lookup p f1 s)| |by destruct E1].
    apply (file_change_placed p f f1 s); [by apply file_change_entry|done|done].
  - rewrite (bool_decide_eq_false_2 _ Hk). run.
    destruct (truncate_loop_spec (chain_fuel s) l (FSTART f (k_fs s)) k s) as (s' & Hrun & K & Hall);
      try done; [by eapply chain_length|]. rewrite (bool_decide_eq_false_2 _ Hk) in Hrun.
    exists s', f. split; [done|]. split; [by apply file_change_kept|]. done.
Qed.

(** ** The loop of [check_file] *)

(** Entries with the same values lead the same way. *)
Lemma chain_values fs fs' c l :
  same_shape fs fs' ->
  (forall i e, cluster_ok fs i -> fat_at fs i = Ret e -> exists e', fat_at fs' i = Ret e' /\ value e' = value e) ->
  chain fs c l -> chain fs' c l.
Proof.
  intros Hsh Hall. apply chain_shape; [by apply same_shape_clusters|].
  intros x n _ Hx Hn. unfold DosFat.next_cluster in *. destruct (fat_at fs x) as [e|] eqn:He; [|done].
  destruct (Hall x e Hx He) as (e' & -> & Hv). revert Hn. run. rewrite Hv. by rewrite Hsh.
Qed.

Lemma default_last {A} (d x : A) l : default d (last (x :: l)) = default x (last l).
Proof. rewrite last_cons. by destruct (last l). Qed.

Lemma get_file_in s p f : files s !! p = Some f -> get_file p s = Ret f.
Proof. intros H. unfold get_file. by rewrite H. Qed.

(** The clusters [l1] are checked and become the file's; the rest of the chain is
    [l2]. *)
Lemma check_steps fuel p f l1 l2 c prev k s :
  fs_ok wi (k_dos s) -> files s !! p = Some f -> is_dir (dir_ent f) = false ->
  chain (k_fs s) c (l1 ++ l2) -> NoDup (l1 ++ l2) ->
  (forall x e, x ∈ l1 -> fat_at (k_fs s) x = Ret e -> owner e = None) ->
  (forall j : nat, (j < length l1)%nat -> chain_bytes long_size (k + Z.of_nat j) s < de_size (dir_ent f)) ->
  exists s' c', check_loop interactive wi atari_format long_size (length l1 + fuel) p c prev k s =
      check_loop interactive wi atari_format long_size fuel p c' (default prev (last l1)) (k + Z.of_nat (length l1)) s' /\
    kept_ok s s' /\ chain (k_fs s') c' l2 /\
    forall i e, cluster_ok (k_fs s) i -> fat_at (k_fs s) i = Ret e ->
      fat_at (k_fs s') i = Ret (if decide (i ∈ l1) then with_owner (Some p) e else e).
Proof.
  revert c prev k s. induction l1 as [|x l1 IH]; intros c prev k s Hok Hf Hdir Hch Hnd Hfree Hsize.
  { exists s, c. rewrite Z.add_0_r. split; [done|]. split; [by apply kept_ok_refl|]. split; [done|].
    intros i e _ He. by rewrite decide_False by apply not_elem_of_nil. }
  pose proof (ok_geometry _ _ Hok) as G. fold (k_fs s) in G. cbn [app] in Hch, Hnd.
  destruct (chain_cons_entry _ _ _ _ _ G Hch) as (e & m & -> & Hx & He & Hm & Hl & Hbad & Hv0).
  apply NoDup_cons in Hnd as [Hni Hnd]. cbn [length Nat.add]. cbn [check_loop].
  rewrite (bool_decide_eq_false_2 (x = -1)) by (unfold cluster_ok in Hx; lia). rewrite He. run.
  unfold get_file. rewrite Hf. run. rewrite (bool_decide_eq_false_2 (value e = 0)) by done. rewrite Hbad. cbn [orb].
  rewrite Hdir. cbn [negb andb]. rewrite bool_decide_eq_false_2.
  2:{ specialize (Hsize 0%nat). rewrite Z.add_0_r in Hsize. cbn [length] in Hsize. lia. }
  rewrite (Hfree x e) by (done || by left).
  destruct (step_owner x (Some p) s e Hok Hx He) as (s1 & -> & K1 & Hfs1 & _); [right; apply (Hfree x e); [by left|done]|].
  run. assert (Hch1 : chain (k_fs s1) m (l1 ++ l2)) by (rewrite Hfs1; by eapply chain_owner).
  pose proof (kept_shape _ _ K1) as Hsh1. pose proof (same_shape_clusters _ _ Hsh1) as Hcl1.
  assert (Hm1 : next_cluster (k_fs s1) x = Ret m).
  { rewrite Hfs1, (next_cluster_put _ _ _ _ _ G), decide_True by done.
    unfold DosFat.next_cluster in Hm. by rewrite He in Hm. }
  rewrite Hm1. run.
  destruct (IH m x (k + 1) s1) as (s' & c' & -> & K & Hch' & Hall); try done.
  { exact (kept_fs _ _ K1). }
  { destruct (kept_files _ _ K1) as (-> & _). done. }
  { intros y v Hy Hyv. assert (y <> x) by (intros ->; apply Hni, elem_of_app; by left).
    assert (cluster_ok (k_fs s) y).
    { pose proof (chain_ok _ _ _ Hl) as Hall. rewrite Forall_forall in Hall. apply Hall, elem_of_app. by left. }
    rewrite Hfs1, (fat_at_put _ _ _ _ _ G), decide_False in Hyv by (unfold cluster_ok in *; done || lia).
    apply (Hfree y v); [by right|done]. }
  { intros j Hj. specialize (Hsize (S j)). cbn [length] in Hsize. unfold chain_bytes in *.
    replace (k + 1 + Z.of_nat j) with (k + Z.of_nat (S j)) by lia. rewrite Hsh1.
    cbn [cluster_size set_table]. apply Hsize. lia. }
  exists s', c'. split; [|split; [by eapply kept_ok_trans|split; [done|]]].
  - replace (k + 1 + Z.of_nat (length l1)) with (k + Z.of_nat (S (length l1))) by lia.
    by rewrite (default_last prev x l1).
  - intros i v Hi Hv.
    assert (Hat : fat_at (k_fs s1) i = Ret (if decide (i = x) then with_owner (Some p) e else v)).
    { rewrite Hfs1, (fat_at_put _ _ _ _ _ G) by (unfold cluster_ok in *; lia). by repeat case_decide. }
    assert (Hi1 : cluster_ok (k_fs s1) i) by (unfold cluster_ok; by rewrite Hcl1).
    rewrite (Hall i _ Hi1 Hat). destruct (decide (i = x)) as [->|Hix].
    + rewrite decide_False by (intros ?; apply Hni, elem_of_app; by left).
      rewrite decide_True by (by left). congruence.
    + f_equal. apply decide_ext. clear -Hix. set_solver.
Qed.

(** ** A regular file *)

(** The chain of a file; a start field of zero is the empty chain. *)
Definition file_chain (fs : DOS_FS) (f : DOS_FILE) (l : list Z) : Prop :=
  if decide (FSTART f fs = 0) then l = [] else l <> [] /\ chain fs (FSTART f fs) l.

Lemma file_chain_start fs f l :
  file_chain fs f l ->
  chain fs (if bool_decide (FSTART f fs <> 0) then FSTART f fs else -1) l /\
  (0 <= clusters fs -> FSTART f fs < clusters fs + 2).
Proof.
  unfold file_chain. case_decide as H0.
  - intros ->. rewrite bool_decide_eq_false_2 by (intros H; by apply H). split; [done|]. rewrite H0. lia.
  - intros [Hne Hch]. rewrite bool_decide_eq_true_2 by done. split; [done|]. intros _.
    destruct l as [|x l]; [done|]. destruct Hch as (-> & Hx & _). unfold cluster_ok in Hx. lia.
Qed.

Lemma elem_of_part (k : nat) (l : list Z) i : i ∈ l <-> i ∈ take k l \/ i ∈ drop k l.
Proof. rewrite <- (take_drop k l) at 1. apply elem_of_app. Qed.

(** An end mark leads nowhere. *)
Lemma eof_leads_nowhere fs n :
  geometry_ok fs n ->
  FAT_IS_BAD atari_format fs (FAT_EOF atari_format fs) = false /\ FAT_IS_EOF fs (FAT_EOF atari_format fs) = true.
Proof.
  intros G. unfold FAT_EOF, FAT_IS_BAD, FAT_MIN_BAD, FAT_MAX_BAD, FAT_IS_EOF, FAT_EXTD.
  destruct (g_bits _ _ G) as [[_ ->]|[[_ ->]|[_ ->]]]; destruct atari_format; by vm_compute.
Qed.

(** What is left of a chain that is cut. *)
Lemma chain_cut fs fs' n c l k :
  geometry_ok fs n -> same_shape fs fs' -> NoDup l -> chain fs c l -> (0 < k)%nat ->
  (forall i e, i ∈ take k l -> fat_at fs i = Ret e ->
     exists e', fat_at fs' i = Ret e' /\ value e' = value (cut_entry fs l k i e)) ->
  chain fs' c (take k l).
Proof.
  intros G Hsh. revert c k. induction l as [|x l IH]; intros c k Hnd Hch Hk Hall.
  { by destruct k. }
  destruct (chain_cons_entry _ _ _ _ _ G Hch) as (e & m & -> & Hx & He & Hm & Hl & _).
  apply NoDup_cons in Hnd as [Hni Hnd]. destruct k as [|k]; [lia|]. cbn [take chain].
  split; [done|]. split; [unfold cluster_ok in *; by rewrite (same_shape_clusters _ _ Hsh)|].
  destruct (Hall x e) as (e' & He' & Hv'); [by left|done|].
  unfold cut_entry in Hv'. cbn [cut] in Hv'. rewrite decide_True in Hv' by done.
  unfold DosFat.next_cluster in Hm |- *. rewrite He' . rewrite He in Hm. revert Hm. run. rewrite Hv', Hsh.
  destruct k as [|k].
  - destruct (eof_leads_nowhere fs n G) as [Hb He2]. cbn [value with_value].
    exists (-1). split; [|done].
    change (FAT_IS_BAD atari_format (set_table _ fs)) with (FAT_IS_BAD atari_format fs).
    change (FAT_IS_EOF (set_table _ fs)) with (FAT_IS_EOF fs). by rewrite Hb, He2.
  - intros Hm. exists m. split; [exact Hm|]. rewrite <- Hsh. apply IH; [done|done|lia|].
    intros i v Hi Hv. destruct (Hall i v) as (v' & Hat & Hvv); [by right|done|].
    exists v'. split; [done|]. rewrite Hvv. unfold cut_entry. cbn [cut].
    rewrite decide_False by (intros ->; apply Hni, (elem_of_part (S k)); by left). done.
Qed.

(** The clusters that hold the [size] bytes of a file. *)
Definition needed (fs : DOS_FS) (size : Z) : nat := Z.to_nat ((size + cluster_size fs - 1) / cluster_size fs).

Lemma needed_bounds fs size :
  0 < cluster_size fs ->
  (forall j : nat, (j < needed fs size)%nat -> Z.of_nat j * cluster_size fs < size) /\
  size <= Z.of_nat (needed fs size) * cluster_size fs.
Proof.
  intros Hcs. unfold needed. pose proof (Z.div_mod (size + cluster_size fs - 1) (cluster_size fs)) as Hdm.
  pose proof (Z.mod_pos_bound (size + cluster_size fs - 1) (cluster_size fs) Hcs).
  set (q := (size + cluster_size fs - 1) / cluster_size fs) in *. split; [intros j Hj; nia|].
  destruct (decide (0 <= q)); [rewrite Z2Nat.id by done; nia|]. rewrite Z2Nat.nonpos by lia. nia.
Qed.

Lemma chain_bytes_small s k n :
  4 <= long_size -> 0 < cluster_size (k_fs s) -> n * cluster_size (k_fs s) < 2 ^ 32 -> 0 <= k <= n ->
  chain_bytes long_size k s = k * cluster_size (k_fs s).
Proof.
  intros Hl Hcs Hn Hk. unfold chain_bytes, wrap. apply Z.mod_small.
  assert (2 ^ 32 <= 2 ^ (8 * long_size)) by (apply Z.pow_le_mono_r; lia). nia.
Qed.

(** A regular file with the clusters [l]: the table and the disk are in step, the
    chain is free of loops and of entries that cannot be stored, its bytes can
    be counted, and its entry lies outside of the tables. *)
Record regular (s : check_state) (p : nat) (f : DOS_FILE) (l : list Z) : Prop := {
  r_fs : fs_ok wi (k_dos s);
  r_storable : Forall (storable long_size (k_fs s)) l;
  r_file : files s !! p = Some f;
  r_plain : is_dir (dir_ent f) = false;
  r_placed : placed (k_fs s) (length (device (d_io (k_dos s)))) f;
  r_on_disk : on_disk s f;
  r_chain : file_chain (k_fs s) f l;
  r_distinct : NoDup l;
  r_cluster : 0 < cluster_size (k_fs s);
  r_small : Z.of_nat (length l) * cluster_size (k_fs s) < 2 ^ 32;
  r_long : 4 <= long_size;
}.

(** What checking it does to the table: the first [k] clusters of [l] are the
    file's, the others are free. *)
Definition claimed (p k : nat) (l : list Z) (s s' : check_state) : Prop :=
  forall i e, cluster_ok (k_fs s) i -> fat_at (k_fs s) i = Ret e -> exists e',
    fat_at (k_fs s') i = Ret e' /\ (i ∈ take k l -> owner e' = Some p) /\
    (i ∈ drop k l -> e' = with_value 0 e) /\ (i ∉ l -> e' = e).

Lemma cut_drop fs l k i : NoDup l -> i ∈ drop k l -> cut fs l k i = Some 0.
Proof.
  revert k. induction l as [|x l IH]; intros k Hnd Hin; [by rewrite drop_nil in Hin; set_solver|].
  apply NoDup_cons in Hnd as [Hni Hnd]. destruct k as [|k]; cbn [cut drop pred] in *.
  - case_decide; [done|]. apply IH; [done|]. rewrite drop_0. set_solver.
  - rewrite decide_False; [by apply IH|]. intros ->. apply Hni, (elem_of_part k). by right.
Qed.

Lemma owner_cut_entry fs l k i e : owner (cut_entry fs l k i e) = owner e.
Proof. unfold cut_entry. by destruct (cut _ _ _ _). Qed.

Lemma take_drop_disjoint (l : list Z) k i : NoDup l -> i ∈ drop k l -> i ∉ take k l.
Proof. rewrite <- (take_drop k l) at 1. intros Hnd. apply NoDup_app in Hnd as (_ & H & _). set_solver. Qed.

(** The loop of [check_file] on a regular file. *)
Lemma check_loop_regular p f l s :
  regular s p f l -> let k := Nat.min (length l) (needed (k_fs s) (de_size (dir_ent f))) in
  (forall x e, x ∈ take k l -> fat_at (k_fs s) x = Ret e -> owner e = None) ->
  exists s' f', check_loop interactive wi atari_format long_size (chain_fuel s) p
      (if bool_decide (FSTART f (k_fs s) <> 0) then FSTART f (k_fs s) else -1) 0 0 s = Ret (Some (Z.of_nat k), s') /\
    file_change p f' s s' /\ entry_like f f' /\ de_size (dir_ent f') = de_size (dir_ent f) /\
    file_chain (k_fs s') f' (take k l) /\ claimed p k l s s'.
Proof.
  intros R k Hfree. pose proof R as []. pose proof (ok_geometry _ _ r_fs0) as G. fold (k_fs s) in G.
  destruct (file_chain_start _ _ _ r_chain0) as [Hch _]. set (c := if bool_decide _ then _ else _) in *.
  destruct (needed_bounds (k_fs s) (de_size (dir_ent f)) r_cluster0) as [Hbelow Hcover].
  pose proof (chain_length s c l r_fs0 Hch r_distinct0) as Hfuel.
  assert (Hlen : length (take k l) = k) by (rewrite length_take; lia).
  replace (chain_fuel s) with (length (take k l) + S (chain_fuel s - k - 1))%nat by lia.
  destruct (check_steps (S (chain_fuel s - k - 1)) p f (take k l) (drop k l) c 0 0 s) as (s1 & c1 & -> & K & Hch1 & Hall);
    rewrite ?take_drop; try done.
  { intros j Hj. rewrite Hlen in Hj. rewrite (chain_bytes_small _ _ (Z.of_nat (length l))) by (done || lia).
    apply Hbelow. lia. }
  rewrite Hlen, Z.add_0_l. pose proof (kept_shape _ _ K) as Hsh. pose proof (same_shape_clusters _ _ Hsh) as Hcl.
  assert (Hstart : FSTART f (k_fs s1) = FSTART f (k_fs s)) by (by rewrite Hsh).
  assert (Hvals : chain (k_fs s1) c l).
  { apply (chain_values (k_fs s)); [done| |done]. intros i e Hi He. eexists. split; [by apply Hall|]. by case_decide. }
  assert (Hf1 : files s1 !! p = Some f) by (by destruct (kept_files _ _ K) as (-> & _)).
  assert (C1 : file_change p f s s1) by (by apply file_change_kept).
  cbn [check_loop]. destruct (drop k l) as [|x t] eqn:Hdrop.
  - cbn in Hch1. subst c1. rewrite (bool_decide_eq_true_2 (-1 = -1)) by done.
    assert (Htake : take k l = l) by (rewrite <- (take_drop k l) at 2; by rewrite Hdrop, app_nil_r).
    exists s1, f. split; [done|]. split; [done|]. split; [apply entry_like_refl|]. split; [done|]. rewrite Htake. split.
    + unfold file_chain in *. rewrite Hstart. unfold c in Hvals. case_decide as H0; [done|].
      rewrite (bool_decide_eq_true_2 (FSTART f (k_fs s) <> 0)) in Hvals by done. split; [apply r_chain0|done].
    + intros i e Hi He. eexists. split; [by apply Hall|]. rewrite Htake, Hdrop.
      case_decide as Hin; split_and!; clear -Hin; set_solver.
  - destruct (chain_cons_entry _ _ _ _ _ (ok_geometry _ _ (kept_fs _ _ K)) Hch1)
      as (e1 & m & -> & Hx & He1 & _ & _ & Hbad & Hv0). fold (k_fs s1) in Hx, He1, Hbad.
    rewrite (bool_decide_eq_false_2 (x = -1)) by (unfold cluster_ok in Hx; lia). rewrite He1. run.
    unfold get_file. rewrite Hf1. run. rewrite (bool_decide_eq_false_2 (value e1 = 0)) by done. rewrite Hbad.
    rewrite r_plain0. cbn [orb negb andb].
    assert (Hk : (k < length l)%nat) by (apply (f_equal length) in Hdrop; rewrite length_drop in Hdrop; cbn in Hdrop; lia).
    assert (Hcs : cluster_size (k_fs s1) = cluster_size (k_fs s)) by (by rewrite Hsh).
    rewrite bool_decide_eq_true_2.
    2:{ rewrite (chain_bytes_small _ _ (Z.of_nat (length l))) by (rewrite ?Hcs; done || lia). rewrite Hcs.
        unfold k in Hk |- *. rewrite Nat.min_r by lia. done. }
    assert (Hne : l <> []) by (intros ->; cbn in Hk; lia).
    assert (H0 : FSTART f (k_fs s) <> 0).
    { unfold file_chain in r_chain0. by case_decide. }
    assert (Hc : c = FSTART f (k_fs s)) by (unfold c; by rewrite bool_decide_eq_true_2).
    destruct (truncate_file_spec p f l k s1) as (s2 & f2 & -> & C2 & L2 & Hsz2 & Hst2 & Hcut); try done.
    { exact (kept_fs _ _ K). } { by apply (storables_shape (k_fs s)). }
    { apply (file_change_placed p f f s); [done|apply entry_like_refl|done]. }
    { by destruct C1. } { by rewrite Hstart, <- Hc. }
    run. exists s2, f2. split; [done|]. split; [by eapply file_change_trans|]. split; [done|]. split; [done|]. split.
    + unfold file_chain. pose proof (c_shape _ _ _ _ C2) as Hsh2.
      assert (Hst : FSTART f2 (k_fs s2) = FSTART f2 (k_fs s1)) by (by rewrite Hsh2).
      rewrite Hst, Hst2. destruct (decide (k = 0%nat)) as [Hk0|Hk0].
      { rewrite decide_True by done. by rewrite Hk0. }
      rewrite Hstart, decide_False by done. split; [destruct l, k; try done; lia|].
      rewrite <- Hc. apply (chain_cut (k_fs s1) _ _ _ _ _ (ok_geometry _ _ (kept_fs _ _ K))); try done; [lia|].
      intros i e Hi He. eexists. split; [|done]. apply Hcut; [|done].
      pose proof (chain_ok _ _ _ Hvals) as Hv. rewrite Forall_forall in Hv. apply Hv, (elem_of_part k). by left.
    + intros i e Hi He. pose proof (Hall i e Hi He) as Hat.
      assert (Hi1 : cluster_ok (k_fs s1) i) by (unfold cluster_ok; by rewrite Hcl).
      eexists. split; [by apply Hcut|]. rewrite owner_cut_entry. split_and!.
      * intros Hin. by rewrite decide_True.
      * intros Hin. rewrite decide_False by (by apply take_drop_disjoint). unfold cut_entry. by rewrite cut_drop.
      * intros Hni. rewrite decide_False by (intros Hin; apply Hni; apply (elem_of_part k); by left).
        unfold cut_entry. by rewrite cut_other.
Qed.

Lemma check_dir_entry_plain p f s :
  files s !! p = Some f -> is_dir (dir_ent f) = false ->
  check_dir_entry wi long_size p s = Ret (false, s).
Proof. intros Hf Hd. unfold check_dir_entry, get_file. rewrite Hf. run. by rewrite Hd. Qed.

(** The end of [check_file]: the size is what the clusters hold, or less. *)
Lemma check_size_end p f k s :
  fs_ok wi (k_dos s) -> files s !! p = Some f -> placed (k_fs s) (length (device (d_io (k_dos s)))) f ->
  on_disk s f -> is_dir (dir_ent f) = false -> 0 <= chain_bytes long_size k s < 2 ^ 32 ->
  exists s' f', (if negb (is_dir (dir_ent f)) && bool_decide (de_size (dir_ent f) > chain_bytes long_size k s)
                 then put_size wi p (chain_bytes long_size k s) s else Ret s) = Ret s' /\
    entry_change p f' s s' /\ entry_like f f' /\ (forall fs, FSTART f' fs = FSTART f fs) /\
    de_size (dir_ent f') = Z.min (de_size (dir_ent f)) (chain_bytes long_size k s).
Proof.
  intros Hok Hf Hpl Hdisk Hd Hr. rewrite Hd. cbn [negb andb]. case_bool_decide as Hsz.
  - destruct (step_size p f (chain_bytes long_size k s) s Hok Hf Hpl Hdisk Hr) as (s' & f' & H1 & H2 & H3 & H4 & Hv).
    exists s', f'. split_and!; try done. rewrite Hv. lia.
  - exists s, f. split_and!; try done; [|lia]. split; try done. by rewrite insert_id.
Qed.

(** Both ends of [check_file], given what its loop does. *)
Lemma check_file_around p f f1 l c0 k s s1 :
  regular s p f l -> c0 = (if bool_decide (FSTART f (k_fs s) <> 0) then FSTART f (k_fs s) else -1) ->
  check_loop interactive wi atari_format long_size (chain_fuel s) p c0 0 0 s = Ret (Some k, s1) ->
  file_change p f1 s s1 -> entry_like f f1 -> 0 <= k <= Z.of_nat (length l) ->
  exists s' f', check_file interactive wi atari_format long_size p s = Ret (false, s') /\
    entry_change p f' s1 s' /\ (forall fs, FSTART f' fs = FSTART f1 fs) /\
    de_size (dir_ent f') = Z.min (de_size (dir_ent f1)) (k * cluster_size (k_fs s)).
Proof.
  intros [] -> Hloop C1 L1 Hk. unfold check_file. rewrite (check_dir_entry_plain _ _ _ r_file0 r_plain0). run.
  rewrite (get_file_in _ _ _ r_file0). run.
  destruct (file_chain_start _ _ _ r_chain0) as [_ Hb].
  rewrite (bool_decide_eq_false_2 (FSTART f (k_fs s) >= clusters (k_fs s) + 2)).
  2:{ specialize (Hb (g_clusters _ _ (ok_geometry _ _ r_fs0))). lia. }
  run. rewrite (get_file_in _ _ _ r_file0). run. rewrite Hloop. run.
  pose proof (file_change_lookup _ _ _ _ C1) as Hf1. rewrite (get_file_in _ _ _ Hf1). run.
  assert (Hcs : cluster_size (k_fs s1) = cluster_size (k_fs s)) by (by rewrite (c_shape _ _ _ _ C1)).
  assert (Hbytes : chain_bytes long_size k s1 = k * cluster_size (k_fs s)).
  { rewrite (chain_bytes_small _ _ (Z.of_nat (length l))) by (rewrite ?Hcs; done || lia). by rewrite Hcs. }
  destruct (check_size_end p f1 k s1) as (s' & f' & -> & H2 & H3 & H4 & H5); try by destruct C1.
  { by apply (file_change_placed p f f1 s). }
  { by rewrite (is_dir_like _ _ L1). }
  { rewrite Hbytes. nia. }
  run. exists s', f'. rewrite <- Hbytes. done.
Qed.

(** *** A chain that runs into another file *)

(** The walk over the chain of the owner ends. *)
Lemma count_before_ends s c l x n fuel :
  chain (k_fs s) c l -> (length l < fuel)%nat ->
  exists r, count_before atari_format fuel c x n s = Ret r.
Proof.
  revert c n fuel. induction l as [|y l IH]; intros c n fuel Hch Hf; (destruct fuel as [|fuel]; [cbn in Hf; lia|]);
    cbn [count_before]; unfold on_chain.
  - cbn in Hch. subst c. by exists n.
  - destruct Hch as (-> & _ & m & Hm & Hl). case_bool_decide; [|by exists n]. case_bool_decide; [by exists n|].
    rewrite Hm. run. apply IH; [done|cbn in Hf; lia].
Qed.

Lemma count_before_file s f l x :
  fs_ok wi (k_dos s) -> file_chain (k_fs s) f l -> NoDup l ->
  exists r, count_before atari_format (chain_fuel s) (FSTART f (k_fs s)) x 0 s = Ret r.
Proof.
  intros Hok Hch Hnd. unfold file_chain in Hch. case_decide as H0.
  - rewrite H0. unfold chain_fuel. cbn [count_before]. unfold on_chain. rewrite bool_decide_eq_false_2 by lia. by eexists.
  - destruct Hch as [_ Hch]. apply (count_before_ends _ _ l); [done|]. by eapply chain_length.
Qed.

Lemma cut_last fs l y r i :
  NoDup (l ++ y :: r) -> i ∈ l ++ [y] ->
  cut fs (l ++ y :: r) (S (length l)) i = if decide (i = y) then Some (FAT_EOF atari_format fs) else None.
Proof.
  induction l as [|x l IH]; intros Hnd Hi; cbn [app cut length] in *.
  - assert (i = y) as -> by set_solver. by rewrite !decide_True.
  - apply NoDup_cons in Hnd as [Hni Hnd]. destruct (decide (i = x)) as [->|Hix].
    + rewrite decide_False; [done|]. intros ->. apply Hni, elem_of_app. right. by left.
    + cbn [pred]. apply IH; [done|]. set_solver.
Qed.

(** [end_chain] leaves the clusters [l1] to the file. *)
Lemma end_chain_spec p f l1 x l2 s :
  regular s p f (l1 ++ x :: l2) ->
  exists s' f', end_chain wi atari_format long_size p (default 0 (last l1)) s = Ret s' /\
    file_change p f' s s' /\ entry_like f f' /\ de_size (dir_ent f') = de_size (dir_ent f) /\
    file_chain (k_fs s') f' l1 /\
    forall i e, cluster_ok (k_fs s) i -> fat_at (k_fs s) i = Ret e ->
      exists e', fat_at (k_fs s') i = Ret e' /\ owner e' = owner e /\ (i ∉ l1 -> e' = e).
Proof.
  intros []. pose proof (ok_geometry _ _ r_fs0) as G. fold (k_fs s) in G. unfold end_chain.
  unfold file_chain in r_chain0. case_decide as H0; [by destruct l1|]. destruct r_chain0 as [_ Hch].
  destruct l1 as [|y l1 _] using rev_ind.
  - cbn [last default]. rewrite (bool_decide_eq_false_2 (0 <> 0)) by (by intros []).
    destruct (step_start0 p f s r_fs0 r_file0 r_placed0 r_on_disk0) as (s' & f' & H1 & H2 & H3 & H4 & H5).
    exists s', f'. pose proof (e_same _ _ _ _ H2) as Hsame. unfold file_chain. rewrite Hsame, decide_True by done.
    split_and!; try done; [by apply file_change_entry|]. intros i e _ He. by exists e.
  - rewrite last_snoc. cbn [default]. rewrite <- app_assoc in *. cbn [app] in *.
    pose proof (chain_ok _ _ _ Hch) as Hall. rewrite Forall_forall in Hall.
    assert (Hy : cluster_ok (k_fs s) y) by (apply Hall, elem_of_app; right; by left).
    rewrite (bool_decide_eq_true_2 (y <> 0)) by (unfold cluster_ok in Hy; lia).
    destruct (fat_at_in _ _ y G) as [e He]; [unfold cluster_ok in Hy; lia|].
    destruct (step_end y s e r_fs0 ltac:(rewrite Forall_forall in r_storable0; apply r_storable0; set_solver) Hy He) as (s' & H1 & K & Hfs).
    assert (Hput : forall i v, cluster_ok (k_fs s) i -> fat_at (k_fs s) i = Ret v ->
      fat_at (k_fs s') i = Ret (if decide (i = y) then with_value (FAT_EOF atari_format (k_fs s)) v else v)).
    { intros i v Hi Hv. rewrite Hfs, (fat_at_put _ _ _ _ _ G) by (unfold cluster_ok in Hy, Hi; lia).
      case_decide as Hiy; [|done]. subst i. rewrite He in Hv. by injection Hv as ->. }
    exists s', f. split; [done|]. split; [by apply file_change_kept|]. split; [apply entry_like_refl|]. split; [done|].
    split.
    + unfold file_chain. assert (FSTART f (k_fs s') = FSTART f (k_fs s)) as -> by (by rewrite (kept_shape _ _ K)).
      rewrite decide_False by done. split; [by destruct l1|].
      assert (Htk : take (S (length l1)) (l1 ++ y :: x :: l2) = l1 ++ [y]).
      { rewrite take_app, take_ge by lia. by replace (S (length l1) - length l1)%nat with 1%nat by lia. }
      rewrite <- Htk. apply (chain_cut (k_fs s) _ _ _ _ _ G (kept_shape _ _ K) r_distinct0 Hch); [lia|].
      rewrite Htk. intros i v Hi Hv. eexists. split; [apply Hput; [|done]|].
      { apply Hall. set_solver. }
      unfold cut_entry. rewrite cut_last by done. by case_decide.
    + intros i v Hi Hv. eexists. split; [by apply Hput|]. case_decide as Hiy; [|done]. split; [done|]. set_solver.
Qed.

Lemma file_chain_values fs fs' f l :
  same_shape fs fs' ->
  (forall i e, i ∈ l -> fat_at fs i = Ret e -> exists e', fat_at fs' i = Ret e' /\ value e' = value e) ->
  file_chain fs f l -> file_chain fs' f l.
Proof.
  intros Hsh Hall. unfold file_chain. assert (FSTART f fs' = FSTART f fs) as -> by (by rewrite Hsh).
  case_decide; [done|]. intros [Hne Hch]. split; [done|]. revert Hch.
  apply chain_shape; [by apply same_shape_clusters|]. intros x n Hx _ Hn.
  unfold DosFat.next_cluster in *. destruct (fat_at fs x) as [e|] eqn:He; [|done].
  destruct (Hall x e Hx He) as (e' & -> & Hv). revert Hn. run. rewrite Hv. by rewrite Hsh.
Qed.

Lemma regular_kept s s' p f l :
  regular s p f l -> kept_ok s s' ->
  (forall i e, i ∈ l -> fat_at (k_fs s) i = Ret e -> exists e', fat_at (k_fs s') i = Ret e' /\ value e' = value e) ->
  regular s' p f l.
Proof.
  intros [] K Hall. pose proof (kept_shape _ _ K) as Hsh.
  assert (C : file_change p f s s') by (by apply file_change_kept).
  assert (cluster_size (k_fs s') = cluster_size (k_fs s)) as Hcs by (by rewrite Hsh).
  split; try done; try (by rewrite Hcs); try by destruct C.
  - by apply (storables_shape (k_fs s)).
  - by destruct (kept_files _ _ K) as (-> & _).
  - apply (file_change_placed p f f s); [done|apply entry_like_refl|done].
  - by apply (file_chain_values (k_fs s)).
Qed.

(** Without questions the file ends before the first cluster of another one. *)
Lemma check_loop_shared p f l1 x l2 o g lg s :
  interactive = false -> regular s p f (l1 ++ x :: l2) ->
  (forall y e, y ∈ l1 -> fat_at (k_fs s) y = Ret e -> owner e = None) ->
  Z.of_nat (length l1) * cluster_size (k_fs s) < de_size (dir_ent f) ->
  (forall e, fat_at (k_fs s) x = Ret e -> owner e = Some o) ->
  files s !! o = Some g -> offset g <> 0 -> file_chain (k_fs s) g lg -> NoDup lg ->
  exists s' f', check_loop interactive wi atari_format long_size (chain_fuel s) p
      (if bool_decide (FSTART f (k_fs s) <> 0) then FSTART f (k_fs s) else -1) 0 0 s
      = Ret (Some (Z.of_nat (length l1)), s') /\
    file_change p f' s s' /\ entry_like f f' /\ de_size (dir_ent f') = de_size (dir_ent f) /\
    file_chain (k_fs s') f' l1 /\
    forall i e, cluster_ok (k_fs s) i -> fat_at (k_fs s) i = Ret e -> exists e',
      fat_at (k_fs s') i = Ret e' /\ (i ∈ l1 -> owner e' = Some p) /\ (i ∉ l1 -> e' = e).
Proof.
  intros Hint R Hfree Hsize Howner Hg Hoff Hlg Hnd. pose proof R as []. set (l := l1 ++ x :: l2) in *.
  pose proof (ok_geometry _ _ r_fs0) as G. fold (k_fs s) in G.
  destruct (file_chain_start _ _ _ r_chain0) as [Hch _]. set (c := if bool_decide _ then _ else _) in *.
  pose proof (chain_length s c l r_fs0 Hch r_distinct0) as Hfuel. unfold l in Hfuel at 1. rewrite length_app in Hfuel.
  cbn [length] in Hfuel.
  replace (chain_fuel s) with (length l1 + S (chain_fuel s - length l1 - 1))%nat by lia.
  destruct (check_steps (S (chain_fuel s - length l1 - 1)) p f l1 (x :: l2) c 0 0 s)
    as (s1 & c1 & -> & K & Hch1 & Hall); try done.
  { intros j Hj. rewrite Z.add_0_l, (chain_bytes_small _ _ (Z.of_nat (length l))); try done; [nia|].
    unfold l. rewrite length_app. lia. }
  pose proof (kept_shape _ _ K) as Hsh. pose proof (same_shape_clusters _ _ Hsh) as Hcl.
  assert (Hvals : forall i e, cluster_ok (k_fs s) i -> fat_at (k_fs s) i = Ret e ->
    exists e', fat_at (k_fs s1) i = Ret e' /\ value e' = value e).
  { intros i e Hi He. eexists. split; [by apply Hall|]. by case_decide. }
  pose proof (chain_ok _ _ _ Hch) as Hoks. rewrite Forall_forall in Hoks.
  assert (R1 : regular s1 p f l).
  { apply (regular_kept s); try done. intros i e Hi. apply Hvals. by apply Hoks. }
  destruct (chain_cons_entry _ _ _ _ _ (ok_geometry _ _ (kept_fs _ _ K)) Hch1)
    as (e1 & m & -> & Hx & He1 & _ & _ & Hbad & Hv0). fold (k_fs s1) in Hx, He1, Hbad.
  assert (Hx0 : cluster_ok (k_fs s) x) by (unfold cluster_ok in *; by rewrite <- Hcl).
  destruct (fat_at_in _ _ x G) as [e He]; [unfold cluster_ok in Hx0; lia|].
  assert (Hni : x ∉ l1).
  { intros Hin. pose proof (Hfree x e Hin He) as Hn. by rewrite (Howner e He) in Hn. }
  assert (e1 = e) as ->.
  { pose proof (Hall x e Hx0 He) as Hat. rewrite decide_False in Hat by done. congruence. }
  cbn [check_loop]. rewrite (bool_decide_eq_false_2 (x = -1)) by (unfold cluster_ok in Hx; lia). rewrite He1. run.
  rewrite (get_file_in _ _ _ (r_file _ _ _ _ R1)). run. rewrite (bool_decide_eq_false_2 (value e = 0)) by done.
  rewrite Hbad, r_plain0. cbn [orb negb andb].
  assert (Hcs : cluster_size (k_fs s1) = cluster_size (k_fs s)) by (by rewrite Hsh).
  rewrite bool_decide_eq_false_2.
  2:{ rewrite (chain_bytes_small _ _ (Z.of_nat (length l))); rewrite ?Hcs; try done; [lia|].
      unfold l. rewrite length_app. lia. }
  rewrite (Howner e He). assert (Hg1 : files s1 !! o = Some g) by (by destruct (kept_files _ _ K) as (-> & _)).
  rewrite (get_file_in _ _ _ Hg1). run.
  destruct (count_before_file s1 g lg x (kept_fs _ _ K)) as [r ->]; [|done|].
  { apply (file_chain_values (k_fs s)); try done. intros i v Hi Hv. apply Hvals; [|done].
    unfold file_chain in Hlg. case_decide; [subst lg; set_solver|]. destruct Hlg as [_ Hlg].
    pose proof (chain_ok _ _ _ Hlg) as Hlgok. rewrite Forall_forall in Hlgok. by apply Hlgok. }
  run. unfold cut_owner. rewrite (bool_decide_eq_false_2 (offset g = 0)) by done.
  rewrite (bool_decide_eq_false_2 (offset f = 0)) by (destruct r_placed0; lia). rewrite Hint. run.
  destruct (end_chain_spec p f l1 x l2 s1 R1) as (s2 & f2 & -> & C2 & L2 & Hsz2 & Hfc & Hent). run.
  exists s2, f2. rewrite Z.add_0_l. split; [done|]. split.
  { apply (file_change_trans p f f2 s s1 s2); [by apply file_change_kept|done]. }
  split; [done|]. split; [done|]. split; [done|]. intros i v Hi Hv.
  destruct (Hent i _ ltac:(unfold cluster_ok; by rewrite Hcl) (Hall i v Hi Hv)) as (e' & Hat & Ho & Hsame).
  exists e'. split; [done|]. split; [intros Hin; by rewrite Ho, decide_True|].
  intros Hin. rewrite (Hsame Hin). by rewrite decide_False.
Qed.

End Chain.

(** ** The properties *)

(** A chain, by computation. *)
Fixpoint chainb (atari_format : bool) (fs : DOS_FS) (c : Z) (l : list Z) : bool :=
  match l with
  | [] => bool_decide (c = -1)
  | x :: l => bool_decide (c = x) && bool_decide (cluster_ok fs x) &&
      match next_cluster atari_format fs x with Ret n => chainb atari_format fs n l | Fault _ => false end
  end.

Lemma chainb_ok atari_format fs c l : chainb atari_format fs c l = true -> chain atari_format fs c l.
Proof.
  revert c. induction l as [|x l IH]; intros c; cbn; [apply bool_decide_eq_true|].
  rewrite !andb_true_iff, !bool_decide_eq_true. destruct (next_cluster _ _ _) as [n|]; [|by intros []].
  intros [[Hc Hx] Hl]. split; [done|]. split; [done|]. exists n. split; [done|]. by apply IH.
Qed.

(** An entry of a directory, and a file system with entries behind its clusters. *)
Definition sample_entry (name : string) (start size : Z) : list Z :=
  str_bytes name ++ [0] ++ replicate 14 0 ++ Z_to_little_endian 2 8 start ++ Z_to_little_endian 4 8 size.

Definition sample_files (d : dos) (entries : list (list Z)) : check_state :=
  let dev := device (d_io d) in
  CheckState (Dos (IoState (dev ++ concat entries) [] false []) (d_fs d))
    (list_to_map (imap (fun n de => (n, DosFile de (Z.of_nat (length dev) + 32 * Z.of_nat n) None None None)) entries))
    None (Z.of_nat (length entries)) 0.

(** The clusters [l] taken by the file [o]. *)
Definition sample_owned (o : nat) (l : list Z) (s : check_state) : check_state :=
  let own i e := if bool_decide (Z.of_nat i ∈ l) then with_owner (Some o) e else e in
  set_dos (Dos (d_io (k_dos s)) (set_table (imap own (fat (k_fs s))) (k_fs s))) s.






(** ** The search for a cluster for the root directory *)

Definition is_free (fs : DOS_FS) (c : Z) : Prop :=
  cluster_ok fs c /\ exists e, fat_at fs c = Ret e /\ value e = 0.

#[export] Instance is_free_dec fs c : Decision (is_free fs c).
Proof.
  unfold is_free. destruct (fat_at fs c) as [e|] eqn:He.
  - destruct (decide (cluster_ok fs c)); [|right; tauto]. destruct (decide (value e = 0)); [left; eauto|].
    right. intros (_ & e' & [= ->] & ?). done.
  - right. by intros (_ & e & ? & _).
Defined.

Section Search.

Variable s : check_state.
Variable prev : Z.
Hypothesis Hok : geometry_ok (k_fs s) (length (device (d_io (k_dos s)))).

Local Abbreviation N := (clusters (k_fs s)).
Local Abbreviation find := (fun fuel c => find_cluster fuel c prev s).

Lemma find_step fuel c :
  2 <= c < N + 2 -> c <> prev ->
  find (S fuel) c = if decide (is_free (k_fs s) c) then Ret c else find fuel (c + 1).
Proof.
  intros Hc Hp. cbn [find_cluster]. rewrite (bool_decide_eq_false_2 (c = prev)) by done.
  rewrite (bool_decide_eq_false_2 (c >= N + 2)) by lia. destruct (fat_at_in _ _ c Hok) as [e He]; [lia|].
  rewrite He. run. case_bool_decide as H0; case_decide as Hf; try done; exfalso.
  - apply Hf. split; [done|]. by exists e.
  - destruct Hf as (_ & e' & He' & ?). apply H0. congruence.
Qed.

(** Behind the last cluster comes the first one; [prev] is looked at afterwards. *)
Lemma find_wrap fuel :
  0 < N -> N + 2 <> prev ->
  find (S fuel) (N + 2) = if decide (is_free (k_fs s) 2) then Ret 2 else find fuel 3.
Proof.
  intros HN Hp. cbn [find_cluster]. rewrite (bool_decide_eq_false_2 (N + 2 = prev)) by done.
  rewrite (bool_decide_eq_true_2 (N + 2 >= N + 2)) by lia. destruct (fat_at_in _ _ 2 Hok) as [e He]; [lia|].
  rewrite He. run. case_bool_decide as H0; case_decide as Hf; try done; exfalso.
  - apply Hf. split; [unfold cluster_ok; lia|]. by exists e.
  - destruct Hf as (_ & e' & He' & ?). apply H0. congruence.
Qed.

(** Over clusters in use. *)
Lemma find_skip m fuel c :
  2 <= c -> c + Z.of_nat m <= N + 2 ->
  (forall i, c <= i < c + Z.of_nat m -> i <> prev /\ ~ is_free (k_fs s) i) ->
  find (m + fuel)%nat c = find fuel (c + Z.of_nat m).
Proof.
  revert c. induction m as [|m IH]; intros c Hc Hend Hall; [by rewrite Z.add_0_r|].
  change (S m + fuel)%nat with (S (m + fuel)). destruct (Hall c) as [Hp Hf]; [lia|].
  rewrite find_step, decide_False by (done || lia). rewrite IH; [f_equal; lia|lia..|].
  intros i Hi. apply Hall. lia.
Qed.

(** A free cluster ahead is found, or one before it. *)
Lemma find_ahead m fuel c :
  2 <= c -> is_free (k_fs s) (c + Z.of_nat m) -> (forall i, c <= i <= c + Z.of_nat m -> i <> prev) ->
  exists r, find (S m + fuel)%nat c = Ret r /\ is_free (k_fs s) r.
Proof.
  revert c. induction m as [|m IH]; intros c Hc Hf Hp; change (S ?m + fuel)%nat with (S (m + fuel));
    pose proof Hf as [Hr _]; unfold cluster_ok in Hr; rewrite find_step by (lia || (apply Hp; lia)).
  - rewrite Z.add_0_r in Hf. rewrite decide_True by done. by exists c.
  - case_decide as H0; [by exists c|]. apply IH; [lia| |intros i Hi; apply Hp; lia].
    by replace (c + 1 + Z.of_nat m) with (c + Z.of_nat (S m)) by lia.
Qed.

End Search.

Lemma chain_fuel_clusters s n :
  geometry_ok (k_fs s) n -> chain_fuel s = Z.to_nat (clusters (k_fs s) + 3).
Proof. intros G. unfold chain_fuel. rewrite (g_table _ _ G). pose proof (g_clusters _ _ G). lia. Qed.

(** No free cluster from [a] to before [b]. *)
Definition none_free (fs : DOS_FS) (a b : Z) : Prop := forall i, a <= i < b -> ~ is_free fs i.

Lemma find_behind s prev :
  geometry_ok (k_fs s) (length (device (d_io (k_dos s)))) -> 2 <= prev < clusters (k_fs s) + 2 ->
  none_free (k_fs s) (prev + 1) (clusters (k_fs s) + 2) -> ~ is_free (k_fs s) 2 ->
  forall fuel, find_cluster (Z.to_nat (clusters (k_fs s) + 2 - prev) + fuel) (prev + 1) prev s =
               find_cluster fuel 3 prev s.
Proof.
  intros G Hp Hn H2 fuel.
  replace (Z.to_nat (clusters (k_fs s) + 2 - prev) + fuel)%nat
    with (Z.to_nat (clusters (k_fs s) + 1 - prev) + S fuel)%nat by lia.
  rewrite (find_skip s prev G) by (lia || (intros i Hi; split; [lia|apply Hn; lia])).
  replace (prev + 1 + Z.of_nat (Z.to_nat (clusters (k_fs s) + 1 - prev))) with (clusters (k_fs s) + 2) by lia.
  rewrite (find_wrap s prev G) by lia. by rewrite decide_False.
Qed.

Lemma some_free fs a b : (exists d, a <= d < b /\ is_free fs d) \/ none_free fs a b.
Proof.
  destruct (decide (Exists (is_free fs) (seqZ a (b - a)))) as [He|He].
  - left. apply Exists_exists in He as (d & Hd & Hf). apply elem_of_seqZ in Hd. exists d. split; [lia|done].
  - right. intros i Hi Hf. apply He, Exists_exists. exists i. split; [apply elem_of_seqZ; lia|done].
Qed.

(** From [a] on to a free cluster [d]. *)
Lemma find_found s prev :
  geometry_ok (k_fs s) (length (device (d_io (k_dos s)))) ->
  forall a d fuel, 2 <= a <= d -> is_free (k_fs s) d -> prev < a \/ d < prev -> (Z.to_nat (d - a) < fuel)%nat ->
  exists r, find_cluster fuel a prev s = Ret r /\ is_free (k_fs s) r.
Proof.
  intros G a d fuel Ha Hd Hp Hf.
  replace fuel with (S (Z.to_nat (d - a)) + (fuel - S (Z.to_nat (d - a))))%nat by lia.
  apply (find_ahead s prev G); [lia| |intros i Hi; lia]. by replace (a + Z.of_nat (Z.to_nat (d - a))) with d by lia.
Qed.

(** Without a free cluster the search from cluster 2 does not end. *)
Lemma find_forever s :
  geometry_ok (k_fs s) (length (device (d_io (k_dos s)))) -> (forall c, ~ is_free (k_fs s) c) ->
  forall fuel c, 0 < clusters (k_fs s) -> 3 <= c <= clusters (k_fs s) + 2 -> find_cluster fuel c 2 s = Fault OutOfFuel.
Proof.
  intros G Hno fuel. induction fuel as [|fuel IH]; intros c HN Hc; [done|].
  destruct (decide (c = clusters (k_fs s) + 2)) as [->|].
  - rewrite (find_wrap s 2 G) by lia. rewrite decide_False by done. apply IH; lia.
  - rewrite (find_step s 2 G) by lia. rewrite decide_False by done. apply IH; lia.
Qed.

(** C11: the search of [alloc_rootdir_entry] for a free cluster, from the last one
    of the root directory on, finds one when there is one, and without one comes
    back to where it began; except that it runs for ever when the root directory
    ends in cluster 2 and no cluster is free. *)
Theorem root_search_ends s prev :
  geometry_ok (k_fs s) (length (device (d_io (k_dos s)))) -> cluster_ok (k_fs s) prev -> ~ is_free (k_fs s) prev ->
  ((exists c, is_free (k_fs s) c) ->
     exists r, find_cluster (chain_fuel s) (prev + 1) prev s = Ret r /\ is_free (k_fs s) r) /\
  ((forall c, ~ is_free (k_fs s) c) ->
     if decide (prev = 2) then forall fuel, find_cluster fuel (prev + 1) prev s = Fault OutOfFuel
     else find_cluster (chain_fuel s) (prev + 1) prev s = Ret prev).
Proof.
  intros G Hp Hnp. unfold cluster_ok in Hp. rewrite (chain_fuel_clusters _ _ G). split.
  - intros [c Hc]. pose proof Hc as [Hr _]. unfold cluster_ok in Hr. assert (c <> prev) by (by intros ->).
    destruct (some_free (k_fs s) (prev + 1) (clusters (k_fs s) + 2)) as [(d & Hd & Hf)|Hno].
    { apply (find_found s prev G (prev + 1) d); (done || lia). }
    destruct (decide (is_free (k_fs s) 2)) as [H2|H2].
    { exists 2. split; [|done].
      replace (Z.to_nat (clusters (k_fs s) + 3)) with (Z.to_nat (clusters (k_fs s) + 1 - prev) + S (Z.to_nat (prev + 1)))%nat by lia.
      rewrite (find_skip s prev G) by (lia || (intros i Hi; split; [lia|apply Hno; lia])).
      replace (prev + 1 + Z.of_nat (Z.to_nat (clusters (k_fs s) + 1 - prev))) with (clusters (k_fs s) + 2) by lia.
      rewrite (find_wrap s prev G) by lia. by rewrite decide_True. }
    replace (Z.to_nat (clusters (k_fs s) + 3)) with (Z.to_nat (clusters (k_fs s) + 2 - prev) + Z.to_nat (prev + 1))%nat by lia.
    rewrite (find_behind s prev G Hp Hno H2). assert (c <> 2) by (by intros ->).
    assert (~ prev < c) by (intros H3; by apply (Hno c ltac:(lia))).
    apply (find_found s prev G 3 c); (done || lia).
  - intros Hno.
    assert (Hgo : forall fuel, find_cluster (Z.to_nat (clusters (k_fs s) + 2 - prev) + fuel) (prev + 1) prev s =
      find_cluster fuel 3 prev s).
    { apply find_behind; try done. intros i _. apply Hno. }
    case_decide as H2.
    + subst prev. intros fuel. apply (find_forever s G Hno); lia.
    + replace (Z.to_nat (clusters (k_fs s) + 3))
        with (Z.to_nat (clusters (k_fs s) + 2 - prev) + (Z.to_nat (prev - 3) + S (Z.to_nat 3)))%nat by lia.
      rewrite Hgo, (find_skip s prev G) by (lia || (intros i Hi; split; [lia|apply Hno])).
      replace (3 + Z.of_nat (Z.to_nat (prev - 3))) with prev by lia. cbn [find_cluster].
      by rewrite (bool_decide_eq_true_2 (prev = prev)).
Qed.

Lemma root_search_ends_witness :
  let full := sample_files (sample 16 2 2 8 0 [240; 255; 255; 255; 255; 255; 255; 255] [0; 0; 0xffff; 0xffff]) [] in
  (forall fuel, find_cluster fuel 3 2 full = Fault OutOfFuel) /\
  find_cluster (chain_fuel full) 4 3 full = Ret 3.
Proof.
  intros full. assert (Hno : forall c, ~ is_free (k_fs full) c).
  { intros c [Hc (e & He & Hv)]. assert (c = 2 \/ c = 3) as [-> | ->] by (unfold cluster_ok in Hc; cbn in Hc; lia);
      revert He; by intros [= <-]. }
  assert (G : geometry_ok (k_fs full) (length (device (d_io (k_dos full))))).
  { split; cbn; try lia; try done; right; by left. }
  split.
  - by apply (root_search_ends full 2 G).
  - by apply (root_search_ends full 3 G).
Defined.
