(* ===== verification/DosName.v ===== *)
(** * Names of files given to dosfsck

    [C/dosfstools-2.11/dosfsck/file.c]: the printed form of a name in a directory
    entry and its conversion back, and the tree of the paths that the user asked
    to drop or to undelete. *)

From S2P Require Import Prelude DosIo DosFat DosBoot DosCheck.

(** ** Printed names *)

(* @src C/dosfstools-2.11/dosfsck/file.c:34-43 put_char *)
Definition put_char (c : Z) : list Z :=
  if (bool_decide (32 <= c) && bool_decide (c < 0x7f)) || bool_decide (c >= 0xa0) then [c]
  else [92; 48 + Z.shiftr c 6; 48 + Z.land (Z.shiftr c 3) 7; 48 + Z.land c 7].

(** One part of a name; [j] is the number of characters printed. *)
(* @src C/dosfstools-2.11/dosfsck/file.c:53-57 file_name *)
Fixpoint put_part (part : list Z) (i j : nat) : list Z :=
  match part with
  | [] => []
  | c :: part =>
      if bool_decide (c <> 32) then replicate (i - j) 32 ++ put_char c ++ put_part part (S i) (S i)
      else put_part part (S i) j
  end.

(* @src C/dosfstools-2.11/dosfsck/file.c:46-67 file_name *)
Definition file_name (fixed : list Z) : list Z :=
  put_part (read_at 0 8 fixed) 0 0 ++
  (if same_name 3 (read_at 8 3 fixed) [32; 32; 32] then [] else 46 :: put_part (read_at 8 3 fixed) 0 0).

Definition invalid_chars : list Z := str_bytes ("*?<>|" ++ String (Ascii.ascii_of_nat 34) "/").

(** The three digits of an escape: the pointer still is on the backslash, which is
    no digit. *)
(* @src C/dosfstools-2.11/dosfsck/file.c:95-108 file_cvt *)
Fixpoint octal (cnt : nat) (c : Z) (name : list Z) : option (Z * list Z) :=
  match cnt, name with
  | O, _ => Some (c, name)
  | S cnt, d :: name =>
      if bool_decide (d < 48) || bool_decide (d > 55) then None else octal cnt (u8 (c * 8 + d - 48)) name
  | S _, [] => None
  end.

Definition to_upper (c : Z) : Z := if bool_decide (97 <= c <= 122) then c - 32 else c.

(** The rest of the conversion: [size] places are left in the part, [fixed] is what
    is written so far. After three digits [cnt] is zero, and a name is refused when
    it is less than four. *)
(* @src C/dosfstools-2.11/dosfsck/file.c:78-121 file_cvt *)
Fixpoint cvt_loop (name : list Z) (size : nat) (ext : bool) (fixed : list Z) : option (list Z) :=
  match name with
  | [] =>
      if bool_decide (size = 8%nat) then None
      else Some (fixed ++ replicate size 32 ++ (if ext then [] else replicate 3 32))
  | c :: name' =>
      if bool_decide (c < 32) || bool_decide (c > 0x7e) || bool_decide (c ∈ invalid_chars) then None
      else if bool_decide (c = 46) then
        if ext then None else cvt_loop name' 3 true (fixed ++ replicate size 32)
      else if bool_decide (c = 92) then
        match octal 3 0 name with
        | None => None
        | Some _ => None
        end
      else
        match size with
        | O => cvt_loop name' 0 ext fixed
        | S size => cvt_loop name' size ext (fixed ++ [to_upper c])
        end
  end.

(** The text up to its zero; [None] when it is refused. *)
(* @src C/dosfstools-2.11/dosfsck/file.c:70-122 file_cvt *)
Definition file_cvt (name : list Z) : option (list Z) := cvt_loop name 8 false [].

(** ** The tree of names *)

(* @src C/dosfstools-2.11/dosfsck/file.h:9-9 FD_TYPE *)
Inductive FD_TYPE := fdt_none | fdt_drop | fdt_undelete.

#[export] Instance FD_TYPE_eq_dec : EqDecision FD_TYPE.
Proof. solve_decision. Defined.

(** The list of a directory takes the place of the [next] pointers. *)
(* @src C/dosfstools-2.11/dosfsck/file.h:11-16 FDSC *)
Inductive FDSC := Fdsc (name : list Z) (type : FD_TYPE) (first : list FDSC).

Definition fd_name (d : FDSC) : list Z := let 'Fdsc n _ _ := d in n.
Definition fd_type (d : FDSC) : FD_TYPE := let 'Fdsc _ t _ := d in t.
Definition fd_first (d : FDSC) : list FDSC := let 'Fdsc _ _ l := d in l.

Definition has_first (d : FDSC) : bool := match fd_first d with [] => false | _ => true end.

(** The parts of a path between its slashes. *)
(* @src C/dosfstools-2.11/dosfsck/file.c:136-136 file_add *)
Fixpoint split_path (path : list Z) : list (list Z) :=
  match path with
  | [] => [[]]
  | c :: path =>
      if bool_decide (c = 47) then [] :: split_path path
      else match split_path path with
           | part :: parts => (c :: part) :: parts
           | [] => [[c]]
           end
  end.

(** Whether a new name is taken for another one of the directory. *)
(* @src C/dosfstools-2.11/dosfsck/file.c:139-141 file_add *)
Definition ambiguous (type : FD_TYPE) (name : list Z) (walk : FDSC) : bool :=
  same_name 11 name (fd_name walk) ||
  (bool_decide (type = fdt_undelete) && same_name 10 (drop 1 name) (drop 1 (fd_name walk))).

Definition find_index (P : FDSC -> bool) (dir : list FDSC) : option (nat * FDSC) := list_find (fun d => P d = true) dir.

(* @src C/dosfstools-2.11/dosfsck/file.c:135-156 file_add *)
Fixpoint add_path (parts : list (list Z)) (type : FD_TYPE) (current : list FDSC) : outcome (list FDSC) :=
  match parts with
  | [] => Ret current
  | path :: parts =>
      match file_cvt path with
      | None => Fault Died
      | Some name =>
          match parts with
          | [] =>
              _ ← require (negb (existsb (ambiguous type name) current)) Died;
              Ret (Fdsc name type [] :: current)
          | _ =>
              match find_index (fun walk => same_name 11 name (fd_name walk)) current with
              | Some (i, walk) =>
                  first ← add_path parts type (fd_first walk);
                  Ret (<[i := Fdsc (fd_name walk) (fd_type walk) first]> current)
              | None =>
                  first ← add_path parts type [];
                  Ret (Fdsc name fdt_none first :: current)
              end
          end
      end
  end.

(* @src C/dosfstools-2.11/dosfsck/file.c:125-157 file_add *)
Definition file_add (path : list Z) (type : FD_TYPE) (fp_root : list FDSC) : outcome (list FDSC) :=
  match path with
  | c :: path => _ ← require (bool_decide (c = 47)) Died; add_path (split_path path) type fp_root
  | [] => Fault Died
  end.

(** A pointer to the list of a directory is the way there from the root; [None] is
    a null pointer. *)
Fixpoint dir_at (fp : list FDSC) (way : list nat) : option (list FDSC) :=
  match way with
  | [] => Some fp
  | i :: way => match fp !! i with Some d => dir_at (fd_first d) way | None => None end
  end.

Fixpoint put_dir (dir : list FDSC) (fp : list FDSC) (way : list nat) : list FDSC :=
  match way with
  | [] => dir
  | i :: way =>
      match fp !! i with
      | Some d => <[i := Fdsc (fd_name d) (fd_type d) (put_dir dir (fd_first d) way)]> fp
      | None => fp
      end
  end.

Definition dir_of (fp : list FDSC) (cp : option (list nat)) : list FDSC :=
  match cp with Some way => default [] (dir_at fp way) | None => [] end.

(* @src C/dosfstools-2.11/dosfsck/file.c:160-169 file_cd *)
Definition file_cd (fp : list FDSC) (cp : option (list nat)) (fixed : list Z) : option (list nat) :=
  match cp, find_index (fun walk => same_name 11 (fd_name walk) fixed && has_first walk) (dir_of fp cp) with
  | Some way, Some (i, _) => Some (way ++ [i])
  | _, _ => None
  end.

(** The first character of a deleted name is lost. *)
(* @src C/dosfstools-2.11/dosfsck/file.c:172-190 file_find *)
Definition file_find (dir : list FDSC) (fixed : list Z) : option (nat * FDSC) :=
  if bool_decide (head fixed = Some DELETED_FLAG)
  then find_index (fun d => same_name 10 (drop 1 (fd_name d)) (drop 1 fixed) && negb (has_first d)) dir
  else find_index (fun d => same_name 11 (fd_name d) fixed && negb (has_first d)) dir.

(* @src C/dosfstools-2.11/dosfsck/file.c:193-199 file_type *)
Definition file_type (fp : list FDSC) (cp : option (list nat)) (fixed : list Z) : FD_TYPE :=
  match file_find (dir_of fp cp) fixed with Some (_, this) => fd_type this | None => fdt_none end.

(** The entry's name, changed, and the tree without the request. *)
(* @src C/dosfstools-2.11/dosfsck/file.c:202-223 file_modify *)
Definition file_modify (fp : list FDSC) (cp : option (list nat)) (fixed : list Z) : outcome (list Z * list FDSC) :=
  match cp, file_find (dir_of fp cp) fixed with
  | Some way, Some (i, this) =>
      name ← match fd_type this with
             | fdt_drop => Ret (DELETED_FLAG :: drop 1 fixed)
             | fdt_undelete => Ret (take 1 (fd_name this) ++ drop 1 fixed)
             | fdt_none => Fault Died
             end;
      Ret (name, put_dir (delete i (dir_of fp cp)) fp way)
  | _, _ => Fault Died
  end.

(** ** Converting names *)

(** Characters that stand for themselves in a printed name. *)
Definition plain (c : Z) : Prop :=
  32 <= c <= 126 /\ c ∉ invalid_chars /\ c <> 46 /\ c <> 92 /\ ~ (97 <= c <= 122).

#[export] Instance plain_dec c : Decision (plain c).
Proof. unfold plain. apply _. Defined.

Lemma put_char_plain c : plain c -> put_char c = [c].
Proof. intros (Hc & _). unfold put_char. rewrite !bool_decide_eq_true_2 by lia. done. Qed.

(** A printed part is the part without the blanks at its end. *)
Lemma put_part_spec part i j :
  Forall plain part -> (j <= i)%nat ->
  exists k, (k <= length part)%nat /\ part = take k part ++ replicate (length part - k) 32 /\
    put_part part i j = (if decide (k = 0%nat) then [] else replicate (i - j) 32) ++ take k part.
Proof.
  intros Hp. revert i j. induction Hp as [|c part Hc Hp IH]; intros i j Hj.
  { exists 0%nat. done. }
  cbn [put_part]. case_bool_decide as H32.
  - destruct (IH (S i) (S i)) as (k & Hk & Hpart & ->); [lia|]. exists (S k). cbn [length take].
    split; [lia|]. split; [cbn; by rewrite <- Hpart|]. rewrite (put_char_plain c) by done.
    rewrite (decide_False (P := S k = 0%nat)) by lia. f_equal. cbn [app]. f_equal.
    case_decide; [done|]. by rewrite Nat.sub_diag.
  - subst c. destruct (IH (S i) j) as (k & Hk & Hpart & ->); [lia|].
    case_decide as Hk0.
    + subst k. exists 0%nat. split; [lia|]. split; [|done]. cbn [length take app Nat.sub replicate].
      f_equal. rewrite Hpart at 1. cbn [take app]. by rewrite Nat.sub_0_r.
    + exists (S k). cbn [length take]. split; [lia|]. split; [cbn; by rewrite <- Hpart|].
      rewrite (decide_False (P := S k = 0%nat)) by lia.
      replace (S i - j)%nat with (i - j + 1)%nat by lia. rewrite replicate_add, <- app_assoc. done.
Qed.

Lemma to_upper_plain c : plain c -> to_upper c = c.
Proof. intros (_ & _ & _ & _ & Hc). unfold to_upper. by rewrite bool_decide_eq_false_2. Qed.

Lemma cvt_plain l rest size ext fixed :
  Forall plain l -> (length l <= size)%nat ->
  cvt_loop (l ++ rest) size ext fixed = cvt_loop rest (size - length l) ext (fixed ++ l).
Proof.
  intros Hl. revert size fixed. induction Hl as [|c l Hc Hl IH]; intros size fixed Hs.
  { by rewrite app_nil_r, Nat.sub_0_r. }
  cbn in Hs. destruct size as [|size]; [lia|]. cbn [app cvt_loop]. pose proof Hc as (H1 & H2 & H3 & H4 & _).
  rewrite (bool_decide_eq_false_2 (c < 32)), (bool_decide_eq_false_2 (c > 126)), (bool_decide_eq_false_2 (c ∈ _)),
    (bool_decide_eq_false_2 (c = 46)), (bool_decide_eq_false_2 (c = 92)) by (done || lia). cbn [orb].
  rewrite IH by lia. rewrite (to_upper_plain c Hc), <- app_assoc. done.
Qed.

Lemma to_upper_ok c :
  32 <= c -> c <= 126 -> c ∉ invalid_chars -> c <> 46 -> c <> 92 -> plain (to_upper c).
Proof.
  intros H1 H2 H3 H4 H5. unfold plain, to_upper. case_bool_decide as Hc; [|by split_and!].
  split_and!; try lia. intros Hin. assert (Forall (fun x => ~ (65 <= x <= 90)) invalid_chars) as Hall.
  { apply (bool_decide_unpack _). by vm_compute. }
  rewrite Forall_forall in Hall. specialize (Hall _ Hin). lia.
Qed.

Lemma plain_blank : plain 32.
Proof. by apply (bool_decide_unpack _). Qed.

Lemma cvt_loop_valid name size (ext : bool) fixed f :
  cvt_loop name size ext fixed = Some f -> Forall plain fixed ->
  (length fixed + size)%nat = (if ext then 11 else 8)%nat -> length f = 11%nat /\ Forall plain f.
Proof.
  pose proof plain_blank as Hb. revert size ext fixed. induction name as [|c name IH]; intros size ext fixed; cbn [cvt_loop].
  - case_bool_decide; [done|]. intros [= <-] Hf Hlen. split.
    + rewrite !length_app, length_replicate. destruct ext; cbn; lia.
    + apply Forall_app. split; [done|]. apply Forall_app. split; [by apply Forall_replicate|].
      destruct ext; [done|by rewrite !Forall_cons].
  - destruct (bool_decide (c < 32) || bool_decide (c > 126) || bool_decide (c ∈ invalid_chars)) eqn:Hbad; [done|].
    apply orb_false_iff in Hbad as [Hbad H3]. apply orb_false_iff in Hbad as [H1 H2].
    apply bool_decide_eq_false in H1, H2, H3. case_bool_decide as Hdot.
    + destruct ext; [done|]. intros Hrun Hf Hlen. apply IH in Hrun; [done| |].
      * apply Forall_app. split; [done|]. by apply Forall_replicate.
      * rewrite length_app, length_replicate. lia.
    + case_bool_decide as Hesc; [by destruct (octal _ _ _)|]. destruct size as [|size]; intros Hrun Hf Hlen.
      * by apply IH in Hrun.
      * apply IH in Hrun; [done| |rewrite length_app; cbn; lia].
        apply Forall_app. split; [done|]. constructor; [|done]. apply to_upper_ok; (done || lia).
Qed.

Lemma cvt_loop_escape name size ext fixed : 92 ∈ name -> cvt_loop name size ext fixed = None.
Proof.
  revert size ext fixed. induction name as [|c name IH]; intros size ext fixed Hin; [set_solver|].
  cbn [cvt_loop]. destruct (_ || _ || _); [done|]. case_bool_decide as Hdot.
  - destruct ext; [done|]. apply IH. set_solver.
  - case_bool_decide; [by destruct (octal _ _ _)|]. assert (92 ∈ name) by set_solver. destruct size; by apply IH.
Qed.

(** C16: The name that [file_cvt] makes of a text has eleven printable characters,
    none of them lower case or special; and a text with a backslash is always
    refused, so the escapes that [file_name] prints and the messages ask for
    cannot be entered. *)
Theorem file_cvt_valid name :
  match file_cvt name with
  | Some fixed => length fixed = 11%nat /\ Forall plain fixed /\ 92 ∉ name
  | None => True
  end.
Proof.
  unfold file_cvt. destruct (cvt_loop name 8 false []) as [fixed|] eqn:Hrun; [|done].
  destruct (cvt_loop_valid _ _ _ _ _ Hrun) as [H1 H2]; [done..|]. split; [done|]. split; [done|].
  intros Hin. by rewrite cvt_loop_escape in Hrun.
Qed.

Lemma same_name_blank part :
  Forall plain part -> length part = 3%nat ->
  same_name 3 part [32; 32; 32] = bool_decide (part = [32; 32; 32]).
Proof.
  intros Hp Hl. destruct part as [|a [|b [|c [|]]]]; try done. cbn [same_name].
  destruct (decide (a = 32)) as [->|Ha].
  2:{ rewrite (bool_decide_eq_false_2 (a = 32)) by done. symmetry. apply bool_decide_eq_false. congruence. }
  destruct (decide (b = 32)) as [->|Hb].
  2:{ rewrite (bool_decide_eq_false_2 (b = 32)) by done. symmetry. apply bool_decide_eq_false. congruence. }
  destruct (decide (c = 32)) as [->|Hc]; [done|].
  rewrite (bool_decide_eq_false_2 (c = 32)) by done. symmetry. apply bool_decide_eq_false. congruence.
Qed.

(** C15: a name of printable upper-case characters that is not all blanks is
    converted back from its printed form: blanks inside are kept, blanks at the
    end of either part restored. *)
Theorem file_name_cvt fixed :
  length fixed = 11%nat -> Forall plain fixed -> fixed <> replicate 11 32 ->
  file_cvt (file_name fixed) = Some fixed.
Proof.
  intros Hl Hp Hne. rewrite <- (take_drop 8 fixed) in Hp, Hne |- *. set (a := take 8 fixed) in *. set (b := drop 8 fixed) in *.
  assert (Ha : length a = 8%nat) by (unfold a; rewrite length_take; lia).
  assert (Hb : length b = 3%nat) by (unfold b; rewrite length_drop; lia). clearbody a b. clear Hl fixed.
  apply Forall_app in Hp as [Hpa Hpb]. unfold file_cvt, file_name, read_at.
  change (Z.to_nat 8) with 8%nat. change (Z.to_nat 0) with 0%nat. change (Z.to_nat 3) with 3%nat.
  rewrite drop_0, take_app_exact, drop_app_exact, (take_ge b) by (done || lia).
  destruct (put_part_spec a 0 0 Hpa) as (k & Hk & Hak & ->); [lia|].
  destruct (put_part_spec b 0 0 Hpb) as (m & Hm & Hbm & ->); [lia|].
  assert (Hnil : forall n, (if decide (n = 0%nat) then [] else replicate (0 - 0) 32) = @nil Z) by (intros; by case_decide).
  rewrite !Hnil. cbn [app]. rewrite Ha in Hak. rewrite Hb in Hbm.
  rewrite cvt_plain by (rewrite ?length_take; lia || by apply Forall_take).
  rewrite length_take, Ha, (Nat.min_l k) by lia. cbn [app]. rewrite (same_name_blank b Hpb Hb). case_bool_decide as Hblank.
  - cbn [cvt_loop]. assert (k <> 0%nat).
    { intros ->. apply Hne. rewrite Hak, Hblank. done. }
    rewrite bool_decide_eq_false_2 by lia. rewrite app_assoc, <- Hak, Hblank. done.
  - cbn [cvt_loop]. rewrite (bool_decide_eq_false_2 (46 < 32)), (bool_decide_eq_false_2 (46 > 126)) by lia.
    change (bool_decide (46 ∈ invalid_chars)) with false. rewrite (bool_decide_eq_true_2 (46 = 46)) by done. cbn [orb].
    rewrite <- Hak. rewrite <- (app_nil_r (take m b)) at 1.
    rewrite cvt_plain by (rewrite ?length_take; lia || by apply Forall_take).
    cbn [cvt_loop]. rewrite length_take, Hb. rewrite bool_decide_eq_false_2 by lia.
    rewrite (Nat.min_l m), app_nil_r, <- app_assoc, <- Hbm by lia. done.
Qed.

Lemma file_name_cvt_witness :
  file_cvt (file_name (str_bytes "A B     X  ")) = Some (str_bytes "A B     X  ") /\
  file_name (str_bytes "A B     X  ") = str_bytes "A B.X".
Proof.
  split; [|by vm_compute]. apply file_name_cvt; [done|by apply (bool_decide_unpack _)|done].
Defined.
