(* ===== verification/DosLfn.v ===== *)
(** * Long file names

    [C/dosfstools-2.11/dosfsck/lfn.c]: a long name is spread over the entries
    before that of its file, last part first. The parser keeps what it has
    collected in global variables. *)

From S2P Require Import Prelude DosIo DosFat DosBoot DosCheck.

(** ** Entries of a long name *)

(* @src C/dosfstools-2.11/dosfsck/lfn.c:17-26 LFN_ENT *)
Definition lfn_id (de : list Z) : Z := field 0 1 de.
Definition lfn_reserved := field 12 1.
Definition lfn_alias_checksum := field 13 1.
Definition lfn_start := field 26 2.

Definition LFN_ID_START : Z := 0x40.
Definition LFN_ID_SLOTMASK : Z := 0x1f.
Definition CHARS_PER_LFN : Z := 13.
Definition UNTIL_0 : Z := 2 ^ 31 - 1.

(* @src C/dosfstools-2.11/dosfsck/lfn.c:40-49 fat_uni2esc *)
Definition fat_uni2esc : list Z := str_bytes "0123456789ABCDEFGHIJKLMNOPQRSTUVWXYZabcdefghijklmnopqrstuvwxyz+-".

(* @src C/dosfstools-2.11/dosfsck/lfn.c:52-52 UNICODE_CONVERTABLE *)
Definition UNICODE_CONVERTABLE (cl ch : Z) : bool :=
  bool_decide (ch = 0) && (bool_decide (cl < 0x80) || bool_decide (cl >= 0xa0)).

Definition uni2esc (val : Z) : Z := nth (Z.to_nat (Z.land val 0x3f)) fat_uni2esc 0.

(** What one character becomes. *)
(* @src C/dosfstools-2.11/dosfsck/lfn.c:86-101 cnv_unicode *)
Definition cnv_char (cl ch : Z) : list Z :=
  if UNICODE_CONVERTABLE cl ch then [cl]
  else let val := Z.shiftl ch 8 + cl in [58; uni2esc (Z.shiftr val 12); uni2esc (Z.shiftr val 6); uni2esc val].

(** Up to [maxlen] characters, or to a zero. *)
(* @src C/dosfstools-2.11/dosfsck/lfn.c:74-106 cnv_unicode *)
Fixpoint cnv_unicode (uni : list Z) (maxlen : Z) : outcome (list Z) :=
  if bool_decide (0 < maxlen) then
    match uni with
    | cl :: ch :: uni =>
        if bool_decide (cl = 0) && bool_decide (ch = 0) then Ret []
        else out ← cnv_unicode uni (maxlen - 1); Ret (cnv_char cl ch ++ out)
    | _ => Fault OutOfBounds
    end
  else Ret [].

(* @src C/dosfstools-2.11/dosfsck/lfn.c:109-114 copy_lfn_part *)
Definition lfn_part (de : list Z) : list Z := read_at 1 10 de ++ read_at 14 12 de ++ read_at 28 4 de.

(** ** The state of the parser *)

(* @src C/dosfstools-2.11/dosfsck/lfn.c:34-38 lfn_unicode *)
Record lfn_state := LfnState {
  lfn_unicode : option (list Z);
  lfn_checksum : Z;
  lfn_slot : Z;
  lfn_offsets : option (list Z);
  lfn_parts : Z;
}.

Definition lfn_init : lfn_state := LfnState None 0 (-1) None 0.

(* @src C/dosfstools-2.11/dosfsck/lfn.c:134-143 lfn_reset *)
Definition lfn_reset (l : lfn_state) : lfn_state := LfnState None (lfn_checksum l) (-1) None (lfn_parts l).

Definition deref {A} (p : option A) : outcome A := match p with Some x => Ret x | None => Fault NullDeref end.

(** The name collected so far, for a message. *)
(* @src C/dosfstools-2.11/dosfsck/lfn.c:67-69 CNV_PARTS_SO_FAR *)
Definition cnv_parts (l : lfn_state) : outcome (list Z) :=
  uni ← deref (lfn_unicode l);
  let from := lfn_slot l * CHARS_PER_LFN * 2 in
  rest ← mem_read from (Z.of_nat (length uni) - from) uni;
  cnv_unicode rest (lfn_parts l * CHARS_PER_LFN).

(** [lfn_offsets[lfn_parts++] = dir_offset]. *)
Definition add_offset (off : Z) (l : lfn_state) : outcome lfn_state :=
  offs ← deref (lfn_offsets l);
  offs ← mem_write (lfn_parts l) [off] offs;
  Ret (LfnState (lfn_unicode l) (lfn_checksum l) (lfn_slot l) (Some offs) (lfn_parts l + 1)).

Section Lfn.

Variables interactive write_immed : bool.

(** The contents of fresh memory. *)
Variable fresh : Z -> list Z.

Local Abbreviation fs_write := (fs_write write_immed).

(* @src C/dosfstools-2.11/dosfsck/lfn.c:117-132 clear_lfn_slots *)
Definition clear_lfn_slots (first last : Z) (l : lfn_state) (io : io_state) : outcome io_state :=
  each (fun i io =>
    offs ← deref (lfn_offsets l);
    off ← byte_at offs i;
    fs_write off (DELETED_FLAG :: replicate 31 0) io) (seqZ first (last + 1 - first)) io.

(** A new name of as many parts as its number says. *)
(* @src C/dosfstools-2.11/dosfsck/lfn.c:200-204 lfn_add_slot *)
Definition start_name (de : list Z) (l : lfn_state) : lfn_state :=
  let slot := Z.land (lfn_id de) LFN_ID_SLOTMASK in
  LfnState (Some (fresh ((slot * CHARS_PER_LFN + 1) * 2))) (lfn_alias_checksum de) slot (Some (fresh slot)) 0.

(** The whole name is deleted, with this entry. *)
Definition delete_name (off : Z) (l : lfn_state) (io : io_state) : outcome (lfn_state * io_state) :=
  l ← add_offset off l;
  io ← clear_lfn_slots 0 (lfn_parts l - 1) l io;
  Ret (lfn_reset l, io).

(** A start bit within a name. *)
(* @src C/dosfstools-2.11/dosfsck/lfn.c:157-199 lfn_add_slot *)
Definition start_inside (de : list Z) (off : Z) (l : lfn_state) (io : io_state)
  : outcome (list Z * lfn_state * io_state) :=
  let can_clear := bool_decide (Z.land (lfn_id de) LFN_ID_SLOTMASK = lfn_slot l) &&
                   bool_decide (lfn_alias_checksum de = lfn_checksum l) in
  _ ← (if can_clear then cnv_parts l else Ret []);
  if interactive then
    '(k, io) ← get_key (if can_clear then "123" else "12") io;
    if bool_decide (k = 49) then
      io ← clear_lfn_slots 0 (lfn_parts l - 1) l io; Ret (de, lfn_reset l, io)
    else if bool_decide (k = 51) then
      let id := Z.land (lfn_id de) 0xbf in
      io ← fs_write off [id] io; Ret (write_at 0 [id] de, l, io)
    else Ret (de, l, io)
  else Ret (de, l, io).

(** A part outside a name: [None] when the entry is done with. *)
(* @src C/dosfstools-2.11/dosfsck/lfn.c:206-244 lfn_add_slot *)
Definition part_outside (de : list Z) (off : Z) (l : lfn_state) (io : io_state)
  : outcome (option (list Z) * lfn_state * io_state) :=
  if interactive then
    '(k, io) ← get_key "123" io;
    if bool_decide (k = 49) then
      offs ← mem_write 0 [off] (match lfn_offsets l with Some offs => offs | None => fresh 1 end);
      let l := LfnState (lfn_unicode l) (lfn_checksum l) (lfn_slot l) (Some offs) (lfn_parts l) in
      io ← clear_lfn_slots 0 0 l io;
      Ret (None, lfn_reset l, io)
    else if bool_decide (k = 50) then Ret (None, lfn_reset l, io)
    else
      let id := Z.lor (lfn_id de) LFN_ID_START in
      io ← fs_write off [id] io;
      let de := write_at 0 [id] de in
      Ret (Some de, start_name de l, io)
  else Ret (Some de, l, io).

(** A part with another number than the one expected. *)
(* @src C/dosfstools-2.11/dosfsck/lfn.c:245-285 lfn_add_slot *)
Definition wrong_number (de : list Z) (off : Z) (l : lfn_state) (io : io_state)
  : outcome (option (list Z) * lfn_state * io_state) :=
  let can_fix := bool_decide (lfn_alias_checksum de = lfn_checksum l) in
  _ ← (if can_fix then cnv_parts l else Ret []);
  if interactive then
    '(k, io) ← get_key (if can_fix then "123" else "12") io;
    if bool_decide (k = 49) then '(l, io) ← delete_name off l io; Ret (None, l, io)
    else if bool_decide (k = 50) then Ret (None, lfn_reset l, io)
    else
      let id := Z.lor (Z.land (lfn_id de) 0xe0) (u8 (lfn_slot l)) in
      io ← fs_write off [id] io; Ret (Some (write_at 0 [id] de), l, io)
  else Ret (Some de, l, io).

(* @src C/dosfstools-2.11/dosfsck/lfn.c:156-287 lfn_add_slot *)
Definition slot_number (de : list Z) (off : Z) (l : lfn_state) (io : io_state)
  : outcome (option (list Z) * lfn_state * io_state) :=
  if bool_decide (Z.land (lfn_id de) LFN_ID_START <> 0) then
    '(de, l, io) ← (if bool_decide (lfn_slot l <> -1) then start_inside de off l io else Ret (de, l, io));
    Ret (Some de, start_name de l, io)
  else if bool_decide (lfn_slot l = -1) then part_outside de off l io
  else if bool_decide (Z.land (lfn_id de) LFN_ID_SLOTMASK <> lfn_slot l) then wrong_number de off l io
  else Ret (Some de, l, io).

(* @src C/dosfstools-2.11/dosfsck/lfn.c:289-317 lfn_add_slot *)
Definition slot_checksum (de : list Z) (off : Z) (l : lfn_state) (io : io_state)
  : outcome (option (list Z) * lfn_state * io_state) :=
  if bool_decide (lfn_alias_checksum de <> lfn_checksum l) && interactive then
    '(k, io) ← get_key "123" io;
    if bool_decide (k = 49) then '(l, io) ← delete_name off l io; Ret (None, l, io)
    else if bool_decide (k = 51) then
      io ← fs_write (off + 13) [lfn_checksum l] io;
      Ret (Some (write_at 13 [lfn_checksum l] de), l, io)
    else Ret (Some de, l, io)
  else Ret (Some de, l, io).

(** The part goes to its place, the next number is one less. The offset is
    [unsigned]. *)
(* @src C/dosfstools-2.11/dosfsck/lfn.c:319-326 lfn_add_slot *)
Definition store_part (de : list Z) (off : Z) (l : lfn_state) : outcome lfn_state :=
  if bool_decide (lfn_slot l <> -1) then
    let slot := lfn_slot l - 1 in
    let offset := u32 (slot * CHARS_PER_LFN * 2) in
    uni ← deref (lfn_unicode l);
    uni ← mem_write offset (lfn_part de) uni;
    uni ← (if bool_decide (Z.land (lfn_id de) LFN_ID_START <> 0) then mem_write (u32 (offset + 26)) [0; 0] uni
           else Ret uni);
    add_offset off (LfnState (Some uni) (lfn_checksum l) slot (lfn_offsets l) (lfn_parts l))
  else Ret l.

Definition fix_field (wrong : bool) (pos : Z) (zeros : list Z) (io : io_state) : outcome io_state :=
  if wrong then
    '(yes, io) ← (if interactive then '(k, io) ← get_key "12" io; Ret (bool_decide (k = 49), io)
                  else Ret (true, io));
    if (yes : bool) then fs_write pos zeros io else Ret io
  else Ret io.

(* @src C/dosfstools-2.11/dosfsck/lfn.c:148-352 lfn_add_slot *)
Definition lfn_add_slot (de : list Z) (off : Z) (l : lfn_state) (io : io_state) : outcome (lfn_state * io_state) :=
  _ ← require (bool_decide (de_attr de = VFAT_LN_ATTR)) Died;
  '(r, l, io) ← slot_number de off l io;
  match r with
  | None => Ret (l, io)
  | Some de =>
      '(r, l, io) ← slot_checksum de off l io;
      match r with
      | None => Ret (l, io)
      | Some de =>
          l ← store_part de off l;
          io ← fix_field (bool_decide (lfn_reserved de <> 0)) (off + 12) [0] io;
          io ← fix_field (bool_decide (lfn_start de <> 0)) (off + 26) [0; 0] io;
          Ret (l, io)
      end
  end.

(** ** The name of an entry *)

(* @src C/dosfstools-2.11/dosfsck/lfn.c:415-416 lfn_get *)
Definition alias_sum (name : list Z) : Z :=
  foldl (fun sum c => u8 (Z.lor (Z.shiftl (Z.land sum 1) 7) (Z.shiftr (Z.land sum 0xfe) 1) + c)) 0 name.

(** A value in every part of the name on the disk. *)
Definition fix_parts (value : Z -> Z) (at_off : Z) (l : lfn_state) (io : io_state) : outcome io_state :=
  each (fun i io =>
    offs ← deref (lfn_offsets l);
    off ← byte_at offs i;
    fs_write (off + at_off) [value i] io) (seqZ 0 (lfn_parts l)) io.

(** The choices for a name that does not fit its entry; [None] when it is given
    up. *)
Definition ask_name (fix_it : lfn_state -> io_state -> outcome (lfn_state * io_state))
    (l : lfn_state) (io : io_state) : outcome (bool * lfn_state * io_state) :=
  _ ← cnv_parts l;
  if interactive then
    '(k, io) ← get_key "123" io;
    if bool_decide (k = 49) then
      io ← clear_lfn_slots 0 (lfn_parts l - 1) l io; Ret (false, lfn_reset l, io)
    else if bool_decide (k = 50) then Ret (false, lfn_reset l, io)
    else '(l, io) ← fix_it l io; Ret (true, l, io)
  else Ret (true, l, io).

(** The numbers of the parts there are, and the name moved to the front. *)
(* @src C/dosfstools-2.11/dosfsck/lfn.c:402-410 lfn_get *)
Definition renumber (l : lfn_state) (io : io_state) : outcome (lfn_state * io_state) :=
  io ← fix_parts (fun i => u8 (Z.lor (lfn_parts l - i) (if bool_decide (i = 0) then LFN_ID_START else 0))) 0 l io;
  uni ← deref (lfn_unicode l);
  part ← mem_read (lfn_slot l * CHARS_PER_LFN * 2) (lfn_parts l * CHARS_PER_LFN * 2) uni;
  uni ← mem_write 0 part uni;
  Ret (LfnState (Some uni) (lfn_checksum l) (lfn_slot l) (lfn_offsets l) (lfn_parts l), io).

(* @src C/dosfstools-2.11/dosfsck/lfn.c:357-455 lfn_get *)
Definition lfn_get (de : list Z) (l : lfn_state) (io : io_state) : outcome (option (list Z) * lfn_state * io_state) :=
  _ ← require (bool_decide (de_attr de <> VFAT_LN_ATTR)) Died;
  if bool_decide (lfn_slot l = -1) then Ret (None, l, io)
  else
    '(go, l, io) ← (if bool_decide (lfn_slot l <> 0) then ask_name renumber l io else Ret (true, l, io));
    if negb go then Ret (None, l, io)
    else
      let sum := alias_sum (de_name de) in
      '(go, l, io) ← (if bool_decide (sum <> lfn_checksum l)
                      then ask_name (fun l io => io ← fix_parts (fun _ => sum) 13 l io; Ret (l, io)) l io
                      else Ret (true, l, io));
      if negb go then Ret (None, l, io)
      else
        uni ← deref (lfn_unicode l);
        name ← cnv_unicode uni UNTIL_0;
        Ret (Some name, lfn_reset l, io).

(* @src C/dosfstools-2.11/dosfsck/lfn.c:457-473 lfn_check_orphaned *)
Definition lfn_check_orphaned (l : lfn_state) (io : io_state) : outcome (lfn_state * io_state) :=
  if bool_decide (lfn_slot l = -1) then Ret (l, io)
  else
    _ ← cnv_parts l;
    '(yes, io) ← (if interactive then '(k, io) ← get_key "12" io; Ret (bool_decide (k = 49), io)
                  else Ret (true, io));
    io ← (if (yes : bool) then clear_lfn_slots 0 (lfn_parts l - 1) l io else Ret io);
    Ret (lfn_reset l, io).

End Lfn.

(** ** The buffers *)

Lemma cnv_unicode_total uni m :
  2 * m <= Z.of_nat (length uni) -> exists out, cnv_unicode uni m = Ret out.
Proof.
  assert (Hind : forall (n : nat) uni m, (length uni < n)%nat -> 2 * m <= Z.of_nat (length uni) ->
    exists out, cnv_unicode uni m = Ret out).
  { clear. intros n. induction n as [|n IH]; intros uni m Hn Hm; [lia|].
    destruct uni as [|a [|b uni]]; cbn [cnv_unicode length] in *; case_bool_decide; try lia; try by eexists.
    destruct (_ && _); [by eexists|]. destruct (IH uni (m - 1)) as [out ->]; [lia..|]. run. by eexists. }
  intros H. by eapply (Hind (S (length uni))); [lia|].
Qed.

(** The state between entries: no name, or the last parts of one of [n] parts. *)
Record collecting (n : Z) (l : lfn_state) (uni offs : list Z) : Prop := {
  col_slot : 0 <= lfn_slot l <= n;
  col_small : n <= 31;
  col_parts : lfn_parts l = n - lfn_slot l;
  col_unicode : lfn_unicode l = Some uni;
  col_offsets : lfn_offsets l = Some offs;
  col_room : Z.of_nat (length uni) = n * 26 + 2;
  col_places : Z.of_nat (length offs) = n;
}.

Definition lfn_ok (l : lfn_state) : Prop := lfn_slot l = -1 \/ exists n uni offs, collecting n l uni offs.

Lemma cnv_parts_ok n l uni offs : collecting n l uni offs -> exists out, cnv_parts l = Ret out.
Proof.
  intros []. unfold cnv_parts. rewrite col_unicode0. cbn [deref]. run. unfold mem_read, CHARS_PER_LFN.
  rewrite bool_decide_eq_true_2 by lia. run. apply cnv_unicode_total. rewrite length_take, length_drop. lia.
Qed.

Lemma lfn_part_length de : length de = 32%nat -> length (lfn_part de) = 26%nat.
Proof. intros H. unfold lfn_part, read_at. rewrite !length_app, !length_take, !length_drop. lia. Qed.

Lemma add_offset_spec off l offs :
  lfn_offsets l = Some offs -> 0 <= lfn_parts l < Z.of_nat (length offs) ->
  exists offs', add_offset off l =
      Ret (LfnState (lfn_unicode l) (lfn_checksum l) (lfn_slot l) (Some offs') (lfn_parts l + 1)) /\
    length offs' = length offs.
Proof.
  intros Ho Hp. unfold add_offset. rewrite Ho. cbn [deref]. run. unfold mem_write.
  rewrite bool_decide_eq_true_2 by (cbn; lia). run. eexists. split; [reflexivity|].
  rewrite !length_app, length_take, length_drop. cbn [length]. lia.
Qed.

Definition is_start (de : list Z) : bool := bool_decide (Z.land (lfn_id de) LFN_ID_START <> 0).

(** A part goes to its place; the first one seen also writes the zero behind it. *)
Lemma store_part_spec n de off l uni offs k :
  collecting n l uni offs -> length de = 32%nat -> lfn_slot l = k + 1 -> 0 <= k ->
  (is_start de = true -> k + 1 = n) ->
  exists uni' offs' l', store_part de off l = Ret l' /\
    l' = LfnState (Some uni') (lfn_checksum l) k (Some offs') (lfn_parts l + 1) /\ collecting n l' uni' offs' /\
    drop (Z.to_nat (26 * k)) uni' =
      lfn_part de ++ (if is_start de then [0; 0] else drop (Z.to_nat (26 * (k + 1))) uni).
Proof.
  intros [] Hde Hk Hk0 Hlast. unfold store_part. rewrite bool_decide_eq_true_2 by lia.
  rewrite col_unicode0. cbn [deref]. run. rewrite Hk. unfold CHARS_PER_LFN, u32, wrap.
  replace (k + 1 - 1) with k by lia. rewrite (Z.mod_small (k * 13 * 2)) by lia.
  pose proof (lfn_part_length de Hde) as Hpart. rewrite mem_write_inside by (rewrite ?Hpart; lia).
  rewrite Hpart. run. set (uni1 := take _ uni ++ _).
  assert (Hlen1 : length uni1 = length uni).
  { unfold uni1. rewrite !length_app, length_take, length_drop, Hpart. lia. }
  assert (Hdrop1 : drop (Z.to_nat (26 * k)) uni1 = lfn_part de ++ drop (Z.to_nat (26 * (k + 1))) uni).
  { unfold uni1. rewrite drop_app_exact by (rewrite length_take; lia). do 2 f_equal. lia. }
  fold (is_start de). destruct (is_start de) eqn:Hs.
  - rewrite Z.mod_small by lia. rewrite mem_write_inside by (cbn; lia). run.
    set (uni2 := take _ uni1 ++ _). cbn [lfn_offsets].
    assert (Hlen2 : length uni2 = length uni).
    { unfold uni2. rewrite !length_app, length_take, length_drop. cbn [length]. lia. }
    destruct (add_offset_spec off (LfnState (Some uni2) (lfn_checksum l) k (lfn_offsets l) (lfn_parts l)) offs)
      as (offs' & -> & Hoffs); [done|cbn; lia|].
    eexists uni2, offs', _. split; [reflexivity|]. split; [done|].
    split; [split; cbn; try done; rewrite ?Hlen2, ?Hoffs; lia|].
    unfold uni2. rewrite (drop_ge uni1) by (cbn; lia). rewrite app_nil_r, drop_app_le by (rewrite length_take; lia).
    f_equal. rewrite skipn_firstn_comm, Hdrop1. rewrite take_app_exact; [done|rewrite Hpart; lia].
  - run. cbn [lfn_offsets].
    destruct (add_offset_spec off (LfnState (Some uni1) (lfn_checksum l) k (lfn_offsets l) (lfn_parts l)) offs)
      as (offs' & -> & Hoffs); [done|cbn; lia|].
    eexists uni1, offs', _. split; [reflexivity|]. split; [done|].
    split; [split; cbn; try done; rewrite ?Hlen1, ?Hoffs; lia|]. done.
Qed.

(** The part below the lowest one is written far outside. *)
Lemma store_part_overrun n de off l uni offs :
  collecting n l uni offs -> length de = 32%nat -> lfn_slot l = 0 -> store_part de off l = Fault OutOfBounds.
Proof.
  intros [] Hde H0. unfold store_part. rewrite bool_decide_eq_true_2 by lia.
  rewrite col_unicode0. cbn [deref]. run. rewrite H0.
  change (u32 ((0 - 1) * CHARS_PER_LFN * 2)) with 4294967270. by rewrite mem_write_fault by lia.
Qed.

Section Fresh.

Variable wi : bool.
Variable fresh : Z -> list Z.
Hypothesis fresh_length : forall n, 0 <= n -> Z.of_nat (length (fresh n)) = n.

Lemma start_collects de l :
  collecting (Z.land (lfn_id de) LFN_ID_SLOTMASK) (start_name fresh de l)
    (fresh ((Z.land (lfn_id de) LFN_ID_SLOTMASK * CHARS_PER_LFN + 1) * 2))
    (fresh (Z.land (lfn_id de) LFN_ID_SLOTMASK)).
Proof.
  assert (Hm : 0 <= Z.land (lfn_id de) LFN_ID_SLOTMASK <= 31).
  { change LFN_ID_SLOTMASK with (Z.ones 5). rewrite Z.land_ones by lia.
    pose proof (Z.mod_pos_bound (lfn_id de) (2 ^ 5) ltac:(lia)). lia. }
  set (m := Z.land _ _) in *. unfold CHARS_PER_LFN.
  split; cbn [start_name lfn_slot lfn_parts lfn_unicode lfn_offsets]; fold m; unfold CHARS_PER_LFN;
    rewrite ?fresh_length by lia; try done; lia.
Qed.

(** Fields that should be zero are written without questions. *)
Lemma fix_field_spec wrong pos zeros io :
  io_ok wi io -> change_ok (length (device io)) (Change pos zeros) ->
  exists io', fix_field false wi wrong pos zeros io = Ret io' /\ io_ok wi io' /\
    length (device io') = length (device io) /\ (wrong = false -> io' = io).
Proof.
  intros Hio Hc. unfold fix_field. destruct wrong; [|by exists io]. run.
  destruct (fs_write_spec wi pos zeros io Hio Hc) as (io' & -> & H1 & _ & H2 & _). by exists io'.
Qed.

(** Where the number of the next part is found, without questions. *)
Lemma slot_number_spec de off l io :
  lfn_ok l ->
  exists l', slot_number false wi fresh de off l io = Ret (Some de, l', io) /\
    (if is_start de then
       l' = start_name fresh de l
     else l' = l).
Proof.
  intros Hok. unfold slot_number. fold (is_start de). destruct (is_start de).
  - eexists. split; [|reflexivity]. case_bool_decide as Hs; [|done]. destruct Hok as [?|(n & uni & offs & C)]; [done|].
    unfold start_inside. destruct (cnv_parts_ok n l uni offs C) as [out ->].
    by destruct (_ && _).
  - exists l. split; [|done]. case_bool_decide as Hs; [done|]. destruct Hok as [?|(n & uni & offs & C)]; [done|].
    case_bool_decide; [|done]. unfold wrong_number. destruct (cnv_parts_ok n l uni offs C) as [out ->].
    by case_bool_decide.
Qed.

(** The rest of an entry, after its part is stored. *)
Lemma add_slot_around de off l l1 io :
  de_attr de = VFAT_LN_ATTR -> io_ok wi io -> 0 <= off -> off + 32 <= Z.of_nat (length (device io)) ->
  slot_number false wi fresh de off l io = Ret (Some de, l1, io) ->
  match store_part de off l1 with
  | Ret l' => exists io', lfn_add_slot false wi fresh de off l io = Ret (l', io') /\ io_ok wi io' /\
      length (device io') = length (device io) /\
      (lfn_reserved de = 0 -> lfn_start de = 0 -> io' = io)
  | Fault e => lfn_add_slot false wi fresh de off l io = Fault e
  end.
Proof.
  intros Ha Hio H0 Hoff Hnum. unfold lfn_add_slot. rewrite bool_decide_eq_true_2 by done. run.
  rewrite Hnum. run. unfold slot_checksum. rewrite andb_false_r. run.
  destruct (store_part de off l1) as [l'|e]; run; [|done].
  destruct (fix_field_spec (bool_decide (lfn_reserved de <> 0)) (off + 12) [0] io Hio)
    as (io1 & -> & Hio1 & Hl1 & Hs1); [unfold change_ok; cbn; lia|]. run.
  destruct (fix_field_spec (bool_decide (lfn_start de <> 0)) (off + 26) [0; 0] io1 Hio1)
    as (io2 & -> & Hio2 & Hl2 & Hs2); [unfold change_ok; cbn; lia|]. run.
  exists io2. split; [done|]. split; [done|]. split; [congruence|]. intros Hr Hst.
  by rewrite Hs2, Hs1 by (apply bool_decide_eq_false_2; intros Hn; by apply Hn).
Qed.

End Fresh.

(** ** A long name and its entries *)

(** The reference form of a name of 16-bit characters: [n] parts of 13 characters,
    a zero after the name and ones behind it. *)
Definition unit_bytes (u : Z) : list Z := [u mod 256; u / 256].

Definition padded (n : nat) (units : list Z) : list Z :=
  take (26 * n) (concat (map unit_bytes units) ++ [0; 0] ++ replicate (26 * n) 255).

Definition name_part (n : nat) (units : list Z) (k : nat) : list Z := take 26 (drop (26 * k) (padded n units)).

Definition name_entry (n : nat) (units : list Z) (sum : Z) (k : nat) : list Z :=
  let part := name_part n units k in
  [Z.of_nat k + 1 + (if decide (S k = n) then LFN_ID_START else 0)] ++ take 10 part ++
  [VFAT_LN_ATTR; 0; sum] ++ take 12 (drop 10 part) ++ [0; 0] ++ drop 22 part.

Definition parts_of (units : list Z) : nat := Z.to_nat ((Z.of_nat (length units) + 12) / 13).

(** The entries as they come in a directory, last part first. *)
Definition name_entries (units : list Z) (sum : Z) : list (list Z) :=
  map (name_entry (parts_of units) units sum) (rev (seq 0 (parts_of units))).

Fixpoint add_slots (interactive wi : bool) (fresh : Z -> list Z) (des : list (list Z * Z)) (l : lfn_state) (io : io_state)
  : outcome (lfn_state * io_state) :=
  match des with
  | [] => Ret (l, io)
  | (de, off) :: des => '(l, io) ← lfn_add_slot interactive wi fresh de off l io; add_slots interactive wi fresh des l io
  end.

(** The name as [lfn_get] gives it. *)
Definition unit_text (u : Z) : list Z := cnv_char (u mod 256) (u / 256).

(** The part that an entry brings has its place in the buffer. *)
Definition part_stored (de : list Z) (slot : Z) (l : lfn_state) : Prop :=
  lfn_slot l = slot - 1 /\
  exists uni, lfn_unicode l = Some uni /\ read_at (26 * (slot - 1)) 26 uni = lfn_part de.

Lemma stored_part n de off l uni offs k :
  collecting n l uni offs -> length de = 32%nat -> lfn_slot l = k + 1 -> 0 <= k -> (is_start de = true -> k + 1 = n) ->
  exists l', store_part de off l = Ret l' /\ lfn_ok l' /\ part_stored de (k + 1) l'.
Proof.
  intros C Hl Hk Hk0 Hlast.
  destruct (store_part_spec n de off l uni offs k C Hl Hk Hk0 Hlast) as (uni' & offs' & l' & Hst & -> & C' & Hd).
  eexists. split; [exact Hst|]. split; [right; by eexists _, _, _|]. split; cbn [lfn_slot lfn_unicode]; [lia|].
  exists uni'. split; [done|]. unfold read_at. replace (k + 1 - 1) with k by lia. rewrite Hd.
  apply take_app_length'. by rewrite lfn_part_length.
Qed.



(** *** Facts about the reference form *)

Lemma length_unit_bytes units : length (concat (map unit_bytes units)) = (2 * length units)%nat.
Proof. induction units as [|u units IH]; [done|]. cbn. rewrite IH. lia. Qed.

Lemma parts_of_bounds units :
  (0 < length units)%nat ->
  (2 * length units <= 26 * parts_of units)%nat /\ (1 <= parts_of units)%nat /\
  ((length units <= 403)%nat -> (parts_of units <= 31)%nat).
Proof.
  intros Hl. unfold parts_of.
  pose proof (Z.div_mod (Z.of_nat (length units) + 12) 13 ltac:(lia)).
  pose proof (Z.mod_pos_bound (Z.of_nat (length units) + 12) 13 ltac:(lia)). lia.
Qed.

Lemma padded_length n units : length (padded n units) = (26 * n)%nat.
Proof. unfold padded. rewrite length_take, !length_app, length_replicate. cbn [length]. lia. Qed.

Lemma padded_zero n units :
  (2 * length units <= 26 * n)%nat ->
  exists rest, padded n units ++ [0; 0] = concat (map unit_bytes units) ++ 0 :: 0 :: rest.
Proof.
  intros Hle. unfold padded. pose proof (length_unit_bytes units) as Hlen.
  rewrite take_app, (take_ge (concat _)), <- app_assoc by lia. rewrite Hlen.
  destruct (decide (26 * n = 2 * length units)%nat) as [->|].
  - rewrite Nat.sub_diag. by exists [].
  - replace (26 * n - 2 * length units)%nat with (S (S (26 * n - 2 * length units - 2))) by lia. cbn. by eexists.
Qed.

Lemma cnv_units units rest m :
  Forall (fun u => 0 < u < 65536) units -> Z.of_nat (length units) < m ->
  cnv_unicode (concat (map unit_bytes units) ++ 0 :: 0 :: rest) m = Ret (concat (map unit_text units)).
Proof.
  intros Hu. revert m. induction Hu as [|u units Hu Hus IH]; intros m Hm; cbn [map concat unit_bytes app cnv_unicode].
  - rewrite bool_decide_eq_true_2 by (cbn in Hm; lia). done.
  - cbn [length] in Hm. rewrite (bool_decide_eq_true_2 (0 < m)) by lia.
    assert (bool_decide (u mod 256 = 0) && bool_decide (u / 256 = 0) = false) as ->.
    { apply andb_false_iff. rewrite !bool_decide_eq_false. pose proof (Z.div_mod u 256). lia. }
    rewrite IH by lia. done.
Qed.

Lemma name_part_length n units k : (k < n)%nat -> length (name_part n units k) = 26%nat.
Proof. intros Hk. unfold name_part. rewrite length_take, length_drop, padded_length. lia. Qed.

(** The bits of a number with or without the start bit. *)
Lemma id_bits k :
  (k < 31)%nat ->
  Z.land (Z.of_nat k + 1 + 64) 31 = Z.of_nat k + 1 /\ Z.land (Z.of_nat k + 1 + 0) 31 = Z.of_nat k + 1 /\
  Z.land (Z.of_nat k + 1 + 64) 64 <> 0 /\ Z.land (Z.of_nat k + 1 + 0) 64 = 0.
Proof. do 31 (destruct k as [|k]; [done|]). lia. Qed.

Lemma field_one off de x : read_at off 1 de = [x] -> field off 1 de = x.
Proof. intros H. unfold field. rewrite H. cbn. by rewrite Z.lor_0_r. Qed.

Lemma name_entry_facts n units sum k :
  (k < n <= 31)%nat ->
  let de := name_entry n units sum k in
  length de = 32%nat /\ lfn_part de = name_part n units k /\ de_attr de = VFAT_LN_ATTR /\
  lfn_reserved de = 0 /\ lfn_start de = 0 /\ lfn_alias_checksum de = sum /\
  Z.land (lfn_id de) LFN_ID_SLOTMASK = Z.of_nat k + 1 /\ is_start de = bool_decide (S k = n).
Proof.
  intros Hk. pose proof (name_part_length n units k ltac:(lia)) as Hl. unfold name_entry.
  set (id := Z.of_nat k + 1 + _). destruct (id_bits k ltac:(lia)) as (H1 & H2 & H3 & H4).
  assert (Hid : Z.land id 31 = Z.of_nat k + 1 /\ bool_decide (Z.land id 64 <> 0) = bool_decide (S k = n)).
  { unfold id. destruct (decide (S k = n)) as [Hn|Hn].
    - rewrite !bool_decide_eq_true_2 by done. done.
    - rewrite !(bool_decide_eq_false_2 _) by (done || lia). done. }
  clearbody id. destruct (name_part n units k) as [|b0 part]; [done|].
  do 25 (destruct part as [|? part]; [done|]). destruct part; [|done]. cbn [app take drop].
  split; [done|]. split; [done|]. split; [by apply field_one|]. split; [by apply field_one|]. split; [done|].
  split; [by apply field_one|]. unfold is_start, lfn_id. rewrite (field_one 0 _ id) by done. done.
Qed.

Lemma name_part_rest n units k :
  drop (26 * k) (padded n units) = name_part n units k ++ drop (26 * S k) (padded n units).
Proof.
  unfold name_part. rewrite <- (take_drop 26 (drop (26 * k) (padded n units))) at 1. f_equal.
  rewrite drop_drop. f_equal. lia.
Qed.

(** The places of entries on the device. *)
Definition entry_places (io : io_state) (offs : list Z) : Prop :=
  Forall (fun off => 0 <= off /\ off + 32 <= Z.of_nat (length (device io))) offs.

(** The parts below the first entry are collected. *)
Lemma collect_rest wi fresh n units sum k offs l io uni places :
  (k < n <= 31)%nat -> length offs = k -> entry_places io offs -> io_ok wi io ->
  collecting (Z.of_nat n) l uni places -> lfn_slot l = Z.of_nat k -> lfn_checksum l = sum ->
  drop (26 * k) uni = drop (26 * k) (padded n units) ++ [0; 0] ->
  exists l' places', add_slots false wi fresh (zip (map (name_entry n units sum) (rev (seq 0 k))) offs) l io = Ret (l', io) /\
    collecting (Z.of_nat n) l' (padded n units ++ [0; 0]) places' /\ lfn_slot l' = 0 /\ lfn_checksum l' = sum.
Proof.
  revert offs l uni places. induction k as [|k IH]; intros offs l uni places Hk Hl Hp Hio C Hs Hc Hd.
  { cbn. rewrite !drop_0 in Hd. subst uni. exists l, places. split; [done|]. split; [done|]. done. }
  destruct offs as [|off offs]; [done|]. rewrite seq_S, rev_app_distr. cbn [rev app map zip_with add_slots].
  apply Forall_cons in Hp as [[H0 Hoff] Hp]. change (0 + k)%nat with k.
  destruct (name_entry_facts n units sum k ltac:(lia)) as (Hlen & Hpart & Ha & Hr & Hst & Hsum & Hid & Hstart).
  set (de := name_entry n units sum k) in *.
  destruct (slot_number_spec wi fresh de off l io) as (l1 & Hnum & Hl1); [right; by eexists _, _, _|].
  rewrite Hstart, bool_decide_eq_false_2 in Hl1 by lia. subst l1.
  pose proof (add_slot_around wi fresh de off l l io Ha Hio H0 Hoff Hnum) as Haround.
  destruct (store_part_spec (Z.of_nat n) de off l uni places (Z.of_nat k) C Hlen) as (uni' & places' & l' & Hrun & Hl' & C' & Hd');
    [lia|lia|rewrite Hstart, bool_decide_eq_true; lia|].
  rewrite Hrun in Haround. destruct Haround as (io' & -> & _ & _ & Hsame). rewrite (Hsame Hr Hst). run.
  apply (IH offs l' uni' places'); try done; try (subst l'; done); [lia|by injection Hl|].
  rewrite Hstart, bool_decide_eq_false_2, Hpart in Hd' by lia.
  replace (Z.to_nat (26 * Z.of_nat k)) with (26 * k)%nat in Hd' by lia.
  replace (Z.to_nat (26 * (Z.of_nat k + 1))) with (26 * S k)%nat in Hd' by lia.
  by rewrite Hd', Hd, (name_part_rest n units k), <- app_assoc.
Qed.

Lemma name_collected wi fresh units sum offs l io :
  (forall n, 0 <= n -> Z.of_nat (length (fresh n)) = n) -> lfn_slot l = -1 ->
  (0 < length units <= 403)%nat -> length offs = parts_of units -> entry_places io offs -> io_ok wi io ->
  exists l' places, add_slots false wi fresh (zip (name_entries units sum) offs) l io = Ret (l', io) /\
    collecting (Z.of_nat (parts_of units)) l' (padded (parts_of units) units ++ [0; 0]) places /\
    lfn_slot l' = 0 /\ lfn_checksum l' = sum.
Proof.
  intros Hfresh Hs Hu Hl Hp Hio. destruct (parts_of_bounds units) as (_ & Hn1 & Hn31); [lia|]. unfold name_entries.
  specialize (Hn31 ltac:(lia)). set (n := parts_of units) in *. destruct n as [|k] eqn:Hn; [lia|].
  destruct offs as [|off offs]; [done|]. rewrite seq_S, rev_app_distr. cbn [rev app map zip_with add_slots].
  apply Forall_cons in Hp as [[H0 Hoff] Hp]. change (0 + k)%nat with k.
  destruct (name_entry_facts (S k) units sum k ltac:(lia)) as (Hlen & Hpart & Ha & Hr & Hst & Hsum & Hid & Hstart).
  set (de := name_entry (S k) units sum k) in *.
  destruct (slot_number_spec wi fresh de off l io) as (l1 & Hnum & Hl1); [by left|].
  rewrite Hstart, bool_decide_eq_true_2 in Hl1 by done.
  pose proof (add_slot_around wi fresh de off l l1 io Ha Hio H0 Hoff Hnum) as Haround.
  pose proof (start_collects fresh Hfresh de l) as C. rewrite <- Hl1 in C.
  replace (Z.land (lfn_id de) LFN_ID_SLOTMASK) with (Z.of_nat (S k)) in C by lia.
  destruct (store_part_spec _ de off l1 _ _ (Z.of_nat k) C Hlen) as (uni' & places' & l' & Hrun & Hl' & C' & Hd');
    [subst l1; cbn [start_name lfn_slot]; lia|lia|lia|].
  rewrite Hrun in Haround. destruct Haround as (io' & -> & _ & _ & Hsame). rewrite (Hsame Hr Hst). run.
  apply (collect_rest wi fresh (S k) units sum k offs l' io uni' places'); try done.
  - lia.
  - by injection Hl.
  - by subst l'.
  - subst l'. cbn [lfn_checksum]. by subst l1.
  - rewrite Hstart, bool_decide_eq_true_2, Hpart in Hd' by done.
    replace (Z.to_nat (26 * Z.of_nat k)) with (26 * k)%nat in Hd' by lia.
    rewrite Hd', (name_part_rest (S k) units k), (drop_ge (padded (S k) units)) by (rewrite padded_length; lia).
    by rewrite app_nil_r.
Qed.

(** C12: the entries of a long name of up to 403 characters, followed by an entry
    whose short name has their checksum, give the name back, with characters
    outside of Latin-1 in the escape notation; without questions, without a change
    on the disk, and with the parser ready for the next name. *)
Theorem lfn_round_trip wi fresh units sum offs de l io :
  (forall n, 0 <= n -> Z.of_nat (length (fresh n)) = n) -> lfn_slot l = -1 ->
  Forall (fun u => 0 < u < 65536) units -> (0 < length units <= 403)%nat ->
  length offs = parts_of units -> entry_places io offs -> io_ok wi io ->
  de_attr de <> VFAT_LN_ATTR -> alias_sum (de_name de) = sum ->
  exists l' l'', add_slots false wi fresh (zip (name_entries units sum) offs) l io = Ret (l', io) /\
    lfn_get false wi de l' io = Ret (Some (concat (map unit_text units)), l'', io) /\ lfn_slot l'' = -1.
Proof.
  intros Hfresh Hs Hu Hlen Hl Hp Hio Ha Hsum.
  destruct (name_collected wi fresh units sum offs l io) as (l' & places & Hrun & C & Hs' & Hc'); try done.
  exists l'. eexists. split; [done|]. unfold lfn_get. rewrite (bool_decide_eq_true_2 (de_attr de <> VFAT_LN_ATTR)) by done. run.
  rewrite (bool_decide_eq_false_2 (lfn_slot l' = -1)), (bool_decide_eq_false_2 (lfn_slot l' <> 0)) by lia. run.
  rewrite Hc', Hsum, (bool_decide_eq_false_2 (sum <> sum)) by (intros H; by apply H). run.
  rewrite (col_unicode _ _ _ _ C). cbn [deref]. run.
  destruct (parts_of_bounds units) as (Hroom & _); [lia|].
  destruct (padded_zero (parts_of units) units Hroom) as (rest & ->).
  rewrite cnv_units by (done || (unfold UNTIL_0; lia)). run. done.
Qed.

(** Fifteen characters, one of them beyond Latin-1. *)
Lemma lfn_round_trip_witness :
  let units := [76; 111; 110; 103; 32; 110; 97; 109; 101; 46; 8364; 46; 116; 120; 116] in
  let de := str_bytes "LONGNA~1TXT" ++ replicate 21 0 in
  let fresh n := replicate (Z.to_nat n) 170 in
  exists l' l'', add_slots false false fresh (zip (name_entries units (alias_sum (de_name de))) [0; 32]) lfn_init
      (IoState (replicate 96 0) [] false []) = Ret (l', IoState (replicate 96 0) [] false []) /\
    lfn_get false false de l' (IoState (replicate 96 0) [] false []) =
      Ret (Some (str_bytes "Long name.:22i.txt"), l'', IoState (replicate 96 0) [] false []) /\ lfn_slot l'' = -1.
Proof.
  intros units de fresh.
  destruct (lfn_round_trip false fresh units (alias_sum (de_name de)) [0; 32] de lfn_init
    (IoState (replicate 96 0) [] false [])) as (l' & l'' & H1 & H2 & H3); try done.
  - intros n Hn. unfold fresh. rewrite length_replicate. lia.
  - by apply (bool_decide_unpack _).
  - cbn. lia.
  - by apply (bool_decide_unpack _).
  - exists l', l''. split; [exact H1|]. split; [rewrite H2; by vm_compute|exact H3].
Defined.
