(* ===== verification/DosScan.v ===== *)
(** * The walk over the directories, and dosfsck as a whole

    The rest of [C/dosfstools-2.11/dosfsck/check.c]: the check of a directory, the
    walk that collects the files, and from [dosfsck.c] the order of the passes. *)

From S2P Require Import Prelude DosIo DosFat DosBoot DosCheck DosName DosLfn.

(** The state of the checker, of the parser of long names, and the names that are
    to be dropped or undeleted. *)
Record scan_state := ScanState {
  s_check : check_state;
  s_lfn : lfn_state;
  fp_root : list FDSC;
}.

Definition set_check k (t : scan_state) : scan_state := ScanState k (s_lfn t) (fp_root t).
Definition set_lfn l (t : scan_state) : scan_state := ScanState (s_check t) l (fp_root t).
Definition set_fp f (t : scan_state) : scan_state := ScanState (s_check t) (s_lfn t) f.

Definition set_root r (s : check_state) : check_state := CheckState (k_dos s) (files s) r (n_files s) (curr_num s).

Definition io_of (s : check_state) : io_state := d_io (k_dos s).
Definition set_io io (s : check_state) : check_state := set_dos (Dos io (k_fs s)) s.

Definition set_next n (f : DOS_FILE) : DOS_FILE := DosFile (dir_ent f) (offset f) (parent f) n (first f).
Definition set_first n (f : DOS_FILE) : DOS_FILE := DosFile (dir_ent f) (offset f) (parent f) (next f) n.

(** A pointer to a pointer to a file: the head of a directory's list, or the link
    behind a file. *)
Inductive link := Head (dir : option nat) | Behind (p : nat).

Definition get_link (l : link) (s : check_state) : outcome (option nat) :=
  match l with
  | Head None => Ret (root s)
  | Head (Some q) => f ← get_file q s; Ret (first f)
  | Behind p => f ← get_file p s; Ret (next f)
  end.

Definition set_link (l : link) (v : option nat) (s : check_state) : outcome check_state :=
  match l with
  | Head None => Ret (set_root v s)
  | Head (Some q) => f ← get_file q s; Ret (put_file q (set_first v f) s)
  | Behind p => f ← get_file p s; Ret (put_file p (set_next v f) s)
  end.

Definition is_volume (f : DOS_FILE) : bool := bool_decide (Z.land (de_attr (dir_ent f)) ATTR_VOLUME <> 0).
Definition is_dot (f : DOS_FILE) : bool := same_name 11 (de_name (dir_ent f)) MSDOS_DOT.
Definition is_dotdot (f : DOS_FILE) : bool := same_name 11 (de_name (dir_ent f)) MSDOS_DOTDOT.

Section Scan.

Variables interactive write_immed atari_format : bool.
Variable bad_read : Z -> Z -> bool.
Variable long_size : Z.
Variable fresh : Z -> list Z.

(** What the stack holds where a root entry of FAT32 is made up. *)
Variable stale : list Z.

Local Abbreviation drop_file := (drop_file write_immed atari_format long_size).
Local Abbreviation auto_rename := (auto_rename write_immed).
Local Abbreviation MODIFY := (MODIFY write_immed).
Local Abbreviation put_size := (put_size write_immed).
Local Abbreviation truncate_file := (truncate_file write_immed atari_format long_size).
Local Abbreviation FSTART := (FSTART long_size).
Local Abbreviation write_io := (write_io write_immed).
Local Abbreviation bad_name := (bad_name interactive atari_format).

Definition ask (valid : string) (s : check_state) : outcome (Z * check_state) :=
  '(k, io) ← get_key valid (io_of s); Ret (k, set_io io s).

(** ** Names from the user *)

(** [fgets] into 45 bytes: up to 44 characters, or to the end of the line; [None] at
    the end of the input. *)
Fixpoint fgets (n : nat) (s : list Z) : list Z * list Z :=
  match n, s with
  | O, _ | _, [] => ([], s)
  | S n, c :: s => if bool_decide (c = 10) then ([c], s) else let '(l, s) := fgets n s in (c :: l, s)
  end.

(** A C string in the buffer, up to its line end. *)
Fixpoint until_end (s : list Z) : list Z :=
  match s with
  | [] => []
  | c :: s => if bool_decide (c = 0 \/ c = 10) then [] else c :: until_end s
  end.

(** The loop over blanks at the end starts at the zero and removes none. *)
(* @src C/dosfstools-2.11/dosfsck/check.c:338-352 rename_file *)
Fixpoint rename_input (fuel : nat) (p : nat) (s : check_state) : outcome check_state :=
  match fuel with
  | O => Fault OutOfFuel
  | S fuel =>
      match fgets 44 (stdin (io_of s)) with
      | ([], _) => rename_input fuel p s
      | (line, rest) =>
          let s := set_io (set_stdin rest (io_of s)) s in
          match file_cvt (skip_blanks (until_end line)) with
          | Some name =>
              f ← get_file p s;
              write_io (offset f) name (put_file p (set_dir_ent (write_at 0 name (dir_ent f)) f) s)
          | None => rename_input fuel p s
          end
      end
  end.

(* @src C/dosfstools-2.11/dosfsck/check.c:329-353 rename_file *)
Definition rename_file (p : nat) (s : check_state) : outcome check_state :=
  f ← get_file p s;
  if bool_decide (offset f = 0) then Ret s else rename_input (S (length (stdin (io_of s)))) p s.

(** ** One directory *)

(** Whether the entry was dropped. *)
(* @src C/dosfstools-2.11/dosfsck/check.c:356-390 handle_dot *)
Definition handle_dot (p : nat) (dots : bool) (s : check_state) : outcome (bool * check_state) :=
  f ← get_file p s;
  let drop_in_root s := if dots then Ret (false, s) else s ← drop_file p s; Ret (true, s) in
  if negb (is_dir (dir_ent f)) then
    '(k, s) ← (if interactive then ask "1234" s else Ret (50, s));
    if bool_decide (k = 49) then s ← drop_file p s; Ret (true, s)
    else if bool_decide (k = 50) then s ← auto_rename p s; Ret (false, s)
    else if bool_decide (k = 51) then s ← rename_file p s; Ret (false, s)
    else
      s ← put_size p 0 s;
      f ← get_file p s;
      s ← MODIFY p 11 [Z.lor (de_attr (dir_ent f)) ATTR_DIR] s;
      drop_in_root s
  else drop_in_root s.

(** How many names of a list are bad, and how many good. *)
(* @src C/dosfstools-2.11/dosfsck/check.c:552-554 check_dir *)
Fixpoint count_names (fuel : nat) (walk : option nat) (bad good : Z) (s : check_state) : outcome (Z * Z) :=
  match walk with
  | None => Ret (bad, good)
  | Some p =>
      match fuel with
      | O => Fault OutOfFuel
      | S fuel =>
          f ← get_file p s;
          if bad_name (de_name (dir_ent f)) then count_names fuel (next f) (bad + 1) good s
          else count_names fuel (next f) bad (good + 1) s
      end
  end.

(** Entries behind [p] with the same name: whether [p] itself was dropped, and
    whether the directory is to be checked again. *)
(* @src C/dosfstools-2.11/dosfsck/check.c:606-652 check_dir *)
Fixpoint scan_same (fuel : nat) (walk : link) (p : nat) (scan : link) (redo : bool) (s : check_state)
  : outcome (bool * bool * check_state) :=
  match fuel with
  | O => Fault OutOfFuel
  | S fuel =>
      o ← get_link scan s;
      match o with
      | None => Ret (false, redo, s)
      | Some q =>
          f ← get_file p s;
          g ← get_file q s;
          if negb (is_volume g) && same_name 11 (de_name (dir_ent f)) (de_name (dir_ent g)) then
            '(k, s) ← (if interactive then ask "123456" s else Ret (54, s));
            if bool_decide (k = 49) then
              s ← drop_file p s;
              f ← get_file p s;
              s ← set_link walk (next f) s;
              Ret (true, redo, s)
            else if bool_decide (k = 50) then
              s ← drop_file q s;
              g ← get_file q s;
              s ← set_link scan (next g) s;
              scan_same fuel walk p scan redo s
            else if bool_decide (k = 51) then
              s ← rename_file p s; scan_same fuel walk p (Behind q) true s
            else if bool_decide (k = 52) then
              s ← rename_file q s; scan_same fuel walk p (Behind q) true s
            else if bool_decide (k = 53) then
              s ← auto_rename p s; scan_same fuel walk p (Behind q) redo s
            else s ← auto_rename q s; scan_same fuel walk p (Behind q) redo s
          else scan_same fuel walk p (Behind q) redo s
      end
  end.

(** What to do about a bad name: whether the entry was dropped, and whether the
    directory is to be checked again. *)
(* @src C/dosfstools-2.11/dosfsck/check.c:578-603 check_dir *)
Definition check_name (p : nat) (redo : bool) (s : check_state) : outcome (bool * bool * check_state) :=
  f ← get_file p s;
  if negb (is_volume f) && bad_name (de_name (dir_ent f)) then
    '(k, s) ← (if interactive then ask "1234" s else Ret (51, s));
    if bool_decide (k = 49) then s ← drop_file p s; Ret (true, redo, s)
    else if bool_decide (k = 50) then s ← rename_file p s; Ret (false, true, s)
    else if bool_decide (k = 51) then s ← auto_rename p s; Ret (false, redo, s)
    else Ret (false, redo, s)
  else Ret (false, redo, s).

(* @src C/dosfstools-2.11/dosfsck/check.c:567-660 check_dir *)
Fixpoint check_entries (fuel : nat) (head walk : link) (redo dots : bool) (s : check_state) : outcome check_state :=
  match fuel with
  | O => Fault OutOfFuel
  | S fuel =>
      o ← get_link walk s;
      match o with
      | None => Ret s
      | Some p =>
          f ← get_file p s;
          '(gone, s) ← (if is_dot f || is_dotdot f then handle_dot p dots s else Ret (false, s));
          if (gone : bool) then
            f ← get_file p s; s ← set_link walk (next f) s; check_entries fuel head walk redo dots s
          else
            '(dropped, redo, s) ← check_name p redo s;
            if (dropped : bool) then check_entries fuel head (Behind p) redo dots s
            else
              f ← get_file p s;
              '(skip, redo, s) ← (if is_volume f then Ret (false, redo, s)
                                  else scan_same (S (size (files s))) walk p (Behind p) redo s);
              if (skip : bool) then check_entries fuel head walk redo dots s
              else if (redo : bool) then check_entries fuel head head false dots s
              else check_entries fuel head (Behind p) false dots s
      end
  end.

(** Every entry is looked at once, and again after each new name from the
    user. *)
Definition dir_fuel (s : check_state) : nat :=
  (S (size (files s)) * S (S (length (stdin (io_of s)))))%nat.

(** Whether the directory was dropped. *)
(* @src C/dosfstools-2.11/dosfsck/check.c:543-668 check_dir *)
Definition check_dir (head : link) (dots : bool) (s : check_state) : outcome (bool * check_state) :=
  o ← get_link head s;
  match o with
  | None => Ret (false, s)
  | Some p =>
      f ← get_file p s;
      '(bad, good) ← count_names (S (size (files s))) (Some p) 0 0 s;
      '(gone, s) ←
        (match parent f with
         | Some q =>
             if bool_decide (good + bad > 4) && bool_decide (bad > good `quot` 2) && dots && interactive then
               '(k, s) ← ask "yn" s;
               if bool_decide (k = 121) then
                 s ← truncate_file q 0 s;
                 s ← MODIFY q 0 [DELETED_FLAG] s;
                 Ret (true, s)
               else Ret (false, s)
             else Ret (false, s)
         | None => Ret (false, s)
         end);
      if (gone : bool) then Ret (true, s)
      else s ← check_entries (dir_fuel s) head head false dots s; Ret (false, s)
  end.

(** ** Collecting the files *)

(** A root directory of FAT32 has no entry: one is made up. *)
(* @src C/dosfstools-2.11/dosfsck/check.c:753-759 add_file *)
Definition root_entry (fs : DOS_FS) : list Z :=
  let de := write_at 0 (replicate 11 32 ++ [ATTR_DIR]) stale in
  let de := write_at 22 (replicate 4 0) (write_at 28 (replicate 4 0) de) in
  let de := write_at 26 (Z_to_little_endian 2 8 (Z.land (root_cluster fs) 0xffff)) de in
  write_at 20 (Z_to_little_endian 2 8 (Z.land (Z.shiftr (root_cluster fs) 16) 0xffff)) de.

Definition with_lfn {A} (op : lfn_state -> io_state -> outcome (A * lfn_state * io_state)) (t : scan_state)
  : outcome (A * scan_state) :=
  '(a, l, io) ← op (s_lfn t) (io_of (s_check t));
  Ret (a, set_lfn l (set_check (set_io io (s_check t)) t)).

Definition on_lfn (op : lfn_state -> io_state -> outcome (lfn_state * io_state)) (t : scan_state) : outcome scan_state :=
  '(_, t) ← with_lfn (fun l io => '(l, io) ← op l io; Ret (tt, l, io)) t; Ret t.

Definition on_check (op : check_state -> outcome check_state) (t : scan_state) : outcome scan_state :=
  s ← op (s_check t); Ret (set_check s t).

(** A name that the user asked to drop or to undelete. *)
(* @src C/dosfstools-2.11/dosfsck/check.c:760-765 add_file *)
Definition apply_request (cp : option (list nat)) (off : Z) (type : FD_TYPE) (de : list Z) (t : scan_state)
  : outcome (list Z * scan_state) :=
  if bool_decide (type = fdt_none) then Ret (de, t)
  else
    _ ← require (negb (bool_decide (type = fdt_undelete) && is_dir de)) Died;
    '(name, fp) ← file_modify (fp_root t) cp (de_name de);
    let de := write_at 0 name de in
    t ← on_check (write_io off (read_at 0 1 de)) t;
    Ret (de, set_fp fp t).

(** The new file at the end of the list, and where the next one goes. *)
(* @src C/dosfstools-2.11/dosfsck/check.c:774-793 add_file *)
Definition link_file (chain : link) (dir : option nat) (off : Z) (type : FD_TYPE) (read_test : bool) (de : list Z)
    (s : check_state) : outcome (link * check_state) :=
  let new := size (files s) in
  let f := DosFile de off dir None None in
  s ← (let s := put_file new f s in
       if bool_decide (type = fdt_undelete) then undelete write_immed atari_format long_size new s else Ret s);
  s ← set_link chain (Some new) s;
  let s := if bool_decide (off <> 0) && negb (is_dot f) && negb (is_dotdot f)
           then set_n_files (u32 (n_files s + 1)) s else s in
  s ← test_file write_immed atari_format bad_read long_size new read_test s;
  Ret (Behind new, s).

(** An entry of a directory: where the next file is linked. *)
(* @src C/dosfstools-2.11/dosfsck/check.c:744-794 add_file *)
Definition add_file (read_test : bool) (chain : link) (dir : option nat) (off : Z) (cp : option (list nat))
    (t : scan_state) : outcome (link * scan_state) :=
  de ← (if bool_decide (off <> 0) then fs_read bad_read off 32 (io_of (s_check t))
        else Ret (root_entry (k_fs (s_check t))));
  let type := file_type (fp_root t) cp (de_name de) in
  '(de, t) ← apply_request cp off type de t;
  if IS_FREE (de_name de) then
    t ← on_lfn (lfn_check_orphaned interactive write_immed) t; Ret (chain, t)
  else if bool_decide (de_attr de = VFAT_LN_ATTR) then
    t ← on_lfn (lfn_add_slot interactive write_immed fresh de off) t; Ret (chain, t)
  else
    '(_, t) ← with_lfn (lfn_get interactive write_immed de) t;
    '(chain, s) ← link_file chain dir off type read_test de (s_check t);
    Ret (chain, set_check s t).

(** The entries of a directory in clusters; the count of bytes is an [int]. *)
(* @src C/dosfstools-2.11/dosfsck/check.c:809-816 scan_dir *)
Fixpoint read_entries (fuel : nat) (read_test : bool) (chain : link) (this : nat) (cp : option (list nat))
    (clu_num i : Z) (t : scan_state) : outcome scan_state :=
  match fuel with
  | O => Fault OutOfFuel
  | S fuel =>
      if on_chain clu_num then
        let fs := k_fs (s_check t) in
        '(chain, t) ← add_file read_test chain (Some this) (cluster_start fs clu_num + i mod cluster_size fs) cp t;
        let i := u32 (i + 32) in
        let fs := k_fs (s_check t) in
        if bool_decide (i mod cluster_size fs = 0) then
          clu_num ← DosFat.next_cluster atari_format fs clu_num;
          if bool_decide (clu_num = 0) || bool_decide (clu_num = -1) then Ret t
          else read_entries fuel read_test chain this cp clu_num i t
        else read_entries fuel read_test chain this cp clu_num i t
      else Ret t
  end.

(** The directories of a list. *)
(* @src C/dosfstools-2.11/dosfsck/check.c:829-833 subdirs *)
Fixpoint subdirs (fuel : nat) (scan : nat -> option (list nat) -> scan_state -> outcome (bool * scan_state))
    (walk : option nat) (cp : option (list nat)) (t : scan_state) : outcome (bool * scan_state) :=
  match walk with
  | None => Ret (false, t)
  | Some p =>
      match fuel with
      | O => Fault OutOfFuel
      | S fuel =>
          f ← get_file p (s_check t);
          '(again, t) ←
            (if is_dir (dir_ent f) && negb (is_dot f) && negb (is_dotdot f)
             then scan p (file_cd (fp_root t) cp (de_name (dir_ent f))) t
             else Ret (false, t));
          if (again : bool) then Ret (true, t)
          else f ← get_file p (s_check t); subdirs fuel scan (next f) cp t
      end
  end.

(** After the entries of a directory: its check, that of its files, and its
    directories. *)
Definition check_list (head : link) (dots : bool) (scan : nat -> option (list nat) -> scan_state -> outcome (bool * scan_state))
    (cp : option (list nat)) (stop_if_gone : bool) (t : scan_state) : outcome (bool * scan_state) :=
  t ← on_lfn (lfn_check_orphaned interactive write_immed) t;
  '(gone, s) ← check_dir head dots (s_check t);
  if gone && stop_if_gone then Ret (false, set_check s t)
  else
    start ← get_link head s;
    '(again, s) ← check_files interactive write_immed atari_format long_size (S (size (files s))) start s;
    let t := set_check s t in
    if (again : bool) then Ret (true, t)
    else start ← get_link head s; subdirs (S (size (files s))) scan start cp t.

(** Whether the scan is to be restarted. [fuel] bounds the depth of directories. *)
(* @src C/dosfstools-2.11/dosfsck/check.c:800-822 scan_dir *)
Fixpoint scan_dir (fuel : nat) (read_test : bool) (this : nat) (cp : option (list nat)) (t : scan_state)
  : outcome (bool * scan_state) :=
  match fuel with
  | O => Fault OutOfFuel
  | S fuel =>
      f ← get_file this (s_check t);
      let t := set_lfn (lfn_reset (s_lfn t)) t in
      t ← read_entries (entry_fuel (s_check t)) read_test (Head (Some this)) this cp
            (FSTART f (k_fs (s_check t))) 0 t;
      f ← get_file this (s_check t);
      check_list (Head (Some this)) (bool_decide (s32 (offset f) <> 0)) (scan_dir fuel read_test) cp true t
  end.

(** The entries of a root directory outside of the clusters. *)
(* @src C/dosfstools-2.11/dosfsck/check.c:849-850 scan_root *)
Fixpoint read_root (entries : list Z) (read_test : bool) (chain : link) (t : scan_state) : outcome scan_state :=
  match entries with
  | [] => Ret t
  | i :: entries =>
      '(chain, t) ← add_file read_test chain None (root_start (k_fs (s_check t)) + i * 32) (Some []) t;
      read_root entries read_test chain t
  end.

(* @src C/dosfstools-2.11/dosfsck/check.c:838-857 scan_root *)
Definition scan_root (fuel : nat) (read_test : bool) (t : scan_state) : outcome (bool * scan_state) :=
  let t := set_lfn (lfn_reset (s_lfn t)) (set_check (set_root None (s_check t)) t) in
  let fs := k_fs (s_check t) in
  t ← (if bool_decide (root_cluster fs <> 0)
       then '(_, t) ← add_file read_test (Head None) None 0 (Some []) t; Ret t
       else read_root (seqZ 0 (root_entries fs)) read_test (Head None) t);
  check_list (Head None) false (scan_dir fuel read_test) (Some []) false t.

(** ** The program *)

(** The options of the command line. *)
(* @src C/dosfstools-2.11/dosfsck/dosfsck.c:85-91 main *)
Record options := Options {
  rw : bool;
  salvage_files : bool;
  verify : bool;
  test : bool;
}.

Variable opts : options.
Variable device_no : Z.
Variable junk : FAT_ENTRY.

Definition on_table (op : dos -> outcome dos) (t : scan_state) : outcome scan_state := on_check (on_dos op) t.

Local Abbreviation read_fat := (DosFat.read_fat interactive write_immed atari_format bad_read long_size junk).
Local Abbreviation reclaim_free := (DosFat.reclaim_free write_immed atari_format long_size).

(** [qfree]: the files are forgotten. *)
Definition free_files (s : check_state) : check_state := CheckState (k_dos s) ∅ None (n_files s) (curr_num s).

(** The table is read and the files are checked, until nothing asks for another
    round. *)
(* @src C/dosfstools-2.11/dosfsck/dosfsck.c:150-150 main *)
Fixpoint scan_loop (fuel depth : nat) (t : scan_state) : outcome scan_state :=
  match fuel with
  | O => Fault OutOfFuel
  | S fuel =>
      t ← on_table read_fat t;
      '(again, t) ← scan_root depth (test opts) t;
      if (again : bool) then scan_loop fuel depth (set_check (free_files (s_check t)) t) else Ret t
  end.

(** From the table to the count of free clusters. *)
(* @src C/dosfstools-2.11/dosfsck/dosfsck.c:150-163 main *)
Definition check_pass (fuel depth : nat) (t : scan_state) : outcome (Z * scan_state) :=
  t ← scan_loop fuel depth t;
  t ← (if test opts then on_table (DosFat.fix_bad write_immed atari_format bad_read long_size) t else Ret t);
  t ← (if salvage_files opts
       then on_check (reclaim_file write_immed atari_format bad_read long_size) t
       else on_table reclaim_free t);
  '(free, d) ← DosFat.update_free interactive write_immed atari_format long_size (k_dos (s_check t));
  let t := set_check (free_files (set_dos d (s_check t))) t in
  t ← (if verify opts then
         t ← on_table read_fat t;
         '(_, t) ← scan_root depth (test opts) t;
         t ← on_table reclaim_free t;
         Ret (set_check (free_files (s_check t)) t)
       else Ret t);
  Ret (free, t).

(** Whether anything was changed, and the device afterwards. *)
(* @src C/dosfstools-2.11/dosfsck/dosfsck.c:83-179 main *)
Definition dosfsck (fuel depth : nat) (requests : list (list Z * FD_TYPE)) (fs : DOS_FS) (dev input : list Z)
  : outcome (bool * list Z) :=
  fp ← foldl (fun fp r => fp ← fp; file_add (fst r) (snd r) fp) (Ret []) requests;
  d ← DosBoot.read_boot interactive write_immed atari_format bad_read long_size device_no stale
        (Dos (fs_open dev input) fs);
  '(_, t) ← check_pass fuel depth (ScanState (CheckState d ∅ None 0 0) lfn_init fp);
  let io := io_of (s_check t) in
  '(w, io) ← (if fs_changed io && rw opts && interactive
              then '(k, io) ← get_key "yn" io; Ret (bool_decide (k = 121), io)
              else Ret (rw opts, io));
  Ret (fs_close w io).

End Scan.
