(* ===== verification/Mkdosfs.v ===== *)
(** * Creating a file system

    [C/dosfstools-2.11/mkdosfs/mkdosfs.c]: the parameters of a device, the size of
    the tables, their contents and the marking of bad blocks. *)

From S2P Require Import Prelude DosIo.

(** ** Constants *)

Definition BLOCK_SIZE : Z := 1024.
Definition HARD_SECTOR_SIZE : Z := 512.
Definition SECTORS_PER_BLOCK : Z := 2.
Definition TEST_BUFFER_BLOCKS : Z := 16.

Definition FAT_BAD : Z := 0x0ffffff7.
Definition BOOT_SIGN : Z := 0xaa55.
Definition MSDOS_EXT_SIGN : Z := 0x29.

Definition MAX_CLUST_12 : Z := 2 ^ 12 - 16.
Definition MAX_CLUST_16 : Z := 2 ^ 16 - 16.
Definition MIN_CLUST_32 : Z := 65529.
Definition MAX_CLUST_32 : Z := 2 ^ 28 - 16.
Definition FAT12_THRESHOLD : Z := 4085.

Definition GEMDOS_MAX_SECTORS : Z := 65531.
Definition GEMDOS_MAX_SECTOR_SIZE : Z := 16 * 1024.

Definition BOOTCODE_SIZE : Z := 448.
Definition BOOTCODE_FAT32_SIZE : Z := 420.
Definition MESSAGE_OFFSET : Z := 29.

(** The places of the fields of the boot sector; [vi] is elsewhere on FAT32. *)
(* @src C/dosfstools-2.11/mkdosfs/mkdosfs.c:190-225 msdos_boot_sector *)
Definition vi_offset (size_fat : Z) : Z := if bool_decide (size_fat = 32) then 64 else 36.
Definition code_offset (size_fat : Z) : Z := if bool_decide (size_fat = 32) then 90 else 62.

(* @src C/dosfstools-2.11/mkdosfs/mkdosfs.c:258-280 dummy_boot_code *)
Definition dummy_boot_code : list Z :=
  [0x0e; 0x1f; 0xbe; 0x5b; 0x7c; 0xac; 0x22; 0xc0; 0x74; 0x0b; 0x56; 0xb4; 0x0e; 0xbb; 0x07; 0x00;
   0xcd; 0x10; 0x5e; 0xeb; 0xf0; 0x32; 0xe4; 0xcd; 0x16; 0xcd; 0x19; 0xeb; 0xfe] ++
  str_bytes "This is not a bootable disk.  Please insert a bootable floppy and" ++ [13; 10] ++
  str_bytes "press any key to try again ... " ++ [13; 10] ++ replicate 319 0.

(** The options, from the command line or their defaults. *)
(* @src C/dosfstools-2.11/mkdosfs/mkdosfs.c:287-321 volume_id *)
Record mk_options := MkOptions {
  atari_format : bool;
  volume_id : Z;
  volume_name : list Z;
  blocks : Z;
  sector_size_set : bool;
  size_fat_by_user : bool;
  nr_fats : Z;
  sectors_per_cluster : Z;
  hidden_sectors : Z;
  boot_code : list Z;
}.

(** What the functions change: the boot sector, and options that get a value. *)
Record mk_state := MkState {
  bs : list Z;
  sector_size : Z;
  size_fat : Z;
  reserved_sectors : Z;
  root_dir_entries : Z;
  backup_boot : Z;
}.

Definition set_bs b (s : mk_state) : mk_state :=
  MkState b (sector_size s) (size_fat s) (reserved_sectors s) (root_dir_entries s) (backup_boot s).
Definition set_sector_size n (s : mk_state) : mk_state :=
  MkState (bs s) n (size_fat s) (reserved_sectors s) (root_dir_entries s) (backup_boot s).
Definition set_size_fat n (s : mk_state) : mk_state :=
  MkState (bs s) (sector_size s) n (reserved_sectors s) (root_dir_entries s) (backup_boot s).
Definition set_reserved n (s : mk_state) : mk_state :=
  MkState (bs s) (sector_size s) (size_fat s) n (root_dir_entries s) (backup_boot s).
Definition set_root_entries n (s : mk_state) : mk_state :=
  MkState (bs s) (sector_size s) (size_fat s) (reserved_sectors s) n (backup_boot s).
Definition set_backup n (s : mk_state) : mk_state :=
  MkState (bs s) (sector_size s) (size_fat s) (reserved_sectors s) (root_dir_entries s) n.

(** Bytes of the boot sector. *)
Definition put (off : Z) (data : list Z) (s : mk_state) : mk_state := set_bs (write_at off data (bs s)) s.
Definition put8 off v := put off [u8 v].
Definition put16 off v := put off (Z_to_little_endian 2 8 v).
Definition put32 off v := put off (Z_to_little_endian 4 8 v).

Definition get8 off (s : mk_state) : Z := nth (Z.to_nat off) (bs s) 0.

(** [bs.cluster_size] *)
Definition cluster_size := get8 13.

(** Ceiling of a quotient, on [int]s. *)
(* @src C/dosfstools-2.11/mkdosfs/mkdosfs.c:130-134 cdiv *)
Definition cdiv (a b : Z) : outcome Z :=
  _ ← require (bool_decide (s32 a + b - 1 < 2 ^ 31)) SignedOverflow;
  Ret (Z.quot (s32 a + b - 1) b).

(** ** The size of the device *)

Section Count.

(** Whether there is a byte at an offset, and what seeking to the end gives. *)
Variable valid_offset : Z -> bool.
Variable seek_end : Z.

(* @src C/dosfstools-2.11/mkdosfs/mkdosfs.c:557-558 count_blocks *)
Fixpoint double_up (fuel : nat) (low high : Z) : outcome (Z * Z) :=
  match fuel with
  | O => Fault OutOfFuel
  | S fuel => if valid_offset high then double_up fuel high (high * 2) else Ret (low, high)
  end.

(* @src C/dosfstools-2.11/mkdosfs/mkdosfs.c:559-565 count_blocks *)
Fixpoint bisect (fuel : nat) (low high : Z) : outcome Z :=
  match fuel with
  | O => Fault OutOfFuel
  | S fuel =>
      if bool_decide (low < high - 1) then
        let mid := (low + high) / 2 in
        if valid_offset mid then bisect fuel mid high else bisect fuel low mid
      else Ret low
  end.

(** Offsets have 63 bits. *)
(* @src C/dosfstools-2.11/mkdosfs/mkdosfs.c:543-572 count_blocks *)
Definition count_blocks : outcome Z :=
  low ← (if bool_decide (seek_end <= 0) then
           '(low, high) ← double_up 64 0 1;
           low ← bisect 64 low high; Ret (low + 1)
         else Ret seek_end);
  Ret (low / BLOCK_SIZE).

End Count.

(** ** The message of the boot sector *)

(** [dummy_boot_code[i++] = ch]. *)
Definition put_code (ch : Z) (c : list Z * Z) : outcome (list Z * Z) :=
  code ← mem_write (c.2) [ch] (c.1); Ret (code, c.2 + 1).

(** Blanks up to the next tab stop. *)
(* @src C/dosfstools-2.11/mkdosfs/mkdosfs.c:1546-1551 main *)
Fixpoint expand_tab (fuel : nat) (c : list Z * Z) (pos : Z) : outcome (list Z * Z * Z) :=
  match fuel with
  | O => Fault OutOfFuel
  | S fuel =>
      c ← put_code 32 c;
      let pos := pos + 1 in
      if bool_decide (pos mod 8 <> 0) && bool_decide (c.2 < BOOTCODE_SIZE - 1)
      then expand_tab fuel c pos else Ret (c, pos)
  end.

(** One character of the message, [None] at its end; [pos] is the column. *)
(* @src C/dosfstools-2.11/mkdosfs/mkdosfs.c:1530-1562 main *)
Definition message_char (ch : option Z) (c : list Z * Z) (pos : Z) : outcome (list Z * Z * Z) :=
  match ch with
  | None => c ← put_code 0 c; Ret (c, pos)
  | Some ch =>
      if bool_decide (ch = 13) || bool_decide (ch = 0) then Ret (c, pos)
      else if bool_decide (ch = 10) then
        '(c, pos) ← (if bool_decide (pos <> 0) then c ← put_code 13 c; Ret (c, 0) else Ret (c, pos));
        c ← put_code 10 c; Ret (c, pos)
      else if bool_decide (ch = 9) then expand_tab 8 c pos
      else c ← put_code (u8 ch) c; Ret (c, pos + 1)
  end.

(* @src C/dosfstools-2.11/mkdosfs/mkdosfs.c:1527-1564 main *)
Fixpoint message_loop (msg : list Z) (c : list Z * Z) (pos : Z) : outcome (list Z * Z) :=
  match msg with
  | [] => '(c, _) ← message_char None c pos; Ret c
  | ch :: msg =>
      '(c, pos) ← message_char (Some ch) c pos;
      if bool_decide (c.2 < BOOTCODE_SIZE - 1) then message_loop msg c pos else Ret c
  end.

(* @src C/dosfstools-2.11/mkdosfs/mkdosfs.c:1566-1569 main *)
Fixpoint fill_zeros (fuel : nat) (c : list Z * Z) : outcome (list Z) :=
  match fuel with
  | O => Fault OutOfFuel
  | S fuel => if bool_decide (c.2 < BOOTCODE_SIZE - 1) then c ← put_code 0 c; fill_zeros fuel c
              else mem_write (BOOTCODE_SIZE - 1) [0] (c.1)
  end.

(** The boot code with the user's message. *)
(* @src C/dosfstools-2.11/mkdosfs/mkdosfs.c:1512-1576 main *)
Definition set_message (msg code : list Z) : outcome (list Z) :=
  c ← message_loop msg (code, MESSAGE_OFFSET) 0;
  fill_zeros (Z.to_nat BOOTCODE_SIZE) c.

(** ** The parameters of the device *)

Section Mkdosfs.

Variable o : mk_options.

(** Answers of the kernel: size, sectors and heads of a floppy, the size of a loop
    device, sectors and heads of a disk. *)
Variable floppy_param : option (Z * Z * Z).
Variable loop_size : option Z.
Variable disk_geometry : option (Z * Z).

Definition set_media (media cs entries : Z) (s : mk_state) : mk_state :=
  put8 18 (Z.shiftr entries 8) (put8 17 (Z.land entries 255) (put8 13 cs (put8 21 media s))).

(** The sizes of floppies. *)
(* @src C/dosfstools-2.11/mkdosfs/mkdosfs.c:646-684 establish_params *)
Definition floppy_media (n : Z) (s : mk_state) : option mk_state :=
  let small := if atari_format o then 2 else 1 in
  if bool_decide (n = 720) then Some (set_media 0xfd 2 112 s)
  else if bool_decide (n = 1440) then Some (set_media 0xf9 2 112 s)
  else if bool_decide (n = 2400) then Some (set_media 0xf9 small 224 s)
  else if bool_decide (n = 5760) then Some (set_media 0xf0 2 224 s)
  else if bool_decide (n = 2880) then Some (set_media 0xf0 small 224 s)
  else None.

(** The geometry of an image file or a loop device with the size of a floppy. *)
(* @src C/dosfstools-2.11/mkdosfs/mkdosfs.c:607-634 establish_params *)
Definition file_geometry (n : Z) : Z * Z :=
  if bool_decide (n = 720) || bool_decide (n = 1440) then (9, 2)
  else if bool_decide (n = 2400) then (15, 2)
  else if bool_decide (n = 2880) then (18, 2)
  else if bool_decide (n = 5760) then (36, 2)
  else (32, 64).

(* @src C/dosfstools-2.11/mkdosfs/mkdosfs.c:763-789 establish_params *)
Definition hd_params (s : mk_state) : mk_state :=
  let s := put8 18 2 (put8 17 0 (put8 21 0xf8 s)) in
  let s := if bool_decide (size_fat s = 0) && bool_decide (wrap 64 (blocks o * SECTORS_PER_BLOCK) > 1064960)
           then set_size_fat 32 s else s in
  if bool_decide (size_fat s = 32) then
    let sz_mb := Z.shiftr (wrap 64 (blocks o + 2 ^ 10 - 1)) 10 in
    put8 13 (if bool_decide (sz_mb >= 16 * 1024) then 32 else if bool_decide (sz_mb >= 8 * 1024) then 16
             else if bool_decide (sz_mb >= 256) then 8 else 1) s
  else put8 13 4 s.

Definition set_geometry (g : Z * Z) (s : mk_state) : mk_state := put16 26 (g.2) (put16 24 (g.1) s).

(** [device_num] is zero for a file of [size] bytes. *)
(* @src C/dosfstools-2.11/mkdosfs/mkdosfs.c:594-790 establish_params *)
Definition establish_params (device_num size : Z) (s : mk_state) : outcome mk_state :=
  if bool_decide (device_num = 0) then
    let n := Z.quot (s32 size) 512 in
    let s := set_geometry (file_geometry n) s in
    Ret (match floppy_media n s with Some s => s | None => hd_params s end)
  else if bool_decide (Z.land device_num 0xff00 = 0x0200) then
    match floppy_param with
    | None => Fault Died
    | Some (n, sect, head) =>
        let s := set_geometry (sect, head) s in
        Ret (match floppy_media n s with
             | Some s => s
             | None => set_media 0xf0 (if atari_format o then 2 else 1) 224 s
             end)
    end
  else if bool_decide (Z.land device_num 0xff00 = 0x0700) then
    match loop_size with
    | None => Fault Died
    | Some n =>
        let s := set_geometry (file_geometry n) s in
        Ret (match floppy_media n s with Some s => s | None => hd_params s end)
    end
  else
    Ret (hd_params (set_geometry (match disk_geometry with Some g => g | None => (63, 255) end) s)).

(** ** The fields of the boot sector *)

(** The boot code with its jump. *)
(* @src C/dosfstools-2.11/mkdosfs/mkdosfs.c:841-868 setup_tables *)
Definition put_boot_code (s : mk_state) : mk_state :=
  if atari_format o then put 0 [0x60; 0x1c] s
  else
    let s := put (vi_offset (size_fat s) + 7) (volume_name o) s in
    let at_code := code_offset (size_fat s) in
    let s := put 0 [0xeb; u8 (at_code - 2); 0x90] s in
    let s := if bool_decide (size_fat s = 32) then
               let offset := at_code + MESSAGE_OFFSET + 0x7c00 in
               let code := write_at 419 [0] (read_at 0 BOOTCODE_FAT32_SIZE (boot_code o)) in
               put at_code (write_at 3 (Z_to_little_endian 2 8 offset) code) s
             else put at_code (boot_code o) s in
    put16 510 BOOT_SIGN s.

(** Name, cluster size, root directory, volume number. *)
(* @src C/dosfstools-2.11/mkdosfs/mkdosfs.c:804-839 setup_tables *)
Definition put_names (s : mk_state) : mk_state :=
  let s := if atari_format o then put 2 (str_bytes "mkdosf") s else put 3 (str_bytes "mkdosfs" ++ [0]) s in
  let s := if bool_decide (sectors_per_cluster o <> 0) then put8 13 (sectors_per_cluster o) s else s in
  let s := if bool_decide (size_fat s = 32) then set_root_entries 0 (put 17 [0; 0] s)
           else if bool_decide (root_dir_entries s <> 0)
           then put8 18 (Z.shiftr (Z.land (root_dir_entries s) 0xff00) 8) (put8 17 (root_dir_entries s) s)
           else set_root_entries (get8 17 s + Z.shiftl (get8 18 s) 8) s in
  if atari_format o then put 8 (Z_to_little_endian 3 8 (volume_id o)) s
  else put (vi_offset (size_fat s) + 3) (Z_to_little_endian 4 8 (volume_id o)) s.

(* @src C/dosfstools-2.11/mkdosfs/mkdosfs.c:873-891 setup_tables *)
Definition put_reserved (s : mk_state) : outcome mk_state :=
  s ← (if bool_decide (reserved_sectors s = 0)
       then Ret (set_reserved (if bool_decide (size_fat s = 32) then 32 else 1) s)
       else _ ← require (negb (bool_decide (size_fat s = 32) && bool_decide (reserved_sectors s < 2))) Died; Ret s);
  let s := put8 16 (nr_fats o) (put16 14 (reserved_sectors s) s) in
  if negb (atari_format o) || bool_decide (size_fat s = 32) then Ret (put32 28 (hidden_sectors o) s)
  else _ ← require (bool_decide (Z.land (hidden_sectors o) (Z.lnot 0xffff) = 0)) Died;
       Ret (put16 28 (hidden_sectors o) s).

(** ** The size of the table

    Each function gives the number of clusters and the sectors of a table for
    entries of one size; a number of clusters that does not fit becomes zero. *)

(* @src C/dosfstools-2.11/mkdosfs/mkdosfs.c:916-935 setup_tables *)
Definition sizes12 (fatdata ss cs : Z) : outcome (Z * Z) :=
  let clust12 := u32 (2 * (fatdata * ss + nr_fats o * 3) / (2 * cs * ss + nr_fats o * 3)) in
  fatlength12 ← cdiv (Z.shiftr (u32 ((clust12 + 2) * 3 + 1)) 1) ss;
  let fatlength12 := u32 fatlength12 in
  let clust12 := u32 (fatdata - nr_fats o * fatlength12) / cs in
  let maxclust12 := Z.min (u32 (fatlength12 * 2 * ss) / 3) MAX_CLUST_12 in
  Ret (if bool_decide (clust12 > u32 (maxclust12 - 2)) then 0 else clust12, fatlength12).

(* @src C/dosfstools-2.11/mkdosfs/mkdosfs.c:937-963 setup_tables *)
Definition sizes16 (bits fatdata ss cs : Z) : outcome (Z * Z) :=
  let clust16 := u32 ((fatdata * ss + nr_fats o * 4) / (cs * ss + nr_fats o * 2)) in
  fatlength16 ← cdiv (u32 ((clust16 + 2) * 2)) ss;
  let fatlength16 := u32 fatlength16 in
  let clust16 := u32 (fatdata - nr_fats o * fatlength16) / cs in
  let maxclust16 := Z.min (u32 (fatlength16 * ss) / 2) MAX_CLUST_16 in
  let clust16 := if bool_decide (clust16 > u32 (maxclust16 - 2)) then 0 else clust16 in
  let clust16 := if bool_decide (clust16 < FAT12_THRESHOLD) &&
                    negb (size_fat_by_user o && bool_decide (bits = 16)) then 0 else clust16 in
  Ret (clust16, fatlength16).

(* @src C/dosfstools-2.11/mkdosfs/mkdosfs.c:965-987 setup_tables *)
Definition sizes32 (bits fatdata ss cs : Z) : outcome (Z * Z) :=
  let clust32 := u32 ((fatdata * ss + nr_fats o * 8) / (cs * ss + nr_fats o * 4)) in
  fatlength32 ← cdiv (u32 ((clust32 + 2) * 4)) ss;
  let fatlength32 := u32 fatlength32 in
  let clust32 := u32 (fatdata - nr_fats o * fatlength32) / cs in
  let maxclust32 := Z.min (u32 (fatlength32 * ss) / 4) MAX_CLUST_32 in
  let clust32 := if bool_decide (clust32 <> 0) && bool_decide (clust32 < MIN_CLUST_32) &&
                    negb (size_fat_by_user o && bool_decide (bits = 32)) then 0 else clust32 in
  Ret (if bool_decide (clust32 > maxclust32) then 0 else clust32, fatlength32).

(** The cluster size is doubled until the clusters of a wanted size fit; the field
    has eight bits. *)
(* @src C/dosfstools-2.11/mkdosfs/mkdosfs.c:912-995 setup_tables *)
Fixpoint try_sizes (fuel : nat) (bits fatdata ss maxclustsize cs : Z)
  : outcome (Z * (Z * Z) * (Z * Z) * (Z * Z)) :=
  match fuel with
  | O => Fault OutOfFuel
  | S fuel =>
      s12 ← sizes12 fatdata ss cs;
      s16 ← sizes16 bits fatdata ss cs;
      s32 ← sizes32 bits fatdata ss cs;
      if (bool_decide (s12.1 <> 0) && (bool_decide (bits = 0) || bool_decide (bits = 12))) ||
         (bool_decide (s16.1 <> 0) && (bool_decide (bits = 0) || bool_decide (bits = 16))) ||
         (bool_decide (s32.1 <> 0) && bool_decide (bits = 32))
      then Ret (cs, s12, s16, s32)
      else
        let cs := u8 (cs * 2) in
        if bool_decide (cs <> 0) && bool_decide (cs <= maxclustsize)
        then try_sizes fuel bits fatdata ss maxclustsize cs
        else Ret (cs, s12, s16, s32)
  end.

(** The clusters, the sectors of a table and the number of sectors. *)
(* @src C/dosfstools-2.11/mkdosfs/mkdosfs.c:893-1048 setup_tables *)
Definition choose_size (num_sectors : Z) (s : mk_state) : outcome (Z * Z * mk_state) :=
  roots ← cdiv (root_dir_entries s * 32) (sector_size s);
  let fatdata := u32 (num_sectors - roots - reserved_sectors s) in
  let spc := sectors_per_cluster o in
  let s := if bool_decide (spc <> 0) then put8 13 spc s else s in
  let maxclustsize := if bool_decide (spc <> 0) then spc else 128 in
  '(cs, s12, s16, s32) ← try_sizes 9 (size_fat s) fatdata (sector_size s) maxclustsize (cluster_size s);
  let s := put8 13 cs s in
  let vi := vi_offset (size_fat s) in
  let s := if bool_decide (size_fat s = 0)
           then set_size_fat (if bool_decide (s16.1 > s12.1) then 16 else 12) s else s in
  if bool_decide (size_fat s = 12) then
    Ret (s12.1, s12.2, put (vi + 18) (str_bytes "FAT12   ") (put16 22 (s12.2) s))
  else if bool_decide (size_fat s = 16) then
    _ ← require (negb (bool_decide (s16.1 < FAT12_THRESHOLD)) || size_fat_by_user o) Died;
    Ret (s16.1, s16.2, put (vi + 18) (str_bytes "FAT16   ") (put16 22 (s16.2) s))
  else if bool_decide (size_fat s = 32) then
    Ret (s32.1, s32.2, put (vi + 18) (str_bytes "FAT32   ") (put32 36 (s32.2) (put16 22 0 s)))
  else Fault Died.

(** On an Atari the size of a sector is doubled instead. *)
(* @src C/dosfstools-2.11/mkdosfs/mkdosfs.c:1070-1073 setup_tables *)
Fixpoint grow_sectors (fuel : nat) (num_sectors ss : Z) : outcome (Z * Z) :=
  match fuel with
  | O => Fault OutOfFuel
  | S fuel =>
      if bool_decide (num_sectors > GEMDOS_MAX_SECTORS)
      then grow_sectors fuel (Z.shiftr num_sectors 1) (ss * 2) else Ret (num_sectors, ss)
  end.

(** Clusters, sectors of a table, sectors and size of a sector. *)
(* @src C/dosfstools-2.11/mkdosfs/mkdosfs.c:1080-1117 setup_tables *)
Fixpoint atari_sizes (fuel : nat) (bits roots reserved cs num_sectors ss : Z) : outcome (Z * Z * Z * Z) :=
  match fuel with
  | O => Fault OutOfFuel
  | S fuel =>
      root_sectors ← cdiv roots ss;
      let fatdata := u32 (num_sectors - root_sectors - reserved) in
      let clusters := u32 (Z.quot (2 * (fatdata * ss - Z.quot (2 * nr_fats o * bits) 8))
                                  (2 * (cs * ss + Z.quot (nr_fats o * bits) 8))) in
      fat_length ← cdiv (u32 ((clusters + 2) * bits) / 8) ss;
      let fat_length := u32 fat_length in
      let clusters := u32 (fatdata - nr_fats o * fat_length) / cs in
      let maxclust := u32 (fat_length * ss * 8) / bits in
      if bool_decide (maxclust <= (if bool_decide (bits = 32) then MAX_CLUST_32 else 2 ^ bits - 16)) &&
         bool_decide (clusters <= u32 (maxclust - 2))
      then Ret (clusters, fat_length, num_sectors, ss)
      else
        _ ← require (negb (sector_size_set o)) Died;
        _ ← require (bool_decide (ss * 2 <= GEMDOS_MAX_SECTOR_SIZE)) Died;
        atari_sizes fuel bits roots reserved cs (Z.shiftr num_sectors 1) (ss * 2)
  end.

(* @src C/dosfstools-2.11/mkdosfs/mkdosfs.c:1050-1126 setup_tables *)
Definition choose_atari (num_sectors : Z) (s : mk_state) : outcome (Z * Z * Z * mk_state) :=
  let s := if bool_decide (size_fat s = 0)
           then set_size_fat (if bool_decide (num_sectors = 1440) || bool_decide (num_sectors = 2400) ||
                                 bool_decide (num_sectors = 2880) || bool_decide (num_sectors = 5760)
                              then 12 else 16) s else s in
  let s := put8 13 (if bool_decide (sectors_per_cluster o <> 0) then sectors_per_cluster o else 2) s in
  '(num_sectors, ss) ← (if sector_size_set o then Ret (num_sectors, sector_size s)
                        else grow_sectors 32 num_sectors (sector_size s));
  '(clusters, fat_length, num_sectors, ss) ←
    atari_sizes 16 (size_fat s) (root_dir_entries s * 32) (reserved_sectors s) (cluster_size s) num_sectors ss;
  _ ← require (bool_decide (ss <= GEMDOS_MAX_SECTOR_SIZE)) Died;
  let s := set_sector_size ss s in
  Ret (clusters, fat_length, num_sectors,
       if bool_decide (size_fat s <> 32) then put16 22 fat_length s else put32 36 fat_length (put16 22 0 s)).

(** The fields that FAT32 adds. *)
(* @src C/dosfstools-2.11/mkdosfs/mkdosfs.c:1131-1154 setup_tables *)
Definition put_fat32 (s : mk_state) : outcome mk_state :=
  if bool_decide (size_fat s = 32) then
    let s := put16 48 1 (put32 44 2 (put 42 [0; 0] (put16 40 0 s))) in
    s ← (if bool_decide (backup_boot s = 0) then
           Ret (set_backup (if bool_decide (reserved_sectors s >= 7) then 6
                            else if bool_decide (reserved_sectors s >= 2) then reserved_sectors s - 1 else 0) s)
         else
           _ ← require (bool_decide (backup_boot s <> 1) && bool_decide (backup_boot s < reserved_sectors s)) Died;
           Ret s);
    Ret (put 52 (replicate 12 0) (put16 50 (backup_boot s) s))
  else Ret s.

(* @src C/dosfstools-2.11/mkdosfs/mkdosfs.c:1156-1179 setup_tables *)
Definition put_total (num_sectors : Z) (s : mk_state) : outcome mk_state :=
  _ ← require (negb (atari_format o) || bool_decide (num_sectors < GEMDOS_MAX_SECTORS)) Died;
  let s := if bool_decide (num_sectors >= 65536) then put32 32 num_sectors (put 19 [0; 0] s)
           else let s := put16 19 num_sectors s in if atari_format o then s else put32 32 0 s in
  Ret (if atari_format o then s else put8 (vi_offset (size_fat s) + 2) MSDOS_EXT_SIGN s).

(** ** The table *)

Definition set_byte (i v : Z) (fat : list Z) : outcome (list Z) := mem_write i [u8 v] fat.

(* @src C/dosfstools-2.11/mkdosfs/mkdosfs.c:352-388 mark_FAT_cluster *)
Definition mark_FAT_cluster (bits cluster value : Z) (fat : list Z) : outcome (list Z) :=
  if bool_decide (bits = 12) then
    let value := Z.land value 0x0fff in
    let i := Z.quot (3 * cluster) 2 in
    if bool_decide (Z.land (cluster * 3) 1 = 0) then
      fat ← set_byte i (Z.land value 0x00ff) fat;
      b ← byte_at fat (i + 1);
      set_byte (i + 1) (Z.lor (Z.land b 0x00f0) (Z.shiftr (Z.land value 0x0f00) 8)) fat
    else
      b ← byte_at fat i;
      fat ← set_byte i (Z.lor (Z.land b 0x000f) (Z.shiftl (Z.land value 0x000f) 4)) fat;
      set_byte (i + 1) (Z.shiftr (Z.land value 0x0ff0) 4) fat
  else if bool_decide (bits = 16) then
    let value := Z.land value 0xffff in
    fat ← set_byte (2 * cluster) (Z.land value 0x00ff) fat;
    set_byte (2 * cluster + 1) (Z.shiftr value 8) fat
  else if bool_decide (bits = 32) then
    let value := Z.land value 0xfffffff in
    fat ← set_byte (4 * cluster) (Z.land value 0x000000ff) fat;
    fat ← set_byte (4 * cluster + 1) (Z.shiftr (Z.land value 0x0000ff00) 8) fat;
    fat ← set_byte (4 * cluster + 2) (Z.shiftr (Z.land value 0x00ff0000) 16) fat;
    set_byte (4 * cluster + 3) (Z.shiftr (Z.land value 0xff000000) 24) fat
  else Fault Died.

(** The file system in memory. *)
(* @src C/dosfstools-2.11/mkdosfs/mkdosfs.c:309-314 start_data_sector *)
Record mk_tables := MkTables {
  t_state : mk_state;
  t_clusters : Z;
  t_fat_length : Z;
  start_data_sector : Z;
  start_data_block : Z;
  t_fat : list Z;
  root_dir : list Z;
  t_info : option (list Z);
}.

Definition set_table f (t : mk_tables) : mk_tables :=
  MkTables (t_state t) (t_clusters t) (t_fat_length t) (start_data_sector t) (start_data_block t) f
    (root_dir t) (t_info t).

(** The volume label as an entry; [stamp] are the time and the date. *)
(* @src C/dosfstools-2.11/mkdosfs/mkdosfs.c:1252-1270 setup_tables *)
Definition put_label (stamp : Z * Z) (dir : list Z) : list Z :=
  if bool_decide (volume_name o = replicate 11 32) then dir
  else
    let time := Z_to_little_endian 2 8 stamp.1 in
    let date := Z_to_little_endian 2 8 stamp.2 in
    write_at 0 (volume_name o ++ [8] ++ read_at 12 1 dir ++ [0] ++ time ++ date ++ date ++ [0; 0] ++
                time ++ date ++ [0; 0] ++ replicate 4 0) dir.

(* @src C/dosfstools-2.11/mkdosfs/mkdosfs.c:1272-1296 setup_tables *)
Definition make_info (ss clusters : Z) : list Z :=
  let i := replicate (Z.to_nat ss) 0 in
  let i := write_at 0 (str_bytes "RRaA") i in
  let i := write_at 484 (Z_to_little_endian 4 8 0x61417272) i in
  let i := write_at 488 (Z_to_little_endian 4 8 (clusters - 1)) i in
  let i := write_at 492 (Z_to_little_endian 4 8 2) i in
  write_at 510 (Z_to_little_endian 2 8 BOOT_SIGN) i.

(** The tables for the sizes that were chosen. *)
(* @src C/dosfstools-2.11/mkdosfs/mkdosfs.c:1181-1301 setup_tables *)
Definition make_tables (stamp : Z * Z) (clusters fat_length : Z) (s : mk_state) : outcome mk_tables :=
  _ ← require (bool_decide (clusters <> 0)) Died;
  let ss := sector_size s in
  let start := s32 (u32 (u32 (reserved_sectors s + nr_fats o * fat_length) * Z.quot ss HARD_SECTOR_SIZE)) in
  let start_block := Z.quot (start + SECTORS_PER_BLOCK - 1) SECTORS_PER_BLOCK in
  _ ← require (negb (bool_decide (blocks o < wrap 64 (start_block + 32)))) Died;
  let fat := replicate (Z.to_nat (u32 (fat_length * ss))) 0 in
  fat ← mark_FAT_cluster (size_fat s) 0 0xffffffff fat;
  fat ← mark_FAT_cluster (size_fat s) 1 0xffffffff fat;
  fat ← set_byte 0 (get8 21 s) fat;
  fat ← (if bool_decide (size_fat s = 32)
         then mark_FAT_cluster 32 2 (if atari_format o then 0x0fffffff else 0x0ffffff8) fat else Ret fat);
  let size_root := if bool_decide (size_fat s = 32) then cluster_size s * ss
                   else (get8 18 s * 256 + get8 17 s) * 32 in
  let dir := put_label stamp (replicate (Z.to_nat size_root) 0) in
  let info := if bool_decide (size_fat s = 32) then Some (make_info ss clusters) else None in
  Ret (MkTables s clusters fat_length start start_block fat dir info).

(* @src C/dosfstools-2.11/mkdosfs/mkdosfs.c:795-1301 setup_tables *)
Definition setup_tables (stamp : Z * Z) (s : mk_state) : outcome mk_tables :=
  s ← put_reserved (put_boot_code (put_names s));
  let num_sectors := u32 (Z.quot (blocks o * BLOCK_SIZE) (sector_size s)) in
  '(clusters, fat_length, num_sectors, s) ←
    (if atari_format o then choose_atari num_sectors s
     else '(clusters, fat_length, s) ← choose_size num_sectors s; Ret (clusters, fat_length, num_sectors, s));
  s ← put_fat32 (put16 11 (sector_size s) s);
  s ← put_total num_sectors s;
  make_tables stamp clusters fat_length s.

(** ** Bad blocks *)

(** The number of the cluster lacks the two that come before the first one. *)
(* @src C/dosfstools-2.11/mkdosfs/mkdosfs.c:393-404 mark_FAT_sector *)
Definition mark_FAT_sector (sector value : Z) (t : mk_tables) : outcome mk_tables :=
  let s := t_state t in
  let cluster := Z.quot (Z.quot (s32 sector - start_data_sector t) (cluster_size s))
                        (Z.quot (sector_size s) HARD_SECTOR_SIZE) in
  _ ← require (negb (bool_decide (cluster < 0))) Died;
  fat ← mark_FAT_cluster (size_fat s) cluster value (t_fat t);
  Ret (set_table fat t).

(** Both sectors of a block. *)
(* @src C/dosfstools-2.11/mkdosfs/mkdosfs.c:483-484 check_blocks *)
Definition mark_block (block : Z) (t : mk_tables) : outcome mk_tables :=
  t ← mark_FAT_sector (block * SECTORS_PER_BLOCK) FAT_BAD t;
  mark_FAT_sector (block * SECTORS_PER_BLOCK + 1) FAT_BAD t.

(** How many of [n] blocks can be read from a block on. *)
Variable do_check : Z -> Z -> Z.

(* @src C/dosfstools-2.11/mkdosfs/mkdosfs.c:465-487 check_blocks *)
Fixpoint check_blocks_loop (fuel : nat) (try testing : Z) (t : mk_tables) : outcome mk_tables :=
  match fuel with
  | O => Fault OutOfFuel
  | S fuel =>
      if bool_decide (testing < blocks o) then
        let try := if bool_decide (testing + try > blocks o) then blocks o - testing else try in
        let got := do_check try testing in
        let testing := testing + got in
        if bool_decide (got = try) then check_blocks_loop fuel TEST_BUFFER_BLOCKS testing t
        else
          _ ← require (negb (bool_decide (testing < start_data_block t))) Died;
          t ← mark_block testing t;
          check_blocks_loop fuel 1 (testing + 1) t
      else Ret t
  end.

(* @src C/dosfstools-2.11/mkdosfs/mkdosfs.c:449-496 check_blocks *)
Definition check_blocks (t : mk_tables) : outcome mk_tables :=
  check_blocks_loop (S (Z.to_nat (blocks o))) TEST_BUFFER_BLOCKS 0 t.

(** The numbers that [fscanf] reads. *)
(* @src C/dosfstools-2.11/mkdosfs/mkdosfs.c:499-522 get_list_blocks *)
Fixpoint get_list_blocks (list_of : list Z) (t : mk_tables) : outcome mk_tables :=
  match list_of with
  | [] => Ret t
  | b :: list_of => t ← mark_block b t; get_list_blocks list_of t
  end.

(** ** Writing *)

(** A write that does not fit the device fails. *)
(* @src C/dosfstools-2.11/mkdosfs/mkdosfs.c:1314-1326 writebuf *)
Definition writebuf (pos : Z) (buf dev : list Z) : outcome (list Z) :=
  _ ← require (bool_decide (0 <= pos) && bool_decide (pos + Z.of_nat (length buf) <= Z.of_nat (length dev))) Died;
  Ret (write_at pos buf dev).

(** [n] buffers one behind the other. *)
Fixpoint write_copies (n : nat) (pos : Z) (buf dev : list Z) : outcome (Z * list Z) :=
  match n with
  | O => Ret (pos, dev)
  | S n => dev ← writebuf pos buf dev; write_copies n (pos + Z.of_nat (length buf)) buf dev
  end.

(* @src C/dosfstools-2.11/mkdosfs/mkdosfs.c:1329-1369 write_tables *)
Definition write_tables (t : mk_tables) (dev : list Z) : outcome (list Z) :=
  let s := t_state t in
  let ss := sector_size s in
  let fat_length := little_endian_to_Z 8 (if bool_decide (size_fat s = 32) then read_at 36 4 (bs s) else read_at 22 2 (bs s)) in
  '(_, dev) ← write_copies (Z.to_nat (reserved_sectors s)) 0 (replicate (Z.to_nat ss) 0) dev;
  dev ← writebuf 0 (bs s) dev;
  dev ← match t_info t with
        | Some info =>
            dev ← writebuf (little_endian_to_Z 8 (read_at 48 2 (bs s)) * ss) (read_at 0 512 info) dev;
            if bool_decide (backup_boot s <> 0) then writebuf (backup_boot s * ss) (bs s) dev else Ret dev
        | None => Ret dev
        end;
  buf ← mem_read 0 (s32 (fat_length * ss)) (t_fat t);
  '(pos, dev) ← write_copies (Z.to_nat (nr_fats o)) (reserved_sectors s * ss) buf dev;
  writebuf pos (root_dir t) dev.

(** Bad blocks are searched for, given in a list, or neither. *)
Inductive bad_blocks := no_check | search | listed (l : list Z).

(** From the parameters of the device to the tables on it. *)
(* @src C/dosfstools-2.11/mkdosfs/mkdosfs.c:1715-1725 main *)
Definition mkdosfs (device_num size : Z) (stamp : Z * Z) (check : bad_blocks) (s : mk_state) (dev : list Z)
  : outcome (list Z) :=
  s ← establish_params device_num size s;
  t ← setup_tables stamp s;
  t ← match check with
      | no_check => Ret t
      | search => check_blocks t
      | listed l => get_list_blocks l t
      end;
  write_tables t dev.

End Mkdosfs.

(** ** The search for the end of a device *)

Section CountProof.

Variable size : Z.
Hypothesis Hsize : 0 <= size < 2 ^ 62.

Local Abbreviation valid := (fun n => bool_decide (0 <= n < size)).

Lemma double_up_spec fuel k :
  0 <= k -> (Z.to_nat (63 - k) < fuel)%nat -> k <= 62 -> (k = 0 \/ 2 ^ (k - 1) < size) ->
  exists low high, double_up valid fuel (if decide (k = 0) then 0 else 2 ^ (k - 1)) (2 ^ k) = Ret (low, high) /\
    size <= high < 2 ^ 63 /\ (low < size \/ low = 0) /\ 0 <= low < high.
Proof.
  revert k. induction fuel as [|fuel IH]; intros k H0 Hf Hk Hlow; [lia|]. cbn [double_up].
  assert (Hpow : 0 < 2 ^ k) by (by apply Z.pow_pos_nonneg).
  case_bool_decide as Hv.
  - assert (k <= 61).
    { destruct (decide (k = 62)) as [->|]; [lia|lia]. }
    destruct (IH (k + 1)) as (low & high & Hrun & Hrest); [lia|lia|lia|right; replace (k + 1 - 1) with k by lia; lia|].
    exists low, high. rewrite <- Hrun. rewrite decide_False by lia.
    replace (k + 1 - 1) with k by lia. by replace (2 ^ k * 2) with (2 ^ (k + 1)) by (rewrite Z.pow_add_r; lia).
  - eexists _, _. split; [reflexivity|]. assert (2 ^ k <= 2 ^ 62) by (apply Z.pow_le_mono_r; lia).
    split; [lia|]. case_decide as Hk0; [lia|]. destruct Hlow as [?|Hlow]; [done|].
    assert (2 ^ k = 2 * 2 ^ (k - 1)) by (rewrite <- Z.pow_succ_r by lia; f_equal; lia). lia.
Qed.

Lemma bisect_spec fuel low high :
  0 <= low < high -> size <= high -> (low < size \/ low = 0) -> high - low <= 2 ^ Z.of_nat fuel ->
  bisect valid (S fuel) low high = Ret (Z.max 0 (size - 1)).
Proof.
  revert low high. induction fuel as [|fuel IH]; intros low high Hlh Hh Hl Hw.
  { cbn [bisect]. change (2 ^ Z.of_nat 0) with 1 in Hw. rewrite bool_decide_eq_false_2 by lia. f_equal. lia. }
  cbn [bisect]. case_bool_decide as Hc; [|f_equal; lia].
  rewrite Nat2Z.inj_succ, Z.pow_succ_r in Hw by lia.
  pose proof (Z.div_mod (low + high) 2 ltac:(lia)). pose proof (Z.mod_pos_bound (low + high) 2 ltac:(lia)).
  set (mid := (low + high) / 2) in *. case_bool_decide as Hv; apply IH; lia.
Qed.

Lemma search_spec f g :
  (63 < f)%nat -> (63 < g)%nat ->
  ('(low, high) ← double_up valid f 0 1; low ← bisect valid g low high; Ret (low + 1)) =
  Ret (Z.max 0 (size - 1) + 1).
Proof.
  intros Hf Hg. destruct (double_up_spec f 0) as (low & high & Hrun & Hh & Hl & Hlh); [lia|lia|lia|by left|].
  rewrite decide_True in Hrun by done. rewrite Z.pow_0_r in Hrun. rewrite Hrun. run.
  destruct g as [|g]; [lia|]. rewrite bisect_spec; [done|lia|lia|lia|].
  assert (2 ^ 63 <= 2 ^ Z.of_nat g) by (apply Z.pow_le_mono_r; lia). lia.
Qed.

End CountProof.

(** On a device whose end cannot be sought, the number of blocks found by
    doubling and bisecting reads is the size of the device in blocks, whatever the
    size; the search ends. *)
Theorem count_blocks_exact size end_ :
  0 <= size < 2 ^ 62 -> end_ <= 0 ->
  count_blocks (fun n => bool_decide (0 <= n < size)) end_ = Ret (size / BLOCK_SIZE).
Proof.
  intros Hs He. unfold count_blocks. rewrite bool_decide_eq_true_2 by done.
  rewrite (search_spec size Hs) by lia. run.
  f_equal. unfold BLOCK_SIZE. destruct (decide (size = 0)) as [->|]; [done|]. by rewrite Z.max_r, Z.sub_add by lia.
Qed.

Lemma count_blocks_exact_witness :
  count_blocks (fun n => bool_decide (0 <= n < 1474560)) 0 = Ret 1440.
Proof. apply (count_blocks_exact 1474560 0); lia. Defined.

(** ** The message *)

(** The message so far: the place lies behind the code and in the buffer. *)
Record message_ok (code : list Z) (c : list Z * Z) : Prop := {
  msg_length : length (c.1) = 448%nat;
  msg_code : take 29 (c.1) = take 29 code;
  msg_place : MESSAGE_OFFSET <= c.2 <= BOOTCODE_SIZE;
}.

Lemma put_code_spec code ch c :
  message_ok code c -> c.2 < BOOTCODE_SIZE ->
  exists c', put_code ch c = Ret c' /\ message_ok code c' /\ c'.2 = c.2 + 1.
Proof.
  intros [Hl Hc Hp] Hlt. destruct c as [buf i]. cbn [fst snd] in *. unfold MESSAGE_OFFSET, BOOTCODE_SIZE in *.
  unfold put_code. cbn [fst snd]. destruct (mem_write i [ch] buf) as [buf'|] eqn:Hw.
  - run. eexists. split; [reflexivity|]. split; [|done].
    pose proof (mem_write_length _ _ _ _ Hw). apply mem_write_inv in Hw as (H0 & H1 & ->).
    split; cbn [fst snd]; [lia| |unfold MESSAGE_OFFSET, BOOTCODE_SIZE; lia].
    rewrite <- Hc. rewrite take_app_le by (rewrite length_take; lia). rewrite take_take. f_equal. lia.
  - unfold mem_write in Hw. rewrite bool_decide_eq_true_2 in Hw by (cbn; lia). done.
Qed.

Lemma expand_tab_spec code fuel c pos :
  message_ok code c -> c.2 < BOOTCODE_SIZE - 1 -> 0 <= pos -> 8 - pos mod 8 <= Z.of_nat fuel ->
  exists c' pos', expand_tab fuel c pos = Ret (c', pos') /\ message_ok code c' /\ 0 <= pos'.
Proof.
  revert c pos. induction fuel as [|fuel IH]; intros c pos Hm Hlt Hpos Hf; [pose proof (Z.mod_pos_bound pos 8); lia|].
  cbn [expand_tab]. destruct (put_code_spec code 32 c Hm) as (c' & -> & Hm' & Hi); [unfold BOOTCODE_SIZE in *; lia|]. run.
  destruct (_ && _) eqn:Hgo; [|exists c', (pos + 1); split; [done|]; split; [done|lia]].
  rewrite andb_true_iff, !bool_decide_eq_true in Hgo. destruct Hgo as [Hmod Hroom].
  apply IH; [done|lia|lia|]. dlia.
Qed.

Lemma message_char_spec code ch c pos :
  message_ok code c -> c.2 < BOOTCODE_SIZE - 1 -> 0 <= pos ->
  exists c' pos', message_char ch c pos = Ret (c', pos') /\ message_ok code c' /\ 0 <= pos'.
Proof.
  intros Hm Hlt Hpos. assert (Hlt' : c.2 < BOOTCODE_SIZE) by lia. unfold message_char. destruct ch as [ch|].
  2:{ destruct (put_code_spec code 0 c Hm Hlt') as (c' & -> & Hm' & _). run. by exists c', pos. }
  destruct (_ || _); [by exists c, pos|]. case_bool_decide as Hnl.
  { case_bool_decide.
    - destruct (put_code_spec code 13 c Hm Hlt') as (c1 & -> & Hm1 & Hi1). run.
      destruct (put_code_spec code 10 c1 Hm1) as (c2 & -> & Hm2 & _); [lia|]. run. by exists c2, 0.
    - run. destruct (put_code_spec code 10 c Hm Hlt') as (c2 & -> & Hm2 & _). run. by exists c2, pos. }
  case_bool_decide as Htab.
  { apply expand_tab_spec; try done. pose proof (Z.mod_pos_bound pos 8). lia. }
  destruct (put_code_spec code (u8 ch) c Hm Hlt') as (c2 & -> & Hm2 & _). run. exists c2, (pos + 1). split_and!; (done || lia).
Qed.

Lemma message_loop_spec code msg c pos :
  message_ok code c -> c.2 < BOOTCODE_SIZE - 1 -> 0 <= pos ->
  exists c', message_loop msg c pos = Ret c' /\ message_ok code c'.
Proof.
  revert c pos. induction msg as [|ch msg IH]; intros c pos Hm Hlt Hpos; cbn [message_loop].
  - destruct (message_char_spec code None c pos Hm Hlt Hpos) as (c' & pos' & -> & Hm' & _). run. by exists c'.
  - destruct (message_char_spec code (Some ch) c pos Hm Hlt Hpos) as (c' & pos' & -> & Hm' & Hpos'). run.
    case_bool_decide; [by apply IH|by exists c'].
Qed.

Lemma fill_zeros_spec code fuel c :
  message_ok code c -> (Z.to_nat (BOOTCODE_SIZE - 1 - c.2) < fuel)%nat ->
  exists code', fill_zeros fuel c = Ret code' /\ length code' = 448%nat /\ take 29 code' = take 29 code /\
    code' !! 447%nat = Some 0.
Proof.
  revert c. induction fuel as [|fuel IH]; intros c Hm Hf; [lia|]. cbn [fill_zeros]. case_bool_decide as Hlt.
  - destruct (put_code_spec code 0 c Hm) as (c' & -> & Hm' & Hi); [lia|]. run. apply IH; [done|lia].
  - destruct Hm as [Hl Hc Hp]. destruct (mem_write (BOOTCODE_SIZE - 1) [0] (c.1)) as [code'|] eqn:Hw.
    2:{ unfold mem_write in Hw. rewrite bool_decide_eq_true_2 in Hw by (unfold BOOTCODE_SIZE; cbn; lia). done. }
    exists code'. assert (length code' = 448%nat) by (rewrite (mem_write_length _ _ _ _ Hw); done).
    split_and!; [done|done| |]; apply mem_write_inv in Hw as (_ & _ & ->);
      assert (Z.to_nat (BOOTCODE_SIZE - 1) = 447%nat) as -> by done.
    + rewrite take_app_le by (rewrite length_take; lia). rewrite take_take, <- Hc. done.
    + rewrite lookup_app_r by (rewrite length_take; lia). rewrite length_take.
      by replace (447 - _)%nat with 0%nat by lia.
Qed.

(** Whatever the message, it is copied without leaving the buffer of the boot
    code: the code before it stays, and the buffer ends with a zero. *)
Theorem set_message_fits msg code :
  length code = 448%nat ->
  exists code', set_message msg code = Ret code' /\ length code' = 448%nat /\ take 29 code' = take 29 code /\
    code' !! 447%nat = Some 0.
Proof.
  intros Hl. unfold set_message.
  assert (Hm : message_ok code (code, MESSAGE_OFFSET)).
  { split; [done|done|]. unfold MESSAGE_OFFSET, BOOTCODE_SIZE. cbn. lia. }
  destruct (message_loop_spec code msg _ 0 Hm) as (c & -> & Hm'); [unfold MESSAGE_OFFSET, BOOTCODE_SIZE; cbn; lia|lia|].
  run. apply fill_zeros_spec; [done|]. pose proof (msg_place _ _ Hm'). unfold MESSAGE_OFFSET, BOOTCODE_SIZE in *. lia.
Qed.

Lemma set_message_fits_witness :
  exists code', set_message (replicate 600 10) dummy_boot_code = Ret code' /\ length code' = 448%nat.
Proof.
  destruct (set_message_fits (replicate 600 10) dummy_boot_code) as (c & H & Hl & _).
  - vm_compute. reflexivity.
  - exists c. split; [exact H|exact Hl].
Defined.

(** ** The size of the table *)

(** What the options can be, and sizes that do not reach the width of an [int]. *)
Record sizes_ok (o : mk_options) (fatdata ss cs : Z) : Prop := {
  so_fats : 1 <= nr_fats o <= 4;
  so_sector : 512 <= ss <= 32768;
  so_cluster : 1 <= cs <= 128;
  so_data : 0 <= fatdata < 2 ^ 28;
}.

(** A table of [fl] sectors, for [c] clusters with entries of [bits] bits: there is
    an entry for each cluster, and as many clusters as the disk has room for. *)
Record table_fits (o : mk_options) (bits fatdata ss cs c fl : Z) : Prop := {
  fit_positive : 0 < fl < 2 ^ 22;
  fit_entries : (c + 2) * bits <= fl * ss * 8;
  fit_data : nr_fats o * fl + c * cs <= fatdata < nr_fats o * fl + (c + 1) * cs;
  fit_small : bits <> 32 -> fl <= 300;
  fit_count : 0 <= c;
}.

Lemma cdiv_small a b :
  0 <= a < 2 ^ 31 - 32768 -> 1 <= b <= 32768 -> cdiv a b = Ret ((a + b - 1) / b).
Proof.
  intros Ha Hb. unfold cdiv. assert (swrap 32 a = a) as -> by (apply swrap_small; change (2 ^ (32 - 1)) with (2 ^ 31); lia).
  rewrite bool_decide_eq_true_2 by lia. run. by rewrite Z.quot_div_nonneg by lia.
Qed.

Lemma ceil_bounds a b : 0 <= a -> 0 < b -> a <= (a + b - 1) / b * b < a + b.
Proof.
  intros Ha Hb. pose proof (Z.div_mod (a + b - 1) b ltac:(lia)). pose proof (Z.mod_pos_bound (a + b - 1) b Hb). lia.
Qed.

(** The guess does not exceed what the tables take by more than the limit. *)
Lemma guess_small q x c m cs fatdata :
  0 <= x -> 1 <= cs -> q * cs <= fatdata -> fatdata < x + (c + 1) * cs -> c <= m -> q <= x + m.
Proof.
  intros Hx Hcs Hq Hf Hc. destruct (decide (q <= x + m)) as [|Hgt]; [done|exfalso].
  assert ((x + m + 1) * cs <= q * cs) by (apply Z.mul_le_mono_nonneg_r; lia).
  assert ((c + 1) * cs <= (m + 1) * cs) by (apply Z.mul_le_mono_nonneg_r; lia).
  assert (x * 1 <= x * cs) by (apply Z.mul_le_mono_nonneg_l; lia). lia.
Qed.

Lemma small_table x fl ss n :
  512 <= ss -> 0 < fl -> 0 <= x <= 4 * fl -> 0 <= n <= 66000 -> fl * ss < 2 * (x + n) + ss -> fl <= 300.
Proof. intros. nia. Qed.

Section Sizes.

Variable o : mk_options.
Variables fatdata ss cs : Z.
Hypothesis Hok : sizes_ok o fatdata ss cs.

(** The first guess at the clusters. *)
Lemma guess_bounds k e b :
  1 <= k <= 2 -> 0 <= e <= 8 -> 2 <= b <= 4 ->
  let q := k * (fatdata * ss + nr_fats o * e) / (k * cs * ss + nr_fats o * b) in
  0 <= q /\ q * cs <= fatdata /\ q <= fatdata.
Proof.
  intros Hk He Hb q. destruct Hok as [Hf Hs Hc Hd].
  assert (Hpos : 0 < k * cs * ss + nr_fats o * b) by nia.
  assert (Hnum : 0 <= k * (fatdata * ss + nr_fats o * e)) by nia.
  pose proof (Z.div_pos _ _ Hnum Hpos) as Hq. fold q in Hq.
  pose proof (Z.mul_div_le (k * (fatdata * ss + nr_fats o * e)) _ Hpos) as Hle. fold q in Hle.
  assert (q * (k * cs * ss) <= k * (fatdata * ss + nr_fats o * e)) by nia.
  assert (q * cs * ss <= fatdata * ss + nr_fats o * e) by nia.
  assert (q * cs * ss < (fatdata + 1) * ss) by nia.
  assert (q * cs < fatdata + 1) by nia. split_and!; [done|lia|nia].
Qed.

(** The clusters behind tables of [fl] sectors: when the tables alone are too big the
    difference wraps, and the number is larger than any table allows. *)
Lemma recount fl :
  0 < fl < 2 ^ 22 ->
  let c := u32 (fatdata - nr_fats o * fl) / cs in
  0 <= c /\ (nr_fats o * fl <= fatdata /\ nr_fats o * fl + c * cs <= fatdata < nr_fats o * fl + (c + 1) * cs \/
            2 ^ 32 - 2 ^ 24 < (c + 1) * cs).
Proof.
  intros Hfl c. destruct Hok as [Hf Hs Hc Hd]. unfold c. clear c.
  assert (nr_fats o * fl < 2 ^ 24) by nia.
  assert (Hw : u32 (fatdata - nr_fats o * fl) = fatdata - nr_fats o * fl /\ nr_fats o * fl <= fatdata \/
               u32 (fatdata - nr_fats o * fl) = 2 ^ 32 + (fatdata - nr_fats o * fl)).
  { destruct (decide (nr_fats o * fl <= fatdata)); [left; split; [apply wrap_small; lia|done]|right].
    unfold wrap. symmetry. apply Z.mod_unique with (-1); lia. }
  set (v := u32 _) in *. clearbody v. assert (0 <= v) by lia.
  pose proof (Z.div_pos v cs ltac:(lia) ltac:(lia)). pose proof (Z.div_mod v cs ltac:(lia)).
  pose proof (Z.mod_pos_bound v cs ltac:(lia)). split; [done|].
  destruct Hw as [[-> ?]| ->]; [left; split; [done|lia]|right; lia].
Qed.

(** The sectors for [n] bytes of entries. *)
Lemma table_sectors n :
  1 <= n <= 2 ^ 30 + 8 -> exists fl, cdiv n ss = Ret fl /\ u32 fl = fl /\ 0 < fl < 2 ^ 22 /\ n <= fl * ss < n + ss.
Proof.
  intros Hn. destruct Hok as [Hf Hs Hc Hd]. exists ((n + ss - 1) / ss).
  pose proof (ceil_bounds n ss ltac:(lia) ltac:(lia)) as Hb.
  split; [apply cdiv_small; lia|]. assert (0 < (n + ss - 1) / ss < 2 ^ 22) by nia.
  split; [apply wrap_small; lia|]. done.
Qed.

Lemma sizes12_spec :
  exists c fl, sizes12 o fatdata ss cs = Ret (c, fl) /\ 0 <= c <= MAX_CLUST_12 - 2 /\
    (c <> 0 -> table_fits o 12 fatdata ss cs c fl).
Proof.
  destruct (guess_bounds 2 3 3) as (Hq & Hqc & Hqd); [lia..|]. destruct Hok as [Hf Hs Hc Hd].
  unfold sizes12. set (q := 2 * _ / _) in *. rewrite (wrap_small 32 q) by lia.
  rewrite (wrap_small 32 ((q + 2) * 3 + 1)) by lia. rewrite Z.shiftr_div_pow2 by lia. change (2 ^ 1) with 2.
  destruct (table_sectors (((q + 2) * 3 + 1) / 2)) as (fl & -> & Hfl & Hr & Hb); [dlia|]. run. rewrite Hfl.
  destruct (recount fl Hr) as (Hc0 & Hcase). set (c := u32 _ / cs) in *.
  assert (Hm : u32 (fl * 2 * ss) = fl * 2 * ss) by (apply wrap_small; dlia). rewrite Hm.
  assert (100 <= fl * 2 * ss / 3) by dlia.
  assert (Hmax : u32 (Z.min (fl * 2 * ss / 3) MAX_CLUST_12 - 2) = Z.min (fl * 2 * ss / 3) MAX_CLUST_12 - 2)
    by (apply wrap_small; unfold MAX_CLUST_12; lia).
  rewrite Hmax. eexists _, fl. split; [reflexivity|]. unfold MAX_CLUST_12 in *.
  case_bool_decide as Hbig; [split; [lia|done]|]. split; [lia|]. intros _. split; [done|dlia|..].
  - destruct Hcase as [[_ ?]|?]; [done|nia].
  - intros _. destruct Hcase as [[_ [_ ?]]|?]; [|nia].
    pose proof (guess_small q (nr_fats o * fl) c 4078 cs fatdata ltac:(nia) ltac:(lia) Hqc ltac:(lia) ltac:(lia)).
    apply (small_table (nr_fats o * fl) fl ss 4082); [lia|lia|nia|lia|dlia].
  - lia.
Qed.

Lemma sizes16_spec bits :
  exists c fl, sizes16 o bits fatdata ss cs = Ret (c, fl) /\ 0 <= c <= MAX_CLUST_16 - 2 /\
    (c <> 0 -> table_fits o 16 fatdata ss cs c fl /\ (FAT12_THRESHOLD <= c \/ size_fat_by_user o = true /\ bits = 16)).
Proof.
  destruct (guess_bounds 1 4 2) as (Hq & Hqc & Hqd); [lia..|]. destruct Hok as [Hf Hs Hc Hd].
  rewrite !Z.mul_1_l in Hq, Hqc, Hqd. unfold sizes16. set (q := _ / (cs * ss + _)) in *. rewrite (wrap_small 32 q) by lia.
  rewrite (wrap_small 32 ((q + 2) * 2)) by lia.
  destruct (table_sectors ((q + 2) * 2)) as (fl & -> & Hfl & Hr & Hb); [lia|]. run. rewrite Hfl.
  destruct (recount fl Hr) as (Hc0 & Hcase). set (c := u32 _ / cs) in *.
  rewrite (wrap_small 32 (fl * ss)) by lia. assert (100 <= fl * ss / 2) by dlia.
  assert (Hmax : u32 (Z.min (fl * ss / 2) MAX_CLUST_16 - 2) = Z.min (fl * ss / 2) MAX_CLUST_16 - 2)
    by (apply wrap_small; unfold MAX_CLUST_16; lia).
  rewrite Hmax. eexists _, fl. split; [reflexivity|]. unfold MAX_CLUST_16, FAT12_THRESHOLD in *.
  destruct (bool_decide (c > _)) eqn:Hbig;
    [destruct (_ && _); (split; [lia|done])|apply bool_decide_eq_false in Hbig].
  destruct (_ && negb _) eqn:Hthr; [split; [lia|done]|]. split; [lia|]. intros _. split.
  - split; [done|dlia|..].
    + destruct Hcase as [[_ ?]|?]; [done|nia].
    + intros _. destruct Hcase as [[_ [_ ?]]|?]; [|nia].
      pose proof (guess_small q (nr_fats o * fl) c 65518 cs fatdata ltac:(nia) ltac:(lia) Hqc ltac:(lia) ltac:(lia)).
      apply (small_table (nr_fats o * fl) fl ss 65522); [lia|lia|nia|lia|lia].
    + lia.
  - apply andb_false_iff in Hthr as [Hthr|Hthr]; [apply bool_decide_eq_false in Hthr; left; lia|].
    apply negb_false_iff, andb_true_iff in Hthr as [? Hb16%bool_decide_eq_true]. by right.
Qed.

Lemma sizes32_spec bits :
  exists c fl, sizes32 o bits fatdata ss cs = Ret (c, fl) /\ 0 <= c <= MAX_CLUST_32 /\
    (c <> 0 -> table_fits o 32 fatdata ss cs c fl).
Proof.
  destruct (guess_bounds 1 8 4) as (Hq & Hqc & Hqd); [lia..|]. destruct Hok as [Hf Hs Hc Hd].
  rewrite !Z.mul_1_l in Hq, Hqc, Hqd. unfold sizes32. set (q := _ / (cs * ss + _)) in *. rewrite (wrap_small 32 q) by lia.
  rewrite (wrap_small 32 ((q + 2) * 4)) by lia.
  destruct (table_sectors ((q + 2) * 4)) as (fl & -> & Hfl & Hr & Hb); [lia|]. run. rewrite Hfl.
  destruct (recount fl Hr) as (Hc0 & Hcase). set (c := u32 _ / cs) in *.
  rewrite (wrap_small 32 (fl * ss)) by lia. eexists _, fl. split; [reflexivity|]. unfold MAX_CLUST_32 in *.
  destruct (_ && negb _); [case_bool_decide; (split; [lia|done])|].
  case_bool_decide as Hbig; [split; [lia|done]|]. split; [lia|]. intros _.
  assert (Hcb : c * 4 <= fl * ss) by dlia.
  destruct Hcase as [[_ Hfit]|Hwrap].
  - split; [done| |done|done|lia]. enough (c <= q) by nia. apply Z.div_le_lower_bound; [nia|].
    assert ((nr_fats o * fl + c * cs) * ss <= fatdata * ss) by (apply Z.mul_le_mono_nonneg_r; lia).
    assert (nr_fats o * (c * 4) <= nr_fats o * (fl * ss)) by (apply Z.mul_le_mono_nonneg_l; lia). lia.
  - exfalso. assert (c * 4 <= (q + 2) * 4 + ss) by lia. nia.
Qed.

End Sizes.

(** Some table that the user may want has clusters. *)
Definition wanted (bits : Z) (s12 s16 s32 : Z * Z) : Prop :=
  s12.1 <> 0 /\ (bits = 0 \/ bits = 12) \/ s16.1 <> 0 /\ (bits = 0 \/ bits = 16) \/ s32.1 <> 0 /\ bits = 32.

(** The three tables for clusters of [cs] sectors. *)
Record tables_fit (o : mk_options) (bits fatdata ss cs : Z) (s12 s16 s32 : Z * Z) : Prop := {
  fit_cluster : 1 <= cs <= 128;
  fit12 : s12.1 <> 0 -> table_fits o 12 fatdata ss cs (s12.1) (s12.2);
  fit16 : s16.1 <> 0 -> table_fits o 16 fatdata ss cs (s16.1) (s16.2);
  fit32 : s32.1 <> 0 -> table_fits o 32 fatdata ss cs (s32.1) (s32.2);
}.

Lemma try_sizes_spec o fuel bits fatdata ss maxclustsize cs :
  sizes_ok o fatdata ss cs -> maxclustsize <= 128 -> 256 <= cs * 2 ^ Z.of_nat fuel ->
  exists cs' s12 s16 s32, try_sizes o fuel bits fatdata ss maxclustsize cs = Ret (cs', s12, s16, s32) /\
    0 <= s12.1 <= MAX_CLUST_12 - 2 /\ 0 <= s16.1 <= MAX_CLUST_16 - 2 /\
    (s16.1 <> 0 -> FAT12_THRESHOLD <= s16.1 \/ size_fat_by_user o = true /\ bits = 16) /\
    (wanted bits s12 s16 s32 -> tables_fit o bits fatdata ss cs' s12 s16 s32).
Proof.
  revert cs. induction fuel as [|fuel IH]; intros cs Hok Hmax Hfuel.
  { pose proof (so_cluster _ _ _ _ Hok). cbn in Hfuel. lia. }
  cbn [try_sizes]. destruct (sizes12_spec o fatdata ss cs Hok) as (c12 & f12 & -> & Hl12 & Hf12).
  destruct (sizes16_spec o fatdata ss cs Hok bits) as (c16 & f16 & -> & Hl16 & Hf16).
  destruct (sizes32_spec o fatdata ss cs Hok bits) as (c32 & f32 & -> & Hl32 & Hf32). run. cbn [fst snd].
  pose proof (so_cluster _ _ _ _ Hok) as Hcs.
  assert (Hstop : forall x, (wanted bits (c12, f12) (c16, f16) (c32, f32) -> x = cs) ->
    exists cs' s12 s16 s32, Ret (x, (c12, f12), (c16, f16), (c32, f32)) = Ret (cs', s12, s16, s32) /\
    0 <= s12.1 <= MAX_CLUST_12 - 2 /\ 0 <= s16.1 <= MAX_CLUST_16 - 2 /\
    (s16.1 <> 0 -> FAT12_THRESHOLD <= s16.1 \/ size_fat_by_user o = true /\ bits = 16) /\
    (wanted bits s12 s16 s32 -> tables_fit o bits fatdata ss cs' s12 s16 s32)).
  { intros x Hx. exists x, (c12, f12), (c16, f16), (c32, f32). split; [done|]. split; [done|]. split; [done|].
    split; [cbn; tauto|]. intros Hw. rewrite (Hx Hw). split; cbn; tauto. }
  match goal with |- context [if ?b then Ret _ else _] => destruct b eqn:Hw end; [by apply Hstop|].
  assert (Hnot : ~ wanted bits (c12, f12) (c16, f16) (c32, f32)).
  { unfold wanted; cbn [fst snd]. rewrite !orb_false_iff, !andb_false_iff, !orb_false_iff, !bool_decide_eq_false in Hw. tauto. }
  match goal with |- context [if ?b then try_sizes _ _ _ _ _ _ _ else _] => destruct b eqn:Hgo end; [|by apply Hstop].
  rewrite andb_true_iff, !bool_decide_eq_true in Hgo. destruct Hgo as [Hnz Hle].
  assert (H8 : u8 (cs * 2) = cs * 2).
  { destruct (decide (cs = 128)) as [->|]; [done|]. apply wrap_small. lia. }
  rewrite H8 in *. apply IH; [destruct Hok; split; (done || lia)|done|].
  rewrite Nat2Z.inj_succ, Z.pow_succ_r in Hfuel by lia. lia.
Qed.

(** *** Fields of the boot sector *)

Lemma put_length off data s : length (bs (put off data s)) = length (bs s).
Proof. apply write_at_length. Qed.

Lemma get8_put_same off v s : 0 <= off < Z.of_nat (length (bs s)) -> get8 off (put8 off v s) = u8 v.
Proof.
  intros H. apply nth_lookup_Some. unfold put8, put, set_bs; cbn [bs]. rewrite write_at_lookup by (cbn; lia).
  rewrite decide_True by (cbn; lia). by rewrite Nat.sub_diag.
Qed.

Lemma get8_put_other off off' data s :
  0 <= off < off' -> off < Z.of_nat (length (bs s)) -> get8 off (put off' data s) = get8 off s.
Proof.
  intros Hoff Hl. unfold get8, put, set_bs; cbn [bs].
  destruct (lookup_lt_is_Some_2 (bs s) (Z.to_nat off)) as [x Hx]; [lia|].
  rewrite (nth_lookup_Some _ _ 0 _ Hx). apply nth_lookup_Some. rewrite write_at_lookup by lia.
  by rewrite decide_False by lia.
Qed.

(** *** The choice *)

(** What the options give before the sizes are chosen; a disk of less than 2^28 sectors. *)
Record choice_ok (o : mk_options) (num_sectors : Z) (s : mk_state) : Prop := {
  ch_fats : 1 <= nr_fats o <= 4;
  ch_sector : 512 <= sector_size s <= 32768;
  ch_root : 0 <= root_dir_entries s < 2 ^ 16;
  ch_reserved : 0 <= reserved_sectors s < 2 ^ 16;
  ch_sectors : 0 <= num_sectors < 2 ^ 28;
  ch_size_fat : size_fat s = 0 \/ size_fat s = 12 \/ (size_fat s = 16 /\ size_fat_by_user o = true) \/ size_fat s = 32;
  ch_spc : 0 <= sectors_per_cluster o <= 128;
  ch_cluster : 1 <= cluster_size s <= 128;
  ch_bs : length (bs s) = 512%nat;
}.

(** The sectors behind the reserved ones and the root directory. *)
Definition data_sectors (num_sectors : Z) (s : mk_state) : Z :=
  num_sectors - (root_dir_entries s * 32 + sector_size s - 1) / sector_size s - reserved_sectors s.

(** The state with the sizes in it. *)
Definition sized_state (bits cs fl : Z) (s : mk_state) : mk_state :=
  let s := set_size_fat bits (put8 13 cs s) in
  if bool_decide (bits = 32) then put 82 (str_bytes "FAT32   ") (put32 36 fl (put16 22 0 s))
  else put 54 (str_bytes (if bool_decide (bits = 16) then "FAT16   " else "FAT12   ")) (put16 22 fl s).

(** The user's size of a cluster replaces the guess. *)
Definition first_guess (o : mk_options) (s : mk_state) : mk_state :=
  if bool_decide (sectors_per_cluster o <> 0) then put8 13 (sectors_per_cluster o) s else s.

Lemma set_size_fat_same s : set_size_fat (size_fat s) s = s.
Proof. by destruct s. Qed.

Ltac closed_tests :=
  repeat match goal with
  | |- context [bool_decide (?a = ?b)] =>
      (rewrite (bool_decide_eq_true_2 (a = b)) by done) || (rewrite (bool_decide_eq_false_2 (a = b)) by done)
  end.

Lemma choose_size_spec o num_sectors s :
  choice_ok o num_sectors s -> 0 <= data_sectors num_sectors s ->
  exists c fl cs bits, choose_size o num_sectors s = Ret (c, fl, sized_state bits cs fl (first_guess o s)) /\
    (bits = 12 \/ bits = 16 \/ bits = 32) /\ (bits = size_fat s \/ size_fat s = 0 /\ bits <> 32) /\
    (bits = 16 -> FAT12_THRESHOLD <= c \/ size_fat s = 16) /\ (bits = 12 -> c <= MAX_CLUST_12 - 2) /\
    (c <> 0 -> 1 <= cs <= 128 /\ table_fits o bits (data_sectors num_sectors s) (sector_size s) cs c fl).
Proof.
  intros [Hf Hs Hr Hres Hn Hbits Hspc Hcs Hbs] Hd. unfold choose_size. rewrite cdiv_small by lia. run.
  assert (Hroots : 0 <= (root_dir_entries s * 32 + sector_size s - 1) / sector_size s) by (apply Z.div_pos; lia).
  rewrite (wrap_small 32 (num_sectors - _ - _)) by (unfold data_sectors in Hd; lia). fold (data_sectors num_sectors s).
  fold (first_guess o s). set (g := first_guess o s).
  assert (Hg : sector_size g = sector_size s /\ size_fat g = size_fat s /\ 1 <= cluster_size g <= 128).
  { unfold g, first_guess. case_bool_decide; [|done]. split; [done|]. split; [done|]. unfold cluster_size.
    rewrite get8_put_same by lia. rewrite (wrap_small 8) by lia. lia. }
  destruct Hg as (-> & Hgf & Hgc). rewrite Hgf.
  destruct (try_sizes_spec o 9 (size_fat s) (data_sectors num_sectors s) (sector_size s)
              (if bool_decide (sectors_per_cluster o <> 0) then sectors_per_cluster o else 128) (cluster_size g))
    as (cs & [c12 f12] & [c16 f16] & [c32 f32] & -> & Hl12 & Hl16 & Hthr & Hwant); cbn [fst snd] in *.
  { split; [done|done|done|]. unfold data_sectors in *. lia. }
  { case_bool_decide; lia. }
  { change (2 ^ Z.of_nat 9) with 512. lia. }
  run. cbn [size_fat set_size_fat put8 put set_bs].
  change (size_fat (put8 13 cs g)) with (size_fat g). rewrite Hgf.
  assert (Hsame : forall b, size_fat s = b -> put8 13 cs g = set_size_fat b (put8 13 cs g)).
  { intros b Hb. rewrite <- Hb, <- Hgf. done. }
  destruct Hbits as [H0|[H12|[[H16 Hu]|H32]]].
  - rewrite H0 in *. rewrite (bool_decide_eq_true_2 (0 = 0)) by done. cbn [size_fat set_size_fat].
    destruct (bool_decide (c16 > c12)) eqn:Hgt; closed_tests.
    + apply bool_decide_eq_true in Hgt. destruct (Hthr ltac:(lia)) as [Hbig|[_ ?]]; [|done].
      rewrite (bool_decide_eq_false_2 (c16 < _)) by lia. run.
      exists c16, f16, cs, 16. split; [done|]. split; [tauto|]. split; [first [by left|by right]|]. split; [tauto|]. split; [done|].
      intros Hnz. destruct Hwant as [? _ ? _]; [unfold wanted; cbn; tauto|]. cbn in *. tauto.
    + apply bool_decide_eq_false in Hgt.
      exists c12, f12, cs, 12. split; [done|]. split; [tauto|]. split; [first [by left|by right]|]. split; [done|]. split; [lia|].
      intros Hnz. destruct Hwant as [? ? _ _]; [unfold wanted; cbn; tauto|]. cbn in *. tauto.
  - rewrite (Hsame 12 H12), H12 in *. closed_tests.
    exists c12, f12, cs, 12. split; [done|]. split; [tauto|]. split; [first [by left|by right]|]. split; [done|]. split; [lia|].
    intros Hnz. destruct Hwant as [? ? _ _]; [unfold wanted; cbn; tauto|]. cbn in *. tauto.
  - rewrite (Hsame 16 H16), H16, Hu in *. closed_tests. rewrite orb_true_r. run.
    exists c16, f16, cs, 16. split; [done|]. split; [tauto|]. split; [first [by left|by right]|]. split; [tauto|]. split; [done|].
    intros Hnz. destruct Hwant as [? _ ? _]; [unfold wanted; cbn; tauto|]. cbn in *. tauto.
  - rewrite (Hsame 32 H32), H32 in *. closed_tests.
    exists c32, f32, cs, 32. split; [done|]. split; [tauto|]. split; [by left|]. split; [done|]. split; [done|].
    intros Hnz. destruct Hwant as [? _ _ ?]; [unfold wanted; cbn; tauto|]. cbn in *. tauto.
Qed.

Lemma sized_cluster bits cs fl s :
  length (bs s) = 512%nat -> 1 <= cs <= 128 ->
  size_fat (sized_state bits cs fl s) = bits /\ cluster_size (sized_state bits cs fl s) = cs.
Proof.
  intros Hl Hcs. unfold sized_state, cluster_size. split; [by case_bool_decide|].
  case_bool_decide; unfold put32, put16; rewrite !get8_put_other by (rewrite ?put_length; change (length (bs (set_size_fat bits (put8 13 cs s)))) with (length (bs (put 13 [u8 cs] s)));
      rewrite ?put_length; lia).
  all: change (get8 13 (put8 13 cs s) = cs); rewrite get8_put_same by lia; apply wrap_small; lia.
Qed.

Lemma first_guess_length o s : length (bs (first_guess o s)) = length (bs s).
Proof. unfold first_guess. case_bool_decide; [apply put_length|done]. Qed.

(** C13: for every disk of less than 2^28 sectors that has the reserved sectors and
    the root directory, the choice of the sizes ends without overflow, and a size
    that it accepts fits: the table has an entry for each cluster and the two in
    front, tables and clusters fit the disk, although the intermediate numbers may
    have wrapped. A table of 12 or 16 bits is chosen for the number of clusters that
    is read as one of that width, except 16 bits that the user asked for; how many
    clusters one of 32 bits has is not said. *)
Theorem choose_size_fits o num_sectors s :
  choice_ok o num_sectors s -> 0 <= data_sectors num_sectors s ->
  exists c fl s', choose_size o num_sectors s = Ret (c, fl, s') /\
    (c <> 0 ->
      table_fits o (size_fat s') (data_sectors num_sectors s) (sector_size s) (cluster_size s') c fl /\
      (size_fat s' = 12 /\ c < FAT12_THRESHOLD \/ size_fat s' = 16 /\ (FAT12_THRESHOLD <= c \/ size_fat s = 16) \/
       size_fat s' = 32)).
Proof.
  intros Hc Hd. destruct (choose_size_spec o num_sectors s Hc Hd) as (c & fl & cs & bits & -> & Hbits & _ & H16 & H12 & Hfit).
  eexists _, _, _. split; [reflexivity|]. intros Hnz. destruct (Hfit Hnz) as [Hcs Htab].
  destruct (sized_cluster bits cs fl (first_guess o s)) as [-> ->]; [rewrite first_guess_length; apply Hc|done|].
  split; [done|]. destruct Hbits as [-> | [-> | ->]]; [|tauto|tauto].
  left. split; [done|]. specialize (H12 eq_refl). unfold MAX_CLUST_12, FAT12_THRESHOLD in *. lia.
Qed.

(** A floppy of 1.44 MB with the defaults. *)
Definition floppy_options : mk_options :=
  MkOptions false 0x12345678 (replicate 11 32) 1440 false false 2 0 0 dummy_boot_code.

Definition floppy_state : mk_state :=
  MkState (replicate 13 0 ++ [1; 0; 0; 0; 224] ++ replicate 3 0 ++ [0xf0] ++ replicate 490 0) 512 0 1 224 0.

Lemma choose_size_fits_witness :
  choice_ok floppy_options 2880 floppy_state /\
  exists c fl s', choose_size floppy_options 2880 floppy_state = Ret (c, fl, s') /\
    c = 2847 /\ table_fits floppy_options 12 2865 512 1 c fl.
Proof.
  assert (H : choice_ok floppy_options 2880 floppy_state).
  { split; try (vm_compute; split; congruence). left. vm_compute. reflexivity. }
  split; [exact H|].
  destruct (choose_size_fits floppy_options 2880 floppy_state H ltac:(vm_compute; congruence)) as (c & fl & s' & He & Hfit).
  exists c, fl, s'. assert (Hv : choose_size floppy_options 2880 floppy_state = Ret (c, fl, s')) by exact He.
  vm_compute in Hv. injection Hv as <- <- <-. split; [exact He|]. split; [reflexivity|].
  destruct (Hfit ltac:(discriminate)) as [Ht _]. exact Ht.
Defined.

(** ** Bad blocks on FAT32 *)

(** The bytes of an entry of FAT32. *)
Definition mark_bytes (v : Z) : list Z :=
  let v := Z.land v 0xfffffff in
  [u8 (Z.land v 0xff); u8 (Z.shiftr (Z.land v 0xff00) 8); u8 (Z.shiftr (Z.land v 0xff0000) 16);
   u8 (Z.shiftr (Z.land v 0xff000000) 24)].

Lemma mark_FAT_cluster_32 n v fat :
  0 <= n -> 4 * n + 4 <= Z.of_nat (length fat) ->
  mark_FAT_cluster 32 n v fat = Ret (write_at (4 * n) (mark_bytes v) fat).
Proof.
  intros Hn Hl. unfold mark_FAT_cluster. closed_tests. unfold set_byte, mark_bytes.
  do 4 (rewrite mem_write_at by (rewrite ?write_at_length; cbn [length]; lia); run).
  f_equal. symmetry.
  repeat match goal with
  | |- write_at ?p (?x :: ?y :: ?l) _ = _ =>
      rewrite (write_at_app p [x] (y :: l)) by lia; change (Z.of_nat (length [x])) with 1
  end.
  by rewrite <- !Z.add_assoc.
Qed.

(** On FAT32 a bad sector of cluster [c] marks the entry of the cluster two
    before it, and the entry of [c] stays as it was. *)
Theorem bad_sector_marks_other sector c t :
  let s := t_state t in
  size_fat s = 32 -> sector_size s = 512 -> 1 <= cluster_size s -> 0 <= start_data_sector t -> 2 <= c ->
  4 * c + 4 <= Z.of_nat (length (t_fat t)) -> sector < 2 ^ 31 ->
  start_data_sector t + (c - 2) * cluster_size s <= sector < start_data_sector t + (c - 1) * cluster_size s ->
  exists t', mark_FAT_sector sector FAT_BAD t = Ret t' /\
    read_at (4 * (c - 2)) 4 (t_fat t') = [0xf7; 0xff; 0xff; 0x0f] /\
    read_at (4 * c) 4 (t_fat t') = read_at (4 * c) 4 (t_fat t).
Proof.
  intros s Hbits Hss Hcs Hst Hc Hl Hs31 Hsec. unfold mark_FAT_sector. fold s. rewrite Hbits, Hss.
  assert (0 <= (c - 2) * cluster_size s) by nia.
  assert (s32 sector = sector) as -> by (apply swrap_small; lia). change (Z.quot 512 HARD_SECTOR_SIZE) with 1.
  rewrite Z.quot_1_r. assert (Z.quot (sector - start_data_sector t) (cluster_size s) = c - 2) as ->.
  { rewrite Z.quot_div_nonneg by lia. symmetry. apply Z.div_unique with (sector - start_data_sector t - (c - 2) * cluster_size s); lia. }
  rewrite bool_decide_eq_false_2 by lia. run. rewrite mark_FAT_cluster_32 by lia. run.
  eexists. split; [reflexivity|]. cbn [t_fat set_table]. change (mark_bytes FAT_BAD) with [0xf7; 0xff; 0xff; 0x0f]. split.
  - apply read_write_same; cbn [length]; lia.
  - apply read_write_outside; cbn [length]; lia.
Qed.

(** A table of FAT32 for a few clusters, from sector 64 on. *)
Definition small_tables32 : mk_tables :=
  MkTables (MkState (write_at 13 [1] (replicate 512 0)) 512 32 32 0 6) 100 1 64 32 (replicate 512 0) [] None.

Lemma bad_sector_marks_other_witness :
  exists t', mark_FAT_sector 67 FAT_BAD small_tables32 = Ret t' /\ read_at 12 4 (t_fat t') = [0xf7; 0xff; 0xff; 0x0f] /\
    read_at 20 4 (t_fat t') = [0; 0; 0; 0].
Proof.
  destruct (bad_sector_marks_other 67 5 small_tables32) as (t' & H1 & H2 & H3); try (vm_compute; (reflexivity || congruence)).
  - vm_compute. split; congruence.
  - exists t'. split; [exact H1|]. split; [exact H2|exact H3].
Defined.
