(* ===== verification/MkdosfsBoot.v ===== *)
(** * What mkdosfs makes and dosfsck reads

    The fields of the boot sector that [Mkdosfs.setup_tables] fills for FAT12 and
    FAT16, the disk that [Mkdosfs.write_tables] leaves, and the geometry and table
    that [DosBoot] and [DosFat] find on it. *)

From S2P Require Import Prelude DosIo DosFat DosBoot Mkdosfs.

(** ** Fields of the state *)

(** A field of the boot sector in memory. *)
Definition fld (off n : Z) (s : mk_state) : Z := field off n (bs s).

(** The bytes from [lo] to [hi] do not meet the field. *)
Definition apart (off n lo hi : Z) : Prop := off + n <= lo \/ hi <= off.

Definition whole (s : mk_state) : Prop := length (bs s) = 512%nat.

Lemma whole_put off data s : whole s -> whole (put off data s).
Proof. unfold whole. by rewrite put_length. Qed.

Lemma fld_put_other off n p data s :
  whole s -> 0 <= off -> 0 <= n -> off + n <= 512 -> 0 <= p -> apart off n p (p + Z.of_nat (length data)) ->
  fld off n (put p data s) = fld off n s.
Proof.
  intros Hw Ho Hn Hl Hp Ha. unfold fld, put, set_bs; cbn [bs]. apply field_write_other; try done.
  - rewrite Hw. lia.
  - destruct Ha; [by right|by left].
Qed.

Lemma fld_put_same off n v s :
  whole s -> 0 <= off -> 0 <= n -> off + n <= 512 ->
  fld off n (put off (Z_to_little_endian n 8 v) s) = v mod 2 ^ (n * 8).
Proof.
  intros Hw Ho Hn Hl. unfold fld, put, set_bs; cbn [bs]. apply field_write_same; try done. rewrite Hw. lia.
Qed.

Lemma fld_put8_same off v s : whole s -> 0 <= off < 512 -> fld off 1 (put8 off v s) = u8 v.
Proof.
  intros Hw Ho. unfold put8. unfold fld, put, set_bs; cbn [bs]. unfold field.
  rewrite read_write_same; [|done|lia|rewrite Hw; cbn; lia]. cbn. apply Z.lor_0_r.
Qed.

Lemma whole_set_size_fat b s : whole s -> whole (set_size_fat b s).
Proof. done. Qed.

Lemma whole_set_root e s : whole s -> whole (set_root_entries e s).
Proof. done. Qed.

Lemma whole_set_reserved e s : whole s -> whole (set_reserved e s).
Proof. done. Qed.

Lemma fld_set_size_fat off n b s : fld off n (set_size_fat b s) = fld off n s.
Proof. done. Qed.

Lemma fld_set_root off n e s : fld off n (set_root_entries e s) = fld off n s.
Proof. done. Qed.

Lemma fld_set_reserved off n e s : fld off n (set_reserved e s) = fld off n s.
Proof. done. Qed.

Create HintDb dosfmt.

#[export] Hint Resolve whole_put whole_set_size_fat whole_set_root whole_set_reserved : dosfmt.

(** The fields that a function of the state leaves alone. *)
Ltac frame_side :=
  first [by eauto 20 with dosfmt
        |left; vm_compute; congruence
        |right; vm_compute; congruence
        |try (unfold apart in *); rewrite ?length_Z_to_little_endian by lia; cbn [length app str_bytes] in *; lia].

Ltac frame_put :=
  unfold put8, put16, put32;
  repeat match goal with
  | _ => rewrite fld_set_size_fat || rewrite fld_set_root || rewrite fld_set_reserved
  | |- context [fld ?a ?b (put ?p ?d ?x)] => rewrite (fld_put_other a b p d x) by frame_side
  end.

Section Stages.

Variable o : mk_options.
Hypothesis plain_format : atari_format o = false.
Hypothesis name_length : length (volume_name o) = 11%nat.
Hypothesis code_length : length (boot_code o) = 448%nat.

Section Field.

Variables off n : Z.
Hypothesis field_inside : 0 <= off /\ 0 <= n /\ off + n <= 512.

Lemma put_names_frame s :
  whole s -> size_fat s <> 32 -> apart off n 3 11 -> apart off n 13 14 -> apart off n 17 19 -> apart off n 39 43 ->
  fld off n (put_names o s) = fld off n s.
Proof.
  intros Hw Hb H3 H13 H17 H39. unfold put_names. rewrite plain_format. unfold vi_offset.
  destruct (bool_decide (sectors_per_cluster o <> 0)); cbn [size_fat put8 put set_bs root_dir_entries];
    rewrite ?(bool_decide_eq_false_2 (size_fat s = 32)) by done;
    destruct (bool_decide (root_dir_entries s <> 0)); cbn [size_fat put8 put set_bs set_root_entries];
    rewrite ?(bool_decide_eq_false_2 (size_fat s = 32)) by done; by frame_put.
Qed.

Lemma put_boot_code_frame s :
  whole s -> size_fat s <> 32 -> apart off n 0 3 -> apart off n 43 54 -> apart off n 62 510 -> apart off n 510 512 ->
  fld off n (put_boot_code o s) = fld off n s.
Proof.
  intros Hw Hb H0 H43 H62 H510. unfold put_boot_code, vi_offset, code_offset. rewrite plain_format.
  cbn [size_fat put set_bs]. rewrite ?(bool_decide_eq_false_2 (size_fat s = 32)) by done. by frame_put.
Qed.

Lemma put_reserved_frame s s' :
  put_reserved o s = Ret s' -> whole s -> apart off n 14 17 -> apart off n 28 32 -> fld off n s' = fld off n s.
Proof.
  intros H Hw H14 H28. unfold put_reserved in H. rewrite plain_format in H. invert_run; by frame_put.
Qed.

Lemma sized_frame bits cs fl s :
  whole s -> bits <> 32 -> apart off n 13 14 -> apart off n 22 24 -> apart off n 54 62 ->
  fld off n (sized_state bits cs fl s) = fld off n s.
Proof.
  intros Hw Hb H13 H22 H54. unfold sized_state. rewrite bool_decide_eq_false_2 by done.
  destruct (bool_decide (bits = 16)); by frame_put.
Qed.

Lemma put_total_frame num s s' :
  put_total o num s = Ret s' -> whole s -> size_fat s <> 32 -> apart off n 19 21 -> apart off n 32 36 -> apart off n 38 39 ->
  fld off n s' = fld off n s.
Proof.
  intros H Hw Hb H19 H32 H38. unfold put_total, vi_offset in H. rewrite plain_format in H.
  destruct (bool_decide (num >= 65536)); invert_run;
    cbn [size_fat put8 put16 put32 put set_bs]; rewrite ?(bool_decide_eq_false_2 (size_fat s = 32)) by done; by frame_put.
Qed.

End Field.

(** *** What they put there *)

Lemma lor_bytes a b : byte a -> Z.lor a (Z.shiftl b 8) = a + 256 * b.
Proof.
  intros Ha. unfold byte in Ha. assert (Hl : Z.land a (Z.shiftl b 8) = 0).
  { apply Z.bits_inj'. intros i Hi. rewrite Z.land_spec, Z.bits_0. destruct (decide (i < 8)).
    - rewrite (Z.shiftl_spec_low b) by lia. apply andb_false_r.
    - destruct (decide (a = 0)) as [->|]; [by rewrite Z.bits_0|].
      rewrite (Z.bits_above_log2 a); [done|lia|]. assert (Z.log2 a < 8) by (apply Z.log2_lt_pow2; lia). lia. }
  pose proof (Z.add_lor_land a (Z.shiftl b 8)). rewrite Hl, Z.shiftl_mul_pow2 in * by lia. lia.
Qed.

Lemma get8_fld off s : whole s -> 0 <= off < 512 -> fld off 1 s = get8 off s.
Proof.
  intros Hw Ho. unfold fld, field, get8, read_at.
  destruct (lookup_lt_is_Some_2 (bs s) (Z.to_nat off)) as [x Hx]; [rewrite Hw; lia|].
  rewrite (nth_lookup_Some _ _ 0 _ Hx), (drop_S _ x) by done. cbn. apply Z.lor_0_r.
Qed.

Lemma fld_two off s :
  whole s -> Forall byte (bs s) -> 0 <= off < 511 -> fld off 2 s = get8 off s + Z.shiftl (get8 (off + 1) s) 8.
Proof.
  intros Hw Hb Ho. unfold fld, field, get8, read_at.
  destruct (lookup_lt_is_Some_2 (bs s) (Z.to_nat off)) as [x Hx]; [rewrite Hw; lia|].
  destruct (lookup_lt_is_Some_2 (bs s) (Z.to_nat (off + 1))) as [y Hy]; [rewrite Hw; lia|].
  rewrite (nth_lookup_Some _ _ 0 _ Hx), (nth_lookup_Some _ _ 0 _ Hy), (drop_S _ x) by done.
  replace (Z.to_nat (off + 1)) with (S (Z.to_nat off)) in Hy by lia. rewrite (drop_S _ y) by done.
  change (Z.to_nat 2) with 2%nat. cbn [take little_endian_to_Z]. rewrite Z.shiftl_0_l, Z.lor_0_r, lor_bytes, Z.shiftl_mul_pow2;
    [lia|lia|]. by eapply Forall_lookup_1 in Hx.
Qed.

(** The number of entries of the root directory: the user's, or that of the medium. *)
Definition root_count (s : mk_state) : Z :=
  if bool_decide (root_dir_entries s <> 0) then root_dir_entries s else fld 17 2 s.

Lemma le_two_bytes v : 0 <= v < 2 ^ 16 -> [u8 v; u8 (Z.shiftr (Z.land v 0xff00) 8)] = Z_to_little_endian 2 8 v.
Proof.
  intros Hv. assert (Hs : Z.shiftr (Z.land v 0xff00) 8 = Z.shiftr v 8).
  { rewrite Z.shiftr_land. change (Z.shiftr 0xff00 8) with (Z.ones 8). rewrite Z.land_ones by lia.
    apply Z.mod_small. rewrite Z.shiftr_div_pow2 by lia. dlia. }
  rewrite Hs. change (Z_to_little_endian 2 8 v) with [Z.land v (Z.ones 8); Z.land (Z.shiftr v 8) (Z.ones 8)].
  by rewrite !Z.land_ones by lia.
Qed.

Lemma put_put off a b s : 0 <= off -> put (off + Z.of_nat (length a)) b (put off a s) = put off (a ++ b) s.
Proof. intros Ho. unfold put, set_bs; cbn [bs]. f_equal. symmetry. by apply write_at_app. Qed.

Lemma put_bytes off data s : Forall byte data -> Forall byte (bs s) -> Forall byte (bs (put off data s)).
Proof. intros Hd Hs. unfold put, set_bs; cbn [bs]. by apply write_at_bytes. Qed.

(** The state that [put_names] works on when it comes to the root directory. *)
Definition named (s : mk_state) : mk_state := first_guess o (put 3 (str_bytes "mkdosfs" ++ [0]) s).

Lemma named_same s : size_fat (named s) = size_fat s /\ root_dir_entries (named s) = root_dir_entries s /\
  sector_size (named s) = sector_size s /\ reserved_sectors (named s) = reserved_sectors s /\
  (whole s -> whole (named s) /\ fld 17 2 (named s) = fld 17 2 s).
Proof.
  unfold named, first_guess. case_bool_decide; (do 4 (split; [done|]); intros Hw; split; [unfold put8; by eauto with dosfmt|]);
    by frame_put.
Qed.

Lemma named_bytes s : Forall byte (bs s) -> Forall byte (bs (named s)).
Proof.
  intros Hb. unfold named, first_guess. assert (Forall byte (bs (put 3 (str_bytes "mkdosfs" ++ [0]) s))).
  { apply put_bytes; [|done]. apply (bool_decide_unpack _). by vm_compute. }
  case_bool_decide; [|done]. apply put_bytes; [|done]. constructor; [apply byte_u8|done].
Qed.

Lemma put_names_named s :
  size_fat s <> 32 ->
  put_names o s =
    put 39 (Z_to_little_endian 4 8 (volume_id o))
      (if bool_decide (root_dir_entries s <> 0)
       then put8 18 (Z.shiftr (Z.land (root_dir_entries s) 0xff00) 8) (put8 17 (root_dir_entries s) (named s))
       else set_root_entries (get8 17 (named s) + Z.shiftl (get8 18 (named s)) 8) (named s)).
Proof.
  intros Hb. unfold put_names. rewrite plain_format. fold (named s). fold (first_guess o (put 3 (str_bytes "mkdosfs" ++ [0]) s)).
  fold (named s). destruct (named_same s) as (-> & -> & _). rewrite (bool_decide_eq_false_2 (size_fat s = 32)) by done.
  unfold vi_offset. destruct (named_same s) as (Hs & _).
  destruct (bool_decide (root_dir_entries s <> 0));
    match goal with |- context [bool_decide (size_fat ?x = 32)] => change (size_fat x) with (size_fat (named s)) end;
    by rewrite Hs, (bool_decide_eq_false_2 (size_fat s = 32)) by done.
Qed.

Lemma put_names_root s :
  whole s -> Forall byte (bs s) -> size_fat s <> 32 -> 0 <= root_dir_entries s < 2 ^ 16 ->
  let s' := put_names o s in
  whole s' /\ size_fat s' = size_fat s /\ sector_size s' = sector_size s /\ reserved_sectors s' = reserved_sectors s /\
  root_dir_entries s' = root_count s /\ fld 17 2 s' = root_count s.
Proof.
  intros Hw Hb Hsf Hr. cbv zeta. rewrite put_names_named by done.
  destruct (named_same s) as (H1 & H2 & H3 & H4 & H5). destruct (H5 Hw) as [Hwn H17]. pose proof (named_bytes s Hb) as Hbn.
  unfold root_count. case_bool_decide as Hz.
  - cbn [size_fat sector_size reserved_sectors root_dir_entries put put8 set_bs]. rewrite H1, H2, H3, H4.
    split; [apply whole_put, whole_put, whole_put, Hwn|]. do 4 (split; [done|]).
    rewrite fld_put_other by (frame_side || apply whole_put, whole_put, Hwn).
    unfold put8. change 18 with (17 + Z.of_nat (length [u8 (root_dir_entries s)])). rewrite put_put by lia. cbn [app].
    rewrite le_two_bytes, fld_put_same by (done || lia). apply Z.mod_small. lia.
  - cbn [size_fat sector_size reserved_sectors root_dir_entries put set_bs set_root_entries]. rewrite H1, H3, H4.
    split; [by apply whole_put, whole_set_root|]. do 3 (split; [done|]).
    rewrite <- H17. split; [symmetry; by apply (fld_two 17)|]. rewrite fld_put_other by frame_side. by rewrite fld_set_root.
Qed.

Lemma put_boot_code_same s :
  whole s -> whole (put_boot_code o s) /\ size_fat (put_boot_code o s) = size_fat s /\
  sector_size (put_boot_code o s) = sector_size s /\ reserved_sectors (put_boot_code o s) = reserved_sectors s /\
  root_dir_entries (put_boot_code o s) = root_dir_entries s.
Proof.
  intros Hw. unfold put_boot_code. rewrite plain_format.
  case_bool_decide; (split; [unfold put16; repeat apply whole_put; done|done]).
Qed.

Lemma put_reserved_spec s :
  whole s -> size_fat s <> 32 -> 0 <= reserved_sectors s < 2 ^ 16 -> 0 <= nr_fats o < 2 ^ 8 ->
  exists s', put_reserved o s = Ret s' /\ whole s' /\
    (size_fat s' = size_fat s /\ sector_size s' = sector_size s /\ root_dir_entries s' = root_dir_entries s) /\
    reserved_sectors s' = (if bool_decide (reserved_sectors s = 0) then 1 else reserved_sectors s) /\
    fld 14 2 s' = reserved_sectors s' /\ fld 16 1 s' = nr_fats o.
Proof.
  intros Hw Hb Hr Hn. unfold put_reserved. rewrite plain_format, (bool_decide_eq_false_2 (size_fat s = 32)) by done.
  set (s1 := if bool_decide (reserved_sectors s = 0) then set_reserved 1 s else s).
  assert (H1 : whole s1 /\ size_fat s1 = size_fat s /\ sector_size s1 = sector_size s /\ root_dir_entries s1 = root_dir_entries s /\
    reserved_sectors s1 = (if bool_decide (reserved_sectors s = 0) then 1 else reserved_sectors s)).
  { unfold s1. by case_bool_decide. }
  exists (put32 28 (hidden_sectors o) (put8 16 (nr_fats o) (put16 14 (reserved_sectors s1) s1))).
  split; [unfold s1; by case_bool_decide|]. destruct H1 as (Hw1 & H2 & H3 & H4 & H5).
  assert (H14 : whole (put16 14 (reserved_sectors s1) s1)) by by apply whole_put.
  split; [by do 2 apply whole_put|]. split; [done|]. split; [done|]. unfold put32. split.
  - rewrite fld_put_other by (frame_side || by apply whole_put). unfold put8. rewrite fld_put_other by (done || frame_side).
    unfold put16. rewrite fld_put_same by (done || lia). cbn [reserved_sectors put set_bs]. apply Z.mod_small. rewrite H5. case_bool_decide; lia.
  - rewrite fld_put_other by (frame_side || by apply whole_put). rewrite fld_put8_same by (done || lia). by apply wrap_small.
Qed.

Lemma sized_fields bits cs fl s :
  whole s -> bits <> 32 -> 1 <= cs <= 128 -> 0 <= fl < 2 ^ 16 ->
  let s' := sized_state bits cs fl s in
  whole s' /\ (size_fat s' = bits /\ sector_size s' = sector_size s /\ root_dir_entries s' = root_dir_entries s /\
    reserved_sectors s' = reserved_sectors s) /\ fld 13 1 s' = cs /\ fld 22 2 s' = fl.
Proof.
  intros Hw Hb Hcs Hfl. cbv zeta. unfold sized_state. rewrite bool_decide_eq_false_2 by done.
  set (sign := str_bytes _). assert (Hs : length sign = 8%nat) by (unfold sign; by case_bool_decide).
  assert (H13 : whole (set_size_fat bits (put8 13 cs s))) by by apply whole_put.
  assert (H22 : whole (put16 22 fl (set_size_fat bits (put8 13 cs s)))) by by apply whole_put.
  split; [by apply whole_put|]. split; [done|].
  split; rewrite fld_put_other by (done || (unfold apart; rewrite ?Hs; lia)); unfold put16.
  - rewrite fld_put_other by (done || frame_side). rewrite fld_set_size_fat, fld_put8_same by (done || lia). apply wrap_small. lia.
  - rewrite fld_put_same by (done || lia). apply Z.mod_small. lia.
Qed.

Lemma put_total_spec num s :
  whole s -> size_fat s <> 32 -> 0 <= num < 2 ^ 32 ->
  exists s', put_total o num s = Ret s' /\ whole s' /\ total_sectors (bs s') = num /\
    (size_fat s' = size_fat s /\ sector_size s' = sector_size s /\ root_dir_entries s' = root_dir_entries s /\
     reserved_sectors s' = reserved_sectors s).
Proof.
  intros Hw Hb Hnum. unfold put_total, vi_offset. rewrite plain_format. run.
  eexists. split; [reflexivity|]. set (s1 := if bool_decide (num >= 65536) then _ else _).
  assert (Hsf : size_fat s1 = size_fat s) by (unfold s1; by case_bool_decide).
  rewrite Hsf, (bool_decide_eq_false_2 (size_fat s = 32)) by done.
  change (36 + 2) with 38. assert (H1 : whole s1) by (unfold s1; case_bool_decide; by do 2 apply whole_put).
  split; [by apply whole_put|]. split; [|unfold s1; by case_bool_decide].
  unfold total_sectors, sectors, total_sect. fold (fld 19 2 (put8 38 MSDOS_EXT_SIGN s1)).
  fold (fld 32 4 (put8 38 MSDOS_EXT_SIGN s1)). unfold put8. rewrite !fld_put_other by (done || frame_side).
  unfold s1. destruct (bool_decide (num >= 65536)) eqn:Hbig; [apply bool_decide_eq_true in Hbig|apply bool_decide_eq_false in Hbig].
  - assert (H19 : whole (put 19 [0; 0] s)) by by apply whole_put. unfold put32. rewrite fld_put_other by (done || frame_side).
    assert (Hz : fld 19 2 (put 19 [0; 0] s) = 0).
    { change [0; 0] with (Z_to_little_endian 2 8 0). rewrite fld_put_same by (done || lia). done. }
    rewrite Hz. rewrite (bool_decide_eq_false_2 (0 <> 0)) by (intros H; by apply H). rewrite fld_put_same by (done || lia). apply Z.mod_small. lia.
  - assert (H19 : whole (put16 19 num s)) by by apply whole_put. unfold put32. rewrite (fld_put_other 19) by (done || frame_side).
    rewrite (fld_put_same 32) by (done || lia). unfold put16. rewrite fld_put_same by (done || lia).
    rewrite Z.mod_small by (change (2 ^ (2 * 8)) with 65536; lia). case_bool_decide as Hz; [done|]. change (0 mod 2 ^ (4 * 8)) with 0.
    lia.
Qed.

(** *** Bytes *)

Hypothesis name_bytes : Forall byte (volume_name o).
Hypothesis code_bytes : Forall byte (boot_code o).

Lemma put8_bytes off v s : Forall byte (bs s) -> Forall byte (bs (put8 off v s)).
Proof. apply put_bytes. constructor; [apply byte_u8|done]. Qed.

Lemma put16_bytes off v s : Forall byte (bs s) -> Forall byte (bs (put16 off v s)).
Proof. apply put_bytes. by apply (Z_to_little_endian_bound 2 8). Qed.

Lemma put32_bytes off v s : Forall byte (bs s) -> Forall byte (bs (put32 off v s)).
Proof. apply put_bytes. by apply (Z_to_little_endian_bound 4 8). Qed.

Lemma literal_bytes l : bool_decide (Forall byte l) = true -> Forall byte l.
Proof. apply bool_decide_eq_true_1. Qed.

Lemma put_names_bytes s : size_fat s <> 32 -> Forall byte (bs s) -> Forall byte (bs (put_names o s)).
Proof.
  intros Hb Hs. rewrite put_names_named by done. apply put_bytes; [by apply (Z_to_little_endian_bound 4 8)|].
  pose proof (named_bytes s Hs). case_bool_decide; [by do 2 apply put8_bytes|done].
Qed.

Lemma put_boot_code_bytes s : size_fat s <> 32 -> Forall byte (bs s) -> Forall byte (bs (put_boot_code o s)).
Proof.
  intros Hb Hs. unfold put_boot_code. rewrite plain_format. unfold code_offset. cbn [size_fat put set_bs].
  rewrite !(bool_decide_eq_false_2 (size_fat s = 32)) by done. apply put16_bytes, put_bytes; [done|].
  apply put_bytes; [by apply literal_bytes|]. by apply put_bytes.
Qed.

Lemma put_reserved_bytes s s' : put_reserved o s = Ret s' -> Forall byte (bs s) -> Forall byte (bs s').
Proof.
  intros H Hs. unfold put_reserved in H. rewrite plain_format in H. invert_run;
    try discriminate; by apply put32_bytes, put8_bytes, put16_bytes.
Qed.

Lemma sized_bytes bits cs fl s : Forall byte (bs s) -> Forall byte (bs (sized_state bits cs fl s)).
Proof.
  intros Hs. unfold sized_state. case_bool_decide; (apply put_bytes; [|first [apply put32_bytes|idtac]; apply put16_bytes; by apply put8_bytes]).
  - by apply literal_bytes.
  - case_bool_decide; by apply literal_bytes.
Qed.

Lemma put_total_bytes num s s' : put_total o num s = Ret s' -> Forall byte (bs s) -> Forall byte (bs s').
Proof.
  intros H Hs. unfold put_total in H. rewrite plain_format in H. destruct (bool_decide (num >= 65536)); invert_run; apply put8_bytes, put32_bytes.
  - apply put_bytes; [by apply literal_bytes|done].
  - by apply put16_bytes.
Qed.

(** *** The tables in memory *)

Lemma set_byte_app pre x post off v :
  off = Z.of_nat (length pre) -> set_byte off v (pre ++ x :: post) = Ret (pre ++ u8 v :: post).
Proof. intros ->. unfold set_byte. apply (mem_write_app pre [x] post _ [u8 v]); [done|done]. Qed.

Lemma set_byte_0 off v a r : off = 0 -> set_byte off v (a :: r) = Ret (u8 v :: r).
Proof. intros ->. by apply (set_byte_app []). Qed.

Lemma set_byte_1 off v a b r : off = 1 -> set_byte off v (a :: b :: r) = Ret (a :: u8 v :: r).
Proof. intros ->. by apply (set_byte_app [a]). Qed.

Lemma set_byte_2 off v a b c r : off = 2 -> set_byte off v (a :: b :: c :: r) = Ret (a :: b :: u8 v :: r).
Proof. intros ->. by apply (set_byte_app [a; b]). Qed.

Lemma set_byte_3 off v a b c d r : off = 3 -> set_byte off v (a :: b :: c :: d :: r) = Ret (a :: b :: c :: u8 v :: r).
Proof. intros ->. by apply (set_byte_app [a; b; c]). Qed.

Lemma byte_at_1 off a b r : off = 1 -> byte_at (a :: b :: r) off = Ret b.
Proof. by intros ->. Qed.

(** An empty table: the medium and ones in the first two entries. *)
Definition empty_table (bits media : Z) (size : nat) : list Z :=
  media :: replicate (if bool_decide (bits = 12) then 2 else 3) 255 ++ replicate (size - (if bool_decide (bits = 12) then 3 else 4)) 0.

Lemma table_marks bits media n :
  bits = 12 \/ bits = 16 -> byte media ->
  (fat ← mark_FAT_cluster bits 0 0xffffffff (0 :: 0 :: 0 :: 0 :: replicate n 0);
   fat ← mark_FAT_cluster bits 1 0xffffffff fat;
   set_byte 0 media fat) = Ret (empty_table bits media (4 + n)).
Proof.
  intros Hb Hm. unfold mark_FAT_cluster.
  destruct Hb as [-> | ->]; closed_tests.
  - change (Z.land (0 * 3) 1) with 0. change (Z.land (1 * 3) 1) with 1. closed_tests.
    rewrite set_byte_0 by done. run. rewrite byte_at_1 by done. run. rewrite set_byte_1 by done. run.
    rewrite byte_at_1 by done. run. rewrite set_byte_1 by done. run. rewrite set_byte_2 by done. run.
    rewrite set_byte_0 by done. rewrite (wrap_small 8 media) by done. unfold empty_table. closed_tests.
    by replace (4 + n - 3)%nat with (S n) by lia.
  - rewrite set_byte_0 by done. run. rewrite set_byte_1 by done. run. rewrite set_byte_2 by done. run.
    rewrite set_byte_3 by done. run. rewrite set_byte_0 by done. rewrite (wrap_small 8 media) by done.
    unfold empty_table. closed_tests. by replace (4 + n - 4)%nat with n by lia.
Qed.

Lemma put_label_length stamp dir : length (put_label o stamp dir) = length dir.
Proof. unfold put_label. case_bool_decide; [done|apply write_at_length]. Qed.

Lemma put_label_bytes stamp dir : Forall byte dir -> Forall byte (put_label o stamp dir).
Proof.
  intros Hd. unfold put_label. case_bool_decide; [done|]. apply write_at_bytes; [|done].
  pose proof (Z_to_little_endian_bound 2 8). pose proof (read_at_bytes 12 1 dir Hd).
  repeat (apply Forall_app; split); try done; try (by apply (Z_to_little_endian_bound 2 8)); by apply literal_bytes.
Qed.

Lemma make_tables_spec stamp c fl s :
  whole s -> Forall byte (bs s) -> size_fat s = 12 \/ size_fat s = 16 ->
  0 < fl <= 300 -> 512 <= sector_size s <= 32768 ->
  match make_tables o stamp c fl s with
  | Ret t => c <> 0 /\ t_state t = s /\ t_clusters t = c /\ t_info t = None /\
      t_fat t = empty_table (size_fat s) (get8 21 s) (Z.to_nat (fl * sector_size s)) /\
      length (root_dir t) = Z.to_nat (fld 17 2 s * 32) /\ Forall byte (root_dir t) /\
      (volume_name o = replicate 11 32 -> root_dir t = replicate (Z.to_nat (fld 17 2 s * 32)) 0)
  | Fault e => e = Died
  end.
Proof.
  intros Hw Hb Hbits Hfl Hss. unfold make_tables. destruct (bool_decide (c <> 0)) eqn:Hc; [|done].
  apply bool_decide_eq_true in Hc. run. match goal with |- context [negb ?x] => destruct x end; [done|]. run.
  assert (H32 : size_fat s <> 32) by lia. rewrite !(bool_decide_eq_false_2 (size_fat s = 32)) by done.
  assert (512 <= fl * sector_size s < 2 ^ 32) by nia. rewrite (wrap_small 32 (fl * sector_size s)) by lia.
  assert (Hm : byte (get8 21 s)).
  { unfold get8. destruct (lookup_lt_is_Some_2 (bs s) (Z.to_nat 21)) as [x Hx]; [rewrite Hw; lia|].
    rewrite (nth_lookup_Some _ _ 0 _ Hx). by eapply Forall_lookup_1 in Hx. }
  pose proof (table_marks (size_fat s) (get8 21 s) (Z.to_nat (fl * sector_size s) - 4) Hbits Hm) as Hmarks.
  assert (Hz : replicate (Z.to_nat (fl * sector_size s)) 0 = 0 :: 0 :: 0 :: 0 :: replicate (Z.to_nat (fl * sector_size s) - 4) 0).
  { replace (Z.to_nat (fl * sector_size s)) with (4 + (Z.to_nat (fl * sector_size s) - 4))%nat at 1 by lia. done. }
  rewrite <- Hz in Hmarks.
  destruct (mark_FAT_cluster (size_fat s) 0 _ _) as [f0|]; [|done]. revert Hmarks. run. intros Hmarks.
  destruct (mark_FAT_cluster (size_fat s) 1 _ _) as [f1|]; [|done]. revert Hmarks. run. intros ->. run. unfold require. cbn [negb]. run.
  cbn [t_state t_clusters t_info t_fat root_dir]. split; [done|]. split; [done|]. split; [done|]. split; [done|]. split.
  - f_equal. lia.
  - assert (Hroot : (get8 18 s * 256 + get8 17 s) * 32 = fld 17 2 s * 32).
    { rewrite (fld_two 17), Z.shiftl_mul_pow2 by (done || lia). change (17 + 1) with 18. lia. }
    rewrite Hroot. split; [by rewrite put_label_length, length_replicate|].
    split; [by apply put_label_bytes, Forall_replicate|]. intros Hv. unfold put_label. by rewrite bool_decide_eq_true_2.
Qed.

(** *** The set up as a whole *)

Lemma put_names_cluster s :
  whole s -> size_fat s <> 32 ->
  fld 13 1 (put_names o s) =
    if bool_decide (sectors_per_cluster o <> 0) then u8 (sectors_per_cluster o) else fld 13 1 s.
Proof.
  intros Hw Hb. rewrite put_names_named by done. destruct (named_same s) as (_ & _ & _ & _ & Hn). destruct (Hn Hw) as [Hwn _].
  assert (H : fld 13 1 (named s) = if bool_decide (sectors_per_cluster o <> 0) then u8 (sectors_per_cluster o) else fld 13 1 s).
  { unfold named, first_guess. assert (whole (put 3 (str_bytes "mkdosfs" ++ [0]) s)) by by apply whole_put.
    case_bool_decide; [rewrite fld_put8_same by (done || lia); done|by frame_put]. }
  rewrite <- H. destruct (bool_decide (root_dir_entries s <> 0)); by frame_put.
Qed.

Lemma first_guess_whole s : whole s -> whole (first_guess o s).
Proof. unfold whole. by rewrite first_guess_length. Qed.

Lemma first_guess_frame off n s :
  0 <= off /\ 0 <= n /\ off + n <= 512 -> whole s -> apart off n 13 14 -> fld off n (first_guess o s) = fld off n s.
Proof. intros Hf Hw H13. unfold first_guess. case_bool_decide; by frame_put. Qed.

Lemma first_guess_bytes s : Forall byte (bs s) -> Forall byte (bs (first_guess o s)).
Proof. intros H. unfold first_guess. case_bool_decide; [by apply put8_bytes|done]. Qed.

Lemma sized_whole bits cs fl s : whole s -> whole (sized_state bits cs fl s).
Proof. intros Hw. unfold sized_state. case_bool_decide; unfold put8, put16, put32; by eauto 20 with dosfmt. Qed.

(** The sectors of a disk of [blocks] blocks. *)
Definition disk_sectors (s : mk_state) : Z := Z.quot (blocks o * BLOCK_SIZE) (sector_size s).

Definition reserved_of (s : mk_state) : Z := if bool_decide (reserved_sectors s = 0) then 1 else reserved_sectors s.

Definition root_sectors (s : mk_state) : Z := (root_count s * 32 + sector_size s - 1) / sector_size s.

(** The parameters of a plain FAT12 or FAT16 file system on a disk of less than
    2^28 sectors. *)
Record format_ok (s : mk_state) : Prop := {
  fo_fats : nr_fats o = 1 \/ nr_fats o = 2;
  fo_spc : 0 <= sectors_per_cluster o <= 128;
  fo_whole : whole s;
  fo_bytes : Forall byte (bs s);
  fo_sector : 512 <= sector_size s <= 32768 /\ Z.land (sector_size s) 511 = 0;
  fo_reserved : 0 <= reserved_sectors s < 2 ^ 16;
  fo_entries : 0 <= root_dir_entries s < 2 ^ 16;
  fo_root : 0 < root_count s < 2 ^ 16 /\ Z.land (root_count s) 15 = 0;
  fo_guess : 1 <= fld 13 1 s <= 128;
  fo_bits : size_fat s = 0 \/ size_fat s = 12 \/ size_fat s = 16 /\ size_fat_by_user o = true;
  fo_blocks : 0 <= blocks o /\ disk_sectors s < 2 ^ 28;
  fo_room : root_sectors s + reserved_of s <= disk_sectors s;
}.

(** What the set up leaves for the disk. *)
Record made (s : mk_state) (t : mk_tables) : Prop := {
  md_whole : whole (t_state t);
  md_bytes : Forall byte (bs (t_state t));
  md_state : sector_size (t_state t) = sector_size s /\ reserved_sectors (t_state t) = reserved_of s;
  md_bits : size_fat (t_state t) = 12 \/ size_fat (t_state t) = 16;
  md_detect : size_fat (t_state t) = 12 /\ t_clusters t < FAT12_THRESHOLD \/
    size_fat (t_state t) = 16 /\ (FAT12_THRESHOLD <= t_clusters t \/ size_fat s = 16);
  md_sector : fld 11 2 (t_state t) = sector_size s;
  md_res : fld 14 2 (t_state t) = reserved_of s;
  md_fats : fld 16 1 (t_state t) = nr_fats o;
  md_root : fld 17 2 (t_state t) = root_count s;
  md_total : total_sectors (bs (t_state t)) = disk_sectors s;
  md_geometry : fld 24 2 (t_state t) = fld 24 2 s /\ fld 26 2 (t_state t) = fld 26 2 s;
  md_cluster : 1 <= fld 13 1 (t_state t) <= 128;
  md_fits : table_fits o (size_fat (t_state t)) (disk_sectors s - root_sectors s - reserved_of s) (sector_size s)
    (fld 13 1 (t_state t)) (t_clusters t) (fld 22 2 (t_state t));
  md_clusters : 0 < t_clusters t;
  md_info : t_info t = None;
  md_table : t_fat t = empty_table (size_fat (t_state t)) (get8 21 (t_state t)) (Z.to_nat (fld 22 2 (t_state t) * sector_size s));
  md_dir : length (root_dir t) = Z.to_nat (root_count s * 32);
  md_dir_bytes : Forall byte (root_dir t);
  md_dir_empty : volume_name o = replicate 11 32 -> root_dir t = replicate (Z.to_nat (root_count s * 32)) 0;
}.

(** The state when the sizes are chosen. *)
Record prepared (s s' : mk_state) : Prop := {
  pr_whole : whole s';
  pr_bytes : Forall byte (bs s');
  pr_choice : choice_ok o (disk_sectors s) s';
  pr_data : data_sectors (disk_sectors s) s' = disk_sectors s - root_sectors s - reserved_of s;
  pr_state : size_fat s' = size_fat s /\ sector_size s' = sector_size s /\ reserved_sectors s' = reserved_of s;
  pr_fields : fld 14 2 s' = reserved_of s /\ fld 16 1 s' = nr_fats o /\ fld 17 2 s' = root_count s /\
    fld 24 2 s' = fld 24 2 s /\ fld 26 2 s' = fld 26 2 s;
}.

Lemma disk_sectors_pos s : format_ok s -> 0 <= disk_sectors s.
Proof.
  intros F. destruct (fo_blocks _ F). destruct (fo_sector _ F). unfold disk_sectors, BLOCK_SIZE. apply Z.quot_pos; lia.
Qed.

Lemma prepare s :
  format_ok s -> exists s', put_reserved o (put_boot_code o (put_names o s)) = Ret s' /\ prepared s s'.
Proof.
  intros F. pose proof (disk_sectors_pos s F) as Hdisk. destruct F as [Hn Hspc Hw Hby [Hss Hss5] Hres Hent [Hroot _] Hg Hbits [_ Hdb] Hroom].
  assert (Hb : size_fat s <> 32) by lia.
  destruct (put_names_root s Hw Hby Hb Hent) as (Hw1 & Hb1 & Hs1 & Hr1 & Hd1 & H17).
  assert (Hc1 : 1 <= fld 13 1 (put_names o s) <= 128).
  { rewrite put_names_cluster by done. case_bool_decide; [rewrite (wrap_small 8) by lia; lia|done]. }
  pose proof (put_names_bytes s Hb Hby) as Hby1.
  assert (H24 : fld 24 2 (put_names o s) = fld 24 2 s) by (apply put_names_frame; unfold apart; done || lia).
  assert (H26 : fld 26 2 (put_names o s) = fld 26 2 s) by (apply put_names_frame; unfold apart; done || lia).
  set (s1 := put_names o s) in *. clearbody s1. assert (Hb1' : size_fat s1 <> 32) by congruence.
  destruct (put_boot_code_same s1 Hw1) as (Hw2 & Hb2 & Hs2 & Hr2 & Hd2). pose proof (put_boot_code_bytes s1 Hb1' Hby1) as Hby2.
  assert (Hf2 : forall off n, 0 <= off /\ 0 <= n /\ off + n <= 512 -> apart off n 0 3 -> apart off n 43 54 ->
    apart off n 62 510 -> apart off n 510 512 -> fld off n (put_boot_code o s1) = fld off n s1)
    by (intros; by apply put_boot_code_frame).
  set (s2 := put_boot_code o s1) in *. clearbody s2.
  destruct (put_reserved_spec s2 Hw2) as (s3 & Hrun & Hw3 & (Hb3 & Hs3 & Hd3) & Hr3 & H14 & H16); [congruence|rewrite Hr2, Hr1; lia|lia|].
  assert (Hf3 : forall off n, 0 <= off /\ 0 <= n /\ off + n <= 512 -> apart off n 14 17 -> apart off n 28 32 ->
    fld off n s3 = fld off n s2) by (intros off n Hi ? ?; by apply (put_reserved_frame off n Hi s2)).
  assert (Hr : reserved_sectors s3 = reserved_of s) by (rewrite Hr3, Hr2, Hr1; done).
  exists s3. split; [done|]. split.
  - done.
  - by apply (put_reserved_bytes s2).
  - split; rewrite ?Hs3, ?Hs2, ?Hs1, ?Hd3, ?Hd2, ?Hd1, ?Hr, ?Hb3, ?Hb2, ?Hb1; try done; try lia.
    + unfold reserved_of. clear -Hres. case_bool_decide; lia.
    + tauto.
    + change (cluster_size s3) with (get8 13 s3). rewrite <- get8_fld by (done || lia).
      rewrite Hf3, Hf2 by (unfold apart; lia). done.
  - unfold data_sectors. rewrite Hs3, Hs2, Hs1, Hd3, Hd2, Hd1, Hr. done.
  - split_and!; congruence.
  - split_and!; [congruence|done|rewrite Hf3, Hf2 by (unfold apart; lia); done..].
Qed.

Lemma setup_spec stamp s :
  format_ok s -> match setup_tables o stamp s with Ret t => made s t | Fault e => e = Died end.
Proof.
  intros F. pose proof (disk_sectors_pos s F) as Hdisk. destruct (prepare s F) as (s3 & Hprep & P).
  destruct P as [Hw3 Hby3 Hchoice Hdata (Hb3 & Hs3 & Hr3) (H14 & H16 & H17 & H24 & H26)].
  pose proof F as [Hn Hspc _ _ [Hss Hss5] Hres _ [Hroot Hroot5] _ Hbits [_ Hdb] Hroom].
  destruct (choose_size_spec o (disk_sectors s) s3 Hchoice) as (c & fl & cs & bits & Hsize & Hb & Hbs & Hd16 & Hd12 & Hfit);
    [rewrite Hdata; lia|]. rewrite Hdata, Hs3 in Hfit. rewrite Hb3 in Hbs, Hd16.
  unfold setup_tables. rewrite Hprep. run. rewrite Hs3. fold (disk_sectors s).
  rewrite plain_format, (wrap_small 32 (disk_sectors s)) by lia.
  rewrite Hsize. run. assert (Hbits' : bits <> 32) by lia. set (g := first_guess o s3) in *.
  assert (Hwg : whole g) by by apply first_guess_whole.
  set (s4 := sized_state bits cs fl g) in *. assert (Hw4 : whole s4) by by apply sized_whole.
  assert (Hb4 : size_fat s4 = bits) by (unfold s4, sized_state; by case_bool_decide).
  unfold put_fat32. change (size_fat (put16 11 (sector_size s4) s4)) with (size_fat s4).
  rewrite (bool_decide_eq_false_2 (size_fat s4 = 32)) by congruence. run.
  set (s5 := put16 11 (sector_size s4) s4). assert (Hw5 : whole s5) by by apply whole_put.
  destruct (put_total_spec (disk_sectors s) s5 Hw5) as (s6 & Htot & Hw6 & Htotal & Hb6 & Hs6 & Hd6 & Hr6); [exact (eq_ind_r (fun b => b <> 32) Hbits' Hb4)|lia|].
  rewrite Htot. run. destruct (decide (c = 0)) as [Hc|Hc].
  { unfold make_tables. by rewrite (bool_decide_eq_false_2 (c <> 0)) by (intros H; by apply H). }
  destruct (Hfit Hc) as [Hcs Ht]. pose proof (fit_small _ _ _ _ _ _ _ Ht Hbits') as Hsmall.
  pose proof (fit_positive _ _ _ _ _ _ _ Ht) as Hpos.
  destruct (sized_fields bits cs fl g Hwg Hbits' Hcs ltac:(lia)) as (_ & (_ & Hs4 & _ & Hr4) & H13 & H22). fold s4 in Hs4, Hr4, H13, H22.
  assert (Hsg : sector_size g = sector_size s /\ reserved_sectors g = reserved_of s).
  { rewrite <- Hs3, <- Hr3. unfold g, first_guess. by case_bool_decide. }
  destruct Hsg as [Hsg Hrg]. assert (Hs5 : sector_size s5 = sector_size s) by (rewrite <- Hsg; exact Hs4).
  assert (Hkeep : forall off n, 0 <= off /\ 0 <= n /\ off + n <= 512 -> apart off n 11 14 -> apart off n 19 21 ->
    apart off n 22 24 -> apart off n 32 36 -> apart off n 38 39 -> apart off n 54 62 -> fld off n s6 = fld off n s3).
  { intros off n Hi A1 A2 A3 A4 A5 A6. rewrite (put_total_frame off n Hi _ s5 s6 Htot) by (done || congruence || exact (eq_ind_r (fun b => b <> 32) Hbits' Hb4)).
    unfold s5, put16. rewrite fld_put_other by (done || lia || (unfold apart in *; rewrite ?length_Z_to_little_endian by lia; lia)).
    unfold s4. rewrite sized_frame by (done || (unfold apart in *; lia)).
    apply first_guess_frame; [done|done|unfold apart in *; lia]. }
  assert (Hkeep5 : forall off n, 0 <= off /\ 0 <= n /\ off + n <= 512 -> apart off n 19 21 -> apart off n 32 36 ->
    apart off n 38 39 -> fld off n s6 = fld off n s5).
  { intros. apply (put_total_frame off n ltac:(done) _ s5 s6 Htot); (done || exact (eq_ind_r (fun b => b <> 32) Hbits' Hb4)). }
  assert (H11 : fld 11 2 s6 = sector_size s).
  { rewrite Hkeep5 by (unfold apart; lia). unfold s5, put16. rewrite fld_put_same by (done || lia). rewrite Hs4, Hsg. apply Z.mod_small. lia. }
  assert (Hk45 : forall off n, 0 <= off /\ 0 <= n /\ off + n <= 512 -> apart off n 11 13 -> fld off n s5 = fld off n s4).
  { intros off n ? A. unfold s5, put16. apply fld_put_other; (done || lia || (unfold apart in *; rewrite ?length_Z_to_little_endian by lia; lia)). }
  assert (H13' : fld 13 1 s6 = cs) by (rewrite Hkeep5, Hk45 by (unfold apart; lia); done).
  assert (H22' : fld 22 2 s6 = fl) by (rewrite Hkeep5, Hk45 by (unfold apart; lia); done).
  assert (Hby6 : Forall byte (bs s6)).
  { apply (put_total_bytes _ s5 _ Htot). unfold s5. apply put16_bytes. unfold s4. apply sized_bytes. unfold g. by apply first_guess_bytes. }
  assert (Hb6' : size_fat s6 = bits) by (rewrite Hb6; exact Hb4).
  assert (Hs6' : sector_size s6 = sector_size s) by congruence.
  assert (Hr6' : reserved_sectors s6 = reserved_of s) by (rewrite Hr6; change (reserved_sectors s5) with (reserved_sectors s4); congruence).
  pose proof (make_tables_spec stamp c fl s6 Hw6 Hby6 ltac:(lia) ltac:(lia) ltac:(lia)) as Hmake.
  destruct (make_tables o stamp c fl s6) as [t|e]; [|done]. destruct Hmake as (_ & Hst & Hcl & Hinfo & Htab & Hdir & Hdirb & Hdir0).
  assert (E17 : fld 17 2 s6 = root_count s) by (rewrite Hkeep by (unfold apart; lia); done).
  pose proof (fit_data _ _ _ _ _ _ _ Ht) as Hd.
  pose proof (fit_count _ _ _ _ _ _ _ Ht) as Hc0.
  split; rewrite ?Hst, ?Hcl, ?H13', ?H22', ?Hb6', ?Hs6'; try done.
  - lia.
  - destruct Hb as [-> | [-> | ->]]; [left|right|done]; (split; [done|]).
    + specialize (Hd12 eq_refl). unfold MAX_CLUST_12, FAT12_THRESHOLD in *. lia.
    + by apply Hd16.
  - rewrite Hkeep by (unfold apart; lia). done.
  - rewrite Hkeep by (unfold apart; lia). done.
  - split; rewrite Hkeep by (unfold apart; lia); done.
  - lia.
  - by rewrite Htab, Hb6', Hs6'.
  - by rewrite Hdir, E17.
  - intros Hv. by rewrite Hdir0, E17.
Qed.

(** *** The disk *)

Lemma empty_table_length bits media n : (4 <= n)%nat -> length (empty_table bits media n) = n.
Proof.
  intros Hn. unfold empty_table. cbn [length]. rewrite length_app, !length_replicate. case_bool_decide; lia.
Qed.

Lemma empty_table_bytes bits media n : byte media -> Forall byte (empty_table bits media n).
Proof.
  intros Hm. unfold empty_table. constructor; [done|]. apply Forall_app. split; by apply Forall_replicate.
Qed.

(** A buffer that fits the disk is written. *)
Lemma writebuf_spec pos buf dev :
  0 <= pos -> pos + Z.of_nat (length buf) <= Z.of_nat (length dev) ->
  exists dev', writebuf pos buf dev = Ret dev' /\ length dev' = length dev /\
    read_at pos (Z.of_nat (length buf)) dev' = buf /\
    (forall p m, 0 <= p -> 0 <= m -> p + m <= Z.of_nat (length dev) ->
       p + m <= pos \/ pos + Z.of_nat (length buf) <= p -> read_at p m dev' = read_at p m dev) /\
    (Forall byte buf -> Forall byte dev -> Forall byte dev').
Proof.
  intros Hp Hl. unfold writebuf. rewrite !bool_decide_eq_true_2 by lia. run. exists (write_at pos buf dev).
  split; [done|]. split; [apply write_at_length|]. split; [by apply read_write_same|]. split; [|apply write_at_bytes].
  intros p m Hp0 Hm Hend Hout. apply read_write_outside; lia.
Qed.

Lemma write_copies_spec n pos buf dev :
  0 <= pos -> pos + Z.of_nat n * Z.of_nat (length buf) <= Z.of_nat (length dev) ->
  exists dev', write_copies n pos buf dev = Ret (pos + Z.of_nat n * Z.of_nat (length buf), dev') /\
    length dev' = length dev /\
    (forall k, 0 <= k < Z.of_nat n -> read_at (pos + k * Z.of_nat (length buf)) (Z.of_nat (length buf)) dev' = buf) /\
    (forall p m, 0 <= p -> 0 <= m -> p + m <= Z.of_nat (length dev) ->
       p + m <= pos \/ pos + Z.of_nat n * Z.of_nat (length buf) <= p -> read_at p m dev' = read_at p m dev) /\
    (Forall byte buf -> Forall byte dev -> Forall byte dev').
Proof.
  revert pos dev. induction n as [|n IH]; intros pos dev Hp Hl; cbn [write_copies].
  { exists dev. split; [by rewrite Z.mul_0_l, Z.add_0_r|]. split; [done|]. split; [lia|]. done. }
  rewrite Nat2Z.inj_succ, Z.mul_succ_l in *.
  destruct (writebuf_spec pos buf dev Hp) as (d1 & -> & Hl1 & Hr1 & Ho1 & Hb1); [nia|]. run.
  destruct (IH (pos + Z.of_nat (length buf)) d1) as (d2 & -> & Hl2 & Hr2 & Ho2 & Hb2); [lia|rewrite Hl1; lia|].
  exists d2. split; [do 2 f_equal; lia|]. split; [congruence|]. split; [|split].
  - intros k Hk. destruct (decide (k = 0)) as [->|].
    + rewrite Z.mul_0_l, Z.add_0_r. rewrite Ho2; [done|lia|lia|rewrite Hl1; nia|lia].
    + replace (pos + k * Z.of_nat (length buf)) with (pos + Z.of_nat (length buf) + (k - 1) * Z.of_nat (length buf)) by lia.
      apply Hr2. lia.
  - intros p m ? ? ? Hout. rewrite Ho2, Ho1; [done|lia..|rewrite Hl1; lia|lia].
  - intros ? ?. apply Hb2; [done|]. by apply Hb1.
Qed.

(** The boot sector and the copies of the table are on the disk. *)
Record formatted (s : mk_state) (t : mk_tables) (n : nat) (dev : list Z) : Prop := {
  fm_length : length dev = n;
  fm_bytes : Forall byte dev;
  fm_boot : read_at 0 512 dev = bs (t_state t);
  fm_tables : forall k, 0 <= k < nr_fats o ->
    let size := fld 22 2 (t_state t) * sector_size s in
    read_at (reserved_of s * sector_size s + k * size) size dev = t_fat t;
  fm_root : let start := (reserved_of s + nr_fats o * fld 22 2 (t_state t)) * sector_size s in
    read_at start (root_count s * 32) dev = root_dir t /\ start + root_count s * 32 <= Z.of_nat n;
}.

Lemma root_sectors_room s :
  512 <= sector_size s <= 32768 -> 0 <= root_count s -> root_count s * 32 <= root_sectors s * sector_size s.
Proof. intros Hs Hr. unfold root_sectors. pose proof (ceil_bounds (root_count s * 32) (sector_size s)). lia. Qed.

Lemma write_spec s t dev :
  format_ok s -> made s t -> Forall byte dev -> disk_sectors s * sector_size s <= Z.of_nat (length dev) ->
  exists dev', write_tables o t dev = Ret dev' /\ formatted s t (length dev) dev'.
Proof.
  intros F M Hdev Hroom. pose proof F as [Hn _ _ _ [Hss _] Hres _ [Hroot _] _ _ _ _].
  destruct M as [Hw Hby [Hs Hr] Hbits _ _ _ _ _ _ _ Hcs Hfit Hc Hinfo Htab Hdir Hdirb _].
  assert (Hbits' : size_fat (t_state t) <> 32) by lia.
  set (fl := fld 22 2 (t_state t)) in *. set (ss := sector_size s) in *. set (res := reserved_of s) in *.
  pose proof (fit_positive _ _ _ _ _ _ _ Hfit) as Hfl. pose proof (fit_small _ _ _ _ _ _ _ Hfit Hbits') as Hfl3.
  pose proof (fit_data _ _ _ _ _ _ _ Hfit) as Hd.
  assert (Hres1 : 1 <= res) by (unfold res, reserved_of; case_bool_decide; lia).
  pose proof (root_sectors_room s Hss ltac:(lia)) as Hrr. fold ss in Hrr.
  assert (Hlen : length (t_fat t) = Z.to_nat (fl * ss)) by (rewrite Htab; apply empty_table_length; nia).
  assert (Hall : res * ss + nr_fats o * (fl * ss) + root_count s * 32 <= Z.of_nat (length dev)).
  { enough ((res + nr_fats o * fl + root_sectors s) * ss <= disk_sectors s * ss) by lia.
    apply Z.mul_le_mono_nonneg_r; [lia|]. assert (0 <= t_clusters t * fld 13 1 (t_state t)) by nia. lia. }
  assert (H1 : 512 <= res * ss) by nia. assert (H2 : 512 <= fl * ss < 2 ^ 31) by nia.
  assert (H3 : 0 <= nr_fats o * (fl * ss)) by nia.
  unfold write_tables. rewrite Hs, Hr, Hinfo. fold ss res. rewrite (bool_decide_eq_false_2 (size_fat (t_state t) = 32)) by done.
  change (little_endian_to_Z 8 (read_at 22 2 (bs (t_state t)))) with fl.
  destruct (write_copies_spec (Z.to_nat res) 0 (replicate (Z.to_nat ss) 0) dev) as (d1 & -> & Hl1 & _ & _ & Hb1);
    [lia|rewrite length_replicate, !Z2Nat.id by lia; lia|]. run.
  destruct (writebuf_spec 0 (bs (t_state t)) d1) as (d2 & -> & Hl2 & Hr2 & _ & Hb2); [lia|unfold whole in Hw; rewrite Hl1, Hw; lia|]. run.
  assert (s32 (fl * ss) = fl * ss) as -> by (apply swrap_small; lia).
  rewrite mem_read_all by (rewrite Hlen; lia). run.
  destruct (write_copies_spec (Z.to_nat (nr_fats o)) (res * ss) (t_fat t) d2) as (d3 & -> & Hl3 & Hr3 & Ho3 & Hb3);
    [lia|rewrite Hlen, !Z2Nat.id by lia; lia|]. run.
  rewrite Hlen, !Z2Nat.id in * by lia.
  destruct (writebuf_spec (res * ss + nr_fats o * (fl * ss)) (root_dir t) d3) as (d4 & -> & Hl4 & Hr4 & Ho4 & Hb4);
    [lia|rewrite Hdir, Z2Nat.id by lia; lia|].
  exists d4. split; [done|]. split.
  - congruence.
  - apply Hb4; [done|]. apply Hb3; [|apply Hb2; [done|]; apply Hb1; [by apply Forall_replicate|done]].
    rewrite Htab. apply empty_table_bytes. rewrite <- get8_fld by (done || lia). pose proof (field_byte 21 1 _ ltac:(lia) Hby) as Hf. exact Hf.
  - rewrite Ho4, Ho3; [|lia..]. unfold whole in Hw. rewrite Hw in Hr2. exact Hr2.
  - intros k Hk. cbv zeta. assert (k * (fl * ss) + fl * ss <= nr_fats o * (fl * ss)) by nia.
    rewrite Ho4; [by apply Hr3|nia|lia|lia|lia].
  - cbv zeta. fold fl ss res. rewrite Hdir, Z2Nat.id in Hr4 by lia.
    replace ((res + nr_fats o * fl) * ss) with (res * ss + nr_fats o * (fl * ss)) by lia. split; [done|lia].
Qed.

(** *** What the checker reads *)

Lemma round_roots rc ss :
  0 < rc < 2 ^ 16 -> 512 <= ss <= 32768 -> ROUND_TO_MULTIPLE (u32 (rc * 32)) ss = (rc * 32 + ss - 1) / ss * ss.
Proof.
  intros Hr Hs. rewrite (wrap_small 32) by lia. unfold ROUND_TO_MULTIPLE. rewrite !bool_decide_eq_true_2 by lia. cbn [andb].
  pose proof (Z.div_mod (rc * 32 - 1) ss ltac:(lia)) as Hd. pose proof (Z.mod_pos_bound (rc * 32 - 1) ss ltac:(lia)).
  rewrite (wrap_small 32) by lia. replace (rc * 32 + ss - 1) with (rc * 32 - 1 + 1 * ss) by lia.
  rewrite Z.div_add by lia. lia.
Qed.

(** The layout that the checker computes, in terms of what was chosen. *)
Record read_back (s : mk_state) (t : mk_tables) (fs : DOS_FS) : Prop := {
  rb_nfats : nfats fs = nr_fats o;
  rb_fat_start : fat_start fs = reserved_of s * sector_size s;
  rb_fat_size : fat_size fs = fld 22 2 (t_state t) * sector_size s;
  rb_root_start : root_start fs = fat_start fs + nr_fats o * fat_size fs;
  rb_root_entries : root_entries fs = root_count s;
  rb_data_start : data_start fs = root_start fs + root_sectors s * sector_size s;
  rb_cluster_size : DosFat.cluster_size fs = fld 13 1 (t_state t) * sector_size s;
  rb_clusters : clusters fs = t_clusters t;
}.

Lemma layout_read_back long_size s t fs :
  format_ok s -> made s t -> long_size = 4 \/ long_size = 8 -> read_back s t (layout long_size (bs (t_state t)) fs).
Proof.
  intros F M Hls. pose proof F as [Hn _ _ _ [Hss _] Hres _ [Hroot _] _ _ [_ Hdb] _].
  pose proof M as [Hw Hby [Hs Hr] Hbits _ E11 E14 E16 E17 Etot _ Hcs Hfit Hc _ _ _ _ _].
  assert (Hbits' : size_fat (t_state t) <> 32) by lia. set (b := bs (t_state t)) in *.
  set (fl := fld 22 2 (t_state t)) in *. set (cs := fld 13 1 (t_state t)) in *.
  pose proof (fit_positive _ _ _ _ _ _ _ Hfit) as Hfl. pose proof (fit_small _ _ _ _ _ _ _ Hfit Hbits') as Hfl3.
  pose proof (fit_data _ _ _ _ _ _ _ Hfit) as Hd.
  assert (Hb11 : DosBoot.sector_size b = sector_size s) by exact E11.
  assert (Hb13 : sec_per_clus b = cs) by done.
  assert (Hb14 : DosBoot.reserved_sectors b = reserved_of s) by exact E14.
  assert (Hb16 : fats b = nr_fats o) by exact E16.
  assert (Hb17 : dir_entries b = root_count s) by exact E17.
  assert (Hb22 : fat_sectors b = fl) by (unfold fat_sectors; rewrite bool_decide_eq_true_2; [done|change (fl <> 0); lia]).
  unfold layout. rewrite Hb11, Hb13, Hb14, Hb16, Hb17, Hb22.
  rewrite (wrap_small 32 (nr_fats o * fl)) by nia. rewrite (wrap_small 32 (fl * sector_size s)) by nia.
  rewrite round_roots by done. fold (root_sectors s).
  split; cbn [nfats fat_start fat_size root_start root_entries data_start DosFat.cluster_size clusters]; try done; try lia.
  rewrite Etot.
  replace (disk_sectors s * sector_size s - _) with
    ((disk_sectors s - root_sectors s - reserved_of s - nr_fats o * fl) * sector_size s) by lia.
  rewrite Z.quot_mul_cancel_r by lia. assert (0 <= t_clusters t * cs) by nia. rewrite Z.quot_div_nonneg by lia.
  assert ((disk_sectors s - root_sectors s - reserved_of s - nr_fats o * fl) / cs = t_clusters t) as ->.
  { symmetry. apply Z.div_unique with (disk_sectors s - root_sectors s - reserved_of s - nr_fats o * fl - t_clusters t * cs); lia. }
  apply wrap_small. assert (t_clusters t < 2 ^ 28).
  { pose proof (disk_sectors_pos s F). assert (0 <= root_sectors s) by (unfold root_sectors; apply Z.div_pos; lia).
    assert (0 <= reserved_of s) by (unfold reserved_of; case_bool_decide; lia). nia. }
  destruct Hls as [-> | ->]; split; [lia|change (2 ^ (8 * 4)) with (2 ^ 32); lia|lia|change (2 ^ (8 * 8)) with (2 ^ 64); lia].
Qed.

(** What the checker needs besides: a geometry, and the width that the number of
    clusters tells. *)
Record checkable (s : mk_state) (t : mk_tables) : Prop := {
  ck_geometry : fld 24 2 s <> 0 /\ fld 26 2 s <> 0;
  ck_width : size_fat s = 16 -> FAT12_THRESHOLD <= t_clusters t;
}.

Lemma open_ok wi dev : io_ok wi (fs_open dev []).
Proof. split; [by apply Forall_nil|done]. Qed.

Lemma boot_spec inter wi bad long_size device_no junk s t n dev fs :
  format_ok s -> made s t -> checkable s t -> formatted s t n dev -> (512 <= n)%nat ->
  (forall pos size, bad pos size = false) -> long_size = 4 \/ long_size = 8 ->
  let bits := size_fat (t_state t) in
  read_boot inter wi false bad long_size device_no junk (Dos (fs_open dev []) fs) =
    Ret (Dos (fs_open dev []) (set_fat_bits bits bits (layout long_size (bs (t_state t)) fs))).
Proof.
  intros F M [[H24 H26] Hwidth] [Hn _ Hboot _ _] H512 Hbad Hls bits.
  destruct (layout_read_back long_size s t fs F M Hls) as [L1 L2 L3 L4 L5 L6 L7 L8].
  pose proof F as [Hnf _ _ _ [Hss Hss5] Hres _ [Hroot Hroot5] _ _ [_ Hdb] _].
  pose proof M as [Hw Hby [Hs Hr] Hbits Hdet E11 E14 E16 E17 Etot [E24 E26] Hcs Hfit Hc _ _ _ _ _].
  assert (Hb' : size_fat (t_state t) <> 32) by lia.
  pose proof (fit_positive _ _ _ _ _ _ _ Hfit) as Hfl. pose proof (fit_entries _ _ _ _ _ _ _ Hfit) as Hent.
  pose proof (fit_small _ _ _ _ _ _ _ Hfit Hb') as Hfl3.
  set (b := bs (t_state t)) in *. unfold read_boot.
  cbn [d_io]. rewrite (fs_read_spec bad wi 0 512 (fs_open dev [])) by (apply open_ok || apply Hbad || (cbn [fs_open device]; lia)).
  change (vdisk (fs_open dev [])) with dev. rewrite Hboot. fold b. run.
  assert (Hb11 : DosBoot.sector_size b = sector_size s) by exact E11. rewrite Hb11. unfold require.
  rewrite (bool_decide_eq_true_2 (sector_size s <> 0)) by lia. run.
  change (sec_per_clus b) with (fld 13 1 (t_state t)). rewrite (bool_decide_eq_true_2 (fld 13 1 (t_state t) * sector_size s <> 0)) by nia. run.
  assert (Hb16 : fats b = nr_fats o) by exact E16. rewrite Hb16.
  assert (bool_decide (nr_fats o = 2) || bool_decide (nr_fats o = 1) = true) as ->.
  { rewrite orb_true_iff, !bool_decide_eq_true. tauto. }
  run. rewrite fs_test_spec by
    (lia || (apply Z.mul_nonneg_nonneg; [unfold wrap; by apply Z.mod_pos_bound|lia])). run. cbn [d_io d_fs].
  assert (Hplain : is_fat32 b = false).
  { unfold is_fat32. change (fat_length b) with (fld 22 2 (t_state t)). by rewrite bool_decide_eq_false_2 by lia. }
  rewrite Hplain. assert (Hsb : small_bits false long_size device_no b (layout long_size b fs) = bits).
  { unfold small_bits. cbn [negb]. rewrite L8. unfold FAT12_THRESHOLD in *. unfold bits.
    destruct Hdet as [[-> ?]|[H16 Hd]]; [by rewrite bool_decide_eq_false_2 by lia|].
    rewrite H16, bool_decide_eq_true_2; [done|]. destruct Hd as [?|Hu]; [lia|]. specialize (Hwidth Hu). lia. }
  rewrite Hsb. run. cbn [d_fs d_io].
  assert (Hgc : geometry_check false b (set_fat_bits bits bits (layout long_size b fs)) = true).
  { unfold geometry_check. cbn [set_fat_bits clusters fat_size fat_bits root_entries root_cluster]. rewrite L8, L3, L5, Hb11.
    assert (t_clusters t <= wrap 64 (fld 22 2 (t_state t) * sector_size s * 8 / bits - 2)).
    { assert (t_clusters t + 2 <= fld 22 2 (t_state t) * sector_size s * 8 / bits) by (apply Z.div_le_lower_bound; unfold bits; lia).
      assert (fld 22 2 (t_state t) * sector_size s * 8 / bits <= fld 22 2 (t_state t) * sector_size s * 8)
        by (apply Z.div_le_upper_bound; unfold bits; nia).
      rewrite (wrap_small 64) by nia. lia. }
    rewrite (bool_decide_eq_false_2 (_ > _)), (bool_decide_eq_false_2 (root_count s = 0)) by lia.
    rewrite (bool_decide_eq_true_2 (Z.land (root_count s) 15 = 0)), (bool_decide_eq_true_2 (Z.land (sector_size s) 511 = 0)) by done.
    rewrite (bool_decide_eq_false_2 (secs_track b = 0)), (bool_decide_eq_false_2 (heads b = 0)); [done|change (fld 26 2 (t_state t) <> 0)|change (fld 24 2 (t_state t) <> 0)]; congruence. }
  rewrite Hgc. by run.
Qed.

End Stages.

(** ** From mkdosfs to dosfsck *)

(** Options of the format that is not Atari's. *)
Record plain_options (o : mk_options) : Prop := {
  po_plain : atari_format o = false;
  po_name : length (volume_name o) = 11%nat;
  po_code : length (boot_code o) = 448%nat;
  po_name_bytes : Forall byte (volume_name o);
  po_code_bytes : Forall byte (boot_code o);
}.

Lemma disk_room o s : format_ok o s -> disk_sectors o s * sector_size s <= blocks o * BLOCK_SIZE.
Proof.
  intros F. destruct (fo_blocks _ _ F) as [Hb _]. destruct (fo_sector _ _ F) as [Hs _]. unfold disk_sectors.
  rewrite Z.quot_div_nonneg by (unfold BLOCK_SIZE; lia). rewrite Z.mul_comm. apply Z.mul_div_le. lia.
Qed.

(** Formatting, in one step. *)
Lemma format_spec o stamp s dev :
  plain_options o -> format_ok o s -> Forall byte dev -> blocks o * BLOCK_SIZE <= Z.of_nat (length dev) ->
  match setup_tables o stamp s with
  | Ret t => made o s t /\ exists dev', write_tables o t dev = Ret dev' /\ formatted o s t (length dev) dev'
  | Fault e => e = Died
  end.
Proof.
  intros [] F Hdev Hroom. pose proof (setup_spec o po_plain0 po_name0 po_code0 po_name_bytes0 po_code_bytes0 stamp s F) as M.
  destruct (setup_tables o stamp s) as [t|e]; [|done]. split; [done|]. pose proof (disk_room o s F).
  by apply write_spec; try done; lia.
Qed.

(** C2: formatting with FAT12 or FAT16 and parameters that [format_ok] allows - not
    Atari's format, one or two tables, a root directory of a positive multiple of
    16 entries, less than 2^28 sectors, all on the device, with room for the reserved ones and
    the root directory - and a geometry whose
    heads and sectors per track are not zero, either stops with a message or writes
    the whole file system. Unless the user forced 16 bits on a small disk, the
    checker then accepts its boot sector, reading without errors, and finds the file
    system that was chosen: the width, the number and the size of the clusters,
    the tables, the root directory and the data area ([read_back]); and every table
    on the disk is the one that was made. *)
Theorem formatted_disk_boots o stamp s dev inter wi bad long_size device_no junk fs :
  plain_options o -> format_ok o s -> Forall byte dev -> blocks o * BLOCK_SIZE <= Z.of_nat (length dev) ->
  (512 <= length dev)%nat -> fld 24 2 s <> 0 -> fld 26 2 s <> 0 ->
  (forall pos size, bad pos size = false) -> long_size = 4 \/ long_size = 8 ->
  match setup_tables o stamp s with
  | Fault e => e = Died
  | Ret t =>
      exists dev', write_tables o t dev = Ret dev' /\ length dev' = length dev /\
        ((size_fat s = 16 -> FAT12_THRESHOLD <= t_clusters t) ->
         exists d, read_boot inter wi false bad long_size device_no junk (Dos (fs_open dev' []) fs) = Ret d /\
           d_io d = fs_open dev' [] /\ fat_bits (d_fs d) = size_fat (t_state t) /\ read_back o s t (d_fs d) /\
           forall k, 0 <= k < nr_fats o ->
             read_at (fat_start (d_fs d) + k * fat_size (d_fs d)) (fat_size (d_fs d)) dev' = t_fat t)
  end.
Proof.
  intros O F Hdev Hroom H512 H24 H26 Hbad Hls. pose proof (format_spec o stamp s dev O F Hdev Hroom) as H.
  destruct (setup_tables o stamp s) as [t|e]; [|done]. destruct H as (M & dev' & -> & Hf).
  exists dev'. split; [done|]. split; [apply Hf|]. intros Hw. eexists.
  split; [apply (boot_spec o) with (s := s) (t := t) (n := length dev); (done || apply O || by split)|].
  destruct (layout_read_back o) with (long_size := long_size) (s := s) (t := t) (fs := fs); [(done || apply O)..|]. cbn [d_io d_fs].
  split; [done|]. split; [done|]. split; [by split|]. cbn [set_fat_bits fat_start fat_size].
  intros k Hk. rewrite rb_fat_start0, rb_fat_size0. by apply (fm_tables _ _ _ _ _ Hf).
Qed.

(** The floppy of 1.44 MB, with its geometry. *)
Definition floppy_start : mk_state := set_geometry (18, 2) floppy_state.

Lemma floppy_options_plain : plain_options floppy_options.
Proof. split; try (by vm_compute); apply literal_bytes; by vm_compute. Qed.

Lemma floppy_format_ok : format_ok floppy_options floppy_start.
Proof.
  split; try (vm_compute; split; congruence); try (by vm_compute).
  - right. by vm_compute.
  - apply literal_bytes. by vm_compute.
  - left. by vm_compute.
Qed.

Lemma floppy_tables :
  exists t, setup_tables floppy_options (0, 0) floppy_start = Ret t /\ t_clusters t = 2847.
Proof.
  assert (H : match setup_tables floppy_options (0, 0) floppy_start with
              | Ret t => bool_decide (t_clusters t = 2847) | Fault _ => false end = true) by (vm_compute; reflexivity).
  destruct (setup_tables _ _ _) as [t|]; [|done]. exists t. split; [done|]. by apply bool_decide_eq_true in H.
Qed.

Lemma formatted_disk_boots_witness :
  let dev := replicate (Z.to_nat 1474560) 0 in
  exists t dev' d, setup_tables floppy_options (0, 0) floppy_start = Ret t /\ write_tables floppy_options t dev = Ret dev' /\
    read_boot false false false (fun _ _ => false) 8 0 [] (Dos (fs_open dev' []) (DosFs 0 0 0 0 0 0 0 0 0 0 0 0 0 0 [])) = Ret d /\
    clusters (d_fs d) = 2847.
Proof.
  intros dev. destruct floppy_tables as (t & Ht & Hc). assert (Hl : Z.of_nat (length dev) = 1474560).
  { unfold dev. rewrite length_replicate. apply Z2Nat.id. lia. }
  pose proof (formatted_disk_boots floppy_options (0, 0) floppy_start dev false false (fun _ _ => false) 8 0 []
    (DosFs 0 0 0 0 0 0 0 0 0 0 0 0 0 0 []) floppy_options_plain floppy_format_ok) as H.
  rewrite Ht in H. destruct H as (dev' & Hw & _ & Hd).
  - apply Forall_replicate. split; [apply Z.le_refl|reflexivity].
  - rewrite Hl. apply Z.leb_le. vm_compute. reflexivity.
  - apply Nat2Z.inj_le. rewrite Hl. apply Z.leb_le. vm_compute. reflexivity.
  - vm_compute. discriminate.
  - vm_compute. discriminate.
  - intros. reflexivity.
  - right. reflexivity.
  - destruct Hd as (d & Hr & _ & _ & Hb & _); [intros H16; vm_compute in H16; discriminate|].
    exists t, dev', d. split; [exact Ht|]. split; [exact Hw|]. split; [exact Hr|]. rewrite (rb_clusters _ _ _ _ Hb). exact Hc.
Defined.
