(* ===== verification/DosFresh.v ===== *)
(** * A fresh file system is clean

    What mkdosfs writes without a label, read by dosfsck from the boot sector to
    the count of free clusters: nothing is found, nothing is changed. *)

From S2P Require Import Prelude DosIo DosFat DosBoot DosCheck DosName DosLfn DosScan Mkdosfs MkdosfsBoot.

(** ** Sweeps that change nothing *)

Lemma each_same {S : Type} (body : Z -> S -> outcome S) l s :
  (forall i, i ∈ l -> body i s = Ret s) -> each body l s = Ret s.
Proof.
  induction l as [|i l IH]; intros H; [done|]. cbn [each]. rewrite H by (by left). run. apply IH. intros j Hj. apply H. by right.
Qed.

(** ** The empty table *)

(** The bytes of the first two entries. *)
Definition lead (bits : Z) : Z := if bool_decide (bits = 12) then 3 else 4.

Lemma empty_table_zero bits media n (i : nat) :
  lead bits <= Z.of_nat i -> (i < n)%nat -> empty_table bits media n !! i = Some 0.
Proof.
  intros Hl Hi. unfold empty_table, lead in *. destruct i as [|i]; [case_bool_decide; lia|]. cbn [lookup list_lookup].
  change ((replicate (if bool_decide (bits = 12) then 2 else 3) 255 ++
    replicate (n - (if bool_decide (bits = 12) then 3 else 4)) 0) !! i = Some 0).
  rewrite lookup_app_r by (rewrite length_replicate; case_bool_decide; lia).
  apply lookup_replicate_2. rewrite length_replicate. case_bool_decide; lia.
Qed.

(** Entries of an image that is zero behind the first two. *)
Definition blank_image (bits : Z) (tab : list Z) : Prop :=
  forall i : nat, lead bits <= Z.of_nat i -> (i < length tab)%nat -> tab !! i = Some 0.

Lemma byte_at_blank bits tab k :
  blank_image bits tab -> lead bits <= k < Z.of_nat (length tab) -> byte_at tab k = Ret 0.
Proof.
  intros Hb Hk. assert (0 <= lead bits) by (unfold lead; case_bool_decide; lia). unfold byte_at.
  rewrite bool_decide_eq_true_2 by lia. by rewrite Hb by lia.
Qed.

Lemma get_fat_blank junk fs tab i :
  (fat_bits fs = 12 \/ fat_bits fs = 16) -> blank_image (fat_bits fs) tab -> Z.of_nat (length tab) = eff_size fs ->
  2 <= i < clusters fs + 2 ->
  get_fat junk tab i fs = Ret (FatEntry 0 (reserved junk) None (prev junk)).
Proof.
  intros Hbits Hb Hl Hi. unfold eff_size in Hl. unfold get_fat. destruct Hbits as [H12|H16].
  - rewrite (bool_decide_eq_true_2 (fat_bits fs = 12)) by done. rewrite H12 in *.
    rewrite !(byte_at_blank 12) by (done || (unfold lead; closed_tests; dlia)). run. by case_bool_decide.
  - rewrite (bool_decide_eq_false_2 (fat_bits fs = 12)), (bool_decide_eq_true_2 (fat_bits fs = 16)) by lia. rewrite H16 in *.
    rewrite mem_read_read_at by (lia || dlia). run. do 2 f_equal.
    assert (Hr : read_at (2 * i) 2 tab = [0; 0]); [|by rewrite Hr].
    apply list_eq_same_length with 2%nat; [done| |].
    + apply Nat2Z.inj. rewrite read_at_length; dlia.
    + intros k x y Hk Hx Hy. rewrite read_at_lookup in Hx by lia.
      rewrite Hb in Hx by (unfold lead; closed_tests; dlia). destruct k as [|[|]]; [..|lia]; cbn in Hy; congruence.
Qed.

(** ** A fresh disk *)

Record fresh_disk (base : DOS_FS) (dev : list Z) : Prop := {
  fr_geometry : forall junk, geometry_ok (blank junk base) (length dev);
  fr_bits : fat_bits base = 12 \/ fat_bits base = 16;
  fr_bytes : Forall byte dev;
  fr_image : blank_image (fat_bits base) (fat_copy base 0 dev);
  fr_copies : fat_copy base 1 dev = fat_copy base 0 dev;
  fr_root : forall i, 0 <= i < root_entries base -> read_at (root_start base + i * 32) 32 dev = replicate 32 0;
  fr_root_place : 0 < root_start base /\ root_start base + root_entries base * 32 <= Z.of_nat (length dev);
  fr_plain : root_cluster base = 0 /\ fsinfo_start base = 0;
  fr_data : 0 <= data_start base /\ 0 < DosFat.cluster_size base /\
    data_start base + clusters base * DosFat.cluster_size base <= Z.of_nat (length dev);
}.

Section Clean.

Variables wi : bool.
Variable bad : Z -> Z -> bool.
Variable long_size : Z.
Hypothesis all_readable : forall pos size, bad pos size = false.

Variable base : DOS_FS.
Variable dev : list Z.
Hypothesis fresh : fresh_disk base dev.

(** The disk is as it was, and every cluster is free. *)
Record clean (d : dos) : Prop := {
  cl_io : d_io d = fs_open dev [];
  cl_shape : same_shape base (d_fs d);
  cl_geometry : geometry_ok (d_fs d) (length dev);
  cl_free : forall i, 2 <= i < clusters base + 2 -> exists r p, fat_at (d_fs d) i = Ret (FatEntry 0 r None p);
}.

Lemma clean_clusters d : clean d -> cluster_numbers (d_fs d) = cluster_numbers base.
Proof. intros C. unfold cluster_numbers. by rewrite (same_shape_clusters _ _ (cl_shape d C)). Qed.

Lemma read_fat_clean junk d :
  d_io d = fs_open dev [] -> same_shape base (d_fs d) ->
  exists d', DosFat.read_fat false wi false bad long_size junk d = Ret d' /\ clean d'.
Proof.
  intros Hio Hsh. destruct d as [io fs]. cbn [d_io d_fs] in *. subst io.
  destruct fresh as [Hg Hbits Hby Him Hcop _ _ _ _]. pose proof (Hg junk) as G. specialize (Hg junk).
  assert (Hblank : blank junk fs = blank junk base) by (rewrite Hsh; done).
  assert (Hcl : clusters fs = clusters base) by by apply same_shape_clusters.
  assert (Hcn : cluster_numbers fs = cluster_numbers base) by (unfold cluster_numbers; by rewrite Hcl).
  assert (Heq : fat_start fs = fat_start base /\ fat_size fs = fat_size base /\ eff_size fs = eff_size base)
    by (rewrite Hsh; done). destruct Heq as (Hst & Hsz & Hef).
  pose proof (eff_size_pos _ _ G) as He. pose proof (g_start _ _ G). pose proof (g_size _ _ G).
  pose proof (g_end _ _ G). pose proof (g_small _ _ G). pose proof (g_clusters _ _ G) as Hc0.
  change (eff_size (blank junk base)) with (eff_size base) in *. cbn [blank DosFat.set_table fat_start fat_size nfats clusters] in *.
  assert (Hread : forall k, k = 0 \/ k = 1 ->
    fs_read bad (fat_start base + k * fat_size base) (eff_size base) (fs_open dev []) = Ret (fat_copy base k dev)).
  { intros k [-> | ->]; apply (fs_read_spec _ wi); try apply open_ok; try apply all_readable; cbn [fs_open device]; lia. }
  pose proof (Hread 0 ltac:(by left)) as Hr0. rewrite Z.mul_0_l, Z.add_0_r in Hr0.
  pose proof (Hread 1 ltac:(by right)) as Hr1. rewrite Z.mul_1_l in Hr1.
  assert (Hlen : Z.of_nat (length (fat_copy base 0 dev)) = eff_size base) by (unfold fat_copy; apply read_at_length; lia).
  assert (Hub : Forall byte (fat_copy base 0 dev)) by by apply read_at_bytes.
  destruct (fill_table junk base (length dev) (fat_copy base 0 dev) G Hub Hlen) as (fs' & Hfill & Hsh' & G' & _ & _ & Hall).
  assert (Hzero : forall i, 2 <= i < clusters base + 2 -> fat_at fs' i = Ret (FatEntry 0 (reserved junk) None (prev junk))).
  { intros i Hi. destruct (Hall i Hi) as (e & Hget & _ & ->). rewrite <- Hget. by apply get_fat_blank. }
  exists (Dos (fs_open dev []) fs'). split.
  - unfold DosFat.read_fat. cbn [d_fs d_io]. rewrite Hst, Hsz, Hef, Hr0. run.
    assert ((if bool_decide (nfats fs > 1) then
        second ← fs_read bad (fat_start base + fat_size base) (eff_size base) (fs_open dev []);
        if bool_decide (fat_copy base 0 dev <> second) then choose_fat false wi junk (fat_copy base 0 dev) second (Dos (fs_open dev []) fs)
        else Ret (fat_copy base 0 dev, Dos (fs_open dev []) fs)
      else Ret (fat_copy base 0 dev, Dos (fs_open dev []) fs)) = Ret (fat_copy base 0 dev, Dos (fs_open dev []) fs)) as ->.
    { case_bool_decide; [|done]. rewrite Hr1. run. rewrite Hcop. by rewrite bool_decide_eq_false_2 by (intros Hn; by apply Hn). }
    run. cbn [d_fs d_io]. change (DosFat.set_table (replicate (Z.to_nat (clusters fs + 2)) junk) fs) with (blank junk fs).
    rewrite Hblank, Hcn, Hfill. run. cbn [d_io].
    assert (cluster_numbers fs' = cluster_numbers base) as -> by (unfold cluster_numbers; by rewrite (same_shape_clusters _ _ Hsh')).
    apply each_same. intros i Hi. apply elem_of_seqZ in Hi. unfold check_entry. cbn [d_fs]. rewrite Hzero by lia. run. cbn [value].
    rewrite (same_shape_clusters _ _ Hsh'). by rewrite bool_decide_eq_false_2 by lia.
  - split; cbn [d_io d_fs]; try done. intros i Hi. rewrite Hzero by done. by eexists _, _.
Qed.

Lemma clean_entry d i :
  clean d -> i ∈ cluster_numbers (d_fs d) ->
  2 <= i < clusters base + 2 /\ (exists r p, fat_at (d_fs d) i = Ret (FatEntry 0 r None p)) /\
  FAT_IS_BAD false (d_fs d) 0 = false.
Proof.
  intros C Hi. rewrite (clean_clusters d C) in Hi. apply elem_of_seqZ in Hi. split; [lia|].
  split; [apply (cl_free d C); lia|apply (zero_not_bad _ _ _ (cl_geometry d C))].
Qed.

Lemma fix_bad_clean d : clean d -> DosFat.fix_bad wi false bad long_size d = Ret d.
Proof.
  intros C. unfold DosFat.fix_bad. apply each_same. intros i Hi.
  destruct (clean_entry d i C Hi) as (Hr & (r & p & He) & Hnb). rewrite He. run. cbn [owner value]. rewrite Hnb.
  rewrite bool_decide_eq_true_2 by done. cbn [andb negb].
  destruct (fr_data _ _ fresh) as (Hd0 & Hcs & Hend). pose proof (cl_shape d C) as Hsh.
  assert (cluster_start (d_fs d) i = data_start base + (i - 2) * DosFat.cluster_size base /\
          DosFat.cluster_size (d_fs d) = DosFat.cluster_size base) as [-> ->] by (rewrite Hsh; done).
  rewrite fs_test_spec by nia. rewrite all_readable, (cl_io d C). cbn [fs_open device negb andb].
  by rewrite bool_decide_eq_true_2 by nia.
Qed.

Lemma reclaim_clean d : clean d -> DosFat.reclaim_free wi false long_size d = Ret d.
Proof.
  intros C. unfold DosFat.reclaim_free. apply each_same. intros i Hi.
  destruct (clean_entry d i C Hi) as (Hr & (r & p & He) & Hnb). unfold reclaim_cluster. rewrite He. run. cbn [owner value].
  rewrite (bool_decide_eq_false_2 (0 <> 0)) by (intros Hn; by apply Hn). by rewrite andb_false_r.
Qed.

Lemma update_clean d : clean d -> DosFat.update_free false wi false long_size d = Ret (clusters base, d).
Proof.
  intros C. unfold DosFat.update_free. rewrite (count_free_spec _ _ _ (cl_geometry d C)). run.
  assert (fsinfo_start (d_fs d) = 0) as -> by (rewrite (cl_shape d C); apply (fr_plain _ _ fresh)).
  rewrite bool_decide_eq_true_2 by done. do 2 f_equal. unfold free_count. rewrite (clean_clusters d C).
  assert (Hall : forall l : list Z, (forall i, i ∈ l -> i ∈ cluster_numbers base) -> filter (is_free false (d_fs d)) l = l).
  { induction l as [|i l IH]; intros Hin; [done|]. rewrite filter_cons, decide_True.
    - f_equal. apply IH. intros j Hj. apply Hin. by right.
    - destruct (clean_entry d i C) as (_ & (r & p & He) & Hnb).
      { rewrite (clean_clusters d C). apply Hin. by left. }
      unfold is_free. rewrite He. done. }
  rewrite Hall by done. unfold cluster_numbers. rewrite length_seqZ. pose proof (g_clusters _ _ (cl_geometry d C)) as Hc.
  rewrite (same_shape_clusters _ _ (cl_shape d C)) in Hc. lia.
Qed.

(** ** An empty root directory *)

(** The state of the walk before and after: no files, no long name, no requests. *)
Definition idle (d : dos) : scan_state := ScanState (CheckState d ∅ None 0 0) lfn_init [].

Lemma orphaned_idle d : on_lfn (lfn_check_orphaned false wi) (idle d) = Ret (idle d).
Proof. by destruct d. Qed.

Lemma add_file_free new_mem stale d i read_test :
  clean d -> 0 <= i < root_entries base ->
  add_file false wi false bad long_size new_mem stale read_test (Head None) None (root_start base + i * 32) (Some [])
    (idle d) = Ret (Head None, idle d).
Proof.
  intros C Hi. destruct (fr_root_place _ _ fresh) as [Hp Hend]. unfold add_file.
  rewrite (bool_decide_eq_true_2 (_ <> 0)) by lia. change (io_of (s_check (idle d))) with (d_io d). rewrite (cl_io d C).
  rewrite (fs_read_spec _ wi) by (apply open_ok || apply all_readable || (cbn [fs_open device]; lia)). run.
  change (vdisk (fs_open dev [])) with dev. rewrite (fr_root _ _ fresh) by done.
  change (file_type (fp_root (idle d)) (Some []) (de_name (replicate 32 0))) with fdt_none.
  unfold apply_request. rewrite (bool_decide_eq_true_2 (fdt_none = fdt_none)) by done. run.
  change (IS_FREE (de_name (replicate 32 0))) with true. cbv iota. rewrite orphaned_idle. by run.
Qed.

Lemma read_root_free new_mem stale d entries read_test :
  clean d -> (forall i, i ∈ entries -> 0 <= i < root_entries base) ->
  read_root false wi false bad long_size new_mem stale entries read_test (Head None) (idle d) = Ret (idle d).
Proof.
  intros C. induction entries as [|i entries IH]; intros Hin; [done|]. cbn [read_root].
  assert (root_start (k_fs (s_check (idle d))) = root_start base) as ->.
  { change (k_fs (s_check (idle d))) with (d_fs d). by rewrite (cl_shape d C). }
  rewrite add_file_free by (done || (apply Hin; by left)). run. apply IH. intros j Hj. apply Hin. by right.
Qed.

Lemma scan_root_clean new_mem stale d depth read_test :
  clean d -> scan_root false wi false bad long_size new_mem stale depth read_test (idle d) = Ret (false, idle d).
Proof.
  intros C. unfold scan_root. change (set_lfn _ (set_check _ (idle d))) with (idle d). cbv zeta.
  change (k_fs (s_check (idle d))) with (d_fs d).
  assert (root_cluster (d_fs d) = 0 /\ root_entries (d_fs d) = root_entries base) as [-> ->].
  { rewrite (cl_shape d C). split; [apply (fr_plain _ _ fresh)|done]. }
  rewrite (bool_decide_eq_false_2 (0 <> 0)) by (intros Hn; by apply Hn).
  rewrite read_root_free by (done || (intros i Hi; apply elem_of_seqZ in Hi; lia)). run.
  unfold check_list. rewrite orphaned_idle. by run.
Qed.

(** ** The passes *)

Lemma scan_loop_clean opts new_mem stale junk d fuel depth :
  d_io d = fs_open dev [] -> same_shape base (d_fs d) ->
  exists d', scan_loop false wi false bad long_size new_mem stale opts junk (S fuel) depth (idle d) = Ret (idle d') /\ clean d'.
Proof.
  intros Hio Hsh. destruct (read_fat_clean junk d Hio Hsh) as (d' & Hr & C). exists d'. split; [|done].
  cbn [scan_loop]. change (on_table (DosFat.read_fat false wi false bad long_size junk) (idle d)) with
    (s ← (d ← DosFat.read_fat false wi false bad long_size junk d; Ret (set_dos d (s_check (idle d)))); Ret (set_check s (idle d))).
  rewrite Hr. run. change (set_check _ (idle d)) with (idle d'). rewrite scan_root_clean by done. by run.
Qed.

Lemma on_table_idle (op : dos -> outcome dos) d d' : op d = Ret d' -> on_table op (idle d) = Ret (idle d').
Proof. intros H. unfold on_table, on_check, on_dos. change (k_dos (s_check (idle d))) with d. rewrite H. by run. Qed.

Lemma check_pass_clean opts new_mem stale junk d fuel depth :
  salvage_files opts = false -> d_io d = fs_open dev [] -> same_shape base (d_fs d) ->
  exists d', check_pass false wi false bad long_size new_mem stale opts junk (S fuel) depth (idle d) =
    Ret (clusters base, idle d') /\ clean d'.
Proof.
  intros Hs Hio Hsh. destruct (scan_loop_clean opts new_mem stale junk d fuel depth Hio Hsh) as (d1 & Hl & C1).
  unfold check_pass. rewrite Hl. run. rewrite Hs.
  assert ((if test opts then on_table (DosFat.fix_bad wi false bad long_size) (idle d1) else Ret (idle d1)) = Ret (idle d1)) as ->.
  { destruct (test opts); [|done]. by apply on_table_idle, fix_bad_clean. }
  run. rewrite (on_table_idle _ _ _ (reclaim_clean d1 C1)). run. change (k_dos (s_check (idle d1))) with d1.
  rewrite (update_clean d1 C1). run. change (set_check _ (idle d1)) with (idle d1). destruct (verify opts).
  - destruct (read_fat_clean junk d1 (cl_io d1 C1) (cl_shape d1 C1)) as (d2 & Hr & C2).
    rewrite (on_table_idle _ _ _ Hr). run. rewrite scan_root_clean by done. run.
    rewrite (on_table_idle _ _ _ (reclaim_clean d2 C2)). run. by exists d2.
  - run. by exists d1.
Qed.

End Clean.

(** ** What mkdosfs leaves is a fresh disk *)

Lemma read_at_take p m n dev : 0 <= m <= n -> read_at p m dev = take (Z.to_nat m) (read_at p n dev).
Proof. intros H. unfold read_at. rewrite take_take. f_equal. lia. Qed.

Lemma read_at_zeros p q n m dev :
  0 <= p -> 0 <= q -> 0 <= m -> q + m <= n -> read_at p n dev = replicate (Z.to_nat n) 0 ->
  read_at (p + q) m dev = replicate (Z.to_nat m) 0.
Proof.
  intros Hp Hq Hm Hn Hr. assert (Hs : read_at (p + q) m dev = read_at q m (read_at p n dev)).
  { unfold read_at. rewrite skipn_firstn_comm, take_take, drop_drop. f_equal; [lia|]. f_equal. lia. }
  rewrite Hs, Hr. unfold read_at. rewrite drop_replicate, take_replicate. f_equal. lia.
Qed.

Lemma formatted_fresh o s t dev long_size fs :
  plain_options o -> format_ok o s -> made o s t -> formatted o s t (length dev) dev ->
  disk_sectors o s * sector_size s <= Z.of_nat (length dev) ->
  nr_fats o = 2 -> volume_name o = replicate 11 32 -> long_size = 4 \/ long_size = 8 ->
  let bits := size_fat (t_state t) in
  fresh_disk (set_fat_bits bits bits (layout long_size (bs (t_state t)) fs)) dev.
Proof.
  intros O F M Hf Hdisk H2 Hv Hls bits.
  destruct (layout_read_back o) with (long_size := long_size) (s := s) (t := t) (fs := fs) as [L1 L2 L3 L4 L5 L6 L7 L8];
    [(done || apply O)..|].
  pose proof M as [Hw Hby [Hs Hr] Hbits _ _ _ _ _ _ _ Hcs Hfit Hc _ Htab Hdir _ Hempty].
  pose proof F as [_ _ _ _ [Hss _] Hres _ [Hroot _] _ _ [_ Hdb] _].
  assert (Hb' : bits <> 32) by (unfold bits; lia).
  pose proof (fit_positive _ _ _ _ _ _ _ Hfit) as Hfl. pose proof (fit_entries _ _ _ _ _ _ _ Hfit) as Hent.
  pose proof (fit_small _ _ _ _ _ _ _ Hfit Hb') as Hfl3. pose proof (fit_data _ _ _ _ _ _ _ Hfit) as Hd.
  set (fl := fld 22 2 (t_state t)) in *. set (cs := fld 13 1 (t_state t)) in *. rewrite H2 in *.
  assert (Hres0 : 1 <= reserved_of s) by (unfold reserved_of; case_bool_decide; lia).
  assert (Hrs : 0 <= root_sectors s) by (unfold root_sectors; apply Z.div_pos; lia).
  set (base := set_fat_bits bits bits (layout long_size (bs (t_state t)) fs)).
  assert (Heff : eff_size base <= fat_size base).
  { unfold eff_size, base. cbn [set_fat_bits clusters fat_bits fat_size]. rewrite L8, L3. fold bits in Hent. dlia. }
  assert (B : clusters base = t_clusters t /\ fat_start base = reserved_of s * sector_size s /\ fat_size base = fl * sector_size s /\
    nfats base = 2 /\ root_start base = (reserved_of s + 2 * fl) * sector_size s /\ root_entries base = root_count s /\
    data_start base = root_start base + root_sectors s * sector_size s /\ DosFat.cluster_size base = cs * sector_size s /\
    fat_bits base = bits /\ root_cluster base = 0 /\ fsinfo_start base = 0).
  { unfold base. cbn [set_fat_bits clusters fat_start fat_size nfats root_start root_entries data_start DosFat.cluster_size fat_bits].
    rewrite L4, L2, L3 in *. split_and!; try done; lia. }
  destruct B as (B1 & B2 & B3 & B4 & B5 & B6 & B7 & B8 & B9 & B10 & B11). pose proof (root_sectors_room o (po_name o O) (po_code o O) s Hss ltac:(lia)) as Hroom.
  assert (Hall : (reserved_of s + 2 * fl + root_sectors s + t_clusters t * cs) * sector_size s <= Z.of_nat (length dev)).
  { etrans; [|exact Hdisk]. apply Z.mul_le_mono_nonneg_r; lia. }
  assert (Hcc : 0 <= t_clusters t * cs) by nia. assert (Hfss : 512 <= fl * sector_size s < 2 ^ 31) by nia.
  assert (He0 : 0 <= eff_size base) by (unfold eff_size; rewrite B1, B9; apply Z.div_pos; unfold bits; lia).
  assert (Hcopy : forall k, 0 <= k < 2 -> fat_copy base k dev = take (Z.to_nat (eff_size base)) (t_fat t)).
  { intros k Hk. unfold fat_copy. rewrite (read_at_take _ _ (fat_size base)) by lia. f_equal.
    rewrite B2, B3. pose proof (fm_tables _ _ _ _ _ Hf k) as Ht. rewrite H2 in Ht. by apply Ht. }
  split; try done.
  - intros junk. unfold blank. split; cbn [DosFat.set_table fat_bits eff_fat_bits clusters fat fat_start fat_size nfats]; rewrite ?length_replicate, ?B1, ?B2, ?B3, ?B4.
    + unfold base. cbn [set_fat_bits fat_bits eff_fat_bits]. unfold bits. tauto.
    + lia.
    + done.
    + nia.
    + change (eff_size _) with (eff_size base). lia.
    + change (eff_size _) with (eff_size base). lia.
    + by right.
    + lia.
  - apply (fm_bytes _ _ _ _ _ Hf).
  - rewrite Hcopy by lia. rewrite B9. intros i Hi Hlt. rewrite length_take in Hlt. rewrite lookup_take_lt by lia.
    rewrite Htab in Hlt |- *. rewrite (empty_table_length o (po_name o O) (po_code o O)) in Hlt by nia. apply empty_table_zero; [done|lia].
  - by rewrite !Hcopy by lia.
  - rewrite B6, B5. intros i Hi. destruct (fm_root _ _ _ _ _ Hf) as [Hrd _]. rewrite H2 in Hrd. fold fl in Hrd.
    rewrite (Hempty Hv) in Hrd. apply (read_at_zeros _ _ (root_count s * 32)); try done; nia.
  - rewrite B5, B6. split; [nia|]. lia.
  - rewrite B7, B5, B1, B8. split; [nia|]. split; [nia|]. lia.
Qed.

(** C1: a disk that mkdosfs has just made is clean for dosfsck. The disk is formatted
    with FAT12 or FAT16, two tables and no label, and parameters that [format_ok]
    allows: not Atari's format, a root directory of a positive multiple of 16
    entries, less than 2^28 sectors, all on the device, with room for the reserved
    ones and the root directory; its geometry has heads and
    sectors per track that are not zero, and 16 bits are not forced on it. If
    mkdosfs does not stop with a message, then dosfsck, run on the result without
    questions, requests and salvaging, where no read fails, with or without the
    reading tests, verification, repairs and write mode, ends, reports no change
    and leaves the disk as it is. *)
Theorem fresh_disk_clean o stamp s dev wi bad long_size device_no new_mem stale opts junk fuel depth fs :
  plain_options o -> format_ok o s -> Forall byte dev -> blocks o * BLOCK_SIZE <= Z.of_nat (length dev) ->
  (512 <= length dev)%nat -> fld 24 2 s <> 0 -> fld 26 2 s <> 0 ->
  nr_fats o = 2 -> volume_name o = replicate 11 32 -> size_fat s <> 16 ->
  (forall pos size, bad pos size = false) -> long_size = 4 \/ long_size = 8 -> salvage_files opts = false ->
  match setup_tables o stamp s with
  | Fault e => e = Died
  | Ret t => exists dev', write_tables o t dev = Ret dev' /\
      dosfsck false wi false bad long_size new_mem stale opts device_no junk (S fuel) depth [] fs dev' [] = Ret (false, dev')
  end.
Proof.
  intros O F Hdev Hroom H512 H24 H26 H2 Hv H16 Hbad Hls Hsalv. pose proof (format_spec o stamp s dev O F Hdev Hroom) as H.
  destruct (setup_tables o stamp s) as [t|e]; [|done]. destruct H as (M & dev' & -> & Hf).
  exists dev'. split; [done|]. assert (Hl : length dev' = length dev) by apply Hf.
  assert (Hck : checkable s t) by by split. rewrite <- Hl in Hf, H512, Hroom.
  pose proof (disk_room o s F) as Hd. assert (Hdisk : disk_sectors o s * sector_size s <= Z.of_nat (length dev')) by lia.
  unfold dosfsck. cbn [foldl]. run.
  rewrite (boot_spec o) with (s := s) (t := t) (n := length dev') by (done || apply O). run.
  set (base := set_fat_bits _ _ _). change (ScanState (CheckState _ ∅ None 0 0) lfn_init []) with (idle (Dos (fs_open dev' []) base)).
  pose proof (formatted_fresh o s t dev' long_size fs O F M Hf Hdisk H2 Hv Hls) as Fr. cbv zeta in Fr. fold base in Fr.
  destruct (check_pass_clean wi bad long_size Hbad base dev' Fr opts new_mem stale junk (Dos (fs_open dev' []) base) fuel depth)
    as (d & -> & C); [done..|]. run.
  change (io_of (s_check (idle d))) with (d_io d). rewrite (cl_io _ _ _ C). cbn [fs_changed fs_open changes did_change].
  destruct (rw opts); done.
Qed.

(** The floppy of 1.44 MB, with reading tests and verification. *)
Lemma fresh_disk_clean_witness :
  let dev := replicate (Z.to_nat 1474560) 0 in
  exists t dev', setup_tables floppy_options (0, 0) floppy_start = Ret t /\ write_tables floppy_options t dev = Ret dev' /\
    dosfsck false false false (fun _ _ => false) 8 (fun _ => []) [] (Options true false true true) 0 (FatEntry 0 0 None 0)
      1 0 [] (DosFs 0 0 0 0 0 0 0 0 0 0 0 0 0 0 []) dev' [] = Ret (false, dev').
Proof.
  intros dev. destruct floppy_tables as (t & Ht & _). assert (Hl : Z.of_nat (length dev) = 1474560).
  { unfold dev. rewrite length_replicate. apply Z2Nat.id. lia. }
  pose proof (fresh_disk_clean floppy_options (0, 0) floppy_start dev false (fun _ _ => false) 8 0 (fun _ => []) []
    (Options true false true true) (FatEntry 0 0 None 0) 0 0 (DosFs 0 0 0 0 0 0 0 0 0 0 0 0 0 0 [])
    floppy_options_plain floppy_format_ok) as H.
  rewrite Ht in H. destruct H as (dev' & Hw & Hd).
  - apply Forall_replicate. split; [apply Z.le_refl|reflexivity].
  - rewrite Hl. apply Z.leb_le. vm_compute. reflexivity.
  - apply Nat2Z.inj_le. rewrite Hl. apply Z.leb_le. vm_compute. reflexivity.
  - vm_compute. discriminate.
  - vm_compute. discriminate.
  - reflexivity.
  - reflexivity.
  - vm_compute. discriminate.
  - intros. reflexivity.
  - right. reflexivity.
  - reflexivity.
  - exists t, dev'. split; [exact Ht|]. split; [exact Hw|exact Hd].
Defined.
