(* ===== verification/Getopt.v ===== *)
(** * Command lines

    What the programs use of the C library to read their command line: [getopt]
    of the GNU library, which moves operands behind the options and leaves [optarg]
    null for an option without an argument, and [strtol] with its relatives. A
    string is the list of its bytes without the terminating zero. *)

From S2P Require Import Prelude.

(** ** getopt *)

(** How the letter [c] is listed among the options: not at all, alone, or
    with a colon behind it. *)
Fixpoint option_kind (c : Z) (optstring : list Z) : option bool :=
  match optstring with
  | [] => None
  | b :: rest =>
      if bool_decide (b = c /\ c <> 58) then Some (match rest with 58 :: _ => true | _ => false end)
      else option_kind c rest
  end.

(** An option that is found, with its argument; [?] stands for an error. *)
Definition found := (Z * option (list Z))%type.
Definition bad_option : found := (63, None).

(** The letters of one argument: the options in it, and the letter that still
    waits for its own argument, which is the next one of the command line. *)
Fixpoint letters (optstring s : list Z) : list found * option Z :=
  match s with
  | [] => ([], None)
  | c :: s =>
      match option_kind c optstring with
      | None => let '(l, w) := letters optstring s in (bad_option :: l, w)
      | Some false => let '(l, w) := letters optstring s in ((c, None) :: l, w)
      | Some true => match s with [] => ([], Some c) | _ => ([(c, Some s)], None) end
      end
  end.

(** The options in their order and the operands. *)
Fixpoint getopt (optstring : list Z) (args : list (list Z)) : list found * list (list Z) :=
  match args with
  | [] => ([], [])
  | [45; 45] :: args => ([], args)
  | (45 :: b :: s) :: args =>
      let '(l, w) := letters optstring (b :: s) in
      match w, args with
      | None, _ => let '(o, n) := getopt optstring args in (l ++ o, n)
      | Some c, a :: args => let '(o, n) := getopt optstring args in (l ++ (c, Some a) :: o, n)
      | Some _, [] => (l ++ [bad_option], [])
      end
  | a :: args => let '(o, n) := getopt optstring args in (o, a :: n)
  end.

(** ** Numbers *)

Definition digit_value (c : Z) : option Z :=
  if bool_decide (48 <= c <= 57) then Some (c - 48)
  else if bool_decide (65 <= c <= 90) then Some (c - 55)
  else if bool_decide (97 <= c <= 122) then Some (c - 87)
  else None.

(** The digits of a base at the front, their value, and what is left; nothing
    if there is none. *)
Fixpoint read_digits (base : Z) (acc : option Z) (s : list Z) : option Z * list Z :=
  match s with
  | c :: s' =>
      match digit_value c with
      | Some v => if bool_decide (v < base) then read_digits base (Some (default 0 acc * base + v)) s' else (acc, s)
      | None => (acc, s)
      end
  | [] => (acc, [])
  end.

Definition is_space (c : Z) : bool := bool_decide (c = 32 \/ 9 <= c <= 13).
Fixpoint skip_spaces (s : list Z) : list Z :=
  match s with c :: s' => if is_space c then skip_spaces s' else s | [] => [] end.

(** The prefix of a base; a digit must follow it. *)
Definition hex_prefix (s : list Z) : option (list Z) :=
  match s with
  | 48 :: x :: s' =>
      if bool_decide (x = 120 \/ x = 88) then
        match read_digits 16 None s' with (Some _, _) => Some s' | _ => None end
      else None
  | _ => None
  end.

(** The number without its sign, and the rest of the string. *)
Definition read_number (base : Z) (s : list Z) : option Z * list Z :=
  match hex_prefix s, bool_decide (base = 0 \/ base = 16) with
  | Some s', true => read_digits 16 None s'
  | _, _ =>
      if bool_decide (base = 0) then read_digits (match s with 48 :: _ => 8 | _ => 10 end) None s
      else read_digits base None s
  end.

(** The sign, the number and [*endptr]; without digits the pointer stays at the start. *)
Definition parse_integer (base : Z) (s : list Z) : bool * Z * list Z :=
  let t := skip_spaces s in
  let '(neg, t) := match t with 45 :: t => (true, t) | 43 :: t => (false, t) | _ => (false, t) end in
  match read_number base t with
  | (Some v, rest) => (neg, v, rest)
  | (None, _) => (false, 0, s)
  end.

(** [strtol] for a [long] of [n] bits, [strtoul] and [strtoull] alike. *)
Definition strtol (n base : Z) (s : list Z) : Z * list Z :=
  let '(neg, v, rest) := parse_integer base s in
  (Z.max (- 2 ^ (n - 1)) (Z.min (2 ^ (n - 1) - 1) (if neg then - v else v)), rest).

Definition strtoul (n base : Z) (s : list Z) : Z * list Z :=
  let '(neg, v, rest) := parse_integer base s in
  (if bool_decide (v < 2 ^ n) then wrap n (if neg then - v else v) else 2 ^ n - 1, rest).
