(* ===== verification/DosMain.v ===== *)
(** * The command lines of dosfsck and mkdosfs

    The [main] functions of [dosfsck/dosfsck.c] and [mkdosfs/mkdosfs.c]: their
    options and operands, what they refuse, and the programs that they start. *)

From S2P Require Import Prelude Getopt DosIo DosFat DosBoot DosName DosScan Mkdosfs MkdosfsBoot.

(** ** dosfsck *)

Section Dosfsck.

(** The device behind a name, the default of Atari format, which is one on some
    machines, and the parameters of the program. *)
Variable open_device : list Z -> option (list Z).
Variable atari_default : bool.
Variable bad_read : Z -> Z -> bool.
Variable long_size : Z.
Variable fresh : Z -> list Z.
Variable stale : list Z.
Variable device_no : Z.
Variable junk : FAT_ENTRY.
Variable fs : DOS_FS.

(** The settings; those that only print more are left out. *)
(* @src C/dosfstools-2.11/dosfsck/dosfsck.c:27-28 interactive *)
Record command := Command {
  c_interactive : bool;
  c_write_immed : bool;
  c_atari : bool;
  c_options : options;
  c_requests : list (list Z * FD_TYPE);
}.

(* @src C/dosfstools-2.11/dosfsck/dosfsck.c:89-91 main *)
Definition command_init : command := Command true false atari_default (Options false false false false) [].

Definition set_repair (rw salvage interactive : bool) (c : command) : command :=
  let o := c_options c in
  Command interactive (c_write_immed c) (c_atari c) (Options rw salvage (verify o) (test o)) (c_requests c).

Definition add_request (path : option (list Z)) (type : FD_TYPE) (c : command) : outcome command :=
  match path with
  | None => Fault NullDeref
  | Some p => Ret (Command (c_interactive c) (c_write_immed c) (c_atari c) (c_options c) (c_requests c ++ [(p, type)]))
  end.

(* @src C/dosfstools-2.11/dosfsck/dosfsck.c:94-139 main *)
Definition apply_option (f : found) (c : command) : outcome command :=
  let o := c_options c in
  let '(letter, arg) := f in
  if bool_decide (letter = 65) then (* A *)
    Ret (Command (c_interactive c) (c_write_immed c) (negb (c_atari c)) o (c_requests c))
  else if bool_decide (letter = 97 \/ letter = 121) then Ret (set_repair true true false c) (* a, y *)
  else if bool_decide (letter = 100) then add_request arg fdt_drop c (* d *)
  else if bool_decide (letter = 102) then Ret (set_repair (rw o) true (c_interactive c) c) (* f *)
  else if bool_decide (letter = 108) then Ret c (* l *)
  else if bool_decide (letter = 110) then Ret (set_repair false (salvage_files o) false c) (* n *)
  else if bool_decide (letter = 114) then Ret (set_repair true (salvage_files o) true c) (* r *)
  else if bool_decide (letter = 116) then (* t *)
    Ret (Command (c_interactive c) (c_write_immed c) (c_atari c)
           (Options (rw o) (salvage_files o) (verify o) true) (c_requests c))
  else if bool_decide (letter = 117) then add_request arg fdt_undelete c (* u *)
  else if bool_decide (letter = 118) then Ret c (* v *)
  else if bool_decide (letter = 86) then (* V *)
    Ret (Command (c_interactive c) (c_write_immed c) (c_atari c)
           (Options (rw o) (salvage_files o) true (test o)) (c_requests c))
  else if bool_decide (letter = 119) then (* w *)
    Ret (Command (c_interactive c) true (c_atari c) o (c_requests c))
  else Fault Died.

(* @src C/dosfstools-2.11/dosfsck/dosfsck.c:93-139 main *)
Fixpoint apply_options (l : list found) (c : command) : outcome command :=
  match l with [] => Ret c | f :: l => c ← apply_option f c; apply_options l c end.

(** The settings and the name of the device. *)
(* @src C/dosfstools-2.11/dosfsck/dosfsck.c:93-144 main *)
Definition command_line (args : list (list Z)) : outcome (command * list Z) :=
  let '(found, operands) := getopt (str_bytes "Aad:flnrtu:vVwy") args in
  c ← apply_options found command_init;
  _ ← require (negb ((test (c_options c) || c_write_immed c) && negb (rw (c_options c)))) Died;
  match operands with [name] => Ret (c, name) | _ => Fault Died end.

(* @src C/dosfstools-2.11/dosfsck/dosfsck.c:83-179 main *)
Definition dosfsck_main (fuel depth : nat) (args : list (list Z)) (input : list Z) : outcome (bool * list Z) :=
  '(c, name) ← command_line args;
  match open_device name with
  | None => Fault Died
  | Some dev =>
      dosfsck (c_interactive c) (c_write_immed c) (c_atari c) bad_read long_size fresh stale (c_options c) device_no junk
        fuel depth (c_requests c) fs dev input
  end.

End Dosfsck.

(** ** mkdosfs *)

Record mk_command := MkCommand {
  m_options : mk_options;
  m_state : mk_state;
  m_check : bool;
  m_create : bool;
  m_ignore_full_disk : bool;
  m_listfile : option (list Z);
}.

Definition upd_options (f : mk_options -> mk_options) (c : mk_command) : mk_command :=
  MkCommand (f (m_options c)) (m_state c) (m_check c) (m_create c) (m_ignore_full_disk c) (m_listfile c).
Definition upd_state (f : mk_state -> mk_state) (c : mk_command) : mk_command :=
  MkCommand (m_options c) (f (m_state c)) (m_check c) (m_create c) (m_ignore_full_disk c) (m_listfile c).

Definition set_blocks n (o : mk_options) : mk_options :=
  MkOptions (atari_format o) (volume_id o) (volume_name o) n (sector_size_set o) (size_fat_by_user o) (nr_fats o)
    (sectors_per_cluster o) (hidden_sectors o) (boot_code o).
Definition set_root_entries n (s : mk_state) : mk_state :=
  MkState (bs s) (sector_size s) (size_fat s) (reserved_sectors s) n (backup_boot s).
Definition set_backup n (s : mk_state) : mk_state :=
  MkState (bs s) (sector_size s) (size_fat s) (reserved_sectors s) (root_dir_entries s) n.

Section Mkdosfs_main.

(** The machine: the bits of a [long], the default of Atari format, the time as
    a number and as the time and date of a directory entry, the standard input
    and the files that can be read. *)
Variable long_bits : Z.
Variable atari_default : bool.
Variable create_time : Z.
Variable stamp : Z * Z.
Variable standard_input : list Z.
Variable open_file : list Z -> option (list Z).

(** The devices: which are mounted, their contents, whether one is a block
    device and its number and size, what seeking to its end gives; and what
    [fscanf] reads from a list of bad blocks. *)
Variable mounted : list Z -> bool.
Variable open_device : list Z -> option (list Z).
Variable block_device : list Z -> option Z.
Variable st_size : list Z -> Z.
Variable valid_offset : list Z -> Z -> bool.
Variable seek_end : list Z -> Z.
Variable block_numbers : list Z -> list Z.
Variable floppy_param : option (Z * Z * Z).
Variable loop_size : option Z.
Variable disk_geometry : option (Z * Z).
Variable do_check : Z -> Z -> Z.

(* @src C/dosfstools-2.11/mkdosfs/mkdosfs.c:287-317 program_name *)
Definition mk_command_init : mk_command :=
  MkCommand (MkOptions atari_default create_time (replicate 11 32) 0 false false 2 0 0 dummy_boot_code)
    (MkState (replicate 512 0) 512 0 0 0 0) false false false None.

(** [(int) strtol (optarg, &tmp, 0)] with [*tmp] and the range tested; a null
    [optarg] is dereferenced. *)
Definition number_option (arg : option (list Z)) (ok : Z -> bool) : outcome Z :=
  match arg with
  | None => Fault NullDeref
  | Some s =>
      let '(v, rest) := strtol long_bits 0 s in
      _ ← require (bool_decide (rest = []) && ok (s32 v)) Died;
      Ret (s32 v)
  end.

(** The message of [-m]; a file that cannot be opened is passed over. *)
(* @src C/dosfstools-2.11/mkdosfs/mkdosfs.c:1512-1577 main *)
Definition message_option (arg : option (list Z)) (o : mk_options) : outcome mk_options :=
  match arg with
  | None => Fault NullDeref
  | Some name =>
      match (if bool_decide (name = [45]) then Some standard_input else open_file name) with
      | None => Ret o
      | Some msg =>
          code ← set_message msg (boot_code o);
          Ret (MkOptions (atari_format o) (volume_id o) (volume_name o) (blocks o) (sector_size_set o) (size_fat_by_user o)
                 (nr_fats o) (sectors_per_cluster o) (hidden_sectors o) code)
      end
  end.

(** [sprintf(volume_name, "%-11.11s", optarg)] *)
Definition padded_name (s : list Z) : list Z := take 11 s ++ replicate (11 - length s) 32.

(** The options that are kept, those with a number and those without. *)
(* @src C/dosfstools-2.11/mkdosfs/mkdosfs.c:1444-1633 main *)
Definition apply_mk_option (f : found) (c : mk_command) : outcome mk_command :=
  let '(letter, arg) := f in
  let o := m_options c in
  let opts a v n sss sfu nf spc h := MkOptions a v n (blocks o) sss sfu nf spc h (boot_code o) in
  let a := atari_format o in let v := volume_id o in let n := volume_name o in
  let sss := sector_size_set o in let sfu := size_fat_by_user o in let nf := nr_fats o in
  let spc := sectors_per_cluster o in let h := hidden_sectors o in
  if bool_decide (letter = 65) then Ret (upd_options (fun _ => opts (negb a) v n sss sfu nf spc h) c) (* A *)
  else if bool_decide (letter = 98) then (* b *)
    x ← number_option arg (fun x => bool_decide (2 <= x <= 0xffff)); Ret (upd_state (set_backup x) c)
  else if bool_decide (letter = 99) then (* c *)
    Ret (MkCommand o (m_state c) true (m_create c) (m_ignore_full_disk c) (m_listfile c))
  else if bool_decide (letter = 67) then (* C *)
    Ret (MkCommand o (m_state c) (m_check c) true (m_ignore_full_disk c) (m_listfile c))
  else if bool_decide (letter = 102) then (* f *)
    x ← number_option arg (fun x => bool_decide (1 <= x <= 4)); Ret (upd_options (fun _ => opts a v n sss sfu x spc h) c)
  else if bool_decide (letter = 70) then (* F *)
    x ← number_option arg (fun x => bool_decide (x ∈ [12; 16; 32]));
    Ret (upd_state (set_size_fat x) (upd_options (fun _ => opts a v n sss true nf spc h) c))
  else if bool_decide (letter = 104) then (* h *)
    x ← number_option arg (fun x => bool_decide (0 <= x)); Ret (upd_options (fun _ => opts a v n sss sfu nf spc x) c)
  else if bool_decide (letter = 73) then (* I *)
    Ret (MkCommand o (m_state c) (m_check c) (m_create c) true (m_listfile c))
  else if bool_decide (letter = 105) then (* i *)
    match arg with
    | None => Fault NullDeref
    | Some s => let '(x, rest) := strtoul long_bits 16 s in
                _ ← require (bool_decide (rest = [])) Died;
                Ret (upd_options (fun _ => opts a (swrap long_bits x) n sss sfu nf spc h) c)
    end
  else if bool_decide (letter = 108) then (* l *)
    Ret (MkCommand o (m_state c) (m_check c) (m_create c) (m_ignore_full_disk c) arg)
  else if bool_decide (letter = 109) then o ← message_option arg o; Ret (upd_options (fun _ => o) c) (* m *)
  else if bool_decide (letter = 110) then (* n *)
    match arg with
    | None => Fault NullDeref
    | Some s => Ret (upd_options (fun _ => opts a v (padded_name s) sss sfu nf spc h) c)
    end
  else if bool_decide (letter = 114) then (* r *)
    x ← number_option arg (fun x => bool_decide (16 <= x <= 32768)); Ret (upd_state (set_root_entries x) c)
  else if bool_decide (letter = 82) then (* R *)
    x ← number_option arg (fun x => bool_decide (1 <= x <= 0xffff)); Ret (upd_state (set_reserved x) c)
  else if bool_decide (letter = 115) then (* s *)
    x ← number_option arg (fun x => bool_decide (x ∈ [1; 2; 4; 8; 16; 32; 64; 128]));
    Ret (upd_options (fun _ => opts a v n sss sfu nf x h) c)
  else if bool_decide (letter = 83) then (* S *)
    x ← number_option arg (fun x => bool_decide (x ∈ [512; 1024; 2048; 4096; 8192; 16384; 32768]));
    Ret (upd_state (set_sector_size x) (upd_options (fun _ => opts a v n true sfu nf spc h) c))
  else if bool_decide (letter = 118) then Ret c (* v *)
  else Fault Died.

(* @src C/dosfstools-2.11/mkdosfs/mkdosfs.c:1442-1633 main *)
Fixpoint apply_mk_options (l : list found) (c : mk_command) : outcome mk_command :=
  match l with [] => Ret c | f :: l => c ← apply_mk_option f c; apply_mk_options l c end.

(** The operands: the device, and the number of blocks if it is not the one that
    is found. *)
(* @src C/dosfstools-2.11/mkdosfs/mkdosfs.c:1634-1665 main *)
Definition operands_of (operands : list (list Z)) (create : bool) : outcome (list Z * Z) :=
  match operands with
  | [] => Fault Died
  | name :: rest =>
      cblocks ← (if create then Ret 0 else
                   match open_device name with
                   | None => Fault Died
                   | Some _ => count_blocks (valid_offset name) (seek_end name)
                   end);
      match rest with
      | [] => _ ← require (negb create) Died; Ret (name, cblocks)
      | [size] => let '(n, rest) := strtoul 64 0 size in _ ← require (bool_decide (rest = [])) Died; Ret (name, n)
      | _ => Fault Died
      end
  end.

(** The device: an existing one that is not mounted, or a new file, which is
    made long enough by writing its last byte. *)
(* @src C/dosfstools-2.11/mkdosfs/mkdosfs.c:1670-1691 main *)
Definition device_of (name : list Z) (create : bool) (n : Z) : outcome (list Z) :=
  if create then
    let offset := swrap 64 (wrap 64 (n * BLOCK_SIZE) - 1) in
    _ ← require (bool_decide (-1 <= offset)) Died;
    Ret (replicate (Z.to_nat (Z.max 0 offset) + 1) 0)
  else
    _ ← require (negb (mounted name)) Died;
    match open_device name with Some dev => Ret dev | None => Fault Died end.

(** Whole hard disks are refused. *)
(* @src C/dosfstools-2.11/mkdosfs/mkdosfs.c:1707-1712 main *)
Definition full_disk (rdev : Z) : bool :=
  bool_decide (Z.land rdev 0xff3f = 0x0300) || bool_decide (Z.land rdev 0xff0f = 0x0800) ||
  bool_decide (Z.land rdev 0xff3f = 0x0d00) || bool_decide (Z.land rdev 0xff3f = 0x1600).

(* @src C/dosfstools-2.11/mkdosfs/mkdosfs.c:1416-1728 main *)
Definition mkdosfs_main (args : list (list Z)) : outcome (list Z) :=
  let '(found, operands) := getopt (str_bytes "AbcCf:F:Ii:l:m:n:r:R:s:S:h:v") args in
  c ← apply_mk_options found mk_command_init;
  '(name, n) ← operands_of operands (m_create c);
  let o := set_blocks n (m_options c) in
  _ ← require (negb (m_check c && bool_decide (m_listfile c <> None))) Died;
  dev ← device_of name (m_create c) n;
  let block := if m_create c then None else block_device name in
  let size := if m_create c then Z.of_nat (length dev) else st_size name in
  _ ← require (match block with Some rdev => m_ignore_full_disk c || negb (full_disk rdev) | None => true end) Died;
  let check := bool_decide (block <> None) && m_check c in
  bad ← (if check then Ret search else
           match m_listfile c with
           | None => Ret no_check
           | Some file => match open_file file with Some text => Ret (listed (block_numbers text)) | None => Fault Died end
           end);
  mkdosfs o floppy_param loop_size disk_geometry do_check (default 0 block) size stamp bad (m_state c) dev.

End Mkdosfs_main.

(** ** What the options of mkdosfs can be *)

(** What [getopt] finds consists of bytes, and an option listed without a colon
    has no argument. *)
Record found_ok (optstring : list Z) (f : found) : Prop := {
  fo_arg : forall s, f.2 = Some s -> Forall byte s;
  fo_alone : option_kind f.1 optstring = Some false -> f.2 = None;
}.

Lemma bad_option_ok optstring : found_ok optstring bad_option.
Proof. by split. Qed.

Lemma letters_ok optstring s : Forall byte s ->
  Forall (found_ok optstring) (letters optstring s).1 /\
  forall c, (letters optstring s).2 = Some c -> option_kind c optstring = Some true.
Proof.
  induction s as [|c s IH]; intros Hb; cbn [letters]; [by split; [constructor|]|].
  inversion_clear Hb as [|? ? Hc Hs]. specialize (IH Hs).
  destruct (option_kind c optstring) as [[]|] eqn:E; [destruct s|..]; cbn [fst snd].
  - split; [constructor|]. by intros ? [= <-].
  - split; [|done]. constructor; [|constructor]. split; cbn; [by intros ? [= <-]|by rewrite E].
  - destruct (letters optstring s) as [l w]. destruct IH as [Hl Hw]. split; [|done]. by constructor.
  - destruct (letters optstring s) as [l w]. destruct IH as [Hl Hw]. split; [|done].
    constructor; [apply bad_option_ok|done].
Qed.

Lemma getopt_ok optstring args : Forall (Forall byte) args -> Forall (found_ok optstring) (getopt optstring args).1.
Proof.
  remember (length args) as n eqn:Hn. revert args Hn.
  induction n as [n IH] using lt_wf_ind. intros args -> Hb. destruct args as [|a args]; [constructor|].
  inversion_clear Hb as [|? ? Ha Hargs].
  assert (Hrest : Forall (found_ok optstring) (getopt optstring args).1) by (eapply IH; [|done|done]; cbn; lia).
  assert (Hopt : forall b s, a = 45 :: b :: s ->
    Forall (found_ok optstring)
      (let '(l, w) := letters optstring (b :: s) in
       match w, args with
       | None, _ => let '(o, n) := getopt optstring args in (l ++ o, n)
       | Some c, a :: args => let '(o, n) := getopt optstring args in (l ++ (c, Some a) :: o, n)
       | Some _, [] => (l ++ [bad_option], [])
       end).1).
  { intros b s ->. destruct (letters_ok optstring (b :: s)) as [Hl Hw]; [by inversion_clear Ha|].
    destruct (letters optstring (b :: s)) as [l [c|]]; cbn [fst snd] in *.
    - destruct args as [|a' args]; cbn [fst].
      + apply Forall_app. split; [done|]. constructor; [apply bad_option_ok|constructor].
      + inversion_clear Hargs as [|? ? Ha' Hargs']. pose proof (IH (length args) ltac:(cbn; lia) args eq_refl Hargs') as Hr.
        destruct (getopt optstring args) as [o n]. cbn [fst] in *. apply Forall_app. split; [done|]. constructor; [|done].
        split; cbn; [by intros ? [= <-]|]. rewrite (Hw c eq_refl). done.
    - destruct (getopt optstring args) as [o n]. cbn [fst] in *. by apply Forall_app. }
  cbn [getopt]. destruct (getopt optstring args) as [o n]. cbn [fst] in *.
  repeat first [apply Hopt; reflexivity | exact Hrest | case_match]; cbn [fst]; try constructor; try done; simplify_eq.
Qed.

(** The message keeps the code a list of bytes. *)
Lemma put_code_bytes ch c c' : put_code ch c = Ret c' -> byte ch -> Forall byte (c.1) -> Forall byte (c'.1).
Proof.
  unfold put_code. intros H Hch Hc. invert_run. cbn [fst]. apply mem_write_inv in Run as (_ & _ & ->).
  repeat apply Forall_app_2; [by apply Forall_take| |by apply Forall_drop]. by constructor.
Qed.

Lemma expand_tab_bytes fuel c pos c' pos' :
  expand_tab fuel c pos = Ret (c', pos') -> Forall byte (c.1) -> Forall byte (c'.1).
Proof.
  revert c pos. induction fuel as [|fuel IH]; intros c pos H Hc; cbn [expand_tab] in H; [done|]. invert_run.
  - eapply IH; [done|]. eapply put_code_bytes; [done| |done]. unfold byte. lia.
  - eapply put_code_bytes; [done| |done]. unfold byte. lia.
Qed.

Lemma message_char_bytes ch c pos c' pos' :
  message_char ch c pos = Ret (c', pos') -> Forall byte (c.1) -> Forall byte (c'.1).
Proof.
  unfold message_char. intros H Hc. destruct ch as [ch|]; invert_run; try done;
    try (eapply expand_tab_bytes; [done|]); repeat (eapply put_code_bytes; [done| |]); try done;
    try (unfold byte; lia); apply Z_mod_lt; lia.
Qed.

Lemma message_loop_bytes msg c pos c' : message_loop msg c pos = Ret c' -> Forall byte (c.1) -> Forall byte (c'.1).
Proof.
  revert c pos. induction msg as [|ch msg IH]; intros c pos H Hc; cbn [message_loop] in H; invert_run;
    first [by eapply message_char_bytes | eapply IH; [done|]; by eapply message_char_bytes].
Qed.

Lemma fill_zeros_bytes fuel c l : fill_zeros fuel c = Ret l -> Forall byte (c.1) -> Forall byte l.
Proof.
  revert c. induction fuel as [|fuel IH]; intros c H Hc; cbn [fill_zeros] in H; [done|]. case_bool_decide; invert_run.
  - eapply IH; [done|]. eapply put_code_bytes; [done| |done]. unfold byte. lia.
  - apply mem_write_inv in H as (_ & _ & ->). repeat apply Forall_app_2; [by apply Forall_take| |by apply Forall_drop].
    constructor; [unfold byte; lia|constructor].
Qed.

Lemma set_message_ok msg code code' : set_message msg code = Ret code' -> length code = 448%nat -> Forall byte code ->
  length code' = 448%nat /\ Forall byte code'.
Proof.
  intros H Hl Hb. destruct (set_message_fits msg code Hl) as (code1 & E & Hl' & _). rewrite H in E. injection E as <-.
  split; [done|]. unfold set_message in H. invert_run. eapply fill_zeros_bytes; [done|]. by eapply message_loop_bytes.
Qed.

(** The settings that the options can give. *)
Record mk_command_ok (c : mk_command) : Prop := {
  mo_fats : 1 <= nr_fats (m_options c) <= 4;
  mo_cluster : sectors_per_cluster (m_options c) ∈ [0; 1; 2; 4; 8; 16; 32; 64; 128];
  mo_sector : sector_size (m_state c) ∈ [512; 1024; 2048; 4096; 8192; 16384; 32768];
  mo_sector_set : sector_size_set (m_options c) = false -> sector_size (m_state c) = 512;
  mo_bits : if size_fat_by_user (m_options c) then size_fat (m_state c) ∈ [12; 16; 32] else size_fat (m_state c) = 0;
  mo_hidden : 0 <= hidden_sectors (m_options c) < 2 ^ 31;
  mo_reserved : 0 <= reserved_sectors (m_state c) <= 0xffff;
  mo_root : root_dir_entries (m_state c) = 0 \/ 16 <= root_dir_entries (m_state c) <= 32768;
  mo_backup : backup_boot (m_state c) = 0;
  mo_bs : bs (m_state c) = replicate 512 0;
  mo_name : length (volume_name (m_options c)) = 11%nat /\ Forall byte (volume_name (m_options c));
  mo_code : length (boot_code (m_options c)) = 448%nat /\ Forall byte (boot_code (m_options c));
}.

Lemma number_option_inv long_bits arg ok x : number_option long_bits arg ok = Ret x -> ok x = true /\ - 2 ^ 31 <= x < 2 ^ 31.
Proof.
  unfold number_option. destruct arg as [s|]; [|done]. destruct (strtol _ _ _) as [v rest]. intros H. invert_run.
  apply andb_true_iff in Run as [_ Hok]. split; [done|]. apply (swrap_range 32). lia.
Qed.

Lemma padded_name_ok s : Forall byte s -> length (padded_name s) = 11%nat /\ Forall byte (padded_name s).
Proof.
  intros H. unfold padded_name. split; [rewrite length_app, length_take, length_replicate; lia|].
  apply Forall_app_2; [by apply Forall_take|]. apply Forall_replicate. unfold byte. lia.
Qed.

Lemma mk_command_init_ok atari_default create_time : mk_command_ok (mk_command_init atari_default create_time).
Proof.
  split; cbn; try lia; try done; try (rewrite !elem_of_cons; tauto).
  - split; [done|]. by apply literal_bytes; vm_compute.
  - split; [by vm_compute|]. by apply literal_bytes; vm_compute.
Qed.

Lemma message_option_ok standard_input open_file arg o o' :
  message_option standard_input open_file arg o = Ret o' -> length (boot_code o) = 448%nat -> Forall byte (boot_code o) ->
  exists code, length code = 448%nat /\ Forall byte code /\ o' =
    MkOptions (atari_format o) (volume_id o) (volume_name o) (blocks o) (sector_size_set o) (size_fat_by_user o) (nr_fats o)
      (sectors_per_cluster o) (hidden_sectors o) code.
Proof.
  unfold message_option. intros H Hl Hb. destruct arg as [name|]; [|done].
  match type of H with match ?m with _ => _ end = _ => destruct m as [msg|] end.
  - invert_run. destruct (set_message_ok msg _ _ Run Hl Hb). eauto.
  - injection H as <-. exists (boot_code o). by destruct o.
Qed.

(** Every option keeps the settings among these, and [-b], listed without a
    colon, ends the program. *)
Lemma apply_mk_option_ok long_bits standard_input open_file f c c' :
  found_ok (str_bytes "AbcCf:F:Ii:l:m:n:r:R:s:S:h:v") f ->
  apply_mk_option long_bits standard_input open_file f c = Ret c' -> mk_command_ok c -> mk_command_ok c' /\ f.1 <> 98.
Proof.
  intros [Harg Halone] H []. destruct f as [letter arg]. cbn [fst snd] in *. unfold apply_mk_option in H.
  destruct (decide (letter = 98)) as [->|Hb]; [by rewrite Halone in H|]. split; [|done].
  repeat match type of H with
  | (if bool_decide (letter = ?k) then _ else _) = _ => destruct (bool_decide_reflect (letter = k)) as [->|?]
  end.
  all: repeat match type of H with
  | number_option _ _ _ ≫= _ = _ =>
      apply bind_ret_inv in H as (x & [Hx%bool_decide_eq_true Hw]%number_option_inv & H)
  | Ret _ = Ret _ => injection H as <-
  | (match ?a with Some _ => _ | None => _ end) = _ => destruct a as [s|] eqn:?; [|discriminate H]
  | (let '(_, _) := ?p in _) = _ => destruct p
  | _ ≫= _ = Ret _ => apply bind_ret_inv in H as (? & Hr & H)
  end.
  all: split; cbn; try done; try lia; try (intros; discriminate).
  all: first [by right | by apply padded_name_ok, Harg |
    destruct mo_code0, (message_option_ok _ _ _ _ _ Hr) as (? & ? & ? & ->); done].
Qed.

Lemma apply_mk_options_ok long_bits standard_input open_file l c c' :
  Forall (found_ok (str_bytes "AbcCf:F:Ii:l:m:n:r:R:s:S:h:v")) l ->
  apply_mk_options long_bits standard_input open_file l c = Ret c' -> mk_command_ok c ->
  mk_command_ok c' /\ Forall (fun f => f.1 <> 98) l.
Proof.
  intros Hl. revert c. induction Hl as [|f l Hf _ IH]; intros c H Hc; cbn [apply_mk_options] in H.
  { injection H as <-. by split. }
  apply bind_ret_inv in H as (c1 & H1 & H). destruct (apply_mk_option_ok _ _ _ _ _ _ Hf H1 Hc) as [Hc1 Hn].
  destruct (IH c1 H Hc1). split; [done|]. by constructor.
Qed.

(** Whatever the command line, the options that mkdosfs accepts leave its
    settings in range: one to four tables, sizes of sectors and clusters that are
    powers of two, no width or 12, 16 or 32 bits, a name of 11 bytes and a boot code
    of 448 whatever name and message were given, so that a format that is not
    Atari's meets what the formatting relies on. The option [-b] is never among
    them, since it stands in the list without a colon: its argument is a null
    pointer, and the backup boot sector cannot be chosen. *)
Theorem mkdosfs_options long_bits atari_default create_time standard_input open_file args c :
  Forall (Forall byte) args ->
  apply_mk_options long_bits standard_input open_file (getopt (str_bytes "AbcCf:F:Ii:l:m:n:r:R:s:S:h:v") args).1
    (mk_command_init atari_default create_time) = Ret c ->
  mk_command_ok c /\
  Forall (fun f => f.1 <> 98) (getopt (str_bytes "AbcCf:F:Ii:l:m:n:r:R:s:S:h:v") args).1 /\
  (atari_format (m_options c) = false -> forall n, plain_options (set_blocks n (m_options c))).
Proof.
  intros Hb H. destruct (apply_mk_options_ok _ _ _ _ _ _ (getopt_ok _ args Hb) H (mk_command_init_ok _ _)) as [Hc Hn].
  split; [done|]. split; [done|]. intros Ha n. destruct (mo_name _ Hc), (mo_code _ Hc). by split.
Qed.

(** A line with a label, a width and a size of the sector after the device. *)
Definition mk_line : list (list Z) :=
  [str_bytes "-F16"; str_bytes "-n"; str_bytes "DATA"; str_bytes "dev"; str_bytes "-S"; str_bytes "0x400"].

Lemma mkdosfs_options_witness :
  exists c, apply_mk_options 64 [] (fun _ => None) (getopt (str_bytes "AbcCf:F:Ii:l:m:n:r:R:s:S:h:v") mk_line).1
      (mk_command_init false 0) = Ret c /\ mk_command_ok c /\ volume_name (m_options c) = str_bytes "DATA       " /\
    sector_size (m_state c) = 1024.
Proof.
  eexists. split; [vm_compute; reflexivity|]. split; [|split; vm_compute; reflexivity].
  apply (mkdosfs_options 64 false 0 [] (fun _ => None) mk_line).
  - assert (H : bool_decide (Forall (fun s => bool_decide (Forall byte s) = true) mk_line) = true) by (vm_compute; reflexivity).
    apply bool_decide_eq_true_1 in H. eapply Forall_impl; [exact H|]. exact literal_bytes.
  - vm_compute. reflexivity.
Defined.
