(* ===== verification/DosReadonly.v ===== *)
(** * dosfsck without write access

    Without [-a], [-r] or [-y] nothing that the checker does reaches the device:
    every function keeps it, as long as changes are not written at once, and
    closing without write access drops the changes. *)

From S2P Require Import Prelude Getopt DosIo DosFat DosBoot DosCheck DosName DosLfn DosScan DosMain.

(** ** The device of a state *)

Class Dev (A : Type) := dev_of : A -> list Z.

#[global] Instance dev_io : Dev io_state := device.
#[global] Instance dev_dos : Dev dos := fun s => device (d_io s).
#[global] Instance dev_check : Dev check_state := fun s => device (d_io (k_dos s)).
#[global] Instance dev_scan : Dev scan_state := fun t => device (d_io (k_dos (s_check t))).
#[global] Instance dev_pair {A B} `{Dev B} : Dev (A * B) := fun p => dev_of (snd p).

(** A program that ends with the device [d], if it ends. *)
Definition stays {A} `{Dev A} (d : list Z) (m : outcome A) : Prop :=
  match m with Ret a => dev_of a = d | Fault _ => True end.

Lemma stays_bind {A B} `{Dev A} `{Dev B} d (m : outcome A) (k : A -> outcome B) :
  stays d m -> (forall a, dev_of a = d -> stays d (k a)) -> stays d (m ≫= k).
Proof. intros Hm Hk. destruct m as [a|f]; [by apply Hk|done]. Qed.

(** A step that has no state. *)
Lemma stays_step {A B} `{Dev B} d (m : outcome A) (k : A -> outcome B) :
  (forall a, stays d (k a)) -> stays d (m ≫= k).
Proof. intros Hk. destruct m as [a|f]; [apply Hk|done]. Qed.

Lemma stays_fault {A} `{Dev A} d f : stays d (Fault f : outcome A).
Proof. done. Qed.

Create HintDb readonly.
#[export] Hint Resolve stays_fault : readonly.

(** A loop over the clusters. *)
Lemma each_stays {S} `{Dev S} d (body : Z -> S -> outcome S) l s :
  (forall i s, dev_of s = d -> stays d (body i s)) -> dev_of s = d -> stays d (each body l s).
Proof.
  intros Hb. revert s. induction l as [|i l IH]; intros s Hs; [done|]. cbn [each].
  eapply stays_bind; [by apply Hb|]. intros a Ha. by apply IH.
Qed.

(** Through a program: a state is as good as the one it was made from, and a
    function that is called has its lemma. *)
Ltac dev_eq :=
  unfold dev_of, dev_pair, dev_scan, dev_check, dev_dos, dev_io, dev_of in *; cbn in *;
  first [congruence | repeat case_match; cbn in *; congruence].
#[export] Hint Extern 1 (dev_of _ = _) => dev_eq : readonly.

Ltac stay := intros; cbv beta zeta;
  lazymatch goal with
  | |- stays _ (Ret _) => unfold stays; dev_eq
  | |- stays _ (Fault _) => exact I
  | |- stays _ (each _ _ _) => apply each_stays; [stay|dev_eq]
  | |- stays _ (mbind _ _) =>
      first [eapply stays_bind; [solve [stay]|intros ? ?; stay] | apply stays_step; intros ?; stay]
  | |- stays _ (match ?x with _ => _ end) => destruct x; stay
  | |- stays _ _ => solve [eauto with readonly]
  end.

(** A program that is an argument of another one. *)
#[export] Hint Extern 3 (stays _ ?m) =>
  lazymatch m with
  | mbind _ _ => stay
  | Ret _ => stay
  | each _ _ _ => stay
  | match _ with _ => _ end => stay
  end : readonly.

(** ** The virtual disk *)

Lemma fs_write_stays d pos data s : dev_of s = d -> stays d (fs_write false pos data s).
Proof. done. Qed.
#[export] Hint Resolve fs_write_stays : readonly.

Lemma get_key_stays d valid s : dev_of s = d -> stays d (get_key valid s).
Proof. unfold get_key. stay. Qed.
#[export] Hint Resolve get_key_stays : readonly.

(** ** The functions of the program

    In the order in which they call one another. *)

Section Program.
Variables interactive atari_format : bool.
Variable bad_read : Z -> Z -> bool.
Variables long_size device_no : Z.
Variable junk : FAT_ENTRY.
Variable stale : list Z.
Variable fresh : Z -> list Z.
Variable opts : options.
Context (d : list Z).

Lemma set_fat_stays c v s : dev_of s = d -> stays d (set_fat false atari_format long_size c v s).
Proof. unfold set_fat. stay. Qed.
#[local] Hint Resolve set_fat_stays : readonly.

Lemma choose_fat_stays first second s : dev_of s = d -> stays d (choose_fat interactive false junk first second s).
Proof. unfold choose_fat. stay. Qed.
#[local] Hint Resolve choose_fat_stays : readonly.

Lemma check_entry_stays i s : dev_of s = d -> stays d (check_entry false atari_format long_size i s).
Proof. unfold check_entry. stay. Qed.
#[local] Hint Resolve check_entry_stays : readonly.

Lemma read_fat_stays s : dev_of s = d -> stays d (DosFat.read_fat interactive false atari_format bad_read long_size junk s).
Proof. unfold DosFat.read_fat. stay. Qed.
#[local] Hint Resolve read_fat_stays : readonly.

Lemma fix_bad_stays s : dev_of s = d -> stays d (DosFat.fix_bad false atari_format bad_read long_size s).
Proof. unfold DosFat.fix_bad. stay. Qed.
#[local] Hint Resolve fix_bad_stays : readonly.

Lemma reclaim_cluster_stays i s : dev_of s = d -> stays d (reclaim_cluster false atari_format long_size i s).
Proof. unfold reclaim_cluster. stay. Qed.
#[local] Hint Resolve reclaim_cluster_stays : readonly.

Lemma reclaim_free_stays s : dev_of s = d -> stays d (DosFat.reclaim_free false atari_format long_size s).
Proof. unfold DosFat.reclaim_free. stay. Qed.
#[local] Hint Resolve reclaim_free_stays : readonly.

Lemma update_free_stays s : dev_of s = d -> stays d (DosFat.update_free interactive false atari_format long_size s).
Proof. unfold DosFat.update_free. stay. Qed.
#[local] Hint Resolve update_free_stays : readonly.

Lemma check_backup_boot_stays b lss s : dev_of s = d -> stays d (DosBoot.check_backup_boot interactive false bad_read b lss s).
Proof. unfold DosBoot.check_backup_boot. stay. Qed.
#[local] Hint Resolve check_backup_boot_stays : readonly.

Lemma find_fsinfo_stays b lss s : dev_of s = d -> stays d (DosBoot.find_fsinfo interactive false stale b lss s).
Proof. unfold DosBoot.find_fsinfo. stay. Qed.
#[local] Hint Resolve find_fsinfo_stays : readonly.

Lemma read_fsinfo_stays b lss s : dev_of s = d -> stays d (DosBoot.read_fsinfo interactive false bad_read long_size stale b lss s).
Proof. unfold DosBoot.read_fsinfo. stay. Qed.
#[local] Hint Resolve read_fsinfo_stays : readonly.

Lemma read_fat32_stays b s : dev_of s = d -> stays d (DosBoot.read_fat32 interactive false bad_read long_size stale b s).
Proof. unfold DosBoot.read_fat32. stay. Qed.
#[local] Hint Resolve read_fat32_stays : readonly.

Lemma read_boot_stays s : dev_of s = d -> stays d (DosBoot.read_boot interactive false atari_format bad_read long_size device_no stale s).
Proof. unfold DosBoot.read_boot. stay. Qed.
#[local] Hint Resolve read_boot_stays : readonly.

Lemma on_dos_stays (op : dos -> outcome dos) s : (forall s, dev_of s = d -> stays d (op s)) -> dev_of s = d -> stays d (on_dos op s).
Proof. unfold on_dos. stay. Qed.
#[local] Hint Resolve on_dos_stays : readonly.

Lemma write_io_stays pos data s : dev_of s = d -> stays d (write_io false pos data s).
Proof. unfold write_io. stay. Qed.
#[local] Hint Resolve write_io_stays : readonly.

Lemma MODIFY_stays p off data s : dev_of s = d -> stays d (MODIFY false p off data s).
Proof. unfold MODIFY. stay. Qed.
#[local] Hint Resolve MODIFY_stays : readonly.

Lemma MODIFY_START_stays p v s : dev_of s = d -> stays d (MODIFY_START false long_size p v s).
Proof. unfold MODIFY_START. stay. Qed.
#[local] Hint Resolve MODIFY_START_stays : readonly.

Lemma put_size_stays p v s : dev_of s = d -> stays d (put_size false p v s).
Proof. unfold put_size. stay. Qed.
#[local] Hint Resolve put_size_stays : readonly.

Lemma put_owner_stays c o s : dev_of s = d -> stays d (put_owner c o s).
Proof. unfold put_owner. stay. Qed.
#[local] Hint Resolve put_owner_stays : readonly.

Lemma drop_loop_stays fuel cluster s : dev_of s = d -> stays d (drop_loop atari_format fuel cluster s).
Proof. revert cluster s. induction fuel as [|fuel IH]; intros cluster s H; cbn [drop_loop]; stay. Qed.
#[local] Hint Resolve drop_loop_stays : readonly.

Lemma drop_file_stays p s : dev_of s = d -> stays d (drop_file false atari_format long_size p s).
Proof. unfold drop_file. stay. Qed.
#[local] Hint Resolve drop_file_stays : readonly.

Lemma truncate_loop_stays fuel walk deleting clusters s : dev_of s = d -> stays d (truncate_loop false atari_format long_size fuel walk deleting clusters s).
Proof. revert walk deleting clusters s. induction fuel as [|fuel IH]; intros walk deleting clusters s H; cbn [truncate_loop]; stay. Qed.
#[local] Hint Resolve truncate_loop_stays : readonly.

Lemma truncate_file_stays p clusters s : dev_of s = d -> stays d (truncate_file false atari_format long_size p clusters s).
Proof. unfold truncate_file. stay. Qed.
#[local] Hint Resolve truncate_file_stays : readonly.

Lemma disown_loop_stays fuel this s : dev_of s = d -> stays d (disown_loop atari_format fuel this s).
Proof. revert this s. induction fuel as [|fuel IH]; intros this s H; cbn [disown_loop]; stay. Qed.
#[local] Hint Resolve disown_loop_stays : readonly.

Lemma end_chain_stays p prev s : dev_of s = d -> stays d (end_chain false atari_format long_size p prev s).
Proof. unfold end_chain. stay. Qed.
#[local] Hint Resolve end_chain_stays : readonly.

Lemma cut_owner_stays f g s : dev_of s = d -> stays d (cut_owner interactive f g s).
Proof. unfold cut_owner. stay. Qed.
#[local] Hint Resolve cut_owner_stays : readonly.

Lemma take_from_owner_stays o curr restart s : dev_of s = d -> stays d (take_from_owner false atari_format long_size o curr restart s).
Proof. unfold take_from_owner. stay. Qed.
#[local] Hint Resolve take_from_owner_stays : readonly.

Lemma check_loop_stays fuel p curr prev clusters s : dev_of s = d -> stays d (check_loop interactive false atari_format long_size fuel p curr prev clusters s).
Proof. revert p curr prev clusters s. induction fuel as [|fuel IH]; intros p curr prev clusters s H; cbn [check_loop]; stay. Qed.
#[local] Hint Resolve check_loop_stays : readonly.

Lemma check_dir_entry_stays p s : dev_of s = d -> stays d (check_dir_entry false long_size p s).
Proof. unfold check_dir_entry. stay. Qed.
#[local] Hint Resolve check_dir_entry_stays : readonly.

Lemma check_file_stays p s : dev_of s = d -> stays d (check_file interactive false atari_format long_size p s).
Proof. unfold check_file. stay. Qed.
#[local] Hint Resolve check_file_stays : readonly.

Lemma check_files_stays fuel start s : dev_of s = d -> stays d (check_files interactive false atari_format long_size fuel start s).
Proof. revert start s. induction fuel as [|fuel IH]; intros start s H; cbn [check_files]; stay. Qed.
#[local] Hint Resolve check_files_stays : readonly.

Lemma test_loop_stays fuel p read_test walk prev clus s : dev_of s = d -> stays d (test_loop false atari_format bad_read long_size fuel p read_test walk prev clus s).
Proof. revert p read_test walk prev clus s. induction fuel as [|fuel IH]; intros p read_test walk prev clus s H; cbn [test_loop]; stay. Qed.
#[local] Hint Resolve test_loop_stays : readonly.

Lemma untag_loop_stays fuel p walk s : dev_of s = d -> stays d (untag_loop atari_format fuel p walk s).
Proof. revert p walk s. induction fuel as [|fuel IH]; intros p walk s H; cbn [untag_loop]; stay. Qed.
#[local] Hint Resolve untag_loop_stays : readonly.

Lemma test_file_stays p read_test s : dev_of s = d -> stays d (test_file false atari_format bad_read long_size p read_test s).
Proof. unfold test_file. stay. Qed.
#[local] Hint Resolve test_file_stays : readonly.

Lemma undelete_loop_stays fuel left walk prev s : dev_of s = d -> stays d (undelete_loop false atari_format long_size fuel left walk prev s).
Proof. revert left walk prev s. induction fuel as [|fuel IH]; intros left walk prev s H; cbn [undelete_loop]; stay. Qed.
#[local] Hint Resolve undelete_loop_stays : readonly.

Lemma undelete_stays p s : dev_of s = d -> stays d (undelete false atari_format long_size p s).
Proof. unfold undelete. stay. Qed.
#[local] Hint Resolve undelete_stays : readonly.

Lemma rename_loop_stays fuel p first number s : dev_of s = d -> stays d (rename_loop false fuel p first number s).
Proof. revert p first number s. induction fuel as [|fuel IH]; intros p first number s H; cbn [rename_loop]; stay. Qed.
#[local] Hint Resolve rename_loop_stays : readonly.

Lemma auto_rename_stays p s : dev_of s = d -> stays d (auto_rename false p s).
Proof. unfold auto_rename. stay. Qed.
#[local] Hint Resolve auto_rename_stays : readonly.

Lemma unique_name_stays fuel used s : dev_of s = d -> stays d (unique_name fuel used s).
Proof. revert s. induction fuel as [|fuel IH]; intros s H; cbn [unique_name]; stay. Qed.
#[local] Hint Resolve unique_name_stays : readonly.

Lemma clear_cluster_stays off s : dev_of s = d -> stays d (clear_cluster false off s).
Proof. unfold clear_cluster. stay. Qed.
#[local] Hint Resolve clear_cluster_stays : readonly.

Lemma extend_root_stays prev s : dev_of s = d -> stays d (extend_root false atari_format long_size prev s).
Proof. unfold extend_root. stay. Qed.
#[local] Hint Resolve extend_root_stays : readonly.

Lemma alloc_rootdir_entry_stays s : dev_of s = d -> stays d (alloc_rootdir_entry false atari_format bad_read long_size s).
Proof. unfold alloc_rootdir_entry. stay. Qed.
#[local] Hint Resolve alloc_rootdir_entry_stays : readonly.

Lemma set_prev_stays c n s : dev_of s = d -> stays d (set_prev c n s).
Proof. unfold set_prev. stay. Qed.
#[local] Hint Resolve set_prev_stays : readonly.

Lemma tag_chain_stays fuel ptr walk prev s : dev_of s = d -> stays d (tag_chain false atari_format long_size fuel ptr walk prev s).
Proof. revert ptr walk prev s. induction fuel as [|fuel IH]; intros ptr walk prev s H; cbn [tag_chain]; stay. Qed.
#[local] Hint Resolve tag_chain_stays : readonly.

Lemma tag_free_stays ptr s : dev_of s = d -> stays d (tag_free false atari_format long_size ptr s).
Proof. unfold tag_free. stay. Qed.
#[local] Hint Resolve tag_free_stays : readonly.

Lemma count_refs_stays i s : dev_of s = d -> stays d (count_refs false atari_format long_size i s).
Proof. unfold count_refs. stay. Qed.
#[local] Hint Resolve count_refs_stays : readonly.

Lemma break_cycle_stays l s : dev_of s = d -> stays d (break_cycle false atari_format long_size l s).
Proof. revert s. induction l as [|x l IH]; intros s H; cbn [break_cycle]; stay. Qed.
#[local] Hint Resolve break_cycle_stays : readonly.

Lemma break_cycles_stays fuel ptr s : dev_of s = d -> stays d (break_cycles false atari_format long_size fuel ptr s).
Proof. revert ptr s. induction fuel as [|fuel IH]; intros ptr s H; cbn [break_cycles]; stay. Qed.
#[local] Hint Resolve break_cycles_stays : readonly.

Lemma recover_chain_stays ptr i s : dev_of s = d -> stays d (recover_chain false atari_format bad_read long_size ptr i s).
Proof. unfold recover_chain. stay. Qed.
#[local] Hint Resolve recover_chain_stays : readonly.

Lemma reclaim_file_stays s : dev_of s = d -> stays d (reclaim_file false atari_format bad_read long_size s).
Proof. unfold reclaim_file. stay. Qed.
#[local] Hint Resolve reclaim_file_stays : readonly.

Lemma clear_lfn_slots_stays first last l io : dev_of io = d -> stays d (clear_lfn_slots false first last l io).
Proof. unfold clear_lfn_slots. stay. Qed.
#[local] Hint Resolve clear_lfn_slots_stays : readonly.

Lemma delete_name_stays off l io : dev_of io = d -> stays d (delete_name false off l io).
Proof. unfold delete_name. stay. Qed.
#[local] Hint Resolve delete_name_stays : readonly.

Lemma start_inside_stays de off l io : dev_of io = d -> stays d (start_inside interactive false de off l io).
Proof. unfold start_inside. stay. Qed.
#[local] Hint Resolve start_inside_stays : readonly.

Lemma part_outside_stays de off l io : dev_of io = d -> stays d (part_outside interactive false fresh de off l io).
Proof. unfold part_outside. stay. Qed.
#[local] Hint Resolve part_outside_stays : readonly.

Lemma wrong_number_stays de off l io : dev_of io = d -> stays d (wrong_number interactive false de off l io).
Proof. unfold wrong_number. stay. Qed.
#[local] Hint Resolve wrong_number_stays : readonly.

Lemma slot_number_stays de off l io : dev_of io = d -> stays d (slot_number interactive false fresh de off l io).
Proof. unfold slot_number. stay. Qed.
#[local] Hint Resolve slot_number_stays : readonly.

Lemma slot_checksum_stays de off l io : dev_of io = d -> stays d (slot_checksum interactive false de off l io).
Proof. unfold slot_checksum. stay. Qed.
#[local] Hint Resolve slot_checksum_stays : readonly.

Lemma fix_field_stays wrong pos zeros io : dev_of io = d -> stays d (fix_field interactive false wrong pos zeros io).
Proof. unfold fix_field. stay. Qed.
#[local] Hint Resolve fix_field_stays : readonly.

Lemma lfn_add_slot_stays de off l io : dev_of io = d -> stays d (lfn_add_slot interactive false fresh de off l io).
Proof. unfold lfn_add_slot. stay. Qed.
#[local] Hint Resolve lfn_add_slot_stays : readonly.

Lemma fix_parts_stays value at_off l io : dev_of io = d -> stays d (fix_parts false value at_off l io).
Proof. unfold fix_parts. stay. Qed.
#[local] Hint Resolve fix_parts_stays : readonly.

Lemma ask_name_stays fix_it l io : (forall l io, dev_of io = d -> stays d (fix_it l io)) -> dev_of io = d -> stays d (ask_name interactive false fix_it l io).
Proof. unfold ask_name. stay. Qed.
#[local] Hint Resolve ask_name_stays : readonly.

Lemma renumber_stays l io : dev_of io = d -> stays d (renumber false l io).
Proof. unfold renumber. stay. Qed.
#[local] Hint Resolve renumber_stays : readonly.

Lemma lfn_get_stays de l io : dev_of io = d -> stays d (lfn_get interactive false de l io).
Proof. unfold lfn_get. stay. Qed.
#[local] Hint Resolve lfn_get_stays : readonly.

Lemma lfn_check_orphaned_stays l io : dev_of io = d -> stays d (lfn_check_orphaned interactive false l io).
Proof. unfold lfn_check_orphaned. stay. Qed.
#[local] Hint Resolve lfn_check_orphaned_stays : readonly.

Lemma set_link_stays l v s : dev_of s = d -> stays d (set_link l v s).
Proof. unfold set_link. stay. Qed.
#[local] Hint Resolve set_link_stays : readonly.

Lemma ask_stays valid s : dev_of s = d -> stays d (ask valid s).
Proof. unfold ask. stay. Qed.
#[local] Hint Resolve ask_stays : readonly.

Lemma rename_input_stays fuel p s : dev_of s = d -> stays d (rename_input false fuel p s).
Proof. revert p s. induction fuel as [|fuel IH]; intros p s H; cbn [rename_input]; stay. Qed.
#[local] Hint Resolve rename_input_stays : readonly.

Lemma rename_file_stays p s : dev_of s = d -> stays d (rename_file false p s).
Proof. unfold rename_file. stay. Qed.
#[local] Hint Resolve rename_file_stays : readonly.

Lemma handle_dot_stays p dots s : dev_of s = d -> stays d (handle_dot interactive false atari_format long_size p dots s).
Proof. unfold handle_dot. stay. Qed.
#[local] Hint Resolve handle_dot_stays : readonly.

Lemma scan_same_stays fuel walk p scan redo s : dev_of s = d -> stays d (scan_same interactive false atari_format long_size fuel walk p scan redo s).
Proof. revert walk p scan redo s. induction fuel as [|fuel IH]; intros walk p scan redo s H; cbn [scan_same]; stay. Qed.
#[local] Hint Resolve scan_same_stays : readonly.

Lemma check_name_stays p redo s : dev_of s = d -> stays d (check_name interactive false atari_format long_size p redo s).
Proof. unfold check_name. stay. Qed.
#[local] Hint Resolve check_name_stays : readonly.

Lemma check_entries_stays fuel head walk redo dots s : dev_of s = d -> stays d (check_entries interactive false atari_format long_size fuel head walk redo dots s).
Proof. revert head walk redo dots s. induction fuel as [|fuel IH]; intros head walk redo dots s H; cbn [check_entries]; stay. Qed.
#[local] Hint Resolve check_entries_stays : readonly.

Lemma check_dir_stays head dots s : dev_of s = d -> stays d (check_dir interactive false atari_format long_size head dots s).
Proof. unfold check_dir. stay. Qed.
#[local] Hint Resolve check_dir_stays : readonly.

Lemma with_lfn_stays {A} (op : lfn_state -> io_state -> outcome (A * lfn_state * io_state)) t : (forall l io, dev_of io = d -> stays d (op l io)) -> dev_of t = d -> stays d (with_lfn op t).
Proof. unfold with_lfn. stay. Qed.
#[local] Hint Resolve with_lfn_stays : readonly.

Lemma on_lfn_stays op t : (forall l io, dev_of io = d -> stays d (op l io)) -> dev_of t = d -> stays d (on_lfn op t).
Proof. unfold on_lfn. stay. Qed.
#[local] Hint Resolve on_lfn_stays : readonly.

Lemma on_check_stays op t : (forall s, dev_of s = d -> stays d (op s)) -> dev_of t = d -> stays d (on_check op t).
Proof. unfold on_check. stay. Qed.
#[local] Hint Resolve on_check_stays : readonly.

Lemma apply_request_stays cp off type de t : dev_of t = d -> stays d (apply_request false cp off type de t).
Proof. unfold apply_request. stay. Qed.
#[local] Hint Resolve apply_request_stays : readonly.

Lemma link_file_stays chain dir off type read_test de s : dev_of s = d -> stays d (link_file false atari_format bad_read long_size chain dir off type read_test de s).
Proof. unfold link_file. stay. Qed.
#[local] Hint Resolve link_file_stays : readonly.

Lemma add_file_stays read_test chain dir off cp t : dev_of t = d -> stays d (add_file interactive false atari_format bad_read long_size fresh stale read_test chain dir off cp t).
Proof. unfold add_file. stay. Qed.
#[local] Hint Resolve add_file_stays : readonly.

Lemma read_entries_stays fuel read_test chain this cp clu_num i t : dev_of t = d -> stays d (read_entries interactive false atari_format bad_read long_size fresh stale fuel read_test chain this cp clu_num i t).
Proof. revert read_test chain this cp clu_num i t. induction fuel as [|fuel IH]; intros read_test chain this cp clu_num i t H; cbn [read_entries]; stay. Qed.
#[local] Hint Resolve read_entries_stays : readonly.

Lemma subdirs_stays fuel scan walk cp t : (forall this cp t, dev_of t = d -> stays d (scan this cp t)) -> dev_of t = d -> stays d (subdirs fuel scan walk cp t).
Proof. intros Hop. revert walk cp t. induction fuel as [|fuel IH]; intros walk cp t H; cbn [subdirs]; stay. Qed.
#[local] Hint Resolve subdirs_stays : readonly.

Lemma check_list_stays head dots scan cp stop_if_gone t : (forall this cp t, dev_of t = d -> stays d (scan this cp t)) -> dev_of t = d -> stays d (check_list interactive false atari_format long_size head dots scan cp stop_if_gone t).
Proof. unfold check_list. stay. Qed.
#[local] Hint Resolve check_list_stays : readonly.

Lemma scan_dir_stays fuel read_test this cp t : dev_of t = d -> stays d (scan_dir interactive false atari_format bad_read long_size fresh stale fuel read_test this cp t).
Proof. revert read_test this cp t. induction fuel as [|fuel IH]; intros read_test this cp t H; cbn [scan_dir]; stay. Qed.
#[local] Hint Resolve scan_dir_stays : readonly.

Lemma read_root_stays entries read_test chain t : dev_of t = d -> stays d (read_root interactive false atari_format bad_read long_size fresh stale entries read_test chain t).
Proof. revert read_test chain t. induction entries as [|x entries IH]; intros read_test chain t H; cbn [read_root]; stay. Qed.
#[local] Hint Resolve read_root_stays : readonly.

Lemma scan_root_stays fuel read_test t : dev_of t = d -> stays d (scan_root interactive false atari_format bad_read long_size fresh stale fuel read_test t).
Proof. unfold scan_root. stay. Qed.
#[local] Hint Resolve scan_root_stays : readonly.

Lemma on_table_stays op t : (forall s, dev_of s = d -> stays d (op s)) -> dev_of t = d -> stays d (on_table op t).
Proof. unfold on_table. stay. Qed.
#[local] Hint Resolve on_table_stays : readonly.

Lemma scan_loop_stays fuel depth t : dev_of t = d -> stays d (scan_loop interactive false atari_format bad_read long_size fresh stale opts junk fuel depth t).
Proof. revert depth t. induction fuel as [|fuel IH]; intros depth t H; cbn [scan_loop]; stay. Qed.
#[local] Hint Resolve scan_loop_stays : readonly.

Lemma check_pass_stays fuel depth t : dev_of t = d -> stays d (check_pass interactive false atari_format bad_read long_size fresh stale opts junk fuel depth t).
Proof. unfold check_pass. stay. Qed.
#[local] Hint Resolve check_pass_stays : readonly.

(** The whole run: the changes that are pending in the end are dropped. *)
Lemma dosfsck_device fuel depth requests fs input b dev' : rw opts = false ->
  dosfsck interactive false atari_format bad_read long_size fresh stale opts device_no junk fuel depth requests fs d input =
    Ret (b, dev') -> dev' = d.
Proof.
  intros Hr H. unfold dosfsck in H. destruct (foldl _ _ _) as [fp|]; [|done]. cbn [mbind outcome_bind] in H.
  pose proof (read_boot_stays (Dos (fs_open d input) fs) eq_refl) as B.
  destruct (DosBoot.read_boot _ _ _ _ _ _ _ _) as [x|]; [|done]. cbn [mbind outcome_bind] in H.
  pose proof (check_pass_stays fuel depth (ScanState (CheckState x ∅ None 0 0) lfn_init fp) B) as P.
  destruct (check_pass _ _ _ _ _ _ _ _ _ _ _ _) as [[n t]|]; [|done]. cbn [mbind outcome_bind] in H.
  rewrite Hr, andb_false_r in H. cbn [andb mbind outcome_bind] in H. unfold fs_close in H. by injection H as _ <-.
Qed.

End Program.

(** ** The command line *)

(** Whether the options ask for repairs: the last of [-a], [-y], [-r] and [-n]
    decides. *)
Definition repairs (l : list found) : bool :=
  foldl (fun b '((c, _) : found) =>
    if bool_decide (c ∈ str_bytes "ayr") then true else if bool_decide (c = 110) then false else b) false l.

Lemma apply_option_rw f c c' : apply_option f c = Ret c' ->
  rw (c_options c') =
  (if bool_decide (f.1 ∈ str_bytes "ayr") then true else if bool_decide (f.1 = 110) then false else rw (c_options c)).
Proof.
  destruct f as [letter arg]. unfold apply_option, add_request. cbn [fst].
  assert (E : bool_decide (letter ∈ str_bytes "ayr") = bool_decide (letter = 97 \/ letter = 121) || bool_decide (letter = 114)).
  { change (str_bytes "ayr") with [97; 121; 114]. apply eq_true_iff_eq. rewrite orb_true_iff, !bool_decide_eq_true.
    rewrite !elem_of_cons, elem_of_nil. tauto. }
  rewrite E. clear E.
  destruct (decide (letter ∈ [65; 97; 121; 100; 102; 108; 110; 114; 116; 117; 118; 86; 119])) as [Hin|Hin].
  - rewrite !elem_of_cons, elem_of_nil in Hin.
    repeat (destruct Hin as [->|Hin]); try done; destruct arg; intros H; vm_compute in H; try discriminate;
      injection H as <-; reflexivity.
  - rewrite !not_elem_of_cons in Hin. intros H. repeat (rewrite bool_decide_eq_false_2 in H by lia). done.
Qed.

Lemma apply_options_rw l c c' : apply_options l c = Ret c' ->
  rw (c_options c') =
  foldl (fun b '((x, _) : found) =>
    if bool_decide (x ∈ str_bytes "ayr") then true else if bool_decide (x = 110) then false else b) (rw (c_options c)) l.
Proof.
  revert c. induction l as [|f l IH]; intros c; cbn [apply_options foldl]; [by intros [= ->]|].
  destruct (apply_option f c) as [c1|] eqn:E; [|done]. cbn. intros H. rewrite (IH c1 H), (apply_option_rw f c c1 E). by destruct f.
Qed.

(** C3: dosfsck writes to the device only with [-a], [-y] or [-r], and not if
    [-n] comes later: for every other command line, every device and every
    answer of the user, a run that ends leaves the device as it was, whatever it
    found and whatever it would have repaired. *)
Theorem dosfsck_readonly open_device atari_default bad_read long_size fresh stale device_no junk fs fuel depth args input b dev' :
  repairs (getopt (str_bytes "Aad:flnrtu:vVwy") args).1 = false ->
  dosfsck_main open_device atari_default bad_read long_size fresh stale device_no junk fs fuel depth args input = Ret (b, dev') ->
  exists name, (getopt (str_bytes "Aad:flnrtu:vVwy") args).2 = [name] /\ open_device name = Some dev'.
Proof.
  intros Hr H. unfold dosfsck_main, command_line in H. destruct (getopt _ args) as [found operands]. cbn [fst snd] in *.
  destruct (apply_options found _) as [c|] eqn:Ec; [|done]. apply apply_options_rw in Ec. change (rw _) with (rw (c_options c)) in Ec at 1.
  cbn [command_init c_options rw] in Ec. fold (repairs found) in Ec. rewrite Hr in Ec.
  cbn [mbind outcome_bind] in H. unfold require in H. rewrite Ec in H. cbn [negb andb] in H. rewrite andb_true_r in H.
  destruct (test (c_options c) || c_write_immed c) eqn:Ew; [done|]. cbn [negb mbind outcome_bind] in H.
  apply orb_false_iff in Ew as [_ Ew]. destruct operands as [|name [|]]; try done. exists name. split; [done|].
  cbn [mbind outcome_bind] in H. rewrite Ew in H. destruct (open_device name) as [dev|]; [|done]. f_equal.
  symmetry. by eapply dosfsck_device.
Qed.

(** A disk of FAT12 with 14 clusters of one sector, one of which is marked in
    both tables though no file has it. *)
Definition lost_disk : list Z :=
  let table := [0xf8; 0xff; 0xff; 0; 0xf0; 0xff] ++ replicate 506 0 in
  replicate 11 0 ++ [0; 2; 1; 1; 0; 2; 16; 0; 20; 0; 0xf8; 1; 0; 1; 0; 1; 0] ++ replicate 482 0 ++ [85; 170] ++
  table ++ table ++ replicate 512 0 ++ replicate (16 * 512) 0.

#[local] Abbreviation lost_run args :=
  (dosfsck_main (fun _ => Some lost_disk) false (fun _ _ => false) 8 (fun _ => []) [] 0 (FatEntry 0 0 None 0)
    (DosFs 0 0 0 0 0 0 0 0 0 0 0 0 0 0 []) 2 2 args []).

(** The run with [-n] finds something to repair and leaves the device; with [-a] it writes. *)
Lemma dosfsck_readonly_witness :
  (exists dev', lost_run [str_bytes "-n"; str_bytes "d"] = Ret (true, dev') /\ dev' = lost_disk) /\
  match lost_run [str_bytes "-a"; str_bytes "d"] with Ret (b, dev') => dev' <> lost_disk | Fault _ => False end.
Proof.
  split.
  - destruct (lost_run [str_bytes "-n"; str_bytes "d"]) as [[b dev']|e] eqn:E.
    + assert (b = true) as ->.
      { assert (H : match lost_run [str_bytes "-n"; str_bytes "d"] with Ret (b, _) => b | Fault _ => false end = true)
          by (vm_compute; reflexivity).
        by rewrite E in H. }
      exists dev'. split; [done|].
      destruct (dosfsck_readonly (fun _ => Some lost_disk) false (fun _ _ => false) 8 (fun _ => []) [] 0 (FatEntry 0 0 None 0)
        (DosFs 0 0 0 0 0 0 0 0 0 0 0 0 0 0 []) 2 2 [str_bytes "-n"; str_bytes "d"] [] true dev' eq_refl E) as (name & _ & H).
      by injection H as <-.
    + exfalso.
      assert (H : match lost_run [str_bytes "-n"; str_bytes "d"] with Ret _ => true | Fault _ => false end = true)
        by (vm_compute; reflexivity).
      by rewrite E in H.
  - assert (H : match lost_run [str_bytes "-a"; str_bytes "d"] with
                | Ret (_, dev') => negb (bool_decide (dev' = lost_disk)) | Fault _ => false end = true) by (vm_compute; reflexivity).
    destruct (lost_run [str_bytes "-a"; str_bytes "d"]) as [[b dev']|]; [|done].
    apply negb_true_iff, bool_decide_eq_false in H. exact H.
Defined.
