(* ===== verification/XlCommon.v ===== *)
(** * Types shared by the router's modules

    The enumerations and records of [C/include/xl_error_no.h],
    [C/include/xl_typedef.h] and [C/xunlei_test/xl_mnt.h] that the USB, mount
    and message modules exchange. *)

From S2P Require Import Prelude.

(** ** [EN_ERROR_NUM] *)

Inductive EN_ERROR_NUM : Set :=
  | EN_OK
  | EN_ERROR_FAILED
  | EN_ERR_PARA
  | EN_NULL_P
  | EN_ERROR_UNKNOW
  | EN_ERROR_NO_MEMORY
  | EN_ERROR_MAX.

#[global] Instance EN_ERROR_NUM_eq_dec : EqDecision EN_ERROR_NUM.
Proof. solve_decision. Defined.

(** ** USB events *)

Inductive EN_ACTION : Set := EN_USB_RM | EN_USB_ADD | EN_USB_CHG | EN_USB_END.

#[global] Instance EN_ACTION_eq_dec : EqDecision EN_ACTION.
Proof. solve_decision. Defined.

(** The number the compiler gives to an action. *)
Definition EN_ACTION_code (a : EN_ACTION) : Z :=
  match a with EN_USB_RM => 0 | EN_USB_ADD => 1 | EN_USB_CHG => 2 | EN_USB_END => 3 end.

Inductive EN_DEVICE_TYPE : Set :=
  EN_USB_DEVICE_STORAGE | EN_USB_DEVICE_UNKNOW | EN_USB_DEVICE_END.

#[global] Instance EN_DEVICE_TYPE_eq_dec : EqDecision EN_DEVICE_TYPE.
Proof. solve_decision. Defined.

Definition EN_DEVICE_TYPE_code (t : EN_DEVICE_TYPE) : Z :=
  match t with
  | EN_USB_DEVICE_STORAGE => 0 | EN_USB_DEVICE_UNKNOW => 1 | EN_USB_DEVICE_END => 2
  end.

Inductive EN_MNT_USB_STATE : Set :=
  | EN_MNT_USB_NONE     (* 0: the state of a zeroed slot, no named constant *)
  | EN_MNT_USB_PLUG_IN
  | EN_MNT_USB_QUERY
  | EN_MNT_USB_REST
  | EN_MNT_USB_PLUG_OUT
  | EN_MNT_USB_TIMEOUT
  | EN_MNT_USB_UNMOUNTED.

#[global] Instance EN_MNT_USB_STATE_eq_dec : EqDecision EN_MNT_USB_STATE.
Proof. solve_decision. Defined.

(** [ALL_USB_DISK]: the disk id that stands for every disk. *)
Definition ALL_USB_DISK : Z := 4294967295.

Definition DISK_MOUNTED : Z := 0.
Definition DISK_UNMOUNTED : Z := 1.

Record St_xl_storage_info := Storage {
  nDiskId : Z;
  szDiskName : string;
}.

Record St_xl_USB_Info := USBInfo {
  eAction : EN_ACTION;
  eType : EN_DEVICE_TYPE;
  info_nDiskId : Z;
}.

#[global] Instance St_xl_storage_info_eq_dec : EqDecision St_xl_storage_info.
Proof. solve_decision. Defined.
#[global] Instance St_xl_USB_Info_eq_dec : EqDecision St_xl_USB_Info.
Proof. solve_decision. Defined.
