(* ===== verification/Codec.v ===== *)
(** * Wire codec and USB message queue

    [C/coding/xl_decode.c] and [C/xunlei_test/xl_mnt_msg_process.c]: the
    big-endian integer and length-prefixed string decoders of the protocol,
    and the System V message queue the USB threads exchange events over.

    Both files read the buffer through [CHAR *], whose signedness the C
    implementation chooses; [char_signed] is that choice. *)

From S2P Require Import Prelude XlCommon.

Section Codec.
Context (char_signed : bool).

(** The value of the [char] lvalue holding the byte [b]. *)
Definition chr (b : Z) : Z := if char_signed then s8 b else b.

(** ** Integers *)

(* @src C/coding/xl_decode.c:32-43 xl_decode_u16 *)
Definition xl_decode_u16 (pcBuf : list Z) : outcome Z :=
  b0 ← byte_at pcBuf 0;
  b1 ← byte_at pcBuf 1;
  let usData := u16 (chr b0) in
  Ret (u16 (Z.shiftl usData 8 + chr b1)).

(** [xl_decode.c]: the bytes are read through [UCHAR *]. *)
(* @src C/coding/xl_decode.c:60-81 xl_decode_u32 *)
Definition xl_decode_u32 (pcBuf : list Z) : outcome Z :=
  b0 ← byte_at pcBuf 0;
  let ulData := u32 b0 in
  b1 ← byte_at pcBuf 1;
  let ulData := u32 (u32 (Z.shiftl ulData 8) + b1) in
  b2 ← byte_at pcBuf 2;
  let ulData := u32 (u32 (Z.shiftl ulData 8) + b2) in
  b3 ← byte_at pcBuf 3;
  Ret (u32 (u32 (Z.shiftl ulData 8) + b3)).

(** [xl_decode_u64]: the loop [for (i = 1; i < 8; i++)] over [CHAR *]. *)
(* @src C/coding/xl_decode.c:106-109 xl_decode_u64 *)
Fixpoint xl_decode_u64_loop (n : nat) (i : Z) (pcIn : list Z) (dulData : Z) : outcome Z :=
  match n with
  | O => Ret dulData
  | S n =>
      b ← byte_at pcIn i;
      xl_decode_u64_loop n (i + 1) pcIn (u64 (u64 (Z.shiftl dulData 8) + chr b))
  end.

(* @src C/coding/xl_decode.c:98-113 xl_decode_u64 *)
Definition xl_decode_u64 (pcBuf : list Z) : outcome Z :=
  b0 ← byte_at pcBuf 0;
  xl_decode_u64_loop 7 1 pcBuf (u64 (chr b0)).

(** [xl_mnt_msg_process.c]: the local copy, which reads through [CHAR *]. *)
(* @src C/xunlei_test/xl_mnt_msg_process.c:32-42 xl_decode_u32 *)
Definition msg_xl_decode_u32 (pcBuf : list Z) : outcome Z :=
  b0 ← byte_at pcBuf 0;
  let ulData := u32 (chr b0) in
  b1 ← byte_at pcBuf 1;
  let ulData := u32 (u32 (Z.shiftl ulData 8) + chr b1) in
  b2 ← byte_at pcBuf 2;
  let ulData := u32 (u32 (Z.shiftl ulData 8) + chr b2) in
  b3 ← byte_at pcBuf 3;
  Ret (u32 (u32 (Z.shiftl ulData 8) + chr b3)).

(** The four bytes [xl_encode_u32] stores at [pcBuf]. *)
(* @src C/xunlei_test/xl_mnt_msg_process.c:44-52 xl_encode_u32 *)
Definition xl_encode_u32 (pcBuf : list Z) (ulData : Z) : outcome (list Z) :=
  mem_write 0 [Z.land (Z.shiftr ulData 24) 255; Z.land (Z.shiftr ulData 16) 255;
               Z.land (Z.shiftr ulData 8) 255; Z.land ulData 255] pcBuf.

(** ** Length-prefixed data

    Each returns the destination block and the number of bytes consumed. *)

(* @src C/coding/xl_decode.c:130-143 xl_decode_str *)
Definition xl_decode_str (pcBuf pcData : list Z) : outcome (list Z * Z) :=
  ulLen ← xl_decode_u32 pcBuf;
  data ← mem_read 4 ulLen pcBuf;
  pcOut ← mem_write 0 data pcData;
  pcOut ← mem_write ulLen [0] pcOut;
  Ret (pcOut, u32 (ulLen + 4)).

(* @src C/coding/xl_decode.c:157-169 xl_decode_raw *)
Definition xl_decode_raw (pcBuf pcData : list Z) : outcome (list Z * Z) :=
  ulLen ← xl_decode_u32 pcBuf;
  data ← mem_read 4 ulLen pcBuf;
  pcOut ← mem_write 0 data pcData;
  Ret (pcOut, u32 (ulLen + 4)).

(** [None]: the function returned [-1] and stored nothing. *)
(* @src C/coding/xl_decode.c:187-208 xl_decode_str_limit *)
Definition xl_decode_str_limit (pcBuf pcData : list Z) (ulMaxLen : Z)
    : outcome (option (list Z * Z)) :=
  ulLen ← xl_decode_u32 pcBuf;
  if bool_decide (ulMaxLen < ulLen) then Ret None else
  data ← mem_read 4 ulLen pcBuf;
  pcOut ← mem_write 0 data pcData;
  pcOut ← mem_write ulLen [0] pcOut;
  Ret (Some (pcOut, u32 (ulLen + 4))).

(** ** The message queue *)

Definition BUFFER_SIZE : Z := 256.

(** The messages in the kernel's queue, oldest first: each is [msg_text]. *)
Abbreviation msg_queue := (list (list Z)).

(** [mnt_usb_msg_send]; [snd_ok] says whether [msgsnd] succeeded. The guard
    compares [size_t] with [int], so [nLen] is converted to [size_t]. *)
(* @src C/xunlei_test/xl_mnt_msg_process.c:98-125 mnt_usb_msg_send *)
Definition mnt_usb_msg_send (snd_ok : bool) (q : msg_queue) (pData : list Z) (nLen : Z)
    : outcome (EN_ERROR_NUM * msg_queue) :=
  if bool_decide (BUFFER_SIZE - 4 < u64 nLen) then Ret (EN_ERROR_FAILED, q) else
  text ← xl_encode_u32 (replicate (Z.to_nat BUFFER_SIZE) 0) (u32 nLen);
  data ← mem_read 0 nLen pData;
  text ← mem_write 4 data text;
  Ret (if snd_ok then (EN_OK, q ++ [text]) else (EN_ERROR_FAILED, q)).

(** What one call of [msgrcv] did. *)
Inductive msgrcv_event : Set := RcvMessage | RcvEINTR | RcvError.

(** The retry loop of [mnt_usb_msg_rcv]: [None] while the call still blocks. *)
(* @src C/xunlei_test/xl_mnt_msg_process.c:147-169 mnt_usb_msg_rcv *)
Fixpoint msgrcv_loop (evs : list msgrcv_event) (q : msg_queue)
    : option (option (list Z) * msg_queue) :=
  match evs with
  | [] => None
  | RcvEINTR :: evs => msgrcv_loop evs q
  | RcvError :: _ => Some (None, q)
  | RcvMessage :: _ =>
      match q with
      | [] => None
      | text :: q => Some (Some text, q)
      end
  end.

(** [mnt_usb_msg_rcv]: the new contents of [pData] and [*pnLen]. *)
(* @src C/xunlei_test/xl_mnt_msg_process.c:137-181 mnt_usb_msg_rcv *)
Definition mnt_usb_msg_rcv (evs : list msgrcv_event) (q : msg_queue) (pData : list Z)
    (pnLen : Z) : outcome (option (EN_ERROR_NUM * list Z * Z * msg_queue)) :=
  match msgrcv_loop evs q with
  | None => Ret None
  | Some (None, q) => Ret (Some (EN_ERROR_FAILED, pData, pnLen, q))
  | Some (Some text, q) =>
      ul ← msg_xl_decode_u32 text;
      let nLen := s32 ul in
      (* memcpy takes a size_t *)
      data ← mem_read 4 (u64 nLen) text;
      pData ← mem_write 0 data pData;
      Ret (Some (EN_OK, pData, nLen, q))
  end.


(** ** Integers: the decoders against the big-endian value *)

(** The big-endian value of four bytes, written out. *)
Lemma be_value_4 b0 b1 b2 b3 :
  byte b1 -> byte b2 -> byte b3 -> byte b0 ->
  be_value [b0; b1; b2; b3] = b0 * 16777216 + b1 * 65536 + b2 * 256 + b3.
Proof.
  intros. change [b0; b1; b2; b3] with (((([] ++ [b0]) ++ [b1]) ++ [b2]) ++ [b3]).
  rewrite !be_value_snoc by done. change (be_value []) with 0. lia.
Qed.

(** The accumulation step shared by every decoder. *)
Lemma shift_add_32 x y : u32 (u32 (Z.shiftl x 8) + y) = u32 (x * 256 + y).
Proof. rewrite Z.shiftl_mul_pow2 by lia. cint. dlia. Qed.

Lemma xl_decode_u32_value b0 b1 b2 b3 rest :
  byte b0 -> byte b1 -> byte b2 -> byte b3 ->
  xl_decode_u32 (b0 :: b1 :: b2 :: b3 :: rest) = Ret (be_value [b0; b1; b2; b3]).
Proof.
  intros. rewrite be_value_4 by done. unfold xl_decode_u32, byte_at; simpl.
  rewrite !shift_add_32. f_equal. cint. dlia.
Qed.

(** What the [CHAR *] version computes: each byte contributes its signed value. *)
Lemma msg_xl_decode_u32_value b0 b1 b2 b3 rest :
  msg_xl_decode_u32 (b0 :: b1 :: b2 :: b3 :: rest) =
  Ret (u32 (chr b0 * 16777216 + chr b1 * 65536 + chr b2 * 256 + chr b3)).
Proof.
  unfold msg_xl_decode_u32, byte_at; simpl. rewrite !shift_add_32. f_equal.
  cint. dlia.
Qed.

Lemma xl_encode_u32_bytes z dst :
  0 <= z < 2 ^ 32 -> (4 <= length dst)%nat ->
  xl_encode_u32 dst z = Ret (be_bytes 4 z ++ drop 4 dst).
Proof.
  intros Hz Hd. unfold xl_encode_u32. rewrite mem_write_0 by (simpl; lia).
  unfold be_bytes. change 4 with (Z.succ (Z.succ (Z.succ (Z.succ 0)))).
  rewrite !Z_to_little_endian_succ, Z_to_little_endian_0 by lia.
  by rewrite !Z.shiftr_shiftr by lia.
Qed.

(** The decoder reads back what the encoder stored. *)
Lemma xl_decode_u32_be z rest :
  0 <= z < 2 ^ 32 -> xl_decode_u32 (be_bytes 4 z ++ rest) = Ret z.
Proof.
  intros Hz. pose proof (be_bytes_length 4 z ltac:(lia)) as Hl.
  pose proof (be_bytes_byte 4 z ltac:(lia)) as Hb.
  pose proof (be_value_bytes 4 z ltac:(lia)) as Hv.
  destruct (be_bytes 4 z) as [|b0 [|b1 [|b2 [|b3 [|]]]]]; simpl in Hl; try lia.
  rewrite !Forall_cons in Hb. destruct Hb as (?&?&?&?&_). simpl.
  rewrite xl_decode_u32_value, Hv by done. f_equal. by apply Z.mod_small.
Qed.

(** [xl_encode_u32] followed by [xl_decode_u32] is the identity on every
    32-bit number, whatever the buffer held before and whatever follows the
    four bytes. *)
Theorem xl_u32_roundtrip z dst :
  0 <= z < 2 ^ 32 -> (4 <= length dst)%nat ->
  (text ← xl_encode_u32 dst z; xl_decode_u32 text) = Ret z.
Proof.
  intros Hz Hd. rewrite xl_encode_u32_bytes by done. simpl. by apply xl_decode_u32_be.
Qed.

(** ** Length-prefixed data *)

(** A well-formed length-prefixed field. *)
Definition framed (data : list Z) : list Z :=
  be_bytes 4 (Z.of_nat (length data)) ++ data.

Lemma framed_read data rest :
  Z.of_nat (length data) < 2 ^ 32 ->
  xl_decode_u32 (framed data ++ rest) = Ret (Z.of_nat (length data)) /\
  mem_read 4 (Z.of_nat (length data)) (framed data ++ rest) = Ret data.
Proof.
  intros Hn. unfold framed. split; rewrite <- app_assoc.
  - apply xl_decode_u32_be. lia.
  - apply mem_read_app; [|done]. by rewrite be_bytes_length.
Qed.

(** Storing [data] and the terminator at the start of a large enough block. *)
Lemma mem_write_cstring data dst :
  (length data < length dst)%nat ->
  (o ← mem_write 0 data dst; mem_write (Z.of_nat (length data)) [0] o)
  = Ret (data ++ 0 :: drop (S (length data)) dst).
Proof.
  intros H. rewrite mem_write_0 by lia. simpl.
  destruct (drop (length data) dst) as [|x tl] eqn:E.
  { apply (f_equal length) in E. rewrite length_drop in E. simpl in E. lia. }
  change (x :: tl) with ([x] ++ tl). rewrite mem_write_app by done. simpl. do 3 f_equal.
  apply (f_equal (drop 1)) in E. rewrite drop_drop in E. simpl in E.
  by rewrite Nat.add_1_r in E.
Qed.

(** On a well-formed field [xl_decode_str_limit] rejects a string longer
    than [ulMaxLen], stores an accepted one with its terminator and consumes
    exactly the field, and overruns the destination when the block holds no
    byte for the terminator: a block of [ulMaxLen] bytes is one byte too short
    for a string of the maximum length it accepts. *)
Theorem xl_decode_str_limit_spec data rest pcData ulMaxLen :
  Z.of_nat (length data) < 2 ^ 32 - 4 ->
  xl_decode_str_limit (framed data ++ rest) pcData ulMaxLen =
  if bool_decide (ulMaxLen < Z.of_nat (length data)) then Ret None
  else if bool_decide (length data < length pcData)%nat
  then Ret (Some (data ++ 0 :: drop (S (length data)) pcData,
                  Z.of_nat (length (framed data))))
  else Fault OutOfBounds.
Proof.
  intros Hn. destruct (framed_read data rest ltac:(lia)) as [Hd Hr].
  unfold xl_decode_str_limit. rewrite Hd. run. case_bool_decide; [done|].
  rewrite Hr. run. case_bool_decide as Hc.
  - pose proof (mem_write_cstring data pcData Hc) as Hw.
    destruct (mem_write 0 data pcData) as [o|]; simpl in Hw; [|done]. run. rewrite Hw. run.
    do 3 f_equal. unfold framed. rewrite length_app, Nat2Z.inj_add, be_bytes_length by lia.
    rewrite Z.add_comm. apply (wrap_small 32). lia.
  - destruct (mem_write 0 data pcData) as [o|f] eqn:Ew; run.
    + rewrite (mem_write_fault _ _ o); [done|].
      rewrite (mem_write_length _ _ _ _ Ew). simpl. lia.
    + revert Ew. unfold mem_write. case_bool_decide; by intros [= ->].
Qed.

(** ** The message queue *)

(** The [msg_text] of a message carrying [data]. *)
Definition text_of (data : list Z) : list Z :=
  framed data ++ replicate (252 - length data) 0.

Lemma mnt_usb_msg_send_ok q data :
  (length data <= 252)%nat ->
  mnt_usb_msg_send true q data (Z.of_nat (length data)) = Ret (EN_OK, q ++ [text_of data]).
Proof.
  intros Hn. unfold mnt_usb_msg_send, BUFFER_SIZE.
  rewrite (wrap_small 64), (wrap_small 32) by lia.
  rewrite bool_decide_eq_false_2 by lia.
  rewrite xl_encode_u32_bytes by (rewrite ?length_replicate; lia). run.
  rewrite <- (app_nil_r data) at 2. rewrite <- (app_nil_l (data ++ [])).
  rewrite mem_read_app by done. run.
  change (drop 4 (replicate (Z.to_nat 256) 0)) with (replicate 252 0).
  replace 252%nat with (length data + (252 - length data))%nat at 1 by lia.
  rewrite replicate_add, mem_write_app; run.
  - unfold text_of, framed. by rewrite <- !app_assoc.
  - by rewrite be_bytes_length.
  - by rewrite length_replicate.
Qed.

(** The length prefix survives the [CHAR *] decoder when the queue's longest
    message is below 128 bytes, or when [char] is unsigned. *)
Definition length_readable (n : nat) : Prop := (n < 128)%nat \/ char_signed = false.

Lemma be_bytes_small n : 0 <= n < 256 -> be_bytes 4 n = [0; 0; 0; n].
Proof.
  intros Hn. rewrite <- (be_bytes_value [0; 0; 0; n] 4); [|done|].
  - by rewrite be_value_4 by (unfold byte; lia).
  - repeat constructor; lia.
Qed.

Lemma msg_decode_length data rest :
  (length data <= 252)%nat ->
  msg_xl_decode_u32 (framed data ++ rest) = Ret (u32 (chr (Z.of_nat (length data)))).
Proof.
  intros Hn. unfold framed. rewrite be_bytes_small by lia.
  cbn [app]. rewrite msg_xl_decode_u32_value. unfold chr. destruct char_signed; f_equal.
Qed.

Lemma msgrcv_loop_ready k text q :
  msgrcv_loop (replicate k RcvEINTR ++ [RcvMessage]) (text :: q) = Some (Some text, q).
Proof. induction k; done. Qed.

Lemma mnt_usb_msg_rcv_ok k data q pData n0 :
  (length data <= 252)%nat -> length_readable (length data) ->
  (length data <= length pData)%nat ->
  mnt_usb_msg_rcv (replicate k RcvEINTR ++ [RcvMessage]) (text_of data :: q) pData n0 =
  Ret (Some (EN_OK, data ++ drop (length data) pData, Z.of_nat (length data), q)).
Proof.
  intros Hn Hr Hd. unfold mnt_usb_msg_rcv. rewrite msgrcv_loop_ready.
  assert (Hc : u32 (chr (Z.of_nat (length data))) = Z.of_nat (length data)).
  { unfold chr. destruct Hr as [Hr| ->]; [|apply wrap_small; lia].
    destruct char_signed; [|apply wrap_small; lia]. cint. dlia. }
  unfold text_of. rewrite msg_decode_length, Hc by done. run.
  assert (Hs : s32 (Z.of_nat (length data)) = Z.of_nat (length data)) by (cint; dlia).
  rewrite Hs, (wrap_small 64) by lia.
  rewrite (proj2 (framed_read data _ ltac:(lia))). run.
  by rewrite mem_write_0 by done.
Qed.

(** Every buffer in [ds] sent in turn. *)
Fixpoint send_all (q : msg_queue) (ds : list (list Z)) : outcome msg_queue :=
  match ds with
  | [] => Ret q
  | d :: ds =>
      r ← mnt_usb_msg_send true q d (Z.of_nat (length d));
      send_all r.2 ds
  end.

(** One buffer of 256 zero bytes filled per pending event list; each message
    cut to the length the receiver reports. *)
Fixpoint rcv_all (evss : list nat) (q : msg_queue) : outcome (list (list Z)) :=
  match evss with
  | [] => Ret []
  | k :: evss =>
      r ← mnt_usb_msg_rcv (replicate k RcvEINTR ++ [RcvMessage]) q (replicate 256 0) 0;
      match r with
      | Some (EN_OK, pData, nLen, q) =>
          ds ← rcv_all evss q; Ret (take (Z.to_nat nLen) pData :: ds)
      | _ => Fault OutOfFuel
      end
  end.

Lemma send_all_app q ds :
  Forall (fun d => (length d <= 252)%nat) ds ->
  send_all q ds = Ret (q ++ map text_of ds).
Proof.
  intros H. revert q. induction H as [|d ds Hd _ IH]; intros q; simpl.
  - by rewrite app_nil_r.
  - rewrite mnt_usb_msg_send_ok by done. run. by rewrite IH, <- app_assoc.
Qed.

(** The queue is first in, first out and loses nothing: buffers of at most
    252 bytes sent in turn are received in the same order with the same bytes
    and lengths, however often each [msgrcv] is interrupted by a signal,
    provided each length can be read back through [CHAR *]. *)
Theorem msg_queue_fifo ds ks :
  Forall (fun d => (length d <= 252)%nat /\ length_readable (length d)) ds ->
  length ks = length ds ->
  (q ← send_all [] ds; rcv_all ks q) = Ret ds.
Proof.
  intros H Hk. rewrite send_all_app by (eapply Forall_impl; [exact H|simpl; tauto]).
  run. simpl app. revert ks Hk.
  induction H as [|d ds [Hd Hr] _ IH]; intros [|k ks] Hk; simpl in Hk; try lia; [done|].
  cbn [map rcv_all].
  rewrite mnt_usb_msg_rcv_ok by (rewrite ?length_replicate; (done || lia)). run.
  rewrite IH by lia. run. by rewrite Nat2Z.id, take_app_length.
Qed.

End Codec.

(** with a signed [char] the queue accepts what it cannot deliver: a buffer
    of 128 to 252 bytes is sent with [EN_OK], and receiving it reads the length
    byte as a negative number, which [memcpy] takes for an enormous one. *)
Theorem msg_rcv_signed_overrun data pData n0 :
  (128 <= length data <= 252)%nat ->
  (r ← mnt_usb_msg_send true [] data (Z.of_nat (length data));
   mnt_usb_msg_rcv true [RcvMessage] r.2 pData n0) = Fault OutOfBounds.
Proof.
  intros Hn. rewrite mnt_usb_msg_send_ok by lia. run. unfold mnt_usb_msg_rcv.
  cbn [msgrcv_loop app].
  unfold text_of. rewrite msg_decode_length by lia. run. unfold chr.
  set (l := u64 _).
  assert (Hl : 2 ^ 63 <= l) by (subst l; cint; dlia).
  unfold mem_read. rewrite bool_decide_eq_false_2; [done|].
  assert (Hlen : (length (framed data ++ replicate (252 - length data) 0%Z) <= 256)%nat).
  { unfold framed. rewrite !length_app, length_replicate.
    pose proof (be_bytes_length 4 (Z.of_nat (length data)) ltac:(lia)). lia. }
  lia.
Qed.

(** ** Witnesses *)

Lemma xl_u32_roundtrip_witness :
  (text ← xl_encode_u32 [9; 9; 9; 9; 7] 2305249161; xl_decode_u32 text) = Ret 2305249161.
Proof. apply (xl_u32_roundtrip 2305249161 [9; 9; 9; 9; 7]); [lia|simpl; lia]. Defined.

Lemma xl_decode_str_limit_spec_witness :
  xl_decode_str_limit (framed [104; 105] ++ [33]) [1; 2] 2 = Fault OutOfBounds.
Proof. rewrite (xl_decode_str_limit_spec [104; 105] [33] [1; 2] 2); [reflexivity|simpl; lia]. Defined.

Lemma msg_queue_fifo_witness :
  (q ← send_all [] [[1; 2; 3]; []; [4]]; rcv_all true [0%nat; 2%nat; 1%nat] q)
  = Ret [[1; 2; 3]; []; [4]].
Proof.
  apply (msg_queue_fifo true [[1; 2; 3]; []; [4]] [0%nat; 2%nat; 1%nat]); [|reflexivity].
  repeat constructor; simpl; lia.
Defined.

Lemma msg_rcv_signed_overrun_witness :
  (r ← mnt_usb_msg_send true [] (replicate 200 7) 200;
   mnt_usb_msg_rcv true [RcvMessage] r.2 (replicate 256 0) 0) = Fault OutOfBounds.
Proof.
  apply (msg_rcv_signed_overrun (replicate 200 7) (replicate 256 0) 0).
  rewrite length_replicate. lia.
Defined.
