(* ===== verification/Crc32.v ===== *)
(** * CRC-32

    [C/upgrade_mtk/crc32.c] (zlib's table-driven CRC, which the firmware tools
    call) and the three other CRC routines of the repository:
    [C_TEST/test_crc.c], [C_TEST/test_crc_v1.c] and the [hndcrc32] of
    [C_TEST/test_img_parse.c].

    The reference is [crc_bit]: one step of the shift register the comment in
    [crc32.c] describes. The routines are proved equal to it, additive over
    chunks, and able to tell apart any two buffers that differ only inside four
    consecutive bytes. *)

From S2P Require Import Prelude.

(** ** The program *)

(* @src C/upgrade_mtk/crc32.c:80-133 crc_table *)
Definition crc_table : list Z :=
  [0x00000000; 0x77073096; 0xee0e612c; 0x990951ba; 0x076dc419;
   0x706af48f; 0xe963a535; 0x9e6495a3; 0x0edb8832; 0x79dcb8a4;
   0xe0d5e91e; 0x97d2d988; 0x09b64c2b; 0x7eb17cbd; 0xe7b82d07;
   0x90bf1d91; 0x1db71064; 0x6ab020f2; 0xf3b97148; 0x84be41de;
   0x1adad47d; 0x6ddde4eb; 0xf4d4b551; 0x83d385c7; 0x136c9856;
   0x646ba8c0; 0xfd62f97a; 0x8a65c9ec; 0x14015c4f; 0x63066cd9;
   0xfa0f3d63; 0x8d080df5; 0x3b6e20c8; 0x4c69105e; 0xd56041e4;
   0xa2677172; 0x3c03e4d1; 0x4b04d447; 0xd20d85fd; 0xa50ab56b;
   0x35b5a8fa; 0x42b2986c; 0xdbbbc9d6; 0xacbcf940; 0x32d86ce3;
   0x45df5c75; 0xdcd60dcf; 0xabd13d59; 0x26d930ac; 0x51de003a;
   0xc8d75180; 0xbfd06116; 0x21b4f4b5; 0x56b3c423; 0xcfba9599;
   0xb8bda50f; 0x2802b89e; 0x5f058808; 0xc60cd9b2; 0xb10be924;
   0x2f6f7c87; 0x58684c11; 0xc1611dab; 0xb6662d3d; 0x76dc4190;
   0x01db7106; 0x98d220bc; 0xefd5102a; 0x71b18589; 0x06b6b51f;
   0x9fbfe4a5; 0xe8b8d433; 0x7807c9a2; 0x0f00f934; 0x9609a88e;
   0xe10e9818; 0x7f6a0dbb; 0x086d3d2d; 0x91646c97; 0xe6635c01;
   0x6b6b51f4; 0x1c6c6162; 0x856530d8; 0xf262004e; 0x6c0695ed;
   0x1b01a57b; 0x8208f4c1; 0xf50fc457; 0x65b0d9c6; 0x12b7e950;
   0x8bbeb8ea; 0xfcb9887c; 0x62dd1ddf; 0x15da2d49; 0x8cd37cf3;
   0xfbd44c65; 0x4db26158; 0x3ab551ce; 0xa3bc0074; 0xd4bb30e2;
   0x4adfa541; 0x3dd895d7; 0xa4d1c46d; 0xd3d6f4fb; 0x4369e96a;
   0x346ed9fc; 0xad678846; 0xda60b8d0; 0x44042d73; 0x33031de5;
   0xaa0a4c5f; 0xdd0d7cc9; 0x5005713c; 0x270241aa; 0xbe0b1010;
   0xc90c2086; 0x5768b525; 0x206f85b3; 0xb966d409; 0xce61e49f;
   0x5edef90e; 0x29d9c998; 0xb0d09822; 0xc7d7a8b4; 0x59b33d17;
   0x2eb40d81; 0xb7bd5c3b; 0xc0ba6cad; 0xedb88320; 0x9abfb3b6;
   0x03b6e20c; 0x74b1d29a; 0xead54739; 0x9dd277af; 0x04db2615;
   0x73dc1683; 0xe3630b12; 0x94643b84; 0x0d6d6a3e; 0x7a6a5aa8;
   0xe40ecf0b; 0x9309ff9d; 0x0a00ae27; 0x7d079eb1; 0xf00f9344;
   0x8708a3d2; 0x1e01f268; 0x6906c2fe; 0xf762575d; 0x806567cb;
   0x196c3671; 0x6e6b06e7; 0xfed41b76; 0x89d32be0; 0x10da7a5a;
   0x67dd4acc; 0xf9b9df6f; 0x8ebeeff9; 0x17b7be43; 0x60b08ed5;
   0xd6d6a3e8; 0xa1d1937e; 0x38d8c2c4; 0x4fdff252; 0xd1bb67f1;
   0xa6bc5767; 0x3fb506dd; 0x48b2364b; 0xd80d2bda; 0xaf0a1b4c;
   0x36034af6; 0x41047a60; 0xdf60efc3; 0xa867df55; 0x316e8eef;
   0x4669be79; 0xcb61b38c; 0xbc66831a; 0x256fd2a0; 0x5268e236;
   0xcc0c7795; 0xbb0b4703; 0x220216b9; 0x5505262f; 0xc5ba3bbe;
   0xb2bd0b28; 0x2bb45a92; 0x5cb36a04; 0xc2d7ffa7; 0xb5d0cf31;
   0x2cd99e8b; 0x5bdeae1d; 0x9b64c2b0; 0xec63f226; 0x756aa39c;
   0x026d930a; 0x9c0906a9; 0xeb0e363f; 0x72076785; 0x05005713;
   0x95bf4a82; 0xe2b87a14; 0x7bb12bae; 0x0cb61b38; 0x92d28e9b;
   0xe5d5be0d; 0x7cdcefb7; 0x0bdbdf21; 0x86d3d2d4; 0xf1d4e242;
   0x68ddb3f8; 0x1fda836e; 0x81be16cd; 0xf6b9265b; 0x6fb077e1;
   0x18b74777; 0x88085ae6; 0xff0f6a70; 0x66063bca; 0x11010b5c;
   0x8f659eff; 0xf862ae69; 0x616bffd3; 0x166ccf45; 0xa00ae278;
   0xd70dd2ee; 0x4e048354; 0x3903b3c2; 0xa7672661; 0xd06016f7;
   0x4969474d; 0x3e6e77db; 0xaed16a4a; 0xd9d65adc; 0x40df0b66;
   0x37d83bf0; 0xa9bcae53; 0xdebb9ec5; 0x47b2cf7f; 0x30b5ffe9;
   0xbdbdf21c; 0xcabac28a; 0x53b39330; 0x24b4a3a6; 0xbad03605;
   0xcdd70693; 0x54de5729; 0x23d967bf; 0xb3667a2e; 0xc4614ab8;
   0x5d681b02; 0x2a6f2b94; 0xb40bbe37; 0xc30c8ea1; 0x5a05df1b;
   0x2d02ef8d].

(* @src C/upgrade_mtk/crc32.c:60-65 make_crc_table *)
Definition poly : Z :=
  fold_left (fun poly pn => Z.lor poly (Z.shiftl 1 (31 - pn)))
    [0; 1; 2; 4; 5; 7; 8; 10; 11; 12; 16; 22; 23; 26] 0.

(* @src C/upgrade_mtk/crc32.c:71-71 make_crc_table *)
Definition crc_bit (c : Z) : Z :=
  if Z.land c 1 =? 0 then Z.shiftr c 1 else Z.lxor poly (Z.shiftr c 1).

(* @src C/upgrade_mtk/crc32.c:54-75 make_crc_table *)
Definition make_crc_table : list Z :=
  map (fun n => Nat.iter 8 crc_bit n) (seqZ 0 256).

(** [crc_table[i]]; the index is masked to eight bits at every use. *)
Definition table_at (tbl : list Z) (i : Z) : Z := nth (Z.to_nat i) tbl 0.

(* @src C/upgrade_mtk/crc32.c:150-150 DO1 *)
Definition DO1 (crc b : Z) : Z :=
  Z.lxor (table_at crc_table (Z.land (Z.lxor crc b) 255)) (Z.shiftr crc 8).

(** The unrolled loop [while (len >= 8)] and the loop over what is left, for
    the macro [DO1]. *)
(* @src C/upgrade_mtk/crc32.c:188-195 crc32_no_comp *)
Fixpoint crc_loop (DO1 : Z -> Z -> Z) (crc : Z) (buf : list Z) : Z :=
  match buf with
  | b0 :: b1 :: b2 :: b3 :: b4 :: b5 :: b6 :: b7 :: buf =>
      let DO8 := DO1 (DO1 (DO1 (DO1 (DO1 (DO1 (DO1 (DO1 crc b0) b1) b2) b3) b4) b5) b6) b7 in
      crc_loop DO1 DO8 buf
  | _ => fold_left DO1 buf crc
  end.

(* @src C/upgrade_mtk/crc32.c:182-198 crc32_no_comp *)
Definition crc32_no_comp (crc : Z) (buf : list Z) : Z := crc_loop DO1 crc buf.

(* @src C/upgrade_mtk/crc32.c:156-175 crc32 *)
Definition crc32 (crc : Z) (buf : list Z) : Z :=
  Z.lxor (crc32_no_comp (Z.lxor crc 0xffffffff) buf) 0xffffffff.

(* @src C_TEST/test_crc.c:11-28 init_crc32_tab *)
Definition init_crc32_tab : list Z :=
  map (fun i => Nat.iter 8
         (fun crc => if Z.land crc 1 =? 0 then Z.shiftr crc 1
                     else Z.lxor (Z.shiftr crc 1) 0xEDB88320) i) (seqZ 0 256).

(* @src C_TEST/test_crc.c:30-39 get_crc32 *)
Definition get_crc32 (crcinit : Z) (bs : list Z) : Z :=
  Z.lxor
    (fold_left (fun crc b =>
       Z.lxor (Z.shiftr crc 8) (table_at init_crc32_tab (Z.lxor (Z.land crc 255) b)))
     bs (Z.lxor crcinit 0xffffffff))
    0xffffffff.

(** [fread] returns the file in blocks; [blocks] are the ones it returned
    before the empty one that ends the loop. *)
(* @src C_TEST/test_crc.c:41-55 GetFileCRC *)
Definition GetFileCRC (blocks : list (list Z)) : Z := fold_left get_crc32 blocks 0.

(* @src C_TEST/test_crc_v1.c:58-65 crc32 *)
Definition crc32_v1 (crc : Z) (buffer : list Z) : Z :=
  fold_left (fun crc b =>
    Z.lxor (table_at make_crc_table (Z.land (Z.lxor crc b) 255)) (Z.shiftr crc 8))
    buffer crc.

(* @src C_TEST/test_crc_v1.c:81-108 calc_img_crc *)
Definition calc_img_crc (blocks : list (list Z)) : Z :=
  fold_left crc32_v1 blocks 0xffffffff.

(* @src C_TEST/test_img_parse.c:101-110 hndcrc32 *)
Definition hndcrc32 (pdata : list Z) (crc : Z) : Z :=
  fold_left (fun c x =>
    Z.lxor (Z.shiftr c 8) (table_at crc_table (Z.land (Z.lxor c x) 255)))
    pdata crc.

(** ** The reference: one bit at a time *)

(** A message byte is added to the low bits, then eight register steps. *)
Definition crc_ref_byte (c b : Z) : Z := Nat.iter 8 crc_bit (Z.lxor c b).

(** The CRC of a buffer, with the complements before and after. *)
Definition crc_ref (crc : Z) (buf : list Z) : Z :=
  Z.lxor (fold_left crc_ref_byte buf (Z.lxor crc 0xffffffff)) 0xffffffff.

Definition word32 (c : Z) : Prop := 0 <= c < 2 ^ 32.

(** ** Linearity and injectivity of the register step *)

Lemma land1_cases c : Z.land c 1 = if Z.testbit c 0 then 1 else 0.
Proof.
  change 1 with (Z.ones 1) at 1. rewrite Z.land_ones by lia. change (2 ^ 1) with 2.
  by rewrite Zmod_odd, Z.bit0_odd.
Qed.

Lemma crc_bit_alt c : crc_bit c = Z.lxor (if Z.testbit c 0 then poly else 0) (Z.shiftr c 1).
Proof. unfold crc_bit. rewrite land1_cases. by destruct (Z.testbit c 0). Qed.

Lemma crc_bit_lxor x y : crc_bit (Z.lxor x y) = Z.lxor (crc_bit x) (crc_bit y).
Proof.
  rewrite !crc_bit_alt, Z.lxor_spec, Z.shiftr_lxor.
  apply Z.bits_inj'. intros i Hi.
  destruct (Z.testbit x 0), (Z.testbit y 0); simpl; rewrite !Z.lxor_spec, ?Z.bits_0; btauto.
Qed.

Lemma crc_iter_lxor n x y :
  Nat.iter n crc_bit (Z.lxor x y) = Z.lxor (Nat.iter n crc_bit x) (Nat.iter n crc_bit y).
Proof. induction n as [|n IH]; simpl; [done|]. by rewrite IH, crc_bit_lxor. Qed.

(** Zero low bits are shifted out. *)
Lemma crc_iter_shiftl n z : Nat.iter n crc_bit (Z.shiftl z (Z.of_nat n)) = z.
Proof.
  revert z. induction n as [|n IH]; intros z.
  - apply Z.shiftl_0_r.
  - rewrite Nat.iter_succ_r, crc_bit_alt, Z.shiftl_spec, Z.testbit_neg_r by lia.
    rewrite Z.lxor_0_l, Z.shiftr_shiftl_l by lia.
    by replace (Z.of_nat (S n) - 1) with (Z.of_nat n) by lia.
Qed.

Lemma crc_bit_word32 c : word32 c -> word32 (crc_bit c).
Proof.
  unfold word32. intros Hc. rewrite crc_bit_alt. apply lxor_range; [lia| |].
  - destruct (Z.testbit c 0); [vm_compute; split; congruence|lia].
  - rewrite Z.shiftr_div_pow2 by lia. change (2 ^ 1) with 2. dlia.
Qed.

(** The polynomial has its top bit set, so a step can be undone. *)
Lemma crc_bit_inj x y : word32 x -> word32 y -> crc_bit x = crc_bit y -> x = y.
Proof.
  intros Hx Hy E. rewrite !crc_bit_alt in E.
  assert (Hb : forall i, 0 <= i ->
    xorb (Z.testbit (if Z.testbit x 0 then poly else 0) i) (Z.testbit x (i + 1)) =
    xorb (Z.testbit (if Z.testbit y 0 then poly else 0) i) (Z.testbit y (i + 1))).
  { intros i Hi. apply (f_equal (fun z => Z.testbit z i)) in E.
    by rewrite !Z.lxor_spec, !Z.shiftr_spec in E by done. }
  assert (H0 : Z.testbit x 0 = Z.testbit y 0).
  { specialize (Hb 31 ltac:(lia)). unfold word32 in *.
    rewrite (testbit_above 32 x (31 + 1)), (testbit_above 32 y (31 + 1)) in Hb by lia.
    by destruct (Z.testbit x 0), (Z.testbit y 0). }
  apply Z.bits_inj'. intros i Hi. destruct (decide (i = 0)) as [->|]; [done|].
  specialize (Hb (i - 1) ltac:(lia)). rewrite H0, Z.sub_add in Hb.
  by destruct (Z.testbit (if Z.testbit y 0 then poly else 0) (i - 1)),
    (Z.testbit x i), (Z.testbit y i).
Qed.

Lemma crc_iter_word32 n c : word32 c -> word32 (Nat.iter n crc_bit c).
Proof. intros. induction n; simpl; [done|by apply crc_bit_word32]. Qed.

Lemma crc_iter_inj n x y :
  word32 x -> word32 y -> Nat.iter n crc_bit x = Nat.iter n crc_bit y -> x = y.
Proof.
  intros Hx Hy. induction n as [|n IH]; simpl; [done|].
  intros E. apply IH, crc_bit_inj; auto using crc_iter_word32.
Qed.

(** ** The table and the byte step *)

Lemma make_crc_table_eq : make_crc_table = crc_table.
Proof. vm_compute. reflexivity. Qed.

Lemma init_crc32_tab_eq : init_crc32_tab = crc_table.
Proof. vm_compute. reflexivity. Qed.

Lemma crc_table_spec i : 0 <= i < 256 -> table_at crc_table i = Nat.iter 8 crc_bit i.
Proof.
  intros Hi. rewrite <- make_crc_table_eq. unfold table_at, make_crc_table.
  rewrite nth_lookup, list_lookup_fmap, lookup_seqZ_lt by lia. simpl.
  by rewrite Z2Nat.id by lia.
Qed.

Lemma land_255_range z : 0 <= Z.land z 255 < 256.
Proof. change 255 with (Z.ones 8). rewrite Z.land_ones by lia. apply Z.mod_pos_bound. lia. Qed.

(** A number is its low byte plus the rest. *)
Lemma split_low_byte z : z = Z.lxor (Z.land z 255) (Z.shiftl (Z.shiftr z 8) 8).
Proof.
  apply Z.bits_inj'. intros i Hi. change 255 with (Z.ones 8).
  rewrite Z.lxor_spec, Z.land_spec, Z.shiftl_spec, Z.testbit_ones by lia.
  destruct (decide (i < 8)).
  - rewrite (Z.testbit_neg_r _ (i - 8)) by lia.
    rewrite (proj2 (Z.ltb_lt i 8)), (proj2 (Z.leb_le 0 i)) by lia. simpl. btauto.
  - rewrite Z.shiftr_spec, Z.sub_add by lia.
    rewrite (proj2 (Z.ltb_ge i 8)) by lia. btauto.
Qed.

Lemma shiftr_lxor_byte c b : byte b -> Z.shiftr (Z.lxor c b) 8 = Z.shiftr c 8.
Proof.
  intros Hb. rewrite Z.shiftr_lxor, (Z.shiftr_div_pow2 b) by lia.
  rewrite Z.div_small by apply Hb. apply Z.lxor_0_r.
Qed.

Lemma DO1_spec c b : byte b -> DO1 c b = crc_ref_byte c b.
Proof.
  intros Hb. unfold DO1, crc_ref_byte.
  rewrite crc_table_spec by apply land_255_range.
  rewrite (split_low_byte (Z.lxor c b)) at 2.
  pose proof (crc_iter_shiftl 8 (Z.shiftr (Z.lxor c b) 8)) as Hs.
  change (Z.of_nat 8) with 8 in Hs.
  by rewrite crc_iter_lxor, Hs, shiftr_lxor_byte.
Qed.

Lemma fold_DO1 buf c : Forall byte buf -> fold_left DO1 buf c = fold_left crc_ref_byte buf c.
Proof.
  intros H. revert c. induction H as [|b buf Hb _ IH]; intros c; simpl; [done|].
  by rewrite DO1_spec, IH.
Qed.

Lemma crc_loop_fold f buf c : crc_loop f c buf = fold_left f buf c.
Proof.
  remember (length buf) as n eqn:Hn. revert buf c Hn.
  induction n as [n IH] using lt_wf_ind. intros buf c ->.
  do 8 (destruct buf as [|? buf]; [done|]). simpl. eapply IH; [|done]. simpl. lia.
Qed.

Lemma crc_ref_byte_word32 c b : word32 c -> byte b -> word32 (crc_ref_byte c b).
Proof.
  intros Hc Hb. apply crc_iter_word32, lxor_range; [lia|done|]. unfold byte in Hb. lia.
Qed.

Lemma crc_ref_fold_word32 buf c :
  word32 c -> Forall byte buf -> word32 (fold_left crc_ref_byte buf c).
Proof.
  intros Hc H. revert c Hc. induction H as [|b buf Hb _ IH]; intros c Hc; simpl; [done|].
  by apply IH, crc_ref_byte_word32.
Qed.

(** ** The routines against the reference *)

Lemma crc32_no_comp_ref crc buf :
  Forall byte buf -> crc32_no_comp crc buf = fold_left crc_ref_byte buf crc.
Proof. intros H. unfold crc32_no_comp. by rewrite crc_loop_fold, fold_DO1. Qed.

Lemma crc32_no_comp_app crc a b :
  crc32_no_comp crc (a ++ b) = crc32_no_comp (crc32_no_comp crc a) b.
Proof. unfold crc32_no_comp. by rewrite !crc_loop_fold, fold_left_app. Qed.

(** C31: the unrolled, table-driven [crc32] computes the CRC of the comment in
    the file: for every buffer it equals the shift register fed one bit at a
    time, between the two complements. *)
Theorem crc32_correct crc buf : Forall byte buf -> crc32 crc buf = crc_ref crc buf.
Proof. intros H. unfold crc32, crc_ref. by rewrite crc32_no_comp_ref. Qed.

Lemma crc32_app crc a b : crc32 crc (a ++ b) = crc32 (crc32 crc a) b.
Proof.
  unfold crc32. rewrite crc32_no_comp_app. f_equal. f_equal.
  by rewrite Z.lxor_assoc, Z.lxor_nilpotent, Z.lxor_0_r.
Qed.

Lemma crc32_range crc buf : word32 crc -> Forall byte buf -> word32 (crc32 crc buf).
Proof.
  intros Hc Hb. unfold crc32. rewrite crc32_no_comp_ref by done.
  apply lxor_range; [lia| |lia]. apply crc_ref_fold_word32; [|done].
  apply lxor_range; [lia|done|lia].
Qed.

Lemma get_crc32_eq c bs : Forall byte bs -> get_crc32 c bs = crc32 c bs.
Proof.
  intros H. unfold get_crc32, crc32. f_equal. rewrite init_crc32_tab_eq.
  unfold crc32_no_comp. rewrite crc_loop_fold.
  generalize (Z.lxor c 0xffffffff). induction H as [|b bs Hb _ IH]; intros r; simpl; [done|].
  rewrite IH. f_equal. unfold DO1. rewrite Z.lxor_comm. do 2 f_equal.
  apply Z.bits_inj'. intros i Hi. change 255 with (Z.ones 8).
  rewrite Z.lxor_spec, !Z.land_spec, Z.lxor_spec, Z.testbit_ones by lia.
  destruct (decide (i < 8)).
  - rewrite (proj2 (Z.ltb_lt i 8)), (proj2 (Z.leb_le 0 i)) by lia. simpl. btauto.
  - rewrite (proj2 (Z.ltb_ge i 8)), (testbit_above 8 b) by (apply Hb || lia). btauto.
Qed.

Lemma hndcrc32_eq c bs : hndcrc32 bs c = crc32_no_comp c bs.
Proof.
  unfold hndcrc32, crc32_no_comp. rewrite crc_loop_fold.
  revert c. induction bs as [|b bs IH]; intros c; simpl; [done|].
  rewrite IH. by unfold DO1; rewrite Z.lxor_comm.
Qed.

Lemma crc32_v1_eq c bs : crc32_v1 c bs = crc32_no_comp c bs.
Proof. unfold crc32_v1, crc32_no_comp. by rewrite make_crc_table_eq, crc_loop_fold. Qed.

(** The four CRC routines of the repository agree, and computing a file's
    CRC block by block gives the CRC of the whole file however [fread] cuts it:
    [GetFileCRC] is [crc32] of the contents, [calc_img_crc] and [hndcrc32] are
    its complement. *)
Theorem crc_files_agree blocks :
  Forall (Forall byte) blocks ->
  GetFileCRC blocks = crc32 0 (concat blocks) /\
  calc_img_crc blocks = Z.lxor (crc32 0 (concat blocks)) 0xffffffff /\
  hndcrc32 (concat blocks) 0xffffffff = Z.lxor (crc32 0 (concat blocks)) 0xffffffff.
Proof.
  intros H.
  assert (Hx : Z.lxor (crc32 0 (concat blocks)) 0xffffffff =
               crc32_no_comp 0xffffffff (concat blocks)).
  { unfold crc32. by rewrite Z.lxor_assoc, Z.lxor_nilpotent, Z.lxor_0_r. }
  rewrite Hx, hndcrc32_eq. split_and!; [| |done]; clear Hx.
  - unfold GetFileCRC. generalize 0. induction H as [|b bs Hb _ IH]; intros c; simpl.
    + unfold crc32, crc32_no_comp. simpl. by rewrite Z.lxor_assoc, Z.lxor_nilpotent, Z.lxor_0_r.
    + by rewrite IH, get_crc32_eq, crc32_app.
  - unfold calc_img_crc. generalize 0xffffffff.
    induction H as [|b bs Hb _ IH]; intros c; simpl; [done|].
    by rewrite IH, crc32_v1_eq, crc32_no_comp_app.
Qed.

(** ** Error detection *)

Lemma lor_lxor_shift b x w : 0 <= w -> 0 <= b < 2 ^ w -> Z.lor b (Z.shiftl x w) = Z.lxor b (Z.shiftl x w).
Proof.
  intros Hw Hb. apply Z.bits_inj'. intros i Hi.
  rewrite Z.lor_spec, Z.lxor_spec, Z.shiftl_spec by done.
  destruct (decide (i < w)).
  - rewrite (Z.testbit_neg_r x) by lia. btauto.
  - rewrite (testbit_above w b) by lia. btauto.
Qed.

(** Feeding bytes one by one is feeding their little-endian number at once. *)
Lemma crc_ref_fold_word l c :
  Forall byte l ->
  fold_left crc_ref_byte l c =
  Nat.iter (8 * length l) crc_bit (Z.lxor c (little_endian_to_Z 8 l)).
Proof.
  intros H. revert c. induction H as [|b l Hb Hl IH]; intros c.
  - simpl. by rewrite Z.lxor_0_r.
  - cbn [fold_left length little_endian_to_Z]. rewrite IH. unfold crc_ref_byte.
    pose proof (crc_iter_shiftl 8 (little_endian_to_Z 8 l)) as Hs.
    change (Z.of_nat 8) with 8 in Hs.
    rewrite <- Hs at 1. rewrite <- crc_iter_lxor, <- Nat.iter_add.
    rewrite lor_lxor_shift, Z.lxor_assoc by (apply Hb || lia).
    f_equal. lia.
Qed.

Lemma lxor_cancel_l c x y : Z.lxor c x = Z.lxor c y -> x = y.
Proof.
  intros E. apply (f_equal (Z.lxor c)) in E.
  by rewrite <- !Z.lxor_assoc, Z.lxor_nilpotent, !Z.lxor_0_l in E.
Qed.

Lemma crc_ref_fold_inj_state l x y :
  Forall byte l -> word32 x -> word32 y ->
  fold_left crc_ref_byte l x = fold_left crc_ref_byte l y -> x = y.
Proof.
  intros H. revert x y. induction H as [|b l Hb _ IH]; intros x y Hx Hy E; simpl in E; [done|].
  apply IH in E; [|by apply crc_ref_byte_word32..].
  apply crc_iter_inj in E; [|apply lxor_range; unfold byte, word32 in *; lia..].
  rewrite !(Z.lxor_comm _ b) in E. by apply lxor_cancel_l in E.
Qed.

Lemma le_word32 l : Forall byte l -> (length l <= 4)%nat -> word32 (little_endian_to_Z 8 l).
Proof.
  intros H Hl. pose proof (little_endian_to_Z_bound 8 l ltac:(lia) H) as [H1 H2].
  split; [done|]. eapply Z.lt_le_trans; [apply H2|]. apply Z.pow_le_mono_r; lia.
Qed.

Lemma little_endian_inj x y : Forall byte x -> Forall byte y -> length x = length y ->
  little_endian_to_Z 8 x = little_endian_to_Z 8 y -> x = y.
Proof.
  intros Hx Hy Hl E. apply (f_equal (Z_to_little_endian (Z.of_nat (length x)) 8)) in E.
  rewrite Z_to_little_endian_to_Z in E by (done || lia). rewrite Hl in E.
  by rewrite Z_to_little_endian_to_Z in E by (done || lia).
Qed.

Lemma crc_ref_fold_inj_data c x y :
  word32 c -> Forall byte x -> Forall byte y -> length x = length y -> (length x <= 4)%nat ->
  fold_left crc_ref_byte x c = fold_left crc_ref_byte y c -> x = y.
Proof.
  intros Hc Hx Hy Hl H4 E. rewrite !crc_ref_fold_word, Hl in E by done.
  apply crc_iter_inj in E; [|apply lxor_range; [lia|done|apply le_word32; (done || lia)]..].
  apply lxor_cancel_l in E. by apply little_endian_inj.
Qed.

Lemma crc32_burst_neq crc pre x y post :
  word32 crc -> Forall byte pre -> Forall byte x -> Forall byte y -> Forall byte post ->
  length x = length y -> (length x <= 4)%nat -> x <> y ->
  crc32 crc (pre ++ x ++ post) <> crc32 crc (pre ++ y ++ post).
Proof.
  intros Hc Hp Hx Hy Hq Hl H4 Hne E. apply Hne. rewrite !crc32_app in E.
  pose proof (crc32_range crc pre Hc Hp) as Hs. set (c := crc32 crc pre) in *.
  assert (Hf : word32 0xffffffff) by (unfold word32; lia).
  pose proof (crc32_range c x Hs Hx). pose proof (crc32_range c y Hs Hy).
  unfold crc32 at 1 3 in E. rewrite !crc32_no_comp_ref in E by done.
  rewrite !(Z.lxor_comm _ 0xffffffff) in E.
  apply lxor_cancel_l, crc_ref_fold_inj_state in E; [|done|by apply lxor_range..].
  apply lxor_cancel_l in E. unfold crc32 in E.
  rewrite !crc32_no_comp_ref, !(Z.lxor_comm _ 0xffffffff) in E by done.
  apply lxor_cancel_l, crc_ref_fold_inj_data in E; try done.
  by apply lxor_range.
Qed.

Lemma lxor_zero x y : Z.lxor x y = 0 -> x = y.
Proof. by intros ->%Z.lxor_eq. Qed.

Lemma crc_iter_0 n : Nat.iter n crc_bit 0 = 0.
Proof. induction n as [|n IH]; [done|]. simpl. by rewrite IH. Qed.

(** A burst that has been shifted in leaves a register that is not zero. *)
Lemma crc_iter_burst n d s : word32 d -> 0 <= s -> Z.shiftl d s < 2 ^ Z.of_nat n ->
  Nat.iter n crc_bit (Z.shiftl d s) = 0 -> Z.shiftl d s = 0.
Proof.
  intros Hd Hs Hb E. rewrite <- (Z2Nat.id s) in * by done. generalize dependent (Z.to_nat s). intros k _ Hb E.
  destruct (decide (k <= n)%nat) as [Hle|Hgt].
  - replace n with ((n - k) + k)%nat in E by lia.
    rewrite Nat.iter_add, crc_iter_shiftl, <- (crc_iter_0 (n - k)) in E.
    apply crc_iter_inj in E as ->; [apply Z.shiftl_0_l|done|unfold word32; lia].
  - rewrite Z.shiftl_mul_pow2 in * by lia. assert (2 ^ Z.of_nat n <= 2 ^ Z.of_nat k) by (apply Z.pow_le_mono_r; lia).
    unfold word32 in Hd. clear E. assert (d < 1) by (apply Z.nle_gt; intros ?; nia). by replace d with 0 by lia.
Qed.

(** C33: the CRC detects every error burst of at most 32 bits, wherever it starts:
    let two buffers of the same length differ, with all the bits in which they
    differ among 32 consecutive ones (each byte is counted from its least
    significant bit, so the difference of the two little-endian numbers is a
    number [d] of at most 32 bits moved up by some [s]). Then their [crc32] differ,
    from the same initial value. *)
Theorem crc32_detects_burst crc x y d s :
  word32 crc -> Forall byte x -> Forall byte y -> length x = length y -> x <> y ->
  word32 d -> 0 <= s -> Z.lxor (little_endian_to_Z 8 x) (little_endian_to_Z 8 y) = Z.shiftl d s ->
  crc32 crc x <> crc32 crc y.
Proof.
  intros Hc Hx Hy Hl Hne Hd Hs HE E. apply Hne. unfold crc32 in E.
  rewrite !crc32_no_comp_ref, !(Z.lxor_comm _ 0xffffffff) in E by done. apply lxor_cancel_l in E.
  rewrite !crc_ref_fold_word, Hl, !crc_iter_lxor in E by done. apply lxor_cancel_l in E.
  pose proof (little_endian_inj x y Hx Hy Hl) as Hinj. apply Hinj, lxor_zero. rewrite HE.
  pose proof (little_endian_to_Z_bound 8 x ltac:(lia) Hx) as Bx. pose proof (little_endian_to_Z_bound 8 y ltac:(lia) Hy) as By.
  assert (B : Z.shiftl d s < 2 ^ Z.of_nat (8 * length y)).
  { replace (Z.of_nat (8 * length y)) with (Z.of_nat (length y) * 8) by lia. rewrite Hl in Bx.
    rewrite <- HE. apply lxor_range; [lia|done|done]. }
  apply (f_equal (Z.lxor (Nat.iter (8 * length y) crc_bit (little_endian_to_Z 8 y)))) in E.
  rewrite Z.lxor_nilpotent, Z.lxor_comm, <- crc_iter_lxor, HE in E. by apply (crc_iter_burst (8 * length y) d s).
Qed.

(** ** Witnesses *)

(** The check value of the CRC-32 standard: ["123456789"]. *)
Lemma crc32_correct_witness :
  crc_ref 0 [49; 50; 51; 52; 53; 54; 55; 56; 57] = 0xCBF43926 /\
  crc32 0 [49; 50; 51; 52; 53; 54; 55; 56; 57] = 0xCBF43926.
Proof.
  split; [vm_compute; reflexivity|].
  rewrite crc32_correct; [vm_compute; reflexivity|].
  repeat constructor; vm_compute; congruence.
Defined.

Lemma crc_files_agree_witness :
  GetFileCRC [[49; 50]; [51]; [52; 53; 54]] = crc32 0 [49; 50; 51; 52; 53; 54].
Proof.
  apply (crc_files_agree [[49; 50]; [51]; [52; 53; 54]]).
  repeat constructor; vm_compute; congruence.
Defined.

(** A burst of 32 bits over parts of five bytes. *)
Lemma crc32_detects_burst_witness : crc32 0 [9; 1; 2; 3; 4; 5; 6] <> crc32 0 [9; 0xf1; 0xfd; 0xfc; 0xfb; 0xa; 6].
Proof.
  apply (crc32_detects_burst 0 [9; 1; 2; 3; 4; 5; 6] [9; 0xf1; 0xfd; 0xfc; 0xfb; 0xa; 6] 0xffffffff 12);
    try reflexivity; try (unfold word32; lia); try congruence;
    repeat constructor; vm_compute; congruence.
Defined.
