(* ===== verification/Mtd.v ===== *)
(** * Erasing flash through the MTD driver

    [region_erase], [non_region_erase] and [erase_block] of
    [C/flash/xl_private_area.c]; the upgrade tools' [test_erase_flash.c] holds
    the same three functions.

    The driver is not part of the repository: [MtdDriver] lists the [ioctl]s
    the code issues and lets each succeed or fail as it likes, depending on
    everything that was issued before. What the functions did is the list of
    the calls they made, in order. *)

From S2P Require Import Prelude.

(** [mtd_info_t] and [region_info_t], the fields the code reads. *)
Record mtd_info := MtdInfo { mi_size : Z; mi_erasesize : Z }.
Record region_info := Region { ri_offset : Z; ri_numblocks : Z; ri_erasesize : Z }.

Inductive mtd_call : Set :=
  | MemUnlock (start length : Z)
  | MemErase (start length : Z)
  | Close.

#[global] Instance mtd_call_eq_dec : EqDecision mtd_call.
Proof. solve_decision. Defined.

(** The driver behind the descriptor. *)
Class MtdDriver := {
  (** [open(device_name, O_RDWR) >= 0] *)
  mtd_open : string -> bool;
  (** [MEMGETREGIONCOUNT], [MEMGETREGIONINFO] and [MEMGETINFO]; [None] is a
      nonzero result. *)
  mtd_regioncount : option Z;
  mtd_regioninfo : Z -> option region_info;
  mtd_getinfo : option mtd_info;
  (** Whether [MEMUNLOCK] or [MEMERASE] returns zero, after the calls so far. *)
  mtd_ioctl : list mtd_call -> mtd_call -> bool;
}.

Section Erase.
Context `{MtdDriver}.

(** The result of an erase function: its return value and all calls made. *)
Abbreviation result := (Z * list mtd_call)%type.

(** One sector: unlock it if asked, then erase it. [None] means both
    succeeded, [Some tr] that one failed and the descriptor was closed. *)
(* @src C/flash/xl_private_area.c:80-98 region_erase *)
Definition erase_sector (unlock start len : Z) (tr : list mtd_call)
    : bool * list mtd_call :=
  let unlocked :=
    if bool_decide (unlock <> 0) then
      let c := MemUnlock start len in (mtd_ioctl tr c, tr ++ [c])
    else (true, tr) in
  if unlocked.1 then
    let c := MemErase start len in
    if mtd_ioctl unlocked.2 c then (true, unlocked.2 ++ [c])
    else (false, unlocked.2 ++ [c; Close])
  else (false, unlocked.2 ++ [Close]).

(** [r->offset + r->numblocks * r->erasesize], in [unsigned int]. *)
Definition region_end (r : region_info) : Z :=
  u32 (ri_offset r + u32 (ri_numblocks r * ri_erasesize r)).

(* @src C/flash/xl_private_area.c:41-50 region_erase *)
Fixpoint read_regions (n : nat) (i : Z) : option (list region_info) :=
  match n with
  | O => Some []
  | S n =>
      r ← mtd_regioninfo i;
      rs ← read_regions n (i + 1);
      Some (r :: rs)
  end.

(* @src C/flash/xl_private_area.c:54-61 region_erase *)
Fixpoint find_region (start : Z) (reginfo : list region_info) : option nat :=
  match reginfo with
  | [] => None
  | r :: rs =>
      if bool_decide (ri_offset r <= u32 start /\ u32 start < region_end r) then Some 0%nat
      else S <$> find_region start rs
  end.

(* @src C/flash/xl_private_area.c:72-106 region_erase *)
Fixpoint region_erase_loop (count : nat) (reginfo : list region_info) (i : nat)
    (start unlock : Z) (tr : list mtd_call) : result :=
  match count with
  | O => (0, tr)
  | S count =>
      match reginfo !! i with
      | None => (0, tr)                       (* i >= regcount *)
      | Some r =>
          let '(ok, tr) := erase_sector unlock (u32 start) (ri_erasesize r) tr in
          if ok then
            let start := u32 (start + ri_erasesize r) in
            let i := if bool_decide (region_end r <= start) then S i else i in
            region_erase_loop count reginfo i start unlock tr
          else (8, tr)
      end
  end.

(* @src C/flash/xl_private_area.c:34-111 region_erase *)
Definition region_erase (start count unlock regcount : Z) : result :=
  match read_regions (Z.to_nat regcount) 0 with
  | None => (8, [])
  | Some reginfo =>
      match find_region start reginfo with
      | None => (8, [])
      | Some i => region_erase_loop (Z.to_nat count) reginfo i start unlock []
      end
  end.

(* @src C/flash/xl_private_area.c:133-159 non_region_erase *)
Fixpoint non_region_loop (count : nat) (erasesize start unlock : Z) (tr : list mtd_call)
    : result :=
  match count with
  | O => (0, tr)
  | S count =>
      let '(ok, tr) := erase_sector unlock start erasesize tr in
      if ok then non_region_loop count erasesize (u32 (start + erasesize)) unlock tr
      else (8, tr)
  end.

(** [count == 0xFFFFFFFF] compares as [unsigned int]; [TmpCount] is an [int]. *)
(* @src C/flash/xl_private_area.c:113-163 non_region_erase *)
Definition non_region_erase (start count unlock : Z) : outcome result :=
  match mtd_getinfo with
  | None => Ret (0, [])
  | Some mi =>
      if bool_decide (mi_erasesize mi = 0) then Fault DivByZero else
      let TmpCount := s32 (mi_size mi `div` mi_erasesize mi) in
      let count := if bool_decide (start = 0 /\ u32 count = 0xFFFFFFFF)
                   then TmpCount else count in
      Ret (non_region_loop (Z.to_nat count) (mi_erasesize mi) (u32 start) unlock [])
  end.

(** [count] is an [int]: the 0xFFFFFFFF of the callers arrives as -1. *)
(* @src C/flash/xl_private_area.c:165-198 erase_block *)
Definition erase_block (device_name : string) (start count : Z) : outcome result :=
  let count := s32 count in
  let unlock := 0 in
  if mtd_open device_name then
    res ← match mtd_regioncount with
          | None => Ret (0, [])
          | Some regcount =>
              if bool_decide (regcount = 0)
              then non_region_erase (s32 start) count unlock
              else Ret (region_erase (s32 start) count unlock regcount)
          end;
    Ret (res.1, res.2 ++ [Close])
  else Ret (8, []).

Lemma u32_s32 z : u32 (s32 z) = u32 z.
Proof. cint. dlia. Qed.

(** ** Devices without regions *)

(** The calls that erase [n] consecutive blocks from [start]. *)
Definition erases (start erasesize : Z) (n : nat) : list mtd_call :=
  map (fun k => MemErase (u32 (start + k * erasesize)) erasesize) (seqZ 0 (Z.of_nat n)).

Lemma erases_S start es n :
  erases start es (S n) = erases start es n ++ [MemErase (u32 (start + Z.of_nat n * es)) es].
Proof.
  unfold erases. rewrite seqZ_S, map_app. done.
Qed.

Lemma erases_cons start es n :
  erases start es (S n) = MemErase (u32 start) es :: erases (u32 (start + es)) es n.
Proof.
  unfold erases. rewrite Nat2Z.inj_succ, seqZ_cons by lia. simpl. f_equal.
  - do 2 f_equal. lia.
  - replace (Z.pred (Z.succ (Z.of_nat n))) with (Z.of_nat n) by lia.
    change (Z.succ 0) with (1 + 0). rewrite <- fmap_add_seqZ.
    change (map ?f ?l) with (f <$> l). rewrite <- list_fmap_compose.
    apply list_fmap_ext. intros i k _. simpl. f_equal. cint.
    rewrite Zplus_mod_idemp_l. f_equal. lia.
Qed.

(** How a run of [n] erases ends, after the calls [tr]: the driver accepted
    the first [k], and either that was all of them or it refused the next. *)
Definition erase_run (start es : Z) (n : nat) (tr : list mtd_call) (res : Z * list mtd_call)
    : Prop :=
  exists k, (k <= n)%nat /\
    (forall j c, (j < k)%nat -> erases start es n !! j = Some c ->
       mtd_ioctl (tr ++ take j (erases start es n)) c = true) /\
    ((k = n /\ res = (0, tr ++ erases start es n)) \/
     (k < n)%nat /\ res = (8, tr ++ take (S k) (erases start es n) ++ [Close]) /\
     exists c, erases start es n !! k = Some c /\
       mtd_ioctl (tr ++ take k (erases start es n)) c = false).

Lemma non_region_loop_run n es start tr :
  0 <= start < 2 ^ 32 ->
  erase_run start es n tr (non_region_loop n es start 0 tr).
Proof.
  revert start tr. induction n as [|n IH]; intros start tr Hs.
  - exists 0%nat. split; [lia|]. split; [intros; lia|]. left. split; [done|].
    simpl. by rewrite app_nil_r.
  - cbn [non_region_loop]. unfold erase_sector. rewrite bool_decide_eq_false_2 by lia.
    cbn [fst snd]. destruct (mtd_ioctl tr (MemErase start es)) eqn:Ei.
    + destruct (IH (u32 (start + es)) (tr ++ [MemErase start es])) as (k & Hk & Hok & Hend).
      { apply (wrap_range 32). lia. }
      exists (S k). rewrite erases_cons, (wrap_small 32 start Hs).
      split; [lia|]. split.
      * intros [|j] c Hj Hc; simpl in *; simplify_eq.
        -- by rewrite app_nil_r.
        -- specialize (Hok j c ltac:(lia) Hc). by rewrite <- app_assoc in Hok.
      * destruct Hend as [[-> ->]|(Hlt & -> & c & Hc & Hf)].
        -- left. split; [done|]. by rewrite <- app_assoc.
        -- right. split; [lia|]. split; [by rewrite <- app_assoc|].
           exists c. split; [done|]. by rewrite <- app_assoc in Hf.
    + exists 0%nat. rewrite erases_cons, (wrap_small 32 start Hs).
      split; [lia|]. split; [intros; lia|]. right. split; [lia|]. split; [done|].
      eexists. split; [done|]. by rewrite app_nil_r.
Qed.

(** ** Devices with regions *)

(** The sectors of a region, as start and length, from its [m]-th one. *)
Definition region_sectors (r : region_info) : list (Z * Z) :=
  map (fun k => (ri_offset r + k * ri_erasesize r, ri_erasesize r))
      (seqZ 0 (ri_numblocks r)).

Definition chip_sectors (rs : list region_info) : list (Z * Z) :=
  concat (map region_sectors rs).

(** The regions tile an interval of the address space from [a]. *)
Fixpoint regions_tile (a : Z) (rs : list region_info) : Prop :=
  match rs with
  | [] => True
  | r :: rs =>
      ri_offset r = a /\ 0 < ri_numblocks r /\ 0 < ri_erasesize r /\
      a + ri_numblocks r * ri_erasesize r < 2 ^ 32 /\
      regions_tile (a + ri_numblocks r * ri_erasesize r) rs
  end.

Lemma regions_tile_lookup a rs i r :
  0 <= a -> regions_tile a rs -> rs !! i = Some r ->
  0 <= ri_offset r /\ 0 < ri_numblocks r /\ 0 < ri_erasesize r /\
  ri_offset r + ri_numblocks r * ri_erasesize r < 2 ^ 32 /\
  regions_tile (ri_offset r + ri_numblocks r * ri_erasesize r) (drop (S i) rs).
Proof.
  revert a i. induction rs as [|r0 rs IH]; intros a [|i] Ha Ht Hi; simpl in *; try done.
  - simplify_eq. destruct Ht as (-> & ? & ? & ? & ?). by split_and!.
  - destruct Ht as (? & ? & ? & ? & Ht). by apply (IH (a + ri_numblocks r0 * ri_erasesize r0)); [nia| |].
Qed.

Lemma region_end_eq r :
  0 <= ri_offset r -> 0 < ri_numblocks r -> 0 < ri_erasesize r ->
  ri_offset r + ri_numblocks r * ri_erasesize r < 2 ^ 32 ->
  region_end r = ri_offset r + ri_numblocks r * ri_erasesize r.
Proof.
  intros. unfold region_end. rewrite (wrap_small 32 (_ * _)) by nia.
  apply wrap_small. nia.
Qed.

Lemma region_sectors_drop r m :
  0 <= m < ri_numblocks r ->
  drop (Z.to_nat m) (region_sectors r) =
  (ri_offset r + m * ri_erasesize r, ri_erasesize r) ::
  drop (Z.to_nat (m + 1)) (region_sectors r).
Proof.
  intros Hm. rewrite (drop_S _ (ri_offset r + m * ri_erasesize r, ri_erasesize r) (Z.to_nat m)).
  - do 2 f_equal. lia.
  - unfold region_sectors. rewrite list_lookup_fmap, lookup_seqZ_lt by lia. simpl.
    by rewrite Z2Nat.id by lia.
Qed.

Lemma region_sectors_length r : length (region_sectors r) = Z.to_nat (ri_numblocks r).
Proof. unfold region_sectors. by rewrite length_map, length_seqZ. Qed.

Definition erase_call (s : Z * Z) : mtd_call := MemErase s.1 s.2.

Section Willing.
Context (Hok : forall tr c, mtd_ioctl tr c = true).

Lemma region_erase_loop_sectors count a rs i r m tr :
  0 <= a -> regions_tile a rs -> rs !! i = Some r -> 0 <= m < ri_numblocks r ->
  region_erase_loop count rs i (ri_offset r + m * ri_erasesize r) 0 tr =
  (0, tr ++ map erase_call
        (take count (drop (Z.to_nat m) (region_sectors r) ++ chip_sectors (drop (S i) rs)))).
Proof.
  intros Ha Ht. revert i r m tr. induction count as [|count IH]; intros i r m tr Hi Hm.
  { simpl. by rewrite app_nil_r. }
  destruct (regions_tile_lookup a rs i r Ha Ht Hi) as (H0 & Hn & He & Hlt & Ht').
  cbn [region_erase_loop]. rewrite Hi. unfold erase_sector.
  rewrite bool_decide_eq_false_2 by lia. cbn [fst snd].
  rewrite Hok, region_end_eq by done.
  rewrite (wrap_small 32 (ri_offset r + m * _)) by nia.
  rewrite (wrap_small 32) by nia.
  rewrite region_sectors_drop by done. cbn [app take map].
  rewrite (cons_middle _ tr), app_assoc. case_bool_decide as Hend.
  - assert (m + 1 = ri_numblocks r) by nia.
    rewrite (drop_ge _ (Z.to_nat (m + 1))) by (rewrite region_sectors_length; lia).
    destruct (rs !! S i) as [r'|] eqn:Hi'.
    + destruct (regions_tile_lookup a rs (S i) r' Ha Ht Hi') as (? & ? & ? & ? & _).
      rewrite (drop_S _ r' (S i) Hi') in Ht' |- *. destruct Ht' as (Hoff & _).
      replace (ri_offset r + m * ri_erasesize r + ri_erasesize r)
        with (ri_offset r' + 0 * ri_erasesize r') by nia.
      rewrite IH by (done || lia). unfold chip_sectors. simpl.
      change (Z.to_nat 0) with 0%nat. rewrite drop_0, <- !app_assoc. done.
    + rewrite drop_ge by (by apply lookup_ge_None). unfold chip_sectors. simpl.
      rewrite take_nil. destruct count; simpl; [|rewrite Hi']; by rewrite app_nil_r.
  - replace (ri_offset r + m * ri_erasesize r + ri_erasesize r)
      with (ri_offset r + (m + 1) * ri_erasesize r) by lia.
    rewrite IH by (done || nia). by rewrite <- !app_assoc.
Qed.

(** A sector of the chip lies in one region, which [find_region] finds. *)
Lemma chip_sectors_lookup a rs k start len :
  0 <= a -> regions_tile a rs -> chip_sectors rs !! k = Some (start, len) ->
  a <= start < 2 ^ 32 /\
  exists i r m, rs !! i = Some r /\ 0 <= m < ri_numblocks r /\
    start = ri_offset r + m * ri_erasesize r /\
    find_region start rs = Some i /\
    drop k (chip_sectors rs) =
      drop (Z.to_nat m) (region_sectors r) ++ chip_sectors (drop (S i) rs).
Proof.
  revert a k. induction rs as [|r rs IH]; intros a k Ha Ht Hk; [by destruct k|].
  destruct (regions_tile_lookup a (r :: rs) 0 r Ha Ht eq_refl) as (H0 & Hn & He & Hlt & _).
  destruct Ht as (Hoff & _ & _ & _ & Ht). unfold chip_sectors in *. cbn [map concat] in *.
  destruct (decide (k < length (region_sectors r))%nat) as [Hkl|Hkl].
  - rewrite lookup_app_l in Hk by done. unfold region_sectors in Hk.
    rewrite list_lookup_fmap in Hk. rewrite region_sectors_length in Hkl.
    rewrite lookup_seqZ_lt in Hk by lia. simpl in Hk. simplify_eq.
    split; [nia|]. exists 0%nat, r, (Z.of_nat k). split_and!; try (done || lia).
    + simpl. rewrite bool_decide_eq_true_2; [done|].
      rewrite region_end_eq, (wrap_small 32) by (done || nia). nia.
    + rewrite Nat2Z.id, drop_app_le by (rewrite region_sectors_length; lia). done.
  - rewrite lookup_app_r in Hk by lia.
    destruct (IH (ri_offset r + ri_numblocks r * ri_erasesize r)
                 (k - length (region_sectors r))%nat ltac:(nia)) as (Hs & i & r' & m & Hi & Hm & E & Hf & Hd).
    { by rewrite Hoff. } { done. }
    split; [nia|]. exists (S i), r', m. split_and!; try (done || lia).
    + simpl. rewrite bool_decide_eq_false_2; [by rewrite Hf|].
      rewrite region_end_eq, (wrap_small 32) by (done || lia). lia.
    + rewrite drop_app_ge by lia. done.
Qed.

Lemma read_regions_all n i rs :
  length rs = n ->
  (forall j, (j < n)%nat -> mtd_regioninfo (i + Z.of_nat j) = rs !! j) ->
  read_regions n i = Some rs.
Proof.
  revert i rs. induction n as [|n IH]; intros i [|r rs] Hl Hr; try done. simpl.
  pose proof (Hr 0%nat ltac:(lia)) as H0. rewrite Z.add_0_r in H0. rewrite H0. simpl.
  erewrite (IH _ rs); [done|simpl in *; lia|]. intros j Hj.
  specialize (Hr (S j) ltac:(lia)). simpl in Hr. rewrite <- Hr. f_equal. lia.
Qed.

End Willing.

(** [erase_block] on a device without erase regions issues one erase per
    block, at consecutive addresses from [start], stops at the first one the
    driver refuses and then returns 8, and otherwise returns 0 after exactly
    [count] erases (the whole device, size / erasesize blocks, for [start] 0
    and [count] 0xFFFFFFFF); the descriptor is closed at the end. *)
Theorem erase_block_no_regions dev start count mi :
  mtd_open dev = true -> mtd_regioncount = Some 0 -> mtd_getinfo = Some mi ->
  0 < mi_erasesize mi -> 0 <= mi_size mi < 2 ^ 31 ->
  let n := if bool_decide (start = 0 /\ u32 count = 0xFFFFFFFF)
           then mi_size mi `div` mi_erasesize mi else s32 count in
  0 <= start < 2 ^ 31 ->
  exists res, erase_run start (mi_erasesize mi) (Z.to_nat n) [] res /\
    erase_block dev start count = Ret (res.1, res.2 ++ [Close]).
Proof.
  intros Hopen Hrc Hgi He Hsz n Hs. unfold erase_block, non_region_erase.
  rewrite Hopen, Hrc, Hgi, bool_decide_eq_true_2 by done.
  rewrite (bool_decide_eq_false_2 (mi_erasesize mi = 0)) by lia. run.
  assert (Es : s32 start = start) by (apply (swrap_small 32); lia).
  rewrite Es. eexists. split; [|done]. subst n.
  assert (Ec : s32 (mi_size mi `div` mi_erasesize mi) = mi_size mi `div` mi_erasesize mi).
  { assert (0 <= mi_size mi `div` mi_erasesize mi <= mi_size mi).
    { split; [apply Z.div_pos; lia|]. apply Z.div_le_upper_bound; nia. }
    apply (swrap_small 32); lia. }
  rewrite Ec, u32_s32, (wrap_small 32 start) by lia. apply non_region_loop_run. lia.
Qed.

(** The erases of a request for the whole device that succeeds: one per block,
    if the driver reports no regions and answers [MEMGETINFO]. *)
Definition device_erases : list mtd_call :=
  match mtd_regioncount, mtd_getinfo with
  | Some 0, Some mi => erases 0 (mi_erasesize mi) (Z.to_nat (s32 (mi_size mi `div` mi_erasesize mi)))
  | _, _ => []
  end.

(** Asked for the whole device, [erase_block] erases it block by block, as
    [device_erases] says. On a chip with erase regions, and when the driver does
    not answer, it erases nothing and may report success all the same. *)
Lemma erase_block_device dev res :
  erase_block dev 0 0xFFFFFFFF = Ret res -> res.1 = 0 -> res.2 = device_erases ++ [Close].
Proof.
  unfold erase_block, device_erases. change (s32 0xFFFFFFFF) with (-1). change (s32 0) with 0.
  destruct (mtd_open dev); [|by intros [= <-]]. destruct mtd_regioncount as [n|]; [|by intros [= <-]].
  case_bool_decide as Hn.
  - subst n. unfold non_region_erase. destruct mtd_getinfo as [mi|]; [|by intros [= <-]].
    case_bool_decide; [done|]. rewrite bool_decide_eq_true_2 by done. run. intros [= <-]. cbn [fst snd].
    set (m := Z.to_nat (s32 (mi_size mi `div` mi_erasesize mi))).
    destruct (non_region_loop_run m (mi_erasesize mi) (u32 0) [] ltac:(vm_compute; intuition congruence))
      as (k & _ & _ & [[-> ->]|(_ & -> & _)]); [done|discriminate].
  - run. intros [= <-]. cbn [fst snd]. unfold region_erase.
    destruct (read_regions _ _) as [rs|]; [|done]. destruct (find_region _ _); [|done]. intros _.
    by destruct n.
Qed.

(** On a chip whose erase regions tile its address space, [erase_block]
    from the start of a sector erases [count] consecutive sectors, each with
    the sector size of its own region and going on in the next region where
    one ends, and reports success even where the chip ends before [count]
    sectors have been erased. *)
Theorem erase_block_regions dev start count rs k len :
  mtd_open dev = true ->
  mtd_regioncount = Some (Z.of_nat (length rs)) ->
  (forall j, (j < length rs)%nat -> mtd_regioninfo (Z.of_nat j) = rs !! j) ->
  (forall tr c, mtd_ioctl tr c = true) ->
  regions_tile 0 rs ->
  chip_sectors rs !! k = Some (start, len) ->
  erase_block dev start count =
    Ret (0, map erase_call (take (Z.to_nat (s32 count)) (drop k (chip_sectors rs))) ++ [Close]).
Proof.
  intros Hopen Hrc Hri Hok Ht Hk. unfold erase_block, region_erase.
  destruct (chip_sectors_lookup 0 rs k start len ltac:(lia) Ht Hk)
    as (Hs & i & r & m & Hi & Hm & E & Hf & Hd).
  rewrite Hopen, Hrc, bool_decide_eq_false_2 by (destruct rs; simpl in *; [done|lia]). run.
  rewrite Nat2Z.id, (read_regions_all _ 0 rs) by done.
  assert (Hfr : find_region (s32 start) rs = find_region start rs).
  { clear. induction rs as [|r rs IH]; [done|]. simpl. by rewrite u32_s32, IH. }
  rewrite Hfr, Hf, Hd.
  assert (Hst : region_erase_loop (Z.to_nat (s32 count)) rs i (s32 start) 0 [] =
                region_erase_loop (Z.to_nat (s32 count)) rs i start 0 []).
  { destruct (Z.to_nat (s32 count)) as [|n]; [done|]. cbn [region_erase_loop]. rewrite Hi, !u32_s32.
    destruct (erase_sector 0 (u32 start) (ri_erasesize r) []) as [[|] tr']; [|done].
    assert (Ea : u32 (s32 start + ri_erasesize r) = u32 (start + ri_erasesize r))
      by (cint; dlia).
    by rewrite Ea. }
  rewrite Hst, E, (region_erase_loop_sectors Hok (Z.to_nat (s32 count)) 0) by (done || lia). done.
Qed.

End Erase.

(** A concrete driver: two regions, every call succeeds. *)
Definition demo_regions : list region_info :=
  [Region 0 2 0x1000; Region 0x2000 3 0x10000].

Definition demo_driver (regions : Z) (ok : list mtd_call -> bool) : MtdDriver := {|
  mtd_open := fun _ => true;
  mtd_regioncount := Some regions;
  mtd_regioninfo := fun i => demo_regions !! Z.to_nat i;
  mtd_getinfo := Some (MtdInfo 0x40000 0x10000);
  mtd_ioctl := fun tr _ => ok tr |}.

Lemma erase_block_no_regions_witness :
  exists res, @erase_run (demo_driver 0 (fun tr => bool_decide (length tr < 2)%nat))
                0 0x10000 4 [] res /\
    @erase_block (demo_driver 0 (fun tr => bool_decide (length tr < 2)%nat)) "mtd3" 0 (-1)
    = Ret (res.1, res.2 ++ [Close]).
Proof.
  exact (@erase_block_no_regions (demo_driver 0 (fun tr => bool_decide (length tr < 2)%nat))
           "mtd3" 0 (-1) (MtdInfo 0x40000 0x10000)
           eq_refl eq_refl eq_refl ltac:(simpl; lia) ltac:(simpl; lia) ltac:(lia)).
Defined.

Lemma erase_block_regions_witness :
  @erase_block (demo_driver 2 (fun _ => true)) "mtd3" 0x1000 2
  = Ret (0, [MemErase 0x1000 0x1000; MemErase 0x2000 0x10000; Close]).
Proof.
  apply (@erase_block_regions (demo_driver 2 (fun _ => true)) "mtd3" 0x1000 2
           demo_regions 1 0x1000); try reflexivity.
  - intros [|[|j]] Hj; [done..|simpl in Hj; lia].
  - simpl. lia.
Defined.
