(* ===== verification/PrivateArea.v ===== *)
(** * The private data area of the flash

    [C/flash/xl_private_area.c]: the private area is kept in a regular file
    ([CFG_PRIV_FILE]); the [_flash] variants go to the MTD partition itself.

    The file is the list of its bytes, [None] where it does not exist. A write
    opens it with mode "wb", which empties it, and a seek past the end leaves a
    gap of zeros. *)

From S2P Require Import Prelude Mtd.

(* @src C/flash/xl_private_area.c:28-28 MAXLEN *)
Definition MAXLEN : Z := 1024.
(* @src C/flash/xl_private_area.c:30-30 CFG_MTD *)
Definition CFG_MTD : string := "/dev/mtdblock3".
(* @src C/flash/xl_private_area.c:31-31 ERASE_BLOCK_SIZE *)
Definition ERASE_BLOCK_SIZE : Z := 0x10000.

(** [BLOCK_SIZE] of <sys/mount.h>. *)
Definition BLOCK_SIZE : Z := 1024.

(** [((a)>(b)?:(a),(b))]: the comma binds weakest, so the value is [b]. *)
(* @src C/flash/xl_private_area.c:32-32 MIN *)
Definition MIN (a b : Z) : Z := b.

Definition zeros (n : Z) : list Z := replicate (Z.to_nat n) 0.

(** Where a stream stands after [fseek(f, off, SEEK_SET)] on a fresh stream: a
    negative offset makes the call fail and leaves it at the start. *)
Definition seek_pos (off : Z) : Z := Z.max 0 off.

(** The [size_t] argument of [fread] and [fwrite]. *)
Definition fread (file : list Z) (pos count : Z) : list Z :=
  take (Z.to_nat (Z.min (u64 count) (Z.of_nat (length file)))) (drop (Z.to_nat pos) file).

(* @src C/flash/xl_private_area.c:228-249 xl_private_area_init *)
Definition xl_private_area_init (device_opens : bool) : Z :=
  if device_opens then 0 else -1.

(* @src C/flash/xl_private_area.c:260-282 xl_write_private_area *)
Definition xl_write_private_area (can_create : bool) (file : option (list Z))
    (StartAddr nLen : Z) (SrcAddr : option (list Z)) : outcome (Z * option (list Z)) :=
  match SrcAddr with
  | None => Ret (-1, file)
  | Some src =>
      if can_create then
        data ← mem_read 0 (u64 nLen) src;
        Ret (0, Some (match data with [] => [] | _ => zeros (seek_pos StartAddr) ++ data end))
      else Ret (-1, file)
  end.

(* @src C/flash/xl_private_area.c:319-353 xl_read_private_area *)
Fixpoint read_loop (fuel : nat) (file : list Z) (pos nLen size : Z) (buf DesAddr : list Z)
    : outcome (Z * list Z) :=
  match fuel with
  | O => Fault OutOfFuel
  | S fuel =>
      let nReadLen := if bool_decide (nLen > MAXLEN) then MAXLEN else nLen in
      let got := fread file pos nReadLen in
      buf ← mem_write 0 got buf;
      let rc := Z.of_nat (length got) in
      if bool_decide (0 >= rc) then Ret (1, DesAddr)
      else
        let nLen := nLen - nReadLen in
        let size := size + rc in
        if bool_decide (size >= nReadLen) then
          data ← mem_read 0 (u64 (rc - (size - nReadLen))) buf;
          DesAddr ← mem_write 0 data DesAddr;
          Ret (0, DesAddr)
        else
          data ← mem_read 0 rc buf;
          DesAddr ← mem_write 0 data DesAddr;
          read_loop fuel file (pos + rc) nLen size (zeros MAXLEN) DesAddr
  end.

(** Two rounds are enough: a round that does not fill the request has read up
    to the end of the file, and the next one finds nothing. *)
(* @src C/flash/xl_private_area.c:294-360 xl_read_private_area *)
Definition xl_read_private_area (file : option (list Z)) (StartAddr len : Z)
    (DesAddr : list Z) : outcome (Z * list Z) :=
  match file with
  | None => Ret (-1, DesAddr)
  | Some f => read_loop 2 f (seek_pos StartAddr) len 0 (zeros MAXLEN) DesAddr
  end.

(** The same code on the device. *)
(* @src C/flash/xl_private_area.c:435-501 xl_read_private_area_flash *)
Definition xl_read_private_area_flash (device : option (list Z)) (StartAddr len : Z)
    (DesAddr : list Z) : outcome (Z * list Z) :=
  match device with
  | None => Ret (-1, DesAddr)
  | Some f => read_loop 2 f (seek_pos StartAddr) len 0 (zeros MAXLEN) DesAddr
  end.

(** What reaches the device: an erase, with its return value and calls, and a
    write at an offset. *)
Inductive flash_event : Set :=
  | FlashErase (ret : Z) (calls : list mtd_call)
  | FlashWrite (offset : Z) (data : list Z).

Section FlashWrite.
Context `{MtdDriver}.
(** [fopen(CFG_MTD, "wb")] succeeds. *)
Context (device_opens : bool).

(* @src C/flash/xl_private_area.c:397-421 xl_write_private_area_flash *)
Fixpoint write_flash_loop (n : nat) (i nBase_start nOffset nTmpLen nFreeSize : Z)
    (file : option (list Z)) (buf : list Z) (ev : list flash_event)
    : outcome (Z * list flash_event) :=
  match n with
  | O => Ret (0, ev)
  | S n =>
      rd ← xl_read_private_area file ((nBase_start + i) * ERASE_BLOCK_SIZE) ERASE_BLOCK_SIZE
             (zeros ERASE_BLOCK_SIZE);
      let tmpbuf := rd.2 in
      let nWrittenSize := MIN nTmpLen nFreeSize in
      data ← mem_read 0 (u64 nWrittenSize) buf;
      tmpbuf ← mem_write nOffset data tmpbuf;
      let nTmpLen := nTmpLen - nWrittenSize in
      er ← erase_block CFG_MTD (nBase_start + i) 1;
      let ev := ev ++ [FlashErase er.1 er.2] in
      if device_opens then
        out ← mem_read 0 BLOCK_SIZE tmpbuf;
        let ev := ev ++ [FlashWrite (seek_pos ((nBase_start + i) * BLOCK_SIZE)) out] in
        write_flash_loop n (i + 1) nBase_start nOffset (nTmpLen - nWrittenSize)
          ERASE_BLOCK_SIZE file buf ev
      else Ret (-1, ev)
  end.

(* @src C/flash/xl_private_area.c:371-423 xl_write_private_area_flash *)
Definition xl_write_private_area_flash (file : option (list Z)) (StartAddr nLen : Z)
    (SrcAddr : option (list Z)) : outcome (Z * list flash_event) :=
  match SrcAddr with
  | None => Ret (-1, [])
  | Some src =>
      let nOffset := StartAddr in
      let nBase_start := nOffset `quot` ERASE_BLOCK_SIZE in
      let nUnitCnt := nLen `quot` ERASE_BLOCK_SIZE + 1 in
      let nFreeSize := BLOCK_SIZE - nOffset `rem` ERASE_BLOCK_SIZE in
      write_flash_loop (Z.to_nat nUnitCnt) 0 nBase_start nOffset nLen nFreeSize file src []
  end.

End FlashWrite.

(** ** Reading *)

Lemma zeros_length n : 0 <= n -> Z.of_nat (length (zeros n)) = n.
Proof. intros. unfold zeros. rewrite length_replicate. lia. Qed.

Lemma fread_spec file pos n :
  0 <= n < 2 ^ 64 -> fread file pos n = take (Z.to_nat n) (drop (Z.to_nat pos) file).
Proof.
  intros Hn. unfold fread. rewrite wrap_small by done.
  destruct (decide (n <= Z.of_nat (length file))).
  - by rewrite Z.min_l by lia.
  - rewrite Z.min_r by lia. rewrite !take_ge; [done|rewrite length_drop; lia..].
Qed.

(** The data a read of [n] bytes delivers, in front of what was there. *)
Definition overlay (data dst : list Z) : list Z := data ++ drop (length data) dst.

Lemma mem_write_overlay data dst :
  (length data <= length dst)%nat -> mem_write 0 data dst = Ret (overlay data dst).
Proof. apply mem_write_0. Qed.

Lemma mem_read_overlay data dst :
  mem_read 0 (Z.of_nat (length data)) (overlay data dst) = Ret data.
Proof. exact (mem_read_app [] data _ 0 _ eq_refl eq_refl). Qed.

Lemma fread_nil file pos n : (length file <= Z.to_nat pos)%nat -> fread file pos n = [].
Proof. intros. unfold fread. by rewrite drop_ge, take_nil. Qed.

Lemma read_loop_spec file pos len dst :
  let n := Z.min len MAXLEN in
  let data := take (Z.to_nat n) (drop (Z.to_nat pos) file) in
  0 < len -> 0 <= pos -> n <= Z.of_nat (length dst) ->
  read_loop 2 file pos len 0 (zeros MAXLEN) dst =
  Ret (if bool_decide (Z.of_nat (length data) = n) then 0 else 1, overlay data dst).
Proof.
  intros n data Hlen Hpos Hdst.
  assert (Hn : (if bool_decide (len > MAXLEN) then MAXLEN else len) = n).
  { subst n. case_bool_decide; lia. }
  assert (Hn' : 0 < n <= 1024) by (unfold n, MAXLEN in *; lia).
  assert (Hd : Z.of_nat (length data) <= n) by (unfold data; rewrite length_take; lia).
  assert (Hz : Z.of_nat (length (zeros MAXLEN)) = 1024) by (by apply zeros_length).
  remember 1%nat as k eqn:Hk. cbn [read_loop]. rewrite Hn, fread_spec by lia. fold data.
  rewrite mem_write_overlay by lia. run.
  destruct (decide (data = [])) as [E0|E0].
  { rewrite E0. simpl. by rewrite bool_decide_eq_false_2 by lia. }
  assert (Hpos' : 0 < Z.of_nat (length data)) by (destruct data; [done|simpl; lia]).
  rewrite bool_decide_eq_false_2 by lia.
  destruct (decide (Z.of_nat (length data) = n)) as [Hfull|Hfull].
  - rewrite !bool_decide_eq_true_2 by lia.
    replace (Z.of_nat (length data) - (0 + Z.of_nat (length data) - n))
      with (Z.of_nat (length data)) by lia.
    rewrite wrap_small, mem_read_overlay by lia. run.
    by rewrite mem_write_overlay by lia.
  - rewrite !bool_decide_eq_false_2 by lia.
    rewrite mem_read_overlay. run. rewrite mem_write_overlay by lia. run.
    subst k. cbn [read_loop]. rewrite fread_nil; [done|]. unfold data in *.
    rewrite length_take, length_drop in *. lia.
Qed.

(** A read of the private area returns 0 exactly when the file holds
    min(len, 1024) bytes from the start address, and then has delivered those
    bytes and no more, even when more were asked for; a shorter file delivers
    what there is and returns 1. The loop ends: it makes at most two rounds. *)
Theorem xl_read_private_area_spec f StartAddr len dst :
  let n := Z.min len MAXLEN in
  let data := take (Z.to_nat n) (drop (Z.to_nat StartAddr) f) in
  0 < len -> 0 <= StartAddr -> n <= Z.of_nat (length dst) ->
  xl_read_private_area (Some f) StartAddr len dst =
  Ret (if bool_decide (Z.of_nat (length data) = n) then 0 else 1, overlay data dst).
Proof.
  intros n data Hlen Hs Hd. unfold xl_read_private_area, seek_pos.
  rewrite Z.max_r by done. by apply read_loop_spec.
Qed.

Lemma xl_read_private_area_spec_witness :
  xl_read_private_area (Some (map Z.of_nat (seq 0 1100))) 10 1080 (zeros 1080) =
  Ret (0, map Z.of_nat (seq 10 1024) ++ zeros 56).
Proof.
  rewrite (xl_read_private_area_spec (map Z.of_nat (seq 0 1100)) 10 1080 (zeros 1080)).
  - vm_compute. reflexivity.
  - lia.
  - lia.
  - vm_compute. discriminate.
Defined.

(** ** Writing *)

(** A write of the private area replaces the whole file: afterwards the
    file is the data behind a gap of zeros, whatever it held before, and a
    read of up to 1024 bytes from the same address gives the data back. *)
Theorem xl_private_area_write_read old StartAddr src dst :
  0 <= StartAddr -> 0 < Z.of_nat (length src) <= MAXLEN -> length dst = length src ->
  exists f,
    xl_write_private_area true old StartAddr (Z.of_nat (length src)) (Some src) =
      Ret (0, Some f) /\
    f = zeros StartAddr ++ src /\
    xl_read_private_area (Some f) StartAddr (Z.of_nat (length src)) dst = Ret (0, src).
Proof.
  intros Hs Hl Hd. exists (zeros StartAddr ++ src). unfold xl_write_private_area, seek_pos.
  assert (Hr : mem_read 0 (u64 (Z.of_nat (length src))) src = Ret src).
  { rewrite wrap_small by (unfold MAXLEN in Hl; lia). by apply mem_read_all. }
  rewrite Hr. run. rewrite Z.max_r by done. split_and!.
  - destruct src; [simpl in Hl; lia|done].
  - done.
  - unfold xl_read_private_area, seek_pos. rewrite Z.max_r by done.
    rewrite read_loop_spec by (lia || unfold MAXLEN in *; lia).
    rewrite Z.min_l, Nat2Z.id by lia.
    rewrite drop_app_length', take_ge by (lia || pose proof (zeros_length StartAddr Hs); lia).
    rewrite bool_decide_eq_true_2 by done. unfold overlay.
    by rewrite drop_ge, app_nil_r by lia.
Qed.

Lemma xl_private_area_write_read_witness :
  exists f,
    xl_write_private_area true (Some [9; 9; 9; 9; 9; 9; 9]) 2 3 (Some [1; 2; 3]) =
      Ret (0, Some f) /\
    f = [0; 0; 1; 2; 3] /\
    xl_read_private_area (Some f) 2 3 [0; 0; 0] = Ret (0, [1; 2; 3]).
Proof.
  exact (xl_private_area_write_read (Some [9; 9; 9; 9; 9; 9; 9]) 2 [1; 2; 3] [0; 0; 0]
           ltac:(lia) ltac:(unfold MAXLEN; simpl; lia) eq_refl).
Defined.

(** ** Writing to the flash *)

(** [xl_write_private_area_flash] copies 1024 - StartAddr bytes of its
    source whatever length it is given, because its MIN always takes the
    second operand: on a source of exactly [nLen] bytes it reads past the end
    unless StartAddr + nLen reaches 1024, and any start address between 1024
    and the erase block size makes the count wrap around. *)
Theorem flash_write_ignores_length `{MtdDriver} opens f StartAddr src :
  let nLen := Z.of_nat (length src) in
  0 <= StartAddr < ERASE_BLOCK_SIZE -> nLen < ERASE_BLOCK_SIZE ->
  StartAddr + nLen < BLOCK_SIZE \/ BLOCK_SIZE < StartAddr ->
  xl_write_private_area_flash opens f StartAddr nLen (Some src) = Fault OutOfBounds.
Proof.
  intros nLen Hs Hl Hcase. unfold xl_write_private_area_flash, ERASE_BLOCK_SIZE, BLOCK_SIZE in *.
  rewrite (Z.quot_small nLen), (Z.quot_small StartAddr), (Z.rem_small StartAddr) by lia.
  change (Z.to_nat (0 + 1)) with 1%nat. cbn [write_flash_loop]. unfold MIN.
  assert (Hrd : exists r b, xl_read_private_area f ((0 + 0) * ERASE_BLOCK_SIZE) ERASE_BLOCK_SIZE
                            (zeros ERASE_BLOCK_SIZE) = Ret (r, b)).
  { destruct f as [f|]; [|by do 2 eexists]. unfold xl_read_private_area, seek_pos.
    rewrite read_loop_spec; [by do 2 eexists|done|lia|].
    by rewrite zeros_length. }
  destruct Hrd as (r & b & ->). run.
  unfold mem_read. rewrite bool_decide_eq_false_2; [done|].
  fold nLen. destruct Hcase.
  - rewrite wrap_small by lia. lia.
  - assert (u64 (1024 - StartAddr) = 2 ^ 64 + 1024 - StartAddr) as -> by (cint; dlia). lia.
Qed.

Lemma flash_write_ignores_length_witness :
  @xl_write_private_area_flash (demo_driver 0 (fun _ => true)) true None 0 9
    (Some [65; 65; 65; 65; 65; 65; 65; 65; 0]) = Fault OutOfBounds.
Proof.
  apply (@flash_write_ignores_length (demo_driver 0 (fun _ => true)) true None 0
           [65; 65; 65; 65; 65; 65; 65; 65; 0]).
  - unfold ERASE_BLOCK_SIZE. lia.
  - unfold ERASE_BLOCK_SIZE. simpl. lia.
  - left. unfold BLOCK_SIZE. simpl. lia.
Defined.
