(* ===== verification/Mkimage.v ===== *)
(** * Building boot images: [mkimage]

    [C/upgrade_mtk/mkimage/mkimage.c] and [include/image.h] (the same files
    are in [erase_nand], [upgrade_nvboot] and [upgrade_nvram]): the 64-byte
    header, the tables of names, the command line, the assembly of an image
    from data files, and the listing of an image with its two checksums.

    The host is little-endian; [long_bytes] is [sizeof(long)], 4 or 8. [exit
    (EXIT_FAILURE)] is [None]. A file system is a function from names to
    contents, and mapping an empty file fails; the
    image file is not one of its own data files. *)

From S2P Require Import Prelude Crc32.

(** ** The header *)

(* @src C/upgrade_mtk/mkimage/include/image.h:129-129 IH_MAGIC *)
Definition IH_MAGIC : Z := 0x27051956.
(* @src C/upgrade_mtk/mkimage/include/image.h:130-130 IH_NMLEN *)
Definition IH_NMLEN : nat := 28.

(* @src C/upgrade_mtk/mkimage/include/image.h:136-150 image_header *)
Record image_header := ImageHeader {
  ih_magic : Z;
  ih_hcrc : Z;
  ih_time : Z;
  ih_size : Z;
  ih_load : Z;
  ih_ep : Z;
  ih_dcrc : Z;
  ih_os : Z;
  ih_arch : Z;
  ih_type : Z;
  ih_comp : Z;
  ih_name : list Z;
  ih_ksz : Z }.

(** [sizeof(image_header_t)] *)
Definition header_size : Z := 64.

(** The header in memory: every multi-byte field goes through [htonl]. *)
Definition header_bytes (h : image_header) : list Z :=
  be_bytes 4 (ih_magic h) ++ be_bytes 4 (ih_hcrc h) ++ be_bytes 4 (ih_time h) ++
  be_bytes 4 (ih_size h) ++ be_bytes 4 (ih_load h) ++ be_bytes 4 (ih_ep h) ++
  be_bytes 4 (ih_dcrc h) ++ [ih_os h; ih_arch h; ih_type h; ih_comp h] ++
  ih_name h ++ be_bytes 4 (ih_ksz h).

(** The [n] bytes of a block from [off], and the [ntohl] of four of them. *)
Definition field (off n : nat) (l : list Z) : list Z := take n (drop off l).
Definition ntohl_at (off : nat) (l : list Z) : Z := be_value (field off 4 l).
Definition u8_at (off : nat) (l : list Z) : Z := nth off l 0.

(** The header a block of 64 bytes holds. *)
Definition header_of (l : list Z) : image_header :=
  ImageHeader (ntohl_at 0 l) (ntohl_at 4 l) (ntohl_at 8 l) (ntohl_at 12 l)
    (ntohl_at 16 l) (ntohl_at 20 l) (ntohl_at 24 l)
    (u8_at 28 l) (u8_at 29 l) (u8_at 30 l) (u8_at 31 l)
    (field 32 IH_NMLEN l) (ntohl_at 60 l).

Definition set_hcrc (c : Z) (h : image_header) : image_header :=
  ImageHeader (ih_magic h) c (ih_time h) (ih_size h) (ih_load h) (ih_ep h) (ih_dcrc h)
    (ih_os h) (ih_arch h) (ih_type h) (ih_comp h) (ih_name h) (ih_ksz h).

(** ** Names of architectures, systems, types and compressions *)

(* @src C/upgrade_mtk/mkimage/mkimage.c:73-77 table_entry *)
Record table_entry := Entry { val : Z; sname : option string; lname : string }.

(** The tables, less the closing entry with value -1. *)
(* @src C/upgrade_mtk/mkimage/mkimage.c:79-95 arch_name *)
Definition arch_name : list table_entry :=
  [Entry 0 None "Invalid CPU"; (* IH_CPU_INVALID *)
   Entry 1 (Some "alpha") "Alpha"; (* IH_CPU_ALPHA *)
   Entry 2 (Some "arm") "ARM"; (* IH_CPU_ARM *)
   Entry 3 (Some "x86") "Intel x86"; (* IH_CPU_I386 *)
   Entry 4 (Some "ia64") "IA64"; (* IH_CPU_IA64 *)
   Entry 12 (Some "m68k") "MC68000"; (* IH_CPU_M68K *)
   Entry 14 (Some "microblaze") "MicroBlaze"; (* IH_CPU_MICROBLAZE *)
   Entry 5 (Some "mips") "MIPS"; (* IH_CPU_MIPS *)
   Entry 6 (Some "mips64") "MIPS 64 Bit"; (* IH_CPU_MIPS64 *)
   Entry 7 (Some "ppc") "PowerPC"; (* IH_CPU_PPC *)
   Entry 8 (Some "s390") "IBM S390"; (* IH_CPU_S390 *)
   Entry 9 (Some "sh") "SuperH"; (* IH_CPU_SH *)
   Entry 10 (Some "sparc") "SPARC"; (* IH_CPU_SPARC *)
   Entry 11 (Some "sparc64") "SPARC 64 Bit"] (* IH_CPU_SPARC64 *).

(* @src C/upgrade_mtk/mkimage/mkimage.c:97-119 os_name *)
Definition os_name : list table_entry :=
  [Entry 0 None "Invalid OS"; (* IH_OS_INVALID *)
   Entry 4 (Some "4_4bsd") "4_4BSD"; (* IH_OS_4_4BSD *)
   Entry 19 (Some "artos") "ARTOS"; (* IH_OS_ARTOS *)
   Entry 11 (Some "dell") "Dell"; (* IH_OS_DELL *)
   Entry 7 (Some "esix") "Esix"; (* IH_OS_ESIX *)
   Entry 3 (Some "freebsd") "FreeBSD"; (* IH_OS_FREEBSD *)
   Entry 9 (Some "irix") "Irix"; (* IH_OS_IRIX *)
   Entry 5 (Some "linux") "Linux"; (* IH_OS_LINUX *)
   Entry 13 (Some "lynxos") "LynxOS"; (* IH_OS_LYNXOS *)
   Entry 12 (Some "ncr") "NCR"; (* IH_OS_NCR *)
   Entry 2 (Some "netbsd") "NetBSD"; (* IH_OS_NETBSD *)
   Entry 1 (Some "openbsd") "OpenBSD"; (* IH_OS_OPENBSD *)
   Entry 15 (Some "psos") "pSOS"; (* IH_OS_PSOS *)
   Entry 16 (Some "qnx") "QNX"; (* IH_OS_QNX *)
   Entry 18 (Some "rtems") "RTEMS"; (* IH_OS_RTEMS *)
   Entry 10 (Some "sco") "SCO"; (* IH_OS_SCO *)
   Entry 8 (Some "solaris") "Solaris"; (* IH_OS_SOLARIS *)
   Entry 6 (Some "svr4") "SVR4"; (* IH_OS_SVR4 *)
   Entry 17 (Some "u-boot") "U-Boot"; (* IH_OS_U_BOOT *)
   Entry 14 (Some "vxworks") "VxWorks"] (* IH_OS_VXWORKS *).

(* @src C/upgrade_mtk/mkimage/mkimage.c:121-131 type_name *)
Definition type_name : list table_entry :=
  [Entry 0 None "Invalid Image"; (* IH_TYPE_INVALID *)
   Entry 7 (Some "filesystem") "Filesystem Image"; (* IH_TYPE_FILESYSTEM *)
   Entry 5 (Some "firmware") "Firmware"; (* IH_TYPE_FIRMWARE *)
   Entry 2 (Some "kernel") "Kernel Image"; (* IH_TYPE_KERNEL *)
   Entry 4 (Some "multi") "Multi-File Image"; (* IH_TYPE_MULTI *)
   Entry 3 (Some "ramdisk") "RAMDisk Image"; (* IH_TYPE_RAMDISK *)
   Entry 6 (Some "script") "Script"; (* IH_TYPE_SCRIPT *)
   Entry 1 (Some "standalone") "Standalone Program"] (* IH_TYPE_STANDALONE *).

(* @src C/upgrade_mtk/mkimage/mkimage.c:133-140 comp_name *)
Definition comp_name : list table_entry :=
  [Entry 0 (Some "none") "uncompressed"; (* IH_COMP_NONE *)
   Entry 2 (Some "bzip2") "bzip2 compressed"; (* IH_COMP_BZIP2 *)
   Entry 1 (Some "gzip") "gzip compressed"; (* IH_COMP_GZIP *)
   Entry 3 (Some "lzma") "lzma compressed"; (* IH_COMP_LZMA *)
   Entry 5 (Some "xz") "xz compressed"] (* IH_COMP_XZ *).

(* @src C/upgrade_mtk/mkimage/include/image.h:115-115 IH_TYPE_MULTI *)
Definition IH_TYPE_MULTI : Z := 4.
(* @src C/upgrade_mtk/mkimage/include/image.h:117-117 IH_TYPE_SCRIPT *)
Definition IH_TYPE_SCRIPT : Z := 6.

(** Image types whose data starts with a list of sizes. *)
Definition has_sizes (ty : Z) : bool :=
  bool_decide (ty = IH_TYPE_MULTI \/ ty = IH_TYPE_SCRIPT).

Definition lower_char (c : ascii) : ascii :=
  let n := N_of_ascii c in
  if bool_decide (65 <= n /\ n <= 90)%N then ascii_of_N (n + 32) else c.

Fixpoint lower (s : string) : string :=
  match s with
  | EmptyString => EmptyString
  | String c s => String (lower_char c) (lower s)
  end.

Definition strcasecmp_eq (a b : string) : bool := bool_decide (lower a = lower b).

(* @src C/upgrade_mtk/mkimage/mkimage.c:703-710 put_table_entry *)
Definition put_table_entry (table : list table_entry) (msg : string) (type : Z) : string :=
  match List.find (fun e => bool_decide (val e = type)) table with
  | Some e => lname e
  | None => msg
  end.

(* @src C/upgrade_mtk/mkimage/mkimage.c:735-753 get_table_entry *)
Definition get_table_entry (table : list table_entry) (name : string) : Z :=
  match List.find (fun e => match sname e with
                            | Some s => strcasecmp_eq s name
                            | None => false
                            end) table with
  | Some e => val e
  | None => -1
  end.

(* @src C/upgrade_mtk/mkimage/mkimage.c:683-686 put_arch *)
Definition put_arch := put_table_entry arch_name "Unknown Architecture".
(* @src C/upgrade_mtk/mkimage/mkimage.c:688-691 put_os *)
Definition put_os := put_table_entry os_name "Unknown OS".
(* @src C/upgrade_mtk/mkimage/mkimage.c:693-696 put_type *)
Definition put_type := put_table_entry type_name "Unknown Image".
(* @src C/upgrade_mtk/mkimage/mkimage.c:698-701 put_comp *)
Definition put_comp := put_table_entry comp_name "Unknown Compression".
(* @src C/upgrade_mtk/mkimage/mkimage.c:712-715 get_arch *)
Definition get_arch := get_table_entry arch_name.
(* @src C/upgrade_mtk/mkimage/mkimage.c:718-721 get_comp *)
Definition get_comp := get_table_entry comp_name.
(* @src C/upgrade_mtk/mkimage/mkimage.c:724-727 get_os *)
Definition get_os := get_table_entry os_name.
(* @src C/upgrade_mtk/mkimage/mkimage.c:730-733 get_type *)
Definition get_type := get_table_entry type_name.

(** ** Numbers on the command line *)

Definition is_space (c : ascii) : bool :=
  let n := N_of_ascii c in bool_decide (n = 32 \/ (9 <= n /\ n <= 13))%N.

Definition digit_value (c : ascii) : option Z :=
  let n := char_code c in
  if bool_decide (48 <= n <= 57) then Some (n - 48)
  else if bool_decide (65 <= n <= 90) then Some (n - 55)
  else if bool_decide (97 <= n <= 122) then Some (n - 87)
  else None.

(** The digits of base [b] at the front of [s], their value, and the rest. *)
Fixpoint digits (b acc : Z) (s : string) : Z * string :=
  match s with
  | EmptyString => (acc, EmptyString)
  | String c s' =>
      match digit_value c with
      | Some d => if bool_decide (d < b) then digits b (acc * b + d) s' else (acc, s)
      | None => (acc, s)
      end
  end.

Fixpoint skip_space (s : string) : string :=
  match s with
  | String c s' => if is_space c then skip_space s' else s
  | EmptyString => EmptyString
  end.

(** The sign of a number, and what follows it. *)
Definition sign_of (s : string) : bool * string :=
  match s with
  | String "-" s => (true, s)
  | String "+" s => (false, s)
  | _ => (false, s)
  end.

Definition starts_with_digit (b : Z) (s : string) : bool :=
  match s with
  | String c _ => match digit_value c with Some d => bool_decide (d < b) | None => false end
  | EmptyString => false
  end.

(** [strtoul(s, &ptr, 16)] for a [long] of [w] bits: the value and [ptr]. *)
Definition strtoul16 (w : Z) (s : string) : Z * string :=
  let '(neg, t) := sign_of (skip_space s) in
  let t := match t with
           | String "0" (String "x" t') | String "0" (String "X" t') =>
               if starts_with_digit 16 t' then t' else t
           | _ => t
           end in
  if starts_with_digit 16 t then
    let '(v, rest) := digits 16 0 t in
    (if bool_decide (2 ^ w <= v) then 2 ^ w - 1 else if neg then wrap w (- v) else v, rest)
  else (0, s).

(** [(uint32_t)atoi(s)] where the number fits an [int]. *)
Definition atoi (s : string) : Z :=
  let '(neg, t) := sign_of (skip_space s) in
  let v := fst (digits 10 0 t) in
  if neg then - v else v.

(** ** The command line *)

(* @src C/upgrade_mtk/mkimage/mkimage.c:158-184 main *)
Record options := Options {
  datafile : string;
  dflag : bool;
  eflag : bool;
  lflag : bool;
  vflag : Z;
  xflag : Z;
  opt_os : Z;
  opt_arch : Z;
  opt_type : Z;
  opt_comp : Z;
  addr : Z;
  ep : Z;
  ksz : Z;
  name : string }.

(* @src C/upgrade_mtk/mkimage/mkimage.c:158-188 main *)
Definition default_options : options :=
  Options "" false false false 0 0 5 7 2 1 0 0 0 "".

Definition set_lflag (o : options) : options :=
  Options (datafile o) (dflag o) (eflag o) true (vflag o) (xflag o) (opt_os o) (opt_arch o)
    (opt_type o) (opt_comp o) (addr o) (ep o) (ksz o) (name o).
Definition set_vflag (o : options) : options :=
  Options (datafile o) (dflag o) (eflag o) (lflag o) (vflag o + 1) (xflag o) (opt_os o)
    (opt_arch o) (opt_type o) (opt_comp o) (addr o) (ep o) (ksz o) (name o).
Definition set_xflag (o : options) : options :=
  Options (datafile o) (dflag o) (eflag o) (lflag o) (vflag o) (xflag o + 1) (opt_os o)
    (opt_arch o) (opt_type o) (opt_comp o) (addr o) (ep o) (ksz o) (name o).

(** What the letter of an option does with the argument that follows it;
    [None] is an invalid one. *)
(* @src C/upgrade_mtk/mkimage/mkimage.c:196-255 main *)
Definition option_arg (long_bits : Z) (c : ascii) (arg : string) (o : options)
    : option options :=
  let 'Options df d e l v x os ar ty co ad ep ks nm := o in
  match c with
  | "A"%char => let k := get_arch arg in
      if bool_decide (k < 0) then None else Some (Options df d e l v x os k ty co ad ep ks nm)
  | "C"%char => let k := get_comp arg in
      if bool_decide (k < 0) then None else Some (Options df d e l v x os ar ty k ad ep ks nm)
  | "O"%char => let k := get_os arg in
      if bool_decide (k < 0) then None else Some (Options df d e l v x k ar ty co ad ep ks nm)
  | "T"%char => let k := get_type arg in
      if bool_decide (k < 0) then None else Some (Options df d e l v x os ar k co ad ep ks nm)
  | "a"%char => let '(k, rest) := strtoul16 long_bits arg in
      if bool_decide (rest = "") then Some (Options df d e l v x os ar ty co (u32 k) ep ks nm)
      else None
  | "d"%char => Some (Options arg true e l v x os ar ty co ad ep ks nm)
  | "e"%char => let '(k, rest) := strtoul16 long_bits arg in
      if bool_decide (rest = "") then Some (Options df d true l v x os ar ty co ad (u32 k) ks nm)
      else None
  | "k"%char => Some (Options df d e l v x os ar ty co ad ep (u32 (atoi arg)) nm)
  | "n"%char => Some (Options df d e l v x os ar ty co ad ep ks arg)
  | _ => None
  end.

(** The letters of one argument, with the next argument. The result says
    whether that one was consumed. *)
(* @src C/upgrade_mtk/mkimage/mkimage.c:191-266 main *)
Fixpoint parse_letters (long_bits : Z) (cs : string) (next : option string) (o : options)
    : option (options * bool) :=
  match cs with
  | EmptyString => Some (o, false)
  | String "l" cs => parse_letters long_bits cs next (set_lflag o)
  | String "v" cs => parse_letters long_bits cs next (set_vflag o)
  | String "x" cs => parse_letters long_bits cs next (set_xflag o)
  | String c _ =>
      arg ← next;
      o ← option_arg long_bits c arg o;
      Some (o, true)
  end.

(** The arguments after the program's name. *)
(* @src C/upgrade_mtk/mkimage/mkimage.c:190-267 main *)
Fixpoint parse_args (long_bits : Z) (argv : list string) (o : options)
    : option (options * list string) :=
  match argv with
  | String "-" cs :: rest =>
      r ← parse_letters long_bits cs (head rest) o;
      if r.2 : bool
      then match rest with
           | [] => None
           | _ :: rest => parse_args long_bits rest r.1
           end
      else parse_args long_bits rest r.1
  | _ => Some (o, argv)
  end.

(** The checks after the loop: one file, listing or building, and the entry
    point of an XIP image; the sum with [sizeof] is a [size_t], as wide as [long]. *)
(* @src C/upgrade_mtk/mkimage/mkimage.c:269-292 main *)
Definition check_options (long_bits : Z) (o : options) (argv : list string) : option (options * string) :=
  match argv with
  | [imagefile] =>
      if xorb (lflag o) (dflag o) then
        let e := if eflag o then ep o
                 else if bool_decide (xflag o <> 0) then u32 (addr o + header_size)
                 else addr o in
        if bool_decide (xflag o <> 0 /\ e <> wrap long_bits (addr o + header_size)) then None
        else Some (Options (datafile o) (dflag o) (eflag o) (lflag o) (vflag o) (xflag o)
                     (opt_os o) (opt_arch o) (opt_type o) (opt_comp o) (addr o) e (ksz o)
                     (name o), imagefile)
      else None
  | _ => None
  end.

(** ** Building an image *)

(** [copy_file]: the bytes one data file adds. *)
(* @src C/upgrade_mtk/mkimage/mkimage.c:515-595 copy_file *)
Definition copy_file (xflag : Z) (file : option (list Z)) (pad : bool) : option (list Z) :=
  match file with
  | None | Some [] => None
  | Some ptr =>
      offset ← (if bool_decide (xflag <> 0) then
                  if bool_decide (Z.of_nat (length ptr) < header_size) then None
                  else if forallb (fun b => bool_decide (b = 0xff)) (take 64 ptr)
                       then Some 64%nat else None
                else Some 0%nat);
      let data := drop offset ptr in
      let tail := Z.of_nat (length data) `mod` 4 in
      Some (data ++ if pad && bool_decide (tail <> 0)
                    then replicate (Z.to_nat (4 - tail)) 0 else [])
  end.

(** [write(ifd, &size, sizeof(size))] of an [unsigned long] holding
    [htonl(n)]. *)
Definition size_word (long_bytes : nat) (n : Z) : list Z :=
  be_bytes 4 n ++ replicate (long_bytes - 4) 0.

(** The sizes of the files and the closing zero. *)
(* @src C/upgrade_mtk/mkimage/mkimage.c:394-428 main *)
Fixpoint write_sizes (long_bytes : nat) (fs : string -> option (list Z)) (files : list string)
    : option (list Z) :=
  match files with
  | [] => Some (replicate long_bytes 0)
  | file :: files =>
      contents ← fs file;
      rest ← write_sizes long_bytes fs files;
      Some (size_word long_bytes (Z.of_nat (length contents)) ++ rest)
  end.

(** The files themselves, padded except for the last. *)
(* @src C/upgrade_mtk/mkimage/mkimage.c:430-443 main *)
Fixpoint write_files (xflag : Z) (fs : string -> option (list Z)) (files : list string)
    : option (list Z) :=
  match files with
  | [] => Some []
  | [file] => copy_file xflag (fs file) false
  | file :: files =>
      d ← copy_file xflag (fs file) true;
      rest ← write_files xflag fs files;
      Some (d ++ rest)
  end.

(* @src C/upgrade_mtk/mkimage/mkimage.c:390-446 main *)
Definition image_data (long_bytes : nat) (fs : string -> option (list Z)) (o : options)
    : option (list Z) :=
  if has_sizes (opt_type o) then
    let files := split_at_char ":" (datafile o) in
    sizes ← write_sizes long_bytes fs files;
    data ← write_files (xflag o) fs files;
    Some (sizes ++ data)
  else copy_file (xflag o) (fs (datafile o)) false.

(** [strncpy(dst, src, n)] *)
Definition strncpy (n : nat) (src : list Z) : list Z := take n (src ++ replicate n 0).

(** [crc32(0, p, len)], whose length is an [unsigned int]. *)
Definition crc_of (data : list Z) : Z :=
  crc32 0 (take (Z.to_nat (u32 (Z.of_nat (length data)))) data).

(* @src C/upgrade_mtk/mkimage/mkimage.c:471-493 main *)
Definition build_header (o : options) (mtime : Z) (data : list Z) : image_header :=
  let h := ImageHeader IH_MAGIC 0 (u32 mtime) (u32 (Z.of_nat (length data))) (addr o) (ep o)
             (crc_of data) (u8 (opt_os o)) (u8 (opt_arch o)) (u8 (opt_type o))
             (u8 (opt_comp o)) (strncpy IH_NMLEN (str_bytes (name o))) (ksz o) in
  set_hcrc (crc_of (header_bytes h)) h.

(** The image file [mkimage] leaves behind. *)
(* @src C/upgrade_mtk/mkimage/mkimage.c:377-513 main *)
Definition build_image (long_bytes : nat) (fs : string -> option (list Z)) (mtime : Z)
    (o : options) : option (list Z) :=
  data ← image_data long_bytes fs o;
  Some (header_bytes (build_header o mtime data) ++ data).

(** ** Listing an image *)

(** The entries of [len_ptr] up to the closing zero. *)
(* @src C/upgrade_mtk/mkimage/mkimage.c:639-646 print_header *)
Fixpoint read_sizes (fuel : nat) (long_bytes : nat) (off : Z) (mem : list Z)
    : outcome (list Z) :=
  match fuel with
  | O => Fault OutOfFuel
  | S fuel =>
      w ← mem_read off (Z.of_nat long_bytes) mem;
      let v := little_endian_to_Z 8 w in
      if bool_decide (v = 0) then Ret []
      else
        rest ← read_sizes fuel long_bytes (off + Z.of_nat long_bytes) mem;
        Ret (v :: rest)
  end.

(** [ntohl] of the low 32 bits of an [unsigned long]. *)
Definition ntohl (v : Z) : Z := be_value (Z_to_little_endian 4 8 (u32 v)).

(** The lines for the images: size, and the offset where it is printed. *)
(* @src C/upgrade_mtk/mkimage/mkimage.c:648-667 print_header *)
Fixpoint list_images (script : bool) (i pos : Z) (lens : list Z) : list (Z * option Z) :=
  match lens with
  | [] => []
  | l :: lens =>
      let size := ntohl l in
      (size, if script && bool_decide (i > 0) then Some pos else None) ::
      list_images script (i + 1) (u32 (pos + Z.land (u32 (size + 3)) (Z.lnot 3))) lens
  end.

(** [print_header] of an image that starts at [off] in [mem]; the result is
    what it prints about the contents. *)
(* @src C/upgrade_mtk/mkimage/mkimage.c:618-669 print_header *)
Definition print_header (long_bytes : nat) (off : Z) (mem : list Z)
    : outcome (list (Z * option Z)) :=
  hdr ← mem_read off header_size mem;
  let ty := ih_type (header_of hdr) in
  if has_sizes ty then
    lens ← read_sizes (S (length mem)) long_bytes (off + header_size) mem;
    let pos := u32 (header_size + Z.of_nat (length lens) * Z.of_nat long_bytes) in
    Ret (list_images (bool_decide (ty = IH_TYPE_SCRIPT)) 0 pos lens)
  else Ret [].

(** The four words [print_type] prints. *)
(* @src C/upgrade_mtk/mkimage/mkimage.c:672-681 print_type *)
Definition print_type (h : image_header) : string * string * string * string :=
  (put_arch (ih_arch h), put_os (ih_os h), put_type (ih_type h), put_comp (ih_comp h)).

(** What "mkimage -l" finds: whether the header's and the data's checksum
    are right, and the contents. *)
(* @src C/upgrade_mtk/mkimage/mkimage.c:306-375 main *)
Definition list_image (long_bytes : nat) (file : list Z)
    : option (bool * bool * outcome (list (Z * option Z))) :=
  if bool_decide (u32 (Z.of_nat (length file)) < header_size) then None
  else
    let hdr := take 64 file in
    let h := header_of hdr in
    if bool_decide (ih_magic h <> IH_MAGIC) then None
    else
      let header_ok := bool_decide (crc_of (header_bytes (set_hcrc 0 h)) = ih_hcrc h) in
      let data_ok := bool_decide (crc_of (drop 64 file) = ih_dcrc h) in
      Some (header_ok, data_ok, print_header long_bytes 0 file).

(** [main], with the image file's contents before. The result is the listing
    or the new contents of the image file. *)
Inductive main_result :=
  | Listed (r : bool * bool * outcome (list (Z * option Z)))
  | Built (imagefile : string) (contents : list Z).

(* @src C/upgrade_mtk/mkimage/mkimage.c:174-513 main *)
Definition mkimage_main (long_bytes : nat) (fs : string -> option (list Z)) (mtime : Z)
    (argv : list string) : option main_result :=
  p ← parse_args (8 * Z.of_nat long_bytes) argv default_options;
  c ← check_options (8 * Z.of_nat long_bytes) p.1 p.2;
  if lflag c.1 then
    file ← fs c.2;
    Listed <$> list_image long_bytes file
  else
    Built c.2 <$> build_image long_bytes fs mtime c.1.

(** ** The header as bytes *)

Definition word (z : Z) : Prop := 0 <= z < 2 ^ 32.

Record header_wf (h : image_header) : Prop := {
  wf_magic : word (ih_magic h); wf_hcrc : word (ih_hcrc h); wf_time : word (ih_time h);
  wf_size : word (ih_size h); wf_load : word (ih_load h); wf_ep : word (ih_ep h);
  wf_dcrc : word (ih_dcrc h); wf_ksz : word (ih_ksz h);
  wf_os : byte (ih_os h); wf_arch : byte (ih_arch h); wf_type : byte (ih_type h);
  wf_comp : byte (ih_comp h);
  wf_name : length (ih_name h) = IH_NMLEN /\ Forall byte (ih_name h) }.

Lemma be_bytes4 z : exists a b c d, be_bytes 4 z = [a; b; c; d].
Proof. do 4 eexists. reflexivity. Qed.

Lemma be_value_word z : word z -> be_value (be_bytes 4 z) = z.
Proof. intros. rewrite be_value_bytes by lia. by apply Z.mod_small. Qed.

(** Take a list of known length apart. *)
Ltac list_of_length l :=
  repeat (destruct l as [|? l]; [discriminate|]); (destruct l; [|discriminate]).

(** Reading the header off its thirteen fields laid out one after another. *)
Lemma header_of_fields mg hc ti si lo en dc os ar ty co nm ks :
  length mg = 4%nat -> length hc = 4%nat -> length ti = 4%nat -> length si = 4%nat ->
  length lo = 4%nat -> length en = 4%nat -> length dc = 4%nat -> length nm = 28%nat ->
  length ks = 4%nat ->
  header_of (mg ++ hc ++ ti ++ si ++ lo ++ en ++ dc ++ [os; ar; ty; co] ++ nm ++ ks) =
  ImageHeader (be_value mg) (be_value hc) (be_value ti) (be_value si) (be_value lo)
    (be_value en) (be_value dc) os ar ty co nm (be_value ks).
Proof.
  intros. list_of_length mg. list_of_length hc. list_of_length ti. list_of_length si.
  list_of_length lo. list_of_length en. list_of_length dc. list_of_length ks.
  list_of_length nm. reflexivity.
Qed.

Lemma header_of_bytes h : header_wf h -> header_of (header_bytes h) = h.
Proof.
  intros []. destruct wf_name0 as [Hn _]. unfold header_bytes.
  rewrite header_of_fields by (apply Nat2Z.inj, be_bytes_length; lia) || done.
  rewrite !be_value_word by done. by destruct h.
Qed.

Lemma header_bytes_length h : length (ih_name h) = IH_NMLEN -> length (header_bytes h) = 64%nat.
Proof.
  intros Hn. unfold header_bytes.
  repeat match goal with |- context [be_bytes 4 ?z] =>
    destruct (be_bytes4 z) as (? & ? & ? & ? & ->) end.
  rewrite !length_app, Hn. done.
Qed.

Lemma header_bytes_byte h : header_wf h -> Forall byte (header_bytes h).
Proof.
  intros []. unfold header_bytes. destruct wf_name0.
  rewrite !Forall_app. split_and!; try (apply be_bytes_byte; lia); try done.
  by rewrite !Forall_cons.
Qed.

(** A block of 64 bytes is the image of the header it holds. *)
Lemma header_bytes_of l :
  length l = 64%nat -> Forall byte l -> header_bytes (header_of l) = l /\ header_wf (header_of l).
Proof.
  intros Hl Hb.
  assert (Hf : forall off n, Forall byte (field off n l))
    by (intros; unfold field; by apply Forall_take, Forall_drop).
  assert (Hlen : forall off, (off + 4 <= 64)%nat -> length (field off 4 l) = 4%nat)
    by (intros; unfold field; rewrite length_take, length_drop; lia).
  assert (Hw : forall off, (off + 4 <= 64)%nat ->
             be_bytes 4 (ntohl_at off l) = field off 4 l /\ word (ntohl_at off l)).
  { intros off Ho. unfold ntohl_at. split.
    - apply be_bytes_value; [|done]. by rewrite Hlen.
    - pose proof (be_value_range _ (Hf off 4%nat)) as H. by rewrite Hlen in H by done. }
  assert (Hu : forall off, (off < 64)%nat -> byte (u8_at off l)).
  { intros off Ho. unfold u8_at. rewrite Forall_forall in Hb. apply Hb.
    apply list_elem_of_In, nth_In. lia. }
  split.
  - unfold header_bytes, header_of. cbn [ih_magic ih_hcrc ih_time ih_size ih_load ih_ep
      ih_dcrc ih_os ih_arch ih_type ih_comp ih_name ih_ksz].
    repeat match goal with |- context [be_bytes 4 (ntohl_at ?o l)] =>
      rewrite (proj1 (Hw o ltac:(lia))) end.
    clear -Hl. list_of_length l. reflexivity.
  - constructor; cbn [header_of ih_magic ih_hcrc ih_time ih_size ih_load ih_ep
      ih_dcrc ih_os ih_arch ih_type ih_comp ih_name ih_ksz];
      try (apply Hw; lia); try (apply Hu; lia).
    split; [|apply Hf]. unfold field. rewrite length_take, length_drop, Hl. done.
Qed.

Lemma crc_of_word data : Forall byte data -> word (crc_of data).
Proof.
  intros. unfold crc_of. apply crc32_range; [done|]. by apply Forall_take.
Qed.

Lemma crc_of_small data : Z.of_nat (length data) < 2 ^ 32 -> crc_of data = crc32 0 data.
Proof.
  intros. unfold crc_of. rewrite wrap_small by lia. by rewrite take_ge by lia.
Qed.

(** ** The options *)

Definition options_ok (o : options) : Prop := word (addr o) /\ word (ep o) /\ word (ksz o).

Lemma word_u32 z : word (u32 z).
Proof. apply (wrap_range 32). lia. Qed.

Lemma option_arg_ok lb c arg o o' :
  options_ok o -> option_arg lb c arg o = Some o' -> options_ok o'.
Proof.
  destruct o. unfold option_arg, options_ok. simpl. intros (Ha & He & Hk). revert o'.
  destruct (strtoul16 lb arg) as [v rest].
  repeat case_match; intros; simplify_eq; simpl; auto using word_u32.
Qed.

Lemma parse_letters_ok lb cs next o r :
  options_ok o -> parse_letters lb cs next o = Some r -> options_ok r.1.
Proof.
  revert o. induction cs as [|c cs IH]; intros o Ho H; simpl in H; [by simplify_eq|].
  assert (Hgen : (arg ← next; o ← option_arg lb c arg o; Some (o, true)) = Some r ->
                 options_ok r.1).
  { clear H. intros H. destruct next as [arg|]; [|done]. simpl in H.
    destruct (option_arg lb c arg o) as [o'|] eqn:E; [|done]. simpl in H. simplify_eq.
    by eapply option_arg_ok. }
  repeat case_match; auto; (eapply IH; [|exact H]); exact Ho.
Qed.

Lemma parse_args_ok lb argv o r :
  options_ok o -> parse_args lb argv o = Some r -> options_ok r.1.
Proof.
  remember (length argv) as n eqn:Hn. revert argv o Hn.
  induction n as [n IH] using lt_wf_ind. intros argv o -> Ho H.
  destruct argv as [|[|c s] rest]; simpl in H; [by simplify_eq..|].
  assert (Hdash : (r0 ← parse_letters lb s (head rest) o;
     if r0.2 : bool then match rest with [] => None | _ :: rest => parse_args lb rest r0.1 end
     else parse_args lb rest r0.1) = Some r -> options_ok r.1).
  { clear H. intros H. destruct (parse_letters lb s (head rest) o) as [[o1 b]|] eqn:E; [|done].
    apply parse_letters_ok in E; [|done]. simpl in *. destruct b.
    - destruct rest as [|a rest]; [done|]. eapply (IH (length rest)); [| |exact E|exact H]; simpl; lia.
    - eapply (IH (length rest)); [| |exact E|exact H]; simpl; lia. }
  repeat case_match; auto; by simplify_eq.
Qed.

Lemma check_options_ok lb o argv c : options_ok o -> check_options lb o argv = Some c -> options_ok c.1.
Proof.
  intros (Ha & He & Hk). unfold check_options.
  destruct argv as [|f [|]]; try done. destruct (xorb _ _); [|done].
  case_bool_decide; [done|]. intros E. simplify_eq/=. split_and!; try done; simpl.
  destruct (eflag o); [done|]. case_bool_decide; auto using word_u32.
Qed.

(** ** The data part *)

Definition fs_bytes (fs : string -> option (list Z)) : Prop :=
  forall f c, fs f = Some c -> Forall byte c.

Lemma replicate_byte n : Forall byte (replicate n 0).
Proof. apply Forall_replicate. by unfold byte. Qed.

Lemma copy_file_bytes x file pad d :
  (forall c, file = Some c -> Forall byte c) -> copy_file x file pad = Some d -> Forall byte d.
Proof.
  intros Hb. unfold copy_file. destruct file as [[|b c]|]; try done.
  specialize (Hb _ eq_refl). revert Hb. generalize (b :: c). intros l Hl H.
  match type of H with (?m ≫= _) = _ => destruct m as [off|]; [|done] end.
  simpl in H. simplify_eq. apply Forall_app. split; [by apply Forall_drop|].
  case_match; [apply replicate_byte|constructor].
Qed.

Lemma image_data_bytes lb fs o d : fs_bytes fs -> image_data lb fs o = Some d -> Forall byte d.
Proof.
  intros Hfs. unfold image_data. case_match; [|intros H'; eapply copy_file_bytes; [|done]; by apply Hfs].
  generalize (split_at_char ":" (datafile o)). intros files.
  destruct (write_sizes lb fs files) as [sizes|] eqn:E1; [|done].
  destruct (write_files (xflag o) fs files) as [data|] eqn:E2; [|done].
  simpl. intros. simplify_eq. apply Forall_app. split.
  - clear -E1. revert sizes E1. induction files as [|f files IH]; intros sizes E; cbn [write_sizes] in E.
    + simplify_eq. apply replicate_byte.
    + destruct (fs f); [|done]. cbn [mbind option_bind] in E.
      destruct (write_sizes lb fs files); [|done]. apply (inj Some) in E as <-. unfold size_word. rewrite !Forall_app.
      split_and!; auto using replicate_byte. by apply be_bytes_byte.
  - clear -E2 Hfs. revert data E2. induction files as [|f files IH]; intros data E; simpl in E.
    + simplify_eq. constructor.
    + destruct files as [|f' files]; [eapply copy_file_bytes; [|done]; by apply Hfs|].
      destruct (copy_file (xflag o) (fs f) true) as [d1|] eqn:Ec; [|done].
      cbn [mbind option_bind] in E.
      destruct (write_files (xflag o) fs (f' :: files)) as [d2|] eqn:Ew; [|done].
      simpl in E. simplify_eq. apply Forall_app. split; [|by apply IH].
      eapply copy_file_bytes; [|done]. by apply Hfs.
Qed.

Lemma strncpy_length n src : length (strncpy n src) = n.
Proof. unfold strncpy. rewrite length_take, length_app, length_replicate. lia. Qed.

Lemma build_header_wf o t data :
  options_ok o -> Forall byte data -> header_wf (build_header o t data).
Proof.
  intros (Ha & He & Hk) Hd. unfold build_header, set_hcrc.
  assert (Hnm : length (strncpy IH_NMLEN (str_bytes (name o))) = IH_NMLEN /\
                Forall byte (strncpy IH_NMLEN (str_bytes (name o)))).
  { split; [apply strncpy_length|]. unfold strncpy.
    apply Forall_take, Forall_app. auto using str_bytes_byte, replicate_byte. }
  constructor; cbn [ih_magic ih_hcrc ih_time ih_size ih_load ih_ep
      ih_dcrc ih_os ih_arch ih_type ih_comp ih_name ih_ksz];
    auto using word_u32, byte_u8, crc_of_word; try (unfold word, IH_MAGIC; lia).
  apply crc_of_word, header_bytes_byte.
  constructor; cbn [ih_magic ih_hcrc ih_time ih_size ih_load ih_ep
      ih_dcrc ih_os ih_arch ih_type ih_comp ih_name ih_ksz];
    auto using word_u32, byte_u8, crc_of_word; unfold word, IH_MAGIC; lia.
Qed.

(** An image in two parts: its header and its data. *)
Lemma image_parts h data :
  header_wf h ->
  take 64 (header_bytes h ++ data) = header_bytes h /\
  drop 64 (header_bytes h ++ data) = data.
Proof.
  intros Hh. assert (Hl : length (header_bytes h) = 64%nat)
    by (apply header_bytes_length, Hh).
  split; [by apply take_app_exact|by apply drop_app_exact].
Qed.

Lemma list_image_built lb o t data :
  options_ok o -> Forall byte data -> Z.of_nat (length data) + 64 < 2 ^ 32 ->
  let img := header_bytes (build_header o t data) ++ data in
  list_image lb img = Some (true, true, print_header lb 0 img).
Proof.
  intros Ho Hd Hlen img. pose proof (build_header_wf o t data Ho Hd) as Hwf.
  destruct (image_parts _ data Hwf) as [Ht Hdr]. unfold list_image. fold img.
  rewrite bool_decide_eq_false_2.
  2: { unfold img. rewrite length_app, header_bytes_length by apply Hwf.
       rewrite wrap_small by lia. unfold header_size. lia. }
  unfold img. rewrite Ht, Hdr, header_of_bytes by done.
  rewrite bool_decide_eq_false_2 by (unfold build_header, set_hcrc; simpl; tauto).
  do 2 f_equal. f_equal; by apply bool_decide_eq_true_2.
Qed.

(** C30: [mkimage -l] accepts what [mkimage] builds: for every command line
    that produces an image file, listing that file finds the magic number and
    both checksums right. *)
Theorem mkimage_lists_built lb fs t argv f img :
  fs_bytes fs -> mkimage_main lb fs t argv = Some (Built f img) ->
  Z.of_nat (length img) < 2 ^ 32 ->
  exists contents, list_image lb img = Some (true, true, contents).
Proof.
  intros Hfs H Hlen. unfold mkimage_main in H.
  destruct (parse_args _ argv default_options) as [p|] eqn:Ep; [|done]. cbn [mbind option_bind] in H.
  destruct (check_options _ p.1 p.2) as [c|] eqn:Ec; [|done]. cbn [mbind option_bind] in H.
  assert (Ho : options_ok c.1).
  { eapply check_options_ok, Ec. eapply parse_args_ok, Ep. by repeat split. }
  destruct (lflag c.1).
  { destruct (fs c.2); [|done]. simpl in H. destruct (list_image lb l); done. }
  unfold build_image in H. destruct (image_data lb fs c.1) as [data|] eqn:Ed; [|done].
  change (Some (Built c.2 (header_bytes (build_header c.1 t data) ++ data)) = Some (Built f img)) in H.
  assert (img = header_bytes (build_header c.1 t data) ++ data) as -> by congruence.
  pose proof (image_data_bytes _ _ _ _ Hfs Ed) as Hb.
  eexists. apply list_image_built; try done.
  rewrite length_app, header_bytes_length in Hlen by (by apply build_header_wf). lia.
Qed.

(** ** Images of several files *)

#[local] Arguments size_word : simpl never.

(** [size] rounded up to a multiple of four. *)
Definition round4 (n : Z) : Z := (n + 3) / 4 * 4.

Definition len (c : list Z) : Z := Z.of_nat (length c).

Definition sum_round4 (cs : list (list Z)) : Z :=
  foldr (fun c acc => round4 (len c) + acc) 0 cs.

(** Where the data of file [i] starts in an image of the files [cs]. *)
Definition image_offset (lb : nat) (cs : list (list Z)) (i : nat) : Z :=
  header_size + (len (concat (map (fun c => size_word lb (len c)) cs)) + Z.of_nat lb) +
  sum_round4 (take i cs).

Lemma sum_round4_nonneg cs : 0 <= sum_round4 cs.
Proof. induction cs as [|c cs IH]; simpl; [done|]. unfold round4, len. dlia. Qed.

Lemma land_lnot3 x : Z.land x (Z.lnot 3) = x / 4 * 4.
Proof.
  rewrite <- Z.ldiff_land. change 3 with (Z.ones 2). rewrite Z.ldiff_ones_r by lia.
  by rewrite Z.shiftl_mul_pow2, Z.shiftr_div_pow2 by lia.
Qed.

Lemma ntohl_size_word lb n :
  word n -> ntohl (little_endian_to_Z 8 (size_word lb n)) = n.
Proof.
  intros Hn. unfold ntohl, size_word. rewrite le_app_zeros.
  pose proof (be_bytes_byte 4 n ltac:(lia)) as Hb.
  pose proof (little_endian_to_Z_bound 8 (be_bytes 4 n) ltac:(lia) Hb) as Hr.
  rewrite be_bytes_length in Hr by lia. rewrite wrap_small by done.
  rewrite Z_to_little_endian_to_Z; [|by rewrite be_bytes_length|lia|done].
  by apply be_value_word.
Qed.

Lemma size_word_length lb n : (4 <= lb)%nat -> length (size_word lb n) = lb.
Proof.
  intros. unfold size_word. rewrite length_app, length_replicate.
  pose proof (be_bytes_length 4 n ltac:(lia)). lia.
Qed.

Lemma size_words_length lb (cs : list (list Z)) :
  (4 <= lb)%nat ->
  length (concat (map (fun c => size_word lb (len c)) cs)) = (length cs * lb)%nat.
Proof.
  intros. induction cs as [|c cs IH]; cbn [map concat length]; [done|].
  rewrite length_app, size_word_length, IH by done. lia.
Qed.

Lemma write_sizes_files lb fs files cs :
  Forall2 (fun f c => fs f = Some c) files cs ->
  write_sizes lb fs files =
  Some (concat (map (fun c => size_word lb (len c)) cs) ++ replicate lb 0).
Proof.
  induction 1 as [|f c files cs Hf _ IH]; [done|]. cbn [write_sizes].
  rewrite Hf. cbn [mbind option_bind]. rewrite IH. cbn [mbind option_bind map concat].
  by rewrite app_assoc.
Qed.

Lemma read_sizes_words lb pre cs post fuel :
  (4 <= lb)%nat -> Forall (fun c => 0 < len c < 2 ^ 32) cs -> (length cs < fuel)%nat ->
  read_sizes fuel lb (len pre)
    (pre ++ concat (map (fun c => size_word lb (len c)) cs) ++ replicate lb 0 ++ post) =
  Ret (map (fun c => little_endian_to_Z 8 (size_word lb (len c))) cs).
Proof.
  intros Hlb Hcs. revert pre fuel.
  induction Hcs as [|c cs Hc _ IH]; intros pre fuel Hf; destruct fuel as [|fuel]; try (simpl in Hf; lia);
    cbn [read_sizes map concat].
  - rewrite app_nil_l, (mem_read_app pre (replicate lb 0) post)
      by (done || by rewrite length_replicate). run.
    pose proof (le_app_zeros [] lb) as E0. simpl in E0. by rewrite E0.
  - rewrite <- app_assoc, (mem_read_app pre (size_word lb (len c)))
      by (done || by rewrite size_word_length). run.
    rewrite bool_decide_eq_false_2.
    2: { intros E. pose proof (ntohl_size_word lb (len c)) as H.
         rewrite E in H. cbv [ntohl] in H. change (be_value _) with 0 in H.
         unfold word in H. lia. }
    rewrite app_assoc.
    replace (len pre + Z.of_nat lb) with (len (pre ++ size_word lb (len c)))
      by (unfold len; rewrite length_app, size_word_length by done; lia).
    rewrite IH by (simpl in Hf; lia). done.
Qed.

Lemma copy_file_plain f c pad :
  f = Some c -> c <> [] ->
  copy_file 0 f pad =
  Some (c ++ if pad then replicate (Z.to_nat (round4 (len c) - len c)) 0 else []).
Proof.
  intros -> Hc. unfold copy_file. destruct c as [|b c]; [done|]. fold (len (b :: c)).
  rewrite bool_decide_eq_false_2 by lia. cbn [mbind option_bind]. rewrite drop_0.
  fold (len (b :: c)). do 2 f_equal. destruct pad; [|done]. simpl andb.
  unfold round4. case_bool_decide; [f_equal; dlia|].
  replace (Z.to_nat ((len (b :: c) + 3) / 4 * 4 - len (b :: c))) with 0%nat by dlia. done.
Qed.

(** Each file's data is in its place, behind the padded ones before it. *)
Lemma write_files_at fs files cs :
  Forall2 (fun f c => fs f = Some c) files cs -> Forall (fun c => 0 < len c) cs ->
  exists data, write_files 0 fs files = Some data /\
    forall i c, cs !! i = Some c ->
      sum_round4 (take i cs) + len c <= len data /\
      take (length c) (drop (Z.to_nat (sum_round4 (take i cs))) data) = c.
Proof.
  induction 1 as [|f c files cs Hf Hfs IH]; intros Hc; [by exists []|].
  inversion_clear Hc as [|? ? Hc1 Hcs].
  assert (Hne : c <> []) by (intros ->; by unfold len in Hc1).
  destruct (IH Hcs) as (data & Hd & Hat).
  destruct files as [|f' files].
  - inversion Hfs; subst. exists c. cbn [write_files].
    rewrite (copy_file_plain _ c) by done. rewrite app_nil_r. split; [done|].
    intros [|i] c' Hi; [|by destruct i]. simpl in Hi. simplify_eq. simpl.
    split; [lia|]. by rewrite drop_0, take_ge.
  - pose proof (copy_file_plain (fs f) c true Hf Hne) as Hcp. simpl in Hcp.
    set (d := c ++ replicate (Z.to_nat (round4 (len c) - len c)) 0) in *.
    assert (Hr : 0 <= round4 (len c) - len c) by (unfold round4; dlia).
    assert (Hl : length d = Z.to_nat (round4 (len c))).
    { unfold d. rewrite length_app, length_replicate. unfold len in *. lia. }
    exists (d ++ data).
    change (write_files 0 fs (f :: f' :: files)) with
      (d ← copy_file 0 (fs f) true; rest ← write_files 0 fs (f' :: files); Some (d ++ rest)).
    rewrite Hcp. cbn [mbind option_bind]. rewrite Hd. split; [done|]. intros [|i] c' Hi.
    + simpl in Hi. simplify_eq. simpl. rewrite drop_0. unfold d, len. rewrite !length_app.
      split; [lia|]. by rewrite <- app_assoc, take_app_length.
    + destruct (Hat i c' Hi) as [H1 H2]. cbn [take sum_round4 foldr]. fold (sum_round4 (take i cs)).
      pose proof (sum_round4_nonneg (take i cs)).
      unfold len in *. rewrite length_app, Hl. split; [lia|].
      etrans; [|exact H2]. f_equal. rewrite drop_app_ge by lia. f_equal. lia.
Qed.

Lemma list_images_lookup lb script cs pos k i c :
  cs !! i = Some c -> Forall (fun c => 0 < len c < 2 ^ 32) cs ->
  0 <= pos -> 0 <= k -> pos + sum_round4 (take i cs) + len c < 2 ^ 32 ->
  Forall (fun c => len c + 3 < 2 ^ 32) (take i cs) ->
  list_images script k pos (map (fun c => little_endian_to_Z 8 (size_word lb (len c))) cs) !! i =
  Some (len c, if script && bool_decide (k + Z.of_nat i > 0)
               then Some (pos + sum_round4 (take i cs)) else None).
Proof.
  revert i pos k. induction cs as [|c0 cs IH]; intros i pos k Hi Hcs Hp Hk Hlt Hs; [by destruct i|].
  inversion_clear Hcs as [|? ? Hc0 Hcs']. cbn [map list_images].
  rewrite ntohl_size_word by (unfold word; lia).
  destruct i as [|i].
  - simpl in Hi. simplify_eq. simpl. by rewrite !Z.add_0_r.
  - cbn [lookup list_lookup]. simpl in Hi, Hlt, Hs. inversion_clear Hs as [|? ? Hs0 Hs'].
    fold (sum_round4 (take i cs)) in *.
    pose proof (sum_round4_nonneg (take i cs)) as Hnn.
    rewrite (wrap_small 32 (len c0 + 3)), land_lnot3 by lia. fold (round4 (len c0)).
    assert (0 <= round4 (len c0)) by (unfold round4; dlia).
    assert (0 <= len c) by (unfold len; lia).
    rewrite wrap_small by lia. change (?l !! ?n) with (lookup (M := list _) n l).
    rewrite (IH i) by (done || lia).
    do 2 f_equal. replace (k + 1 + Z.of_nat i) with (k + Z.of_nat (S i)) by lia.
    case_match; [|done]. f_equal. simpl. fold (sum_round4 (take i cs)). lia.
Qed.

(** What [mkimage] prints about a multi-file image it builds: the listing
    gives the exact size of every file in order; the data of file [i] stands
    at [image_offset], after the header, the size list with its closing zero
    and the padded files before it; and the offset printed for a script's
    later files is short of that place by the one [long] of the closing
    zero. *)
Theorem mkimage_multi_listing lb fs t o img cs :
  (4 <= lb)%nat -> options_ok o -> fs_bytes fs ->
  opt_type o = IH_TYPE_MULTI \/ opt_type o = IH_TYPE_SCRIPT -> xflag o = 0 ->
  Forall2 (fun f c => fs f = Some c) (split_at_char ":" (datafile o)) cs ->
  Forall (fun c => 0 < len c) cs ->
  build_image lb fs t o = Some img -> len img < 2 ^ 32 ->
  exists ls, print_header lb 0 img = Ret ls /\
    forall i c, cs !! i = Some c ->
      ls !! i = Some (len c,
        if bool_decide (opt_type o = IH_TYPE_SCRIPT) && bool_decide (Z.of_nat i > 0)
        then Some (image_offset lb cs i - Z.of_nat lb) else None) /\
      take (length c) (drop (Z.to_nat (image_offset lb cs i)) img) = c.
Proof.
  intros Hlb Ho Hfs Hty Hx Hcs Hne Hbuild Hlen.
  assert (Hd : exists data, image_data lb fs o = Some data /\
    img = header_bytes (build_header o t data) ++ data).
  { unfold build_image in Hbuild. destruct (image_data lb fs o) as [data|]; [|done].
    exists data. split; [done|]. by apply (inj Some) in Hbuild. }
  destruct Hd as (data & Hd & ->). clear Hbuild.
  pose proof (image_data_bytes _ _ _ _ Hfs Hd) as Hdb.
  pose proof (build_header_wf o t data Ho Hdb) as Hwf.
  assert (Hhl : length (header_bytes (build_header o t data)) = 64%nat)
    by (apply header_bytes_length, Hwf).
  unfold image_data in Hd. unfold has_sizes in Hd. rewrite bool_decide_eq_true_2 in Hd by done.
  rewrite (write_sizes_files _ _ _ _ Hcs), Hx in Hd.
  destruct (write_files_at _ _ _ Hcs Hne) as (body & Hw & Hat). rewrite Hw in Hd.
  apply (inj Some) in Hd. rewrite <- app_assoc in Hd.
  set (hb := header_bytes (build_header o t data)) in *.
  set (words := concat (map (fun c => size_word lb (len c)) cs)) in *.
  assert (Hty' : ih_type (header_of hb) = opt_type o).
  { unfold hb. rewrite header_of_bytes by done. unfold build_header, set_hcrc. cbn [ih_type].
    destruct Hty as [-> | ->]; reflexivity. }
  assert (Hlen' : len hb + len words + Z.of_nat lb + len body < 2 ^ 32).
  { unfold len in *. rewrite length_app, <- Hd, !length_app, length_replicate in Hlen. lia. }
  assert (Hwl : len words = Z.of_nat (length cs) * Z.of_nat lb).
  { unfold words, len. rewrite size_words_length by done. lia. }
  assert (Hhb : len hb = header_size) by (unfold len; by rewrite Hhl).
  assert (Hall : Forall (fun c => 0 < len c < 2 ^ 32 - 3) cs).
  { apply Forall_lookup. intros i c Hi. destruct (Hat i c Hi) as [H1 _].
    rewrite Forall_lookup in Hne. specialize (Hne i c Hi).
    pose proof (sum_round4_nonneg (take i cs)). unfold header_size, len in *. lia. }
  assert (Hall' : Forall (fun c => 0 < len c < 2 ^ 32) cs)
    by (eapply Forall_impl; [exact Hall|]; simpl; lia).
  subst data. unfold print_header.
  rewrite (mem_read_prefix hb) by (by rewrite <- Hhb). run.
  unfold has_sizes. rewrite Hty', (bool_decide_eq_true_2 (_ \/ _)) by done.
  unfold words. rewrite Z.add_0_l, <- Hhb, read_sizes_words; [| done | done |].
  2: { rewrite !length_app, size_words_length by done. unfold len in *. nia. }
  fold words. run. eexists. split; [done|]. intros i c Hi. rewrite length_map.
  destruct (Hat i c Hi) as [H1 H2]. pose proof (sum_round4_nonneg (take i cs)).
  assert (Hc0 : 0 < len c) by (rewrite Forall_lookup in Hne; by eapply Hne).
  unfold image_offset. fold words. rewrite <- Hhb.
  rewrite (wrap_small 32) by (unfold header_size, len in *; lia). split.
  - rewrite (list_images_lookup _ _ _ _ _ _ _ Hi) by
      (done || (unfold header_size, len in *; lia) ||
       (apply Forall_take; eapply Forall_impl; [exact Hall|]; simpl; lia)).
    rewrite Z.add_0_l. do 2 f_equal. case_match; [f_equal; lia|done].
  - etrans; [|exact H2]. f_equal.
    replace (Z.to_nat _) with (length hb + (length words + (lb + Z.to_nat (sum_round4 (take i cs)))))%nat
      by (unfold len in *; lia).
    rewrite <- !drop_drop, !drop_app_length. f_equal. apply drop_app_exact.
    by rewrite length_replicate.
Qed.

(** ** The tables of names *)

Lemma lower_lower s : lower (lower s) = lower s.
Proof.
  induction s as [|c s IH]; simpl; [done|]. rewrite IH. f_equal.
  by destruct c as [[] [] [] [] [] [] [] []].
Qed.

(** In each of the four tables a short name, in upper or lower case,
    stands for one code, and that code is printed under the entry's long name;
    so what [-A], [-O], [-T] and [-C] store is what the listing shows. *)
Theorem table_names_roundtrip table e s n msg :
  table ∈ [arch_name; os_name; type_name; comp_name] ->
  e ∈ table -> sname e = Some s -> strcasecmp_eq s n = true ->
  get_table_entry table n = val e /\ put_table_entry table msg (val e) = lname e.
Proof.
  intros Ht He Hs Hn. apply bool_decide_eq_true_1 in Hn.
  assert (Hg : get_table_entry table n = get_table_entry table s).
  { unfold get_table_entry, strcasecmp_eq. by rewrite Hn. }
  rewrite Hg. clear Hg Hn.
  assert (H : Forall (fun e => forall s, sname e = Some s ->
    get_table_entry table s = val e /\ put_table_entry table msg (val e) = lname e) table).
  { repeat (apply elem_of_cons in Ht as [-> | Ht]); [| | | |by apply elem_of_nil in Ht];
      repeat (apply Forall_cons_2;
        [intros s' Hs'; simpl in Hs'; simplify_eq; by vm_compute|]); by apply Forall_nil_2. }
  rewrite Forall_forall in H. by apply H.
Qed.

(** ** Witnesses *)

Definition demo_fs (f : string) : option (list Z) :=
  if bool_decide (f = "vmlinux") then Some [1; 2; 3; 4; 5]
  else if bool_decide (f = "rootfs") then Some [6; 7]
  else None.

Definition demo_argv : list string :=
  ["-A"; "mips"; "-O"; "linux"; "-vT"; "kernel"; "-C"; "lzma"; "-a"; "0x80000000";
   "-n"; "Linux Kernel"; "-d"; "vmlinux"; "uImage"].

Definition demo_image : list Z :=
  match mkimage_main 8 demo_fs 0x53000000 demo_argv with
  | Some (Built _ img) => img
  | _ => []
  end.

Lemma demo_fs_bytes : fs_bytes demo_fs.
Proof.
  intros f c. unfold demo_fs. repeat case_bool_decide; intros; simplify_eq;
    repeat constructor; unfold byte; lia.
Qed.

Lemma mkimage_lists_built_witness :
  exists contents, list_image 8 demo_image = Some (true, true, contents).
Proof.
  apply (mkimage_lists_built 8 demo_fs 0x53000000 demo_argv "uImage" demo_image demo_fs_bytes).
  - vm_compute. reflexivity.
  - vm_compute. reflexivity.
Defined.

Definition demo_script : options :=
  Options "vmlinux:rootfs" true false false 0 0 5 5 IH_TYPE_SCRIPT 0 0 0 0 "boot".

Lemma mkimage_multi_listing_witness :
  exists img ls, build_image 4 demo_fs 0 demo_script = Some img /\ print_header 4 0 img = Ret ls /\
    ls !! 1%nat = Some (2, Some (image_offset 4 [[1; 2; 3; 4; 5]; [6; 7]] 1 - 4)) /\
    take 2 (drop (Z.to_nat (image_offset 4 [[1; 2; 3; 4; 5]; [6; 7]] 1)) img) = [6; 7].
Proof.
  destruct (build_image 4 demo_fs 0 demo_script) as [img|] eqn:E; [|vm_compute in E; discriminate].
  exists img.
  destruct (mkimage_multi_listing 4 demo_fs 0 demo_script img [[1; 2; 3; 4; 5]; [6; 7]])
    as (ls & Hp & Hls).
  - lia.
  - repeat split; vm_compute; congruence.
  - exact demo_fs_bytes.
  - right. reflexivity.
  - reflexivity.
  - repeat constructor; reflexivity.
  - repeat constructor; reflexivity.
  - exact E.
  - vm_compute in E. apply (inj Some) in E. subst img. vm_compute. reflexivity.
  - exists ls. split; [done|]. split; [done|].
    destruct (Hls 1%nat [6; 7] eq_refl) as [H1 H2]. split; [exact H1|exact H2].
Defined.

Lemma table_names_roundtrip_witness :
  get_table_entry arch_name "MIPS" = 5 /\ put_table_entry arch_name "?" 5 = "MIPS".
Proof.
  apply (table_names_roundtrip arch_name (Entry 5 (Some "mips") "MIPS") "mips" "MIPS" "?").
  - apply elem_of_cons. by left.
  - unfold arch_name. repeat (apply elem_of_cons; (by left) || right).
  - reflexivity.
  - vm_compute. reflexivity.
Defined.
