(* ===== verification/Upgrade.v ===== *)
(** * Firmware upgrade: check, erase, burn

    [C/upgrade_mtk/test_burn_img.c]: the magic number of the outer header, the
    two checksums of the boot image behind it, erasing the partition and
    copying the file to it. *)

From S2P Require Import Prelude Crc32 Mtd Mkimage.

(* @src C/upgrade_mtk/test_burn_img.c:13-13 IMG_MAGIC *)
Definition IMG_MAGIC : Z := 0x00474D49.
(* @src C/upgrade_mtk/test_burn_img.c:14-14 APP_MAGIC *)
Definition APP_MAGIC : Z := 0x00505041.
(* @src C/upgrade_mtk/test_burn_img.c:15-15 XL_ROM_MAGIC *)
Definition XL_ROM_MAGIC : Z := 0x004c4c41.

(** [sizeof(struct img_header)] *)
Definition img_header_size : Z := 64.

(** The result and what is stored through [pnType]; a file is [None] when it
    cannot be opened. *)
(* @src C/upgrade_mtk/test_burn_img.c:92-157 check_img_file *)
Definition check_img_file (upload_file : option (list Z)) : Z * option Z :=
  match upload_file with
  | None => (-1, None)
  | Some f =>
      if bool_decide (Z.of_nat (length f) < img_header_size) then (-1, None)
      else
        let nMagicNo := little_endian_to_Z 8 (take 4 f) in
        if bool_decide (nMagicNo = IMG_MAGIC) then (0, Some 0)
        else if bool_decide (nMagicNo = APP_MAGIC) then (0, Some 1)
        else if bool_decide (nMagicNo = XL_ROM_MAGIC) then (0, Some 2)
        else (-1, None)
  end.

(** A file as [mmap] shows it: its last page is filled up with zeros. *)
Definition mapped (f : list Z) : list Z :=
  f ++ replicate (Z.to_nat ((- Z.of_nat (length f)) `mod` 4096)) 0.

(** [checksum] is an [int], so the comparison with the [unsigned long] of
    [crc32] extends its sign. A file that cannot be opened ends in [munmap] of a
    pointer that was never set. *)
(* @src C/upgrade_mtk/test_burn_img.c:187-270 caculate_crc_file *)
Definition caculate_crc_file (long_bytes : nat) (datafile : option (list Z)) : outcome Z :=
  match datafile with
  | None => Fault OutOfBounds
  | Some [] => Ret (-3)
  | Some f =>
      let ptr := mapped f in
      let offset := img_header_size in
      hdr ← mem_read offset header_size ptr;
      let h := header_of hdr in
      if bool_decide (ih_magic h <> IH_MAGIC) then Ret (-4)
      else
        let checksum := s32 (ih_hcrc h) in
        if bool_decide (crc32 0 (header_bytes (set_hcrc 0 h))
                        <> wrap (8 * Z.of_nat long_bytes) checksum) then Ret (-5)
        else
          let len := Z.of_nat (length f) - offset - header_size in
          data ← mem_read (offset + header_size) (u32 len) ptr;
          if bool_decide (crc32 0 data <> ih_dcrc h) then Ret (-6)
          else
            _ ← print_header long_bytes offset ptr;
            Ret 0
  end.

(** What reaches the flash partition. *)
Inductive burn_event : Set :=
  | Erased (calls : list mtd_call)
  | Written (data : list Z).

(** Both [fopen]s come first. One round of the loop per 1024 bytes; the
    result is the list of the blocks written. *)
(* @src C/upgrade_mtk/test_burn_img.c:371-388 burn_data *)
Fixpoint burn_loop (fuel : nat) (infile : list Z) : outcome (list burn_event) :=
  match fuel with
  | O => Fault OutOfFuel
  | S fuel =>
      match take 1024 infile with
      | [] => Ret []
      | buf =>
          rest ← burn_loop fuel (drop 1024 infile);
          Ret (Written buf :: rest)
      end
  end.

(* @src C/upgrade_mtk/test_burn_img.c:338-393 burn_data *)
Definition burn_data (device_opens : bool) (src : option (list Z)) (nType : Z)
    : outcome (Z * list burn_event) :=
  match src with
  | Some f =>
      if device_opens then
        let infile := if bool_decide (2 = nType) then drop (Z.to_nat img_header_size) f else f in
        ev ← burn_loop (S (length f)) infile;
        Ret (0, ev)
      else Ret (-2, [])
  | None => Ret (-2, [])
  end.

(* @src C/upgrade_mtk/test_burn_img.c:328-335 burn_file_to_mtd *)
Definition burn_file_to_mtd := burn_data.

(** [main] with one argument, the contents of the file it names. *)
(* @src C/upgrade_mtk/test_burn_img.c:27-84 main *)
Definition upgrade_main `{MtdDriver} (long_bytes : nat) (device_opens : bool)
    (file : option (list Z)) : outcome (Z * list burn_event) :=
  let '(nRet, nType) := check_img_file file in
  match nType with
  | None => Ret (-1, [])
  | Some nType =>
      if bool_decide (nRet <> 0) then Ret (-1, []) else
      nRet ← caculate_crc_file long_bytes file;
      if bool_decide (nRet <> 0) then Ret (-2, [])
      else
        er ← erase_block "/dev/mtdblock4" 0 0xFFFFFFFF;
        if bool_decide (er.1 <> 0) then Ret (er.1, [Erased er.2])
        else
          b ← burn_file_to_mtd device_opens file nType;
          if bool_decide (b.1 = 0) then Ret (0, Erased er.2 :: b.2)
          else Ret (-3, Erased er.2 :: b.2)
  end.

(** ** The copy *)

Lemma burn_loop_all fuel infile :
  (length infile < fuel)%nat ->
  exists blocks, burn_loop fuel infile = Ret (map Written blocks) /\ concat blocks = infile /\
    Forall (fun d => 0 < len d <= 1024) blocks.
Proof.
  revert infile. induction fuel as [|fuel IH]; intros infile Hf; [lia|].
  cbn [burn_loop]. destruct (take 1024 infile) as [|b l] eqn:E.
  - assert (Hl : length (take 1024 infile) = 0%nat) by (by rewrite E).
    rewrite length_take in Hl. destruct infile; [|simpl in Hl; lia].
    by exists [].
  - assert (Hl : length (take 1024 infile) = S (length l)) by (by rewrite E).
    destruct (IH (drop 1024 infile)) as (blocks & -> & Hw & Hev).
    { rewrite length_drop. rewrite length_take in Hl. lia. }
    run. exists ((b :: l) :: blocks). split; [done|]. split.
    + cbn [concat]. rewrite Hw, <- E. apply take_drop.
    + constructor; [|done]. unfold len. rewrite length_take in Hl. simpl. lia.
Qed.

(** A file without a known magic number is refused. *)
Lemma check_img_file_cases file :
  (exists n, check_img_file file = (n, None)) \/
  exists f ty, file = Some f /\ check_img_file file = (0, Some ty).
Proof.
  unfold check_img_file. destruct file as [f|]; [|left; by eexists].
  repeat case_bool_decide; solve [left; by eexists | right; by eexists _, _].
Qed.

(** ** The check of an image *)

Lemma mapped_app f : exists pad, mapped f = f ++ pad.
Proof. by eexists. Qed.

(** What [caculate_crc_file] finds in a file that holds a header and data
    behind the outer header. *)
Lemma caculate_crc_file_parts lb pre h data :
  header_wf h -> len pre = img_header_size -> len data < 2 ^ 32 - 128 ->
  caculate_crc_file lb (Some (pre ++ header_bytes h ++ data)) =
  if bool_decide (ih_magic h <> IH_MAGIC) then Ret (-4)
  else if bool_decide (crc32 0 (header_bytes (set_hcrc 0 h))
                       <> wrap (8 * Z.of_nat lb) (s32 (ih_hcrc h))) then Ret (-5)
  else if bool_decide (crc32 0 data <> ih_dcrc h) then Ret (-6)
  else _ ← print_header lb img_header_size (mapped (pre ++ header_bytes h ++ data)); Ret 0.
Proof.
  intros Hwf Hpre Hlen. unfold caculate_crc_file.
  assert (Hhl : length (header_bytes h) = 64%nat) by (apply header_bytes_length, Hwf).
  destruct (mapped_app (pre ++ header_bytes h ++ data)) as [pad Hm].
  destruct (pre ++ header_bytes h ++ data) as [|b f] eqn:E.
  { destruct pre; [done|discriminate]. }
  rewrite <- E in *. rewrite Hm, <- !app_assoc.
  rewrite (mem_read_app pre (header_bytes h) _ img_header_size header_size) by (by rewrite <- ?Hpre, ?Hhl). run.
  rewrite header_of_bytes by done. case_match; [done|]. case_match; [done|].
  replace (u32 _) with (len data).
  2: { rewrite !length_app, Hhl. unfold len, img_header_size, header_size in *.
       rewrite wrap_small; lia. }
  rewrite (app_assoc pre), (mem_read_app (pre ++ header_bytes h) data); [|
    rewrite length_app, Hhl; unfold len, img_header_size, header_size in *; lia|done].
  run. by rewrite <- app_assoc.
Qed.

(** A checksum held in an [int] and compared as an [unsigned long]. *)
Lemma checksum_compare lb c :
  (4 <= lb)%nat -> word c ->
  c <> wrap (8 * Z.of_nat lb) (s32 c) <-> ~ (c < 2 ^ 31 \/ lb = 4%nat).
Proof.
  unfold word. intros Hlb Hw. destruct (decide (c < 2 ^ 31)) as [Hs|Hs].
  - rewrite (swrap_small 32) by lia. rewrite wrap_small; [tauto|].
    split; [lia|]. eapply Z.lt_le_trans; [apply Hs|]. apply Z.pow_le_mono_r; lia.
  - assert (Es : s32 c = c - 2 ^ 32) by (cint; dlia). rewrite Es.
    destruct (decide (lb = 4%nat)) as [->|Hne].
    + change (8 * Z.of_nat 4) with 32. split; [intros []; cint; dlia|tauto].
    + assert (2 ^ 33 <= 2 ^ (8 * Z.of_nat lb)) by (apply Z.pow_le_mono_r; lia).
      assert (Ew : wrap (8 * Z.of_nat lb) (c - 2 ^ 32) = c - 2 ^ 32 + 2 ^ (8 * Z.of_nat lb)).
      { unfold wrap. rewrite <- (Z.mod_add _ 1), Z.mul_1_l by lia. apply Z.mod_small. lia. }
      rewrite Ew. split; [tauto|intros _; lia].
Qed.

(** The checksums of a header [build_header] made are right. *)
Lemma build_header_crcs o t data :
  len data < 2 ^ 31 ->
  crc32 0 (header_bytes (set_hcrc 0 (build_header o t data))) = ih_hcrc (build_header o t data) /\
  crc32 0 data = ih_dcrc (build_header o t data).
Proof.
  intros Hl. split.
  - unfold build_header, set_hcrc. cbn [ih_hcrc ih_magic ih_time ih_size ih_load ih_ep
      ih_dcrc ih_os ih_arch ih_type ih_comp ih_name ih_ksz].
    symmetry. apply crc_of_small. rewrite header_bytes_length; [done|]. apply strncpy_length.
  - symmetry. apply (crc_of_small data). unfold len in Hl. lia.
Qed.

(** Nothing is printed about the contents of an image without a size list. *)
Lemma print_header_plain lb pre h rest :
  header_wf h -> has_sizes (ih_type h) = false ->
  print_header lb (len pre) (pre ++ header_bytes h ++ rest) = Ret [].
Proof.
  intros Hwf Hs. unfold print_header.
  rewrite (mem_read_app pre (header_bytes h)); [|done|by rewrite header_bytes_length by apply Hwf].
  run. by rewrite header_of_bytes, Hs.
Qed.

(** C34: The checker accepts what [mkimage] builds (image types without a size
    list) behind any outer header, exactly if the header's own checksum is
    below 2^31 or [long] has 32 bits. With a 64-bit [long] every other image
    is refused with -5, although its checksum is right: [int checksum] extends
    its sign. *)
Theorem upgrade_accepts_mkimage lb fs t o pre img :
  (4 <= lb)%nat -> options_ok o -> fs_bytes fs ->
  (u8 (opt_type o) <> IH_TYPE_MULTI /\ u8 (opt_type o) <> IH_TYPE_SCRIPT) ->
  build_image lb fs t o = Some img -> len pre = img_header_size -> len img < 2 ^ 31 ->
  caculate_crc_file lb (Some (pre ++ img)) =
    Ret (if bool_decide (ih_hcrc (header_of (take 64 img)) < 2 ^ 31 \/ lb = 4%nat) then 0 else -5).
Proof.
  intros Hlb Ho Hfs Hty Hb Hpre Hlen. unfold build_image in Hb.
  destruct (image_data lb fs o) as [data|] eqn:Ed; [|done]. apply (inj Some) in Hb. subst img.
  pose proof (image_data_bytes _ _ _ _ Hfs Ed) as Hdb.
  pose proof (build_header_wf o t data Ho Hdb) as Hwf.
  set (h := build_header o t data) in *.
  assert (Hhl : length (header_bytes h) = 64%nat) by (apply header_bytes_length, Hwf).
  assert (Hdl : len data < 2 ^ 31) by (unfold len in *; rewrite length_app in Hlen; lia).
  rewrite caculate_crc_file_parts by (done || lia).
  rewrite (proj1 (image_parts h data Hwf)), header_of_bytes by done.
  rewrite (bool_decide_eq_false_2 (ih_magic h <> IH_MAGIC)) by (unfold h, build_header; simpl; tauto).
  destruct (build_header_crcs o t data Hdl) as [Hh Hd]. fold h in Hh, Hd.
  rewrite Hh, Hd, (bool_decide_eq_false_2 (ih_dcrc h <> ih_dcrc h)) by tauto.
  destruct (mapped_app (pre ++ header_bytes h ++ data)) as [pad ->].
  rewrite <- !app_assoc, <- Hpre, print_header_plain.
  2: done.
  2: { apply bool_decide_eq_false_2. unfold h, build_header, set_hcrc. cbn [ih_type]. tauto. }
  run. pose proof (checksum_compare lb (ih_hcrc h) Hlb (wf_hcrc _ Hwf)) as Hcmp.
  destruct (decide (ih_hcrc h < 2 ^ 31 \/ lb = 4%nat)) as [Hyes|Hno].
  - rewrite bool_decide_eq_false_2 by tauto. by rewrite bool_decide_eq_true_2.
  - rewrite bool_decide_eq_true_2 by tauto. by rewrite bool_decide_eq_false_2.
Qed.

(** Corruption is caught: when the checker accepts a file, then a file that
    differs from it inside four (or fewer) consecutive bytes of the data is
    refused with -6. *)
Theorem upgrade_detects_burst lb pre h a x y b :
  header_wf h -> len pre = img_header_size ->
  len (a ++ x ++ b) < 2 ^ 32 - 128 ->
  Forall byte a -> Forall byte x -> Forall byte y -> Forall byte b ->
  length x = length y -> (length x <= 4)%nat -> x <> y ->
  caculate_crc_file lb (Some (pre ++ header_bytes h ++ a ++ x ++ b)) = Ret 0 ->
  caculate_crc_file lb (Some (pre ++ header_bytes h ++ a ++ y ++ b)) = Ret (-6).
Proof.
  intros Hwf Hpre Hlen Ha Hx Hy Hb Hl H4 Hne H.
  assert (Hlen' : len (a ++ y ++ b) = len (a ++ x ++ b)) by (unfold len; by rewrite !length_app, Hl).
  rewrite caculate_crc_file_parts in * by (done || lia).
  case_bool_decide; [done|]. case_bool_decide; [done|].
  case_bool_decide as Hd; [done|]. rewrite bool_decide_eq_true_2; [done|].
  intros E. rewrite <- Hd in E. symmetry in E.
  by apply crc32_burst_neq in E.
Qed.

(** ** The whole upgrade *)

(** C28: Every way in which [main] can end. Either a check has refused the file,
    then nothing reaches the flash and the result is -1, for the magic number, or
    -2, for [caculate_crc_file]; or both checks have accepted it and [erase_block]
    was called for the whole device. If that fails or the device cannot be opened
    again, nothing is written, and the result is that of [erase_block] or -3.
    Otherwise the result is 0, and only then: the calls of the driver were the
    erases of the whole device, and after them the partition received, in blocks of
    at most 1024 bytes, exactly the file, less the outer header for type 2 (XL_ROM)
    only. [device_erases] is one erase for every block if the driver reports no
    erase regions and answers [MEMGETINFO]; otherwise there is no erase at all
    before the image is written. *)
Theorem upgrade_main_safe `{MtdDriver} lb opens file r ev :
  upgrade_main lb opens file = Ret (r, ev) ->
  (ev = [] /\ (r = -1 /\ (check_img_file file).2 = None \/
               r = -2 /\ exists n, caculate_crc_file lb file = Ret n /\ n <> 0)) \/
  exists f ty er,
    file = Some f /\ check_img_file file = (0, Some ty) /\ caculate_crc_file lb file = Ret 0 /\
    erase_block "/dev/mtdblock4" 0 0xFFFFFFFF = Ret er /\
    ((er.1 <> 0 /\ r = er.1 \/ er.1 = 0 /\ opens = false /\ r = -3) /\ ev = [Erased er.2] \/
     er.1 = 0 /\ opens = true /\ r = 0 /\ exists blocks,
       ev = Erased (device_erases ++ [Close]) :: map Written blocks /\
       Forall (fun d => 0 < len d <= 1024) blocks /\
       concat blocks = if bool_decide (ty = 2) then drop 64 f else f).
Proof.
  unfold upgrade_main. intros Hm. destruct (check_img_file_cases file) as [(n & Ec)|(f & ty & -> & Ec)]; rewrite Ec in Hm |- *.
  { left. simplify_eq. split; [done|]. by left. }
  rewrite bool_decide_eq_false_2 in Hm by lia.
  destruct (caculate_crc_file lb (Some f)) as [n|] eqn:Ecrc; [|done]. cbn [mbind outcome_bind] in Hm.
  case_bool_decide as Hn; [left; simplify_eq; split; [done|]; right; by split; [|exists n]|].
  subst n. right.
  destruct (erase_block _ _ _) as [er|] eqn:Ee; [|done]. cbn [mbind outcome_bind] in Hm. exists f, ty, er.
  split; [done|]. split; [done|]. split; [done|]. split; [done|]. case_bool_decide as Her.
  { simplify_eq. left. split; [|done]. by left. }
  unfold burn_file_to_mtd, burn_data in Hm. destruct opens; cbn [mbind outcome_bind] in Hm.
  - right. set (g := if bool_decide (2 = ty) then drop (Z.to_nat img_header_size) f else f) in *.
    destruct (burn_loop_all (S (length f)) g) as (blocks & Hb & Hw & Hl).
    { subst g. case_bool_decide; rewrite ?length_drop; lia. }
    rewrite Hb in Hm. cbn in Hm. rewrite bool_decide_eq_true_2 in Hm by done. simplify_eq. do 3 (split; [done|]).
    exists blocks. rewrite (erase_block_device _ _ Ee Her). do 2 (split; [done|]). rewrite Hw.
    change (Z.to_nat img_header_size) with 64%nat. by repeat case_bool_decide.
  - left. cbn in Hm. rewrite bool_decide_eq_false_2 in Hm by done. simplify_eq. split; [|done]. by right.
Qed.

(** ** Witnesses *)

Definition demo_kernel : options :=
  Options "vmlinux" true false false 0 0 5 5 2 3 0x80000000 0x80000000 0 "Linux".

Definition demo_uimage : list Z :=
  default [] (build_image 8 demo_fs 0x53000000 demo_kernel).

Definition demo_outer : list Z := [0x49; 0x4D; 0x47; 0] ++ replicate 60 0.

(** The header checksum of this image is above 2^31. *)
Lemma upgrade_accepts_mkimage_witness :
  caculate_crc_file 4 (Some (demo_outer ++ demo_uimage)) = Ret 0 /\
  caculate_crc_file 8 (Some (demo_outer ++ demo_uimage)) = Ret (-5).
Proof.
  split; [rewrite (upgrade_accepts_mkimage 4 demo_fs 0x53000000 demo_kernel demo_outer demo_uimage)
         |rewrite (upgrade_accepts_mkimage 8 demo_fs 0x53000000 demo_kernel demo_outer demo_uimage)];
    try (vm_compute; reflexivity); try lia; try exact demo_fs_bytes;
    try (repeat split; vm_compute; congruence).
Defined.

Lemma upgrade_detects_burst_witness :
  caculate_crc_file 4 (Some (demo_outer ++ header_bytes (header_of demo_uimage) ++
                             [1; 2] ++ [3; 5] ++ [5])) = Ret (-6).
Proof.
  apply (upgrade_detects_burst 4 demo_outer (header_of demo_uimage) [1; 2] [3; 4] [3; 5] [5]);
    try (repeat constructor; unfold word, byte; vm_compute; congruence); try reflexivity.
Defined.

(** An accepted image on a device of four blocks without erase regions. *)
Lemma upgrade_main_safe_witness :
  exists blocks, @upgrade_main (demo_driver 0 (fun _ => true)) 4 true (Some (demo_outer ++ demo_uimage)) =
      Ret (0, Erased [MemErase 0 0x10000; MemErase 0x10000 0x10000; MemErase 0x20000 0x10000;
                      MemErase 0x30000 0x10000; Close] :: map Written blocks) /\
    concat blocks = demo_outer ++ demo_uimage.
Proof.
  destruct (@upgrade_main (demo_driver 0 (fun _ => true)) 4 true (Some (demo_outer ++ demo_uimage)))
    as [[r ev]|] eqn:E; [|vm_compute in E; discriminate].
  assert (r = 0) as -> by (vm_compute in E; congruence).
  pose proof (@upgrade_main_safe (demo_driver 0 (fun _ => true)) 4 true (Some (demo_outer ++ demo_uimage)) 0 ev E) as H.
  clear E. destruct H as [[_ H]|(f & ty & er & Hf & Hty & _ & _ & H)].
  { exfalso. destruct H as [[H _]|[H _]]; discriminate H. }
  destruct H as [[H _]|(_ & _ & _ & blocks & Hev & _ & Hw)].
  { exfalso. destruct H as [[H1 H2]|[_ [H2 _]]]; [by destruct H1|discriminate H2]. }
  exists blocks. split; [rewrite Hev; reflexivity|]. rewrite Hw.
  assert (ty = 0) as -> by (vm_compute in Hty; congruence).
  change (f = demo_outer ++ demo_uimage). by apply (inj Some) in Hf.
Defined.
