(* ===== verification/RsCode.v ===== *)
(** * The Reed-Solomon encoder

    [C/qrencode-3.4.4/rscode.c]: building a codec from its parameters, the
    cache of codecs, and the encoder. Memory allocation is taken to succeed;
    the mutex is not modelled. *)

From S2P Require Import Prelude.

(* @src C/qrencode-3.4.4/rscode.c:47-60 _RS *)
Record RS := MkRS {
  mm : Z;              (* Bits per symbol *)
  nn : Z;              (* Symbols per block *)
  alpha_to : list Z;
  index_of : list Z;
  genpoly : list Z;    (* Generator polynomial, in index form *)
  nroots : Z;
  fcr : Z;
  prim : Z;
  iprim : Z;
  pad : Z;
  gfpoly : Z }.

(** [l[i]] of an array of [data_t]. *)
Definition at_ (l : list Z) (i : Z) : Z := nth (Z.to_nat i) l 0.

(** The [data_t] stored by an assignment is truncated to eight bits. *)
Definition put (i v : Z) (l : list Z) : list Z := <[Z.to_nat i := u8 v]> l.

(** Each round makes [x] smaller, so [x] rounds are enough. *)
(* @src C/qrencode-3.4.4/rscode.c:67-73 modnn *)
Fixpoint modnn_loop (fuel : nat) (mm nn x : Z) : Z :=
  match fuel with
  | O => x
  | S fuel =>
      if bool_decide (x >= nn) then
        let x := x - nn in
        modnn_loop fuel mm nn (Z.shiftr x mm + Z.land x nn)
      else x
  end.

(* @src C/qrencode-3.4.4/rscode.c:67-73 modnn *)
Definition modnn (mm nn x : Z) : Z := modnn_loop (Z.to_nat x) mm nn x.

(** The tables, and the last value of [sr]. *)
(* @src C/qrencode-3.4.4/rscode.c:150-161 init_rs_char *)
Fixpoint table_loop (n : nat) (i symsize gfpoly sr : Z) (index_of alpha_to : list Z)
    : list Z * list Z * Z :=
  match n with
  | O => (index_of, alpha_to, sr)
  | S n =>
      let index_of := put sr i index_of in
      let alpha_to := put i sr alpha_to in
      let sr := Z.shiftl sr 1 in
      let sr := if bool_decide (Z.land sr (Z.shiftl 1 symsize) <> 0)
                then Z.lxor sr gfpoly else sr in
      let sr := Z.land sr (Z.shiftl 1 symsize - 1) in
      table_loop n (i + 1) symsize gfpoly sr index_of alpha_to
  end.

(* @src C/qrencode-3.4.4/rscode.c:132-161 init_rs_char *)
Definition make_tables (symsize gfpoly : Z) : list Z * list Z * Z :=
  let nn := Z.shiftl 1 symsize - 1 in
  let blank := replicate (Z.to_nat (nn + 1)) 0 in
  table_loop (Z.to_nat nn) 0 symsize gfpoly 1 (put 0 nn blank) (put nn 0 blank).

(** The inner loop, [j] from [i] down to 1. *)
(* @src C/qrencode-3.4.4/rscode.c:194-200 init_rs_char *)
Fixpoint genpoly_inner (j : nat) (mm nn root : Z) (index_of alpha_to g : list Z) : list Z :=
  match j with
  | O => g
  | S j' =>
      let jz := Z.of_nat j in
      let g :=
        if bool_decide (at_ g jz <> 0) then
          put jz (Z.lxor (at_ g (jz - 1))
                    (at_ alpha_to (modnn mm nn (at_ index_of (at_ g jz) + root)))) g
        else put jz (at_ g (jz - 1)) g in
      genpoly_inner j' mm nn root index_of alpha_to g
  end.

(* @src C/qrencode-3.4.4/rscode.c:190-203 init_rs_char *)
Fixpoint genpoly_outer (n : nat) (i mm nn root prim : Z) (index_of alpha_to g : list Z)
    : list Z :=
  match n with
  | O => g
  | S n =>
      let g := put (i + 1) 1 g in
      let g := genpoly_inner (Z.to_nat i) mm nn root index_of alpha_to g in
      let g := put 0 (at_ alpha_to (modnn mm nn (at_ index_of (at_ g 0) + root))) g in
      genpoly_outer n (i + 1) mm nn (root + prim) prim index_of alpha_to g
  end.

(** The generator polynomial in index form. *)
(* @src C/qrencode-3.4.4/rscode.c:171-206 init_rs_char *)
Definition make_genpoly (mm nn fcr prim nroots : Z) (index_of alpha_to : list Z) : list Z :=
  let g := put 0 1 (replicate (Z.to_nat (nroots + 1)) 0) in
  map (at_ index_of)
    (genpoly_outer (Z.to_nat nroots) 0 mm nn (fcr * prim) prim index_of alpha_to g).

(** The loop does not end when [prim] has no inverse modulo [nn]. *)
(* @src C/qrencode-3.4.4/rscode.c:185-188 init_rs_char *)
Fixpoint iprim_loop (fuel : nat) (iprim prim nn : Z) : outcome Z :=
  match fuel with
  | O => Fault OutOfFuel
  | S fuel =>
      if bool_decide (iprim `mod` prim <> 0) then iprim_loop fuel (iprim + nn) prim nn
      else Ret (iprim / prim)
  end.

(* @src C/qrencode-3.4.4/rscode.c:99-210 init_rs_char *)
Definition init_rs_char (symsize gfpoly fcr prim nroots pad : Z) : outcome (option RS) :=
  if bool_decide (symsize < 0 \/ symsize > 8) then Ret None
  else if bool_decide (fcr < 0 \/ fcr >= Z.shiftl 1 symsize) then Ret None
  else if bool_decide (prim <= 0 \/ prim >= Z.shiftl 1 symsize) then Ret None
  else if bool_decide (nroots < 0 \/ nroots >= Z.shiftl 1 symsize) then Ret None
  else if bool_decide (pad < 0 \/ pad >= Z.shiftl 1 symsize - 1 - nroots) then Ret None
  else
    let nn := Z.shiftl 1 symsize - 1 in
    let '(index_of, alpha_to, sr) := make_tables symsize gfpoly in
    if bool_decide (sr <> 1) then Ret None
    else
      iprim ← iprim_loop (S (Z.to_nat prim)) 1 prim nn;
      Ret (Some (MkRS symsize nn alpha_to index_of
                   (make_genpoly symsize nn fcr prim nroots index_of alpha_to)
                   nroots fcr prim iprim pad gfpoly)).

(** [rslist], newest first. *)
(* @src C/qrencode-3.4.4/rscode.c:219-228 init_rs *)
Definition rs_matches (symsize gfpoly_ fcr_ prim_ nroots_ pad_ : Z) (rs : RS) : bool :=
  bool_decide (pad rs = pad_) && bool_decide (nroots rs = nroots_) &&
  bool_decide (mm rs = symsize) && bool_decide (gfpoly rs = gfpoly_) &&
  bool_decide (fcr rs = fcr_) && bool_decide (prim rs = prim_).

(* @src C/qrencode-3.4.4/rscode.c:212-238 init_rs *)
Definition init_rs (rslist : list RS) (symsize gfpoly fcr prim nroots pad : Z)
    : outcome (option RS * list RS) :=
  match List.find (rs_matches symsize gfpoly fcr prim nroots pad) rslist with
  | Some rs => Ret (Some rs, rslist)
  | None =>
      r ← init_rs_char symsize gfpoly fcr prim nroots pad;
      match r with
      | Some rs => Ret (Some rs, rs :: rslist)
      | None => Ret (None, rslist)
      end
  end.

(* @src C/qrencode-3.4.4/rscode.c:251-268 free_rs_cache *)
Definition free_rs_cache (rslist : list RS) : list RS := [].

(** One data symbol: the feedback, the update of the parity and the shift. *)
(* @src C/qrencode-3.4.4/rscode.c:308-326 encode_rs_char *)
Definition encode_step (rs : RS) (parity : list Z) (d : Z) : list Z :=
  let A0 := nn rs in
  let feedback := at_ (index_of rs) (Z.lxor d (at_ parity 0)) in
  let term i := at_ (alpha_to rs) (modnn (mm rs) (nn rs) (feedback + at_ (genpoly rs) i)) in
  let parity :=
    if bool_decide (feedback <> A0) then
      imap (fun j p => if bool_decide (j = 0)%nat then p
                       else Z.lxor p (term (nroots rs - Z.of_nat j))) parity
    else parity in
  tail parity ++ [if bool_decide (feedback <> A0) then term 0 else 0].

(* @src C/qrencode-3.4.4/rscode.c:301-327 encode_rs_char *)
Definition encode_rs_char (rs : RS) (data : list Z) : outcome (list Z) :=
  data ← mem_read 0 (nn rs - nroots rs - pad rs) data;
  Ret (fold_left (encode_step rs) data (replicate (Z.to_nat (nroots rs)) 0)).

(** ** Reduction modulo nn *)

Lemma modnn_loop_spec fuel m x :
  1 < m -> 0 <= x -> (Z.to_nat x <= fuel)%nat ->
  modnn_loop fuel m (2 ^ m - 1) x = x mod (2 ^ m - 1).
Proof.
  intros Hm. assert (H2 : 4 <= 2 ^ m) by (change 4 with (2 ^ 2); apply Z.pow_le_mono_r; lia).
  revert x. induction fuel as [|fuel IH]; intros x Hx Hf.
  - assert (x = 0) as -> by lia. simpl. by rewrite Z.mod_0_l by lia.
  - cbn [modnn_loop]. case_bool_decide as Hge; [|symmetry; apply Z.mod_small; lia].
    set (y := x - (2 ^ m - 1)).
    assert (Hy : 0 <= y) by lia.
    assert (Hland : Z.land y (2 ^ m - 1) = y mod 2 ^ m).
    { rewrite <- Z.land_ones by lia. by rewrite Z.ones_equiv, Z.sub_1_r. }
    rewrite Hland, Z.shiftr_div_pow2 by lia.
    pose proof (Z.div_mod y (2 ^ m) ltac:(lia)) as Hdm.
    pose proof (Z.mod_pos_bound y (2 ^ m) ltac:(lia)).
    pose proof (Z.div_pos y (2 ^ m) Hy ltac:(lia)).
    rewrite IH by nia.
    replace x with (y / 2 ^ m + y mod 2 ^ m + (y / 2 ^ m + 1) * (2 ^ m - 1)) by nia.
    by rewrite Z.mod_add by lia.
Qed.

Lemma modnn_spec m x : 1 < m -> 0 <= x -> modnn m (2 ^ m - 1) x = x mod (2 ^ m - 1).
Proof. intros. by apply modnn_loop_spec. Qed.

(** ** The field of the QR code

    Symbols are the polynomials over GF(2) of degree less than 8, modulo
    x^8 + x^4 + x^3 + x^2 + 1. [xtime] multiplies by x, the primitive element
    alpha; its iterations are the multiplications by the powers of alpha. *)

Definition xtime (z : Z) : Z := Z.lxor (z * 2) (if Z.testbit z 7 then 0x11d else 0).

(** [mul_alpha k z] is alpha^k * z. *)
Definition mul_alpha (k : nat) (z : Z) : Z := Nat.iter k xtime z.

(** The value at alpha^k of the polynomial with the coefficients [l], the
    highest first. *)
Definition eval_at (k : nat) (l : list Z) : Z :=
  fold_left (fun acc c => Z.lxor (mul_alpha k acc) c) l 0.

Lemma xtime_lxor x y : xtime (Z.lxor x y) = Z.lxor (xtime x) (xtime y).
Proof.
  unfold xtime. apply Z.bits_inj'. intros i Hi.
  assert (Hb : forall a b, Z.testbit (if (a : bool) then b else 0) i = a && Z.testbit b i).
  { intros [] b; [done|]. by rewrite Z.bits_0. }
  rewrite !Z.lxor_spec, !Hb.
  destruct (decide (i = 0)) as [->|Hn].
  - rewrite !Z.mul_comm with (m := 2), !Z.testbit_even_0. btauto.
  - replace i with (Z.succ (i - 1)) by lia.
    rewrite !(Z.mul_comm _ 2), !Z.double_bits_succ, Z.lxor_spec. btauto.
Qed.

Lemma mul_alpha_lxor k x y : mul_alpha k (Z.lxor x y) = Z.lxor (mul_alpha k x) (mul_alpha k y).
Proof. unfold mul_alpha. induction k as [|k IH]; simpl; [done|]. by rewrite IH, xtime_lxor. Qed.

Lemma mul_alpha_0 k : mul_alpha k 0 = 0.
Proof. unfold mul_alpha. induction k as [|k IH]; simpl; [done|]. by rewrite IH. Qed.

Lemma mul_alpha_add j k z : mul_alpha (j + k) z = mul_alpha j (mul_alpha k z).
Proof. apply Nat.iter_add. Qed.

Lemma mul_alpha_comm j k z : mul_alpha j (mul_alpha k z) = mul_alpha k (mul_alpha j z).
Proof. by rewrite <- !mul_alpha_add, Nat.add_comm. Qed.

(** *** Evaluation *)

Lemma eval_fold k l a b :
  fold_left (fun acc c => Z.lxor (mul_alpha k acc) c) l (Z.lxor a b) =
  Z.lxor (fold_left (fun acc c => Z.lxor (mul_alpha k acc) c) l a) (mul_alpha (k * length l) b).
Proof.
  revert a b. induction l as [|c l IH]; intros a b; simpl.
  - by rewrite Nat.mul_0_r.
  - rewrite mul_alpha_lxor, Z.lxor_assoc, (Z.lxor_comm _ c), <- Z.lxor_assoc, IH.
    rewrite <- mul_alpha_add. do 2 f_equal. lia.
Qed.

Lemma eval_at_app k l1 l2 :
  eval_at k (l1 ++ l2) = Z.lxor (mul_alpha (k * length l2) (eval_at k l1)) (eval_at k l2).
Proof.
  unfold eval_at. rewrite fold_left_app.
  pose proof (eval_fold k l2 0 (fold_left (fun acc c => Z.lxor (mul_alpha k acc) c) l1 0)) as H.
  rewrite Z.lxor_0_l in H. by rewrite H, Z.lxor_comm.
Qed.

Lemma eval_at_single k c : eval_at k [c] = c.
Proof. unfold eval_at. simpl. by rewrite mul_alpha_0. Qed.

Lemma eval_at_cons k c l : eval_at k (c :: l) = Z.lxor (mul_alpha (k * length l) c) (eval_at k l).
Proof. change (c :: l) with ([c] ++ l). by rewrite eval_at_app, eval_at_single. Qed.

(** Evaluation commutes with adding a multiple of a polynomial. *)
Lemma eval_at_zip k j l g :
  length l = length g ->
  eval_at k (zip_with (fun p c => Z.lxor p (mul_alpha j c)) l g) =
  Z.lxor (eval_at k l) (mul_alpha j (eval_at k g)).
Proof.
  revert g. induction l as [|p l IH]; intros [|c g] Hl; try discriminate; simpl.
  - unfold eval_at. simpl. by rewrite mul_alpha_0.
  - simpl in Hl. rewrite !eval_at_cons, length_zip_with, IH by lia.
    rewrite Nat.min_l by lia. replace (length g) with (length l) by lia.
    rewrite !mul_alpha_lxor, (mul_alpha_comm j). lxor_ac.
Qed.

Lemma eval_at_zeros k n : eval_at k (replicate n 0) = 0.
Proof.
  induction n as [|n IH]; [done|]. simpl replicate.
  by rewrite eval_at_cons, IH, mul_alpha_0.
Qed.

(** ** The tables and generators of the QR codecs *)

Definition qr_index : list Z := Eval vm_compute in (make_tables 8 0x11d).1.1.
Definition qr_alpha : list Z := Eval vm_compute in (make_tables 8 0x11d).1.2.
Definition qr_gen (n : Z) : list Z := make_genpoly 8 255 0 1 n qr_index qr_alpha.

(** The coefficients of the generator below x^n, the highest first. *)
Definition gen_coefs (n : Z) : list Z :=
  let g := qr_gen n in map (fun j => mul_alpha (Z.to_nat (at_ g (n - 1 - j))) 1) (seqZ 0 n).

(** No block of a QR or Micro QR symbol has more than 30 check symbols. *)
Definition max_nroots : Z := 30.

Lemma qr_tables : make_tables 8 0x11d = (qr_index, qr_alpha, 1).
Proof. vm_compute. reflexivity. Qed.

Lemma qr_alpha_spec k : 0 <= k < 255 -> at_ qr_alpha k = mul_alpha (Z.to_nat k) 1.
Proof.
  intros Hk.
  assert (H : Forall (fun k => at_ qr_alpha k = mul_alpha (Z.to_nat k) 1) (seqZ 0 255))
    by (apply (bool_decide_unpack _); vm_compute; exact I).
  rewrite Forall_forall in H. apply H. by apply elem_of_seqZ.
Qed.

Lemma qr_index_spec z :
  0 < z < 256 -> 0 <= at_ qr_index z < 255 /\ mul_alpha (Z.to_nat (at_ qr_index z)) 1 = z.
Proof.
  intros Hz.
  assert (H : Forall (fun z => 0 <= at_ qr_index z < 255 /\
                       mul_alpha (Z.to_nat (at_ qr_index z)) 1 = z) (seqZ 1 255))
    by (apply (bool_decide_unpack _); vm_compute; exact I).
  rewrite Forall_forall in H. apply H. apply elem_of_seqZ. lia.
Qed.

Lemma mul_alpha_255 : mul_alpha 255 1 = 1.
Proof. vm_compute. reflexivity. Qed.

Lemma mul_alpha_mod255 m : 0 <= m -> mul_alpha (Z.to_nat (m mod 255)) 1 = mul_alpha (Z.to_nat m) 1.
Proof.
  intros Hm. rewrite (Z.div_mod m 255) at 2 by lia.
  pose proof (Z.div_pos m 255 Hm ltac:(lia)). pose proof (Z.mod_pos_bound m 255 ltac:(lia)).
  rewrite Z2Nat.inj_add, Nat.add_comm, mul_alpha_add by lia. f_equal.
  rewrite Z2Nat.inj_mul, Nat.mul_comm by lia. generalize (Z.to_nat (m / 255)). intros q.
  change (Z.to_nat 255) with 255%nat. induction q as [|q IH]; [done|].
  replace (S q * 255)%nat with (q * 255 + 255)%nat by lia.
  by rewrite mul_alpha_add, mul_alpha_255.
Qed.

Definition gen_ok (n : Z) : Prop :=
  Z.of_nat (length (qr_gen n)) = n + 1 /\
  Forall (fun i => 0 <= i < 255) (qr_gen n) /\
  let g := gen_coefs n in Forall (fun k => eval_at k (1 :: g) = 0) (seq 0 (Z.to_nat n)).

(** Every generator the QR code needs has its roots, and no zero
    coefficient. *)
Lemma qr_gen_ok n : 1 <= n <= max_nroots -> gen_ok n.
Proof.
  intros Hn.
  assert (H : Forall gen_ok (seqZ 1 max_nroots))
    by (unfold gen_ok; apply (bool_decide_unpack _); vm_compute; exact I).
  rewrite Forall_forall in H. apply H. apply elem_of_seqZ. lia.
Qed.

(** ** The encoder as division *)

Definition qr_rs (n pad : Z) : RS :=
  MkRS 8 255 qr_alpha qr_index (qr_gen n) n 0 1 1 pad 0x11d.

Lemma byte_lxor x y : byte x -> byte y -> byte (Z.lxor x y).
Proof. apply (lxor_range 8). lia. Qed.

Lemma byte_xtime z : byte z -> byte (xtime z).
Proof.
  intros Hz.
  assert (H : Forall (fun z => byte (xtime z)) (seqZ 0 256))
    by (apply (bool_decide_unpack _); vm_compute; exact I).
  rewrite Forall_forall in H. apply H. apply elem_of_seqZ. unfold byte in Hz. lia.
Qed.

Lemma byte_mul_alpha k z : byte z -> byte (mul_alpha k z).
Proof. intros. unfold mul_alpha. induction k; simpl; auto using byte_xtime. Qed.

(** A product looked up in the tables. *)
Lemma qr_product n i z :
  1 <= n <= max_nroots -> 0 <= i <= n -> 0 < z < 256 ->
  at_ qr_alpha (modnn 8 255 (at_ qr_index z + at_ (qr_gen n) i)) =
  mul_alpha (Z.to_nat (at_ qr_index z)) (mul_alpha (Z.to_nat (at_ (qr_gen n) i)) 1).
Proof.
  intros Hn Hi Hz. destruct (qr_gen_ok n Hn) as (Hl & Hg & _).
  destruct (qr_index_spec z Hz) as [Hiz _].
  assert (Hgi : 0 <= at_ (qr_gen n) i < 255).
  { unfold at_. rewrite Forall_forall in Hg. apply Hg, list_elem_of_In, nth_In. lia. }
  rewrite (modnn_spec 8) by lia. change (2 ^ 8 - 1) with 255.
  rewrite qr_alpha_spec by (apply Z.mod_pos_bound; lia).
  rewrite mul_alpha_mod255 by lia. by rewrite Z2Nat.inj_add, mul_alpha_add by lia.
Qed.

Lemma gen_coefs_lookup n j :
  (j < Z.to_nat n)%nat ->
  gen_coefs n !! j = Some (mul_alpha (Z.to_nat (at_ (qr_gen n) (n - 1 - Z.of_nat j))) 1).
Proof.
  intros Hj. unfold gen_coefs. change (map ?f ?l) with (f <$> l).
  rewrite list_lookup_fmap, lookup_seqZ_lt by lia. simpl. done.
Qed.

Lemma gen_coefs_length n : length (gen_coefs n) = Z.to_nat n.
Proof. unfold gen_coefs. by rewrite length_map, length_seqZ. Qed.

(** One step adds a multiple of the generator to the shifted parity. *)
Lemma encode_step_spec n pad p0 ps d :
  1 <= n <= max_nroots -> Z.of_nat (S (length ps)) = n -> byte (Z.lxor d p0) ->
  exists j, mul_alpha j 1 = Z.lxor d p0 /\
    encode_step (qr_rs n pad) (p0 :: ps) d =
    zip_with (fun p c => Z.lxor p (mul_alpha j c)) (ps ++ [0]) (gen_coefs n) \/
  Z.lxor d p0 = 0 /\ encode_step (qr_rs n pad) (p0 :: ps) d = ps ++ [0].
Proof.
  intros Hn Hl Hf. unfold encode_step. cbn [nn index_of alpha_to mm genpoly nroots qr_rs].
  change (at_ (p0 :: ps) 0) with p0. set (f := Z.lxor d p0) in *.
  destruct (decide (f = 0)) as [Hz|Hz].
  { exists 0%nat. right. split; [done|]. rewrite Hz. change (at_ qr_index 0) with 255.
    by rewrite !bool_decide_eq_false_2 by lia. }
  assert (Hf' : 0 < f < 256) by (unfold byte in Hf; lia).
  destruct (qr_index_spec f Hf') as [Hi Hmul].
  exists (Z.to_nat (at_ qr_index f)). left. split; [done|].
  rewrite !bool_decide_eq_true_2 by lia.
  apply list_eq_same_length with (n := Z.to_nat n).
  - rewrite length_zip_with, gen_coefs_length, length_app. simpl. lia.
  - rewrite length_app, length_tl, length_imap. simpl. lia.
  - intros j x y Hj Hx Hy.
    rewrite lookup_zip_with in Hy. rewrite gen_coefs_lookup in Hy by done.
    destruct (decide (S j = Z.to_nat n)) as [Elast|Hlast].
    + rewrite lookup_app_r in Hx, Hy by (rewrite ?length_tl, ?length_imap; simpl; lia).
      rewrite length_tl, length_imap in Hx. simpl in Hx.
      replace (j - (length ps - 0))%nat with 0%nat in Hx by lia.
      replace (j - length ps)%nat with 0%nat in Hy by lia.
      simpl in Hx, Hy. apply (inj Some) in Hx as <-. apply (inj Some) in Hy as <-.
      rewrite Z.lxor_0_l, (qr_product n 0) by lia. by replace (n - 1 - Z.of_nat j) with 0 by lia.
    + rewrite lookup_app_l in Hx, Hy by (rewrite ?length_tl, ?length_imap; simpl; lia).
      simpl in Hx. rewrite list_lookup_imap in Hx.
      destruct (ps !! j) as [p|] eqn:Ep; [|done]. simpl in Hx, Hy.
      apply (inj Some) in Hx as <-. apply (inj Some) in Hy as <-.
      rewrite qr_product by lia. by replace (n - Z.of_nat (S j)) with (n - 1 - Z.of_nat j) by lia.
Qed.

Lemma gen_coefs_byte n : Forall byte (gen_coefs n).
Proof.
  unfold gen_coefs. apply Forall_map, Forall_true. intros. apply byte_mul_alpha. by unfold byte.
Qed.

Lemma gen_coefs_root n k :
  1 <= n <= max_nroots -> (k < Z.to_nat n)%nat ->
  eval_at k (gen_coefs n) = mul_alpha (k * Z.to_nat n) 1.
Proof.
  intros Hn Hk. destruct (qr_gen_ok n Hn) as (_ & _ & H). cbv zeta in H.
  rewrite Forall_forall in H. specialize (H k ltac:(apply elem_of_seq; lia)).
  rewrite eval_at_cons, gen_coefs_length in H. by apply Z.lxor_eq in H.
Qed.

(** Shifting the parity out is multiplying the message so far by x. *)
Lemma eval_shift k pre p0 ps d n :
  n = S (length ps) -> eval_at k (pre ++ p0 :: ps) = 0 ->
  Z.lxor (eval_at k (ps ++ [0])) (mul_alpha (k * n) (Z.lxor d p0)) =
  mul_alpha (k * n) (eval_at k (pre ++ [d])).
Proof.
  intros -> Hinv. rewrite eval_at_app, eval_at_cons in Hinv.
  rewrite !eval_at_app, !eval_at_single. simpl length in *. rewrite Nat.mul_1_r, Z.lxor_0_r.
  apply Z.lxor_eq, (f_equal (mul_alpha k)) in Hinv.
  rewrite mul_alpha_lxor, <- !mul_alpha_add in Hinv.
  rewrite !mul_alpha_lxor, <- mul_alpha_add.
  replace (k * S (length ps) + k)%nat with (k + k * S (length ps))%nat by lia.
  rewrite Hinv. replace (k + k * length ps)%nat with (k * S (length ps))%nat by lia.
  lxor_ac.
Qed.

Lemma encode_step_bytes n pad parity d :
  1 <= n <= max_nroots -> Z.of_nat (length parity) = n -> Forall byte parity -> byte d ->
  Z.of_nat (length (encode_step (qr_rs n pad) parity d)) = n /\
  Forall byte (encode_step (qr_rs n pad) parity d).
Proof.
  intros Hn Hl Hb Hd. destruct parity as [|p0 ps]; [simpl in Hl; lia|].
  inversion_clear Hb as [|? ? Hp0 Hps].
  assert (Hs : Forall byte (ps ++ [0])) by (apply Forall_app; split; [done|]; by repeat constructor).
  destruct (encode_step_spec n pad p0 ps d Hn ltac:(simpl in *; lia) (byte_lxor d p0 Hd Hp0))
    as [j [[_ ->]|[_ ->]]]; (split; [|try done]).
  - rewrite length_zip_with, gen_coefs_length, length_app. simpl in *. lia.
  - apply Forall_zip_with_fst with (P := byte); [done|].
    eapply Forall_impl; [apply gen_coefs_byte|]. simpl. auto using byte_lxor, byte_mul_alpha.
  - rewrite length_app. simpl in *. lia.
Qed.

(** The invariant of the encoder: the data seen so far followed by the parity
    vanishes at every root. *)
Lemma encode_step_root n pad parity d pre k :
  1 <= n <= max_nroots -> Z.of_nat (length parity) = n -> Forall byte parity -> byte d ->
  (k < Z.to_nat n)%nat -> eval_at k (pre ++ parity) = 0 ->
  eval_at k ((pre ++ [d]) ++ encode_step (qr_rs n pad) parity d) = 0.
Proof.
  intros Hn Hl Hb Hd Hk Hinv.
  destruct (encode_step_bytes n pad parity d Hn Hl Hb Hd) as [Hl' _].
  rewrite (eval_at_app k (pre ++ [d])).
  replace (length (encode_step (qr_rs n pad) parity d)) with (Z.to_nat n) by lia. clear Hl'.
  destruct parity as [|p0 ps]; [simpl in Hl; lia|]. inversion_clear Hb as [|? ? Hp0 Hps].
  rewrite <- (eval_shift k pre p0 ps d (Z.to_nat n)) by (done || simpl in Hl; lia).
  destruct (encode_step_spec n pad p0 ps d Hn ltac:(simpl in *; lia) (byte_lxor d p0 Hd Hp0))
    as [j [[Hf ->]|[Hf ->]]].
  - rewrite eval_at_zip by (rewrite length_app, gen_coefs_length; simpl in *; lia).
    rewrite gen_coefs_root, mul_alpha_comm, Hf by done. apply Z.lxor_nilpotent.
  - rewrite Hf, mul_alpha_0, Z.lxor_0_r. apply Z.lxor_nilpotent.
Qed.

Lemma encode_fold n pad data parity pre :
  1 <= n <= max_nroots -> Z.of_nat (length parity) = n -> Forall byte parity ->
  Forall byte data ->
  (forall k, (k < Z.to_nat n)%nat -> eval_at k (pre ++ parity) = 0) ->
  let parity' := fold_left (encode_step (qr_rs n pad)) data parity in
  Z.of_nat (length parity') = n /\ Forall byte parity' /\
  forall k, (k < Z.to_nat n)%nat -> eval_at k ((pre ++ data) ++ parity') = 0.
Proof.
  intros Hn Hl Hb Hd. revert parity pre Hl Hb.
  induction Hd as [|d data Hd0 _ IH]; intros parity pre Hl Hb Hinv.
  - simpl. by rewrite app_nil_r.
  - cbn [fold_left]. rewrite (cons_middle d pre data), app_assoc.
    destruct (encode_step_bytes n pad parity d Hn Hl Hb Hd0).
    apply IH; try done. intros k Hk. by apply encode_step_root; auto.
Qed.

(** The codecs the QR encoder asks for. *)
Lemma init_rs_char_qr n pad :
  1 <= n <= max_nroots -> 0 <= pad < 255 - n ->
  init_rs_char 8 0x11d 0 1 n pad = Ret (Some (qr_rs n pad)).
Proof.
  unfold max_nroots. intros Hn Hp. unfold init_rs_char. rewrite qr_tables.
  change (Z.shiftl 1 8) with 256. rewrite !bool_decide_eq_false_2 by lia. done.
Qed.

(** C27: The Reed-Solomon encoder is right: for every number of check symbols
    that occurs and every block of bytes of the right length, it returns that
    many bytes, and the data followed by them is a codeword, i.e. a polynomial
    that vanishes at each root alpha^0, ..., alpha^(nroots-1) of the
    generator, with alpha = x in GF(256) modulo 0x11d. *)
Theorem encode_rs_char_codeword n pad rs data :
  1 <= n <= max_nroots -> 0 <= pad < 255 - n ->
  init_rs_char 8 0x11d 0 1 n pad = Ret (Some rs) ->
  Forall byte data -> Z.of_nat (length data) = 255 - n - pad ->
  exists parity, encode_rs_char rs data = Ret parity /\
    Z.of_nat (length parity) = n /\ Forall byte parity /\
    forall k, (k < Z.to_nat n)%nat -> eval_at k (data ++ parity) = 0.
Proof.
  intros Hn Hp Hrs Hd Hl. rewrite init_rs_char_qr in Hrs by done.
  assert (rs = qr_rs n pad) as -> by congruence. unfold encode_rs_char. cbn [nn nroots qr_rs].
  rewrite mem_read_all by done. run. eexists. split; [done|].
  apply (encode_fold n pad data _ []); try done.
  - rewrite length_replicate. lia.
  - apply Forall_replicate. by unfold byte.
  - intros. apply eval_at_zeros.
Qed.

(** ** The cache *)

(** Every codec in the cache is the one its parameters describe. *)
Definition cache_ok (rslist : list RS) : Prop :=
  Forall (fun rs => init_rs_char (mm rs) (gfpoly rs) (fcr rs) (prim rs) (nroots rs) (pad rs)
                    = Ret (Some rs)) rslist.

Lemma init_rs_char_params symsize gfpoly_ fcr_ prim_ nroots_ pad_ rs :
  init_rs_char symsize gfpoly_ fcr_ prim_ nroots_ pad_ = Ret (Some rs) ->
  mm rs = symsize /\ gfpoly rs = gfpoly_ /\ fcr rs = fcr_ /\ prim rs = prim_ /\
  nroots rs = nroots_ /\ pad rs = pad_.
Proof.
  unfold init_rs_char. repeat (case_bool_decide; [done|]).
  destruct (make_tables symsize gfpoly_) as [[ix al] sr]. case_bool_decide; [done|].
  destruct (iprim_loop _ _ _ _); [|done]. run. intros. by simplify_eq.
Qed.

Lemma init_rs_spec rslist symsize gfpoly_ fcr_ prim_ nroots_ pad_ r :
  cache_ok rslist ->
  init_rs_char symsize gfpoly_ fcr_ prim_ nroots_ pad_ = Ret r ->
  exists rslist', init_rs rslist symsize gfpoly_ fcr_ prim_ nroots_ pad_ = Ret (r, rslist') /\
    cache_ok rslist'.
Proof.
  intros Hc Hr. unfold init_rs.
  destruct (List.find _ rslist) as [rs|] eqn:E.
  - apply find_some in E as [Hin Hm].
    assert (Hc' := proj1 (Forall_forall _ _) Hc rs ltac:(by apply list_elem_of_In)). cbv beta in Hc'.
    unfold rs_matches in Hm. repeat rewrite andb_true_iff in Hm. rewrite !bool_decide_eq_true in Hm.
    destruct Hm as [[[[[<- <-] <-] <-] <-] <-]. rewrite Hc' in Hr. simplify_eq.
    by exists rslist.
  - rewrite Hr. run. destruct r as [rs|]; [|by exists rslist].
    exists (rs :: rslist). split; [done|]. constructor; [|done].
    destruct (init_rs_char_params _ _ _ _ _ _ _ Hr) as (-> & -> & -> & -> & -> & ->). done.
Qed.

(** The cache is transparent: whatever was asked for before, [init_rs]
    returns the codec that building one from the parameters would give, and
    the cache stays correct. *)
Theorem init_rs_transparent rslist symsize gfpoly_ fcr_ prim_ nroots_ pad_ r :
  cache_ok rslist ->
  init_rs_char symsize gfpoly_ fcr_ prim_ nroots_ pad_ = Ret r ->
  exists rslist', init_rs rslist symsize gfpoly_ fcr_ prim_ nroots_ pad_ = Ret (r, rslist') /\
    cache_ok rslist'.
Proof. apply init_rs_spec. Qed.

(** ** Witnesses *)

(** The example of JIS X0510: version 1-M, "01234567". *)
Definition demo_data : list Z :=
  [0x10; 0x20; 0x0c; 0x56; 0x61; 0x80; 0xec; 0x11; 0xec; 0x11; 0xec; 0x11; 0xec; 0x11; 0xec; 0x11].

Lemma encode_rs_char_codeword_witness :
  exists parity, encode_rs_char (qr_rs 10 229) demo_data = Ret parity /\
    Z.of_nat (length parity) = 10 /\ Forall byte parity /\
    forall k, (k < Z.to_nat 10)%nat -> eval_at k (demo_data ++ parity) = 0.
Proof.
  apply (encode_rs_char_codeword 10 229 (qr_rs 10 229) demo_data).
  - unfold max_nroots. lia.
  - lia.
  - apply init_rs_char_qr; unfold max_nroots; lia.
  - repeat constructor; vm_compute; congruence.
  - reflexivity.
Defined.

Example jis_check_symbols :
  encode_rs_char (qr_rs 10 229) demo_data =
  Ret [0xa5; 0x24; 0xd4; 0xc1; 0xed; 0x36; 0xc7; 0x87; 0x2c; 0x55].
Proof. vm_compute. reflexivity. Qed.

Lemma init_rs_transparent_witness :
  exists rslist', init_rs [qr_rs 10 229; qr_rs 7 229] 8 0x11d 0 1 7 229
                  = Ret (Some (qr_rs 7 229), rslist') /\ cache_ok rslist'.
Proof.
  apply (init_rs_transparent [qr_rs 10 229; qr_rs 7 229] 8 0x11d 0 1 7 229 (Some (qr_rs 7 229))).
  - apply Forall_cons_2; [|apply Forall_cons_2; [|apply Forall_nil_2]];
      apply init_rs_char_qr; unfold max_nroots; lia.
  - apply init_rs_char_qr; unfold max_nroots; lia.
Defined.
