(* ===== verification/Block.v ===== *)
(** * Arrays of bytes with random access, and loops

    The frames of the QR code are [width * width] bytes addressed one at a
    time. A [block] is such an array; a cell that was never written is zero,
    and an access outside is a fault. [for_] is the counting loop. *)

From S2P Require Import Prelude.

Record block := Block { bsize : Z; cells : gmap Z Z }.

Definition calloc (n : Z) : block := Block n ∅.

Definition in_block (b : block) (i : Z) : bool := bool_decide (0 <= i < bsize b).

Definition cell (b : block) (i : Z) : Z := default 0 (cells b !! i).

Definition peek (b : block) (i : Z) : outcome Z :=
  if in_block b i then Ret (cell b i) else Fault OutOfBounds.

Definition poke (i v : Z) (b : block) : outcome block :=
  if in_block b i then Ret (Block (bsize b) (<[i := v]> (cells b))) else Fault OutOfBounds.

Definition contents (b : block) : list Z := map (cell b) (seqZ 0 (bsize b)).

(** [for (i in l) s = body(i, s)] *)
Fixpoint for_ {S : Type} (l : list Z) (body : Z -> S -> outcome S) (s : S) : outcome S :=
  match l with
  | [] => Ret s
  | i :: l => s ← body i s; for_ l body s
  end.

(** [memset(b + off, v, n)] *)
Definition memset (off v n : Z) (b : block) : outcome block :=
  for_ (seqZ off n) (fun i b => poke i v b) b.

(** ** Lemmas *)

(** The numbers from [a] on, without going through [nat] at each of them. *)
Fixpoint range_from (n : nat) (a : Z) : list Z :=
  match n with O => [] | S n => a :: range_from n (Z.succ a) end.

Lemma range_from_seqZ n a : range_from n a = seqZ a (Z.of_nat n).
Proof.
  revert a. induction n as [|n IH]; intros a; [done|].
  rewrite seqZ_cons by lia. simpl. rewrite IH. do 2 f_equal. lia.
Qed.

Lemma peek_cell b i : 0 <= i < bsize b -> peek b i = Ret (cell b i).
Proof. intros. unfold peek, in_block. by rewrite bool_decide_eq_true_2. Qed.

Lemma poke_ok i v b :
  0 <= i < bsize b ->
  exists b', poke i v b = Ret b' /\ bsize b' = bsize b /\
    forall j, cell b' j = if bool_decide (j = i) then v else cell b j.
Proof.
  intros. unfold poke, in_block. rewrite bool_decide_eq_true_2 by done.
  eexists. split; [done|]. split; [done|]. intros j. unfold cell. simpl. case_bool_decide.
  - subst. by rewrite lookup_insert_eq.
  - by rewrite lookup_insert_ne.
Qed.

Lemma cell_calloc n i : cell (calloc n) i = 0.
Proof. done. Qed.

Lemma for_app {S} l1 l2 (body : Z -> S -> outcome S) s :
  for_ (l1 ++ l2) body s = (s ← for_ l1 body s; for_ l2 body s).
Proof.
  revert s. induction l1 as [|i l1 IH]; intros s; simpl; [done|].
  destruct (body i s); simpl; [apply IH|done].
Qed.

(** The rule for loops: an invariant over the elements done so far. *)
Lemma for_ind {S} (P : list Z -> S -> Prop) l (body : Z -> S -> outcome S) s :
  P [] s ->
  (forall done i todo s, l = done ++ i :: todo -> P done s ->
     exists s', body i s = Ret s' /\ P (done ++ [i]) s') ->
  exists s', for_ l body s = Ret s' /\ P l s'.
Proof.
  intros H0 Hstep.
  assert (H : forall todo done s, l = done ++ todo -> P done s ->
    exists s', for_ todo body s = Ret s' /\ P l s').
  { induction todo as [|i todo IH]; intros done' s' Hl HP; simpl.
    - rewrite app_nil_r in Hl. subst. by exists s'.
    - destruct (Hstep _ _ _ _ Hl HP) as (s1 & -> & HP1). run.
      apply (IH (done' ++ [i])); [by rewrite <- app_assoc|done]. }
  by apply (H l []).
Qed.

(** A loop from [a] to [a + n - 1]. *)
Lemma for_seqZ_ind {S} (P : Z -> S -> Prop) a n (body : Z -> S -> outcome S) s :
  0 <= n -> P a s ->
  (forall i s, a <= i < a + n -> P i s -> exists s', body i s = Ret s' /\ P (i + 1) s') ->
  exists s', for_ (seqZ a n) body s = Ret s' /\ P (a + n) s'.
Proof.
  intros Hn H0 Hstep.
  destruct (for_ind (fun done s => P (a + Z.of_nat (length done)) s) (seqZ a n) body s)
    as (s' & Hs & HP).
  - by rewrite Z.add_0_r.
  - intros done' i todo s' Hl HP.
    assert (Hi : seqZ a n !! length done' = Some i) by (rewrite Hl; by apply list_lookup_middle).
    apply lookup_seqZ in Hi as [-> Hlt].
    destruct (Hstep (a + Z.of_nat (length done')) s' ltac:(lia) HP) as (s1 & H1 & H2).
    exists s1. split; [done|]. rewrite length_app. simpl.
    by replace (a + Z.of_nat (length done' + 1)) with (a + Z.of_nat (length done') + 1) by lia.
  - exists s'. split; [done|]. by rewrite length_seqZ, Z2Nat.id in HP.
Qed.

(** What every step that returns keeps, the loop keeps. *)
Lemma for_inv {S} (P : S -> Prop) l (body : Z -> S -> outcome S) s s' :
  (forall i s s', i ∈ l -> P s -> body i s = Ret s' -> P s') ->
  P s -> for_ l body s = Ret s' -> P s'.
Proof.
  intros Hstep. revert s. induction l as [|i l IH]; intros s Hs Hf.
  - cbn [for_] in Hf. by simplify_eq.
  - cbn [for_] in Hf. destruct (body i s) as [s1|] eqn:E; [|done].
    cbn [mbind outcome_bind] in Hf. apply (IH) with (s := s1); [|by eapply Hstep; [left|..]|done].
    intros j t t' Hj. apply Hstep. by right.
Qed.

Lemma poke_inv i v b b' :
  poke i v b = Ret b' -> bsize b' = bsize b /\
  forall j, cell b' j = if bool_decide (j = i) then v else cell b j.
Proof.
  unfold poke. destruct (in_block b i) eqn:E; [|done]. unfold in_block in E.
  apply bool_decide_eq_true in E. destruct (poke_ok i v b E) as (b2 & E2 & H).
  unfold poke, in_block in E2. rewrite bool_decide_eq_true_2 in E2 by done.
  intros H1. rewrite H1 in E2. by simplify_eq.
Qed.

(** A list of writes. *)
Fixpoint pokes (l : list (Z * Z)) (b : block) : outcome block :=
  match l with
  | [] => Ret b
  | (p, v) :: l => b ← poke p v b; pokes l b
  end.

Lemma pokes_app l l' b : pokes (l ++ l') b = (b ← pokes l b; pokes l' b).
Proof.
  revert b. induction l as [|[p v] l IH]; intros b; cbn [pokes app]; [done|].
  destruct (poke p v b) as [b1|]; run; [apply IH|done].
Qed.

Lemma pokes_other l b b' p : pokes l b = Ret b' -> p ∉ l.*1 -> cell b' p = cell b p.
Proof.
  revert b. induction l as [|[q v] l IH]; intros b Hb Hp; cbn [pokes] in Hb; [by simplify_eq|].
  destruct (poke q v b) as [b1|] eqn:E; [|done]. cbn [mbind outcome_bind] in Hb.
  apply not_elem_of_cons in Hp as [Hq Hp]. apply poke_inv in E as [_ E].
  rewrite (IH b1 Hb Hp), E. by rewrite bool_decide_eq_false_2.
Qed.

Lemma pokes_cell l b b' p v :
  pokes l b = Ret b' -> NoDup l.*1 -> (p, v) ∈ l -> cell b' p = v.
Proof.
  revert b. induction l as [|[q u] l IH]; intros b Hb Hnd Hin; [by apply elem_of_nil in Hin|].
  cbn [pokes] in Hb. destruct (poke q u b) as [b1|] eqn:E; [|done]. cbn [mbind outcome_bind] in Hb.
  apply NoDup_cons in Hnd as [Hq Hnd]. apply elem_of_cons in Hin as [[= -> ->]|Hin].
  - cbn [fst] in Hq. rewrite (pokes_other _ _ _ _ Hb Hq). apply poke_inv in E as [_ E]. rewrite E.
    by rewrite bool_decide_eq_true_2.
  - by eapply IH.
Qed.

Lemma memset_ok off v n b :
  0 <= off -> 0 <= n -> off + n <= bsize b ->
  exists b', memset off v n b = Ret b' /\ bsize b' = bsize b /\
    forall j, cell b' j = if bool_decide (off <= j < off + n) then v else cell b j.
Proof.
  intros Ho Hn Hb. unfold memset.
  pose (P := fun (i : Z) (b' : block) => bsize b' = bsize b /\
    forall j, cell b' j = if bool_decide (off <= j < i) then v else cell b j).
  apply (for_seqZ_ind P off n); [done| |]; unfold P.
  - split; [done|]. intros j. by rewrite bool_decide_eq_false_2 by lia.
  - intros i b1 Hi [Hs Hc]. destruct (poke_ok i v b1) as (b2 & Hp & Hs2 & Hc2); [lia|].
    exists b2. split; [done|]. split; [congruence|]. intros j. rewrite Hc2, Hc.
    repeat case_bool_decide; done || lia.
Qed.

(** ** Equal contents

    Two blocks with the same size and the same cells behave alike, however
    they were written. *)

#[global] Instance block_equiv : Equiv block := fun b b' =>
  bsize b = bsize b' /\ forall i, 0 <= i < bsize b -> cell b i = cell b' i.

#[global] Instance block_equivalence : Equivalence (≡@{block}).
Proof.
  split.
  - done.
  - intros b b' [H1 H2]. split; [done|]. intros i Hi. symmetry. apply H2. lia.
  - intros b1 b2 b3 [H1 H2] [H3 H4]. split; [congruence|]. intros i Hi.
    rewrite H2 by done. apply H4. lia.
Qed.

(** Outcomes with related values. *)
Definition outcome_rel {A} (R : A -> A -> Prop) (m n : outcome A) : Prop :=
  match m, n with
  | Ret a, Ret b => R a b
  | Fault f, Fault g => f = g
  | _, _ => False
  end.

Lemma outcome_rel_bind {A B} (R : A -> A -> Prop) (Q : B -> B -> Prop) m n (k l : A -> outcome B) :
  outcome_rel R m n -> (forall a b, R a b -> outcome_rel Q (k a) (l b)) ->
  outcome_rel Q (a ← m; k a) (b ← n; l b).
Proof. destruct m, n; simpl; try done; auto. Qed.

Lemma outcome_rel_refl {A} (m : outcome A) : outcome_rel eq m m.
Proof. by destruct m. Qed.

#[global] Instance peek_proper : Proper ((≡) ==> eq ==> eq) peek.
Proof.
  intros b b' [Hs Hc] i ? <-. unfold peek, in_block. rewrite <- Hs.
  case_bool_decide; [|done]. by rewrite Hc.
Qed.

Lemma poke_rel i v b b' : b ≡ b' -> outcome_rel (≡) (poke i v b) (poke i v b').
Proof.
  intros [Hs Hc]. unfold poke, in_block. rewrite <- Hs. case_bool_decide; simpl; [|done].
  split; [done|]. intros j Hj. unfold cell in *. simpl in *.
  destruct (decide (i = j)) as [->|].
  - by rewrite !lookup_insert_eq.
  - rewrite !lookup_insert_ne by done. by apply Hc.
Qed.

Lemma for_ext {S} l (body body' : Z -> S -> outcome S) s :
  (forall i s, body i s = body' i s) -> for_ l body s = for_ l body' s.
Proof.
  intros H. revert s. induction l as [|i l IH]; intros s; simpl; [done|].
  rewrite H. destruct (body' i s); simpl; [apply IH|done].
Qed.

Lemma for_rel {S} (R : S -> S -> Prop) l (body body' : Z -> S -> outcome S) s s' :
  R s s' -> (forall i s s', R s s' -> outcome_rel R (body i s) (body' i s')) ->
  outcome_rel R (for_ l body s) (for_ l body' s').
Proof.
  intros H0 Hb. revert s s' H0. induction l as [|i l IH]; intros s s' H0; simpl; [done|].
  eapply outcome_rel_bind; [by apply Hb|]. auto.
Qed.
