(* ===== verification/QrSpec.v ===== *)
(** * The QR code specification: capacities, blocks and frames

    [C/qrencode-3.4.4/qrspec.c]: the tables of the standard, the look-ups,
    and the frame with everything but the data: finder, separator, timing and
    alignment patterns, and the version information. Versions are 1 to 40;
    entry 0 of every table is unused. Memory allocation is taken to succeed. *)

From S2P Require Import Prelude Block.

(* @src C/qrencode-3.4.4/qrencode.h:134-134 QRSPEC_VERSION_MAX *)
Definition QRSPEC_VERSION_MAX : Z := 40.

(* @src C/qrencode-3.4.4/qrencode.h:109-119 QRencodeMode *)
Inductive QRencodeMode : Set :=
  | QR_MODE_NUL
  | QR_MODE_NUM
  | QR_MODE_AN
  | QR_MODE_8
  | QR_MODE_KANJI
  | QR_MODE_STRUCTURE
  | QR_MODE_ECI
  | QR_MODE_FNC1FIRST
  | QR_MODE_FNC1SECOND.

#[global] Instance QRencodeMode_eq_dec : EqDecision QRencodeMode.
Proof. solve_decision. Defined.

(** The value of the enumeration constant. *)
Definition mode_code (m : QRencodeMode) : Z :=
  match m with
  | QR_MODE_NUL => -1
  | QR_MODE_NUM => 0
  | QR_MODE_AN => 1
  | QR_MODE_8 => 2
  | QR_MODE_KANJI => 3
  | QR_MODE_STRUCTURE => 4
  | QR_MODE_ECI => 5
  | QR_MODE_FNC1FIRST => 6
  | QR_MODE_FNC1SECOND => 7
  end.

(* @src C/qrencode-3.4.4/qrencode.h:124-129 QRecLevel *)
Inductive QRecLevel : Set :=
  | QR_ECLEVEL_L
  | QR_ECLEVEL_M
  | QR_ECLEVEL_Q
  | QR_ECLEVEL_H.

#[global] Instance QRecLevel_eq_dec : EqDecision QRecLevel.
Proof. solve_decision. Defined.

Definition level_code (l : QRecLevel) : Z :=
  match l with
  | QR_ECLEVEL_L => 0
  | QR_ECLEVEL_M => 1
  | QR_ECLEVEL_Q => 2
  | QR_ECLEVEL_H => 3
  end.

Definition all_levels : list QRecLevel :=
  [QR_ECLEVEL_L; QR_ECLEVEL_M; QR_ECLEVEL_Q; QR_ECLEVEL_H].

(** [table[i]] *)
Definition entry {A} (d : A) (l : list A) (i : Z) : A := nth (Z.to_nat i) l d.

(** ** Version and capacity *)

(* @src C/qrencode-3.4.4/qrspec.c:46-51 QRspec_Capacity *)
Record QRspec_Capacity := Cap { width : Z; words : Z; remainder : Z; ec : list Z }.

(* @src C/qrencode-3.4.4/qrspec.c:57-99 qrspecCapacity *)
Definition qrspecCapacity : list QRspec_Capacity :=
  [Cap 0 0 0 [0; 0; 0; 0];
   Cap 21 26 0 [7; 10; 13; 17];
   Cap 25 44 7 [10; 16; 22; 28];
   Cap 29 70 7 [15; 26; 36; 44];
   Cap 33 100 7 [20; 36; 52; 64];
   Cap 37 134 7 [26; 48; 72; 88];
   Cap 41 172 7 [36; 64; 96; 112];
   Cap 45 196 0 [40; 72; 108; 130];
   Cap 49 242 0 [48; 88; 132; 156];
   Cap 53 292 0 [60; 110; 160; 192];
   Cap 57 346 0 [72; 130; 192; 224];
   Cap 61 404 0 [80; 150; 224; 264];
   Cap 65 466 0 [96; 176; 260; 308];
   Cap 69 532 0 [104; 198; 288; 352];
   Cap 73 581 3 [120; 216; 320; 384];
   Cap 77 655 3 [132; 240; 360; 432];
   Cap 81 733 3 [144; 280; 408; 480];
   Cap 85 815 3 [168; 308; 448; 532];
   Cap 89 901 3 [180; 338; 504; 588];
   Cap 93 991 3 [196; 364; 546; 650];
   Cap 97 1085 3 [224; 416; 600; 700];
   Cap 101 1156 4 [224; 442; 644; 750];
   Cap 105 1258 4 [252; 476; 690; 816];
   Cap 109 1364 4 [270; 504; 750; 900];
   Cap 113 1474 4 [300; 560; 810; 960];
   Cap 117 1588 4 [312; 588; 870; 1050];
   Cap 121 1706 4 [336; 644; 952; 1110];
   Cap 125 1828 4 [360; 700; 1020; 1200];
   Cap 129 1921 3 [390; 728; 1050; 1260];
   Cap 133 2051 3 [420; 784; 1140; 1350];
   Cap 137 2185 3 [450; 812; 1200; 1440];
   Cap 141 2323 3 [480; 868; 1290; 1530];
   Cap 145 2465 3 [510; 924; 1350; 1620];
   Cap 149 2611 3 [540; 980; 1440; 1710];
   Cap 153 2761 3 [570; 1036; 1530; 1800];
   Cap 157 2876 0 [570; 1064; 1590; 1890];
   Cap 161 3034 0 [600; 1120; 1680; 1980];
   Cap 165 3196 0 [630; 1204; 1770; 2100];
   Cap 169 3362 0 [660; 1260; 1860; 2220];
   Cap 173 3532 0 [720; 1316; 1950; 2310];
   Cap 177 3706 0 [750; 1372; 2040; 2430]].

Definition capacity (version : Z) : QRspec_Capacity :=
  entry (Cap 0 0 0 []) qrspecCapacity version.

(* @src C/qrencode-3.4.4/qrspec.c:106-109 QRspec_getECCLength *)
Definition QRspec_getECCLength (version : Z) (level : QRecLevel) : Z :=
  entry 0 (ec (capacity version)) (level_code level).

(* @src C/qrencode-3.4.4/qrspec.c:101-104 QRspec_getDataLength *)
Definition QRspec_getDataLength (version : Z) (level : QRecLevel) : Z :=
  words (capacity version) - entry 0 (ec (capacity version)) (level_code level).

(* @src C/qrencode-3.4.4/qrspec.c:111-122 QRspec_getMinimumVersion *)
Definition QRspec_getMinimumVersion (size : Z) (level : QRecLevel) : Z :=
  default (-1)
    (List.find (fun i => bool_decide (QRspec_getDataLength i level >= size))
       (seqZ 1 QRSPEC_VERSION_MAX)).

(* @src C/qrencode-3.4.4/qrspec.c:124-127 QRspec_getWidth *)
Definition QRspec_getWidth (version : Z) : Z := width (capacity version).

(* @src C/qrencode-3.4.4/qrspec.c:129-132 QRspec_getRemainder *)
Definition QRspec_getRemainder (version : Z) : Z := remainder (capacity version).

(** ** Length indicator *)

(* @src C/qrencode-3.4.4/qrspec.c:138-143 lengthTableBits *)
Definition lengthTableBits : list (list Z) :=
  [[10; 12; 14]; [9; 11; 13]; [8; 16; 16]; [8; 10; 12]].

(* @src C/qrencode-3.4.4/qrinput.c:39-42 QRinput_isSplittableMode *)
Definition QRinput_isSplittableMode (mode : QRencodeMode) : bool :=
  bool_decide (mode_code mode >= mode_code QR_MODE_NUM /\
               mode_code mode <= mode_code QR_MODE_KANJI).

Definition length_class (version : Z) : Z :=
  if bool_decide (version <= 9) then 0
  else if bool_decide (version <= 26) then 1
  else 2.

(* @src C/qrencode-3.4.4/qrspec.c:145-159 QRspec_lengthIndicator *)
Definition QRspec_lengthIndicator (mode : QRencodeMode) (version : Z) : Z :=
  if QRinput_isSplittableMode mode then
    entry 0 (entry [] lengthTableBits (mode_code mode)) (length_class version)
  else 0.

(* @src C/qrencode-3.4.4/qrspec.c:161-183 QRspec_maximumWords *)
Definition QRspec_maximumWords (mode : QRencodeMode) (version : Z) : Z :=
  if QRinput_isSplittableMode mode then
    let bits := entry 0 (entry [] lengthTableBits (mode_code mode)) (length_class version) in
    let words := Z.shiftl 1 bits - 1 in
    if bool_decide (mode = QR_MODE_KANJI) then words * 2 else words
  else 0.

(** ** Error correction blocks *)

(* @src C/qrencode-3.4.4/qrspec.c:193-235 eccTable *)
Definition eccTable : list (list (Z * Z)) :=
  [[(0, 0); (0, 0); (0, 0); (0, 0)];
   [(1, 0); (1, 0); (1, 0); (1, 0)];
   [(1, 0); (1, 0); (1, 0); (1, 0)];
   [(1, 0); (1, 0); (2, 0); (2, 0)];
   [(1, 0); (2, 0); (2, 0); (4, 0)];
   [(1, 0); (2, 0); (2, 2); (2, 2)];
   [(2, 0); (4, 0); (4, 0); (4, 0)];
   [(2, 0); (4, 0); (2, 4); (4, 1)];
   [(2, 0); (2, 2); (4, 2); (4, 2)];
   [(2, 0); (3, 2); (4, 4); (4, 4)];
   [(2, 2); (4, 1); (6, 2); (6, 2)];
   [(4, 0); (1, 4); (4, 4); (3, 8)];
   [(2, 2); (6, 2); (4, 6); (7, 4)];
   [(4, 0); (8, 1); (8, 4); (12, 4)];
   [(3, 1); (4, 5); (11, 5); (11, 5)];
   [(5, 1); (5, 5); (5, 7); (11, 7)];
   [(5, 1); (7, 3); (15, 2); (3, 13)];
   [(1, 5); (10, 1); (1, 15); (2, 17)];
   [(5, 1); (9, 4); (17, 1); (2, 19)];
   [(3, 4); (3, 11); (17, 4); (9, 16)];
   [(3, 5); (3, 13); (15, 5); (15, 10)];
   [(4, 4); (17, 0); (17, 6); (19, 6)];
   [(2, 7); (17, 0); (7, 16); (34, 0)];
   [(4, 5); (4, 14); (11, 14); (16, 14)];
   [(6, 4); (6, 14); (11, 16); (30, 2)];
   [(8, 4); (8, 13); (7, 22); (22, 13)];
   [(10, 2); (19, 4); (28, 6); (33, 4)];
   [(8, 4); (22, 3); (8, 26); (12, 28)];
   [(3, 10); (3, 23); (4, 31); (11, 31)];
   [(7, 7); (21, 7); (1, 37); (19, 26)];
   [(5, 10); (19, 10); (15, 25); (23, 25)];
   [(13, 3); (2, 29); (42, 1); (23, 28)];
   [(17, 0); (10, 23); (10, 35); (19, 35)];
   [(17, 1); (14, 21); (29, 19); (11, 46)];
   [(13, 6); (14, 23); (44, 7); (59, 1)];
   [(12, 7); (12, 26); (39, 14); (22, 41)];
   [(6, 14); (6, 34); (46, 10); (2, 64)];
   [(17, 4); (29, 14); (49, 10); (24, 46)];
   [(4, 18); (13, 32); (48, 14); (42, 32)];
   [(20, 4); (40, 7); (43, 22); (10, 67)];
   [(19, 6); (18, 31); (34, 34); (20, 61)]].

(** [spec[5]] *)
Record ecc_spec := Spec {
  rsBlockNum1 : Z; rsDataCodes1 : Z; rsEccCodes1 : Z; rsBlockNum2 : Z; rsDataCodes2 : Z }.

(** [QRspec_rsEccCodes2] is the macro for [spec[2]] too. *)
(* @src C/qrencode-3.4.4/qrspec.h:108-113 QRspec_rsBlockNum *)
Definition rsBlockNum (s : ecc_spec) : Z := rsBlockNum1 s + rsBlockNum2 s.
(* @src C/qrencode-3.4.4/qrspec.h:114-114 QRspec_rsEccCodes2 *)
Definition rsEccCodes2 (s : ecc_spec) : Z := rsEccCodes1 s.
(* @src C/qrencode-3.4.4/qrspec.h:116-118 QRspec_rsDataLength *)
Definition rsDataLength (s : ecc_spec) : Z :=
  rsBlockNum1 s * rsDataCodes1 s + rsBlockNum2 s * rsDataCodes2 s.
(* @src C/qrencode-3.4.4/qrspec.h:119-120 QRspec_rsEccLength *)
Definition rsEccLength (s : ecc_spec) : Z := rsBlockNum s * rsEccCodes1 s.

(* @src C/qrencode-3.4.4/qrspec.c:237-259 QRspec_getEccSpec *)
Definition QRspec_getEccSpec (version : Z) (level : QRecLevel) : ecc_spec :=
  let '(b1, b2) := entry (0, 0) (entry [] eccTable version) (level_code level) in
  let data := QRspec_getDataLength version level in
  let ecc := QRspec_getECCLength version level in
  if bool_decide (b2 = 0) then Spec b1 (data `quot` b1) (ecc `quot` b1) 0 0
  else
    let d := data `quot` (b1 + b2) in
    Spec b1 d (ecc `quot` (b1 + b2)) b2 (d + 1).

(** ** Alignment pattern *)

(* @src C/qrencode-3.4.4/qrspec.c:272-282 alignmentPattern *)
Definition alignmentPattern : list (Z * Z) :=
  [(0, 0); (0, 0); (18, 0); (22, 0); (26, 0);
   (30, 0); (34, 0); (22, 38); (24, 42); (26, 46);
   (28, 50); (30, 54); (32, 58); (34, 62); (26, 46);
   (26, 48); (26, 50); (30, 54); (30, 56); (30, 58);
   (34, 62); (28, 50); (26, 50); (30, 54); (28, 54);
   (32, 58); (30, 58); (34, 62); (26, 50); (30, 54);
   (26, 52); (30, 56); (34, 60); (30, 58); (34, 62);
   (30, 54); (24, 50); (28, 54); (32, 58); (26, 54);
   (30, 58)].

(** A pattern of [n] rows of [n] bytes at the position [base]. *)
Definition put_pattern (n : Z) (pattern : list Z) (width base : Z) (frame : block)
    : outcome block :=
  for_ (seqZ 0 n) (fun y frame =>
    for_ (seqZ 0 n) (fun x frame =>
      poke (base + y * width + x) (entry 0 pattern (y * n + x)) frame) frame) frame.

(* @src C/qrencode-3.4.4/qrspec.c:290-311 QRspec_putAlignmentMarker *)
Definition QRspec_putAlignmentMarker (width ox oy : Z) (frame : block) : outcome block :=
  put_pattern 5
    [0xa1; 0xa1; 0xa1; 0xa1; 0xa1;
     0xa1; 0xa0; 0xa0; 0xa0; 0xa1;
     0xa1; 0xa0; 0xa1; 0xa0; 0xa1;
     0xa1; 0xa0; 0xa0; 0xa0; 0xa1;
     0xa1; 0xa1; 0xa1; 0xa1; 0xa1] width ((oy - 2) * width + ox - 2) frame.

(* @src C/qrencode-3.4.4/qrspec.c:313-349 QRspec_putAlignmentPattern *)
Definition QRspec_putAlignmentPattern (version width : Z) (frame : block) : outcome block :=
  if bool_decide (version < 2) then Ret frame
  else
    let '(a0, a1) := entry (0, 0) alignmentPattern version in
    let d := a1 - a0 in
    let w := if bool_decide (d < 0) then 2 else (width - a0) `quot` d + 2 in
    if bool_decide (w * w - 3 = 1) then QRspec_putAlignmentMarker width a0 a0 frame
    else
      frame ← for_ (seqZ 1 (w - 2)) (fun x frame =>
        let cx := a0 + (x - 1) * d in
        frame ← QRspec_putAlignmentMarker width 6 cx frame;
        QRspec_putAlignmentMarker width cx 6 frame) frame;
      for_ (seqZ 0 (w - 1)) (fun y frame =>
        for_ (seqZ 0 (w - 1)) (fun x frame =>
          QRspec_putAlignmentMarker width (a0 + x * d) (a0 + y * d) frame) frame) frame.

(** ** Version and format information *)

(* @src C/qrencode-3.4.4/qrspec.c:359-365 versionPattern *)
Definition versionPattern : list Z :=
  [0x07c94; 0x085bc; 0x09a99; 0x0a4d3; 0x0bbf6; 0x0c762; 0x0d847; 0x0e60d;
   0x0f928; 0x10b78; 0x1145d; 0x12a17; 0x13532; 0x149a6; 0x15683; 0x168c9;
   0x177ec; 0x18ec4; 0x191e1; 0x1afab; 0x1b08e; 0x1cc1a; 0x1d33f; 0x1ed75;
   0x1f250; 0x209d5; 0x216f0; 0x228ba; 0x2379f; 0x24b0b; 0x2542e; 0x26a64;
   0x27541; 0x28c69].

(* @src C/qrencode-3.4.4/qrspec.c:367-372 QRspec_getVersionPattern *)
Definition QRspec_getVersionPattern (version : Z) : Z :=
  if bool_decide (version < 7 \/ version > QRSPEC_VERSION_MAX) then 0
  else entry 0 versionPattern (version - 7).

(* @src C/qrencode-3.4.4/qrspec.c:379-384 formatInfo *)
Definition formatInfo : list (list Z) :=
  [[0x77c4; 0x72f3; 0x7daa; 0x789d; 0x662f; 0x6318; 0x6c41; 0x6976];
   [0x5412; 0x5125; 0x5e7c; 0x5b4b; 0x45f9; 0x40ce; 0x4f97; 0x4aa0];
   [0x355f; 0x3068; 0x3f31; 0x3a06; 0x24b4; 0x2183; 0x2eda; 0x2bed];
   [0x1689; 0x13be; 0x1ce7; 0x19d0; 0x0762; 0x0255; 0x0d0c; 0x083b]].

(* @src C/qrencode-3.4.4/qrspec.c:386-391 QRspec_getFormatInfo *)
Definition QRspec_getFormatInfo (mask : Z) (level : QRecLevel) : Z :=
  if bool_decide (mask < 0 \/ mask > 7) then 0
  else entry 0 (entry [] formatInfo (level_code level)) mask.

(** ** Frame *)

(* @src C/qrencode-3.4.4/qrspec.c:413-436 putFinderPattern *)
Definition putFinderPattern (width ox oy : Z) (frame : block) : outcome block :=
  put_pattern 7
    [0xc1; 0xc1; 0xc1; 0xc1; 0xc1; 0xc1; 0xc1;
     0xc1; 0xc0; 0xc0; 0xc0; 0xc0; 0xc0; 0xc1;
     0xc1; 0xc0; 0xc1; 0xc1; 0xc1; 0xc0; 0xc1;
     0xc1; 0xc0; 0xc1; 0xc1; 0xc1; 0xc0; 0xc1;
     0xc1; 0xc0; 0xc1; 0xc1; 0xc1; 0xc0; 0xc1;
     0xc1; 0xc0; 0xc0; 0xc0; 0xc0; 0xc0; 0xc1;
     0xc1; 0xc1; 0xc1; 0xc1; 0xc1; 0xc1; 0xc1] width (oy * width + ox) frame.

(** The bits of the version information, lowest first; [cell] gives the place
    of each. *)
(* @src C/qrencode-3.4.4/qrspec.c:497-514 QRspec_createFrame *)
Definition put_version (verinfo : Z) (place : Z -> Z) (frame : block) : outcome block :=
  for_ (seqZ 0 18) (fun k frame =>
    poke (place k) (Z.lor 0x88 (Z.land (Z.shiftr verinfo k) 1)) frame) frame.

(* @src C/qrencode-3.4.4/qrspec.c:439-520 QRspec_createFrame *)
Definition QRspec_createFrame (version : Z) : outcome block :=
  let width := QRspec_getWidth version in
  let frame := calloc (width * width) in
  frame ← putFinderPattern width 0 0 frame;
  frame ← putFinderPattern width (width - 7) 0 frame;
  frame ← putFinderPattern width 0 (width - 7) frame;
  (* Separator *)
  frame ← for_ (seqZ 0 7) (fun y frame =>
    frame ← poke (y * width + 7) 0xc0 frame;
    frame ← poke (y * width + width - 8) 0xc0 frame;
    poke (width * (width - 7) + y * width + 7) 0xc0 frame) frame;
  frame ← memset (width * 7) 0xc0 8 frame;
  frame ← memset (width * 8 - 8) 0xc0 8 frame;
  frame ← memset (width * (width - 8)) 0xc0 8 frame;
  (* Mask format information area *)
  frame ← memset (width * 8) 0x84 9 frame;
  frame ← memset (width * 9 - 8) 0x84 8 frame;
  frame ← for_ (seqZ 0 8) (fun y frame => poke (8 + y * width) 0x84 frame) frame;
  frame ← for_ (seqZ 0 7) (fun y frame =>
    poke (width * (width - 7) + 8 + y * width) 0x84 frame) frame;
  (* Timing pattern *)
  frame ← for_ (seqZ 1 (width - 16)) (fun x frame =>
    frame ← poke (width * 6 + 8 + (x - 1)) (Z.lor 0x90 (Z.land x 1)) frame;
    poke (width * 8 + 6 + (x - 1) * width) (Z.lor 0x90 (Z.land x 1)) frame) frame;
  (* Alignment pattern *)
  frame ← QRspec_putAlignmentPattern version width frame;
  (* Version information *)
  frame ← (if bool_decide (version >= 7) then
    let verinfo := QRspec_getVersionPattern version in
    frame ← put_version verinfo
      (fun k => width * (width - 11) + width * (k `mod` 3) + k / 3) frame;
    put_version verinfo (fun k => width - 11 + (k / 3) * width + k `mod` 3) frame
  else Ret frame);
  (* and a little bit... *)
  poke (width * (width - 8) + 8) 0x81 frame.

(** The cache of frames, by version, and a copy of the frame. *)
(* @src C/qrencode-3.4.4/qrspec.c:522-546 QRspec_newFrame *)
Definition QRspec_newFrame (frames : gmap Z block) (version : Z)
    : outcome (option block * gmap Z block) :=
  if bool_decide (version < 1 \/ version > QRSPEC_VERSION_MAX) then Ret (None, frames)
  else
    match frames !! version with
    | Some frame => Ret (Some frame, frames)
    | None =>
        frame ← QRspec_createFrame version;
        Ret (Some frame, <[version := frame]> frames)
    end.

(* @src C/qrencode-3.4.4/qrspec.c:548-562 QRspec_clearCache *)
Definition QRspec_clearCache (frames : gmap Z block) : gmap Z block := ∅.

(** ** The tables against the standard's rules *)

(** A property of every version and level, decided by evaluation. *)
Lemma for_all_versions (P : Z -> Prop) `{!forall v, Decision (P v)} :
  bool_decide (Forall P (seqZ 1 QRSPEC_VERSION_MAX)) = true ->
  forall v, 1 <= v <= QRSPEC_VERSION_MAX -> P v.
Proof.
  intros Hb v Hv. apply bool_decide_eq_true in Hb. rewrite Forall_forall in Hb. apply Hb.
  apply elem_of_seqZ. lia.
Qed.

Lemma for_all_levels (P : QRecLevel -> Prop) :
  Forall P all_levels -> forall l, P l.
Proof.
  intros H l. rewrite Forall_forall in H. apply H. destruct l; unfold all_levels; set_solver.
Qed.

Definition block_spec_ok (v : Z) (l : QRecLevel) : Prop :=
  let s := QRspec_getEccSpec v l in
  rsDataLength s = QRspec_getDataLength v l /\
  rsEccLength s = QRspec_getECCLength v l /\
  0 < rsBlockNum1 s /\ 0 <= rsBlockNum2 s /\ 0 < rsDataCodes1 s /\
  0 < rsEccCodes1 s <= 30 /\ rsDataCodes1 s + rsEccCodes1 s < 255 /\
  (rsBlockNum2 s = 0 /\ rsDataCodes2 s = 0 \/
   rsDataCodes2 s = rsDataCodes1 s + 1).

#[local] Instance block_spec_ok_dec v l : Decision (block_spec_ok v l).
Proof. unfold block_spec_ok. apply _. Defined.

Lemma block_spec_all v l : 1 <= v <= QRSPEC_VERSION_MAX -> block_spec_ok v l.
Proof.
  revert v. pose (P := fun v => Forall (block_spec_ok v) all_levels).
  assert (H : forall v, 1 <= v <= QRSPEC_VERSION_MAX -> P v).
  { apply (for_all_versions P). vm_compute. reflexivity. }
  intros v Hv. by apply (for_all_levels (block_spec_ok v)), H.
Qed.

(** The block structure of every version and level fits its capacity: the
    data words of the blocks add up to the data capacity, the check words to
    the check capacity, the division into blocks leaves no remainder beyond
    the one extra word of the second group, and each block with its check
    words is shorter than 255. *)
Theorem ecc_spec_consistent v l : 1 <= v <= QRSPEC_VERSION_MAX -> block_spec_ok v l.
Proof. apply block_spec_all. Qed.

(** The first element a list search returns. *)
Lemma find_first (f : Z -> bool) a n :
  match List.find f (seqZ a n) with
  | Some v => a <= v < a + n /\ f v = true /\ forall u, a <= u < v -> f u = false
  | None => forall u, a <= u < a + n -> f u = false
  end.
Proof.
  destruct (decide (0 <= n)) as [Hn|Hn]; [|rewrite seqZ_nil by lia; simpl; lia].
  revert a. pattern n. apply natlike_ind; [|intros m Hm IH|done]; intros a.
  - rewrite seqZ_nil by lia. simpl. lia.
  - rewrite seqZ_cons by lia. simpl. destruct (f a) eqn:E.
    + split_and!; [lia|lia|done|lia].
    + specialize (IH (Z.succ a)). replace (Z.pred (Z.succ m)) with m by lia.
      destruct (List.find f (seqZ (Z.succ a) m)) as [v|].
      * destruct IH as (Hv & Hf & Hu). split_and!; [lia|lia|done|].
        intros u Hu'. destruct (decide (u = a)) as [->|]; [done|]. apply Hu. lia.
      * intros u Hu. destruct (decide (u = a)) as [->|]; [done|]. apply IH. lia.
Qed.

Lemma min_version_spec size l :
  let v := QRspec_getMinimumVersion size l in
  (1 <= v <= QRSPEC_VERSION_MAX /\ size <= QRspec_getDataLength v l /\
   forall u, 1 <= u < v -> QRspec_getDataLength u l < size) \/
  (v = -1 /\ forall u, 1 <= u <= QRSPEC_VERSION_MAX -> QRspec_getDataLength u l < size).
Proof.
  unfold QRspec_getMinimumVersion, QRSPEC_VERSION_MAX.
  pose proof (find_first (fun i => bool_decide (QRspec_getDataLength i l >= size)) 1 40) as H.
  destruct (List.find _ _) as [v|]; simpl in *.
  - destruct H as (Hv & Hf & Hu). apply bool_decide_eq_true in Hf. left. split_and!; [lia|lia|lia|].
    intros u Hlt. specialize (Hu u Hlt). apply bool_decide_eq_false in Hu. lia.
  - right. split; [done|]. intros u Hu. specialize (H u ltac:(lia)).
    apply bool_decide_eq_false in H. lia.
Qed.

Lemma data_length_next v l :
  1 <= v < QRSPEC_VERSION_MAX -> 0 < QRspec_getDataLength v l < QRspec_getDataLength (v + 1) l.
Proof.
  revert v. pose (P := fun v => v = QRSPEC_VERSION_MAX \/
    Forall (fun l => 0 < QRspec_getDataLength v l < QRspec_getDataLength (v + 1) l) all_levels).
  assert (H : forall v, 1 <= v <= QRSPEC_VERSION_MAX -> P v).
  { apply (for_all_versions P). vm_compute. reflexivity. }
  intros v Hv. destruct (H v ltac:(lia)) as [->|Hl]; [lia|].
  exact (for_all_levels (fun l => 0 < QRspec_getDataLength v l < QRspec_getDataLength (v + 1) l) Hl l).
Qed.

(** The capacity grows with the version. *)
Lemma data_length_mono v w l :
  1 <= v <= w -> w <= QRSPEC_VERSION_MAX ->
  0 < QRspec_getDataLength v l <= QRspec_getDataLength w l.
Proof.
  intros Hv Hw. split.
  - destruct (decide (v = QRSPEC_VERSION_MAX)) as [->|]; [by destruct l|].
    apply data_length_next. lia.
  - assert (H : forall d, 0 <= d -> v + d <= QRSPEC_VERSION_MAX ->
      QRspec_getDataLength v l <= QRspec_getDataLength (v + d) l).
    { intros d Hd. pattern d. apply natlike_ind; [intros; rewrite Z.add_0_r; lia| |done].
      intros x Hx IH Hm. pose proof (data_length_next (v + x) l ltac:(lia)).
      replace (v + Z.succ x) with (v + x + 1) by lia. lia. }
    specialize (H (w - v)). replace (v + (w - v)) with w in H by lia. lia.
Qed.

(** [QRspec_getMinimumVersion] returns the least version whose data
    capacity holds [size] bytes, and -1 exactly when none does; and as the
    capacity grows with the version, every later version holds them too. *)
Theorem getMinimumVersion_least size l :
  let v := QRspec_getMinimumVersion size l in
  (1 <= v <= QRSPEC_VERSION_MAX /\
   (forall u, v <= u <= QRSPEC_VERSION_MAX -> size <= QRspec_getDataLength u l) /\
   forall u, 1 <= u < v -> QRspec_getDataLength u l < size) \/
  (v = -1 /\ forall u, 1 <= u <= QRSPEC_VERSION_MAX -> QRspec_getDataLength u l < size).
Proof.
  intros v. destruct (min_version_spec size l) as [(Hv & Hs & Hu)|H]; [left|by right].
  fold v in Hv, Hs, Hu. split_and!; [lia|lia| |done]. intros u Huv.
  pose proof (data_length_mono v u l). lia.
Qed.

(** *** BCH codes *)

(** The remainder of the [n]-bit polynomial [z] modulo [g] of degree [d]. *)
Fixpoint poly_rem (n : nat) (d g z : Z) : Z :=
  match n with
  | O => z
  | S n =>
      let i := Z.of_nat n in
      poly_rem n d g
        (if (d <=? i) && Z.testbit z i then Z.lxor z (Z.shiftl g (i - d)) else z)
  end.

(** The number of ones among the lowest [n] bits. *)
Definition weight (n z : Z) : Z :=
  foldr (fun i acc => (if Z.testbit z i then 1 else 0) + acc) 0 (seqZ 0 n).

(** The level's two bits in the format information. *)
Definition level_bits (l : QRecLevel) : Z :=
  match l with QR_ECLEVEL_L => 1 | QR_ECLEVEL_M => 0 | QR_ECLEVEL_Q => 3 | QR_ECLEVEL_H => 2 end.

(** The version information is the BCH(18,6) code of the version with
    generator 0x1f25, so two versions' patterns differ in at least 8 of the 18
    bits. *)
Theorem version_pattern_bch v w :
  7 <= v <= QRSPEC_VERSION_MAX -> 7 <= w <= QRSPEC_VERSION_MAX ->
  QRspec_getVersionPattern v = Z.lor (Z.shiftl v 12) (poly_rem 18 12 0x1f25 (Z.shiftl v 12)) /\
  (v <> w -> 8 <= weight 18 (Z.lxor (QRspec_getVersionPattern v) (QRspec_getVersionPattern w))).
Proof.
  intros Hv Hw.
  assert (H : Forall (fun v =>
    QRspec_getVersionPattern v = Z.lor (Z.shiftl v 12) (poly_rem 18 12 0x1f25 (Z.shiftl v 12)) /\
    Forall (fun w => v = w \/
      8 <= weight 18 (Z.lxor (QRspec_getVersionPattern v) (QRspec_getVersionPattern w)))
      (seqZ 7 34)) (seqZ 7 34)) by (apply (bool_decide_unpack _); vm_compute; exact I).
  rewrite Forall_forall in H. unfold QRSPEC_VERSION_MAX in *.
  destruct (H v ltac:(apply elem_of_seqZ; lia)) as [H1 H2]. split; [done|].
  intros Hne. rewrite Forall_forall in H2.
  destruct (H2 w ltac:(apply elem_of_seqZ; lia)); done.
Qed.

Lemma format_info_bound m l : 0 <= QRspec_getFormatInfo m l < 2 ^ 15.
Proof.
  destruct (decide (0 <= m < 8)) as [Hm|Hm].
  - assert (H : Forall (fun l => Forall (fun m => 0 <= QRspec_getFormatInfo m l < 2 ^ 15) (seqZ 0 8))
      all_levels) by (apply (bool_decide_unpack _); vm_compute; exact I).
    pose proof (for_all_levels _ H l) as Hl. cbv beta in Hl. rewrite Forall_forall in Hl.
    apply Hl, elem_of_seqZ. lia.
  - unfold QRspec_getFormatInfo. by rewrite bool_decide_eq_true_2 by lia.
Qed.

Definition format_ok (l : QRecLevel) (m : Z) : Prop :=
  let d := Z.lor (Z.shiftl (level_bits l) 3) m in
  QRspec_getFormatInfo m l =
    Z.lxor (Z.lor (Z.shiftl d 10) (poly_rem 15 10 0x537 (Z.shiftl d 10))) 0x5412 /\
  Forall (fun l' => Forall (fun m' => (l = l' /\ m = m') \/
    7 <= weight 15 (Z.lxor (QRspec_getFormatInfo m l) (QRspec_getFormatInfo m' l')))
    (seqZ 0 8)) all_levels.

#[local] Instance format_ok_dec l m : Decision (format_ok l m).
Proof. unfold format_ok. apply _. Defined.

(** The format information is the masked BCH(15,5) code of level and mask
    with generator 0x537, so that two different combinations differ in at
    least 7 of the 15 bits. *)
Theorem format_info_bch l m l' m' :
  0 <= m < 8 -> 0 <= m' < 8 ->
  let d := Z.lor (Z.shiftl (level_bits l) 3) m in
  QRspec_getFormatInfo m l =
    Z.lxor (Z.lor (Z.shiftl d 10) (poly_rem 15 10 0x537 (Z.shiftl d 10))) 0x5412 /\
  ((l, m) <> (l', m') ->
   7 <= weight 15 (Z.lxor (QRspec_getFormatInfo m l) (QRspec_getFormatInfo m' l'))).
Proof.
  intros Hm Hm' d.
  assert (H : Forall (fun l => Forall (format_ok l) (seqZ 0 8)) all_levels)
    by (apply (bool_decide_unpack _); vm_compute; exact I).
  pose proof (for_all_levels _ H l) as Hl. cbv beta in Hl. rewrite Forall_forall in Hl.
  destruct (Hl m ltac:(apply elem_of_seqZ; lia)) as [H1 H2]. split; [done|]. intros Hne.
  pose proof (for_all_levels _ H2 l') as Hl'. cbv beta in Hl'. rewrite Forall_forall in Hl'.
  destruct (Hl' m' ltac:(apply elem_of_seqZ; lia)) as [[-> ->]|]; done.
Qed.

(** *** The cache of frames *)

Definition frames_ok (frames : gmap Z block) : Prop :=
  map_Forall (fun v f => QRspec_createFrame v = Ret f) frames.

Lemma newFrame_spec frames v f :
  frames_ok frames -> 1 <= v <= QRSPEC_VERSION_MAX -> QRspec_createFrame v = Ret f ->
  exists frames', QRspec_newFrame frames v = Ret (Some f, frames') /\ frames_ok frames'.
Proof.
  intros Hok Hv Hf. unfold QRspec_newFrame. rewrite bool_decide_eq_false_2 by lia.
  destruct (frames !! v) as [g|] eqn:E.
  - pose proof (Hok v g E) as Hg. cbv beta in Hg. rewrite Hg in Hf. simplify_eq.
    by exists frames.
  - rewrite Hf. run. exists (<[v := f]> frames). split; [done|].
    by apply map_Forall_insert_2.
Qed.

(** ** Witnesses *)

Lemma ecc_spec_consistent_witness : block_spec_ok 5 QR_ECLEVEL_Q.
Proof. apply ecc_spec_consistent. unfold QRSPEC_VERSION_MAX. lia. Defined.

Lemma version_pattern_bch_witness :
  8 <= weight 18 (Z.lxor (QRspec_getVersionPattern 7) (QRspec_getVersionPattern 40)).
Proof. apply (version_pattern_bch 7 40); unfold QRSPEC_VERSION_MAX; lia. Defined.

Lemma format_info_bch_witness :
  7 <= weight 15 (Z.lxor (QRspec_getFormatInfo 0 QR_ECLEVEL_L) (QRspec_getFormatInfo 5 QR_ECLEVEL_H)).
Proof.
  apply (format_info_bch QR_ECLEVEL_L 0 QR_ECLEVEL_H 5); [lia|lia|congruence].
Defined.
