(* ===== verification/QrMask.v ===== *)
(** * Masking

    [C/qrencode-3.4.4/mask.c]: the eight masks, the format information, the
    demerit points of a symbol and the choice of the mask. *)

From S2P Require Import Prelude Block QrSpec.

(** ** The masks *)

(** The conditions of [Mask_mask0] to [Mask_mask7], as integers. *)
(* @src C/qrencode-3.4.4/mask.c:103-148 maskMakers *)
Definition mask_expr (mask x y : Z) : Z :=
  match mask with
  | 0 => Z.land (x + y) 1
  | 1 => Z.land y 1
  | 2 => x `mod` 3
  | 3 => (x + y) `mod` 3
  | 4 => Z.land (y / 2 + x / 3) 1
  | 5 => Z.land (x * y) 1 + (x * y) `mod` 3
  | 6 => Z.land (Z.land (x * y) 1 + (x * y) `mod` 3) 1
  | _ => Z.land ((x * y) `mod` 3 + Z.land (x + y) 1) 1
  end.

(** The new value of a module. *)
(* @src C/qrencode-3.4.4/mask.c:92-96 MASKMAKER *)
Definition mask_module (mask x y s : Z) : Z :=
  if bool_decide (Z.land s 0x80 <> 0) then s
  else Z.lxor s (if bool_decide (mask_expr mask x y = 0) then 1 else 0).

(** The frame [d] and the number of dark modules. *)
(* @src C/qrencode-3.4.4/mask.c:86-101 MASKMAKER *)
Definition MASKMAKER (mask width : Z) (s d : block) : outcome (block * Z) :=
  for_ (seqZ 0 width) (fun y st =>
    for_ (seqZ 0 width) (fun x st =>
      v ← peek s (y * width + x);
      let m := mask_module mask x y v in
      d ← poke (y * width + x) m st.1;
      Ret (d, st.2 + Z.land m 1)) st) (d, 0).

(** One bit of the format information, at its two places. *)
Definition put_format_bit (format p q : Z) (st : block * Z) : outcome (block * Z) :=
  let dark := bool_decide (Z.land format 1 <> 0) in
  let v := if dark then 0x85 else 0x84 in
  frame ← poke p v st.1;
  frame ← poke q v frame;
  Ret (frame, if dark then st.2 + 2 else st.2).

(* @src C/qrencode-3.4.4/mask.c:34-75 Mask_writeFormatInformation *)
Definition Mask_writeFormatInformation (width : Z) (frame : block) (mask : Z)
    (level : QRecLevel) : outcome (block * Z) :=
  let format := QRspec_getFormatInfo mask level in
  st ← for_ (seqZ 0 8) (fun i st =>
    put_format_bit (Z.shiftr format i) (width * 8 + width - 1 - i)
      (if bool_decide (i < 6) then width * i + 8 else width * (i + 1) + 8) st) (frame, 0);
  for_ (seqZ 0 7) (fun i st =>
    put_format_bit (Z.shiftr format (8 + i)) (width * (width - 7 + i) + 8)
      (if bool_decide (i = 0) then width * 8 + 7 else width * 8 + 6 - i) st) st.

(* @src C/qrencode-3.4.4/mask.c:164-180 Mask_makeMask *)
Definition Mask_makeMask (width : Z) (frame : block) (mask : Z) (level : QRecLevel)
    : outcome (option block) :=
  if bool_decide (mask < 0 \/ mask >= 8) then Ret None
  else
    r ← MASKMAKER mask width frame (calloc (width * width));
    r ← Mask_writeFormatInformation width r.1 mask level;
    Ret (Some r.1).

(** ** Demerit points *)

(* @src C/qrencode-3.4.4/mask.c:81-84 N1 *)
Definition N1 : Z := 3.
Definition N2 : Z := 3.
Definition N3 : Z := 40.
Definition N4 : Z := 10.

(** [runLength[i]], read within the first [length] entries. *)
Definition run_at (runs : list Z) (i : Z) : outcome Z := byte_at runs i.

(** The 1:1:3:1:1 pattern around the entry [i]. *)
(* @src C/qrencode-3.4.4/mask.c:199-215 Mask_calcN1N3 *)
Definition n3_demerit (runs : list Z) (i : Z) : outcome Z :=
  let length := Z.of_nat (length runs) in
  r ← run_at runs i;
  if bool_decide (Z.land i 1 <> 0 /\ i >= 3 /\ i < length - 2 /\ r `rem` 3 = 0) then
    let fact := r `quot` 3 in
    a ← run_at runs (i - 2);
    b ← run_at runs (i - 1);
    c ← run_at runs (i + 1);
    d ← run_at runs (i + 2);
    if bool_decide (a = fact /\ b = fact /\ c = fact /\ d = fact) then
      before ← (if bool_decide (i = 3) then Ret true
                else e ← run_at runs (i - 3); Ret (bool_decide (e >= 4 * fact)));
      if before : bool then Ret N3
      else
        after ← (if bool_decide (i + 4 >= length) then Ret true
                 else e ← run_at runs (i + 3); Ret (bool_decide (e >= 4 * fact)));
        Ret (if after : bool then N3 else 0)
    else Ret 0
  else Ret 0.

(* @src C/qrencode-3.4.4/mask.c:188-219 Mask_calcN1N3 *)
Definition Mask_calcN1N3 (runs : list Z) : outcome Z :=
  for_ (seqZ 0 (Z.of_nat (length runs))) (fun i demerit =>
    r ← run_at runs i;
    let demerit := if bool_decide (r >= 5) then demerit + N1 + (r - 5) else demerit in
    n3 ← n3_demerit runs i;
    Ret (demerit + n3)) 0.

(* @src C/qrencode-3.4.4/mask.c:221-242 Mask_calcN2 *)
Definition Mask_calcN2 (width : Z) (frame : block) : outcome Z :=
  for_ (seqZ 1 (width - 1)) (fun y demerit =>
    for_ (seqZ 1 (width - 1)) (fun x demerit =>
      let p := y * width + x in
      a ← peek frame p;
      b ← peek frame (p - 1);
      c ← peek frame (p - width);
      d ← peek frame (p - width - 1);
      let b22 := Z.land (Z.land a b) (Z.land c d) in
      let w22 := Z.lor (Z.lor a b) (Z.lor c d) in
      Ret (if bool_decide (Z.land (Z.lor b22 (Z.lxor w22 1)) 1 <> 0)
           then demerit + N2 else demerit)) demerit) 0.

(** The entries of [runLength], the last one first. *)
(* @src C/qrencode-3.4.4/mask.c:261-269 Mask_calcRunLength *)
Definition run_step (frame : block) (pitch p : Z) (runs : list Z) : outcome (list Z) :=
  a ← peek frame p;
  b ← peek frame (p - pitch);
  Ret (if bool_decide (Z.land (Z.lxor a b) 1 <> 0) then 1 :: runs
       else match runs with r :: runs => r + 1 :: runs | [] => [] end).

(** The line starts at [base]; [dir] 0 is a row. *)
(* @src C/qrencode-3.4.4/mask.c:244-272 Mask_calcRunLength *)
Definition Mask_calcRunLength (width base : Z) (frame : block) (dir : Z)
    : outcome (list Z) :=
  let pitch := if bool_decide (dir = 0) then 1 else width in
  v ← peek frame base;
  let first := if bool_decide (Z.land v 1 <> 0) then [1; -1] else [1] in
  runs ← for_ (seqZ 1 (width - 1)) (fun i runs =>
    run_step frame pitch (base + i * pitch) runs) first;
  Ret (reverse runs).

(* @src C/qrencode-3.4.4/mask.c:274-294 Mask_evaluateSymbol *)
Definition Mask_evaluateSymbol (width : Z) (frame : block) : outcome Z :=
  demerit ← Mask_calcN2 width frame;
  demerit ← for_ (seqZ 0 width) (fun y demerit =>
    runs ← Mask_calcRunLength width (y * width) frame 0;
    n ← Mask_calcN1N3 runs;
    Ret (demerit + n)) demerit;
  for_ (seqZ 0 width) (fun x demerit =>
    runs ← Mask_calcRunLength width x frame 1;
    n ← Mask_calcN1N3 runs;
    Ret (demerit + n)) demerit.

Definition INT_MAX : Z := 2 ^ 31 - 1.

(** One candidate: the masked symbol and its demerit. *)
(* @src C/qrencode-3.4.4/mask.c:311-318 Mask_mask *)
Definition mask_candidate (width : Z) (frame : block) (level : QRecLevel) (i : Z)
    (mask : block) : outcome (block * Z) :=
  let w2 := width * width in
  r ← MASKMAKER i width frame mask;
  f ← Mask_writeFormatInformation width r.1 i level;
  let blacks := r.2 + f.2 in
  let bratio := ((200 * blacks + w2) `quot` w2) `quot` 2 in
  e ← Mask_evaluateSymbol width f.1;
  Ret (f.1, (Z.abs (bratio - 50) `quot` 5) * N4 + e).

(** The state of the loop: the scratch frame, the least demerit so far and
    the frame it belongs to. *)
(* @src C/qrencode-3.4.4/mask.c:296-330 Mask_mask *)
Definition Mask_mask (width : Z) (frame : block) (level : QRecLevel)
    : outcome (option block) :=
  st ← for_ (seqZ 0 8) (fun i st =>
    let '(mask, minDemerit, bestMask) := st in
    c ← mask_candidate width frame level i mask;
    if bool_decide (c.2 < minDemerit)
    then Ret (calloc (width * width), c.2, Some c.1)
    else Ret (c.1, minDemerit, bestMask))
    (calloc (width * width), INT_MAX, None);
  Ret st.2.

(** ** The masks *)

(** The number of dark modules among the first [n] of [f]. *)
Definition dark (f : Z -> Z) (n : Z) : Z :=
  foldr (fun p acc => Z.land (f p) 1 + acc) 0 (seqZ 0 n).

Lemma dark_succ f n : 0 <= n -> dark f (n + 1) = dark f n + Z.land (f n) 1.
Proof.
  intros Hn. unfold dark. rewrite seqZ_app, foldr_app by lia.
  rewrite Z.add_0_l. change (seqZ n 1) with [n]. cbn [foldr]. rewrite Z.add_0_r.
  generalize (Z.land (f n) 1). intros z. induction (seqZ 0 n) as [|p l IH]; simpl; lia.
Qed.

(** The module at position [p] of a frame after masking. *)
Definition masked (mask width : Z) (s : block) (p : Z) : Z :=
  mask_module mask (p `mod` width) (p / width) (cell s p).

Lemma MASKMAKER_spec mask width s d :
  0 <= width -> bsize s = width * width -> bsize d = width * width ->
  exists d', MASKMAKER mask width s d = Ret (d', dark (masked mask width s) (width * width)) /\
    bsize d' = width * width /\
    forall p, cell d' p = if bool_decide (0 <= p < width * width)
                          then masked mask width s p else cell d p.
Proof.
  intros Hw Hs Hd.
  pose (I := fun (k : Z) (st : block * Z) => bsize st.1 = width * width /\
    st.2 = dark (masked mask width s) k /\
    forall p, cell st.1 p = if bool_decide (0 <= p < k) then masked mask width s p else cell d p).
  destruct (for_seqZ_ind (fun y st => I (y * width) st) 0 width
    (fun y st => for_ (seqZ 0 width) (fun x st =>
      v ← peek s (y * width + x);
      let m := mask_module mask x y v in
      d ← poke (y * width + x) m st.1;
      Ret (d, st.2 + Z.land m 1)) st) (d, 0) Hw) as ([d' b] & Hfor & Hsz & Hb & Hc).
  - split; [done|]. split; [done|]. intros p. by rewrite bool_decide_eq_false_2 by lia.
  - intros y st Hy HI.
    destruct (for_seqZ_ind (fun x st => I (y * width + x) st) 0 width
      (fun x st => v ← peek s (y * width + x);
        let m := mask_module mask x y v in
        d ← poke (y * width + x) m st.1;
        Ret (d, st.2 + Z.land m 1)) st Hw) as (st' & Hst & HI').
    + by rewrite Z.add_0_r.
    + intros x [d1 b1] Hx (Hs1 & Hb1 & Hc1). simpl in Hs1, Hb1, Hc1.
      rewrite (peek_cell s) by nia. run.
      assert (Hm : mask_module mask x y (cell s (y * width + x)) =
                   masked mask width s (y * width + x)).
      { unfold masked. f_equal.
        - rewrite Z.add_comm, Z.mod_add by lia. symmetry. apply Z.mod_small. lia.
        - rewrite Z.div_add_l by lia. rewrite Z.div_small by lia. lia. }
      cbv zeta. rewrite Hm.
      destruct (poke_ok (y * width + x) (masked mask width s (y * width + x)) d1)
        as (d2 & Hp & Hs2 & Hc2); [rewrite Hs1; nia|].
      rewrite Hp. run. eexists. split; [done|]. split; [simpl; congruence|]. split; simpl.
      * replace (y * width + (x + 1)) with (y * width + x + 1) by lia.
        rewrite dark_succ by nia. by rewrite Hb1.
      * intros p. rewrite Hc2, Hc1. repeat case_bool_decide; subst; done || lia.
    + exists st'. split; [done|].
      replace ((y + 1) * width) with (y * width + (0 + width)) by lia. done.
  - exists d'. simpl in Hsz, Hb, Hc. rewrite Z.add_0_l in Hb, Hc.
    split; [|done]. etrans; [exact Hfor|]. by subst b.
Qed.

Lemma mask_module_invol mask x y s : mask_module mask x y (mask_module mask x y s) = s.
Proof.
  unfold mask_module. destruct (decide (Z.land s 0x80 = 0)) as [H1|H1].
  2: { by rewrite !(bool_decide_eq_true_2 (Z.land s 0x80 <> 0)). }
  rewrite (bool_decide_eq_false_2 (Z.land s 0x80 <> 0)) by tauto.
  set (e := if bool_decide (mask_expr mask x y = 0) then 1 else 0).
  rewrite bool_decide_eq_false_2.
  - by rewrite Z.lxor_assoc, Z.lxor_nilpotent, Z.lxor_0_r.
  - intros H2. apply H2. assert (He : Z.land e 0x80 = 0) by (unfold e; by case_bool_decide).
    apply Z.bits_inj'. intros i Hi. apply (f_equal (fun z => Z.testbit z i)) in H1, He.
    rewrite Z.land_spec, Z.bits_0 in *. rewrite Z.lxor_spec.
    destruct (Z.testbit 0x80 i); [|apply andb_false_r].
    rewrite andb_true_r in *. by rewrite H1, He.
Qed.

(** Masking is well defined on every frame, leaves the function modules
    (those with bit 0x80) alone, reports the number of dark modules of the
    result, and is its own inverse: masking twice with the same mask restores
    every module, so a reader that applies the mask again sees the data. *)
Theorem mask_involution mask width s d :
  0 <= width -> bsize s = width * width -> bsize d = width * width ->
  exists d1 d2 b2, MASKMAKER mask width s d = Ret (d1, dark (cell d1) (width * width)) /\
    MASKMAKER mask width d1 d = Ret (d2, b2) /\
    forall p, 0 <= p < width * width ->
      (Z.land (cell s p) 0x80 <> 0 -> cell d1 p = cell s p) /\ cell d2 p = cell s p.
Proof.
  intros Hw Hs Hd.
  destruct (MASKMAKER_spec mask width s d Hw Hs Hd) as (d1 & H1 & Hs1 & Hc1).
  destruct (MASKMAKER_spec mask width d1 d Hw Hs1 Hd) as (d2 & H2 & Hs2 & Hc2).
  exists d1, d2, (dark (masked mask width d1) (width * width)). split_and!; [|done|].
  - rewrite H1. do 2 f_equal. unfold dark.
    assert (Hall : Forall (fun p => 0 <= p < width * width) (seqZ 0 (width * width)))
      by (apply Forall_seqZ; lia).
    induction Hall as [|p l Hp _ IH]; simpl; [done|].
    by rewrite IH, Hc1, bool_decide_eq_true_2.
  - intros p Hp. rewrite Hc2, bool_decide_eq_true_2 by done. unfold masked at 1.
    rewrite !Hc1, !bool_decide_eq_true_2 by done. split.
    + intros Hf. unfold masked, mask_module. by rewrite bool_decide_eq_true_2.
    + apply mask_module_invol.
Qed.

(** ** The choice of the mask *)

Lemma put_format_bit_rel format p q a a' :
  a.1 ≡ a'.1 -> a.2 = a'.2 ->
  outcome_rel (fun s t => s.1 ≡ t.1 /\ s.2 = t.2) (put_format_bit format p q a)
    (put_format_bit format p q a').
Proof.
  intros H1 H2. unfold put_format_bit. rewrite H2.
  eapply outcome_rel_bind; [by apply poke_rel|]. intros b b' Hb.
  eapply outcome_rel_bind; [by apply poke_rel|]. intros c c' Hc. done.
Qed.

Lemma writeFormat_rel width mask level f f' :
  f ≡ f' ->
  outcome_rel (fun s t => s.1 ≡ t.1 /\ s.2 = t.2)
    (Mask_writeFormatInformation width f mask level)
    (Mask_writeFormatInformation width f' mask level).
Proof.
  intros Hf. unfold Mask_writeFormatInformation. eapply outcome_rel_bind.
  - apply (for_rel (fun s t => s.1 ≡ t.1 /\ s.2 = t.2)); [done|].
    intros i s t [H1 H2]. by apply put_format_bit_rel.
  - intros s t Hst. apply (for_rel (fun s t => s.1 ≡ t.1 /\ s.2 = t.2)); [done|].
    intros i s' t' [H1 H2]. by apply put_format_bit_rel.
Qed.

Lemma put_format_bit_ok format p q st n :
  bsize st.1 = n -> 0 <= p < n -> 0 <= q < n ->
  exists st', put_format_bit format p q st = Ret st' /\ bsize st'.1 = n /\
    st.2 <= st'.2 <= st.2 + 2.
Proof.
  intros Hs Hp Hq. unfold put_format_bit. cbv zeta.
  generalize (if bool_decide (Z.land format 1 <> 0) then 0x85 else 0x84). intros v.
  destruct (poke_ok p v st.1) as (b & -> & Hb & _); [lia|]. run.
  destruct (poke_ok q v b) as (c & -> & Hc & _); [lia|]. run.
  eexists. split; [done|]. simpl. split; [congruence|]. case_bool_decide; lia.
Qed.

Lemma writeFormat_ok width mask level f :
  9 <= width -> bsize f = width * width ->
  exists st, Mask_writeFormatInformation width f mask level = Ret st /\
    bsize st.1 = width * width /\ 0 <= st.2 <= 30.
Proof.
  intros Hw Hf. unfold Mask_writeFormatInformation.
  pose (P := fun (i : Z) (st : block * Z) => bsize st.1 = width * width /\ 0 <= st.2 <= 2 * i).
  destruct (for_seqZ_ind P 0 8 (fun i st =>
    put_format_bit (Z.shiftr (QRspec_getFormatInfo mask level) i) (width * 8 + width - 1 - i)
      (if bool_decide (i < 6) then width * i + 8 else width * (i + 1) + 8) st) (f, 0))
    as (st & -> & Hst); [lia|split; [done|simpl; lia]| |].
  { intros i st Hi [Hst Hb].
    destruct (put_format_bit_ok (Z.shiftr (QRspec_getFormatInfo mask level) i)
      (width * 8 + width - 1 - i)
      (if bool_decide (i < 6) then width * i + 8 else width * (i + 1) + 8) st (width * width))
      as (st' & H1 & H2 & H3); [done|nia|case_bool_decide; nia|].
    exists st'. split; [done|]. split; [done|lia]. }
  run. destruct (for_seqZ_ind (fun i => P (i + 8)) 0 7 (fun i st =>
    put_format_bit (Z.shiftr (QRspec_getFormatInfo mask level) (8 + i)) (width * (width - 7 + i) + 8)
      (if bool_decide (i = 0) then width * 8 + 7 else width * 8 + 6 - i) st) st)
    as (st' & H1 & H2 & H3); [lia|exact Hst| |].
  { intros i s' Hi [Hs' Hb].
    destruct (put_format_bit_ok (Z.shiftr (QRspec_getFormatInfo mask level) (8 + i))
      (width * (width - 7 + i) + 8)
      (if bool_decide (i = 0) then width * 8 + 7 else width * 8 + 6 - i) s' (width * width))
      as (st' & H1 & H2 & H3); [done|nia|case_bool_decide; nia|].
    exists st'. split; [done|]. split; [done|lia]. }
  exists st'. split; [done|]. split; [done|lia].
Qed.

(** The modules of the format information. *)
Definition format_places (width : Z) : list Z :=
  concat (map (fun i => [width * 8 + width - 1 - i;
    if bool_decide (i < 6) then width * i + 8 else width * (i + 1) + 8]) (seqZ 0 8)) ++
  concat (map (fun i => [width * (width - 7 + i) + 8;
    if bool_decide (i = 0) then width * 8 + 7 else width * 8 + 6 - i]) (seqZ 0 7)).

(** The format information as a list of writes. *)
Definition format_value (format : Z) : Z := if bool_decide (Z.land format 1 <> 0) then 0x85 else 0x84.

Definition twice (pq : Z * Z) (v : Z) : list (Z * Z) := [(pq.1, v); (pq.2, v)].

Definition format_writes (width format : Z) : list (Z * Z) :=
  concat (map (fun i => twice (width * 8 + width - 1 - i,
    if bool_decide (i < 6) then width * i + 8 else width * (i + 1) + 8)
    (format_value (Z.shiftr format i))) (seqZ 0 8)) ++
  concat (map (fun i => twice (width * (width - 7 + i) + 8,
    if bool_decide (i = 0) then width * 8 + 7 else width * 8 + 6 - i)
    (format_value (Z.shiftr format (8 + i)))) (seqZ 0 7)).

Lemma format_writes_places width format : (format_writes width format).*1 = format_places width.
Proof. reflexivity. Qed.

Lemma for_put_format_bit (fm : Z -> Z) (pq : Z -> Z * Z) l st st' :
  for_ l (fun i st => put_format_bit (fm i) (pq i).1 (pq i).2 st) st = Ret st' ->
  pokes (concat (map (fun i => twice (pq i) (format_value (fm i))) l)) st.1 = Ret st'.1.
Proof.
  revert st. induction l as [|i l IH]; intros st Hf; cbn [for_] in Hf.
  - by simplify_eq.
  - destruct (put_format_bit _ _ _ st) as [s1|] eqn:E; [|done]. cbn [mbind outcome_bind] in Hf.
    cbn [map concat]. rewrite pokes_app. unfold twice. cbn [pokes].
    unfold put_format_bit in E. cbv zeta in E. fold (format_value (fm i)) in E.
    destruct (poke (pq i).1 _ st.1) as [b|]; [|done]. cbn [mbind outcome_bind] in *.
    destruct (poke (pq i).2 _ b) as [c|]; [|done]. cbn [mbind outcome_bind] in *.
    apply (inj Ret) in E. subst s1. by apply IH in Hf.
Qed.

Lemma writeFormat_pokes width mask level f st :
  Mask_writeFormatInformation width f mask level = Ret st ->
  pokes (format_writes width (QRspec_getFormatInfo mask level)) f = Ret st.1.
Proof.
  intros Hw. unfold Mask_writeFormatInformation in Hw.
  destruct (for_ (seqZ 0 8) _ _) as [s1|] eqn:E1; [|done]. cbn [mbind outcome_bind] in Hw.
  unfold format_writes. rewrite pokes_app.
  apply (for_put_format_bit _ (fun i => (width * 8 + width - 1 - i,
    if bool_decide (i < 6) then width * i + 8 else width * (i + 1) + 8))) in E1.
  cbn [fst] in E1. rewrite E1. run.
  by apply (for_put_format_bit _ (fun i => (width * (width - 7 + i) + 8,
    if bool_decide (i = 0) then width * 8 + 7 else width * 8 + 6 - i))) in Hw.
Qed.

(** What a scanner reads at a list of places, least significant bit first. *)
Definition read_places (l : list Z) (f : block) : Z :=
  foldr (fun p a => Z.land (cell f p) 1 + 2 * a) 0 l.

(** The two copies of the format information. *)
Definition format_copy (second : bool) (width : Z) : list Z :=
  map (fun pq => if second then pq.2 else pq.1)
    (map (fun i => (width * 8 + width - 1 - i,
       if bool_decide (i < 6) then width * i + 8 else width * (i + 1) + 8)) (seqZ 0 8) ++
     map (fun i => (width * (width - 7 + i) + 8,
       if bool_decide (i = 0) then width * 8 + 7 else width * 8 + 6 - i)) (seqZ 0 7)).

Lemma read_format_value format : Z.land (format_value format) 1 = Z.land format 1.
Proof.
  unfold format_value. pose proof (Z.mod_pos_bound format 2 ltac:(lia)) as H.
  replace (Z.land format 1) with (format `mod` 2) by (symmetry; apply (Z.land_ones format 1); lia).
  case_bool_decide; change (Z.land 133 1) with 1; change (Z.land 132 1) with 0; lia.
Qed.

Lemma format_copies_read second width f :
  forall format, 0 <= format < 2 ^ 15 ->
  (forall p v, (p, v) ∈ format_writes width format -> cell f p = v) ->
  read_places (format_copy second width) f = format.
Proof.
  intros format Hf Hc.
  assert (Hat : forall i p, format_copy second width !! i = Some p ->
    Z.land (cell f p) 1 = Z.land (Z.shiftr format (Z.of_nat i)) 1).
  { intros i p Hi. rewrite <- (read_format_value (Z.shiftr format _)). f_equal. apply Hc.
    apply (list_elem_of_lookup_2 _ (2 * i + if second then 1 else 0)%nat).
    do 15 (destruct i as [|i]; [destruct second; apply (inj Some) in Hi as <-; reflexivity|]).
    by destruct second. }
  assert (Hread : forall l a, (forall i p, l !! i = Some p ->
      Z.land (cell f p) 1 = Z.land (Z.shiftr format (a + Z.of_nat i)) 1) ->
    0 <= a -> format < 2 ^ (a + Z.of_nat (length l)) ->
    read_places l f = Z.shiftr format a).
  { induction l as [|p l IH]; intros a Hl Ha Hlt; cbn [read_places foldr].
    - rewrite Z.shiftr_div_pow2 by lia. rewrite Z.div_small; [done|].
      cbn [length] in Hlt. rewrite Z.add_0_r in Hlt. lia.
    - fold (read_places l f). rewrite (Hl 0%nat p eq_refl), (IH (a + 1)).
      + rewrite Z.add_0_r. replace (Z.land (Z.shiftr format a) 1) with (Z.shiftr format a `mod` 2)
          by (symmetry; apply (Z.land_ones _ 1); lia).
        rewrite <- Z.shiftr_shiftr by lia. rewrite (Z.shiftr_div_pow2 _ 1) by lia.
        change (2 ^ 1) with 2. pose proof (Z.div_mod (Z.shiftr format a) 2 ltac:(lia)). lia.
      + intros i q Hi. rewrite (Hl (S i) q Hi). do 2 f_equal. lia.
      + lia.
      + cbn [length] in Hlt. replace (a + 1 + Z.of_nat (length l)) with (a + Z.of_nat (S (length l))) by lia.
        done. }
  rewrite (Hread _ 0); [by rewrite Z.shiftr_0_r| |lia|].
  - intros i p Hi. by rewrite Z.add_0_l, (Hat i p Hi).
  - assert (length (format_copy second width) = 15%nat) as -> by by destruct second. apply Hf.
Qed.

Lemma read_places_ext l f f' :
  (forall p, p ∈ l -> cell f p = cell f' p) -> read_places l f = read_places l f'.
Proof.
  induction l as [|p l IH]; intros H; cbn [read_places foldr]; [done|].
  fold (read_places l f) (read_places l f'). rewrite (H p) by left. rewrite IH; [done|].
  intros q Hq. apply H. by right.
Qed.

Lemma format_copy_inside second w p : 9 <= w -> p ∈ format_copy second w -> 0 <= p < w * w.
Proof.
  intros Hw Hp. unfold format_copy in Hp. rewrite list_elem_of_fmap in Hp.
  destruct Hp as ([p1 p2] & -> & Hp). apply elem_of_app in Hp as [Hp|Hp];
    rewrite list_elem_of_fmap in Hp; destruct Hp as (i & [= -> ->] & Hi); apply elem_of_seqZ in Hi;
    destruct second; cbn [fst snd]; try case_bool_decide; nia.
Qed.

(** Nothing else changes. *)
Lemma writeFormat_frame width mask level f st p :
  Mask_writeFormatInformation width f mask level = Ret st -> p ∉ format_places width ->
  cell st.1 p = cell f p.
Proof.
  intros Hw Hp. apply writeFormat_pokes in Hw. eapply pokes_other; [exact Hw|].
  by rewrite format_writes_places.
Qed.

(** The modules of a masked symbol, apart from the format information. *)
Lemma makeMask_cells width frame mask level :
  9 <= width -> bsize frame = width * width -> 0 <= mask < 8 ->
  exists m, Mask_makeMask width frame mask level = Ret (Some m) /\ bsize m = width * width /\
    (forall p, 0 <= p < width * width -> p ∉ format_places width ->
      cell m p = masked mask width frame p) /\
    (NoDup (format_places width) -> forall second,
      read_places (format_copy second width) m = QRspec_getFormatInfo mask level).
Proof.
  intros Hw Hf Hm. unfold Mask_makeMask. rewrite bool_decide_eq_false_2 by lia.
  destruct (MASKMAKER_spec mask width frame (calloc (width * width)))
    as (d & -> & Hs & Hc); [lia|done|done|]. run.
  destruct (writeFormat_ok width mask level d Hw Hs) as (st & E & Hs' & _). rewrite E. run.
  exists st.1. split_and!; [done|done| |].
  - intros p Hp Hpl. rewrite (writeFormat_frame _ _ _ _ _ _ E Hpl), Hc. by rewrite bool_decide_eq_true_2.
  - intros Hnd second. apply format_copies_read; [apply format_info_bound|]. intros p v Hin.
    eapply pokes_cell; [by eapply writeFormat_pokes|by rewrite format_writes_places|exact Hin].
Qed.

(** Evaluation only reads the frame. *)
#[global] Instance calcN2_proper : Proper (eq ==> (≡) ==> eq) Mask_calcN2.
Proof.
  intros w ? <- f f' Hf. unfold Mask_calcN2. apply for_ext. intros y s.
  apply for_ext. intros x s'. cbv zeta.
  do 4 (rewrite Hf; destruct (peek f' _); run; [|done]). done.
Qed.

#[global] Instance calcRunLength_proper :
  Proper (eq ==> eq ==> (≡) ==> eq ==> eq) Mask_calcRunLength.
Proof.
  intros w ? <- b ? <- f f' Hf dir ? <-. unfold Mask_calcRunLength. rewrite Hf.
  destruct (peek f' b); run; [|done]. erewrite for_ext; [done|]. intros i s.
  unfold run_step. do 2 (rewrite Hf; destruct (peek f' _); run; [|done]). done.
Qed.

#[global] Instance evaluate_proper : Proper (eq ==> (≡) ==> eq) Mask_evaluateSymbol.
Proof.
  intros w ? <- f f' Hf. unfold Mask_evaluateSymbol. rewrite Hf.
  destruct (Mask_calcN2 w f'); run; [|done].
  rewrite (for_ext _ _ (fun y demerit =>
    runs ← Mask_calcRunLength w (y * w) f' 0; n ← Mask_calcN1N3 runs; Ret (demerit + n)))
    by (intros; by rewrite Hf).
  destruct (for_ _ _ _); run; [|done]. apply for_ext. intros. by rewrite Hf.
Qed.

(** A candidate does not depend on what the scratch frame held. *)
Lemma mask_candidate_rel width frame level i d d' :
  0 <= width -> bsize frame = width * width -> bsize d = width * width ->
  bsize d' = width * width ->
  outcome_rel (fun s t => s.1 ≡ t.1 /\ s.2 = t.2)
    (mask_candidate width frame level i d) (mask_candidate width frame level i d').
Proof.
  intros Hw Hf Hd Hd'. unfold mask_candidate.
  destruct (MASKMAKER_spec i width frame d Hw Hf Hd) as (m & -> & Hm & Hc).
  destruct (MASKMAKER_spec i width frame d' Hw Hf Hd') as (m' & -> & Hm' & Hc'). run.
  assert (Hmm : m ≡ m').
  { split; [congruence|]. intros p Hp. rewrite Hm in Hp. rewrite Hc, Hc'.
    by rewrite !bool_decide_eq_true_2. }
  eapply outcome_rel_bind; [by apply writeFormat_rel|]. intros f f' [Hff Hbb]. rewrite Hbb, Hff.
  eapply outcome_rel_bind; [apply outcome_rel_refl|]. intros e ? <-. done.
Qed.

(** *** Evaluation stays in its arrays and is bounded *)

Lemma run_at_ok runs i :
  0 <= i < Z.of_nat (length runs) -> exists r, run_at runs i = Ret r /\ r ∈ runs.
Proof.
  intros Hi. unfold run_at, byte_at. rewrite bool_decide_eq_true_2 by lia.
  destruct (runs !! Z.to_nat i) as [r|] eqn:E.
  - exists r. split; [done|]. by eapply list_elem_of_lookup_2.
  - apply lookup_ge_None in E. lia.
Qed.

Lemma n3_demerit_ok runs i :
  0 <= i < Z.of_nat (length runs) -> exists n, n3_demerit runs i = Ret n /\ n <= 40.
Proof.
  intros Hi. unfold n3_demerit.
  assert (Hz : exists n, (Ret 0 : outcome Z) = Ret n /\ n <= 40) by (exists 0; split; [done|lia]).
  assert (H3 : exists n, (Ret N3 : outcome Z) = Ret n /\ n <= 40) by (exists N3; split; [done|done]).
  destruct (run_at_ok runs i Hi) as (r & -> & _). run. case_bool_decide as Hc; [|done].
  destruct Hc as (_ & H3i & Hlt & _). cbv zeta.
  destruct (run_at_ok runs (i - 2)) as (a & -> & _); [lia|]. run.
  destruct (run_at_ok runs (i - 1)) as (b & -> & _); [lia|]. run.
  destruct (run_at_ok runs (i + 1)) as (c & -> & _); [lia|]. run.
  destruct (run_at_ok runs (i + 2)) as (d & -> & _); [lia|]. run.
  case_bool_decide; [|done].
  assert (Hb : exists bf, (if bool_decide (i = 3) then Ret true
     else e ← run_at runs (i - 3); Ret (bool_decide (e >= 4 * (r `quot` 3)))) = Ret bf).
  { case_bool_decide; [by eexists|].
    destruct (run_at_ok runs (i - 3)) as (e & -> & _); [lia|]. by eexists. }
  destruct Hb as [bf ->]. run. destruct bf; [done|].
  assert (Ha : exists af, (if bool_decide (i + 4 >= Z.of_nat (length runs)) then Ret true
     else e ← run_at runs (i + 3); Ret (bool_decide (e >= 4 * (r `quot` 3)))) = Ret af).
  { case_bool_decide; [by eexists|].
    destruct (run_at_ok runs (i + 3)) as (e & -> & _); [lia|]. by eexists. }
  destruct Ha as [af ->]. run. by destruct af.
Qed.

Lemma calcN1N3_ok w runs :
  5 <= w -> Forall (fun r => r <= w) runs ->
  exists n, Mask_calcN1N3 runs = Ret n /\ n <= Z.of_nat (length runs) * (w + 38).
Proof.
  intros Hw Hr. unfold Mask_calcN1N3.
  destruct (for_seqZ_ind (fun i n => n <= i * (w + 38)) 0 (Z.of_nat (length runs)) (fun i demerit =>
    r ← run_at runs i;
    let demerit := if bool_decide (r >= 5) then demerit + N1 + (r - 5) else demerit in
    n3 ← n3_demerit runs i;
    Ret (demerit + n3)) 0) as (n & Hn & Hle); [lia|lia| |by exists n].
  intros i n Hi Hn. destruct (run_at_ok runs i) as (r & -> & Hin); [lia|]. run.
  rewrite Forall_forall in Hr. specialize (Hr r Hin).
  destruct (n3_demerit_ok runs i) as (m & -> & Hm); [lia|]. run. eexists. split; [done|].
  unfold N1. case_bool_decide; lia.
Qed.

Lemma calcRunLength_ok w base frame dir :
  1 <= w -> bsize frame = w * w ->
  (forall i, 0 <= i < w -> 0 <= base + i * (if bool_decide (dir = 0) then 1 else w) < w * w) ->
  exists runs, Mask_calcRunLength w base frame dir = Ret runs /\
    Z.of_nat (length runs) <= w + 1 /\ Forall (fun r => r <= w) runs.
Proof.
  intros Hw Hf Hb. unfold Mask_calcRunLength.
  set (pitch := if bool_decide (dir = 0) then 1 else w) in *.
  pose proof (Hb 0 ltac:(lia)). rewrite peek_cell by lia. run.
  set (first := if bool_decide (Z.land (cell frame base) 1 <> 0) then [1; -1] else [1]).
  destruct (for_seqZ_ind (fun i runs => Z.of_nat (length runs) <= i + 1 /\
    Forall (fun r => r <= i) runs) 1 (w - 1) (fun i runs =>
      run_step frame pitch (base + i * pitch) runs) first) as (runs & -> & Hl & Hr).
  - lia.
  - subst first. case_bool_decide; simpl; (split; [lia|]); repeat constructor; lia.
  - intros i runs Hi [Hl Hr]. unfold run_step.
    pose proof (Hb i ltac:(lia)). pose proof (Hb (i - 1) ltac:(lia)).
    rewrite !peek_cell by lia. run.
    assert (Hr' : Forall (fun r => r <= i + 1) runs)
      by (eapply Forall_impl; [exact Hr|]; simpl; lia).
    case_bool_decide.
    + eexists. split; [done|]. simpl. split; [lia|]. constructor; [lia|done].
    + destruct runs as [|r runs]; [eexists; split; [done|]; split; [simpl; lia|done]|]. eexists. split; [done|]. simpl in *.
      split; [lia|]. inversion_clear Hr. inversion_clear Hr'. constructor; [lia|done].
  - run. exists (reverse runs). rewrite length_reverse. split; [done|].
    replace (1 + (w - 1)) with w in * by lia. split; [done|]. by apply Forall_reverse.
Qed.

Lemma calcN2_ok w frame :
  1 <= w -> bsize frame = w * w -> exists n, Mask_calcN2 w frame = Ret n /\ n <= 3 * (w * w).
Proof.
  intros Hw Hf. unfold Mask_calcN2.
  destruct (for_seqZ_ind (fun y n => n <= 3 * ((y - 1) * w)) 1 (w - 1) (fun y demerit =>
    for_ (seqZ 1 (w - 1)) (fun x demerit =>
      let p := y * w + x in
      a ← peek frame p; b ← peek frame (p - 1);
      c ← peek frame (p - w); d ← peek frame (p - w - 1);
      let b22 := Z.land (Z.land a b) (Z.land c d) in
      let w22 := Z.lor (Z.lor a b) (Z.lor c d) in
      Ret (if bool_decide (Z.land (Z.lor b22 (Z.lxor w22 1)) 1 <> 0)
           then demerit + N2 else demerit)) demerit) 0) as (n & Hn & Hle).
  - lia.
  - lia.
  - intros y n Hy Hn.
    destruct (for_seqZ_ind (fun x m => m <= 3 * ((y - 1) * w + x - 1)) 1 (w - 1) (fun x demerit =>
      let p := y * w + x in
      a ← peek frame p; b ← peek frame (p - 1);
      c ← peek frame (p - w); d ← peek frame (p - w - 1);
      let b22 := Z.land (Z.land a b) (Z.land c d) in
      let w22 := Z.lor (Z.lor a b) (Z.lor c d) in
      Ret (if bool_decide (Z.land (Z.lor b22 (Z.lxor w22 1)) 1 <> 0)
           then demerit + N2 else demerit)) n) as (m & Hm & Hle).
    + lia.
    + lia.
    + intros x m Hx Hm. cbv zeta. rewrite !peek_cell by nia. run.
      eexists. split; [done|]. unfold N2. case_bool_decide; lia.
    + exists m. split; [done|]. lia.
  - exists n. split; [exact Hn|]. nia.
Qed.

Lemma evaluate_ok w frame :
  9 <= w <= 177 -> bsize frame = w * w ->
  exists n, Mask_evaluateSymbol w frame = Ret n /\ n <= 20000000.
Proof.
  intros Hw Hf. unfold Mask_evaluateSymbol.
  destruct (calcN2_ok w frame) as (n0 & -> & Hn0); [lia|done|]. run.
  set (K := (w + 1) * (w + 38)).
  assert (Hline : forall base dir, (forall i, 0 <= i < w ->
      0 <= base + i * (if bool_decide (dir = 0) then 1 else w) < w * w) ->
    forall m, exists n, (runs ← Mask_calcRunLength w base frame dir;
      n ← Mask_calcN1N3 runs; Ret (m + n)) = Ret n /\ n <= m + K).
  { intros base dir Hb m.
    destruct (calcRunLength_ok w base frame dir) as (runs & -> & Hl & Hr); [lia|done|done|]. run.
    destruct (calcN1N3_ok w runs) as (n & -> & Hn); [lia|done|]. run.
    eexists. split; [done|]. unfold K. nia. }
  destruct (for_seqZ_ind (fun y n => n <= n0 + y * K) 0 w (fun y demerit =>
    runs ← Mask_calcRunLength w (y * w) frame 0;
    n ← Mask_calcN1N3 runs;
    Ret (demerit + n)) n0) as (n1 & -> & Hn1); [lia|lia| |].
  { intros y m Hy Hm. destruct (Hline (y * w) 0) with (m := m) as (n & Hn & Hle).
    - intros i Hi. simpl. nia.
    - exists n. split; [done|]. lia. }
  run. destruct (for_seqZ_ind (fun x n => n <= n1 + x * K) 0 w (fun x demerit =>
    runs ← Mask_calcRunLength w x frame 1;
    n ← Mask_calcN1N3 runs;
    Ret (demerit + n)) n1) as (n2 & -> & Hn2); [lia|lia| |].
  { intros x m Hx Hm. destruct (Hline x 1) with (m := m) as (n & Hn & Hle).
    - intros i Hi. simpl. nia.
    - exists n. split; [done|]. lia. }
  exists n2. split; [done|]. unfold K in *. nia.
Qed.

Lemma dark_bounds f n : 0 <= n -> 0 <= dark f n <= n.
Proof.
  intros Hn. pattern n. apply natlike_ind; [done| |done]. intros m Hm IH.
  unfold Z.succ. rewrite dark_succ by done. assert (0 <= Z.land (f m) 1 <= 1); [|lia].
  change 1 with (Z.ones 1). rewrite Z.land_ones by lia. change (2 ^ 1) with 2.
  change (Z.ones 1) with 1. dlia.
Qed.

Lemma mask_candidate_ok width frame level i d :
  9 <= width <= 177 -> bsize frame = width * width -> bsize d = width * width ->
  exists c, mask_candidate width frame level i d = Ret c /\ bsize c.1 = width * width /\
    c.2 < INT_MAX.
Proof.
  intros Hw Hf Hd. unfold mask_candidate.
  destruct (MASKMAKER_spec i width frame d) as (m & -> & Hm & _); [lia|done|done|]. run.
  pose proof (dark_bounds (masked i width frame) (width * width) ltac:(nia)) as Hb.
  destruct (writeFormat_ok width i level m) as (st & -> & Hs & Hst); [lia|done|]. run.
  destruct (evaluate_ok width st.1) as (e & -> & He); [done|done|]. run.
  eexists. split; [done|]. split; [done|]. simpl.
  set (q := (200 * _ + _) `quot` _).
  assert (Hq : 0 <= q <= 400).
  { subst q. rewrite Z.quot_div_nonneg by nia. split; [apply Z.div_pos; nia|].
    apply Z.div_le_upper_bound; nia. }
  rewrite (Z.quot_div_nonneg q) by lia. rewrite Z.quot_div_nonneg by lia.
  unfold N4, INT_MAX. dlia.
Qed.

(** The loop of [Mask_mask] finds the first best candidate. *)
Lemma Mask_mask_spec width frame level :
  9 <= width <= 177 -> bsize frame = width * width ->
  exists i best m demerit,
    Mask_mask width frame level = Ret (Some best) /\
    0 <= i < 8 /\ Mask_makeMask width frame i level = Ret (Some m) /\ best ≡ m /\
    (forall j, 0 <= j < 8 -> exists f,
       mask_candidate width frame level j (calloc (width * width)) = Ret (f, demerit j)) /\
    forall j, 0 <= j < 8 -> demerit i <= demerit j /\ (j < i -> demerit i < demerit j).
Proof.
  intros Hw Hf. set (blank := calloc (width * width)).
  pose (cand := fun j => match mask_candidate width frame level j blank with
                         | Ret c => c | Fault _ => (blank, 0) end).
  assert (Hcand : forall j, mask_candidate width frame level j blank = Ret (cand j) /\
                            bsize (cand j).1 = width * width /\ (cand j).2 < INT_MAX).
  { intros j. destruct (mask_candidate_ok width frame level j blank) as (c & Hc & H1 & H2);
      [done|done|done|]. unfold cand. rewrite Hc. done. }
  pose (P := fun (k : Z) (st : block * Z * option block) =>
    bsize st.1.1 = width * width /\
    (k = 0 /\ st.1.2 = INT_MAX \/
     exists i best, 0 <= i < k /\ st.2 = Some best /\ best ≡ (cand i).1 /\ st.1.2 = (cand i).2 /\
       forall j, 0 <= j < k -> (cand i).2 <= (cand j).2 /\ (j < i -> (cand i).2 < (cand j).2))).
  destruct (for_seqZ_ind P 0 8 (fun i st =>
    let '(mask, minDemerit, bestMask) := st in
    c ← mask_candidate width frame level i mask;
    if bool_decide (c.2 < minDemerit)
    then Ret (calloc (width * width), c.2, Some c.1)
    else Ret (c.1, minDemerit, bestMask)) (blank, INT_MAX, None))
    as (st & Hst & Hsz & HP); [lia|split; [done|by left]| |].
  { intros k [[mask mn] best] Hk [Hsz HP]. simpl in Hsz, HP.
    destruct (Hcand k) as (Hck & Hsk & Hlk).
    pose proof (mask_candidate_rel width frame level k mask blank ltac:(lia) Hf Hsz eq_refl) as Hrel.
    rewrite Hck in Hrel. destruct (mask_candidate width frame level k mask) as [c|]; [|done].
    destruct Hrel as [Hr1 Hr2]. run. case_bool_decide as Hlt.
    - eexists. split; [done|]. split; [done|]. right. exists k, c.1. simpl.
      split_and!; [lia|lia|done|done|done|]. intros j Hj.
      destruct HP as [[-> ->]|(i & b & Hi & _ & _ & Hmn & Hall)]; [assert (j = 0) as -> by lia; lia|].
      destruct (decide (j = k)) as [->|]; [lia|]. specialize (Hall j ltac:(lia)). lia.
    - eexists. split; [done|]. split; [simpl; by rewrite (proj1 Hr1)|]. right. simpl.
      destruct HP as [[-> ->]|(i & b & Hi & -> & Hb & Hmn & Hall)]; [lia|].
      exists i, b. split_and!; [lia|lia|done|done|done|]. intros j Hj.
      destruct (decide (j = k)) as [->|]; [lia|]. apply Hall. lia. }
  destruct HP as [[? _]|(i & best & Hi & Hb & Heq & Hmn & Hall)]; [lia|].
  destruct (Hcand i) as (Hci & _ & _). unfold mask_candidate in Hci.
  destruct (MASKMAKER i width frame blank) as [r|] eqn:Em; [|done]. cbn [mbind outcome_bind] in Hci.
  destruct (Mask_writeFormatInformation width r.1 i level) as [f|] eqn:Ew; [|done].
  cbn [mbind outcome_bind] in Hci. destruct (Mask_evaluateSymbol width f.1); [|done].
  exists i, best, f.1, (fun j => (cand j).2). split_and!; try lia.
  - assert (Hm : Mask_mask width frame level = (x ← (Ret st : outcome _); Ret x.2))
      by (rewrite <- Hst; reflexivity).
    rewrite Hm. run. by rewrite Hb.
  - unfold Mask_makeMask. rewrite bool_decide_eq_false_2 by lia. fold blank. rewrite Em. run. by rewrite Ew.
  - rewrite Heq. apply (inj Ret) in Hci. by rewrite <- Hci.
  - intros j Hj. exists (cand j).1. destruct (Hcand j) as (-> & _). by rewrite <- surjective_pairing.
  - exact Hall.
Qed.

(** C32: The choice of the mask always succeeds and is the best one: the frame
    it returns is the one [Mask_makeMask] makes for some mask whose demerit is
    at most that of every mask, and less than that of every earlier one. *)
Theorem Mask_mask_best width frame level :
  9 <= width <= 177 -> bsize frame = width * width ->
  exists i best m demerit,
    Mask_mask width frame level = Ret (Some best) /\
    0 <= i < 8 /\ Mask_makeMask width frame i level = Ret (Some m) /\ best ≡ m /\
    (forall j, 0 <= j < 8 -> exists f,
       mask_candidate width frame level j (calloc (width * width)) = Ret (f, demerit j)) /\
    forall j, 0 <= j < 8 -> demerit i <= demerit j /\ (j < i -> demerit i < demerit j).
Proof. apply Mask_mask_spec. Qed.

(** ** Witnesses *)

Lemma mask_involution_witness :
  exists d1 d2 b2, MASKMAKER 5 21 (calloc 441) (calloc 441) = Ret (d1, dark (cell d1) 441) /\
    MASKMAKER 5 21 d1 (calloc 441) = Ret (d2, b2) /\
    forall p, 0 <= p < 441 ->
      (Z.land (cell (calloc 441) p) 0x80 <> 0 -> cell d1 p = cell (calloc 441) p) /\
      cell d2 p = cell (calloc 441) p.
Proof. apply (mask_involution 5 21 (calloc 441) (calloc 441)); [lia|reflexivity|reflexivity]. Defined.

Lemma Mask_mask_best_witness :
  exists i best m demerit,
    Mask_mask 21 (calloc 441) QR_ECLEVEL_M = Ret (Some best) /\
    0 <= i < 8 /\ Mask_makeMask 21 (calloc 441) i QR_ECLEVEL_M = Ret (Some m) /\ best ≡ m /\
    (forall j, 0 <= j < 8 -> exists f,
       mask_candidate 21 (calloc 441) QR_ECLEVEL_M j (calloc 441) = Ret (f, demerit j)) /\
    forall j, 0 <= j < 8 -> demerit i <= demerit j /\ (j < i -> demerit i < demerit j).
Proof. apply (Mask_mask_best 21 (calloc 441) QR_ECLEVEL_M); [lia|reflexivity]. Defined.
