(* ===== verification/QrFrame.v ===== *)
(** * Filling the frame

    The frame filler of [C/qrencode-3.4.4/qrencode.c]: the walk over the
    modules that are not part of a function pattern. *)

From stdpp Require Import sorting.
From S2P Require Import Prelude Block QrSpec QrMask.
#[local] Open Scope Z_scope.

(** The frame itself is passed separately: it is shared with the caller. *)
(* @src C/qrencode-3.4.4/qrencode.c:290-297 FrameFiller *)
Record FrameFiller := Filler {
  f_width : Z; f_x : Z; f_y : Z; f_dir : Z; f_bit : Z; f_mqr : bool }.

(* @src C/qrencode-3.4.4/qrencode.c:299-314 FrameFiller_new *)
Definition FrameFiller_new (width : Z) (mqr : bool) : FrameFiller :=
  Filler width (width - 1) (width - 1) (-1) (-1) mqr.

(** The coordinates one step further, with the new direction and bit. *)
(* @src C/qrencode-3.4.4/qrencode.c:326-360 FrameFiller_next *)
Definition filler_step (f : FrameFiller) : FrameFiller :=
  let w := f_width f in
  let '(x, y, bit) :=
    if bool_decide (f_bit f = 0) then (f_x f - 1, f_y f, f_bit f + 1)
    else (f_x f + 1, f_y f + f_dir f, f_bit f - 1) in
  if bool_decide (f_dir f < 0) then
    if bool_decide (y < 0) then
      let x := x - 2 in
      if negb (f_mqr f) && bool_decide (x = 6)
      then Filler w (x - 1) 9 1 bit (f_mqr f)
      else Filler w x 0 1 bit (f_mqr f)
    else Filler w x y (f_dir f) bit (f_mqr f)
  else
    if bool_decide (y = w) then
      let x := x - 2 in
      if negb (f_mqr f) && bool_decide (x = 6)
      then Filler w (x - 1) (w - 1 - 8) (-1) bit (f_mqr f)
      else Filler w x (w - 1) (-1) bit (f_mqr f)
    else Filler w x y (f_dir f) bit (f_mqr f).

(** The position of the next module, [None] where the C code returns NULL (it
    then keeps the old coordinates). The recursion skips function modules. *)
(* @src C/qrencode-3.4.4/qrencode.c:316-371 FrameFiller_next *)
Fixpoint FrameFiller_next (fuel : nat) (frame : block) (f : FrameFiller)
    : outcome (option Z * FrameFiller) :=
  match fuel with
  | O => Fault OutOfFuel
  | S fuel =>
      if bool_decide (f_bit f = -1) then
        Ret (Some (f_y f * f_width f + f_x f),
             Filler (f_width f) (f_x f) (f_y f) (f_dir f) 0 (f_mqr f))
      else
        let f' := filler_step f in
        if bool_decide (f_x f' < 0 \/ f_y f' < 0) then
          Ret (None, Filler (f_width f) (f_x f) (f_y f) (f_dir f') (f_bit f') (f_mqr f))
        else
          let p := f_y f' * f_width f' + f_x f' in
          v ← peek frame p;
          if bool_decide (Z.land v 0x80 <> 0) then FrameFiller_next fuel frame f'
          else Ret (Some p, f')
  end.

(** A call skips at most the modules of the whole frame. *)
Definition filler_fuel (width : Z) : nat := Z.to_nat (width * width).

(** The positions of the next [n] modules. *)
Fixpoint walk (fuel n : nat) (frame : block) (f : FrameFiller) : outcome (list Z) :=
  match n with
  | O => Ret []
  | S n =>
      r ← FrameFiller_next fuel frame f;
      match r.1 with
      | None => Ret []
      | Some p => rest ← walk fuel n frame r.2; Ret (p :: rest)
      end
  end.

(** The modules of a frame that carry data. *)
Definition data_modules (frame : block) : list Z :=
  filter (fun p => Z.land (cell frame p) 0x80 = 0) (seqZ 0 (bsize frame)).

(** The number of modules the code words and the remainder bits need. *)
Definition symbol_bits (version : Z) : Z :=
  words (capacity version) * 8 + QRspec_getRemainder version.

(** *** The walk through every version *)

(** The frame of a version, and the walk through it. *)
Definition frame_of (v : Z) : block :=
  match QRspec_createFrame v with Ret f => f | Fault _ => calloc 0 end.

Definition walk_of (v : Z) : list Z :=
  let w := QRspec_getWidth v in
  match walk (filler_fuel w) (Z.to_nat (symbol_bits v)) (frame_of v) (FrameFiller_new w false) with
  | Ret l => l
  | Fault _ => []
  end.

(** [data_modules], to be evaluated. *)
Definition data_modules_fast (frame : block) : list Z :=
  filter (fun p => Z.land (cell frame p) 0x80 = 0)
    (range_from (Z.to_nat (bsize frame)) 0).

Lemma data_modules_fast_eq frame : 0 <= bsize frame -> data_modules_fast frame = data_modules frame.
Proof. intros. unfold data_modules_fast, data_modules. by rewrite range_from_seqZ, Z2Nat.id. Qed.

Fixpoint zlist_eqb (l k : list Z) : bool :=
  match l, k with
  | [], [] => true
  | a :: l, b :: k => (a =? b) && zlist_eqb l k
  | _, _ => false
  end.

Lemma zlist_eqb_eq l k : zlist_eqb l k = true -> l = k.
Proof.
  revert k. induction l as [|a l IH]; intros [|b k]; simpl; try done.
  intros [Hab Hlk]%andb_true_iff. apply Z.eqb_eq in Hab as ->. f_equal. by apply IH.
Qed.

(** The checks made for each version by evaluation. *)
Definition version_check (v : Z) : bool :=
  let w := QRspec_getWidth v in
  match QRspec_createFrame v with
  | Ret frame =>
      (9 <=? w) && (w <=? 177) && (bsize frame =? w * w) &&
      forallb (fun p => negb (Z.land (cell frame p) 0x80 =? 0)) (format_places w) &&
      match walk (filler_fuel w) (Z.to_nat (symbol_bits v)) frame (FrameFiller_new w false) with
      | Ret l => (Z.of_nat (length l) =? symbol_bits v) &&
                 zlist_eqb (merge_sort Z.le l) (data_modules_fast frame)
      | Fault _ => false
      end
  | Fault _ => false
  end.

Record version_facts (v : Z) (frame : block) (l : list Z) : Prop := {
  vf_frame : QRspec_createFrame v = Ret frame;
  vf_width : 9 <= QRspec_getWidth v <= 177;
  vf_size : bsize frame = QRspec_getWidth v * QRspec_getWidth v;
  vf_walk : walk (filler_fuel (QRspec_getWidth v)) (Z.to_nat (symbol_bits v)) frame
              (FrameFiller_new (QRspec_getWidth v) false) = Ret l;
  vf_length : Z.of_nat (length l) = symbol_bits v;
  vf_perm : l ≡ₚ data_modules frame;
  vf_format : Forall (fun p => Z.land (cell frame p) 0x80 <> 0) (format_places (QRspec_getWidth v)) }.

Lemma version_facts_all v : 1 <= v <= QRSPEC_VERSION_MAX -> exists frame l, version_facts v frame l.
Proof.
  intros Hv.
  assert (H : forallb version_check (seqZ 1 40) = true) by (vm_compute; reflexivity).
  rewrite forallb_forall in H. unfold QRSPEC_VERSION_MAX in Hv.
  specialize (H v ltac:(apply list_elem_of_In, elem_of_seqZ; lia)). unfold version_check in H.
  destruct (QRspec_createFrame v) as [frame|] eqn:Ef; [|done].
  apply andb_true_iff in H as [H Hw]. apply andb_true_iff in H as [H Hf].
  apply andb_true_iff in H as [H Hs]. apply andb_true_iff in H as [H1 H2].
  apply Z.leb_le in H1, H2. apply Z.eqb_eq in Hs.
  destruct (walk _ _ frame _) as [l|] eqn:El; [|done].
  apply andb_true_iff in Hw as [Hl Hp]. apply Z.eqb_eq in Hl. apply zlist_eqb_eq in Hp.
  rewrite data_modules_fast_eq in Hp by nia.
  exists frame, l. constructor; try done.
  - rewrite <- Hp. symmetry. apply merge_sort_Permutation.
  - rewrite forallb_forall in Hf. apply Forall_forall. intros p Hin.
    specialize (Hf p (proj1 (list_elem_of_In _ _) Hin)).
    by apply negb_true_iff, Z.eqb_neq in Hf.
Qed.

Lemma format_places_NoDup v :
  1 <= v <= QRSPEC_VERSION_MAX -> NoDup (format_places (QRspec_getWidth v)).
Proof.
  revert v. apply (for_all_versions (fun v => NoDup (format_places (QRspec_getWidth v)))).
  by vm_compute.
Qed.

(** C29: In every version the frame filler visits, for the code words and the
    remainder bits, every module that is not part of a function pattern
    exactly once and no other: the positions it returns are a permutation of
    the free modules of the frame, so the capacity tables, the function
    patterns and the walk fit together. *)
Theorem filler_visits_every_free_module v :
  1 <= v <= QRSPEC_VERSION_MAX ->
  exists frame l, QRspec_createFrame v = Ret frame /\
    bsize frame = QRspec_getWidth v * QRspec_getWidth v /\
    walk (filler_fuel (QRspec_getWidth v)) (Z.to_nat (symbol_bits v)) frame
      (FrameFiller_new (QRspec_getWidth v) false) = Ret l /\
    l ≡ₚ filter (fun p => Z.land (cell frame p) 0x80 = 0) (seqZ 0 (bsize frame)) /\
    NoDup l /\ Z.of_nat (length l) = words (capacity v) * 8 + QRspec_getRemainder v.
Proof.
  intros Hv. destruct (version_facts_all v Hv) as (frame & l & []). exists frame, l.
  split_and!; try done. rewrite vf_perm0. apply NoDup_filter, NoDup_seqZ.
Qed.

Lemma filler_visits_every_free_module_witness :
  exists frame l, QRspec_createFrame 7 = Ret frame /\ bsize frame = 45 * 45 /\
    walk (filler_fuel 45) (Z.to_nat (symbol_bits 7)) frame (FrameFiller_new 45 false) = Ret l /\
    l ≡ₚ filter (fun p => Z.land (cell frame p) 0x80 = 0) (seqZ 0 (bsize frame)) /\
    NoDup l /\ Z.of_nat (length l) = 196 * 8 + 0.
Proof. apply (filler_visits_every_free_module 7). unfold QRSPEC_VERSION_MAX. lia. Defined.

(** ** Writing along the walk *)

(** One module: the value goes to the next free position. [None] is the exit
    on NULL. *)
(* @src C/qrencode-3.4.4/qrencode.c:507-509 QRcode_encodeMask *)
Definition place_bit (fuel : nat) (v : Z) (st : block * FrameFiller)
    : outcome (option (block * FrameFiller)) :=
  r ← FrameFiller_next fuel st.1 st.2;
  match r.1 with
  | None => Ret None
  | Some p => frame ← poke p v st.1; Ret (Some (frame, r.2))
  end.

Fixpoint place_bits (fuel : nat) (vs : list Z) (st : block * FrameFiller)
    : outcome (option (block * FrameFiller)) :=
  match vs with
  | [] => Ret (Some st)
  | v :: vs =>
      r ← place_bit fuel v st;
      match r with
      | None => Ret None
      | Some st => place_bits fuel vs st
      end
  end.

Lemma place_bits_app fuel vs ws st :
  place_bits fuel (vs ++ ws) st =
  (r ← place_bits fuel vs st;
   match r with None => Ret None | Some st => place_bits fuel ws st end).
Proof.
  revert st. induction vs as [|v vs IH]; intros st; simpl; [done|].
  destruct (place_bit fuel v st) as [[st'|]|]; simpl; [apply IH|done|done].
Qed.

(** Frames with the same function modules. *)
Definition same_functions (f g : block) : Prop :=
  bsize f = bsize g /\
  forall p, 0 <= p < bsize f -> (Z.land (cell f p) 0x80 = 0 <-> Z.land (cell g p) 0x80 = 0).

Lemma next_same_functions fuel f g filler :
  same_functions f g -> FrameFiller_next fuel f filler = FrameFiller_next fuel g filler.
Proof.
  intros [Hs Hc]. revert filler. induction fuel as [|fuel IH]; intros filler; [done|].
  cbn [FrameFiller_next]. case_bool_decide; [done|]. case_bool_decide; [done|].
  set (p := _ + _). unfold peek, in_block. rewrite <- Hs. case_bool_decide; [|done]. run.
  specialize (Hc p ltac:(done)). rewrite IH.
  destruct (decide (Z.land (cell f p) 0x80 = 0)).
  - rewrite !bool_decide_eq_false_2 by tauto. done.
  - rewrite !bool_decide_eq_true_2 by tauto. done.
Qed.

Lemma walk_same_functions fuel n f g filler :
  same_functions f g -> walk fuel n f filler = walk fuel n g filler.
Proof.
  intros Hfg. revert filler. induction n as [|n IH]; intros filler; simpl; [done|].
  rewrite (next_same_functions _ _ _ _ Hfg).
  destruct (FrameFiller_next fuel g filler) as [[[p|] filler']|]; run; [|done|done].
  by rewrite IH.
Qed.

(** Values written along a walk stand where the walk went. *)
Lemma place_bits_walk fuel vs f filler l :
  walk fuel (length vs) f filler = Ret l -> length l = length vs -> NoDup l ->
  Forall (fun p => 0 <= p < bsize f /\ Z.land (cell f p) 0x80 = 0) l ->
  Forall (fun v => Z.land v 0x80 = 0) vs ->
  exists f' filler', place_bits fuel vs (f, filler) = Ret (Some (f', filler')) /\
    bsize f' = bsize f /\
    (forall i p v, l !! i = Some p -> vs !! i = Some v -> cell f' p = v) /\
    forall p, p ∉ l -> cell f' p = cell f p.
Proof.
  revert f filler l. induction vs as [|v vs IH]; intros f filler l Hw Hl Hnd Hall Hv.
  { destruct l; [|done]. exists f, filler. split_and!; try done. }
  cbn [walk length] in Hw. simpl.
  unfold place_bit. cbn [fst snd].
  destruct (FrameFiller_next fuel f filler) as [[[p|] filler1]|]; run; cbn [mbind outcome_bind fst snd] in Hw;
    [|injection Hw as <-; done|done].
  destruct (walk fuel (length vs) f filler1) as [l1|] eqn:Hw1; [|done].
  cbn [mbind outcome_bind] in Hw. apply (inj Ret) in Hw. subst l.
  apply NoDup_cons in Hnd as [Hp Hnd]. apply Forall_cons in Hall as [[Hr Hb] Hall].
  apply Forall_cons in Hv as [Hv0 Hv].
  destruct (poke_ok p v f Hr) as (f1 & -> & Hs1 & Hc1). run.
  assert (Hsf : same_functions f f1).
  { split; [done|]. intros q Hq. rewrite Hc1. case_bool_decide; [subst; tauto|done]. }
  destruct (IH f1 filler1 l1) as (f2 & filler2 & Hpl & Hs2 & Hat & Hother).
  - by rewrite <- (walk_same_functions _ _ _ _ _ Hsf).
  - simpl in Hl. lia.
  - done.
  - eapply Forall_impl; [exact Hall|]. intros q [Hq1 Hq2]. rewrite Hs1. split; [done|].
    by apply (proj2 Hsf).
  - done.
  - exists f2, filler2. split; [done|]. split; [congruence|]. split.
    + intros [|i] q w Hq Hw; simpl in Hq, Hw; [|by eapply Hat].
      simplify_eq. rewrite Hother by done. rewrite Hc1. by rewrite bool_decide_eq_true_2.
    + intros q Hq. apply not_elem_of_cons in Hq as [Hq1 Hq2]. rewrite Hother by done.
      rewrite Hc1. by rewrite bool_decide_eq_false_2.
Qed.
