(* ===== verification/QrRaw.v ===== *)
(** * Code words: blocks, check symbols and interleaving

    [RSblock_init], [QRraw_new] and [QRraw_getCode] of
    [C/qrencode-3.4.4/qrencode.c]: the data words are cut into blocks, each
    block gets its check words, and the words are read out column by column.
    The cache of Reed-Solomon codecs is passed along. *)

From stdpp Require Import sorting.
From S2P Require Import Prelude Block RsCode QrSpec QrFrame.
#[local] Open Scope Z_scope.

(** [data] is the pointer into the data words: everything from the block's
    start on. *)
(* @src C/qrencode-3.4.4/qrencode.c:43-48 RSblock *)
Record RSblock := MkRSblock {
  rb_dataLength : Z; rb_data : list Z; rb_eccLength : Z; rb_ecc : list Z }.

(* @src C/qrencode-3.4.4/qrencode.c:50-60 QRRawCode *)
Record QRRawCode := MkRaw {
  raw_version : Z;
  raw_dataLength : Z;
  raw_eccLength : Z;
  raw_b1 : Z;
  raw_blocks : Z;
  raw_rsblock : list RSblock;
  raw_count : Z }.

(* @src C/qrencode-3.4.4/qrencode.c:62-70 RSblock_initBlock *)
Definition RSblock_initBlock (dl : Z) (data : list Z) (el : Z) (rs : RS) : outcome RSblock :=
  ecc ← encode_rs_char rs data;
  Ret (MkRSblock dl data el ecc).

(** [n] blocks in a row, and the data pointer behind them. *)
(* @src C/qrencode-3.4.4/qrencode.c:88-93 RSblock_init *)
Fixpoint init_blocks (n : nat) (dl el : Z) (rs : RS) (data : list Z)
    : outcome (list RSblock * list Z) :=
  match n with
  | O => Ret ([], data)
  | S n =>
      b ← RSblock_initBlock dl data el rs;
      r ← init_blocks n dl el rs (drop (Z.to_nat dl) data);
      Ret (b :: r.1, r.2)
  end.

(* @src C/qrencode-3.4.4/qrencode.c:72-109 RSblock_init *)
Definition RSblock_init (rslist : list RS) (spec : ecc_spec) (data : list Z)
    : outcome (option (list RSblock) * list RS) :=
  let dl := rsDataCodes1 spec in
  let el := rsEccCodes1 spec in
  i ← init_rs rslist 8 0x11d 0 1 el (255 - dl - el);
  match i.1 with
  | None => Ret (None, i.2)
  | Some rs =>
      r ← init_blocks (Z.to_nat (rsBlockNum1 spec)) dl el rs data;
      if bool_decide (rsBlockNum2 spec = 0) then Ret (Some r.1, i.2)
      else
        let dl := rsDataCodes2 spec in
        let el := rsEccCodes2 spec in
        j ← init_rs i.2 8 0x11d 0 1 el (255 - dl - el);
        match j.1 with
        | None => Ret (None, j.2)
        | Some rs =>
            s ← init_blocks (Z.to_nat (rsBlockNum2 spec)) dl el rs r.2;
            Ret (Some (r.1 ++ s.1), j.2)
        end
  end.

(** With the byte stream of the input, if there is one. *)
(* @src C/qrencode-3.4.4/qrencode.c:112-154 QRraw_new *)
Definition QRraw_new (rslist : list RS) (version : Z) (level : QRecLevel)
    (datacode : option (list Z)) : outcome (option QRRawCode * list RS) :=
  match datacode with
  | None => Ret (None, rslist)
  | Some datacode =>
      let spec := QRspec_getEccSpec version level in
      r ← RSblock_init rslist spec datacode;
      match r.1 with
      | None => Ret (None, r.2)
      | Some rsblock =>
          Ret (Some (MkRaw version (rsDataLength spec) (rsEccLength spec) (rsBlockNum1 spec)
                       (rsBlockNum spec) rsblock 0), r.2)
      end
  end.

(** [rsblock[row]] *)
Definition block_at (bs : list RSblock) (row : Z) : outcome RSblock :=
  match bs !! Z.to_nat row with Some b => Ret b | None => Fault OutOfBounds end.

Definition count_up (raw : QRRawCode) : QRRawCode :=
  MkRaw (raw_version raw) (raw_dataLength raw) (raw_eccLength raw) (raw_b1 raw)
    (raw_blocks raw) (raw_rsblock raw) (raw_count raw + 1).

(* @src C/qrencode-3.4.4/qrencode.c:162-183 QRraw_getCode *)
Definition QRraw_getCode (raw : QRRawCode) : outcome (Z * QRRawCode) :=
  let count := raw_count raw in
  if bool_decide (count < raw_dataLength raw) then
    let row := count `mod` raw_blocks raw in
    let col := count / raw_blocks raw in
    b0 ← block_at (raw_rsblock raw) 0;
    let row := if bool_decide (col >= rb_dataLength b0) then row + raw_b1 raw else row in
    b ← block_at (raw_rsblock raw) row;
    ret ← byte_at (rb_data b) col;
    Ret (ret, count_up raw)
  else if bool_decide (count < raw_dataLength raw + raw_eccLength raw) then
    let row := (count - raw_dataLength raw) `mod` raw_blocks raw in
    let col := (count - raw_dataLength raw) / raw_blocks raw in
    b ← block_at (raw_rsblock raw) row;
    ret ← byte_at (rb_ecc b) col;
    Ret (ret, count_up raw)
  else Ret (0, raw).

(** The results of [n] calls. *)
Fixpoint getCodes (n : nat) (raw : QRRawCode) : outcome (list Z) :=
  match n with
  | O => Ret []
  | S n => r ← QRraw_getCode raw; rest ← getCodes n r.2; Ret (r.1 :: rest)
  end.

(** ** Where each code word comes from *)

(** The first data word of block [row]. *)
Definition block_start (s : ecc_spec) (row : Z) : Z :=
  if bool_decide (row < rsBlockNum1 s) then row * rsDataCodes1 s
  else rsBlockNum1 s * rsDataCodes1 s + (row - rsBlockNum1 s) * rsDataCodes2 s.

(** The place, in data words followed by check words, of the [c]-th word read
    out. *)
Definition source_index (s : ecc_spec) (c : Z) : Z :=
  if bool_decide (c < rsDataLength s) then
    let row := c `mod` rsBlockNum s in
    let col := c / rsBlockNum s in
    block_start s (if bool_decide (col >= rsDataCodes1 s) then row + rsBlockNum1 s else row) + col
  else
    let k := c - rsDataLength s in
    rsDataLength s + (k `mod` rsBlockNum s) * rsEccCodes1 s + k / rsBlockNum s.

(** The row and column of the [c]-th data word. *)
Definition data_row (s : ecc_spec) (c : Z) : Z :=
  let row := c `mod` rsBlockNum s in
  if bool_decide (c / rsBlockNum s >= rsDataCodes1 s) then row + rsBlockNum1 s else row.

Definition rows_ok (s : ecc_spec) (c : Z) : bool :=
  (0 <=? data_row s c) && (data_row s c <? rsBlockNum s) &&
  (0 <=? source_index s c) && (source_index s c <? rsDataLength s).

Definition interleave_check (v : Z) (l : QRecLevel) : bool :=
  let s := QRspec_getEccSpec v l in
  let n := Z.to_nat (rsDataLength s + rsEccLength s) in
  zlist_eqb (merge_sort Z.le (map (source_index s) (range_from n 0))) (range_from n 0) &&
  forallb (rows_ok s) (range_from (Z.to_nat (rsDataLength s)) 0).

Lemma interleave_facts v l :
  1 <= v <= QRSPEC_VERSION_MAX ->
  let s := QRspec_getEccSpec v l in
  map (source_index s) (seqZ 0 (rsDataLength s + rsEccLength s)) ≡ₚ
    seqZ 0 (rsDataLength s + rsEccLength s) /\
  forall c, 0 <= c < rsDataLength s ->
    0 <= data_row s c < rsBlockNum s /\ 0 <= source_index s c < rsDataLength s.
Proof.
  intros Hv s.
  assert (H : forallb (fun v => forallb (interleave_check v) all_levels) (seqZ 1 40) = true)
    by (vm_compute; reflexivity).
  rewrite forallb_forall in H. unfold QRSPEC_VERSION_MAX in Hv.
  specialize (H v ltac:(apply list_elem_of_In, elem_of_seqZ; lia)).
  rewrite forallb_forall in H.
  specialize (H l ltac:(destruct l; simpl; tauto)).
  unfold interleave_check in H. fold s in H. apply andb_true_iff in H as [H1 H2].
  apply zlist_eqb_eq in H1. rewrite !range_from_seqZ in *.
  destruct (block_spec_all v l Hv) as (_ & _ & Hb1 & Hb2 & Hd1 & He & _ & Hd2).
  fold s in Hb1, Hb2, Hd1, He, Hd2. unfold rsDataLength, rsEccLength, rsBlockNum in *.
  rewrite !Z2Nat.id in * by nia. split.
  - rewrite <- H1 at 2. symmetry. apply merge_sort_Permutation.
  - intros c Hc. rewrite forallb_forall in H2.
    specialize (H2 c ltac:(apply list_elem_of_In, elem_of_seqZ; lia)).
    unfold rows_ok in H2. rewrite !andb_true_iff, !Z.leb_le, !Z.ltb_lt in H2. tauto.
Qed.

(** ** The blocks *)

(** Block [i] of a run of blocks of [dl] data and [el] check words. *)
Definition block_ok (dl el : Z) (data : list Z) (i : nat) (b : RSblock) : Prop :=
  rb_dataLength b = dl /\ rb_data b = drop (i * Z.to_nat dl) data /\ rb_eccLength b = el /\
  Z.of_nat (length (rb_ecc b)) = el /\ Forall byte (rb_ecc b) /\
  forall k, (k < Z.to_nat el)%nat ->
    eval_at k (take (Z.to_nat dl) (drop (i * Z.to_nat dl) data) ++ rb_ecc b) = 0.

Lemma encode_block dl el pd data :
  1 <= el <= max_nroots -> 0 < dl -> pd = 255 - dl - el -> 0 <= pd ->
  Forall byte data -> dl <= Z.of_nat (length data) ->
  exists ecc, encode_rs_char (qr_rs el pd) data = Ret ecc /\
    Z.of_nat (length ecc) = el /\ Forall byte ecc /\
    forall k, (k < Z.to_nat el)%nat -> eval_at k (take (Z.to_nat dl) data ++ ecc) = 0.
Proof.
  intros Hel Hdl Hpad Hpos Hb Hlen. unfold encode_rs_char. cbn [nn nroots pad qr_rs].
  assert (Hr : mem_read 0 (255 - el - pd) data = Ret (take (Z.to_nat dl) data)).
  { unfold mem_read. rewrite bool_decide_eq_true_2 by lia. rewrite drop_0.
    by replace (255 - el - pd) with dl by lia. }
  rewrite Hr. run. eexists. split; [done|].
  apply (encode_fold el pd (take (Z.to_nat dl) data) _ []); try done.
  - rewrite length_replicate. lia.
  - apply Forall_replicate. by unfold byte.
  - by apply Forall_take.
  - intros. apply eval_at_zeros.
Qed.

Lemma init_blocks_ok n dl el data :
  1 <= el <= max_nroots -> 0 < dl -> 0 <= 255 - dl - el ->
  Forall byte data -> Z.of_nat n * dl <= Z.of_nat (length data) ->
  exists bs, init_blocks n dl el (qr_rs el (255 - dl - el)) data =
      Ret (bs, drop (n * Z.to_nat dl) data) /\ length bs = n /\
    forall i b, bs !! i = Some b -> block_ok dl el data i b.
Proof.
  intros Hel Hdl Hpad. revert data. induction n as [|n IH]; intros data Hb Hlen.
  { exists []. split_and!; done. }
  destruct (encode_block dl el _ data Hel Hdl eq_refl Hpad Hb) as (ecc & He & Hel' & Heb & Hroot); [lia|].
  cbn [init_blocks]. unfold RSblock_initBlock. rewrite He. run.
  destruct (IH (drop (Z.to_nat dl) data)) as (bs & Hi & Hl & Hat).
  { by apply Forall_drop. } { rewrite length_drop. lia. }
  rewrite Hi. run. eexists. split; [|split].
  - rewrite drop_drop. reflexivity.
  - simpl. by rewrite Hl.
  - intros [|i] b Hbi; simpl in Hbi.
    + simplify_eq. unfold block_ok. simpl. rewrite drop_0. split_and!; done.
    + specialize (Hat i b Hbi). unfold block_ok in *. rewrite drop_drop in Hat.
      by replace (S i * Z.to_nat dl)%nat with (Z.to_nat dl + i * Z.to_nat dl)%nat by lia.
Qed.

(** The block in row [r] of a symbol. *)
Definition row_ok (s : ecc_spec) (data : list Z) (r : Z) (b : RSblock) : Prop :=
  let dl := if bool_decide (r < rsBlockNum1 s) then rsDataCodes1 s else rsDataCodes2 s in
  rb_dataLength b = dl /\ rb_data b = drop (Z.to_nat (block_start s r)) data /\
  Z.of_nat (length (rb_ecc b)) = rsEccCodes1 s /\ Forall byte (rb_ecc b) /\
  forall k, (k < Z.to_nat (rsEccCodes1 s))%nat ->
    eval_at k (take (Z.to_nat dl) (drop (Z.to_nat (block_start s r)) data) ++ rb_ecc b) = 0.

Lemma init_rs_qr rslist n pad :
  cache_ok rslist -> 1 <= n <= max_nroots -> 0 <= pad < 255 - n ->
  exists rslist', init_rs rslist 8 0x11d 0 1 n pad = Ret (Some (qr_rs n pad), rslist') /\
    cache_ok rslist'.
Proof. intros. apply init_rs_spec; [done|]. by apply init_rs_char_qr. Qed.

Lemma RSblock_init_ok rslist v l data :
  1 <= v <= QRSPEC_VERSION_MAX -> cache_ok rslist -> Forall byte data ->
  let s := QRspec_getEccSpec v l in
  Z.of_nat (length data) = rsDataLength s ->
  exists bs rslist', RSblock_init rslist s data = Ret (Some bs, rslist') /\ cache_ok rslist' /\
    Z.of_nat (length bs) = rsBlockNum s /\
    forall r b, bs !! r = Some b -> row_ok s data (Z.of_nat r) b.
Proof.
  intros Hv Hc Hb s Hlen. destruct (block_spec_all v l Hv) as (_ & _ & Hb1 & Hb2 & Hd1 & He & Hde & Hd2).
  fold s in Hb1, Hb2, Hd1, He, Hde, Hd2. unfold rsDataLength, rsBlockNum in *.
  unfold RSblock_init.
  destruct (init_rs_qr rslist (rsEccCodes1 s) (255 - rsDataCodes1 s - rsEccCodes1 s))
    as (c1 & -> & Hc1); [done|unfold max_nroots; lia|lia|]. run.
  destruct (init_blocks_ok (Z.to_nat (rsBlockNum1 s)) (rsDataCodes1 s) (rsEccCodes1 s) data)
    as (bs1 & Hi1 & Hl1 & Hat1); [unfold max_nroots; lia|lia|lia|done|nia|].
  rewrite Hi1. run.
  assert (Hrow1 : forall r b, bs1 !! r = Some b -> row_ok s data (Z.of_nat r) b).
  { intros r b Hr. pose proof (lookup_lt_Some _ _ _ Hr) as Hlt. specialize (Hat1 r b Hr).
    unfold row_ok, block_start, block_ok in *. rewrite !bool_decide_eq_true_2 by lia.
    replace (Z.to_nat (Z.of_nat r * rsDataCodes1 s)) with (r * Z.to_nat (rsDataCodes1 s))%nat by nia.
    tauto. }
  case_bool_decide as Hz.
  { exists bs1, c1. split; [done|]. split; [done|]. split; [lia|]. done. }
  assert (Hdc2 : rsDataCodes2 s = rsDataCodes1 s + 1) by lia. unfold rsEccCodes2.
  destruct (init_rs_qr c1 (rsEccCodes1 s) (255 - rsDataCodes2 s - rsEccCodes1 s))
    as (c2 & -> & Hc2); [done|unfold max_nroots; lia|lia|]. run.
  set (rest := drop (Z.to_nat (rsBlockNum1 s) * Z.to_nat (rsDataCodes1 s)) data).
  destruct (init_blocks_ok (Z.to_nat (rsBlockNum2 s)) (rsDataCodes2 s) (rsEccCodes1 s) rest)
    as (bs2 & Hi2 & Hl2 & Hat2); [unfold max_nroots; lia|lia|lia|by apply Forall_drop|
                                  unfold rest; rewrite length_drop; nia|].
  rewrite Hi2. run. exists (bs1 ++ bs2), c2. split; [done|]. split; [done|].
  split; [rewrite length_app; lia|]. intros r b Hr.
  destruct (decide (r < length bs1)%nat) as [Hlt|Hge].
  - rewrite lookup_app_l in Hr by done. by apply Hrow1.
  - rewrite lookup_app_r in Hr by lia. specialize (Hat2 _ _ Hr).
    unfold row_ok, block_start, block_ok in *. rewrite !bool_decide_eq_false_2 by lia.
    unfold rest in Hat2. rewrite drop_drop in Hat2.
    replace (Z.to_nat (rsBlockNum1 s) * Z.to_nat (rsDataCodes1 s) +
             (r - length bs1) * Z.to_nat (rsDataCodes2 s))%nat
      with (Z.to_nat (rsBlockNum1 s * rsDataCodes1 s + (Z.of_nat r - rsBlockNum1 s) * rsDataCodes2 s))
      in Hat2 by nia.
    tauto.
Qed.

(** ** Reading the words out *)

Lemma concat_uniform {A} (ls : list (list A)) n r c x :
  Forall (fun l => length l = n) ls -> (c < n)%nat ->
  concat ls !! (r * n + c)%nat = Some x <-> exists l, ls !! r = Some l /\ l !! c = Some x.
Proof.
  intros Hall Hc. revert r. induction Hall as [|l ls Hl _ IH]; intros r; simpl.
  - rewrite lookup_nil. split; [done|]. intros (l & Hl & _). by destruct r.
  - destruct r as [|r]; simpl.
    + rewrite lookup_app_l by lia. split; [by exists l|]. intros (l' & E & ?). by simplify_eq.
    + rewrite lookup_app_r by lia. replace (n + r * n + c - length l)%nat with (r * n + c)%nat by lia.
      apply IH.
Qed.

Lemma byte_at_Some l i x : 0 <= i -> l !! Z.to_nat i = Some x -> byte_at l i = Ret x.
Proof. intros Hi Hl. unfold byte_at. by rewrite bool_decide_eq_true_2, Hl. Qed.

Lemma block_at_row s data bs r :
  (forall r b, bs !! r = Some b -> row_ok s data (Z.of_nat r) b) ->
  Z.of_nat (length bs) = rsBlockNum s -> 0 <= r < rsBlockNum s ->
  exists b, block_at bs r = Ret b /\ bs !! Z.to_nat r = Some b /\ row_ok s data r b.
Proof.
  intros Hat Hl Hr. unfold block_at. destruct (bs !! Z.to_nat r) as [b|] eqn:E.
  - exists b. split_and!; try done. specialize (Hat _ _ E). by rewrite Z2Nat.id in Hat by lia.
  - apply lookup_ge_None in E. lia.
Qed.

Section Reading.
Context (v : Z) (l : QRecLevel) (data : list Z) (bs : list RSblock).
Let s := QRspec_getEccSpec v l.
Context (Hv : 1 <= v <= QRSPEC_VERSION_MAX).
Context (Hlen : Z.of_nat (length data) = rsDataLength s).
Context (Hbs : Z.of_nat (length bs) = rsBlockNum s).
Context (Hat : forall r b, bs !! r = Some b -> row_ok s data (Z.of_nat r) b).

(** The check words of all blocks, one after another. *)
Definition all_ecc : list Z := concat (map rb_ecc bs).

Definition raw_at (c : Z) : QRRawCode :=
  MkRaw v (rsDataLength s) (rsEccLength s) (rsBlockNum1 s) (rsBlockNum s) bs c.

Lemma ecc_uniform : Forall (fun e => length e = Z.to_nat (rsEccCodes1 s)) (map rb_ecc bs).
Proof using Hat.
  apply Forall_map, Forall_lookup. intros r b Hr. destruct (Hat r b Hr) as (_ & _ & H & _).
  simpl. lia.
Qed.

Lemma getCode_source c :
  0 <= c < rsDataLength s + rsEccLength s ->
  exists x, QRraw_getCode (raw_at c) = Ret (x, raw_at (c + 1)) /\
    (data ++ all_ecc) !! Z.to_nat (source_index s c) = Some x.
Proof using Hv Hlen Hbs Hat.
  intros Hc. destruct (block_spec_all v l Hv) as (_ & _ & Hb1 & Hb2 & Hd1 & He & _ & _).
  fold s in Hb1, Hb2, Hd1, He. destruct (interleave_facts v l Hv) as [_ Hrow]. fold s in Hrow.
  assert (Hbn : 0 < rsBlockNum s) by (unfold rsBlockNum; lia).
  unfold QRraw_getCode. cbn [raw_count raw_at raw_dataLength raw_blocks raw_rsblock raw_b1 raw_eccLength].
  destruct (decide (c < rsDataLength s)) as [Hd|Hd].
  - rewrite (bool_decide_eq_true_2 (c < _)) by done.
    destruct (block_at_row s data bs 0 Hat Hbs ltac:(lia)) as (b0 & -> & _ & Hb0 & _). run.
    rewrite (bool_decide_eq_true_2 (0 < rsBlockNum1 s)) in Hb0 by done. rewrite Hb0.
    destruct (Hrow c ltac:(lia)) as [Hr Hsrc]. fold (data_row s c).
    destruct (block_at_row s data bs (data_row s c) Hat Hbs Hr) as (b & -> & _ & _ & Hdat & _). run.
    set (col := c / rsBlockNum s).
    assert (Hcol : 0 <= col) by (apply Z.div_pos; lia).
    assert (Hidx : source_index s c = block_start s (data_row s c) + col).
    { unfold source_index, data_row. by rewrite (bool_decide_eq_true_2 (c < _)) by done. }
    assert (Hst : 0 <= block_start s (data_row s c)).
    { unfold block_start. destruct (block_spec_all v l Hv) as (_ & _ & _ & _ & _ & _ & _ & H2).
      fold s in H2. case_bool_decide; nia. }
    rewrite Hidx in *.
    destruct (data !! Z.to_nat (block_start s (data_row s c) + col)) as [x|] eqn:Ex.
    2: { apply lookup_ge_None in Ex. lia. }
    exists x. rewrite (byte_at_Some (rb_data b) col x); [|done|].
    + run. split; [done|]. by apply lookup_app_l_Some.
    + rewrite Hdat, lookup_drop, <- Z2Nat.inj_add by lia. done.
  - rewrite (bool_decide_eq_false_2 (c < _)), bool_decide_eq_true_2 by lia.
    set (k := c - rsDataLength s). assert (Hk : 0 <= k < rsEccLength s) by lia.
    unfold rsEccLength in Hk.
    pose proof (Z.mod_pos_bound k (rsBlockNum s) Hbn) as Hr.
    assert (Hcol : 0 <= k / rsBlockNum s < rsEccCodes1 s)
      by (split; [apply Z.div_pos; lia|apply Z.div_lt_upper_bound; lia]).
    destruct (block_at_row s data bs (k `mod` rsBlockNum s) Hat Hbs Hr) as (b & -> & Hb & _ & _ & Hel & _).
    run. destruct (rb_ecc b !! Z.to_nat (k / rsBlockNum s)) as [x|] eqn:Ex.
    2: { apply lookup_ge_None in Ex. lia. }
    exists x. rewrite (byte_at_Some _ _ x) by (done || lia). run. split; [done|].
    assert (Hidx : Z.to_nat (source_index s c) =
      (length data + (Z.to_nat (k `mod` rsBlockNum s) * Z.to_nat (rsEccCodes1 s) +
                      Z.to_nat (k / rsBlockNum s)))%nat).
    { unfold source_index. rewrite (bool_decide_eq_false_2 (c < _)) by done. fold k. nia. }
    rewrite Hidx, lookup_app_r by lia.
    replace (length data + _ - length data)%nat
      with (Z.to_nat (k `mod` rsBlockNum s) * Z.to_nat (rsEccCodes1 s) +
            Z.to_nat (k / rsBlockNum s))%nat by lia.
    assert (Hlt : (Z.to_nat (k / rsBlockNum s) < Z.to_nat (rsEccCodes1 s))%nat)
      by (apply Z2Nat.inj_lt; lia).
    apply (concat_uniform _ _ _ _ _ ecc_uniform Hlt).
    exists (rb_ecc b). split; [|done]. change (map rb_ecc bs) with (rb_ecc <$> bs).
    by rewrite list_lookup_fmap, Hb.
Qed.

Lemma getCodes_source n c :
  0 <= c -> c + Z.of_nat n <= rsDataLength s + rsEccLength s ->
  exists codes, getCodes n (raw_at c) = Ret codes /\ length codes = n /\
    forall i x, codes !! i = Some x ->
      (data ++ all_ecc) !! Z.to_nat (source_index s (c + Z.of_nat i)) = Some x.
Proof using Hv Hlen Hbs Hat.
  revert c. induction n as [|n IH]; intros c Hc Hn.
  { exists []. split_and!; done. }
  destruct (getCode_source c ltac:(lia)) as (x & Hx & Hsrc).
  destruct (IH (c + 1) ltac:(lia) ltac:(lia)) as (codes & Hcs & Hl & Hall).
  exists (x :: codes). cbn [getCodes]. rewrite Hx. run. rewrite Hcs. run. split_and!.
  - done.
  - simpl. by rewrite Hl.
  - intros [|i] y Hy; simpl in Hy.
    + simplify_eq. by rewrite Z.add_0_r.
    + specialize (Hall i y Hy). by replace (c + Z.of_nat (S i)) with (c + 1 + Z.of_nat i) by lia.
Qed.

End Reading.

Lemma lookup_map_perm (d : list Z) (f : Z -> Z) n codes :
  map f (seqZ 0 (Z.of_nat n)) ≡ₚ seqZ 0 (Z.of_nat n) -> length d = n -> length codes = n ->
  (forall i x, codes !! i = Some x -> d !! Z.to_nat (f (Z.of_nat i)) = Some x) ->
  codes ≡ₚ d.
Proof.
  intros Hp Hd Hc Hall.
  assert (E1 : codes = map (fun i => nth (Z.to_nat i) d 0) (map f (seqZ 0 (Z.of_nat n)))).
  { apply list_eq_same_length with (n := n); [rewrite !length_map, length_seqZ; lia|done|].
    intros i x y Hi Hx Hy. rewrite !list_lookup_fmap in Hy. rewrite lookup_seqZ_lt in Hy by lia.
    simpl in Hy. specialize (Hall i x Hx). simplify_eq.
    by rewrite (nth_lookup_Some _ _ _ _ Hall). }
  assert (E2 : d = map (fun i => nth (Z.to_nat i) d 0) (seqZ 0 (Z.of_nat n))).
  { apply list_eq_same_length with (n := n); [rewrite length_map, length_seqZ; lia|done|].
    intros i x y Hi Hx Hy. rewrite list_lookup_fmap, lookup_seqZ_lt in Hy by lia. simpl in Hy.
    rewrite Z.add_0_l, Nat2Z.id, (nth_lookup_Some _ _ _ _ Hx) in Hy. congruence. }
  rewrite E1. etrans; [apply Permutation_map, Hp|]. by rewrite <- E2.
Qed.

(** The code words of a symbol. *)
Lemma code_words_spec rslist v l data :
  1 <= v <= QRSPEC_VERSION_MAX -> cache_ok rslist -> Forall byte data ->
  Z.of_nat (length data) = QRspec_getDataLength v l ->
  let s := QRspec_getEccSpec v l in
  exists raw rslist' ecc codes,
    QRraw_new rslist v l (Some data) = Ret (Some raw, rslist') /\ cache_ok rslist' /\
    raw_version raw = v /\ raw_dataLength raw + raw_eccLength raw = words (capacity v) /\
    getCodes (Z.to_nat (words (capacity v))) raw = Ret codes /\
    codes ≡ₚ data ++ ecc /\
    (forall i x, codes !! i = Some x ->
       (data ++ ecc) !! Z.to_nat (source_index s (Z.of_nat i)) = Some x) /\
    forall r, 0 <= r < rsBlockNum s -> exists block_ecc,
      block_ecc = take (Z.to_nat (rsEccCodes1 s)) (drop (Z.to_nat (r * rsEccCodes1 s)) ecc) /\
      let dl := if bool_decide (r < rsBlockNum1 s) then rsDataCodes1 s else rsDataCodes2 s in
      forall k, (k < Z.to_nat (rsEccCodes1 s))%nat ->
        eval_at k (take (Z.to_nat dl) (drop (Z.to_nat (block_start s r)) data) ++ block_ecc) = 0.
Proof.
  intros Hv Hc Hb Hlen s.
  destruct (block_spec_all v l Hv) as (Hdl & Hel & Hb1 & Hb2 & Hd1 & He & _ & _).
  fold s in Hdl, Hel, Hb1, Hb2, Hd1, He. rewrite <- Hdl in Hlen.
  destruct (RSblock_init_ok rslist v l data Hv Hc Hb Hlen) as (bs & rslist' & Hinit & Hc' & Hbs & Hat).
  fold s in Hinit, Hbs, Hat.
  assert (Hwords : words (capacity v) = rsDataLength s + rsEccLength s).
  { rewrite Hdl, Hel. unfold QRspec_getDataLength, QRspec_getECCLength. lia. }
  assert (Hecc : Z.of_nat (length (all_ecc bs)) = rsEccLength s).
  { pose proof (ecc_uniform v l data bs Hat) as Hu. fold s in Hu. unfold all_ecc.
    unfold rsEccLength. rewrite <- Hbs, <- (length_map rb_ecc bs). revert Hu. clear -He.
    generalize (map rb_ecc bs). intros ls Hu. induction Hu as [|e ls Hl _ IH]; simpl; [lia|].
    rewrite length_app. lia. }
  assert (Hpos : 0 <= rsDataLength s + rsEccLength s) by (rewrite <- Hlen, <- Hecc; lia).
  destruct (getCodes_source v l data bs Hv Hlen Hbs Hat (Z.to_nat (words (capacity v))) 0)
    as (codes & Hcs & Hl & Hall); [lia| |].
  { fold s. rewrite Hwords, Z2Nat.id by done. lia. }
  fold s in Hall.
  exists (raw_at v l bs 0), rslist', (all_ecc bs), codes. split_and!.
  - unfold QRraw_new. fold s. rewrite Hinit. reflexivity.
  - done.
  - done.
  - by rewrite Hwords.
  - done.
  - apply (lookup_map_perm _ (source_index s) (length codes)).
    + rewrite Hl, Z2Nat.id, Hwords by lia. apply interleave_facts; done.
    + rewrite length_app. lia.
    + done.
    + intros i x Hx. by apply (Hall i x).
  - intros i x Hx. by apply (Hall i x).
  - intros r Hr. eexists. split; [done|]. cbv zeta. intros k Hk.
    destruct (block_at_row s data bs r Hat Hbs Hr) as (b & _ & Hbr & _ & _ & Hle & _ & Hroot).
    specialize (Hroot k Hk).
    replace (take _ (drop _ (all_ecc bs))) with (rb_ecc b); [done|].
    apply list_eq_same_length with (n := Z.to_nat (rsEccCodes1 s)).
    + rewrite length_take, length_drop. unfold rsEccLength in Hecc.
      assert (0 <= r * rsEccCodes1 s) by nia.
      assert (r * rsEccCodes1 s + rsEccCodes1 s <= rsBlockNum s * rsEccCodes1 s) by nia. lia.
    + lia.
    + intros c x y Hlt Hx Hy. rewrite lookup_take_lt, lookup_drop in Hy by lia.
      replace (Z.to_nat (r * rsEccCodes1 s) + c)%nat
        with (Z.to_nat r * Z.to_nat (rsEccCodes1 s) + c)%nat in Hy by nia.
      apply (concat_uniform _ _ _ _ _ (ecc_uniform v l data bs Hat) Hlt) in Hy as (e & He' & Hey).
      change (map rb_ecc bs) with (rb_ecc <$> bs) in He'.
      rewrite list_lookup_fmap, Hbr in He'. simpl in He'. simplify_eq. congruence.
Qed.

(** C26: The code words of a symbol: for every version, level and data of the
    right length the block set-up succeeds, calling [QRraw_getCode] once per
    word of the symbol yields every data word and every check word exactly
    once, in the order [source_index] gives, and each block's data followed by
    its check words is a Reed-Solomon codeword. *)
Theorem code_words_complete rslist v l data :
  1 <= v <= QRSPEC_VERSION_MAX -> cache_ok rslist -> Forall byte data ->
  Z.of_nat (length data) = QRspec_getDataLength v l ->
  let s := QRspec_getEccSpec v l in
  exists raw rslist' ecc codes,
    QRraw_new rslist v l (Some data) = Ret (Some raw, rslist') /\ cache_ok rslist' /\
    raw_version raw = v /\ raw_dataLength raw + raw_eccLength raw = words (capacity v) /\
    getCodes (Z.to_nat (words (capacity v))) raw = Ret codes /\
    codes ≡ₚ data ++ ecc /\
    (forall i x, codes !! i = Some x ->
       (data ++ ecc) !! Z.to_nat (source_index s (Z.of_nat i)) = Some x) /\
    forall r, 0 <= r < rsBlockNum s -> exists block_ecc,
      block_ecc = take (Z.to_nat (rsEccCodes1 s)) (drop (Z.to_nat (r * rsEccCodes1 s)) ecc) /\
      let dl := if bool_decide (r < rsBlockNum1 s) then rsDataCodes1 s else rsDataCodes2 s in
      forall k, (k < Z.to_nat (rsEccCodes1 s))%nat ->
        eval_at k (take (Z.to_nat dl) (drop (Z.to_nat (block_start s r)) data) ++ block_ecc) = 0.
Proof. apply code_words_spec. Qed.

Lemma code_words_complete_witness :
  exists raw rslist' ecc codes,
    QRraw_new [] 3 QR_ECLEVEL_Q (Some (replicate 34 7)) = Ret (Some raw, rslist') /\
    cache_ok rslist' /\
    getCodes 70 raw = Ret codes /\ codes ≡ₚ replicate 34 7 ++ ecc.
Proof.
  destruct (code_words_complete [] 3 QR_ECLEVEL_Q (replicate 34 7))
    as (raw & rslist' & ecc & codes & H1 & H2 & _ & _ & H3 & H4 & _).
  - unfold QRSPEC_VERSION_MAX. lia.
  - apply Forall_nil_2.
  - apply Forall_replicate. unfold byte. lia.
  - vm_compute. reflexivity.
  - exists raw, rslist', ecc, codes. split; [exact H1|]. split; [exact H2|]. split; [exact H3|exact H4].
Defined.
