(* ===== verification/Bitstream.v ===== *)
(** * Bit streams

    [C/qrencode-3.4.4/bitstream.c]: a growing array with one bit per byte. The
    model is the list of its bits; [length] is the length of the list and
    every allocation succeeds, so the functions that return 0 or -1 return
    the stream they leave behind. *)

From S2P Require Import Prelude Block.

(** ** Operations *)

(* @src C/qrencode-3.4.4/bitstream.h:25-28 BitStream *)
Definition BitStream : Type := list bool.

(* @src C/qrencode-3.4.4/bitstream.c:31-42 BitStream_new *)
Definition BitStream_new : BitStream := [].

(* @src C/qrencode-3.4.4/bitstream.h:34-34 BitStream_size *)
Definition BitStream_size (bstream : BitStream) : Z := Z.of_nat (length bstream).

(** The loop that both constructors share: test the bit under the mask, shift
    the mask down. *)
(* @src C/qrencode-3.4.4/bitstream.c:81-91 BitStream_newFromNum *)
Fixpoint mask_bits (n : nat) (mask num : Z) : BitStream :=
  match n with
  | O => []
  | S n => bool_decide (Z.land num mask <> 0) :: mask_bits n (Z.shiftr mask 1) num
  end.

(* @src C/qrencode-3.4.4/bitstream.c:66-94 BitStream_newFromNum *)
Definition BitStream_newFromNum (bits num : Z) : BitStream :=
  mask_bits (Z.to_nat bits) (u32 (Z.shiftl 1 (bits - 1))) num.

(* @src C/qrencode-3.4.4/bitstream.c:96-126 BitStream_newFromBytes *)
Definition BitStream_newFromBytes (size : Z) (data : list Z) : outcome BitStream :=
  for_ (seqZ 0 size) (fun i p =>
    b ← byte_at data i; Ret (p ++ mask_bits 8 0x80 b)) [].

(** A [NULL] argument is -1; appending to an empty stream copies the other. *)
(* @src C/qrencode-3.4.4/bitstream.c:128-158 BitStream_append *)
Definition BitStream_append (bstream : BitStream) (arg : option BitStream) : option BitStream :=
  match arg with
  | None => None
  | Some arg => Some (bstream ++ arg)
  end.

(* @src C/qrencode-3.4.4/bitstream.c:160-174 BitStream_appendNum *)
Definition BitStream_appendNum (bstream : BitStream) (bits num : Z) : BitStream :=
  if bool_decide (bits = 0) then bstream
  else bstream ++ BitStream_newFromNum bits num.

(* @src C/qrencode-3.4.4/bitstream.c:176-190 BitStream_appendBytes *)
Definition BitStream_appendBytes (bstream : BitStream) (size : Z) (data : list Z)
    : outcome BitStream :=
  if bool_decide (size = 0) then Ret bstream
  else b ← BitStream_newFromBytes size data; Ret (bstream ++ b).

(* @src C/qrencode-3.4.4/bitstream.c:210-216 BitStream_toByte *)
Fixpoint shift_in (v : Z) (bits : BitStream) : Z :=
  match bits with
  | [] => v
  | b :: bits => shift_in (Z.lor (u8 (Z.shiftl v 1)) (Z.b2z b)) bits
  end.

(** The two loops: whole bytes, then the rest if there is one. *)
(* @src C/qrencode-3.4.4/bitstream.c:192-230 BitStream_toByte *)
Fixpoint to_bytes (bytes : nat) (p : BitStream) : list Z :=
  match bytes with
  | O => match p with [] => [] | _ => [shift_in 0 p] end
  | S bytes => shift_in 0 (take 8 p) :: to_bytes bytes (drop 8 p)
  end.

(** [NULL] for the empty stream. *)
(* @src C/qrencode-3.4.4/bitstream.c:192-230 BitStream_toByte *)
Definition BitStream_toByte (bstream : BitStream) : option (list Z) :=
  let size := BitStream_size bstream in
  if bool_decide (size = 0) then None
  else Some (to_bytes (Z.to_nat (size / 8)) bstream).

(** ** Numbers as bits, and back *)

(** The [n] low bits of [z], highest first. *)
Fixpoint bits_of (n : nat) (z : Z) : BitStream :=
  match n with
  | O => []
  | S n => Z.testbit z (Z.of_nat n) :: bits_of n z
  end.

(** The number a list of bits stands for, highest first. *)
Definition value_of (bits : BitStream) : Z :=
  fold_left (fun v b => 2 * v + Z.b2z b) bits 0.

(** The bits of a list of bytes. *)
Definition bytes_bits (l : list Z) : BitStream := concat (map (bits_of 8) l).

Lemma bits_of_length n z : length (bits_of n z) = n.
Proof. induction n as [|n IH]; simpl; congruence. Qed.

Lemma bytes_bits_length l : length (bytes_bits l) = (8 * length l)%nat.
Proof.
  unfold bytes_bits. induction l as [|b l IH]; [done|].
  cbn [map concat]. rewrite length_app, IH, bits_of_length. simpl. lia.
Qed.

Lemma bytes_bits_app l1 l2 : bytes_bits (l1 ++ l2) = bytes_bits l1 ++ bytes_bits l2.
Proof. unfold bytes_bits. by rewrite map_app, concat_app. Qed.

Lemma fold_bits v bits :
  fold_left (fun v b => 2 * v + Z.b2z b) bits v =
  v * 2 ^ Z.of_nat (length bits) + value_of bits.
Proof.
  unfold value_of. revert v. induction bits as [|b bits IH]; intros v; cbn [fold_left length].
  - simpl. lia.
  - rewrite IH, (IH (2 * 0 + _)), Nat2Z.inj_succ, Z.pow_succ_r by lia. ring.
Qed.

Lemma value_of_cons b bits :
  value_of (b :: bits) = Z.b2z b * 2 ^ Z.of_nat (length bits) + value_of bits.
Proof. unfold value_of at 1. cbn [fold_left]. rewrite fold_bits. ring. Qed.

Lemma value_of_range bits : 0 <= value_of bits < 2 ^ Z.of_nat (length bits).
Proof.
  induction bits as [|b bits IH]; [unfold value_of; simpl; lia|].
  rewrite value_of_cons. cbn [length]. rewrite Nat2Z.inj_succ, Z.pow_succ_r by lia.
  destruct b; simpl; lia.
Qed.

Lemma value_bits n z : value_of (bits_of n z) = z mod 2 ^ Z.of_nat n.
Proof.
  induction n as [|n IH]; [unfold value_of; simpl; by rewrite Z.mod_1_r|].
  cbn [bits_of]. rewrite value_of_cons, bits_of_length, IH.
  rewrite Nat2Z.inj_succ, Z.pow_succ_r by lia.
  rewrite (Z.mul_comm 2), Z.rem_mul_r by lia.
  rewrite <- Z.bit0_mod, Z.div_pow2_bits by lia. ring_simplify.
  rewrite Z.add_0_l. lia.
Qed.

Lemma value_bits_small n z : 0 <= z < 2 ^ Z.of_nat n -> value_of (bits_of n z) = z.
Proof. intros. rewrite value_bits. by apply Z.mod_small. Qed.

Lemma bits_value bits : bits_of (length bits) (value_of bits) = bits.
Proof.
  induction bits as [|b bits IH]; [done|].
  pose proof (value_of_range bits) as Hr. cbn [length bits_of]. f_equal.
  - rewrite value_of_cons, Z.testbit_eqb by lia.
    rewrite Z.div_add_l, (Z.div_small (value_of bits)), Z.add_0_r by lia. by destruct b.
  - etransitivity; [|exact IH]. rewrite value_of_cons.
    assert (H : forall n, (n <= length bits)%nat ->
      bits_of n (Z.b2z b * 2 ^ Z.of_nat (length bits) + value_of bits) = bits_of n (value_of bits)).
    { induction n as [|n IHn]; intros Hn; [done|]. cbn [bits_of]. f_equal; [|apply IHn; lia].
      rewrite <- (Z.mod_pow2_bits_low _ (Z.of_nat (length bits))) by lia.
      rewrite Z.add_comm, Z.mod_add by lia. apply Z.mod_pow2_bits_low. lia. }
    by apply H.
Qed.

(** ** The operations in these terms *)

Lemma mask_bits_spec n num : mask_bits n (2 ^ Z.of_nat n / 2) num = bits_of n num.
Proof.
  induction n as [|n IH]; [done|]. cbn [mask_bits bits_of].
  rewrite Nat2Z.inj_succ, Z.pow_succ_r, Z.mul_comm, Z.div_mul by lia. f_equal.
  - destruct (Z.testbit num (Z.of_nat n)) eqn:E.
    + apply bool_decide_eq_true_2. intros H.
      apply (f_equal (fun z => Z.testbit z (Z.of_nat n))) in H.
      by rewrite Z.land_spec, E, Z.pow2_bits_true, Z.bits_0 in H by lia.
    + apply bool_decide_eq_false_2. intros H. apply H. apply Z.bits_inj'. intros i Hi.
      rewrite Z.land_spec, Z.bits_0. destruct (decide (i = Z.of_nat n)) as [->|Hn].
      * by rewrite E.
      * rewrite Z.pow2_bits_false by lia. by rewrite andb_false_r.
  - rewrite Z.shiftr_div_pow2 by lia. by rewrite Z.pow_1_r.
Qed.

Lemma newFromNum_bits bits num :
  0 <= bits <= 32 -> BitStream_newFromNum bits num = bits_of (Z.to_nat bits) num.
Proof.
  intros Hb. unfold BitStream_newFromNum.
  destruct (decide (bits = 0)) as [->|Hn]; [done|].
  rewrite <- mask_bits_spec, Z2Nat.id by lia. f_equal.
  rewrite Z.shiftl_1_l.
  assert (E : 2 ^ bits = 2 ^ (bits - 1) * 2)
    by (rewrite Z.mul_comm, <- Z.pow_succ_r by lia; f_equal; lia).
  rewrite E, Z.div_mul by lia. apply wrap_small. split; [lia|].
  apply Z.pow_lt_mono_r; lia.
Qed.

Lemma appendNum_bits bstream bits num :
  0 <= bits <= 32 ->
  BitStream_appendNum bstream bits num = bstream ++ bits_of (Z.to_nat bits) num.
Proof.
  intros Hb. unfold BitStream_appendNum. case_bool_decide as H.
  - subst. simpl. by rewrite app_nil_r.
  - by rewrite newFromNum_bits by lia.
Qed.

Lemma newFromBytes_bits size data :
  0 <= size <= Z.of_nat (length data) ->
  BitStream_newFromBytes size data = Ret (bytes_bits (take (Z.to_nat size) data)).
Proof.
  intros Hs. unfold BitStream_newFromBytes.
  match goal with |- for_ _ ?body ?s0 = _ =>
    destruct (for_seqZ_ind (fun i p => p = bytes_bits (take (Z.to_nat i) data)) 0 size body s0)
      as (p' & Hp & ->); [..|etransitivity; [exact Hp|by rewrite Z.add_0_l]] end.
  - lia.
  - done.
  - intros i p Hi ->. destruct (lookup_lt_is_Some_2 data (Z.to_nat i)) as [b Hb]; [lia|].
    rewrite (byte_at_lookup _ _ b) by (done || lia). run. eexists. split; [done|].
    rewrite Z2Nat.inj_add, Nat.add_1_r, (take_S_r _ _ b), bytes_bits_app by (done || lia).
    f_equal. unfold bytes_bits. cbn [map concat]. rewrite app_nil_r.
    exact (mask_bits_spec 8 b).
Qed.

Lemma appendBytes_bits bstream size data :
  0 <= size <= Z.of_nat (length data) ->
  BitStream_appendBytes bstream size data =
  Ret (bstream ++ bytes_bits (take (Z.to_nat size) data)).
Proof.
  intros Hs. unfold BitStream_appendBytes. case_bool_decide as H.
  - subst. simpl. by rewrite app_nil_r.
  - by rewrite newFromBytes_bits.
Qed.

Lemma shift_in_value v bits :
  0 <= v -> v * 2 ^ Z.of_nat (length bits) < 256 - 2 ^ Z.of_nat (length bits) + 1 ->
  shift_in v bits = v * 2 ^ Z.of_nat (length bits) + value_of bits.
Proof.
  revert v. induction bits as [|b bits IH]; intros v Hv Hs.
  - unfold value_of. simpl. lia.
  - cbn [shift_in length] in *. rewrite Nat2Z.inj_succ, Z.pow_succ_r in * by lia.
    assert (H1 : 1 <= 2 ^ Z.of_nat (length bits)) by lia.
    assert (Hv2 : v * 2 < 256) by nia.
    assert (E : Z.lor (u8 (Z.shiftl v 1)) (Z.b2z b) = 2 * v + Z.b2z b).
    { rewrite Z.shiftl_mul_pow2, Z.pow_1_r, (wrap_small 8) by lia.
      rewrite Z.lor_comm, <- (Z.pow_1_r 2) at 1. rewrite <- Z.shiftl_mul_pow2 by lia.
      rewrite lor_shiftl_add by (destruct b; simpl; lia). rewrite Z.pow_1_r. lia. }
    rewrite E, value_of_cons.
    assert (Hb : 0 <= Z.b2z b <= 1) by (destruct b; simpl; lia).
    rewrite IH; [ring|lia|nia].
Qed.

Lemma shift_in_byte bits :
  (length bits <= 8)%nat -> shift_in 0 bits = value_of bits.
Proof.
  intros Hl. rewrite shift_in_value; [lia|lia|].
  assert (2 ^ Z.of_nat (length bits) <= 2 ^ 8) by (apply Z.pow_le_mono_r; lia). lia.
Qed.

Lemma to_bytes_bits l : Forall byte l -> to_bytes (length l) (bytes_bits l) = l.
Proof.
  intros Hl. induction Hl as [|b l Hb Hl IH]; [done|].
  unfold bytes_bits in *. cbn [length to_bytes map concat].
  rewrite take_app_exact, drop_app_exact, IH by (by rewrite bits_of_length).
  rewrite shift_in_byte by (by rewrite bits_of_length). by rewrite (value_bits_small 8).
Qed.

Lemma to_bytes_length n p :
  (length p = 8 * n)%nat ->
  length (to_bytes n p) = n /\ bytes_bits (to_bytes n p) = p /\ Forall byte (to_bytes n p).
Proof.
  revert p. induction n as [|n IH]; intros p Hp.
  - by destruct p.
  - cbn [to_bytes length]. destruct (IH (drop 8 p)) as (H1 & H2 & H3).
    { rewrite length_drop. lia. }
    assert (Ht : length (take 8 p) = 8%nat) by (rewrite length_take; lia).
    rewrite shift_in_byte by lia. split; [lia|]. split.
    + unfold bytes_bits in *. cbn [map concat]. rewrite H2.
      rewrite <- Ht at 1. by rewrite bits_value, take_drop.
    + constructor; [|done]. pose proof (value_of_range (take 8 p)) as H. by rewrite Ht in H.
Qed.

(** Packing is the inverse of unpacking: [BitStream_toByte] of the stream
    made from a buffer of bytes is that buffer, and a stream of whole bytes is
    recovered from the bytes it was packed into, which are as many as needed. *)
Theorem BitStream_bytes_roundtrip data bs :
  Forall byte data -> data <> [] -> bs <> [] -> BitStream_size bs mod 8 = 0 ->
  (exists p, BitStream_newFromBytes (Z.of_nat (length data)) data = Ret p /\
     BitStream_toByte p = Some data) /\
  (exists l, BitStream_toByte bs = Some l /\ Forall byte l /\
     8 * Z.of_nat (length l) = BitStream_size bs /\
     BitStream_newFromBytes (Z.of_nat (length l)) l = Ret bs).
Proof.
  intros Hd Hne Hbs Hm. unfold BitStream_toByte, BitStream_size in *. split.
  - rewrite newFromBytes_bits, Nat2Z.id, firstn_all by lia. eexists. split; [done|].
    rewrite bytes_bits_length. rewrite bool_decide_eq_false_2 by (by destruct data).
    rewrite Nat2Z.inj_mul, Z.mul_comm, Z.div_mul, Nat2Z.id by lia. by rewrite to_bytes_bits.
  - rewrite bool_decide_eq_false_2 by (by destruct bs). eexists. split; [done|].
    destruct (to_bytes_length (Z.to_nat (Z.of_nat (length bs) / 8)) bs) as (H1 & H2 & H3); [dlia|].
    split; [done|]. split; [rewrite H1; dlia|].
    by rewrite newFromBytes_bits, Nat2Z.id, firstn_all, H2 by lia.
Qed.

Lemma BitStream_bytes_roundtrip_witness :
  BitStream_newFromBytes 2 [0x41; 0xec] =
    Ret [false; true; false; false; false; false; false; true;
         true; true; true; false; true; true; false; false] /\
  exists p, BitStream_newFromBytes 2 [0x41; 0xec] = Ret p /\
    BitStream_toByte p = Some [0x41; 0xec].
Proof.
  split; [by vm_compute|].
  apply (BitStream_bytes_roundtrip [0x41; 0xec] (bits_of 8 7));
    [repeat constructor; done|done|done|by vm_compute].
Defined.
