(* ===== verification/MqrSpec.v ===== *)
(** * The Micro QR code specification

    [C/qrencode-3.4.4/mqrspec.c]: capacities, length indicators, format
    information and frames of the four Micro QR versions M1 to M4. *)

From stdpp Require Import sorting.
From S2P Require Import Prelude Block QrSpec QrFrame.
#[local] Open Scope Z_scope.

(* @src C/qrencode-3.4.4/qrencode.h:139-139 MQRSPEC_VERSION_MAX *)
Definition MQRSPEC_VERSION_MAX : Z := 4.

(** ** Version and capacity *)

(* @src C/qrencode-3.4.4/mqrspec.c:45-48 MQRspec_Capacity *)
Record MQRspec_Capacity := MCap { mwidth : Z; mec : list Z }.

(* @src C/qrencode-3.4.4/mqrspec.c:54-60 mqrspecCapacity *)
Definition mqrspecCapacity : list MQRspec_Capacity :=
  [MCap 0 [0; 0; 0; 0];
   MCap 11 [2; 0; 0; 0];
   MCap 13 [5; 6; 0; 0];
   MCap 15 [6; 8; 0; 0];
   MCap 17 [8; 10; 14; 0]].

Definition mcapacity (version : Z) : MQRspec_Capacity :=
  entry (MCap 0 []) mqrspecCapacity version.

(* @src C/qrencode-3.4.4/mqrspec.c:62-71 MQRspec_getDataLengthBit *)
Definition MQRspec_getDataLengthBit (version : Z) (level : QRecLevel) : Z :=
  let w := mwidth (mcapacity version) - 1 in
  let ecc := entry 0 (mec (mcapacity version)) (level_code level) in
  if bool_decide (ecc = 0) then 0 else w * w - 64 - ecc * 8.

(* @src C/qrencode-3.4.4/mqrspec.c:73-76 MQRspec_getDataLength *)
Definition MQRspec_getDataLength (version : Z) (level : QRecLevel) : Z :=
  (MQRspec_getDataLengthBit version level + 4) `quot` 8.

(* @src C/qrencode-3.4.4/mqrspec.c:78-81 MQRspec_getECCLength *)
Definition MQRspec_getECCLength (version : Z) (level : QRecLevel) : Z :=
  entry 0 (mec (mcapacity version)) (level_code level).

(* @src C/qrencode-3.4.4/mqrspec.c:83-86 MQRspec_getWidth *)
Definition MQRspec_getWidth (version : Z) : Z := mwidth (mcapacity version).

(** ** Length indicator *)

(* @src C/qrencode-3.4.4/mqrspec.c:92-100 lengthTableBits *)
Definition lengthTableBits : list (list Z) :=
  [[3; 4; 5; 6]; [0; 3; 4; 5]; [0; 0; 4; 5]; [0; 0; 3; 4]].

(* @src C/qrencode-3.4.4/mqrspec.c:102-105 MQRspec_lengthIndicator *)
Definition MQRspec_lengthIndicator (mode : QRencodeMode) (version : Z) : Z :=
  entry 0 (entry [] lengthTableBits (mode_code mode)) (version - 1).

(* @src C/qrencode-3.4.4/mqrspec.c:107-119 MQRspec_maximumWords *)
Definition MQRspec_maximumWords (mode : QRencodeMode) (version : Z) : Z :=
  let bits := entry 0 (entry [] lengthTableBits (mode_code mode)) (version - 1) in
  let words := Z.shiftl 1 bits - 1 in
  if bool_decide (mode = QR_MODE_KANJI) then words * 2 else words.

(** ** Format information *)

(* @src C/qrencode-3.4.4/mqrspec.c:125-131 formatInfo *)
Definition formatInfo : list (list Z) :=
  [[0x4445; 0x55ae; 0x6793; 0x7678; 0x06de; 0x1735; 0x2508; 0x34e3];
   [0x4172; 0x5099; 0x62a4; 0x734f; 0x03e9; 0x1202; 0x203f; 0x31d4];
   [0x4e2b; 0x5fc0; 0x6dfd; 0x7c16; 0x0cb0; 0x1d5b; 0x2f66; 0x3e8d];
   [0x4b1c; 0x5af7; 0x68ca; 0x7921; 0x0987; 0x186c; 0x2a51; 0x3bba]].

(* @src C/qrencode-3.4.4/mqrspec.c:133-140 typeTable *)
Definition typeTable : list (list Z) :=
  [[-1; -1; -1]; [0; -1; -1]; [1; 2; -1]; [3; 4; -1]; [5; 6; 7]].

(* @src C/qrencode-3.4.4/mqrspec.c:142-153 MQRspec_getFormatInfo *)
Definition MQRspec_getFormatInfo (mask version : Z) (level : QRecLevel) : Z :=
  if bool_decide (mask < 0 \/ mask > 3) then 0
  else if bool_decide (version <= 0 \/ version > MQRSPEC_VERSION_MAX) then 0
  else if bool_decide (level = QR_ECLEVEL_H) then 0
  else
    let type := entry 0 (entry [] typeTable version) (level_code level) in
    if bool_decide (type < 0) then 0 else entry 0 (entry [] formatInfo mask) type.

(** ** Frame *)

(* @src C/qrencode-3.4.4/mqrspec.c:169-198 putFinderPattern *)
Definition putFinderPattern (width ox oy : Z) (frame : block) : outcome block :=
  put_pattern 7
    [0xc1; 0xc1; 0xc1; 0xc1; 0xc1; 0xc1; 0xc1;
     0xc1; 0xc0; 0xc0; 0xc0; 0xc0; 0xc0; 0xc1;
     0xc1; 0xc0; 0xc1; 0xc1; 0xc1; 0xc0; 0xc1;
     0xc1; 0xc0; 0xc1; 0xc1; 0xc1; 0xc0; 0xc1;
     0xc1; 0xc0; 0xc1; 0xc1; 0xc1; 0xc0; 0xc1;
     0xc1; 0xc0; 0xc0; 0xc0; 0xc0; 0xc0; 0xc1;
     0xc1; 0xc1; 0xc1; 0xc1; 0xc1; 0xc1; 0xc1] width (oy * width + ox) frame.

(* @src C/qrencode-3.4.4/mqrspec.c:200-238 MQRspec_createFrame *)
Definition MQRspec_createFrame (version : Z) : outcome block :=
  let width := MQRspec_getWidth version in
  let frame := calloc (width * width) in
  frame ← putFinderPattern width 0 0 frame;
  (* Separator *)
  frame ← for_ (seqZ 0 7) (fun y frame => poke (7 + y * width) 0xc0 frame) frame;
  frame ← memset (width * 7) 0xc0 8 frame;
  (* Mask format information area *)
  frame ← memset (width * 8 + 1) 0x84 8 frame;
  frame ← for_ (seqZ 0 7) (fun y frame => poke (width + 8 + y * width) 0x84 frame) frame;
  (* Timing pattern *)
  for_ (seqZ 1 (width - 8)) (fun x frame =>
    frame ← poke (8 + (x - 1)) (Z.lor 0x90 (Z.land x 1)) frame;
    poke (width * 8 + (x - 1) * width) (Z.lor 0x90 (Z.land x 1)) frame) frame.

(* @src C/qrencode-3.4.4/mqrspec.c:240-264 MQRspec_newFrame *)
Definition MQRspec_newFrame (frames : gmap Z block) (version : Z)
    : outcome (option block * gmap Z block) :=
  if bool_decide (version < 1 \/ version > MQRSPEC_VERSION_MAX) then Ret (None, frames)
  else
    match frames !! version with
    | Some frame => Ret (Some frame, frames)
    | None =>
        frame ← MQRspec_createFrame version;
        Ret (Some frame, <[version := frame]> frames)
    end.

(* @src C/qrencode-3.4.4/mqrspec.c:266-280 MQRspec_clearCache *)
Definition MQRspec_clearCache (frames : gmap Z block) : gmap Z block :=
  foldr (fun i frames => delete i frames) frames (seqZ 1 MQRSPEC_VERSION_MAX).

(** ** The four versions *)

(** A level a version supports: the ones with check words. *)
Definition mqr_level (version : Z) (level : QRecLevel) : Prop :=
  MQRspec_getECCLength version level <> 0.

#[global] Instance mqr_level_dec v l : Decision (mqr_level v l).
Proof. unfold mqr_level. apply _. Defined.

Lemma mqr_versions (P : Z -> Prop) :
  P 1 -> P 2 -> P 3 -> P 4 -> forall v, 1 <= v <= MQRSPEC_VERSION_MAX -> P v.
Proof.
  intros H1 H2 H3 H4 v Hv. unfold MQRSPEC_VERSION_MAX in Hv.
  assert (v = 1 \/ v = 2 \/ v = 3 \/ v = 4) as [-> | [-> | [-> | ->]]] by lia; done.
Qed.

(** The bits of a version: data and check words. *)
Definition mqr_bits (version : Z) (level : QRecLevel) : Z :=
  MQRspec_getDataLengthBit version level + MQRspec_getECCLength version level * 8.

(** The checks made for each version by evaluation; [(width - 1)^2 - 64] is the
    number of modules outside the function patterns. *)
Definition mqr_check (v : Z) : bool :=
  let w := MQRspec_getWidth v in
  let n := (w - 1) * (w - 1) - 64 in
  match MQRspec_createFrame v with
  | Ret frame =>
      (bsize frame =? w * w) &&
      match walk (filler_fuel w) (Z.to_nat n) frame (FrameFiller_new w true) with
      | Ret l => (Z.of_nat (length l) =? n) &&
                 zlist_eqb (merge_sort Z.le l) (data_modules_fast frame)
      | Fault _ => false
      end
  | Fault _ => false
  end.

Record mqr_facts (v : Z) (frame : block) (l : list Z) : Prop := {
  mf_frame : MQRspec_createFrame v = Ret frame;
  mf_size : bsize frame = MQRspec_getWidth v * MQRspec_getWidth v;
  mf_walk : walk (filler_fuel (MQRspec_getWidth v))
              (Z.to_nat ((MQRspec_getWidth v - 1) * (MQRspec_getWidth v - 1) - 64)) frame
              (FrameFiller_new (MQRspec_getWidth v) true) = Ret l;
  mf_length : Z.of_nat (length l) = (MQRspec_getWidth v - 1) * (MQRspec_getWidth v - 1) - 64;
  mf_perm : l ≡ₚ data_modules frame }.

Lemma mqr_facts_all v : 1 <= v <= MQRSPEC_VERSION_MAX -> exists frame l, mqr_facts v frame l.
Proof.
  intros Hv.
  assert (H : mqr_check v = true) by (revert v Hv; apply mqr_versions; by vm_compute).
  unfold mqr_check in H.
  destruct (MQRspec_createFrame v) as [frame|] eqn:Ef; [|done].
  apply andb_true_iff in H as [Hs Hw]. apply Z.eqb_eq in Hs.
  destruct (walk _ _ frame _) as [l|] eqn:El; [|done].
  apply andb_true_iff in Hw as [Hl Hp]. apply Z.eqb_eq in Hl. apply zlist_eqb_eq in Hp.
  rewrite data_modules_fast_eq in Hp by nia.
  exists frame, l. constructor; try done. rewrite <- Hp. symmetry. apply merge_sort_Permutation.
Qed.

Lemma mqr_bits_width v l :
  1 <= v <= MQRSPEC_VERSION_MAX -> mqr_level v l ->
  mqr_bits v l = (MQRspec_getWidth v - 1) * (MQRspec_getWidth v - 1) - 64.
Proof.
  unfold mqr_level, mqr_bits, MQRspec_getDataLengthBit, MQRspec_getECCLength, MQRspec_getWidth.
  intros Hv Hl. rewrite bool_decide_eq_false_2 by done. lia.
Qed.

(** In each Micro QR version the frame filler visits, for the data bits and
    the check words of any level the version supports, every module outside
    the function patterns exactly once and no other; and M1 and M3, whose data
    does not fill its last word, lack exactly four bits of it. *)
Theorem mqr_filler_visits_every_free_module v l :
  1 <= v <= MQRSPEC_VERSION_MAX -> mqr_level v l ->
  (exists frame ps, MQRspec_createFrame v = Ret frame /\
    bsize frame = MQRspec_getWidth v * MQRspec_getWidth v /\
    walk (filler_fuel (MQRspec_getWidth v)) (Z.to_nat (mqr_bits v l)) frame
      (FrameFiller_new (MQRspec_getWidth v) true) = Ret ps /\
    ps ≡ₚ filter (fun p => Z.land (cell frame p) 0x80 = 0) (seqZ 0 (bsize frame)) /\
    NoDup ps /\ Z.of_nat (length ps) = mqr_bits v l) /\
  MQRspec_getDataLength v l * 8 - MQRspec_getDataLengthBit v l =
    (if bool_decide (v = 1 \/ v = 3) then 4 else 0).
Proof.
  intros Hv Hl. split.
  - destruct (mqr_facts_all v Hv) as (frame & ps & []). exists frame, ps.
    rewrite (mqr_bits_width v l Hv Hl). split_and!; try done.
    rewrite mf_perm0. apply NoDup_filter, NoDup_seqZ.
  - revert v Hv Hl. refine (mqr_versions _ _ _ _ _);
      destruct l; unfold mqr_level; vm_compute; congruence.
Qed.

Lemma mqr_filler_visits_every_free_module_witness :
  mqr_bits 3 QR_ECLEVEL_M = 132 /\
  MQRspec_getDataLength 3 QR_ECLEVEL_M * 8 - MQRspec_getDataLengthBit 3 QR_ECLEVEL_M = 4.
Proof.
  split; [by vm_compute|].
  apply (mqr_filler_visits_every_free_module 3 QR_ECLEVEL_M);
    [unfold MQRSPEC_VERSION_MAX; lia|by unfold mqr_level].
Defined.

(** ** Format information as a code *)

(** The symbol number: one for each version and level that go together. *)
Definition symbol_number (version : Z) (level : QRecLevel) : Z :=
  entry (-1) (entry [] typeTable version) (level_code level).

Definition mqr_pairs : list (Z * QRecLevel) :=
  v ← seqZ 1 4; map (pair v) all_levels.

Definition mqr_format_ok (vl : Z * QRecLevel) (m : Z) : Prop :=
  let '(v, l) := vl in
  if bool_decide (mqr_level v l) then
    let d := Z.lor (Z.shiftl (symbol_number v l) 2) m in
    MQRspec_getFormatInfo m v l =
      Z.lxor (Z.lor (Z.shiftl d 10) (poly_rem 15 10 0x537 (Z.shiftl d 10))) 0x4445 /\
    Forall (fun vl' => Forall (fun m' =>
      (vl, m) = (vl', m') \/ ~ mqr_level vl'.1 vl'.2 \/
      7 <= weight 15 (Z.lxor (MQRspec_getFormatInfo m v l)
                             (MQRspec_getFormatInfo m' vl'.1 vl'.2)))
      (seqZ 0 4)) mqr_pairs
  else MQRspec_getFormatInfo m v l = 0.

#[local] Instance mqr_format_ok_dec vl m : Decision (mqr_format_ok vl m).
Proof. destruct vl as [v l]. unfold mqr_format_ok. destruct (bool_decide (mqr_level v l)); apply _. Defined.

Lemma mqr_pairs_in v l : 1 <= v <= MQRSPEC_VERSION_MAX -> (v, l) ∈ mqr_pairs.
Proof.
  intros Hv. unfold MQRSPEC_VERSION_MAX in Hv. unfold mqr_pairs. apply list_elem_of_bind.
  exists v. split; [|apply elem_of_seqZ; lia].
  apply list_elem_of_fmap. exists l. split; [done|]. clear Hv. destruct l; unfold all_levels; set_solver.
Qed.

Lemma mqr_format_all v l m :
  1 <= v <= MQRSPEC_VERSION_MAX -> 0 <= m < 4 -> mqr_format_ok (v, l) m.
Proof.
  intros Hv Hm.
  assert (H : Forall (fun vl => Forall (mqr_format_ok vl) (seqZ 0 4)) mqr_pairs)
    by (apply (bool_decide_unpack _); vm_compute; exact I).
  rewrite Forall_forall in H. specialize (H _ (mqr_pairs_in v l Hv)). rewrite Forall_forall in H. apply H, elem_of_seqZ. lia.
Qed.

(** The Micro QR format information is the masked BCH(15,5) code of the
    symbol number and the mask with generator 0x537 for the levels a version
    supports, two different ones differing in at least 7 of the 15 bits, and 0
    for the levels it does not. *)
Theorem mqr_format_info_bch v l m v' l' m' :
  1 <= v <= MQRSPEC_VERSION_MAX -> 1 <= v' <= MQRSPEC_VERSION_MAX ->
  0 <= m < 4 -> 0 <= m' < 4 ->
  (~ mqr_level v l -> MQRspec_getFormatInfo m v l = 0) /\
  (mqr_level v l ->
   let d := Z.lor (Z.shiftl (symbol_number v l) 2) m in
   MQRspec_getFormatInfo m v l =
     Z.lxor (Z.lor (Z.shiftl d 10) (poly_rem 15 10 0x537 (Z.shiftl d 10))) 0x4445) /\
  (mqr_level v l -> mqr_level v' l' -> (v, l, m) <> (v', l', m') ->
   7 <= weight 15 (Z.lxor (MQRspec_getFormatInfo m v l) (MQRspec_getFormatInfo m' v' l'))).
Proof.
  intros Hv Hv' Hm Hm'. pose proof (mqr_format_all v l m Hv Hm) as H.
  unfold mqr_format_ok in H. case_bool_decide as Hl; [|tauto]. destruct H as [H1 H2].
  split; [tauto|]. split; [done|]. intros _ Hl' Hne.
  rewrite Forall_forall in H2. specialize (H2 _ (mqr_pairs_in v' l' Hv')). rewrite Forall_forall in H2.
  destruct (H2 m' ltac:(apply elem_of_seqZ; lia)) as [|[|]]; [congruence|done|done].
Qed.

Lemma mqr_format_info_bch_witness :
  7 <= weight 15 (Z.lxor (MQRspec_getFormatInfo 0 1 QR_ECLEVEL_L)
                         (MQRspec_getFormatInfo 3 4 QR_ECLEVEL_Q)).
Proof.
  apply (mqr_format_info_bch 1 QR_ECLEVEL_L 0 4 QR_ECLEVEL_Q 3);
    try (unfold MQRSPEC_VERSION_MAX; lia); try (by unfold mqr_level); congruence.
Defined.

(** ** The cache of frames *)

Definition mqr_frames_ok (frames : gmap Z block) : Prop :=
  map_Forall (fun v f => MQRspec_createFrame v = Ret f) frames.

Lemma mqr_newFrame_spec frames v f :
  mqr_frames_ok frames -> 1 <= v <= MQRSPEC_VERSION_MAX -> MQRspec_createFrame v = Ret f ->
  exists frames', MQRspec_newFrame frames v = Ret (Some f, frames') /\ mqr_frames_ok frames'.
Proof.
  intros Hok Hv Hf. unfold MQRspec_newFrame. rewrite bool_decide_eq_false_2 by lia.
  destruct (frames !! v) as [g|] eqn:E.
  - pose proof (Hok v g E) as Hg. cbv beta in Hg. rewrite Hg in Hf. simplify_eq.
    by exists frames.
  - rewrite Hf. run. exists (<[v := f]> frames). split; [done|].
    by apply map_Forall_insert_2.
Qed.
