(* ===== verification/MMask.v ===== *)
(** * Masking of Micro QR symbols

    [C/qrencode-3.4.4/mmask.c]: the four masks, the format information, the
    score of a symbol and the choice of the mask. The loop is that of
    [QrMask]; it does not count dark modules. *)

From S2P Require Import Prelude Block QrSpec QrMask QrFrame MqrSpec.

(** ** The masks *)

(* @src C/qrencode-3.4.4/mmask.c:68-92 maskMakers *)
Definition mmask_expr (mask x y : Z) : Z :=
  match mask with
  | 0 => Z.land y 1
  | 1 => Z.land (y / 2 + x / 3) 1
  | 2 => Z.land (Z.land (x * y) 1 + (x * y) `mod` 3) 1
  | _ => Z.land (Z.land (x + y) 1 + (x * y) `mod` 3) 1
  end.

(* @src C/qrencode-3.4.4/mmask.c:54-66 MASKMAKER *)
Definition MMASKMAKER (mask width : Z) (s d : block) : outcome block :=
  for_ (seqZ 0 width) (fun y d =>
    for_ (seqZ 0 width) (fun x d =>
      v ← peek s (y * width + x);
      poke (y * width + x)
        (if bool_decide (Z.land v 0x80 <> 0) then v
         else Z.lxor v (if bool_decide (mmask_expr mask x y = 0) then 1 else 0)) d) d) d.

(* @src C/qrencode-3.4.4/mmask.c:34-52 MMask_writeFormatInformation *)
Definition MMask_writeFormatInformation (version width : Z) (frame : block) (mask : Z)
    (level : QRecLevel) : outcome block :=
  let format := MQRspec_getFormatInfo mask version level in
  frame ← for_ (seqZ 0 8) (fun i frame =>
    poke (width * (i + 1) + 8) (Z.lor 0x84 (Z.land (Z.shiftr format i) 1)) frame) frame;
  for_ (seqZ 0 7) (fun i frame =>
    poke (width * 8 + 7 - i) (Z.lor 0x84 (Z.land (Z.shiftr format (8 + i)) 1)) frame) frame.

(* @src C/qrencode-3.4.4/mmask.c:88-88 maskNum *)
Definition maskNum : Z := 4.

(* @src C/qrencode-3.4.4/mmask.c:108-126 MMask_makeMask *)
Definition MMask_makeMask (version : Z) (frame : block) (mask : Z) (level : QRecLevel)
    : outcome (option block) :=
  if bool_decide (mask < 0 \/ mask >= maskNum) then Ret None
  else
    let width := MQRspec_getWidth version in
    masked ← MMASKMAKER mask width frame (calloc (width * width));
    masked ← MMask_writeFormatInformation version width masked mask level;
    Ret (Some masked).

(* @src C/qrencode-3.4.4/mmask.c:128-146 MMask_evaluateSymbol *)
Definition MMask_evaluateSymbol (width : Z) (frame : block) : outcome Z :=
  sum1 ← for_ (seqZ 1 (width - 1)) (fun x sum1 =>
    v ← peek frame (width * (width - 1) + x); Ret (sum1 + Z.land v 1)) 0;
  sum2 ← for_ (seqZ 1 (width - 1)) (fun y sum2 =>
    v ← peek frame (width * 2 - 1 + (y - 1) * width); Ret (sum2 + Z.land v 1)) 0;
  Ret (if bool_decide (sum1 <= sum2) then sum1 * 16 + sum2 else sum2 * 16 + sum1).

(** The state of the loop: the scratch frame, the highest score so far and the
    frame it belongs to; [NULL] when no mask scores above 0. *)
(* @src C/qrencode-3.4.4/mmask.c:148-177 MMask_mask *)
Definition MMask_mask (version : Z) (frame : block) (level : QRecLevel)
    : outcome (option block) :=
  let width := MQRspec_getWidth version in
  st ← for_ (seqZ 0 maskNum) (fun i st =>
    let '(mask, maxScore, bestMask) := st in
    mask ← MMASKMAKER i width frame mask;
    mask ← MMask_writeFormatInformation version width mask i level;
    score ← MMask_evaluateSymbol width mask;
    if bool_decide (score > maxScore)
    then Ret (calloc (width * width), score, Some mask)
    else Ret (mask, maxScore, bestMask))
    (calloc (width * width), 0, None);
  Ret st.2.

(** ** The masks are four of the eight *)

Definition qr_mask (mask : Z) : Z :=
  match mask with 0 => 1 | 1 => 4 | 2 => 6 | _ => 7 end.

Lemma mmask_expr_eq mask x y : mmask_expr mask x y = mask_expr (qr_mask mask) x y.
Proof.
  unfold mmask_expr, qr_mask. destruct mask as [|[[|[]|]|[|[]|]|]|]; try done;
    cbn; f_equal; lia.
Qed.

Lemma MMASKMAKER_maker mask width s d :
  MMASKMAKER mask width s d = (r ← MASKMAKER (qr_mask mask) width s d; Ret r.1).
Proof.
  unfold MMASKMAKER, MASKMAKER.
  assert (Hsim : forall l (f : Z -> block -> outcome block) g (st : block * Z),
    (forall i st, f i st.1 = (r ← g i st; Ret r.1)) ->
    for_ l f st.1 = (r ← for_ l g st; Ret r.1)).
  { intros l f g st H. revert st. induction l as [|i l IH]; intros st; [done|].
    cbn [for_]. rewrite H. destruct (g i st); run; [apply IH|done]. }
  apply (Hsim _ _ _ (d, 0)). intros y st. apply Hsim. intros x st'.
  destruct (peek s _) as [v|]; run; [|done]. unfold mask_module. rewrite mmask_expr_eq.
  by destruct (poke _ _ _).
Qed.

Lemma MMASKMAKER_spec mask width s d :
  0 <= width -> bsize s = width * width -> bsize d = width * width ->
  exists d', MMASKMAKER mask width s d = Ret d' /\ bsize d' = width * width /\
    forall p, cell d' p = if bool_decide (0 <= p < width * width)
                          then masked (qr_mask mask) width s p else cell d p.
Proof.
  intros Hw Hs Hd. rewrite MMASKMAKER_maker.
  destruct (MASKMAKER_spec (qr_mask mask) width s d Hw Hs Hd) as (d' & -> & H). by exists d'.
Qed.

(** The modules the format information is written to. *)
Definition format_place (width p : Z) : bool :=
  bool_decide (p `mod` width = 8 /\ 1 <= p / width <= 8 \/
               p / width = 8 /\ 1 <= p `mod` width <= 7).

Lemma mwriteFormat_ok version width mask level f :
  9 <= width -> bsize f = width * width ->
  exists f', MMask_writeFormatInformation version width f mask level = Ret f' /\
    bsize f' = width * width /\
    forall p, format_place width p = false -> cell f' p = cell f p.
Proof.
  intros Hw Hf. unfold MMask_writeFormatInformation. cbv zeta.
  set (format := MQRspec_getFormatInfo mask version level).
  pose (P := fun (_ : Z) (f' : block) => bsize f' = width * width /\
    forall p, format_place width p = false -> cell f' p = cell f p).
  assert (Hstep : forall p v i f', 0 <= p < width * width -> format_place width p = true ->
    P i f' -> exists f2, poke p v f' = Ret f2 /\ P (i + 1) f2).
  { intros p v i f' Hp Hpl [H1 H2]. destruct (poke_ok p v f') as (f2 & -> & Hs & Hc); [lia|].
    exists f2. split; [done|]. split; [congruence|]. intros q Hq. rewrite Hc.
    case_bool_decide; [congruence|by apply H2]. }
  assert (Hat : forall x y, 0 <= x < width -> format_place width (width * y + x) =
    bool_decide (x = 8 /\ 1 <= y <= 8 \/ y = 8 /\ 1 <= x <= 7)).
  { intros x y Hx. unfold format_place.
    replace (width * y + x) with (x + y * width) by lia.
    rewrite Z.mod_add, Z.div_add, Z.mod_small, Z.div_small by lia. done. }
  destruct (for_seqZ_ind P 0 8 (fun i frame =>
    poke (width * (i + 1) + 8) (Z.lor 0x84 (Z.land (Z.shiftr format i) 1)) frame) f)
    as (f1 & -> & HP1); [lia|done| |].
  { intros i f' Hi HP. apply Hstep; [nia| |done]. rewrite Hat by lia.
    apply bool_decide_eq_true_2. lia. }
  run. destruct (for_seqZ_ind P 0 7 (fun i frame =>
    poke (width * 8 + 7 - i) (Z.lor 0x84 (Z.land (Z.shiftr format (8 + i)) 1)) frame) f1)
    as (f2 & -> & HP2); [lia|done| |].
  { intros i f' Hi HP. apply Hstep; [nia| |done].
    replace (width * 8 + 7 - i) with (width * 8 + (7 - i)) by lia. rewrite Hat by lia.
    apply bool_decide_eq_true_2. lia. }
  exists f2. split; [done|]. apply HP2.
Qed.

(** ** The score *)

(** The dark modules among the positions [g i]. *)
Definition dark_at (f : block) (g : Z -> Z) (l : list Z) : Z :=
  foldr (fun i acc => Z.land (cell f (g i)) 1 + acc) 0 l.

Definition edge_score (width : Z) (f : block) : Z :=
  let sum1 := dark_at f (fun x => width * (width - 1) + x) (seqZ 1 (width - 1)) in
  let sum2 := dark_at f (fun y => width * 2 - 1 + (y - 1) * width) (seqZ 1 (width - 1)) in
  if bool_decide (sum1 <= sum2) then sum1 * 16 + sum2 else sum2 * 16 + sum1.

Lemma dark_sum f g l s :
  Forall (fun i => 0 <= g i < bsize f) l ->
  for_ l (fun i s => v ← peek f (g i); Ret (s + Z.land v 1)) s = Ret (s + dark_at f g l).
Proof.
  intros Hl. revert s. induction Hl as [|i l Hi Hl IH]; intros s.
  - simpl. by rewrite Z.add_0_r.
  - cbn [for_]. rewrite peek_cell by done. run. rewrite IH. cbn [dark_at foldr].
    f_equal. unfold dark_at. lia.
Qed.

Lemma evaluateSymbol_score width f :
  1 <= width -> bsize f = width * width -> MMask_evaluateSymbol width f = Ret (edge_score width f).
Proof.
  intros Hw Hf. unfold MMask_evaluateSymbol, edge_score.
  rewrite (dark_sum f (fun x => width * (width - 1) + x)) by (apply Forall_seqZ; intros; nia). run.
  rewrite (dark_sum f (fun y => width * 2 - 1 + (y - 1) * width))
    by (apply Forall_seqZ; intros; nia). run.
  by rewrite !Z.add_0_l.
Qed.

Lemma land_1_bounds z : 0 <= Z.land z 1 <= 1.
Proof. rewrite land_1_mod. dlia. Qed.

Lemma dark_at_bounds f g l :
  0 <= dark_at f g l /\
  (forall i, i ∈ l -> Z.land (cell f (g i)) 1 = 1 -> 0 < dark_at f g l).
Proof.
  induction l as [|j l [IH1 IH2]]; cbn [dark_at foldr].
  - split; [done|]. intros i Hi. by apply not_elem_of_nil in Hi.
  - pose proof (land_1_bounds (cell f (g j))) as Hb. unfold dark_at in *. split; [lia|].
    intros i [->|Hi]%elem_of_cons Hd; [lia|]. specialize (IH2 i Hi Hd). lia.
Qed.

Lemma edge_score_pos width f x :
  1 <= x < width -> Z.land (cell f (width * (width - 1) + x)) 1 = 1 ->
  0 < edge_score width f.
Proof.
  intros Hx Hd. unfold edge_score. cbv zeta.
  destruct (dark_at_bounds f (fun x => width * (width - 1) + x) (seqZ 1 (width - 1))) as [H1 H2].
  destruct (dark_at_bounds f (fun y => width * 2 - 1 + (y - 1) * width) (seqZ 1 (width - 1)))
    as [H3 _].
  specialize (H2 x ltac:(apply elem_of_seqZ; lia) Hd). case_bool_decide; lia.
Qed.

Lemma dark_at_equiv f f' g l :
  f ≡ f' -> Forall (fun i => 0 <= g i < bsize f) l -> dark_at f g l = dark_at f' g l.
Proof.
  intros [_ Hc] Hl. induction Hl as [|i l Hi Hl IH]; [done|].
  cbn [dark_at foldr]. unfold dark_at in IH. by rewrite IH, Hc.
Qed.

Lemma edge_score_equiv width f f' :
  1 <= width -> bsize f = width * width -> f ≡ f' -> edge_score width f = edge_score width f'.
Proof.
  intros Hw Hs Hf. unfold edge_score.
  by rewrite !(dark_at_equiv f f') by (done || (apply Forall_seqZ; intros; nia)).
Qed.

(** ** The choice of the mask *)

(** The symbol with a mask: the scratch frame does not matter. *)
Definition mcandidate (version : Z) (frame : block) (level : QRecLevel) (i : Z) (d : block)
    : outcome block :=
  mask ← MMASKMAKER i (MQRspec_getWidth version) frame d;
  MMask_writeFormatInformation version (MQRspec_getWidth version) mask i level.

Lemma mcandidate_ok version frame level i d :
  let w := MQRspec_getWidth version in
  9 <= w -> bsize frame = w * w -> bsize d = w * w ->
  exists f, mcandidate version frame level i d = Ret f /\ bsize f = w * w /\
    (forall p, 0 <= p < w * w -> format_place w p = false ->
       cell f p = masked (qr_mask i) w frame p) /\
    exists m, mcandidate version frame level i (calloc (w * w)) = Ret m /\ f ≡ m.
Proof.
  intros w Hw Hf Hd. unfold mcandidate. fold w.
  destruct (MMASKMAKER_spec i w frame d) as (d1 & E1 & Hs1 & Hc1); [lia|done|done|].
  destruct (MMASKMAKER_spec i w frame (calloc (w * w))) as (d2 & E2 & Hs2 & Hc2); [lia|done|done|].
  rewrite E1, E2. run.
  destruct (mwriteFormat_ok version w i level d1) as (f1 & Ew1 & Hsf1 & Hcf1); [lia|done|].
  destruct (mwriteFormat_ok version w i level d2) as (f2 & Ew2 & Hsf2 & Hcf2); [lia|done|].
  exists f1. split; [done|]. split; [done|]. split.
  - intros p Hp Hpl. by rewrite Hcf1, Hc1, bool_decide_eq_true_2.
  - exists f2. split; [done|].
    assert (Hrel : outcome_rel (≡) (MMask_writeFormatInformation version w d1 i level)
                     (MMask_writeFormatInformation version w d2 i level)).
    { unfold MMask_writeFormatInformation. eapply outcome_rel_bind.
      - apply (for_rel (≡)); [|intros; by apply poke_rel].
        split; [congruence|]. intros p Hp. rewrite Hs1 in Hp.
        by rewrite Hc1, Hc2, !bool_decide_eq_true_2.
      - intros a b Hab. apply (for_rel (≡)); [done|]. intros; by apply poke_rel. }
    by rewrite Ew1, Ew2 in Hrel.
Qed.

(** Two of the masks give the same module different colours. *)
Lemma masks_differ w frame x :
  (x = if bool_decide (Z.land ((w - 1) / 2) 1 = 1) then 1 else 3) ->
  9 <= w -> w mod 2 = 1 ->
  Z.land (cell frame (w * (w - 1) + x)) 0x80 = 0 ->
  exists i, (i = 0 \/ i = 1) /\
    Z.land (masked (qr_mask i) w frame (w * (w - 1) + x)) 1 = 1.
Proof.
  intros Hx Hw Hodd Hd. set (v := cell frame _) in *.
  assert (Hx3 : 0 <= x < w) by (subst x; case_bool_decide; lia).
  assert (Hm : forall i, masked (qr_mask i) w frame (w * (w - 1) + x) =
    Z.lxor v (if bool_decide (mmask_expr i x (w - 1) = 0) then 1 else 0)).
  { intros i. unfold masked, mask_module. fold v. rewrite bool_decide_eq_false_2 by tauto.
    replace (w * (w - 1) + x) with (x + (w - 1) * w) by lia.
    rewrite Z.mod_add, Z.div_add, Z.mod_small, Z.div_small, Z.add_0_l by lia.
    by rewrite mmask_expr_eq. }
  assert (E0 : mmask_expr 0 x (w - 1) = 0).
  { unfold mmask_expr. rewrite land_1_mod. dlia. }
  assert (E1 : mmask_expr 1 x (w - 1) = 1).
  { unfold mmask_expr. rewrite land_1_mod in *. subst x. case_bool_decide; dlia. }
  destruct (Z.testbit v 0) eqn:Ev.
  - exists 1. split; [tauto|]. rewrite Hm, E1, bool_decide_eq_false_2, Z.lxor_0_r by lia.
    by rewrite land_1_mod, <- Z.bit0_mod, Ev.
  - exists 0. split; [tauto|]. rewrite Hm, E0, bool_decide_eq_true_2 by done.
    by rewrite land_1_mod, <- Z.bit0_mod, Z.lxor_spec, Ev.
Qed.

Lemma mqr_width v :
  1 <= v <= MQRSPEC_VERSION_MAX -> 11 <= MQRspec_getWidth v <= 17 /\ MQRspec_getWidth v mod 2 = 1.
Proof. revert v. apply mqr_versions; by vm_compute. Qed.

(** Some mask scores above 0 when the bottom row holds data. *)
Lemma some_score version frame level :
  1 <= version <= MQRSPEC_VERSION_MAX ->
  let w := MQRspec_getWidth version in
  bsize frame = w * w ->
  (forall x, 1 <= x < w -> Z.land (cell frame (w * (w - 1) + x)) 0x80 = 0) ->
  exists i f, 0 <= i < maskNum /\
    mcandidate version frame level i (calloc (w * w)) = Ret f /\ 0 < edge_score w f.
Proof.
  intros Hv w Hf Hd. destruct (mqr_width version Hv) as [Hw Hodd]. fold w in Hw, Hodd.
  set (x := if bool_decide (Z.land ((w - 1) / 2) 1 = 1) then 1 else 3).
  assert (Hx : 1 <= x < w) by (unfold x; case_bool_decide; lia).
  destruct (masks_differ w frame x eq_refl) as (i & Hi & Hdark); [lia|done|by apply Hd|].
  destruct (mcandidate_ok version frame level i (calloc (w * w))) as (f & Ef & _ & Hc & _);
    [fold w; lia|done|done|]. fold w in Hc.
  exists i, f. split; [unfold maskNum; lia|]. split; [done|].
  apply (edge_score_pos w f x); [done|]. rewrite Hc; [done|nia|].
  unfold format_place. apply bool_decide_eq_false_2.
  replace (w * (w - 1) + x) with (x + (w - 1) * w) by lia.
  rewrite Z.mod_add, Z.div_add, Z.mod_small, Z.div_small by lia. lia.
Qed.

(** The loop of [MMask_mask] finds the first best candidate. *)
Lemma MMask_mask_spec version frame level :
  1 <= version <= MQRSPEC_VERSION_MAX ->
  let w := MQRspec_getWidth version in
  bsize frame = w * w ->
  (forall x, 1 <= x < w -> Z.land (cell frame (w * (w - 1) + x)) 0x80 = 0) ->
  exists i best score,
    MMask_mask version frame level = Ret (Some best) /\ 0 <= i < maskNum /\
    (forall j, 0 <= j < maskNum -> exists m,
       MMask_makeMask version frame j level = Ret (Some m) /\
       MMask_evaluateSymbol w m = Ret (score j) /\ (j = i -> best ≡ m)) /\
    forall j, 0 <= j < maskNum -> score j <= score i /\ (j < i -> score j < score i).
Proof.
  intros Hv w Hf Hd. destruct (mqr_width version Hv) as [Hw _]. fold w in Hw.
  destruct (some_score version frame level Hv Hf Hd) as (i0 & f0 & Hi0 & Ef0 & Hpos). fold w in Ef0, Hpos.
  set (blank := calloc (w * w)) in *.
  pose (cand := fun j => match mcandidate version frame level j blank with
                         | Ret c => c | Fault _ => blank end).
  assert (Hcand : forall j d, bsize d = w * w ->
    exists f, mcandidate version frame level j d = Ret f /\ bsize f = w * w /\ f ≡ cand j /\
      mcandidate version frame level j blank = Ret (cand j)).
  { intros j d Hsd. destruct (mcandidate_ok version frame level j d) as (f & Ef & Hs & _ & m & Em & Hfm);
      [fold w; lia|done|done|]. fold w blank in Em. exists f. unfold cand. by rewrite Em. }
  pose (score := fun j => edge_score w (cand j)).
  pose (P := fun (k : Z) (st : block * Z * option block) =>
    bsize st.1.1 = w * w /\ (forall j, 0 <= j < k -> score j <= st.1.2) /\
    (st.1.2 = 0 /\ st.2 = None \/
     exists i best, 0 <= i < k /\ st.2 = Some best /\ best ≡ cand i /\ st.1.2 = score i /\
       forall j, 0 <= j < i -> score j < score i)).
  destruct (for_seqZ_ind P 0 maskNum (fun i st =>
    let '(mask, maxScore, bestMask) := st in
    mask ← MMASKMAKER i w frame mask;
    mask ← MMask_writeFormatInformation version w mask i level;
    score ← MMask_evaluateSymbol w mask;
    if bool_decide (score > maxScore)
    then Ret (calloc (w * w), score, Some mask)
    else Ret (mask, maxScore, bestMask)) (blank, 0, None))
    as (st & Hst & Hsz & Hle & HP); [by unfold maskNum| | |].
  { split; [done|]. split; [intros; lia|by left]. }
  { intros k [[mask mx] best] Hk (Hsz & Hle & HP). simpl in Hsz, Hle, HP.
    destruct (Hcand k mask Hsz) as (f & Ef & Hsf & Heq & _). unfold mcandidate in Ef. fold w in Ef.
    destruct (MMASKMAKER k w frame mask) as [m1|]; [|done]. cbn [mbind outcome_bind] in Ef. run.
    rewrite Ef. run. rewrite evaluateSymbol_score by (lia || done). run.
    rewrite (edge_score_equiv w f (cand k)) by (lia || done). fold (score k).
    case_bool_decide as Hgt; (eexists; split; [done|]); split; simpl; try done.
    - split; [intros j Hj; destruct (decide (j = k)) as [->|]; [lia|]; specialize (Hle j ltac:(lia)); lia|].
      right. exists k, f. split_and!; [lia|lia|done|done|done|].
      intros j Hj. specialize (Hle j ltac:(lia)). lia.
    - split; [intros j Hj; destruct (decide (j = k)) as [->|]; [lia|]; apply Hle; lia|].
      destruct HP as [HP|(i & b & Hi & Hb)]; [by left|right]. exists i, b. split; [lia|done]. }
  rewrite Z.add_0_l in *.
  assert (Hmx : score i0 <= st.1.2) by (by apply Hle).
  assert (Hs0 : 0 < score i0).
  { destruct (Hcand i0 blank eq_refl) as (_ & _ & _ & _ & E). rewrite Ef0 in E.
    apply (inj Ret) in E. unfold score. by rewrite <- E. }
  destruct HP as [[HP _]|(i & best & Hi & Hb & Heq & Hbs & Hlt)]; [lia|].
  exists i, best, score. split_and!; try lia.
  - assert (Hm : MMask_mask version frame level = (x ← (Ret st : outcome _); Ret x.2))
      by (rewrite <- Hst; reflexivity).
    rewrite Hm. run. by rewrite Hb.
  - intros j Hj. destruct (Hcand j blank eq_refl) as (f & _ & Hsj & Heqj & Ej). exists (cand j).
    unfold MMask_makeMask. rewrite bool_decide_eq_false_2 by lia. fold w.
    unfold mcandidate in Ej. fold w in Ej. fold blank.
    destruct (MMASKMAKER j w frame blank) as [m1|]; [|done]. cbn [mbind outcome_bind] in Ej. run.
    rewrite Ej. split_and!; [done| |by intros ->].
    rewrite evaluateSymbol_score; [done|lia|]. by rewrite <- (proj1 Heqj).
  - intros j Hj. specialize (Hle j Hj). split; [lia|]. intros. apply Hlt. lia.
Qed.

(** The choice of the Micro QR mask never comes out empty-handed and is the
    best one: on a symbol of any version whose bottom row holds data it returns
    the frame [MMask_makeMask] makes for a mask whose score is at least that of
    every mask and higher than that of every earlier one; [bestMask] is never
    left [NULL], although only a score above 0 sets it. *)
Theorem MMask_mask_best version frame level :
  1 <= version <= MQRSPEC_VERSION_MAX ->
  let w := MQRspec_getWidth version in
  bsize frame = w * w ->
  (forall x, 1 <= x < w -> Z.land (cell frame (w * (w - 1) + x)) 0x80 = 0) ->
  exists i best score,
    MMask_mask version frame level = Ret (Some best) /\ 0 <= i < maskNum /\
    (forall j, 0 <= j < maskNum -> exists m,
       MMask_makeMask version frame j level = Ret (Some m) /\
       MMask_evaluateSymbol w m = Ret (score j) /\ (j = i -> best ≡ m)) /\
    forall j, 0 <= j < maskNum -> score j <= score i /\ (j < i -> score j < score i).
Proof. apply MMask_mask_spec. Qed.

Lemma MMask_mask_best_witness :
  exists i best score,
    MMask_mask 2 (calloc 169) QR_ECLEVEL_M = Ret (Some best) /\ 0 <= i < maskNum /\
    (forall j, 0 <= j < maskNum -> exists m,
       MMask_makeMask 2 (calloc 169) j QR_ECLEVEL_M = Ret (Some m) /\
       MMask_evaluateSymbol 13 m = Ret (score j) /\ (j = i -> best ≡ m)) /\
    forall j, 0 <= j < maskNum -> score j <= score i /\ (j < i -> score j < score i).
Proof.
  apply (MMask_mask_best 2 (calloc 169) QR_ECLEVEL_M);
    [unfold MQRSPEC_VERSION_MAX; lia|reflexivity|reflexivity].
Defined.
