(* ===== verification/QrEntry.v ===== *)
(** * Entries of QR input data

    The data chunks of [C/qrencode-3.4.4/qrinput.c]: validation, estimated
    size and encoding of one entry in each mode, and a decoder written from
    the standard that the encoders are checked against.

    Functions that return 0 or -1 and leave a stream in [entry->bstream]
    return that stream, [None] being -1; allocation succeeds and [errno] is
    not modelled. Sizes are far below the range of [int]. *)

From S2P Require Import Prelude Block Bitstream QrSpec.
From S2P Require MqrSpec.

(** ** The entry *)

(* @src C/qrencode-3.4.4/qrinput.h:35-41 _QRinput_List *)
Record QRinput_List := MkEntry {
  e_mode : QRencodeMode; e_size : Z; e_data : list Z; e_bstream : option BitStream }.

(** Mode indicators. *)
(* @src C/qrencode-3.4.4/qrspec.h:171-179 QRSPEC_MODEID *)
Definition QRSPEC_MODEID (mode : QRencodeMode) : Z :=
  match mode with
  | QR_MODE_ECI => 7
  | QR_MODE_NUM => 1
  | QR_MODE_AN => 2
  | QR_MODE_8 => 4
  | QR_MODE_KANJI => 8
  | QR_MODE_FNC1FIRST => 5
  | QR_MODE_FNC1SECOND => 9
  | QR_MODE_STRUCTURE => 3
  | QR_MODE_NUL => 0
  end.

(* @src C/qrencode-3.4.4/mqrspec.h:152-155 MQRSPEC_MODEID *)
Definition MQRSPEC_MODEID (mode : QRencodeMode) : Z :=
  match mode with
  | QR_MODE_NUM => 0
  | QR_MODE_AN => 1
  | QR_MODE_8 => 2
  | _ => 3
  end.

Definition MODE_INDICATOR_SIZE : Z := 4.
Definition STRUCTURE_HEADER_SIZE : Z := 20.
Definition MAX_STRUCTURED_SYMBOLS : Z := 16.

(** A loop that returns -1 at the first element that fails its test. *)
Fixpoint check_all (l : list Z) (test : Z -> outcome bool) : outcome Z :=
  match l with
  | [] => Ret 0
  | i :: l => ok ← test i; if ok : bool then check_all l test else Ret (-1)
  end.

(** ** Numeric data *)

(** A [char] above 127 fails the test whether it is signed or not. *)
(* @src C/qrencode-3.4.4/qrinput.c:363-373 QRinput_checkModeNum *)
Definition QRinput_checkModeNum (size : Z) (data : list Z) : outcome Z :=
  check_all (seqZ 0 size) (fun i =>
    c ← byte_at data i; Ret (negb (bool_decide (c < 48 \/ c > 57)))).

(* @src C/qrencode-3.4.4/qrinput.c:380-399 QRinput_estimateBitsModeNum *)
Definition QRinput_estimateBitsModeNum (size : Z) : Z :=
  let w := size `quot` 3 in
  let bits := w * 10 in
  match size - w * 3 with
  | 1 => bits + 4
  | 2 => bits + 7
  | _ => bits
  end.

(* @src C/qrencode-3.4.4/qrinput.c:410-459 QRinput_encodeModeNum *)
Definition QRinput_encodeModeNum (entry : QRinput_List) (version : Z) (mqr : bool)
    : outcome (option BitStream) :=
  let data := e_data entry in
  let bs := BitStream_new in
  let bs :=
    if mqr then
      let bs := if bool_decide (version > 1)
                then BitStream_appendNum bs (version - 1) (MQRSPEC_MODEID QR_MODE_NUM) else bs in
      BitStream_appendNum bs (MqrSpec.MQRspec_lengthIndicator QR_MODE_NUM version) (e_size entry)
    else
      let bs := BitStream_appendNum bs 4 (QRSPEC_MODEID QR_MODE_NUM) in
      BitStream_appendNum bs (QRspec_lengthIndicator QR_MODE_NUM version) (e_size entry) in
  let words := e_size entry `quot` 3 in
  bs ← for_ (seqZ 0 words) (fun i bs =>
    a ← byte_at data (i * 3);
    b ← byte_at data (i * 3 + 1);
    c ← byte_at data (i * 3 + 2);
    Ret (BitStream_appendNum bs 10 (u32 ((a - 48) * 100 + (b - 48) * 10 + (c - 48))))) bs;
  bs ← (if bool_decide (e_size entry - words * 3 = 1) then
          a ← byte_at data (words * 3);
          Ret (BitStream_appendNum bs 4 (u32 (a - 48)))
        else if bool_decide (e_size entry - words * 3 = 2) then
          a ← byte_at data (words * 3);
          b ← byte_at data (words * 3 + 1);
          Ret (BitStream_appendNum bs 7 (u32 ((a - 48) * 10 + (b - 48))))
        else Ret bs);
  Ret (Some bs).

(** ** Alphabet-numeric data *)

(* @src C/qrencode-3.4.4/qrinput.c:465-474 QRinput_anTable *)
Definition QRinput_anTable : list Z :=
  [-1; -1; -1; -1; -1; -1; -1; -1; -1; -1; -1; -1; -1; -1; -1; -1;
   -1; -1; -1; -1; -1; -1; -1; -1; -1; -1; -1; -1; -1; -1; -1; -1;
   36; -1; -1; -1; 37; 38; -1; -1; -1; -1; 39; 40; -1; 41; 42; 43;
    0;  1;  2;  3;  4;  5;  6;  7;  8;  9; 44; -1; -1; -1; -1; -1;
   -1; 10; 11; 12; 13; 14; 15; 16; 17; 18; 19; 20; 21; 22; 23; 24;
   25; 26; 27; 28; 29; 30; 31; 32; 33; 34; 35; -1; -1; -1; -1; -1;
   -1; -1; -1; -1; -1; -1; -1; -1; -1; -1; -1; -1; -1; -1; -1; -1;
   -1; -1; -1; -1; -1; -1; -1; -1; -1; -1; -1; -1; -1; -1; -1; -1].

(* @src C/qrencode-3.4.4/qrinput.h:90-96 QRinput_lookAnTable *)
Definition QRinput_lookAnTable (c : Z) : Z :=
  if bool_decide (Z.land c 0x80 <> 0) then -1 else entry (-1) QRinput_anTable c.

(* @src C/qrencode-3.4.4/qrinput.c:482-492 QRinput_checkModeAn *)
Definition QRinput_checkModeAn (size : Z) (data : list Z) : outcome Z :=
  check_all (seqZ 0 size) (fun i =>
    c ← byte_at data i; Ret (negb (bool_decide (QRinput_lookAnTable c < 0)))).

(* @src C/qrencode-3.4.4/qrinput.c:499-511 QRinput_estimateBitsModeAn *)
Definition QRinput_estimateBitsModeAn (size : Z) : Z :=
  let w := size `quot` 2 in
  let bits := w * 11 in
  if bool_decide (Z.land size 1 <> 0) then bits + 6 else bits.

(* @src C/qrencode-3.4.4/qrinput.c:523-568 QRinput_encodeModeAn *)
Definition QRinput_encodeModeAn (entry : QRinput_List) (version : Z) (mqr : bool)
    : outcome (option BitStream) :=
  if mqr && bool_decide (version < 2) then Ret None
  else
    let data := e_data entry in
    let bs := BitStream_new in
    let bs :=
      if mqr then
        let bs := BitStream_appendNum bs (version - 1) (MQRSPEC_MODEID QR_MODE_AN) in
        BitStream_appendNum bs (MqrSpec.MQRspec_lengthIndicator QR_MODE_AN version) (e_size entry)
      else
        let bs := BitStream_appendNum bs 4 (QRSPEC_MODEID QR_MODE_AN) in
        BitStream_appendNum bs (QRspec_lengthIndicator QR_MODE_AN version) (e_size entry) in
    let words := e_size entry `quot` 2 in
    bs ← for_ (seqZ 0 words) (fun i bs =>
      a ← byte_at data (i * 2);
      b ← byte_at data (i * 2 + 1);
      Ret (BitStream_appendNum bs 11
             (u32 (u32 (QRinput_lookAnTable a) * 45 + u32 (QRinput_lookAnTable b))))) bs;
    bs ← (if bool_decide (Z.land (e_size entry) 1 <> 0) then
            a ← byte_at data (words * 2);
            Ret (BitStream_appendNum bs 6 (u32 (QRinput_lookAnTable a)))
          else Ret bs);
    Ret (Some bs).

(** ** 8 bit data *)

(* @src C/qrencode-3.4.4/qrinput.c:579-582 QRinput_estimateBitsMode8 *)
Definition QRinput_estimateBitsMode8 (size : Z) : Z := size * 8.

(* @src C/qrencode-3.4.4/qrinput.c:593-624 QRinput_encodeMode8 *)
Definition QRinput_encodeMode8 (entry : QRinput_List) (version : Z) (mqr : bool)
    : outcome (option BitStream) :=
  if mqr && bool_decide (version < 3) then Ret None
  else
    let bs := BitStream_new in
    let bs :=
      if mqr then
        let bs := BitStream_appendNum bs (version - 1) (MQRSPEC_MODEID QR_MODE_8) in
        BitStream_appendNum bs (MqrSpec.MQRspec_lengthIndicator QR_MODE_8 version) (e_size entry)
      else
        let bs := BitStream_appendNum bs 4 (QRSPEC_MODEID QR_MODE_8) in
        BitStream_appendNum bs (QRspec_lengthIndicator QR_MODE_8 version) (e_size entry) in
    bs ← BitStream_appendBytes bs (e_size entry) (e_data entry);
    Ret (Some bs).

(** ** Kanji data *)

(* @src C/qrencode-3.4.4/qrinput.c:636-639 QRinput_estimateBitsModeKanji *)
Definition QRinput_estimateBitsModeKanji (size : Z) : Z := (size `quot` 2) * 13.

(** [i = 0, 2, 4, ... < size] *)
Definition evens (size : Z) : list Z := map (Z.mul 2) (seqZ 0 ((size + 1) / 2)).

(* @src C/qrencode-3.4.4/qrinput.c:647-663 QRinput_checkModeKanji *)
Definition QRinput_checkModeKanji (size : Z) (data : list Z) : outcome Z :=
  if bool_decide (Z.land size 1 <> 0) then Ret (-1)
  else
    check_all (evens size) (fun i =>
      a ← byte_at data i;
      b ← byte_at data (i + 1);
      let val := Z.lor (Z.shiftl a 8) b in
      Ret (negb (bool_decide (val < 0x8140 \/ (val > 0x9ffc /\ val < 0xe040) \/ val > 0xebbf)))).

(** The 13-bit code of a double-byte character. *)
(* @src C/qrencode-3.4.4/qrinput.c:700-707 QRinput_encodeModeKanji *)
Definition kanji_code (a b : Z) : Z :=
  let val := Z.lor (Z.shiftl a 8) b in
  let val := u32 (if bool_decide (val <= 0x9ffc) then val - 0x8140 else val - 0xc140) in
  let h := u32 (Z.shiftr val 8 * 0xc0) in
  u32 (Z.land val 0xff + h).

(* @src C/qrencode-3.4.4/qrinput.c:675-718 QRinput_encodeModeKanji *)
Definition QRinput_encodeModeKanji (entry : QRinput_List) (version : Z) (mqr : bool)
    : outcome (option BitStream) :=
  if mqr && bool_decide (version < 2) then Ret None
  else
    let data := e_data entry in
    let bs := BitStream_new in
    let bs :=
      if mqr then
        let bs := BitStream_appendNum bs (version - 1) (MQRSPEC_MODEID QR_MODE_KANJI) in
        BitStream_appendNum bs (MqrSpec.MQRspec_lengthIndicator QR_MODE_KANJI version)
          (e_size entry `quot` 2)
      else
        let bs := BitStream_appendNum bs 4 (QRSPEC_MODEID QR_MODE_KANJI) in
        BitStream_appendNum bs (QRspec_lengthIndicator QR_MODE_KANJI version)
          (e_size entry `quot` 2) in
    bs ← for_ (evens (e_size entry)) (fun i bs =>
      a ← byte_at data i;
      b ← byte_at data (i + 1);
      Ret (BitStream_appendNum bs 13 (kanji_code a b))) bs;
    Ret (Some bs).

(** ** Structured symbol, FNC1 and ECI *)

(* @src C/qrencode-3.4.4/qrinput.c:734-759 QRinput_encodeModeStructure *)
Definition QRinput_encodeModeStructure (entry : QRinput_List) (mqr : bool)
    : outcome (option BitStream) :=
  if mqr then Ret None
  else
    let bs := BitStream_appendNum BitStream_new 4 (QRSPEC_MODEID QR_MODE_STRUCTURE) in
    d1 ← byte_at (e_data entry) 1;
    let bs := BitStream_appendNum bs 4 (u32 (d1 - 1)) in
    d0 ← byte_at (e_data entry) 0;
    let bs := BitStream_appendNum bs 4 (u32 (d0 - 1)) in
    d2 ← byte_at (e_data entry) 2;
    Ret (Some (BitStream_appendNum bs 8 d2)).

(* @src C/qrencode-3.4.4/qrinput.c:765-770 QRinput_checkModeFNC1Second *)
Definition QRinput_checkModeFNC1Second (size : Z) (data : list Z) : outcome Z :=
  Ret (if bool_decide (size <> 1) then -1 else 0).

(* @src C/qrencode-3.4.4/qrinput.c:772-790 QRinput_encodeModeFNC1Second *)
Definition QRinput_encodeModeFNC1Second (entry : QRinput_List) (version : Z)
    : outcome (option BitStream) :=
  let bs := BitStream_appendNum BitStream_new 4 (QRSPEC_MODEID QR_MODE_FNC1SECOND) in
  bs ← BitStream_appendBytes bs 1 (e_data entry);
  Ret (Some bs).

(* @src C/qrencode-3.4.4/qrinput.c:795-807 QRinput_decodeECIfromByteArray *)
Definition QRinput_decodeECIfromByteArray (data : list Z) : outcome Z :=
  for_ (seqZ 0 4) (fun i ecinum =>
    d ← byte_at data (3 - i);
    Ret (Z.lor (u32 (Z.shiftl ecinum 8)) d)) 0.

(* @src C/qrencode-3.4.4/qrinput.c:809-823 QRinput_estimateBitsModeECI *)
Definition QRinput_estimateBitsModeECI (data : list Z) : outcome Z :=
  ecinum ← QRinput_decodeECIfromByteArray data;
  Ret (if bool_decide (ecinum < 128) then MODE_INDICATOR_SIZE + 8
       else if bool_decide (ecinum < 16384) then MODE_INDICATOR_SIZE + 16
       else MODE_INDICATOR_SIZE + 24).

(* @src C/qrencode-3.4.4/qrinput.c:825-858 QRinput_encodeModeECI *)
Definition QRinput_encodeModeECI (entry : QRinput_List) (version : Z)
    : outcome (option BitStream) :=
  ecinum ← QRinput_decodeECIfromByteArray (e_data entry);
  let '(words, code) :=
    if bool_decide (ecinum < 128) then (1, ecinum)
    else if bool_decide (ecinum < 16384) then (2, u32 (0x8000 + ecinum))
    else (3, u32 (0xc0000 + ecinum)) in
  let bs := BitStream_appendNum BitStream_new 4 (QRSPEC_MODEID QR_MODE_ECI) in
  Ret (Some (BitStream_appendNum bs (words * 8) code)).

(** ** Validation *)

(* @src C/qrencode-3.4.4/qrinput.c:864-890 QRinput_check *)
Definition QRinput_check (mode : QRencodeMode) (size : Z) (data : list Z) : outcome Z :=
  if bool_decide ((mode = QR_MODE_FNC1FIRST /\ size < 0) \/ size <= 0) then Ret (-1)
  else
    match mode with
    | QR_MODE_NUM => QRinput_checkModeNum size data
    | QR_MODE_AN => QRinput_checkModeAn size data
    | QR_MODE_KANJI => QRinput_checkModeKanji size data
    | QR_MODE_8 => Ret 0
    | QR_MODE_STRUCTURE => Ret 0
    | QR_MODE_ECI => Ret 0
    | QR_MODE_FNC1FIRST => Ret 0
    | QR_MODE_FNC1SECOND => QRinput_checkModeFNC1Second size data
    | QR_MODE_NUL => Ret (-1)
    end.

(** [None] is [NULL]. An entry of size 0 has no data. *)
(* @src C/qrencode-3.4.4/qrinput.c:48-74 QRinput_List_newEntry *)
Definition QRinput_List_newEntry (mode : QRencodeMode) (size : Z) (data : list Z)
    : outcome (option QRinput_List) :=
  c ← QRinput_check mode size data;
  if bool_decide (c <> 0) then Ret None
  else
    data ← (if bool_decide (size > 0) then mem_read 0 size data else Ret []);
    Ret (Some (MkEntry mode size data None)).

(* @src C/qrencode-3.4.4/qrinput.c:85-104 QRinput_List_dup *)
Definition QRinput_List_dup (entry : QRinput_List) : outcome QRinput_List :=
  data ← mem_read 0 (e_size entry) (e_data entry);
  Ret (MkEntry (e_mode entry) (e_size entry) data None).

(** ** Estimation of the bit length *)

(* @src C/qrencode-3.4.4/qrinput.c:903-950 QRinput_estimateBitStreamSizeOfEntry *)
Definition QRinput_estimateBitStreamSizeOfEntry (entry : QRinput_List) (version : Z) (mqr : bool)
    : outcome Z :=
  let version := if bool_decide (version = 0) then 1 else version in
  let with_header (bits : Z) : Z :=
    let l := QRspec_lengthIndicator (e_mode entry) version in
    if mqr then let m := version - 1 in bits + (l + m)
    else
      let m := Z.shiftl 1 l in
      let num := (e_size entry + m - 1) `quot` m in
      bits + num * (MODE_INDICATOR_SIZE + l) in
  match e_mode entry with
  | QR_MODE_NUM => Ret (with_header (QRinput_estimateBitsModeNum (e_size entry)))
  | QR_MODE_AN => Ret (with_header (QRinput_estimateBitsModeAn (e_size entry)))
  | QR_MODE_8 => Ret (with_header (QRinput_estimateBitsMode8 (e_size entry)))
  | QR_MODE_KANJI => Ret (with_header (QRinput_estimateBitsModeKanji (e_size entry)))
  | QR_MODE_STRUCTURE => Ret STRUCTURE_HEADER_SIZE
  | QR_MODE_ECI => bits ← QRinput_estimateBitsModeECI (e_data entry); Ret (with_header bits)
  | QR_MODE_FNC1FIRST => Ret MODE_INDICATOR_SIZE
  | QR_MODE_FNC1SECOND => Ret (MODE_INDICATOR_SIZE + 8)
  | QR_MODE_NUL => Ret 0
  end.

(* @src C/qrencode-3.4.4/qrinput.c:1002-1042 QRinput_lengthOfCode *)
Definition QRinput_lengthOfCode (mode : QRencodeMode) (version bits : Z) : Z :=
  let payload := bits - 4 - QRspec_lengthIndicator mode version in
  let size :=
    match mode with
    | QR_MODE_NUM =>
        let chunks := payload `quot` 10 in
        let remain := payload - chunks * 10 in
        let size := chunks * 3 in
        if bool_decide (remain >= 7) then size + 2
        else if bool_decide (remain >= 4) then size + 1
        else size
    | QR_MODE_AN =>
        let chunks := payload `quot` 11 in
        let remain := payload - chunks * 11 in
        let size := chunks * 2 in
        if bool_decide (remain >= 6) then size + 1 else size
    | QR_MODE_8 => payload `quot` 8
    | QR_MODE_KANJI => (payload `quot` 13) * 2
    | QR_MODE_STRUCTURE => payload `quot` 8
    | _ => 0
    end in
  let maxsize := QRspec_maximumWords mode version in
  let size := if bool_decide (size < 0) then 0 else size in
  if bool_decide (maxsize > 0 /\ size > maxsize) then maxsize else size.

(** ** Encoding *)

(** The part without recursion: the encoder of the entry's mode. The result is
    what [entry->bstream] holds; [Some None] is the [default] case, which leaves
    it [NULL] and does not fail. *)
(* @src C/qrencode-3.4.4/qrinput.c:1082-1109 QRinput_encodeBitStream *)
Definition encode_chunk (entry : QRinput_List) (version : Z) (mqr : bool)
    : outcome (option (option BitStream)) :=
  let enc (m : outcome (option BitStream)) : outcome (option (option BitStream)) :=
    r ← m; Ret (match r with None => None | Some bs => Some (Some bs) end) in
  match e_mode entry with
  | QR_MODE_NUM => enc (QRinput_encodeModeNum entry version mqr)
  | QR_MODE_AN => enc (QRinput_encodeModeAn entry version mqr)
  | QR_MODE_8 => enc (QRinput_encodeMode8 entry version mqr)
  | QR_MODE_KANJI => enc (QRinput_encodeModeKanji entry version mqr)
  | QR_MODE_STRUCTURE => enc (QRinput_encodeModeStructure entry mqr)
  | QR_MODE_ECI => enc (QRinput_encodeModeECI entry version)
  | QR_MODE_FNC1SECOND => enc (QRinput_encodeModeFNC1Second entry version)
  | _ => Ret (Some None)
  end.

Definition set_bstream (entry : QRinput_List) (bs : option BitStream) : QRinput_List :=
  MkEntry (e_mode entry) (e_size entry) (e_data entry) bs.

(** The length of the stream, or -1, and the entry with its stream. *)
(* @src C/qrencode-3.4.4/qrinput.c:1053-1117 QRinput_encodeBitStream *)
Fixpoint QRinput_encodeBitStream (fuel : nat) (entry : QRinput_List) (version : Z) (mqr : bool)
    : outcome (Z * QRinput_List) :=
  match fuel with
  | O => Fault OutOfFuel
  | S fuel =>
      let entry := set_bstream entry None in
      let words := QRspec_maximumWords (e_mode entry) version in
      if bool_decide (words <> 0 /\ e_size entry > words) then
        st1 ← QRinput_List_newEntry (e_mode entry) words (e_data entry);
        match st1 with
        | None => Ret (-1, entry)
        | Some st1 =>
            st2 ← QRinput_List_newEntry (e_mode entry) (e_size entry - words)
                    (drop (Z.to_nat words) (e_data entry));
            match st2 with
            | None => Ret (-1, entry)
            | Some st2 =>
                r1 ← QRinput_encodeBitStream fuel st1 version mqr;
                if bool_decide (r1.1 < 0) then Ret (-1, entry) else
                r2 ← QRinput_encodeBitStream fuel st2 version mqr;
                if bool_decide (r2.1 < 0) then Ret (-1, entry) else
                match BitStream_append BitStream_new (e_bstream r1.2) with
                | None => Ret (-1, set_bstream entry (Some BitStream_new))
                | Some bs =>
                    match BitStream_append bs (e_bstream r2.2) with
                    | None => Ret (-1, set_bstream entry (Some bs))
                    | Some bs => Ret (BitStream_size bs, set_bstream entry (Some bs))
                    end
                end
            end
        end
      else
        r ← encode_chunk entry version mqr;
        match r with
        | None => Ret (-1, entry)
        | Some None => Fault NullDeref
        | Some (Some bs) => Ret (BitStream_size bs, set_bstream entry (Some bs))
        end
  end.

(** Every level of the recursion takes [words] bytes off the entry. *)
Definition encode_fuel (entry : QRinput_List) : nat := S (Z.to_nat (e_size entry)).
