(* ===== verification/QrDecode.v ===== *)
(** * Decoding the entries

    A reader of the bit stream as the standard (JIS X0510) describes it, and
    the proof that what [QRinput_encodeBitStream] writes for an entry is read
    back as the entry's mode and data. The functions of this file model no
    code: they are the specification the encoders of [QrEntry] are held to. *)

From S2P Require Import Prelude Block Bitstream QrSpec QrEntry.

(** ** The reader *)

(** The number in the next [n] bits. *)
Definition take_num (n : nat) (bs : BitStream) : option (Z * BitStream) :=
  if bool_decide (n <= length bs)%nat then Some (value_of (take n bs), drop n bs) else None.

(** [n] groups in a row. *)
Fixpoint read_groups (rd : BitStream -> option (list Z * BitStream)) (n : nat) (bs : BitStream)
    : option (list Z * BitStream) :=
  match n with
  | O => Some ([], bs)
  | S n => '(c, bs) ← rd bs; '(l, bs) ← read_groups rd n bs; Some (c ++ l, bs)
  end.

(** A group of digits: three in 10 bits, two in 7, one in 4. *)
Definition read3 (bs : BitStream) : option (list Z * BitStream) :=
  '(v, bs) ← take_num 10 bs; Some ([48 + v / 100; 48 + (v / 10) `mod` 10; 48 + v `mod` 10], bs).
Definition read2 (bs : BitStream) : option (list Z * BitStream) :=
  '(v, bs) ← take_num 7 bs; Some ([48 + v / 10; 48 + v `mod` 10], bs).
Definition read1 (bs : BitStream) : option (list Z * BitStream) :=
  '(v, bs) ← take_num 4 bs; Some ([48 + v], bs).

Definition read_num (n : nat) (bs : BitStream) : option (list Z * BitStream) :=
  '(l, bs) ← read_groups read3 (n / 3) bs;
  '(t, bs) ← match (n mod 3)%nat with 1%nat => read1 bs | 2%nat => read2 bs | _ => Some ([], bs) end;
  Some (l ++ t, bs).

(** The 45 characters of the alphanumeric mode, in the order of their values. *)
Definition an_chars : list Z :=
  str_bytes "0123456789ABCDEFGHIJKLMNOPQRSTUVWXYZ $%*+-./:".

Definition read_an2 (bs : BitStream) : option (list Z * BitStream) :=
  '(v, bs) ← take_num 11 bs; Some ([entry 0 an_chars (v / 45); entry 0 an_chars (v `mod` 45)], bs).
Definition read_an1 (bs : BitStream) : option (list Z * BitStream) :=
  '(v, bs) ← take_num 6 bs; Some ([entry 0 an_chars v], bs).

Definition read_an (n : nat) (bs : BitStream) : option (list Z * BitStream) :=
  '(l, bs) ← read_groups read_an2 (n / 2) bs;
  '(t, bs) ← match (n mod 2)%nat with 1%nat => read_an1 bs | _ => Some ([], bs) end;
  Some (l ++ t, bs).

Definition read_byte (bs : BitStream) : option (list Z * BitStream) :=
  '(v, bs) ← take_num 8 bs; Some ([v], bs).

(** A Shift JIS character: the 13 bits are 0xc0 times the lead byte, from 0x81
    or 0xc1, plus the trail byte from 0x40. *)
Definition read_kanji1 (bs : BitStream) : option (list Z * BitStream) :=
  '(v, bs) ← take_num 13 bs;
  let w := v / 0xc0 * 256 + v `mod` 0xc0 in
  let c := if bool_decide (w + 0x8140 <= 0x9ffc) then w + 0x8140 else w + 0xc140 in
  Some ([c / 256; c `mod` 256], bs).

(** The assignment number of an ECI header, as the four bytes of the entry. *)
Definition read_eci (bs : BitStream) : option (list Z * BitStream) :=
  match bs with
  | false :: bs => '(v, bs) ← take_num 7 bs; Some ([v; 0; 0; 0], bs)
  | true :: false :: bs => '(v, bs) ← take_num 14 bs; Some ([v `mod` 256; v / 256; 0; 0], bs)
  | true :: true :: false :: bs =>
      '(v, bs) ← take_num 21 bs; Some ([v `mod` 256; (v / 256) `mod` 256; v / 65536; 0], bs)
  | _ => None
  end.

(** One segment: mode indicator, character count, characters. *)
Definition read_segment (version : Z) (bs : BitStream)
    : option (QRencodeMode * list Z * BitStream) :=
  let counted mode (rd : nat -> BitStream -> option (list Z * BitStream)) bs :=
    '(n, bs) ← take_num (Z.to_nat (QRspec_lengthIndicator mode version)) bs;
    '(l, bs) ← rd (Z.to_nat n) bs;
    Some (mode, l, bs) in
  '(m, bs) ← take_num 4 bs;
  match m with
  | 1 => counted QR_MODE_NUM read_num bs
  | 2 => counted QR_MODE_AN read_an bs
  | 4 => counted QR_MODE_8 (read_groups read_byte) bs
  | 8 => counted QR_MODE_KANJI (read_groups read_kanji1) bs
  | 3 => '(number, bs) ← take_num 4 bs;
         '(size, bs) ← take_num 4 bs;
         '(parity, bs) ← take_num 8 bs;
         Some (QR_MODE_STRUCTURE, [size + 1; number + 1; parity], bs)
  | 7 => '(l, bs) ← read_eci bs; Some (QR_MODE_ECI, l, bs)
  | 9 => '(l, bs) ← read_byte bs; Some (QR_MODE_FNC1SECOND, l, bs)
  | _ => None
  end.

(** All segments, up to the terminator: four zeros, or the end of the symbol. *)
Fixpoint read_segments (fuel : nat) (version : Z) (bs : BitStream)
    : option (list (QRencodeMode * list Z)) :=
  match fuel with
  | O => None
  | S fuel =>
      if bool_decide (length bs < 4)%nat then Some []
      else if bool_decide (value_of (take 4 bs) = 0) then Some []
      else
        '(m, l, bs) ← read_segment version bs;
        rest ← read_segments fuel version bs;
        Some ((m, l) :: rest)
  end.

(** ** Lemmas on groups *)

Lemma take_num_bits n w z rest :
  2 ^ Z.of_nat n = w -> 0 <= z < w -> take_num n (bits_of n z ++ rest) = Some (z, rest).
Proof.
  intros <- Hz. unfold take_num.
  rewrite bool_decide_eq_true_2 by (rewrite length_app, bits_of_length; lia).
  rewrite take_app_exact, drop_app_exact by (by rewrite bits_of_length).
  by rewrite value_bits_small.
Qed.

(** The first [n] groups of [k] bytes. *)
Fixpoint groups (k n : nat) (l : list Z) : list (list Z) :=
  match n with O => [] | S n => take k l :: groups k n (drop k l) end.

(** What the loops write: the code [f] of each group. *)
Definition write_groups (f : list Z -> BitStream) (gs : list (list Z)) : BitStream :=
  concat (map f gs).

(** The bytes of a group, by their index in the whole data. *)
Lemma byte_at_group l k i j :
  (j < k)%nat -> (i + j < length l)%nat ->
  byte_at l (Z.of_nat (i + j)) = Ret (nth j (take k (drop i l)) 0).
Proof.
  intros Hj Hi. destruct (lookup_lt_is_Some_2 l (i + j)%nat Hi) as [b Hb].
  rewrite (byte_at_lookup l _ b) by (rewrite ?Nat2Z.id; lia || done). f_equal.
  assert (H : take k (drop i l) !! j = Some b)
    by (by rewrite lookup_take_lt, lookup_drop).
  by rewrite nth_lookup, H.
Qed.

Lemma groups_loop {S} k n l o (body : Z -> S -> outcome S) (step : S -> list Z -> S) s :
  (forall i s, o <= i < o + Z.of_nat n ->
     body i s = Ret (step s (take k (drop (k * Z.to_nat (i - o)) l)))) ->
  for_ (seqZ o (Z.of_nat n)) body s = Ret (fold_left step (groups k n l) s).
Proof.
  revert l o s. induction n as [|n IH]; intros l o s Hb; [done|].
  rewrite seqZ_cons by lia. cbn [for_]. rewrite Hb by lia. run.
  replace (Z.to_nat (o - o)) with 0%nat by lia. rewrite Nat.mul_0_r, drop_0.
  replace (Z.pred (Z.of_nat (Datatypes.S n))) with (Z.of_nat n) by lia.
  rewrite (IH (drop k l)); [done|]. intros i s' Hi. rewrite Hb by lia. rewrite drop_drop.
  replace (Z.to_nat (i - o)) with (Datatypes.S (Z.to_nat (i - Z.succ o))) by lia.
  by rewrite Nat.mul_succ_r, Nat.add_comm.
Qed.

Lemma groups_write f gs bs :
  fold_left (fun bs c => bs ++ f c) gs bs = bs ++ write_groups f gs.
Proof.
  revert bs. induction gs as [|g gs IH]; intros bs; unfold write_groups in *; cbn [fold_left map concat].
  - by rewrite app_nil_r.
  - by rewrite IH, app_assoc.
Qed.

(** A loop of appends over groups of [k] bytes. *)
Lemma write_groups_loop k w (code : list Z -> Z) n l (body : Z -> BitStream -> outcome BitStream) bs :
  0 <= w <= 32 ->
  (forall i bs, 0 <= i < Z.of_nat n ->
     body i bs = Ret (BitStream_appendNum bs w (code (take k (drop (k * Z.to_nat i) l))))) ->
  for_ (seqZ 0 (Z.of_nat n)) body bs =
  Ret (bs ++ write_groups (fun c => bits_of (Z.to_nat w) (code c)) (groups k n l)).
Proof.
  intros Hw Hb. rewrite <- groups_write. apply groups_loop. intros i s Hi.
  rewrite Hb, appendNum_bits, Z.sub_0_r by lia. done.
Qed.

(** A validation loop over groups. *)
Lemma check_groups k t n l o test :
  (forall i, o <= i < o + Z.of_nat n ->
     test i = Ret (t (take k (drop (k * Z.to_nat (i - o)) l)))) ->
  check_all (seqZ o (Z.of_nat n)) test = Ret (if forallb t (groups k n l) then 0 else -1).
Proof.
  revert l o. induction n as [|n IH]; intros l o Ht; [done|].
  rewrite seqZ_cons by lia. cbn [check_all groups forallb]. rewrite Ht by lia. run.
  replace (Z.to_nat (o - o)) with 0%nat by lia. rewrite Nat.mul_0_r, drop_0.
  destruct (t (take k l)); [|done]. cbn [andb].
  replace (Z.pred (Z.of_nat (S n))) with (Z.of_nat n) by lia.
  rewrite (IH (drop k l)); [done|]. intros i Hi. rewrite Ht by lia. rewrite drop_drop.
  replace (Z.to_nat (i - o)) with (S (Z.to_nat (i - Z.succ o))) by lia.
  by rewrite Nat.mul_succ_r, Nat.add_comm.
Qed.

Lemma groups_concat k n l : concat (groups k n l) = take (k * n) l.
Proof.
  revert l. induction n as [|n IH]; intros l; cbn [groups concat].
  - by rewrite Nat.mul_0_r.
  - by rewrite IH, take_take_drop, Nat.mul_succ_r, Nat.add_comm.
Qed.

Lemma groups_length k n l :
  (k * n <= length l)%nat -> Forall (fun c => length c = k) (groups k n l).
Proof.
  revert l. induction n as [|n IH]; intros l Hl; constructor.
  - rewrite length_take. lia.
  - apply IH. rewrite length_drop. lia.
Qed.

Lemma groups_Forall (P : Z -> Prop) k n l : Forall P l -> Forall (Forall P) (groups k n l).
Proof.
  revert l. induction n as [|n IH]; intros l Hl; constructor; [by apply Forall_take|].
  by apply IH, Forall_drop.
Qed.

Lemma groups_ok (P : Z -> Prop) k n l :
  (k * n <= length l)%nat -> Forall P l ->
  Forall (fun c => length c = k /\ Forall P c) (groups k n l).
Proof. intros Hl HP. apply Forall_and. split; [by apply groups_length|by apply groups_Forall]. Qed.

Lemma groups_1 l : groups 1 (length l) l = map (fun c => [c]) l.
Proof. induction l as [|c l IH]; [done|]. cbn [length groups map]. f_equal. exact IH. Qed.

Lemma write_groups_length f w gs :
  Forall (fun c => length (f c) = w) gs -> length (write_groups f gs) = (w * length gs)%nat.
Proof.
  unfold write_groups. induction 1 as [|c gs Hc _ IH]; cbn [map concat length]; [lia|].
  rewrite length_app, Hc, IH. lia.
Qed.

Lemma length_groups k n l : length (groups k n l) = n.
Proof. revert l. induction n as [|n IH]; intros l; cbn [groups length]; [done|]. by rewrite IH. Qed.

(** A reader that undoes the code of each group undoes the loop. *)
Lemma read_write_groups f rd gs rest :
  Forall (fun c => forall rest, rd (f c ++ rest) = Some (c, rest)) gs ->
  read_groups rd (length gs) (write_groups f gs ++ rest) = Some (concat gs, rest).
Proof.
  unfold write_groups. induction 1 as [|c gs Hc _ IH]; [done|].
  cbn [read_groups length map concat]. rewrite <- app_assoc, Hc. cbn [mbind option_bind].
  by rewrite IH.
Qed.

(** ** The encoders as functions of the data *)

Definition num3 (c : list Z) : Z :=
  u32 ((nth 0 c 0 - 48) * 100 + (nth 1 c 0 - 48) * 10 + (nth 2 c 0 - 48)).
Definition num2 (c : list Z) : Z := u32 ((nth 0 c 0 - 48) * 10 + (nth 1 c 0 - 48)).
Definition num1 (c : list Z) : Z := u32 (nth 0 c 0 - 48).

Definition num_bits (l : list Z) : BitStream :=
  let n := (length l / 3)%nat in
  write_groups (fun c => bits_of 10 (num3 c)) (groups 3 n l) ++
  match (length l mod 3)%nat with
  | 1%nat => bits_of 4 (num1 (drop (3 * n) l))
  | 2%nat => bits_of 7 (num2 (drop (3 * n) l))
  | _ => []
  end.

Definition an2 (c : list Z) : Z :=
  u32 (u32 (QRinput_lookAnTable (nth 0 c 0)) * 45 + u32 (QRinput_lookAnTable (nth 1 c 0))).
Definition an1 (c : list Z) : Z := u32 (QRinput_lookAnTable (nth 0 c 0)).

Definition an_bits (l : list Z) : BitStream :=
  let n := (length l / 2)%nat in
  write_groups (fun c => bits_of 11 (an2 c)) (groups 2 n l) ++
  match (length l mod 2)%nat with
  | 1%nat => bits_of 6 (an1 (drop (2 * n) l))
  | _ => []
  end.

Definition kanji1 (c : list Z) : Z := kanji_code (nth 0 c 0) (nth 1 c 0).

Definition kanji_bits (l : list Z) : BitStream :=
  write_groups (fun c => bits_of 13 (kanji1 c)) (groups 2 (length l / 2) l).

(** The header of a segment. *)
Definition header (mode : QRencodeMode) (version count : Z) : BitStream :=
  bits_of 4 (QRSPEC_MODEID mode) ++
  bits_of (Z.to_nat (QRspec_lengthIndicator mode version)) count.

Lemma lengthIndicator_range mode version :
  0 <= QRspec_lengthIndicator mode version <= 16.
Proof.
  unfold QRspec_lengthIndicator, length_class.
  destruct mode, (bool_decide (version <= 9)), (bool_decide (version <= 26)); vm_compute; split; congruence.
Qed.

Lemma header_bits mode version count :
  BitStream_appendNum (BitStream_appendNum BitStream_new 4 (QRSPEC_MODEID mode))
    (QRspec_lengthIndicator mode version) count = header mode version count.
Proof.
  pose proof (lengthIndicator_range mode version).
  rewrite (appendNum_bits _ 4), appendNum_bits by lia. done.
Qed.

(** [data[k * i + j]] within the groups, and behind them. *)
Lemma group_byte l k i j p :
  0 <= i -> (j < k)%nat -> (k * Z.to_nat i + j < length l)%nat ->
  p = i * Z.of_nat k + Z.of_nat j ->
  byte_at l p = Ret (nth j (take k (drop (k * Z.to_nat i) l)) 0).
Proof. intros Hi Hj Hl ->. rewrite <- byte_at_group by done. f_equal. lia. Qed.

Lemma tail_byte l n j p :
  (n + j < length l)%nat -> p = Z.of_nat n + Z.of_nat j ->
  byte_at l p = Ret (nth j (drop n l) 0).
Proof.
  intros Hl ->. rewrite <- Nat2Z.inj_add, (byte_at_group l (length l)) by lia.
  by rewrite take_ge by (rewrite length_drop; lia).
Qed.

(** Whole groups and rest. *)
Lemma quot_groups size k n d :
  size = Z.of_nat n -> (k <> 0)%nat -> d = Z.of_nat k -> size `quot` d = Z.of_nat (n / k).
Proof. intros -> Hk ->. rewrite Nat2Z.inj_div. apply Z.quot_div_nonneg; lia. Qed.

Lemma rest_groups n k : (k <> 0)%nat -> (n mod k = n - k * (n / k) /\ n mod k < k /\ k * (n / k) <= n)%nat.
Proof.
  intros Hk. pose proof (Nat.div_mod_eq n k). pose proof (Nat.mod_upper_bound n k Hk). lia.
Qed.

Lemma encodeModeNum_spec e v :
  e_size e = Z.of_nat (length (e_data e)) ->
  QRinput_encodeModeNum e v false =
  Ret (Some (header QR_MODE_NUM v (e_size e) ++ num_bits (e_data e))).
Proof.
  intros Hs. unfold QRinput_encodeModeNum, num_bits. cbv zeta. rewrite header_bits.
  rewrite (quot_groups _ 3 _ 3 Hs), Hs by done.
  destruct (rest_groups (length (e_data e)) 3) as (Hm & Hr & Hn); [done|].
  revert Hm Hr Hn. set (l := e_data e). set (n := (length l / 3)%nat). intros Hm Hr Hn.
  rewrite (write_groups_loop 3 10 num3 n l).
  2: lia.
  2: { intros i bs Hi. rewrite (group_byte l 3 i 0 (i * 3)) by lia. run.
       rewrite (group_byte l 3 i 1 (i * 3 + 1)) by lia. run. by rewrite (group_byte l 3 i 2 (i * 3 + 2)) by lia. }
  run. destruct (length l mod 3)%nat as [|[|[|]]] eqn:E; [| | |lia].
  - rewrite !bool_decide_eq_false_2 by lia. run. by rewrite app_nil_r.
  - rewrite bool_decide_eq_true_2, (tail_byte l (3 * n) 0 (Z.of_nat n * 3)) by lia. run.
    rewrite appendNum_bits by lia. by rewrite !app_assoc.
  - rewrite bool_decide_eq_false_2, bool_decide_eq_true_2 by lia.
    rewrite (tail_byte l (3 * n) 0 (Z.of_nat n * 3)) by lia. run. rewrite (tail_byte l (3 * n) 1 (Z.of_nat n * 3 + 1)) by lia. run.
    rewrite appendNum_bits by lia. by rewrite !app_assoc.
Qed.

Lemma encodeModeAn_spec e v :
  e_size e = Z.of_nat (length (e_data e)) ->
  QRinput_encodeModeAn e v false =
  Ret (Some (header QR_MODE_AN v (e_size e) ++ an_bits (e_data e))).
Proof.
  intros Hs. unfold QRinput_encodeModeAn, an_bits. cbv zeta. cbn [andb]. rewrite header_bits.
  rewrite (quot_groups _ 2 _ 2 Hs), Hs by done.
  destruct (rest_groups (length (e_data e)) 2) as (Hm & Hr & Hn); [done|].
  revert Hm Hr Hn. set (l := e_data e). set (n := (length l / 2)%nat). intros Hm Hr Hn.
  rewrite (write_groups_loop 2 11 an2 n l).
  2: lia.
  2: { intros i bs Hi. rewrite (group_byte l 2 i 0 (i * 2)) by lia. run.
       by rewrite (group_byte l 2 i 1 (i * 2 + 1)) by lia. }
  run. assert (Hl : Z.land (Z.of_nat (length l)) 1 = Z.of_nat (length l mod 2)%nat)
    by (by rewrite land_1_mod, Nat2Z.inj_mod).
  rewrite Hl. destruct (length l mod 2)%nat as [|[|]] eqn:E; [| |lia].
  - rewrite !bool_decide_eq_false_2 by lia. run. by rewrite app_nil_r.
  - rewrite bool_decide_eq_true_2, (tail_byte l (2 * n) 0 (Z.of_nat n * 2)) by lia. run.
    rewrite appendNum_bits by lia. by rewrite !app_assoc.
Qed.

Lemma encodeMode8_spec e v :
  e_size e = Z.of_nat (length (e_data e)) ->
  QRinput_encodeMode8 e v false =
  Ret (Some (header QR_MODE_8 v (e_size e) ++ bytes_bits (e_data e))).
Proof.
  intros Hs. unfold QRinput_encodeMode8. cbv zeta. cbn [andb]. rewrite header_bits, Hs.
  rewrite appendBytes_bits by lia. run. by rewrite Nat2Z.id, firstn_all.
Qed.

Lemma for_map {S} g l (body : Z -> S -> outcome S) s :
  for_ (map g l) body s = for_ l (fun i s => body (g i) s) s.
Proof.
  revert s. induction l as [|i l IH]; intros s; [done|]. cbn [map for_].
  destruct (body (g i) s); run; [apply IH|done].
Qed.

Lemma evens_groups n : Z.of_nat n mod 2 = 0 -> evens (Z.of_nat n) = map (Z.mul 2) (seqZ 0 (Z.of_nat (n / 2))).
Proof. intros H. unfold evens. do 2 f_equal. rewrite Nat2Z.inj_div. dlia. Qed.

Lemma encodeModeKanji_spec e v :
  e_size e = Z.of_nat (length (e_data e)) -> e_size e mod 2 = 0 ->
  QRinput_encodeModeKanji e v false =
  Ret (Some (header QR_MODE_KANJI v (e_size e / 2) ++ kanji_bits (e_data e))).
Proof.
  intros Hs H2. unfold QRinput_encodeModeKanji, kanji_bits. cbv zeta. cbn [andb].
  rewrite header_bits, Z.quot_div_nonneg by lia. rewrite Hs in *.
  rewrite evens_groups, for_map by done.
  destruct (rest_groups (length (e_data e)) 2) as (Hm & Hr & Hn); [done|].
  rewrite (write_groups_loop 2 13 kanji1 _ (e_data e)).
  - done.
  - lia.
  - intros i bs Hi. rewrite (group_byte _ 2 i 0 (2 * i)) by lia. run.
    by rewrite (group_byte _ 2 i 1 (2 * i + 1)) by lia.
Qed.

(** ** Reading back *)

Definition digit (c : Z) : Prop := 48 <= c <= 57.

Lemma read3_num3 c rest :
  length c = 3%nat -> Forall digit c -> read3 (bits_of 10 (num3 c) ++ rest) = Some (c, rest).
Proof.
  destruct c as [|x [|y [|z [|]]]]; try done. intros _ H.
  apply Forall_cons in H as [Hx H]. apply Forall_cons in H as [Hy H].
  apply Forall_cons in H as [Hz _]. unfold digit in *.
  unfold read3, num3. cbn [nth]. rewrite (wrap_small 32) by lia.
  rewrite (take_num_bits 10 1024) by (done || lia). cbn [mbind option_bind].
  set (v := _ + _ + _). repeat f_equal; subst v; dlia.
Qed.

Lemma read2_num2 c rest :
  length c = 2%nat -> Forall digit c -> read2 (bits_of 7 (num2 c) ++ rest) = Some (c, rest).
Proof.
  destruct c as [|x [|y [|]]]; try done. intros _ H.
  apply Forall_cons in H as [Hx H]. apply Forall_cons in H as [Hy _]. unfold digit in *.
  unfold read2, num2. cbn [nth]. rewrite (wrap_small 32) by lia.
  rewrite (take_num_bits 7 128) by (done || lia). cbn [mbind option_bind].
  set (v := _ + _). repeat f_equal; subst v; dlia.
Qed.

Lemma read1_num1 c rest :
  length c = 1%nat -> Forall digit c -> read1 (bits_of 4 (num1 c) ++ rest) = Some (c, rest).
Proof.
  destruct c as [|x [|]]; try done. intros _ H. apply Forall_cons in H as [Hx _]. unfold digit in *.
  unfold read1, num1. cbn [nth]. rewrite (wrap_small 32) by lia.
  rewrite (take_num_bits 4 16) by (done || lia). cbn [mbind option_bind]. repeat f_equal; lia.
Qed.

(** The two parts of a list cut after whole groups. *)
Lemma groups_split k n l :
  (k * n <= length l)%nat -> concat (groups k n l) ++ drop (k * n) l = l.
Proof. intros Hl. by rewrite groups_concat, take_drop. Qed.

Lemma read_num_bits l rest :
  Forall digit l -> read_num (length l) (num_bits l ++ rest) = Some (l, rest).
Proof.
  intros Hl. unfold read_num, num_bits. cbv zeta.
  destruct (rest_groups (length l) 3) as (Hm & Hr & Hn); [done|].
  set (n := (length l / 3)%nat) in *.
  pose proof (length_drop l (3 * n)) as Hd.
  pose proof (Forall_drop _ (3 * n) _ Hl) as Ht.
  rewrite <- app_assoc, <- (length_groups 3 n l) at 1. rewrite read_write_groups.
  2: { eapply Forall_impl; [exact (groups_ok _ 3 n l Hn Hl)|].
       intros c [? ?] r. by apply read3_num3. }
  cbn [mbind option_bind].
  pose proof (groups_split 3 n l Hn) as Hg.
  destruct (length l mod 3)%nat as [|[|[|]]]; [| | |lia].
  - rewrite (nil_length_inv (drop (3 * n) l)) in Hg by lia. cbn [app mbind option_bind]. by rewrite Hg.
  - rewrite read1_num1 by (lia || done). cbn [mbind option_bind]. by rewrite Hg.
  - rewrite read2_num2 by (lia || done). cbn [mbind option_bind]. by rewrite Hg.
Qed.

Lemma num_bits_length l :
  Z.of_nat (length (num_bits l)) = QRinput_estimateBitsModeNum (Z.of_nat (length l)).
Proof.
  unfold num_bits, QRinput_estimateBitsModeNum. cbv zeta.
  rewrite (quot_groups _ 3 _ 3 eq_refl) by done.
  destruct (rest_groups (length l) 3) as (Hm & Hr & Hn); [done|].
  revert Hm Hr Hn. set (n := (length l / 3)%nat). intros Hm Hr Hn.
  rewrite length_app, (write_groups_length _ 10), length_groups
    by (apply Forall_true; intros; apply bits_of_length).
  replace (Z.of_nat (length l) - Z.of_nat n * 3) with (Z.of_nat (length l mod 3)) by lia.
  destruct (length l mod 3)%nat as [|[|[|]]]; [| | |lia];
    rewrite ?bits_of_length; simpl; lia.
Qed.

(** The character table and the standard's list of characters agree. *)
Definition an_char (c : Z) : Prop := byte c /\ 0 <= QRinput_lookAnTable c.

Lemma an_char_value c :
  an_char c -> 0 <= QRinput_lookAnTable c < 45 /\ entry 0 an_chars (QRinput_lookAnTable c) = c.
Proof.
  intros [Hc H0].
  assert (H : forallb (fun c => let v := QRinput_lookAnTable c in
    (v <? 0) || ((v <? 45) && (entry 0 an_chars v =? c))) (seqZ 0 256) = true) by by vm_compute.
  rewrite forallb_forall in H. specialize (H c).
  rewrite orb_true_iff, andb_true_iff, !Z.ltb_lt, Z.eqb_eq in H.
  destruct H as [H|[H1 H2]]; [|lia|done].
  apply list_elem_of_In, elem_of_seqZ. unfold byte in Hc. lia.
Qed.

Lemma read_an2_an2 c rest :
  length c = 2%nat -> Forall an_char c -> read_an2 (bits_of 11 (an2 c) ++ rest) = Some (c, rest).
Proof.
  destruct c as [|x [|y [|]]]; try done. intros _ H.
  apply Forall_cons in H as [Hx H]. apply Forall_cons in H as [Hy _].
  destruct (an_char_value x Hx) as [Bx Ex]. destruct (an_char_value y Hy) as [By Ey].
  unfold read_an2, an2. cbn [nth].
  rewrite (wrap_small 32 (QRinput_lookAnTable x)), (wrap_small 32 (QRinput_lookAnTable y)) by lia.
  rewrite (wrap_small 32), (take_num_bits 11 2048) by (done || lia). cbn [mbind option_bind].
  rewrite Z.div_add_l, (Z.div_small (QRinput_lookAnTable y)), Z.add_0_r by lia.
  rewrite Z.add_comm, Z.mod_add, Z.mod_small by lia. by rewrite Ex, Ey.
Qed.

Lemma read_an1_an1 c rest :
  length c = 1%nat -> Forall an_char c -> read_an1 (bits_of 6 (an1 c) ++ rest) = Some (c, rest).
Proof.
  destruct c as [|x [|]]; try done. intros _ H. apply Forall_cons in H as [Hx _].
  destruct (an_char_value x Hx) as [Bx Ex].
  unfold read_an1, an1. cbn [nth]. rewrite (wrap_small 32) by lia.
  rewrite (take_num_bits 6 64) by (done || lia). cbn [mbind option_bind]. by rewrite Ex.
Qed.

Lemma read_an_bits l rest :
  Forall an_char l -> read_an (length l) (an_bits l ++ rest) = Some (l, rest).
Proof.
  intros Hl. unfold read_an, an_bits. cbv zeta.
  destruct (rest_groups (length l) 2) as (Hm & Hr & Hn); [done|].
  set (n := (length l / 2)%nat) in *.
  pose proof (length_drop l (2 * n)) as Hd.
  pose proof (Forall_drop _ (2 * n) _ Hl) as Ht.
  rewrite <- app_assoc, <- (length_groups 2 n l) at 1. rewrite read_write_groups.
  2: { eapply Forall_impl; [exact (groups_ok _ 2 n l Hn Hl)|].
       intros c [? ?] r. by apply read_an2_an2. }
  cbn [mbind option_bind].
  pose proof (groups_split 2 n l Hn) as Hg.
  destruct (length l mod 2)%nat as [|[|]]; [| |lia].
  - rewrite (nil_length_inv (drop (2 * n) l)) in Hg by lia. cbn [app mbind option_bind]. by rewrite Hg.
  - rewrite read_an1_an1 by (lia || done). cbn [mbind option_bind]. by rewrite Hg.
Qed.

Lemma an_bits_length l :
  Z.of_nat (length (an_bits l)) = QRinput_estimateBitsModeAn (Z.of_nat (length l)).
Proof.
  unfold an_bits, QRinput_estimateBitsModeAn. cbv zeta.
  rewrite (quot_groups _ 2 _ 2 eq_refl), land_1_mod by done.
  destruct (rest_groups (length l) 2) as (Hm & Hr & Hn); [done|].
  revert Hm Hr Hn. set (n := (length l / 2)%nat). intros Hm Hr Hn.
  rewrite length_app, (write_groups_length _ 11), length_groups
    by (apply Forall_true; intros; apply bits_of_length).
  replace (Z.of_nat (length l) mod 2) with (Z.of_nat (length l mod 2))
    by (rewrite Nat2Z.inj_mod; done).
  destruct (length l mod 2)%nat as [|[|]]; [| |lia];
    rewrite ?bits_of_length; case_bool_decide; simpl; lia.
Qed.

Lemma read_byte_bits b rest : byte b -> read_byte (bits_of 8 b ++ rest) = Some ([b], rest).
Proof. intros Hb. unfold read_byte. by rewrite (take_num_bits 8 256). Qed.

Lemma read_bytes l rest :
  Forall byte l -> read_groups read_byte (length l) (bytes_bits l ++ rest) = Some (l, rest).
Proof.
  unfold bytes_bits. induction 1 as [|b l Hb _ IH]; [done|].
  cbn [length read_groups map concat]. rewrite <- app_assoc.
  rewrite read_byte_bits by done. cbn [mbind option_bind]. by rewrite IH.
Qed.

(** A double-byte character: a value the validation accepts, and a trail byte
    of Shift JIS. *)
Definition kanji_value (v : Z) : Prop := 0x8140 <= v <= 0x9ffc \/ 0xe040 <= v <= 0xebbf.
Definition kanji_char (c : list Z) : Prop :=
  exists a b, c = [a; b] /\ byte a /\ byte b /\ kanji_value (a * 256 + b).
Definition sjis_char (c : list Z) : Prop := kanji_char c /\ 0x40 <= nth 1 c 0.

Lemma two_bytes a b : byte b -> Z.lor (Z.shiftl a 8) b = a * 256 + b.
Proof. intros Hb. rewrite Z.lor_comm. by apply (lor_shiftl_add b a 8). Qed.

Lemma kanji_code_value a b :
  byte a -> byte b -> 0x40 <= b -> kanji_value (a * 256 + b) ->
  kanji_code a b = (a - (if bool_decide (a <= 0x9f) then 0x81 else 0xc1)) * 0xc0 + (b - 0x40) /\
  0 <= kanji_code a b < 8192.
Proof.
  unfold byte, kanji_value. intros Ha Hb Ht Hv. unfold kanji_code. rewrite two_bytes by done. cbv zeta.
  assert (E : exists p, 0 <= p < 43 /\ (p = 42 -> b <= 0xbf) /\
    (a - (if bool_decide (a <= 0x9f) then 0x81 else 0xc1)) = p /\
    (if bool_decide (a * 256 + b <= 0x9ffc) then a * 256 + b - 0x8140 else a * 256 + b - 0xc140) =
    p * 256 + (b - 0x40)).
  { exists (a - (if bool_decide (a <= 0x9f) then 0x81 else 0xc1)).
    split_and!; repeat case_bool_decide; lia. }
  destruct E as (p & Hp & Hp42 & -> & ->).
  rewrite (wrap_small 32 (p * 256 + (b - 0x40))) by lia.
  rewrite Z.shiftr_div_pow2 by lia. change (2 ^ 8) with 256.
  change 0xff with (Z.ones 8). rewrite Z.land_ones by lia. change (2 ^ 8) with 256.
  rewrite Z.div_add_l, Z.div_small, Z.add_0_r by lia.
  rewrite (Z.add_comm (p * 256)), Z.mod_add, Z.mod_small by lia.
  rewrite (wrap_small 32 (p * 0xc0)), (wrap_small 32) by lia. lia.
Qed.

Lemma read_kanji1_kanji1 c rest :
  sjis_char c -> read_kanji1 (bits_of 13 (kanji1 c) ++ rest) = Some (c, rest).
Proof.
  intros [(a & b & -> & Ha & Hb & Hv) Ht]. cbn [nth] in Ht.
  unfold read_kanji1, kanji1. cbn [nth].
  destruct (kanji_code_value a b Ha Hb Ht Hv) as [E Hr]. unfold byte, kanji_value in *.
  rewrite (take_num_bits 13 8192) by done. cbn [mbind option_bind]. cbv zeta. rewrite E. clear E Hr.
  set (q := a - _). rewrite Z.div_add_l, (Z.div_small (b - 0x40)), Z.add_0_r by lia.
  rewrite (Z.add_comm (q * 0xc0)), Z.mod_add, Z.mod_small by lia.
  assert (Ec : (if bool_decide (q * 256 + (b - 64) + 33088 <= 40956) then q * 256 + (b - 64) + 33088
    else q * 256 + (b - 64) + 49472) = a * 256 + b)
    by (unfold q; repeat case_bool_decide; lia).
  rewrite Ec, Z.div_add_l, (Z.div_small b), Z.add_0_r by lia.
  by rewrite (Z.add_comm (a * 256)), Z.mod_add, Z.mod_small by lia.
Qed.

Lemma read_kanji_bits l rest :
  Forall sjis_char (groups 2 (length l / 2) l) -> (length l mod 2 = 0)%nat ->
  read_groups read_kanji1 (length l / 2) (kanji_bits l ++ rest) = Some (l, rest).
Proof.
  intros Hl H2. unfold kanji_bits. destruct (rest_groups (length l) 2) as (Hm & _ & Hn); [done|].
  rewrite <- (length_groups 2 (length l / 2) l) at 1. rewrite read_write_groups.
  - rewrite groups_concat, take_ge by lia. done.
  - eapply Forall_impl; [exact Hl|]. intros c Hc r. by apply read_kanji1_kanji1.
Qed.

Lemma kanji_bits_length l :
  Z.of_nat (length (kanji_bits l)) = QRinput_estimateBitsModeKanji (Z.of_nat (length l)).
Proof.
  unfold kanji_bits, QRinput_estimateBitsModeKanji.
  rewrite (quot_groups _ 2 _ 2 eq_refl) by done.
  rewrite (write_groups_length _ 13), length_groups
    by (apply Forall_true; intros; apply bits_of_length). lia.
Qed.

(** ** Segments *)

(** Bits of a number in two parts. *)
Lemma bits_of_app n m z :
  bits_of (n + m) z = bits_of n (z / 2 ^ Z.of_nat m) ++ bits_of m z.
Proof.
  induction n as [|n IH]; [done|]. cbn [Nat.add bits_of app]. rewrite IH. f_equal.
  rewrite Z.div_pow2_bits by lia. f_equal. lia.
Qed.

Lemma bits_of_mod m z : bits_of m (z mod 2 ^ Z.of_nat m) = bits_of m z.
Proof.
  rewrite <- (bits_value (bits_of m z)) at 1. by rewrite bits_of_length, value_bits.
Qed.

(** The data of an entry that is written as the standard says. The program accepts
    more: Kanji entries whose trail bytes are below 0x40, structured append and ECI
    entries of the wrong size, and ECI numbers from 16384 on, whose three-byte
    form it gets wrong. *)
Definition readable (mode : QRencodeMode) (data : list Z) : Prop :=
  match mode with
  | QR_MODE_NUM => data <> [] /\ Forall digit data
  | QR_MODE_AN => data <> [] /\ Forall an_char data
  | QR_MODE_8 => data <> [] /\ Forall byte data
  | QR_MODE_KANJI => data <> [] /\ (length data mod 2 = 0)%nat /\
      Forall sjis_char (groups 2 (length data / 2) data)
  | QR_MODE_STRUCTURE => exists size number parity,
      data = [size; number; parity] /\ 1 <= size <= 16 /\ 1 <= number <= 16 /\ byte parity
  | QR_MODE_ECI => exists a b, data = [a; b; 0; 0] /\ byte a /\ byte b /\ a + 256 * b < 16384
  | QR_MODE_FNC1SECOND => exists a, data = [a] /\ byte a
  | _ => False
  end.

Definition eci_value (data : list Z) : Z := nth 0 data 0 + 256 * nth 1 data 0.

(** What is written for such an entry. *)
Definition segment_bits (mode : QRencodeMode) (version : Z) (data : list Z) : BitStream :=
  let n := Z.of_nat (length data) in
  match mode with
  | QR_MODE_NUM => header mode version n ++ num_bits data
  | QR_MODE_AN => header mode version n ++ an_bits data
  | QR_MODE_8 => header mode version n ++ bytes_bits data
  | QR_MODE_KANJI => header mode version (n / 2) ++ kanji_bits data
  | QR_MODE_STRUCTURE =>
      bits_of 4 3 ++ bits_of 4 (nth 1 data 0 - 1) ++ bits_of 4 (nth 0 data 0 - 1) ++
      bits_of 8 (nth 2 data 0)
  | QR_MODE_ECI =>
      bits_of 4 7 ++
      (if bool_decide (eci_value data < 128) then false :: bits_of 7 (eci_value data)
       else true :: false :: bits_of 14 (eci_value data))
  | QR_MODE_FNC1SECOND => bits_of 4 9 ++ bits_of 8 (nth 0 data 0)
  | _ => []
  end.

Lemma decodeECI_value a b :
  byte a -> byte b -> QRinput_decodeECIfromByteArray [a; b; 0; 0] = Ret (a + 256 * b).
Proof.
  intros Ha Hb.
  assert (E : QRinput_decodeECIfromByteArray [a; b; 0; 0] = Ret (Z.lor (u32 (Z.shiftl b 8)) a))
    by reflexivity.
  unfold byte in *. rewrite E, (wrap_small 32) by (rewrite Z.shiftl_mul_pow2; lia).
  rewrite two_bytes by done. f_equal. lia.
Qed.

Lemma eci_bits_short z : 0 <= z < 128 -> bits_of 8 z = false :: bits_of 7 z.
Proof. intros Hz. rewrite (bits_of_app 1 7), Z.div_small by lia. done. Qed.

Lemma eci_bits_long z : 0 <= z < 16384 -> bits_of 16 (0x8000 + z) = true :: false :: bits_of 14 z.
Proof.
  intros Hz. rewrite (bits_of_app 2 14), <- (bits_of_mod 14 (0x8000 + z)).
  change (2 ^ Z.of_nat 14) with 16384. change 0x8000 with (2 * 16384).
  rewrite Z.div_add_l, Z.div_small by lia.
  rewrite (Z.add_comm (2 * 16384)), Z.mod_add, Z.mod_small by lia. done.
Qed.

(** The encoders write the segment. *)
Lemma encode_chunk_spec e v :
  readable (e_mode e) (e_data e) -> e_size e = Z.of_nat (length (e_data e)) ->
  encode_chunk e v false = Ret (Some (Some (segment_bits (e_mode e) v (e_data e)))).
Proof.
  destruct e as [mode size data bs]. cbn [e_mode e_size e_data]. intros Hr Hs.
  unfold encode_chunk, segment_bits. cbv zeta. cbn [e_mode]. rewrite <- Hs.
  destruct mode; cbn [readable] in Hr; try done.
  - by rewrite encodeModeNum_spec.
  - by rewrite encodeModeAn_spec.
  - by rewrite encodeMode8_spec.
  - destruct Hr as (_ & H2 & _). rewrite encodeModeKanji_spec; [done|done|].
    cbn [e_size]. rewrite Hs. apply (f_equal Z.of_nat) in H2. by rewrite Nat2Z.inj_mod in H2.
  - destruct Hr as (sz & number & parity & -> & H1 & H2 & H3).
    unfold QRinput_encodeModeStructure. cbn [e_data nth].
    change (byte_at [sz; number; parity] 0) with (Ret sz).
    change (byte_at [sz; number; parity] 1) with (Ret number).
    change (byte_at [sz; number; parity] 2) with (Ret parity). run.
    rewrite !appendNum_bits, !(wrap_small 32) by lia. by rewrite <- !app_assoc.
  - destruct Hr as (a & b & -> & Ha & Hb & Hlt). unfold QRinput_encodeModeECI, eci_value.
    cbn [e_data nth]. rewrite decodeECI_value by done. run. unfold byte in *.
    set (z := a + 256 * b) in *. assert (Hz : 0 <= z) by lia. case_bool_decide.
    + rewrite !appendNum_bits by lia. by rewrite <- eci_bits_short.
    + rewrite bool_decide_eq_true_2 by done. rewrite !appendNum_bits, (wrap_small 32) by lia.
      by rewrite <- eci_bits_long.
  - destruct Hr as (a & -> & Ha). unfold QRinput_encodeModeFNC1Second.
    rewrite (appendNum_bits _ 4), appendBytes_bits by (simpl; lia). run.
    cbn [e_data nth]. unfold bytes_bits. simpl take. cbn [map concat]. by rewrite app_nil_r.
Qed.

(** The count of a splittable mode fits its field. *)
Lemma count_fits mode version n :
  QRinput_isSplittableMode mode = true -> mode <> QR_MODE_KANJI ->
  0 <= n <= QRspec_maximumWords mode version ->
  0 <= n < 2 ^ Z.of_nat (Z.to_nat (QRspec_lengthIndicator mode version)).
Proof.
  intros Hm Hk. unfold QRspec_maximumWords. rewrite Hm, bool_decide_eq_false_2 by done. cbv zeta.
  pose proof (lengthIndicator_range mode version) as Hr. unfold QRspec_lengthIndicator in *.
  rewrite Hm in *. rewrite Z2Nat.id by lia. rewrite Z.shiftl_1_l. lia.
Qed.

Lemma kanji_count_fits version n :
  0 <= n <= QRspec_maximumWords QR_MODE_KANJI version ->
  0 <= n / 2 < 2 ^ Z.of_nat (Z.to_nat (QRspec_lengthIndicator QR_MODE_KANJI version)).
Proof.
  unfold QRspec_maximumWords. cbn [QRinput_isSplittableMode].
  pose proof (lengthIndicator_range QR_MODE_KANJI version) as Hr. unfold QRspec_lengthIndicator in *.
  change (QRinput_isSplittableMode QR_MODE_KANJI) with true in *. cbv iota zeta in *.
  rewrite bool_decide_eq_true_2 by done. rewrite Z2Nat.id by lia. rewrite Z.shiftl_1_l.
  intros H. dlia.
Qed.

(** An entry that needs no splitting. *)
Definition one_chunk (mode : QRencodeMode) (version : Z) (data : list Z) : Prop :=
  QRspec_maximumWords mode version <> 0 ->
  Z.of_nat (length data) <= QRspec_maximumWords mode version.

Lemma one_chunk_le mode version data :
  QRinput_isSplittableMode mode = true -> one_chunk mode version data ->
  0 <= Z.of_nat (length data) <= QRspec_maximumWords mode version.
Proof.
  intros Hm H. split; [lia|]. apply H. unfold QRspec_maximumWords, length_class.
  destruct mode; try done; destruct (bool_decide (version <= 9)), (bool_decide (version <= 26)); by vm_compute.
Qed.

(** The reader recovers the entry and stops right behind it. *)
Lemma read_segment_spec mode version data rest :
  readable mode data -> one_chunk mode version data ->
  read_segment version (segment_bits mode version data ++ rest) = Some (mode, data, rest).
Proof.
  intros Hr Hone. unfold read_segment, segment_bits. cbv zeta.
  destruct mode; cbn [readable] in Hr; try done; unfold header;
    cbn [QRSPEC_MODEID]; rewrite <- !app_assoc, (take_num_bits 4 16) by (done || lia);
    cbn [mbind option_bind].
  - rewrite (take_num_bits _ _ _ _ eq_refl) by (by apply count_fits, one_chunk_le).
    cbn [mbind option_bind]. rewrite Nat2Z.id, read_num_bits by tauto. done.
  - rewrite (take_num_bits _ _ _ _ eq_refl) by (by apply count_fits, one_chunk_le).
    cbn [mbind option_bind]. rewrite Nat2Z.id, read_an_bits by tauto. done.
  - rewrite (take_num_bits _ _ _ _ eq_refl) by (by apply count_fits, one_chunk_le).
    cbn [mbind option_bind]. rewrite Nat2Z.id, read_bytes by tauto. done.
  - rewrite (take_num_bits _ _ _ _ eq_refl) by (by apply kanji_count_fits, one_chunk_le).
    cbn [mbind option_bind]. rewrite <- (Nat2Z.inj_div _ 2), Nat2Z.id, read_kanji_bits by tauto. done.
  - destruct Hr as (sz & number & parity & -> & H1 & H2 & H3). cbn [nth].
    rewrite (take_num_bits 4 16) by (done || lia). cbn [mbind option_bind].
    rewrite (take_num_bits 4 16) by (done || lia). cbn [mbind option_bind].
    rewrite (take_num_bits 8 256) by done. cbn [mbind option_bind].
    by rewrite !Z.sub_add.
  - destruct Hr as (a & b & -> & Ha & Hb & Hlt). unfold byte in *. unfold eci_value, read_eci. cbn [nth].
    case_bool_decide; cbn [app].
    + rewrite (take_num_bits 7 128) by (done || lia). cbn [mbind option_bind].
      assert (b = 0) as -> by lia. by rewrite Z.mul_0_r, Z.add_0_r.
    + rewrite (take_num_bits 14 16384) by (done || lia). cbn [mbind option_bind].
      assert (E1 : (a + 256 * b) mod 256 = a) by dlia.
      assert (E2 : (a + 256 * b) / 256 = b) by dlia. by rewrite E1, E2.
  - destruct Hr as (a & -> & Ha). cbn [nth]. by rewrite read_byte_bits.
Qed.

(** ** Validation *)

(** What [QRinput_check] means to let through, mode by mode. *)
Definition accepted (mode : QRencodeMode) (data : list Z) : Prop :=
  data <> [] /\
  match mode with
  | QR_MODE_NUM => Forall digit data
  | QR_MODE_AN => Forall an_char data
  | QR_MODE_KANJI => (length data mod 2 = 0)%nat /\
      Forall kanji_char (groups 2 (length data / 2) data)
  | QR_MODE_FNC1SECOND => length data = 1%nat
  | QR_MODE_NUL => False
  | _ => True
  end.

Lemma groups_take k n l : groups k n (take (k * n) l) = groups k n l.
Proof.
  revert l. induction n as [|n IH]; intros l; [done|]. cbn [groups]. f_equal.
  - rewrite take_take. f_equal. lia.
  - rewrite <- (IH (drop k l)), Nat.mul_succ_r, Nat.add_comm. by rewrite take_drop_commute.
Qed.

(** The verdict of a loop over groups, against a property of the groups. *)
Lemma check_verdict (P : list Z -> Prop) (t : list Z -> bool) gs :
  Forall (fun c => t c = true <-> P c) gs ->
  (Forall P gs -> forallb t gs = true) /\ (~ Forall P gs -> forallb t gs = false).
Proof.
  intros H. assert (E : forallb t gs = true <-> Forall P gs).
  { induction H as [|c gs Hc _ IH]; cbn [forallb]; [done|].
    rewrite andb_true_iff, Forall_cons, Hc, IH. done. }
  destruct (forallb t gs); split; try done; intros; tauto.
Qed.

Lemma check_bytes (P : Z -> Prop) (t : Z -> bool) size data test :
  0 <= size <= Z.of_nat (length data) ->
  (forall i c, 0 <= i < size -> byte_at data i = Ret c -> test i = Ret (t c)) ->
  Forall (fun c => t c = true <-> P c) data ->
  (Forall P (take (Z.to_nat size) data) -> check_all (seqZ 0 size) test = Ret 0) /\
  (~ Forall P (take (Z.to_nat size) data) -> check_all (seqZ 0 size) test = Ret (-1)).
Proof.
  intros Hs Ht HP. set (n := Z.to_nat size). set (l := take n data).
  assert (Hl : length l = n) by (unfold l; rewrite length_take; lia).
  assert (E : check_all (seqZ 0 size) test =
    Ret (if forallb (fun c => t (nth 0 c 0)) (groups 1 n l) then 0 else -1)).
  { unfold l. rewrite <- (Nat.mul_1_l n) at 2. rewrite groups_take.
    replace size with (Z.of_nat n) by lia. apply check_groups. intros i Hi. apply Ht; [lia|].
    rewrite (group_byte data 1 i 0) by lia. by rewrite Z.sub_0_r. }
  rewrite E, <- Hl, groups_1.
  destruct (check_verdict (fun c => P (nth 0 c 0)) (fun c => t (nth 0 c 0)) (map (fun c => [c]) l)) as [H1 H2].
  { apply Forall_map. cbn [nth]. by apply Forall_take. }
  rewrite Forall_map in H1, H2. cbn [nth] in H1, H2.
  split; intros H; [by rewrite H1|by rewrite H2].
Qed.

Lemma kanji_test a b :
  byte a -> byte b ->
  (let val := Z.lor (Z.shiftl a 8) b in
   negb (bool_decide (val < 0x8140 \/ (val > 0x9ffc /\ val < 0xe040) \/ val > 0xebbf))) = true <->
  kanji_char [a; b].
Proof.
  intros Ha Hb. cbv zeta. rewrite two_bytes, negb_true_iff, bool_decide_eq_false by done.
  unfold kanji_char, kanji_value. split.
  - intros H. exists a, b. split_and!; try done. lia.
  - intros (a' & b' & [= <- <-] & _ & _ & H). lia.
Qed.

Lemma check_map g l test : check_all (map g l) test = check_all l (fun i => test (g i)).
Proof. induction l as [|i l IH]; [done|]. cbn [map check_all]. by rewrite IH. Qed.

Lemma checkModeKanji_spec size data :
  0 <= size <= Z.of_nat (length data) -> Forall byte data -> size mod 2 = 0 ->
  let gs := groups 2 (Z.to_nat size / 2) (take (Z.to_nat size) data) in
  (Forall kanji_char gs -> QRinput_checkModeKanji size data = Ret 0) /\
  (~ Forall kanji_char gs -> QRinput_checkModeKanji size data = Ret (-1)).
Proof.
  intros Hs Hd H2 gs. set (n := Z.to_nat size) in *. assert (Hn : size = Z.of_nat n) by lia.
  destruct (rest_groups n 2) as (Hm & _ & Hle); [done|].
  assert (E0 : (2 * (n / 2) = n)%nat).
  { rewrite Hn in H2. rewrite <- (Nat2Z.inj_mod _ 2) in H2. lia. }
  set (t := fun c => let val := Z.lor (Z.shiftl (nth 0 c 0) 8) (nth 1 c 0) in
    negb (bool_decide (val < 0x8140 \/ (val > 0x9ffc /\ val < 0xe040) \/ val > 0xebbf))).
  assert (E : QRinput_checkModeKanji size data = Ret (if forallb t gs then 0 else -1)).
  { unfold QRinput_checkModeKanji. rewrite land_1_mod, bool_decide_eq_false_2 by lia.
    rewrite Hn, (evens_groups n), check_map by (by rewrite <- Hn). unfold gs. rewrite <- E0 at 3. rewrite groups_take.
    apply check_groups. intros i Hi. rewrite Z.sub_0_r.
    rewrite (group_byte data 2 i 0 (2 * i)) by lia. run.
    by rewrite (group_byte data 2 i 1 (2 * i + 1)) by lia. }
  rewrite E. destruct (check_verdict kanji_char t gs) as [H3 H4].
  { eapply Forall_impl; [apply (groups_ok byte)|].
    - rewrite length_take. lia.
    - by apply Forall_take.
    - intros c [Hc Hb]. destruct c as [|a [|b [|]]]; try done.
      apply Forall_cons in Hb as [Ha Hb]. apply Forall_cons in Hb as [Hb _]. by apply kanji_test. }
  split; intros H; [by rewrite H3|by rewrite H4].
Qed.

Lemma check_spec mode size data :
  0 <= size <= Z.of_nat (length data) -> Forall byte data ->
  (accepted mode (take (Z.to_nat size) data) -> QRinput_check mode size data = Ret 0) /\
  (~ accepted mode (take (Z.to_nat size) data) -> QRinput_check mode size data = Ret (-1)).
Proof.
  intros Hs Hd. unfold QRinput_check, accepted. set (l := take (Z.to_nat size) data).
  assert (Hl : Z.of_nat (length l) = size) by (unfold l; rewrite length_take; lia).
  assert (Hne : l = [] <-> size <= 0) by (split; [intros ->; simpl in Hl; lia|]; intros; apply nil_length_inv; lia).
  case_bool_decide as H0.
  { split; [|done]. intros [H _]. exfalso. apply H, Hne. lia. }
  assert (Hne' : l <> []) by (rewrite Hne; lia).
  destruct mode; try (split; [tauto|intros []; done]); try (split; tauto).
  - destruct (check_bytes digit (fun c => negb (bool_decide (c < 48 \/ c > 57))) size data
      (fun i => c ← byte_at data i; Ret (negb (bool_decide (c < 48 \/ c > 57))))) as [H1 H2];
      [done|by intros i c _ ->|apply Forall_true; intros c;
        rewrite negb_true_iff, bool_decide_eq_false; unfold digit; lia|].
    split; [intros [_ H]; by apply H1|intros H; apply H2; tauto].
  - destruct (check_bytes an_char (fun c => negb (bool_decide (QRinput_lookAnTable c < 0))) size data
      (fun i => c ← byte_at data i; Ret (negb (bool_decide (QRinput_lookAnTable c < 0))))) as [H1 H2];
      [done|by intros i c _ ->|eapply Forall_impl; [exact Hd|]; intros c Hc; cbv beta;
        rewrite negb_true_iff, bool_decide_eq_false; unfold an_char; split; [split; [done|lia]|lia]|].
    split; [intros [_ H]; by apply H1|intros H; apply H2; tauto].
  - destruct (decide (size mod 2 = 0)) as [H2|H2].
    + destruct (checkModeKanji_spec size data Hs Hd H2) as [H3 H4].
      assert (Hm : (length l mod 2 = 0)%nat) by (rewrite <- Hl, <- (Nat2Z.inj_mod _ 2) in H2; lia).
      replace (Z.to_nat size) with (length l) in H3 at 1 by lia.
      replace (Z.to_nat size) with (length l) in H4 at 1 by lia. fold l in H3, H4.
      split; [intros (_ & _ & H); by apply H3|]. intros H. apply H4. tauto.
    + unfold QRinput_checkModeKanji. rewrite land_1_mod, bool_decide_eq_true_2 by done.
      split; [|done]. intros (_ & H & _). exfalso. apply H2.
      rewrite <- Hl, <- (Nat2Z.inj_mod _ 2). lia.
  - unfold QRinput_checkModeFNC1Second. case_bool_decide; split; intros; try done.
    + exfalso. destruct H1 as [_ H1]. lia.
    + exfalso. apply H1. split; [done|lia].
Qed.

Lemma groups_app k n m l : groups k (n + m) l = groups k n l ++ groups k m (drop (k * n) l).
Proof.
  revert l. induction n as [|n IH]; intros l.
  - by rewrite Nat.mul_0_r.
  - cbn [Nat.add groups app]. rewrite IH, drop_drop. do 4 f_equal. lia.
Qed.

Lemma readable_byte mode data : readable mode data -> Forall byte data.
Proof.
  destruct mode; cbn [readable]; try done.
  - intros [_ H]. eapply Forall_impl; [exact H|]. unfold digit, byte. lia.
  - intros [_ H]. eapply Forall_impl; [exact H|]. by intros c [? _].
  - tauto.
  - intros (_ & H2 & H). destruct (rest_groups (length data) 2) as (Hm & _ & _); [done|].
    rewrite <- (take_ge data (2 * (length data / 2))), <- groups_concat by lia.
    apply Forall_concat. eapply Forall_impl; [exact H|].
    intros c [(a & b & -> & Ha & Hb & _) _]. by repeat apply Forall_cons_2.
  - intros (sz & number & parity & -> & H1 & H2 & H3). unfold byte in *. repeat apply Forall_cons_2; lia || done.
  - intros (a & b & -> & Ha & Hb & _). by repeat apply Forall_cons_2.
  - intros (a & -> & Ha). by repeat apply Forall_cons_2.
Qed.

Lemma readable_accepted mode data : readable mode data -> accepted mode data.
Proof.
  unfold accepted. destruct mode; cbn [readable]; try tauto.
  - intros (H0 & H2 & H). split_and!; try done. eapply Forall_impl; [exact H|]. by intros c [? _].
  - by intros (sz & number & parity & -> & _).
  - by intros (a & b & -> & _).
  - by intros (a & -> & _).
Qed.

Lemma newEntry_spec mode size data :
  0 < size <= Z.of_nat (length data) -> Forall byte data ->
  accepted mode (take (Z.to_nat size) data) ->
  QRinput_List_newEntry mode size data =
  Ret (Some (MkEntry mode size (take (Z.to_nat size) data) None)).
Proof.
  intros Hs Hd Ha. unfold QRinput_List_newEntry.
  rewrite (proj1 (check_spec mode size data ltac:(lia) Hd) Ha). run.
  rewrite bool_decide_eq_false_2, bool_decide_eq_true_2 by lia.
  unfold mem_read. by rewrite bool_decide_eq_true_2 by lia.
Qed.

(** Splitting keeps both parts readable. *)
Lemma readable_split mode version data :
  let words := QRspec_maximumWords mode version in
  words <> 0 -> words < Z.of_nat (length data) -> readable mode data ->
  0 < words /\ readable mode (take (Z.to_nat words) data) /\
  readable mode (drop (Z.to_nat words) data).
Proof.
  intros words Hw Hl Hr.
  assert (Hm : QRinput_isSplittableMode mode = true).
  { unfold words, QRspec_maximumWords in Hw. by destruct (QRinput_isSplittableMode mode). }
  assert (Hp : 0 < words /\ (mode = QR_MODE_KANJI -> words mod 2 = 0)).
  { unfold words, QRspec_maximumWords, length_class. rewrite Hm.
    destruct mode; try done; destruct (bool_decide (version <= 9)), (bool_decide (version <= 26));
      by vm_compute. }
  destruct Hp as [Hpos Heven]. split; [done|]. clearbody words.
  set (n := Z.to_nat words). assert (Hn : (0 < n < length data)%nat) by lia.
  assert (Hne1 : take n data <> []) by (intros E; apply (f_equal length) in E; rewrite length_take in E; simpl in E; lia).
  assert (Hne2 : drop n data <> []) by (intros E; apply (f_equal length) in E; rewrite length_drop in E; simpl in E; lia).
  destruct mode; try done; cbn [readable] in *.
  - split; (split; [done|]); [apply Forall_take|apply Forall_drop]; tauto.
  - split; (split; [done|]); [apply Forall_take|apply Forall_drop]; tauto.
  - split; (split; [done|]); [apply Forall_take|apply Forall_drop]; tauto.
  - destruct Hr as (_ & H2 & H).
    assert (Hn2 : (n mod 2 = 0)%nat).
    { specialize (Heven eq_refl). unfold n.
      replace words with (Z.of_nat (Z.to_nat words)) in Heven by lia.
      rewrite <- (Nat2Z.inj_mod _ 2) in Heven. lia. }
    destruct (rest_groups n 2) as (E1 & _ & E1'); [done|].
    destruct (rest_groups (length data) 2) as (E2 & _ & E2'); [done|].
    destruct (rest_groups (length data - n) 2) as (E3 & E4 & E5); [done|].
    set (a := (n / 2)%nat) in *. set (b := ((length data - n) / 2)%nat) in *.
    assert (Hab : (length data / 2 = a + b)%nat) by lia.
    rewrite Hab, groups_app, Forall_app in H. replace (2 * a)%nat with n in H by lia.
    rewrite length_take, length_drop. replace (n `min` length data)%nat with n by lia.
    fold a b. split; (split; [done|]); (split; [lia|]); [|tauto].
    replace n with (2 * a)%nat by lia. rewrite groups_take. tauto.
Qed.

(** ** Chunks *)

Lemma one_chunk_dec mode version data :
  (QRspec_maximumWords mode version <> 0 /\ Z.of_nat (length data) > QRspec_maximumWords mode version) \/
  one_chunk mode version data.
Proof.
  unfold one_chunk. destruct (decide (QRspec_maximumWords mode version = 0));
    [right; done|]. destruct (decide (Z.of_nat (length data) > QRspec_maximumWords mode version));
    [by left|right; lia].
Qed.

Definition good_chunk (mode : QRencodeMode) (version : Z) (p : list Z) : Prop :=
  readable mode p /\ one_chunk mode version p.

Definition chunks_bits (mode : QRencodeMode) (version : Z) (ps : list (list Z)) : BitStream :=
  concat (map (segment_bits mode version) ps).

(** The pieces of [data]: as many words as the count has room for, from the front. *)
Fixpoint pieces_loop (fuel n : nat) (data : list Z) : list (list Z) :=
  match fuel with
  | O => [data]
  | S fuel => if decide (length data <= n)%nat then [data] else take n data :: pieces_loop fuel n (drop n data)
  end.

Definition pieces (mode : QRencodeMode) (version : Z) (data : list Z) : list (list Z) :=
  let words := QRspec_maximumWords mode version in
  if decide (words = 0) then [data] else pieces_loop (length data) (Z.to_nat words) data.

Lemma pieces_fuel f1 f2 n data :
  (0 < n)%nat -> (length data <= f1)%nat -> (length data <= f2)%nat -> pieces_loop f1 n data = pieces_loop f2 n data.
Proof.
  intros Hn. revert f2 data. induction f1 as [|f1 IH]; intros [|f2] data H1 H2; cbn [pieces_loop]; try done;
    case_decide; try done; [lia..|]. f_equal. apply IH; rewrite length_drop; lia.
Qed.

Lemma pieces_one mode version data : one_chunk mode version data -> pieces mode version data = [data].
Proof.
  intros H. unfold pieces. case_decide as Hw; [done|]. specialize (H Hw).
  destruct data as [|a data]; [done|]. cbn [length pieces_loop]. rewrite decide_True; [done|]. cbn [length] in *. lia.
Qed.

Lemma pieces_more mode version data :
  let words := QRspec_maximumWords mode version in
  0 < words < Z.of_nat (length data) ->
  pieces mode version data = take (Z.to_nat words) data :: pieces mode version (drop (Z.to_nat words) data).
Proof.
  intros words Hw. unfold pieces. fold words. rewrite !decide_False by lia.
  destruct (length data) as [|m] eqn:E; [lia|]. cbn [pieces_loop]. rewrite decide_False by lia.
  f_equal. apply pieces_fuel; [lia| |done]. rewrite length_drop. lia.
Qed.

Lemma encodeBitStream_spec fuel e version :
  readable (e_mode e) (e_data e) -> e_size e = Z.of_nat (length (e_data e)) ->
  (Z.to_nat (e_size e) < fuel)%nat ->
  let ps := pieces (e_mode e) version (e_data e) in
  QRinput_encodeBitStream fuel e version false =
    Ret (BitStream_size (chunks_bits (e_mode e) version ps),
         set_bstream e (Some (chunks_bits (e_mode e) version ps))) /\
  concat ps = e_data e /\ Forall (good_chunk (e_mode e) version) ps.
Proof.
  revert e. induction fuel as [|fuel IH]; intros e Hr Hs Hf ps; [lia|]. unfold ps. clear ps.
  destruct e as [mode size data bs]. cbn [e_mode e_size e_data set_bstream] in *.
  cbn [QRinput_encodeBitStream e_mode e_size e_data set_bstream].
  destruct (one_chunk_dec mode version data) as [[Hw Hl]|Hone].
  - rewrite bool_decide_eq_true_2 by (split; [done|lia]).
    destruct (readable_split mode version data Hw ltac:(lia) Hr) as (Hpos & Hr1 & Hr2).
    set (words := QRspec_maximumWords mode version) in *. set (n := Z.to_nat words) in *.
    pose proof (readable_byte _ _ Hr) as Hb.
    assert (Hl1 : length (take n data) = n) by (rewrite length_take; lia).
    assert (Hl2 : length (drop n data) = (length data - n)%nat) by apply length_drop.
    rewrite (newEntry_spec mode words data) by (lia || done || by apply readable_accepted). run.
    rewrite (newEntry_spec mode (size - words) (drop n data)).
    2: lia.
    2: by apply Forall_drop.
    2: { rewrite take_ge by lia. by apply readable_accepted. }
    rewrite (take_ge (drop n data)) by lia. run. fold n.
    destruct (IH (MkEntry mode words (take n data) None)) as (-> & E1 & G1);
      [done|cbn; lia|cbn; lia|].
    destruct (IH (MkEntry mode (size - words) (drop n data) None)) as (E2' & E2 & G2);
      [done|cbn; lia|cbn; lia|].
    run. rewrite bool_decide_eq_false_2 by (unfold BitStream_size; lia).
    rewrite E2'. run. rewrite bool_decide_eq_false_2 by (unfold BitStream_size; lia).
    cbn [e_bstream set_bstream BitStream_append e_mode e_size e_data app] in *.
    rewrite (pieces_more mode version data) by (change (0 < words < Z.of_nat (length data)); lia). fold words n.
    assert (Hone : one_chunk mode version (take n data)) by (intros _; fold words; rewrite Hl1; unfold n; lia).
    rewrite (pieces_one _ _ (take n data)) in G1 |- * by done. unfold chunks_bits in *. cbn [map concat app] in *.
    rewrite app_nil_r. split; [done|]. split; [rewrite E2; apply take_drop|].
    apply Forall_cons; split; [by inversion_clear G1|done].
  - rewrite bool_decide_eq_false_2 by (intros [Hw Hl]; specialize (Hone Hw); lia).
    rewrite encode_chunk_spec by done. run. cbn [e_mode e_data set_bstream e_size].
    rewrite pieces_one by done. unfold chunks_bits. cbn [map concat]. rewrite !app_nil_r.
    split_and!; [done|done|by repeat constructor].
Qed.

(** The first [n] segments of a stream. *)
Fixpoint read_n (n : nat) (version : Z) (bs : BitStream)
    : option (list (QRencodeMode * list Z) * BitStream) :=
  match n with
  | O => Some ([], bs)
  | S n =>
      '(m, l, bs) ← read_segment version bs;
      '(segs, bs) ← read_n n version bs;
      Some ((m, l) :: segs, bs)
  end.

Lemma read_chunks mode version ps rest :
  Forall (good_chunk mode version) ps ->
  read_n (length ps) version (chunks_bits mode version ps ++ rest) = Some (map (pair mode) ps, rest).
Proof.
  unfold chunks_bits. induction 1 as [|p ps [Hr Ho] _ IH]; [done|].
  cbn [length read_n map concat]. rewrite <- app_assoc, read_segment_spec by done.
  cbn [mbind option_bind]. by rewrite IH.
Qed.

(** Encoding an entry terminates and loses nothing: every entry with
    the data of its mode is encoded, in as many chunks as its length
    demands, into segments that the standard's reader gives back, in order,
    with the entry's mode and together all of its data; the result is the
    length of the stream. *)
Theorem entry_reads_back e version :
  readable (e_mode e) (e_data e) -> e_size e = Z.of_nat (length (e_data e)) ->
  exists bs ps,
    QRinput_encodeBitStream (encode_fuel e) e version false =
      Ret (BitStream_size bs, set_bstream e (Some bs)) /\
    concat ps = e_data e /\
    forall rest, read_n (length ps) version (bs ++ rest) = Some (map (pair (e_mode e)) ps, rest).
Proof.
  intros Hr Hs. destruct (encodeBitStream_spec (encode_fuel e) e version Hr Hs) as (E & Hc & G);
    [unfold encode_fuel; lia|].
  eexists _, _. split_and!; [done|done|].
  intros rest. by apply read_chunks.
Qed.

Lemma entry_reads_back_witness :
  exists bs ps,
    QRinput_encodeBitStream 5 (MkEntry QR_MODE_NUM 4 [48; 49; 50; 51] None) 1 false =
      Ret (BitStream_size bs, MkEntry QR_MODE_NUM 4 [48; 49; 50; 51] (Some bs)) /\
    concat ps = [48; 49; 50; 51] /\
    forall rest, read_n (length ps) 1 (bs ++ rest) = Some (map (pair QR_MODE_NUM) ps, rest).
Proof.
  apply (entry_reads_back (MkEntry QR_MODE_NUM 4 [48; 49; 50; 51] None) 1); [|reflexivity].
  split; [done|]. repeat apply Forall_cons_2; unfold digit; lia || done.
Defined.

(** Validation is exact: on a buffer of bytes [QRinput_check] returns 0 for
    the data of its mode - digits, the 45 alphanumeric characters, pairs in
    the two double-byte ranges, one byte for the second FNC1 position - and -1
    for anything else, the empty buffer included. *)
Theorem QRinput_check_exact mode size data :
  0 <= size <= Z.of_nat (length data) -> Forall byte data ->
  (accepted mode (take (Z.to_nat size) data) -> QRinput_check mode size data = Ret 0) /\
  (~ accepted mode (take (Z.to_nat size) data) -> QRinput_check mode size data = Ret (-1)).
Proof. apply check_spec. Qed.

Lemma QRinput_check_exact_witness :
  QRinput_check QR_MODE_AN 3 [65; 66; 45] = Ret 0 /\ QRinput_check QR_MODE_NUM 2 [48; 58] = Ret (-1).
Proof.
  split.
  - apply (QRinput_check_exact QR_MODE_AN 3 [65; 66; 45]);
      [simpl; lia|repeat constructor; done|].
    split; [done|]. repeat constructor; vm_compute; congruence.
  - apply (QRinput_check_exact QR_MODE_NUM 2 [48; 58]);
      [simpl; lia|repeat constructor; done|].
    intros [_ H]. apply Forall_cons in H as [_ H]. apply Forall_cons in H as [H _].
    unfold digit in H. lia.
Defined.
