(* ===== verification/QrInput.v ===== *)
(** * The input object and its byte stream

    The second half of [C/qrencode-3.4.4/qrinput.c]: the input object with its
    list of entries, the choice of the version, padding, and the byte stream
    that is handed to the error correction.

    The linked list of entries is the list [i_list]; [i_tail] is the position
    of the entry the [tail] pointer points to, [None] for [NULL]. Allocation
    succeeds and [errno] is not modelled; values of [QRecLevel] outside the
    enumeration do not occur. *)

From S2P Require Import Prelude Block Bitstream QrSpec QrEntry QrDecode.
From S2P Require MqrSpec.

Abbreviation MQRSPEC_VERSION_MAX := MqrSpec.MQRSPEC_VERSION_MAX.

(** ** The object *)

(* @src C/qrencode-3.4.4/qrinput.h:46-54 _QRinput *)
Record QRinput := MkInput {
  i_version : Z; i_level : QRecLevel; i_list : list QRinput_List; i_tail : option nat;
  i_mqr : bool; i_fnc1 : Z; i_appid : Z }.

Definition set_list (input : QRinput) (l : list QRinput_List) : QRinput :=
  MkInput (i_version input) (i_level input) l (i_tail input) (i_mqr input)
    (i_fnc1 input) (i_appid input).

(** [input->head = entry], in front of the list: the tail moves down with it. *)
Definition push_front (input : QRinput) (entry : QRinput_List) : QRinput :=
  MkInput (i_version input) (i_level input) (entry :: i_list input) (S <$> i_tail input)
    (i_mqr input) (i_fnc1 input) (i_appid input).

(* @src C/qrencode-3.4.4/qrinput.c:115-135 QRinput_new2 *)
Definition QRinput_new2 (version : Z) (level : QRecLevel) : option QRinput :=
  if bool_decide (version < 0 \/ version > QRSPEC_VERSION_MAX) then None
  else Some (MkInput version level [] None false 0 0).

(* @src C/qrencode-3.4.4/qrinput.c:110-113 QRinput_new *)
Definition QRinput_new : option QRinput := QRinput_new2 0 QR_ECLEVEL_L.

(* @src C/qrencode-3.4.4/qrinput.c:137-154 QRinput_newMQR *)
Definition QRinput_newMQR (version : Z) (level : QRecLevel) : option QRinput :=
  if bool_decide (version <= 0 \/ version > MQRSPEC_VERSION_MAX) then None
  else if bool_decide (MqrSpec.MQRspec_getECCLength version level = 0) then None
  else
    input ← QRinput_new2 version level;
    Some (MkInput (i_version input) (i_level input) (i_list input) (i_tail input) true
            (i_fnc1 input) (i_appid input)).

(* @src C/qrencode-3.4.4/qrinput.c:156-159 QRinput_getVersion *)
Definition QRinput_getVersion (input : QRinput) : Z := i_version input.

Definition with_version (input : QRinput) (version : Z) : QRinput :=
  MkInput version (i_level input) (i_list input) (i_tail input) (i_mqr input)
    (i_fnc1 input) (i_appid input).

(* @src C/qrencode-3.4.4/qrinput.c:161-171 QRinput_setVersion *)
Definition QRinput_setVersion (input : QRinput) (version : Z) : Z * QRinput :=
  if i_mqr input || bool_decide (version < 0 \/ version > QRSPEC_VERSION_MAX) then (-1, input)
  else (0, with_version input version).

(* @src C/qrencode-3.4.4/qrinput.c:173-176 QRinput_getErrorCorrectionLevel *)
Definition QRinput_getErrorCorrectionLevel (input : QRinput) : QRecLevel := i_level input.

(* @src C/qrencode-3.4.4/qrinput.c:178-188 QRinput_setErrorCorrectionLevel *)
Definition QRinput_setErrorCorrectionLevel (input : QRinput) (level : QRecLevel) : Z * QRinput :=
  if i_mqr input then (-1, input)
  else (0, MkInput (i_version input) level (i_list input) (i_tail input) (i_mqr input)
             (i_fnc1 input) (i_appid input)).

(* @src C/qrencode-3.4.4/qrinput.c:190-208 QRinput_setVersionAndErrorCorrectionLevel *)
Definition QRinput_setVersionAndErrorCorrectionLevel (input : QRinput) (version : Z)
    (level : QRecLevel) : Z * QRinput :=
  let invalid :=
    if i_mqr input then
      bool_decide (version <= 0 \/ version > MQRSPEC_VERSION_MAX) ||
      bool_decide (MqrSpec.MQRspec_getECCLength version level = 0)
    else bool_decide (version < 0 \/ version > QRSPEC_VERSION_MAX) in
  if invalid then (-1, input)
  else (0, MkInput version level (i_list input) (i_tail input) (i_mqr input)
             (i_fnc1 input) (i_appid input)).

(** [tail->next = entry] drops whatever stood behind the tail. *)
(* @src C/qrencode-3.4.4/qrinput.c:210-220 QRinput_appendEntry *)
Definition QRinput_appendEntry (input : QRinput) (entry : QRinput_List) : QRinput :=
  let '(l, tail) :=
    match i_tail input with
    | None => ([entry], 0%nat)
    | Some t => (take (S t) (i_list input) ++ [entry], S t)
    end in
  MkInput (i_version input) (i_level input) l (Some tail) (i_mqr input)
    (i_fnc1 input) (i_appid input).

(* @src C/qrencode-3.4.4/qrinput.c:222-234 QRinput_append *)
Definition QRinput_append (input : QRinput) (mode : QRencodeMode) (size : Z) (data : list Z)
    : outcome (Z * QRinput) :=
  entry ← QRinput_List_newEntry mode size data;
  match entry with
  | None => Ret (-1, input)
  | Some entry => Ret (0, QRinput_appendEntry input entry)
  end.

(* @src C/qrencode-3.4.4/qrinput.c:247-273 QRinput_insertStructuredAppendHeader *)
Definition QRinput_insertStructuredAppendHeader (input : QRinput) (size number parity : Z)
    : outcome (Z * QRinput) :=
  if bool_decide (size > MAX_STRUCTURED_SYMBOLS) then Ret (-1, input)
  else if bool_decide (number <= 0 \/ number > size) then Ret (-1, input)
  else
    entry ← QRinput_List_newEntry QR_MODE_STRUCTURE 3 [u8 size; u8 number; parity];
    match entry with
    | None => Ret (-1, input)
    | Some entry => Ret (0, push_front input entry)
    end.

(* @src C/qrencode-3.4.4/qrinput.c:275-291 QRinput_appendECIheader *)
Definition QRinput_appendECIheader (input : QRinput) (ecinum : Z) : outcome (Z * QRinput) :=
  if bool_decide (ecinum > 999999) then Ret (-1, input)
  else
    QRinput_append input QR_MODE_ECI 4
      [Z.land ecinum 0xff; Z.land (Z.shiftr ecinum 8) 0xff;
       Z.land (Z.shiftr ecinum 16) 0xff; Z.land (Z.shiftr ecinum 24) 0xff].

(* @src C/qrencode-3.4.4/qrinput.c:308-325 QRinput_calcParity *)
Definition QRinput_calcParity (input : QRinput) : outcome Z :=
  foldl (fun acc e =>
    parity ← acc;
    if bool_decide (e_mode e <> QR_MODE_STRUCTURE) then
      for_ (reverse (seqZ 0 (e_size e))) (fun i parity =>
        d ← byte_at (e_data e) i; Ret (Z.lxor parity d)) parity
    else Ret parity) (Ret 0) (i_list input).

(** The copy starts from a new object: [fnc1] and [appid] are not copied. *)
(* @src C/qrencode-3.4.4/qrinput.c:327-351 QRinput_dup *)
Definition QRinput_dup (input : QRinput) : outcome (option QRinput) :=
  let n := if i_mqr input then QRinput_newMQR (i_version input) (i_level input)
           else QRinput_new2 (i_version input) (i_level input) in
  match n with
  | None => Ret None
  | Some n =>
      n ← foldl (fun acc e => n ← acc; e ← QRinput_List_dup e; Ret (QRinput_appendEntry n e))
            (Ret n) (i_list input);
      Ret (Some n)
  end.

(* @src C/qrencode-3.4.4/qrinput.c:1706-1715 QRinput_setFNC1First *)
Definition QRinput_setFNC1First (input : QRinput) : Z * QRinput :=
  if i_mqr input then (-1, input)
  else (0, MkInput (i_version input) (i_level input) (i_list input) (i_tail input)
             (i_mqr input) 1 (i_appid input)).

(* @src C/qrencode-3.4.4/qrinput.c:1717-1727 QRinput_setFNC1Second *)
Definition QRinput_setFNC1Second (input : QRinput) (appid : Z) : Z * QRinput :=
  if i_mqr input then (-1, input)
  else (0, MkInput (i_version input) (i_level input) (i_list input) (i_tail input)
             (i_mqr input) 2 appid).

(** ** The version *)

(* @src C/qrencode-3.4.4/qrinput.c:958-970 QRinput_estimateBitStreamSize *)
Definition QRinput_estimateBitStreamSize (input : QRinput) (version : Z) : outcome Z :=
  foldl (fun acc e =>
    bits ← acc;
    n ← QRinput_estimateBitStreamSizeOfEntry e version (i_mqr input);
    Ret (bits + n)) (Ret 0) (i_list input).

(* @src C/qrencode-3.4.4/qrinput.c:983-990 QRinput_estimateVersion *)
Fixpoint estimateVersion_loop (fuel : nat) (input : QRinput) (prev : Z) : outcome Z :=
  match fuel with
  | O => Fault OutOfFuel
  | S fuel =>
      bits ← QRinput_estimateBitStreamSize input prev;
      let version := QRspec_getMinimumVersion ((bits + 7) `quot` 8) (i_level input) in
      if bool_decide (version < 0) then Ret (-1)
      else if bool_decide (version > prev) then estimateVersion_loop fuel input version
      else Ret version
  end.

(** The version grows in every round but the last. *)
Definition version_fuel : nat := 42.

(* @src C/qrencode-3.4.4/qrinput.c:977-993 QRinput_estimateVersion *)
Definition QRinput_estimateVersion (input : QRinput) : outcome Z :=
  estimateVersion_loop version_fuel input 0.

(** The total, or -1, and the entries with their streams. *)
(* @src C/qrencode-3.4.4/qrinput.c:1132-1138 QRinput_createBitStream *)
Fixpoint create_streams (version : Z) (mqr : bool) (l : list QRinput_List)
    : outcome (Z * list QRinput_List) :=
  match l with
  | [] => Ret (0, [])
  | e :: l =>
      r ← QRinput_encodeBitStream (encode_fuel e) e version mqr;
      if bool_decide (r.1 < 0) then Ret (-1, r.2 :: l)
      else
        s ← create_streams version mqr l;
        Ret (if bool_decide (s.1 < 0) then -1 else r.1 + s.1, r.2 :: s.2)
  end.

(* @src C/qrencode-3.4.4/qrinput.c:1127-1141 QRinput_createBitStream *)
Definition QRinput_createBitStream (input : QRinput) : outcome (Z * QRinput) :=
  r ← create_streams (i_version input) (i_mqr input) (i_list input);
  Ret (r.1, set_list input r.2).

(* @src C/qrencode-3.4.4/qrinput.c:1164-1176 QRinput_convertData *)
Fixpoint convert_loop (fuel : nat) (input : QRinput) : outcome (Z * QRinput) :=
  match fuel with
  | O => Fault OutOfFuel
  | S fuel =>
      r ← QRinput_createBitStream input;
      let '(bits, input) := r in
      if bool_decide (bits < 0) then Ret (-1, input)
      else
        let ver := QRspec_getMinimumVersion ((bits + 7) `quot` 8) (i_level input) in
        if bool_decide (ver < 0) then Ret (-1, input)
        else if bool_decide (ver > QRinput_getVersion input)
        then convert_loop fuel (QRinput_setVersion input ver).2
        else Ret (0, input)
  end.

(* @src C/qrencode-3.4.4/qrinput.c:1154-1179 QRinput_convertData *)
Definition QRinput_convertData (input : QRinput) : outcome (Z * QRinput) :=
  ver ← QRinput_estimateVersion input;
  let input := if bool_decide (ver > QRinput_getVersion input)
               then (QRinput_setVersion input ver).2 else input in
  convert_loop version_fuel input.

(** ** Padding *)

(** [padbuf]: 0xec and 0x11 in turn. *)
(* @src C/qrencode-3.4.4/qrinput.c:1229-1231 QRinput_appendPaddingBit *)
Definition padbuf (padlen : Z) : list Z :=
  map (fun i => if bool_decide (Z.land i 1 <> 0) then 0x11 else 0xec) (seqZ 0 padlen).

(* @src C/qrencode-3.4.4/qrinput.c:1191-1244 QRinput_appendPaddingBit *)
Definition QRinput_appendPaddingBit (bstream : BitStream) (input : QRinput)
    : outcome (Z * BitStream) :=
  let bits := BitStream_size bstream in
  let maxwords := QRspec_getDataLength (i_version input) (i_level input) in
  let maxbits := maxwords * 8 in
  if bool_decide (maxbits < bits) then Ret (-1, bstream)
  else if bool_decide (maxbits = bits) then Ret (0, bstream)
  else if bool_decide (maxbits - bits <= 4)
  then Ret (0, BitStream_appendNum bstream (maxbits - bits) 0)
  else
    let words := (bits + 4 + 7) `quot` 8 in
    let padding := BitStream_appendNum BitStream_new (words * 8 - bits) 0 in
    let padlen := maxwords - words in
    padding ← (if bool_decide (padlen > 0) then BitStream_appendBytes padding padlen (padbuf padlen)
               else Ret padding);
    Ret (0, bstream ++ padding).

(* @src C/qrencode-3.4.4/qrinput.c:1256-1323 QRinput_appendPaddingBitMQR *)
Definition QRinput_appendPaddingBitMQR (bstream : BitStream) (input : QRinput)
    : outcome (Z * BitStream) :=
  let bits := BitStream_size bstream in
  let maxbits := MqrSpec.MQRspec_getDataLengthBit (i_version input) (i_level input) in
  let maxwords := maxbits `quot` 8 in
  if bool_decide (maxbits < bits) then Ret (-1, bstream)
  else if bool_decide (maxbits = bits) then Ret (0, bstream)
  else
    let termbits := i_version input * 2 + 1 in
    if bool_decide (maxbits - bits <= termbits)
    then Ret (0, BitStream_appendNum bstream (maxbits - bits) 0)
    else
      let bits := bits + termbits in
      let words := (bits + 7) `quot` 8 in
      let termbits :=
        if bool_decide (maxbits - words * 8 > 0) then
          let termbits := termbits + (words * 8 - bits) in
          if bool_decide (words = maxwords) then termbits + (maxbits - words * 8) else termbits
        else termbits + (words * 8 - bits) in
      let padding := BitStream_appendNum BitStream_new termbits 0 in
      let padlen := maxwords - words in
      padding ← (if bool_decide (padlen > 0) then
          padding ← BitStream_appendBytes padding padlen (padbuf padlen);
          let termbits := maxbits - maxwords * 8 in
          Ret (if bool_decide (termbits > 0) then BitStream_appendNum padding termbits 0
               else padding)
        else Ret padding);
      Ret (0, bstream ++ padding).

(** ** The byte stream *)

(** A second call adds a second header. *)
(* @src C/qrencode-3.4.4/qrinput.c:1325-1347 QRinput_insertFNC1Header *)
Definition QRinput_insertFNC1Header (input : QRinput) : outcome (Z * QRinput) :=
  entry ← (if bool_decide (i_fnc1 input = 1) then QRinput_List_newEntry QR_MODE_FNC1FIRST 0 []
           else if bool_decide (i_fnc1 input = 2)
           then QRinput_List_newEntry QR_MODE_FNC1SECOND 1 [i_appid input]
           else Ret None);
  match entry with
  | None => Ret (-1, input)
  | Some entry =>
      match i_list input with
      | [] => Fault NullDeref
      | head :: rest =>
          if bool_decide (e_mode head <> QR_MODE_STRUCTURE \/ e_mode head <> QR_MODE_ECI)
          then Ret (0, push_front input entry)
          else
            Ret (0, MkInput (i_version input) (i_level input) (head :: entry :: rest)
                      ((fun t => if bool_decide (0 < t)%nat then S t else t) <$> i_tail input)
                      (i_mqr input) (i_fnc1 input) (i_appid input))
      end
  end.

(** The streams of all entries, one after the other; -1 is [None]. *)
(* @src C/qrencode-3.4.4/qrinput.c:1379-1387 QRinput_mergeBitStream *)
Definition merge_streams (l : list QRinput_List) : option BitStream :=
  foldl (fun acc e => bs ← acc; BitStream_append bs (e_bstream e)) (Some BitStream_new) l.

(* @src C/qrencode-3.4.4/qrinput.c:1355-1390 QRinput_mergeBitStream *)
Definition QRinput_mergeBitStream (input : QRinput) : outcome (option BitStream * QRinput) :=
  r ← (if i_mqr input then QRinput_createBitStream input
       else
         f ← (if bool_decide (i_fnc1 input <> 0) then QRinput_insertFNC1Header input
              else Ret (0, input));
         if bool_decide (f.1 < 0) then Ret f else QRinput_convertData f.2);
  if bool_decide (r.1 < 0) then Ret (None, r.2)
  else Ret (merge_streams (i_list r.2), r.2).

(* @src C/qrencode-3.4.4/qrinput.c:1398-1418 QRinput_getBitStream *)
Definition QRinput_getBitStream (input : QRinput) : outcome (option BitStream * QRinput) :=
  m ← QRinput_mergeBitStream input;
  match m.1 with
  | None => Ret m
  | Some bstream =>
      r ← (if i_mqr m.2 then QRinput_appendPaddingBitMQR bstream m.2
           else QRinput_appendPaddingBit bstream m.2);
      if bool_decide (r.1 < 0) then Ret (None, m.2) else Ret (Some r.2, m.2)
  end.

(* @src C/qrencode-3.4.4/qrinput.c:1426-1439 QRinput_getByteStream *)
Definition QRinput_getByteStream (input : QRinput) : outcome (option (list Z) * QRinput) :=
  r ← QRinput_getBitStream input;
  match r.1 with
  | None => Ret (None, r.2)
  | Some bstream => Ret (BitStream_toByte bstream, r.2)
  end.

(** ** The streams of all entries *)

Definition entry_ok (e : QRinput_List) : Prop :=
  readable (e_mode e) (e_data e) /\ e_size e = Z.of_nat (length (e_data e)).

(** The pieces of an entry, and what they are. *)
Definition entry_pieces (version : Z) (e : QRinput_List) : list (list Z) := pieces (e_mode e) version (e_data e).

Definition cut (version : Z) (e : QRinput_List) (ps : list (list Z)) : Prop :=
  concat ps = e_data e /\ Forall (good_chunk (e_mode e) version) ps /\ ps = entry_pieces version e.

Lemma cut_pieces version l pss :
  Forall2 (cut version) l pss -> Forall2 (fun e ps => concat ps = e_data e) l pss.
Proof. intros H. eapply Forall2_impl; [exact H|]. by intros e ps [E _]. Qed.

Lemma cut_joins version l pss :
  Forall2 (cut version) l pss -> Forall (fun e => concat (entry_pieces version e) = e_data e) l.
Proof. induction 1 as [|e ps l pss (E & _ & ->) _ IH]; by constructor. Qed.

(** The segments of all entries at a version, and their bits. *)
Definition segments_at (version : Z) (l : list QRinput_List) : list (QRencodeMode * list Z) :=
  concat (map (fun e => map (pair (e_mode e)) (entry_pieces version e)) l).

Definition segments_bits (v : Z) (segs : list (QRencodeMode * list Z)) : BitStream :=
  concat (map (fun s => segment_bits s.1 v s.2) segs).

Definition entry_bits (version : Z) (e : QRinput_List) (ps : list (list Z)) : BitStream :=
  chunks_bits (e_mode e) version ps.

Definition all_bits (version : Z) (l : list QRinput_List) (pss : list (list (list Z))) : BitStream :=
  concat (zip_with (entry_bits version) l pss).

Definition streamed (version : Z) (l : list QRinput_List) (pss : list (list (list Z)))
    : list QRinput_List :=
  zip_with (fun e ps => set_bstream e (Some (entry_bits version e ps))) l pss.

(** The segments of all entries. *)
Definition segments (l : list QRinput_List) (pss : list (list (list Z)))
    : list (QRencodeMode * list Z) :=
  concat (zip_with (fun e ps => map (pair (e_mode e)) ps) l pss).

Lemma all_bits_segments v l pss : all_bits v l pss = segments_bits v (segments l pss).
Proof.
  unfold all_bits, segments_bits, segments.
  revert pss. induction l as [|e l IH]; intros [|ps pss]; try done. cbn [zip_with concat].
  rewrite map_app, concat_app, IH. f_equal. unfold entry_bits, chunks_bits. by rewrite map_map.
Qed.

Lemma cut_segments version l pss : Forall2 (cut version) l pss -> segments l pss = segments_at version l.
Proof.
  unfold segments, segments_at. induction 1 as [|e ps l pss (_ & _ & ->) _ IH]; [done|]. cbn [zip_with map concat]. by rewrite IH.
Qed.

Lemma segments_data l pss :
  Forall2 (fun e ps => concat ps = e_data e) l pss -> concat (map snd (segments l pss)) = concat (map e_data l).
Proof.
  unfold segments. induction 1 as [|e ps l pss H _ IH]; [done|]. cbn [zip_with map concat].
  rewrite map_app, concat_app, IH, map_map. f_equal. cbn [snd]. by rewrite map_id.
Qed.

Lemma segments_at_data v l :
  Forall (fun e => concat (entry_pieces v e) = e_data e) l -> concat (map snd (segments_at v l)) = concat (map e_data l).
Proof.
  unfold segments_at. induction 1 as [|e l H _ IH]; [done|]. cbn [map concat].
  rewrite map_app, concat_app, IH, map_map. f_equal. cbn [snd]. by rewrite map_id.
Qed.

Lemma create_streams_spec version l :
  Forall entry_ok l ->
  exists pss,
    create_streams version false l =
      Ret (BitStream_size (all_bits version l pss), streamed version l pss) /\
    Forall2 (cut version) l pss.
Proof.
  induction 1 as [|e l [Hr Hs] _ (pss & IH & Hc)].
  - by exists [].
  - destruct (encodeBitStream_spec (encode_fuel e) e version Hr Hs) as (E & Hps & Hg);
      [unfold encode_fuel; lia|].
    exists (entry_pieces version e :: pss). split; [|by constructor].
    cbn [create_streams]. rewrite E. run.
    rewrite bool_decide_eq_false_2 by (unfold BitStream_size; lia). rewrite IH. run.
    rewrite bool_decide_eq_false_2 by (unfold BitStream_size; lia).
    unfold BitStream_size, all_bits, streamed, entry_bits. cbn [zip_with concat].
    rewrite length_app, Nat2Z.inj_add. done.
Qed.

Lemma merge_streamed version l pss bs0 :
  length l = length pss ->
  foldl (fun acc e => bs ← acc; BitStream_append bs (e_bstream e)) (Some bs0)
    (streamed version l pss) = Some (bs0 ++ all_bits version l pss).
Proof.
  revert pss bs0. induction l as [|e l IH]; intros [|ps pss] bs0 Hl; try done.
  - unfold all_bits. simpl. by rewrite app_nil_r.
  - injection Hl as Hl. unfold streamed, all_bits. cbn [zip_with foldl concat].
    cbn [mbind option_bind e_bstream set_bstream BitStream_append].
    fold (streamed version l pss). rewrite (IH pss) by done. by rewrite <- app_assoc.
Qed.

(** Entries that differ at most in their streams. *)
Lemma streamed_ok version l pss :
  Forall entry_ok l -> Forall entry_ok (streamed version l pss).
Proof.
  intros H. revert pss. induction H as [|e l He _ IH]; intros [|ps pss]; constructor; [done|apply IH].
Qed.

Lemma streamed_twice version v l pss qss :
  length l = length pss -> streamed version (streamed v l pss) qss = streamed version l qss.
Proof.
  revert pss qss. induction l as [|e l IH]; intros [|ps pss] [|qs qss] Hl; try done.
  injection Hl as Hl. unfold streamed in *. cbn [zip_with]. by rewrite IH.
Qed.

Lemma all_bits_streamed version v l pss qss :
  length l = length pss -> all_bits version (streamed v l pss) qss = all_bits version l qss.
Proof.
  revert pss qss. induction l as [|e l IH]; intros [|ps pss] [|qs qss] Hl; try done.
  injection Hl as Hl. unfold streamed, all_bits in *. cbn [zip_with concat]. by rewrite IH.
Qed.

Lemma cut_streamed version v l pss qss :
  length l = length pss ->
  Forall2 (cut version) (streamed v l pss) qss -> Forall2 (cut version) l qss.
Proof.
  revert pss qss. induction l as [|e l IH]; intros [|ps pss] qss Hl H; try done.
  injection Hl as Hl. unfold streamed in *. cbn [zip_with] in H.
  inversion H as [|? qs ? qss' H1 H2]; subst. constructor; [done|]. by eapply IH.
Qed.

(** ** Reading the streams *)

(** What the reader takes for the end. *)
Definition terminated (bs : BitStream) : Prop :=
  (length bs < 4)%nat \/ value_of (take 4 bs) = 0.

Lemma read_segments_end n version bs : terminated bs -> read_segments (S n) version bs = Some [].
Proof.
  intros H. cbn [read_segments]. case_bool_decide; [done|].
  destruct H as [H|H]; [done|]. by rewrite bool_decide_eq_true_2.
Qed.

Lemma segment_starts mode version p rest :
  readable mode p ->
  (4 <= length (segment_bits mode version p ++ rest))%nat /\
  value_of (take 4 (segment_bits mode version p ++ rest)) <> 0.
Proof.
  intros Hr.
  assert (H : exists m tl, segment_bits mode version p = bits_of 4 m ++ tl /\ 0 < m < 16).
  { unfold segment_bits, header. destruct mode; cbn [readable] in Hr; try done; cbv zeta;
      rewrite <- ?app_assoc; eexists _, _; (split; [reflexivity|]); cbn; lia. }
  destruct H as (m & tl & -> & Hm). rewrite <- app_assoc. split.
  - rewrite length_app, bits_of_length. lia.
  - rewrite take_app_exact by (by rewrite bits_of_length).
    rewrite value_bits_small; [lia|]. change (2 ^ Z.of_nat 4) with 16. lia.
Qed.

Lemma read_segments_chunks version mode ps n rest segs :
  Forall (good_chunk mode version) ps -> read_segments n version rest = Some segs ->
  read_segments (length ps + n) version (chunks_bits mode version ps ++ rest) =
  Some (map (pair mode) ps ++ segs).
Proof.
  intros HG Hn. unfold chunks_bits. induction HG as [|p ps [Hr Ho] _ IH]; [done|].
  cbn [length Nat.add read_segments map concat]. rewrite <- app_assoc.
  destruct (segment_starts mode version p (concat (map (segment_bits mode version) ps) ++ rest) Hr)
    as [H1 H2].
  rewrite !bool_decide_eq_false_2 by (done || lia). rewrite read_segment_spec by done.
  cbn [mbind option_bind]. by rewrite IH.
Qed.

Lemma read_all_bits version l pss n pad :
  Forall2 (cut version) l pss -> terminated pad ->
  read_segments (length (segments l pss) + S n) version (all_bits version l pss ++ pad) =
  Some (segments l pss).
Proof.
  intros H Ht. unfold all_bits, segments. induction H as [|e ps l pss (_ & HG & _) _ IH].
  - by apply read_segments_end.
  - cbn [zip_with concat]. rewrite length_app, length_map, <- app_assoc, <- Nat.add_assoc.
    by apply read_segments_chunks.
Qed.

(** ** The choice of the version *)

Lemma estimate_entry_ok e version :
  entry_ok e -> exists n, QRinput_estimateBitStreamSizeOfEntry e version false = Ret n.
Proof.
  intros [Hr Hs]. unfold QRinput_estimateBitStreamSizeOfEntry. cbv zeta.
  destruct (e_mode e); cbn [readable] in Hr; try done; try (by eexists).
  destruct Hr as (a & b & -> & Ha & Hb & _). unfold QRinput_estimateBitsModeECI.
  rewrite decodeECI_value by done. run. by eexists.
Qed.

Lemma estimate_ok input version :
  i_mqr input = false -> Forall entry_ok (i_list input) ->
  exists n, QRinput_estimateBitStreamSize input version = Ret n.
Proof.
  intros Hm Hl. unfold QRinput_estimateBitStreamSize. rewrite Hm. generalize 0 as b.
  induction Hl as [|e l He _ IH]; intros b; cbn [foldl]; [by eexists|].
  destruct (estimate_entry_ok e version He) as (n & ->). run. apply IH.
Qed.

Lemma min_version_range size l : -1 <= QRspec_getMinimumVersion size l <= QRSPEC_VERSION_MAX.
Proof. destruct (min_version_spec size l) as [(H & _)|[-> _]]; unfold QRSPEC_VERSION_MAX in *; lia. Qed.

Lemma estimateVersion_loop_ok fuel input prev :
  i_mqr input = false -> Forall entry_ok (i_list input) ->
  0 <= prev <= QRSPEC_VERSION_MAX -> (Z.to_nat (QRSPEC_VERSION_MAX - prev) < fuel)%nat ->
  exists v, estimateVersion_loop fuel input prev = Ret v /\ -1 <= v <= QRSPEC_VERSION_MAX.
Proof.
  intros Hm Hl. revert prev. induction fuel as [|fuel IH]; intros prev Hp Hf; [lia|].
  cbn [estimateVersion_loop]. destruct (estimate_ok input prev Hm Hl) as (n & ->). run.
  set (v := QRspec_getMinimumVersion _ _).
  pose proof (min_version_range ((n + 7) `quot` 8) (i_level input)) as Hv. fold v in Hv.
  case_bool_decide; [exists (-1); split; [done|lia]|].
  case_bool_decide; [|by exists v]. apply IH; lia.
Qed.

Lemma fits_capacity n v l :
  0 <= n -> QRspec_getMinimumVersion ((n + 7) `quot` 8) l <= v <= QRSPEC_VERSION_MAX ->
  0 <= QRspec_getMinimumVersion ((n + 7) `quot` 8) l ->
  1 <= v /\ n <= QRspec_getDataLength v l * 8.
Proof.
  intros Hn Hv H0. destruct (min_version_spec ((n + 7) `quot` 8) l) as [(Hu & Hs & _)|[E _]]; [|lia].
  pose proof (data_length_mono _ v l (conj (proj1 Hu) (proj1 Hv)) (proj2 Hv)) as Hm.
  rewrite Z.quot_div_nonneg in * by lia. split; [lia|].
  set (m := QRspec_getMinimumVersion _ _) in *. dlia.
Qed.

(** What a conversion to version [v] leaves behind. *)
Definition converted (input : QRinput) (v : Z) (pss : list (list (list Z))) : QRinput :=
  set_list (with_version input v) (streamed v (i_list input) pss).

Lemma convert_loop_spec fuel input :
  i_mqr input = false -> Forall entry_ok (i_list input) ->
  0 <= i_version input <= QRSPEC_VERSION_MAX ->
  (Z.to_nat (QRSPEC_VERSION_MAX - i_version input) < fuel)%nat ->
  exists v pss r,
    convert_loop fuel input = Ret (r, converted input v pss) /\
    Forall2 (cut v) (i_list input) pss /\ i_version input <= v <= QRSPEC_VERSION_MAX /\
    let n := BitStream_size (all_bits v (i_list input) pss) in
    (r = 0 /\ 1 <= v /\ n <= QRspec_getDataLength v (i_level input) * 8 \/
     r = -1 /\ QRspec_getDataLength QRSPEC_VERSION_MAX (i_level input) * 8 < n).
Proof.
  revert input. induction fuel as [|fuel IH]; intros input Hm Hl Hv Hf; [lia|].
  cbn [convert_loop]. unfold QRinput_createBitStream. rewrite Hm.
  destruct (create_streams_spec (i_version input) (i_list input) Hl) as (pss & -> & Hc). run.
  set (n := BitStream_size _). assert (Hn : 0 <= n) by (unfold n, BitStream_size; lia).
  rewrite bool_decide_eq_false_2 by lia.
  cbn [set_list i_level i_version QRinput_getVersion].
  set (ver := QRspec_getMinimumVersion _ _).
  pose proof (min_version_range ((n + 7) `quot` 8) (i_level input)) as Hr. fold ver in Hr.
  case_bool_decide as Hneg; [|case_bool_decide as Hgt].
  - exists (i_version input), pss, (-1). split_and!; [done|done|lia|lia|]. right. split; [done|].
    fold n. destruct (min_version_spec ((n + 7) `quot` 8) (i_level input)) as [(H1 & _)|[_ H1]].
    + fold ver in H1. lia.
    + specialize (H1 QRSPEC_VERSION_MAX ltac:(unfold QRSPEC_VERSION_MAX; lia)).
      rewrite Z.quot_div_nonneg in H1 by lia. dlia.
  - pose proof (Forall2_length _ _ _ Hc) as Hlen.
    unfold QRinput_setVersion at 1. cbn [set_list i_mqr]. rewrite Hm, bool_decide_eq_false_2 by lia.
    cbn [orb snd with_version].
    destruct (IH (set_list (with_version input ver) (streamed (i_version input) (i_list input) pss))) as (v & qss & r & E & Hc' & Hv' & Hres);
      [done|by apply streamed_ok|cbn; lia|cbn; lia|].
    cbn [converted set_list with_version i_version i_list i_level] in *.
    exists v, qss, r. rewrite all_bits_streamed in Hres by done. split_and!; [|by eapply cut_streamed|lia|lia|done].
    unfold converted in *. cbn [set_list with_version i_list] in E.
    rewrite streamed_twice in E by done. exact E.
  - exists (i_version input), pss, 0. split_and!; [done|done|lia|lia|]. left. split; [done|].
    fold n. apply (fits_capacity n); fold ver; lia.
Qed.

(** ** Padding *)

Lemma bits_of_0 n : bits_of n 0 = replicate n false.
Proof. induction n as [|n IH]; [done|]. cbn [bits_of replicate]. by rewrite IH, Z.testbit_0_l. Qed.

Lemma value_zeros n : value_of (replicate n false) = 0.
Proof. rewrite <- bits_of_0, value_bits. apply Z.mod_0_l. lia. Qed.

Lemma zeros_terminated n rest : (4 <= n)%nat \/ rest = [] -> terminated (replicate n false ++ rest).
Proof.
  intros H. unfold terminated. destruct (decide (n < 4)%nat) as [Hn|Hn].
  - left. destruct H as [H| ->]; [lia|]. rewrite app_nil_r, length_replicate. done.
  - right. rewrite take_app_le by (rewrite length_replicate; lia).
    rewrite take_replicate. apply value_zeros.
Qed.

Lemma padbuf_ok n : Forall byte (padbuf n) /\ (0 <= n -> Z.of_nat (length (padbuf n)) = n).
Proof.
  split.
  - unfold padbuf. apply Forall_map, Forall_true. intros i. unfold byte. case_bool_decide; lia.
  - intros Hn. unfold padbuf. rewrite length_map, length_seqZ. lia.
Qed.

Lemma appendBytes_padbuf bs n :
  0 <= n -> BitStream_appendBytes bs n (padbuf n) = Ret (bs ++ bytes_bits (padbuf n)).
Proof.
  intros Hn. destruct (padbuf_ok n) as [_ Hl]. specialize (Hl Hn).
  rewrite appendBytes_bits by lia. by rewrite take_ge by lia.
Qed.

(** The padding is the terminator, zeros up to a byte, and the pad bytes. *)
Lemma padding_spec bs input :
  let room := QRspec_getDataLength (i_version input) (i_level input) * 8 in
  0 < room -> BitStream_size bs <= room ->
  exists zeros padlen, let pad := replicate zeros false ++ bytes_bits (padbuf padlen) in
    QRinput_appendPaddingBit bs input = Ret (0, bs ++ pad) /\
    BitStream_size (bs ++ pad) = room /\ terminated pad.
Proof.
  intros room Hroom Hfit. unfold QRinput_appendPaddingBit. cbv zeta. fold room.
  set (n := BitStream_size bs) in *. assert (Hn : 0 <= n) by (unfold n, BitStream_size; lia).
  assert (Hadd : forall l, BitStream_size (bs ++ l) = n + Z.of_nat (length l))
    by (intros; unfold n, BitStream_size; rewrite length_app; lia).
  rewrite bool_decide_eq_false_2 by lia.
  case_bool_decide as Heq; [|case_bool_decide as Hshort].
  - exists 0%nat, 0. cbn [replicate]. unfold padbuf, bytes_bits. simpl. rewrite app_nil_r.
    split_and!; [done|by fold n|]. left. simpl. lia.
  - exists (Z.to_nat (room - n)), 0. change (bytes_bits (padbuf 0)) with (@nil bool).
    rewrite app_nil_r, appendNum_bits, bits_of_0, Hadd, length_replicate by lia.
    split_and!; [done|lia|]. rewrite <- (app_nil_r (replicate _ _)). apply zeros_terminated. by right.
  - set (words := (n + 4 + 7) `quot` 8).
    assert (Hw : 4 <= words * 8 - n < 12 /\ words * 8 <= room).
    { unfold words, room in *. rewrite Z.quot_div_nonneg by lia. dlia. }
    set (padlen := QRspec_getDataLength _ _ - words).
    assert (Hp : 0 <= padlen /\ padlen * 8 = room - words * 8) by (unfold padlen, room; lia).
    exists (Z.to_nat (words * 8 - n)), padlen. destruct (padbuf_ok padlen) as [_ Hl].
    specialize (Hl ltac:(lia)).
    rewrite appendNum_bits, bits_of_0 by lia. cbn [BitStream_new app].
    assert (Hpad : (if bool_decide (padlen > 0)
      then BitStream_appendBytes (replicate (Z.to_nat (words * 8 - n)) false) padlen (padbuf padlen)
      else Ret (replicate (Z.to_nat (words * 8 - n)) false)) =
      Ret (replicate (Z.to_nat (words * 8 - n)) false ++ bytes_bits (padbuf padlen))).
    { case_bool_decide; [apply appendBytes_padbuf; lia|].
      assert (padlen = 0) as -> by lia. by rewrite app_nil_r. }
    unfold BitStream in *. rewrite Hpad. run. split_and!; [done| |apply zeros_terminated; lia].
    rewrite Hadd, length_app, length_replicate, bytes_bits_length. lia.
Qed.

(** ** The byte stream *)

(** The entries that are encoded: [QRinput_mergeBitStream] puts an entry for
    FNC1 in the second position in front. *)
Definition with_fnc1 (input : QRinput) : QRinput :=
  if bool_decide (i_fnc1 input = 2)
  then push_front input (MkEntry QR_MODE_FNC1SECOND 1 [i_appid input] None) else input.

Record input_ok (input : QRinput) : Prop := {
  io_mqr : i_mqr input = false;
  io_version : 0 <= i_version input <= QRSPEC_VERSION_MAX;
  io_entries : Forall entry_ok (i_list input);
  io_fnc1 : i_fnc1 input = 0 \/ i_fnc1 input = 2 /\ i_list input <> [] /\ byte (i_appid input) }.

Lemma insertFNC1Header_spec input :
  input_ok input ->
  (f ← (if bool_decide (i_fnc1 input <> 0) then QRinput_insertFNC1Header input
        else Ret (0, input));
   if bool_decide (f.1 < 0) then Ret f else QRinput_convertData f.2) =
  QRinput_convertData (with_fnc1 input).
Proof.
  intros [_ _ _ H]. unfold with_fnc1.
  destruct H as [H|(H & Hne & Hb)]; rewrite H; [done|].
  rewrite !bool_decide_eq_true_2 by done. unfold QRinput_insertFNC1Header. rewrite H.
  rewrite bool_decide_eq_false_2, bool_decide_eq_true_2 by done.
  rewrite newEntry_spec; [|simpl; lia|by repeat apply Forall_cons_2|by split].
  run. destruct (i_list input) as [|e l]; [done|].
  assert (Hor : e_mode e <> QR_MODE_STRUCTURE \/ e_mode e <> QR_MODE_ECI)
    by (destruct (e_mode e); (by left) || by right).
  rewrite bool_decide_eq_true_2 by done. run. by rewrite bool_decide_eq_false_2 by lia.
Qed.

Lemma with_fnc1_ok input : input_ok input -> Forall entry_ok (i_list (with_fnc1 input)).
Proof.
  intros [_ _ Hl H]. unfold with_fnc1. case_bool_decide as H2; [|done].
  destruct H as [H|(_ & _ & Hb)]; [congruence|]. constructor; [|done].
  split; [by exists (i_appid input)|done].
Qed.

Lemma with_fnc1_fields input :
  i_mqr (with_fnc1 input) = i_mqr input /\ i_version (with_fnc1 input) = i_version input /\
  i_level (with_fnc1 input) = i_level input.
Proof. unfold with_fnc1. by case_bool_decide. Qed.

Lemma convertData_spec input :
  i_mqr input = false -> Forall entry_ok (i_list input) ->
  0 <= i_version input <= QRSPEC_VERSION_MAX ->
  exists v pss r,
    QRinput_convertData input = Ret (r, converted input v pss) /\
    Forall2 (cut v) (i_list input) pss /\ i_version input <= v <= QRSPEC_VERSION_MAX /\
    let n := BitStream_size (all_bits v (i_list input) pss) in
    (r = 0 /\ 1 <= v /\ n <= QRspec_getDataLength v (i_level input) * 8 \/
     r = -1 /\ QRspec_getDataLength QRSPEC_VERSION_MAX (i_level input) * 8 < n).
Proof.
  intros Hm Hl Hv. unfold QRinput_convertData, QRinput_estimateVersion.
  destruct (estimateVersion_loop_ok version_fuel input 0 Hm Hl) as (ver & -> & Hver);
    [unfold QRSPEC_VERSION_MAX; lia|unfold QRSPEC_VERSION_MAX, version_fuel; lia|]. run.
  unfold QRinput_getVersion, QRinput_setVersion. rewrite Hm.
  assert (Hfuel : forall v, 0 <= v -> (Z.to_nat (QRSPEC_VERSION_MAX - v) < version_fuel)%nat)
    by (intros; unfold QRSPEC_VERSION_MAX, version_fuel; lia).
  case_bool_decide as Hgt.
  - rewrite bool_decide_eq_false_2 by lia. cbn [orb snd].
    destruct (convert_loop_spec version_fuel (with_version input ver))
      as (v & pss & r & E & Hc & Hv' & Hres); [done|done|cbn; lia|apply Hfuel; cbn; lia|].
    exists v, pss, r. cbn [with_version i_version] in Hv'. split_and!; [exact E|done|lia|lia|done].
  - apply convert_loop_spec; [done|done|done|apply Hfuel; lia].
Qed.

Lemma toByte_spec bs n :
  0 < n -> BitStream_size bs = n * 8 ->
  exists bytes, BitStream_toByte bs = Some bytes /\ Z.of_nat (length bytes) = n /\
    Forall byte bytes /\ bytes_bits bytes = bs.
Proof.
  intros Hn Hs. unfold BitStream_toByte. rewrite Hs, bool_decide_eq_false_2 by lia.
  rewrite Z.div_mul by lia. eexists. split; [done|].
  destruct (to_bytes_length (Z.to_nat n) bs) as (H1 & H2 & H3); [unfold BitStream_size in Hs; lia|].
  split_and!; [lia|done|done].
Qed.

(** The byte stream of a well-formed QR input. *)
Lemma getByteStream_spec input :
  input_ok input ->
  let l := i_list (with_fnc1 input) in
  exists v pss res,
    QRinput_getByteStream input = Ret (res, converted (with_fnc1 input) v pss) /\
    Forall2 (cut v) l pss /\ i_version input <= v <= QRSPEC_VERSION_MAX /\
    match res with
    | Some bytes =>
        1 <= v /\ Z.of_nat (length bytes) = QRspec_getDataLength v (i_level input) /\
        Forall byte bytes /\
        read_segments (S (length (segments l pss))) v (bytes_bits bytes) = Some (segments l pss)
    | None =>
        QRspec_getDataLength QRSPEC_VERSION_MAX (i_level input) * 8 <
        BitStream_size (all_bits v l pss)
    end.
Proof.
  intros Hok l. pose proof (with_fnc1_ok input Hok) as Hl.
  destruct (with_fnc1_fields input) as (Em & Ev & El).
  destruct Hok as [Hm Hv Hents Hf] eqn:Eok. clear Eok.
  destruct (convertData_spec (with_fnc1 input)) as (v & pss & r & E & Hc & Hv' & Hres);
    [by rewrite Em|done|by rewrite Ev|].
  rewrite Ev, El in *. fold l in Hc, Hres.
  assert (Hmerge : QRinput_mergeBitStream input =
    Ret (if bool_decide (r < 0) then None else Some (all_bits v l pss), converted (with_fnc1 input) v pss)).
  { unfold QRinput_mergeBitStream. rewrite Hm, insertFNC1Header_spec by (by constructor).
    rewrite E. run. case_bool_decide; [done|]. do 2 f_equal.
    unfold merge_streams, converted. cbn [i_list set_list]. fold l.
    by rewrite merge_streamed by (by eapply Forall2_length). }
  exists v, pss. unfold QRinput_getByteStream, QRinput_getBitStream. rewrite Hmerge. run.
  cbn [converted set_list with_version i_mqr]. rewrite Em, Hm.
  destruct Hres as [(-> & Hv1 & Hfit)|[-> Hlong]].
  2: { exists None. by rewrite bool_decide_eq_true_2 by lia. }
  rewrite bool_decide_eq_false_2 by lia.
  pose proof (data_length_mono v v (i_level input) ltac:(lia) ltac:(lia)) as [Hpos _].
  destruct (padding_spec (all_bits v l pss) (converted (with_fnc1 input) v pss))
    as (zeros & padlen & Hp & Hs & Ht).
  { cbn [converted set_list with_version i_version i_level]. rewrite El. lia. }
  { cbn [converted set_list with_version i_version i_level]. by rewrite El. }
  cbn [converted set_list with_version i_version i_level] in Hs. rewrite El in Hs.
  rewrite Hp. run. rewrite bool_decide_eq_false_2 by lia. run.
  destruct (toByte_spec _ (QRspec_getDataLength v (i_level input)) Hpos Hs) as (bytes & Hb & Hlen & Hbyte & Hbits).
  exists (Some bytes). rewrite Hb. split_and!; try done; try lia.
  rewrite Hbits. replace (S (length (segments l pss))) with (length (segments l pss) + 1)%nat by lia.
  by apply read_all_bits.
Qed.

(** Segments that take no more bits than the largest version has, at any version. *)
Definition fits_always (level : QRecLevel) (l : list QRinput_List) : bool :=
  forallb (fun v => bool_decide (BitStream_size (segments_bits v (segments_at v l)) <=
                                 QRspec_getDataLength QRSPEC_VERSION_MAX level * 8)) (seqZ 0 41).

Lemma fits_always_spec level l v : fits_always level l = true -> 0 <= v <= QRSPEC_VERSION_MAX ->
  ~ QRspec_getDataLength QRSPEC_VERSION_MAX level * 8 < BitStream_size (segments_bits v (segments_at v l)).
Proof.
  unfold fits_always. rewrite forallb_forall. intros H Hv. specialize (H v).
  rewrite bool_decide_eq_true in H. apply Z.nlt_ge, H, list_elem_of_In, elem_of_seqZ. unfold QRSPEC_VERSION_MAX in Hv. lia.
Qed.

(** C25: The byte stream of an input is a faithful, complete and exactly filling
    encoding: the conversion terminates; a returned stream has exactly the data
    capacity of the version it has chosen, which is at least the version asked
    for, and the standard's reader gets from it, before the terminator, the
    segments of all entries in order: each entry is cut, from the front, into
    pieces of as many words as the count of the version has room for, which join
    to its data. No stream is returned only when these segments, at the version
    that the conversion has reached, take more bits than the largest version
    has. Holds for every list of entries with the data of their mode
    ([readable]: an ECI number is below 16384, since larger ones are written
    wrongly), with or without FNC1 in the second position. *)
Theorem getByteStream_reads_back input :
  input_ok input ->
  let l := i_list (with_fnc1 input) in
  exists v res input',
    QRinput_getByteStream input = Ret (res, input') /\
    i_version input' = v /\ i_version input <= v <= QRSPEC_VERSION_MAX /\
    Forall (fun e => concat (entry_pieces v e) = e_data e) l /\
    match res with
    | Some bytes =>
        Z.of_nat (length bytes) = QRspec_getDataLength v (i_level input) /\ Forall byte bytes /\
        read_segments (S (length (segments_at v l))) v (bytes_bits bytes) = Some (segments_at v l)
    | None =>
        QRspec_getDataLength QRSPEC_VERSION_MAX (i_level input) * 8 <
        BitStream_size (segments_bits v (segments_at v l))
    end.
Proof.
  intros Hok l. destruct (getByteStream_spec input Hok) as (v & pss & res & E & Hc & Hv & Hres).
  exists v, res, (converted (with_fnc1 input) v pss). split_and!; try done; try lia.
  - by eapply cut_joins.
  - rewrite all_bits_segments, (cut_segments _ _ _ Hc) in Hres. destruct res; [tauto|done].
Qed.

(** An input with two entries, as [QRinput_append] builds it. *)
Definition sample_input : QRinput :=
  MkInput 0 QR_ECLEVEL_M
    [MkEntry QR_MODE_NUM 4 [50; 48; 49; 54] None; MkEntry QR_MODE_8 2 [0; 255] None]
    (Some 1%nat) false 0 0.

Lemma sample_input_ok : input_ok sample_input.
Proof.
  constructor; [done|unfold QRSPEC_VERSION_MAX; simpl; lia| |by left].
  repeat apply Forall_cons_2; try done; (split; [split; [done|]|done]);
    repeat apply Forall_cons_2; unfold digit, byte; lia || done.
Qed.

Example sample_built :
  QRinput_append (MkInput 0 QR_ECLEVEL_M [] None false 0 0) QR_MODE_NUM 4 [50; 48; 49; 54] ≫=
    (fun r => QRinput_append r.2 QR_MODE_8 2 [0; 255]) = Ret (0, sample_input).
Proof. reflexivity. Qed.

Lemma sample_segments v : 0 <= v <= QRSPEC_VERSION_MAX ->
  segments_at v (i_list sample_input) = [(QR_MODE_NUM, [50; 48; 49; 54]); (QR_MODE_8, [0; 255])].
Proof.
  assert (Hs : bool_decide (Forall (fun v => segments_at v (i_list sample_input) =
    [(QR_MODE_NUM, [50; 48; 49; 54]); (QR_MODE_8, [0; 255])]) (seqZ 0 41)) = true) by (vm_compute; reflexivity).
  apply bool_decide_eq_true in Hs. rewrite Forall_forall in Hs. intros Hv. apply Hs, elem_of_seqZ.
  unfold QRSPEC_VERSION_MAX in Hv. lia.
Qed.

Lemma getByteStream_reads_back_witness :
  exists v bytes input',
    QRinput_getByteStream sample_input = Ret (Some bytes, input') /\ 0 <= v <= QRSPEC_VERSION_MAX /\
    read_segments 3 v (bytes_bits bytes) = Some [(QR_MODE_NUM, [50; 48; 49; 54]); (QR_MODE_8, [0; 255])].
Proof.
  destruct (getByteStream_reads_back sample_input sample_input_ok) as (v & res & input' & E & _ & Hv & _ & Hres).
  change (i_list (with_fnc1 sample_input)) with (i_list sample_input) in Hres. destruct res as [bytes|].
  - exists v, bytes, input'. split; [exact E|]. split; [exact Hv|]. destruct Hres as (_ & _ & Hread).
    rewrite (sample_segments v) in Hread by exact Hv. exact Hread.
  - exfalso. revert Hres. apply fits_always_spec; [vm_compute; reflexivity|exact Hv].
Defined.

(** An input object in FNC1 mode 1 is never encoded: the header entry has
    size 0, and [QRinput_check] refuses every size below 1. *)
Theorem fnc1_first_never_encodes input :
  i_mqr input = false -> i_fnc1 input = 1 -> QRinput_getByteStream input = Ret (None, input).
Proof.
  intros Hm Hf. unfold QRinput_getByteStream, QRinput_getBitStream, QRinput_mergeBitStream.
  rewrite Hm, bool_decide_eq_true_2 by lia.
  unfold QRinput_insertFNC1Header. by rewrite bool_decide_eq_true_2.
Qed.

Lemma fnc1_first_never_encodes_witness :
  exists input, QRinput_setFNC1First sample_input = (0, input) /\
    QRinput_getByteStream input = Ret (None, input).
Proof. eexists. split; [reflexivity|]. by apply fnc1_first_never_encodes. Defined.
