(* ===== verification/QrCode.v ===== *)
(** * Symbols

    The top-level functions of [C/qrencode-3.4.4/qrencode.c]: from an input
    object to a QR or Micro QR symbol. The static caches of codecs and frames
    are threaded through; allocation succeeds and [errno] is not modelled. *)

From stdpp Require Import sorting.
From S2P Require Import Prelude Block Bitstream RsCode QrSpec QrMask QrFrame QrRaw.
From S2P Require Import QrEntry QrDecode QrInput.
From S2P Require MqrSpec MMask.
#[local] Open Scope Z_scope.

(* @src C/qrencode-3.4.4/qrencode.h:375-379 QRcode *)
Record QRcode := MkCode { q_version : Z; q_width : Z; q_data : block }.

(* @src C/qrencode-3.4.4/qrencode.c:441-453 QRcode_new *)
Definition QRcode_new (version width : Z) (data : block) : QRcode := MkCode version width data.

(** The static variables [rslist] and [frames] of [rscode.c], [qrspec.c] and
    [mqrspec.c]. *)
Record caches := MkCaches {
  c_rslist : list RS; c_frames : gmap Z block; c_mframes : gmap Z block }.

Definition result : Type := option QRcode * QRinput * caches.

(** ** QR symbols *)

(** The eight modules of a code word: [0x02 | ((bit & code) != 0)]. *)
Definition bit_module (b : bool) : Z := if b then 3 else 2.

(* @src C/qrencode-3.4.4/qrencode.c:502-512 QRcode_encodeMask *)
Fixpoint place_codes (fuel n : nat) (raw : QRRawCode) (st : block * FrameFiller)
    : outcome (option (block * FrameFiller)) :=
  match n with
  | O => Ret (Some st)
  | S n =>
      c ← QRraw_getCode raw;
      r ← place_bits fuel (map bit_module (mask_bits 8 0x80 c.1)) st;
      match r with
      | None => Ret None
      | Some st => place_codes fuel n c.2 st
      end
  end.

(** [masked]; -2 copies the frame. *)
(* @src C/qrencode-3.4.4/qrencode.c:523-534 QRcode_encodeMask *)
Definition choose_mask (mask width : Z) (frame : block) (level : QRecLevel) : outcome (option block) :=
  if bool_decide (mask = -2) then Ret (Some frame)
  else if bool_decide (mask < 0) then Mask_mask width frame level
  else Mask_makeMask width frame mask level.

(* @src C/qrencode-3.4.4/qrencode.c:463-545 QRcode_encodeMask *)
Definition QRcode_encodeMask (cs : caches) (input : QRinput) (mask : Z) : outcome result :=
  if i_mqr input then Ret (None, input, cs)
  else if bool_decide (i_version input < 0 \/ i_version input > QRSPEC_VERSION_MAX)
  then Ret (None, input, cs)
  else
    b ← QRinput_getByteStream input;
    let input := b.2 in
    r ← QRraw_new (c_rslist cs) (i_version input) (i_level input) b.1;
    let cs := MkCaches r.2 (c_frames cs) (c_mframes cs) in
    match r.1 with
    | None => Ret (None, input, cs)
    | Some raw =>
        let version := raw_version raw in
        let width := QRspec_getWidth version in
        f ← QRspec_newFrame (c_frames cs) version;
        let cs := MkCaches (c_rslist cs) f.2 (c_mframes cs) in
        match f.1 with
        | None => Ret (None, input, cs)
        | Some frame =>
            let fuel := filler_fuel width in
            p ← place_codes fuel (Z.to_nat (raw_dataLength raw + raw_eccLength raw)) raw
                  (frame, FrameFiller_new width false);
            match p with
            | None => Ret (None, input, cs)
            | Some st =>
                q ← place_bits fuel (replicate (Z.to_nat (QRspec_getRemainder version)) 2) st;
                match q with
                | None => Ret (None, input, cs)
                | Some st =>
                    masked ← choose_mask mask width st.1 (i_level input);
                    match masked with
                    | None => Ret (None, input, cs)
                    | Some masked => Ret (Some (QRcode_new version width masked), input, cs)
                    end
                end
            end
        end
    end.

(** ** Micro QR symbols *)

(* @src C/qrencode-3.4.4/qrencode.c:199-208 MQRRawCode *)
Record MQRRawCode := MkMRaw {
  m_version : Z; m_dataLength : Z; m_eccLength : Z; m_datacode : list Z;
  m_rsblock : RSblock; m_oddbits : Z; m_count : Z }.

(* @src C/qrencode-3.4.4/qrencode.c:211-252 MQRraw_new *)
Definition MQRraw_new (rslist : list RS) (input : QRinput)
    : outcome (option MQRRawCode * QRinput * list RS) :=
  let version := i_version input in
  let dl := MqrSpec.MQRspec_getDataLength version (i_level input) in
  let el := MqrSpec.MQRspec_getECCLength version (i_level input) in
  let oddbits := dl * 8 - MqrSpec.MQRspec_getDataLengthBit version (i_level input) in
  b ← QRinput_getByteStream input;
  match b.1 with
  | None => Ret (None, b.2, rslist)
  | Some datacode =>
      i ← init_rs rslist 8 0x11d 0 1 el (255 - dl - el);
      match i.1 with
      | None => Ret (None, b.2, i.2)
      | Some rs =>
          rsblock ← RSblock_initBlock dl datacode el rs;
          Ret (Some (MkMRaw version dl el datacode rsblock oddbits 0), b.2, i.2)
      end
  end.

(* @src C/qrencode-3.4.4/qrencode.c:260-273 MQRraw_getCode *)
Definition MQRraw_getCode (raw : MQRRawCode) : outcome (Z * MQRRawCode) :=
  let up := MkMRaw (m_version raw) (m_dataLength raw) (m_eccLength raw) (m_datacode raw)
              (m_rsblock raw) (m_oddbits raw) (m_count raw + 1) in
  if bool_decide (m_count raw < m_dataLength raw) then
    ret ← byte_at (m_datacode raw) (m_count raw); Ret (ret, up)
  else if bool_decide (m_count raw < m_dataLength raw + m_eccLength raw) then
    ret ← byte_at (rb_ecc (m_rsblock raw)) (m_count raw - m_dataLength raw); Ret (ret, up)
  else Ret (0, raw).

(** The bits of the [i]-th code word that are placed: of an odd last data word
    the low [oddbits]. *)
(* @src C/qrencode-3.4.4/qrencode.c:589-605 QRcode_encodeMaskMQR *)
Definition mqr_word_bits (raw : MQRRawCode) (i code : Z) : BitStream :=
  if bool_decide (m_oddbits raw <> 0 /\ i = m_dataLength raw - 1)
  then mask_bits (Z.to_nat (m_oddbits raw)) (u8 (Z.shiftl 1 (m_oddbits raw - 1))) code
  else mask_bits 8 0x80 code.

(* @src C/qrencode-3.4.4/qrencode.c:586-606 QRcode_encodeMaskMQR *)
Fixpoint mplace_codes (fuel n : nat) (i : Z) (raw : MQRRawCode) (st : block * FrameFiller)
    : outcome (option (block * FrameFiller)) :=
  match n with
  | O => Ret (Some st)
  | S n =>
      c ← MQRraw_getCode raw;
      r ← place_bits fuel (map bit_module (mqr_word_bits raw i c.1)) st;
      match r with
      | None => Ret None
      | Some st => mplace_codes fuel n (i + 1) c.2 st
      end
  end.

(* @src C/qrencode-3.4.4/qrencode.c:547-627 QRcode_encodeMaskMQR *)
Definition QRcode_encodeMaskMQR (cs : caches) (input : QRinput) (mask : Z) : outcome result :=
  if negb (i_mqr input) then Ret (None, input, cs)
  else if bool_decide (i_version input <= 0 \/ i_version input > MQRSPEC_VERSION_MAX)
  then Ret (None, input, cs)
  else if bool_decide (level_code (i_level input) > level_code QR_ECLEVEL_Q)
  then Ret (None, input, cs)
  else
    r ← MQRraw_new (c_rslist cs) input;
    let '(raw, input, rslist) := r in
    let cs := MkCaches rslist (c_frames cs) (c_mframes cs) in
    match raw with
    | None => Ret (None, input, cs)
    | Some raw =>
        let version := m_version raw in
        let width := MqrSpec.MQRspec_getWidth version in
        f ← MqrSpec.MQRspec_newFrame (c_mframes cs) version;
        let cs := MkCaches (c_rslist cs) (c_frames cs) f.2 in
        match f.1 with
        | None => Ret (None, input, cs)
        | Some frame =>
            p ← mplace_codes (filler_fuel width) (Z.to_nat (m_dataLength raw + m_eccLength raw)) 0 raw
                  (frame, FrameFiller_new width true);
            match p with
            | None => Ret (None, input, cs)
            | Some st =>
                masked ← (if bool_decide (mask < 0) then MMask.MMask_mask version st.1 (i_level input)
                          else MMask.MMask_makeMask version st.1 mask (i_level input));
                match masked with
                | None => Ret (None, input, cs)
                | Some masked => Ret (Some (QRcode_new version width masked), input, cs)
                end
            end
        end
    end.

(* @src C/qrencode-3.4.4/qrencode.c:629-636 QRcode_encodeInput *)
Definition QRcode_encodeInput (cs : caches) (input : QRinput) : outcome result :=
  if i_mqr input then QRcode_encodeMaskMQR cs input (-1) else QRcode_encodeMask cs input (-1).

(** ** Encoding a buffer *)

(** [data] is [NULL] or a buffer; the input object is freed on return. *)
(* @src C/qrencode-3.4.4/qrencode.c:681-708 QRcode_encodeDataReal *)
Definition QRcode_encodeDataReal (cs : caches) (data : option (list Z)) (length version : Z)
    (level : QRecLevel) (mqr : bool) : outcome (option QRcode * caches) :=
  match data with
  | None => Ret (None, cs)
  | Some data =>
      if bool_decide (length = 0) then Ret (None, cs)
      else
        let input := if mqr then QRinput_newMQR version level else QRinput_new2 version level in
        match input with
        | None => Ret (None, cs)
        | Some input =>
            r ← QRinput_append input QR_MODE_8 length data;
            if bool_decide (r.1 < 0) then Ret (None, cs)
            else
              c ← QRcode_encodeInput cs r.2;
              Ret (c.1.1, c.2)
        end
  end.

(* @src C/qrencode-3.4.4/qrencode.c:710-713 QRcode_encodeData *)
Definition QRcode_encodeData (cs : caches) (size : Z) (data : option (list Z)) (version : Z)
    (level : QRecLevel) : outcome (option QRcode * caches) :=
  QRcode_encodeDataReal cs data size version level false.

(** A string: the bytes before the terminator. *)
(* @src C/qrencode-3.4.4/qrencode.c:715-722 QRcode_encodeString8bit *)
Definition QRcode_encodeString8bit (cs : caches) (str : option (list Z)) (version : Z)
    (level : QRecLevel) : outcome (option QRcode * caches) :=
  match str with
  | None => Ret (None, cs)
  | Some s => QRcode_encodeDataReal cs (Some s) (Z.of_nat (length s)) version level false
  end.

(* @src C/qrencode-3.4.4/qrencode.c:724-727 QRcode_encodeDataMQR *)
Definition QRcode_encodeDataMQR (cs : caches) (size : Z) (data : option (list Z)) (version : Z)
    (level : QRecLevel) : outcome (option QRcode * caches) :=
  QRcode_encodeDataReal cs data size version level true.

(* @src C/qrencode-3.4.4/qrencode.c:729-736 QRcode_encodeString8bitMQR *)
Definition QRcode_encodeString8bitMQR (cs : caches) (str : option (list Z)) (version : Z)
    (level : QRecLevel) : outcome (option QRcode * caches) :=
  match str with
  | None => Ret (None, cs)
  | Some s => QRcode_encodeDataReal cs (Some s) (Z.of_nat (length s)) version level true
  end.

(** ** Placing the code words *)

(** The modules of a list of code words, and of a whole symbol. *)
Definition code_modules (codes : list Z) : list Z :=
  map bit_module (bytes_bits codes).

Lemma place_codes_bits fuel n raw codes st :
  getCodes n raw = Ret codes ->
  place_codes fuel n raw st = place_bits fuel (code_modules codes) st.
Proof.
  revert raw codes st. induction n as [|n IH]; intros raw codes st Hg.
  - cbn [getCodes] in Hg. by simplify_eq.
  - cbn [getCodes] in Hg. cbn [place_codes].
    destruct (QRraw_getCode raw) as [[c raw']|]; [|done]. cbn [mbind outcome_bind fst snd] in *.
    destruct (getCodes n raw') as [rest|] eqn:E; [|done]. cbn [mbind outcome_bind] in Hg. simplify_eq.
    unfold code_modules, bytes_bits. cbn [map concat]. rewrite map_app, place_bits_app.
    change (mask_bits 8 0x80 c) with (mask_bits 8 (2 ^ Z.of_nat 8 / 2) c). rewrite mask_bits_spec.
    destruct (place_bits fuel (map bit_module (bits_of 8 c)) st) as [[st'|]|]; run; [|done|done].
    by apply IH.
Qed.

Lemma code_modules_length codes : length (code_modules codes) = (8 * length codes)%nat.
Proof. unfold code_modules. by rewrite length_map, bytes_bits_length. Qed.

Lemma code_modules_data codes : Forall (fun v => Z.land v 0x80 = 0) (code_modules codes).
Proof. apply Forall_map, Forall_true. by intros []. Qed.

(** Everything that is placed in a frame of version [v]. *)
Definition symbol_modules (v : Z) (codes : list Z) : list Z :=
  code_modules codes ++ replicate (Z.to_nat (QRspec_getRemainder v)) 2.

Lemma remainder_nonneg v : 1 <= v <= QRSPEC_VERSION_MAX -> 0 <= QRspec_getRemainder v /\ 0 <= words (capacity v).
Proof.
  revert v. apply (for_all_versions (fun v => 0 <= QRspec_getRemainder v /\ 0 <= words (capacity v))).
  by vm_compute.
Qed.

(** The filled frame: the code words along the walk, the function patterns
    elsewhere. *)
Lemma fill_frame v codes frame l :
  1 <= v <= QRSPEC_VERSION_MAX -> version_facts v frame l ->
  Z.of_nat (length codes) = words (capacity v) ->
  let w := QRspec_getWidth v in
  exists f' filler',
    place_bits (filler_fuel w) (symbol_modules v codes) (frame, FrameFiller_new w false) =
      Ret (Some (f', filler')) /\
    bsize f' = w * w /\
    (forall i p b, l !! i = Some p -> symbol_modules v codes !! i = Some b -> cell f' p = b) /\
    (forall p, p ∉ l -> cell f' p = cell frame p).
Proof.
  intros Hv [Hf Hw Hs Hwalk Hlen Hperm Hfmt] Hc w. fold w in Hwalk, Hs.
  destruct (remainder_nonneg v Hv) as [Hr Hwd].
  assert (Hn : length (symbol_modules v codes) = Z.to_nat (symbol_bits v)).
  { unfold symbol_modules, symbol_bits. rewrite length_app, code_modules_length, length_replicate. lia. }
  destruct (place_bits_walk (filler_fuel w) (symbol_modules v codes) frame (FrameFiller_new w false) l)
    as (f' & filler' & Hp & Hs' & Hat & Hother).
  - by rewrite Hn.
  - lia.
  - rewrite Hperm. apply NoDup_filter, NoDup_seqZ.
  - rewrite Hperm. apply Forall_forall. intros p Hin. apply list_elem_of_filter in Hin as [H1 H2].
    apply elem_of_seqZ in H2. split; [lia|done].
  - unfold symbol_modules. apply Forall_app. split; [apply code_modules_data|by apply Forall_replicate].
  - exists f', filler'. rewrite Hs in Hs'. split_and!; [done|done|done|done].
Qed.

Lemma choose_mask_spec mask w f level :
  -1 <= mask < 8 -> 9 <= w <= 177 -> bsize f = w * w -> NoDup (format_places w) ->
  exists i m, choose_mask mask w f level = Ret (Some m) /\ 0 <= i < 8 /\ (0 <= mask -> i = mask) /\
    bsize m = w * w /\
    (forall p, 0 <= p < w * w -> p ∉ format_places w -> cell m p = masked i w f p) /\
    forall second, read_places (format_copy second w) m = QRspec_getFormatInfo i level.
Proof.
  intros Hm Hw Hf Hnd. unfold choose_mask. rewrite bool_decide_eq_false_2 by lia. case_bool_decide.
  - destruct (Mask_mask_spec w f level Hw Hf) as (i & best & m & d & E & Hi & Em & [Hs Hc] & _).
    destruct (makeMask_cells w f i level) as (m' & Em' & Hs' & Hc' & Hread); [lia|done|done|].
    rewrite Em in Em'. simplify_eq. exists i, best. split_and!; try done; try lia.
    + intros p Hp Hpl. rewrite Hc by lia. by apply Hc'.
    + intros second. rewrite <- (Hread Hnd second). apply read_places_ext. intros p Hp.
      apply Hc. replace (bsize best) with (w * w) by congruence. eapply format_copy_inside; [lia|exact Hp].
  - destruct (makeMask_cells w f mask level) as (m & Em & Hs & Hc & Hread); [lia|done|lia|].
    exists mask, m. repeat (split; [done || lia|]). intros second. by apply Hread.
Qed.

(** ** Reading a symbol *)

(** The bits a scanner sees in a symbol of version [v] under mask [i]: the
    modules along the walk, with the mask taken off. *)
Definition read_module (i w : Z) (data : block) (p : Z) : bool :=
  bool_decide (Z.land (mask_module i (p `mod` w) (p / w) (cell data p)) 1 <> 0).

Definition read_symbol (i v : Z) (data : block) (n : nat) : BitStream :=
  map (read_module i (QRspec_getWidth v) data) (take n (walk_of v)).

Lemma walk_of_facts v frame l : version_facts v frame l -> walk_of v = l /\ frame_of v = frame.
Proof.
  intros [Hf _ _ Hwalk _ _ _]. unfold walk_of, frame_of. rewrite Hf. by rewrite Hwalk.
Qed.

Lemma land_bit_module b : bool_decide (Z.land (bit_module b) 1 <> 0) = b.
Proof. by destruct b. Qed.

Lemma read_masked v codes frame l f' m i :
  1 <= v <= QRSPEC_VERSION_MAX -> version_facts v frame l ->
  Z.of_nat (length codes) = words (capacity v) ->
  let w := QRspec_getWidth v in
  (forall j p b, l !! j = Some p -> symbol_modules v codes !! j = Some b -> cell f' p = b) ->
  (forall p, 0 <= p < w * w -> p ∉ format_places w -> cell m p = masked i w f' p) ->
  read_symbol i v m (8 * length codes) = bytes_bits codes.
Proof.
  intros Hv Hvf Hc w Hat Hm. unfold read_symbol. destruct (walk_of_facts v frame l Hvf) as [-> _].
  destruct Hvf as [Hf Hw Hs Hwalk Hlen Hperm Hfmt]. fold w in Hw, Hs, Hfmt |- *.
  destruct (remainder_nonneg v Hv) as [Hr Hwd]. unfold symbol_bits in Hlen.
  apply list_eq_same_length with (n := (8 * length codes)%nat);
    [by rewrite bytes_bits_length|rewrite length_map, length_take; lia|].
  intros j x y Hj Hx Hy. rewrite list_lookup_fmap, lookup_take_lt in Hx by done.
  destruct (l !! j) as [p|] eqn:Hp; [|done]. cbn [fmap option_fmap option_map] in Hx. simplify_eq.
  assert (Hin : p ∈ data_modules frame) by (rewrite <- Hperm; by eapply list_elem_of_lookup_2).
  apply list_elem_of_filter in Hin as [H0 Hin]. apply elem_of_seqZ in Hin.
  assert (Hpl : p ∉ format_places w).
  { intros Hin2. rewrite Forall_forall in Hfmt. by apply (Hfmt p Hin2). }
  assert (Hcell : cell f' p = bit_module y).
  { apply (Hat j p); [done|]. unfold symbol_modules, code_modules.
    rewrite lookup_app_l by (rewrite length_map, bytes_bits_length; lia).
    rewrite list_lookup_fmap. by rewrite Hy. }
  unfold read_module. rewrite Hm by (lia || done). unfold masked. rewrite mask_module_invol, Hcell.
  apply land_bit_module.
Qed.

(** The state of the static caches. *)
Definition caches_ok (cs : caches) : Prop :=
  cache_ok (c_rslist cs) /\ frames_ok (c_frames cs) /\ MqrSpec.mqr_frames_ok (c_mframes cs).

(** The code words of a version and level over the data [bytes], as they are
    read out: interleaved data words, then interleaved check words, each block
    a Reed-Solomon codeword. *)
Definition interleaved (v : Z) (l : QRecLevel) (bytes codes : list Z) : Prop :=
  let s := QRspec_getEccSpec v l in
  exists ecc, codes ≡ₚ bytes ++ ecc /\
    (forall i x, codes !! i = Some x ->
       (bytes ++ ecc) !! Z.to_nat (source_index s (Z.of_nat i)) = Some x) /\
    forall r, 0 <= r < rsBlockNum s -> exists block_ecc,
      block_ecc = take (Z.to_nat (rsEccCodes1 s)) (drop (Z.to_nat (r * rsEccCodes1 s)) ecc) /\
      let dl := if bool_decide (r < rsBlockNum1 s) then rsDataCodes1 s else rsDataCodes2 s in
      forall k, (k < Z.to_nat (rsEccCodes1 s))%nat ->
        eval_at k (take (Z.to_nat dl) (drop (Z.to_nat (block_start s r)) bytes) ++ block_ecc) = 0.

(** A byte stream of the right length becomes a symbol. *)
Lemma encodeMask_bytes cs input mask v input' bytes :
  caches_ok cs -> i_mqr input = false -> 0 <= i_version input <= QRSPEC_VERSION_MAX ->
  -1 <= mask < 8 -> QRinput_getByteStream input = Ret (Some bytes, input') ->
  i_version input' = v -> 1 <= v <= QRSPEC_VERSION_MAX -> Forall byte bytes ->
  Z.of_nat (length bytes) = QRspec_getDataLength v (i_level input') ->
  exists m cs' codes i,
    QRcode_encodeMask cs input mask = Ret (Some (MkCode v (QRspec_getWidth v) m), input', cs') /\
    caches_ok cs' /\ 0 <= i < 8 /\ (0 <= mask -> i = mask) /\
    (forall second, read_places (format_copy second (QRspec_getWidth v)) m =
       QRspec_getFormatInfo i (i_level input')) /\
    interleaved v (i_level input') bytes codes /\
    read_symbol i v m (8 * length codes) = bytes_bits codes.
Proof.
  intros (Hrs & Hfr & Hmf) Hmqr Hver Hmask Hb <- Hv Hbytes Hlen. set (v := i_version input') in *.
  destruct (code_words_spec (c_rslist cs) v (i_level input') bytes Hv Hrs Hbytes Hlen)
    as (raw & rslist' & ecc & codes & Hraw & Hrs' & Hrv & Hrn & Hcodes & Hperm & Hsrc & Hrs2).
  destruct (version_facts_all v Hv) as (frame & l & Hvf).
  pose proof (vf_width _ _ _ Hvf) as Hw.
  destruct (newFrame_spec (c_frames cs) v frame Hfr Hv (vf_frame _ _ _ Hvf)) as (frames' & Hnf & Hfr').
  assert (Hcl : Z.of_nat (length codes) = words (capacity v)).
  { destruct (remainder_nonneg v Hv) as [_ Hwd]. rewrite <- (Z2Nat.id (words (capacity v))) by done.
    f_equal. clear -Hcodes. revert raw codes Hcodes. induction (Z.to_nat (words (capacity v))) as [|n IH];
      intros raw codes Hc; cbn [getCodes] in Hc; [by simplify_eq|].
    destruct (QRraw_getCode raw) as [[c raw']|]; [|done]. cbn [mbind outcome_bind fst snd] in Hc.
    destruct (getCodes n raw') eqn:E; [|done]. cbn [mbind outcome_bind] in Hc. simplify_eq.
    simpl. f_equal. by eapply IH. }
  destruct (fill_frame v codes frame l Hv Hvf Hcl) as (f' & filler' & Hplace & Hs & Hat & _).
  destruct (choose_mask_spec mask (QRspec_getWidth v) f' (i_level input') Hmask Hw Hs
              (format_places_NoDup v Hv)) as (i & m & Hch & Hi & Him & Hms & Hmc & Hread).
  exists m, (MkCaches rslist' frames' (c_mframes cs)), codes, i. split_and!; try lia.
  - unfold QRcode_encodeMask. rewrite Hmqr, bool_decide_eq_false_2 by lia. rewrite Hb. run.
    fold v. rewrite Hraw. run. rewrite Hrv. cbn [c_frames c_rslist c_mframes]. rewrite Hnf. run.
    cbn [c_frames c_rslist c_mframes]. rewrite Hrn.
    rewrite (place_codes_bits _ _ _ _ _ Hcodes).
    unfold symbol_modules in Hplace. rewrite place_bits_app in Hplace.
    destruct (place_bits _ (code_modules codes) _) as [[st|]|]; cbn [mbind outcome_bind] in Hplace; [|done|done].
    run. rewrite Hplace. run. rewrite Hch. run. done.
  - done.
  - done.
  - by exists ecc.
  - eapply read_masked; done.
Qed.

(** A symbol, read as a scanner does: both copies of the format information
    carry the level and a mask [i]; with that mask taken off, the modules along
    the walk are the bits of code words whose every block is a Reed-Solomon
    codeword; and the data words, put back in order, decode to [segs]. *)
Definition symbol_reads (mask : Z) (level : QRecLevel) (q : QRcode)
    (segs : list (QRencodeMode * list Z)) : Prop :=
  exists i bytes codes,
    q_width q = QRspec_getWidth (q_version q) /\
    0 <= i < 8 /\ (0 <= mask -> i = mask) /\
    (forall second, read_places (format_copy second (q_width q)) (q_data q) =
       QRspec_getFormatInfo i level) /\
    interleaved (q_version q) level bytes codes /\
    read_symbol i (q_version q) (q_data q) (8 * length codes) = bytes_bits codes /\
    read_segments (S (length segs)) (q_version q) (bytes_bits bytes) = Some segs.

Lemma encodeMask_spec cs input mask :
  caches_ok cs -> input_ok input -> -1 <= mask < 8 ->
  let l := i_list (with_fnc1 input) in
  exists v pss res input' cs',
    QRcode_encodeMask cs input mask = Ret (res, input', cs') /\ caches_ok cs' /\
    i_version input <= v <= QRSPEC_VERSION_MAX /\
    Forall2 (cut v) l pss /\
    match res with
    | Some q => 1 <= v /\ q_version q = v /\ symbol_reads mask (i_level input) q (segments l pss)
    | None =>
        QRspec_getDataLength QRSPEC_VERSION_MAX (i_level input) * 8 <
        BitStream_size (all_bits v l pss)
    end.
Proof.
  intros Hcs Hok Hmask l.
  destruct (getByteStream_spec input Hok) as (v & pss & res & Hb & Hcut & Hv & Hres).
  fold l in Hb, Hcut, Hres. destruct (with_fnc1_fields input) as (_ & _ & Hlev).
  pose proof (io_version _ Hok) as Hiv. destruct res as [bytes|].
  - destruct Hres as (Hv1 & Hlen & Hbytes & Hread).
    destruct (encodeMask_bytes cs input mask v (converted (with_fnc1 input) v pss) bytes)
      as (m & cs' & codes & i & E & Hcs' & Hi & Him & Hfmt & Hint & Hsym);
      try done; try (by apply Hok); try lia.
    { cbn. by rewrite Hlev. }
    cbn [i_level converted set_list with_version] in Hfmt, Hint. rewrite Hlev in Hfmt, Hint.
    exists v, pss, (Some (MkCode v (QRspec_getWidth v) m)), (converted (with_fnc1 input) v pss), cs'.
    split; [exact E|]. split; [exact Hcs'|]. split; [lia|]. split; [exact Hcut|].
    split; [exact Hv1|]. split; [reflexivity|].
    exists i, bytes, codes. cbn [q_version q_width q_data].
    repeat (split; [assumption || reflexivity|]). exact Hread.
  - exists v, pss, None, (converted (with_fnc1 input) v pss), cs.
    split; [|split; [exact Hcs|split; [lia|split; [exact Hcut|exact Hres]]]].
    unfold QRcode_encodeMask. rewrite (io_mqr _ Hok), bool_decide_eq_false_2 by lia.
    rewrite Hb. run. by destruct cs.
Qed.

(** C24: Encoding a well-formed input object, with a given mask or the best
    one, never faults and leaves the caches well formed. When it returns a
    symbol, both copies of the symbol's format information carry the level
    and the mask; with that mask taken off, the modules along the walk of the
    free modules are the bits of code words whose every block is a
    Reed-Solomon codeword; and the data words, put back in order, are a bit
    stream the standard's reader decodes to the segments of the entries: each
    entry cut, from the front, into pieces of as many words as the count of the
    version has room for, which join up to its data. It returns no symbol only
    if these segments, at some version from the one asked for on, take more bits
    than the largest version has. *)
Theorem encodeMask_symbol cs input mask :
  caches_ok cs -> input_ok input -> -1 <= mask < 8 ->
  let l := i_list (with_fnc1 input) in
  exists v res input' cs',
    QRcode_encodeMask cs input mask = Ret (res, input', cs') /\ caches_ok cs' /\
    i_version input <= v <= QRSPEC_VERSION_MAX /\
    Forall (fun e => concat (entry_pieces v e) = e_data e) l /\
    match res with
    | Some q => 1 <= v /\ q_version q = v /\ symbol_reads mask (i_level input) q (segments_at v l)
    | None =>
        QRspec_getDataLength QRSPEC_VERSION_MAX (i_level input) * 8 <
        BitStream_size (segments_bits v (segments_at v l))
    end.
Proof.
  intros Hcs Hok Hmask l.
  destruct (encodeMask_spec cs input mask Hcs Hok Hmask)
    as (v & pss & res & input' & cs' & E & Hcs' & Hv & Hcut & Hres).
  rewrite all_bits_segments, (cut_segments _ _ _ Hcut) in Hres.
  exists v, res, input', cs'. split; [exact E|]. split; [exact Hcs'|]. split; [exact Hv|].
  split; [by eapply cut_joins|exact Hres].
Qed.

(** Two entries, the caches empty. *)
Lemma encodeMask_symbol_witness :
  exists v q input' cs',
    QRcode_encodeMask (MkCaches [] ∅ ∅) sample_input 3 = Ret (Some q, input', cs') /\
    1 <= v <= QRSPEC_VERSION_MAX /\
    symbol_reads 3 QR_ECLEVEL_M q [(QR_MODE_NUM, [50; 48; 49; 54]); (QR_MODE_8, [0; 255])].
Proof.
  destruct (encodeMask_symbol (MkCaches [] ∅ ∅) sample_input 3)
    as (v & res & input' & cs' & E & _ & Hv & _ & Hres).
  - split; [apply Forall_nil_2|]. split; by intros v f Hf.
  - apply sample_input_ok.
  - lia.
  - change (i_list (with_fnc1 sample_input)) with (i_list sample_input) in Hres. destruct res as [q|].
    + exists v, q, input', cs'. split; [exact E|]. destruct Hres as (H1 & _ & Hread).
      split; [split; [exact H1|exact (proj2 Hv)]|].
      rewrite (sample_segments v) in Hread by exact Hv. exact Hread.
    + exfalso. revert Hres. apply fits_always_spec; [vm_compute; reflexivity|exact Hv].
Defined.
