(* ===== verification/QrSplit.v ===== *)
(** * Splitting a string into entries

    [C/qrencode-3.4.4/split.c]: a greedy splitter that cuts a string into
    numeric, alphanumeric, 8 bit and Kanji entries and appends them to an
    input object.

    A string is the list of its bytes without the terminator; a pointer into
    it is a position, and [string + length] the rest of the list. The loops
    move a position towards the terminator, so the length of the string is
    fuel enough. *)

From S2P Require Import Prelude Block Bitstream QrSpec QrEntry QrDecode QrInput.

(** ** Characters *)

(** [string[p]]: the terminator is readable, what lies behind it is not. *)
Definition char_at (string : list Z) (p : nat) : outcome Z :=
  match string !! p with
  | Some c => Ret c
  | None => if bool_decide (p = length string) then Ret 0 else Fault OutOfBounds
  end.

(* @src C/qrencode-3.4.4/split.c:39-39 isdigit *)
Definition isdigit (c : Z) : bool := bool_decide (u8 (s8 c - 48) < 10).

(* @src C/qrencode-3.4.4/split.c:40-40 isalnum *)
Definition isalnum (c : Z) : bool := bool_decide (QRinput_lookAnTable c >= 0).

(* @src C/qrencode-3.4.4/split.c:53-76 Split_identifyMode *)
Definition Split_identifyMode (string : list Z) (p : nat) (hint : QRencodeMode)
    : outcome QRencodeMode :=
  c ← char_at string p;
  if bool_decide (c = 0) then Ret QR_MODE_NUL
  else if isdigit c then Ret QR_MODE_NUM
  else if isalnum c then Ret QR_MODE_AN
  else if bool_decide (hint = QR_MODE_KANJI) then
    d ← char_at string (p + 1);
    if bool_decide (d <> 0) then
      let word := Z.lor (Z.shiftl c 8) d in
      if bool_decide ((word >= 0x8140 /\ word <= 0x9ffc) \/ (word >= 0xe040 /\ word <= 0xebbf))
      then Ret QR_MODE_KANJI else Ret QR_MODE_8
    else Ret QR_MODE_8
  else Ret QR_MODE_8.

(** [while(test( *p)) p++;] *)
Fixpoint skip_while (fuel : nat) (test : Z -> bool) (string : list Z) (p : nat) : outcome nat :=
  match fuel with
  | O => Fault OutOfFuel
  | S fuel =>
      c ← char_at string p;
      if test c then skip_while fuel test string (p + 1) else Ret p
  end.

Definition split_fuel (string : list Z) : nat := S (S (length string)).

(** The lengths below are differences of pointers. *)
Definition eat (input : QRinput) (mode : QRencodeMode) (string : list Z) (run : nat)
    : outcome (Z * QRinput) :=
  r ← QRinput_append input mode (Z.of_nat run) string;
  Ret (if bool_decide (r.1 < 0) then -1 else Z.of_nat run, r.2).

(** ** 8 bit data *)

(** The position behind a run of digits ([isdigit]) or of alphanumeric
    characters ([isalnum]) that starts at [p] is taken into the 8 bit entry
    if changing the mode twice does not pay off. *)
(* @src C/qrencode-3.4.4/split.c:209-246 Split_eat8 *)
Definition eat8_run (test : Z -> bool) (estimate : Z -> Z) (l l8 : Z)
    (string : list Z) (p : nat) (hint : QRencodeMode) : outcome (Z * nat) :=
  q ← skip_while (split_fuel string) test string p;
  mode ← Split_identifyMode string q hint;
  let swcost := if bool_decide (mode = QR_MODE_8) then 4 + l8 else 0 in
  let dif := QRinput_estimateBitsMode8 (Z.of_nat p) + estimate (Z.of_nat q - Z.of_nat p) + 4 + l
             + swcost - QRinput_estimateBitsMode8 (Z.of_nat q) in
  Ret (dif, q).

(* @src C/qrencode-3.4.4/split.c:203-250 Split_eat8 *)
Fixpoint eat8_loop (fuel : nat) (la ln l8 : Z) (string : list Z) (p : nat) (hint : QRencodeMode)
    : outcome nat :=
  match fuel with
  | O => Fault OutOfFuel
  | S fuel =>
      c ← char_at string p;
      if bool_decide (c = 0) then Ret p
      else
        mode ← Split_identifyMode string p hint;
        match mode with
        | QR_MODE_KANJI => Ret p
        | QR_MODE_NUM =>
            r ← eat8_run isdigit QRinput_estimateBitsModeNum ln l8 string p hint;
            if bool_decide (r.1 < 0) then Ret p else eat8_loop fuel la ln l8 string r.2 hint
        | QR_MODE_AN =>
            r ← eat8_run isalnum QRinput_estimateBitsModeAn la l8 string p hint;
            if bool_decide (r.1 < 0) then Ret p else eat8_loop fuel la ln l8 string r.2 hint
        | _ => eat8_loop fuel la ln l8 string (p + 1) hint
        end
  end.

(* @src C/qrencode-3.4.4/split.c:189-257 Split_eat8 *)
Definition Split_eat8 (string : list Z) (input : QRinput) (hint : QRencodeMode)
    : outcome (Z * QRinput) :=
  let la := QRspec_lengthIndicator QR_MODE_AN (i_version input) in
  let ln := QRspec_lengthIndicator QR_MODE_NUM (i_version input) in
  let l8 := QRspec_lengthIndicator QR_MODE_8 (i_version input) in
  run ← eat8_loop (split_fuel string) la ln l8 string 1 hint;
  eat input QR_MODE_8 string run.

(** ** Alphanumeric and numeric data *)

(* @src C/qrencode-3.4.4/split.c:134-153 Split_eatAn *)
Fixpoint eatAn_loop (fuel : nat) (ln : Z) (string : list Z) (p : nat) : outcome nat :=
  match fuel with
  | O => Fault OutOfFuel
  | S fuel =>
      c ← char_at string p;
      if isalnum c then
        if isdigit c then
          q ← skip_while (split_fuel string) isdigit string p;
          d ← char_at string q;
          let dif := QRinput_estimateBitsModeAn (Z.of_nat p)
                     + QRinput_estimateBitsModeNum (Z.of_nat q - Z.of_nat p) + 4 + ln
                     + (if isalnum d then 4 + ln else 0)
                     - QRinput_estimateBitsModeAn (Z.of_nat q) in
          if bool_decide (dif < 0) then Ret p else eatAn_loop fuel ln string q
        else eatAn_loop fuel ln string (p + 1)
      else Ret p
  end.

(* @src C/qrencode-3.4.4/split.c:123-170 Split_eatAn *)
Definition Split_eatAn (string : list Z) (input : QRinput) (hint : QRencodeMode)
    : outcome (Z * QRinput) :=
  let la := QRspec_lengthIndicator QR_MODE_AN (i_version input) in
  let ln := QRspec_lengthIndicator QR_MODE_NUM (i_version input) in
  run ← eatAn_loop (split_fuel string) ln string 0;
  c ← char_at string run;
  let dif := QRinput_estimateBitsModeAn (Z.of_nat run) + 4 + la
             + QRinput_estimateBitsMode8 1 - QRinput_estimateBitsMode8 (Z.of_nat run + 1) in
  if bool_decide (c <> 0) && negb (isalnum c) && bool_decide (dif > 0)
  then Split_eat8 string input hint
  else eat input QR_MODE_AN string run.

(* @src C/qrencode-3.4.4/split.c:83-121 Split_eatNum *)
Definition Split_eatNum (string : list Z) (input : QRinput) (hint : QRencodeMode)
    : outcome (Z * QRinput) :=
  let ln := QRspec_lengthIndicator QR_MODE_NUM (i_version input) in
  run ← skip_while (split_fuel string) isdigit string 0;
  mode ← Split_identifyMode string run hint;
  let dif8 := QRinput_estimateBitsModeNum (Z.of_nat run) + 4 + ln
              + QRinput_estimateBitsMode8 1 - QRinput_estimateBitsMode8 (Z.of_nat run + 1) in
  let difAn := QRinput_estimateBitsModeNum (Z.of_nat run) + 4 + ln
               + QRinput_estimateBitsModeAn 1 - QRinput_estimateBitsModeAn (Z.of_nat run + 1) in
  if bool_decide (mode = QR_MODE_8 /\ dif8 > 0) then Split_eat8 string input hint
  else if bool_decide (mode = QR_MODE_AN /\ difAn > 0) then Split_eatAn string input hint
  else eat input QR_MODE_NUM string run.

(** ** Kanji data *)

(* @src C/qrencode-3.4.4/split.c:178-181 Split_eatKanji *)
Fixpoint eatKanji_loop (fuel : nat) (string : list Z) (p : nat) (hint : QRencodeMode) : outcome nat :=
  match fuel with
  | O => Fault OutOfFuel
  | S fuel =>
      mode ← Split_identifyMode string p hint;
      if bool_decide (mode = QR_MODE_KANJI) then eatKanji_loop fuel string (p + 2) hint else Ret p
  end.

(* @src C/qrencode-3.4.4/split.c:172-187 Split_eatKanji *)
Definition Split_eatKanji (string : list Z) (input : QRinput) (hint : QRencodeMode)
    : outcome (Z * QRinput) :=
  run ← eatKanji_loop (split_fuel string) string 0 hint;
  eat input QR_MODE_KANJI string run.

(** ** The whole string *)

(** The result and the input object; a negative length has left the object
    as the failing function left it. *)
(* @src C/qrencode-3.4.4/split.c:259-280 Split_splitString *)
Fixpoint Split_splitString (fuel : nat) (string : list Z) (input : QRinput) (hint : QRencodeMode)
    : outcome (Z * QRinput) :=
  match fuel with
  | O => Fault OutOfFuel
  | S fuel =>
      c ← char_at string 0;
      if bool_decide (c = 0) then Ret (0, input)
      else
        mode ← Split_identifyMode string 0 hint;
        r ← (if bool_decide (mode = QR_MODE_NUM) then Split_eatNum string input hint
             else if bool_decide (mode = QR_MODE_AN) then Split_eatAn string input hint
             else if bool_decide (mode = QR_MODE_KANJI /\ hint = QR_MODE_KANJI)
             then Split_eatKanji string input hint
             else Split_eat8 string input hint);
        let '(length, input) := r in
        if bool_decide (length = 0) then Ret (0, input)
        else if bool_decide (length < 0) then Ret (-1, input)
        else Split_splitString fuel (drop (Z.to_nat length) string) input hint
  end.

(** In the duplicated string, from position [p] on. *)
(* @src C/qrencode-3.4.4/split.c:290-301 dupAndToUpper *)
Fixpoint upper_loop (fuel : nat) (newstr : list Z) (p : nat) (hint : QRencodeMode)
    : outcome (list Z) :=
  match fuel with
  | O => Fault OutOfFuel
  | S fuel =>
      c ← char_at newstr p;
      if bool_decide (c = 0) then Ret newstr
      else
        mode ← Split_identifyMode newstr p hint;
        if bool_decide (mode = QR_MODE_KANJI) then upper_loop fuel newstr (p + 2) hint
        else
          let newstr := if bool_decide (s8 c >= 97 /\ s8 c <= 122)
                        then <[p := u8 (s8 c - 32)]> newstr else newstr in
          upper_loop fuel newstr (p + 1) hint
  end.

(* @src C/qrencode-3.4.4/split.c:282-304 dupAndToUpper *)
Definition dupAndToUpper (str : list Z) (hint : QRencodeMode) : outcome (list Z) :=
  upper_loop (split_fuel str) str 0 hint.

(* @src C/qrencode-3.4.4/split.c:306-326 Split_splitStringToQRinput *)
Definition Split_splitStringToQRinput (string : option (list Z)) (input : QRinput)
    (hint : QRencodeMode) (casesensitive : bool) : outcome (Z * QRinput) :=
  match string with
  | None => Ret (-1, input)
  | Some string =>
      c ← char_at string 0;
      if bool_decide (c = 0) then Ret (-1, input)
      else if negb casesensitive then
        newstr ← dupAndToUpper string hint;
        Split_splitString (split_fuel newstr) newstr input hint
      else Split_splitString (split_fuel string) string input hint
  end.



Example split_hello :
  Split_splitStringToQRinput (Some (str_bytes "Hello 2016123456789!"))
    (MkInput 1 QR_ECLEVEL_M [] None false 0 0) QR_MODE_8 false =
  Ret (0, MkInput 1 QR_ECLEVEL_M
    [MkEntry QR_MODE_AN 6 (str_bytes "HELLO ") None;
     MkEntry QR_MODE_NUM 13 (str_bytes "2016123456789") None;
     MkEntry QR_MODE_8 1 (str_bytes "!") None] (Some 2%nat) false 0 0).
Proof. vm_compute. reflexivity. Qed.

(** ** Texts *)

(** The characters of a C string. *)
Definition cchar (c : Z) : Prop := 0 < c < 256.

(** The two bytes are taken for a Kanji character. *)
Definition kanji_pair (c d : Z) : bool := bool_decide (kanji_value (c * 256 + d)).

(** In a text of double-byte characters the trail bytes start at 0x40; only
    the range of the pair is tested by the program. *)
Fixpoint sjis_text (s : list Z) : Prop :=
  match s with
  | c :: t =>
      match t with
      | d :: u => if kanji_pair c d then 0x40 <= d /\ sjis_text u else sjis_text t
      | [] => True
      end
  | [] => True
  end.

Definition upper (c : Z) : Z := if bool_decide (97 <= c <= 122) then c - 32 else c.

(** The text in upper case, its double-byte characters left alone. *)
Fixpoint upper_text (hint : QRencodeMode) (s : list Z) : list Z :=
  match s with
  | c :: t =>
      match t with
      | d :: u => if bool_decide (hint = QR_MODE_KANJI) && kanji_pair c d
                  then c :: d :: upper_text hint u else upper c :: upper_text hint t
      | [] => [upper c]
      end
  | [] => []
  end.

Lemma sjis_text_cons c d u :
  sjis_text (c :: d :: u) <-> if kanji_pair c d then 0x40 <= d /\ sjis_text u else sjis_text (d :: u).
Proof. done. Qed.

Lemma upper_text_cons hint c d u :
  upper_text hint (c :: d :: u) =
  if bool_decide (hint = QR_MODE_KANJI) && kanji_pair c d
  then c :: d :: upper_text hint u else upper c :: upper_text hint (d :: u).
Proof. done. Qed.

#[local] Opaque sjis_text upper_text.

Lemma byte_cases (P : Z -> Prop) `{!forall c, Decision (P c)} :
  bool_decide (Forall P (seqZ 0 256)) = true -> forall c, byte c -> P c.
Proof.
  intros Hall c Hc. apply bool_decide_eq_true in Hall. rewrite Forall_forall in Hall.
  apply Hall, elem_of_seqZ. unfold byte in Hc. lia.
Qed.

Lemma isdigit_spec c : byte c -> isdigit c = true <-> digit c.
Proof.
  intros Hc. assert (H : isdigit c = bool_decide (48 <= c <= 57)).
  { revert c Hc. apply (byte_cases (fun c => isdigit c = bool_decide (48 <= c <= 57))). by vm_compute. }
  rewrite H. apply bool_decide_eq_true.
Qed.

Lemma isalnum_spec c : byte c -> isalnum c = true <-> an_char c.
Proof.
  intros Hc. unfold isalnum, an_char. rewrite bool_decide_eq_true.
  assert (Hg : forall z, z >= 0 <-> 0 <= z) by lia. rewrite Hg. tauto.
Qed.

(** Digits are alphanumeric, and both are ASCII. *)
Lemma alnum_ascii c : byte c -> (isdigit c = true -> isalnum c = true) /\ (isalnum c = true -> c < 128).
Proof.
  revert c. apply (byte_cases (fun c => (isdigit c = true -> isalnum c = true) /\
                                        (isalnum c = true -> c < 128))).
  by vm_compute.
Qed.

Lemma kanji_pair_lead c d : byte d -> kanji_pair c d = true -> 129 <= c.
Proof. unfold kanji_pair, kanji_value, byte. rewrite bool_decide_eq_true. lia. Qed.

Lemma cchar_bytes s : Forall cchar s -> Forall byte s.
Proof. intros H. eapply Forall_impl; [exact H|]. intros c Hc. unfold cchar, byte in *. lia. Qed.

Lemma cchar_byte_at s i c : Forall cchar s -> s !! i = Some c -> byte c.
Proof. intros Hs. apply (proj1 (Forall_lookup _ _) (cchar_bytes _ Hs)). Qed.

(** ** Positions *)

Lemma char_at_lookup s p c : s !! p = Some c -> char_at s p = Ret c.
Proof. unfold char_at. by intros ->. Qed.

Lemma char_at_end s : char_at s (length s) = Ret 0.
Proof. unfold char_at. by rewrite lookup_ge_None_2, bool_decide_eq_true_2. Qed.

(** The characters of a string up to the terminator. *)
Lemma char_at_le s p :
  Forall cchar s -> (p <= length s)%nat ->
  exists c, char_at s p = Ret c /\ byte c /\
    ((c = 0 /\ p = length s) \/ (0 < c /\ s !! p = Some c /\ (p < length s)%nat)).
Proof.
  intros Hs Hp. destruct (decide (p = length s)) as [->|Hne].
  - exists 0. split; [apply char_at_end|]. unfold byte. split; [lia|by left].
  - destruct (lookup_lt_is_Some_2 s p ltac:(lia)) as [c Hc]. exists c.
    rewrite (char_at_lookup _ _ _ Hc). pose proof (proj1 (Forall_lookup _ _) Hs p c Hc) as H.
    unfold cchar in H. unfold byte. split; [done|]. split; [lia|]. right. split; [lia|]. split; [done|lia].
Qed.

Definition kanji_at (s : list Z) (p : nat) : Prop :=
  exists c d, s !! p = Some c /\ s !! S p = Some d /\ kanji_pair c d = true.

(** From [p] on the rest of the text is aligned. *)
Definition aligned (hint : QRencodeMode) (s : list Z) (p : nat) : Prop :=
  hint = QR_MODE_KANJI -> sjis_text (drop p s).

Lemma aligned_step hint s p :
  aligned hint s p -> (hint = QR_MODE_KANJI -> ~ kanji_at s p) -> (p < length s)%nat ->
  aligned hint s (S p).
Proof.
  intros Ha Hk Hp Hh. specialize (Ha Hh). specialize (Hk Hh).
  destruct (lookup_lt_is_Some_2 s p Hp) as [c Hc]. rewrite (drop_S _ _ _ Hc) in Ha.
  destruct (s !! S p) as [d|] eqn:Hd.
  - rewrite (drop_S _ _ _ Hd) in Ha |- *. apply sjis_text_cons in Ha.
    destruct (kanji_pair c d) eqn:E; [|done]. exfalso. apply Hk. by exists c, d.
  - apply lookup_ge_None in Hd. rewrite drop_ge by lia. done.
Qed.

Lemma aligned_kanji hint s p :
  aligned hint s p -> hint = QR_MODE_KANJI -> kanji_at s p ->
  aligned hint s (p + 2) /\ forall d, s !! S p = Some d -> 0x40 <= d.
Proof.
  intros Ha Hh (c & d & Hc & Hd & E). specialize (Ha Hh).
  rewrite (drop_S _ _ _ Hc), (drop_S _ _ _ Hd) in Ha.
  apply sjis_text_cons in Ha. rewrite E in Ha. destruct Ha as [H40 Ha].
  rewrite Nat.add_comm. split; [by intros _|]. intros d' Hd'. by simplify_eq.
Qed.

(** ** Identification *)

Lemma identify_spec s p hint :
  Forall cchar s -> (p <= length s)%nat ->
  exists mode, Split_identifyMode s p hint = Ret mode /\
    match mode with
    | QR_MODE_NUL => p = length s
    | QR_MODE_NUM => exists c, s !! p = Some c /\ isdigit c = true
    | QR_MODE_AN => exists c, s !! p = Some c /\ isdigit c = false /\ isalnum c = true
    | QR_MODE_KANJI => hint = QR_MODE_KANJI /\ kanji_at s p /\ (p + 2 <= length s)%nat
    | QR_MODE_8 => (p < length s)%nat /\ (hint = QR_MODE_KANJI -> ~ kanji_at s p)
    | _ => False
    end.
Proof.
  intros Hs Hp. unfold Split_identifyMode.
  destruct (char_at_le s p Hs Hp) as (c & -> & Hb & [[-> ->]|(H0 & Hc & Hlt)]); run; [by eexists|].
  rewrite bool_decide_eq_false_2 by lia.
  destruct (isdigit c) eqn:E1; [eexists; split; [done|]; by exists c|].
  destruct (isalnum c) eqn:E2; [eexists; split; [done|]; by exists c|].
  case_bool_decide as Hh; [|eexists; split; [done|]; by split].
  destruct (char_at_le s (p + 1) Hs ltac:(lia)) as (d & -> & Hbd & Hd); run.
  rewrite Nat.add_1_r in Hd. case_bool_decide as Hd0.
  - destruct Hd as [[-> _]|(_ & Hd & Hlt2)]; [done|]. rewrite two_bytes by done.
    case_bool_decide as Hk; eexists; (split; [done|]).
    + split; [done|]. split; [|lia]. exists c, d. split; [done|]. split; [done|].
      apply bool_decide_eq_true. unfold kanji_value. lia.
    + split; [done|]. intros _ (c' & d' & Hc' & Hd' & E). simplify_eq.
      apply bool_decide_eq_true in E. apply Hk. unfold kanji_value in E. lia.
  - destruct Hd as [[_ Hend]|(Hd & _)]; [|lia]. eexists. split; [done|]. split; [done|].
    intros _ (c' & d' & _ & Hd' & _). apply lookup_lt_Some in Hd'. lia.
Qed.

Lemma ascii_not_kanji s p c :
  Forall cchar s -> s !! p = Some c -> c < 128 -> ~ kanji_at s p.
Proof.
  intros Hs Hc Hlt (c' & d & Hc' & Hd & E). simplify_eq.
  pose proof (proj1 (Forall_lookup _ _) Hs _ _ Hd) as H. unfold cchar in H.
  apply kanji_pair_lead in E; [lia|unfold byte; lia].
Qed.

Lemma identify_not_kanji s p hint mode :
  Forall cchar s -> (p <= length s)%nat -> Split_identifyMode s p hint = Ret mode ->
  mode <> QR_MODE_KANJI -> hint = QR_MODE_KANJI -> ~ kanji_at s p.
Proof.
  intros Hs Hp E Hne Hh Hk. destruct (identify_spec s p hint Hs Hp) as (mode' & E' & Hmode).
  rewrite E in E'. apply (inj Ret) in E'. subst mode'. destruct mode; try done.
  - destruct Hk as (c & d & Hc & _). apply lookup_lt_Some in Hc. lia.
  - destruct Hmode as (c & Hc & Hd). revert Hk. eapply ascii_not_kanji; [done|exact Hc|].
    destruct (alnum_ascii c (cchar_byte_at _ _ _ Hs Hc)). auto.
  - destruct Hmode as (c & Hc & _ & Hd). revert Hk. eapply ascii_not_kanji; [done|exact Hc|].
    destruct (alnum_ascii c (cchar_byte_at _ _ _ Hs Hc)). auto.
  - by apply Hmode.
Qed.

(** ** Runs *)

Lemma skip_while_spec fuel test s p :
  Forall cchar s -> test 0 = false -> (p <= length s)%nat -> (length s - p < fuel)%nat ->
  exists q, skip_while fuel test s p = Ret q /\ (p <= q <= length s)%nat /\
    (forall i c, (p <= i < q)%nat -> s !! i = Some c -> test c = true) /\
    (forall c, s !! q = Some c -> test c = false).
Proof.
  intros Hs H0. revert p. induction fuel as [|fuel IH]; intros p Hp Hf; [lia|]. cbn [skip_while].
  destruct (char_at_le s p Hs Hp) as (c & -> & _ & Hc); run.
  destruct Hc as [[-> Hend]|(_ & Hc & Hlt)].
  - rewrite H0. exists p. split; [done|]. split; [lia|]. split; [lia|]. intros c Hc.
    apply lookup_lt_Some in Hc. lia.
  - destruct (test c) eqn:E.
    + rewrite Nat.add_1_r. destruct (IH (S p)) as (q & -> & Hq & Hin & Hout); [lia|lia|].
      exists q. split; [done|]. split; [lia|]. split; [|done]. intros i c' Hi Hc'.
      destruct (decide (i = p)) as [->|]; [congruence|]. apply (Hin i); [lia|done].
    + exists p. split; [done|]. split; [lia|]. split; [lia|]. intros c' Hc'. congruence.
Qed.

(** Runs of ASCII characters keep the alignment. *)
Lemma aligned_run hint s p q :
  Forall cchar s -> aligned hint s p -> (p <= q <= length s)%nat ->
  (forall i c, (p <= i < q)%nat -> s !! i = Some c -> c < 128) -> aligned hint s q.
Proof.
  intros Hs Ha Hq Hin.
  assert (H : forall n, (n <= q - p)%nat -> aligned hint s (p + n)).
  { induction n as [|n IH]; intros Hn; [by rewrite Nat.add_0_r|]. rewrite Nat.add_succ_r.
    destruct (lookup_lt_is_Some_2 s (p + n) ltac:(lia)) as [c Hc].
    apply aligned_step; [apply IH; lia| |lia]. intros _.
    eapply ascii_not_kanji; [done|done|]. by apply (Hin (p + n)%nat); [lia|]. }
  replace q with (p + (q - p))%nat by lia. by apply H.
Qed.

(** ** One entry *)

Definition new_entry (mode : QRencodeMode) (data : list Z) : QRinput_List :=
  MkEntry mode (Z.of_nat (length data)) data None.

(** The modes of text; Kanji needs the hint. *)
Definition text_mode (hint mode : QRencodeMode) : Prop :=
  mode = QR_MODE_NUM \/ mode = QR_MODE_AN \/ mode = QR_MODE_8 \/
  mode = QR_MODE_KANJI /\ hint = QR_MODE_KANJI.

(** The program has taken the first [run] characters of [s] as an entry. *)
Definition eaten (s : list Z) (input : QRinput) (hint : QRencodeMode) (r : outcome (Z * QRinput))
    : Prop :=
  exists mode run,
    r = Ret (Z.of_nat run, QRinput_appendEntry input (new_entry mode (take run s))) /\
    (0 < run <= length s)%nat /\ readable mode (take run s) /\ aligned hint s run /\
    text_mode hint mode.

Lemma eat_spec input mode hint s run :
  Forall cchar s -> (0 < run <= length s)%nat -> readable mode (take run s) -> aligned hint s run ->
  text_mode hint mode ->
  eaten s input hint (eat input mode s run).
Proof.
  intros Hs Hrun Hr Ha Hm. exists mode, run. split; [|done]. unfold eat, QRinput_append.
  rewrite newEntry_spec; [|lia|by apply cchar_bytes|rewrite Nat2Z.id; by apply readable_accepted].
  run. rewrite bool_decide_eq_false_2 by lia. rewrite Nat2Z.id. unfold new_entry.
  by rewrite length_take, Nat.min_l by lia.
Qed.

Lemma take_ne_nil {A} (s : list A) run : (0 < run <= length s)%nat -> take run s <> [].
Proof. destruct s, run; simpl; (lia || done). Qed.

(** The first [run] characters satisfy a test. *)
Lemma take_Forall (P : Z -> Prop) s run :
  (forall i c, (i < run)%nat -> s !! i = Some c -> P c) -> Forall P (take run s).
Proof.
  intros H. apply Forall_lookup. intros i c Hc.
  apply lookup_take_Some in Hc as [Hc Hi]. by apply (H i).
Qed.

Lemma eat8_loop_spec fuel la ln l8 s p hint :
  Forall cchar s -> (p <= length s)%nat -> (length s - p < fuel)%nat -> aligned hint s p ->
  exists q, eat8_loop fuel la ln l8 s p hint = Ret q /\ (p <= q <= length s)%nat /\ aligned hint s q.
Proof.
  intros Hs. revert p. induction fuel as [|fuel IH]; intros p Hp Hf Ha; [lia|]. cbn [eat8_loop].
  destruct (char_at_le s p Hs Hp) as (c & -> & _ & Hc); run.
  destruct Hc as [[-> ->]|(H0 & Hc & Hlt)]; [by exists (length s)|].
  rewrite bool_decide_eq_false_2 by lia.
  assert (Hnext : forall q, (p < q <= length s)%nat -> aligned hint s q ->
    exists q', eat8_loop fuel la ln l8 s q hint = Ret q' /\ (p <= q' <= length s)%nat /\
               aligned hint s q').
  { intros q Hq Haq. destruct (IH q) as (q' & E & Hq' & Haq'); [lia|lia|done|].
    exists q'. split; [done|]. split; [lia|done]. }
  assert (Hrun : forall test estimate l, test 0 = false -> test c = true ->
      (forall c, byte c -> test c = true -> c < 128) ->
    exists q', (r ← eat8_run test estimate l l8 s p hint;
      if bool_decide (r.1 < 0) then Ret p else eat8_loop fuel la ln l8 s r.2 hint) = Ret q' /\
      (p <= q' <= length s)%nat /\ aligned hint s q').
  { intros test estimate l Ht0 Htc Hascii. unfold eat8_run.
    destruct (skip_while_spec (split_fuel s) test s p Hs Ht0 Hp) as (q & -> & Hq & Hin & Hout);
      [unfold split_fuel; lia|]. run.
    destruct (identify_spec s q hint Hs) as (mode & -> & _); [lia|]. run.
    case_bool_decide; [by exists p|]. apply Hnext.
    - split; [|lia]. destruct (decide (p = q)) as [<-|]; [|lia]. rewrite (Hout c Hc) in Htc. done.
    - eapply aligned_run; [done|exact Ha|done|]. intros i c' Hi Hc'. apply Hascii; [|by eapply Hin].
      by eapply cchar_byte_at. }
  destruct (identify_spec s p hint Hs Hp) as (mode & -> & Hmode); run.
  destruct mode; try done.
  - exfalso. lia.
  - destruct Hmode as (c' & Hc' & Hd). simplify_eq. apply Hrun; [done|done|].
    intros c' Hb Ht. destruct (alnum_ascii c' Hb). auto.
  - destruct Hmode as (c' & Hc' & _ & Hd). simplify_eq. apply Hrun; [done|done|].
    intros c' Hb Ht. destruct (alnum_ascii c' Hb). auto.
  - rewrite Nat.add_1_r. apply Hnext; [lia|]. apply aligned_step; [done|tauto|lia].
  - by exists p.
Qed.

Lemma eat8_spec s input hint :
  Forall cchar s -> s <> [] -> aligned hint s 0 -> (hint = QR_MODE_KANJI -> ~ kanji_at s 0) ->
  eaten s input hint (Split_eat8 s input hint).
Proof.
  intros Hs Hne Ha Hk. assert (Hl : (0 < length s)%nat) by (destruct s; simpl; [done|lia]).
  unfold Split_eat8.
  destruct (eat8_loop_spec (split_fuel s) (QRspec_lengthIndicator QR_MODE_AN (i_version input))
    (QRspec_lengthIndicator QR_MODE_NUM (i_version input))
    (QRspec_lengthIndicator QR_MODE_8 (i_version input)) s 1 hint Hs)
    as (run & -> & Hrun & Har); [lia|unfold split_fuel; lia|by apply aligned_step|]. run.
  apply eat_spec; [done|lia| |done|unfold text_mode; tauto]. split; [apply take_ne_nil; lia|].
  apply Forall_take. by apply cchar_bytes.
Qed.

(** What the alphanumeric loop weighs when it meets digits at [p]. *)
Definition digits_pay (ln : Z) (s : list Z) (p : nat) : Prop :=
  forall q d, skip_while (split_fuel s) isdigit s p = Ret q -> char_at s q = Ret d ->
  0 <= QRinput_estimateBitsModeAn (Z.of_nat p)
       + QRinput_estimateBitsModeNum (Z.of_nat q - Z.of_nat p) + 4 + ln
       + (if isalnum d then 4 + ln else 0) - QRinput_estimateBitsModeAn (Z.of_nat q).

Lemma eatAn_loop_spec fuel ln s p :
  Forall cchar s -> (p <= length s)%nat -> (length s - p < fuel)%nat ->
  exists q, eatAn_loop fuel ln s p = Ret q /\ (p <= q <= length s)%nat /\
    (forall i c, (p <= i < q)%nat -> s !! i = Some c -> isalnum c = true) /\
    (forall c, s !! p = Some c -> isalnum c = true -> (isdigit c = true -> digits_pay ln s p) ->
       (p < q)%nat).
Proof.
  intros Hs. revert p. induction fuel as [|fuel IH]; intros p Hp Hf; [lia|]. cbn [eatAn_loop].
  destruct (char_at_le s p Hs Hp) as (c & -> & Hb & Hc); run.
  destruct Hc as [[-> Hend]|(H0 & Hc & Hlt)].
  { exists p. split; [done|]. split; [lia|]. split; [lia|]. intros c Hc. apply lookup_lt_Some in Hc. lia. }
  destruct (isalnum c) eqn:Ea; [|exists p; split; [done|]; split; [lia|]; split; [lia|];
    intros c' Hc'; congruence].
  assert (Hnext : forall q, (p < q <= length s)%nat ->
    (forall i c, (p <= i < q)%nat -> s !! i = Some c -> isalnum c = true) ->
    exists q', eatAn_loop fuel ln s q = Ret q' /\ (p < q' <= length s)%nat /\
      (forall i c, (p <= i < q')%nat -> s !! i = Some c -> isalnum c = true)).
  { intros q Hq Hin. destruct (IH q) as (q' & E & Hq' & Hin' & _); [lia|lia|].
    exists q'. split; [done|]. split; [lia|]. intros i c' Hi Hc'.
    destruct (decide (i < q)%nat); [apply (Hin i); [lia|done]|apply (Hin' i); [lia|done]]. }
  destruct (isdigit c) eqn:Ed.
  - destruct (skip_while_spec (split_fuel s) isdigit s p Hs eq_refl Hp) as (q & Eq & Hq & Hin & Hout);
      [unfold split_fuel; lia|]. rewrite Eq. run.
    destruct (char_at_le s q Hs) as (d & Ed' & _); [lia|]. rewrite Ed'. run.
    case_bool_decide as Hdif.
    + exists p. split; [done|]. split; [lia|]. split; [lia|]. intros c' Hc' _ Hpay. simplify_eq.
      specialize (Hpay Ed q d Eq Ed'). lia.
    + destruct (Hnext q) as (q' & -> & Hq' & Hin').
      * split; [|lia]. destruct (decide (p = q)) as [<-|]; [|lia]. rewrite (Hout c Hc) in Ed. done.
      * intros i c' Hi Hc'. apply (proj1 (alnum_ascii c' (cchar_byte_at _ _ _ Hs Hc'))). by apply (Hin i).
      * exists q'. split; [done|]. split; [lia|]. split; [done|]. lia.
  - rewrite Nat.add_1_r. destruct (Hnext (S p)) as (q' & -> & Hq' & Hin').
    + lia.
    + intros i c' Hi Hc'. assert (i = p) as -> by lia. congruence.
    + exists q'. split; [done|]. split; [lia|]. split; [done|]. lia.
Qed.

Lemma eatAn_spec s input hint c :
  Forall cchar s -> aligned hint s 0 -> s !! 0%nat = Some c -> isalnum c = true ->
  (isdigit c = true -> digits_pay (QRspec_lengthIndicator QR_MODE_NUM (i_version input)) s 0) ->
  eaten s input hint (Split_eatAn s input hint).
Proof.
  intros Hs Ha Hc Halnum Hpay. unfold Split_eatAn. pose proof (lookup_lt_Some _ _ _ Hc) as Hl.
  destruct (eatAn_loop_spec (split_fuel s) (QRspec_lengthIndicator QR_MODE_NUM (i_version input)) s 0 Hs)
    as (run & -> & Hrun & Hin & Hpos); [lia|unfold split_fuel; lia|]. run.
  specialize (Hpos c Hc Halnum Hpay).
  destruct (char_at_le s run Hs) as (d & -> & _); [lia|]. run.
  assert (Hbyte : forall i c, s !! i = Some c -> byte c)
    by (intros i c'; by apply cchar_byte_at).
  destruct (bool_decide (d <> 0) && negb (isalnum d) && _).
  - apply eat8_spec; [done|by intros ->|done|]. intros _. eapply ascii_not_kanji; [done|exact Hc|].
    by apply alnum_ascii; [by eapply Hbyte|].
  - apply eat_spec; [done|lia| | |unfold text_mode; tauto].
    + split; [apply take_ne_nil; lia|]. apply take_Forall. intros i c' Hi Hc'.
      apply isalnum_spec; [by eapply Hbyte|]. by apply (Hin i); [lia|].
    + eapply aligned_run; [done|exact Ha|lia|]. intros i c' Hi Hc'.
      apply alnum_ascii; [by eapply Hbyte|]. by apply (Hin i).
Qed.

(** Where a numeric entry would cost more than going on in alphanumeric mode,
    the alphanumeric loop does not stop at the digits. *)
Lemma numeric_pays ln n x :
  0 <= n -> 0 <= ln -> 0 <= x ->
  0 < QRinput_estimateBitsModeNum n + 4 + ln + QRinput_estimateBitsModeAn 1
      - QRinput_estimateBitsModeAn (n + 1) ->
  0 <= QRinput_estimateBitsModeAn 0 + QRinput_estimateBitsModeNum n + 4 + ln + x
       - QRinput_estimateBitsModeAn n.
Proof.
  intros Hn Hl Hx.
  assert (Hstep : QRinput_estimateBitsModeAn n + 5 <= QRinput_estimateBitsModeAn (n + 1)).
  { unfold QRinput_estimateBitsModeAn. rewrite !Z.quot_div_nonneg, !land_1_mod by lia.
    repeat case_bool_decide; dlia. }
  change (QRinput_estimateBitsModeAn 1) with 6. change (QRinput_estimateBitsModeAn 0) with 0. lia.
Qed.

Lemma eatNum_spec s input hint c :
  Forall cchar s -> aligned hint s 0 -> s !! 0%nat = Some c -> isdigit c = true ->
  eaten s input hint (Split_eatNum s input hint).
Proof.
  intros Hs Ha Hc Hd. unfold Split_eatNum. pose proof (lookup_lt_Some _ _ _ Hc) as Hl.
  assert (Hbyte : forall i c, s !! i = Some c -> byte c)
    by (intros i c'; by apply cchar_byte_at).
  destruct (alnum_ascii c ltac:(by eapply Hbyte)) as [Han Hascii]. specialize (Han Hd).
  destruct (skip_while_spec (split_fuel s) isdigit s 0 Hs eq_refl) as (run & Erun & Hrun & Hin & Hout);
    [lia|unfold split_fuel; lia|]. rewrite Erun. run.
  assert (Hpos : (0 < run)%nat).
  { destruct (decide (run = 0%nat)) as [->|]; [|lia]. rewrite (Hout c Hc) in Hd. done. }
  destruct (identify_spec s run hint Hs) as (mode & -> & _); [lia|]. run.
  case_bool_decide; [|case_bool_decide as Hm].
  - apply eat8_spec; [done|by intros ->|done|]. intros _. eapply ascii_not_kanji; [done|exact Hc|auto].
  - eapply eatAn_spec; [done|done|exact Hc|done|]. intros _ q d Hq Hdq.
    rewrite Erun in Hq. simplify_eq. rewrite Z.sub_0_r.
    assert (Hln : 0 <= QRspec_lengthIndicator QR_MODE_NUM (i_version input)) by apply lengthIndicator_range.
    apply numeric_pays; [lia|done|destruct (isalnum d); lia|lia].
  - apply eat_spec; [done|lia| | |unfold text_mode; tauto].
    + split; [apply take_ne_nil; lia|]. apply take_Forall. intros i c' Hi Hc'.
      apply isdigit_spec; [by eapply Hbyte|]. by apply (Hin i); [lia|].
    + eapply aligned_run; [done|exact Ha|lia|]. intros i c' Hi Hc'.
      pose proof (alnum_ascii c' ltac:(by eapply Hbyte)) as [H1 H2]. apply H2, H1. by apply (Hin i).
Qed.

Lemma eatKanji_loop_spec fuel s n hint :
  Forall cchar s -> hint = QR_MODE_KANJI -> (2 * n <= length s)%nat ->
  (length s - 2 * n < fuel)%nat -> aligned hint s (2 * n) ->
  Forall sjis_char (groups 2 n s) ->
  exists m, eatKanji_loop fuel s (2 * n) hint = Ret (2 * m)%nat /\ (n <= m)%nat /\
    (2 * m <= length s)%nat /\ aligned hint s (2 * m) /\ Forall sjis_char (groups 2 m s) /\
    (kanji_at s (2 * n) -> (n < m)%nat).
Proof.
  intros Hs Hh. revert n. induction fuel as [|fuel IH]; intros n Hn Hf Ha Hg; [lia|].
  cbn [eatKanji_loop].
  destruct (identify_spec s (2 * n) hint Hs Hn) as (mode & Eid & Hmode). rewrite Eid. run.
  case_bool_decide as Hk.
  - subst mode. destruct Hmode as (_ & Hk & Hlen).
    destruct (aligned_kanji hint s (2 * n) Ha Hh Hk) as [Ha' H40].
    replace (2 * n + 2)%nat with (2 * S n)%nat in * by lia.
    destruct (IH (S n)) as (m & -> & Hm & Hm2 & Ham & Hgm & _); [lia|lia|done| |].
    + replace (S n) with (n + 1)%nat by lia. rewrite groups_app. apply Forall_app. split; [done|].
      destruct Hk as (c & d & Hc & Hd & E). apply Forall_singleton.
      rewrite (drop_S _ _ _ Hc), (drop_S _ _ _ Hd). cbn [take].
      pose proof (cchar_byte_at _ _ _ Hs Hc). pose proof (cchar_byte_at _ _ _ Hs Hd).
      apply bool_decide_eq_true in E. split; [|by apply H40].
      exists c, d. done.
    + exists m. split; [done|]. split; [lia|]. split; [done|]. split; [done|]. split; [done|]. lia.
  - exists n. split; [done|]. split; [lia|]. split; [done|]. split; [done|]. split; [done|].
    intros Hka. exfalso. by eapply identify_not_kanji.
Qed.

Lemma eatKanji_spec s input hint :
  Forall cchar s -> hint = QR_MODE_KANJI -> aligned hint s 0 -> kanji_at s 0 ->
  eaten s input hint (Split_eatKanji s input hint).
Proof.
  intros Hs Hh Ha Hk. unfold Split_eatKanji.
  destruct (eatKanji_loop_spec (split_fuel s) s 0 hint Hs Hh) as (m & E & _ & Hm & Ham & Hg & Hpos);
    [lia|unfold split_fuel; lia|done|apply Forall_nil_2|].
  change (2 * 0)%nat with 0%nat in *. rewrite E. run. specialize (Hpos Hk).
  apply eat_spec; [done|lia| |done|unfold text_mode; tauto]. cbn [readable].
  split; [apply take_ne_nil; lia|]. rewrite length_take, Nat.min_l by done.
  destruct (rest_groups (2 * m) 2) as (E1 & E2 & E3); [done|].
  split; [lia|]. replace (2 * m / 2)%nat with m by lia. by rewrite groups_take.
Qed.

(** ** The whole string *)

Lemma eat_any s input hint mode :
  Forall cchar s -> s <> [] -> aligned hint s 0 -> Split_identifyMode s 0 hint = Ret mode ->
  eaten s input hint
    (if bool_decide (mode = QR_MODE_NUM) then Split_eatNum s input hint
     else if bool_decide (mode = QR_MODE_AN) then Split_eatAn s input hint
     else if bool_decide (mode = QR_MODE_KANJI /\ hint = QR_MODE_KANJI)
     then Split_eatKanji s input hint
     else Split_eat8 s input hint).
Proof.
  intros Hs Hne Ha E. destruct (identify_spec s 0 hint Hs) as (mode' & E' & Hmode); [lia|].
  rewrite E in E'. apply (inj Ret) in E'. subst mode'. destruct mode; try done.
  - by destruct s.
  - destruct Hmode as (c & Hc & Hd). rewrite bool_decide_eq_true_2 by done. by eapply eatNum_spec.
  - destruct Hmode as (c & Hc & Hd & Hn). rewrite bool_decide_eq_false_2, bool_decide_eq_true_2 by done.
    eapply eatAn_spec; [done|done|exact Hc|done|congruence].
  - rewrite !bool_decide_eq_false_2 by intuition congruence. apply eat8_spec; tauto.
  - destruct Hmode as (Hh & Hk & _). rewrite !bool_decide_eq_false_2 by done.
    rewrite bool_decide_eq_true_2 by done. by apply eatKanji_spec.
Qed.

(** The tail pointer points to the last entry. *)
Definition tail_ok (input : QRinput) : Prop :=
  i_tail input = match i_list input with [] => None | l => Some (pred (length l)) end.

(** The object with entries added behind its own. *)
Definition with_entries (input : QRinput) (l : list QRinput_List) : QRinput :=
  MkInput (i_version input) (i_level input) (i_list input ++ l)
    (match i_list input ++ l with [] => None | l => Some (pred (length l)) end)
    (i_mqr input) (i_fnc1 input) (i_appid input).

Lemma with_entries_nil input : tail_ok input -> with_entries input [] = input.
Proof. intros H. unfold with_entries. rewrite app_nil_r, <- H. by destruct input. Qed.

Lemma appendEntry_spec input e : tail_ok input -> QRinput_appendEntry input e = with_entries input [e].
Proof.
  intros H. unfold QRinput_appendEntry, with_entries. rewrite H.
  destruct (i_list input) as [|a l]; [done|]. cbn [length pred app].
  rewrite length_app. cbn [length]. rewrite Nat.add_1_r, firstn_all2 by (simpl; lia). done.
Qed.

Lemma with_entries_ok input l : tail_ok (with_entries input l).
Proof. done. Qed.

Lemma with_entries_app input l l' : with_entries (with_entries input l) l' = with_entries input (l ++ l').
Proof. unfold with_entries. cbn [i_list i_version i_level i_mqr i_fnc1 i_appid]. by rewrite <- app_assoc. Qed.

Lemma splitString_spec fuel s input hint :
  Forall cchar s -> aligned hint s 0 -> tail_ok input -> (length s < fuel)%nat ->
  exists l, Split_splitString fuel s input hint = Ret (0, with_entries input l) /\
    Forall entry_ok l /\ Forall (text_mode hint) (map e_mode l) /\ concat (map e_data l) = s.
Proof.
  revert s input. induction fuel as [|fuel IH]; intros s input Hs Ha Ht Hf; [lia|].
  cbn [Split_splitString]. destruct (char_at_le s 0 Hs) as (c & -> & _ & Hc); [lia|]. run.
  destruct Hc as [[-> Hend]|(H0 & Hc & Hlt)].
  { exists []. rewrite bool_decide_eq_true_2, with_entries_nil by done.
    split; [done|]. split; [done|]. split; [done|]. by destruct s. }
  rewrite bool_decide_eq_false_2 by lia.
  destruct (identify_spec s 0 hint Hs) as (mode & E & _); [lia|]. rewrite E. run.
  destruct (eat_any s input hint mode) as (m & run & -> & Hrun & Hr & Har & Hm);
    [done|by intros ->|done|done|]. run.
  rewrite !bool_decide_eq_false_2 by lia. rewrite Nat2Z.id, appendEntry_spec by done.
  destruct (IH (drop run s) (with_entries input [new_entry m (take run s)])) as (l & -> & Hl & Hml & Hcat).
  - by apply Forall_drop.
  - done.
  - apply with_entries_ok.
  - rewrite length_drop. lia.
  - exists (new_entry m (take run s) :: l). rewrite with_entries_app. split; [done|].
    split; [by constructor|]. split; [by constructor|]. cbn [map concat new_entry e_data]. rewrite Hcat. apply take_drop.
Qed.

(** ** Upper case *)

Lemma upper_loop_spec fuel s p hint :
  Forall cchar s -> (p <= length s)%nat -> (length s - p < fuel)%nat ->
  upper_loop fuel s p hint = Ret (take p s ++ upper_text hint (drop p s)).
Proof.
  revert s p. induction fuel as [|fuel IH]; intros s p Hs Hp Hf; [lia|]. cbn [upper_loop].
  destruct (char_at_le s p Hs Hp) as (c & -> & Hb & Hc); run.
  destruct Hc as [[-> ->]|(H0 & Hc & Hlt)].
  { rewrite bool_decide_eq_true_2, take_ge, drop_ge by done. by rewrite app_nil_r. }
  rewrite bool_decide_eq_false_2 by lia.
  destruct (identify_spec s p hint Hs Hp) as (mode & Eid & Hmode). rewrite Eid. run.
  case_bool_decide as Hk.
  - subst mode. destruct Hmode as (Hh & (c' & d & Hc' & Hd & E) & Hlen).
    rewrite IH by (done || lia). f_equal.
    rewrite (drop_S _ _ _ Hc'), (drop_S _ _ _ Hd), upper_text_cons, E, bool_decide_eq_true_2 by done.
    cbn [andb]. rewrite Nat.add_comm. cbn [Nat.add].
    rewrite (take_S_r _ _ _ Hd), (take_S_r _ _ _ Hc'), <- !app_assoc. done.
  - assert (Hn : hint = QR_MODE_KANJI -> ~ kanji_at s p).
    { by eapply identify_not_kanji. }
    assert (Hu : (if bool_decide (s8 c >= 97 /\ s8 c <= 122) then <[p := u8 (s8 c - 32)]> s else s) =
                 <[p := upper c]> s).
    { assert (Hup : (s8 c >= 97 /\ s8 c <= 122 <-> 97 <= c <= 122) /\
                    (97 <= c <= 122 -> u8 (s8 c - 32) = c - 32)).
      { clear -Hb. revert c Hb. apply (byte_cases (fun c =>
          (s8 c >= 97 /\ s8 c <= 122 <-> 97 <= c <= 122) /\ (97 <= c <= 122 -> u8 (s8 c - 32) = c - 32))).
        by vm_compute. }
      destruct Hup as [Hiff Hval]. unfold upper. repeat case_bool_decide; try tauto.
      - by rewrite Hval.
      - by rewrite list_insert_id. }
    rewrite Hu, Nat.add_1_r, IH; clear Hu.
    + rewrite (drop_S _ _ _ Hc). f_equal.
      rewrite (take_S_r _ _ (upper c)) by (by apply list_lookup_insert_eq).
      rewrite take_insert_ge, drop_insert_lt by lia. rewrite <- app_assoc. f_equal. cbn [app].
      destruct (s !! S p) as [d|] eqn:Hd.
      * rewrite (drop_S _ _ _ Hd), upper_text_cons. case_bool_decide as Hh; [|done].
        destruct (kanji_pair c d) eqn:E; [|done]. exfalso. apply (Hn Hh). by exists c, d.
      * apply lookup_ge_None in Hd. by rewrite drop_ge by lia.
    + apply Forall_insert; [done|]. unfold cchar, upper, byte in *. case_bool_decide; lia.
    + rewrite length_insert. lia.
    + rewrite length_insert. lia.
Qed.

Lemma upper_range c : cchar c -> cchar (upper c).
Proof. unfold cchar, upper. case_bool_decide; lia. Qed.

(** Raising a letter turns no pair into a Kanji character. *)
Lemma kanji_pair_upper c d d' :
  byte d -> d' = d \/ d' = upper d -> kanji_pair (upper c) d' = true -> kanji_pair c d = true.
Proof.
  unfold kanji_pair, kanji_value, upper, byte. rewrite !bool_decide_eq_true.
  intros Hd [->| ->]; repeat case_bool_decide; lia.
Qed.

(** The upper-case text is text of the same kind. *)
Lemma upper_text_spec hint s :
  Forall cchar s ->
  Forall cchar (upper_text hint s) /\
  (hint = QR_MODE_KANJI -> sjis_text s -> sjis_text (upper_text hint s)) /\
  match s with
  | [] => upper_text hint s = []
  | d :: _ => exists d' u, upper_text hint s = d' :: u /\ (d' = d \/ d' = upper d)
  end.
Proof.
  assert (H : forall n s, (length s <= n)%nat -> Forall cchar s ->
    Forall cchar (upper_text hint s) /\
    (hint = QR_MODE_KANJI -> sjis_text s -> sjis_text (upper_text hint s)) /\
    match s with
    | [] => upper_text hint s = []
    | d :: _ => exists d' u, upper_text hint s = d' :: u /\ (d' = d \/ d' = upper d)
    end); [|by apply (H (length s))].
  clear s. induction n as [|n IH]; intros s Hn Hs.
  { destruct s; [|simpl in Hn; lia]. by split_and!. }
  destruct s as [|c t]; [by split_and!|]. apply Forall_cons in Hs as [Hc Ht].
  destruct t as [|d u].
  { change (upper_text hint [c]) with [upper c]. split_and!; [|done|by exists (upper c), []; auto].
    apply Forall_singleton. by apply upper_range. }
  simpl in Hn. rewrite upper_text_cons. destruct (bool_decide (hint = QR_MODE_KANJI)) eqn:Hh.
  2: { apply bool_decide_eq_false in Hh. cbn [andb].
       destruct (IH (d :: u)) as (H1 & H2 & _); [simpl; lia|done|]. split_and!.
       - constructor; [by apply upper_range|done].
       - done.
       - eexists _, _. split; [done|by right]. }
  cbn [andb]. destruct (kanji_pair c d) eqn:E.
  - apply Forall_cons in Ht as [Hd Hu]. destruct (IH u) as (H1 & H2 & _); [lia|done|]. split_and!.
    + by repeat apply Forall_cons_2.
    + intros Hk Hs. apply sjis_text_cons in Hs. rewrite E in Hs. apply sjis_text_cons. rewrite E.
      split; [tauto|]. apply H2; tauto.
    + eexists _, _. split; [done|by left].
  - destruct (IH (d :: u)) as (H1 & H2 & d' & u' & E' & Hd'); [simpl; lia|done|]. split_and!.
    + constructor; [by apply upper_range|done].
    + intros Hk Hs. apply sjis_text_cons in Hs. rewrite E in Hs. specialize (H2 Hk Hs).
      rewrite E' in H2 |- *. apply sjis_text_cons.
      destruct (kanji_pair (upper c) d') eqn:E2; [|done]. exfalso.
      apply Forall_cons in Ht as [Hd _]. unfold cchar in Hd.
      rewrite (kanji_pair_upper c d d') in E by (done || (unfold byte; lia)). done.
    + eexists _, _. split; [done|by right].
Qed.

(** The text that is encoded. *)
Definition encoded_text (casesensitive : bool) (hint : QRencodeMode) (s : list Z) : list Z :=
  if casesensitive then s else upper_text hint s.

Lemma split_string_spec s input hint casesensitive :
  Forall cchar s -> s <> [] -> (hint = QR_MODE_KANJI -> sjis_text s) -> tail_ok input ->
  exists l, Split_splitStringToQRinput (Some s) input hint casesensitive =
      Ret (0, with_entries input l) /\
    Forall entry_ok l /\ Forall (text_mode hint) (map e_mode l) /\
    concat (map e_data l) = encoded_text casesensitive hint s.
Proof.
  intros Hs Hne Ha Ht. unfold Split_splitStringToQRinput.
  destruct (char_at_le s 0 Hs) as (c & -> & _ & Hc); [lia|]. run.
  destruct Hc as [[_ Hend]|(H0 & _ & _)]; [by destruct s|]. rewrite bool_decide_eq_false_2 by lia.
  destruct casesensitive; cbn [negb encoded_text].
  - apply splitString_spec; [done| |done|unfold split_fuel; lia]. exact Ha.
  - unfold dupAndToUpper. rewrite upper_loop_spec by (done || unfold split_fuel; lia). run.
    change (take 0 s ++ upper_text hint (drop 0 s)) with (upper_text hint s).
    destruct (upper_text_spec hint s Hs) as (H1 & H2 & _).
    apply splitString_spec; [done| |done|unfold split_fuel; lia].
    intros Hk. apply H2; [done|by apply Ha].
Qed.

(** Splitting a string never faults and never fails: it appends entries
    whose data, joined, is the string (in upper case unless the case is to be
    kept), each in a mode of text that can express it, and changes nothing
    else of the input object. With the Kanji hint this takes a text whose trail
    bytes are 0x40 or more. *)
Theorem split_string_complete s input hint casesensitive :
  Forall cchar s -> s <> [] -> (hint = QR_MODE_KANJI -> sjis_text s) -> tail_ok input ->
  exists l, Split_splitStringToQRinput (Some s) input hint casesensitive =
      Ret (0, with_entries input l) /\
    Forall entry_ok l /\ Forall (text_mode hint) (map e_mode l) /\
    concat (map e_data l) = encoded_text casesensitive hint s.
Proof. apply split_string_spec. Qed.

(** A Kanji character between letters. *)
Lemma split_string_complete_witness :
  exists l, Split_splitStringToQRinput (Some [97; 0x93; 0xfa; 50]) (MkInput 0 QR_ECLEVEL_L [] None false 0 0)
      QR_MODE_KANJI false = Ret (0, with_entries (MkInput 0 QR_ECLEVEL_L [] None false 0 0) l) /\
    Forall entry_ok l /\ Forall (text_mode QR_MODE_KANJI) (map e_mode l) /\
    concat (map e_data l) = [65; 0x93; 0xfa; 50].
Proof.
  apply (split_string_complete [97; 0x93; 0xfa; 50] (MkInput 0 QR_ECLEVEL_L [] None false 0 0)
           QR_MODE_KANJI false).
  - repeat apply Forall_cons_2; try apply Forall_nil_2; unfold cchar; lia.
  - discriminate.
  - intros _. vm_compute. repeat split. discriminate.
  - reflexivity.
Defined.
