(* ===== verification/QrString.v ===== *)
(** * Symbols from strings

    The string functions of [C/qrencode-3.4.4/qrencode.c]: the splitter of
    [QrSplit] in front of the encoder of [QrCode]. *)

From S2P Require Import Prelude Block Bitstream QrSpec QrMask QrEntry QrDecode QrInput QrCode QrSplit.

(** [string] is [NULL] or a C string; the input object is freed on return. *)
(* @src C/qrencode-3.4.4/qrencode.c:638-669 QRcode_encodeStringReal *)
Definition QRcode_encodeStringReal (cs : caches) (string : option (list Z)) (version : Z)
    (level : QRecLevel) (mqr : bool) (hint : QRencodeMode) (casesensitive : bool)
    : outcome (option QRcode * caches) :=
  if bool_decide (string = None) then Ret (None, cs)
  else if bool_decide (hint <> QR_MODE_8 /\ hint <> QR_MODE_KANJI) then Ret (None, cs)
  else
    let input := if mqr then QRinput_newMQR version level else QRinput_new2 version level in
    match input with
    | None => Ret (None, cs)
    | Some input =>
        r ← Split_splitStringToQRinput string input hint casesensitive;
        if bool_decide (r.1 < 0) then Ret (None, cs)
        else
          c ← QRcode_encodeInput cs r.2;
          Ret (c.1.1, c.2)
    end.

(* @src C/qrencode-3.4.4/qrencode.c:671-674 QRcode_encodeString *)
Definition QRcode_encodeString (cs : caches) (string : option (list Z)) (version : Z)
    (level : QRecLevel) (hint : QRencodeMode) (casesensitive : bool)
    : outcome (option QRcode * caches) :=
  QRcode_encodeStringReal cs string version level false hint casesensitive.

(* @src C/qrencode-3.4.4/qrencode.c:676-679 QRcode_encodeStringMQR *)
Definition QRcode_encodeStringMQR (cs : caches) (string : option (list Z)) (version : Z)
    (level : QRecLevel) (hint : QRencodeMode) (casesensitive : bool)
    : outcome (option QRcode * caches) :=
  QRcode_encodeStringReal cs string version level true hint casesensitive.

(** ** The data of the segments *)

(** Encoding an object without FNC1 header. *)
Lemma encodeInput_spec cs input :
  caches_ok cs -> i_mqr input = false -> 0 <= i_version input <= QRSPEC_VERSION_MAX ->
  Forall entry_ok (i_list input) -> i_fnc1 input = 0 ->
  exists v pss res input' cs',
    QRcode_encodeInput cs input = Ret (res, input', cs') /\ caches_ok cs' /\
    i_version input <= v <= QRSPEC_VERSION_MAX /\ Forall2 (cut v) (i_list input) pss /\
    match res with
    | Some q => 1 <= v /\ q_version q = v /\
        symbol_reads (-1) (i_level input) q (segments (i_list input) pss)
    | None =>
        QRspec_getDataLength QRSPEC_VERSION_MAX (i_level input) * 8 <
        BitStream_size (segments_bits v (segments (i_list input) pss))
    end.
Proof.
  intros Hcs Hm Hv Hl Hf. assert (Hok : input_ok input) by (constructor; auto).
  destruct (encodeMask_spec cs input (-1) Hcs Hok) as (v & pss & res & input' & cs' & E & Hcs' & Hv' & Hp & Hres);
    [lia|].
  assert (Hlist : i_list (with_fnc1 input) = i_list input)
    by (unfold with_fnc1; by rewrite bool_decide_eq_false_2 by lia).
  rewrite Hlist in Hp, Hres. exists v, pss, res, input', cs'.
  split; [unfold QRcode_encodeInput; rewrite Hm; exact E|]. split; [exact Hcs'|].
  split; [exact Hv'|]. split; [exact Hp|]. destruct res; [exact Hres|].
  by rewrite <- all_bits_segments.
Qed.

Lemma readable_nonempty mode data : readable mode data -> data <> [].
Proof.
  destruct mode; cbn [readable]; try tauto; intros H ->;
    first [by destruct H as (? & ? & ? & ? & _) | by destruct H as (? & ? & ? & _) | by destruct H as (? & ? & _)].
Qed.

(** C22: From a string to a symbol. For a non-empty string (with the Kanji
    hint, one whose double-byte trail bytes are 0x40 or more) and a version
    and level in range, [QRcode_encodeString] never faults. The splitter makes
    of the string entries in the text modes, none empty, whose data joined is the
    string, in upper case unless the case is to be kept. The symbol that is
    returned has the version asked for or a larger one and reads back, as in
    [encodeMask_symbol], as the segments of these entries. No symbol is returned
    only if these segments, at some version from the one asked for on, take more
    bits than the largest version has. *)
Theorem encodeString_symbol cs s version level hint casesensitive :
  caches_ok cs -> Forall cchar s -> s <> [] -> 0 <= version <= QRSPEC_VERSION_MAX ->
  hint = QR_MODE_8 \/ hint = QR_MODE_KANJI /\ sjis_text s ->
  let input := MkInput version level [] None false 0 0 in
  exists l v res cs',
    Split_splitStringToQRinput (Some s) input hint casesensitive = Ret (0, with_entries input l) /\
    Forall (text_mode hint) (map e_mode l) /\ Forall (fun e => e_data e <> []) l /\
    concat (map e_data l) = encoded_text casesensitive hint s /\
    QRcode_encodeString cs (Some s) version level hint casesensitive = Ret (res, cs') /\ caches_ok cs' /\
    version <= v <= QRSPEC_VERSION_MAX /\ Forall (fun e => concat (entry_pieces v e) = e_data e) l /\
    match res with
    | Some q => 1 <= v /\ q_version q = v /\ symbol_reads (-1) level q (segments_at v l)
    | None =>
        QRspec_getDataLength QRSPEC_VERSION_MAX level * 8 < BitStream_size (segments_bits v (segments_at v l))
    end.
Proof.
  intros Hcs Hs Hne Hv Hhint input.
  destruct (split_string_spec s input hint casesensitive Hs Hne) as (l & E & Hl & Hm & Hcat);
    [destruct Hhint as [->|[_ H]]; done|done|].
  destruct (encodeInput_spec cs (with_entries input l) Hcs)
    as (v & pss & res & input' & cs' & Henc & Hcs' & Hv' & Hcut & Hres); [done|done|exact Hl|done|].
  change (i_list (with_entries input l)) with l in *.
  change (i_version (with_entries input l)) with version in *.
  change (i_level (with_entries input l)) with level in *.
  rewrite (cut_segments _ _ _ Hcut) in Hres. exists l, v, res, cs'. split; [exact E|]. split; [exact Hm|].
  split; [eapply Forall_impl; [exact Hl|]; intros e [He _]; by eapply readable_nonempty|].
  split; [exact Hcat|]. split; [|split; [exact Hcs'|split; [exact Hv'|split; [by eapply cut_joins|exact Hres]]]].
  unfold QRcode_encodeString, QRcode_encodeStringReal, QRinput_new2.
  rewrite !bool_decide_eq_false_2 by (done || lia || intuition congruence).
  fold input. rewrite E. run. by rewrite Henc.
Qed.

(** Kanji "sun" between two letters, at the smallest version: an 8-bit, a Kanji
    and an alphanumeric segment would do, and a symbol is returned. *)
Lemma encodeString_symbol_witness :
  exists q cs' segs,
    QRcode_encodeString (MkCaches [] ∅ ∅) (Some [97; 0x93; 0xfa; 98]) 0 QR_ECLEVEL_M QR_MODE_KANJI false
      = Ret (Some q, cs') /\ caches_ok cs' /\ symbol_reads (-1) QR_ECLEVEL_M q segs /\
    concat (map snd segs) = [65; 0x93; 0xfa; 66].
Proof.
  destruct (encodeString_symbol (MkCaches [] ∅ ∅) [97; 0x93; 0xfa; 98] 0 QR_ECLEVEL_M QR_MODE_KANJI false)
    as (l & v & res & cs' & Hsplit & _ & _ & Hdata & E & Hcs & Hv & Hjoin & Hres).
  - split; [apply Forall_nil_2|]. split; by intros v f Hf.
  - repeat apply Forall_cons_2; try apply Forall_nil_2; unfold cchar; lia.
  - discriminate.
  - unfold QRSPEC_VERSION_MAX. lia.
  - right. split; [reflexivity|]. vm_compute. repeat split. discriminate.
  - destruct res as [q|].
    + exists q, cs', (segments_at v l). split; [exact E|]. split; [exact Hcs|]. split; [exact (proj2 (proj2 Hres))|].
      rewrite segments_at_data by exact Hjoin. exact Hdata.
    + exfalso. revert Hres. apply fits_always_spec; [|exact Hv].
      assert (Hl : match Split_splitStringToQRinput (Some [97; 0x93; 0xfa; 98]) (MkInput 0 QR_ECLEVEL_M [] None false 0 0)
                     QR_MODE_KANJI false with Ret (_, i) => fits_always QR_ECLEVEL_M (i_list i) | Fault _ => false end = true)
        by (vm_compute; reflexivity).
      rewrite Hsplit in Hl. exact Hl.
Defined.
