(* ===== verification/QrStruct.v ===== *)
(** * Structured append

    The structured input data of [C/qrencode-3.4.4/qrinput.c] and the
    structured encoding of [qrencode.c]: input data that is too long for one
    symbol of the version asked for is split over up to 16 symbols, each with
    a header that says which one it is.

    A set of inputs is a list. The tail pointer of an object whose first entry
    is the second half of a split entry can point into the object before it;
    the position past the end of the list stands for such a pointer. Nothing
    is appended to the objects of a set. *)

From Stdlib Require Import Sorted.
From S2P Require Import Prelude Block Bitstream QrSpec QrMask QrEntry QrDecode QrInput QrCode QrSplit QrString.

(** ** The set *)

(* @src C/qrencode-3.4.4/qrinput.h:66-71 _QRinput_Struct *)
Record QRinput_Struct := MkStruct { s_size : Z; s_parity : Z; s_inputs : list QRinput }.

(* @src C/qrencode-3.4.4/qrinput.c:1466-1479 QRinput_Struct_new *)
Definition QRinput_Struct_new : QRinput_Struct := MkStruct 0 (-1) [].

(* @src C/qrencode-3.4.4/qrinput.c:1481-1484 QRinput_Struct_setParity *)
Definition QRinput_Struct_setParity (s : QRinput_Struct) (parity : Z) : QRinput_Struct :=
  MkStruct (s_size s) parity (s_inputs s).

(* @src C/qrencode-3.4.4/qrinput.c:1486-1508 QRinput_Struct_appendInput *)
Definition QRinput_Struct_appendInput (s : QRinput_Struct) (input : QRinput) : Z * QRinput_Struct :=
  if i_mqr input then (-1, s)
  else (s_size s + 1, MkStruct (s_size s + 1) (s_parity s) (s_inputs s ++ [input])).

(* @src C/qrencode-3.4.4/qrinput.c:1525-1539 QRinput_Struct_calcParity *)
Definition QRinput_Struct_calcParity (s : QRinput_Struct) : outcome (Z * QRinput_Struct) :=
  parity ← foldl (fun acc input => parity ← acc; p ← QRinput_calcParity input; Ret (Z.lxor parity p))
             (Ret 0) (s_inputs s);
  Ret (parity, QRinput_Struct_setParity s parity).

(* @src C/qrencode-3.4.4/qrinput.c:1690-1697 QRinput_Struct_insertStructuredAppendHeaders *)
Fixpoint insert_headers (size i parity : Z) (l : list QRinput) : outcome (Z * list QRinput) :=
  match l with
  | [] => Ret (0, [])
  | input :: l =>
      r ← QRinput_insertStructuredAppendHeader input size i (u8 parity);
      if bool_decide (r.1 <> 0) then Ret (-1, r.2 :: l)
      else
        t ← insert_headers size (i + 1) parity l;
        Ret (t.1, r.2 :: t.2)
  end.

(* @src C/qrencode-3.4.4/qrinput.c:1678-1700 QRinput_Struct_insertStructuredAppendHeaders *)
Definition QRinput_Struct_insertStructuredAppendHeaders (s : QRinput_Struct)
    : outcome (Z * QRinput_Struct) :=
  if bool_decide (s_size s = 1) then Ret (0, s)
  else
    s ← (if bool_decide (s_parity s < 0) then
           r ← QRinput_Struct_calcParity s; Ret r.2
         else Ret s);
    r ← insert_headers (s_size s) 1 (s_parity s) (s_inputs s);
    Ret (r.1, MkStruct (s_size s) (s_parity s) r.2).

(** ** Splitting an entry *)

(* @src C/qrencode-3.4.4/qrinput.c:1541-1554 QRinput_List_shrinkEntry *)
Definition QRinput_List_shrinkEntry (entry : QRinput_List) (bytes : Z) : outcome QRinput_List :=
  data ← mem_read 0 bytes (e_data entry);
  Ret (MkEntry (e_mode entry) bytes data (e_bstream entry)).

(** The entry and the one that comes to stand behind it. *)
(* @src C/qrencode-3.4.4/qrinput.c:1556-1576 QRinput_splitEntry *)
Definition QRinput_splitEntry (entry : QRinput_List) (bytes : Z)
    : outcome (option (QRinput_List * QRinput_List)) :=
  e ← QRinput_List_newEntry (e_mode entry) (e_size entry - bytes)
        (drop (Z.to_nat bytes) (e_data entry));
  match e with
  | None => Ret None
  | Some e => entry ← QRinput_List_shrinkEntry entry bytes; Ret (Some (entry, e))
  end.

(** ** Splitting an object *)

Definition set_tail (input : QRinput) (l : list QRinput_List) (tail : option nat) : QRinput :=
  MkInput (i_version input) (i_level input) l tail (i_mqr input) (i_fnc1 input) (i_appid input).

(** The tail pointer of the object that takes over the entries from [pos] on. *)
Definition next_tail (pos : nat) (split : bool) (rest : nat) (tail : option nat) : option nat :=
  (fun t => if split && bool_decide (t = pos) then rest else (t - pos)%nat) <$> tail.

(** [list] is the entry at [pos] of the current object; [first] holds until an
    entry has been left behind ([prev == NULL]). [None] is [goto ABORT]. *)
(* @src C/qrencode-3.4.4/qrinput.c:1608-1655 QRinput_splitQRinputToStruct *)
Fixpoint split_loop (fuel : nat) (s : QRinput_Struct) (input : QRinput) (pos : nat) (first : bool)
    (bits maxbits : Z) : outcome (option (QRinput_Struct * QRinput)) :=
  match fuel with
  | O => Fault OutOfFuel
  | S fuel =>
      match i_list input !! pos with
      | None => Ret (Some (s, input))
      | Some list =>
          nextbits ← QRinput_estimateBitStreamSizeOfEntry list (i_version input) (i_mqr input);
          if bool_decide (bits + nextbits <= maxbits) then
            r ← QRinput_encodeBitStream (encode_fuel list) list (i_version input) (i_mqr input);
            let input := set_list input (<[pos := r.2]> (i_list input)) in
            if bool_decide (r.1 < 0) then Ret None
            else split_loop fuel s input (S pos) false (bits + r.1) maxbits
          else
            let bytes := QRinput_lengthOfCode (e_mode list) (i_version input) (maxbits - bits) in
            match QRinput_new2 (i_version input) (i_level input) with
            | None => Ret None
            | Some p =>
                halves ← (if bool_decide (bytes > 0) then
                    h ← QRinput_splitEntry list bytes;
                    match h with
                    | None => Ret None
                    | Some (e1, e2) =>
                        let rest := e2 :: drop (S pos) (i_list input) in
                        Ret (Some (set_tail input (take pos (i_list input) ++ [e1]) (Some pos),
                                   set_tail p rest (next_tail pos true (length rest) (i_tail input)),
                                   false))
                    end
                  else
                    let rest := drop pos (i_list input) in
                    let p := set_tail p rest (next_tail pos false (length rest) (i_tail input)) in
                    match pos with
                    | S last => Ret (Some (set_tail input (take pos (i_list input)) (Some last), p, first))
                    | O =>
                        if first then Fault NullDeref
                        else Ret (Some (set_tail input rest (Some (length rest)), p, first))
                    end);
                match halves with
                | None => Ret None
                | Some (input, p, first) =>
                    let r := QRinput_Struct_appendInput s input in
                    if bool_decide (r.1 < 0) then Ret None
                    else split_loop fuel r.2 p 0 first 0 maxbits
                end
            end
      end
  end.

(** Every round takes an entry, or part of one, or starts an object. *)
Definition split_rounds (l : list QRinput_List) : nat :=
  S (S (2 * sum_list_with (fun e => S (Z.to_nat (e_size e))) l)).

(* @src C/qrencode-3.4.4/qrinput.c:1578-1676 QRinput_splitQRinputToStruct *)
Definition QRinput_splitQRinputToStruct (input : QRinput) : outcome (option QRinput_Struct) :=
  if i_mqr input then Ret None
  else
    let s := QRinput_Struct_new in
    d ← QRinput_dup input;
    match d with
    | None => Ret None
    | Some input =>
        parity ← QRinput_calcParity input;
        let s := QRinput_Struct_setParity s parity in
        let maxbits := QRspec_getDataLength (i_version input) (i_level input) * 8
                       - STRUCTURE_HEADER_SIZE in
        if bool_decide (maxbits <= 0) then Ret None
        else
          r ← split_loop (split_rounds (i_list input)) s input 0 true 0 maxbits;
          match r with
          | None => Ret None
          | Some (s, input) =>
              let r := QRinput_Struct_appendInput s input in
              if bool_decide (r.1 < 0) then Ret None
              else if bool_decide (s_size r.2 > MAX_STRUCTURED_SYMBOLS) then Ret None
              else
                h ← QRinput_Struct_insertStructuredAppendHeaders r.2;
                if bool_decide (h.1 < 0) then Ret None else Ret (Some h.2)
          end
    end.

(** ** Encoding a set *)

(** The symbols, and the set with its objects as they are left. *)
(* @src C/qrencode-3.4.4/qrencode.c:809-826 QRcode_encodeInputStructured *)
Fixpoint encode_inputs (cs : caches) (l : list QRinput)
    : outcome (option (list QRcode) * list QRinput * caches) :=
  match l with
  | [] => Ret (Some [], [], cs)
  | input :: l =>
      c ← QRcode_encodeInput cs input;
      match c.1.1 with
      | None => Ret (None, c.1.2 :: l, c.2)
      | Some code =>
          r ← encode_inputs c.2 l;
          Ret (match r.1.1 with None => None | Some codes => Some (code :: codes) end,
               c.1.2 :: r.1.2, r.2)
      end
  end.

(** An empty set gives the empty list, which is [NULL]. *)
(* @src C/qrencode-3.4.4/qrencode.c:802-832 QRcode_encodeInputStructured *)
Definition QRcode_encodeInputStructured (cs : caches) (s : QRinput_Struct)
    : outcome (option (list QRcode) * QRinput_Struct * caches) :=
  r ← encode_inputs cs (s_inputs s);
  Ret (r.1.1, MkStruct (s_size s) (s_parity s) r.1.2, r.2).

(* @src C/qrencode-3.4.4/qrencode.c:775-786 QRcode_List_size *)
Definition QRcode_List_size (qrlist : list QRcode) : Z := Z.of_nat (length qrlist).

(* @src C/qrencode-3.4.4/qrencode.c:834-846 QRcode_encodeInputToStructured *)
Definition QRcode_encodeInputToStructured (cs : caches) (input : QRinput)
    : outcome (option (list QRcode) * caches) :=
  s ← QRinput_splitQRinputToStruct input;
  match s with
  | None => Ret (None, cs)
  | Some s => r ← QRcode_encodeInputStructured cs s; Ret (r.1.1, r.2)
  end.

(** [data] is a buffer, or the characters of a string before the terminator. *)
(* @src C/qrencode-3.4.4/qrencode.c:848-882 QRcode_encodeDataStructuredReal *)
Definition QRcode_encodeDataStructuredReal (cs : caches) (size : Z) (data : list Z)
    (version : Z) (level : QRecLevel) (eightbit : bool) (hint : QRencodeMode) (casesensitive : bool)
    : outcome (option (list QRcode) * caches) :=
  if bool_decide (version <= 0) then Ret (None, cs)
  else if negb eightbit && bool_decide (hint <> QR_MODE_8 /\ hint <> QR_MODE_KANJI)
  then Ret (None, cs)
  else
    match QRinput_new2 version level with
    | None => Ret (None, cs)
    | Some input =>
        r ← (if eightbit then QRinput_append input QR_MODE_8 size data
             else Split_splitStringToQRinput (Some data) input hint casesensitive);
        if bool_decide (r.1 < 0) then Ret (None, cs)
        else QRcode_encodeInputToStructured cs r.2
    end.

(* @src C/qrencode-3.4.4/qrencode.c:884-886 QRcode_encodeDataStructured *)
Definition QRcode_encodeDataStructured (cs : caches) (size : Z) (data : list Z) (version : Z)
    (level : QRecLevel) : outcome (option (list QRcode) * caches) :=
  QRcode_encodeDataStructuredReal cs size data version level true QR_MODE_NUL false.

(* @src C/qrencode-3.4.4/qrencode.c:888-894 QRcode_encodeString8bitStructured *)
Definition QRcode_encodeString8bitStructured (cs : caches) (string : option (list Z)) (version : Z)
    (level : QRecLevel) : outcome (option (list QRcode) * caches) :=
  match string with
  | None => Ret (None, cs)
  | Some s => QRcode_encodeDataStructured cs (Z.of_nat (length s)) s version level
  end.

(* @src C/qrencode-3.4.4/qrencode.c:896-903 QRcode_encodeStringStructured *)
Definition QRcode_encodeStringStructured (cs : caches) (string : option (list Z)) (version : Z)
    (level : QRecLevel) (hint : QRencodeMode) (casesensitive : bool)
    : outcome (option (list QRcode) * caches) :=
  match string with
  | None => Ret (None, cs)
  | Some s => QRcode_encodeDataStructuredReal cs (Z.of_nat (length s)) s version level false hint
                casesensitive
  end.

(** ** Sizes of plain entries

    The theorems below are about numeric, alphanumeric and 8 bit data. Kanji
    data is treated at the end. *)

Definition plain_mode (mode : QRencodeMode) : bool :=
  match mode with QR_MODE_NUM | QR_MODE_AN | QR_MODE_8 => true | _ => false end.

Definition plain_modes : list QRencodeMode := [QR_MODE_NUM; QR_MODE_AN; QR_MODE_8].

Lemma for_plain_modes (P : QRencodeMode -> Prop) :
  Forall P plain_modes -> forall mode, plain_mode mode = true -> P mode.
Proof.
  intros H mode Hm. rewrite Forall_forall in H. apply H. unfold plain_modes.
  destruct mode; try done; rewrite !elem_of_cons; tauto.
Qed.

Lemma text_mode_plain mode : text_mode QR_MODE_8 mode -> plain_mode mode = true.
Proof. intros [->|[->|[->|[_ H]]]]; done. Qed.

(** The bits of [n] characters, without header. *)
Definition payload (mode : QRencodeMode) (n : Z) : Z :=
  match mode with
  | QR_MODE_NUM => QRinput_estimateBitsModeNum n
  | QR_MODE_AN => QRinput_estimateBitsModeAn n
  | _ => QRinput_estimateBitsMode8 n
  end.

Lemma payload_num n :
  0 <= n -> payload QR_MODE_NUM n = n / 3 * 10 + (if bool_decide (n mod 3 = 0) then 0 else n mod 3 * 3 + 1).
Proof.
  intros Hn. cbn [payload]. unfold QRinput_estimateBitsModeNum. cbv zeta.
  rewrite Z.quot_div_nonneg by lia.
  assert (E : n - n / 3 * 3 = n mod 3) by dlia. rewrite E.
  assert (H : n mod 3 = 0 \/ n mod 3 = 1 \/ n mod 3 = 2) by dlia.
  destruct H as [-> | [-> | ->]]; case_bool_decide; cbn; lia.
Qed.

Lemma payload_an n : 0 <= n -> payload QR_MODE_AN n = n / 2 * 11 + n mod 2 * 6.
Proof.
  intros Hn. cbn [payload]. unfold QRinput_estimateBitsModeAn. cbv zeta.
  rewrite Z.quot_div_nonneg, land_1_mod by lia. case_bool_decide; dlia.
Qed.

Lemma payload_mono mode n m : plain_mode mode = true -> 0 <= n <= m -> 0 <= payload mode n <= payload mode m.
Proof.
  intros Hm Hn. destruct mode; try done.
  - rewrite !payload_num by lia. repeat case_bool_decide; dlia.
  - rewrite !payload_an by lia. dlia.
  - cbn [payload]. unfold QRinput_estimateBitsMode8. lia.
Qed.

(** One more character never takes more than the first one. *)
Lemma payload_more mode n : plain_mode mode = true -> 0 <= n -> payload mode (n + 1) <= payload mode n + payload mode 1.
Proof.
  intros Hm Hn. destruct mode; try done.
  - rewrite !payload_num by lia. repeat case_bool_decide; dlia.
  - rewrite !payload_an by lia. dlia.
  - cbn [payload]. unfold QRinput_estimateBitsMode8. lia.
Qed.

(** A segment of a version: indicator, count and characters. *)
Definition segment_size (mode : QRencodeMode) (v n : Z) : Z :=
  4 + QRspec_lengthIndicator mode v + payload mode n.

Lemma segment_bits_size mode v data :
  plain_mode mode = true ->
  BitStream_size (segment_bits mode v data) = segment_size mode v (Z.of_nat (length data)).
Proof.
  intros Hm. pose proof (lengthIndicator_range mode v) as Hl.
  assert (Hh : forall n, Z.of_nat (length (header mode v n)) = 4 + QRspec_lengthIndicator mode v).
  { intros n. unfold header. rewrite length_app, !bits_of_length. lia. }
  unfold BitStream_size, segment_size, segment_bits. cbv zeta.
  destruct mode; try done; rewrite length_app, Nat2Z.inj_add, Hh; cbn [payload].
  - by rewrite num_bits_length.
  - by rewrite an_bits_length.
  - rewrite bytes_bits_length. unfold QRinput_estimateBitsMode8. lia.
Qed.

(** The largest count of a plain mode, and what it leaves no room for. *)
Definition words_ok (v : Z) (mode : QRencodeMode) : Prop :=
  1 <= QRspec_maximumWords mode v /\
  QRspec_maximumWords mode v + 1 = Z.shiftl 1 (QRspec_lengthIndicator mode v) /\
  Forall (fun l => QRspec_getDataLength v l * 8 < payload mode (QRspec_maximumWords mode v + 1)) all_levels.

Lemma words_facts v mode :
  1 <= v <= QRSPEC_VERSION_MAX -> plain_mode mode = true ->
  1 <= QRspec_maximumWords mode v /\
  QRspec_maximumWords mode v + 1 = Z.shiftl 1 (QRspec_lengthIndicator mode v) /\
  forall l, QRspec_getDataLength v l * 8 < payload mode (QRspec_maximumWords mode v + 1).
Proof.
  intros Hv Hm.
  assert (H : forall v, 1 <= v <= QRSPEC_VERSION_MAX -> Forall (words_ok v) plain_modes).
  { unfold words_ok. apply (for_all_versions (fun v => Forall (words_ok v) plain_modes)).
    vm_compute. reflexivity. }
  destruct (for_plain_modes _ (H v Hv) mode Hm) as (H1 & H2 & H3). split; [done|]. split; [done|].
  exact (for_all_levels _ H3).
Qed.

Definition plain_entry (e : QRinput_List) : Prop := entry_ok e /\ plain_mode (e_mode e) = true.

Lemma plain_size e : plain_entry e -> 1 <= e_size e.
Proof.
  intros [[Hr Hs] Hm]. assert (Hne : e_data e <> []) by (destruct (e_mode e); try done; apply Hr).
  rewrite Hs. destruct (e_data e); [done|]. simpl. lia.
Qed.

(** The estimate is exact for an entry of one chunk, and an entry of more
    chunks is larger than the symbol. *)
Lemma estimate_plain e v :
  1 <= v <= QRSPEC_VERSION_MAX -> plain_entry e ->
  exists n, QRinput_estimateBitStreamSizeOfEntry e v false = Ret n /\
    (e_size e <= QRspec_maximumWords (e_mode e) v -> n = segment_size (e_mode e) v (e_size e)) /\
    (QRspec_maximumWords (e_mode e) v < e_size e -> forall l, QRspec_getDataLength v l * 8 < n).
Proof.
  intros Hv He. pose proof (plain_size e He) as Hs. destruct He as [_ Hm].
  destruct (words_facts v (e_mode e) Hv Hm) as (Hw1 & Hw2 & Hw3).
  pose proof (lengthIndicator_range (e_mode e) v) as Hl.
  set (w := QRspec_maximumWords (e_mode e) v) in *. set (li := QRspec_lengthIndicator (e_mode e) v) in *.
  assert (Hest : QRinput_estimateBitStreamSizeOfEntry e v false =
    Ret (payload (e_mode e) (e_size e) + (e_size e + (w + 1) - 1) `quot` (w + 1) * (4 + li))).
  { unfold QRinput_estimateBitStreamSizeOfEntry. rewrite bool_decide_eq_false_2 by lia.
    cbv zeta. fold li. rewrite <- Hw2. unfold MODE_INDICATOR_SIZE. by destruct (e_mode e). }
  eexists. split; [exact Hest|]. rewrite Z.quot_div_nonneg by lia. split.
  - intros Hle. assert (E : (e_size e + (w + 1) - 1) / (w + 1) = 1) by (symmetry; apply Z.div_unique with (r := e_size e - 1); lia).
    rewrite E. unfold segment_size. fold li. lia.
  - intros Hlt l. specialize (Hw3 l). pose proof (payload_mono (e_mode e) (w + 1) (e_size e) Hm ltac:(lia)).
    assert (0 <= (e_size e + (w + 1) - 1) / (w + 1)) by (apply Z.div_pos; lia). nia.
Qed.

(** [QRinput_lengthOfCode] is the largest number of characters that fits. *)
Lemma lengthOfCode_spec mode v bits :
  1 <= v <= QRSPEC_VERSION_MAX -> plain_mode mode = true ->
  let b := QRinput_lengthOfCode mode v bits in
  0 <= b <= QRspec_maximumWords mode v /\
  (0 < b -> segment_size mode v b <= bits) /\
  (forall n, 0 < n <= QRspec_maximumWords mode v -> segment_size mode v n <= bits -> n <= b).
Proof.
  intros Hv Hm b. destruct (words_facts v mode Hv Hm) as (Hw1 & Hw2 & _).
  set (w := QRspec_maximumWords mode v) in *. unfold segment_size.
  set (pay := bits - 4 - QRspec_lengthIndicator mode v).
  assert (Hsize : exists size, b = (let size := if bool_decide (size < 0) then 0 else size in
      if bool_decide (w > 0 /\ size > w) then w else size) /\
    (0 < size -> payload mode size <= pay) /\
    (forall n, 0 < n -> payload mode n <= pay -> n <= size)).
  { unfold b, QRinput_lengthOfCode. cbv zeta. fold w pay. eexists. split; [reflexivity|].
    destruct mode; try done.
    - destruct (decide (pay < 0)) as [Hneg|Hpos].
      + assert (Hq : pay `quot` 10 * 10 <= 0 /\ pay - pay `quot` 10 * 10 <= 0)
          by (Z.quot_rem_to_equations; lia).
        rewrite !bool_decide_eq_false_2 by lia. split; [lia|]. intros n Hn.
        pose proof (payload_mono QR_MODE_NUM 0 n eq_refl). lia.
      + rewrite Z.quot_div_nonneg by lia. split.
        * intros H0. rewrite payload_num by (repeat case_bool_decide; dlia).
          repeat case_bool_decide; dlia.
        * intros n Hn. rewrite payload_num by lia. repeat case_bool_decide; dlia.
    - destruct (decide (pay < 0)) as [Hneg|Hpos].
      + assert (Hq : pay `quot` 11 * 11 <= 0 /\ pay - pay `quot` 11 * 11 <= 0)
          by (Z.quot_rem_to_equations; lia).
        rewrite !bool_decide_eq_false_2 by lia. split; [lia|]. intros n Hn.
        pose proof (payload_mono QR_MODE_AN 0 n eq_refl). lia.
      + rewrite Z.quot_div_nonneg by lia. split.
        * intros H0. rewrite payload_an by (repeat case_bool_decide; dlia).
          repeat case_bool_decide; dlia.
        * intros n Hn. rewrite payload_an by lia. repeat case_bool_decide; dlia.
    - cbn [payload]. unfold QRinput_estimateBitsMode8.
      destruct (decide (pay < 0)) as [Hneg|Hpos].
      + assert (Hq : pay `quot` 8 <= 0) by (Z.quot_rem_to_equations; lia). split; lia.
      + rewrite Z.quot_div_nonneg by lia. split; [intros _; dlia|intros n Hn Hp; dlia]. }
  destruct Hsize as (size & Hb & H1 & H2). cbv zeta in Hb.
  split; [repeat case_bool_decide; lia|]. split.
  - intros H0. assert (Hle : 0 < size /\ 0 < b <= size) by (repeat case_bool_decide; lia).
    pose proof (payload_mono mode b size Hm ltac:(lia)). specialize (H1 ltac:(lia)). lia.
  - intros n Hn Hp. specialize (H2 n ltac:(lia) ltac:(lia)). repeat case_bool_decide; lia.
Qed.

(** ** The loop *)

Definition total_size (v : Z) (l : list QRinput_List) : Z :=
  foldr (fun e n => segment_size (e_mode e) v (e_size e) + n) 0 l.

Lemma total_size_app v l l' : total_size v (l ++ l') = total_size v l + total_size v l'.
Proof. induction l as [|e l IH]; cbn; [done|]. fold (total_size v (l ++ l')) (total_size v l). lia. Qed.

(** An entry of one chunk. *)
Definition fit_entry (v : Z) (e : QRinput_List) : Prop :=
  plain_entry e /\ e_size e <= QRspec_maximumWords (e_mode e) v.

Lemma encode_fit v e :
  fit_entry v e ->
  exists bs, QRinput_encodeBitStream (encode_fuel e) e v false =
    Ret (segment_size (e_mode e) v (e_size e), set_bstream e bs).
Proof.
  intros [[[Hr Hs] Hm] Hw].
  destruct (encodeBitStream_spec (encode_fuel e) e v Hr Hs) as (E & _ & _);
    [unfold encode_fuel; lia|].
  eexists. rewrite E. f_equal. f_equal. rewrite pieces_one by (intros _; lia).
  unfold chunks_bits. cbn [map concat]. rewrite app_nil_r, segment_bits_size by done. by rewrite Hs.
Qed.

Lemma segment_size_pos mode v n : plain_mode mode = true -> 0 <= n -> 4 <= segment_size mode v n.
Proof.
  intros Hm Hn. unfold segment_size. pose proof (lengthIndicator_range mode v).
  pose proof (payload_mono mode 0 n Hm ltac:(lia)). lia.
Qed.

Lemma total_size_pos v l : Forall (fit_entry v) l -> 0 <= total_size v l.
Proof.
  induction 1 as [|a l [Ha _] _ IHl]; cbn; [lia|]. fold (total_size v l). pose proof (plain_size a Ha).
  pose proof (segment_size_pos (e_mode a) v (e_size a) (proj2 Ha)). lia.
Qed.

Lemma split_plain e b v :
  plain_entry e -> 0 < b < e_size e -> b <= QRspec_maximumWords (e_mode e) v ->
  exists e1 e2, QRinput_splitEntry e b = Ret (Some (e1, e2)) /\
    fit_entry v e1 /\ e_mode e1 = e_mode e /\ e_size e1 = b /\
    plain_entry e2 /\ e_mode e2 = e_mode e /\ e_size e2 = e_size e - b /\
    e_data e1 ++ e_data e2 = e_data e.
Proof.
  intros [[Hr Hs] Hm] Hb Hw.
  pose proof (readable_byte _ _ Hr) as Hbytes. set (n := Z.to_nat b).
  assert (Hparts : readable (e_mode e) (take n (e_data e)) /\ readable (e_mode e) (drop n (e_data e))).
  { assert (Hne1 : take n (e_data e) <> []) by (intros E; apply (f_equal length) in E;
      rewrite length_take in E; simpl in E; lia).
    assert (Hne2 : drop n (e_data e) <> []) by (intros E; apply (f_equal length) in E;
      rewrite length_drop in E; simpl in E; lia).
    destruct (e_mode e); try done; cbn [readable] in *; split; (split; [done|]);
      [apply Forall_take|apply Forall_drop|apply Forall_take|apply Forall_drop|
       apply Forall_take|apply Forall_drop]; tauto. }
  destruct Hparts as [Hr1 Hr2].
  unfold QRinput_splitEntry. fold n. rewrite newEntry_spec.
  2: rewrite length_drop; lia.
  2: by apply Forall_drop.
  2: { rewrite take_ge by (rewrite length_drop; lia). by apply readable_accepted. }
  run. unfold QRinput_List_shrinkEntry, mem_read. rewrite bool_decide_eq_true_2 by lia. run.
  rewrite (take_ge (drop n (e_data e))) by (rewrite length_drop; lia).
  eexists _, _. split; [reflexivity|]. unfold fit_entry, plain_entry, entry_ok.
  cbn [e_mode e_size e_data]. change (drop (Z.to_nat 0) (e_data e)) with (e_data e). fold n.
  rewrite length_take, length_drop, Nat2Z.inj_min, take_drop. split_and!; try done; lia.
Qed.

(** An object of a set: it fits beside the header. *)
Record object_ok (version : Z) (level : QRecLevel) (input : QRinput) : Prop := {
  ob_version : i_version input = version;
  ob_level : i_level input = level;
  ob_mqr : i_mqr input = false;
  ob_fnc1 : i_fnc1 input = 0;
  ob_entries : Forall (fit_entry version) (i_list input);
  ob_size : total_size version (i_list input) <=
            QRspec_getDataLength version level * 8 - STRUCTURE_HEADER_SIZE }.

Definition data_of (l : list QRinput_List) : list Z := concat (map e_data l).

Lemma data_of_app l l' : data_of (l ++ l') = data_of l ++ data_of l'.
Proof. unfold data_of. by rewrite map_app, concat_app. Qed.

(** Behind [o1] there is no room for one character of the entry that begins [o2]. *)
Definition full_before (v maxbits : Z) (o1 o2 : QRinput) : Prop :=
  exists m, head (map e_mode (i_list o2)) = Some m /\ maxbits < total_size v (i_list o1) + segment_size m v 1.

(** Objects made of the entries [l]: an object is closed when it is full, and only
    the entry at its end may be split. *)
Definition segment_of (e : QRinput_List) : QRencodeMode * list Z := (e_mode e, e_data e).

(** The characters with their modes. *)
Definition spread (segs : list (QRencodeMode * list Z)) : list (QRencodeMode * Z) :=
  concat (map (fun s => map (pair s.1) s.2) segs).

Lemma spread_app s1 s2 : spread (s1 ++ s2) = spread s1 ++ spread s2.
Proof. unfold spread. by rewrite map_app, concat_app. Qed.

Record split_ok (v maxbits : Z) (l : list QRinput_List) (objs : list QRinput) : Prop := {
  sp_spread : spread (map segment_of (concat (map i_list objs))) = spread (map segment_of l);
  sp_full : Sorted (full_before v maxbits) objs;
  sp_count : (length (concat (map i_list objs)) < length l + length objs)%nat;
  sp_head : exists o os, objs = o :: os /\ head (map e_mode (i_list o)) = head (map e_mode l) }.

Lemma segments_modes l l' : map segment_of l = map segment_of l' -> map e_mode l = map e_mode l'.
Proof. intros E. apply (f_equal (map fst)) in E. by rewrite !map_map in E. Qed.

Lemma split_ok_segments v maxbits l l' objs :
  map segment_of l = map segment_of l' -> split_ok v maxbits l objs -> split_ok v maxbits l' objs.
Proof.
  intros E [H0 H1 H2 H3]. split; [by rewrite <- E|done| |by rewrite <- (segments_modes l)].
  apply (f_equal length) in E. rewrite !length_map in E. lia.
Qed.

Lemma split_ok_cons v maxbits l l' m o objs :
  split_ok v maxbits l' objs -> head (map e_mode l') = Some m -> maxbits < total_size v (i_list o) + segment_size m v 1 ->
  (length (i_list o) + length l' <= S (length l))%nat -> head (map e_mode (i_list o)) = head (map e_mode l) ->
  spread (map segment_of (i_list o ++ l')) = spread (map segment_of l) ->
  split_ok v maxbits l (o :: objs).
Proof.
  intros [H0 H1 H2 (o' & os & -> & H3)] Hm Hfull Hlen Hhead Hspread. split.
  - rewrite <- Hspread, map_app, spread_app, <- H0. cbn [map concat]. by rewrite map_app, spread_app.
  - constructor; [done|]. constructor. exists m. by rewrite H3.
  - cbn [map concat length] in *. rewrite !length_app in *. lia.
  - by exists o, (o' :: os).
Qed.

(** The rounds left: two for each character and entry, one to start anew. *)
Definition rounds (rest : list QRinput_List) : nat :=
  (2 * sum_list_with (fun e => S (Z.to_nat (e_size e))) rest)%nat.

Lemma capacity_room version level :
  1 <= version <= QRSPEC_VERSION_MAX -> 52 <= QRspec_getDataLength version level * 8 - STRUCTURE_HEADER_SIZE.
Proof.
  intros Hv. unfold STRUCTURE_HEADER_SIZE.
  assert (H : Forall (fun l => 9 <= QRspec_getDataLength 1 l) all_levels)
    by (apply (bool_decide_unpack _); vm_compute; exact I).
  pose proof (for_all_levels _ H level) as H1. cbv beta in H1.
  pose proof (data_length_mono 1 version level ltac:(lia) ltac:(lia)). lia.
Qed.

Lemma drop_S_middle {A} (l : list A) x k : drop (S (length l)) (l ++ x :: k) = k.
Proof. induction l as [|y l IH]; [done|exact IH]. Qed.

Lemma split_loop_spec fuel version level s input prev rest first :
  1 <= version <= QRSPEC_VERSION_MAX -> 0 <= s_size s ->
  i_version input = version -> i_level input = level -> i_mqr input = false -> i_fnc1 input = 0 ->
  i_list input = prev ++ rest -> Forall (fit_entry version) prev -> Forall plain_entry rest ->
  let maxbits := QRspec_getDataLength version level * 8 - STRUCTURE_HEADER_SIZE in
  total_size version prev <= maxbits ->
  (rounds rest + (match prev with [] => 0 | _ => 1 end) < fuel)%nat ->
  exists bodies last,
    split_loop fuel s input (length prev) first (total_size version prev) maxbits =
      Ret (Some (MkStruct (s_size s + Z.of_nat (length bodies)) (s_parity s) (s_inputs s ++ bodies), last)) /\
    Forall (object_ok version level) (bodies ++ [last]) /\
    data_of (concat (map i_list (bodies ++ [last]))) = data_of (i_list input) /\
    split_ok version maxbits (i_list input) (bodies ++ [last]).
Proof.
  intros Hv. revert s input prev rest first.
  induction fuel as [|fuel IH]; intros s input prev rest first Hss Hver Hlev Hmqr Hfnc Hlist Hd Hr maxbits Hsize Hf;
    [lia|].
  cbn [split_loop]. rewrite Hlist. destruct rest as [|e rest].
  { rewrite lookup_ge_None_2 by (rewrite app_nil_r; lia). exists [], input. cbn [length app map concat].
    rewrite Z.add_0_r, !app_nil_r. split; [by destruct s|]. split; [|split; [by rewrite Hlist, app_nil_r|]].
    - apply Forall_singleton. constructor; try done; rewrite Hlist, app_nil_r; done.
    - rewrite <- (app_nil_r prev), <- Hlist. split; [cbn [map concat]; by rewrite app_nil_r|by constructor; constructor| |by eexists _, _].
      cbn [map concat length]. rewrite app_nil_r. lia. }
  rewrite list_lookup_middle by done. apply Forall_cons in Hr as [He Hr].
  rewrite Hver, Hmqr, Hlev. pose proof (plain_size e He) as Hes.
  pose proof (capacity_room version level Hv) as Hroom. fold maxbits in Hroom.
  destruct (estimate_plain e version Hv He) as (n & -> & Hexact & Hbig). run.
  destruct (lengthOfCode_spec (e_mode e) version (maxbits - total_size version prev) Hv (proj2 He))
    as (Hb1 & Hb2 & Hb3).
  set (b := QRinput_lengthOfCode _ _ _) in *. case_bool_decide as Hfit.
  - (* the entry fits *)
    assert (Hw : e_size e <= QRspec_maximumWords (e_mode e) version).
    { destruct (decide (e_size e <= QRspec_maximumWords (e_mode e) version)); [done|].
      specialize (Hbig ltac:(lia) level). unfold maxbits, STRUCTURE_HEADER_SIZE in Hfit.
      pose proof (total_size_pos version prev Hd). lia. }
    specialize (Hexact Hw). subst n.
    destruct (encode_fit version e) as (bs & ->); [by split|]. run.
    pose proof (segment_size_pos (e_mode e) version (e_size e) (proj2 He)).
    rewrite bool_decide_eq_false_2 by lia. rewrite insert_app_r_alt, Nat.sub_diag by done. cbn [list_insert insert].
    set (e' := set_bstream e bs).
    assert (Hfe : fit_entry version e') by done.
    destruct (IH s (set_list input (prev ++ e' :: rest)) (prev ++ [e']) rest false)
      as (bodies & last & E & Hok & Hdata & Hsp); try done.
    + cbn [i_list set_list]. by rewrite <- app_assoc.
    + apply Forall_app. by split; [|apply Forall_singleton].
    + rewrite total_size_app. cbn. unfold maxbits in *. lia.
    + unfold rounds in *. cbn [sum_list_with] in Hf. destruct prev; cbn [app] in *; lia.
    + rewrite length_app, Nat.add_1_r, total_size_app in E.
      assert (Ht : total_size version [e'] = segment_size (e_mode e) version (e_size e)) by (cbn; lia).
      rewrite Ht in E. exists bodies, last. split; [exact E|]. split; [exact Hok|].
      split; [rewrite Hdata; cbn [i_list set_list]; rewrite !data_of_app; done|].
      eapply split_ok_segments; [|exact Hsp]. cbn [i_list set_list]. rewrite !map_app. done.
  - (* the object is closed: the entry is split or left to the next one *)
    assert (Hmax : maxbits < total_size version prev + segment_size (e_mode e) version (b + 1)).
    { destruct (words_facts version (e_mode e) Hv (proj2 He)) as (Hw1 & _ & Hw3). specialize (Hw3 level).
      destruct (decide (b + 1 <= QRspec_maximumWords (e_mode e) version)) as [Hle|Hle].
      - specialize (Hb3 (b + 1) ltac:(lia)). lia.
      - replace (b + 1) with (QRspec_maximumWords (e_mode e) version + 1) by lia. unfold segment_size, maxbits, STRUCTURE_HEADER_SIZE.
        pose proof (lengthIndicator_range (e_mode e) version). pose proof (total_size_pos version prev Hd). lia. }
    assert (Hnext : forall input1 p first',
      object_ok version level input1 -> i_version p = version -> i_level p = level ->
      i_mqr p = false -> i_fnc1 p = 0 -> Forall plain_entry (i_list p) ->
      (rounds (i_list p) < fuel)%nat ->
      head (map e_mode (i_list p)) = Some (e_mode e) ->
      maxbits < total_size version (i_list input1) + segment_size (e_mode e) version 1 ->
      (length (i_list input1) + length (i_list p) <= S (length (prev ++ e :: rest)))%nat ->
      head (map e_mode (i_list input1)) = head (map e_mode (prev ++ e :: rest)) ->
      spread (map segment_of (i_list input1 ++ i_list p)) = spread (map segment_of (prev ++ e :: rest)) ->
      data_of (i_list input1) ++ data_of (i_list p) = data_of (prev ++ e :: rest) ->
      exists bodies last,
        split_loop fuel (MkStruct (s_size s + 1) (s_parity s) (s_inputs s ++ [input1])) p 0 first' 0 maxbits =
          Ret (Some (MkStruct (s_size s + Z.of_nat (length bodies)) (s_parity s) (s_inputs s ++ bodies), last)) /\
        Forall (object_ok version level) (bodies ++ [last]) /\
        data_of (concat (map i_list (bodies ++ [last]))) = data_of (prev ++ e :: rest) /\
        split_ok version maxbits (prev ++ e :: rest) (bodies ++ [last])).
    { intros input1 p first' Hok1 Hpv Hpl Hpm Hpf Hpp Hpr Hph Hfull Hlen Hhead Hspread Hdata1.
      destruct (IH (MkStruct (s_size s + 1) (s_parity s) (s_inputs s ++ [input1])) p [] (i_list p) first')
        as (bodies & last & E & Hok & Hdata & Hsp); try done;
        [cbn; lia|change (total_size version []) with 0; unfold maxbits in *; lia|lia|].
      exists (input1 :: bodies), last. split; [|split; [|split]].
      - etrans; [exact E|]. cbn [s_size s_parity s_inputs length]. rewrite <- app_assoc. cbn [app].
        do 4 f_equal. lia.
      - by constructor.
      - cbn [app map concat]. by rewrite data_of_app, Hdata.
      - cbn [app]. by eapply split_ok_cons. }
    unfold QRinput_new2. rewrite bool_decide_eq_false_2 by lia.
    case_bool_decide as Hb.
    + assert (Hlt : b < e_size e).
      { destruct (decide (b < e_size e)); [done|]. exfalso. specialize (Hexact ltac:(lia)).
        specialize (Hb2 ltac:(lia)). pose proof (payload_mono (e_mode e) (e_size e) b (proj2 He) ltac:(lia)).
        unfold segment_size in *. lia. }
      destruct (split_plain e b version He ltac:(lia) ltac:(lia))
        as (e1 & e2 & -> & Hf1 & Hm1 & Hs1 & Hp2 & Hm2 & Hs2 & Hcat). run.
      unfold QRinput_Struct_appendInput. cbn [i_mqr set_tail fst snd]. rewrite Hmqr.
      rewrite bool_decide_eq_false_2 by (cbn [fst]; lia). cbn [snd].
      rewrite take_app_length, drop_S_middle.
      apply Hnext; try done.
      * constructor; try done; cbn [i_list set_tail].
        -- apply Forall_app. by split; [|apply Forall_singleton].
        -- rewrite total_size_app. cbn. rewrite Hm1, Hs1. specialize (Hb2 ltac:(lia)).
           unfold maxbits in *. lia.
      * by constructor.
      * unfold rounds in *. cbn [i_list set_tail sum_list_with] in *. rewrite Hs2. destruct prev; lia.
      * cbn [i_list set_tail map head]. by rewrite Hm2.
      * cbn [i_list set_tail]. rewrite total_size_app. cbn. rewrite Hm1, Hs1.
        pose proof (payload_more (e_mode e) b (proj2 He) ltac:(lia)). pose proof (lengthIndicator_range (e_mode e) version).
        unfold segment_size in *. lia.
      * cbn [i_list set_tail length]. rewrite !length_app. cbn [length]. lia.
      * cbn [i_list set_tail]. destruct prev; cbn [app map head]; [by rewrite Hm1|done].
      * cbn [i_list set_tail]. rewrite <- app_assoc, !map_app, !spread_app. f_equal. unfold spread, segment_of.
        cbn [map concat app fst snd]. by rewrite Hm1, Hm2, <- Hcat, map_app, app_nil_r, <- app_assoc.
      * cbn [i_list set_tail]. rewrite !data_of_app. unfold data_of. cbn [map concat].
        rewrite <- Hcat, app_nil_r, <- !app_assoc. done.
    + assert (Hne : prev <> []).
      { intros ->. change (total_size version []) with 0 in *. specialize (Hb3 1 ltac:(destruct (words_facts version (e_mode e) Hv (proj2 He)); lia)).
        assert (segment_size (e_mode e) version 1 <= 52); [|lia]. unfold segment_size.
        pose proof (lengthIndicator_range (e_mode e) version).
        assert (payload (e_mode e) 1 <= 8) by (destruct (e_mode e); vm_compute; congruence). lia. }
      destruct (length prev) as [|lst] eqn:Hlen; [by destruct prev|]. rewrite <- Hlen.
      run. unfold QRinput_Struct_appendInput. cbn [i_mqr set_tail fst snd]. rewrite Hmqr.
      rewrite bool_decide_eq_false_2 by (cbn [fst]; lia). cbn [snd].
      rewrite take_app_length, drop_app_length.
      apply Hnext; try done.
      * by constructor.
      * unfold rounds in *. cbn [i_list set_tail] in *. destruct prev; [done|]. lia.
      * cbn [i_list set_tail]. assert (b = 0) as Hb0 by lia. rewrite Hb0 in Hmax. exact Hmax.
      * cbn [i_list set_tail]. rewrite length_app. cbn [length]. lia.
      * cbn [i_list set_tail]. by destruct prev.
      * cbn [i_list set_tail]. by rewrite data_of_app.
Qed.

(** ** Parity, copies and headers *)

Definition parity_of (l : list Z) : Z := foldr Z.lxor 0 l.

Lemma parity_of_app l l' : parity_of (l ++ l') = Z.lxor (parity_of l) (parity_of l').
Proof.
  induction l as [|x l IH]; [done|]. unfold parity_of in *. cbn [foldr app]. by rewrite IH, Z.lxor_assoc.
Qed.

Lemma parity_of_byte l : Forall byte l -> byte (parity_of l).
Proof.
  induction 1 as [|x l Hx _ IH]; [done|]. unfold parity_of. cbn [foldr]. fold (parity_of l).
  by apply (lxor_range 8).
Qed.

Lemma parity_loop data k acc :
  (k <= length data)%nat ->
  for_ (reverse (seqZ 0 (Z.of_nat k))) (fun i parity => d ← byte_at data i; Ret (Z.lxor parity d)) acc =
  Ret (Z.lxor acc (parity_of (take k data))).
Proof.
  revert acc. induction k as [|k IH]; intros acc Hk; [by rewrite Z.lxor_0_r|].
  rewrite Nat2Z.inj_succ, <- Z.add_1_r, seqZ_app by lia. cbn [seqZ].
  change (seqZ (0 + Z.of_nat k) 1) with [0 + Z.of_nat k]. rewrite reverse_snoc. cbn [for_].
  destruct (lookup_lt_is_Some_2 data k ltac:(lia)) as [x Hx].
  rewrite (byte_at_lookup data (0 + Z.of_nat k) x) by (lia || by rewrite Z.add_0_l, Nat2Z.id). run.
  etrans; [apply IH; lia|]. f_equal. rewrite (take_S_r _ _ _ Hx), parity_of_app.
  change (parity_of [x]) with (Z.lxor x 0). lxor_ac.
Qed.

Lemma calcParity_plain input :
  Forall plain_entry (i_list input) -> QRinput_calcParity input = Ret (parity_of (data_of (i_list input))).
Proof.
  intros H. unfold QRinput_calcParity.
  match goal with |- foldl ?f _ ?l = _ =>
    enough (Hacc : forall acc, foldl f (Ret acc) l = Ret (Z.lxor acc (parity_of (data_of l)))) by apply Hacc
  end.
  induction H as [|e l [[_ Hs] Hm] _ IH]; intros acc; cbn [foldl]; [by rewrite Z.lxor_0_r|].
  cbn [mbind outcome_bind]. rewrite bool_decide_eq_true_2 by (intros E; by rewrite E in Hm).
  rewrite Hs. etrans; [|etrans; [apply (IH (Z.lxor acc (parity_of (e_data e))))|]].
  - f_equal. etrans; [by apply parity_loop|]. by rewrite take_ge.
  - unfold data_of. cbn [map concat]. by rewrite parity_of_app, Z.lxor_assoc.
Qed.

Lemma dup_plain input :
  i_mqr input = false -> 0 <= i_version input <= QRSPEC_VERSION_MAX ->
  Forall plain_entry (i_list input) ->
  exists l, QRinput_dup input =
      Ret (Some (with_entries (MkInput (i_version input) (i_level input) [] None false 0 0) l)) /\
    Forall plain_entry l /\ data_of l = data_of (i_list input) /\ map segment_of l = map segment_of (i_list input).
Proof.
  intros Hm Hv Hl. unfold QRinput_dup, QRinput_new2. rewrite Hm, bool_decide_eq_false_2 by lia.
  set (n := MkInput (i_version input) (i_level input) [] None false 0 0).
  assert (H : forall dn, exists l,
    foldl (fun acc e => n ← acc; e ← QRinput_List_dup e; Ret (QRinput_appendEntry n e))
      (Ret (with_entries n dn)) (i_list input) = Ret (with_entries n (dn ++ l)) /\
    Forall plain_entry l /\ data_of l = data_of (i_list input) /\ map segment_of l = map segment_of (i_list input)).
  { induction Hl as [|e l He _ IH]; intros dn; cbn [foldl].
    - exists []. by rewrite app_nil_r.
    - destruct He as [[Hr Hs] Hp].
      assert (Hstep : (n0 ← Ret (with_entries n dn); e ← QRinput_List_dup e; Ret (QRinput_appendEntry n0 e)) =
        Ret (with_entries n (dn ++ [MkEntry (e_mode e) (e_size e) (e_data e) None]))).
      { cbn [mbind outcome_bind]. unfold QRinput_List_dup. rewrite mem_read_all by done. run.
        by rewrite appendEntry_spec, with_entries_app. }
      rewrite Hstep. destruct (IH (dn ++ [MkEntry (e_mode e) (e_size e) (e_data e) None])) as (l' & E & Hl' & Hd & Hmode).
      eexists (MkEntry (e_mode e) (e_size e) (e_data e) None :: l').
      rewrite E, <- app_assoc. split; [done|]. split; [by constructor|].
      unfold data_of in *. cbn [map concat e_data]. by rewrite Hd, Hmode. }
  destruct (H []) as (l & E & Hl' & Hd & Hmode). rewrite with_entries_nil in E by done. rewrite E. run.
  by exists l.
Qed.

Definition header_entry (size number parity : Z) : QRinput_List :=
  MkEntry QR_MODE_STRUCTURE 3 [size; number; parity] None.

Lemma insert_headers_spec size i parity l :
  1 <= i -> i + Z.of_nat (length l) - 1 <= size <= 16 -> byte parity ->
  insert_headers size i parity l =
  Ret (0, zip_with (fun k input => push_front input (header_entry size k parity)) (seqZ i (Z.of_nat (length l))) l).
Proof.
  intros Hi Hs Hp. revert i Hi Hs. induction l as [|input l IH]; intros i Hi Hs; [done|].
  cbn [insert_headers length] in *. unfold QRinput_insertStructuredAppendHeader, MAX_STRUCTURED_SYMBOLS.
  rewrite !bool_decide_eq_false_2 by lia.
  rewrite (u8_byte size), (u8_byte i), (u8_byte parity) by (done || unfold byte; lia).
  rewrite newEntry_spec.
  2: simpl; lia.
  2: repeat apply Forall_cons_2; try apply Forall_nil_2; done || (unfold byte; lia).
  2: by split.
  run. rewrite bool_decide_eq_false_2 by lia. rewrite (IH (i + 1)) by (done || lia). run.
  rewrite (seqZ_cons i) by lia. cbn [zip_with]. rewrite <- (Z.add_1_r i).
  by replace (Z.pred (Z.of_nat (S (length l)))) with (Z.of_nat (length l)) by lia.
Qed.

(** ** Other versions *)

Lemma length_class_range v : 0 <= length_class v <= 2.
Proof. unfold length_class. repeat case_bool_decide; lia. Qed.

(** A later version counts at least as far. *)
Lemma words_mono mode v w :
  plain_mode mode = true -> v <= w -> QRspec_maximumWords mode v <= QRspec_maximumWords mode w.
Proof.
  intros Hm Hvw. unfold QRspec_maximumWords.
  assert (Hc : length_class v <= length_class w) by (unfold length_class; repeat case_bool_decide; lia).
  pose proof (length_class_range v). pose proof (length_class_range w).
  generalize dependent (length_class v). generalize dependent (length_class w). intros a Ha b Hb1 Hb2.
  assert (Ea : a = 0 \/ a = 1 \/ a = 2) by lia. assert (Eb : b = 0 \/ b = 1 \/ b = 2) by lia.
  destruct mode; try done; destruct Ea as [-> | [-> | ->]], Eb as [-> | [-> | ->]];
    (exfalso; lia) || (vm_compute; congruence).
Qed.

(** It never takes twice as many bits, and the same from version 27 on. *)
Lemma segment_size_grow mode v w n :
  plain_mode mode = true -> 0 <= n -> v <= w ->
  segment_size mode w n <= 2 * segment_size mode v n /\
  (27 <= v -> segment_size mode w n = segment_size mode v n).
Proof.
  intros Hm Hn Hvw. unfold segment_size. pose proof (payload_mono mode 0 n Hm ltac:(lia)) as Hp.
  assert (Hl : 8 <= QRspec_lengthIndicator mode v).
  { unfold QRspec_lengthIndicator. pose proof (length_class_range v).
    assert (Ea : length_class v = 0 \/ length_class v = 1 \/ length_class v = 2) by lia.
    destruct mode; try done; destruct Ea as [-> | [-> | ->]]; vm_compute; congruence. }
  pose proof (lengthIndicator_range mode w). split; [lia|]. intros H27.
  unfold QRspec_lengthIndicator, length_class. by rewrite !bool_decide_eq_false_2 by lia.
Qed.

Lemma total_size_grow v w l :
  Forall plain_entry l -> v <= w ->
  total_size w l <= 2 * total_size v l /\ (27 <= v -> total_size w l = total_size v l).
Proof.
  intros H Hvw. induction H as [|e l He _ IH]; [done|]. cbn. fold (total_size w l) (total_size v l).
  pose proof (plain_size e He).
  destruct (segment_size_grow (e_mode e) v w (e_size e) (proj2 He) ltac:(lia) Hvw) as [H1 H2].
  split; [lia|]. intros H27. rewrite H2, (proj2 IH); lia.
Qed.

(** Up to version 26 the largest symbol holds twice as much. *)
Lemma capacity_twice v l :
  1 <= v <= 26 -> 2 * QRspec_getDataLength v l <= QRspec_getDataLength QRSPEC_VERSION_MAX l.
Proof.
  intros Hv. pose proof (data_length_mono v 26 l ltac:(lia) ltac:(unfold QRSPEC_VERSION_MAX; lia)) as Hm.
  assert (H : Forall (fun l => 2 * QRspec_getDataLength 26 l <= QRspec_getDataLength QRSPEC_VERSION_MAX l)
    all_levels) by (apply (bool_decide_unpack _); vm_compute; exact I).
  pose proof (for_all_levels _ H l) as H26. cbv beta in H26. lia.
Qed.

(** ** Encoding the objects of a set *)

(** The header segment, if the set has more than one symbol. *)
Definition header_of (size number parity : Z) : list QRinput_List :=
  if bool_decide (size = 1) then [] else [header_entry size number parity].

Lemma header_of_ok size number parity :
  1 <= size <= 16 -> 1 <= number <= 16 -> byte parity -> Forall entry_ok (header_of size number parity).
Proof.
  intros H1 H2 Hp. unfold header_of. case_bool_decide; [done|]. apply Forall_singleton. split; [|done].
  by exists size, number, parity.
Qed.

Lemma one_chunk_cut v l pss :
  Forall2 (cut v) l pss ->
  Forall (fun e => one_chunk (e_mode e) v (e_data e)) l -> segments l pss = map segment_of l.
Proof.
  intros H Hl. unfold segments.
  induction H as [|e ps l pss (_ & _ & ->) _ IH]; [done|]. apply Forall_cons in Hl as [He Hl].
  cbn [zip_with concat map]. unfold entry_pieces. rewrite (pieces_one _ _ _ He), IH by done. done.
Qed.

Lemma segments_bits_app v s s' : segments_bits v (s ++ s') = segments_bits v s ++ segments_bits v s'.
Proof. unfold segments_bits. by rewrite map_app, concat_app. Qed.

Lemma plain_bits v l :
  Forall plain_entry l -> BitStream_size (segments_bits v (map segment_of l)) = total_size v l.
Proof.
  intros H. unfold segments_bits, BitStream_size.
  induction H as [|e l [[_ Hs] Hm] _ IH]; [done|]. cbn. fold (total_size v l).
  rewrite length_app, Nat2Z.inj_add, IH. f_equal.
  change (BitStream_size (segment_bits (e_mode e) v (e_data e)) = segment_size (e_mode e) v (e_size e)).
  rewrite segment_bits_size by done. by rewrite Hs.
Qed.

Lemma header_bits_size v size number parity :
  BitStream_size (segments_bits v (map segment_of (header_of size number parity))) <= STRUCTURE_HEADER_SIZE.
Proof. unfold header_of. by case_bool_decide. Qed.

(** Every object of a set becomes a symbol, of the version asked for or a
    later one. *)
Lemma encode_object cs version level input hdr body size number parity :
  caches_ok cs -> 1 <= version <= QRSPEC_VERSION_MAX ->
  object_ok version level body -> hdr = header_of size number parity ->
  1 <= size <= 16 -> 1 <= number <= 16 -> byte parity ->
  i_version input = version -> i_level input = level -> i_mqr input = false -> i_fnc1 input = 0 ->
  i_list input = hdr ++ i_list body ->
  exists q input' cs',
    QRcode_encodeInput cs input = Ret (Some q, input', cs') /\ caches_ok cs' /\
    version <= q_version q <= QRSPEC_VERSION_MAX /\
    symbol_reads (-1) level q (map segment_of (hdr ++ i_list body)).
Proof.
  intros Hcs Hv [Bv Bl Bm Bf Be Bs] Hhdr Hsz Hn Hp Iv Il Im If Ilist.
  pose proof (header_of_ok size number parity Hsz Hn Hp) as Hh. rewrite <- Hhdr in Hh.
  assert (Hplain : Forall plain_entry (i_list body)) by (eapply Forall_impl; [exact Be|]; by intros e [He _]).
  destruct (encodeInput_spec cs input Hcs Im ltac:(lia)) as (v & pss & res & input' & cs' & E & Hcs' & Hv' & Hcut & Hres).
  { rewrite Ilist. apply Forall_app. split; [done|]. eapply Forall_impl; [exact Hplain|]. by intros e [He _]. }
  { done. }
  assert (Hseg : segments (i_list input) pss = map segment_of (hdr ++ i_list body)).
  { rewrite <- Ilist. apply (one_chunk_cut v); [done|]. rewrite Ilist. apply Forall_app. split.
    - rewrite Hhdr. unfold header_of. case_bool_decide; [done|]. apply Forall_singleton.
      intros Hw. by exfalso; apply Hw.
    - eapply Forall_impl; [exact Be|]. intros e [[[_ Hs] Hm] Hw] _. rewrite <- Hs.
      etrans; [exact Hw|]. apply words_mono; [done|lia]. }
  rewrite Hseg, Il in Hres. rewrite Iv in Hv'. destruct res as [q|].
  - destruct Hres as (H1 & H2 & H3). exists q, input', cs'. rewrite H2. split; [exact E|].
    split; [exact Hcs'|]. split; [exact Hv'|exact H3].
  - exfalso. rewrite map_app, segments_bits_app in Hres. unfold BitStream_size in Hres.
    rewrite length_app, Nat2Z.inj_add in Hres.
    change (QRspec_getDataLength QRSPEC_VERSION_MAX level * 8 <
      BitStream_size (segments_bits v (map segment_of hdr)) +
      BitStream_size (segments_bits v (map segment_of (i_list body)))) in Hres.
    rewrite (plain_bits v (i_list body)) in Hres by done.
    pose proof (header_bits_size v size number parity) as Hhs. rewrite <- Hhdr in Hhs.
    destruct (total_size_grow version v (i_list body) Hplain ltac:(lia)) as [G1 G2].
    unfold STRUCTURE_HEADER_SIZE in *. destruct (decide (27 <= version)) as [H27|H27].
    + specialize (G2 H27). pose proof (data_length_mono version QRSPEC_VERSION_MAX level ltac:(lia) ltac:(lia)). lia.
    + pose proof (capacity_twice version level ltac:(lia)). lia.
Qed.

(** The symbols of a set, read in order. *)
Definition symbols_read (version : Z) (level : QRecLevel) (size parity : Z)
    (codes : list QRcode) (parts : list (list (QRencodeMode * list Z))) : Prop :=
  length codes = length parts /\
  forall i q p, codes !! i = Some q -> parts !! i = Some p ->
    version <= q_version q <= QRSPEC_VERSION_MAX /\
    symbol_reads (-1) level q (map segment_of (header_of size (Z.of_nat i + 1) parity) ++ p).

Definition set_header (size parity number : Z) (input : QRinput) : QRinput :=
  if bool_decide (size = 1) then input else push_front input (header_entry size number parity).

Lemma set_header_list size parity number input :
  i_list (set_header size parity number input) = header_of size number parity ++ i_list input.
Proof. unfold set_header, header_of. by case_bool_decide. Qed.

Lemma encode_inputs_spec version level size parity bodies k cs :
  1 <= version <= QRSPEC_VERSION_MAX -> 1 <= size <= 16 -> byte parity ->
  Forall (object_ok version level) bodies -> 1 <= k -> k + Z.of_nat (length bodies) - 1 <= size ->
  caches_ok cs ->
  exists codes inputs' cs',
    encode_inputs cs (zip_with (set_header size parity) (seqZ k (Z.of_nat (length bodies))) bodies) =
      Ret (Some codes, inputs', cs') /\ caches_ok cs' /\
    length codes = length bodies /\
    forall i q body, codes !! i = Some q -> bodies !! i = Some body ->
      version <= q_version q <= QRSPEC_VERSION_MAX /\
      symbol_reads (-1) level q
        (map segment_of (header_of size (k + Z.of_nat i) parity ++ i_list body)).
Proof.
  intros Hv Hs Hp Hb. revert k cs. induction Hb as [|body bodies Hbody _ IH]; intros k cs Hk Hks Hcs.
  - by exists [], [], cs.
  - cbn [length] in *. rewrite seqZ_cons by lia. cbn [zip_with encode_inputs].
    pose proof Hbody as [Bv Bl Bm Bf _ _].
    destruct (encode_object cs version level (set_header size parity k body) (header_of size k parity) body
      size k parity Hcs Hv Hbody eq_refl Hs ltac:(lia) Hp) as (q & input' & cs1 & E & Hcs1 & Hq & Hread);
      try (unfold set_header; case_bool_decide; done); try apply set_header_list.
    rewrite E. cbn [mbind outcome_bind fst snd].
    destruct (IH (k + 1) cs1) as (codes & inputs' & cs' & E' & Hcs' & Hlen & Hat); [lia|lia|done|].
    replace (Z.pred (Z.of_nat (S (length bodies)))) with (Z.of_nat (length bodies)) by lia.
    rewrite <- Z.add_1_r, E'. run.
    eexists (q :: codes), (input' :: inputs'), cs'. split; [reflexivity|]. split; [exact Hcs'|].
    split; [by rewrite <- Hlen|]. intros [|i] q' body' Hq' Hb'.
    + cbn in Hq', Hb'. apply (inj Some) in Hq', Hb'. subst q' body'. rewrite Z.add_0_r. exact (conj Hq Hread).
    + cbn in Hq', Hb'. specialize (Hat i q' body' Hq' Hb').
      replace (k + Z.of_nat (S i)) with (k + 1 + Z.of_nat i) by lia. exact Hat.
Qed.

(** ** Structured append *)

Lemma zip_with_set_header_one parity k bodies :
  zip_with (set_header 1 parity) (seqZ k (Z.of_nat (length bodies))) bodies = bodies.
Proof.
  revert k. induction bodies as [|b bodies IH]; intros k; [done|].
  cbn [length]. rewrite seqZ_cons by lia. cbn [zip_with].
  replace (Z.pred (Z.of_nat (S (length bodies)))) with (Z.of_nat (length bodies)) by lia.
  by rewrite IH.
Qed.

Lemma zip_with_set_header_many size parity k bodies :
  size <> 1 ->
  zip_with (fun k input => push_front input (header_entry size k parity)) (seqZ k (Z.of_nat (length bodies))) bodies =
  zip_with (set_header size parity) (seqZ k (Z.of_nat (length bodies))) bodies.
Proof.
  intros Hs. generalize (seqZ k (Z.of_nat (length bodies))) as ks.
  induction bodies as [|b bodies IH]; intros [|x ks]; try done. cbn [zip_with].
  rewrite IH. f_equal. unfold set_header. by rewrite bool_decide_eq_false_2.
Qed.

Lemma data_byte l : Forall plain_entry l -> Forall byte (data_of l).
Proof.
  induction 1 as [|e l [[Hr _] _] _ IH]; [done|]. unfold data_of. cbn [map concat].
  apply Forall_app. split; [by eapply readable_byte|done].
Qed.

Lemma split_struct_spec input :
  i_mqr input = false -> 1 <= i_version input <= QRSPEC_VERSION_MAX ->
  Forall plain_entry (i_list input) ->
  let parity := parity_of (data_of (i_list input)) in
  exists bodies, let n := Z.of_nat (length bodies) in
    1 <= n /\ Forall (object_ok (i_version input) (i_level input)) bodies /\
    data_of (concat (map i_list bodies)) = data_of (i_list input) /\
    split_ok (i_version input) (QRspec_getDataLength (i_version input) (i_level input) * 8 - STRUCTURE_HEADER_SIZE)
      (i_list input) bodies /\
    QRinput_splitQRinputToStruct input =
      Ret (if bool_decide (n > MAX_STRUCTURED_SYMBOLS) then None
           else Some (MkStruct n parity (zip_with (set_header n parity) (seqZ 1 n) bodies))).
Proof.
  intros Hm Hv Hl parity. unfold QRinput_splitQRinputToStruct. rewrite Hm.
  destruct (dup_plain input Hm ltac:(lia) Hl) as (l & -> & Hl' & Hd & Hmode). run.
  set (dup := with_entries _ l). change (i_version dup) with (i_version input).
  change (i_level dup) with (i_level input).
  rewrite calcParity_plain by done. run. change (i_list dup) with l. rewrite Hd. fold parity.
  pose proof (capacity_room (i_version input) (i_level input) Hv) as Hroom.
  rewrite bool_decide_eq_false_2 by lia.
  destruct (split_loop_spec (split_rounds l) (i_version input) (i_level input)
    (QRinput_Struct_setParity QRinput_Struct_new parity) dup [] l true Hv)
    as (bodies & last & E & Hok & Hdata & Hsp); try done.
  { change (total_size (i_version input) []) with 0. lia. }
  { unfold split_rounds, rounds. lia. }
  change (total_size (i_version input) []) with 0 in E. change (length (@nil QRinput_List)) with 0%nat in E.
  rewrite E. cbn [mbind outcome_bind]. clear E.
  assert (Hlast : object_ok (i_version input) (i_level input) last)
    by exact (proj1 (Forall_singleton _ _) (proj2 (proj1 (Forall_app _ _ _) Hok))).
  unfold QRinput_Struct_appendInput. rewrite (ob_mqr _ _ _ Hlast).
  cbn [fst snd s_size s_parity s_inputs QRinput_Struct_setParity QRinput_Struct_new].
  rewrite bool_decide_eq_false_2 by lia. cbn [app].
  exists (bodies ++ [last]). cbv zeta. rewrite length_app, Nat2Z.inj_add, Z.add_0_l. cbn [length].
  set (n := Z.of_nat (length bodies) + Z.of_nat 1). change (Z.of_nat (length bodies) + 1) with n.
  split; [lia|]. split; [done|]. split; [by rewrite Hdata|]. split; [by eapply split_ok_segments|].
  case_bool_decide as H16; [done|]. unfold MAX_STRUCTURED_SYMBOLS in H16.
  assert (Hn : n = Z.of_nat (length (bodies ++ [last]))) by (rewrite length_app; cbn [length]; lia).
  assert (Hpar : byte parity) by (by apply parity_of_byte, data_byte).
  unfold QRinput_Struct_insertStructuredAppendHeaders. cbn [s_size s_parity s_inputs].
  case_bool_decide as H1.
  - run. rewrite bool_decide_eq_false_2 by lia. do 3 f_equal. rewrite H1.
    symmetry. rewrite <- (zip_with_set_header_one parity 1 (bodies ++ [last])) at 2.
    by rewrite <- Hn, H1.
  - rewrite bool_decide_eq_false_2 by (unfold byte in Hpar; lia). run.
    cbn [s_size s_parity s_inputs]. rewrite insert_headers_spec; [|lia|rewrite <- Hn; lia|exact Hpar]. run.
    rewrite bool_decide_eq_false_2 by lia. do 3 f_equal.
    rewrite zip_with_set_header_many by done. by rewrite <- Hn.
Qed.

(** Behind the part [p] there is no room for the first character of the part [q],
    beside the header. *)
Definition no_room (v : Z) (level : QRecLevel) (p q : list (QRencodeMode * list Z)) : Prop :=
  exists m x d r, q = (m, x :: d) :: r /\
    QRspec_getDataLength v level * 8 <
    BitStream_size (segments_bits v p) + STRUCTURE_HEADER_SIZE + BitStream_size (segment_bits m v [x]).

Definition part_of (o : QRinput) : list (QRencodeMode * list Z) := map segment_of (i_list o).

Lemma object_plain v level o : object_ok v level o -> Forall plain_entry (i_list o).
Proof. intros [_ _ _ _ Be _]. eapply Forall_impl; [exact Be|]. by intros e [He _]. Qed.

Lemma full_no_room v level o1 o2 :
  object_ok v level o1 -> object_ok v level o2 ->
  full_before v (QRspec_getDataLength v level * 8 - STRUCTURE_HEADER_SIZE) o1 o2 ->
  no_room v level (part_of o1) (part_of o2).
Proof.
  intros H1 H2 (m & Hm & Hfull). pose proof (object_plain _ _ _ H2) as Hp. unfold part_of.
  destruct (i_list o2) as [|e l]; [done|]. cbn [map head] in Hm. injection Hm as <-.
  apply Forall_cons in Hp as [[[Hr _] Hpm] _]. pose proof (readable_nonempty _ _ Hr) as Hne.
  destruct (e_data e) as [|x d] eqn:Ed; [done|]. exists (e_mode e), x, d, (map segment_of l).
  cbn [map]. unfold segment_of at 1. rewrite Ed. split; [done|].
  rewrite plain_bits by (by eapply object_plain). rewrite segment_bits_size by done.
  change (Z.of_nat (length [x])) with 1. lia.
Qed.

Lemma full_parts v level objs :
  Forall (object_ok v level) objs ->
  Sorted (full_before v (QRspec_getDataLength v level * 8 - STRUCTURE_HEADER_SIZE)) objs ->
  Sorted (no_room v level) (map part_of objs).
Proof.
  intros Hok. induction 1 as [|o objs _ IH Hhd]; [constructor|]. apply Forall_cons in Hok as [Ho Hok].
  constructor; [by apply IH|]. destruct Hhd as [|o' objs Hf]; constructor.
  apply Forall_cons in Hok as [Ho' _]. by apply full_no_room.
Qed.

Lemma parts_nonempty v level objs :
  Forall (object_ok v level) objs -> Forall (fun s => s.2 <> []) (concat (map part_of objs)).
Proof.
  intros H. apply Forall_concat, Forall_map. eapply Forall_impl; [exact H|]. intros o Ho. apply Forall_map.
  eapply Forall_impl; [by eapply object_plain|]. intros e [[Hr _] _]. by eapply readable_nonempty.
Qed.

Lemma length_parts objs : length (concat (map part_of objs)) = length (concat (map i_list objs)).
Proof.
  induction objs as [|o objs IH]; [done|]. cbn [map concat]. rewrite !length_app, IH. unfold part_of. by rewrite length_map.
Qed.

(** Plain input data as a set of symbols. *)
Lemma encodeInputToStructured_spec cs input :
  caches_ok cs -> i_mqr input = false -> 1 <= i_version input <= QRSPEC_VERSION_MAX ->
  Forall plain_entry (i_list input) ->
  let data := data_of (i_list input) in
  exists parts res cs',
    QRcode_encodeInputToStructured cs input = Ret (res, cs') /\ caches_ok cs' /\
    concat (map snd (concat parts)) = data /\
    Forall (fun p => BitStream_size (segments_bits (i_version input) p) + STRUCTURE_HEADER_SIZE <=
                     QRspec_getDataLength (i_version input) (i_level input) * 8) parts /\
    (spread (concat parts) = spread (map segment_of (i_list input)) /\
     Forall (fun s => s.2 <> []) (concat parts) /\ Sorted (no_room (i_version input) (i_level input)) parts /\
     (length (concat parts) < length (i_list input) + length parts)%nat) /\
    match res with
    | Some codes => Z.of_nat (length parts) <= MAX_STRUCTURED_SYMBOLS /\
        symbols_read (i_version input) (i_level input) (Z.of_nat (length parts)) (parity_of data) codes parts
    | None => Z.of_nat (length parts) > MAX_STRUCTURED_SYMBOLS
    end.
Proof.
  intros Hcs Hm Hv Hl data.
  destruct (split_struct_spec input Hm Hv Hl) as (bodies & Hn & Hok & Hdata & Hsp & E).
  exists (map (fun b => map segment_of (i_list b)) bodies).
  assert (Hcat : concat (map snd (concat (map (fun b => map segment_of (i_list b)) bodies))) = data).
  { unfold data. rewrite <- Hdata. unfold data_of. clear. induction bodies as [|b bodies IH]; [done|].
    cbn [map concat]. rewrite !map_app, !concat_app, IH, map_map. done. }
  assert (Hfit : Forall (fun p => BitStream_size (segments_bits (i_version input) p) + STRUCTURE_HEADER_SIZE <=
      QRspec_getDataLength (i_version input) (i_level input) * 8)
      (map (fun b => map segment_of (i_list b)) bodies)).
  { apply Forall_map. eapply Forall_impl; [exact Hok|]. intros b [_ _ _ _ Be Bs].
    rewrite plain_bits; [lia|]. eapply Forall_impl; [exact Be|]. by intros e [He _]. }
  assert (Hparts : spread (concat (map part_of bodies)) = spread (map segment_of (i_list input)) /\
    Forall (fun s => s.2 <> []) (concat (map part_of bodies)) /\
    Sorted (no_room (i_version input) (i_level input)) (map part_of bodies) /\
    (length (concat (map part_of bodies)) < length (i_list input) + length bodies)%nat).
  { destruct Hsp as [H0 H1 H2 _]. split; [by rewrite <- H0, concat_map, map_map|]. split; [by eapply parts_nonempty|]. split; [by apply full_parts|].
    by rewrite length_parts. }
  unfold part_of in Hparts.
  rewrite length_map. unfold QRcode_encodeInputToStructured. rewrite E. cbn [mbind outcome_bind].
  case_bool_decide as H16; [exists None, cs; by split_and!; try apply Hparts|]. unfold MAX_STRUCTURED_SYMBOLS in H16.
  unfold QRcode_encodeInputStructured. cbn [s_inputs s_size s_parity].
  destruct (encode_inputs_spec (i_version input) (i_level input) (Z.of_nat (length bodies))
    (parity_of data) bodies 1 cs Hv) as (codes & inputs' & cs' & E' & Hcs' & Hlen & Hat);
    [lia|by apply parity_of_byte, data_byte|done|lia|lia|done|].
  fold data. rewrite E'. cbn [mbind outcome_bind fst snd].
  exists (Some codes), cs'. split; [done|]. split; [done|]. split; [done|]. split; [done|]. split; [exact Hparts|].
  split; [unfold MAX_STRUCTURED_SYMBOLS; lia|]. split; [by rewrite length_map|]. intros i q p Hq Hp.
  rewrite list_lookup_fmap in Hp. destruct (bodies !! i) as [b|] eqn:Hb; [|done].
  apply (inj Some) in Hp. subst p. rewrite <- map_app, Z.add_comm. by apply Hat.
Qed.



(** ** Where the estimate and the encoder disagree *)

Definition kanji_input : QRinput :=
  MkInput 9 QR_ECLEVEL_L [MkEntry QR_MODE_KANJI 280 (concat (replicate 140 [0x93; 0xfa])) None]
    (Some 0%nat) false 0 0.

(** The size estimate counts Kanji characters in bytes where the encoder
    counts them in pairs, so it asks for a second header from 257 bytes on.
    Splitting the 140 characters that just fill a symbol of version 9 then
    tries to cut an empty entry off the end, and fails. *)
Theorem structured_kanji_fails :
  Forall entry_ok (i_list kanji_input) /\
  BitStream_size (segments_bits 9 (map segment_of (i_list kanji_input))) + STRUCTURE_HEADER_SIZE <=
    QRspec_getDataLength 9 QR_ECLEVEL_L * 8 /\
  QRinput_splitQRinputToStruct kanji_input = Ret None.
Proof.
  split; [|split; vm_compute; [discriminate|reflexivity]].
  apply Forall_singleton. split; [|reflexivity]. split; [discriminate|]. split; [reflexivity|].
  change (groups 2 _ _) with (replicate 140 [0x93; 0xfa]).
  apply Forall_replicate. split; [|vm_compute; discriminate]. exists 0x93, 0xfa.
  unfold byte, kanji_value. repeat split; try lia.
Qed.

(** 8 bit data that just fills version 40 at level H. *)
Definition large_input (version : Z) : QRinput :=
  MkInput version QR_ECLEVEL_H [MkEntry QR_MODE_8 1273 (replicate 1273 0) None] (Some 0%nat) false 0 0.

(** The version is chosen from version 0 up, with the character counts of
    the small versions, whose chunks hold 255 bytes. 1273 bytes of 8 bit data
    fill version 40 at level H with one header; with five headers they seem
    too long, and without an explicit version the program refuses them. *)
Theorem automatic_version_refuses :
  (exists input', QRinput_getByteStream (large_input 0) = Ret (None, input')) /\
  exists bytes input', QRinput_getByteStream (large_input 40) = Ret (Some bytes, input').
Proof.
  split; [eexists; vm_compute; reflexivity|].
  assert (Hp : Forall plain_entry (i_list (large_input 40))).
  { apply Forall_singleton. split; [|reflexivity]. split; [|reflexivity].
    split; [discriminate|]. apply Forall_replicate. unfold byte. lia. }
  destruct (getByteStream_spec (large_input 40)) as (v & pss & res & E & Hcut & Hv & Hres).
  { constructor; [done|unfold QRSPEC_VERSION_MAX; simpl; lia| |by left].
    eapply Forall_impl; [exact Hp|]. by intros e [H _]. }
  change (i_list (with_fnc1 (large_input 40))) with (i_list (large_input 40)) in *.
  assert (v = 40) as -> by (unfold QRSPEC_VERSION_MAX in Hv; simpl in Hv; lia).
  destruct res as [bytes|]; [eexists bytes, _; exact E|]. exfalso.
  assert (Hone : Forall (fun e => one_chunk (e_mode e) 40 (e_data e)) (i_list (large_input 40)))
    by (apply Forall_singleton; intros _; vm_compute; discriminate).
  rewrite all_bits_segments, (one_chunk_cut 40 _ _ Hcut Hone), (plain_bits 40 _ Hp) in Hres.
  vm_compute in Hres. discriminate Hres.
Qed.
