(* ===== verification/UsbDevice.v ===== *)
(** * The disk list of the USB manager

    [C/xunlei_test/xl_usb_device.c]: the linked list of attached disks with
    their identifiers, the probe that adds the disks present under [/dev], the
    removal of vanished disks, and the thread that turns the kernel's hot-plug
    messages into probes and removals. *)

From stdpp Require Import pretty.
From S2P Require Import Prelude XlCommon Codec Heap.

(** ** State *)

Definition FALSE : Z := 0.
Definition TRUE : Z := 1.

Definition USB_DEV_NAME : string := "/dev/sd".
Definition DEV_CUT_NAME : string := "sd".

(** The file-scope variables, the heap the list lives on, and the message
    queue the module sends to. *)
(* @src C/xunlei_test/xl_usb_device.c:45-53 g_DevID *)
Record usb_state := UsbState {
  g_DevID : list Z;
  g_psUSBDevHead : option nat;
  usb_heap : heap St_xl_storage_info;
  usb_queue : list (list Z);
}.

(** The state before the first probe. *)
Definition usb_init_state : usb_state := UsbState (replicate 128 FALSE) None ∅ [].

Definition set_DevID ids (st : usb_state) : usb_state :=
  UsbState ids (g_psUSBDevHead st) (usb_heap st) (usb_queue st).
Definition set_list p h (st : usb_state) : usb_state :=
  UsbState (g_DevID st) p h (usb_queue st).
Definition set_queue q (st : usb_state) : usb_state :=
  UsbState (g_DevID st) (g_psUSBDevHead st) (usb_heap st) q.

(** ** Strings and messages *)

(** [strcpy] or [sprintf] of [s] into an array of [n] bytes. *)
Definition fits (n : nat) (s : string) : outcome unit :=
  require (bool_decide (String.length s < n)%nat) OutOfBounds.

(** The bytes of an [St_xl_USB_Info]: three four-byte little-endian fields. *)
(* @src C/xunlei_test/xl_mnt.h:59-64 St_xl_USB_Info *)
Definition usb_info_bytes (i : St_xl_USB_Info) : list Z :=
  Z_to_little_endian 4 8 (EN_ACTION_code (eAction i)) ++
  Z_to_little_endian 4 8 (EN_DEVICE_TYPE_code (eType i)) ++
  Z_to_little_endian 4 8 (info_nDiskId i).

(** [access(name, F_OK)], where [dev] is the set of files that exist. *)
Definition access (dev : gset string) (name : string) : Z :=
  if bool_decide (name ∈ dev) then 0 else -1.

(** ** Disk identifiers *)

(** The search of [mnt_usb_create_disk_id]: the final [i] and the table. *)
(* @src C/xunlei_test/xl_usb_device.c:413-420 mnt_usb_create_disk_id *)
Fixpoint disk_id_loop (n : nat) (i : Z) (ids : list Z) : outcome (Z * list Z) :=
  match n with
  | O => Ret (i, ids)
  | S n =>
      v ← byte_at ids i;
      if bool_decide (v = FALSE) then
        ids ← mem_write i [TRUE] ids;
        Ret (i, ids)
      else disk_id_loop n (i + 1) ids
  end.

(* @src C/xunlei_test/xl_usb_device.c:410-427 mnt_usb_create_disk_id *)
Definition mnt_usb_create_disk_id (ids : list Z) : outcome (Z * list Z) :=
  '(i, ids) ← disk_id_loop 128 0 ids;
  if bool_decide (128 <= i) then Ret (-1, ids) else Ret (i + 1, ids).

(* @src C/xunlei_test/xl_usb_device.c:428-436 mnt_usb_destroy_disk_id *)
Definition mnt_usb_destroy_disk_id (nDevId : Z) (ids : list Z) : outcome (list Z) :=
  let n := nDevId in
  v ← byte_at ids (n - 1);
  if bool_decide (v = TRUE) then mem_write (n - 1) [FALSE] ids else Ret ids.

(** ** The list of disks *)

(** The last item of the list from [p]. *)
(* @src C/xunlei_test/xl_usb_device.c:626-630 mnt_usb_insert_dev_node *)
Fixpoint last_item (fuel : nat) (h : heap St_xl_storage_info) (psUSBDevItem : option nat)
    : outcome (nat * node St_xl_storage_info) :=
  match fuel with
  | O => Fault OutOfFuel
  | S fuel =>
      '(x, n) ← load h psUSBDevItem;
      match m_pNext n with
      | None => Ret (x, n)
      | Some _ => last_item fuel h (m_pNext n)
      end
  end.

(** [memory] says whether [malloc] finds memory. *)
(* @src C/xunlei_test/xl_usb_device.c:595-634 mnt_usb_insert_dev_node *)
Definition mnt_usb_insert_dev_node (memory : bool) (psStorageInfo : St_xl_storage_info)
    (st : usb_state) : outcome (EN_ERROR_NUM * usb_state) :=
  if negb memory then Ret (EN_ERROR_NO_MEMORY, st) else
  _ ← fits 32 (szDiskName psStorageInfo);
  let '(psTmpUSBDev, h) := malloc (usb_heap st)
    (MkNode (Storage (nDiskId psStorageInfo) (szDiskName psStorageInfo)) None) in
  match g_psUSBDevHead st with
  | None => Ret (EN_OK, set_list (Some psTmpUSBDev) h st)
  | Some _ =>
      '(x, n) ← last_item (S (size h)) h (g_psUSBDevHead st);
      Ret (EN_OK, set_list (g_psUSBDevHead st)
                    (store h x (MkNode (val n) (Some psTmpUSBDev))) st)
  end.

(** The loop of [mnt_usb_delete_dev_node]; [pre] is [psUSBDevPreItem], unset in
    the first iteration. *)
(* @src C/xunlei_test/xl_usb_device.c:649-673 mnt_usb_delete_dev_node *)
Fixpoint delete_dev_loop (fuel : nat) (id : Z) (psUSBDevItem pre : option nat)
    (st : usb_state) : outcome (EN_ERROR_NUM * usb_state) :=
  match fuel with
  | O => Fault OutOfFuel
  | S fuel =>
      '(x, n) ← load (usb_heap st) psUSBDevItem;
      if bool_decide (id = nDiskId (val n)) then
        ids ← mnt_usb_destroy_disk_id (s32 id) (g_DevID st);
        let st := set_DevID ids st in
        '(p, h) ←
          (if bool_decide (g_psUSBDevHead st = Some x)
           then Ret (m_pNext n, usb_heap st)
           else '(y, ny) ← load (usb_heap st) pre;
                Ret (g_psUSBDevHead st,
                     store (usb_heap st) y (MkNode (val ny) (m_pNext n))));
        Ret (EN_OK, set_list p (free h x) st)
      else
        match m_pNext n with
        | None => Ret (EN_ERROR_FAILED, st)
        | Some _ => delete_dev_loop fuel id (m_pNext n) (Some x) st
        end
  end.

(* @src C/xunlei_test/xl_usb_device.c:635-680 mnt_usb_delete_dev_node *)
Definition mnt_usb_delete_dev_node (psStorageInfo : St_xl_storage_info) (st : usb_state)
    : outcome (EN_ERROR_NUM * usb_state) :=
  match g_psUSBDevHead st with
  | None => Ret (EN_OK, st)
  | Some _ => delete_dev_loop (S (size (usb_heap st))) (nDiskId psStorageInfo)
                (g_psUSBDevHead st) None st
  end.

(** The search of [mnt_usb_get_disk_name]: the name of the first item found. *)
(* @src C/xunlei_test/xl_usb_device.c:699-711 mnt_usb_get_disk_name *)
Fixpoint disk_name_loop (fuel : nat) (h : heap St_xl_storage_info) (nUSBDiskID : Z)
    (psUSBDevItem : option nat) : outcome (option string) :=
  match fuel with
  | O => Fault OutOfFuel
  | S fuel =>
      '(x, n) ← load h psUSBDevItem;
      if bool_decide (nDiskId (val n) = nUSBDiskID) then Ret (Some (szDiskName (val n)))
      else match m_pNext n with
           | None => Ret None
           | Some _ => disk_name_loop fuel h nUSBDiskID (m_pNext n)
           end
  end.

(** [len] is the size of the caller's [szDiskName]; the string is what it holds
    afterwards. *)
(* @src C/xunlei_test/xl_usb_device.c:682-720 mnt_usb_get_disk_name *)
Definition mnt_usb_get_disk_name (st : usb_state) (nUSBDiskID : Z) (len : nat)
    : outcome (EN_ERROR_NUM * option string) :=
  match g_psUSBDevHead st with
  | None => Ret (EN_ERROR_FAILED, None)
  | Some _ =>
      name ← disk_name_loop (S (size (usb_heap st))) (usb_heap st) nUSBDiskID
               (g_psUSBDevHead st);
      match name with
      | None => Ret (EN_ERROR_FAILED, None)
      | Some s => _ ← fits len s; Ret (EN_OK, Some s)
      end
  end.

(* @src C/xunlei_test/xl_usb_device.c:744-772 mnt_usb_check_disk_id *)
Fixpoint check_disk_loop (fuel : nat) (h : heap St_xl_storage_info) (nUSBDiskID : Z)
    (psUSBDevItem : option nat) : outcome EN_ERROR_NUM :=
  match fuel with
  | O => Fault OutOfFuel
  | S fuel =>
      '(x, n) ← load h psUSBDevItem;
      if (if bool_decide (ALL_USB_DISK = nUSBDiskID) then bool_decide (nDiskId (val n) > 0)
          else bool_decide (nDiskId (val n) = nUSBDiskID))
      then Ret EN_OK
      else match m_pNext n with
           | None => Ret EN_ERROR_FAILED
           | Some _ => check_disk_loop fuel h nUSBDiskID (m_pNext n)
           end
  end.

(* @src C/xunlei_test/xl_usb_device.c:733-781 mnt_usb_check_disk_id *)
Definition mnt_usb_check_disk_id (st : usb_state) (nUSBDiskID : Z) : outcome EN_ERROR_NUM :=
  match g_psUSBDevHead st with
  | None => Ret EN_ERROR_FAILED
  | Some _ => check_disk_loop (S (size (usb_heap st))) (usb_heap st) nUSBDiskID
                (g_psUSBDevHead st)
  end.

(** ** Probe *)

Section Operations.

(** Whether [malloc] and [msgsnd] succeed. *)
Variables memory snd_ok : bool.

(** The files under [/dev]. *)
Variable dev : gset string.

(** The path probed and the name kept for it. *)
Definition sd_names : list (string * string) :=
  map (fun i => let c := String (ascii_of_nat (97 + i)) EmptyString in
       (USB_DEV_NAME +:+ c, DEV_CUT_NAME +:+ c)) (seq 0 16).
Definition mmc_names : list (string * string) :=
  map (fun i => ("/dev/mmcblk" +:+ pretty i, "mmcblk" +:+ pretty i)) (seq 0 16).

(** One iteration of either loop; [ret] is the result so far. *)
(* @src C/xunlei_test/xl_usb_device.c:805-825 mnt_usb_device_probe *)
Definition probe_disk (names : string * string) (ret : Z) (st : usb_state)
    : outcome (Z * usb_state) :=
  let '(szDiskName, szDev) := names in
  _ ← fits 16 szDiskName;
  _ ← fits 16 szDev;
  if bool_decide (access dev szDiskName = 0) then
    '(id, ids) ← mnt_usb_create_disk_id (g_DevID st);
    let sUSBInfo := USBInfo EN_USB_ADD EN_USB_DEVICE_STORAGE (u32 id) in
    '(_, st) ← mnt_usb_insert_dev_node memory (Storage (info_nDiskId sUSBInfo) szDev)
                 (set_DevID ids st);
    '(_, q) ← mnt_usb_msg_send snd_ok (usb_queue st) (usb_info_bytes sUSBInfo) 12;
    Ret (0, set_queue q st)
  else Ret (ret, st).

Fixpoint probe_loop (names : list (string * string)) (ret : Z) (st : usb_state)
    : outcome (Z * usb_state) :=
  match names with
  | [] => Ret (ret, st)
  | n :: names =>
      '(ret, st) ← probe_disk n ret st;
      probe_loop names ret st
  end.

(* @src C/xunlei_test/xl_usb_device.c:793-854 mnt_usb_device_probe *)
Definition mnt_usb_device_probe (st : usb_state) : outcome (Z * usb_state) :=
  '(ret, st) ← probe_loop sd_names 1 st;
  probe_loop mmc_names ret st.

(** ** Removal *)

(** The loop of [mnt_usb_remove_dev_node]. The next item is read from the item
    after the body, which may have freed it. *)
(* @src C/xunlei_test/xl_usb_device.c:881-904 mnt_usb_remove_dev_node *)
Fixpoint remove_dev_loop (fuel : nat) (psUSBDevItem : option nat) (ret : Z)
    (st : usb_state) : outcome (Z * usb_state) :=
  match psUSBDevItem, fuel with
  | None, _ => Ret (ret, st)
  | Some _, O => Fault OutOfFuel
  | Some _, S fuel =>
      '(x, n) ← load (usb_heap st) psUSBDevItem;
      let szDevName := szDiskName (val n) in
      _ ← fits 16 szDevName;
      let dev_name := "/dev/" +:+ szDevName in
      _ ← fits 16 dev_name;
      '(ret, st) ←
        (if bool_decide (access dev dev_name <> 0) then
           let sUSBInfo := USBInfo EN_USB_RM EN_USB_DEVICE_STORAGE (nDiskId (val n)) in
           '(_, q) ← mnt_usb_msg_send snd_ok (usb_queue st) (usb_info_bytes sUSBInfo) 12;
           '(_, st) ← mnt_usb_delete_dev_node
                        (Storage (info_nDiskId sUSBInfo) szDevName) (set_queue q st);
           Ret (0, st)
         else Ret (ret, st));
      '(_, n) ← load (usb_heap st) (Some x);
      remove_dev_loop fuel (m_pNext n) ret st
  end.

(* @src C/xunlei_test/xl_usb_device.c:865-907 mnt_usb_remove_dev_node *)
Definition mnt_usb_remove_dev_node (st : usb_state) : outcome (Z * usb_state) :=
  match g_psUSBDevHead st with
  | None => Ret (0, st)
  | Some _ => remove_dev_loop (S (size (usb_heap st))) (g_psUSBDevHead st) 1 st
  end.

End Operations.

(** ** Kernel messages *)

(** [struct luther_gliethttp]: a pointer into the message is the string it
    points to, [None] a null pointer. *)
(* @src C/xunlei_test/xl_usb_device.c:32-43 luther_gliethttp *)
Record luther_gliethttp := Luther {
  action : list Z;
  path : list Z;
  subsystem : list Z;
  firmware : list Z;
  devname : option (list Z);
  physdevdriver : option (list Z);
  product : list Z;
  major : Z;
  minor : Z;
}.

Definition set_action a ev := Luther a (path ev) (subsystem ev) (firmware ev) (devname ev)
  (physdevdriver ev) (product ev) (major ev) (minor ev).
Definition set_subsystem s ev := Luther (action ev) (path ev) s (firmware ev) (devname ev)
  (physdevdriver ev) (product ev) (major ev) (minor ev).
Definition set_physdevdriver p ev := Luther (action ev) (path ev) (subsystem ev)
  (firmware ev) (devname ev) (Some p) (product ev) (major ev) (minor ev).
Definition set_devname d ev := Luther (action ev) (path ev) (subsystem ev) (firmware ev)
  (Some d) (physdevdriver ev) (product ev) (major ev) (minor ev).
Definition set_product p ev := Luther (action ev) (path ev) (subsystem ev) (firmware ev)
  (devname ev) (physdevdriver ev) p (major ev) (minor ev).

(** The string at a pointer; [msg] is the rest of the buffer from there. *)
Fixpoint c_string (msg : list Z) : outcome (list Z) :=
  match msg with
  | [] => Fault OutOfBounds
  | c :: msg => if bool_decide (c = 0) then Ret [] else s ← c_string msg; Ret (c :: s)
  end.

(** [!strncmp(msg, key, strlen(key))]; the comparison stops at the first
    difference. *)
Fixpoint strncmp_key (key msg : list Z) : outcome bool :=
  match key, msg with
  | [], _ => Ret true
  | _ :: _, [] => Fault OutOfBounds
  | k :: key, c :: msg => if bool_decide (c = k) then strncmp_key key msg else Ret false
  end.

(** The inner loop: to just after the end of the string. *)
(* @src C/xunlei_test/xl_usb_device.c:303-303 parse_event *)
Fixpoint skip_string (msg : list Z) : outcome (list Z) :=
  match msg with
  | [] => Fault OutOfBounds
  | c :: msg => if bool_decide (c = 0) then Ret msg else skip_string msg
  end.

(** One iteration over the string at [msg]: the event and the pointer after the
    key, if one was found. *)
(* @src C/xunlei_test/xl_usb_device.c:277-302 parse_event *)
Definition parse_field (msg : list Z) (ev : luther_gliethttp)
    : outcome (list Z * luther_gliethttp) :=
  let field (key : string) (store : list Z -> luther_gliethttp)
        (other : outcome (list Z * luther_gliethttp)) :=
    b ← strncmp_key (str_bytes key) msg;
    if (b : bool) then
      let msg := drop (String.length key) msg in
      v ← c_string msg;
      Ret (msg, store v)
    else other in
  field "ACTION=" (fun v => set_action v ev)
    (field "SUBSYSTEM=" (fun v => set_subsystem v ev)
      (field "PHYSDEVDRIVER=" (fun v => set_physdevdriver v ev)
        (field "DEVNAME=" (fun v => set_devname v ev)
          (field "PRODUCT=" (fun v => set_product v ev) (Ret (msg, ev)))))).

(* @src C/xunlei_test/xl_usb_device.c:275-304 parse_event *)
Fixpoint parse_event_loop (fuel : nat) (msg : list Z) (ev : luther_gliethttp)
    : outcome luther_gliethttp :=
  match fuel with
  | O => Fault OutOfFuel
  | S fuel =>
      c ← byte_at msg 0;
      if bool_decide (c = 0) then Ret ev else
      '(msg, ev) ← parse_field msg ev;
      msg ← skip_string msg;
      parse_event_loop fuel msg ev
  end.

(* @src C/xunlei_test/xl_usb_device.c:265-305 parse_event *)
Definition parse_event (msg : list Z) : outcome luther_gliethttp :=
  parse_event_loop (S (length msg)) msg (Luther [] [] [] [] None None [] (-1) (-1)).

(** [None]: [EN_ERROR_UNKNOW]. *)
(* @src C/xunlei_test/xl_usb_device.c:307-328 mnt_usb_get_action *)
Definition mnt_usb_get_action (ev : luther_gliethttp) : option EN_ACTION :=
  if bool_decide (action ev = str_bytes "add") then Some EN_USB_ADD
  else if bool_decide (action ev = str_bytes "remove") then Some EN_USB_RM
  else if bool_decide (action ev = str_bytes "change") then Some EN_USB_CHG
  else None.

(** ** The detection thread *)

Inductive EN_USB_DETECT_STATE : Set :=
  | EN_USB_STANDBY
  | EN_USB_GET_ACTION
  | EN_USB_IDENTIFY_DEVICE
  | EN_USB_GET_DEV_NAME
  | EN_USB_DETECT_END.

(** The static variables of [mnt_usb_detect_thread]; [tid] says whether the
    probe thread is there, and [thread_cnt] is that thread's [probe_cnt]. *)
(* @src C/xunlei_test/xl_usb_device.c:141-148 mnt_usb_detect_thread *)
Record detect_state := Detect {
  eSTATE : EN_USB_DETECT_STATE;
  eAction_now : EN_ACTION;
  eAction_pre : EN_ACTION;
  tid : bool;
  probe_cnt : Z;
  thread_cnt : Z;
}.

Definition detect_init : detect_state :=
  Detect EN_USB_GET_ACTION EN_USB_CHG EN_USB_CHG false 10 0.

Section Threads.
Variables memory snd_ok : bool.
Variable dev : gset string.

(** The state handed to the [switch]: an action other than the last one begins
    a new round. *)
(* @src C/xunlei_test/xl_usb_device.c:175-187 mnt_usb_detect_thread *)
Definition new_action (a : EN_ACTION) (d : detect_state) : detect_state :=
  let now := if bool_decide (a = EN_USB_CHG) then EN_USB_ADD else a in
  Detect (if bool_decide (now <> eAction_pre d) then EN_USB_GET_ACTION else eSTATE d)
    now (eAction_pre d) (tid d) (probe_cnt d) (thread_cnt d).

(** [case EN_USB_IDENTIFY_DEVICE]. Cancelling the probe thread takes effect
    between two of its probes, where it sleeps. *)
(* @src C/xunlei_test/xl_usb_device.c:204-245 mnt_usb_detect_thread *)
Definition identify_device (d : detect_state) (st : usb_state)
    : outcome (detect_state * usb_state) :=
  match eAction_now d with
  | EN_USB_ADD =>
      if tid d then Ret (d, st)
      else Ret (Detect EN_USB_STANDBY (eAction_now d) (eAction_pre d) true (probe_cnt d) 50, st)
  | EN_USB_RM =>
      '(ret, st) ← mnt_usb_remove_dev_node snd_ok dev st;
      let next s cnt := Detect s (eAction_now d) (eAction_pre d) false cnt (thread_cnt d) in
      Ret (if bool_decide (ret = 0) then next EN_USB_STANDBY (probe_cnt d)
           else if bool_decide (probe_cnt d > 0) then next (eSTATE d) (probe_cnt d - 1)
           else next EN_USB_STANDBY 10, st)
  | _ => Ret (d, st)
  end.

(** One iteration of the thread on the message in [buf]. *)
(* @src C/xunlei_test/xl_usb_device.c:153-251 mnt_usb_detect_thread *)
Definition detect_step (buf : list Z) (d : detect_state) (st : usb_state)
    : outcome (detect_state * usb_state) :=
  ev ← parse_event buf;
  match mnt_usb_get_action ev with
  | None => Ret (d, st)
  | Some a =>
      let d := new_action a d in
      match eSTATE d with
      | EN_USB_GET_ACTION =>
          Ret (Detect EN_USB_IDENTIFY_DEVICE (eAction_now d) (eAction_now d)
                 (tid d) (probe_cnt d) (thread_cnt d), st)
      | EN_USB_IDENTIFY_DEVICE => identify_device d st
      | _ => Ret (d, st)
      end
  end.

(** One iteration of the probe thread: it ends once a probe found a disk; out
    of attempts it goes on without sleeping. *)
(* @src C/xunlei_test/xl_usb_device.c:101-128 mnt_usb_probe_device_thread *)
Definition probe_thread_step (d : detect_state) (st : usb_state)
    : outcome (detect_state * usb_state) :=
  '(ret, st) ← mnt_usb_device_probe memory snd_ok dev st;
  let next t cnt := Detect (eSTATE d) (eAction_now d) (eAction_pre d) t (probe_cnt d) cnt in
  Ret (if bool_decide (ret = 0) then next false (thread_cnt d)
       else if bool_decide (thread_cnt d > 0) then next true (thread_cnt d - 1)
       else next true (thread_cnt d), st).

End Threads.

(** The module and its surroundings: the threads' state, the list, and the
    files under [/dev]. *)
Record system := System {
  sys_detect : detect_state;
  sys_usb : usb_state;
  sys_dev : gset string;
}.

(** The interleavings: disks come and go, the main thread makes its probe in
    [mnt_usb_init], the detection thread takes a message of the kernel, the probe
    thread makes a probe. A step is a whole iteration of its thread; one that is
    undefined leads nowhere. *)
Inductive usb_step (memory snd_ok : bool) : system -> system -> Prop :=
  | step_devices d st dev dev' :
      usb_step memory snd_ok (System d st dev) (System d st dev')
  | step_init d st dev ret st' :
      mnt_usb_device_probe memory snd_ok dev st = Ret (ret, st') ->
      usb_step memory snd_ok (System d st dev) (System d st' dev)
  | step_uevent d st dev buf d' st' :
      detect_step snd_ok dev buf d st = Ret (d', st') ->
      usb_step memory snd_ok (System d st dev) (System d' st' dev)
  | step_probe d st dev d' st' :
      tid d = true ->
      probe_thread_step memory snd_ok dev d st = Ret (d', st') ->
      usb_step memory snd_ok (System d st dev) (System d' st' dev).

(** ** What the list stands for

    The disks in order of their probe; the flag of an identifier is set when
    some disk has it. A disk added when no identifier is free gets the number
    of every disk. *)

Definition ids (l : list St_xl_storage_info) : list Z := map nDiskId l.

Definition id_free (l : list St_xl_storage_info) (i : Z) : Prop := i ∉ ids l.

#[global] Instance id_free_dec l i : Decision (id_free l i).
Proof. unfold id_free. apply _. Defined.

(** The least identifier no disk has. *)
Definition next_id (l : list St_xl_storage_info) : Z :=
  match list_find (id_free l) (seqZ 1 128) with
  | Some (_, i) => i
  | None => ALL_USB_DISK
  end.

Definition flags (l : list St_xl_storage_info) : list Z :=
  map (fun i => if decide (id_free l i) then FALSE else TRUE) (seqZ 1 128).

(** Identifiers are in range and no two disks share one. *)
Definition disks_ok (l : list St_xl_storage_info) : Prop :=
  NoDup (filter (fun i => i <> ALL_USB_DISK) (ids l)) /\
  Forall (fun v => (1 <= nDiskId v <= 128 \/ nDiskId v = ALL_USB_DISK) /\
                   (String.length (szDiskName v) <= 8)%nat) l.

(** The state holds the disks [l]. *)
Definition represents (st : usb_state) (l : list St_xl_storage_info) : Prop :=
  disks_ok l /\ g_DevID st = flags l /\
  exists nodes, is_list (usb_heap st) (g_psUSBDevHead st) nodes /\ nodes.*2 = l.

(** *** Flags *)

Lemma flags_length l : length (flags l) = 128%nat.
Proof. unfold flags. by rewrite length_map, length_seqZ. Qed.

Lemma flags_lookup l (j : nat) :
  (j < 128)%nat ->
  flags l !! j = Some (if decide (id_free l (1 + Z.of_nat j)) then FALSE else TRUE).
Proof.
  intros Hj. unfold flags. rewrite list_lookup_fmap.
  by rewrite (lookup_seqZ_lt 1 128 j) by lia.
Qed.

Lemma flags_byte_at l i :
  0 <= i < 128 -> byte_at (flags l) i = Ret (if decide (id_free l (1 + i)) then FALSE else TRUE).
Proof.
  intros Hi. apply byte_at_lookup; [lia|]. rewrite flags_lookup by lia. by rewrite Z2Nat.id by lia.
Qed.

(** Storing one element of an array. *)
Lemma mem_write_one (l : list Z) i v :
  0 <= i < Z.of_nat (length l) -> mem_write i [v] l = Ret (<[Z.to_nat i := v]> l).
Proof.
  intros Hi. unfold mem_write. rewrite bool_decide_eq_true_2 by (cbn; lia). f_equal.
  rewrite insert_take_drop by lia. cbn. by rewrite Nat.add_comm.
Qed.

(** What one more disk or one less does to the flags. *)
Lemma flags_change l l' (j : nat) :
  (j < 128)%nat ->
  (forall i, i <> 1 + Z.of_nat j -> id_free l' i <-> id_free l i) ->
  <[j := if decide (id_free l' (1 + Z.of_nat j)) then FALSE else TRUE]> (flags l) = flags l'.
Proof.
  intros Hj Hsame. apply list_eq. intros k. destruct (decide (k = j)) as [->|Hk].
  - rewrite list_lookup_insert_eq by (rewrite flags_length; lia). by rewrite flags_lookup.
  - rewrite list_lookup_insert_ne by done. destruct (decide (k < 128)%nat) as [Hk'|Hk'].
    + rewrite !flags_lookup by done. by rewrite (decide_ext _ _ _ _ (Hsame (1 + Z.of_nat k) ltac:(lia))).
    + by rewrite !lookup_ge_None_2 by (rewrite flags_length; lia).
Qed.

Lemma disk_id_loop_spec n i l :
  Z.of_nat (length l) = i + Z.of_nat n -> 0 <= i ->
  disk_id_loop n i l =
  Ret (match list_find (fun v => v = FALSE) (drop (Z.to_nat i) l) with
       | Some (j, _) => (i + Z.of_nat j, <[(Z.to_nat i + j)%nat := TRUE]> l)
       | None => (i + Z.of_nat n, l)
       end).
Proof.
  revert i. induction n as [|n IH]; intros i Hl Hi; cbn [disk_id_loop].
  - rewrite drop_ge by lia. cbn. by rewrite Z.add_0_r.
  - destruct (l !! Z.to_nat i) as [v|] eqn:Ev; [|apply lookup_ge_None in Ev; lia].
    rewrite (byte_at_lookup _ _ v) by done. run. rewrite (drop_S l v) by done. cbn [list_find].
    case_bool_decide as Hv.
    + rewrite decide_True by done. rewrite mem_write_one by lia. run.
      by rewrite Z.add_0_r, Nat.add_0_r.
    + rewrite decide_False by done. rewrite IH by lia.
      replace (Z.to_nat (i + 1)) with (S (Z.to_nat i)) by lia. f_equal.
      destruct (list_find _ _) as [[j w]|]; cbn.
      * f_equal; [lia|]. f_equal. lia.
      * f_equal. lia.
Qed.

Lemma next_id_find l :
  list_find (fun v => v = FALSE) (flags l) =
  (fun '(j, _) => (j, FALSE)) <$> list_find (id_free l) (seqZ 1 128).
Proof.
  unfold flags. change (map ?f ?s) with (f <$> s). rewrite list_find_fmap.
  rewrite (list_find_ext _ (id_free l)).
  2:{ intros i. cbn. destruct (decide (id_free l i)); naive_solver. }
  destruct (list_find (id_free l) _) as [[j i]|] eqn:E; cbn; [|done].
  apply list_find_Some in E as (_ & Hf & _). by rewrite decide_True.
Qed.

Lemma ids_app l v : ids (l ++ [v]) = ids l ++ [nDiskId v].
Proof. unfold ids. by rewrite map_app. Qed.

Lemma next_id_cases l :
  (exists j : nat, (j < 128)%nat /\ list_find (id_free l) (seqZ 1 128) = Some (j, next_id l) /\
    next_id l = 1 + Z.of_nat j /\ id_free l (next_id l)) \/
  (list_find (id_free l) (seqZ 1 128) = None /\ next_id l = ALL_USB_DISK).
Proof.
  unfold next_id. destruct (list_find _ _) as [[j i]|] eqn:E; [left|by right].
  apply list_find_Some in E as (Hl & Hf & _). apply lookup_seqZ in Hl as [-> Hj].
  exists j. split; [lia|done].
Qed.

(** The identifier handed out is the least free one, and only its flag changes. *)
Lemma create_disk_id_spec l name :
  exists i, mnt_usb_create_disk_id (flags l) =
              Ret (i, flags (l ++ [Storage (next_id l) name])) /\ u32 i = next_id l.
Proof.
  unfold mnt_usb_create_disk_id. rewrite disk_id_loop_spec by (rewrite ?flags_length; lia).
  change (drop (Z.to_nat 0) (flags l)) with (flags l). rewrite next_id_find.
  destruct (next_id_cases l) as [(j & Hj & -> & Hn & Hf)|[-> Hn]]; cbn [fmap option_fmap option_map]; run.
  - rewrite bool_decide_eq_false_2 by lia. exists (0 + Z.of_nat j + 1). split.
    + do 2 f_equal. etrans; [|apply (flags_change l _ j); [lia|]].
      * rewrite decide_False; [done|]. unfold id_free. rewrite ids_app, <- Hn. cbn.
        intros H. apply H, elem_of_app. right. by left.
      * intros i Hi. unfold id_free. rewrite ids_app. cbn. rewrite not_elem_of_app.
        rewrite list_elem_of_singleton, Hn. tauto.
    + rewrite Hn. rewrite (wrap_small 32) by lia. lia.
  - rewrite bool_decide_eq_true_2 by lia. exists (-1). split; [|by rewrite Hn].
    do 2 f_equal. unfold flags. apply map_ext_in. intros i Hi.
    apply list_elem_of_In, elem_of_seqZ in Hi. apply decide_ext.
    unfold id_free. rewrite ids_app, Hn. cbn. rewrite not_elem_of_app, list_elem_of_singleton.
    unfold ALL_USB_DISK. split; [intros H; split; [done|lia]|tauto].
Qed.

(** *** Adding a disk *)

Definition add_disk (l : list St_xl_storage_info) (name : string) : list St_xl_storage_info :=
  l ++ [Storage (next_id l) name].

Lemma disks_ok_add l name :
  (String.length name <= 8)%nat -> disks_ok l -> disks_ok (add_disk l name).
Proof.
  intros Hname [Hnd Hall]. unfold add_disk. split.
  - rewrite ids_app, filter_app. cbn [nDiskId].
    destruct (next_id_cases l) as [(j & Hj & _ & Hn & Hf)|[_ ->]].
    + rewrite filter_cons_True, filter_nil by (unfold ALL_USB_DISK; lia).
      apply NoDup_app. split; [done|]. split; [|repeat constructor; by apply not_elem_of_nil].
      intros x Hx Hx2. apply list_elem_of_singleton in Hx2 as ->.
      apply list_elem_of_filter in Hx as [_ Hx]. done.
    + rewrite filter_cons_False, filter_nil, app_nil_r by tauto. done.
  - apply Forall_app. split; [done|]. apply Forall_singleton. split; [|done]. cbn [nDiskId].
    destruct (next_id_cases l) as [(j & Hj & _ & Hn & Hf)|[_ ->]]; [lia|by right].
Qed.

Lemma last_item_spec h p l x v fuel :
  chain h p (l ++ [(x, v)]) None -> (length l < fuel)%nat ->
  last_item fuel h p = Ret (x, MkNode v None).
Proof.
  revert p fuel. induction l as [|[y w] l IH]; intros p [|fuel] Hc Hf; cbn [length] in Hf; try lia;
    apply chain_load in Hc as (nx & Hl & Hc); cbn [last_item]; rewrite Hl; run; cbn [m_pNext].
  - cbn [chain] in Hc. by subst nx.
  - cbn [app] in Hc. destruct nx as [nx|].
    + apply IH; [done|lia].
    + by apply chain_null, app_eq_nil in Hc as [_ [=]].
Qed.

Lemma insert_dev_node_spec h p nodes d q v :
  is_list h p nodes -> (String.length (szDiskName v) < 32)%nat ->
  exists h' p' y, mnt_usb_insert_dev_node true v (UsbState d p h q) =
                  Ret (EN_OK, UsbState d p' h' q) /\ is_list h' p' (nodes ++ [(y, v)]).
Proof.
  intros Hl Hname. unfold mnt_usb_insert_dev_node, fits, require. cbn [negb].
  rewrite bool_decide_eq_true_2 by done. run. unfold malloc. cbn [usb_heap g_psUSBDevHead].
  assert (Hfr : fresh (dom h) ∉ dom h) by apply is_fresh. revert Hfr. generalize (fresh (dom h)).
  intros y Hy. destruct v as [vi vn]. cbn [nDiskId szDiskName].
  destruct (list_eq_nil_dec nodes) as [->|Hne].
  - destruct p as [p|]; [by destruct Hl as ([=] & _)|]. eexists _, _, y. split; [done|].
    by eapply is_list_one.
  - destruct (exists_last Hne) as (l0 & [x w] & ->).
    assert (Hc : chain (<[y := MkNode (Storage vi vn) None]> h) p (l0 ++ [(x, w)]) None).
    { apply chain_insert; [|apply Hl]. destruct Hl as (_ & _ & Hd). rewrite Hd in Hy.
      by rewrite elem_of_list_to_set in Hy. }
    destruct p as [p|]; [|by apply chain_null, app_eq_nil in Hc as [_ [=]]].
    rewrite (last_item_spec _ _ _ _ _ _ Hc).
    + run. cbn [val]. eexists _, _, y. split; [done|]. rewrite <- app_assoc. by apply chain_snoc.
    + rewrite map_size_insert_None by (by apply not_elem_of_dom).
      rewrite (is_list_size _ _ _ Hl), length_app. cbn. lia.
Qed.

(** *** Probe *)

(** The message about a disk, as it lies in the queue. *)
Definition usb_message (a : EN_ACTION) (v : St_xl_storage_info) : list Z :=
  text_of (usb_info_bytes (USBInfo a EN_USB_DEVICE_STORAGE (nDiskId v))).

(** The queue after a message, which is lost when [msgsnd] fails. *)
Definition posted (snd_ok : bool) (q ms : list (list Z)) : list (list Z) :=
  if snd_ok then q ++ ms else q.

Lemma usb_info_length i : length (usb_info_bytes i) = 12%nat.
Proof. reflexivity. Qed.

Lemma send_usb_info snd_ok q i :
  exists e, mnt_usb_msg_send snd_ok q (usb_info_bytes i) 12 =
            Ret (e, posted snd_ok q [text_of (usb_info_bytes i)]).
Proof.
  pose proof (mnt_usb_msg_send_ok q (usb_info_bytes i)) as H. rewrite usb_info_length in H.
  specialize (H ltac:(lia)). destruct snd_ok; [by eexists|].
  unfold mnt_usb_msg_send in *. destruct (bool_decide _); [by simplify_eq|].
  destruct (xl_encode_u32 _ _); revert H; run; [|done].
  destruct (mem_read _ _ _); run; [|done].
  destruct (mem_write _ _ _); run; [|done]. by eexists.
Qed.

(** The disks a probe adds to [l]: one for each name, with the identifiers that
    are free one after another. *)
Fixpoint new_disks (l : list St_xl_storage_info) (names : list string)
    : list St_xl_storage_info :=
  match names with
  | [] => []
  | n :: names => let v := Storage (next_id l) n in v :: new_disks (l ++ [v]) names
  end.

(** The names probed whose file exists. *)
Definition present (dev : gset string) (names : list (string * string)) : list string :=
  (filter (fun n => n.1 ∈ dev) names).*2.

(** A name that fits the buffers on its way. *)
Definition name_fits (n : string * string) : Prop :=
  (String.length n.1 < 16)%nat /\ (String.length n.2 <= 8)%nat.

#[global] Instance name_fits_dec n : Decision (name_fits n).
Proof. unfold name_fits. apply _. Defined.

Lemma access_0 dev name : access dev name = 0 <-> name ∈ dev.
Proof. unfold access. case_bool_decide; split; intros; done. Qed.

Lemma fits_ok n s : (String.length s < n)%nat -> fits n s = Ret ().
Proof. intros H. unfold fits, require. by rewrite bool_decide_eq_true_2. Qed.

Lemma probe_disk_spec snd_ok dev n ret st l :
  represents st l -> name_fits n -> n.1 ∈ dev ->
  exists st', probe_disk true snd_ok dev n ret st = Ret (0, st') /\
    represents st' (l ++ [Storage (next_id l) n.2]) /\
    usb_queue st' =
      posted snd_ok (usb_queue st) [usb_message EN_USB_ADD (Storage (next_id l) n.2)].
Proof.
  intros (Hok & Hfl & nodes & Hl & Hn) [Hf1 Hf2] Hin. destruct n as [path name], st as [d p h q].
  cbn [fst snd g_DevID g_psUSBDevHead usb_heap usb_queue] in *. unfold probe_disk.
  rewrite !fits_ok by lia. run. rewrite bool_decide_eq_true_2 by (by apply access_0).
  cbn [g_DevID]. rewrite Hfl. destruct (create_disk_id_spec l name) as (i & -> & Hi). run.
  cbn [info_nDiskId]. rewrite Hi. unfold set_DevID. cbn [g_psUSBDevHead usb_heap usb_queue].
  destruct (insert_dev_node_spec h p nodes (flags (l ++ [Storage (next_id l) name])) q
              (Storage (next_id l) name) Hl ltac:(cbn; lia)) as (h' & p' & y & -> & Hl'). run.
  cbn [usb_queue]. destruct (send_usb_info snd_ok q
    (USBInfo EN_USB_ADD EN_USB_DEVICE_STORAGE (next_id l))) as (e & ->). run.
  eexists. split; [reflexivity|]. split; [|done]. split; [by apply (disks_ok_add l name)|].
  split; [done|]. cbn [set_queue usb_heap g_psUSBDevHead]. exists (nodes ++ [(y, Storage (next_id l) name)]).
  split; [done|]. rewrite fmap_app. cbn. by rewrite Hn.
Qed.

Lemma posted_app b q m1 m2 : posted b (posted b q m1) m2 = posted b q (m1 ++ m2).
Proof. destruct b; [|done]. unfold posted. by rewrite app_assoc. Qed.

Lemma posted_nil b q : posted b q [] = q.
Proof. destruct b; [|done]. apply app_nil_r. Qed.

Lemma probe_loop_spec snd_ok dev names ret st l :
  represents st l -> Forall name_fits names ->
  exists st', probe_loop true snd_ok dev names ret st =
      Ret (if decide (present dev names = []) then ret else 0, st') /\
    represents st' (l ++ new_disks l (present dev names)) /\
    usb_queue st' = posted snd_ok (usb_queue st)
                      (map (usb_message EN_USB_ADD) (new_disks l (present dev names))).
Proof.
  intros Hrep Hf. revert ret st l Hrep. induction Hf as [|n names Hn Hf IH]; intros ret st l Hrep;
    cbn [probe_loop].
  - exists st. cbn. by rewrite app_nil_r, posted_nil.
  - destruct (decide (n.1 ∈ dev)) as [Hin|Hout].
    + destruct (probe_disk_spec snd_ok dev n ret st l Hrep Hn Hin) as (st1 & -> & Hr1 & Hq1). run.
      destruct (IH 0 st1 _ Hr1) as (st2 & -> & Hr2 & Hq2). exists st2.
      unfold present in *. rewrite filter_cons_True by done. cbn [fmap list_fmap new_disks map].
      split.
      { do 2 f_equal. rewrite (decide_False (P := _ :: _ = [])) by done. by destruct (decide _). }
      rewrite <- app_assoc in Hr2. split; [done|]. by rewrite Hq2, Hq1, posted_app.
    + assert (Hskip : probe_disk true snd_ok dev n ret st = Ret (ret, st)).
      { unfold probe_disk. destruct n as [path name]. destruct Hn as [H1 H2]. cbn [fst snd] in *.
        rewrite !fits_ok by lia. run. rewrite bool_decide_eq_false_2; [done|].
        by rewrite access_0. }
      rewrite Hskip. run. unfold present. rewrite filter_cons_False by done. by apply IH.
Qed.

Lemma names_fit : Forall name_fits (sd_names ++ mmc_names).
Proof. apply (bool_decide_eq_true_1 _). vm_compute. reflexivity. Qed.

Lemma probe_loop_app b1 b2 dev n1 n2 ret st :
  probe_loop b1 b2 dev (n1 ++ n2) ret st =
  ('(ret, st) ← probe_loop b1 b2 dev n1 ret st; probe_loop b1 b2 dev n2 ret st).
Proof.
  revert ret st. induction n1 as [|n n1 IH]; intros ret st; [done|]. cbn [app probe_loop].
  destruct (probe_disk _ _ _ _ _ _) as [[r s]|]; run; [apply IH|done].
Qed.

(** The disks under [/dev]. *)
Definition disk_files (dev : gset string) : list string := present dev (sd_names ++ mmc_names).

Lemma device_probe_spec snd_ok dev st l :
  represents st l ->
  exists st', mnt_usb_device_probe true snd_ok dev st =
      Ret (if decide (disk_files dev = []) then 1 else 0, st') /\
    represents st' (l ++ new_disks l (disk_files dev)) /\
    usb_queue st' = posted snd_ok (usb_queue st)
                      (map (usb_message EN_USB_ADD) (new_disks l (disk_files dev))).
Proof.
  intros Hrep. unfold mnt_usb_device_probe. rewrite <- probe_loop_app.
  apply probe_loop_spec; [done|apply names_fit].
Qed.

(** *** Removing a disk *)

(** Unlinking and freeing the item found, as [mnt_usb_delete_dev_node] does. *)
Lemma delete_dev_loop_spec fuel id d q h p l1a l1b x v l2 cur d' :
  is_list h p (l1a ++ l1b ++ (x, v) :: l2) ->
  chain h cur (l1b ++ (x, v) :: l2) None ->
  Forall (fun e => nDiskId e.2 <> id) l1b -> nDiskId v = id ->
  mnt_usb_destroy_disk_id (s32 id) d = Ret d' ->
  (length l1b < fuel)%nat ->
  exists h' p', delete_dev_loop fuel id cur (fst <$> last l1a) (UsbState d p h q) =
                Ret (EN_OK, UsbState d' p' h' q) /\
    is_list h' p' (l1a ++ l1b ++ l2) /\ h' !! x = None.
Proof.
  revert l1a cur fuel. induction l1b as [|[y w] l1b IH]; intros l1a cur [|fuel] Hl Hc Hne Hv Hd Hf;
    cbn [length] in Hf; try lia; cbn [app] in Hc;
    apply chain_load in Hc as (nx & Hld & Hc); cbn [delete_dev_loop usb_heap]; rewrite Hld; run;
    cbn [val].
  - rewrite bool_decide_eq_true_2 by done. cbn [g_DevID]. rewrite Hd. run. cbn [app] in *.
    unfold set_DevID. cbn [g_DevID g_psUSBDevHead usb_heap usb_queue m_pNext].
    apply is_list_remove in Hl as (nx' & Hx & Hl).
    assert (nx' = nx) as ->.
    { unfold load in Hld. destruct cur; [|done]. destruct (h !! n) eqn:E; [|done].
      injection Hld as -> ->. rewrite E in Hx. congruence. }
    destruct (last l1a) as [[y w]|] eqn:E; cbn [fmap option_fmap option_map fst].
    + destruct Hl as (Hp & (ny & Hy) & Hl). rewrite bool_decide_eq_false_2 by done.
      unfold load. rewrite Hy. run. cbn [val]. eexists _, _. split; [reflexivity|].
      split; [done|]. apply lookup_delete_eq.
    + destruct Hl as [-> Hl]. rewrite bool_decide_eq_true_2 by done. run.
      apply last_None in E as ->. eexists _, _. split; [reflexivity|].
      split; [done|]. apply lookup_delete_eq.
  - apply Forall_cons in Hne as [Hy Hne]. cbn [snd] in Hy.
    rewrite bool_decide_eq_false_2 by congruence. cbn [m_pNext].
    destruct nx as [nx|]; [|by apply chain_null, app_eq_nil in Hc as [_ [=]]].
    destruct (IH (l1a ++ [(y, w)]) (Some nx) fuel) as (h' & p' & He & Hl' & Hx); try done.
    + by rewrite <- app_assoc.
    + lia.
    + rewrite last_snoc in He. exists h', p'. rewrite <- app_assoc in Hl'. done.
Qed.

(** An identifier in use has its flag set; it is cleared. *)
Lemma destroy_disk_id_spec l1 v l2 :
  disks_ok (l1 ++ v :: l2) -> nDiskId v <> ALL_USB_DISK ->
  mnt_usb_destroy_disk_id (s32 (nDiskId v)) (flags (l1 ++ v :: l2)) = Ret (flags (l1 ++ l2)).
Proof.
  intros [Hnd Hall] Hv. apply Forall_app in Hall as [_ Hall].
  apply Forall_cons in Hall as [[Hr _] _]. destruct Hr as [Hr|]; [|done].
  unfold mnt_usb_destroy_disk_id. rewrite (swrap_small 32) by lia.
  rewrite flags_byte_at by lia. run.
  assert (Hin : ~ id_free (l1 ++ v :: l2) (1 + (nDiskId v - 1))).
  { unfold id_free, ids. intros H. apply H. replace (1 + (nDiskId v - 1)) with (nDiskId v) by lia.
    rewrite map_app. apply elem_of_app. right. by left. }
  rewrite decide_False by done. rewrite bool_decide_eq_true_2 by done.
  rewrite mem_write_one by (rewrite flags_length; lia). f_equal.
  etrans; [|apply (flags_change (l1 ++ v :: l2) (l1 ++ l2) (Z.to_nat (nDiskId v - 1))); [lia|]].
  - rewrite decide_True; [done|]. unfold id_free, ids in *. rewrite map_app in *. cbn [map] in Hnd.
    rewrite filter_app, filter_cons_True in Hnd by done.
    apply NoDup_app in Hnd as (_ & Hdis & H2). apply NoDup_cons in H2 as [H2 _].
    replace (1 + Z.of_nat (Z.to_nat (nDiskId v - 1))) with (nDiskId v) by lia.
    rewrite not_elem_of_app. split.
    + intros H1. apply (Hdis (nDiskId v)); [by apply list_elem_of_filter|by left].
    + intros H1. apply H2. by apply list_elem_of_filter.
  - intros i Hi. unfold id_free, ids. rewrite !map_app. cbn [map].
    rewrite !not_elem_of_app, not_elem_of_cons.
    assert (i <> nDiskId v) by lia. tauto.
Qed.

Lemma disks_ok_remove l1 v l2 : disks_ok (l1 ++ v :: l2) -> disks_ok (l1 ++ l2).
Proof.
  intros [Hnd Hall]. split.
  - unfold ids in *. rewrite map_app, filter_app in *. cbn [map] in Hnd.
    apply NoDup_app in Hnd as (H1 & Hdis & H2). apply NoDup_app. split; [done|].
    assert (Hsub : sublist (filter (fun i => i <> ALL_USB_DISK) (map nDiskId l2))
                     (filter (fun i => i <> ALL_USB_DISK) (nDiskId v :: map nDiskId l2))).
    { rewrite filter_cons. destruct (decide _); [by apply sublist_cons|done]. }
    split; [|by eapply sublist_NoDup].
    intros x Hx Hx2. apply (Hdis x Hx). eapply sublist_subseteq; [exact Hsub|done].
  - apply Forall_app in Hall as [H1 H2]. apply Forall_cons in H2 as [_ H2]. by apply Forall_app.
Qed.

(** The state whose list has the nodes [nodes]. *)
Definition has_nodes (st : usb_state) (nodes : list (nat * St_xl_storage_info)) : Prop :=
  disks_ok nodes.*2 /\ g_DevID st = flags nodes.*2 /\
  is_list (usb_heap st) (g_psUSBDevHead st) nodes.

Lemma represents_nodes st l : represents st l <-> exists nodes, has_nodes st nodes /\ nodes.*2 = l.
Proof.
  unfold represents, has_nodes. split.
  - intros (? & ? & nodes & ? & <-). by exists nodes.
  - intros (nodes & (? & ? & ?) & <-). eauto.
Qed.

(** Another disk with the same identifier does not come before. *)
Lemma disks_ok_before l1 v l2 :
  disks_ok (l1 ++ v :: l2) -> nDiskId v <> ALL_USB_DISK ->
  Forall (fun w => nDiskId w <> nDiskId v) l1.
Proof.
  intros [Hnd _] Hv. apply Forall_forall. intros w Hw Heq. unfold ids in Hnd.
  rewrite map_app, filter_app in Hnd. apply NoDup_app in Hnd as (_ & Hdis & _).
  apply (Hdis (nDiskId w)); apply list_elem_of_filter; (split; [congruence|]).
  - apply list_elem_of_fmap. by exists w.
  - rewrite Heq. by left.
Qed.

(** The disk with identifier [nDiskId v] leaves the list, and its item is gone. *)
Lemma delete_dev_node_spec st n1 x v n2 name :
  has_nodes st (n1 ++ (x, v) :: n2) -> nDiskId v <> ALL_USB_DISK ->
  exists st', mnt_usb_delete_dev_node (Storage (nDiskId v) name) st = Ret (EN_OK, st') /\
    has_nodes st' (n1 ++ n2) /\ usb_queue st' = usb_queue st /\ usb_heap st' !! x = None.
Proof.
  intros (Hok & Hfl & Hl) Hv. destruct st as [d p h q].
  cbn [g_DevID usb_heap g_psUSBDevHead usb_queue] in *.
  unfold mnt_usb_delete_dev_node. cbn [g_psUSBDevHead usb_heap nDiskId].
  pose proof (is_list_size _ _ _ Hl) as Hs.
  destruct p as [p|]; [|by destruct Hl as (Hc & _); apply chain_null, app_eq_nil in Hc as [_ [=]]].
  rewrite fmap_app in Hok, Hfl. cbn [fmap list_fmap snd] in Hok, Hfl.
  destruct (delete_dev_loop_spec (S (size h)) (nDiskId v) d q h (Some p) [] n1 x v n2 (Some p)
              (flags (n1.*2 ++ n2.*2))) as (h' & p' & He & Hl' & Hx); try done.
  - apply Hl.
  - apply disks_ok_before in Hok; [|done]. rewrite Forall_fmap in Hok. exact Hok.
  - rewrite Hfl. by apply destroy_disk_id_spec.
  - rewrite Hs, length_app. lia.
  - eexists. split; [exact He|]. split; [|done]. unfold has_nodes. rewrite fmap_app.
    split; [by apply disks_ok_remove in Hok|]. by split.
Qed.

(** Without a disk of that identifier nothing changes. *)
Lemma delete_dev_loop_none fuel id h cur pre l st :
  usb_heap st = h -> chain h cur l None -> Forall (fun e => nDiskId e.2 <> id) l ->
  l <> [] -> (length l < fuel)%nat ->
  delete_dev_loop fuel id cur pre st = Ret (EN_ERROR_FAILED, st).
Proof.
  intros Hh. revert cur pre fuel. induction l as [|[x v] l IH]; intros cur pre [|fuel] Hc Hne Hnil Hf;
    cbn [length] in Hf; try lia; [done|].
  apply chain_load in Hc as (nx & Hld & Hc). cbn [delete_dev_loop]. rewrite Hh, Hld. run. cbn [val].
  apply Forall_cons in Hne as [Hx Hne]. cbn [snd] in Hx.
  rewrite bool_decide_eq_false_2 by congruence. cbn [m_pNext].
  destruct nx as [nx|]; [|done]. apply IH; [done|done| |lia]. by intros ->.
Qed.

(** An identifier of every disk indexes the flags below their start. *)
Lemma delete_dev_loop_all fuel cur pre l st :
  chain (usb_heap st) cur l None -> Exists (fun e => nDiskId e.2 = ALL_USB_DISK) l ->
  (length l < fuel)%nat -> delete_dev_loop fuel ALL_USB_DISK cur pre st = Fault OutOfBounds.
Proof.
  revert cur pre fuel. induction l as [|[x v] l IH]; intros cur pre [|fuel] Hc Hex Hf;
    cbn [length] in Hf; try lia; [by apply Exists_nil in Hex|].
  apply chain_load in Hc as (nx & Hld & Hc). cbn [delete_dev_loop]. rewrite Hld. run. cbn [val].
  case_bool_decide as Hv; [done|].
  apply Exists_cons in Hex as [Hex|Hex]; [exfalso; apply Hv; by symmetry|]. cbn [m_pNext].
  destruct nx as [nx|]; [apply IH; [done|done|lia]|].
  apply chain_null in Hc as ->. by apply Exists_nil in Hex.
Qed.

(** *** Removal of vanished disks *)

Definition attached (dev : gset string) (v : St_xl_storage_info) : Prop :=
  "/dev/" +:+ szDiskName v ∈ dev.

#[global] Instance attached_dec dev v : Decision (attached dev v).
Proof. unfold attached. apply _. Defined.

Lemma length_dev_name s : String.length ("/dev/" +:+ s) = (5 + String.length s)%nat.
Proof. reflexivity. Qed.

Lemma remove_dev_loop_spec snd_ok dev fuel st n1 n2 cur :
  has_nodes st (n1 ++ n2) -> chain (usb_heap st) cur n2 None -> (length n2 < fuel)%nat ->
  remove_dev_loop snd_ok dev fuel cur 1 st =
  match list_find (fun v => ~ attached dev v) n2.*2 with
  | None => Ret (1, st)
  | Some (_, v) => Fault (if decide (nDiskId v = ALL_USB_DISK) then OutOfBounds else UseAfterFree)
  end.
Proof.
  revert n1 cur fuel. induction n2 as [|[x v] n2 IH]; intros n1 cur [|fuel] Hn Hc Hf;
    cbn [length] in Hf; try lia.
  - cbn [chain] in Hc. by subst cur.
  - assert (Hname : (String.length (szDiskName v) <= 8)%nat).
    { destruct Hn as ([_ Hall] & _). rewrite fmap_app in Hall. apply Forall_app in Hall as [_ Hall].
      apply Forall_cons in Hall as [[_ H] _]. exact H. }
    pose proof Hc as Hc0. apply chain_load in Hc as (nx & Hld & Hc).
    assert (cur = Some x) as -> by (by destruct Hc0). cbn [remove_dev_loop]. rewrite Hld. run.
    cbn [val]. rewrite !fits_ok by (rewrite ?length_dev_name; lia). run.
    rewrite fmap_cons. cbn [snd list_find]. fold (attached dev v).
    destruct (decide (attached dev v)) as [Ha|Ha].
    + rewrite bool_decide_eq_false_2 by (intros H; apply H; by apply access_0). run.
      rewrite Hld. run. cbn [m_pNext]. rewrite decide_False by tauto.
      rewrite (IH (n1 ++ [(x, v)])); [|by rewrite <- app_assoc|done|lia].
      destruct (list_find _ n2.*2) as [[j w]|]; done.
    + rewrite bool_decide_eq_true_2 by (by rewrite access_0). rewrite decide_True by done.
      destruct (send_usb_info snd_ok (usb_queue st)
        (USBInfo EN_USB_RM EN_USB_DEVICE_STORAGE (nDiskId v))) as (e & ->). run.
      cbn [info_nDiskId]. destruct (decide (nDiskId v = ALL_USB_DISK)) as [Hv|Hv].
      * unfold mnt_usb_delete_dev_node. destruct Hn as (_ & _ & Hl).
        pose proof (is_list_size _ _ _ Hl) as Hs. cbn [set_queue g_psUSBDevHead usb_heap nDiskId].
        destruct (g_psUSBDevHead st) as [p|] eqn:Ep;
          [|by destruct Hl as (Hc1 & _); apply chain_null, app_eq_nil in Hc1 as [_ [=]]].
        rewrite Hv. erewrite delete_dev_loop_all; [done|apply Hl| |lia].
        apply Exists_app. right. by left.
      * destruct (delete_dev_node_spec
          (set_queue (posted snd_ok (usb_queue st) [text_of (usb_info_bytes
             (USBInfo EN_USB_RM EN_USB_DEVICE_STORAGE (nDiskId v)))]) st)
          n1 x v n2 (szDiskName v)) as (st' & -> & _ & _ & Hx); [exact Hn|done|]. run.
        unfold load. by rewrite Hx.
Qed.

Lemma remove_dev_node_spec snd_ok dev st l :
  represents st l ->
  mnt_usb_remove_dev_node snd_ok dev st =
  match list_find (fun v => ~ attached dev v) l with
  | None => Ret (if decide (l = []) then 0 else 1, st)
  | Some (_, v) => Fault (if decide (nDiskId v = ALL_USB_DISK) then OutOfBounds else UseAfterFree)
  end.
Proof.
  intros (nodes & Hn & <-)%represents_nodes. unfold mnt_usb_remove_dev_node.
  pose proof Hn as (_ & _ & Hl). pose proof (is_list_size _ _ _ Hl) as Hs.
  destruct (g_psUSBDevHead st) as [p|] eqn:Ep.
  - rewrite (remove_dev_loop_spec snd_ok dev _ st [] nodes); [|done|apply Hl|lia].
    destruct nodes as [|e nodes]; [by destruct Hl as ([=] & _)|].
    destruct (list_find _ _) as [[j v]|]; [done|]. by rewrite decide_False.
  - destruct Hl as (Hc & _). apply chain_null in Hc as ->. done.
Qed.

(** *** Queries *)

Lemma disk_name_loop_spec fuel h id cur l :
  chain h cur l None -> l <> [] -> (length l < fuel)%nat ->
  disk_name_loop fuel h id cur =
  Ret ((fun '(_, v) => szDiskName v) <$> list_find (fun v => nDiskId v = id) l.*2).
Proof.
  revert cur fuel. induction l as [|[x v] l IH]; intros cur [|fuel] Hc Hnil Hf;
    cbn [length] in Hf; try lia; [done|].
  apply chain_load in Hc as (nx & Hld & Hc). cbn [disk_name_loop]. rewrite Hld. run.
  cbn [val m_pNext]. rewrite fmap_cons. cbn [snd list_find].
  case_bool_decide as Hv; [by rewrite decide_True|]. rewrite decide_False by done.
  destruct nx as [nx|].
  - rewrite (IH (Some nx)); [|done| |lia]; [|by intros ->].
    by destruct (list_find _ l.*2) as [[]|].
  - by apply chain_null in Hc as ->.
Qed.

Lemma get_disk_name_spec st l id len :
  represents st l -> (8 < len)%nat ->
  mnt_usb_get_disk_name st id len =
  Ret (match list_find (fun v => nDiskId v = id) l with
       | Some (_, v) => (EN_OK, Some (szDiskName v))
       | None => (EN_ERROR_FAILED, None)
       end).
Proof.
  intros (nodes & ([_ Hall] & _ & Hl) & <-)%represents_nodes Hlen. unfold mnt_usb_get_disk_name.
  pose proof (is_list_size _ _ _ Hl) as Hs.
  destruct (g_psUSBDevHead st) as [p|].
  - rewrite (disk_name_loop_spec _ _ _ _ nodes); [|apply Hl| |lia].
    + run. destruct (list_find _ _) as [[j v]|] eqn:E; cbn; [|done].
      apply list_find_Some in E as (Hv & _).
      apply (Forall_lookup_1 _ _ _ _ Hall) in Hv as [_ Hv]. by rewrite fits_ok by lia.
    + intros ->. by destruct Hl as ([=] & _).
  - destruct Hl as (Hc & _). by apply chain_null in Hc as ->.
Qed.

(** What [mnt_usb_check_disk_id] looks for. *)
Definition answers (id : Z) (v : St_xl_storage_info) : Prop :=
  id = ALL_USB_DISK \/ nDiskId v = id.

#[global] Instance answers_dec id v : Decision (answers id v).
Proof. unfold answers. apply _. Defined.

Lemma check_disk_loop_spec fuel h id cur l :
  chain h cur l None -> l <> [] -> (length l < fuel)%nat ->
  Forall (fun v => nDiskId v > 0) l.*2 ->
  check_disk_loop fuel h id cur =
  Ret (if decide (Exists (answers id) l.*2) then EN_OK else EN_ERROR_FAILED).
Proof.
  revert cur fuel. induction l as [|[x v] l IH]; intros cur [|fuel] Hc Hnil Hf Hpos;
    cbn [length] in Hf; try lia; [done|].
  apply chain_load in Hc as (nx & Hld & Hc). cbn [check_disk_loop]. rewrite Hld. run.
  cbn [val m_pNext]. rewrite fmap_cons in Hpos |- *. cbn [snd] in *.
  apply Forall_cons in Hpos as [Hv Hpos].
  assert (Htest : (if bool_decide (ALL_USB_DISK = id) then bool_decide (nDiskId v > 0)
                   else bool_decide (nDiskId v = id)) = bool_decide (answers id v)).
  { unfold answers. repeat case_bool_decide; try done; intuition congruence. }
  rewrite Htest. clear Htest. destruct (decide (answers id v)) as [Ha|Ha].
  - rewrite bool_decide_eq_true_2 by done. rewrite decide_True; [done|]. by left.
  - rewrite bool_decide_eq_false_2 by done. destruct nx as [nx|].
    + rewrite (IH (Some nx)); [|done| |lia|done]; [|by intros ->].
      do 2 f_equal. apply decide_ext. rewrite Exists_cons. tauto.
    + apply chain_null in Hc as ->. rewrite decide_False; [done|].
      cbn. rewrite Exists_cons, Exists_nil. tauto.
Qed.

Lemma check_disk_id_spec st l id :
  represents st l ->
  mnt_usb_check_disk_id st id =
  Ret (if decide (Exists (answers id) l) then EN_OK else EN_ERROR_FAILED).
Proof.
  intros (nodes & ([_ Hall] & _ & Hl) & <-)%represents_nodes. unfold mnt_usb_check_disk_id.
  pose proof (is_list_size _ _ _ Hl) as Hs.
  destruct (g_psUSBDevHead st) as [p|].
  - apply check_disk_loop_spec; [apply Hl| |lia|].
    + intros ->. by destruct Hl as ([=] & _).
    + eapply Forall_impl; [exact Hall|]. intros v [[Hv|Hv] _]; [lia|]. rewrite Hv.
      unfold ALL_USB_DISK. lia.
  - destruct Hl as (Hc & _). apply chain_null in Hc as ->. rewrite decide_False; [done|].
    intros H. by apply Exists_nil in H.
Qed.

(** *** Kernel messages *)

(** The value of a field [KEY=value]. *)
Definition strip (key f : list Z) : option (list Z) :=
  if decide (key `prefix_of` f) then Some (drop (length key) f) else None.

(** The value of the last field with that key. *)
Definition last_value (key : string) (fields : list (list Z)) : option (list Z) :=
  last (omap (strip (str_bytes key)) fields).

(** Fields as the kernel sends them: each ends with a zero byte. *)
Definition message (fields : list (list Z)) : list Z := concat (map (fun f => f ++ [0]) fields).

Definition field_ok (f : list Z) : Prop := f <> [] /\ Forall (fun c => c <> 0) f.

#[global] Instance field_ok_dec f : Decision (field_ok f).
Proof. unfold field_ok. apply _. Defined.

Lemma c_string_spec s rest : Forall (fun c => c <> 0) s -> c_string (s ++ 0 :: rest) = Ret s.
Proof.
  induction 1 as [|c s Hc Hs IH]; [done|]. cbn [app c_string].
  rewrite bool_decide_eq_false_2, IH by done. done.
Qed.

Lemma skip_string_spec s rest : Forall (fun c => c <> 0) s -> skip_string (s ++ 0 :: rest) = Ret rest.
Proof.
  induction 1 as [|c s Hc Hs IH]; [done|]. cbn [app skip_string].
  by rewrite bool_decide_eq_false_2, IH by done.
Qed.

Lemma strncmp_key_spec key f rest :
  Forall (fun c => c <> 0) key ->
  strncmp_key key (f ++ 0 :: rest) = Ret (bool_decide (key `prefix_of` f)).
Proof.
  intros Hk. revert f. induction Hk as [|k key Hk0 Hk IH]; intros f.
  - rewrite bool_decide_eq_true_2; [done|]. apply prefix_nil.
  - destruct f as [|c f]; cbn [app strncmp_key].
    + rewrite !bool_decide_eq_false_2; [done|apply prefix_nil_not|done].
    + case_bool_decide as Hc.
      * subst c. rewrite IH. f_equal. apply bool_decide_ext.
        split; [apply prefix_cons|apply prefix_cons_inv_2].
      * rewrite bool_decide_eq_false_2; [done|]. intros H. apply Hc. symmetry.
        by eapply prefix_cons_inv_1.
Qed.

(** What one field does to the event. *)
Definition field_event (f : list Z) (ev : luther_gliethttp) : luther_gliethttp :=
  match strip (str_bytes "ACTION=") f with Some v => set_action v ev | None =>
  match strip (str_bytes "SUBSYSTEM=") f with Some v => set_subsystem v ev | None =>
  match strip (str_bytes "PHYSDEVDRIVER=") f with Some v => set_physdevdriver v ev | None =>
  match strip (str_bytes "DEVNAME=") f with Some v => set_devname v ev | None =>
  match strip (str_bytes "PRODUCT=") f with Some v => set_product v ev | None => ev
  end end end end end.

(** The comparison with one key, settled when the field has it. *)
Ltac key_case key :=
  rewrite (strncmp_key_spec (str_bytes key)) by (apply (bool_decide_eq_true_1 _); reflexivity);
  run; let H := fresh in case_bool_decide as H; cbv match;
  [rewrite decide_True by done;
   rewrite drop_app_le by exact (prefix_length _ _ H);
   rewrite c_string_spec by (by apply Forall_drop); run;
   eexists; split; [reflexivity|by apply Forall_drop]
  |rewrite decide_False by done].

Lemma parse_field_spec f rest ev :
  Forall (fun c => c <> 0) f ->
  exists s, parse_field (f ++ 0 :: rest) ev = Ret (s ++ 0 :: rest, field_event f ev) /\
    Forall (fun c => c <> 0) s.
Proof.
  intros Hf. unfold parse_field, field_event, strip. cbv beta zeta.
  key_case "ACTION=". key_case "SUBSYSTEM=". key_case "PHYSDEVDRIVER=".
  key_case "DEVNAME=". key_case "PRODUCT=".
  by eexists.
Qed.

(** Two different keys of the table are not both at the start of a field. *)
Lemma strip_exclusive k1 k2 f v :
  ~ k1 `prefix_of` k2 -> ~ k2 `prefix_of` k1 -> strip k1 f = Some v -> strip k2 f = None.
Proof.
  unfold strip. intros H1 H2. case_decide as Hp1; [|done]. intros _.
  case_decide as Hp2; [|done]. by destruct (prefix_weak_total _ _ _ Hp1 Hp2).
Qed.

Lemma last_value_cons key f fields :
  last_value key (f :: fields) =
  match last_value key fields with Some v => Some v | None => strip (str_bytes key) f end.
Proof.
  unfold last_value. cbn [omap list_omap]. destruct (strip (str_bytes key) f) as [v|].
  - rewrite last_cons. by destruct (last _).
  - by destruct (last _).
Qed.

(** The event after the fields, the later ones first. *)
Definition fields_event (fields : list (list Z)) (ev : luther_gliethttp) : luther_gliethttp :=
  let over key old := match last_value key fields with Some v => v | None => old end in
  let over_ptr key old := match last_value key fields with Some v => Some v | None => old end in
  Luther (over "ACTION=" (action ev)) (path ev) (over "SUBSYSTEM=" (subsystem ev))
    (firmware ev) (over_ptr "DEVNAME=" (devname ev))
    (over_ptr "PHYSDEVDRIVER=" (physdevdriver ev)) (over "PRODUCT=" (product ev))
    (major ev) (minor ev).

Lemma fields_event_cons f fields ev :
  fields_event (f :: fields) ev = fields_event fields (field_event f ev).
Proof.
  unfold fields_event, field_event. rewrite !last_value_cons.
  assert (Hdone : forall k v (P : Prop), strip (str_bytes k) f = Some v ->
            ((forall k2, bool_decide (str_bytes k `prefix_of` str_bytes k2) = false ->
               bool_decide (str_bytes k2 `prefix_of` str_bytes k) = false ->
               strip (str_bytes k2) f = None) -> P) -> P).
  { intros k v P Hv HP. apply HP. intros k2 H1%bool_decide_eq_false H2%bool_decide_eq_false.
    by eapply strip_exclusive. }
  destruct (strip (str_bytes "ACTION=") f) as [v|] eqn:E1; [apply (Hdone _ _ _ E1); intros H;
    rewrite (H "SUBSYSTEM="), (H "PHYSDEVDRIVER="), (H "DEVNAME="), (H "PRODUCT=") by reflexivity|
  destruct (strip (str_bytes "SUBSYSTEM=") f) as [v|] eqn:E2; [apply (Hdone _ _ _ E2); intros H;
    rewrite (H "PHYSDEVDRIVER="), (H "DEVNAME="), (H "PRODUCT=") by reflexivity|
  destruct (strip (str_bytes "PHYSDEVDRIVER=") f) as [v|] eqn:E3; [apply (Hdone _ _ _ E3);
    intros H; rewrite (H "DEVNAME="), (H "PRODUCT=") by reflexivity|
  destruct (strip (str_bytes "DEVNAME=") f) as [v|] eqn:E4; [apply (Hdone _ _ _ E4); intros H;
    rewrite (H "PRODUCT=") by reflexivity|
  destruct (strip (str_bytes "PRODUCT=") f) as [v|] eqn:E5]]]];
  cbn; repeat (destruct (last_value _ fields)); reflexivity.
Qed.

Lemma parse_event_loop_spec fields fuel rest ev :
  Forall field_ok fields -> (length fields < fuel)%nat ->
  parse_event_loop fuel (message fields ++ 0 :: rest) ev = Ret (fields_event fields ev).
Proof.
  intros Hok. revert fuel ev. induction Hok as [|f fields [Hf0 Hf] Hok IH]; intros [|fuel] ev Hfuel;
    cbn [length] in Hfuel; try lia.
  - by destruct ev.
  - unfold message. cbn [map concat]. fold (message fields). rewrite <- !app_assoc. cbn [app].
    destruct f as [|c f]; [done|]. cbn [parse_event_loop].
    rewrite (byte_at_lookup _ 0 c) by done. run. apply Forall_cons in Hf as Hc. destruct Hc as [Hc _].
    rewrite bool_decide_eq_false_2 by done.
    destruct (parse_field_spec (c :: f) (message fields ++ 0 :: rest) ev Hf) as (s & Hs & Hs0).
    rewrite Hs. run. rewrite skip_string_spec by done. run.
    rewrite IH by lia. by rewrite fields_event_cons.
Qed.

Lemma parse_event_spec fields rest :
  Forall field_ok fields ->
  parse_event (message fields ++ 0 :: rest) =
  Ret (fields_event fields (Luther [] [] [] [] None None [] (-1) (-1))).
Proof.
  intros Hok. apply parse_event_loop_spec; [done|]. rewrite length_app. cbn [length].
  assert (length fields <= length (message fields))%nat; [|lia]. clear.
  induction fields as [|f fields IH]; [done|]. unfold message in *. cbn [map concat length].
  rewrite !length_app. cbn [length]. lia.
Qed.

(** *** The threads *)

(** A message that does not make the thread fail leaves the list alone: a
    removal that would change it is undefined. *)
Lemma detect_step_keeps snd_ok dev buf d st d' st' l :
  represents st l -> detect_step snd_ok dev buf d st = Ret (d', st') -> st' = st.
Proof.
  intros Hrep. unfold detect_step. destruct (parse_event buf) as [ev|]; run; [|done].
  destruct (mnt_usb_get_action ev) as [a|]; [|by intros [= _ <-]].
  generalize (new_action a d). intros e. destruct (eSTATE e); try by intros [= _ <-].
  unfold identify_device. destruct (eAction_now e); try by intros [= _ <-].
  - rewrite (remove_dev_node_spec _ _ _ _ Hrep). destruct (list_find _ _) as [[j v]|]; run; [done|].
    by intros [= _ <-].
  - by destruct (tid e); intros [= _ <-].
Qed.

Lemma probe_thread_step_spec snd_ok dev d st l :
  represents st l ->
  exists d' st', probe_thread_step true snd_ok dev d st = Ret (d', st') /\
    mnt_usb_device_probe true snd_ok dev st = Ret (if decide (disk_files dev = []) then 1 else 0, st') /\
    eSTATE d' = eSTATE d /\ tid d' = bool_decide (disk_files dev = []).
Proof.
  intros Hrep. unfold probe_thread_step.
  destruct (device_probe_spec snd_ok dev st l Hrep) as (st' & -> & _). run.
  destruct (decide (disk_files dev = [])) as [E|E].
  - rewrite bool_decide_eq_false_2 by done. rewrite (bool_decide_eq_true_2 _ E).
    case_bool_decide; eauto 10.
  - rewrite bool_decide_eq_true_2 by done. rewrite (bool_decide_eq_false_2 _ E). eauto 10.
Qed.

(** The message sends the thread to the loop over vanished disks. *)
Definition looks_for_vanished (ev : luther_gliethttp) (d : detect_state) : Prop :=
  exists a, mnt_usb_get_action ev = Some a /\ eSTATE (new_action a d) = EN_USB_IDENTIFY_DEVICE /\
    eAction_now (new_action a d) = EN_USB_RM.

Lemma detect_step_spec snd_ok dev buf ev d st l :
  represents st l -> parse_event buf = Ret ev ->
  (exists d', detect_step snd_ok dev buf d st = Ret (d', st)) <->
  ~ (looks_for_vanished ev d /\ Exists (fun v => ~ attached dev v) l).
Proof.
  intros Hrep Hev. unfold detect_step. rewrite Hev. run.
  destruct (mnt_usb_get_action ev) as [a|] eqn:Ea; [|split; [intros _ [(a & Ha & _) _]; congruence|by eexists]].
  assert (Hlook : looks_for_vanished ev d <->
    eSTATE (new_action a d) = EN_USB_IDENTIFY_DEVICE /\ eAction_now (new_action a d) = EN_USB_RM).
  { split; [intros (a' & Ha' & H); congruence|intros H; by exists a]. }
  rewrite Hlook. clear Hlook. generalize (new_action a d). intros e. cbv zeta.
  destruct (eSTATE e); try (split; [intros _ [[? _] _]; discriminate|by eexists]).
  unfold identify_device. destruct (eAction_now e);
    try (split; [intros _ [[_ ?] _]; discriminate|intros _; by repeat case_match; eexists]).
  rewrite (remove_dev_node_spec _ _ _ _ Hrep). destruct (list_find _ l) as [[j v]|] eqn:Ef; run.
  - apply list_find_Some in Ef as (Hj & Hv & _). split; [by intros [? ?]|]. intros H. exfalso. apply H.
    split; [done|]. apply Exists_exists. exists v. split; [by eapply list_elem_of_lookup_2|done].
  - apply list_find_None in Ef. split; [intros _ [_ He]|by eexists]. rewrite Forall_forall in Ef.
    apply Exists_exists in He as (v & Hv & Hd). by apply (Ef v Hv).
Qed.

(** The detection thread on messages that arrive one after another, each with
    the files that exist at the time. *)
Fixpoint detect_run (snd_ok : bool) (evs : list (gset string * list Z))
    (d : detect_state) (st : usb_state) : outcome (detect_state * usb_state) :=
  match evs with
  | [] => Ret (d, st)
  | (dev, buf) :: evs =>
      '(d, st) ← detect_step snd_ok dev buf d st;
      detect_run snd_ok evs d st
  end.

(** The message parses, and is not about a removal. *)
Definition no_removal (buf : list Z) : Prop :=
  match parse_event buf with
  | Ret ev => mnt_usb_get_action ev <> Some EN_USB_RM
  | Fault _ => False
  end.

(** Waiting after a round of additions. *)
Definition standing_by (d : detect_state) : Prop :=
  eSTATE d = EN_USB_STANDBY /\ eAction_pre d = EN_USB_ADD.

Lemma standby_step snd_ok dev buf d st :
  standing_by d -> no_removal buf ->
  exists d', detect_step snd_ok dev buf d st = Ret (d', st) /\ standing_by d' /\ tid d' = tid d.
Proof.
  intros [Hs Hp] Hb. unfold no_removal in Hb. unfold detect_step.
  destruct (parse_event buf) as [ev|]; [|done]. run.
  assert (Hstay : forall a, (if bool_decide (a = EN_USB_CHG) then EN_USB_ADD else a) = EN_USB_ADD ->
    exists d', (let d := new_action a d in
      match eSTATE d with
      | EN_USB_GET_ACTION =>
          Ret (Detect EN_USB_IDENTIFY_DEVICE (eAction_now d) (eAction_now d)
                 (tid d) (probe_cnt d) (thread_cnt d), st)
      | EN_USB_IDENTIFY_DEVICE => identify_device snd_ok dev d st
      | _ => Ret (d, st)
      end) = Ret (d', st) /\ standing_by d' /\ tid d' = tid d).
  { intros a Ha. unfold new_action. rewrite Ha, Hp, bool_decide_eq_false_2 by tauto.
    cbn [eSTATE]. rewrite Hs. by eexists. }
  destruct (mnt_usb_get_action ev) as [[]|] eqn:Ea; try done; try by apply Hstay.
  - unfold mnt_usb_get_action in Ea. repeat case_bool_decide; done.
  - by exists d.
Qed.

Lemma represents_init : represents usb_init_state [].
Proof.
  split; [by repeat constructor|]. split; [done|]. exists []. split; [apply is_list_nil|done].
Qed.

(** The disks are numbered as they were found. *)
Definition numbered (l : list St_xl_storage_info) : Prop :=
  forall i v, l !! i = Some v -> nDiskId v = if decide (i < 128)%nat then Z.of_nat i + 1 else ALL_USB_DISK.

Lemma numbered_free l j : numbered l -> 1 <= j <= 128 -> id_free l j <-> Z.of_nat (length l) < j.
Proof.
  intros Hn Hj. unfold id_free, ids. rewrite list_elem_of_fmap. split.
  - intros H. apply Z.nle_gt. intros Hle. apply H.
    destruct (l !! Z.to_nat (j - 1)) as [v|] eqn:Ev; [|apply lookup_ge_None in Ev; lia].
    exists v. split; [|by eapply list_elem_of_lookup_2]. rewrite (Hn _ _ Ev), decide_True by lia. lia.
  - intros H (v & Hv & (i & Hi)%list_elem_of_lookup_1). pose proof (lookup_lt_Some _ _ _ Hi).
    rewrite (Hn _ _ Hi) in Hv. destruct (decide _); [|unfold ALL_USB_DISK in *]; lia.
Qed.

Lemma numbered_next l : numbered l ->
  next_id l = if decide (length l < 128)%nat then Z.of_nat (length l) + 1 else ALL_USB_DISK.
Proof.
  intros Hn. unfold next_id. destruct (decide (length l < 128)%nat) as [Hl|Hl].
  - rewrite (proj2 (list_find_Some (id_free l) (seqZ 1 128) (length l) (1 + Z.of_nat (length l)))); [lia|].
    split; [by apply lookup_seqZ_lt; lia|]. split; [apply numbered_free; (done || lia)|].
    intros j y Hy Hj. apply lookup_seqZ in Hy as [-> _]. rewrite numbered_free by (done || lia). lia.
  - rewrite (proj2 (list_find_None (id_free l) (seqZ 1 128))); [done|]. apply Forall_forall. intros j Hj%elem_of_seqZ.
    rewrite numbered_free by (done || lia). lia.
Qed.

Lemma numbered_new l names : numbered l -> numbered (l ++ new_disks l names).
Proof.
  revert l. induction names as [|n names IH]; intros l Hn; cbn [new_disks]; [by rewrite app_nil_r|].
  rewrite cons_middle, app_assoc. apply IH. intros i v [Hv|[Hi Hv]]%lookup_app_Some; [by apply Hn|].
  apply list_lookup_singleton_Some in Hv as [Hi0 <-]. cbn [nDiskId]. rewrite numbered_next by done.
  by replace i with (length l) by lia.
Qed.

(** What every reachable state satisfies. *)
Definition held (snd_ok : bool) (st : usb_state) : Prop :=
  exists l, represents st l /\ numbered l /\
    usb_queue st = (if snd_ok then map (usb_message EN_USB_ADD) l else []).

Lemma probe_held snd_ok dev st ret st' :
  mnt_usb_device_probe true snd_ok dev st = Ret (ret, st') -> held snd_ok st -> held snd_ok st'.
Proof.
  intros Hp (l & Hl & Hn & Hq). destruct (device_probe_spec snd_ok dev st l Hl) as (st2 & Hp2 & Hl2 & Hq2).
  rewrite Hp in Hp2. injection Hp2 as -> ->. eexists. split; [done|]. split; [by apply numbered_new|].
  rewrite Hq2, Hq. destruct snd_ok; [|done]. cbn [posted]. by rewrite map_app.
Qed.

Lemma reachable_held snd_ok dev s :
  rtc (usb_step true snd_ok) (System detect_init usb_init_state dev) s -> held snd_ok (sys_usb s).
Proof.
  intros Hr. assert (Hinit : held snd_ok usb_init_state).
  { exists []. split; [apply represents_init|]. split; [by intros i v Hv|by destruct snd_ok]. }
  change usb_init_state with (sys_usb (System detect_init usb_init_state dev)) in Hinit.
  revert Hr Hinit. induction 1 as [s|s1 s2 s3 Hst _ IH]; intros Hs; [done|]. apply IH.
  destruct Hst as [d st dv dv'|d st dv ret st' Hp|d st dv buf d' st' Hd|d st dv d' st' _ Hp]; cbn [sys_usb] in *.
  - done.
  - by eapply probe_held.
  - destruct Hs as (l & Hl & Hq). apply (detect_step_keeps _ _ _ _ _ _ _ _ Hl) in Hd as ->. by exists l.
  - pose proof Hs as (l & Hl & _).
    destruct (probe_thread_step_spec snd_ok dv d st l Hl) as (d2 & st2 & Hp2 & Hpr & _).
    rewrite Hp in Hp2. injection Hp2 as -> ->. by eapply probe_held.
Qed.

(** ** The properties *)

(** C36: a probe of a state that holds the disks [l] adds one disk for each
    device file that exists, listed already or not, gives each the least
    identifier then free, announces them in the same order, and reports whether
    there were any. *)
Theorem device_probe_adds snd_ok dev st l :
  represents st l ->
  exists st', mnt_usb_device_probe true snd_ok dev st =
      Ret (if decide (disk_files dev = []) then 1 else 0, st') /\
    represents st' (l ++ new_disks l (disk_files dev)) /\
    usb_queue st' = posted snd_ok (usb_queue st)
                      (map (usb_message EN_USB_ADD) (new_disks l (disk_files dev))).
Proof. exact (device_probe_spec snd_ok dev st l). Qed.

(** C40: when every listed disk is still there, looking for vanished disks
    changes nothing; as soon as one has gone, the loop goes on from the item it
    has just freed, or, for a disk that had got no identifier, clears a flag in
    front of the table. *)
Theorem vanished_disk_undefined snd_ok dev st l :
  represents st l ->
  mnt_usb_remove_dev_node snd_ok dev st =
  match list_find (fun v => ~ attached dev v) l with
  | None => Ret (if decide (l = []) then 0 else 1, st)
  | Some (_, v) => Fault (if decide (nDiskId v = ALL_USB_DISK) then OutOfBounds else UseAfterFree)
  end.
Proof. exact (remove_dev_node_spec snd_ok dev st l). Qed.

(** C35: What the threads reach, from the start, while the device files come and
    go and the whole iterations of the threads interleave in any order, as long as
    no iteration has been undefined. The list is well formed and holds the disks
    [l] in the order they were found, numbered 1, 2, and so on; from the 129th on
    each has the number of every disk, [ALL_USB_DISK]; the flags set are those of
    the numbers in use. The queue holds one announcement for each disk, in order,
    if [msgsnd] succeeds, and nothing if it fails. From there a probe, by [main] or
    by the probe thread, never faults, and the detection thread, on a message that
    [parse_event] reads to its end, leaves list and queue alone, except when it
    looks for vanished disks and one of [l] has gone: that iteration, and only
    that one, is undefined, so a disk is never taken off the list. *)
Theorem reachable_disks snd_ok dev s :
  rtc (usb_step true snd_ok) (System detect_init usb_init_state dev) s ->
  exists l, represents (sys_usb s) l /\
    (forall i v, l !! i = Some v -> nDiskId v = if decide (i < 128)%nat then Z.of_nat i + 1 else ALL_USB_DISK) /\
    usb_queue (sys_usb s) = (if snd_ok then map (usb_message EN_USB_ADD) l else []) /\
    forall dev',
      (exists r, mnt_usb_device_probe true snd_ok dev' (sys_usb s) = Ret r) /\
      (exists r, probe_thread_step true snd_ok dev' (sys_detect s) (sys_usb s) = Ret r) /\
      forall buf ev, parse_event buf = Ret ev ->
        (exists d, detect_step snd_ok dev' buf (sys_detect s) (sys_usb s) = Ret (d, sys_usb s)) <->
        ~ (looks_for_vanished ev (sys_detect s) /\ Exists (fun v => ~ attached dev' v) l).
Proof.
  intros Hr. destruct (reachable_held _ _ _ Hr) as (l & Hl & Hn & Hq). exists l. do 3 (split; [done|]).
  intros dev'. split; [|split].
  - destruct (device_probe_spec snd_ok dev' _ l Hl) as (st' & -> & _). by eexists.
  - destruct (probe_thread_step_spec snd_ok dev' (sys_detect s) _ l Hl) as (d & st' & -> & _). by eexists.
  - intros buf ev Hev. by apply detect_step_spec.
Qed.

(** C39: once a round of additions is over, whatever the kernel announces other
    than a removal leaves the thread standing by: no probe is started and the
    list stays as it is, so a disk plugged in besides the first one is not
    found. *)
Theorem second_disk_missed snd_ok evs d st :
  standing_by d -> Forall (fun e => no_removal e.2) evs ->
  exists d', detect_run snd_ok evs d st = Ret (d', st) /\ standing_by d' /\ tid d' = tid d.
Proof.
  intros Hs Hevs. revert d Hs. induction Hevs as [|[dev buf] evs Hb Hevs IH]; intros d Hs.
  - by exists d.
  - cbn [detect_run]. destruct (standby_step snd_ok dev buf d st Hs Hb) as (d1 & -> & Hs1 & Ht1).
    run. destruct (IH d1 Hs1) as (d2 & -> & Hs2 & Ht2). exists d2. split; [done|].
    split; [done|congruence].
Qed.

(** The kernel's message is parsed into the last value of each key, whatever
    the other fields are and whatever follows the message in the buffer. *)
Theorem uevent_fields fields rest :
  Forall field_ok fields ->
  exists ev, parse_event (message fields ++ 0 :: rest) = Ret ev /\
    action ev = default [] (last_value "ACTION=" fields) /\
    subsystem ev = default [] (last_value "SUBSYSTEM=" fields) /\
    product ev = default [] (last_value "PRODUCT=" fields) /\
    devname ev = last_value "DEVNAME=" fields /\
    physdevdriver ev = last_value "PHYSDEVDRIVER=" fields.
Proof.
  intros Hok. eexists. split; [by apply parse_event_spec|]. cbn.
  repeat (destruct (last_value _ fields)); done.
Qed.

(** ** Instances *)

Definition sample_dev : gset string := {["/dev/sdb"; "/dev/mmcblk0"; "/dev/null"]}.

Lemma sample_files : disk_files sample_dev = ["sdb"; "mmcblk0"].
Proof. vm_compute. reflexivity. Qed.

Lemma device_probe_adds_witness :
  exists st, mnt_usb_device_probe true true sample_dev usb_init_state = Ret (0, st) /\
    represents st [Storage 1 "sdb"; Storage 2 "mmcblk0"] /\ length (usb_queue st) = 2%nat.
Proof.
  destruct (device_probe_adds true sample_dev usb_init_state [] represents_init)
    as (st & H1 & H2 & H3).
  rewrite sample_files in H1, H2, H3. exists st. split; [exact H1|]. split; [exact H2|].
  rewrite H3. reflexivity.
Defined.

Lemma vanished_disk_undefined_witness :
  exists st, represents st [Storage 1 "sdb"; Storage 2 "mmcblk0"] /\
    mnt_usb_remove_dev_node true {["/dev/sdb"]} st = Fault UseAfterFree.
Proof.
  destruct (device_probe_spec true sample_dev usb_init_state [] represents_init)
    as (st & _ & H & _).
  rewrite sample_files in H. exists st. split; [exact H|].
  rewrite (vanished_disk_undefined true {["/dev/sdb"]} st _ H). vm_compute. reflexivity.
Defined.

Definition add_uevent : list Z :=
  message (map str_bytes ["add@/devices/usb1"; "ACTION=add"; "SUBSYSTEM=block"; "DEVNAME=sda1"])
    ++ replicate 20 0.

Definition rm_uevent : list Z :=
  message (map str_bytes ["remove@/devices/usb1"; "ACTION=remove"; "SUBSYSTEM=block"; "DEVNAME=sda1"])
    ++ replicate 20 0.

(** After a probe of two disks, one of which then goes: the state is reachable, and
    the thread leaves it alone on a first message about a removal. *)
Lemma reachable_disks_witness :
  exists s, rtc (usb_step true true) (System detect_init usb_init_state sample_dev) s /\
    exists l, represents (sys_usb s) l /\ (length l = 2)%nat /\ usb_queue (sys_usb s) = map (usb_message EN_USB_ADD) l /\
      exists d, detect_step true ∅ rm_uevent (sys_detect s) (sys_usb s) = Ret (d, sys_usb s).
Proof.
  destruct (device_probe_spec true sample_dev usb_init_state [] represents_init) as (st & H1 & _ & H3).
  rewrite sample_files in H3. set (s := System detect_init st sample_dev).
  assert (Hr : rtc (usb_step true true) (System detect_init usb_init_state sample_dev) s)
    by (apply rtc_once; by eapply step_init).
  exists s. split; [exact Hr|]. destruct (reachable_disks true sample_dev s Hr) as (l & Hl & _ & Hq & Hstep).
  exists l. split; [exact Hl|]. split; [|split; [exact Hq|]].
  - apply (f_equal length) in Hq. rewrite length_map in Hq. rewrite <- Hq. cbn [sys_usb s]. by rewrite H3.
  - destruct (Hstep ∅) as (_ & _ & Hev). eapply (Hev rm_uevent); [vm_compute; reflexivity|].
    intros [(a & _ & Hs & _) _]. by destruct a.
Defined.

Lemma second_disk_missed_witness :
  exists d, detect_run true [(∅, add_uevent); (∅, add_uevent)] detect_init usb_init_state
            = Ret (d, usb_init_state) /\
    exists d', detect_run true [({["/dev/sda"]}, add_uevent)] d usb_init_state
               = Ret (d', usb_init_state) /\ standing_by d' /\ tid d' = tid d.
Proof.
  eexists. split; [vm_compute; reflexivity|].
  apply (second_disk_missed true); [by split|]. repeat constructor. vm_compute. discriminate.
Defined.

Lemma uevent_fields_witness :
  exists ev, parse_event add_uevent = Ret ev /\ action ev = str_bytes "add" /\
    devname ev = Some (str_bytes "sda1").
Proof.
  destruct (uevent_fields
    (map str_bytes ["add@/devices/usb1"; "ACTION=add"; "SUBSYSTEM=block"; "DEVNAME=sda1"])
    (replicate 19 0)) as (ev & H1 & H2 & _ & _ & H3 & _).
  - apply (bool_decide_eq_true_1 _). vm_compute. reflexivity.
  - exists ev. split; [exact H1|]. split; [exact H2|exact H3].
Defined.
