(* ===== verification/UsbPart.v ===== *)
(** * The partition list of the USB manager

    [C/xunlei_test/xl_usb_mng.c]: the thread that receives the announcements of
    the disk list, the per-disk threads that look for mounted partitions, the
    list of partitions they keep, and the queries other modules make of it. *)

From stdpp Require Import pretty.
From S2P Require Import Prelude XlCommon Codec Heap UsbDevice.

(** ** Data *)

(** Character arrays are kept as the bytes of the string they hold. *)
(* @src C/xunlei_test/xl_mnt.h:66-77 St_xl_partition_info *)
Record St_xl_partition_info := PartInfo {
  nUSBDiskId : Z;
  bMounted : Z;
  szMountDir : list Z;
  szVolume : list Z;
  u64Capacity : Z;
  u64Used : Z;
  nPatitionId : Z;
  szPartName : string;
  nMapIndex : Z;
}.

#[global] Instance St_xl_partition_info_eq_dec : EqDecision St_xl_partition_info.
Proof. solve_decision. Defined.

(** A slot of [s_UsbThread]; [run_tid] says whether a thread was started. *)
(* @src C/xunlei_test/xl_usb_mng.c:24-30 St_usb_query_thread *)
Record St_usb_query_thread := QueryThread {
  pUsbInfo : option (list Z);
  run_tid : bool;
  nRunState : Z;
  detect_stat : EN_MNT_USB_STATE;
}.

(* @src C/xunlei_test/xl_usb_mng.c:47-50 s_psPartHead *)
Record part_state := PartState {
  s_psPartHead : option nat;
  part_heap : heap St_xl_partition_info;
  s_UsbThread : list St_usb_query_thread;
  nPresize : Z;
}.

Definition part_init_state : part_state :=
  PartState None ∅ (replicate 128 (QueryThread None false 0 EN_MNT_USB_NONE)) 0.

Definition set_parts p h (st : part_state) : part_state :=
  PartState p h (s_UsbThread st) (nPresize st).
Definition set_thread ts (st : part_state) : part_state :=
  PartState (s_psPartHead st) (part_heap st) ts (nPresize st).
Definition set_presize n (st : part_state) : part_state :=
  PartState (s_psPartHead st) (part_heap st) (s_UsbThread st) n.

(** [s_UsbThread[i]]. *)
Definition slot_at (ts : list St_usb_query_thread) (i : Z) : outcome St_usb_query_thread :=
  if bool_decide (0 <= i) then
    match ts !! Z.to_nat i with Some t => Ret t | None => Fault OutOfBounds end
  else Fault OutOfBounds.

(** A change of one slot. *)
Definition set_slot (i : Z) (t : St_usb_query_thread) (ts : list St_usb_query_thread)
    : list St_usb_query_thread := <[Z.to_nat i := t]> ts.

(** ** The list of partitions *)

Section Operations.

(** Whether [malloc] finds memory. *)
Variable memory : bool.

(** Filling an empty list; [pre] is [psPreTmpNode]. *)
(* @src C/xunlei_test/xl_usb_mng.c:645-675 mnt_usb_insert_partition_list *)
Fixpoint insert_first (i : nat) (ps : list St_xl_partition_info) (pre : option nat)
    (st : part_state) : outcome (EN_ERROR_NUM * part_state) :=
  match ps with
  | [] => Ret (EN_OK, st)
  | p :: ps =>
      if negb memory then Ret (EN_ERROR_NO_MEMORY, st) else
      let '(psTmpNode, h) := malloc (part_heap st) (MkNode p None) in
      h ← (match pre with
           | None => Ret h
           | Some _ => '(y, n) ← load h pre; Ret (store h y (MkNode (val n) (Some psTmpNode)))
           end);
      let st := set_parts (if bool_decide (i = 0%nat) then Some psTmpNode
                           else s_psPartHead st) h st in
      insert_first (S i) ps (Some psTmpNode) st
  end.

(** The key of a partition. *)
Definition same_part (p q : St_xl_partition_info) : Prop :=
  nUSBDiskId q = nUSBDiskId p /\ nPatitionId q = nPatitionId p.

#[global] Instance same_part_dec p q : Decision (same_part p q).
Proof. unfold same_part. apply _. Defined.

(** Putting one partition into a list that is not empty: over the node with its
    key, or in a new node at the end. *)
(* @src C/xunlei_test/xl_usb_mng.c:681-706 mnt_usb_insert_partition_list *)
Fixpoint insert_walk (fuel : nat) (h : heap St_xl_partition_info) (psPreTmpNode : option nat)
    (p : St_xl_partition_info) : outcome (heap St_xl_partition_info) :=
  match fuel with
  | O => Fault OutOfFuel
  | S fuel =>
      '(x, n) ← load h psPreTmpNode;
      if bool_decide (same_part p (val n)) then Ret (store h x (MkNode p (m_pNext n))) else
      match m_pNext n with
      | None =>
          if negb memory then Fault NullDeref else
          let '(y, h) := malloc h (MkNode p None) in
          Ret (store h x (MkNode (val n) (Some y)))
      | Some _ => insert_walk fuel h (m_pNext n) p
      end
  end.

Fixpoint insert_each (ps : list St_xl_partition_info) (st : part_state) : outcome part_state :=
  match ps with
  | [] => Ret st
  | p :: ps =>
      h ← insert_walk (S (size (part_heap st))) (part_heap st) (s_psPartHead st) p;
      insert_each ps (set_parts (s_psPartHead st) h st)
  end.

(** [nCnt] is the number of elements of [psPartition]. *)
(* @src C/xunlei_test/xl_usb_mng.c:628-710 mnt_usb_insert_partition_list *)
Definition mnt_usb_insert_partition_list (psPartition : list St_xl_partition_info)
    (st : part_state) : outcome (EN_ERROR_NUM * part_state) :=
  if bool_decide (0 >= Z.of_nat (length psPartition)) then Ret (EN_ERR_PARA, st) else
  match s_psPartHead st with
  | None => insert_first 0 psPartition None st
  | Some _ => st ← insert_each psPartition st; Ret (EN_OK, st)
  end.

(** The loop of [mnt_usb_delete_partitions_from_list]: the node after the one
    removed is read from it after [free]. *)
(* @src C/xunlei_test/xl_usb_mng.c:376-400 mnt_usb_delete_partitions_from_list *)
Fixpoint delete_parts_loop (fuel : nat) (nUSBDiskID : Z) (pTmpNode pTmpPreNode : option nat)
    (st : part_state) : outcome part_state :=
  match pTmpNode, fuel with
  | None, _ => Ret st
  | Some _, O => Fault OutOfFuel
  | Some _, S fuel =>
      '(x, n) ← load (part_heap st) pTmpNode;
      if bool_decide (nUSBDiskId (val n) = nUSBDiskID) then
        '(p, h, pre) ←
          (if bool_decide (s_psPartHead st = Some x)
           then Ret (m_pNext n, part_heap st, None)
           else '(y, ny) ← load (part_heap st) pTmpPreNode;
                Ret (s_psPartHead st, store (part_heap st) y (MkNode (val ny) (m_pNext n)),
                     pTmpPreNode));
        let st := set_parts p (free h x) st in
        '(_, n) ← load (part_heap st) (Some x);
        delete_parts_loop fuel nUSBDiskID (m_pNext n) pre st
      else delete_parts_loop fuel nUSBDiskID (m_pNext n) (Some x) st
  end.

(* @src C/xunlei_test/xl_usb_mng.c:364-403 mnt_usb_delete_partitions_from_list *)
Definition mnt_usb_delete_partitions_from_list (nUSBDiskID : Z) (st : part_state)
    : outcome (EN_ERROR_NUM * part_state) :=
  st ← delete_parts_loop (S (size (part_heap st))) nUSBDiskID (s_psPartHead st) None st;
  Ret (EN_ERROR_FAILED, st).

(** ** Reading the list *)

(** The test of the loops below; [kind] is ["/dev/sd"] or ["/dev/mmc"]. *)
(* @src C/xunlei_test/xl_usb_mng.c:931-934 mnt_usb_get_partition_count *)
Definition part_matches (kind : string) (nUSBDiskID : Z) (p : St_xl_partition_info) : bool :=
  String.prefix kind (szPartName p) &&
  (bool_decide (ALL_USB_DISK = nUSBDiskID) || bool_decide (nUSBDiskId p = nUSBDiskID)) &&
  bool_decide (0 < nUSBDiskId p).

Fixpoint count_loop (fuel : nat) (h : heap St_xl_partition_info) (kind : string)
    (nUSBDiskID : Z) (pTmpNode : option nat) (nPartCnt : Z) : outcome Z :=
  match pTmpNode, fuel with
  | None, _ => Ret nPartCnt
  | Some _, O => Fault OutOfFuel
  | Some _, S fuel =>
      '(x, n) ← load h pTmpNode;
      count_loop fuel h kind nUSBDiskID (m_pNext n)
        (if part_matches kind nUSBDiskID (val n) then u32 (nPartCnt + 1) else nPartCnt)
  end.

(* @src C/xunlei_test/xl_usb_mng.c:917-941 mnt_usb_get_partition_count *)
Definition mnt_usb_get_partition_count (st : part_state) (nUSBDiskID : Z) : outcome Z :=
  count_loop (S (size (part_heap st))) (part_heap st) "/dev/sd" nUSBDiskID (s_psPartHead st) 0.

(* @src C/xunlei_test/xl_usb_mng.c:942-966 mnt_sdcard_get_partition_count *)
Definition mnt_sdcard_get_partition_count (st : part_state) (nUSBDiskID : Z) : outcome Z :=
  count_loop (S (size (part_heap st))) (part_heap st) "/dev/mmc" nUSBDiskID (s_psPartHead st) 0.

(** Copying the matching partitions into an array of [nPartCnt] elements;
    [out] are the elements written so far. *)
(* @src C/xunlei_test/xl_usb_mng.c:327-349 mnt_usb_read_partition_from_list *)
Fixpoint read_loop (fuel : nat) (h : heap St_xl_partition_info) (kind : string)
    (nUSBDiskID nPartCnt : Z) (pTmpNode : option nat) (out : list St_xl_partition_info)
    (eError : EN_ERROR_NUM) : outcome (EN_ERROR_NUM * list St_xl_partition_info) :=
  match pTmpNode, fuel with
  | None, _ => Ret (eError, out)
  | Some _, O => Fault OutOfFuel
  | Some _, S fuel =>
      '(x, n) ← load h pTmpNode;
      if part_matches kind nUSBDiskID (val n) then
        _ ← require (bool_decide (Z.of_nat (length out) < nPartCnt)) OutOfBounds;
        let out := out ++ [val n] in
        if bool_decide (Z.of_nat (length out) > nPartCnt) then Ret (EN_ERROR_FAILED, out)
        else read_loop fuel h kind nUSBDiskID nPartCnt (m_pNext n) out EN_OK
      else read_loop fuel h kind nUSBDiskID nPartCnt (m_pNext n) out eError
  end.

Definition read_from_list (kind : string) (st : part_state) (nUSBDiskID nPartCnt : Z)
    : outcome (EN_ERROR_NUM * list St_xl_partition_info) :=
  match s_psPartHead st with
  | None => Ret (EN_NULL_P, [])
  | Some _ => read_loop (S (size (part_heap st))) (part_heap st) kind nUSBDiskID nPartCnt
                (s_psPartHead st) [] EN_ERROR_FAILED
  end.

(* @src C/xunlei_test/xl_usb_mng.c:318-351 mnt_usb_read_partition_from_list *)
Definition mnt_usb_read_partition_from_list := read_from_list "/dev/sd".

(* @src C/xunlei_test/xl_usb_mng.c:214-247 mnt_sdcard_read_partition_from_list *)
Definition mnt_sdcard_read_partition_from_list := read_from_list "/dev/mmc".

(** What a read gives back: the result, [*pnCnt] if it was stored, and the
    array, if any. *)
Record read_result := ReadResult {
  rd_error : EN_ERROR_NUM;
  rd_cnt : option Z;
  rd_data : option (list St_xl_partition_info);
}.

(** The body shared by the two functions, which differ in the calls they make. *)
Definition read_partition
    (count : part_state -> Z -> outcome Z)
    (read : part_state -> Z -> Z -> outcome (EN_ERROR_NUM * list St_xl_partition_info))
    (usb : usb_state) (st : part_state) (nUSBDiskID : Z) : outcome read_result :=
  eError ← mnt_usb_check_disk_id usb nUSBDiskID;
  if bool_decide (eError <> EN_OK) then Ret (ReadResult EN_ERROR_UNKNOW (Some 0) None) else
  nPartitionCnt ← count st nUSBDiskID;
  if bool_decide (nPartitionCnt = 0)
  then Ret (ReadResult EN_ERROR_FAILED (Some nPartitionCnt) None) else
  if negb memory then Ret (ReadResult EN_ERROR_NO_MEMORY None None) else
  '(eError, data) ← read st nUSBDiskID nPartitionCnt;
  Ret (ReadResult eError (Some nPartitionCnt) (Some data)).

(* @src C/xunlei_test/xl_usb_mng.c:262-316 mnt_usb_read_partition *)
Definition mnt_usb_read_partition :=
  read_partition mnt_usb_get_partition_count mnt_usb_read_partition_from_list.

(* @src C/xunlei_test/xl_usb_mng.c:158-212 mnt_sdcard_read_partition *)
Definition mnt_sdcard_read_partition :=
  read_partition mnt_sdcard_get_partition_count mnt_sdcard_read_partition_from_list.

(* @src C/xunlei_test/xl_usb_mng.c:1343-1355 mnt_is_usb_insert *)
Definition mnt_is_usb_insert (st : part_state) : outcome bool :=
  nPartitionCnt ← mnt_usb_get_partition_count st ALL_USB_DISK;
  Ret (negb (bool_decide (nPartitionCnt = 0))).

End Operations.

(** ** The system underneath

    What the module asks of the kernel and the shell. *)

(** [statfs] of a directory. *)
Record statfs_info := Statfs {
  f_type : Z;
  f_bsize : Z;
  f_blocks : Z;
  f_bfree : Z;
}.

Record environment := Env {
  env_dev : gset string;               (* the files under /dev *)
  env_block : gset string;             (* the directories under /sys/block *)
  mount_log : string -> option (list Z); (* what [cat /proc/mounts | grep disk] leaves
                                            in the log of the disk *)
  statfs : list Z -> option statfs_info;
  device_bytes : string -> option (list Z); (* what [fopen] of a partition reads *)
}.

(** ** Partitions under /dev *)

(** One of the two loops of [mnt_usb_get_partition_cnt]; [sep] comes between the
    disk and the number. *)
(* @src C/xunlei_test/xl_usb_mng.c:438-450 mnt_usb_get_partition_cnt *)
Fixpoint partition_loop (n : nat) (dev : gset string) (dev_name sep : string)
    (nIndex nCount max_index : Z) : Z * Z :=
  match n with
  | O => (nCount, max_index)
  | S n =>
      if bool_decide (access dev ("/dev/" +:+ dev_name +:+ sep +:+ pretty nIndex) = 0)
      then partition_loop n dev dev_name sep (nIndex + 1) (nCount + 1) nIndex
      else partition_loop n dev dev_name sep (nIndex + 1) nCount max_index
  end.

(** The result and [*pMaxPartIndex], which is left alone on failure. *)
(* @src C/xunlei_test/xl_usb_mng.c:415-473 mnt_usb_get_partition_cnt *)
Definition mnt_usb_get_partition_cnt (env : environment) (dev_name : string)
    (pMaxPartIndex : Z) : Z * Z :=
  if bool_decide (("/sys/block/" +:+ dev_name) ∉ env_block env) then (-1, pMaxPartIndex) else
  if String.prefix "sd" dev_name then partition_loop 64 (env_dev env) dev_name "" 0 0 0
  else if String.prefix "mmcblk" dev_name then partition_loop 64 (env_dev env) dev_name "p" 0 0 0
  else (0, 0).

(** ** The mount log *)

(** At most [n] bytes, up to and with the end of the line. *)
Fixpoint take_line (n : nat) (s : list Z) : list Z * list Z :=
  match n, s with
  | S n, c :: s =>
      if bool_decide (c = 10) then ([c], s)
      else let '(line, rest) := take_line n s in (c :: line, rest)
  | _, _ => ([], s)
  end.

(** [fgets(buf, n, fd)]: the line read and the rest of the file. *)
Definition fgets (n : nat) (fd : list Z) : option (list Z * list Z) :=
  match fd with [] => None | _ => Some (take_line (n - 1) fd) end.

(** [strchr(s, c)] as an offset; [s] ends at its first zero byte. *)
Fixpoint strchr (c : Z) (s : list Z) : option nat :=
  match s with
  | [] => None
  | x :: s =>
      if bool_decide (x = c) then Some O
      else if bool_decide (x = 0) then None
      else S <$> strchr c s
  end.

(** [strncpy(dst, s, info - s)] into a cleared array of [size] bytes, [info] a
    pointer into [s]. A null [info] makes the length enormous, and an array
    filled to the end is not a string any more: both leave the array. *)
Definition copy_word (size : nat) (s : list Z) (info : option nat) : outcome (list Z) :=
  match info with
  | None => Fault OutOfBounds
  | Some n => _ ← require (bool_decide (n < size)%nat) OutOfBounds; Ret (take n s)
  end.

(** [None]: not the line of this partition. *)
(* @src C/xunlei_test/xl_usb_mng.c:772-800 parsing_mount_log *)
Definition parsing_mount_log (buf : list Z) (szPartName : string) : outcome (option (list Z)) :=
  let info := strchr 32 buf in
  devname ← copy_word 32 buf info;
  if bool_decide (devname = str_bytes szPartName) then
    let tmpbuf := drop (S (length devname)) buf in
    dir ← copy_word 256 tmpbuf (strchr 32 tmpbuf);
    Ret (Some dir)
  else Ret None.

(** The mount directory and its line number. *)
(* @src C/xunlei_test/xl_usb_mng.c:739-756 mnt_usb_get_mount_path *)
Fixpoint mount_path_loop (fuel : nat) (fd : list Z) (szPartName : string) (i : Z)
    : outcome (option (list Z * Z)) :=
  match fuel with
  | O => Fault OutOfFuel
  | S fuel =>
      match fgets 1024 fd with
      | None => Ret None
      | Some (buf, fd) =>
          eError ← parsing_mount_log buf szPartName;
          match eError with
          | Some dir => Ret (Some (dir, i))
          | None => mount_path_loop fuel fd szPartName (i + 1)
          end
      end
  end.

(* @src C/xunlei_test/xl_usb_mng.c:723-759 mnt_usb_get_mount_path *)
Definition mnt_usb_get_mount_path (env : environment) (szDevName szPartName : string)
    : outcome (option (list Z * Z)) :=
  match mount_log env szDevName with
  | None => Ret None
  | Some fd => mount_path_loop (S (length fd)) fd szPartName 0
  end.

(** [-1] converted to [unsigned long] when the file is not there, then to
    [int]. *)
(* @src C/xunlei_test/xl_usb_mng.c:858-871 get_file_size *)
Definition get_file_size (file : option (list Z)) : Z :=
  match file with Some s => u64 (Z.of_nat (length s)) | None => u64 (-1) end.

(** [EN_OK] when the log is there and its size is not the one seen last; the
    size is kept in a static variable, one for all disks. *)
(* @src C/xunlei_test/xl_usb_mng.c:812-856 mnt_usb_create_mount_log *)
Definition mnt_usb_create_mount_log (env : environment) (szDiskName : string) (nDiskId : Z)
    (st : part_state) : outcome (EN_ERROR_NUM * part_state) :=
  t ← slot_at (s_UsbThread st) nDiskId;
  let st :=
    if bool_decide (detect_stat t = EN_MNT_USB_PLUG_IN) then
      set_presize 0 (set_thread (set_slot nDiskId
        (QueryThread (pUsbInfo t) (run_tid t) (nRunState t) EN_MNT_USB_NONE)
        (s_UsbThread st)) st)
    else st in
  let nNowsize := s32 (get_file_size (mount_log env szDiskName)) in
  if bool_decide (0 >= nNowsize) then Ret (EN_ERROR_FAILED, st)
  else Ret (if bool_decide (nPresize st <> nNowsize) then EN_OK else EN_ERROR_FAILED,
            set_presize nNowsize st).

(** ** Space and label *)

(** [*pu64Total] and [*pu64Used]. *)
(* @src C/xunlei_test/xl_usb_mng.c:884-906 mnt_usb_read_partition_space *)
Definition mnt_usb_read_partition_space (env : environment) (szDir : list Z)
    : option (Z * Z) :=
  match statfs env szDir with
  | None => None
  | Some fs =>
      let freespace := swrap 64 (f_bfree fs * f_bsize fs) in
      let totalspace := swrap 64 (f_blocks fs * f_bsize fs) in
      Some (totalspace, swrap 64 (totalspace - freespace))
  end.

Definition EXT3_SUPER_MAGIC : Z := 0xEF53.
Definition MSDOS_SUPER_MAGIC : Z := 0x4d44.
Definition NTFS_SB_MAGIC : Z := 0x5346544e.
Definition NTFS_MAGIC : Z := 0x65735546.

(** The bytes before the first zero. *)
Fixpoint upto_zero (s : list Z) : list Z :=
  match s with
  | [] => []
  | c :: s => if bool_decide (c = 0) then [] else c :: upto_zero s
  end.

(** The sixteen bytes at 0x478; the array stays zero when there are fewer. *)
(* @src C/xunlei_test/xl_usb_mng.c:1039-1057 ext3_get_label *)
Definition ext3_get_label (env : environment) (szPartName : string) : option (list Z) :=
  match device_bytes env szPartName with
  | None => None
  | Some s =>
      let lable := take 16 (drop 0x478 s) in
      Some (upto_zero lable)
  end.

(* @src C/xunlei_test/xl_usb_mng.c:1094-1097 fat32_get_label *)
Definition fat32_get_label : option (list Z) := Some (str_bytes "ntfslabel").

(* @src C/xunlei_test/xl_usb_mng.c:1145-1149 ntfs_get_label *)
Definition ntfs_get_label : option (list Z) := Some (str_bytes "ntfslabel").

(** The label stored, if any. *)
(* @src C/xunlei_test/xl_usb_mng.c:979-1026 mnt_usb_get_label *)
Definition mnt_usb_get_label (env : environment) (szDir : list Z) (szPartName : string)
    : option (list Z) :=
  match statfs env szDir with
  | None => None
  | Some fs =>
      if bool_decide (f_type fs = EXT3_SUPER_MAGIC) then ext3_get_label env szPartName
      else if bool_decide (f_type fs = MSDOS_SUPER_MAGIC) then fat32_get_label
      else if bool_decide (f_type fs = NTFS_SB_MAGIC) || bool_decide (f_type fs = NTFS_MAGIC)
      then ntfs_get_label
      else Some (str_bytes "unknow label")
  end.

(** ** Looking for partitions *)

(** The name of partition [nPartitionIndex] of a disk. *)
Definition part_name (szDiskName : string) (nPartitionIndex : Z) : string :=
  if String.prefix "sd" szDiskName then "/dev/" +:+ szDiskName +:+ pretty nPartitionIndex
  else "/dev/" +:+ szDiskName +:+ "p" +:+ pretty nPartitionIndex.

(** What is recorded of a partition that exists: [old] is what the array
    element held, [map_index] the index found last. *)
(* @src C/xunlei_test/xl_usb_mng.c:548-583 mnt_usb_detect_partition *)
Definition record_partition (env : environment) (nDiskID : Z) (szDiskName : string)
    (nPartitionIndex map_index : Z) (old : St_xl_partition_info)
    : outcome (St_xl_partition_info * Z) :=
  let name := part_name szDiskName nPartitionIndex in
  path ← mnt_usb_get_mount_path env szDiskName name;
  Ret match path with
      | None =>
          (PartInfo nDiskID DISK_UNMOUNTED [] (szVolume old) (u64Capacity old) (u64Used old)
             nPartitionIndex name (nMapIndex old), map_index)
      | Some (dir, map_index) =>
          let '(total, used) := default (u64Capacity old, u64Used old)
                                  (mnt_usb_read_partition_space env dir) in
          let label := default (szVolume old) (mnt_usb_get_label env dir name) in
          (PartInfo nDiskID DISK_MOUNTED dir label (u64 total) (u64 used)
             nPartitionIndex name map_index, map_index)
      end.

(** The [do] loop: [arr] is the array, [n] the number of its elements filled. *)
(* @src C/xunlei_test/xl_usb_mng.c:533-598 mnt_usb_detect_partition *)
Fixpoint detect_loop (fuel : nat) (env : environment) (nDiskID : Z) (szDiskName : string)
    (nPartitionIndex nMaxPartitionIndex map_index : Z) (n : nat)
    (arr : list St_xl_partition_info) : outcome (list St_xl_partition_info) :=
  match fuel with
  | O => Fault OutOfFuel
  | S fuel =>
      let name := part_name szDiskName nPartitionIndex in
      _ ← fits 32 name;
      match arr !! n with
      | None => Fault OutOfBounds
      | Some old =>
          if bool_decide (access (env_dev env) name = 0) then
            '(p, map_index) ← record_partition env nDiskID szDiskName nPartitionIndex map_index old;
            let arr := <[n := p]> arr in
            if bool_decide (length arr <= S n)%nat then Ret arr else
            if bool_decide (nPartitionIndex + 1 <= nMaxPartitionIndex)
            then detect_loop fuel env nDiskID szDiskName (nPartitionIndex + 1)
                   nMaxPartitionIndex map_index (S n) arr
            else Ret arr
          else
            let arr := <[n := PartInfo (nUSBDiskId old) (bMounted old) (szMountDir old)
                         (szVolume old) (u64Capacity old) (u64Used old) (nPatitionId old)
                         name (nMapIndex old)]> arr in
            if bool_decide (nPartitionIndex + 1 <= nMaxPartitionIndex)
            then detect_loop fuel env nDiskID szDiskName (nPartitionIndex + 1)
                   nMaxPartitionIndex map_index n arr
            else Ret arr
      end
  end.

(** [junk] is what the memory from [malloc] holds: only its first eight bytes,
    the first two fields of the first element, are cleared. *)
(* @src C/xunlei_test/xl_usb_mng.c:485-615 mnt_usb_detect_partition *)
Definition mnt_usb_detect_partition (memory : bool) (env : environment)
    (junk : nat -> St_xl_partition_info) (usb : usb_state) (nDiskID : Z) (st : part_state)
    : outcome (EN_ERROR_NUM * part_state) :=
  '(eError, name) ← mnt_usb_get_disk_name usb nDiskID 32;
  match name with
  | None => Ret (eError, st)
  | Some szDiskName =>
      '(eError, st) ← mnt_usb_create_mount_log env szDiskName nDiskID st;
      if bool_decide (eError <> EN_OK) then Ret (eError, st) else
      let '(nPartitionCnt, nMaxPartitionIndex) :=
        mnt_usb_get_partition_cnt env szDiskName 1 in
      if bool_decide (0 >= nPartitionCnt) then Ret (EN_ERROR_FAILED, st) else
      if negb memory then Ret (EN_ERROR_FAILED, st) else
      let clear (i : nat) (p : St_xl_partition_info) :=
        if bool_decide (i = 0%nat)
        then PartInfo 0 0 (szMountDir p) (szVolume p) (u64Capacity p) (u64Used p)
               (nPatitionId p) (szPartName p) (nMapIndex p)
        else p in
      arr ← detect_loop 64 env nDiskID szDiskName 0 nMaxPartitionIndex 0 0
              (imap clear (map junk (seq 0 (Z.to_nat nPartitionCnt))));
      mnt_usb_insert_partition_list memory arr st
  end.

(** ** The threads *)

(** The three fields of a message. *)
(* @src C/xunlei_test/xl_usb_mng.c:1219-1219 mnt_usb_probe_partition_thread *)
Definition decode_usb_info (l : list Z) : Z * Z * Z :=
  (little_endian_to_Z 8 (take 4 l), little_endian_to_Z 8 (take 4 (drop 4 l)),
   little_endian_to_Z 8 (take 4 (drop 8 l))).

(** One message of [mnt_usb_probe_partition_thread]: [None] while the queue is
    empty. The copy of the message is freed again when a disk is removed. The
    [malloc] of the copy and [pthread_create] succeed here. *)
(* @src C/xunlei_test/xl_usb_mng.c:1198-1269 mnt_usb_probe_partition_thread *)
Definition probe_partition_step (char_signed : bool) (evs : list msgrcv_event) (q : list (list Z)) (st : part_state)
    : outcome (option (list (list Z) * part_state)) :=
  rcv ← mnt_usb_msg_rcv char_signed evs q (replicate 256 0) 0;
  match rcv with
  | None => Ret None
  | Some (eError, strRcvData, nLen, q) =>
      if bool_decide (eError <> EN_OK) then Ret (Some (q, st)) else
      if bool_decide (u64 nLen <> 12) then Ret (Some (q, st)) else
      info ← mem_read 0 nLen strRcvData;
      let '(act, _, id) := decode_usb_info info in
      t ← slot_at (s_UsbThread st) id;
      if bool_decide (act = EN_ACTION_code EN_USB_ADD) then
        Ret (Some (q, set_thread (set_slot id (QueryThread (Some info) true 1 EN_MNT_USB_PLUG_IN)
                                    (s_UsbThread st)) st))
      else if bool_decide (act = EN_ACTION_code EN_USB_RM) then
        let st := set_thread (set_slot id (QueryThread None (run_tid t) 0 EN_MNT_USB_PLUG_OUT)
                                (s_UsbThread st)) st in
        '(_, st) ← mnt_usb_delete_partitions_from_list id st;
        Ret (Some (q, st))
      else
        Ret (Some (q, set_thread (set_slot id (QueryThread (Some info) (run_tid t) (nRunState t)
                                    (detect_stat t)) (s_UsbThread st)) st))
  end.

(** The local variables of [mnt_usb_query_mount_log_thread]. *)
(* @src C/xunlei_test/xl_usb_mng.c:1275-1279 mnt_usb_query_mount_log_thread *)
Record query_local := QueryLocal {
  q_time : Z;
  q_flag : Z;
  one_counts : Z;
  five_counts : Z;
}.

Definition query_init : query_local := QueryLocal 1000000 0 0 0.

(** What the thread makes of the result of [mnt_usb_detect_partition]. *)
(* @src C/xunlei_test/xl_usb_mng.c:1300-1332 mnt_usb_query_mount_log_thread *)
Definition query_update (eError : EN_ERROR_NUM) (l : query_local) (stat : EN_MNT_USB_STATE)
    : query_local * EN_MNT_USB_STATE :=
  let stat :=
    if bool_decide (q_flag l = 0)
    then if bool_decide (eError = EN_OK) then EN_MNT_USB_REST else EN_MNT_USB_QUERY
    else stat in
  let time := if bool_decide (eError = EN_OK) then 3000000 else q_time l in
  let flag := if bool_decide (eError = EN_OK) then 1 else q_flag l in
  let one := if bool_decide (time = 1000000) then one_counts l + 1 else one_counts l in
  let five := if bool_decide (time = 3000000) then five_counts l + 1 else five_counts l in
  (QueryLocal time flag one five,
   if bool_decide (one + five * 3 >= 90) && bool_decide (flag = 0)
   then EN_MNT_USB_TIMEOUT else stat).

(** One iteration for disk [id]; [None]: the thread ended. *)
(* @src C/xunlei_test/xl_usb_mng.c:1272-1340 mnt_usb_query_mount_log_thread *)
Definition query_step (memory : bool) (env : environment) (junk : nat -> St_xl_partition_info)
    (usb : usb_state) (id : Z) (l : query_local) (st : part_state)
    : outcome (option (query_local * part_state)) :=
  t ← slot_at (s_UsbThread st) id;
  if bool_decide (nRunState t = 0) then Ret None else
  '(eError, st) ← mnt_usb_detect_partition memory env junk usb id st;
  t ← slot_at (s_UsbThread st) id;
  let '(l, stat) := query_update eError l (detect_stat t) in
  Ret (Some (l, set_thread (set_slot id (QueryThread (pUsbInfo t) (run_tid t) (nRunState t) stat)
                              (s_UsbThread st)) st)).

(** ** What the list stands for *)

Definition holds (st : part_state) (l : list St_xl_partition_info) : Prop :=
  exists nodes, is_list (part_heap st) (s_psPartHead st) nodes /\ nodes.*2 = l.

(** The list after one partition was recorded. *)
Definition record_part (l : list St_xl_partition_info) (p : St_xl_partition_info)
    : list St_xl_partition_info :=
  match list_find (same_part p) l with
  | Some (i, _) => <[i := p]> l
  | None => l ++ [p]
  end.

Lemma record_part_cons p v l :
  record_part (v :: l) p = if decide (same_part p v) then p :: l else v :: record_part l p.
Proof.
  unfold record_part. cbn [list_find]. destruct (decide (same_part p v)); [done|].
  by destruct (list_find (same_part p) l) as [[]|].
Qed.

Lemma insert_walk_spec fuel h p n1 n2 cur v :
  is_list h p (n1 ++ n2) -> chain h cur n2 None -> n2 <> [] -> (length n2 <= fuel)%nat ->
  exists h' n2', insert_walk true fuel h cur v = Ret h' /\
    is_list h' p (n1 ++ n2') /\ n2'.*2 = record_part n2.*2 v.
Proof.
  revert n1 cur n2. induction fuel as [|fuel IH]; intros n1 cur [|[x w] n2] Hl Hc Hnil Hf;
    cbn [length] in Hf; try lia; [done|done|].
  assert (Hx : exists nx, h !! x = Some (MkNode w nx)) by (destruct Hc as (_ & nx & ? & _); eauto).
  destruct Hx as (nx & Hx). apply chain_load in Hc as (nx' & Hld & Hc).
  assert (nx' = nx) as ->.
  { unfold load in Hld. destruct cur as [c|]; [|done]. destruct (h !! c) eqn:E; [|done].
    injection Hld as -> ->. rewrite E in Hx. congruence. }
  cbn [insert_walk]. rewrite Hld. run. cbn [val m_pNext]. rewrite fmap_cons. cbn [snd].
  rewrite record_part_cons. case_bool_decide as Hk.
  - rewrite decide_True by done. eexists _, ((x, v) :: n2). split; [done|]. split; [|done].
    by apply is_list_update with w.
  - rewrite decide_False by done. destruct nx as [nx|].
    + destruct (IH (n1 ++ [(x, w)]) (Some nx) n2) as (h' & n2' & He & Hl' & Hv).
      * by rewrite <- app_assoc.
      * done.
      * intros ->. done.
      * lia.
      * exists h', ((x, w) :: n2'). rewrite <- app_assoc in Hl'. cbn. by rewrite Hv.
    + apply chain_null in Hc as ->. cbn [negb]. unfold malloc.
      assert (Hfr : fresh (dom h) ∉ dom h) by apply is_fresh. revert Hfr.
      generalize (fresh (dom h)). intros y Hy. eexists _, [(x, w); (y, v)]. split; [done|].
      split; [|done]. by apply chain_snoc.
Qed.

Lemma insert_each_spec ps st l :
  holds st l -> l <> [] ->
  exists st', insert_each true ps st = Ret st' /\ holds st' (foldl record_part l ps) /\
    s_UsbThread st' = s_UsbThread st /\ nPresize st' = nPresize st.
Proof.
  revert st l. induction ps as [|p ps IH]; intros st l (nodes & Hl & <-) Hnil; cbn [insert_each].
  - exists st. split; [done|]. split; [by exists nodes|done].
  - assert (Hn : nodes <> []) by (by intros ->).
    destruct (insert_walk_spec (S (size (part_heap st))) (part_heap st) (s_psPartHead st) []
      nodes (s_psPartHead st) p Hl (proj1 Hl) Hn) as (h' & n' & -> & Hl' & Hv).
    { rewrite (is_list_size _ _ _ Hl). lia. }
    run. destruct (IH (set_parts (s_psPartHead st) h' st) (record_part nodes.*2 p))
      as (st' & -> & Hh & Ht & Hp); [by exists n'| |by exists st'].
    rewrite <- Hv. destruct n' as [|]; [|done]. cbn in Hv. unfold record_part in Hv.
    destruct (list_find _ _) as [[i w]|].
    + apply (f_equal length) in Hv. rewrite length_insert in Hv. by destruct nodes.
    + by destruct nodes.
Qed.

Lemma insert_first_spec i ps nodes st :
  is_list (part_heap st) (s_psPartHead st) nodes -> i = length nodes ->
  exists st', insert_first true i ps (fst <$> last nodes) st = Ret (EN_OK, st') /\
    holds st' (nodes.*2 ++ ps) /\ s_UsbThread st' = s_UsbThread st /\ nPresize st' = nPresize st.
Proof.
  revert i nodes st. induction ps as [|p ps IH]; intros i nodes st Hl ->; cbn [insert_first].
  - exists st. rewrite app_nil_r. split; [done|]. split; [by exists nodes|done].
  - cbn [negb]. unfold malloc.
    assert (Hfr : fresh (dom (part_heap st)) ∉ dom (part_heap st)) by apply is_fresh. revert Hfr.
    generalize (fresh (dom (part_heap st))). intros y Hy.
    assert (Hnext : forall h, is_list h (if bool_decide (length nodes = 0%nat) then Some y
                                         else s_psPartHead st) (nodes ++ [(y, p)]) ->
      exists st', insert_first true (S (length nodes)) ps (Some y)
          (set_parts (if bool_decide (length nodes = 0%nat) then Some y else s_psPartHead st) h st)
        = Ret (EN_OK, st') /\ holds st' (nodes.*2 ++ p :: ps) /\
        s_UsbThread st' = s_UsbThread st /\ nPresize st' = nPresize st).
    { intros h Hh. destruct (IH (S (length nodes)) (nodes ++ [(y, p)]) (set_parts
        (if bool_decide (length nodes = 0%nat) then Some y else s_psPartHead st) h st))
        as (st' & He & Hst' & Ht); [done|rewrite length_app; cbn; lia|].
      exists st'. rewrite last_snoc in He. split; [done|]. split; [|done].
      rewrite fmap_app, <- app_assoc in Hst'. done. }
    destruct (list_eq_nil_dec nodes) as [->|Hne].
    + cbn [last fmap option_fmap option_map]. run. apply Hnext. cbn. by eapply is_list_one.
    + destruct (exists_last Hne) as (l0 & [x w] & ->). rewrite last_snoc.
      cbn [fmap option_fmap option_map fst]. unfold load.
      assert (Hx : x <> y /\ exists nx, part_heap st !! x = Some (MkNode w nx)).
      { destruct Hl as (Hc & _ & _). apply chain_app in Hc as (r & _ & (-> & nx & Hx & _)).
        split; [|by exists nx]. intros ->. apply Hy. by apply elem_of_dom_2 in Hx. }
      destruct Hx as (Hxy & nx & Hx). rewrite lookup_insert_ne by done. rewrite Hx. run.
      cbn [val]. apply Hnext. rewrite bool_decide_eq_false_2 by (rewrite length_app; cbn; lia).
      rewrite <- app_assoc. by apply chain_snoc.
Qed.

(** *** Keys *)

Definition part_key (p : St_xl_partition_info) : Z * Z := (nUSBDiskId p, nPatitionId p).

(** The list as a map from disk and partition numbers. *)
Definition part_map (l : list St_xl_partition_info) : gmap (Z * Z) St_xl_partition_info :=
  list_to_map (map (fun p => (part_key p, p)) l).

Lemma same_part_key p q : same_part p q <-> part_key q = part_key p.
Proof. unfold same_part, part_key. split; [by intros [-> ->]|by intros [= -> ->]]. Qed.

Lemma record_part_map l p : part_map (record_part l p) = <[part_key p := p]> (part_map l).
Proof.
  induction l as [|v l IH]; [done|]. rewrite record_part_cons.
  unfold part_map in *. destruct (decide (same_part p v)) as [Hk|Hk]; cbn [map list_to_map foldr].
  - apply same_part_key in Hk. rewrite Hk. by rewrite insert_insert_eq.
  - cbn [fst snd curry uncurry] in *. rewrite IH. apply insert_insert_ne.
    rewrite same_part_key in Hk. done.
Qed.

Lemma record_part_keys l p :
  map part_key (record_part l p) =
  if decide (part_key p ∈ map part_key l) then map part_key l else map part_key l ++ [part_key p].
Proof.
  induction l as [|v l IH]; [done|]. rewrite record_part_cons.
  destruct (decide (same_part p v)) as [Hk|Hk]; rewrite same_part_key in Hk; cbn [map].
  - rewrite decide_True by (rewrite Hk; by left). by rewrite Hk.
  - rewrite IH. destruct (decide (part_key p ∈ map part_key l)) as [Hin|Hin].
    + by rewrite decide_True by by right.
    + rewrite decide_False; [done|]. intros [H|H]%elem_of_cons; [by symmetry in H|done].
Qed.

Lemma record_part_NoDup l p : NoDup (map part_key l) -> NoDup (map part_key (record_part l p)).
Proof.
  intros H. rewrite record_part_keys. case_decide as Hin; [done|].
  apply NoDup_app. split; [done|]. split; [|by repeat constructor; apply not_elem_of_nil].
  intros x Hx Hx2. apply list_elem_of_singleton in Hx2 as ->. done.
Qed.

(** The map after the records [ps], the later ones first. *)
Definition record_all (m : gmap (Z * Z) St_xl_partition_info) (ps : list St_xl_partition_info)
    : gmap (Z * Z) St_xl_partition_info :=
  foldl (fun m p => <[part_key p := p]> m) m ps.

Lemma foldl_record_map l ps :
  part_map (foldl record_part l ps) = record_all (part_map l) ps.
Proof.
  unfold record_all. revert l. induction ps as [|p ps IH]; intros l; [done|]. cbn [foldl]. by rewrite IH, record_part_map.
Qed.

Lemma foldl_record_NoDup l ps :
  NoDup (map part_key l) -> NoDup (map part_key (foldl record_part l ps)).
Proof. revert l. induction ps as [|p ps IH]; intros l H; [done|]. cbn [foldl]. by apply IH, record_part_NoDup. Qed.

Lemma foldl_record_new l ps :
  NoDup (map part_key (l ++ ps)) -> foldl record_part l ps = l ++ ps.
Proof.
  revert l. induction ps as [|p ps IH]; intros l H; [by rewrite app_nil_r|]. cbn [foldl].
  assert (Hp : record_part l p = l ++ [p]).
  { unfold record_part. destruct (list_find (same_part p) l) as [[i v]|] eqn:E; [|done].
    apply list_find_Some in E as (Hv & Hk & _). apply same_part_key in Hk.
    rewrite map_app in H. apply NoDup_app in H as (_ & Hdis & _). exfalso.
    apply (Hdis (part_key p)); [|by left]. rewrite <- Hk.
    apply list_elem_of_fmap. exists v. split; [done|]. by eapply list_elem_of_lookup_2. }
  rewrite Hp. rewrite IH; rewrite <- app_assoc; done.
Qed.

Lemma insert_partition_list_spec ps st l :
  holds st l -> ps <> [] -> NoDup (map part_key ps) ->
  exists st', mnt_usb_insert_partition_list true ps st = Ret (EN_OK, st') /\
    holds st' (foldl record_part l ps) /\
    s_UsbThread st' = s_UsbThread st /\ nPresize st' = nPresize st.
Proof.
  intros Hh Hnil Hnd. unfold mnt_usb_insert_partition_list.
  rewrite bool_decide_eq_false_2 by (destruct ps; [done|cbn; lia]).
  pose proof Hh as (nodes & Hl & Hn). destruct (s_psPartHead st) as [p|] eqn:Ep.
  - destruct (insert_each_spec ps st l Hh) as (st' & -> & H & Ht).
    + intros ->. destruct nodes as [|]; [|done]. by destruct Hl as ([=] & _).
    + run. by exists st'.
  - assert (nodes = []) as -> by by destruct Hl as (Hc & _); apply chain_null in Hc.
    cbn in Hn. subst l. destruct (insert_first_spec 0 ps [] st) as (st' & He & Hh' & Ht); [|done|].
    { by rewrite Ep. }
    exists st'. split; [exact He|]. by rewrite foldl_record_new.
Qed.

(** *** Removal *)

Lemma delete_parts_loop_spec fuel id st n1 n2 cur :
  is_list (part_heap st) (s_psPartHead st) (n1 ++ n2) -> chain (part_heap st) cur n2 None ->
  (length n2 < fuel)%nat ->
  delete_parts_loop fuel id cur (fst <$> last n1) st =
  if decide (Exists (fun p => nUSBDiskId p = id) n2.*2) then Fault UseAfterFree else Ret st.
Proof.
  revert n1 cur n2. induction fuel as [|fuel IH]; intros n1 cur [|[x v] n2] Hl Hc Hf;
    cbn [length] in Hf; try lia.
  - cbn [chain] in Hc. subst cur. rewrite decide_False; [done|]. intros H. by apply Exists_nil in H.
  - pose proof Hc as Hc0. apply chain_load in Hc as (nx & Hld & Hc).
    assert (cur = Some x) as -> by by destruct Hc0. cbn [delete_parts_loop].
    rewrite Hld. run. cbn [val m_pNext]. rewrite fmap_cons. cbn [snd].
    destruct (decide (nUSBDiskId v = id)) as [Hv|Hv].
    + rewrite bool_decide_eq_true_2 by done. rewrite decide_True by (by left).
      apply is_list_remove in Hl as (nx' & Hx & Hl).
      destruct (last n1) as [[y w]|].
      * destruct Hl as (Hp & (ny & Hy) & _). rewrite bool_decide_eq_false_2 by done.
        cbn [fmap option_fmap option_map fst]. cbn [load]. rewrite Hy. run.
        cbn [set_parts part_heap]. unfold free. by rewrite lookup_delete_eq.
      * destruct Hl as [-> _]. rewrite bool_decide_eq_true_2 by done. run.
        cbn [set_parts part_heap load]. unfold free. by rewrite lookup_delete_eq.
    + rewrite bool_decide_eq_false_2 by done.
      pose proof (IH (n1 ++ [(x, v)]) nx n2) as IH'. rewrite last_snoc in IH'.
      cbn [fmap option_fmap option_map fst] in IH'.
      rewrite IH'; [|by rewrite <- app_assoc|done|lia].
      destruct (decide (Exists (fun p => nUSBDiskId p = id) n2.*2)) as [He|He].
      * by rewrite decide_True by by right.
      * rewrite decide_False; [done|]. intros H. by apply Exists_cons in H as [H|H].
Qed.

Lemma delete_partitions_spec id st l :
  holds st l ->
  mnt_usb_delete_partitions_from_list id st =
  if decide (Exists (fun p => nUSBDiskId p = id) l) then Fault UseAfterFree
  else Ret (EN_ERROR_FAILED, st).
Proof.
  intros (nodes & Hl & <-). unfold mnt_usb_delete_partitions_from_list.
  rewrite (delete_parts_loop_spec _ id st [] nodes); [|done|apply Hl|].
  - by case_decide.
  - rewrite (is_list_size _ _ _ Hl). lia.
Qed.

(** *** Reading *)

(** A partition of that kind, of that disk or of any. *)
Definition wanted (kind : string) (id : Z) (p : St_xl_partition_info) : Prop :=
  String.prefix kind (szPartName p) = true /\
  (id = ALL_USB_DISK \/ nUSBDiskId p = id) /\ 0 < nUSBDiskId p.

#[global] Instance wanted_dec kind id p : Decision (wanted kind id p).
Proof. unfold wanted. apply _. Defined.

(** The partitions a query is about. *)
Definition matching (kind : string) (id : Z) (l : list St_xl_partition_info)
    : list St_xl_partition_info := filter (wanted kind id) l.

Lemma part_matches_spec kind id p : part_matches kind id p = bool_decide (wanted kind id p).
Proof.
  apply eq_true_iff_eq. unfold part_matches.
  rewrite bool_decide_eq_true, !andb_true_iff, orb_true_iff, !bool_decide_eq_true.
  unfold wanted. intuition congruence.
Qed.

Lemma count_loop_spec fuel h kind id cur l k :
  chain h cur l None -> (length l < fuel)%nat -> 0 <= k -> k + Z.of_nat (length l) < 2 ^ 32 ->
  count_loop fuel h kind id cur k =
  Ret (k + Z.of_nat (length (matching kind id l.*2))).
Proof.
  revert cur l k. induction fuel as [|fuel IH]; intros cur [|[x v] l] k Hc Hf Hk Hmax;
    cbn [length] in Hf, Hmax; try lia.
  - cbn [chain] in Hc. subst cur. cbn. by rewrite Z.add_0_r.
  - pose proof Hc as Hc0. apply chain_load in Hc as (nx & Hld & Hc).
    assert (cur = Some x) as -> by by destruct Hc0. cbn [count_loop]. rewrite Hld. run.
    cbn [val m_pNext]. unfold matching in *. rewrite fmap_cons, filter_cons, part_matches_spec. cbn [snd].
    assert (Hw : u32 (k + 1) = k + 1) by (apply wrap_small; lia).
    destruct (decide (wanted kind id v)) as [Hv|Hv].
    + rewrite bool_decide_eq_true_2 by done. rewrite Hw, (IH _ l) by (done || lia). cbn [length]. f_equal. lia.
    + rewrite bool_decide_eq_false_2 by done. by rewrite (IH _ l) by (done || lia).
Qed.

Lemma part_read_loop_spec fuel h kind id cnt cur l out e :
  chain h cur l None -> (length l < fuel)%nat ->
  Z.of_nat (length out + length (matching kind id l.*2)) <= cnt ->
  read_loop fuel h kind id cnt cur out e =
  let ps := matching kind id l.*2 in
  Ret (if decide (ps = []) then e else EN_OK, out ++ ps).
Proof.
  revert cur l out e. induction fuel as [|fuel IH]; intros cur [|[x v] l] out e Hc Hf Hcnt;
    cbn [length] in Hf; try lia.
  - cbn [chain] in Hc. subst cur. cbn. by rewrite app_nil_r.
  - pose proof Hc as Hc0. apply chain_load in Hc as (nx & Hld & Hc).
    assert (cur = Some x) as -> by by destruct Hc0. cbn [read_loop]. rewrite Hld. run.
    cbn [val m_pNext]. unfold matching in *. rewrite part_matches_spec.
    rewrite fmap_cons, filter_cons in Hcnt |- *. cbn [snd] in *.
    destruct (decide (wanted kind id v)) as [Hv|Hv].
    + rewrite bool_decide_eq_true_2 by done. cbn [length] in Hcnt.
      unfold require. rewrite (bool_decide_eq_true_2 (_ < cnt)) by lia. run.
      rewrite bool_decide_eq_false_2 by (rewrite length_app; cbn [length]; lia).
      rewrite (IH _ l) by (done || rewrite ?length_app; cbn [length]; lia). cbv zeta.
      rewrite <- app_assoc. cbn [app]. do 2 f_equal.
      rewrite (decide_False (P := _ :: _ = [])) by done. by destruct (decide _).
    + rewrite bool_decide_eq_false_2 by done. by apply IH; [|lia|].
Qed.

Lemma read_partition_spec kind count usb ul st l id :
  represents usb ul -> holds st l -> Z.of_nat (length l) < 2 ^ 32 ->
  count st id = count_loop (S (size (part_heap st))) (part_heap st) kind id (s_psPartHead st) 0 ->
  read_partition true count (read_from_list kind) usb st id =
  Ret (if decide (Exists (answers id) ul) then
         if decide (matching kind id l = []) then ReadResult EN_ERROR_FAILED (Some 0) None
         else ReadResult EN_OK (Some (Z.of_nat (length (matching kind id l))))
                (Some (matching kind id l))
       else ReadResult EN_ERROR_UNKNOW (Some 0) None).
Proof.
  intros Hu (nodes & Hl & <-) Hmax Hcount. unfold read_partition.
  rewrite (check_disk_id_spec _ _ _ Hu). run. destruct (decide (Exists (answers id) ul)); [|done].
  cbn [bool_decide]. rewrite bool_decide_eq_false_2 by tauto. rewrite Hcount.
  rewrite length_fmap in Hmax. pose proof (is_list_size _ _ _ Hl) as Hs.
  rewrite (count_loop_spec _ _ _ _ _ nodes) by (apply Hl || lia). run.
  destruct (decide (matching kind id nodes.*2 = [])) as [E|E].
  - by rewrite E, bool_decide_eq_true_2.
  - rewrite bool_decide_eq_false_2 by (destruct (matching kind id nodes.*2); [done|cbn; lia]).
    cbn [negb]. unfold read_from_list. destruct (s_psPartHead st) as [p|] eqn:Ep.
    + rewrite (part_read_loop_spec _ _ _ _ _ _ nodes); [|apply Hl|lia|].
      * cbv zeta. run. by rewrite decide_False.
      * cbn [length]. lia.
    + destruct Hl as (Hc & _). apply chain_null in Hc as ->. done.
Qed.

(** *** The mount log *)

(** A line of [/proc/mounts]: device, directory, and the rest. *)
Record mount_entry := MountEntry {
  m_dev : list Z;
  m_dir : list Z;
  m_rest : list Z;
}.

Definition mount_line (e : mount_entry) : list Z :=
  m_dev e ++ 32 :: m_dir e ++ 32 :: m_rest e ++ [10].

(** The characters of a word: neither the end of the string, nor of the line, nor
    a blank. *)
Definition word_char (c : Z) : Prop := c <> 0 /\ c <> 10 /\ c <> 32.

(** A line that fits the buffers of the parser. *)
Definition entry_ok (e : mount_entry) : Prop :=
  Forall word_char (m_dev e) /\ Forall word_char (m_dir e) /\
  Forall (fun c => c <> 10) (m_rest e) /\
  (length (m_dev e) < 32)%nat /\ (length (m_dir e) < 256)%nat /\
  (length (mount_line e) <= 1023)%nat.

#[global] Instance word_char_dec c : Decision (word_char c).
Proof. unfold word_char. apply _. Defined.
#[global] Instance entry_ok_dec e : Decision (entry_ok e).
Proof. unfold entry_ok. apply _. Defined.

Lemma take_line_spec n line rest :
  Forall (fun c => c <> 10) line -> (length line < n)%nat ->
  take_line n (line ++ 10 :: rest) = (line ++ [10], rest).
Proof.
  intros Hl. revert n. induction Hl as [|c line Hc Hl IH]; intros [|n] Hn; cbn [length] in Hn;
    try lia; cbn [app take_line]; [done|].
  rewrite bool_decide_eq_false_2 by done. by rewrite IH by lia.
Qed.

Lemma fgets_line e rest :
  entry_ok e -> fgets 1024 (mount_line e ++ rest) = Some (mount_line e, rest).
Proof.
  intros (H1 & H2 & H3 & _ & _ & Hn).
  set (body := m_dev e ++ 32 :: m_dir e ++ 32 :: m_rest e).
  assert (Hb : mount_line e = body ++ [10]).
  { unfold mount_line, body. rewrite <- !app_assoc. cbn [app]. by rewrite <- app_assoc. }
  assert (Hbody : Forall (fun c => c <> 10) body).
  { assert (Hw : forall l, Forall word_char l -> Forall (fun c => c <> 10) l).
    { intros l Hl. eapply Forall_impl; [exact Hl|]. by intros c (_ & ? & _). }
    unfold body. apply Forall_app. split; [by apply Hw|]. constructor; [lia|].
    apply Forall_app. split; [by apply Hw|]. by constructor. }
  rewrite Hb in *. rewrite length_app in Hn. cbn [length] in Hn. rewrite <- app_assoc. cbn [app].
  unfold fgets. rewrite take_line_spec by (done || lia). by destruct body.
Qed.

Lemma strchr_word w rest : Forall word_char w -> strchr 32 (w ++ 32 :: rest) = Some (length w).
Proof.
  induction 1 as [|c w (H0 & _ & H32) Hw IH]; [done|]. cbn [app strchr].
  rewrite !bool_decide_eq_false_2 by done. by rewrite IH.
Qed.

Lemma copy_word_spec size w rest :
  (length w < size)%nat -> copy_word size (w ++ rest) (Some (length w)) = Ret w.
Proof.
  intros H. unfold copy_word, require. rewrite bool_decide_eq_true_2 by done. run.
  by rewrite take_app_length.
Qed.

Lemma parsing_mount_log_spec e name :
  entry_ok e ->
  parsing_mount_log (mount_line e) name =
  Ret (if decide (m_dev e = str_bytes name) then Some (m_dir e) else None).
Proof.
  intros (H1 & H2 & _ & Hn1 & Hn2 & _). unfold parsing_mount_log, mount_line.
  rewrite strchr_word, copy_word_spec by done. run.
  destruct (decide (m_dev e = str_bytes name)) as [He|He].
  - rewrite bool_decide_eq_true_2 by done.
    change (m_dev e ++ 32 :: ?r) with (m_dev e ++ [32] ++ r).
    replace (S (length (m_dev e))) with (length (m_dev e ++ [32])) by (rewrite length_app; cbn; lia).
    rewrite app_assoc, drop_app_length, strchr_word, copy_word_spec by done. done.
  - by rewrite bool_decide_eq_false_2.
Qed.

(** The line of a partition and its number. *)
Definition find_mount (lines : list mount_entry) (name : string) : option (list Z * Z) :=
  (fun '(i, e) => (m_dir e, Z.of_nat i)) <$>
  list_find (fun e => m_dev e = str_bytes name) lines.

Lemma mount_path_loop_spec fuel lines name i :
  Forall entry_ok lines -> (length lines < fuel)%nat ->
  mount_path_loop fuel (concat (map mount_line lines)) name i =
  Ret ((fun '(dir, k) => (dir, i + k)) <$> find_mount lines name).
Proof.
  intros Hok. revert fuel i. induction Hok as [|e lines He Hok IH]; intros [|fuel] i Hf;
    cbn [length] in Hf; try lia; [done|].
  cbn [map concat mount_path_loop]. rewrite fgets_line by done.
  rewrite parsing_mount_log_spec by done. run. unfold find_mount. cbn [list_find].
  destruct (decide (m_dev e = str_bytes name)).
  - cbn. by rewrite Z.add_0_r.
  - rewrite IH by lia. unfold find_mount. destruct (list_find _ lines) as [[k e']|]; [|done].
    cbn. do 3 f_equal. lia.
Qed.

Lemma mount_path_spec env disk name lines :
  mount_log env disk = Some (concat (map mount_line lines)) -> Forall entry_ok lines ->
  mnt_usb_get_mount_path env disk name = Ret (find_mount lines name).
Proof.
  intros Hlog Hok. unfold mnt_usb_get_mount_path. rewrite Hlog, mount_path_loop_spec; [|done|].
  - by destruct (find_mount lines name) as [[]|].
  - clear. assert (length lines <= length (concat (map mount_line lines)))%nat; [|lia].
    induction lines as [|e lines IH]; [done|]. cbn [map concat length]. rewrite length_app.
    unfold mount_line at 1. rewrite length_app. cbn [length]. lia.
Qed.

(** *** Partitions under /dev *)

(** A disk name that the module handles. *)
Definition disk_kind (name : string) : bool :=
  String.prefix "sd" name || String.prefix "mmcblk" name.

(** The numbers of the partitions that exist, from [k] on. *)
Definition existing (dev : gset string) (name : string) (k n : Z) : list Z :=
  filter (fun i => part_name name i ∈ dev) (seqZ k n).

Lemma existing_step dev name k (n : nat) :
  existing dev name k (Z.of_nat (S n)) =
  if decide (part_name name k ∈ dev) then k :: existing dev name (k + 1) (Z.of_nat n)
  else existing dev name (k + 1) (Z.of_nat n).
Proof.
  unfold existing. rewrite seqZ_cons by lia. rewrite filter_cons.
  replace (Z.pred (Z.of_nat (S n))) with (Z.of_nat n) by lia.
  replace (Z.succ k) with (k + 1) by lia. done.
Qed.

Lemma partition_loop_spec n dev name sep k c m :
  (forall i, part_name name i = "/dev/" +:+ name +:+ sep +:+ pretty i) ->
  partition_loop n dev name sep k c m =
  (c + Z.of_nat (length (existing dev name k (Z.of_nat n))),
   default m (last (existing dev name k (Z.of_nat n)))).
Proof.
  intros Hname. revert k c m. induction n as [|n IH]; intros k c m.
  - cbn. by rewrite Z.add_0_r.
  - cbn [partition_loop]. rewrite <- Hname, existing_step.
    destruct (decide (part_name name k ∈ dev)) as [Hin|Hin].
    + rewrite bool_decide_eq_true_2 by (by apply access_0). rewrite IH. cbn [length].
      f_equal; [lia|]. rewrite last_cons. by destruct (last (existing _ _ _ _)).
    + rewrite bool_decide_eq_false_2 by (by rewrite access_0). apply IH.
Qed.

Lemma get_partition_cnt_spec env name m :
  ("/sys/block/" +:+ name) ∈ env_block env -> disk_kind name = true ->
  mnt_usb_get_partition_cnt env name m =
  (Z.of_nat (length (existing (env_dev env) name 0 64)),
   default 0 (last (existing (env_dev env) name 0 64))).
Proof.
  intros Hb Hk. unfold mnt_usb_get_partition_cnt. rewrite bool_decide_eq_false_2 by tauto.
  unfold disk_kind in Hk. destruct (String.prefix "sd" name) eqn:Es.
  - apply (partition_loop_spec 64). intros i. unfold part_name. by rewrite Es.
  - cbn [orb] in Hk. rewrite Hk.
    apply (partition_loop_spec 64). intros i. unfold part_name. by rewrite Es.
Qed.

(** *** Detection *)

(** What the record of partition [i] of a disk says. *)
Definition part_ok (env : environment) (lines : list mount_entry) (id : Z) (name : string)
    (i : Z) (p : St_xl_partition_info) : Prop :=
  nUSBDiskId p = id /\ nPatitionId p = i /\ szPartName p = part_name name i /\
  match find_mount lines (part_name name i) with
  | None => bMounted p = DISK_UNMOUNTED /\ szMountDir p = []
  | Some (dir, k) =>
      bMounted p = DISK_MOUNTED /\ szMountDir p = dir /\ nMapIndex p = k /\
      match statfs env dir with
      | None => True
      | Some fs => u64Capacity p = u64 (f_blocks fs * f_bsize fs) /\
                   u64Used p = u64 ((f_blocks fs - f_bfree fs) * f_bsize fs)
      end
  end.

Lemma wrap_swrap x : u64 (swrap 64 x) = u64 x.
Proof.
  unfold wrap, swrap. change (2 ^ (64 - 1)) with 9223372036854775808.
  change (2 ^ 64) with 18446744073709551616. dlia.
Qed.

Lemma wrap_swrap_sub x y : u64 (swrap 64 (swrap 64 x - swrap 64 y)) = u64 (x - y).
Proof.
  rewrite wrap_swrap. unfold wrap. rewrite (Zminus_mod (swrap 64 x)).
  change ((?a mod 2 ^ 64 - ?b mod 2 ^ 64) mod 2 ^ 64) with ((u64 a - u64 b) mod 2 ^ 64).
  rewrite !wrap_swrap. unfold wrap. by rewrite <- Zminus_mod.
Qed.

Lemma record_partition_spec env disk id lines i m old :
  mount_log env disk = Some (concat (map mount_line lines)) -> Forall entry_ok lines ->
  exists p m', record_partition env id disk i m old = Ret (p, m') /\
    part_ok env lines id disk i p.
Proof.
  intros Hlog Hok. unfold record_partition. rewrite (mount_path_spec _ _ _ _ Hlog Hok). run.
  unfold part_ok. destruct (find_mount lines (part_name disk i)) as [[dir k]|].
  - unfold mnt_usb_read_partition_space. destruct (statfs env dir) as [fs|] eqn:Es; cbn [default];
      eexists _, _; (split; [reflexivity|]); cbn; [|done].
    rewrite wrap_swrap, wrap_swrap_sub. repeat (split; [done|]). f_equal. ring.
  - eexists _, _. by split.
Qed.

Lemma pretty_short i : 0 <= i < 64 -> (String.length (pretty i) <= 2)%nat.
Proof.
  intros Hi. assert (H : Forall (fun i => (String.length (pretty i) <= 2)%nat) (seqZ 0 64)).
  { apply (bool_decide_eq_true_1 _). vm_compute. reflexivity. }
  rewrite Forall_forall in H. apply H, elem_of_seqZ. lia.
Qed.

Lemma string_length_app (s t : string) :
  String.length (s +:+ t) = (String.length s + String.length t)%nat.
Proof. induction s as [|c s IH]; [done|]. exact (f_equal S IH). Qed.

Lemma part_name_fits name i :
  (String.length name <= 8)%nat -> 0 <= i < 64 -> fits 32 (part_name name i) = Ret ().
Proof.
  intros Hn Hi. pose proof (pretty_short i Hi). apply fits_ok. unfold part_name.
  destruct (String.prefix "sd" name); rewrite !string_length_app; cbn [String.length]; lia.
Qed.

(** The elements from [n] on are filled with the records of the partitions not
    seen yet. *)
Lemma detect_loop_spec env disk id lines fuel (k r : nat) n arr m :
  mount_log env disk = Some (concat (map mount_line lines)) -> Forall entry_ok lines ->
  (String.length disk <= 8)%nat -> (k + r = 64)%nat -> (r <= fuel)%nat ->
  let rest := existing (env_dev env) disk (Z.of_nat k) (Z.of_nat r) in
  rest <> [] -> (n + length rest = length arr)%nat ->
  exists ps, detect_loop fuel env id disk (Z.of_nat k) (default 0 (last rest)) m n arr
             = Ret (take n arr ++ ps) /\ Forall2 (part_ok env lines id disk) rest ps.
Proof.
  intros Hlog Hok Hdisk. revert k r n arr m. induction fuel as [|fuel IH];
    intros k r n arr m Hkr Hr rest Hnil Hlen; (destruct r as [|r]; [done|]); [lia|].
  unfold rest in *. clear rest. cbn [detect_loop]. rewrite existing_step in Hnil, Hlen |- *.
  rewrite part_name_fits by lia. run.
  destruct (lookup_lt_is_Some_2 arr n) as [old Hold].
  { destruct (decide (part_name disk (Z.of_nat k) ∈ env_dev env)); cbn [length] in Hlen; [lia|].
    destruct (existing _ _ _ _); [done|]. cbn [length] in Hlen. lia. }
  rewrite Hold. replace (Z.of_nat k + 1) with (Z.of_nat (S k)) in * by lia.
  assert (Hlast : forall j, last (existing (env_dev env) disk (Z.of_nat (S k)) (Z.of_nat r)) = Some j ->
            bool_decide (Z.of_nat (S k) <= j) = true).
  { intros j Hj. apply bool_decide_eq_true_2. apply last_Some_elem_of in Hj.
    unfold existing in Hj. apply list_elem_of_filter in Hj as [_ Hj]. apply elem_of_seqZ in Hj. lia. }
  destruct (decide (part_name disk (Z.of_nat k) ∈ env_dev env)) as [Hin|Hin].
  - rewrite bool_decide_eq_true_2 by (by apply access_0). cbn [length] in Hlen.
    destruct (record_partition_spec env disk id lines (Z.of_nat k) m old Hlog Hok)
      as (p & m' & -> & Hp). run. rewrite length_insert.
    destruct (existing (env_dev env) disk (Z.of_nat (S k)) (Z.of_nat r)) as [|e es] eqn:Ees.
    + cbn [length] in Hlen. rewrite bool_decide_eq_true_2 by lia. exists [p]. split; [|by constructor].
      f_equal. rewrite insert_take_drop by lia. by rewrite drop_ge by lia.
    + rewrite bool_decide_eq_false_2 by (cbn [length] in Hlen; lia).
      destruct (IH (S k) r (S n) (<[n := p]> arr) m') as (ps & He & Hps);
        [lia|lia|by rewrite Ees|rewrite Ees, length_insert; lia|].
      rewrite Ees in He, Hps. rewrite last_cons.
      destruct (last (e :: es)) as [j|] eqn:Ej; [|by apply last_None in Ej].
      change (default 0 (Some j)) with j in *. rewrite (Hlast _ eq_refl), He. exists (p :: ps).
      split; [|by constructor]. f_equal.
      rewrite (take_S_r _ _ p) by (apply list_lookup_insert_eq; lia).
      rewrite take_insert_ge by lia. by rewrite <- app_assoc.
  - rewrite bool_decide_eq_false_2 by (by rewrite access_0).
    set (p := PartInfo _ _ _ _ _ _ _ _ _).
    destruct (IH (S k) r n (<[n := p]> arr) m) as (ps & He & Hps);
      [lia|lia|done|by rewrite length_insert|].
    destruct (last (existing (env_dev env) disk (Z.of_nat (S k)) (Z.of_nat r))) as [j|] eqn:Ej.
    + change (default 0 (Some j)) with j in *. rewrite (Hlast _ eq_refl), He. exists ps. split; [|done].
      by rewrite take_insert_ge by lia.
    + by apply last_None in Ej.
Qed.

(** The records of one detection, by key. *)
Lemma record_all_lookup m ps k :
  record_all m ps !! k =
  match list_find (fun p => part_key p = k) (reverse ps) with
  | Some (_, p) => Some p
  | None => m !! k
  end.
Proof.
  induction ps as [|p ps IH] using rev_ind; [done|].
  unfold record_all in *. rewrite foldl_app, reverse_app. cbn. destruct (decide (part_key p = k)) as [<-|Hk].
  - by rewrite lookup_insert_eq.
  - rewrite lookup_insert_ne, IH by done. by destruct (list_find _ _) as [[]|].
Qed.

Lemma records_lookup env lines id name idx ps m k :
  NoDup idx -> Forall2 (part_ok env lines id name) idx ps ->
  match decide (k.1 = id /\ k.2 ∈ idx) with
  | left _ => exists p, record_all m ps !! k = Some p /\
                        part_ok env lines id name k.2 p
  | right _ => record_all m ps !! k = m !! k
  end.
Proof.
  intros Hnd Hps. rewrite record_all_lookup. case_decide as Hk.
  - destruct Hk as [Hid Hin]. destruct (list_find _ (reverse ps)) as [[j p]|] eqn:E.
    + apply list_find_Some in E as (Hp & Hkey & _). exists p. split; [done|].
      apply list_elem_of_lookup_2 in Hp. rewrite elem_of_reverse in Hp.
      apply list_elem_of_lookup_1 in Hp as [i Hp].
      destruct (Forall2_lookup_r _ _ _ _ _ Hps Hp) as (x & _ & Hx).
      pose proof Hx as (_ & Hx2 & _). rewrite <- Hkey. cbn. by rewrite Hx2.
    + exfalso. apply list_find_None in E. apply list_elem_of_lookup_1 in Hin as [i Hi].
      destruct (Forall2_lookup_l _ _ _ _ _ Hps Hi) as (p & Hp & Hx1 & Hx2 & _).
      rewrite Forall_forall in E. apply (E p).
      * apply elem_of_reverse. by eapply list_elem_of_lookup_2.
      * unfold part_key. rewrite Hx1, Hx2. destruct k. by rewrite <- Hid.
  - destruct (list_find _ (reverse ps)) as [[j p]|] eqn:E; [|done]. exfalso. apply Hk.
    apply list_find_Some in E as (Hp & <- & _).
    apply list_elem_of_lookup_2 in Hp. rewrite elem_of_reverse in Hp.
      apply list_elem_of_lookup_1 in Hp as [i Hp].
    destruct (Forall2_lookup_r _ _ _ _ _ Hps Hp) as (x & Hx & Hx1 & Hx2 & _). cbn.
    rewrite Hx1, Hx2. split; [done|]. by eapply list_elem_of_lookup_2.
Qed.

Lemma records_keys env lines id name idx ps :
  Forall2 (part_ok env lines id name) idx ps -> map part_key ps = map (pair id) idx.
Proof.
  induction 1 as [|i p idx ps (H1 & H2 & _) _ IH]; [done|]. cbn [map]. rewrite IH.
  unfold part_key. by rewrite H1, H2.
Qed.

Lemma existing_NoDup dev name k n : NoDup (existing dev name k n).
Proof. apply NoDup_filter, NoDup_seqZ. Qed.

(** The size seen at the last look, forgotten when the disk was just plugged in. *)
Definition last_size (st : part_state) (t : St_usb_query_thread) : Z :=
  if bool_decide (detect_stat t = EN_MNT_USB_PLUG_IN) then 0 else nPresize st.

Lemma create_mount_log_spec env disk id st t l log :
  holds st l -> slot_at (s_UsbThread st) id = Ret t ->
  mount_log env disk = Some log -> 0 < Z.of_nat (length log) < 2 ^ 31 ->
  exists st', mnt_usb_create_mount_log env disk id st =
      Ret (if decide (last_size st t = Z.of_nat (length log)) then EN_ERROR_FAILED else EN_OK, st') /\
    holds st' l /\ nPresize st' = Z.of_nat (length log) /\
    s_UsbThread st' = if bool_decide (detect_stat t = EN_MNT_USB_PLUG_IN)
      then set_slot id (QueryThread (pUsbInfo t) (run_tid t) (nRunState t) EN_MNT_USB_NONE) (s_UsbThread st)
      else s_UsbThread st.
Proof.
  intros Hh Ht Hlog Hlen. unfold mnt_usb_create_mount_log, last_size. rewrite Ht. run.
  rewrite Hlog. unfold get_file_size. rewrite (wrap_small 64), (swrap_small 32) by lia.
  rewrite (bool_decide_eq_false_2 (0 >= _)) by lia. eexists. split; [|split; [|split]].
  - do 2 f_equal. case_bool_decide as Hs; cbn [set_presize set_thread nPresize];
      repeat case_bool_decide; case_decide; done || congruence.
  - by case_bool_decide.
  - done.
  - by case_bool_decide.
Qed.

(** *** Status *)

(** The status of a disk after the results [rs] of its detections. *)
Fixpoint query_run (rs : list EN_ERROR_NUM) (l : query_local) (stat : EN_MNT_USB_STATE)
    : query_local * EN_MNT_USB_STATE :=
  match rs with
  | [] => (l, stat)
  | e :: rs => let '(l, stat) := query_update e l stat in query_run rs l stat
  end.

Lemma query_run_found rs l stat :
  q_flag l = 1 -> (query_run rs l stat).2 = stat.
Proof.
  revert l stat. induction rs as [|e rs IH]; intros l stat Hf; [done|]. cbn [query_run].
  unfold query_update. rewrite Hf. rewrite (bool_decide_eq_false_2 (1 = 0)) by done.
  assert (Hflag : (if bool_decide (e = EN_OK) then 1 else 1) = 1) by (by case_bool_decide).
  rewrite Hflag. rewrite (bool_decide_eq_false_2 (1 = 0)), andb_false_r by done. by apply IH.
Qed.

Lemma query_run_spec rs n stat :
  0 <= n ->
  (query_run rs (QueryLocal 1000000 0 n 0) stat).2 =
  if decide (EN_OK ∈ rs) then EN_MNT_USB_REST else
  match rs with
  | [] => stat
  | _ => if decide (90 <= n + Z.of_nat (length rs)) then EN_MNT_USB_TIMEOUT else EN_MNT_USB_QUERY
  end.
Proof.
  revert n stat. induction rs as [|e rs IH]; intros n stat Hn; [done|]. cbn [query_run].
  unfold query_update. cbn [q_flag q_time one_counts five_counts].
  rewrite (bool_decide_eq_true_2 (0 = 0)) by done.
  destruct (decide (e = EN_OK)) as [->|He].
  - rewrite decide_True by (by left). rewrite !(bool_decide_eq_true_2 (EN_OK = EN_OK)) by done.
    rewrite query_run_found by done. by rewrite (bool_decide_eq_false_2 (1 = 0)), andb_false_r.
  - rewrite !(bool_decide_eq_false_2 (e = EN_OK)) by done.
    rewrite !(bool_decide_eq_true_2 (1000000 = 1000000)) by done.
    rewrite (bool_decide_eq_false_2 (1000000 = 3000000)) by done.
    rewrite (bool_decide_eq_true_2 (0 = 0)), andb_true_r by done. rewrite IH by lia.
    destruct (decide (EN_OK ∈ rs)) as [Hin|Hin].
    + by rewrite decide_True by by right.
    + rewrite (decide_False (P := EN_OK ∈ e :: rs)).
      2:{ intros [H|H]%elem_of_cons; [by symmetry in H|done]. }
      cbn [length]. destruct rs as [|e' rs].
      * cbn [length]. case_bool_decide; case_decide; done || lia.
      * cbn [length]. repeat case_decide; done || lia.
Qed.

(** *** Announcements *)

Lemma slot_at_spec ts i :
  0 <= i < Z.of_nat (length ts) -> exists t, ts !! Z.to_nat i = Some t /\ slot_at ts i = Ret t.
Proof.
  intros Hi. destruct (lookup_lt_is_Some_2 ts (Z.to_nat i)) as [t Ht]; [lia|]. exists t.
  split; [done|]. unfold slot_at. by rewrite bool_decide_eq_true_2, Ht by lia.
Qed.

Lemma decode_usb_info_spec i :
  0 <= info_nDiskId i < 2 ^ 32 ->
  decode_usb_info (usb_info_bytes i) =
  (EN_ACTION_code (eAction i), EN_DEVICE_TYPE_code (eType i), info_nDiskId i).
Proof.
  intros Hi. unfold decode_usb_info, usb_info_bytes.
  rewrite take_app_exact, drop_app_exact by done.
  replace (drop 8 _) with (Z_to_little_endian 4 8 (info_nDiskId i)).
  2:{ rewrite app_assoc. symmetry. by apply drop_app_exact. }
  rewrite take_app_exact by done. rewrite (take_ge (Z_to_little_endian 4 8 (info_nDiskId i))) by done.
  rewrite !little_endian_to_Z_to_little_endian by lia.
  assert (Hc : forall z, 0 <= z < 4 -> z mod 2 ^ (4 * 8) = z) by (intros; apply Z.mod_small; lia).
  rewrite (Hc (EN_ACTION_code _)), (Hc (EN_DEVICE_TYPE_code _))
    by (destruct (eAction i), (eType i); cbn; lia).
  by rewrite Z.mod_small by lia.
Qed.

(** What the thread does with the announcement of a disk. *)
Lemma probe_partition_step_spec char_signed k a v q st :
  0 <= nDiskId v < 2 ^ 32 ->
  probe_partition_step char_signed (replicate k RcvEINTR ++ [RcvMessage]) (usb_message a v :: q) st =
  (t ← slot_at (s_UsbThread st) (nDiskId v);
   let info := usb_info_bytes (USBInfo a EN_USB_DEVICE_STORAGE (nDiskId v)) in
   let slot t := set_thread (set_slot (nDiskId v) t (s_UsbThread st)) st in
   match a with
   | EN_USB_ADD => Ret (Some (q, slot (QueryThread (Some info) true 1 EN_MNT_USB_PLUG_IN)))
   | EN_USB_RM =>
       '(_, st) ← mnt_usb_delete_partitions_from_list (nDiskId v)
                    (slot (QueryThread None (run_tid t) 0 EN_MNT_USB_PLUG_OUT));
       Ret (Some (q, st))
   | _ => Ret (Some (q, slot (QueryThread (Some info) (run_tid t) (nRunState t) (detect_stat t))))
   end).
Proof.
  intros Hid. unfold probe_partition_step, usb_message.
  set (info := usb_info_bytes (USBInfo a EN_USB_DEVICE_STORAGE (nDiskId v))).
  assert (Hlen : length info = 12%nat) by done.
  rewrite mnt_usb_msg_rcv_ok by (rewrite ?Hlen, ?length_replicate; first [lia | left; lia]).
  run. rewrite Hlen. cbn [bool_decide]. rewrite (bool_decide_eq_false_2 (EN_OK <> EN_OK)) by tauto.
  change (u64 (Z.of_nat 12)) with 12. rewrite (bool_decide_eq_false_2 (12 <> 12)) by tauto.
  rewrite (mem_read_prefix info) by (by rewrite Hlen). run.
  unfold info at 1. rewrite decode_usb_info_spec by done. cbn [eAction eType info_nDiskId].
  destruct (slot_at _ _) as [t|]; run; [|done]. by destruct a.
Qed.

(** Taking the messages of the queue one after another. *)
Fixpoint receive_all (char_signed : bool) (n : nat) (q : list (list Z)) (st : part_state)
    : outcome (option (list (list Z) * part_state)) :=
  match n with
  | O => Ret (Some (q, st))
  | S n =>
      r ← probe_partition_step char_signed [RcvMessage] q st;
      match r with
      | None => Ret None
      | Some (q, st) => receive_all char_signed n q st
      end
  end.

(** The disk is being watched. *)
Definition watched (st : part_state) (id : Z) : Prop :=
  exists t, slot_at (s_UsbThread st) id = Ret t /\ run_tid t = true /\ nRunState t = 1.

Lemma watched_set st id id' info :
  0 <= id < Z.of_nat (length (s_UsbThread st)) -> id' = id \/ watched st id' ->
  watched (set_thread (set_slot id (QueryThread info true 1 EN_MNT_USB_PLUG_IN) (s_UsbThread st)) st) id'.
Proof.
  intros Hid Hw. unfold watched. cbn [set_thread s_UsbThread]. unfold set_slot.
  destruct (decide (id' = id)) as [->|Hne].
  - exists (QueryThread info true 1 EN_MNT_USB_PLUG_IN). split; [|done]. unfold slot_at.
    rewrite bool_decide_eq_true_2, list_lookup_insert_eq by lia. reflexivity.
  - destruct Hw as [|(t & Ht & Hr)]; [done|]. exists t. split; [|done]. revert Ht. unfold slot_at.
    case_bool_decide; [|done]. by rewrite list_lookup_insert_ne by lia.
Qed.

Lemma receive_all_spec char_signed l st :
  Forall (fun v => 0 <= nDiskId v < 2 ^ 32) l -> length (s_UsbThread st) = 128%nat ->
  if decide (Forall (fun v => nDiskId v < 128) l)
  then exists st', receive_all char_signed (length l) (map (usb_message EN_USB_ADD) l) st
                   = Ret (Some ([], st')) /\
         (forall id, id ∈ map nDiskId l \/ watched st id -> watched st' id) /\
         s_psPartHead st' = s_psPartHead st /\ part_heap st' = part_heap st
  else receive_all char_signed (length l) (map (usb_message EN_USB_ADD) l) st = Fault OutOfBounds.
Proof.
  intros Hrange. revert st. induction Hrange as [|v l Hv Hl IH]; intros st Hlen;
    cbn [length map receive_all].
  - exists st. split; [done|]. split; [|done]. by intros id [H%elem_of_nil|].
  - rewrite (probe_partition_step_spec char_signed 0) by done.
    destruct (decide (nDiskId v < 128)) as [Hlt|Hge].
    + destruct (slot_at_spec (s_UsbThread st) (nDiskId v)) as (t & _ & ->); [lia|]. run.
      set (st1 := set_thread _ _). assert (H1 : length (s_UsbThread st1) = 128%nat).
      { unfold st1. cbn. unfold set_slot. by rewrite length_insert. }
      specialize (IH st1 H1). destruct (decide (Forall (fun v => nDiskId v < 128) l)) as [Hf|Hf].
      * rewrite decide_True by by constructor. destruct IH as (st' & -> & Hw & Hp).
        exists st'. split; [done|]. split; [|done]. intros id Hid. apply Hw.
        rewrite elem_of_cons in Hid. destruct Hid as [[Hid|Hid]|Hid]; [right|by left|right];
          (apply watched_set; [lia|]); [by left|by right].
      * rewrite decide_False; [done|]. by intros [_ H]%Forall_cons.
    + rewrite decide_False by by intros [H _]%Forall_cons.
      unfold slot_at. rewrite bool_decide_eq_true_2 by lia.
      by rewrite lookup_ge_None_2 by lia.
Qed.

(** *** One detection *)

(** The situation of a detection: the disk is listed under a name the module
    handles, is known to the kernel, has a well-formed log that is not empty, and
    has partitions. *)
Record detectable (env : environment) (ul : list St_xl_storage_info) (id : Z) (name : string)
    (lines : list mount_entry) : Prop := {
  dt_disk : exists j v, list_find (fun v => nDiskId v = id) ul = Some (j, v) /\ szDiskName v = name;
  dt_kind : disk_kind name = true;
  dt_block : ("/sys/block/" +:+ name) ∈ env_block env;
  dt_log : mount_log env name = Some (concat (map mount_line lines));
  dt_lines : Forall entry_ok lines;
  dt_size : 0 < Z.of_nat (length (concat (map mount_line lines))) < 2 ^ 31;
  dt_parts : existing (env_dev env) name 0 64 <> [];
}.

Lemma detect_partition_spec env junk usb ul id name lines st l t :
  represents usb ul -> detectable env ul id name lines ->
  holds st l -> slot_at (s_UsbThread st) id = Ret t ->
  exists st', mnt_usb_detect_partition true env junk usb id st =
      Ret (if decide (last_size st t = Z.of_nat (length (concat (map mount_line lines))))
           then EN_ERROR_FAILED else EN_OK, st') /\
    if decide (last_size st t = Z.of_nat (length (concat (map mount_line lines))))
    then holds st' l
    else exists ps, Forall2 (part_ok env lines id name) (existing (env_dev env) name 0 64) ps /\
           holds st' (foldl record_part l ps).
Proof.
  intros Hu [(j & v & Hv & Hname) Hk Hb Hlog Hok Hsize Hp] Hh Ht.
  assert (Hlen : (String.length name <= 8)%nat).
  { destruct Hu as ([_ Hall] & _). apply list_find_Some in Hv as (Hv & _).
    apply (Forall_lookup_1 _ _ _ _ Hall) in Hv as [_ Hv]. by rewrite <- Hname. }
  unfold mnt_usb_detect_partition. rewrite (get_disk_name_spec _ _ _ 32 Hu) by lia.
  rewrite Hv. run. rewrite Hname.
  destruct (create_mount_log_spec env name id st t l _ Hh Ht Hlog Hsize) as (st1 & -> & Hh1 & _). run.
  case_decide as Hs; [by exists st1|]. rewrite (bool_decide_eq_false_2 (EN_OK <> EN_OK)) by tauto.
  rewrite (get_partition_cnt_spec env name 1 Hb Hk).
  set (cnt := length (existing (env_dev env) name 0 64)).
  assert (Hcnt : (0 < cnt)%nat) by (unfold cnt; destruct (existing _ _ _ _); [done|cbn; lia]).
  rewrite (bool_decide_eq_false_2 (0 >= _)) by lia. cbn [negb]. rewrite Nat2Z.id.
  match goal with |- context [imap ?f _] => set (clear := f) end.
  destruct (detect_loop_spec env name id lines 64 0 64 0 (imap clear (map junk (seq 0 cnt))) 0)
    as (ps & Hd & Hps); [done|done|done|done|lia|done| |].
  { rewrite length_imap, length_map, length_seq. done. }
  cbn [take app] in Hd. change (Z.of_nat 0) with 0 in Hd, Hps. change (Z.of_nat 64) with 64 in Hd, Hps.
  rewrite Hd. run. change (take 0 ?arr ++ ps) with ps.
  destruct (insert_partition_list_spec ps st1 l Hh1) as (st2 & -> & Hh2 & _).
  - intros ->. apply Forall2_length in Hps. cbn [length] in Hps. lia.
  - rewrite (records_keys _ _ _ _ _ _ Hps). apply NoDup_fmap_2; [by intros ?? [=]|].
    apply existing_NoDup.
  - exists st2. split; [done|]. by exists ps.
Qed.

(** ** The properties *)

(** C38: the disks that the list announced are all watched once the queue has
    been emptied, as long as no identifier is above 127; the last identifier
    that the disk list hands out, 128, is one beyond the table of threads. *)
Theorem announced_disks_watched char_signed usb l st :
  represents usb l -> length (s_UsbThread st) = 128%nat ->
  usb_queue usb = map (usb_message EN_USB_ADD) l ->
  if decide (Forall (fun v => nDiskId v < 128) l)
  then exists st', receive_all char_signed (length l) (usb_queue usb) st = Ret (Some ([], st')) /\
         (forall v, v ∈ l -> watched st' (nDiskId v)) /\
         s_psPartHead st' = s_psPartHead st /\ part_heap st' = part_heap st
  else receive_all char_signed (length l) (usb_queue usb) st = Fault OutOfBounds.
Proof.
  intros ([_ Hall] & _) Hlen ->.
  assert (Hrange : Forall (fun v => 0 <= nDiskId v < 2 ^ 32) l).
  { eapply Forall_impl; [exact Hall|]. intros v [[H|H] _]; [lia|]. rewrite H. unfold ALL_USB_DISK. lia. }
  pose proof (receive_all_spec char_signed l st Hrange Hlen) as H. case_decide as Hf; [|done].
  destruct H as (st' & He & Hw & Hp). exists st'. split; [done|]. split; [|done].
  intros v Hv. apply Hw. left. apply list_elem_of_fmap. by exists v.
Qed.

(** C37: one look at a disk whose mount log has changed records each partition
    that exists under its disk and number, with its mount directory, line and
    space when the log has a line for it, over an earlier record or besides
    it, and leaves the records of every other partition alone; a log of the
    same size as the last one is taken for unchanged. *)
Theorem detect_partition_records env junk usb ul id name lines st l t :
  represents usb ul -> detectable env ul id name lines ->
  holds st l -> slot_at (s_UsbThread st) id = Ret t ->
  exists e st' l', mnt_usb_detect_partition true env junk usb id st = Ret (e, st') /\
    holds st' l' /\ (NoDup (map part_key l) -> NoDup (map part_key l')) /\
    (e = EN_OK <-> last_size st t <> Z.of_nat (length (concat (map mount_line lines)))) /\
    forall k, if decide (e = EN_OK /\ k.1 = id /\ k.2 ∈ existing (env_dev env) name 0 64)
              then exists p, part_map l' !! k = Some p /\ part_ok env lines id name k.2 p
              else part_map l' !! k = part_map l !! k.
Proof.
  intros Hu Hd Hh Ht.
  destruct (detect_partition_spec env junk usb ul id name lines st l t Hu Hd Hh Ht) as (st' & -> & H).
  case_decide as Hs.
  - exists EN_ERROR_FAILED, st', l. split_and!; [done..|]. intros k. by rewrite decide_False by by intros [].
  - destruct H as (ps & Hps & Hh'). exists EN_OK, st', (foldl record_part l ps).
    split_and!; [done|done|apply foldl_record_NoDup|done|]. intros k. rewrite foldl_record_map.
    pose proof (records_lookup _ _ _ _ _ _ (part_map l) k (existing_NoDup _ _ _ _) Hps) as Hk.
    repeat case_decide; tauto.
Qed.

(** Removing the partitions of a disk changes nothing when it has none, and
    otherwise reads the node it has just freed. *)
Theorem removed_partitions_undefined id st l :
  holds st l ->
  mnt_usb_delete_partitions_from_list id st =
  if decide (Exists (fun p => nUSBDiskId p = id) l) then Fault UseAfterFree
  else Ret (EN_ERROR_FAILED, st).
Proof. exact (delete_partitions_spec id st l). Qed.

(** A query gives the records of the partitions asked for, all of them and
    in order, their number, and an error when the disk or its partitions are not
    there; the copies never leave the array allocated for them. *)
Theorem read_partition_exact usb ul st l id :
  represents usb ul -> holds st l -> Z.of_nat (length l) < 2 ^ 32 ->
  let answer kind :=
    if decide (Exists (answers id) ul) then
      if decide (matching kind id l = []) then ReadResult EN_ERROR_FAILED (Some 0) None
      else ReadResult EN_OK (Some (Z.of_nat (length (matching kind id l))))
             (Some (matching kind id l))
    else ReadResult EN_ERROR_UNKNOW (Some 0) None in
  mnt_usb_read_partition true usb st id = Ret (answer "/dev/sd") /\
  mnt_sdcard_read_partition true usb st id = Ret (answer "/dev/mmc").
Proof. intros Hu Hh Hl. split; by apply read_partition_spec. Qed.

(** After any series of detections the status of a disk is [EN_MNT_USB_REST]
    once one of them has succeeded, whatever came before and after, and otherwise
    [EN_MNT_USB_QUERY] up to the eighty-ninth and [EN_MNT_USB_TIMEOUT] from the
    ninetieth on. *)
Theorem query_status rs stat :
  rs <> [] ->
  (query_run rs query_init stat).2 =
  if decide (EN_OK ∈ rs) then EN_MNT_USB_REST
  else if decide (90 <= Z.of_nat (length rs)) then EN_MNT_USB_TIMEOUT else EN_MNT_USB_QUERY.
Proof.
  intros Hnil. unfold query_init. rewrite query_run_spec by lia. case_decide; [done|].
  by destruct rs.
Qed.

(** ** Instances *)

Lemma sample_usb :
  exists usb, represents usb [Storage 1 "sdb"; Storage 2 "mmcblk0"] /\
    usb_queue usb = map (usb_message EN_USB_ADD) [Storage 1 "sdb"; Storage 2 "mmcblk0"].
Proof.
  destruct (device_probe_spec true sample_dev usb_init_state [] represents_init)
    as (st & _ & H2 & H3).
  rewrite sample_files in H2, H3. exists st. split; [exact H2|]. rewrite H3. reflexivity.
Qed.

Lemma holds_init : holds part_init_state [].
Proof. exists []. split; [apply is_list_nil|done]. Qed.

Lemma announced_disks_watched_witness :
  exists usb st', receive_all true 2 (usb_queue usb) part_init_state = Ret (Some ([], st')) /\
    watched st' 1 /\ watched st' 2.
Proof.
  destruct sample_usb as (usb & Hu & Hq).
  pose proof (announced_disks_watched true usb _ part_init_state Hu eq_refl Hq) as H.
  rewrite decide_True in H by (repeat constructor).
  destruct H as (st' & H1 & H2 & _). exists usb, st'. split; [exact H1|].
  split; [apply (H2 (Storage 1 "sdb")); by left|apply (H2 (Storage 2 "mmcblk0")); right; by left].
Defined.

(** A disk with one partition, mounted on [/mnt]. *)
Definition sample_line : mount_entry :=
  MountEntry (str_bytes "/dev/sdb1") (str_bytes "/mnt") (str_bytes "vfat rw 0 0").

Definition sample_env : environment :=
  Env {["/dev/sdb"; "/dev/sdb1"]} {["/sys/block/sdb"]}
    (fun disk => if String.eqb disk "sdb" then Some (mount_line sample_line) else None)
    (fun _ => Some (Statfs MSDOS_SUPER_MAGIC 4096 1000 250))
    (fun _ => None).

Lemma sample_detectable :
  detectable sample_env [Storage 1 "sdb"; Storage 2 "mmcblk0"] 1 "sdb" [sample_line].
Proof.
  split; try (vm_compute; done).
  - by exists 0%nat, (Storage 1 "sdb").
  - apply (bool_decide_eq_true_1 _). vm_compute. reflexivity.
Qed.

Lemma detect_partition_records_witness :
  exists usb st' l' p,
    mnt_usb_detect_partition true sample_env (fun _ => PartInfo 9 9 [] [] 9 9 9 "" 9) usb 1
      part_init_state = Ret (EN_OK, st') /\
    holds st' l' /\ part_map l' !! (1, 1) = Some p /\
    szMountDir p = str_bytes "/mnt" /\ u64Capacity p = 4096000 /\ u64Used p = 3072000.
Proof.
  destruct sample_usb as (usb & Hu & _).
  destruct (detect_partition_records sample_env (fun _ => PartInfo 9 9 [] [] 9 9 9 "" 9) usb _
    1 "sdb" [sample_line] part_init_state [] (QueryThread None false 0 EN_MNT_USB_NONE)
    Hu sample_detectable holds_init eq_refl) as (e & st' & l' & H1 & H2 & _ & H4 & H5).
  assert (e = EN_OK) as -> by (apply H4; vm_compute; discriminate).
  specialize (H5 (1, 1)). rewrite decide_True in H5.
  - destruct H5 as (p & Hp & _ & _ & _ & Hok). exists usb, st', l', p.
    vm_compute in Hok. destruct Hok as (_ & Hdir & _ & Hcap & Hused).
    split_and!; assumption.
  - split_and!; [done..|]. apply (bool_decide_eq_true_1 _). vm_compute. reflexivity.
Defined.

Definition sample_part : St_xl_partition_info := PartInfo 1 1 [] [] 0 0 1 "/dev/sdb1" 0.

Lemma sample_holds : exists st, holds st [sample_part].
Proof.
  destruct (insert_partition_list_spec [sample_part] part_init_state [] holds_init)
    as (st & _ & H & _); [done|by repeat constructor; apply not_elem_of_nil|].
  exists st. exact H.
Qed.

Lemma removed_partitions_undefined_witness :
  exists st, holds st [sample_part] /\
    mnt_usb_delete_partitions_from_list 1 st = Fault UseAfterFree /\
    mnt_usb_delete_partitions_from_list 2 st = Ret (EN_ERROR_FAILED, st).
Proof.
  destruct sample_holds as (st & H). exists st. split; [exact H|].
  rewrite !(removed_partitions_undefined _ _ _ H). split; reflexivity.
Defined.

Lemma read_partition_exact_witness :
  exists usb st, mnt_usb_read_partition true usb st ALL_USB_DISK =
    Ret (ReadResult EN_OK (Some 1) (Some [sample_part])).
Proof.
  destruct sample_usb as (usb & Hu & _). destruct sample_holds as (st & H). exists usb, st.
  rewrite (proj1 (read_partition_exact usb _ st _ ALL_USB_DISK Hu H ltac:(cbn; lia))).
  vm_compute. reflexivity.
Defined.

Lemma query_status_witness :
  (query_run (replicate 95 EN_ERROR_FAILED) query_init EN_MNT_USB_PLUG_IN).2 = EN_MNT_USB_TIMEOUT.
Proof.
  rewrite (query_status (replicate 95 EN_ERROR_FAILED) EN_MNT_USB_PLUG_IN) by done.
  vm_compute. reflexivity.
Defined.
