(* ===== verification/Double.v ===== *)
(** * Numbers in double precision

    The [double]s of [cjson/cJSON.c]: the binary64 format of [SpecFloat], the
    conversions from and to [int], [floor], and the texts that [printf] writes
    for them. Integers below 2^53 are exact: sums, products and comparisons of
    them are those of the integers. *)

From Stdlib Require Export SpecFloat.
From S2P Require Import Prelude.

Abbreviation double := spec_float.
Abbreviation prec := 53.
Abbreviation emax := 1024.

(** ** Operations *)

Definition dadd : double -> double -> double := SFadd prec emax.
Definition dsub : double -> double -> double := SFsub prec emax.
Definition dmul : double -> double -> double := SFmul prec emax.

(** [(double)z] of an integer, rounded to the nearest. *)
Definition of_int (z : Z) : double := binary_normalize prec emax z 0 false.

(** The integer part of a finite number, towards zero and downwards. *)
Definition truncated (s : bool) (m : positive) (e : Z) : Z :=
  cond_Zopp s (if bool_decide (0 <= e) then Zpos m * 2 ^ e else Zpos m / 2 ^ (- e)).
Definition floored (s : bool) (m : positive) (e : Z) : Z :=
  if bool_decide (0 <= e) then cond_Zopp s (Zpos m * 2 ^ e) else cond_Zopp s (Zpos m) / 2 ^ (- e).

(** [(int)d]: a value that no [int] has is undefined. *)
Definition to_int (d : double) : outcome Z :=
  match d with
  | S754_zero _ => Ret 0
  | S754_finite s m e =>
      let t := truncated s m e in
      if bool_decide (- 2 ^ 31 <= t < 2 ^ 31) then Ret t else Fault SignedOverflow
  | _ => Fault SignedOverflow
  end.

(** [floor(d)]. *)
Definition floor (d : double) : double :=
  match d with
  | S754_finite s m e => if bool_decide (0 <= e) then d else of_int (floored s m e)
  | _ => d
  end.

(** [DBL_EPSILON]: the distance from 1 to the next number. *)
Definition DBL_EPSILON : double := binary_normalize prec emax 1 (-52) false.

(** ** Texts *)

Fixpoint digit_loop (fuel : nat) (n : Z) : list Z :=
  match fuel with
  | O => []
  | S fuel => (if bool_decide (n < 10) then [] else digit_loop fuel (n / 10)) ++ [48 + n mod 10]
  end.

(** The decimal digits of [n >= 0]; it has no more of them than bits. *)
Definition decimal (n : Z) : list Z := digit_loop (S (Z.to_nat (Z.log2 n))) n.

Definition minus (s : bool) : list Z := if s then [45] else [].

(** ["%d"]. *)
Definition text_d (z : Z) : list Z := minus (bool_decide (z < 0)) ++ decimal (Z.abs z).

(** [num / den], to the nearest, to the even one in the middle. *)
Definition round_div (num den : Z) : Z :=
  let q := num / den in
  let r := num mod den in
  if bool_decide (2 * r < den) then q
  else if bool_decide (den < 2 * r) then q + 1
  else if Z.even q then q else q + 1.

(** [m * 2^e * 10^p] as a fraction. *)
Definition scaled (m : positive) (e p : Z) : Z * Z :=
  (Zpos m * 2 ^ Z.max 0 e * 10 ^ Z.max 0 p, 2 ^ Z.max 0 (- e) * 10 ^ Z.max 0 (- p)).

(** [n] with its last [p] digits behind the point. *)
Definition point (p : nat) (n : Z) : list Z :=
  let l := decimal n in
  let l := replicate (S p - length l) 48 ++ l in
  take (length l - p) l ++ (if bool_decide (p = O) then [] else 46 :: drop (length l - p) l).

(** Numbers that are not finite. *)
Definition text_special (d : double) : list Z :=
  match d with
  | S754_infinity s => minus s ++ str_bytes "inf"
  | _ => str_bytes "nan"
  end.

(** ["%.<p>f"]. *)
Definition text_f (p : nat) (d : double) : list Z :=
  match d with
  | S754_zero s => minus s ++ point p 0
  | S754_finite s m e => let '(num, den) := scaled m e (Z.of_nat p) in minus s ++ point p (round_div num den)
  | _ => text_special d
  end.

(** The exponent in the text of ["%e"]: a sign and at least two digits. *)
Definition text_exponent (x : Z) : list Z :=
  let l := decimal (Z.abs x) in
  101 :: (if bool_decide (x < 0) then 45 else 43) :: replicate (2 - length l) 48 ++ l.

(** The position of the first digit: the number times 10^340 has digits before
    the point, however small it is. *)
Definition magnitude (m : positive) (e : Z) : Z :=
  let '(num, den) := scaled m e 340 in Z.of_nat (length (decimal (num / den))) - 1 - 340.

(** ["%e"]: one digit before the point and six behind it. *)
Definition text_e (d : double) : list Z :=
  match d with
  | S754_zero s => minus s ++ point 6 0 ++ text_exponent 0
  | S754_finite s m e =>
      let x := magnitude m e in
      let '(num, den) := scaled m e (6 - x) in
      let n := round_div num den in
      minus s ++ if bool_decide (n = 10 ^ 7) then point 6 (10 ^ 6) ++ text_exponent (x + 1)
                 else point 6 n ++ text_exponent x
  | _ => text_special d
  end.

(** ** Exact integers

    The bits of a positive integer, and the form of the number that holds it:
    its mantissa fills the 53 bits. *)

Definition bits (n : Z) : Z := Z.log2 n + 1.
Definition exact (s : bool) (n : Z) : double :=
  S754_finite s (Z.to_pos (n * 2 ^ (prec - bits n))) (bits n - prec).

Lemma digits_bits p : Zpos (digits2_pos p) = bits (Zpos p).
Proof.
  unfold bits. induction p as [p IH|p IH|]; cbn [digits2_pos]; [| |done]; rewrite Pos2Z.inj_succ, IH.
  - rewrite Pos2Z.inj_xI, Z.log2_succ_double by done. lia.
  - rewrite Pos2Z.inj_xO, Z.log2_double by done. lia.
Qed.

Lemma bits_bounds n : 0 < n -> 2 ^ (bits n - 1) <= n < 2 ^ bits n /\ 1 <= bits n.
Proof.
  intros Hn. unfold bits. pose proof (Z.log2_spec n Hn) as H. pose proof (Z.log2_nonneg n).
  replace (Z.log2 n + 1 - 1) with (Z.log2 n) by lia. rewrite Z.add_1_r. lia.
Qed.

Lemma bits_scale n k : 0 < n -> 0 <= k -> bits (n * 2 ^ k) = bits n + k.
Proof. intros Hn Hk. unfold bits. rewrite Z.log2_mul_pow2 by done. lia. Qed.

Lemma bits_small n : 0 < n < 2 ^ 53 -> bits n <= 53.
Proof. intros [Hn Hl]. unfold bits. apply Z.log2_lt_pow2 in Hl; lia. Qed.

(** Shifting zeros out is exact. *)
Lemma shift_zeros p n : 0 < n ->
  SpecFloat.iter_pos shr_1 p (Build_shr_record (n * 2 ^ Zpos p) false false) = Build_shr_record n false false.
Proof.
  assert (H1 : forall n, 0 < n -> shr_1 (Build_shr_record (n * 2) false false) = Build_shr_record n false false).
  { intros m Hm. rewrite Z.mul_comm. by destruct m. }
  revert n. induction p as [p IH|p IH|]; intros n Hn; cbn [SpecFloat.iter_pos].
  - replace (n * 2 ^ Zpos p~1) with (n * 2 ^ Zpos p * 2 ^ Zpos p * 2).
    + assert (0 < 2 ^ Zpos p) by (apply Z.pow_pos_nonneg; lia). rewrite H1 by nia. rewrite IH by nia. by apply IH.
    + replace (Zpos p~1) with (Zpos p + Zpos p + 1) by lia. rewrite !Z.pow_add_r by lia. lia.
  - replace (n * 2 ^ Zpos p~0) with (n * 2 ^ Zpos p * 2 ^ Zpos p).
    + assert (0 < 2 ^ Zpos p) by (apply Z.pow_pos_nonneg; lia). rewrite IH by nia. by apply IH.
    + replace (Zpos p~0) with (Zpos p + Zpos p) by lia. rewrite !Z.pow_add_r by lia. lia.
  - by apply H1.
Qed.

(** Rounding a mantissa that holds an integer of at most 53 bits, and has zeros
    behind it. *)
Lemma shr_fexp_exact n e : 0 < n < 2 ^ 53 -> -1000 < e -> e <= bits n - prec ->
  shr_fexp prec emax (n * 2 ^ (- e)) e loc_Exact =
  (Build_shr_record (n * 2 ^ (prec - bits n)) false false, bits n - prec).
Proof.
  intros Hn He Hk. pose proof (bits_small n Hn) as Hb. destruct Hn as [Hn Hl]. destruct (bits_bounds n Hn) as [_ H1].
  unfold shr_fexp. assert (Hd : Zdigits2 (n * 2 ^ (- e)) = bits n - e).
  { pose proof (bits_scale n (- e) Hn ltac:(lia)) as Hs. assert (0 < 2 ^ (- e)) by (apply Z.pow_pos_nonneg; lia).
    destruct (n * 2 ^ (- e)) as [|p|p] eqn:E; [nia| |nia]. cbn [Zdigits2]. rewrite digits_bits. lia. }
  rewrite Hd. unfold fexp, emin. replace (bits n - e + e) with (bits n) by lia.
  rewrite Z.max_l by lia. cbn [shr_record_of_loc]. destruct (bits n - prec - e) as [|p|p] eqn:E; [| |lia]; cbn [shr].
  - do 2 f_equal; [|lia]. f_equal. f_equal. lia.
  - replace (n * 2 ^ (- e)) with (n * 2 ^ (prec - bits n) * 2 ^ Zpos p).
    + rewrite shift_zeros; [do 2 f_equal; lia|]. assert (0 < 2 ^ (prec - bits n)) by (apply Z.pow_pos_nonneg; lia). nia.
    + rewrite <- Z.mul_assoc, <- Z.pow_add_r by lia. do 2 f_equal. lia.
Qed.

Lemma round_exact s n e m : 0 < n < 2 ^ 53 -> -1000 < e -> e <= bits n - prec -> m = n * 2 ^ (- e) ->
  binary_round_aux prec emax s m e loc_Exact = exact s n.
Proof.
  intros Hn He Hk ->. unfold binary_round_aux. rewrite shr_fexp_exact by done.
  cbn [shr_m loc_of_shr_record round_nearest_even]. pose proof (bits_small n Hn) as Hb. destruct Hn as [Hn Hl].
  destruct (bits_bounds n Hn) as [_ H1].
  pose proof (shr_fexp_exact n (bits n - prec) ltac:(lia) ltac:(lia) ltac:(lia)) as H2.
  replace (- (bits n - prec)) with (prec - bits n) in H2 by lia. rewrite H2. cbn [shr_m].
  unfold exact. assert (0 < 2 ^ (prec - bits n)) by (apply Z.pow_pos_nonneg; lia).
  destruct (n * 2 ^ (prec - bits n)) as [|p|p] eqn:E; [nia| |nia].
  cbn [Z.to_pos]. by destruct (Z.leb_spec (bits n - prec) (emax - prec)); [|lia].
Qed.

Lemma shl_iter d m : Zpos (Pos.iter xO m d) = Zpos m * 2 ^ Zpos d.
Proof.
  induction d as [|d IH] using Pos.peano_ind; [cbn; lia|].
  rewrite Pos.iter_succ, Pos2Z.inj_succ, Z.pow_succ_r by lia. rewrite Pos2Z.inj_xO, IH. lia.
Qed.

Lemma binary_round_exact s n e m : 0 < n < 2 ^ 53 -> -1000 < e <= 0 -> Zpos m = n * 2 ^ (- e) ->
  binary_round prec emax s m e = exact s n.
Proof.
  intros Hn He Hm. pose proof (bits_small n Hn) as Hb. destruct (bits_bounds n ltac:(lia)) as [_ H1].
  unfold binary_round. rewrite digits_bits, Hm, bits_scale by lia. unfold fexp, emin.
  replace (bits n + - e + e) with (bits n) by lia. rewrite Z.max_l by lia. unfold shl_align.
  destruct (bits n - prec - e) as [|d|d] eqn:E; apply (round_exact s n); try done; try lia.
  rewrite shl_iter, Hm, <- Z.mul_assoc, <- Z.pow_add_r by lia. do 2 f_equal. lia.
Qed.

Lemma of_int_pos n : 0 < n < 2 ^ 53 -> of_int n = exact false n.
Proof. intros Hn. unfold of_int. destruct n as [|p|p]; [lia| |lia]. apply binary_round_exact; lia. Qed.

Lemma of_int_neg n : 0 < n < 2 ^ 53 -> of_int (- n) = exact true n.
Proof. intros Hn. unfold of_int. destruct n as [|p|p]; [lia| |lia]. apply binary_round_exact; lia. Qed.

(** The forms of a number that holds an integer. *)
Lemma of_int_cases z : Z.abs z < 2 ^ 53 ->
  z = 0 /\ of_int z = S754_zero false \/
  exists s n, 0 < n < 2 ^ 53 /\ z = cond_Zopp s n /\ of_int z = exact s n.
Proof.
  intros Hz. destruct (Z.lt_trichotomy z 0) as [H|[H|H]].
  - right. exists true, (- z). rewrite <- of_int_neg by lia. cbn [cond_Zopp].
    split; [lia|]. split; [lia|]. f_equal. lia.
  - left. by rewrite H.
  - right. exists false, z. rewrite of_int_pos by lia. cbn [cond_Zopp]. split; [lia|done].
Qed.

(** The mantissa of an exact integer. *)
Lemma exact_mantissa n : 0 < n < 2 ^ 53 -> Zpos (Z.to_pos (n * 2 ^ (prec - bits n))) = n * 2 ^ (prec - bits n).
Proof.
  intros Hn. pose proof (bits_small n Hn). apply Z2Pos.id.
  assert (0 < 2 ^ (prec - bits n)) by (apply Z.pow_pos_nonneg; lia). nia.
Qed.

(** ** Arithmetic on exact integers *)

Lemma opp_xorb s t a b : cond_Zopp (xorb s t) (a * b) = cond_Zopp s a * cond_Zopp t b.
Proof. destruct s, t; cbn; lia. Qed.

Lemma abs_opp s n : 0 < n -> Z.abs (cond_Zopp s n) = n.
Proof. destruct s; cbn; lia. Qed.

Lemma of_int_exact s n : 0 < n < 2 ^ 53 -> of_int (cond_Zopp s n) = exact s n.
Proof. intros Hn. destruct s; [by apply of_int_neg|by apply of_int_pos]. Qed.

Lemma dmul_exact s t a b : 0 < a < 2 ^ 53 -> 0 < b < 2 ^ 53 -> a * b < 2 ^ 53 ->
  dmul (exact s a) (exact t b) = exact (xorb s t) (a * b).
Proof.
  intros Ha Hb Hab. unfold dmul, exact at 1 2. cbn [SFmul]. pose proof (bits_small a Ha). pose proof (bits_small b Hb).
  destruct (bits_bounds a ltac:(lia)) as [_ ?], (bits_bounds b ltac:(lia)) as [_ ?].
  assert (bits b <= bits (a * b)) by (unfold bits; pose proof (Z.log2_le_mono b (a * b) ltac:(nia)); lia).
  apply round_exact; [nia|lia..|].
  rewrite Pos2Z.inj_mul, !exact_mantissa by done.
  replace (- (bits a - prec + (bits b - prec))) with (prec - bits a + (prec - bits b)) by lia.
  rewrite Z.pow_add_r by lia. lia.
Qed.

(** Products. A zero factor has no sign here. *)
Lemma dmul_int a b : Z.abs a < 2 ^ 53 -> Z.abs b < 2 ^ 53 -> Z.abs (a * b) < 2 ^ 53 -> 0 <= a -> 0 <= b \/ 0 < a ->
  b <> 0 \/ 0 <= a -> dmul (of_int a) (of_int b) = of_int (a * b).
Proof.
  intros Ha Hb Hab H0 H1 H2. destruct (of_int_cases a Ha) as [[-> Ea]|(s & n & Hn & -> & Ea)].
  - rewrite Ea. destruct (of_int_cases b Hb) as [[-> Eb]|(t & m & Hm & -> & Eb)]; rewrite Eb; [done|].
    destruct t; [cbn in H1; lia|done].
  - rewrite Ea. destruct (of_int_cases b Hb) as [[-> Eb]|(t & m & Hm & -> & Eb)]; rewrite Eb.
    + destruct s; [cbn in H0; lia|]. by rewrite Z.mul_0_r.
    + rewrite Z.abs_mul, !abs_opp in Hab by lia. rewrite dmul_exact by lia.
      rewrite <- opp_xorb, of_int_exact by nia. done.
Qed.

(** A sign in front of a positive number. *)
Lemma dmul_sign s n : 0 < n < 2 ^ 53 -> dmul (of_int (cond_Zopp s 1)) (of_int n) = of_int (cond_Zopp s n).
Proof.
  intros Hn. rewrite !of_int_exact, (of_int_pos n) by lia.
  rewrite dmul_exact by lia. rewrite xorb_false_r, Z.mul_1_l. done.
Qed.

Lemma dmul_one z : Z.abs z < 2 ^ 53 -> dmul (of_int z) (of_int 1) = of_int z.
Proof.
  intros Hz. destruct (of_int_cases z Hz) as [[-> E]|(s & n & Hn & -> & E)]; [done|].
  rewrite E, (of_int_pos 1), dmul_exact by lia. by rewrite xorb_false_r, Z.mul_1_r.
Qed.

(** Sums of two that are aligned. *)
Lemma dadd_int a b : 0 <= a -> 0 <= b -> a + b < 2 ^ 53 -> dadd (of_int a) (of_int b) = of_int (a + b).
Proof.
  intros Ha Hb Hab. destruct (decide (a = 0)) as [->|].
  { rewrite Z.add_0_l. destruct (decide (b = 0)) as [->|]; [done|]. by rewrite (of_int_pos b) by lia. }
  destruct (decide (b = 0)) as [->|]; [rewrite Z.add_0_r; by rewrite (of_int_pos a) by lia|].
  rewrite !of_int_pos by lia. unfold dadd, exact at 1 2. cbn [SFadd cond_Zopp].
  pose proof (bits_small a ltac:(lia)). pose proof (bits_small b ltac:(lia)). pose proof (bits_small (a + b) ltac:(lia)).
  destruct (bits_bounds a ltac:(lia)), (bits_bounds b ltac:(lia)).
  assert (Al : forall x e, 0 < x < 2 ^ 53 -> e <= bits x - prec -> e <= 0 ->
    Zpos (fst (shl_align (Z.to_pos (x * 2 ^ (prec - bits x))) (bits x - prec) e)) = x * 2 ^ (- e)).
  { intros x e Hx He Hz. pose proof (bits_small x Hx). unfold shl_align.
    destruct (e - (bits x - prec)) as [|d|d] eqn:E; cbn [fst]; [|lia|].
    - rewrite exact_mantissa by done. do 2 f_equal. lia.
    - rewrite shl_iter, exact_mantissa, <- Z.mul_assoc, <- Z.pow_add_r by lia. do 2 f_equal. lia. }
  set (ez := Z.min (bits a - prec) (bits b - prec)). rewrite !Al by lia.
  rewrite <- Z.mul_add_distr_r. assert (0 < 2 ^ (- ez)) by (apply Z.pow_pos_nonneg; lia).
  destruct ((a + b) * 2 ^ (- ez)) as [|p|p] eqn:E; [nia| |nia]. cbn [binary_normalize]. by apply binary_round_exact; lia.
Qed.

Lemma dsub_same z : Z.abs z < 2 ^ 53 -> dsub (of_int z) (of_int z) = S754_zero false.
Proof.
  intros Hz. destruct (of_int_cases z Hz) as [[-> E]|(s & n & Hn & -> & E)]; [done|].
  rewrite E. unfold exact, dsub. cbn [SFsub]. by rewrite Z.sub_diag.
Qed.

(** Comparison. *)
Lemma compare_pos a b : 0 < a < 2 ^ 53 -> 0 < b < 2 ^ 53 ->
  match bits a - prec ?= bits b - prec with
  | Eq => Pos.compare_cont Eq (Z.to_pos (a * 2 ^ (prec - bits a))) (Z.to_pos (b * 2 ^ (prec - bits b)))
  | c => c
  end = (a ?= b).
Proof.
  intros Ha Hb. destruct (bits_bounds a) as [H1 _], (bits_bounds b) as [H2 _]; [lia..|].
  pose proof (bits_small a Ha). pose proof (bits_small b Hb).
  destruct (Z.compare_spec (bits a - prec) (bits b - prec)) as [E|E|E].
  - change (Pos.compare_cont Eq ?x ?y) with (Zpos x ?= Zpos y). rewrite !exact_mantissa by done.
    assert (E2 : bits a = bits b) by lia. rewrite E2.
    assert (0 < 2 ^ (prec - bits b)) by (apply Z.pow_pos_nonneg; lia).
    symmetry. rewrite !(Z.mul_comm _ (2 ^ (prec - bits b))). by apply Zmult_compare_compat_l, Z.lt_gt.
  - symmetry. apply Z.compare_lt_iff. pose proof (Z.pow_le_mono_r 2 (bits a) (bits b - 1) ltac:(lia) ltac:(lia)). lia.
  - symmetry. apply Z.compare_gt_iff. pose proof (Z.pow_le_mono_r 2 (bits b) (bits a - 1) ltac:(lia) ltac:(lia)). lia.
Qed.

Lemma SFcompare_int a b : Z.abs a < 2 ^ 53 -> Z.abs b < 2 ^ 53 -> SFcompare (of_int a) (of_int b) = Some (a ?= b).
Proof.
  intros Ha Hb. destruct (of_int_cases a Ha) as [[-> Ea]|(s & n & Hn & -> & Ea)];
    destruct (of_int_cases b Hb) as [[-> Eb]|(t & m & Hm & -> & Eb)]; rewrite ?Ea, ?Eb; unfold exact; cbn [SFcompare]; [done|..].
  - destruct t; cbn [cond_Zopp]; f_equal; symmetry; [apply Z.compare_gt_iff|apply Z.compare_lt_iff]; lia.
  - destruct s; cbn [cond_Zopp]; f_equal; symmetry; [apply Z.compare_lt_iff|apply Z.compare_gt_iff]; lia.
  - pose proof (compare_pos n m Hn Hm) as C. destruct s, t; cbn [cond_Zopp]; f_equal.
    + rewrite Z.compare_opp, (Z.compare_antisym n m), <- C. by destruct (bits n - prec ?= bits m - prec).
    + symmetry. apply Z.compare_lt_iff. lia.
    + symmetry. apply Z.compare_gt_iff. lia.
    + rewrite <- C. by destruct (bits n - prec ?= bits m - prec).
Qed.

Lemma SFleb_int a b : Z.abs a < 2 ^ 53 -> Z.abs b < 2 ^ 53 -> SFleb (of_int a) (of_int b) = bool_decide (a <= b).
Proof.
  intros Ha Hb. unfold SFleb. rewrite SFcompare_int by done.
  by destruct (Z.compare_spec a b); symmetry; [apply bool_decide_eq_true_2..|apply bool_decide_eq_false_2]; lia.
Qed.

(** The conversion back. *)
Lemma to_int_of_int z : - 2 ^ 31 <= z < 2 ^ 31 -> to_int (of_int z) = Ret z.
Proof.
  intros Hz. destruct (of_int_cases z ltac:(lia)) as [[-> E]|(s & n & Hn & -> & E)]; [done|].
  rewrite E. unfold exact, to_int. pose proof (bits_small n Hn).
  assert (Ht : truncated s (Z.to_pos (n * 2 ^ (prec - bits n))) (bits n - prec) = cond_Zopp s n).
  { unfold truncated. rewrite exact_mantissa by done. f_equal. case_bool_decide as Hb.
    - replace (bits n) with 53 by lia. cbn. lia.
    - replace (- (bits n - prec)) with (prec - bits n) by lia. apply Z.div_mul. lia. }
  rewrite Ht. by rewrite bool_decide_eq_true_2.
Qed.

(** ** The length of a text *)

Definition valid (d : double) : Prop := valid_binary prec emax d = true.

Lemma digit_loop_length fuel n k : 0 <= n < 10 ^ k -> 1 <= k -> Z.of_nat (length (digit_loop fuel n)) <= k.
Proof.
  revert n k. induction fuel as [|fuel IH]; intros n k Hn Hk; cbn [digit_loop length]; [lia|].
  rewrite length_app. cbn [length]. case_bool_decide as H; cbn [length]; [lia|].
  assert (H1 : 1 < k) by (destruct (decide (k = 1)) as [->|]; lia).
  specialize (IH (n / 10) (k - 1)).
  assert (E : 10 ^ k = 10 * 10 ^ (k - 1)) by (rewrite <- Z.pow_succ_r by lia; f_equal; lia).
  assert (0 <= n / 10 < 10 ^ (k - 1)) by dlia. lia.
Qed.

Lemma decimal_length n k : 0 <= n < 10 ^ k -> 1 <= k -> Z.of_nat (length (decimal n)) <= k.
Proof. apply digit_loop_length. Qed.

Lemma digit_loop_bound fuel n : 0 <= n < 2 ^ Z.of_nat fuel -> n < 10 ^ Z.of_nat (length (digit_loop fuel n)).
Proof.
  revert n. induction fuel as [|fuel IH]; intros n Hn; cbn [digit_loop length]; [cbn in *; lia|].
  rewrite length_app. cbn [length]. case_bool_decide as H; [cbn; lia|].
  rewrite Nat2Z.inj_succ, Z.pow_succ_r in Hn by lia. specialize (IH (n / 10) ltac:(dlia)).
  rewrite Nat2Z.inj_add, Z.pow_add_r by lia. change (10 ^ Z.of_nat 1) with 10. dlia.
Qed.

Lemma decimal_bound n : 0 <= n -> n < 10 ^ Z.of_nat (length (decimal n)).
Proof.
  intros Hn. apply digit_loop_bound. split; [done|]. rewrite Nat2Z.inj_succ, Z2Nat.id by apply Z.log2_nonneg.
  destruct (decide (n = 0)) as [->|]; [done|]. apply Z.log2_spec. lia.
Qed.

Lemma decimal_nonempty n : (1 <= length (decimal n))%nat.
Proof. unfold decimal. cbn [digit_loop]. rewrite length_app. cbn [length]. lia. Qed.

Lemma text_d_length z : - 2 ^ 31 <= z < 2 ^ 31 -> (length (text_d z) <= 11)%nat.
Proof.
  intros Hz. unfold text_d, minus. pose proof (decimal_length (Z.abs z) 10 ltac:(lia) ltac:(lia)).
  rewrite length_app. case_bool_decide; cbn [length]; lia.
Qed.

Lemma round_div_bound num den k : 0 <= num <= k * den -> 0 < den -> 0 <= round_div num den <= k.
Proof.
  intros Hn Hd. unfold round_div. set (q := num / den). set (r := num mod den).
  assert (E : num = den * q + r) by (apply Z.div_mod; lia). pose proof (Z.mod_pos_bound num den Hd) as Hr. fold r in Hr.
  assert (0 <= q) by (apply Z.div_pos; lia). destruct (decide (q < k)) as [Hq|Hq].
  - repeat case_bool_decide; try lia. destruct (Z.even q); lia.
  - rewrite bool_decide_eq_true_2; nia.
Qed.

Lemma point_length p n k : 0 <= n < 10 ^ k -> 1 <= k -> Z.of_nat (length (point p n)) <= Z.max (Z.of_nat p + 1) k + 1.
Proof.
  intros Hn Hk. unfold point. pose proof (decimal_length n k Hn Hk). pose proof (decimal_nonempty n).
  set (l := replicate _ _ ++ _). assert (Hl : length l = (length (decimal n) `max` S p)%nat).
  { unfold l. rewrite length_app, length_replicate. lia. }
  rewrite length_app, length_take. case_bool_decide; cbn [length]; rewrite ?length_drop; lia.
Qed.

(** The value of a finite number, in units of the least one. *)
Definition units (m : positive) (e : Z) : Z := Zpos m * 2 ^ (e + 1074).

Lemma valid_finite s m e : valid (S754_finite s m e) ->
  Zpos m < 2 ^ 53 /\ -1074 <= e <= 971 /\ (e = -1074 \/ 2 ^ 52 <= Zpos m).
Proof.
  unfold valid. cbn [valid_binary]. unfold bounded, canonical_mantissa, fexp, emin. rewrite andb_true_iff.
  intros [H1%Z.eqb_eq H2%Z.leb_le]. rewrite digits_bits in H1. destruct (bits_bounds (Zpos m) ltac:(lia)) as [[Hl Hu] _].
  assert (Hb : bits (Zpos m) <= 53) by lia. pose proof (Z.pow_le_mono_r 2 _ _ ltac:(lia) Hb). split; [lia|]. split; [lia|].
  destruct (decide (e = -1074)) as [|Hne]; [by left|]. right. replace (bits (Zpos m) - 1) with 52 in Hl by lia. done.
Qed.

Lemma compare_units m e m' e' : valid (S754_finite false m e) -> valid (S754_finite false m' e') ->
  SFcompare (S754_finite false m e) (S754_finite false m' e') = Some (units m e ?= units m' e').
Proof.
  assert (Lt : forall m e m' e', valid (S754_finite false m e) -> valid (S754_finite false m' e') -> e < e' ->
    units m e < units m' e').
  { clear. intros m e m' e' (H1 & H2 & H3)%valid_finite (H4 & H5 & H6)%valid_finite He. unfold units.
    destruct H6 as [|H6]; [lia|].
    assert (E : 2 ^ (e' + 1074) = 2 ^ (e + 1074) * 2 ^ (e' - e - 1) * 2 ^ 1)
      by (rewrite <- !Z.pow_add_r by lia; f_equal; lia).
    rewrite E. assert (0 < 2 ^ (e + 1074)) by (apply Z.pow_pos_nonneg; lia).
    assert (0 < 2 ^ (e' - e - 1)) by (apply Z.pow_pos_nonneg; lia). change (2 ^ 1) with 2. nia. }
  intros Hv Hv'. cbn [SFcompare]. f_equal. destruct (Z.compare_spec e e') as [->|He|He]; symmetry.
  - change (Pos.compare_cont Eq m m') with (Zpos m ?= Zpos m'). unfold units.
    rewrite !(Z.mul_comm _ (2 ^ (e' + 1074))). symmetry. apply valid_finite in Hv'. apply Zmult_compare_compat_l, Z.lt_gt.
    apply Z.pow_pos_nonneg; lia.
  - by apply Z.compare_lt_iff, Lt.
  - by apply Z.compare_gt_iff, Lt.
Qed.

(** A number that is no more than [c], scaled. *)
Lemma scaled_bound m e p c : -1074 <= e -> 0 <= p -> 0 <= c -> units m e <= c * 2 ^ 1074 ->
  let '(num, den) := scaled m e p in 0 <= num <= c * 10 ^ p * den /\ 0 < den.
Proof.
  intros He Hp Hc H. unfold scaled. rewrite (Z.max_r 0 p), (Z.max_l 0 (- p)), Z.mul_1_r by lia.
  assert (0 < 10 ^ p) by (apply Z.pow_pos_nonneg; lia). assert (0 < 2 ^ Z.max 0 e) by (apply Z.pow_pos_nonneg; lia).
  assert (0 < 2 ^ Z.max 0 (- e)) by (apply Z.pow_pos_nonneg; lia).
  split; [split; [lia|]|lia]. enough (Zpos m * 2 ^ Z.max 0 e <= c * 2 ^ Z.max 0 (- e)) by nia.
  unfold units in H. destruct (decide (0 <= e)) as [Hs|Hs].
  - rewrite Z.max_r, Z.max_l by lia. rewrite Z.pow_add_r in H by lia.
    assert (0 < 2 ^ 1074) by (apply Z.pow_pos_nonneg; lia). nia.
  - rewrite Z.max_l, Z.max_r by lia. replace 1074 with ((e + 1074) + - e) in H at 2 by lia.
    rewrite (Z.pow_add_r 2 (e + 1074) (- e)) in H by lia. assert (0 < 2 ^ (e + 1074)) by (apply Z.pow_pos_nonneg; lia). nia.
Qed.

Lemma text_f_finite p c k s m e : valid (S754_finite s m e) -> 0 <= c -> units m e <= c * 2 ^ 1074 ->
  c * 10 ^ Z.of_nat p < 10 ^ k -> 1 <= k ->
  Z.of_nat (length (text_f p (S754_finite s m e))) <= Z.max (Z.of_nat p + 1) k + 2.
Proof.
  intros Hv Hc Hm Hk H1. apply valid_finite in Hv as (_ & He & _). cbn [text_f].
  pose proof (scaled_bound m e (Z.of_nat p) c ltac:(lia) ltac:(lia) Hc Hm) as H.
  destruct (scaled m e (Z.of_nat p)) as [num den]. destruct H as [Hn Hd].
  pose proof (round_div_bound num den _ Hn Hd) as Hr. rewrite length_app.
  pose proof (point_length p (round_div num den) k ltac:(lia) H1). destruct s; cbn [minus length]; lia.
Qed.

(** The first digit is where [magnitude] says. *)
Lemma magnitude_spec s m e : valid (S754_finite s m e) ->
  let x := magnitude m e in
  -340 <= x <= 309 /\ let '(num, den) := scaled m e (6 - x) in 0 <= num <= 10 ^ 7 * den /\ 0 < den.
Proof.
  intros Hv. apply valid_finite in Hv as (Hm & He & _). cbv zeta.
  set (x := magnitude m e). set (A := Zpos m * 2 ^ Z.max 0 e). set (D := 2 ^ Z.max 0 (- e)).
  assert (HA : 0 < A) by (unfold A; assert (0 < 2 ^ Z.max 0 e) by (apply Z.pow_pos_nonneg; lia); nia).
  assert (HD : 0 < D) by (apply Z.pow_pos_nonneg; lia).
  set (q := A * 10 ^ 340 / D). assert (Hq : 0 <= q) by (apply Z.div_pos; lia).
  assert (Hx : x + 341 = Z.of_nat (length (decimal q))).
  { unfold x, magnitude, scaled. change (10 ^ Z.max 0 340) with (10 ^ 340). change (10 ^ Z.max 0 (- (340))) with 1.
    fold A D. rewrite Z.mul_1_r. fold q. lia. }
  pose proof (decimal_nonempty q) as Hlo. pose proof (decimal_bound q Hq) as Hb. rewrite <- Hx in Hb.
  assert (Hhi : Z.of_nat (length (decimal q)) <= 650).
  { apply decimal_length; [|lia]. split; [done|]. apply Z.le_lt_trans with (A * 10 ^ 340).
    - apply Z.div_le_upper_bound; [done|]. nia.
    - assert (A <= 2 ^ 1024); [|assert (2 ^ 1024 * 10 ^ 340 < 10 ^ 650) by (vm_compute; done); nia].
      unfold A. pose proof (Z.pow_le_mono_r 2 (Z.max 0 e) 971 ltac:(lia) ltac:(lia)).
      change (2 ^ 1024) with (2 ^ 53 * 2 ^ 971). nia. }
  split; [lia|]. unfold scaled. fold A D.
  assert (HB : A * 10 ^ 340 < 10 ^ (x + 341) * D).
  { assert (A * 10 ^ 340 = D * q + (A * 10 ^ 340) mod D) by (apply Z.div_mod; lia).
    pose proof (Z.mod_pos_bound (A * 10 ^ 340) D HD). nia. }
  clearbody A D x. clear -HA HD HB Hx Hlo.
  assert (H340 : 0 < 10 ^ 340) by (apply Z.pow_pos_nonneg; lia).
  destruct (decide (x <= 6)) as [H|H].
  - rewrite (Z.max_r 0 (6 - x)), (Z.max_l 0 (- (6 - x))), Z.mul_1_r by lia.
    assert (0 < 10 ^ (6 - x)) by (apply Z.pow_pos_nonneg; lia).
    assert (E : 10 ^ (x + 341) * 10 ^ (6 - x) = 10 ^ 340 * 10 ^ 7) by (rewrite <- !Z.pow_add_r by lia; f_equal; lia).
    generalize dependent (10 ^ 340). generalize dependent (10 ^ (6 - x)). intros P HP T HT. intros. split; [|done].
    split; [nia|]. assert (A * P * T <= 10 ^ 7 * D * T) by nia. nia.
  - rewrite (Z.max_l 0 (6 - x)), (Z.max_r 0 (- (6 - x))), Z.mul_1_r by lia.
    assert (0 < 10 ^ (- (6 - x))) by (apply Z.pow_pos_nonneg; lia).
    assert (E : 10 ^ (x + 341) = 10 ^ (- (6 - x)) * 10 ^ 7 * 10 ^ 340) by (rewrite <- !Z.pow_add_r by lia; f_equal; lia).
    rewrite E in HB. generalize dependent (10 ^ 340). generalize dependent (10 ^ (- (6 - x))). intros P HP T HT. intros.
    split; [|nia]. split; [lia|]. nia.
Qed.

Lemma text_exponent_length x : -1000 < x < 1000 -> (length (text_exponent x) <= 5)%nat.
Proof.
  intros Hx. unfold text_exponent. pose proof (decimal_length (Z.abs x) 3 ltac:(lia) ltac:(lia)).
  cbn [length]. rewrite length_app, length_replicate. lia.
Qed.

Lemma text_e_length d : valid d -> (length (text_e d) <= 16)%nat.
Proof.
  destruct d as [s|s| |s m e]; intros Hv; [by destruct s; vm_compute; lia..| | ].
  - vm_compute. lia.
  - destruct (magnitude_spec s m e Hv) as [Hx H]. cbn [text_e]. set (x := magnitude m e) in *.
    destruct (scaled m e (6 - x)) as [num den]. destruct H as [Hn Hd]. pose proof (round_div_bound num den _ Hn Hd) as Hr.
    pose proof (text_exponent_length x ltac:(lia)). pose proof (text_exponent_length (x + 1) ltac:(lia)).
    rewrite length_app. case_bool_decide as E; rewrite length_app.
    + assert (length (point 6 (10 ^ 6)) = 8%nat) by (vm_compute; done). destruct s; cbn [minus length]; lia.
    + pose proof (point_length 6 (round_div num den) 7 ltac:(lia) ltac:(lia)). destruct s; cbn [minus length]; lia.
Qed.

(** A number that is not beyond a constant. *)
Definition within (n : Z) (d : double) : Prop :=
  match d with
  | S754_finite _ m e => units m e <= n * 2 ^ 1074
  | S754_infinity _ => False
  | _ => True
  end.

Lemma less_within d m e n : valid d -> valid (S754_finite false m e) -> units m e <= n * 2 ^ 1074 ->
  SFltb (SFabs d) (S754_finite false m e) = true -> within n d.
Proof.
  intros Hd Hc Hn H. destruct d as [s|s| |s m' e']; [done|done|done|]. unfold SFltb in H. cbn [SFabs within] in *.
  rewrite compare_units in H by done. destruct (Z.compare_spec (units m' e') (units m e)); try done. lia.
Qed.

Lemma not_more_within d m e n : valid d -> valid (S754_finite false m e) -> units m e <= n * 2 ^ 1074 ->
  SFltb (S754_finite false m e) (SFabs d) = false -> within n d.
Proof.
  intros Hd Hc Hn H. destruct d as [s|s| |s m' e']; [done|done|done|]. unfold SFltb in H. cbn [SFabs within] in *.
  rewrite compare_units in H by done. destruct (Z.compare_spec (units m e) (units m' e')); try done; lia.
Qed.

Lemma text_f_within p n k d : valid d -> 0 <= n -> within n d -> n * 10 ^ Z.of_nat p < 10 ^ k -> 1 <= k ->
  Z.of_nat (length (text_f p d)) <= Z.max (Z.of_nat p + 1) k + 2.
Proof.
  intros Hv Hn Hw Hk H1. destruct d as [s|s| |s m e]; [| done| |].
  - cbn [text_f]. rewrite length_app. pose proof (point_length p 0 1 ltac:(lia) ltac:(lia)). destruct s; cbn [minus length]; lia.
  - change (text_f p S754_nan) with (str_bytes "nan"). change (length (str_bytes "nan")) with 3%nat. lia.
  - by apply text_f_finite with (c := n).
Qed.
