(* ===== verification/Json.v ===== *)
(** * JSON texts

    The parser and the printer of [cjson/cJSON.c], with [cJSON_Minify]. A
    [char *] that walks over a text is the list of the bytes from there to the end
    of the block that holds it, so reading behind the end of the block is a fault.
    A [char *] that is the value of an item is the list of its bytes without the
    terminating zero. Blocks written through a pointer are written by [put]
    and [put_str], which check the size that was allocated. Allocation
    succeeds, and lengths stay below 2^31. *)

From S2P Require Import Prelude Double.

(** ** Items

    An item owns its strings and the chain of its children. The links of the
    chain are those of a list. *)

(* @src C/cjson/cJSON.h:32-38 cJSON_False *)
Definition cJSON_False := 0.
Definition cJSON_True := 1.
Definition cJSON_NULL := 2.
Definition cJSON_Number := 3.
Definition cJSON_String := 4.
Definition cJSON_Array := 5.
Definition cJSON_Object := 6.

(* @src C/cjson/cJSON.h:43-54 cJSON *)
Inductive cJSON : Type :=
  Item (type : Z) (valuestring : option (list Z)) (valueint : Z) (valuedouble : double)
       (string : option (list Z)) (child : list cJSON).

Definition type (c : cJSON) : Z := let '(Item t _ _ _ _ _) := c in t.
Definition valuestring (c : cJSON) : option (list Z) := let '(Item _ v _ _ _ _) := c in v.
Definition valueint (c : cJSON) : Z := let '(Item _ _ i _ _ _) := c in i.
Definition valuedouble (c : cJSON) : double := let '(Item _ _ _ d _ _) := c in d.
Definition string (c : cJSON) : option (list Z) := let '(Item _ _ _ _ s _) := c in s.
Definition child (c : cJSON) : list cJSON := let '(Item _ _ _ _ _ l) := c in l.

(* @src C/cjson/cJSON.c:73-78 cJSON_New_Item *)
Definition cJSON_New_Item : cJSON := Item 0 None 0 (S754_zero false) None [].

Definition set_type (t : Z) (c : cJSON) : cJSON :=
  let '(Item _ v i d s l) := c in Item t v i d s l.
Definition set_valuestring (v : option (list Z)) (c : cJSON) : cJSON :=
  let '(Item t _ i d s l) := c in Item t v i d s l.
Definition set_valueint (i : Z) (c : cJSON) : cJSON :=
  let '(Item t v _ d s l) := c in Item t v i d s l.
Definition set_valuedouble (d : double) (c : cJSON) : cJSON :=
  let '(Item t v i _ s l) := c in Item t v i d s l.
Definition set_string (s : option (list Z)) (c : cJSON) : cJSON :=
  let '(Item t v i d _ l) := c in Item t v i d s l.
Definition set_child (l : list cJSON) (c : cJSON) : cJSON :=
  let '(Item t v i d s _) := c in Item t v i d s l.

(** ** Pointers into a text *)

Abbreviation ptr := (list Z).

(** [*p]. *)
Definition peek (p : ptr) : outcome Z := match p with c :: _ => Ret c | [] => Fault OutOfBounds end.

(** What a parser returns: the item and where the text goes on, or a null
    pointer, with [ep] set to the place of the error. *)
Inductive answer (A : Type) : Type :=
  | Accepted (a : A) (rest : ptr)
  | Rejected (ep : ptr).
Arguments Accepted {A} a rest.
Arguments Rejected {A} ep.

(** [strncmp(p, s, strlen(s)) == 0]: it stops at the first difference. *)
Fixpoint starts_with (s : list Z) (p : ptr) : outcome bool :=
  match s with
  | [] => Ret true
  | b :: s => c ← peek p; if bool_decide (c = b) then starts_with s (tail p) else Ret false
  end.

(** The bytes of a C string at the start of a block. *)
Fixpoint c_str (l : list Z) : list Z :=
  match l with [] => [] | b :: l => if bool_decide (b = 0) then [] else b :: c_str l end.

(** Writing through a pointer that is behind the bytes [out] of a block of
    [cap] bytes: without and with a terminating zero behind the data. *)
Definition put (cap : Z) (data out : list Z) : outcome (list Z) :=
  _ ← require (bool_decide (Z.of_nat (length out) + Z.of_nat (length data) <= cap)) OutOfBounds;
  Ret (out ++ data).
Definition put_str (cap : Z) (data out : list Z) : outcome (list Z) :=
  _ ← require (bool_decide (Z.of_nat (length out) + Z.of_nat (length data) + 1 <= cap)) OutOfBounds;
  Ret (out ++ data).

(* @src C/cjson/cJSON.c:261-261 skip *)
Fixpoint skip (p : ptr) : outcome ptr :=
  match p with
  | [] => Fault OutOfBounds
  | c :: p' => if bool_decide (c <> 0 /\ c <= 32) then skip p' else Ret p
  end.

(** ** Numbers *)

Definition is_digit (c : Z) : bool := bool_decide (48 <= c <= 57).

(** [x * 10 + digit] on an [int]. *)
Definition times_ten (x digit : Z) : outcome Z :=
  if bool_decide (x * 10 + digit < 2 ^ 31) then Ret (x * 10 + digit) else Fault SignedOverflow.

Section Numbers.
(** [pow] of the C library. *)
Variable pow : double -> double -> double.

(** The digits of the number, of its fraction and of its exponent. *)
(* @src C/cjson/cJSON.c:102-102 parse_number *)
Fixpoint number_digits (n : double) (num : ptr) : outcome (double * ptr) :=
  match num with
  | [] => Fault OutOfBounds
  | c :: num' => if is_digit c then number_digits (dadd (dmul n (of_int 10)) (of_int (c - 48))) num' else Ret (n, num)
  end.
(* @src C/cjson/cJSON.c:103-103 parse_number *)
Fixpoint fraction_digits (n scale : double) (num : ptr) : outcome (double * double * ptr) :=
  match num with
  | [] => Fault OutOfBounds
  | c :: num' =>
      if is_digit c
      then fraction_digits (dadd (dmul n (of_int 10)) (of_int (c - 48))) (dsub scale (of_int 1)) num'
      else Ret (n, scale, num)
  end.
(* @src C/cjson/cJSON.c:106-106 parse_number *)
Fixpoint exponent_digits (subscale : Z) (num : ptr) : outcome (Z * ptr) :=
  match num with
  | [] => Fault OutOfBounds
  | c :: num' =>
      if is_digit c then subscale ← times_ten subscale (c - 48); exponent_digits subscale num'
      else Ret (subscale, num)
  end.

(** The exponent with its sign. *)
(* @src C/cjson/cJSON.c:104-107 parse_number *)
Definition parse_exponent (num : ptr) : outcome (Z * ptr) :=
  c ← peek num;
  if bool_decide (c = 101 \/ c = 69) then
    let num := tail num in
    c ← peek num;
    '(subscale, num') ← exponent_digits 0 (if bool_decide (c = 43 \/ c = 45) then tail num else num);
    Ret (if bool_decide (c = 45) then - subscale else subscale, num')
  else Ret (0, num).

(* @src C/cjson/cJSON.c:96-115 parse_number *)
Definition parse_number (item : cJSON) (num : ptr) : outcome (answer cJSON) :=
  c ← peek num;
  let sign := of_int (if bool_decide (c = 45) then -1 else 1) in
  let num := if bool_decide (c = 45) then tail num else num in
  c ← peek num;
  let num := if bool_decide (c = 48) then tail num else num in
  c ← peek num;
  '(n, num) ← (if bool_decide (49 <= c <= 57) then number_digits (of_int 0) num else Ret (of_int 0, num));
  c ← peek num;
  fraction ← (if bool_decide (c = 46) then c ← peek (tail num); Ret (is_digit c) else Ret false);
  '(n, scale, num) ← (if fraction : bool then fraction_digits n (of_int 0) (tail num) else Ret (n, of_int 0, num));
  '(exponent, num) ← parse_exponent num;
  let n := dmul (dmul sign n) (pow (of_int 10) (dadd scale (of_int exponent))) in
  i ← to_int n;
  Ret (Accepted (set_type cJSON_Number (set_valueint i (set_valuedouble n item))) num).
End Numbers.

(** [sprintf] into a block of [cap] bytes. *)
Definition sprintf (cap : Z) (text : list Z) : outcome (list Z) := put_str cap text [].

(** The literals [1.0e60], [1.0e-6] and [1.0e9]. *)
Definition d_1e60 : double := of_int (10 ^ 60).
Definition d_1e_6 : double := SFdiv prec emax (of_int 1) (of_int 1000000).
Definition d_1e9 : double := of_int 1000000000.

(* @src C/cjson/cJSON.c:118-138 print_number *)
Definition print_number (item : cJSON) : outcome (list Z) :=
  let d := valuedouble item in
  if SFleb (SFabs (dsub (of_int (valueint item)) d)) DBL_EPSILON && SFleb d (of_int (2 ^ 31 - 1)) && SFleb (of_int (- 2 ^ 31)) d
  then sprintf 21 (text_d (valueint item))
  else if SFleb (SFabs (dsub (floor d) d)) DBL_EPSILON && SFltb (SFabs d) d_1e60 then sprintf 64 (text_f 0 d)
  else if SFltb (SFabs d) d_1e_6 || SFltb d_1e9 (SFabs d) then sprintf 64 (text_e d)
  else sprintf 64 (text_f 6 d).

(** ** Strings *)

(** The value of a hexadecimal digit. *)
Definition hex_digit (c : Z) : option Z :=
  if bool_decide (48 <= c <= 57) then Some (c - 48)
  else if bool_decide (65 <= c <= 70) then Some (10 + c - 65)
  else if bool_decide (97 <= c <= 102) then Some (10 + c - 97)
  else None.

(** [k] digits behind the one at [str]. *)
(* @src C/cjson/cJSON.c:143-150 parse_hex4 *)
Fixpoint hex_digits (k : nat) (h : Z) (str : ptr) : outcome Z :=
  c ← peek str;
  match hex_digit c with
  | None => Ret 0
  | Some v =>
      let h := h + v in
      match k with O => Ret h | S k => hex_digits k (Z.shiftl h 4) (tail str) end
  end.

(* @src C/cjson/cJSON.c:140-151 parse_hex4 *)
Definition parse_hex4 (str : ptr) : outcome Z := hex_digits 3 0 str.

(* @src C/cjson/cJSON.c:154-154 firstByteMark *)
Definition firstByteMark : list Z := [0x00; 0x00; 0xC0; 0xE0; 0xF0; 0xF8; 0xFC].

(** The bytes of a character, written from the last one to the first. *)
(* @src C/cjson/cJSON.c:194-199 parse_string *)
Fixpoint utf8_bytes (k : nat) (mark uc : Z) : list Z :=
  match k with
  | O => [u8 (Z.lor uc mark)]
  | S k => utf8_bytes k mark (Z.shiftr uc 6) ++ [u8 (Z.land (Z.lor uc 0x80) 0xBF)]
  end.

(* @src C/cjson/cJSON.c:192-201 parse_string *)
Definition utf8 (uc : Z) : list Z :=
  let len := (if bool_decide (uc < 0x80)%Z then 1 else if bool_decide (uc < 0x800)%Z then 2
              else if bool_decide (uc < 0x10000)%Z then 3 else 4)%nat in
  utf8_bytes (len - 1) (nth len firstByteMark 0) uc.

(** What [\u] stands for: [ptr] is on the [u], and moves to the last byte of the
    escape. *)
(* @src C/cjson/cJSON.c:179-201 parse_string *)
Definition parse_unicode (cap : Z) (p : ptr) (out : list Z) : outcome (list Z * ptr) :=
  uc ← parse_hex4 (tail p);
  let p := drop 4 p in
  if bool_decide (0xDC00 <= uc <= 0xDFFF \/ uc = 0) then Ret (out, p)
  else if bool_decide (0xD800 <= uc <= 0xDBFF) then
    c ← peek (drop 1 p);
    if bool_decide (c <> 92) then Ret (out, p) else
    c ← peek (drop 2 p);
    if bool_decide (c <> 117) then Ret (out, p) else
    uc2 ← parse_hex4 (drop 3 p);
    let p := drop 6 p in
    if bool_decide (uc2 < 0xDC00 \/ uc2 > 0xDFFF) then Ret (out, p) else
    out ← put cap (utf8 (0x10000 + Z.lor (Z.shiftl (Z.land uc 0x3FF) 10) (Z.land uc2 0x3FF))) out;
    Ret (out, p)
  else out ← put cap (utf8 uc) out; Ret (out, p).

(** The character behind a backslash. *)
(* @src C/cjson/cJSON.c:171-203 parse_string *)
Definition parse_escape (cap : Z) (p : ptr) (out : list Z) : outcome (list Z * ptr) :=
  c ← peek p;
  if bool_decide (c = 117) then parse_unicode cap p out
  else
    let b := if bool_decide (c = 98) then 8 else if bool_decide (c = 102) then 12
             else if bool_decide (c = 110) then 10 else if bool_decide (c = 114) then 13
             else if bool_decide (c = 116) then 9 else c in
    out ← put cap [b] out; Ret (out, p).

(** The first pass: how long the string is, roughly. *)
(* @src C/cjson/cJSON.c:160-160 parse_string *)
Fixpoint string_length (p : ptr) (len : Z) : outcome Z :=
  match p with
  | [] => Fault OutOfBounds
  | c :: p =>
      if bool_decide (c = 34 \/ c = 0) then Ret len
      else if bool_decide (c = 92) then
        match p with [] => Fault OutOfBounds | _ :: p => string_length p (len + 1) end
      else string_length p (len + 1)
  end.

(** The second pass. *)
(* @src C/cjson/cJSON.c:166-206 parse_string *)
Fixpoint string_loop (fuel : nat) (cap : Z) (p : ptr) (out : list Z) : outcome (list Z * ptr) :=
  match fuel with
  | O => Fault OutOfFuel
  | S fuel =>
      c ← peek p;
      if bool_decide (c = 34 \/ c = 0) then Ret (out, p)
      else if bool_decide (c <> 92) then out ← put cap [c] out; string_loop fuel cap (tail p) out
      else '(out, p) ← parse_escape cap (tail p) out; string_loop fuel cap (tail p) out
  end.

(* @src C/cjson/cJSON.c:155-212 parse_string *)
Definition parse_string (item : cJSON) (str : ptr) : outcome (answer cJSON) :=
  c ← peek str;
  if bool_decide (c <> 34) then Ret (Rejected str) else
  len ← string_length (tail str) 0;
  let cap := len + 1 in
  '(out, p) ← string_loop (length str) cap (tail str) [];
  out ← put_str cap [] out;
  c ← peek p;
  Ret (Accepted (set_type cJSON_String (set_valuestring (Some (c_str out)) item))
                (if bool_decide (c = 34) then tail p else p)).

(** The bytes that the printer writes for a character. *)
Definition hex_char (v : Z) : Z := if bool_decide (v < 10) then 48 + v else 97 + v - 10.

(* @src C/cjson/cJSON.c:220-220 print_string_ptr *)
Definition escaped_length (token : Z) : Z :=
  if bool_decide (token ∈ [34; 92; 8; 12; 10; 13; 9]) then 2 else if bool_decide (token < 32) then 6 else 1.

(* @src C/cjson/cJSON.c:229-244 print_string_ptr *)
Definition print_char (cap token : Z) (out : list Z) : outcome (list Z) :=
  if bool_decide (31 < token /\ token <> 34 /\ token <> 92) then put cap [token] out
  else
    out ← put cap [92] out;
    if bool_decide (token = 92) then put cap [92] out
    else if bool_decide (token = 34) then put cap [34] out
    else if bool_decide (token = 8) then put cap [98] out
    else if bool_decide (token = 12) then put cap [102] out
    else if bool_decide (token = 10) then put cap [110] out
    else if bool_decide (token = 13) then put cap [114] out
    else if bool_decide (token = 9) then put cap [116] out
    else put_str cap [117; 48; 48; hex_char (token / 16); hex_char (token mod 16)] out.

(* @src C/cjson/cJSON.c:227-245 print_string_ptr *)
Fixpoint print_chars (cap : Z) (str out : list Z) : outcome (list Z) :=
  match str with
  | [] => Ret out
  | token :: str => out ← print_char cap token out; print_chars cap str out
  end.

(* @src C/cjson/cJSON.c:215-248 print_string_ptr *)
Definition print_string_ptr (str : option (list Z)) : outcome (list Z) :=
  match str with
  | None => Ret []
  | Some str =>
      let cap := foldr (fun token len => escaped_length token + len) 0 str + 3 in
      out ← put cap [34] [];
      out ← print_chars cap str out;
      out ← put cap [34] out;
      put_str cap [] out
  end.

(* @src C/cjson/cJSON.c:250-250 print_string *)
Definition print_string (item : cJSON) : outcome (list Z) := print_string_ptr (valuestring item).

(** ** Values *)

(** [cJSON_strdup] of a constant. *)
(* @src C/cjson/cJSON.c:49-58 cJSON_strdup *)
Definition cJSON_strdup (s : list Z) : outcome (list Z) :=
  put_str (Z.of_nat (length s) + 1) s [].

Section Values.
Variable pow : double -> double -> double.

(** The elements of an array, up to the closing bracket. *)
(* @src C/cjson/cJSON.c:329-344 parse_array *)
Fixpoint array_loop (parse_value : cJSON -> ptr -> outcome (answer cJSON)) (fuel : nat)
    (item : cJSON) (children : list cJSON) (value : ptr) : outcome (answer cJSON) :=
  match fuel with
  | O => Fault OutOfFuel
  | S fuel =>
      value ← skip value;
      r ← parse_value cJSON_New_Item value;
      match r with
      | Rejected ep => Ret (Rejected ep)
      | Accepted new_item value =>
          let children := children ++ [new_item] in
          value ← skip value;
          c ← peek value;
          if bool_decide (c = 44) then array_loop parse_value fuel item children (tail value)
          else if bool_decide (c = 93) then Ret (Accepted (set_child children item) (tail value))
          else Ret (Rejected value)
      end
  end.

(* @src C/cjson/cJSON.c:320-345 parse_array *)
Definition parse_array parse_value (fuel : nat) (item : cJSON) (value : ptr) : outcome (answer cJSON) :=
  c ← peek value;
  if bool_decide (c <> 91) then Ret (Rejected value) else
  let item := set_type cJSON_Array item in
  value ← skip (tail value);
  c ← peek value;
  if bool_decide (c = 93) then Ret (Accepted item (tail value))
  else array_loop parse_value fuel item [] value.

(** A name and its value. *)
(* @src C/cjson/cJSON.c:429-434 parse_object *)
Definition parse_member (parse_value : cJSON -> ptr -> outcome (answer cJSON)) (value : ptr) : outcome (answer cJSON) :=
  value ← skip value;
  r ← parse_string cJSON_New_Item value;
  match r with
  | Rejected ep => Ret (Rejected ep)
  | Accepted new_item value =>
      value ← skip value;
      let new_item := set_valuestring None (set_string (valuestring new_item) new_item) in
      c ← peek value;
      if bool_decide (c <> 58) then Ret (Rejected value) else
      value ← skip (tail value);
      parse_value new_item value
  end.

(* @src C/cjson/cJSON.c:415-438 parse_object *)
Fixpoint object_loop (parse_value : cJSON -> ptr -> outcome (answer cJSON)) (fuel : nat)
    (item : cJSON) (children : list cJSON) (value : ptr) : outcome (answer cJSON) :=
  match fuel with
  | O => Fault OutOfFuel
  | S fuel =>
      r ← parse_member parse_value value;
      match r with
      | Rejected ep => Ret (Rejected ep)
      | Accepted new_item value =>
          let children := children ++ [new_item] in
          value ← skip value;
          c ← peek value;
          if bool_decide (c = 44) then object_loop parse_value fuel item children (tail value)
          else if bool_decide (c = 125) then Ret (Accepted (set_child children item) (tail value))
          else Ret (Rejected value)
      end
  end.

(* @src C/cjson/cJSON.c:406-439 parse_object *)
Definition parse_object parse_value (fuel : nat) (item : cJSON) (value : ptr) : outcome (answer cJSON) :=
  c ← peek value;
  if bool_decide (c <> 123) then Ret (Rejected value) else
  let item := set_type cJSON_Object item in
  value ← skip (tail value);
  c ← peek value;
  if bool_decide (c = 125) then Ret (Accepted item (tail value))
  else object_loop parse_value fuel item [] value.

(* @src C/cjson/cJSON.c:287-299 parse_value *)
Fixpoint parse_value (fuel : nat) (item : cJSON) (value : ptr) : outcome (answer cJSON) :=
  match fuel with
  | O => Fault OutOfFuel
  | S fuel =>
      b ← starts_with (str_bytes "null") value;
      if b : bool then Ret (Accepted (set_type cJSON_NULL item) (drop 4 value)) else
      b ← starts_with (str_bytes "false") value;
      if b : bool then Ret (Accepted (set_type cJSON_False item) (drop 5 value)) else
      b ← starts_with (str_bytes "true") value;
      if b : bool then Ret (Accepted (set_valueint 1 (set_type cJSON_True item)) (drop 4 value)) else
      c ← peek value;
      if bool_decide (c = 34) then parse_string item value
      else if bool_decide (c = 45 \/ 48 <= c <= 57) then parse_number pow item value
      else if bool_decide (c = 91) then parse_array (parse_value fuel) fuel item value
      else if bool_decide (c = 123) then parse_object (parse_value fuel) fuel item value
      else Ret (Rejected value)
  end.

(** The item, the end of the text and the error pointer. The blocks of the
    text that are open nest no deeper than it is long. *)
(* @src C/cjson/cJSON.c:264-278 cJSON_ParseWithOpts *)
Definition cJSON_ParseWithOpts (value : option ptr) (require_null_terminated : bool) :
    outcome (option (cJSON * ptr) * option ptr) :=
  match value with
  | None => Ret (None, None)
  | Some value =>
      p ← skip value;
      r ← parse_value (S (length value)) cJSON_New_Item p;
      match r with
      | Rejected ep => Ret (None, Some ep)
      | Accepted c rest =>
          if require_null_terminated then
            rest ← skip rest;
            b ← peek rest;
            Ret (if bool_decide (b <> 0) then (None, Some rest) else (Some (c, rest), None))
          else Ret (Some (c, rest), None)
      end
  end.

(* @src C/cjson/cJSON.c:280-280 cJSON_Parse *)
Definition cJSON_Parse (value : option ptr) : outcome (option cJSON * option ptr) :=
  '(r, ep) ← cJSON_ParseWithOpts value false; Ret (option_map fst r, ep).
End Values.

(** ** Printing

    The text of an item, or nothing for an item of no type. *)

Definition byte_if (b : bool) (c : Z) : list Z := if b then [c] else [].

(** The texts of the entries, until one fails. *)
(* @src C/cjson/cJSON.c:369-376 print_array *)
Definition array_entries (print_value : cJSON -> outcome (option (list Z))) :=
  fix entries (l : list cJSON) : outcome (option (list (list Z))) :=
    match l with
    | [] => Ret (Some [])
    | c :: l =>
        ret ← print_value c;
        match ret with
        | None => Ret None
        | Some ret => rest ← entries l; Ret (option_map (cons ret) rest)
        end
    end.

(* @src C/cjson/cJSON.c:394-399 print_array *)
Fixpoint array_text (cap : Z) (fmt : bool) (entries : list (list Z)) (out : list Z) : outcome (list Z) :=
  match entries with
  | [] => Ret out
  | e :: entries =>
      out ← put_str cap e out;
      match entries with
      | [] => Ret out
      | _ => out ← put cap [44] out; out ← put cap (byte_if fmt 32) out; out ← put_str cap [] out;
             array_text cap fmt entries out
      end
  end.

(* @src C/cjson/cJSON.c:348-403 print_array *)
Definition print_array (print_value : cJSON -> Z -> outcome (option (list Z))) (children : list cJSON)
    (depth : Z) (fmt : bool) : outcome (option (list Z)) :=
  match children with
  | [] => out ← put_str 3 (str_bytes "[]") []; Ret (Some out)
  | _ =>
      entries ← array_entries (fun c => print_value c (depth + 1)) children;
      match entries with
      | None => Ret None
      | Some entries =>
          let cap := foldr (fun e len => Z.of_nat (length e) + 2 + Z.b2z fmt + len) 5 entries in
          out ← put cap [91] [];
          out ← put_str cap [] out;
          out ← array_text cap fmt entries out;
          out ← put cap [93] out;
          out ← put_str cap [] out;
          Ret (Some out)
      end
  end.

(** The names and the texts; a failure does not end the loop. *)
(* @src C/cjson/cJSON.c:469-476 print_object *)
Definition object_entries (print_value : cJSON -> outcome (option (list Z))) :=
  fix entries (l : list cJSON) : outcome (option (list (list Z * list Z))) :=
    match l with
    | [] => Ret (Some [])
    | c :: l =>
        str ← print_string_ptr (string c);
        ret ← print_value c;
        rest ← entries l;
        Ret (match ret, rest with Some ret, Some rest => Some ((str, ret) :: rest) | _, _ => None end)
    end.

(** [*ptr++='\t'] for every level. *)
Definition tabs (fmt : bool) (depth : Z) : list Z := if fmt then replicate (Z.to_nat depth) 9 else [].

(* @src C/cjson/cJSON.c:492-501 print_object *)
Fixpoint object_text (cap : Z) (fmt : bool) (depth : Z) (entries : list (list Z * list Z)) (out : list Z) :
    outcome (list Z) :=
  match entries with
  | [] => Ret out
  | (name, e) :: entries =>
      out ← put cap (tabs fmt depth) out;
      out ← put_str cap name out;
      out ← put cap (58 :: byte_if fmt 9) out;
      out ← put_str cap e out;
      out ← put cap (match entries with [] => [] | _ => [44] end) out;
      out ← put cap (byte_if fmt 10) out;
      out ← put_str cap [] out;
      object_text cap fmt depth entries out
  end.

(* @src C/cjson/cJSON.c:442-507 print_object *)
Definition print_object (print_value : cJSON -> Z -> outcome (option (list Z))) (children : list cJSON)
    (depth : Z) (fmt : bool) : outcome (option (list Z)) :=
  match children with
  | [] =>
      let cap := if fmt then depth + 4 else 3 in
      out ← put cap [123] [];
      out ← put cap (byte_if fmt 10 ++ tabs fmt (depth - 1)) out;
      out ← put cap [125] out;
      out ← put_str cap [] out;
      Ret (Some out)
  | _ =>
      let depth := depth + 1 in
      entries ← object_entries (fun c => print_value c depth) children;
      match entries with
      | None => Ret None
      | Some entries =>
          let extra := if fmt then 2 + depth else 0 in
          let cap := foldr (fun '(name, e) len => Z.of_nat (length e) + Z.of_nat (length name) + 2 + extra + len)
                       (7 + if fmt then depth else 0) entries in
          out ← put cap (123 :: byte_if fmt 10) [];
          out ← put_str cap [] out;
          out ← object_text cap fmt depth entries out;
          out ← put cap (tabs fmt (depth - 1)) out;
          out ← put cap [125] out;
          out ← put_str cap [] out;
          Ret (Some out)
      end
  end.

(* @src C/cjson/cJSON.c:302-317 print_value *)
Fixpoint print_value (item : cJSON) (depth : Z) (fmt : bool) : outcome (option (list Z)) :=
  let '(Item type _ _ _ _ child) := item in
  let t := Z.land type 255 in
  if bool_decide (t = cJSON_NULL) then Some <$> cJSON_strdup (str_bytes "null")
  else if bool_decide (t = cJSON_False) then Some <$> cJSON_strdup (str_bytes "false")
  else if bool_decide (t = cJSON_True) then Some <$> cJSON_strdup (str_bytes "true")
  else if bool_decide (t = cJSON_Number) then Some <$> print_number item
  else if bool_decide (t = cJSON_String) then Some <$> print_string item
  else if bool_decide (t = cJSON_Array) then print_array (fun c depth => print_value c depth fmt) child depth fmt
  else if bool_decide (t = cJSON_Object) then print_object (fun c depth => print_value c depth fmt) child depth fmt
  else Ret None.

(** A null pointer is no item. *)
(* @src C/cjson/cJSON.c:283-283 cJSON_Print *)
Definition cJSON_Print (item : option cJSON) : outcome (option (list Z)) :=
  match item with None => Ret None | Some item => print_value item 0 true end.
(* @src C/cjson/cJSON.c:284-284 cJSON_PrintUnformatted *)
Definition cJSON_PrintUnformatted (item : option cJSON) : outcome (option (list Z)) :=
  match item with None => Ret None | Some item => print_value item 0 false end.

(** ** Removing blanks and comments

    The text is rewritten in place. The position that is written is never behind the one
    that is read, so the bytes that are read are those of the text. *)

(** To the end of the line, and to the end of a comment. *)
(* @src C/cjson/cJSON.c:590-590 cJSON_Minify *)
Fixpoint skip_line (json : ptr) : outcome ptr :=
  match json with
  | [] => Fault OutOfBounds
  | c :: json' => if bool_decide (c = 0 \/ c = 10) then Ret json else skip_line json'
  end.
(* @src C/cjson/cJSON.c:591-591 cJSON_Minify *)
Fixpoint skip_comment (json : ptr) : outcome ptr :=
  match json with
  | [] => Fault OutOfBounds
  | c :: json' =>
      if bool_decide (c = 0) then Ret (drop 2 json)
      else if bool_decide (c = 42) then
        d ← peek json'; if bool_decide (d = 47) then Ret (drop 2 json) else skip_comment json'
      else skip_comment json'
  end.

(** The bytes behind the opening quote that are copied, and the closing quote. *)
(* @src C/cjson/cJSON.c:592-592 cJSON_Minify *)
Fixpoint copy_string (json : ptr) (into : list Z) : outcome (list Z * ptr) :=
  match json with
  | [] => Fault OutOfBounds
  | c :: json =>
      if bool_decide (c = 0 \/ c = 34) then Ret (into ++ [c], json)
      else if bool_decide (c = 92) then
        match json with [] => Fault OutOfBounds | d :: json => copy_string json (into ++ [c; d]) end
      else copy_string json (into ++ [c])
  end.

(* @src C/cjson/cJSON.c:584-594 cJSON_Minify *)
Fixpoint minify_loop (fuel : nat) (json : ptr) (into : list Z) : outcome (list Z) :=
  match fuel with
  | O => Fault OutOfFuel
  | S fuel =>
      c ← peek json;
      if bool_decide (c = 0) then Ret into
      else if bool_decide (c ∈ [32; 9; 13; 10]) then minify_loop fuel (tail json) into
      else
        d ← (if bool_decide (c = 47) then peek (tail json) else Ret 0);
        if bool_decide (c = 47 /\ d = 47) then json ← skip_line json; minify_loop fuel json into
        else if bool_decide (c = 47 /\ d = 42) then json ← skip_comment json; minify_loop fuel json into
        else if bool_decide (c = 34) then
          '(into, json) ← copy_string (tail json) (into ++ [c]); minify_loop fuel json into
        else minify_loop fuel (tail json) (into ++ [c])
  end.

(** The block afterwards. *)
(* @src C/cjson/cJSON.c:581-596 cJSON_Minify *)
Definition cJSON_Minify (json : list Z) : outcome (list Z) :=
  into ← minify_loop (S (length json)) json [];
  mem_write 0 (into ++ [0]) json.

(** ** Comparison of names *)

Definition tolower (c : Z) : Z := if bool_decide (65 <= c <= 90) then c + 32 else c.

(** On the bytes of two strings; the zero behind a string is less than every byte. *)
(* @src C/cjson/cJSON.c:42-43 cJSON_strcasecmp *)
Fixpoint strcasecmp_loop (s1 s2 : list Z) : Z :=
  match s1, s2 with
  | [], [] => 0
  | [], c2 :: _ => - tolower c2
  | c1 :: _, [] => tolower c1
  | c1 :: s1, c2 :: s2 =>
      if bool_decide (tolower c1 = tolower c2) then strcasecmp_loop s1 s2 else tolower c1 - tolower c2
  end.

(* @src C/cjson/cJSON.c:39-44 cJSON_strcasecmp *)
Definition cJSON_strcasecmp (s1 s2 : option (list Z)) : Z :=
  match s1, s2 with
  | None, None => 0
  | Some s1, Some s2 => strcasecmp_loop s1 s2
  | _, _ => 1
  end.
