(* ===== verification/JsonText.v ===== *)
(** * The texts of the JSON printer

    A reference for the text of an item, free of buffers and lengths, and the
    proof that the printer of [cJSON.c] writes exactly that text: each of its
    blocks is large enough. *)

From S2P Require Import Prelude Double Json.

(** ** Reference *)

Definition char_text (token : Z) : list Z :=
  if bool_decide (31 < token /\ token <> 34 /\ token <> 92) then [token]
  else if bool_decide (token = 92) then [92; 92]
  else if bool_decide (token = 34) then [92; 34]
  else if bool_decide (token = 8) then [92; 98]
  else if bool_decide (token = 12) then [92; 102]
  else if bool_decide (token = 10) then [92; 110]
  else if bool_decide (token = 13) then [92; 114]
  else if bool_decide (token = 9) then [92; 116]
  else [92; 117; 48; 48; hex_char (token / 16); hex_char (token mod 16)].

Definition string_text (s : list Z) : list Z := 34 :: flat_map char_text s ++ [34].

Definition name_text (s : option (list Z)) : list Z := match s with Some s => string_text s | None => [] end.

Definition number_text (item : cJSON) : list Z :=
  let d := valuedouble item in
  if SFleb (SFabs (dsub (of_int (valueint item)) d)) DBL_EPSILON && SFleb d (of_int (2 ^ 31 - 1)) && SFleb (of_int (- 2 ^ 31)) d
  then text_d (valueint item)
  else if SFleb (SFabs (dsub (floor d) d)) DBL_EPSILON && SFltb (SFabs d) d_1e60 then text_f 0 d
  else if SFltb (SFabs d) d_1e_6 || SFltb d_1e9 (SFabs d) then text_e d
  else text_f 6 d.

Fixpoint join (sep : list Z) (l : list (list Z)) : list Z :=
  match l with
  | [] => []
  | [e] => e
  | e :: l => e ++ sep ++ join sep l
  end.

(** All the texts, if there are. *)
Fixpoint all_some {A} (l : list (option A)) : option (list A) :=
  match l with
  | [] => Some []
  | Some a :: l => match all_some l with Some l => Some (a :: l) | None => None end
  | None :: _ => None
  end.

Definition array_body (fmt : bool) (entries : list (list Z)) : list Z :=
  91 :: join (44 :: byte_if fmt 32) entries ++ [93].

Definition member_text (fmt : bool) (depth : Z) (name e : list Z) : list Z :=
  tabs fmt depth ++ name ++ 58 :: byte_if fmt 9 ++ e.

Definition object_body (fmt : bool) (depth : Z) (members : list (list Z)) : list Z :=
  123 :: byte_if fmt 10 ++
  (if bool_decide (members = []) then [] else join (44 :: byte_if fmt 10) members ++ byte_if fmt 10) ++
  tabs fmt (depth - if bool_decide (members = []) then 1 else 0) ++ [125].

Fixpoint text (item : cJSON) (depth : Z) (fmt : bool) : option (list Z) :=
  let '(Item type _ _ _ _ child) := item in
  let t := Z.land type 255 in
  if bool_decide (t = cJSON_NULL) then Some (str_bytes "null")
  else if bool_decide (t = cJSON_False) then Some (str_bytes "false")
  else if bool_decide (t = cJSON_True) then Some (str_bytes "true")
  else if bool_decide (t = cJSON_Number) then Some (number_text item)
  else if bool_decide (t = cJSON_String) then Some (name_text (valuestring item))
  else if bool_decide (t = cJSON_Array) then
    match all_some (map (fun c => text c (depth + 1) fmt) child) with
    | Some entries => Some (array_body fmt entries)
    | None => None
    end
  else if bool_decide (t = cJSON_Object) then
    match all_some (map (fun c => match text c (depth + 1) fmt with
                                  | Some e => Some (member_text fmt (depth + 1) (name_text (string c)) e)
                                  | None => None
                                  end) child) with
    | Some members => Some (object_body fmt depth members)
    | None => None
    end
  else None.

(** ** Induction on items *)

Fixpoint cJSON_items_ind (P : cJSON -> Prop)
    (step : forall t v i d s l, Forall P l -> P (Item t v i d s l)) (c : cJSON) : P c :=
  match c with
  | Item t v i d s l =>
      step t v i d s l ((fix go l : Forall P l :=
        match l with
        | [] => Forall_nil_2 P
        | c :: l => Forall_cons_2 P c l (cJSON_items_ind P step c) (go l)
        end) l)
  end.

(** ** Writing into a block *)

Lemma put_room cap data out :
  Z.of_nat (length out) + Z.of_nat (length data) <= cap -> put cap data out = Ret (out ++ data).
Proof. intros H. unfold put, require. by rewrite bool_decide_eq_true_2. Qed.

Lemma put_str_room cap data out :
  Z.of_nat (length out) + Z.of_nat (length data) + 1 <= cap -> put_str cap data out = Ret (out ++ data).
Proof. intros H. unfold put_str, require. by rewrite bool_decide_eq_true_2. Qed.

(** One step of a program that writes: there is room, or the rest is wanted. *)
Ltac lens := repeat first [rewrite length_app | progress cbn [length app]].
Ltac lens_in H := repeat first [rewrite length_app in H | progress cbn [length app] in H].
(** Both sides as the same sequence of parts. *)
Ltac flat := rewrite ?app_nil_r; repeat first [rewrite <- app_assoc | progress cbn [app]]; rewrite ?app_nil_r; done.
Ltac room := lens; try lia.
Ltac put_step := first [rewrite put_room by room | rewrite put_str_room by room]; run.

(** ** Strings *)

Lemma char_text_length token : 0 < token -> Z.of_nat (length (char_text token)) = escaped_length token.
Proof.
  intros H. destruct (decide (token < 93)) as [Hl|Hl].
  - assert (F : Forall (fun t => Z.of_nat (length (char_text t)) = escaped_length t) (seqZ 1 92))
      by (apply (bool_decide_eq_true_1 _); vm_compute; done).
    rewrite Forall_forall in F. apply F, elem_of_seqZ. lia.
  - unfold char_text, escaped_length. rewrite bool_decide_eq_true_2 by lia.
    rewrite !bool_decide_eq_false_2 by (rewrite ?elem_of_cons, ?elem_of_nil; lia). done.
Qed.

Lemma print_char_room cap token out :
  Z.of_nat (length out) + Z.of_nat (length (char_text token)) + 1 <= cap ->
  print_char cap token out = Ret (out ++ char_text token).
Proof.
  unfold char_text, print_char. intros H. case_bool_decide; cbn [length] in H; [put_step; done|].
  repeat case_bool_decide; cbn [length] in H; repeat put_step; by rewrite <- app_assoc.
Qed.

Lemma print_chars_room cap s out :
  Z.of_nat (length out) + Z.of_nat (length (flat_map char_text s)) + 1 <= cap ->
  print_chars cap s out = Ret (out ++ flat_map char_text s).
Proof.
  revert out. induction s as [|c s IH]; intros out H; cbn [print_chars flat_map] in *; [by rewrite app_nil_r|].
  rewrite length_app in H. rewrite print_char_room by lia. run. rewrite IH by (rewrite length_app; lia).
  by rewrite app_assoc.
Qed.

Definition no_zero (s : list Z) : Prop := Forall (fun b => 0 < b) s.

Lemma print_string_text s : from_option no_zero True s -> print_string_ptr s = Ret (name_text s).
Proof.
  destruct s as [s|]; [|done]. cbn [from_option]. intros Hs. unfold print_string_ptr.
  assert (Hl : foldr (fun token len => escaped_length token + len) 0 s = Z.of_nat (length (flat_map char_text s))).
  { induction Hs as [|c s Hc Hs IH]; [done|]. cbn [foldr flat_map].
    rewrite length_app, IH, <- char_text_length by done. lia. }
  rewrite Hl. put_step. rewrite print_chars_room by room. run. put_step. put_step.
  cbn [name_text]. unfold string_text. by rewrite app_nil_r.
Qed.

(** ** Numbers *)

Lemma sprintf_room cap t : Z.of_nat (length t) + 1 <= cap -> sprintf cap t = Ret t.
Proof. intros H. unfold sprintf. by rewrite put_str_room by (cbn [length]; lia). Qed.

(** The fields of a number are an [int] and a [double]. *)
Definition number_ok (c : cJSON) : Prop := - 2 ^ 31 <= valueint c < 2 ^ 31 /\ valid (valuedouble c).

(** The constants, and what is on their near side. *)
Lemma below_1e60 d : valid d -> SFltb (SFabs d) d_1e60 = true -> within (10 ^ 60) d.
Proof.
  intros Hd. assert (E : d_1e60 = S754_finite false 5605193857299268 147) by (vm_compute; done). rewrite E.
  apply less_within; [done|by vm_compute|]. apply Z.leb_le. by vm_compute.
Qed.

Lemma upto_1e9 d : valid d -> SFltb d_1e9 (SFabs d) = false -> within (10 ^ 9) d.
Proof.
  intros Hd. assert (E : d_1e9 = S754_finite false 8388608000000000 (-23)) by (vm_compute; done). rewrite E.
  apply not_more_within; [done|by vm_compute|]. apply Z.leb_le. by vm_compute.
Qed.

Lemma print_number_text c : number_ok c -> print_number c = Ret (number_text c).
Proof.
  intros [Hi Hd]. unfold print_number, number_text. set (d := valuedouble c) in *. clearbody d.
  destruct (_ && _ && _); [apply sprintf_room; pose proof (text_d_length _ Hi); lia|].
  destruct (_ && SFltb (SFabs d) d_1e60) eqn:E1.
  { apply andb_true_iff in E1 as [_ E1]. apply sprintf_room.
    pose proof (text_f_within 0 (10 ^ 60) 61 d Hd ltac:(lia) (below_1e60 d Hd E1) ltac:(lia) ltac:(lia)). lia. }
  destruct (_ || _) eqn:E2; apply sprintf_room; [pose proof (text_e_length d Hd); lia|].
  apply orb_false_iff in E2 as [_ E2].
  pose proof (text_f_within 6 (10 ^ 9) 16 d Hd ltac:(lia) (upto_1e9 d Hd E2) ltac:(lia) ltac:(lia)). lia.
Qed.

(** ** Arrays and objects *)

Definition total (l : list (list Z)) : Z := foldr (fun e n => Z.of_nat (length e) + n) 0 l.

Lemma join_length sep l :
  Z.of_nat (length (join sep l)) = total l + Z.of_nat (length sep) * (Z.max 1 (Z.of_nat (length l)) - 1).
Proof.
  unfold total. induction l as [|e [|e' l] IH]; [cbn; lia|cbn [join foldr length]; lia|].
  change (join sep (e :: e' :: l)) with (e ++ sep ++ join sep (e' :: l)).
  rewrite !length_app, !Nat2Z.inj_add, IH. cbn [foldr length]. lia.
Qed.

Lemma array_text_room cap fmt l out :
  Z.of_nat (length out) + Z.of_nat (length (join (44 :: byte_if fmt 32) l)) + 1 <= cap ->
  array_text cap fmt l out = Ret (out ++ join (44 :: byte_if fmt 32) l).
Proof.
  revert out. induction l as [|e l IH]; intros out H; cbn [array_text]; [by rewrite app_nil_r|].
  destruct l as [|e' l].
  - cbn [join] in *. by put_step.
  - change (join ?s (e :: e' :: l)) with (e ++ s ++ join s (e' :: l)) in *. lens_in H.
    do 4 put_step. rewrite IH by room. flat.
Qed.

Lemma object_text_room cap fmt depth l out :
  let members := map (fun '(name, e) => member_text fmt depth name e) l in
  let all := join (44 :: byte_if fmt 10) members ++ byte_if fmt 10 in
  l <> [] -> Z.of_nat (length out) + Z.of_nat (length all) + 1 <= cap ->
  object_text cap fmt depth l out = Ret (out ++ all).
Proof.
  cbv zeta. revert out. induction l as [|[name e] l IH]; intros out Hl H; [done|]. cbn [object_text map] in *.
  unfold member_text at 1 in H. unfold member_text at 1. destruct l as [|[name' e'] l].
  - cbn [map join] in *. lens_in H.
    do 7 put_step. cbn [object_text]. flat.
  - set (rest := map _ _) in *. assert (Hr : rest <> []) by done.
    assert (Hj : forall s x, join s (x :: rest) = x ++ s ++ join s rest) by (intros; by destruct rest).
    rewrite Hj in *. lens_in H.
    do 7 put_step. rewrite IH; [|done|].
    + flat.
    + lens. lia.
Qed.

Lemma array_room fmt l :
  Z.of_nat (length (array_body fmt l)) + 1 <= foldr (fun e len => Z.of_nat (length e) + 2 + Z.b2z fmt + len) 5 l.
Proof.
  unfold array_body. lens. pose proof (join_length (44 :: byte_if fmt 32) l) as J.
  assert (E : foldr (fun e len => Z.of_nat (length e) + 2 + Z.b2z fmt + len) 5 l =
              5 + total l + (2 + Z.b2z fmt) * Z.of_nat (length l)).
  { clear J. unfold total. induction l as [|e l IH]; [cbn; lia|]. cbn [foldr length]. rewrite IH. lia. }
  rewrite E. assert (Hs : Z.of_nat (length (44 :: byte_if fmt 32)) = 1 + Z.b2z fmt) by (by destruct fmt).
  rewrite Hs in J. destruct fmt; cbn [Z.b2z] in *; lia.
Qed.

Lemma tabs_length fmt depth : 0 <= depth -> Z.of_nat (length (tabs fmt depth)) = Z.b2z fmt * depth.
Proof. intros H. destruct fmt; cbn [tabs length Z.b2z]; [rewrite length_replicate|]; lia. Qed.

Lemma byte_if_length b c : Z.of_nat (length (byte_if b c)) = Z.b2z b.
Proof. by destruct b. Qed.

Lemma object_room (fmt : bool) depth (l : list (list Z * list Z)) : l <> [] -> 0 <= depth ->
  let extra := if fmt then 2 + (depth + 1) else 0 in
  Z.of_nat (length (object_body fmt depth (map (fun '(name, e) => member_text fmt (depth + 1) name e) l))) + 1 <=
  foldr (fun '(name, e) len => Z.of_nat (length e) + Z.of_nat (length name) + 2 + extra + len)
    (7 + if fmt then depth + 1 else 0) l.
Proof.
  intros Hl Hd extra. set (members := map (fun '(name, e) => member_text fmt (depth + 1) name e) l). unfold object_body.
  assert (Hm : members <> []) by (by destruct l). rewrite !bool_decide_eq_false_2 by done. lens.
  pose proof (join_length (44 :: byte_if fmt 10) members) as J. cbn [length] in J. unfold members in J at 3. rewrite length_map in J.
  assert (E : foldr (fun '(name, e) len => Z.of_nat (length e) + Z.of_nat (length name) + 2 + extra + len)
      (7 + if fmt then depth + 1 else 0) l =
    total members + (1 + Z.b2z fmt) * Z.of_nat (length l) + 7 + if fmt then depth + 1 else 0).
  { clear -Hd. unfold members, total, extra. induction l as [|[name e] l IH]; [cbn; lia|]. cbn [map foldr length].
    rewrite IH. unfold member_text at 2. lens. pose proof (tabs_length fmt (depth + 1) ltac:(lia)).
    pose proof (byte_if_length fmt 9). destruct fmt; cbn [Z.b2z] in *; lia. }
  rewrite E.
  pose proof (byte_if_length fmt 10). rewrite !Nat2Z.inj_succ in *.
  pose proof (tabs_length fmt (depth - 0) ltac:(lia)).
  destruct l as [|[n e] l]; [done|]. destruct fmt; cbn [Z.b2z] in *; lia.
Qed.

Lemma all_some_map {A B C} (g : A -> option B) (f : B -> C) l :
  all_some (map (fun c => match g c with Some b => Some (f b) | None => None end) l) = option_map (map f) (all_some (map g l)).
Proof.
  induction l as [|c l IH]; [done|]. cbn [map all_some]. destruct (g c); [|done]. rewrite IH.
  by destruct (all_some (map g l)).
Qed.

(** ** The printer writes the reference *)

(** An item whose numbers are those of its types and whose strings end at their end. *)
Inductive item_ok : cJSON -> Prop :=
  | item_ok_intro t v i d s l :
      number_ok (Item t v i d s l) -> from_option no_zero True v -> from_option no_zero True s ->
      Forall item_ok l -> item_ok (Item t v i d s l).

Lemma array_entries_text (f : cJSON -> outcome (option (list Z))) (g : cJSON -> option (list Z)) l :
  Forall (fun c => f c = Ret (g c)) l -> array_entries f l = Ret (all_some (map g l)).
Proof.
  induction 1 as [|c l Hc Hl IH]; [done|]. cbn [array_entries map all_some]. rewrite Hc. run.
  destruct (g c); [|done]. fold (array_entries f). rewrite IH. run. by destruct (all_some (map g l)).
Qed.

Lemma object_entries_text (f : cJSON -> outcome (option (list Z))) (g : cJSON -> option (list Z)) l :
  Forall (fun c => f c = Ret (g c) /\ print_string_ptr (string c) = Ret (name_text (string c))) l ->
  object_entries f l =
  Ret (all_some (map (fun c => match g c with Some e => Some (name_text (string c), e) | None => None end) l)).
Proof.
  induction 1 as [|c l [Hc Hn] Hl IH]; [done|]. cbn [object_entries map all_some]. rewrite Hn, Hc. run.
  fold (object_entries f). rewrite IH. run. by destruct (g c), (all_some _).
Qed.

Lemma all_some_nil {A} (l : list (option A)) : all_some l = Some [] -> l = [].
Proof. destruct l as [|[a|] l]; cbn [all_some]; try done. by destruct (all_some l). Qed.

Lemma print_array_text (f : cJSON -> Z -> outcome (option (list Z))) g l depth fmt :
  Forall (fun c => f c (depth + 1) = Ret (g c)) l ->
  print_array f l depth fmt =
  Ret (match all_some (map g l) with Some entries => Some (array_body fmt entries) | None => None end).
Proof.
  intros H. unfold print_array. destruct l as [|c l]; [done|]. rewrite (array_entries_text _ g) by done. run.
  destruct (all_some _) as [entries|] eqn:E; [|done]. pose proof (array_room fmt entries) as R. unfold array_body in *.
  lens_in R. set (cap := foldr _ _ _) in *. clearbody cap. do 2 put_step.
  rewrite array_text_room by room. run. do 2 put_step. do 2 f_equal. flat.
Qed.

Lemma print_object_text (f : cJSON -> Z -> outcome (option (list Z))) g l depth fmt : 0 <= depth ->
  Forall (fun c => f c (depth + 1) = Ret (g c) /\ print_string_ptr (string c) = Ret (name_text (string c))) l ->
  print_object f l depth fmt =
  Ret (match all_some (map (fun c => match g c with
                                     | Some e => Some (member_text fmt (depth + 1) (name_text (string c)) e)
                                     | None => None
                                     end) l) with
       | Some members => Some (object_body fmt depth members)
       | None => None
       end).
Proof.
  intros Hd H. unfold print_object. destruct l as [|c l].
  - cbn [map all_some]. unfold object_body. rewrite !bool_decide_eq_true_2 by done.
    pose proof (tabs_length fmt (depth - 1)) as T. pose proof (byte_if_length fmt 10).
    assert (R : Z.of_nat (length (tabs fmt (depth - 1))) <= Z.b2z fmt * depth).
    { destruct fmt; cbn [tabs Z.b2z length]; rewrite ?length_replicate; lia. }
    destruct fmt; cbn [Z.b2z] in *; do 4 put_step; do 2 f_equal; flat.
  - rewrite (object_entries_text _ g) by done. run. set (L := c :: l) in *. assert (HL : L <> []) by done. clearbody L.
    set (h := fun c => match g c with Some e => Some (name_text (string c), e) | None => None end).
    assert (E : map (fun c => match g c with Some e => Some (member_text fmt (depth + 1) (name_text (string c)) e)
                                           | None => None end) L =
                map (fun c => match h c with Some b => Some ((fun '(name, e) => member_text fmt (depth + 1) name e) b)
                                           | None => None end) L).
    { apply map_ext. intros x. unfold h. by destruct (g x). }
    rewrite E, all_some_map. destruct (all_some (map h L)) as [entries|] eqn:Ee; [|done]. cbn [option_map].
    assert (He : entries <> []) by (intros ->; apply all_some_nil, map_eq_nil in Ee; done).
    pose proof (object_room fmt depth entries He Hd) as R. set (members := map _ entries) in *.
    assert (Hm : members <> []) by (unfold members; by destruct entries). unfold object_body in *.
    rewrite !bool_decide_eq_false_2 in * by done. lens_in R. set (cap := foldr _ _ _) in *. clearbody cap.
    do 2 put_step. rewrite object_text_room by (done || (fold members; room)). fold members. run.
    rewrite Z.sub_0_r in *. replace (depth + 1 - 1) with depth by lia. do 3 put_step. do 2 f_equal. flat.
Qed.

Lemma print_value_text c depth fmt : item_ok c -> 0 <= depth -> print_value c depth fmt = Ret (text c depth fmt).
Proof.
  revert depth. induction c as [t v i d s l IH] using cJSON_items_ind. intros depth Hok Hd.
  inversion Hok as [t' v' i' d' s' l' Hn Hv Hs Hl]; subst. cbn [print_value text].
  destruct (bool_decide _); [done|]. destruct (bool_decide _); [done|]. destruct (bool_decide _); [done|].
  destruct (bool_decide _); [by rewrite print_number_text|].
  destruct (bool_decide _); [unfold print_string; by rewrite print_string_text|].
  destruct (bool_decide _).
  { apply (print_array_text _ (fun c => text c (depth + 1) fmt)). eapply Forall_impl; [apply Forall_and; split; [exact IH|exact Hl]|].
    intros c [Hc Hcok]. apply Hc; [done|lia]. }
  destruct (bool_decide _); [|done].
  apply (print_object_text _ (fun c => text c (depth + 1) fmt)); [done|].
  eapply Forall_impl; [apply Forall_and; split; [exact IH|exact Hl]|]. intros c [Hc Hcok]. split; [apply Hc; [done|lia]|].
  apply print_string_text. by inversion Hcok.
Qed.

(** C18: printing never writes outside a block that was allocated, formatted or
    not, however the item nests, and what it writes is the text of the item: the
    text is missing only when an item of no known type is in it. *)
Theorem printer_fits c (fmt : bool) :
  item_ok c -> (if fmt then cJSON_Print (Some c) else cJSON_PrintUnformatted (Some c)) = Ret (text c 0 fmt).
Proof. intros H. destruct fmt; by apply print_value_text. Qed.

(** An object with a number that is not an integer, and an empty object. *)
Lemma printer_fits_witness :
  let half := Item cJSON_Number None 0 (SFdiv prec emax (of_int 1) (of_int 2)) (Some (str_bytes "x")) [] in
  let c := Item cJSON_Object None 0 (S754_zero false) None [half; Item cJSON_Object None 0 (S754_zero false) (Some [7]) []] in
  item_ok c /\ cJSON_PrintUnformatted (Some c) = Ret (Some (123 :: 34 :: 120 :: 34 :: 58 :: str_bytes "0.500000" ++
    44 :: 34 :: 92 :: str_bytes "u0007" ++ 34 :: 58 :: str_bytes "{}}")).
Proof.
  intros half c.
  assert (Ok : item_ok c).
  { repeat constructor; cbn [valueint]; lia. }
  split; [exact Ok|]. rewrite (printer_fits c false Ok). vm_compute. reflexivity.
Defined.
