(* ===== verification/JsonRound.v ===== *)
(** * JSON: what is printed is parsed back

    The parser of [cJSON.c] reads every text that its printer writes for an item
    whose numbers are integers, and gives the item back. *)

From S2P Require Import Prelude Double Json JsonText.

(** ** Walking over a text *)

Lemma skip_here c p : c = 0 \/ 32 < c -> skip (c :: p) = Ret (c :: p).
Proof. intros H. cbn [skip]. by rewrite bool_decide_eq_false_2 by lia. Qed.

Lemma skip_blanks l p : Forall (fun c => 0 < c <= 32) l -> skip (l ++ p) = skip p.
Proof. induction 1 as [|c l Hc Hl IH]; [done|]. cbn [app skip]. by rewrite bool_decide_eq_true_2 by lia. Qed.

Lemma tabs_blank fmt depth : Forall (fun c => 0 < c <= 32) (tabs fmt depth).
Proof. destruct fmt; cbn [tabs]; [by apply Forall_replicate|by constructor]. Qed.

Lemma byte_if_blank fmt c : 0 < c <= 32 -> Forall (fun c => 0 < c <= 32) (byte_if fmt c).
Proof. intros H. destruct fmt; [by apply Forall_singleton|constructor]. Qed.

(** Where a number ends. *)
Definition number_char (c : Z) : Prop := 48 <= c <= 57 \/ c = 46 \/ c = 101 \/ c = 69.
Definition follow (p : ptr) : Prop := exists c r, p = c :: r /\ ~ number_char c.

(** ** Numbers *)

Section Numbers.
Variable pow : double -> double -> double.
Hypothesis pow_zero : pow (of_int 10) (of_int 0) = of_int 1.

Definition digit_step (n : double) (c : Z) : double := dadd (dmul n (of_int 10)) (of_int (c - 48)).

Lemma number_digits_app l n p : Forall (fun c => 48 <= c <= 57) l ->
  number_digits n (l ++ p) = number_digits (foldl digit_step n l) p.
Proof.
  intros H. revert n. induction H as [|c l Hc Hl IH]; intros n; [done|]. cbn [app number_digits foldl].
  unfold is_digit. rewrite bool_decide_eq_true_2 by lia. by rewrite IH.
Qed.

Lemma digit_loop_digits fuel n : 0 <= n -> Forall (fun c => 48 <= c <= 57) (digit_loop fuel n).
Proof.
  revert n. induction fuel as [|fuel IH]; intros n Hn; cbn [digit_loop]; [constructor|].
  apply Forall_app. split; [|repeat constructor; dlia]. case_bool_decide; [constructor|]. apply IH. dlia.
Qed.

Lemma digit_step_int n d : 0 <= n -> 0 <= d < 10 -> n * 10 + d < 2 ^ 53 ->
  digit_step (of_int n) (48 + d) = of_int (n * 10 + d).
Proof.
  intros Hn Hd H. unfold digit_step. replace (48 + d - 48) with d by lia.
  rewrite dmul_int by lia. by rewrite dadd_int by lia.
Qed.

Lemma digit_loop_value fuel n : 0 <= n < 2 ^ Z.of_nat fuel -> n < 2 ^ 53 ->
  foldl digit_step (of_int 0) (digit_loop fuel n) = of_int n.
Proof.
  revert n. induction fuel as [|fuel IH]; intros n Hn Hb; cbn [digit_loop foldl].
  { cbn in Hn. by replace n with 0 by lia. }
  rewrite Nat2Z.inj_succ, Z.pow_succ_r in Hn by lia. rewrite foldl_app. cbn [foldl].
  assert (E : foldl digit_step (of_int 0) (if bool_decide (n < 10) then [] else digit_loop fuel (n / 10)) = of_int (n / 10)).
  { case_bool_decide; [by rewrite Z.div_small by lia|]. apply IH; dlia. }
  rewrite E, digit_step_int by dlia. f_equal. dlia.
Qed.

Lemma fuel_of_log n : 0 <= n -> n < 2 ^ Z.of_nat (S (Z.to_nat (Z.log2 n))).
Proof.
  intros Hn. rewrite Nat2Z.inj_succ, Z2Nat.id by apply Z.log2_nonneg.
  destruct (decide (n = 0)) as [->|]; [done|]. apply Z.log2_spec. lia.
Qed.

Lemma digit_loop_head fuel n : 0 < n < 2 ^ Z.of_nat fuel -> exists c l, digit_loop fuel n = c :: l /\ 49 <= c <= 57.
Proof.
  revert n. induction fuel as [|fuel IH]; intros n Hn; cbn [digit_loop]; [cbn in Hn; lia|].
  rewrite Nat2Z.inj_succ, Z.pow_succ_r in Hn by lia. case_bool_decide as H.
  - exists (48 + n mod 10), []. split; [done|]. dlia.
  - destruct (IH (n / 10)) as (c & l & -> & Hc); [dlia|]. by exists c, (l ++ [48 + n mod 10]).
Qed.

(** The digits of a number that is not zero, as the parser reads them. *)
Lemma decimal_read n p : 0 < n < 2 ^ 53 -> follow p ->
  exists c l, decimal n ++ p = c :: l /\ 49 <= c <= 57 /\ number_digits (of_int 0) (c :: l) = Ret (of_int n, p).
Proof.
  intros Hn (d & r & -> & Hd). unfold decimal. set (fuel := S _).
  assert (Hf : n < 2 ^ Z.of_nat fuel) by (apply fuel_of_log; lia).
  destruct (digit_loop_head fuel n) as (c & l & E & Hc); [lia|]. exists c, (l ++ d :: r).
  rewrite E. split; [done|]. split; [done|].
  change (c :: l ++ d :: r) with ((c :: l) ++ d :: r). rewrite <- E.
  rewrite number_digits_app by (apply digit_loop_digits; lia). rewrite digit_loop_value by lia.
  cbn [number_digits]. unfold is_digit, number_char in *. by rewrite bool_decide_eq_false_2 by lia.
Qed.

Lemma parse_exponent_none p : follow p -> parse_exponent p = Ret (0, p).
Proof.
  intros (d & r & -> & Hd). unfold parse_exponent, number_char in *. run. cbn [peek]. run.
  by rewrite bool_decide_eq_false_2 by lia.
Qed.

Lemma parse_number_int item i p : - 2 ^ 31 <= i < 2 ^ 31 -> follow p ->
  parse_number pow item (text_d i ++ p) =
  Ret (Accepted (set_type cJSON_Number (set_valueint i (set_valuedouble (of_int i) item))) p).
Proof.
  intros Hi Hp. unfold parse_number, text_d. rewrite <- app_assoc.
  set (s := bool_decide (i < 0)).
  assert (Es : exists c l, minus s ++ decimal (Z.abs i) ++ p = c :: l /\ bool_decide (c = 45) = s /\
    (if s then l else c :: l) = decimal (Z.abs i) ++ p).
  { unfold s. case_bool_decide; [by exists 45, (decimal (Z.abs i) ++ p)|].
    destruct (decide (i = 0)) as [->|]; [by exists 48, p|].
    destruct (decimal_read (Z.abs i) p ltac:(lia) Hp) as (c & l & -> & Hc & _). exists c, l. cbn [minus app].
    by rewrite bool_decide_eq_false_2 by lia. }
  destruct Es as (c & l & -> & Hs & El). cbn [peek]. run. rewrite Hs. cbn [tail].
  set (q := if s then l else c :: l) in *. clearbody q. subst q. clear c l Hs.
  destruct Hp as (d & r & Ep & Hd). assert (Hp : follow p) by by exists d, r.
  assert (Tail : forall n, n = Z.abs i ->
    (c ← peek p;
     fraction ← (if bool_decide (c = 46) then c ← peek (tail p); Ret (is_digit c) else Ret false);
     '(m, scale, num) ← (if fraction : bool then fraction_digits (of_int n) (of_int 0) (tail p) else Ret (of_int n, of_int 0, p));
     '(exponent, num) ← parse_exponent num;
     let m := dmul (dmul (of_int (if s then -1 else 1)) m) (pow (of_int 10) (dadd scale (of_int exponent))) in
     j ← to_int m;
     Ret (Accepted (set_type cJSON_Number (set_valueint j (set_valuedouble m item))) num)) =
    Ret (Accepted (set_type cJSON_Number (set_valueint i (set_valuedouble (of_int i) item))) p)).
  { intros n ->. rewrite Ep. cbn [peek]. run. unfold number_char in Hd. rewrite bool_decide_eq_false_2 by lia. run.
    rewrite <- Ep, parse_exponent_none by done. run.
    change (dadd (of_int 0) (of_int 0)) with (of_int 0). rewrite pow_zero.
    assert (Em : dmul (of_int (if s then -1 else 1)) (of_int (Z.abs i)) = of_int i).
    { destruct (decide (i = 0)) as [->|]; [done|].
      replace (if s then -1 else 1) with (cond_Zopp s 1) by by destruct s. rewrite dmul_sign by lia. f_equal.
      unfold s. case_bool_decide; cbn [cond_Zopp]; lia. }
    rewrite Em, dmul_one by lia. by rewrite to_int_of_int. }
  destruct (decide (i = 0)) as [->|Hz].
  - change (decimal (Z.abs 0)) with [48]. cbn [app peek]. run. rewrite bool_decide_eq_true_2 by done. cbn [tail].
    rewrite Ep at 1. cbn [peek]. run. unfold number_char in Hd. rewrite (bool_decide_eq_false_2 (49 <= d <= 57)) by lia. run.
    by apply (Tail 0).
  - destruct (decimal_read (Z.abs i) p ltac:(lia) Hp) as (c & l & -> & Hc & Hn). cbn [peek]. run.
    rewrite (bool_decide_eq_false_2 (c = 48)) by lia. cbn [peek]. run. rewrite (bool_decide_eq_true_2 (49 <= c <= 57)) by done.
    rewrite Hn. run. by apply Tail.
Qed.
End Numbers.

(** ** Strings *)

Lemma hex_digit_char v : 0 <= v < 16 -> hex_digit (hex_char v) = Some v.
Proof.
  intros Hv. assert (F : Forall (fun v => hex_digit (hex_char v) = Some v) (seqZ 0 16))
    by (apply (bool_decide_eq_true_1 _); vm_compute; done).
  rewrite Forall_forall in F. apply F, elem_of_seqZ. lia.
Qed.

Lemma parse_hex4_control c p : 0 <= c < 32 ->
  parse_hex4 (48 :: 48 :: hex_char (c / 16) :: hex_char (c mod 16) :: p) = Ret c.
Proof.
  intros Hc. unfold parse_hex4. change (hex_digits 3 0 (48 :: 48 :: ?q)) with (hex_digits 1 0 q).
  cbn [hex_digits peek]. run. rewrite hex_digit_char by dlia. cbn [tail peek]. run.
  rewrite hex_digit_char by dlia. rewrite Z.shiftl_mul_pow2 by lia. f_equal. change (2 ^ 4) with 16. dlia.
Qed.

Lemma utf8_ascii c : 0 < c < 128 -> utf8 c = [c].
Proof.
  intros Hc. unfold utf8. rewrite bool_decide_eq_true_2 by lia. cbn [Nat.sub utf8_bytes nth firstByteMark].
  rewrite Z.lor_0_r, u8_byte by (unfold byte; lia). done.
Qed.

(** The two passes of the parser over what was printed for a character. *)
Lemma string_length_char c p n : 0 < c < 256 ->
  exists k, 1 <= k /\ string_length (char_text c ++ p) n = string_length p (n + k).
Proof.
  intros Hc. unfold char_text.
  case_bool_decide as H; [exists 1; cbn [app string_length]; rewrite !bool_decide_eq_false_2 by lia; by split|].
  do 7 (case_bool_decide; [by exists 1|]). exists 5. split; [done|]. cbn [app string_length].
  assert (Hh : forall v, 0 <= v < 16 -> hex_char v <> 34 /\ hex_char v <> 0 /\ hex_char v <> 92).
  { intros v Hv. unfold hex_char. case_bool_decide; lia. }
  pose proof (Hh (c / 16) ltac:(dlia)). pose proof (Hh (c mod 16) ltac:(dlia)).
  change (bool_decide (92 = 34 \/ 92 = 0)) with false. change (bool_decide (92 = 92)) with true.
  change (bool_decide (48 = 34 \/ 48 = 0)) with false. change (bool_decide (48 = 92)) with false. cbn [orb].
  cbv iota. rewrite !bool_decide_eq_false_2 by lia. f_equal. lia.
Qed.

Lemma string_loop_char fuel cap c p out : 0 < c < 256 -> Z.of_nat (length out) + 1 <= cap ->
  string_loop (S fuel) cap (char_text c ++ p) out = string_loop fuel cap p (out ++ [c]).
Proof.
  intros Hc Hr. cbn [string_loop]. unfold char_text.
  case_bool_decide as H.
  { cbn [app peek]. run. rewrite (bool_decide_eq_false_2 (c = 34 \/ c = 0)), (bool_decide_eq_true_2 (c <> 92)) by lia.
    by put_step. }
  do 7 (case_bool_decide; [subst c; cbn [app peek tail]; run;
    change (bool_decide (92 = 34 \/ 92 = 0)) with false; change (bool_decide (92 <> 92)) with false; cbv iota;
    unfold parse_escape; cbn [peek tail]; run;
    rewrite (bool_decide_eq_false_2 (_ = 117)) by lia; cbv zeta; put_step; reflexivity|]).
  cbn [app peek tail]. run. change (bool_decide (92 = 34 \/ 92 = 0)) with false. change (bool_decide (92 <> 92)) with false.
  cbv iota. unfold parse_escape. cbn [peek tail]. run. change (bool_decide (117 = 117)) with true. cbv iota.
  unfold parse_unicode. cbn [tail drop]. rewrite parse_hex4_control by lia. run.
  rewrite !bool_decide_eq_false_2 by lia. rewrite utf8_ascii by lia. by put_step.
Qed.

Definition chars (s : list Z) : Prop := Forall (fun c => 0 < c < 256) s.

Lemma string_length_text s p n : chars s ->
  exists k, Z.of_nat (length s) <= k /\ string_length (flat_map char_text s ++ 34 :: p) n = Ret (n + k).
Proof.
  intros Hs. revert n. induction Hs as [|c s Hc Hs IH]; intros n.
  - exists 0. split; [done|]. by rewrite Z.add_0_r.
  - cbn [flat_map length]. rewrite <- app_assoc. destruct (string_length_char c (flat_map char_text s ++ 34 :: p) n Hc) as (k & Hk & ->).
    destruct (IH (n + k)) as (k' & Hk' & ->). exists (k + k'). split; [lia|]. f_equal. lia.
Qed.

Lemma string_loop_text fuel cap s p out : chars s -> (length s < fuel)%nat ->
  Z.of_nat (length out) + Z.of_nat (length s) <= cap ->
  string_loop fuel cap (flat_map char_text s ++ 34 :: p) out = Ret (out ++ s, 34 :: p).
Proof.
  intros Hs. revert fuel out. induction Hs as [|c s Hc Hs IH]; intros fuel out Hf Hr; (destruct fuel as [|fuel]; [cbn in Hf; lia|]).
  - cbn [flat_map app string_loop peek]. run. change (bool_decide (34 = 34 \/ 34 = 0)) with true. cbv iota. by rewrite app_nil_r.
  - cbn [flat_map length] in *. rewrite <- app_assoc, string_loop_char by (done || lia).
    rewrite IH; [|lia|rewrite length_app; cbn [length]; lia]. by rewrite <- app_assoc.
Qed.

Lemma c_str_chars s : chars s -> c_str s = s.
Proof. induction 1 as [|c s Hc Hs IH]; [done|]. cbn [c_str]. rewrite bool_decide_eq_false_2 by lia. by rewrite IH. Qed.

Lemma char_text_nonempty c : (1 <= length (char_text c))%nat.
Proof. unfold char_text. repeat case_bool_decide; cbn [length]; lia. Qed.

Lemma chars_text_length s : (length s <= length (flat_map char_text s))%nat.
Proof. induction s as [|c s IH]; [done|]. cbn [flat_map length]. rewrite length_app. pose proof (char_text_nonempty c). lia. Qed.

Lemma parse_string_text item s p : chars s ->
  parse_string item (string_text s ++ p) = Ret (Accepted (set_type cJSON_String (set_valuestring (Some s) item)) p).
Proof.
  intros Hs. unfold parse_string, string_text. cbn [app peek]. run. change (bool_decide (34 <> 34)) with false. cbn [tail].
  rewrite <- app_assoc. cbn [app]. destruct (string_length_text s p 0 Hs) as (k & Hk & ->). run.
  rewrite string_loop_text; [|done|..].
  - run. cbn [app]. put_step. cbn [peek]. run. change (bool_decide (34 = 34)) with true. cbn [tail].
    rewrite app_nil_r, c_str_chars by done. done.
  - cbn [length]. rewrite length_app. cbn [length]. pose proof (chars_text_length s). lia.
  - cbn [length]. lia.
Qed.

(** ** Items *)

(** The items that the parser makes, with integers for numbers. *)
Inductive plain : cJSON -> Prop :=
  | plain_null name : plain (Item cJSON_NULL None 0 (S754_zero false) name [])
  | plain_false name : plain (Item cJSON_False None 0 (S754_zero false) name [])
  | plain_true name : plain (Item cJSON_True None 1 (S754_zero false) name [])
  | plain_number i name : - 2 ^ 31 <= i < 2 ^ 31 -> plain (Item cJSON_Number None i (of_int i) name [])
  | plain_string s name : chars s -> plain (Item cJSON_String (Some s) 0 (S754_zero false) name [])
  | plain_array l name :
      Forall (fun c => plain c /\ string c = None) l -> plain (Item cJSON_Array None 0 (S754_zero false) name l)
  | plain_object l name :
      Forall (fun c => plain c /\ from_option chars False (string c)) l ->
      plain (Item cJSON_Object None 0 (S754_zero false) name l).

(** A new item with a name. *)
Definition named (t : Z) (name : option (list Z)) : cJSON := Item t None 0 (S754_zero false) name [].

(** The first byte of a text. *)
Definition opens (t : list Z) : Prop := exists c r, t = c :: r /\ 32 < c /\ c <> 93 /\ c <> 125.

Section Values.
Variable pow : double -> double -> double.
Hypothesis pow_zero : pow (of_int 10) (of_int 0) = of_int 1.

(** The text [t] is parsed to [c], whatever follows it. *)
Definition reads (parse : cJSON -> ptr -> outcome (answer cJSON)) (c : cJSON) (t : list Z) : Prop :=
  opens t /\ forall ty p, follow p -> parse (named ty (string c)) (t ++ p) = Ret (Accepted c p).

Lemma follow_cons c p : ~ number_char c -> follow (c :: p).
Proof. intros H. by exists c, p. Qed.

Lemma follow_blank b sep c p : ~ number_char c -> ~ number_char sep -> follow (byte_if b sep ++ c :: p).
Proof. intros H Hs. by destruct b; apply follow_cons. Qed.

Lemma skip_opens l t p : Forall (fun c => 0 < c <= 32) l -> opens t -> skip (l ++ t ++ p) = Ret (t ++ p).
Proof. intros Hl (c & r & -> & Hc & _). rewrite skip_blanks by done. apply skip_here. lia. Qed.

Lemma array_loop_text parse fmt l ts item acc p fuel b :
  Forall2 (reads parse) l ts -> Forall (fun c => string c = None) l -> l <> [] -> (length l <= fuel)%nat ->
  array_loop parse fuel item acc (byte_if b 32 ++ join (44 :: byte_if fmt 32) ts ++ 93 :: p) =
  Ret (Accepted (set_child (acc ++ l) item) p).
Proof.
  intros H. revert fuel acc b. induction H as [|c t l ts [Ho Hr] H IH]; intros fuel acc b Hn Hl Hf; [done|].
  destruct fuel as [|fuel]; [cbn in Hf; lia|]. apply Forall_cons in Hn as [Hc Hn]. cbn [array_loop].
  assert (Hb : forall b, Forall (fun c => 0 < c <= 32) (byte_if b 32)) by (intros; by apply byte_if_blank).
  rewrite Hc in Hr. change (named cJSON_False None) with cJSON_New_Item in Hr.
  pose proof (Hr 0) as Hr0. change (named 0 None) with cJSON_New_Item in Hr0.
  destruct H as [|c' t' l ts Hc' H].
  - cbn [join]. rewrite skip_opens by done. run. rewrite Hr0 by (apply follow_cons; unfold number_char; lia). run.
    rewrite skip_here by lia. run. cbn [peek]. run. by rewrite bool_decide_eq_false_2, bool_decide_eq_true_2 by lia.
  - change (join ?s (t :: t' :: ts)) with (t ++ s ++ join s (t' :: ts)). rewrite <- app_assoc, skip_opens by done. run.
    cbn [app]. rewrite Hr0 by (apply follow_cons; unfold number_char; lia). run. rewrite skip_here by lia. run.
    cbn [peek]. run. rewrite bool_decide_eq_true_2 by done. cbn [tail]. rewrite <- app_assoc.
    rewrite (IH fuel (acc ++ [c]) fmt) by (done || (cbn [length] in *; lia)). by rewrite <- app_assoc.
Qed.

Lemma parse_member_text parse fmt depth c t p blanks :
  reads parse c t -> from_option chars False (string c) -> Forall (fun c => 0 < c <= 32) blanks -> follow p ->
  parse_member parse (blanks ++ member_text fmt depth (name_text (string c)) t ++ p) = Ret (Accepted c p).
Proof.
  intros [Ho Hr] Hs Hb Hp. destruct (string c) as [s|] eqn:E; [|done]. cbn [from_option name_text] in *.
  unfold parse_member, member_text. rewrite skip_blanks by done. rewrite <- !app_assoc, skip_blanks by apply tabs_blank.
  unfold string_text at 1. cbn [app]. rewrite skip_here by lia. run.
  change (34 :: (flat_map char_text s ++ [34]) ++ ?q) with (string_text s ++ q). rewrite parse_string_text by done. run.
  cbn [app]. rewrite skip_here by lia. run. cbn [peek]. run. change (bool_decide (58 <> 58)) with false. cbv iota. cbn [tail].
  rewrite <- app_assoc, skip_opens by (done || by apply byte_if_blank). run. by apply (Hr cJSON_String).
Qed.

Lemma object_loop_text parse fmt depth l ts item acc p fuel blanks :
  Forall2 (reads parse) l ts -> Forall (fun c => from_option chars False (string c)) l -> l <> [] -> (length l <= fuel)%nat ->
  Forall (fun c => 0 < c <= 32) blanks ->
  let members := zip_with (fun c t => member_text fmt depth (name_text (string c)) t) l ts in
  object_loop parse fuel item acc
    (blanks ++ join (44 :: byte_if fmt 10) members ++ byte_if fmt 10 ++ tabs fmt (depth - 1) ++ 125 :: p) =
  Ret (Accepted (set_child (acc ++ l) item) p).
Proof.
  cbv zeta. intros H. revert fuel acc blanks. induction H as [|c t l ts Hr H IH]; intros fuel acc blanks Hn Hl Hf Hb; [done|].
  destruct fuel as [|fuel]; [cbn in Hf; lia|]. apply Forall_cons in Hn as [Hc Hn]. cbn [object_loop zip_with].
  destruct H as [|c' t' l ts Hc' H].
  - cbn [join zip_with]. rewrite parse_member_text; [|done..|].
    + run. rewrite skip_blanks by by apply byte_if_blank. rewrite skip_blanks by apply tabs_blank.
      rewrite skip_here by lia. run. cbn [peek]. run. by rewrite bool_decide_eq_false_2, bool_decide_eq_true_2 by lia.
    + destruct fmt; cbn [byte_if tabs app]; apply follow_cons; unfold number_char; lia.
  - cbn [zip_with] in *. change (join ?s (?x :: ?y :: ?z)) with (x ++ s ++ join s (y :: z)).
    rewrite <- app_assoc. rewrite parse_member_text; [|done..|].
    + run. cbn [app]. rewrite skip_here by lia. run. cbn [peek]. run. rewrite bool_decide_eq_true_2 by done. cbn [tail].
      rewrite <- app_assoc. rewrite (IH fuel (acc ++ [c]) (byte_if fmt 10)).
      * by rewrite <- app_assoc.
      * done.
      * done.
      * cbn [length] in *; lia.
      * by apply byte_if_blank.
    + cbn [app]. apply follow_cons. unfold number_char. lia.
Qed.

(** Which part of the parser a value goes to. *)
Lemma parse_value_head fuel item c p : c <> 110 -> c <> 102 -> c <> 116 ->
  parse_value pow (S fuel) item (c :: p) =
  if bool_decide (c = 34) then parse_string item (c :: p)
  else if bool_decide (c = 45 \/ 48 <= c <= 57) then parse_number pow item (c :: p)
  else if bool_decide (c = 91) then parse_array (parse_value pow fuel) fuel item (c :: p)
  else if bool_decide (c = 123) then parse_object (parse_value pow fuel) fuel item (c :: p)
  else Ret (Rejected (c :: p)).
Proof.
  intros H1 H2 H3. cbn [parse_value].
  assert (S : forall b s, c <> b -> starts_with (b :: s) (c :: p) = Ret false).
  { intros b s H. cbn [starts_with peek]. run. by rewrite bool_decide_eq_false_2. }
  change (str_bytes "null") with [110; 117; 108; 108]. change (str_bytes "false") with [102; 97; 108; 115; 101].
  change (str_bytes "true") with [116; 114; 117; 101]. rewrite !S by done. run. done.
Qed.

Lemma text_d_head i : exists c r, text_d i = c :: r /\ (c = 45 \/ 48 <= c <= 57).
Proof.
  unfold text_d, minus. case_bool_decide; [exists 45, (decimal (Z.abs i)); split; [done|by left]|].
  pose proof (digit_loop_digits (S (Z.to_nat (Z.log2 (Z.abs i)))) (Z.abs i) ltac:(lia)) as D. fold (decimal (Z.abs i)) in D.
  pose proof (decimal_nonempty (Z.abs i)). destruct (decimal (Z.abs i)) as [|c r]; [cbn in *; lia|].
  apply Forall_cons in D as [Hc _]. exists c, r. split; [done|by right].
Qed.

Lemma number_text_int name i : - 2 ^ 31 <= i < 2 ^ 31 ->
  number_text (Item cJSON_Number None i (of_int i) name []) = text_d i.
Proof.
  intros Hi. unfold number_text. cbn [valuedouble valueint]. rewrite dsub_same by lia.
  change (SFleb (SFabs (S754_zero false)) DBL_EPSILON) with true.
  rewrite !SFleb_int by lia. by rewrite !bool_decide_eq_true_2 by lia.
Qed.

(** A text and what the parser makes of it, given enough fuel. *)
Definition parsed (c : cJSON) (t : list Z) : Prop :=
  opens t /\ forall fuel ty p, (length t < fuel)%nat -> follow p ->
    parse_value pow fuel (named ty (string c)) (t ++ p) = Ret (Accepted c p).

Lemma all_some_Forall2 {A B} (f : A -> option B) (Q : A -> B -> Prop) l :
  Forall (fun a => exists b, f a = Some b /\ Q a b) l -> exists bs, all_some (map f l) = Some bs /\ Forall2 Q l bs.
Proof.
  induction 1 as [|a l (b & Hb & Hq) H (bs & IHb & IHq)]; [by exists []|]. exists (b :: bs).
  cbn [map all_some]. rewrite Hb, IHb. split; [done|by constructor].
Qed.

Lemma all_some_zip {A B C} (f : A -> option B) (g : A -> B -> C) l bs : all_some (map f l) = Some bs ->
  all_some (map (fun a => match f a with Some b => Some (g a b) | None => None end) l) = Some (zip_with g l bs).
Proof.
  revert bs. induction l as [|a l IH]; intros bs; cbn [map all_some]; [by intros [= <-]|].
  destruct (f a) as [b|]; [|done]. destruct (all_some (map f l)) as [bs'|] eqn:E; [|done]. intros [= <-].
  by rewrite (IH bs').
Qed.

Lemma join_parts sep l : Forall (fun e => length e <= length (join sep l))%nat l.
Proof.
  induction l as [|e [|e' l] IH]; [constructor|by repeat constructor|].
  change (join sep (e :: e' :: l)) with (e ++ sep ++ join sep (e' :: l)) in *. constructor; [rewrite length_app; lia|].
  eapply Forall_impl; [exact IH|]. intros x Hx. cbn beta in *. rewrite !length_app. lia.
Qed.

Lemma join_count sep l : Forall (fun e => 1 <= length e)%nat l -> (length l <= length (join sep l))%nat.
Proof.
  induction 1 as [|e l He Hl IH]; [done|]. destruct l as [|e' l]; [cbn [join length]; lia|].
  change (join sep (e :: e' :: l)) with (e ++ sep ++ join sep (e' :: l)). rewrite !length_app. cbn [length] in *. lia.
Qed.

Lemma parsed_reads fuel l ts : Forall2 parsed l ts -> Forall (fun t => length t < fuel)%nat ts ->
  Forall2 (reads (parse_value pow fuel)) l ts.
Proof.
  induction 1 as [|c t l ts [Ho Hp] H IH]; intros Hf; [constructor|]. apply Forall_cons in Hf as [Ht Hf].
  constructor; [|by apply IH]. split; [done|]. intros ty p. by apply Hp.
Qed.

Lemma opens_length l ts : Forall2 parsed l ts -> Forall (fun t => 1 <= length t)%nat ts.
Proof. induction 1 as [|c t l ts [(b & r & -> & _) _] H IH]; constructor; [cbn; lia|done]. Qed.

Lemma parsed_array fmt l ts name : Forall2 parsed l ts -> Forall (fun c => string c = None) l ->
  parsed (Item cJSON_Array None 0 (S754_zero false) name l) (array_body fmt ts).
Proof.
  intros H Hn. split; [exists 91; unfold array_body; eexists; split; [done|lia]|].
  intros fuel ty p Hf Hp. unfold array_body in *. lens_in Hf. destruct fuel as [|fuel]; [lia|].
  cbn [app]. rewrite parse_value_head by lia.
  rewrite (bool_decide_eq_false_2 (91 = 34)), (bool_decide_eq_false_2 (91 = 45 \/ _)), bool_decide_eq_true_2 by lia.
  unfold parse_array. cbn [peek]. run. rewrite bool_decide_eq_false_2 by tauto. cbn [tail string]. rewrite <- app_assoc.
  cbn [app]. destruct H as [|c t l ts Hc H].
  - cbn [join app]. rewrite skip_here by lia. run. cbn [peek]. run. by rewrite bool_decide_eq_true_2.
  - assert (H2 : Forall2 parsed (c :: l) (t :: ts)) by by constructor.
    pose proof (join_parts (44 :: byte_if fmt 32) (t :: ts)) as Hj. pose proof (join_count (44 :: byte_if fmt 32) _ (opens_length _ _ H2)) as Hk.
    pose proof (Forall2_length _ _ _ H2) as Hlen.
    assert (Hr : Forall2 (reads (parse_value pow fuel)) (c :: l) (t :: ts)).
    { apply parsed_reads; [done|]. eapply Forall_impl; [exact Hj|]. intros x Hx. cbn beta in Hx. lia. }
    destruct Hc as [(b & r & -> & Hb1 & Hb2 & Hb3) _]. set (q := join _ _ ++ _).
    assert (Hq : exists r', q = b :: r') by (unfold q; destruct ts; cbn [join app]; eauto).
    destruct Hq as [r' Hq]. rewrite Hq, skip_here by lia. run. cbn [peek]. run. rewrite bool_decide_eq_false_2 by done.
    rewrite <- Hq. unfold q. by rewrite (array_loop_text _ fmt _ _ _ [] p fuel false Hr Hn) by (done || lia).
Qed.

(** The texts of the members, and where the first one begins. *)
Definition members_of fmt depth (l : list cJSON) (ts : list (list Z)) : list (list Z) :=
  zip_with (fun c t => member_text fmt depth (name_text (string c)) t) l ts.

Lemma member_bound fmt depth name t :
  (1 <= length (member_text fmt depth name t) /\ length t <= length (member_text fmt depth name t))%nat.
Proof. unfold member_text. split; lens; lia. Qed.

Lemma members_bound fmt depth l ts n : length l = length ts ->
  Forall (fun e => length e <= n)%nat (members_of fmt depth l ts) -> Forall (fun t => length t <= n)%nat ts.
Proof.
  revert ts. induction l as [|c l IH]; intros [|t ts] Hl; try done. cbn [members_of zip_with]. intros [Hc H]%Forall_cons.
  destruct (member_bound fmt depth (name_text (string c)) t). constructor; [lia|]. apply IH; [by injection Hl|done].
Qed.

Lemma members_count fmt depth l ts sep : length l = length ts ->
  (length l <= length (join sep (members_of fmt depth l ts)))%nat.
Proof.
  intros Hl. transitivity (length (members_of fmt depth l ts)).
  - unfold members_of. rewrite length_zip_with. lia.
  - apply join_count. clear Hl. unfold members_of. revert ts. induction l as [|c l IH]; intros [|t ts]; constructor; [|apply IH].
    apply member_bound.
Qed.

Lemma members_open fmt depth c l t ts sep q : from_option chars False (string c) ->
  exists blanks q', Forall (fun c => 0 < c <= 32) blanks /\
    join sep (members_of fmt depth (c :: l) (t :: ts)) ++ q = blanks ++ 34 :: q'.
Proof.
  destruct (string c) as [s|] eqn:E; [|done]. intros _. exists (tabs fmt depth).
  unfold members_of. cbn [zip_with]. rewrite E. unfold member_text at 1. cbn [name_text]. unfold string_text.
  destruct (zip_with _ l ts) as [|e es].
  - cbn [join]. eexists. split; [apply tabs_blank|]. rewrite <- !app_assoc. cbn [app]. done.
  - change (join ?s (?x :: ?y :: ?z)) with (x ++ s ++ join s (y :: z)). eexists. split; [apply tabs_blank|].
    rewrite <- !app_assoc. cbn [app]. done.
Qed.

Lemma object_loop_skip parse fuel item acc blanks p : Forall (fun c => 0 < c <= 32) blanks ->
  object_loop parse fuel item acc (blanks ++ p) = object_loop parse fuel item acc p.
Proof. intros H. destruct fuel as [|fuel]; [done|]. cbn [object_loop]. unfold parse_member. by rewrite skip_blanks. Qed.

Lemma parse_object_text parse fmt depth c l t ts fuel p ty name :
  Forall2 (reads parse) (c :: l) (t :: ts) -> Forall (fun c => from_option chars False (string c)) (c :: l) ->
  (length (c :: l) <= fuel)%nat ->
  parse_object parse fuel (named ty name)
    (123 :: byte_if fmt 10 ++ join (44 :: byte_if fmt 10) (members_of fmt (depth + 1) (c :: l) (t :: ts)) ++
     byte_if fmt 10 ++ tabs fmt depth ++ 125 :: p) =
  Ret (Accepted (Item cJSON_Object None 0 (S754_zero false) name (c :: l)) p).
Proof.
  intros Hr Hn Hf. unfold parse_object. cbn [peek]. run. rewrite (bool_decide_eq_false_2 (123 <> 123)) by tauto.
  cbn [tail]. rewrite skip_blanks by by apply byte_if_blank.
  pose proof (object_loop_text parse fmt (depth + 1) _ _ (named cJSON_Object name) [] p fuel [] Hr Hn ltac:(done) Hf ltac:(constructor)) as L.
  cbv zeta in L. fold (members_of fmt (depth + 1) (c :: l) (t :: ts)) in L. cbn [app] in L. replace (depth + 1 - 1) with depth in L by lia.
  apply Forall_cons in Hn as [Hc _].
  destruct (members_open fmt (depth + 1) c l t ts (44 :: byte_if fmt 10) (byte_if fmt 10 ++ tabs fmt depth ++ 125 :: p) Hc)
    as (blanks & q & Hb & Hq).
  rewrite Hq in L |- *. rewrite object_loop_skip in L by done. rewrite skip_blanks, skip_here by (done || lia). run. cbn [peek]. run.
  rewrite bool_decide_eq_false_2 by lia. exact L.
Qed.

Lemma parsed_object fmt depth l ts name : Forall2 parsed l ts ->
  Forall (fun c => from_option chars False (string c)) l ->
  parsed (Item cJSON_Object None 0 (S754_zero false) name l) (object_body fmt depth (members_of fmt (depth + 1) l ts)).
Proof.
  intros H Hn. split; [exists 123; unfold object_body; eexists; split; [done|lia]|].
  intros fuel ty p Hf Hp. unfold object_body in *. lens_in Hf.
  destruct fuel as [|fuel]; [lia|]. cbn [app]. rewrite parse_value_head by lia.
  rewrite (bool_decide_eq_false_2 (123 = 34)), (bool_decide_eq_false_2 (123 = 45 \/ _)), (bool_decide_eq_false_2 (123 = 91)),
    bool_decide_eq_true_2 by lia. cbn [string].
  destruct H as [|c t l ts Hc H].
  - change (members_of fmt (depth + 1) [] []) with ([] : list (list Z)). unfold parse_object. cbn [peek]. run.
    rewrite (bool_decide_eq_false_2 (123 <> 123)), (bool_decide_eq_true_2 ([] = [])) by tauto. cbn [tail app].
    rewrite <- !app_assoc. rewrite skip_blanks, skip_blanks by (apply tabs_blank || by apply byte_if_blank).
    cbn [app]. rewrite skip_here by lia. run. cbn [peek]. run. by rewrite bool_decide_eq_true_2.
  - assert (H2 : Forall2 parsed (c :: l) (t :: ts)) by by constructor. pose proof (Forall2_length _ _ _ H2) as Hlen.
    rewrite (bool_decide_eq_false_2 (members_of _ _ _ _ = [])) in * by done. lens_in Hf.
    pose proof (join_parts (44 :: byte_if fmt 10) (members_of fmt (depth + 1) (c :: l) (t :: ts))) as Hj.
    apply members_bound in Hj; [|done].
    pose proof (members_count fmt (depth + 1) (c :: l) (t :: ts) (44 :: byte_if fmt 10) Hlen) as Hk.
    rewrite Z.sub_0_r, <- !app_assoc. cbn [app].
    apply parse_object_text; [|done|lia]. apply parsed_reads; [done|].
    eapply Forall_impl; [exact Hj|]. intros x Hx. cbn beta in Hx. lia.
Qed.

(** Every text of a plain item is parsed to the item. *)
Lemma text_parsed c depth fmt : plain c -> exists t, text c depth fmt = Some t /\ parsed c t.
Proof.
  revert depth. induction c as [t v i d s l IH] using cJSON_items_ind. intros depth H.
  assert (children : forall depth, Forall plain l ->
    exists ts, all_some (map (fun c => text c depth fmt) l) = Some ts /\ Forall2 parsed l ts).
  { intros depth' Hl. apply all_some_Forall2. rewrite Forall_forall in *. intros c Hc. apply IH; [done|by apply Hl]. }
  inversion H as [n Heq|n Heq|n Heq|i' n Hi Heq|s' n Hs Heq|l' n Hl Heq|l' n Hl Heq]; subst; clear H.
  - eexists. split; [done|]. split; [by exists 110; eexists|]. intros [|fuel] ty p Hf Hp; [lia|]. done.
  - eexists. split; [done|]. split; [by exists 102; eexists|]. intros [|fuel] ty p Hf Hp; [lia|]. done.
  - eexists. split; [done|]. split; [by exists 116; eexists|]. intros [|fuel] ty p Hf Hp; [lia|]. done.
  - exists (text_d i). split; [cbn [text]; by rewrite <- (number_text_int s i)|]. destruct (text_d_head i) as (c & r & E & Hc).
    split; [exists c, r; split; [done|lia]|]. intros [|fuel] ty p Hf Hp; [lia|]. rewrite E. cbn [app].
    rewrite parse_value_head by lia. rewrite bool_decide_eq_false_2, bool_decide_eq_true_2 by lia.
    change (c :: r ++ p) with ((c :: r) ++ p). rewrite <- E. by rewrite parse_number_int.
  - exists (string_text s'). split; [done|]. split; [by exists 34; eexists|]. intros [|fuel] ty p Hf Hp; [lia|].
    unfold string_text at 1. cbn [app]. rewrite parse_value_head by lia. rewrite bool_decide_eq_true_2 by done.
    change (34 :: (flat_map char_text s' ++ [34]) ++ p) with (string_text s' ++ p). by rewrite parse_string_text.
  - destruct (children (depth + 1)) as (ts & E & F); [by eapply Forall_impl; [exact Hl|]; intros c [Hc _]|].
    exists (array_body fmt ts). split; [cbn [text]; by rewrite E|]. apply parsed_array; [done|].
    by eapply Forall_impl; [exact Hl|]; intros c [_ Hc].
  - destruct (children (depth + 1)) as (ts & E & F); [by eapply Forall_impl; [exact Hl|]; intros c [Hc _]|].
    exists (object_body fmt depth (members_of fmt (depth + 1) l ts)). split.
    + cbn [text]. by rewrite (all_some_zip _ (fun c e => member_text fmt (depth + 1) (name_text (string c)) e) _ _ E).
    + apply parsed_object; [done|]. by eapply Forall_impl; [exact Hl|]; intros c [_ Hc].
Qed.
End Values.

(** A plain item satisfies the conditions of the printer. *)
Lemma valid_of_int z : Z.abs z < 2 ^ 53 -> valid (of_int z).
Proof.
  intros Hz. destruct (of_int_cases z Hz) as [[-> E]|(s & n & Hn & -> & E)]; [done|]. rewrite E. unfold valid, exact.
  cbn [valid_binary]. unfold bounded, canonical_mantissa. rewrite digits_bits, exact_mantissa by done.
  pose proof (bits_small n Hn). destruct (bits_bounds n ltac:(lia)) as [_ ?]. rewrite bits_scale by lia. unfold fexp, emin.
  apply andb_true_iff. split; [apply Z.eqb_eq|apply Z.leb_le]; lia.
Qed.

Lemma chars_no_zero s : chars s -> no_zero s.
Proof. intros H. eapply Forall_impl; [exact H|]. intros b Hb. cbn beta in *. lia. Qed.

Lemma plain_ok c : plain c -> from_option chars True (string c) -> item_ok c.
Proof.
  induction c as [t v i d s l IH] using cJSON_items_ind. intros H Hs.
  assert (Hn : from_option no_zero True s) by (destruct s; [by apply chars_no_zero|done]). cbn [string] in *.
  assert (Zero : forall t i, - 2 ^ 31 <= i < 2 ^ 31 -> number_ok (Item t None i (S754_zero false) s [])) by by split.
  inversion H; subst; constructor; try done; try (split; cbn [valueint valuedouble]; [lia|done]).
  - split; [done|]. apply valid_of_int. lia.
  - by apply chars_no_zero.
  - rewrite Forall_forall in *. intros c Hc. apply IH; [done|by apply H1|]. by rewrite (proj2 (H1 c Hc)).
  - rewrite Forall_forall in *. intros c Hc. apply IH; [done|by apply H1|]. destruct (H1 c Hc) as [_ Hx]. by destruct (string c).
Qed.

(** C17: parsing what was printed gives the item back, every field of it, from the
    formatted and the unformatted text, for every item without a name of its own
    that is as the parser makes items ([plain]): null, false, true with [valueint] 1,
    integers of the width of [int] in both number fields, strings without a zero
    byte, arrays of unnamed and objects of named items, nested in any way; the
    parser stops at the zero that ends the text. Of [pow] it is used that
    [pow(10, 0)] is 1. Not covered are numbers that are no such integers, a name at
    the root, which is not printed, and the item of [cJSON_CreateTrue], whose
    [valueint] is 0 and comes back as 1. *)
Theorem printed_text_parses pow c (fmt : bool) junk null_terminated :
  pow (of_int 10) (of_int 0) = of_int 1 -> plain c -> string c = None ->
  exists t, (if fmt then cJSON_Print (Some c) else cJSON_PrintUnformatted (Some c)) = Ret (Some t) /\
    cJSON_ParseWithOpts pow (Some (t ++ 0 :: junk)) null_terminated = Ret (Some (c, 0 :: junk), None).
Proof.
  intros Hpow Hc Hs. destruct (text_parsed pow Hpow c 0 fmt Hc) as (t & Ht & Ho & Hp). exists t. split.
  - rewrite <- Ht. assert (Ok : item_ok c) by (apply plain_ok; [done|by rewrite Hs]).
    destruct fmt; by apply print_value_text.
  - unfold cJSON_ParseWithOpts. pose proof (skip_opens [] t (0 :: junk) ltac:(constructor) Ho) as E. cbn [app] in E. rewrite E. run.
    specialize (Hp (S (length (t ++ 0 :: junk))) 0 (0 :: junk)). rewrite Hs in Hp. change (named 0 None) with cJSON_New_Item in Hp.
    rewrite Hp; [|rewrite length_app; lia|apply follow_cons; unfold number_char; lia]. run.
    destruct null_terminated; [|done]. rewrite skip_here by lia. done.
Qed.

(** A nested item, and [pow] on the exponent zero. *)
Lemma printed_text_parses_witness :
  let c := Item cJSON_Object None 0 (S754_zero false) None
    [Item cJSON_Array None 0 (S754_zero false) (Some (str_bytes "list"))
       [Item cJSON_Number None (-12) (of_int (-12)) None []; Item cJSON_True None 1 (S754_zero false) None []];
     Item cJSON_String (Some [34; 10; 200]) 0 (S754_zero false) (Some []) []] in
  exists t, cJSON_Print (Some c) = Ret (Some t) /\
    cJSON_ParseWithOpts (fun _ _ => of_int 1) (Some (t ++ [0])) true = Ret (Some (c, [0]), None).
Proof.
  intros c. apply (printed_text_parses (fun _ _ => of_int 1) c true [] true).
  - reflexivity.
  - apply plain_object. constructor; [|constructor; [|constructor]]; (split; [|repeat constructor; lia]).
    + apply plain_array. repeat constructor; lia.
    + apply plain_string. repeat constructor; lia.
  - reflexivity.
Defined.
