(* ===== verification/JsonParse.v ===== *)
(** * JSON: the parser on every text

    What the parser of [cJSON.c] does on texts that the printer did not write: it
    always ends, and it stays inside the text if every escape of the text is whole.
    An escape that is cut off by the end of the string makes it write behind the
    block of the string. *)

From S2P Require Import Prelude Double Json JsonText.

(** ** The parser, given what holds of its pointers

    [I] holds of the pointers, and [allowed] of the faults; strings are handled
    by a hypothesis. *)

Section Pointers.
Variable pow : double -> double -> double.
Variable I : ptr -> Prop.
Variable allowed : fault -> Prop.

Definition returns {A} (P : A -> Prop) (m : outcome A) : Prop :=
  match m with Ret a => P a | Fault f => allowed f end.

Lemma returns_bind {A B} (P : A -> Prop) (Q : B -> Prop) m (k : A -> outcome B) :
  returns P m -> (forall a, P a -> returns Q (k a)) -> returns Q (m ≫= k).
Proof. intros Hm Hk. destruct m as [a|f]; [by apply Hk|done]. Qed.

(** A pointer into the rest of [p]. *)
Definition within (p q : ptr) : Prop := I q /\ (length q <= length p)%nat.

(** An item, and a pointer behind the place where it began. *)
Definition consumes (p : ptr) (r : answer cJSON) : Prop :=
  match r with Accepted _ q => I q /\ (length q < length p)%nat | Rejected _ => True end.

Hypothesis I_peek : forall p, I p -> returns (fun c => exists q, p = c :: q /\ (c <> 0 -> I q)) (peek p).
Hypothesis I_overflow : allowed SignedOverflow.
Hypothesis I_string : forall item p, I p -> returns (consumes p) (parse_string item p).

Lemma skip_within p : I p -> returns (within p) (skip p).
Proof.
  induction p as [|c p IH]; intros H; pose proof (I_peek _ H) as Hp; [done|]. destruct Hp as (q & [= <-] & Hq).
  cbn [skip]. case_bool_decide as Hc; [|by split].
  specialize (IH (Hq (proj1 Hc))). destruct (skip p) as [q|f]; [|done]. destruct IH as [Hi Hl]. split; [done|cbn; lia].
Qed.

Lemma starts_with_within s p : Forall (fun b => b <> 0) s -> I p ->
  returns (fun b => b = true -> I (drop (length s) p) /\ (length (drop (length s) p) + length s <= length p)%nat) (starts_with s p).
Proof.
  intros Hs. revert p. induction Hs as [|b s Hb Hs IH]; intros p H; [intros _; change (drop (length []) p) with p; cbn [length]; split; [done|lia]|]. cbn [starts_with].
  eapply returns_bind; [by apply I_peek|]. intros c (q & -> & Hq). case_bool_decide as E; [|done]. subst c. cbn [tail].
  specialize (IH q (Hq Hb)). destruct (starts_with s q); [|done]. intros Ht. destruct (IH Ht) as [Hi Hl].
  cbn [length drop]. split; [done|lia].
Qed.

Lemma number_digits_within n p : I p -> returns (fun r => within p r.2) (number_digits n p).
Proof.
  revert n. induction p as [|c p IH]; intros n H; pose proof (I_peek _ H) as Hp; [done|]. destruct Hp as (q & [= <-] & Hq).
  cbn [number_digits]. unfold is_digit. case_bool_decide as Hc; [|by split].
  specialize (IH (dadd (dmul n (of_int 10)) (of_int (c - 48))) (Hq ltac:(lia))).
  destruct (number_digits _ p) as [[m q]|f]; [|done]. destruct IH as [Hi Hl]. split; [done|cbn in *; lia].
Qed.

Lemma fraction_digits_within n k p : I p -> returns (fun r => within p r.2) (fraction_digits n k p).
Proof.
  revert n k. induction p as [|c p IH]; intros n k H; pose proof (I_peek _ H) as Hp; [done|]. destruct Hp as (q & [= <-] & Hq).
  cbn [fraction_digits]. unfold is_digit. case_bool_decide as Hc; [|by split].
  specialize (IH (dadd (dmul n (of_int 10)) (of_int (c - 48))) (dsub k (of_int 1)) (Hq ltac:(lia))).
  destruct (fraction_digits _ _ p) as [[[m j] q]|f]; [|done]. destruct IH as [Hi Hl]. split; [done|cbn in *; lia].
Qed.

Lemma exponent_digits_within x p : I p -> returns (fun r => within p r.2) (exponent_digits x p).
Proof.
  revert x. induction p as [|c p IH]; intros x H; pose proof (I_peek _ H) as Hp; [done|]. destruct Hp as (q & [= <-] & Hq).
  cbn [exponent_digits]. unfold is_digit. case_bool_decide as Hc; [|by split].
  unfold times_ten. case_bool_decide; [|done]. run. specialize (IH (x * 10 + (c - 48)) (Hq ltac:(lia))).
  destruct (exponent_digits _ p) as [[y q]|f]; [|done]. destruct IH as [Hi Hl]. split; [done|cbn in *; lia].
Qed.

Lemma parse_exponent_within p : I p -> returns (fun r => within p r.2) (parse_exponent p).
Proof.
  intros H. unfold parse_exponent. eapply returns_bind; [by apply I_peek|]. intros c (q & -> & Hq).
  case_bool_decide as Hc; [|by split]. cbn [tail]. assert (Hiq : I q) by (apply Hq; lia).
  eapply returns_bind; [by apply I_peek|]. intros d (r & -> & Hr).
  assert (Hx : I (if bool_decide (d = 43 \/ d = 45) then r else d :: r)) by (case_bool_decide; [apply Hr; lia|done]).
  eapply returns_bind; [by apply exponent_digits_within|]. intros [x s] [Hs Hl]. split; [done|]. cbn [snd] in *.
  destruct (bool_decide (d = 43 \/ d = 45)); cbn [length tail] in *; lia.
Qed.

(** A pointer behind the place where the number began. *)
Definition behind (p q : ptr) : Prop := I q /\ (length q < length p)%nat.

Lemma behind_within p q r : behind p q -> within q r -> behind p r.
Proof. intros [_ H] [Hi Hl]. split; [done|lia]. Qed.

Lemma leading_digits_behind p q c r : I q -> q = c :: r -> behind p q \/ 49 <= c <= 57 /\ (length q <= length p)%nat ->
  returns (fun r => behind p r.2) (if bool_decide (49 <= c <= 57) then number_digits (of_int 0) q else Ret (of_int 0, q)).
Proof.
  intros H -> Hc. case_bool_decide as E; [|by destruct Hc as [Hc|[Hc _]]].
  destruct (I_peek _ H) as (r' & [= <-] & Hr). cbn [number_digits]. unfold is_digit. rewrite bool_decide_eq_true_2 by lia.
  pose proof (number_digits_within (dadd (dmul (of_int 0) (of_int 10)) (of_int (c - 48))) r (Hr ltac:(lia))) as W.
  destruct (number_digits _ r) as [[n s]|f]; [|done]. destruct W as [Hi Hl]. split; [done|]. cbn [snd length] in *.
  destruct Hc as [[_ Hc]|[_ Hc]]; cbn [length] in Hc; lia.
Qed.

Lemma parse_number_consumes item p : I p -> (exists c q, p = c :: q /\ (c = 45 \/ 48 <= c <= 57)) ->
  returns (consumes p) (parse_number pow item p).
Proof.
  intros H (c & q & -> & Hc). unfold parse_number. cbn [peek]. run. cbn [tail].
  destruct (I_peek _ H) as (q' & [= <-] & Hq). set (p := c :: q) in *.
  set (q1 := if bool_decide (c = 45) then q else p).
  assert (H1 : I q1 /\ (behind p q1 \/ exists d r, q1 = d :: r /\ 48 <= d <= 57 /\ q1 = p)).
  { unfold q1. case_bool_decide as E; [|split; [done|right; exists c, q; split; [done|split; [lia|done]]]].
    assert (I q) by (apply Hq; lia). split; [done|left; split; [done|cbn; lia]]. }
  clearbody q1. destruct H1 as [Hi1 H1]. eapply returns_bind; [by apply I_peek|]. intros d (r & -> & Hr). cbn [tail].
  set (q2 := if bool_decide (d = 48) then r else d :: r).
  assert (H2 : I q2 /\ (behind p q2 \/ exists e s, q2 = e :: s /\ 49 <= e <= 57 /\ q2 = p)).
  { unfold q2. case_bool_decide as E.
    - assert (I r) by (apply Hr; lia). split; [done|left; split; [done|]].
      destruct H1 as [[_ H1]|(x & y & _ & _ & <-)]; cbn [length] in *; lia.
    - split; [done|]. destruct H1 as [H1|(x & y & [= <- <-] & Hx & H1)]; [by left|right; exists d, r; split; [done|split; [lia|done]]]. }
  clearbody q2. destruct H2 as [Hi2 H2]. eapply returns_bind; [by apply I_peek|]. intros e (s & E2 & _).
  eapply returns_bind; [apply (leading_digits_behind p q2 e s); [done|done|]|].
  { destruct H2 as [H2|(x & y & -> & Hx & H2)]; [by left|right; injection E2 as -> ->; split; [done|by rewrite H2]]. }
  intros [n q3] H3. cbn [snd] in H3. eapply returns_bind; [apply I_peek, H3|]. intros c3 (r3 & -> & Hr3). cbn [tail].
  eapply returns_bind with (P := fun b : bool => b = true -> I r3).
  { case_bool_decide as E; [|done]. assert (I r3) by (apply Hr3; lia). eapply returns_bind; [by apply I_peek|]. intros x _. cbn [returns]. by intros _. }
  intros fraction Hfr. eapply returns_bind with (P := fun r => behind p r.2).
  { destruct fraction; [|exact H3]. pose proof (fraction_digits_within n (of_int 0) r3 (Hfr eq_refl)) as W.
    destruct (fraction_digits _ _ r3) as [[[m k] t]|f]; [|done]. apply (behind_within p (c3 :: r3)); [done|].
    destruct W as [Wi Wl]. split; [done|cbn in *; lia]. }
  intros [[m k] q4] H4. cbn [snd] in H4. eapply returns_bind; [apply parse_exponent_within, H4|]. intros [x q5] H5. cbn [snd] in H5.
  unfold to_int. cbv zeta. destruct (dmul _ _); run; try done; [by apply (behind_within p q4)|].
  case_bool_decide; run; [by apply (behind_within p q4)|done].
Qed.

(** ** Values *)

Section Loops.
Variable parse : cJSON -> ptr -> outcome (answer cJSON).
Variable n : nat.
Hypothesis parse_consumes : forall item p, I p -> (length p < n)%nat -> returns (consumes p) (parse item p).

Lemma array_loop_consumes fuel item acc p : I p -> (length p < n)%nat -> (length p < fuel)%nat ->
  returns (consumes p) (array_loop parse fuel item acc p).
Proof.
  revert acc p. induction fuel as [|fuel IH]; intros acc p H Hn Hf; [lia|]. cbn [array_loop].
  eapply returns_bind; [by apply skip_within|]. intros q [Hq Hl].
  eapply returns_bind; [apply parse_consumes; [done|lia]|]. intros [c r|ep] Hr; [|done]. destruct Hr as [Hr Hlr].
  eapply returns_bind; [by apply skip_within|]. intros s [Hs Hls].
  eapply returns_bind; [by apply I_peek|]. intros b (t & -> & Ht). cbn [tail length] in *.
  case_bool_decide as E; [|case_bool_decide as E'; [|done]].
  - assert (It : I t) by (apply Ht; lia). specialize (IH (acc ++ [c]) t It ltac:(lia) ltac:(lia)).
    destruct (array_loop _ _ _ _ t) as [[c' u|]|]; try done. destruct IH as [Hi Hlu]. split; [done|lia].
  - split; [apply Ht; lia|lia].
Qed.

Lemma parse_member_consumes p : I p -> (length p < n)%nat -> returns (consumes p) (parse_member parse p).
Proof.
  intros H Hn. unfold parse_member. eapply returns_bind; [by apply skip_within|]. intros q [Hq Hl].
  eapply returns_bind; [by apply I_string|]. intros [c r|ep] Hr; [|done]. destruct Hr as [Hr Hlr].
  eapply returns_bind; [by apply skip_within|]. intros s [Hs Hls].
  eapply returns_bind; [by apply I_peek|]. intros b (t & -> & Ht). cbn [tail length] in *.
  case_bool_decide as E; [done|]. assert (It : I t) by (apply Ht; lia).
  eapply returns_bind; [by apply skip_within|]. intros u [Hu Hlu]. assert (Hun : (length u < n)%nat) by lia.
  pose proof (parse_consumes (set_valuestring None (set_string (valuestring c) c)) u Hu Hun) as P.
  destruct (parse _ u) as [[c' v|]|]; try done. destruct P as [Hi Hlv]. split; [done|lia].
Qed.

Lemma object_loop_consumes fuel item acc p : I p -> (length p < n)%nat -> (length p < fuel)%nat ->
  returns (consumes p) (object_loop parse fuel item acc p).
Proof.
  revert acc p. induction fuel as [|fuel IH]; intros acc p H Hn Hf; [lia|]. cbn [object_loop].
  eapply returns_bind; [by apply parse_member_consumes|]. intros [c r|ep] Hr; [|done]. destruct Hr as [Hr Hlr].
  eapply returns_bind; [by apply skip_within|]. intros s [Hs Hls].
  eapply returns_bind; [by apply I_peek|]. intros b (t & -> & Ht). cbn [tail length] in *.
  case_bool_decide as E; [|case_bool_decide as E'; [|done]].
  - assert (It : I t) by (apply Ht; lia). specialize (IH (acc ++ [c]) t It ltac:(lia) ltac:(lia)).
    destruct (object_loop _ _ _ _ t) as [[c' u|]|]; try done. destruct IH as [Hi Hlu]. split; [done|lia].
  - split; [apply Ht; lia|lia].
Qed.

(** The two kinds of brackets. *)
Lemma parse_array_consumes item p : I p -> (length p <= n)%nat -> returns (consumes p) (parse_array parse n item p).
Proof.
  intros H Hn. unfold parse_array. eapply returns_bind; [by apply I_peek|]. intros b (t & -> & Ht). cbn [tail length] in *.
  case_bool_decide as E; [done|]. assert (It : I t) by (apply Ht; lia).
  eapply returns_bind; [by apply skip_within|]. intros u [Hu Hlu].
  eapply returns_bind; [by apply I_peek|]. intros d (v & -> & Hv). cbn [tail length] in *. case_bool_decide.
  - split; [apply Hv; lia|cbn [length]; lia].
  - pose proof (array_loop_consumes n (set_type cJSON_Array item) [] (d :: v) Hu ltac:(cbn; lia) ltac:(cbn; lia)) as L.
    destruct (array_loop _ _ _ _ _) as [[c' w|]|]; try done. destruct L as [Hi Hlw]. split; [done|cbn [length] in *; lia].
Qed.

Lemma parse_object_consumes item p : I p -> (length p <= n)%nat -> returns (consumes p) (parse_object parse n item p).
Proof.
  intros H Hn. unfold parse_object. eapply returns_bind; [by apply I_peek|]. intros b (t & -> & Ht). cbn [tail length] in *.
  case_bool_decide as E; [done|]. assert (It : I t) by (apply Ht; lia).
  eapply returns_bind; [by apply skip_within|]. intros u [Hu Hlu].
  eapply returns_bind; [by apply I_peek|]. intros d (v & -> & Hv). cbn [tail length] in *. case_bool_decide.
  - split; [apply Hv; lia|cbn [length]; lia].
  - pose proof (object_loop_consumes n (set_type cJSON_Object item) [] (d :: v) Hu ltac:(cbn; lia) ltac:(cbn; lia)) as L.
    destruct (object_loop _ _ _ _ _) as [[c' w|]|]; try done. destruct L as [Hi Hlw]. split; [done|cbn [length] in *; lia].
Qed.
End Loops.

Lemma parse_value_consumes fuel item p : I p -> (length p < fuel)%nat -> returns (consumes p) (parse_value pow fuel item p).
Proof.
  revert item p. induction fuel as [|fuel IH]; intros item p H Hf; [lia|]. cbn [parse_value].
  change (str_bytes "null") with [110; 117; 108; 108]. change (str_bytes "false") with [102; 97; 108; 115; 101].
  change (str_bytes "true") with [116; 114; 117; 101].
  assert (Lit : forall s item' (k : outcome (answer cJSON)), Forall (fun b => b <> 0) s -> s <> [] -> returns (consumes p) k ->
    returns (consumes p) (b ← starts_with s p; if b : bool then Ret (Accepted item' (drop (length s) p)) else k)).
  { intros s item' k Hs Hn Hk. eapply returns_bind; [by apply starts_with_within|]. intros [|] Hb; [|done].
    destruct (Hb eq_refl) as [Hi Hlb]. split; [done|]. destruct s; [done|cbn [length] in *; lia]. }
  do 3 (apply Lit; [by repeat constructor|done|]).
  eapply returns_bind; [by apply I_peek|]. intros c (q & -> & Hq). case_bool_decide; [by apply I_string|].
  case_bool_decide; [by apply parse_number_consumes; [done|exists c, q]|].
  assert (P : forall item p, I p -> (length p < fuel)%nat -> returns (consumes p) (parse_value pow fuel item p)) by exact IH.
  cbn [length] in Hf. case_bool_decide; [apply parse_array_consumes; [done..|cbn [length]; lia]|].
  case_bool_decide; [apply parse_object_consumes; [done..|cbn [length]; lia]|done].
Qed.

(** A text as a whole. *)
Lemma ParseWithOpts_returns p null_terminated : I p -> returns (fun _ => True) (cJSON_ParseWithOpts pow (Some p) null_terminated).
Proof.
  intros H. unfold cJSON_ParseWithOpts. eapply returns_bind; [by apply skip_within|]. intros q [Hq Hl].
  eapply returns_bind; [apply parse_value_consumes; [done|lia]|]. intros [c r|ep] Hr; [|done]. destruct Hr as [Hr _].
  destruct null_terminated; [|done]. eapply returns_bind; [by apply skip_within|]. intros s [Hs _].
  eapply returns_bind; [by apply I_peek|]. done.
Qed.
End Pointers.

(** ** Any bytes: the parser ends *)

Definition ends {A} (P : A -> Prop) (m : outcome A) : Prop := returns (fun f => f <> OutOfFuel) P m.

Lemma peek_ends p : ends (fun _ => True) (peek p).
Proof. by destruct p. Qed.

Lemma put_ends cap data out : ends (fun _ => True) (put cap data out).
Proof. unfold put, require. by case_bool_decide. Qed.

Lemma parse_hex4_ends p : ends (fun _ => True) (parse_hex4 p).
Proof.
  unfold parse_hex4. generalize 3%nat, 0. intros k. revert p. induction k as [|k IH]; intros p h; cbn [hex_digits];
    (destruct p as [|c p]; [done|]); cbn [peek]; run; destruct (hex_digit c); [done|done|apply IH|done].
Qed.

Lemma parse_escape_ends cap p out : ends (fun r => (length r.2 <= length p)%nat) (parse_escape cap p out).
Proof.
  unfold parse_escape. destruct p as [|c p]; [done|]. cbn [peek]. run. case_bool_decide.
  - unfold parse_unicode. eapply returns_bind; [apply parse_hex4_ends|]. intros uc _. cbv zeta.
    assert (D : forall k out, ends (fun r => (length r.2 <= length (c :: p))%nat) (Ret (out, drop k (c :: p)) : outcome (list Z * ptr))).
    { intros k o. cbn [ends returns snd]. rewrite length_drop. lia. }
    case_bool_decide; [apply D|]. case_bool_decide.
    + eapply returns_bind; [apply peek_ends|]. intros d _. case_bool_decide; [apply D|].
      eapply returns_bind; [apply peek_ends|]. intros e _. case_bool_decide; [apply D|].
      eapply returns_bind; [apply parse_hex4_ends|]. intros uc2 _. rewrite drop_drop. case_bool_decide; [apply D|].
      eapply returns_bind; [apply put_ends|]. intros o _. apply D.
    + eapply returns_bind; [apply put_ends|]. intros o _. apply D.
  - eapply returns_bind; [apply put_ends|]. intros o _. cbn. lia.
Qed.

Lemma string_loop_ends fuel cap p out : (length p < fuel)%nat ->
  ends (fun r => (length r.2 <= length p)%nat) (string_loop fuel cap p out).
Proof.
  revert p out. induction fuel as [|fuel IH]; intros p out Hf; [lia|]. cbn [string_loop].
  destruct p as [|c p]; [done|]. cbn [peek tail length] in *. run. case_bool_decide; [by cbn|].
  assert (Loop : forall q o, (length q <= length p)%nat -> ends (fun r => (length r.2 <= S (length p))%nat) (string_loop fuel cap q o)).
  { intros q o Hq. specialize (IH q o ltac:(lia)). destruct (string_loop fuel cap q o); [|done]. cbn in *. lia. }
  case_bool_decide; [eapply returns_bind; [apply put_ends|]; intros o _; by apply Loop|].
  eapply returns_bind; [apply parse_escape_ends|]. intros [o q] Hq. cbn [snd] in Hq. apply Loop. destruct q; cbn in *; lia.
Qed.

Lemma string_length_ends p n : ends (fun _ => True) (string_length p n).
Proof.
  remember (length p) as k eqn:Hk. assert (Hl : (length p <= k)%nat) by lia. clear Hk. revert p n Hl.
  induction k as [|k IH]; intros [|c p] n Hl; try done; cbn [length] in Hl; [lia|]. cbn [string_length].
  case_bool_decide; [done|]. case_bool_decide; [|apply IH; lia]. destruct p; [done|]. apply IH. cbn in Hl. lia.
Qed.

Lemma parse_string_ends item p : ends (consumes (fun _ => True) p) (parse_string item p).
Proof.
  unfold parse_string. destruct p as [|c p]; [done|]. cbn [peek tail]. run. case_bool_decide; [done|].
  eapply returns_bind; [apply string_length_ends|]. intros len _. cbv zeta.
  eapply returns_bind; [apply string_loop_ends; cbn; lia|]. intros [o q] Hq. cbn [snd] in Hq.
  eapply returns_bind with (P := fun _ => True); [unfold put_str, require; by case_bool_decide|]. intros o' _.
  destruct q as [|d q]; [done|]. cbn [peek tail]. run. cbn [ends returns consumes]. split; [done|].
  case_bool_decide; cbn [length] in *; lia.
Qed.

(** C20: the parser ends on every block of bytes, whatever is in it: it returns an
    item or the place of an error, runs into the end of the block, or meets a
    number that no [int] can hold. The fuel, one more than the length of the
    block, is never used up. *)
Theorem parser_ends pow value null_terminated f :
  cJSON_ParseWithOpts pow value null_terminated = Fault f -> f <> OutOfFuel.
Proof.
  intros E. destruct value as [p|]; [|done].
  pose proof (ParseWithOpts_returns pow (fun _ => True) (fun f => f <> OutOfFuel)) as R.
  specialize (R ltac:(intros [|c q] _; [done|by exists q]) ltac:(done) ltac:(intros; apply parse_string_ends) p null_terminated Logic.I).
  by rewrite E in R.
Qed.

(** A text without a terminating zero. *)
Lemma parser_ends_witness :
  cJSON_ParseWithOpts (fun _ _ => of_int 1) (Some (str_bytes "[[1,")) false = Fault OutOfBounds /\ OutOfBounds <> OutOfFuel.
Proof.
  assert (E : cJSON_ParseWithOpts (fun _ _ => of_int 1) (Some (str_bytes "[[1,")) false = Fault OutOfBounds) by reflexivity.
  split; [exact E|]. exact (parser_ends _ _ _ _ E).
Defined.

(** ** Whole escapes: the parser stays inside the text *)

(** Four hexadecimal digits. *)
Definition is_hex (c : Z) : bool := match hex_digit c with Some _ => true | None => false end.
Definition hex4 (p : ptr) : bool :=
  match p with a :: b :: c :: d :: _ => is_hex a && is_hex b && is_hex c && is_hex d | _ => false end.

(** Behind every backslash there is a byte of the text, and behind [\u] there
    are four hexadecimal digits. *)
Fixpoint whole (p : ptr) : bool :=
  match p with
  | [] => true
  | c :: q =>
      (if bool_decide (c = 92) then
         match q with [] => false | d :: r => bool_decide (d <> 0) && (if bool_decide (d = 117) then hex4 r else true) end
       else true) && whole q
  end.

(** A string of C that fills its block. *)
Definition text_block (p : ptr) : Prop := exists s, p = s ++ [0] /\ Forall (fun b => b <> 0) s /\ whole p = true.

Lemma text_block_cons c q : text_block (c :: q) -> c = 0 /\ q = [] \/ c <> 0 /\ text_block q.
Proof.
  intros (s & E & Hs & Hw). destruct s as [|b s]; [left; by injection E|]. injection E as <- ->. apply Forall_cons in Hs as [Hb Hs].
  right. split; [done|]. exists s. cbn [app whole] in Hw. apply andb_true_iff in Hw as [_ Hw]. done.
Qed.

Lemma text_block_peek p : text_block p -> exists c q, p = c :: q /\ (c <> 0 -> text_block q).
Proof.
  intros H. destruct p as [|c q]; [destruct H as ([|] & [=] & _)|]. exists c, q. split; [done|]. intros Hc.
  by destruct (text_block_cons c q H) as [[-> _]|[_ Hq]].
Qed.

Lemma text_block_escape q : text_block (92 :: q) ->
  exists d r, q = d :: r /\ d <> 0 /\ text_block (d :: r) /\ text_block r /\ (d = 117 -> hex4 r = true).
Proof.
  intros H. destruct (text_block_cons _ _ H) as [[? _]|[_ Hq]]; [done|]. destruct H as (s & _ & _ & Hw).
  destruct (text_block_peek q Hq) as (d & r & -> & Hr). exists d, r. cbn [whole] in Hw.
  change (bool_decide (92 = 92)) with true in Hw. cbv iota in Hw. apply andb_true_iff in Hw as [[Hd Hh]%andb_true_iff _].
  apply bool_decide_eq_true_1 in Hd. split_and!; try done; [by apply Hr|]. intros ->. by rewrite bool_decide_eq_true_2 in Hh.
Qed.

Lemma is_hex_char c : is_hex c = true -> exists v, hex_digit c = Some v /\ 0 <= v < 16 /\ c <> 34 /\ c <> 92 /\ c <> 0.
Proof.
  unfold is_hex, hex_digit. repeat case_bool_decide; intros; try done; eexists; (split; [done|lia]).
Qed.

(** The digits of an escape in the two passes. *)
Lemma hex4_passes r : text_block r -> hex4 r = true ->
  exists v d q, parse_hex4 r = Ret v /\ 0 <= v < 65536 /\ drop 3 r = d :: q /\ text_block q /\ (length q < length r)%nat /\
    forall n, string_length r n = string_length q (n + 4).
Proof.
  intros Ht H. destruct r as [|a [|b [|c [|d q]]]]; try done. cbn [hex4] in H. rewrite !andb_true_iff in H.
  destruct H as (((Ha & Hb) & Hc) & Hd). apply is_hex_char in Ha as (va & Ea & Hva & Ha), Hb as (vb & Eb & Hvb & Hb).
  apply is_hex_char in Hc as (vc & Ec & Hvc & Hc), Hd as (vd & Ed & Hvd & Hd).
  exists (((va * 16 + vb) * 16 + vc) * 16 + vd), d, q. split_and!; try lia; try done.
  - unfold parse_hex4. cbn [hex_digits peek tail]. run. rewrite Ea. cbn [peek tail]. run. rewrite Eb. cbn [peek tail]. run.
    rewrite Ec. cbn [peek tail]. run. rewrite Ed. rewrite !Z.shiftl_mul_pow2 by lia. done.
  - do 4 (apply text_block_cons in Ht as [[? _]|[_ Ht]]; [lia|]). done.
  - cbn [length]. lia.
  - intros n. cbn [string_length].
    rewrite !(bool_decide_eq_false_2 (_ \/ _)), !bool_decide_eq_false_2 by lia. f_equal. lia.
Qed.

Lemma utf8_length uc : (length (utf8 uc) <= if bool_decide (uc < 0x10000)%Z then 3 else 4)%nat.
Proof.
  assert (L : forall k mark uc, length (utf8_bytes k mark uc) = S k).
  { intros k mark. induction k as [|k IH]; intros c; cbn [utf8_bytes length]; [done|]. rewrite length_app, IH. cbn. lia. }
  unfold utf8. rewrite L. repeat case_bool_decide; lia.
Qed.

(** [\u] in the two passes: at most as many bytes as were counted. *)
Lemma unicode_passes r : text_block r -> hex4 r = true ->
  exists k s d q, (forall n, string_length r n = string_length q (n + k)) /\ Z.of_nat (length s) <= k /\
    text_block q /\ (length q < length r)%nat /\
    forall cap out, Z.of_nat (length out) + k <= cap -> parse_unicode cap (117 :: r) out = Ret (out ++ s, d :: q).
Proof.
  intros Ht Hh. destruct (hex4_passes r Ht Hh) as (uc & d & q & Hp & Huc & Hd & Hq & Hl & Hn).
  unfold parse_unicode. cbn [tail]. change (drop 4 (117 :: r)) with (drop 3 r). rewrite Hd.
  assert (None_ : forall out, Ret (out, d :: q) = Ret (out ++ [], d :: q) :> outcome (list Z * ptr)) by (intros; by rewrite app_nil_r).
  destruct (decide (0xDC00 <= uc <= 0xDFFF \/ uc = 0)) as [H1|H1].
  { exists 4, [], d, q. split_and!; try done. intros cap out _. rewrite Hp. run. rewrite bool_decide_eq_true_2 by done. by apply None_. }
  destruct (decide (0xD800 <= uc <= 0xDBFF)) as [H2|H2].
  2: { exists 4, (utf8 uc), d, q. split_and!; try done.
       - pose proof (utf8_length uc) as U. rewrite bool_decide_eq_true_2 in U by lia. lia.
       - intros cap out Hr. rewrite Hp. run. rewrite !bool_decide_eq_false_2 by lia. pose proof (utf8_length uc) as U.
         rewrite bool_decide_eq_true_2 in U by lia. by put_step. }
  destruct (text_block_peek q Hq) as (e & q1 & Eq & Hq1).
  destruct (decide (e = 92)) as [He|He].
  2: { exists 4, [], d, q. split_and!; try done. intros cap out _. rewrite Hp. run.
       rewrite bool_decide_eq_false_2, bool_decide_eq_true_2 by lia. cbn [drop]. rewrite drop_0, Eq. cbn [peek]. run.
       rewrite bool_decide_eq_true_2 by done. rewrite <- Eq. by apply None_. }
  subst e q. destruct (text_block_escape q1 Hq) as (f & q2 & -> & Hf & _ & Hq2 & Hf4).
  destruct (decide (f = 117)) as [Hfu|Hfu].
  2: { exists 4, [], d, (92 :: f :: q2). split_and!; try done. intros cap out _. rewrite Hp. run.
       rewrite bool_decide_eq_false_2, bool_decide_eq_true_2 by lia. cbn [drop]. rewrite ?drop_0. cbn [peek]. run.
       rewrite bool_decide_eq_false_2 by tauto. run. rewrite bool_decide_eq_true_2 by done. by apply None_. }
  subst f. destruct (hex4_passes q2 Hq2 (Hf4 eq_refl)) as (uc2 & d2 & q3 & Hp2 & Huc2 & Hd2 & Hq3 & Hl3 & Hn3).
  assert (Hn' : forall n, string_length r n = string_length q3 (n + 9)).
  { intros n. rewrite Hn. cbn [string_length]. change (bool_decide (92 = 34 \/ 92 = 0)) with false.
    change (bool_decide (92 = 92)) with true. cbv iota. rewrite Hn3. f_equal. lia. }
  assert (Hl' : (length q3 < length r)%nat) by (cbn [length] in *; lia).
  set (pair := if decide (uc2 < 0xDC00 \/ uc2 > 0xDFFF) then []
               else utf8 (0x10000 + Z.lor (Z.shiftl (Z.land uc 0x3FF) 10) (Z.land uc2 0x3FF))).
  assert (Hs : (length pair <= 4)%nat).
  { unfold pair. destruct (decide _); [cbn; lia|]. match goal with |- (length (utf8 ?c) <= _)%nat => pose proof (utf8_length c) as U end.
    destruct (bool_decide _); lia. }
  exists 9, pair, d2, q3. split_and!; try done; [lia|]. intros cap out Hr. rewrite Hp. run.
  rewrite (bool_decide_eq_false_2 (_ \/ uc = 0)), (bool_decide_eq_true_2 (0xD800 <= uc <= 0xDBFF)) by lia. cbn [drop]. rewrite ?drop_0. cbn [peek]. run.
  rewrite (bool_decide_eq_false_2 (92 <> 92)) by tauto. run. rewrite (bool_decide_eq_false_2 (117 <> 117)) by tauto.
  rewrite Hp2. run. change (drop 6 (d :: 92 :: 117 :: q2)) with (drop 3 q2). rewrite Hd2. unfold pair in *.
  destruct (decide (uc2 < 0xDC00 \/ uc2 > 0xDFFF)).
  - rewrite bool_decide_eq_true_2 by done. by rewrite app_nil_r.
  - rewrite bool_decide_eq_false_2 by done. by put_step.
Qed.

(** The two passes over a string: what the second one writes is no more than the
    first one counted. *)
Lemma passes p : text_block p ->
  exists k s q, (forall n, string_length p n = Ret (n + k)) /\ Z.of_nat (length s) <= k /\
    text_block q /\ (length q <= length p)%nat /\
    forall fuel cap out, (length p < fuel)%nat -> Z.of_nat (length out) + k <= cap ->
      string_loop fuel cap p out = Ret (out ++ s, q).
Proof.
  remember (length p) as m eqn:Hm. revert p Hm. induction m as [m IH] using lt_wf_ind. intros p -> Ht.
  destruct (text_block_peek p Ht) as (c & p' & -> & Hp').
  destruct (decide (c = 34 \/ c = 0)) as [Hc|Hc].
  { exists 0, [], (c :: p'). split_and!; try done.
    - intros n. cbn [string_length]. rewrite bool_decide_eq_true_2 by done. f_equal. lia.
    - intros [|fuel] cap out Hf _; [lia|]. cbn [string_loop peek]. run. rewrite bool_decide_eq_true_2 by done.
      by rewrite app_nil_r. }
  assert (Hp : text_block p') by (apply Hp'; lia).
  (* the rest of the string behind a part of [k0] counted bytes, of which [s0] are written *)
  assert (Go : forall k0 s0 r, (forall n, string_length (c :: p') n = string_length r (n + k0)) ->
    Z.of_nat (length s0) <= k0 -> text_block r -> (length r < length (c :: p'))%nat ->
    (forall fuel cap out, Z.of_nat (length out) + k0 <= cap ->
       string_loop (S fuel) cap (c :: p') out = string_loop fuel cap r (out ++ s0)) ->
    exists k s q, (forall n, string_length (c :: p') n = Ret (n + k)) /\ Z.of_nat (length s) <= k /\
      text_block q /\ (length q <= length (c :: p'))%nat /\
      forall fuel cap out, (length (c :: p') < fuel)%nat -> Z.of_nat (length out) + k <= cap ->
        string_loop fuel cap (c :: p') out = Ret (out ++ s, q)).
  { intros k0 s0 r Hl Hs Hr Hlr Hloop. destruct (IH (length r) Hlr r eq_refl Hr) as (k & s & q & H1 & H2 & H3 & H4 & H5).
    exists (k0 + k), (s0 ++ s), q. split_and!; try done; [|rewrite length_app; lia|lia|].
    - intros n. rewrite Hl, H1. f_equal. lia.
    - intros [|fuel] cap out Hf Hcap; [lia|]. rewrite Hloop by lia. rewrite H5 by (rewrite ?length_app; cbn [length] in *; lia).
      by rewrite app_assoc. }
  clear IH. destruct (decide (c = 92)) as [->|Hc92].
  2: { apply (Go 1 [c] p'); [|done|done|cbn; lia|].
       - intros n. cbn [string_length]. by rewrite !bool_decide_eq_false_2 by lia.
       - intros fuel cap out Hr. cbn [string_loop peek tail]. run. rewrite bool_decide_eq_false_2, bool_decide_eq_true_2 by lia.
         by put_step. }
  destruct (text_block_escape p' Ht) as (d & r & -> & Hd & _ & Hr & Hx).
  assert (Step : forall fuel cap out, string_loop (S fuel) cap (92 :: d :: r) out =
    ('(out, p) ← parse_escape cap (d :: r) out; string_loop fuel cap (tail p) out)) by done.
  destruct (decide (d = 117)) as [->|Hd117].
  - destruct (unicode_passes r Hr (Hx eq_refl)) as (k & s & e & q & H1 & H2 & H3 & H4 & H5).
    apply (Go (1 + k) s q); [|lia|done|cbn [length]; lia|].
    + intros n. change (string_length (92 :: 117 :: r) n) with (string_length r (n + 1)). rewrite H1. f_equal. lia.
    + intros fuel cap out Hcap. rewrite Step. unfold parse_escape. cbn [peek]. run. change (bool_decide (117 = 117)) with true.
      cbv iota. rewrite H5 by lia. run. done.
  - set (b := if bool_decide (d = 98) then 8 else if bool_decide (d = 102) then 12 else if bool_decide (d = 110) then 10
              else if bool_decide (d = 114) then 13 else if bool_decide (d = 116) then 9 else d).
    apply (Go 1 [b] r); [done|done|done|cbn [length]; lia|]. intros fuel cap out Hcap. rewrite Step. unfold parse_escape.
    cbn [peek]. run. rewrite (bool_decide_eq_false_2 (d = 117)) by done. cbv zeta. fold b. by put_step.
Qed.

Lemma parse_string_whole item p : text_block p ->
  returns (fun f => f = SignedOverflow) (consumes text_block p) (parse_string item p).
Proof.
  intros H. destruct (text_block_peek p H) as (c & q & -> & Hq). unfold parse_string. cbn [peek tail]. run.
  case_bool_decide as Hc; [done|]. assert (Tq : text_block q) by (apply Hq; lia).
  destruct (passes q Tq) as (k & s & r & H1 & H2 & H3 & H4 & H5). rewrite H1. run.
  rewrite H5 by (cbn [length]; lia). run. cbn [app]. put_step.
  destruct (text_block_peek r H3) as (d & t & -> & Ht). cbn [peek tail]. run. cbn [returns consumes].
  case_bool_decide as Hd; (split; [|cbn [length] in *; lia]); [apply Ht; lia|done].
Qed.

(** C19: on a text that fills its block and whose escapes are whole - a byte behind
    every backslash, four hexadecimal digits behind every [\u] - the parser reads and
    writes nothing outside its blocks: it returns an item or the place of an
    error. The one thing that can go wrong is a number beyond the range of
    [int]. *)
Theorem parser_in_bounds pow s null_terminated :
  Forall (fun b => b <> 0) s -> whole (s ++ [0]) = true ->
  match cJSON_ParseWithOpts pow (Some (s ++ [0])) null_terminated with Ret _ => True | Fault f => f = SignedOverflow end.
Proof.
  intros Hs Hw. pose proof (ParseWithOpts_returns pow text_block (fun f => f = SignedOverflow)) as R.
  specialize (R ltac:(intros p Hp; destruct (text_block_peek p Hp) as (c & q & -> & Hq); by exists q) eq_refl).
  apply R; [intros; by apply parse_string_whole|]. by exists s.
Qed.

(** A text that the parser refuses, with an escape for a pair of surrogates. *)
Lemma parser_in_bounds_witness :
  let s := 91 :: 34 :: 92 :: str_bytes "ud83d" ++ 92 :: str_bytes "ude00" ++ 34 :: str_bytes ",1e9 x" in
  whole (s ++ [0]) = true /\
  match cJSON_ParseWithOpts (fun _ _ => of_int 7) (Some (s ++ [0])) true with Ret _ => True | Fault f => f = SignedOverflow end.
Proof.
  intros s. assert (W : whole (s ++ [0]) = true) by (vm_compute; reflexivity). split; [exact W|].
  apply parser_in_bounds; [|exact W]. apply (bool_decide_eq_true_1 _). vm_compute. reflexivity.
Defined.

(** C21: an escape that is cut off by the closing quote is counted as two bytes
    and then skipped as six, so the second pass runs over the quote and writes
    what follows the string behind the end of its block. *)
Theorem cut_escape_overruns pow rest after null_terminated :
  Forall (fun b => b <> 0 /\ b <> 34 /\ b <> 92) rest -> (6 <= length rest)%nat ->
  cJSON_ParseWithOpts pow (Some (34 :: 92 :: 117 :: 34 :: rest ++ 34 :: after)) null_terminated = Fault OutOfBounds.
Proof.
  intros Hr Hl. unfold cJSON_ParseWithOpts. cbn [skip]. rewrite bool_decide_eq_false_2 by lia. run.
  assert (E : forall fuel out q, Forall (fun b => b <> 0 /\ b <> 34 /\ b <> 92) q -> (length q < fuel)%nat ->
    Z.of_nat (length out) <= 2 -> 2 < Z.of_nat (length out) + Z.of_nat (length q) ->
    string_loop fuel 2 (q ++ 34 :: after) out = Fault OutOfBounds).
  { intros fuel out q Hq. revert fuel out. induction Hq as [|b q Hb Hq IH]; intros fuel out Hf Ho Hn; [cbn in Hn; lia|].
    destruct fuel as [|fuel]; [cbn in Hf; lia|]. cbn [app string_loop peek tail]. run.
    rewrite bool_decide_eq_false_2, bool_decide_eq_true_2 by lia. unfold put, require. case_bool_decide as P; [|done]. run.
    cbn [length] in *. apply IH; rewrite ?length_app; cbn [length]; lia. }
  cbn [parse_value]. change (str_bytes "null") with [110; 117; 108; 108]. change (str_bytes "false") with [102; 97; 108; 115; 101].
  change (str_bytes "true") with [116; 114; 117; 101]. cbn [starts_with peek]. run.
  rewrite (bool_decide_eq_false_2 (34 = 110)), (bool_decide_eq_false_2 (34 = 102)), (bool_decide_eq_false_2 (34 = 116)) by lia. run. rewrite bool_decide_eq_true_2 by done.
  unfold parse_string. cbn [peek tail]. run. rewrite (bool_decide_eq_false_2 (34 <> 34)) by tauto.
  change (string_length (92 :: 117 :: 34 :: ?q) 0) with (Ret 1 : outcome Z). run. change (1 + 1) with 2.
  destruct rest as [|r1 [|r2 [|r3 rest]]]; try (cbn in Hl; lia). do 3 (apply Forall_cons in Hr as [_ Hr]).
  cbn [app length].
  change (string_loop (S ?f) 2 (92 :: 117 :: 34 :: r1 :: r2 :: r3 :: ?q) []) with (string_loop f 2 q []).
  rewrite E; [done|done|rewrite length_app; cbn [length]; lia|cbn; lia|cbn in *; lia].
Qed.

Lemma cut_escape_overruns_witness :
  cJSON_ParseWithOpts (fun _ _ => of_int 1) (Some (34 :: 92 :: 117 :: 34 :: str_bytes "abcdef" ++ [34; 0])) false = Fault OutOfBounds.
Proof.
  apply (cut_escape_overruns _ (str_bytes "abcdef") [0]); [|vm_compute; lia]. apply (bool_decide_eq_true_1 _). vm_compute. reflexivity.
Defined.
